(* ===== verification/_CoqProject ===== *)
-Q . S2P
Prelude.v
PyText.v
SemVer.v
Json.v
JsonText.v
Base64.v
Url.v
Validate.v
Registry.v
Catalogue.v
ArtifactStore.v
AuthDb.v
AuthService.v
Mfa.v
Passkey.v
OAuth.v
Account.v
Guards.v
OAuthFlow.v
RateLimit.v
StoreProtocol.v
RegistryDb.v
RegistryImport.v
RegistryApi.v
Candidate.v
Promotion.v
Reviewed.v
RegistryPromote.v
Build.v
Releases.v
Publishing.v
LegacyPromotion.v
Retention.v
AuthConfig.v
AuthRuntime.v
Builder.v
RegistryHistory.v
AuthApi.v
AccountApi.v
Application.v
ApplicationChanges.v
