(* ===== verification/Prelude.v ===== *)
(** * Verification of the Open City Planner package hub

    The repository is the hub for the packages ("modules") of the Open City
    Planner.  A builder turns a tag of an allowlisted repository into a
    candidate (scripts/ocp_builder.py), people review it on GitHub
    (scripts/reviewed_candidate.py), and a promotion publishes it: its bytes go
    into an append-only store (scripts/artifact_store.py) and its release into
    the registry, which is a directory of JSON documents (scripts/registry.py)
    and a PostgreSQL database (web/backend/app/db).  A web backend serves the
    registry and keeps accounts, sessions, second factors, passkeys and external
    logins in a second database.  This library models those parts as executable
    Rocq definitions, file by file and function by function with the names of
    the source, and proves what makes them correct.

    ** Files

    Foundations
    - [Prelude] (this file): results of fallible calls ([res], [let?], [;?]),
      loops that may raise or end early ([passes]), stable sorting with a key,
      keyed lists, comparisons of tuples and sequences, the tactics [py_inv] and
      [py_case].
    - [PyText]: str methods, UTF-8 and regular expressions.  [fullmatch] is a
      matcher by derivatives, proved equal to the language of the expression.
    - [SemVer]: the identifier grammars, the groups of SEMVER_RE, [semver_key]
      and Python's comparison of the keys it returns.
    - [Json]: decoded values with Python's equality, the strict decoder with the
      duplicate-key hook, canonical_json.  [JsonText]: the decoder never runs
      out of fuel and reads back what canonical_json prints.
    - [Base64], [Url]: base64 and urllib.parse.

    The registry of documents
    - [Validate]: every validator of scripts/registry.py, down to the policy of
      artifact URLs.
    - [Registry]: typed modules and releases, load_registry, build_index,
      canonical_module, validate_immutability.
    - [Catalogue]: the file-based read API (web/backend/app/repository.py,
      main.py).
    - [Build]: the deployment directory (scripts/build_registry.py) as a sequence
      of steps that may fail, and its comparison with the database
      (registry_verify_v1.py).
    - [Releases]: what a change adds, its bounded download and the pinned host
      (scripts/verify_artifacts.py, validate_registry.py).

    Bytes and candidates
    - [ArtifactStore]: FilesystemArtifactStore over a table of inodes and its
      system calls; [StoreProtocol]: the protocol class as the interface
      [StoreOps] with the laws [StoreSpec], its instance, and an abstract store.
    - [Publishing]: all releases into the store (scripts/publish_artifacts.py).
    - [LegacyPromotion]: the older promotion into the directory of documents
      (scripts/promote_candidate.py).
    - [Builder]: the builder of record over an abstract [Machine]; [Candidate]:
      registry_candidate.py; [Reviewed]: approval on GitHub and extraction.

    The registry database
    - [RegistryDb]: tables, constraints, the guard of the ORM session and the
      repository (db/models.py, db/repository.py); [RegistryImport]: the import
      of the documents; [Promotion]: registry_promotion.py over [StoreOps];
      [RegistryPromote]: its command line; [RegistryHistory]: imports and
      promotions over time; [RegistryApi]: the v1 and v2 read APIs;
      [Application]: the application that main.py composes from them and the
      catalogue, with its switches, handlers and middleware.

    Accounts
    - [AuthDb]: the tables of auth/models, SQL statements on lists of rows, and
      the monad [W] of a request: a working and a committed database, commit,
      rollback, random values, mails and cookies.
    - [AuthService], [Mfa], [Passkey], [OAuth], [OAuthFlow], [Account],
      [RateLimit]: the services of auth/services and auth/oauth.py.
    - [Guards]: what an endpoint checks first (auth/csrf.py,
      auth/dependencies.py, auth/recent_auth.py).
    - [AuthApi], [AccountApi]: the routes of auth/api.py, auth/users_api.py and
      auth/oauth_api.py.

    The deployment
    - [ApplicationChanges]: which pushes deploy (scripts/application_changes.py).
    - [AuthConfig]: the checks of the settings, the database URL and the
      preflight (auth/config.py, auth/db_config.py, auth/preflight.py).
    - [AuthRuntime]: the hand-over of the secrets (auth_runtime.py,
      build-github-auth-vars.py).
    - [Retention]: the maintenance lock, with the supervisor and the pruning as
      programs of system calls that a step relation interleaves over the open
      file descriptions of a kernel, and the pruning of releases on a file tree
      that others may change (maintenance_lock.py, prune_releases.py).

    ** How code becomes definitions

    A function that raises returns [res exn A]; the order of the checks and the
    message or error code are those of the code.  Code with effects is a state
    monad that keeps the state at an exception: the file system in
    [ArtifactStore] and [Build], the databases of the request in [AuthDb], a
    registry transaction in [RegistryDb], an abstract machine in [Builder].  A
    SQL statement is a function on the list of rows of its table ([first] for a
    scalar select, [update_where], [delete_where], [insert]); an ORM object is
    its row, and an assignment to it an update of the row with its key.
    [commit] fails when a primary key or unique constraint of the models is
    violated, or when the environment says that a concurrent transaction got
    there first ([conflict]).  Requests are otherwise serial, as the row and
    advisory locks of the code make them.  Times are integers in microseconds.

    Code outside the repository is a parameter: PyJWT, pwdlib, Fernet, pyotp,
    WebAuthn, SHA-256 and HMAC are the fields of [AuthDb.libs]; the JSON Schema
    validator is [schema_valid]; the parsers of YAML, TOML and ZIP, packaging's
    versions, git, GitHub, the network ([Releases.network]), the command line of
    the host and SQLAlchemy's URLs are arguments where they are used; random
    values come from [AuthDb.env]; other processes act on the file system
    through [env] of [ArtifactStore].  What the theorems assume of them is
    written in the theorems or their sections: that other processes keep the
    rules of the store, that random family identifiers are new, that a signature
    counter is not negative, that SHA-256 prints 64 digits, that the commands
    which only ask git for its history (ls-remote, fetch, ls-tree, show) leave
    the bundles of a build alone.

    ** What the theorems show

    - Registry: the order of versions is that of SemVer 2.0; a document that
      validates is a well-formed module; the artifact URL policy; the
      immutability gate is exact, and along any sequence of accepted registries
      what is published stays; the index names the highest release of a
      channel.  With the artifact check, every release is unchanged or was
      downloaded with its digest and accepted by the pinned host.  The
      deployment directory is replaced as a whole, and a verified directory is
      what the v1 API serves.
    - Store: publication is append-only under any failure and any interleaving
      with other publishers, and refines an abstract store; a bulk publication
      stores every release or says where it stopped; downloads are bounded.
    - From build to publication: what the builder emits validates and packs into
      the archive the review accepts, a version is built once; extraction gives
      exactly the approved bytes; the promotion command publishes only what a
      person merged, into the named database; a blocked legacy promotion leaves
      nothing but a plan with its reason.
    - Registry database: imports and promotions never change what is published
      and keep the bytes of every promoted version; the import reproduces the
      documents byte by byte; the listings of the read API; the JSON API does
      not depend on the database API or its database.
    - Sessions: at most one live session in a token family, rotation, detection
      of reuse, reset of a password; whatever the router serves, a new session
      belongs to a user this request authenticated.
    - Factors and passkeys: TOTP counters, ceremonies and recovery codes are used
      once; the last method stays.
    - Accounts: no takeover through an external identity or a callback, an active
      superuser at all times, erasure of a deleted account.
    - Limits: with the counters in memory, how often a request gets through and
      when it does again; with either backend, that a refused one changes
      nothing.
    - Deployment: what settings production accepts and what a passing preflight
      means, above all that the role of the accounts cannot write the registry;
      quoted secrets read back; the lock is exclusive and outlives its
      supervisor; pruning removes only unprotected releases and keeps the newest.

    ** Bounds

    The functions are total.  Fuel appears in the decoder of [Json] (the length
    of the text, proved enough in [JsonText.json_loads_terminates]), in the
    digits of a numeral (its binary length bounds its decimal one) and in the
    copy loop of a download ([Prelude.passes] with [max_bytes + 2] passes,
    proved enough in [Releases.download_sound]).  Redirects recurse on the
    number that is left.  [Retention] follows at most 40 symbolic links, the
    limit of Linux; a longer chain, which Path.resolve alone would still follow,
    is an error there.

    ** Not modelled

    Characters beyond U+00FF; numbers with a fraction or an exponent in JSON (the
    decoder of the model refuses a text that has one, where the code takes 1.0
    for 1 in its comparisons); the text of
    e-mails, log lines and the metadata of audit rows; routing and response
    models of FastAPI; the columns that SQLAlchemy fills at an update; client_ip
    and the Redis script; the assembly of the frontend package by the builder
    (pnpm, copies of trees, a tar archive); temporary directories of the
    publication scripts and of the builder of secrets; the comparison tools
    compare_ocp.py and check_cross_run.py and the other entry points that only
    parse arguments and print; connection pools, middleware and logging; the
    migrations, which are generated DDL; the frontend, which is not Python. *)

From Stdlib Require Export ZArith Lia Bool Permutation Sorted Ascii.
From stdpp Require Export base numbers option list list_numbers strings gmap.

Declare Scope py_scope.
Delimit Scope py_scope with py.

(** ** Results: a Python call that returns or raises *)

Inductive res (E A : Type) : Type :=
| Ok (a : A)
| Err (e : E).
Arguments Ok {E A} _.
Arguments Err {E A} _.

Definition res_bind {E A B} (m : res E A) (k : A -> res E B) : res E B :=
  match m with Ok a => k a | Err e => Err e end.

(** [raise_if c e] is the statement [if c: raise e]. *)
Definition raise_if {E} (c : bool) (e : E) : res E unit :=
  if c then Err e else Ok tt.

Definition is_ok {E A} (m : res E A) : bool :=
  match m with Ok _ => true | Err _ => false end.

Definition of_option {E A} (e : E) (o : option A) : res E A :=
  match o with Some a => Ok a | None => Err e end.

Notation "'let?' x ':=' m 'in' k" := (res_bind m (fun x => k))
  (at level 10, x pattern, m at level 100, k at level 200) : py_scope.
Notation "m ';?' k" := (res_bind m (fun _ => k))
  (at level 100, k at level 200, right associativity) : py_scope.

Open Scope py_scope.

(** [for x in l: f(x)] for a body that only may raise. *)
Fixpoint each {E A} (f : A -> res E unit) (l : list A) : res E unit :=
  match l with
  | [] => Ok tt
  | x :: l => f x ;? each f l
  end.

(** [[f(x) for x in l]] for a body that may raise. *)
Fixpoint traverse {E A B} (f : A -> res E B) (l : list A) : res E (list B) :=
  match l with
  | [] => Ok []
  | x :: l => let? y := f x in let? ys := traverse f l in Ok (y :: ys)
  end.

(** [any(f(x) for x in l)] *)
Fixpoint exists_ok {E A} (f : A -> res E bool) (l : list A) : res E bool :=
  match l with
  | [] => Ok false
  | x :: l => res_bind (f x) (fun b => if b then Ok true else exists_ok f l)
  end.

(** ** Automation *)

Create HintDb pysem.

(** Splits a hypothesis that a result computation succeeded into the success
    of each of its steps. *)
Lemma res_bind_Ok {E A B} (m : res E A) (k : A -> res E B) b :
  res_bind m k = Ok b <-> exists a, m = Ok a /\ k a = Ok b.
Proof.
  destruct m; simpl; split.
  - by eauto.
  - by intros (? & [= ->] & ?).
  - discriminate.
  - by intros (? & ? & ?).
Qed.

Lemma seq_Ok {E A} (m : res E unit) (k : res E A) a : (m ;? k) = Ok a <-> m = Ok tt /\ k = Ok a.
Proof. rewrite res_bind_Ok. split; [intros ([] & ? & ?); done | intros [-> ?]; by exists tt]. Qed.

Lemma raise_if_Ok {E} c (e : E) u : raise_if c e = Ok u <-> c = false.
Proof. destruct c, u; simpl; done. Qed.

Lemma raise_if_Err {E} c (e e' : E) : raise_if c e = Err e' <-> c = true /\ e = e'.
Proof. destruct c; simpl; split; [by intros [= ->] | by intros [_ ->] | done | by intros []]. Qed.

Lemma of_option_Ok {E A} (e : E) (o : option A) a : of_option e o = Ok a <-> o = Some a.
Proof. destruct o; simpl; split; congruence. Qed.

Lemma is_ok_iff {E A} (m : res E A) : is_ok m = true <-> exists a, m = Ok a.
Proof. destruct m; simpl; split; [by eauto | done | done | by intros []]. Qed.

Ltac py_inv :=
  repeat match goal with
  | H : res_bind _ _ = Ok _ |- _ => apply res_bind_Ok in H; destruct H as (? & ? & ?)
  | H : raise_if _ _ = Ok _ |- _ => apply raise_if_Ok in H
  | H : of_option _ _ = Ok _ |- _ => apply of_option_Ok in H
  | H : Ok _ = Ok _ |- _ => injection H as H; try subst
  | H : Err _ = Ok _ |- _ => discriminate H
  | H : Ok _ = Err _ |- _ => discriminate H
  | H : orb _ _ = false |- _ => apply orb_false_iff in H; destruct H
  | H : andb _ _ = true |- _ => apply andb_true_iff in H; destruct H
  | H : negb _ = false |- _ => apply negb_false_iff in H
  | H : negb _ = true |- _ => apply negb_true_iff in H
  | H : bool_decide _ = true |- _ => apply bool_decide_eq_true_1 in H
  | H : bool_decide _ = false |- _ => apply bool_decide_eq_false_1 in H
  | u : unit |- _ => destruct u
  end.

(** Case analysis on the first [match] or [if] of hypothesis or goal. *)
Ltac py_case :=
  match goal with
  | H : context [match ?x with _ => _ end] |- _ =>
      lazymatch type of H with _ = _ => destruct x eqn:? end
  | |- context [match ?x with _ => _ end] => destruct x eqn:?
  end.

Lemma each_Ok {E A} (f : A -> res E unit) l :
  each f l = Ok tt <-> Forall (fun x => f x = Ok tt) l.
Proof.
  induction l as [|x l IH]; simpl.
  - split; [constructor | done].
  - rewrite res_bind_Ok, Forall_cons. split.
    + intros ([] & Hx & Hl). split; [done | by apply IH].
    + intros [Hx Hl]. exists tt. split; [done | by apply IH].
Qed.

Lemma traverse_Ok {E A B} (f : A -> res E B) l ys :
  traverse f l = Ok ys <-> Forall2 (fun x y => f x = Ok y) l ys.
Proof.
  revert ys. induction l as [|x l IH]; intros ys; simpl.
  - split; [intros H; py_inv; constructor | intros H; by inversion H].
  - split.
    + intros H. py_inv. constructor; [done | by apply IH].
    + intros H. inversion H as [|? y ? ys' Hx Hl]; subst. rewrite Hx. simpl.
      apply IH in Hl. by rewrite Hl.
Qed.

Lemma exists_ok_true {E A} (f : A -> res E bool) l :
  exists_ok f l = Ok true <-> exists l1 x l2, l = l1 ++ x :: l2 /\ f x = Ok true /\ Forall (fun y => f y = Ok false) l1.
Proof.
  induction l as [|y l IH]; simpl.
  - split; [done|]. intros ([|] & ? & ? & ? & _); done.
  - rewrite res_bind_Ok. split.
    + intros ([] & Hy & H); [by exists [], y, l|]. apply IH in H as (l1 & x & l2 & -> & Hx & Hl).
      exists (y :: l1), x, l2. split_and!; [done | done | by constructor].
    + intros ([|z l1] & x & l2 & [= -> ->] & Hx & Hl); [by exists true|]. apply Forall_cons in Hl as [Hz Hl].
      exists false. split; [done|]. apply IH. by exists l1, x, l2.
Qed.

Lemma traverse_total {E A B} (f : A -> res E B) l :
  Forall (fun x => exists y, f x = Ok y) l -> exists ys, traverse f l = Ok ys.
Proof.
  induction 1 as [|x l [y Hy] _ [ys IH]]; [by exists []|]. exists (y :: ys). simpl. by rewrite Hy, IH.
Qed.

Lemma Forall2_in_r {A B} (R : A -> B -> Prop) l k y :
  Forall2 R l k -> y ∈ k -> exists x, x ∈ l /\ R x y.
Proof.
  induction 1 as [|x y' l k HR _ IH]; intros Hy; [by apply elem_of_nil in Hy|].
  apply elem_of_cons in Hy as [->|Hy]; [exists x; by split; [constructor|]|].
  destruct (IH Hy) as (x' & ? & ?). exists x'. by split; [constructor|].
Qed.

Lemma Forall2_in_l {A B} (R : A -> B -> Prop) l k x :
  Forall2 R l k -> x ∈ l -> exists y, y ∈ k /\ R x y.
Proof. intros H%Forall2_flip Hx. by apply (Forall2_in_r _ _ _ _ H). Qed.

(** ** Booleans *)

Lemma existsb_false_Forall {A} (p : A -> bool) l :
  existsb p l = false <-> Forall (fun x => p x = false) l.
Proof.
  induction l as [|x l IH]; simpl.
  - split; [constructor | done].
  - rewrite orb_false_iff, Forall_cons, IH. done.
Qed.

Lemma forallb_Forall {A} (p : A -> bool) l :
  forallb p l = true <-> Forall (fun x => p x = true) l.
Proof.
  induction l as [|x l IH]; simpl.
  - split; [constructor | done].
  - rewrite andb_true_iff, Forall_cons, IH. done.
Qed.

Lemma NoDup_map_filter {A B} (key : A -> B) (q : A -> bool) l : NoDup (map key l) -> NoDup (map key (List.filter q l)).
Proof.
  induction l as [|x l IH]; [done|]. cbn [map List.filter]. rewrite NoDup_cons. intros [Hx Hl]. specialize (IH Hl).
  destruct (q x); [|done]. cbn [map]. apply NoDup_cons. split; [|done]. intros (y & Hy & Hin)%list_elem_of_fmap. apply Hx.
  rewrite Hy. apply list_elem_of_fmap_2. apply list_elem_of_In in Hin. apply filter_In in Hin as [Hin _]. by apply list_elem_of_In.
Qed.

Lemma NoDup_map_inj {A B} (f : A -> B) l x y :
  NoDup (map f l) -> x ∈ l -> y ∈ l -> f x = f y -> x = y.
Proof.
  induction l as [|z l IH]; simpl; intros Hnd Hx Hy Hf; [by apply elem_of_nil in Hx|].
  inversion Hnd as [|?? Hni Hnd']; subst.
  apply elem_of_cons in Hx as [->|Hx], Hy as [->|Hy]; try done.
  - exfalso. apply Hni. rewrite Hf. by apply list_elem_of_fmap_2 with (f := f).
  - exfalso. apply Hni. rewrite <- Hf. by apply list_elem_of_fmap_2 with (f := f).
  - by apply IH.
Qed.

(** ** Sorting with a key: [sorted] and [max] *)

(** A boolean comparison of keys that Python's sort can rely on. *)
Class TotalPreorder {A} (le : A -> A -> bool) : Prop := {
  le_total : forall x y, le x y = true \/ le y x = true;
  le_trans' : forall x y z, le x y = true -> le y z = true -> le x z = true
}.

Lemma le_refl' {A} (le : A -> A -> bool) `{!TotalPreorder le} x : le x x = true.
Proof. destruct (le_total x x); done. Qed.

#[export] Instance total_preorder_flip {A} (le : A -> A -> bool) :
  TotalPreorder le -> TotalPreorder (fun x y => le y x).
Proof.
  intros H. split.
  - intros x y. destruct (le_total x y); auto.
  - intros x y z Hxy Hyz. eapply le_trans'; eauto.
Qed.

#[export] Instance total_preorder_on {A B} (le : B -> B -> bool) (f : A -> B) :
  TotalPreorder le -> TotalPreorder (fun x y => le (f x) (f y)).
Proof.
  intros H. split.
  - intros x y. apply le_total.
  - intros x y z. apply le_trans'.
Qed.

Section Sorting.
Context {A : Type} (le : A -> A -> bool).

(** Stable insertion: [x] goes before the first element it does not exceed. *)
Fixpoint insert_by (x : A) (l : list A) : list A :=
  match l with
  | [] => [x]
  | y :: l' => if le x y then x :: l else y :: insert_by x l'
  end.

(** [sorted(l, key=...)] with [le] the comparison of the keys; a reversed sort
    is the sort of the flipped comparison, which keeps Python's stability. *)
Definition sort_by (l : list A) : list A := foldr insert_by [] l.

(** [max(l, key=...)]: the first element whose key is not below any other. *)
Fixpoint max_from (best : A) (l : list A) : A :=
  match l with
  | [] => best
  | x :: l => max_from (if le x best then best else x) l
  end.

Definition max_by (l : list A) : option A :=
  match l with [] => None | x :: l => Some (max_from x l) end.

Definition sorted_by : list A -> Prop := StronglySorted (fun x y => le x y = true).

Lemma insert_by_perm x l : Permutation (insert_by x l) (x :: l).
Proof.
  induction l as [|y l IH]; simpl; [done|].
  destruct (le x y); [done|]. rewrite IH. constructor.
Qed.

Lemma sort_by_perm l : Permutation (sort_by l) l.
Proof.
  induction l as [|x l IH]; simpl; [done|]. by rewrite insert_by_perm, IH.
Qed.

Lemma sort_by_elem x l : x ∈ sort_by l <-> x ∈ l.
Proof. by rewrite sort_by_perm. Qed.

Context `{!TotalPreorder le}.

Lemma insert_by_sorted x l : sorted_by l -> sorted_by (insert_by x l).
Proof.
  induction 1 as [|y l Hs IH Hy]; simpl; [repeat constructor|].
  destruct (le x y) eqn:Hxy.
  - constructor; [by constructor|]. constructor; [done|].
    eapply Forall_impl; [exact Hy|]. intros z Hz. by eapply le_trans'.
  - constructor; [done|]. rewrite insert_by_perm. constructor; [|done].
    destruct (le_total x y); congruence.
Qed.

Lemma sort_by_sorted l : sorted_by (sort_by l).
Proof.
  induction l as [|x l IH]; simpl; [constructor | by apply insert_by_sorted].
Qed.

Lemma sort_by_id l : sorted_by l -> sort_by l = l.
Proof.
  induction 1 as [|x l Hs IH Hx]; [done|]. simpl. rewrite IH.
  destruct l as [|y l]; [done|]. simpl.
  apply Forall_inv in Hx. by rewrite Hx.
Qed.

Lemma sort_by_idemp l : sort_by (sort_by l) = sort_by l.
Proof. apply sort_by_id, sort_by_sorted. Qed.

(** Elements with the same key keep their order. *)
Definition same_key (x y : A) : bool := le x y && le y x.

Lemma insert_by_stable k x l :
  List.filter (same_key k) (insert_by x l) = List.filter (same_key k) (x :: l).
Proof.
  induction l as [|y l IH]; simpl; [done|].
  destruct (le x y) eqn:Hxy; [done|]. simpl. rewrite IH. simpl.
  destruct (same_key k x) eqn:Hx, (same_key k y) eqn:Hy; try done.
  exfalso. unfold same_key in *. py_inv.
  assert (le x y = true) by (eapply le_trans'; eauto). congruence.
Qed.

Lemma sort_by_stable k l :
  List.filter (same_key k) (sort_by l) = List.filter (same_key k) l.
Proof.
  induction l as [|x l IH]; [done|].
  change (sort_by (x :: l)) with (insert_by x (sort_by l)).
  rewrite insert_by_stable. simpl. by rewrite IH.
Qed.

(** Sorting a list that is sorted by another key: the other key breaks ties. *)
Lemma insert_by_lex (le2 : A -> A -> bool) x l :
  StronglySorted (fun x y => le x y = true /\ (le y x = true -> le2 x y = true)) l ->
  Forall (fun y => le2 x y = true) l ->
  StronglySorted (fun x y => le x y = true /\ (le y x = true -> le2 x y = true)) (insert_by x l).
Proof.
  induction 1 as [|y l Hs IH Hy]; intros Hx; simpl; [repeat constructor|].
  apply Forall_cons in Hx as [Hxy Hx]. destruct (le x y) eqn:Hle.
  - constructor; [by constructor|]. constructor; [done|]. rewrite Forall_forall in *. intros z Hz.
    split; [|by intros _; apply Hx]. eapply le_trans'; [exact Hle | by apply Hy].
  - constructor; [by apply IH|]. rewrite insert_by_perm. constructor; [|done].
    split; [destruct (le_total x y); congruence | congruence].
Qed.

Lemma sort_by_lex (le2 : A -> A -> bool) l :
  StronglySorted (fun x y => le2 x y = true) l ->
  StronglySorted (fun x y => le x y = true /\ (le y x = true -> le2 x y = true)) (sort_by l).
Proof.
  induction 1 as [|x l Hs IH Hx]; [constructor|]. simpl. apply insert_by_lex; [done|].
  change (foldr insert_by [] l) with (sort_by l). by rewrite sort_by_perm.
Qed.

(** When distinct elements have distinct keys the sorted list is determined
    by the multiset of its elements. *)
Lemma sorted_unique l1 l2 :
  (forall x y, x ∈ l1 -> y ∈ l1 -> le x y = true -> le y x = true -> x = y) ->
  sorted_by l1 -> sorted_by l2 -> Permutation l1 l2 -> l1 = l2.
Proof.
  intros Hanti H1. revert l2 Hanti. induction H1 as [|x l1 Hs IH Hx]; intros l2 Hanti H2 Hp.
  - symmetry. by apply Permutation_nil.
  - destruct l2 as [|y l2]; [symmetry in Hp; by apply Permutation_nil_cons in Hp|].
    inversion H2 as [|?? Hs2 Hy]; subst.
    assert (x = y) as ->.
    { assert (Hyin : y ∈ x :: l1) by (rewrite Hp; constructor).
      assert (Hxin : x ∈ y :: l2) by (rewrite <- Hp; constructor).
      apply Hanti; [constructor | done | |].
      - apply elem_of_cons in Hyin as [->|Hin]; [by apply le_refl'|].
        rewrite Forall_forall in Hx. by apply Hx.
      - apply elem_of_cons in Hxin as [->|Hin]; [by apply le_refl'|].
        rewrite Forall_forall in Hy. by apply Hy. }
    f_equal. apply IH; [|done|by eapply Permutation_cons_inv].
    intros; apply Hanti; try done; by constructor.
Qed.

Lemma max_from_spec b l :
  (max_from b l = b \/ max_from b l ∈ l) /\
  le b (max_from b l) = true /\
  forall y, y ∈ l -> le y (max_from b l) = true.
Proof.
  revert b. induction l as [|x l IH]; intros b; simpl.
  - split; [by left|]. split; [by apply le_refl'|]. intros y Hy; by apply elem_of_nil in Hy.
  - destruct (IH (if le x b then b else x)) as (Hin & Hb & Hl).
    assert (Hle : le b (if le x b then b else x) = true
               /\ le x (if le x b then b else x) = true).
    { destruct (le x b) eqn:Hxb; split; try apply le_refl'; try done.
      destruct (le_total x b); congruence. }
    destruct Hle as [Hle1 Hle2]. split; [|split].
    + destruct Hin as [->|Hin]; [|right; by constructor].
      destruct (le x b); [by left | right; constructor].
    + by eapply le_trans'.
    + intros y Hy. apply elem_of_cons in Hy as [->|Hy]; [by eapply le_trans' | by apply Hl].
Qed.

Lemma max_by_spec l m :
  max_by l = Some m -> m ∈ l /\ forall y, y ∈ l -> le y m = true.
Proof.
  destruct l as [|x l]; simpl; intros H; [discriminate|]. injection H as H; subst m.
  destruct (max_from_spec x l) as (Hin & Hb & Hl). split.
  - destruct Hin as [->|Hin]; [constructor | by constructor].
  - intros y Hy. apply elem_of_cons in Hy as [->|Hy]; auto.
Qed.

Lemma max_by_None l : max_by l = None <-> l = [].
Proof. destruct l; simpl; split; congruence. Qed.
End Sorting.

Arguments same_key {A} le _ _ /.

Lemma strongly_sorted_map {A B} (R : A -> A -> Prop) (S : B -> B -> Prop) (f : A -> B) l :
  (forall x y, x ∈ l -> y ∈ l -> R x y -> S (f x) (f y)) -> StronglySorted R l -> StronglySorted S (map f l).
Proof.
  intros Hf H. induction H as [|x l Hs IH Hx]; simpl; [constructor|]. constructor.
  - apply IH. intros y z Hy Hz. apply Hf; by constructor.
  - apply Forall_fmap, Forall_forall. intros y Hy. simpl. apply Hf; [by constructor | by constructor |].
    rewrite Forall_forall in Hx. by apply Hx.
Qed.

#[export] Hint Resolve sort_by_sorted sort_by_perm le_refl' : pysem.

(** ** Keyed lists: tables, dictionaries in insertion order *)

Section Keyed.
Context {K A : Type} `{EqDecision K} (key : A -> K).

(** [next((x for x in l if key(x) == k), None)] and a primary-key lookup. *)
Definition find_key (k : K) (l : list A) : option A :=
  List.find (fun x => bool_decide (key x = k)) l.

(** Assignment to the attributes of the row with key [k]. *)
Definition update_key (k : K) (f : A -> A) (l : list A) : list A :=
  map (fun x => if bool_decide (key x = k) then f x else x) l.

Lemma find_key_Some k l x : find_key k l = Some x -> x ∈ l /\ key x = k.
Proof.
  unfold find_key. intros H. apply List.find_some in H as [Hin Hk].
  rewrite list_elem_of_In. by apply bool_decide_eq_true_1 in Hk.
Qed.

Lemma find_key_None k l : find_key k l = None <-> k ∉ map key l.
Proof.
  unfold find_key. induction l as [|x l IH]; simpl.
  { split; [intros _; apply not_elem_of_nil | done]. }
  rewrite not_elem_of_cons. case_bool_decide as Hx.
  - split; [discriminate | intros [? _]; congruence].
  - rewrite IH. split; [intros ?; split; [congruence|done] | by intros []].
Qed.

Lemma find_key_NoDup k l x :
  NoDup (map key l) -> x ∈ l -> key x = k -> find_key k l = Some x.
Proof.
  unfold find_key. induction l as [|y l IH]; simpl; intros Hnd Hin Hk.
  - by apply elem_of_nil in Hin.
  - inversion Hnd as [|?? Hni Hnd']; subst. case_bool_decide as Hy.
    + apply elem_of_cons in Hin as [->|Hin]; [done|].
      exfalso. apply Hni. rewrite Hy. by apply list_elem_of_fmap_2 with (f := key).
    + apply elem_of_cons in Hin as [->|Hin]; [done|]. by apply IH.
Qed.

Lemma update_key_keys k f l :
  (forall x, key (f x) = key x) -> map key (update_key k f l) = map key l.
Proof.
  intros Hf. unfold update_key. rewrite map_map. apply map_ext. intros x.
  case_bool_decide; auto.
Qed.

Lemma elem_of_update_key k f l y :
  y ∈ update_key k f l <->
  (exists x, x ∈ l /\ key x = k /\ y = f x) \/ (y ∈ l /\ key y <> k).
Proof.
  unfold update_key. setoid_rewrite list_elem_of_fmap. split.
  - intros (x & -> & Hin). case_bool_decide; [left|right]; eauto.
  - intros [(x & Hin & Hk & ->)|[Hin Hk]]; [exists x | exists y];
      case_bool_decide; naive_solver.
Qed.
End Keyed.

(** ** Three-way comparisons *)

(** A comparison function of a strict total order. *)
Class Ordered {A} (cmp : A -> A -> comparison) : Prop := {
  cmp_eq : forall x y, cmp x y = Eq <-> x = y;
  cmp_opp : forall x y, cmp y x = CompOpp (cmp x y);
  cmp_trans : forall x y z, cmp x y = Lt -> cmp y z = Lt -> cmp x z = Lt
}.

Definition le_of {A} (cmp : A -> A -> comparison) (x y : A) : bool :=
  match cmp x y with Gt => false | _ => true end.

Section Ordered.
Context {A : Type} (cmp : A -> A -> comparison) `{!Ordered cmp}.

Lemma cmp_refl x : cmp x x = Eq.
Proof. by apply cmp_eq. Qed.

Lemma le_of_antisym x y : le_of cmp x y = true -> le_of cmp y x = true -> x = y.
Proof.
  unfold le_of. rewrite (cmp_opp x y). destruct (cmp x y) eqn:Hc; simpl; try done.
  intros _ _. by apply cmp_eq.
Qed.

#[export] Instance le_of_preorder : TotalPreorder (le_of cmp).
Proof.
  unfold le_of. split.
  - intros x y. rewrite (cmp_opp x y). destruct (cmp x y); auto.
  - intros x y z. destruct (cmp x y) eqn:H1, (cmp y z) eqn:H2; try done; intros _ _.
    + apply cmp_eq in H1, H2. subst. by rewrite cmp_refl.
    + apply cmp_eq in H1. subst. by rewrite H2.
    + apply cmp_eq in H2. subst. by rewrite H1.
    + by rewrite (cmp_trans x y z H1 H2).
Qed.
End Ordered.

#[export] Instance N_ordered : Ordered N.compare.
Proof.
  split.
  - apply N.compare_eq_iff.
  - intros x y. apply N.compare_antisym.
  - intros x y z. rewrite !N.compare_lt_iff. lia.
Qed.

#[export] Instance nat_ordered : Ordered Nat.compare.
Proof.
  split.
  - apply Nat.compare_eq_iff.
  - intros x y. apply Nat.compare_antisym.
  - intros x y z. rewrite !Nat.compare_lt_iff. lia.
Qed.

Lemma ordered_inj {A B} (f : A -> B) (cmp : B -> B -> comparison) :
  Inj (=) (=) f -> Ordered cmp -> Ordered (fun x y => cmp (f x) (f y)).
Proof.
  intros Hf H. split.
  - intros x y. rewrite cmp_eq. split; [apply Hf | congruence].
  - intros x y. apply cmp_opp.
  - intros x y z. apply cmp_trans.
Qed.

(** First component first. *)
Definition pair_compare {A B} (ca : A -> A -> comparison) (cb : B -> B -> comparison)
    (x y : A * B) : comparison :=
  match ca (fst x) (fst y) with Eq => cb (snd x) (snd y) | c => c end.

#[export] Instance pair_ordered {A B} (ca : A -> A -> comparison) (cb : B -> B -> comparison) :
  Ordered ca -> Ordered cb -> Ordered (pair_compare ca cb).
Proof.
  intros Ha Hb. unfold pair_compare. split.
  - intros [x1 x2] [y1 y2]; simpl. destruct (ca x1 y1) eqn:H1.
    + apply cmp_eq in H1. rewrite cmp_eq. naive_solver.
    + split; [done | intros [= -> ->]]. by rewrite (cmp_refl ca) in H1.
    + split; [done | intros [= -> ->]]. by rewrite (cmp_refl ca) in H1.
  - intros [x1 x2] [y1 y2]; simpl. rewrite (cmp_opp x1 y1).
    destruct (ca x1 y1); simpl; try done. apply cmp_opp.
  - intros [x1 x2] [y1 y2] [z1 z2]; simpl.
    destruct (ca x1 y1) eqn:H1, (ca y1 z1) eqn:H2; try done; intros.
    + apply cmp_eq in H1, H2. subst. rewrite (cmp_refl ca). by apply (cmp_trans x2 y2 z2).
    + apply cmp_eq in H1. subst. by rewrite H2.
    + apply cmp_eq in H2. subst. by rewrite H1.
    + by rewrite (cmp_trans x1 y1 z1).
Qed.

(** Lexicographic, a proper prefix first. *)
Fixpoint list_compare {A} (cmp : A -> A -> comparison) (l m : list A) : comparison :=
  match l, m with
  | [], [] => Eq
  | [], _ => Lt
  | _, [] => Gt
  | x :: l, y :: m => match cmp x y with Eq => list_compare cmp l m | c => c end
  end.

#[export] Instance list_ordered {A} (cmp : A -> A -> comparison) :
  Ordered cmp -> Ordered (list_compare cmp).
Proof.
  intros H. split.
  - intros x. induction x as [|a x IH]; intros [|b y]; simpl; try done.
    destruct (cmp a b) eqn:Hc.
    + apply cmp_eq in Hc. rewrite IH. subst. split; [by intros -> | by intros [= ->]].
    + split; [done | intros [= -> ->]]. by rewrite (cmp_refl cmp) in Hc.
    + split; [done | intros [= -> ->]]. by rewrite (cmp_refl cmp) in Hc.
  - intros x. induction x as [|a x IH]; intros [|b y]; simpl; try done.
    rewrite (cmp_opp a b). destruct (cmp a b); simpl; done.
  - intros x. induction x as [|a x IH]; intros [|b y] [|c z]; simpl; try done.
    destruct (cmp a b) eqn:H1, (cmp b c) eqn:H2; try done; intros.
    + apply cmp_eq in H1, H2. subst. rewrite (cmp_refl cmp). by eapply IH.
    + apply cmp_eq in H1. subst. by rewrite H2.
    + apply cmp_eq in H2. subst. by rewrite H1.
    + by rewrite (cmp_trans a b c).
Qed.

(** [Some] before [None]. *)
Definition option_compare {A} (cmp : A -> A -> comparison) (x y : option A) : comparison :=
  match x, y with
  | Some a, Some b => cmp a b
  | Some _, None => Lt
  | None, Some _ => Gt
  | None, None => Eq
  end.

#[export] Instance option_ordered {A} (cmp : A -> A -> comparison) :
  Ordered cmp -> Ordered (option_compare cmp).
Proof.
  intros H. split.
  - intros [x|] [y|]; simpl; try done. rewrite cmp_eq. naive_solver.
  - intros [x|] [y|]; simpl; try done. apply cmp_opp.
  - intros [x|] [y|] [z|]; simpl; try done. apply cmp_trans.
Qed.

(** ** Loops: [while True] with an early end *)

(** At most [p] passes of [pass], which gives the next state or the outcome; the
    binary counter makes a large bound free to evaluate. *)
Fixpoint passes {S R} (p : positive) (pass : S -> S + R) (s : S) : S + R :=
  match p with
  | xH => pass s
  | xO p => match passes p pass s with inl s => passes p pass s | inr r => inr r end
  | xI p => match pass s with
            | inl s => match passes p pass s with inl s => passes p pass s | inr r => inr r end
            | inr r => inr r
            end
  end.

Section Passes.
Context {S R : Type} (pass : S -> S + R).

Lemma passes_inv (P : S -> Prop) (Q : R -> Prop) :
  (forall s, P s -> match pass s with inl s => P s | inr r => Q r end) ->
  forall p s, P s -> match passes p pass s with inl s => P s | inr r => Q r end.
Proof.
  intros Hstep p. induction p as [p IH|p IH|]; intros s Hs; simpl; [| |by apply Hstep].
  - specialize (Hstep s Hs). destruct (pass s) as [s1|r]; [|done].
    specialize (IH s1 Hstep) as H1. destruct (passes p pass s1) as [s2|r]; [by apply IH | done].
  - specialize (IH s Hs) as H1. destruct (passes p pass s) as [s2|r]; [by apply IH | done].
Qed.

(** A loop whose passes use up a budget ends within it. *)
Lemma passes_spend (spent : S -> Z) (P : S -> Prop) :
  (forall s, P s -> match pass s with inl s' => P s' /\ (spent s + 1 <= spent s')%Z | inr _ => True end) ->
  forall p s, P s -> match passes p pass s with inl s' => P s' /\ (spent s + Z.pos p <= spent s')%Z | inr _ => True end.
Proof.
  intros Hstep p. induction p as [p IH|p IH|]; intros s Hs; simpl; [| |by apply Hstep].
  - specialize (Hstep s Hs). destruct (pass s) as [s1|r]; [|done]. destruct Hstep as [H1 Hd1].
    specialize (IH s1 H1) as H2. destruct (passes p pass s1) as [s2|r]; [|done]. destruct H2 as [H2 Hd2].
    specialize (IH s2 H2) as H3. destruct (passes p pass s2) as [s3|r]; [|done]. destruct H3 as [H3 Hd3]. split; [done|lia].
  - specialize (IH s Hs) as H2. destruct (passes p pass s) as [s2|r]; [|done]. destruct H2 as [H2 Hd2].
    specialize (IH s2 H2) as H3. destruct (passes p pass s2) as [s3|r]; [|done]. destruct H3 as [H3 Hd3]. split; [done|lia].
Qed.

Lemma passes_end (spent : S -> Z) (P : S -> Prop) (limit : Z) p s :
  (forall s, P s -> (spent s <= limit)%Z) ->
  (forall s, P s -> match pass s with inl s' => P s' /\ (spent s + 1 <= spent s')%Z | inr _ => True end) ->
  P s -> (limit < spent s + Z.pos p)%Z -> exists r, passes p pass s = inr r.
Proof.
  intros Hlim Hstep Hs Hp. assert (H := passes_spend spent P Hstep p s Hs).
  destruct (passes p pass s) as [s'|r]; [|by exists r]. destruct H as [H Hd]. specialize (Hlim s' H). lia.
Qed.

End Passes.
