(* ===== verification/PyText.v ===== *)
(** * Python text: [str] methods and [re.fullmatch]

    The [str] methods and the regular-expression operations the repository
    uses, on strings whose characters are code points U+0000 to U+00FF, one
    [ascii] per code point.  Character classes are those of Python over that
    range ([str.isspace], [str.isdigit], ...); [upper] leaves the three letters
    whose capital is outside the range unchanged.  [fullmatch] is a matcher by
    derivatives, proved equal to the language of the expression. *)

From S2P Require Import Prelude.

Open Scope string_scope.
Open Scope list_scope.

(** ** Characters *)

Definition chr_in (lo hi : N) (c : ascii) : bool :=
  (N.leb lo (N_of_ascii c) && N.leb (N_of_ascii c) hi)%bool.

Definition chr_is (n : N) (c : ascii) : bool := N.eqb (N_of_ascii c) n.

Definition range (a b : ascii) (c : ascii) : bool :=
  chr_in (N_of_ascii a) (N_of_ascii b) c.

(** [c in "..."] *)
Fixpoint mem_char (c : ascii) (s : string) : bool :=
  match s with
  | "" => false
  | String a s => (Ascii.eqb a c || mem_char c s)%bool
  end.

Definition is_space (c : ascii) : bool :=
  (chr_in 9 13 c || chr_in 28 32 c || chr_is 133 c || chr_is 160 c)%bool.

Definition is_ascii_digit (c : ascii) : bool := range "0" "9" c.

Definition is_digit (c : ascii) : bool :=
  (is_ascii_digit c || chr_in 178 179 c || chr_is 185 c)%bool.

Definition is_ascii_alpha (c : ascii) : bool := (range "a" "z" c || range "A" "Z" c)%bool.

Definition is_alnum (c : ascii) : bool :=
  (is_digit c || is_ascii_alpha c || chr_is 170 c || chr_is 181 c || chr_is 186 c
   || chr_in 188 190 c || chr_in 192 214 c || chr_in 216 246 c || chr_in 248 255 c)%bool.

Definition lower_char (c : ascii) : ascii :=
  if (range "A" "Z" c || (chr_in 192 222 c && negb (chr_is 215 c)))%bool
  then ascii_of_N (N_of_ascii c + 32) else c.

Definition upper_char (c : ascii) : ascii :=
  if (range "a" "z" c || (chr_in 224 254 c && negb (chr_is 247 c)))%bool
  then ascii_of_N (N_of_ascii c - 32) else c.

(** ** [str] methods *)

Abbreviation chars := String.list_ascii_of_string (only parsing).

Fixpoint string_map (f : ascii -> ascii) (s : string) : string :=
  match s with "" => "" | String a s => String (f a) (string_map f s) end.

Definition lower := string_map lower_char.
Definition upper := string_map upper_char.

(** [str.casefold]; the micro sign, whose folding is outside the range, stays. *)
Fixpoint casefold (s : string) : string :=
  match s with
  | "" => ""
  | String a s => if chr_is 223 a then String "s" (String "s" (casefold s)) else String (lower_char a) (casefold s)
  end.

Fixpoint string_filter (p : ascii -> bool) (s : string) : string :=
  match s with
  | "" => ""
  | String a s => if p a then String a (string_filter p s) else string_filter p s
  end.

Fixpoint all_chars (p : ascii -> bool) (s : string) : bool :=
  match s with "" => true | String a s => (p a && all_chars p s)%bool end.

Definition any_char (p : ascii -> bool) (s : string) : bool :=
  negb (all_chars (fun c => negb (p c)) s).

Definition nonempty (s : string) : bool := match s with "" => false | _ => true end.

(** [s.isdigit()] *)
Definition isdigit (s : string) : bool := (nonempty s && all_chars is_digit s)%bool.

Fixpoint lstrip_by (p : ascii -> bool) (s : string) : string :=
  match s with
  | "" => ""
  | String a s' => if p a then lstrip_by p s' else s
  end.

Fixpoint rstrip_by (p : ascii -> bool) (s : string) : string :=
  match s with
  | "" => ""
  | String a s' =>
      match rstrip_by p s' with
      | "" => if p a then "" else String a ""
      | t => String a t
      end
  end.

Definition strip (s : string) : string := lstrip_by is_space (rstrip_by is_space s).

(** [s.split(c)] for a one-character separator. *)
Fixpoint split_on (c : ascii) (s : string) : list string :=
  match s with
  | "" => [""]
  | String a s =>
      if Ascii.eqb a c then "" :: split_on c s
      else match split_on c s with
           | [] => [String a ""]
           | h :: t => String a h :: t
           end
  end.

(** [s.split()] *)
Fixpoint words_from (word : string) (s : string) : list string :=
  match s with
  | "" => if nonempty word then [word] else []
  | String c s =>
      if is_space c then (if nonempty word then word :: words_from "" s else words_from "" s)
      else words_from (String.append word (String c "")) s
  end.

Definition split_ws (s : string) : list string := words_from "" s.

Definition is_line_break (c : ascii) : bool :=
  chr_in 10 13 c || chr_in 28 30 c || chr_is 133 c.

(** [s.splitlines()]: no empty line after a final break, and [\r\n] is one. *)
Fixpoint lines_from (line : string) (s : string) : list string :=
  match s with
  | "" => if nonempty line then [line] else []
  | String c s' =>
      if is_line_break c then
        match s' with
        | String d s'' => if chr_is 13 c && chr_is 10 d then line :: lines_from "" s'' else line :: lines_from "" s'
        | "" => [line]
        end
      else lines_from (String.append line (String c "")) s'
  end.

Definition splitlines (s : string) : list string := lines_from "" s.

(** [s.encode("utf-8")] of a text whose characters are at most U+00FF. *)
Fixpoint utf8_encode (s : string) : string :=
  match s with
  | "" => ""
  | String c s =>
      let n := N_of_ascii c in
      if N.ltb n 128 then String c (utf8_encode s)
      else String (ascii_of_N (192 + n / 64)) (String (ascii_of_N (128 + n mod 64)) (utf8_encode s))
  end.

(** [bytes.decode("utf-8")]: bytes and the characters up to U+00FF are
    characters; other characters are not represented and fail here. *)
Fixpoint utf8_decode (s : string) : option string :=
  match s with
  | "" => Some ""
  | String c s =>
      let n := N_of_ascii c in
      if N.ltb n 128 then option_map (String c) (utf8_decode s)
      else if N.eqb n 194 || N.eqb n 195 then
        match s with
        | String d s =>
            let m := N_of_ascii d in
            if N.leb 128 m && N.ltb m 192
            then option_map (String (ascii_of_N (64 * (n - 192) + (m - 128)))) (utf8_decode s) else None
        | "" => None
        end
      else None
  end.

(** [c.join(l)] *)
Fixpoint join_on (c : string) (l : list string) : string :=
  match l with
  | [] => ""
  | [s] => s
  | s :: l => s +:+ c +:+ join_on c l
  end.

(** [s.partition(c)]: the separator's place is a flag. *)
Fixpoint partition_on (c : ascii) (s : string) : string * bool * string :=
  match s with
  | "" => ("", false, "")
  | String a s' =>
      if Ascii.eqb a c then ("", true, s')
      else let '(x, f, y) := partition_on c s' in (String a x, f, y)
  end.

(** [s.rpartition(c)] *)
Fixpoint rpartition_on (c : ascii) (s : string) : string * bool * string :=
  match s with
  | "" => ("", false, "")
  | String a s' =>
      let '(x, f, y) := rpartition_on c s' in
      if f then (String a x, true, y)
      else if Ascii.eqb a c then ("", true, s')
      else ("", false, String a s')
  end.

Definition startswith (p s : string) : bool := String.prefix p s.

Fixpoint endswith (p s : string) : bool :=
  (String.eqb p s || match s with "" => false | String _ s' => endswith p s' end)%bool.

(** [p in s] for strings. *)
Fixpoint substring_in (p s : string) : bool :=
  (String.prefix p s || match s with "" => false | String _ s' => substring_in p s' end)%bool.

Definition removeprefix (p s : string) : string :=
  if String.prefix p s then String.substring (String.length p) (String.length s) s else s.

(** [s.rstrip("/")] and the like. *)
Definition rstrip_char (c : ascii) : string -> string := rstrip_by (Ascii.eqb c).

(** [s.replace(c, t)] for a character. *)
Fixpoint replace_char (c : ascii) (t : string) (s : string) : string :=
  match s with
  | "" => ""
  | String a s => if Ascii.eqb a c then t +:+ replace_char c t s else String a (replace_char c t s)
  end.

(** [int(s)] of a run of ASCII digits. *)
Definition digit_value (c : ascii) : N := (N_of_ascii c - 48)%N.

Fixpoint int_from (acc : N) (s : string) : N :=
  match s with
  | "" => acc
  | String a s => int_from (acc * 10 + digit_value a)%N s
  end.

Definition py_int (s : string) : N := int_from 0 s.

(** Comparison of strings by code points. *)
Definition str_compare (s t : string) : comparison :=
  list_compare (fun a b => N.compare (N_of_ascii a) (N_of_ascii b)) (chars s) (chars t).

#[export] Instance str_ordered : Ordered str_compare.
Proof.
  apply (ordered_inj String.list_ascii_of_string).
  - intros s t H. rewrite <- (String.string_of_list_ascii_of_string s), H.
    apply String.string_of_list_ascii_of_string.
  - apply list_ordered, (ordered_inj N_of_ascii); [|apply _].
    intros a b H. by rewrite <- (ascii_N_embedding a), H, ascii_N_embedding.
Qed.

Definition str_le : string -> string -> bool := le_of str_compare.

(** ** Regular expressions *)

Inductive re :=
| Void
| Eps
| Cls (p : ascii -> bool)
| Seq (a b : re)
| Alt (a b : re)
| Star (a : re).

Inductive matches : re -> list ascii -> Prop :=
| m_eps : matches Eps []
| m_cls p c : p c = true -> matches (Cls p) [c]
| m_seq a b l m : matches a l -> matches b m -> matches (Seq a b) (l ++ m)
| m_alt_l a b l : matches a l -> matches (Alt a b) l
| m_alt_r a b l : matches b l -> matches (Alt a b) l
| m_star_nil a : matches (Star a) []
| m_star_app a l m : matches a l -> matches (Star a) m -> matches (Star a) (l ++ m).

Fixpoint nullable (r : re) : bool :=
  match r with
  | Void | Cls _ => false
  | Eps | Star _ => true
  | Seq a b => nullable a && nullable b
  | Alt a b => nullable a || nullable b
  end.

Definition seq (a b : re) : re :=
  match a, b with
  | Void, _ | _, Void => Void
  | Eps, _ => b
  | _, _ => Seq a b
  end.

Definition alt (a b : re) : re :=
  match a, b with
  | Void, _ => b
  | _, Void => a
  | _, _ => Alt a b
  end.

Fixpoint deriv (c : ascii) (r : re) : re :=
  match r with
  | Void | Eps => Void
  | Cls p => if p c then Eps else Void
  | Seq a b =>
      if nullable a then alt (seq (deriv c a) b) (deriv c b) else seq (deriv c a) b
  | Alt a b => alt (deriv c a) (deriv c b)
  | Star a => seq (deriv c a) (Star a)
  end.

Fixpoint re_match (r : re) (l : list ascii) : bool :=
  match l with [] => nullable r | c :: l => re_match (deriv c r) l end.

(** [re.fullmatch(r, s) is not None] *)
Definition fullmatch (r : re) (s : string) : bool := re_match r (chars s).

(** Python's operators: [r?], [r+], [r{n}], a literal. *)
Definition opt (r : re) : re := Alt r Eps.
Definition plus (r : re) : re := Seq r (Star r).
Fixpoint rep (n : nat) (r : re) : re :=
  match n with O => Eps | S n => Seq r (rep n r) end.
Fixpoint upto (n : nat) (r : re) : re :=
  match n with O => Eps | S n => opt (Seq r (upto n r)) end.
Fixpoint lit (s : string) : re :=
  match s with "" => Eps | String a s => Seq (Cls (Ascii.eqb a)) (lit s) end.

(** *** Correctness of the matcher *)

Lemma matches_void l : ~ matches Void l.
Proof. inversion 1. Qed.

Lemma matches_eps l : matches Eps l <-> l = [].
Proof. split; [by inversion 1 | intros ->; constructor]. Qed.

Lemma matches_cls p l : matches (Cls p) l <-> exists c, l = [c] /\ p c = true.
Proof. split; [inversion 1; eauto | intros (c & -> & ?); by constructor]. Qed.

Lemma matches_seq a b l :
  matches (Seq a b) l <-> exists l1 l2, l = l1 ++ l2 /\ matches a l1 /\ matches b l2.
Proof.
  split; [inversion 1; eauto | intros (? & ? & -> & ? & ?); by constructor].
Qed.

Lemma matches_alt a b l : matches (Alt a b) l <-> matches a l \/ matches b l.
Proof. split; [inversion 1; auto | intros []; by constructor]. Qed.

Lemma matches_opt a l : matches (opt a) l <-> l = [] \/ matches a l.
Proof. unfold opt. rewrite matches_alt, matches_eps. tauto. Qed.

Lemma nullable_spec r : nullable r = true <-> matches r [].
Proof.
  induction r as [| |p|a IHa b IHb|a IHa b IHb|a IHa]; simpl.
  - split; [done | by intros ?%matches_void].
  - split; [constructor | done].
  - split; [done | intros (c & [=] & _)%matches_cls].
  - rewrite andb_true_iff, IHa, IHb, matches_seq. split.
    + intros [Ha Hb]. by exists [], [].
    + intros (l1 & l2 & Hl & Ha & Hb).
      symmetry in Hl. apply app_nil in Hl as [-> ->]. done.
  - by rewrite orb_true_iff, IHa, IHb, matches_alt.
  - split; [constructor | done].
Qed.

Lemma matches_smart_seq a b l : matches (seq a b) l <-> matches (Seq a b) l.
Proof.
  assert (Hv : forall a, matches (Seq a Void) l <-> matches Void l).
  { intros a'. rewrite matches_seq. split; [|by intros ?%matches_void].
    by intros (? & ? & _ & _ & ?%matches_void). }
  destruct a; simpl; try (destruct b; rewrite ?Hv; reflexivity).
  - rewrite matches_seq. split; [by intros ?%matches_void|].
    by intros (? & ? & _ & ?%matches_void & _).
  - assert (Hb : matches b l <-> matches (Seq Eps b) l).
    { rewrite matches_seq. split.
      - intros Hb. by exists [], l; repeat constructor.
      - intros (? & ? & -> & ->%matches_eps & ?). done. }
    by destruct b; rewrite ?Hv.
Qed.

Lemma matches_smart_alt a b l : matches (alt a b) l <-> matches (Alt a b) l.
Proof.
  rewrite matches_alt.
  destruct a, b; simpl; rewrite ?matches_alt;
    try (split; [tauto|]; intros [H|H]; auto; by apply matches_void in H).
Qed.

Lemma matches_star_cons a c l :
  matches (Star a) (c :: l) <->
  exists l1 l2, l = l1 ++ l2 /\ matches a (c :: l1) /\ matches (Star a) l2.
Proof.
  split.
  - intros H. remember (Star a) as r eqn:Hr. remember (c :: l) as s eqn:Hs.
    revert l Hs. induction H as [| | | | | |a' l1 l2 H1 _ H2 IH]; intros k Hs;
      try discriminate. injection Hr as ->.
    destruct l1 as [|c' l1]; simpl in Hs.
    + by apply IH.
    + injection Hs as -> <-. by exists l1, l2.
  - intros (l1 & l2 & -> & H1 & H2). by apply (m_star_app a (c :: l1) l2).
Qed.

Lemma deriv_spec c r l : matches (deriv c r) l <-> matches r (c :: l).
Proof.
  revert l. induction r as [| |p|a IHa b IHb|a IHa b IHb|a IHa]; intros l; simpl.
  - split; by intros ?%matches_void.
  - split; [by intros ?%matches_void | by intros ?%matches_eps].
  - rewrite matches_cls. destruct (p c) eqn:Hc.
    + rewrite matches_eps. split; [intros ->; eauto | by intros (? & [= -> ->] & _)].
    + split; [by intros ?%matches_void | intros (? & [= -> ->] & ?); congruence].
  - assert (Hs : matches (seq (deriv c a) b) l <->
      exists l1 l2, c :: l = (c :: l1) ++ l2 /\ matches a (c :: l1) /\ matches b l2).
    { rewrite matches_smart_seq, matches_seq. setoid_rewrite IHa. simpl.
      split; intros (l1 & l2 & Hl & ?); exists l1, l2; split; congruence || naive_solver. }
    rewrite matches_seq. destruct (nullable a) eqn:Hn.
    + rewrite matches_smart_alt, matches_alt, Hs, IHb. split.
      * intros [(l1 & l2 & ? & ?)|Hb]; [by exists (c :: l1), l2|].
        exists [], (c :: l). by apply nullable_spec in Hn.
      * intros ([|c' l1] & l2 & Hl & Ha & Hb); simpl in Hl.
        -- right. by subst.
        -- left. injection Hl as <- ->. by exists l1, l2.
    + rewrite Hs. split; [intros (l1 & l2 & ?); by exists (c :: l1), l2|].
      intros ([|c' l1] & l2 & Hl & Ha & Hb); simpl in Hl.
      * apply nullable_spec in Ha. congruence.
      * injection Hl as <- ->. by exists l1, l2.
  - by rewrite matches_smart_alt, !matches_alt, IHa, IHb.
  - rewrite matches_smart_seq, matches_seq, matches_star_cons. by setoid_rewrite IHa.
Qed.

Theorem re_match_spec r l : re_match r l = true <-> matches r l.
Proof.
  revert r. induction l as [|c l IH]; intros r; simpl.
  - apply nullable_spec.
  - by rewrite IH, deriv_spec.
Qed.

Lemma fullmatch_spec r s : fullmatch r s = true <-> matches r (chars s).
Proof. apply re_match_spec. Qed.

(** *** Languages of character classes *)

Lemma all_chars_Forall p s : all_chars p s = true <-> Forall (fun c => p c = true) (chars s).
Proof.
  induction s as [|a s IH]; simpl; [by split|].
  by rewrite andb_true_iff, Forall_cons, IH.
Qed.

Lemma length_chars s : length (chars s) = String.length s.
Proof. induction s; simpl; congruence. Qed.

Lemma nonempty_chars s : nonempty s = true <-> chars s <> [].
Proof. by destruct s. Qed.

Lemma matches_star_cls p l : matches (Star (Cls p)) l <-> Forall (fun c => p c = true) l.
Proof.
  induction l as [|c l IH]; [split; constructor|].
  rewrite matches_star_cons, Forall_cons. split.
  - intros (l1 & l2 & -> & (c' & [= <- ->] & Hc)%matches_cls & Hl). by rewrite <- IH.
  - intros [Hc Hl]. exists [], l. split; [done|]. split; [by constructor | by apply IH].
Qed.

Lemma matches_plus_cls p l :
  matches (plus (Cls p)) l <-> l <> [] /\ Forall (fun c => p c = true) l.
Proof.
  unfold plus. rewrite matches_seq. split.
  - intros (l1 & l2 & -> & (c & -> & Hc)%matches_cls & Hl%matches_star_cls).
    split; [done | by constructor].
  - intros [Hne Hl]. destruct l as [|c l]; [done|]. apply Forall_cons in Hl as [Hc Hl].
    exists [c], l. split; [done|]. split; [by constructor | by apply matches_star_cls].
Qed.

Lemma matches_rep_cls n p l :
  matches (rep n (Cls p)) l <-> length l = n /\ Forall (fun c => p c = true) l.
Proof.
  revert l. induction n as [|n IH]; intros l; simpl.
  - rewrite matches_eps. split; [intros ->; by split | intros [? _]; by apply nil_length_inv].
  - rewrite matches_seq. setoid_rewrite IH. split.
    + intros (l1 & l2 & -> & (c & -> & Hc)%matches_cls & Hn & Hl). simpl.
      split; [congruence | by constructor].
    + intros [Hn Hl]. destruct l as [|c l]; [done|]. apply Forall_cons in Hl as [Hc Hl].
      exists [c], l. split; [done|]. split; [by constructor | split; [by injection Hn | done]].
Qed.

Lemma matches_lit s l : matches (lit s) l <-> l = chars s.
Proof.
  revert l. induction s as [|a s IH]; intros l; simpl.
  - apply matches_eps.
  - rewrite matches_seq. setoid_rewrite IH. split.
    + by intros (l1 & l2 & -> & (c & -> & ->%Ascii.eqb_eq)%matches_cls & ->).
    + intros ->. exists [a], (chars s). split; [done|]. split; [|done].
      constructor. apply Ascii.eqb_refl.
Qed.

(** No class of [r] contains [c], so no match of [r] does. *)
Fixpoint avoids (c : ascii) (r : re) : bool :=
  match r with
  | Void | Eps => true
  | Cls p => negb (p c)
  | Seq a b | Alt a b => avoids c a && avoids c b
  | Star a => avoids c a
  end.

Lemma matches_avoids c r l : avoids c r = true -> matches r l -> Forall (fun a => a <> c) l.
Proof.
  intros Hq H. induction H; simpl in Hq; py_inv;
    try (apply Forall_app; split); try constructor; auto.
  intros ->. congruence.
Qed.

(** A list of matches of [r] separated by [c] is the split at [c], when [r]
    does not match [c]. *)
Definition sep_by (c : ascii) (r : re) : re := Seq r (Star (Seq (Cls (Ascii.eqb c)) r)).

Lemma chars_app s t : chars (s +:+ t) = chars s ++ chars t.
Proof. induction s as [|a s IH]; [done|]. simpl. f_equal. exact IH. Qed.

Lemma slength_app s t : String.length (s +:+ t) = (String.length s + String.length t)%nat.
Proof. by rewrite <- !length_chars, chars_app, length_app. Qed.

Lemma sapp_cons c s t : String c s +:+ t = String c (s +:+ t).
Proof. done. Qed.

Lemma sapp_nil t : "" +:+ t = t.
Proof. done. Qed.

Lemma replace_char_app c t u v : replace_char c t (u +:+ v) = replace_char c t u +:+ replace_char c t v.
Proof.
  induction u as [|a u IH]; [done|]. simpl. destruct (Ascii.eqb a c); rewrite IH; [|done].
  generalize (replace_char c t u) (replace_char c t v). clear. intros x y.
  induction t as [|b t IHt]; [done|]. change (String b (t +:+ x +:+ y) = String b ((t +:+ x) +:+ y)). by rewrite IHt.
Qed.

Lemma chars_inj s t : chars s = chars t -> s = t.
Proof.
  intros H. rewrite <- (String.string_of_list_ascii_of_string s), H.
  apply String.string_of_list_ascii_of_string.
Qed.

Lemma split_on_not_nil c s : split_on c s <> [].
Proof.
  destruct s as [|a s]; simpl; [done|]. destruct (Ascii.eqb a c); [done|].
  by destruct (split_on c s).
Qed.

Definition free_of (c : ascii) (s : string) : Prop := Forall (fun a => a <> c) (chars s).

Lemma split_on_free c s : free_of c s -> split_on c s = [s].
Proof.
  unfold free_of. induction s as [|a s IH]; simpl; intros H; [done|].
  apply Forall_cons in H as [Ha H]. apply Ascii.eqb_neq in Ha. rewrite Ha, IH; done.
Qed.

Lemma split_on_app c s t :
  free_of c s -> split_on c (s +:+ String c t) = s :: split_on c t.
Proof.
  unfold free_of. induction s as [|a s IH]; simpl; intros H.
  - by rewrite Ascii.eqb_refl.
  - apply Forall_cons in H as [Ha H]. apply Ascii.eqb_neq in Ha. by rewrite Ha, IH.
Qed.

Lemma split_on_sep c s t :
  free_of c s -> split_on c (s +:+ String c "" +:+ t) = s :: split_on c t.
Proof. apply split_on_app. Qed.

Lemma split_on_parts c s : Forall (free_of c) (split_on c s).
Proof.
  unfold free_of. induction s as [|a s IH]; simpl; [by repeat constructor|].
  destruct (Ascii.eqb_spec a c) as [->|Ha]; [by constructor|].
  destruct (split_on c s) as [|h t] eqn:Ht; [by apply split_on_not_nil in Ht|].
  apply Forall_cons in IH as [Hh Ht']. by repeat constructor.
Qed.

Lemma join_split c s : join_on (String c "") (split_on c s) = s.
Proof.
  induction s as [|a s IH]; simpl; [done|].
  destruct (split_on c s) as [|h t] eqn:Ht; [by apply split_on_not_nil in Ht|].
  destruct (Ascii.eqb_spec a c) as [->|Ha].
  - change (String c (join_on (String c "") (h :: t)) = String c s). by rewrite IH.
  - rewrite <- IH. by destruct t.
Qed.

Lemma string_of_chars l : exists s, chars s = l.
Proof. exists (String.string_of_list_ascii l). apply String.list_ascii_of_string_of_list_ascii. Qed.

Lemma sep_by_split c r s :
  avoids c r = true ->
  matches (sep_by c r) (chars s) <-> Forall (fun p => matches r (chars p)) (split_on c s).
Proof.
  intros Hr. unfold sep_by. rewrite matches_seq. split.
  - intros (l1 & l2 & Hs & H1 & H2). revert l1 s Hs H1.
    remember (Star (Seq (Cls (Ascii.eqb c)) r)) as st eqn:Hst.
    induction H2 as [| | | | |a|a m1 m2 Hm1 _ Hm2 IH]; try discriminate; intros l1 s Hs H1.
    + rewrite app_nil_r in Hs. destruct (string_of_chars l1) as [t Ht].
      rewrite <- Ht in Hs. apply chars_inj in Hs as ->. rewrite split_on_free.
      * by rewrite Forall_singleton, Ht.
      * unfold free_of. rewrite Ht. by eapply matches_avoids.
    + injection Hst as ->. apply matches_seq in Hm1 as (k1 & k2 & -> & Hk1 & Hk2).
      apply matches_cls in Hk1 as (c' & -> & <-%Ascii.eqb_eq).
      destruct (string_of_chars l1) as [t1 Ht1], (string_of_chars (k2 ++ m2)) as [t2 Ht2].
      assert (s = t1 +:+ String c t2) as ->.
      { apply chars_inj. rewrite chars_app, Ht1. simpl. by rewrite Ht2. }
      rewrite split_on_app.
      * constructor; [by rewrite Ht1|]. eapply IH; [done | exact Ht2 | done].
      * unfold free_of. rewrite Ht1. by eapply matches_avoids.
  - intros H. rewrite <- (join_split c s).
    destruct (split_on c s) as [|p ps] eqn:Hs; [by apply split_on_not_nil in Hs|]. clear Hs.
    apply Forall_cons in H as [Hp Hps]. revert p Hp.
    induction Hps as [|q qs Hq Hqs IH]; intros p Hp.
    + exists (chars p), []. rewrite app_nil_r. by repeat constructor.
    + destruct (IH q Hq) as (l1 & l2 & Hl & H1 & H2).
      exists (chars p), (c :: chars (join_on (String c "") (q :: qs))). split; [|split; [done|]].
      * change (join_on (String c "") (p :: q :: qs))
          with (p +:+ String c "" +:+ join_on (String c "") (q :: qs)).
        by rewrite !chars_app.
      * rewrite Hl. apply (m_star_app _ (c :: l1) l2); [|done].
        apply (m_seq _ _ [c] l1); [|done]. constructor. apply Ascii.eqb_refl.
Qed.

(** *** Encoding, and splitting at white space *)

Lemma utf8_round_trip s : utf8_decode (utf8_encode s) = Some s.
Proof.
  induction s as [|c s IH]; [done|]. cbn [utf8_encode].
  destruct c as [[] [] [] [] [] [] [] []]; simpl; by rewrite IH.
Qed.

Definition spaceless (s : string) : Prop := Forall (fun c => is_space c = false) (chars s).

Lemma words_from_app w a s : spaceless a -> words_from w (a +:+ s) = words_from (w +:+ a) s.
Proof.
  revert w. induction a as [|c a IH]; intros w Ha.
  { f_equal. apply chars_inj. by rewrite chars_app, app_nil_r. }
  apply Forall_cons in Ha as [Hc Ha]. change (String c a +:+ s) with (String c (a +:+ s)). cbn [words_from]. rewrite Hc.
  rewrite IH by done. f_equal. apply chars_inj. by rewrite !chars_app, <- app_assoc.
Qed.

(** Characters that a match cannot avoid satisfy [p]. *)
Lemma matches_all (p : ascii -> bool) r l :
  (forall c, p c = false -> avoids c r = true) -> matches r l -> Forall (fun c => p c = true) l.
Proof.
  intros Hr Hm. apply Forall_forall. intros c Hc. apply not_false_iff_true. intros Hp.
  assert (H := matches_avoids c r l (Hr c Hp) Hm). rewrite Forall_forall in H. by apply (H c).
Qed.

(** ASCII other than white space. *)
Definition visible_ascii (c : ascii) : bool := negb (is_space c) && N.ltb (N_of_ascii c) 128.

Definition visible_text (s : string) : Prop := Forall (fun c => visible_ascii c = true) (chars s).

Lemma visible_spaceless s : visible_text s -> spaceless s.
Proof. intros H. eapply Forall_impl; [exact H|]. intros c [Hc _]%andb_true_iff. by apply negb_true_iff. Qed.

Lemma utf8_decode_ascii s : Forall (fun c => N.ltb (N_of_ascii c) 128 = true) (chars s) -> utf8_decode s = Some s.
Proof.
  induction s as [|c s IH]; [done|]. intros [Hc Hs]%Forall_cons. cbn [utf8_decode]. by rewrite Hc, IH.
Qed.

(** The text after the last separator. *)
Lemma rpartition_free c s : free_of c s -> rpartition_on c s = ("", false, s).
Proof.
  unfold free_of. induction s as [|a s IH]; [done|]. simpl. intros H. apply Forall_cons in H as [Ha Hs].
  rewrite IH by done. by apply Ascii.eqb_neq in Ha as ->.
Qed.

Lemma rpartition_app c s t : free_of c t -> rpartition_on c (s +:+ String c t) = (s, true, t).
Proof.
  intros Ht. induction s as [|a s IH].
  - change ("" +:+ String c t) with (String c t). cbn [rpartition_on]. by rewrite (rpartition_free c t Ht), Ascii.eqb_refl.
  - change (String a s +:+ String c t) with (String a (s +:+ String c t)). cbn [rpartition_on]. by rewrite IH.
Qed.
