(* ===== verification/SemVer.v ===== *)
(** * Identifiers and versions: the grammars and [semver_key] of scripts/registry.py

    The regular expressions that name modules, versions, commits and digests,
    the groups [SEMVER_RE] captures, and the sort key of a version.  The key is
    a typed tuple ordered by [key_compare]; [key_compare_python] says that this
    is Python's comparison of the tuple the code builds (which never raises on
    such tuples), and [precedes] states the precedence of the Semantic Versioning
    specification, section 11, on the texts, without the key. *)

From S2P Require Import Prelude PyText.

Open Scope string_scope.
Open Scope list_scope.

(** ** Exceptions of the registry tooling *)

(** [RegistryValidationError] is a subclass of [ValueError]; the other
    constructors are the exceptions the interpreter itself raises. *)
Inductive exn :=
| RegistryValidationError (msg : string)
| ValueError (msg : string)
| TypeError
| KeyError (key : string)
| IndexError
| NoAttribute.

Abbreviation invalid msg := (Err (RegistryValidationError msg)).

(** ** Grammars *)

Definition digit : re := Cls is_ascii_digit.
Definition digit19 : re := Cls (range "1" "9").
Definition is_lower_alnum (c : ascii) : bool := range "a" "z" c || range "0" "9" c.
Definition is_hex (c : ascii) : bool := range "0" "9" c || range "a" "f" c.
(** [[0-9A-Za-z-]] and [[A-Za-z-]] *)
Definition is_ident_char (c : ascii) : bool :=
  is_ascii_digit c || is_ascii_alpha c || Ascii.eqb "-" c.
Definition is_alpha_dash (c : ascii) : bool := is_ascii_alpha c || Ascii.eqb "-" c.

Definition MODULE_ID_RE : re :=
  Seq (Cls (range "a" "z"))
    (Seq (Star (Cls is_lower_alnum))
       (Star (Seq (lit "-") (plus (Cls is_lower_alnum))))).

(** [0|[1-9][0-9]*] *)
Definition NUMERIC_RE : re := Alt (lit "0") (Seq digit19 (Star digit)).

(** [0|[1-9][0-9]*|[0-9]*[A-Za-z-][0-9A-Za-z-]*] *)
Definition PRE_IDENT_RE : re :=
  Alt NUMERIC_RE (Seq (Star digit) (Seq (Cls is_alpha_dash) (Star (Cls is_ident_char)))).

Definition PRERELEASE_RE : re := sep_by "." PRE_IDENT_RE.
Definition BUILD_RE : re := sep_by "." (plus (Cls is_ident_char)).

Definition SEMVER_RE : re :=
  Seq NUMERIC_RE (Seq (lit ".") (Seq NUMERIC_RE (Seq (lit ".") (Seq NUMERIC_RE
    (Seq (opt (Seq (lit "-") PRERELEASE_RE))
         (opt (Seq (lit "+") BUILD_RE))))))).

Definition COMMIT_RE : re := Seq (rep 40 (Cls is_hex)) (opt (rep 24 (Cls is_hex))).
Definition SHA256_RE : re := rep 64 (Cls is_hex).

(** ** The groups of [SEMVER_RE.fullmatch] *)

Record semver_match := {
  sv_major : string; sv_minor : string; sv_patch : string;
  sv_pre : option string;     (* group 4 *)
  sv_build : option string    (* group 5 *)
}.

Definition tagged (f : bool) (s : string) : option string := if f then Some s else None.

Definition semver_groups (s : string) : option semver_match :=
  if fullmatch SEMVER_RE s then
    let '(front, has_build, build) := partition_on "+" s in
    let '(core, has_pre, pre) := partition_on "-" front in
    match split_on "." core with
    | [major; minor; patch] =>
        Some {| sv_major := major; sv_minor := minor; sv_patch := patch;
                sv_pre := tagged has_pre pre; sv_build := tagged has_build build |}
    | _ => None
    end
  else None.

(** ** The sort key of a version *)

Inductive ident_key := Num (n : N) | Text (s : string).

#[export] Instance ident_key_eq_dec : EqDecision ident_key.
Proof. solve_decision. Defined.

Definition ident_key_of (part : string) : ident_key :=
  if isdigit part then Num (py_int part) else Text part.

(** Major, minor, patch and the prerelease identifiers, [None] for a release. *)
Definition version_key : Type := N * (N * (N * option (list ident_key))).

Definition semver_key (version : string) : res exn version_key :=
  match semver_groups version with
  | None => invalid ("invalid SemVer: " +:+ version)
  | Some m =>
      let prerelease_key :=
        match sv_pre m with
        | None => None
        | Some pre => Some (map ident_key_of (split_on "." pre))
        end in
      Ok (py_int (sv_major m), (py_int (sv_minor m), (py_int (sv_patch m), prerelease_key)))
  end.

Definition ident_compare (a b : ident_key) : comparison :=
  match a, b with
  | Num m, Num n => N.compare m n
  | Num _, Text _ => Lt
  | Text _, Num _ => Gt
  | Text s, Text t => str_compare s t
  end.

Definition key_compare : version_key -> version_key -> comparison :=
  pair_compare N.compare (pair_compare N.compare
    (pair_compare N.compare (option_compare (list_compare ident_compare)))).

Definition key_le : version_key -> version_key -> bool := le_of key_compare.

#[export] Instance ident_ordered : Ordered ident_compare.
Proof.
  split.
  - intros [m|s] [n|t]; simpl; rewrite ?cmp_eq; split; congruence.
  - intros [m|s] [n|t]; simpl; try done; apply cmp_opp.
  - intros [m|s] [n|t] [k|u]; simpl; try done; apply cmp_trans.
Qed.

#[export] Instance key_ordered : Ordered key_compare.
Proof. apply _. Qed.

#[export] Instance key_le_preorder : TotalPreorder key_le.
Proof. apply le_of_preorder. apply _. Qed.

(** *** The tuple the code builds and Python's comparison of tuples *)

#[local] Set Warnings "-register-all".

Inductive pyval := VInt (n : N) | VStr (s : string) | VTuple (l : list pyval).

Fixpoint py_eqb (a b : pyval) {struct a} : bool :=
  match a, b with
  | VInt m, VInt n => N.eqb m n
  | VStr s, VStr t => String.eqb s t
  | VTuple l, VTuple m =>
      (fix go (l m : list pyval) : bool :=
         match l, m with
         | [], [] => true
         | x :: l, y :: m => py_eqb x y && go l m
         | _, _ => false
         end) l m
  | _, _ => false
  end.

(** [None] is the [TypeError] of comparing an [int] with a [str]. *)
Fixpoint py_compare (a b : pyval) {struct a} : option comparison :=
  match a, b with
  | VInt m, VInt n => Some (N.compare m n)
  | VStr s, VStr t => Some (str_compare s t)
  | VTuple l, VTuple m =>
      (fix go (l m : list pyval) : option comparison :=
         match l, m with
         | [], [] => Some Eq
         | [], _ => Some Lt
         | _, [] => Some Gt
         | x :: l, y :: m => if py_eqb x y then go l m else py_compare x y
         end) l m
  | _, _ => None
  end.

Definition ident_tuple (i : ident_key) : pyval :=
  match i with
  | Num n => VTuple [VInt 0; VInt n]
  | Text s => VTuple [VInt 1; VStr s]
  end.

Definition key_tuple (k : version_key) : pyval :=
  let '(major, (minor, (patch, pre))) := k in
  VTuple [VInt major; VInt minor; VInt patch;
          match pre with
          | None => VTuple [VInt 1]
          | Some l => VTuple [VInt 0; VTuple (map ident_tuple l)]
          end].

(** *** Precedence as the Semantic Versioning specification states it *)

Inductive ident_lt : ident_key -> ident_key -> Prop :=
| lt_numeric m n : (m < n)%N -> ident_lt (Num m) (Num n)          (* 11.4.1 *)
| lt_lexical s t : str_compare s t = Lt -> ident_lt (Text s) (Text t)  (* 11.4.2 *)
| lt_num_text n s : ident_lt (Num n) (Text s).                    (* 11.4.3 *)

Inductive idents_lt : list ident_key -> list ident_key -> Prop :=
| lt_fewer i l : idents_lt [] (i :: l)                            (* 11.4.4 *)
| lt_here i j l m : ident_lt i j -> idents_lt (i :: l) (j :: m)
| lt_there i l m : idents_lt l m -> idents_lt (i :: l) (i :: m).

Inductive semver_lt : version_key -> version_key -> Prop :=
| lt_major a b x y : (a < b)%N -> semver_lt (a, x) (b, y)          (* 11.2 *)
| lt_minor a b c x y : (b < c)%N -> semver_lt (a, (b, x)) (a, (c, y))
| lt_patch a b c d x y : (c < d)%N -> semver_lt (a, (b, (c, x))) (a, (b, (d, y)))
| lt_release a b c l : semver_lt (a, (b, (c, Some l))) (a, (b, (c, None)))  (* 11.3 *)
| lt_pre a b c l m : idents_lt l m ->
    semver_lt (a, (b, (c, Some l))) (a, (b, (c, Some m))).         (* 11.4 *)

(** ** The groups are those of the expression *)

Lemma partition_on_free c s : free_of c s -> partition_on c s = (s, false, "").
Proof.
  unfold free_of. induction s as [|a s IH]; simpl; intros H; [done|].
  apply Forall_cons in H as [Ha H]. apply Ascii.eqb_neq in Ha. by rewrite Ha, IH.
Qed.

Lemma partition_on_app c s t :
  free_of c s -> partition_on c (s +:+ String c t) = (s, true, t).
Proof.
  unfold free_of. induction s as [|a s IH]; simpl; intros H.
  - by rewrite Ascii.eqb_refl.
  - apply Forall_cons in H as [Ha H]. apply Ascii.eqb_neq in Ha. by rewrite Ha, IH.
Qed.

Lemma free_of_app c s t : free_of c (s +:+ t) <-> free_of c s /\ free_of c t.
Proof. unfold free_of. by rewrite chars_app, Forall_app. Qed.

Lemma match_free c r s : avoids c r = true -> matches r (chars s) -> free_of c s.
Proof. apply matches_avoids. Qed.

(** A match split into strings. *)
Lemma matches_seq_str a b s :
  matches (Seq a b) (chars s) <->
  exists s1 s2, s = s1 +:+ s2 /\ matches a (chars s1) /\ matches b (chars s2).
Proof.
  rewrite matches_seq. split.
  - intros (l1 & l2 & Hs & H1 & H2).
    destruct (string_of_chars l1) as [s1 <-], (string_of_chars l2) as [s2 <-].
    exists s1, s2. rewrite <- chars_app in Hs. by apply chars_inj in Hs.
  - intros (s1 & s2 & -> & H1 & H2). exists (chars s1), (chars s2). by rewrite chars_app.
Qed.

Lemma matches_lit_str s t : matches (lit s) (chars t) <-> t = s.
Proof. rewrite matches_lit. split; [apply chars_inj | by intros ->]. Qed.

Lemma matches_opt_lit c r s :
  matches (opt (Seq (lit (String c "")) r)) (chars s) <->
  s = "" \/ exists t, s = String c t /\ matches r (chars t).
Proof.
  rewrite matches_opt, matches_seq_str. setoid_rewrite matches_lit_str. split.
  - intros [H|(s1 & t & -> & -> & H)]; [left; by destruct s | right; by exists t].
  - intros [->|(t & -> & H)]; [by left | right; by exists (String c ""), t].
Qed.

(** The text of a version from its groups. *)
Definition semver_text (m : semver_match) : string :=
  sv_major m +:+ "." +:+ sv_minor m +:+ "." +:+ sv_patch m
  +:+ match sv_pre m with None => "" | Some p => "-" +:+ p end
  +:+ match sv_build m with None => "" | Some b => "+" +:+ b end.

Definition group_ok (r : re) (g : option string) : Prop :=
  match g with None => True | Some s => fullmatch r s = true end.

Record semver_match_ok (m : semver_match) : Prop := {
  ok_major : fullmatch NUMERIC_RE (sv_major m) = true;
  ok_minor : fullmatch NUMERIC_RE (sv_minor m) = true;
  ok_patch : fullmatch NUMERIC_RE (sv_patch m) = true;
  ok_pre : group_ok PRERELEASE_RE (sv_pre m);
  ok_build : group_ok BUILD_RE (sv_build m)
}.

Lemma matches_seq_intro a b s t :
  matches a (chars s) -> matches b (chars t) -> matches (Seq a b) (chars (s +:+ t)).
Proof. intros. rewrite chars_app. by constructor. Qed.

Ltac re_inv :=
  repeat match goal with
  | H : matches (Seq _ _) (chars _) |- _ => apply matches_seq_str in H as (? & ? & -> & ? & ?)
  | H : matches (lit _) (chars _) |- _ => apply matches_lit_str in H as ->
  | H : matches (opt (Seq (lit _) _)) (chars _) |- _ => apply matches_opt_lit in H
  end.

Lemma semver_re_iff s :
  fullmatch SEMVER_RE s = true <-> exists m, s = semver_text m /\ semver_match_ok m.
Proof.
  rewrite fullmatch_spec. unfold SEMVER_RE. split.
  - intros H. re_inv.
    match goal with
    | Ha : matches NUMERIC_RE (chars ?a), Hb : matches NUMERIC_RE (chars ?b),
      Hc : matches NUMERIC_RE (chars ?c), Hp : ?p = "" \/ (exists t, _ /\ matches PRERELEASE_RE _),
      Hq : ?q = "" \/ (exists t, _ /\ matches BUILD_RE _) |- context [?a +:+ "." +:+ ?b +:+ "." +:+ ?c +:+ ?p +:+ ?q] =>
      exists {| sv_major := a; sv_minor := b; sv_patch := c;
              sv_pre := match p with "" => None | String _ p => Some p end;
              sv_build := match q with "" => None | String _ q => Some q end |};
      split; [unfold semver_text; simpl;
        destruct Hp as [->|(? & -> & _)], Hq as [->|(? & -> & _)]; done|];
      split; simpl; try (by apply fullmatch_spec);
      [destruct Hp as [->|(? & -> & ?)] | destruct Hq as [->|(? & -> & ?)]];
      try done; by apply fullmatch_spec
    end.
  - intros (m & -> & [Ha Hb Hc Hp Hq]). unfold semver_text.
    rewrite fullmatch_spec in Ha, Hb, Hc.
    repeat (apply matches_seq_intro; try assumption; try (by apply matches_lit_str));
      apply matches_opt_lit.
    + destruct (sv_pre m) as [p|]; [right | by left]. exists p. by apply fullmatch_spec in Hp.
    + destruct (sv_build m) as [q|]; [right | by left]. exists q. by apply fullmatch_spec in Hq.
Qed.

Lemma core_free c a b d :
  avoids c NUMERIC_RE = true -> c <> "."%char ->
  matches NUMERIC_RE (chars a) -> matches NUMERIC_RE (chars b) -> matches NUMERIC_RE (chars d) ->
  free_of c (a +:+ "." +:+ b +:+ "." +:+ d).
Proof.
  intros Hc Hdot Ha Hb Hd. rewrite !free_of_app.
  repeat split; try (by apply (match_free _ NUMERIC_RE)); repeat constructor; congruence.
Qed.

Lemma semver_groups_text m :
  semver_match_ok m -> semver_groups (semver_text m) = Some m.
Proof.
  intros Hm. unfold semver_groups. rewrite (proj2 (semver_re_iff _)) by eauto.
  destruct Hm as [Ha Hb Hc Hp Hq], m as [a b c p q]; unfold semver_text; simpl in *.
  rewrite fullmatch_spec in Ha, Hb, Hc.
  assert (Hplus := core_free "+" a b c eq_refl ltac:(done) Ha Hb Hc).
  assert (Hdash := core_free "-" a b c eq_refl ltac:(done) Ha Hb Hc).
  set (core := a +:+ "." +:+ b +:+ "." +:+ c) in *.
  assert (Hcore : split_on "." core = [a; b; c]).
  { unfold core. rewrite !split_on_sep, split_on_free; [done|..]; by apply (match_free _ NUMERIC_RE). }
  set (pt := match p with None => "" | Some p => "-" +:+ p end).
  assert (Hfront : free_of "+" (core +:+ pt)).
  { apply free_of_app. split; [done|]. destruct p as [p|]; [|by constructor].
    apply free_of_app. split; [by repeat constructor|].
    apply fullmatch_spec in Hp. by apply (match_free _ PRERELEASE_RE). }
  assert (Htext : a +:+ "." +:+ b +:+ "." +:+ c +:+ pt +:+ match q with None => "" | Some b0 => "+" +:+ b0 end
    = (core +:+ pt) +:+ match q with None => "" | Some b0 => String "+" b0 end).
  { apply chars_inj. unfold core. rewrite !chars_app, <- !app_assoc. by destruct q. }
  rewrite Htext. clear Htext.
  assert (Hq' : partition_on "+" ((core +:+ pt) +:+ match q with None => "" | Some b0 => String "+" b0 end)
    = (core +:+ pt, match q with None => false | _ => true end, default "" q)).
  { destruct q as [q|]; [by apply partition_on_app|].
    rewrite partition_on_free; [|by apply free_of_app; split; [|constructor]].
    f_equal. f_equal. apply chars_inj. by rewrite chars_app, app_nil_r. }
  rewrite Hq'.
  assert (Hp' : partition_on "-" (core +:+ pt)
    = (core, match p with None => false | _ => true end, default "" p)).
  { destruct p as [p|]; [by apply partition_on_app|]. unfold pt.
    rewrite partition_on_free; [|by apply free_of_app; split; [|constructor]].
    f_equal. f_equal. apply chars_inj. by rewrite chars_app, app_nil_r. }
  rewrite Hp', Hcore. by destruct p, q.
Qed.

(** The groups are the unique decomposition of a version. *)
Lemma semver_groups_iff s m :
  semver_groups s = Some m <-> s = semver_text m /\ semver_match_ok m.
Proof.
  split.
  - intros H. assert (Hf : fullmatch SEMVER_RE s = true).
    { unfold semver_groups in H. by destruct (fullmatch SEMVER_RE s). }
    apply semver_re_iff in Hf as (m' & -> & Hm'). rewrite semver_groups_text in H by done.
    by injection H as ->.
  - intros [-> Hm]. by apply semver_groups_text.
Qed.

Lemma semver_key_Ok version :
  is_ok (semver_key version) = fullmatch SEMVER_RE version.
Proof.
  unfold semver_key. destruct (semver_groups version) as [m|] eqn:Hm; simpl.
  - apply semver_groups_iff in Hm as [-> Hm]. symmetry. apply semver_re_iff. eauto.
  - unfold semver_groups in Hm. destruct (fullmatch SEMVER_RE version) eqn:Hf; [|done].
    assert (Hm' := Hf). apply semver_re_iff in Hm' as (m & -> & Hok).
    assert (Hg := semver_groups_text m Hok). unfold semver_groups in Hg.
    rewrite Hf in Hg. congruence.
Qed.

(** ** The comparison of keys *)

Lemma ident_tuple_eqb i j : py_eqb (ident_tuple i) (ident_tuple j) = bool_decide (i = j).
Proof.
  destruct i as [m|s], j as [n|t]; cbn -[bool_decide]; rewrite ?andb_true_r;
    try (symmetry; by apply bool_decide_eq_false_2).
  - destruct (N.eqb_spec m n); symmetry;
      [apply bool_decide_eq_true_2 | apply bool_decide_eq_false_2]; congruence.
  - destruct (String.eqb_spec s t); symmetry;
      [apply bool_decide_eq_true_2 | apply bool_decide_eq_false_2]; congruence.
Qed.

Lemma ident_tuple_compare i j :
  i <> j -> py_compare (ident_tuple i) (ident_tuple j) = Some (ident_compare i j).
Proof.
  intros Hij. destruct i as [m|s], j as [n|t]; simpl; try done.
  - destruct (N.eqb_spec m n); congruence.
  - destruct (String.eqb_spec s t); congruence.
Qed.

Lemma idents_tuple_compare l m :
  py_compare (VTuple (map ident_tuple l)) (VTuple (map ident_tuple m))
  = Some (list_compare ident_compare l m).
Proof.
  revert m. induction l as [|i l IH]; intros [|j m]; [done..|].
  assert (Hu : py_compare (VTuple (map ident_tuple (i :: l))) (VTuple (map ident_tuple (j :: m)))
    = if py_eqb (ident_tuple i) (ident_tuple j)
      then py_compare (VTuple (map ident_tuple l)) (VTuple (map ident_tuple m))
      else py_compare (ident_tuple i) (ident_tuple j)) by done.
  rewrite Hu, ident_tuple_eqb. cbn [list_compare]. case_bool_decide as Hij.
  - subst. by rewrite cmp_refl, IH by apply _.
  - rewrite ident_tuple_compare by done.
    destruct (ident_compare i j) eqn:Hc; [|done..]. by apply cmp_eq in Hc.
Qed.

Lemma idents_tuple_eqb l m :
  py_eqb (VTuple (map ident_tuple l)) (VTuple (map ident_tuple m)) = bool_decide (l = m).
Proof.
  revert m. induction l as [|i l IH]; intros [|j m]; [done..|].
  assert (Hu : py_eqb (VTuple (map ident_tuple (i :: l))) (VTuple (map ident_tuple (j :: m)))
    = py_eqb (ident_tuple i) (ident_tuple j)
      && py_eqb (VTuple (map ident_tuple l)) (VTuple (map ident_tuple m))) by done.
  rewrite Hu, IH, ident_tuple_eqb. do 2 case_bool_decide; subst; simpl; symmetry;
    (apply bool_decide_eq_true_2 || apply bool_decide_eq_false_2); congruence.
Qed.

(** One component of a numeric prefix. *)
Lemma tuple_int_compare m n l k :
  py_compare (VTuple (VInt m :: l)) (VTuple (VInt n :: k))
  = match N.compare m n with Eq => py_compare (VTuple l) (VTuple k) | c => Some c end.
Proof.
  simpl. destruct (N.eqb_spec m n) as [->|Hmn]; [by rewrite N.compare_refl|].
  destruct (N.compare m n) eqn:Hc; [|done..]. by apply N.compare_eq_iff in Hc.
Qed.

Theorem key_compare_python a b :
  py_compare (key_tuple a) (key_tuple b) = Some (key_compare a b).
Proof.
  destruct a as (a1 & a2 & a3 & ap), b as (b1 & b2 & b3 & bp).
  unfold key_tuple, key_compare, pair_compare. cbn [fst snd].
  rewrite !tuple_int_compare.
  destruct (a1 ?= b1)%N, (a2 ?= b2)%N, (a3 ?= b3)%N; try done.
  destruct ap as [l|], bp as [m|]; try done. cbn [option_compare].
  transitivity (if py_eqb (VTuple (map ident_tuple l)) (VTuple (map ident_tuple m))
    then Some Eq else py_compare (VTuple (map ident_tuple l)) (VTuple (map ident_tuple m))).
  { simpl. by repeat case_match. }
  rewrite idents_tuple_eqb, idents_tuple_compare. case_bool_decide; [|done].
  subst. by rewrite cmp_refl by apply _.
Qed.

Lemma ident_lt_spec i j : ident_compare i j = Lt <-> ident_lt i j.
Proof.
  split.
  - destruct i, j; simpl; intros H; try done; constructor; try done; by apply N.compare_lt_iff.
  - inversion 1; subst; simpl; try done; by apply N.compare_lt_iff.
Qed.

Lemma idents_lt_spec l m : list_compare ident_compare l m = Lt <-> idents_lt l m.
Proof.
  revert m. induction l as [|i l IH]; intros [|j m]; simpl.
  - split; [done | inversion 1].
  - split; [constructor | done].
  - split; [done | inversion 1].
  - destruct (ident_compare i j) eqn:Hc.
    + apply cmp_eq in Hc as ->. rewrite IH. split; [by constructor|].
      inversion 1 as [|? ? ? ? Hlt|]; subst; [|done].
      apply ident_lt_spec in Hlt. by rewrite (cmp_refl ident_compare) in Hlt.
    + split; [|done]. intros _. constructor. by apply ident_lt_spec.
    + split; [done|]. inversion 1 as [|? ? ? ? Hlt|]; subst.
      * apply ident_lt_spec in Hlt. congruence.
      * by rewrite (cmp_refl ident_compare) in Hc.
Qed.

Theorem key_compare_semver a b : key_compare a b = Lt <-> semver_lt a b.
Proof.
  destruct a as (a1 & a2 & a3 & ap), b as (b1 & b2 & b3 & bp).
  unfold key_compare, pair_compare. cbn [fst snd]. split.
  - destruct (N.compare_spec a1 b1) as [->|?|?]; [|by constructor|done].
    destruct (N.compare_spec a2 b2) as [->|?|?]; [|by constructor|done].
    destruct (N.compare_spec a3 b3) as [->|?|?]; [|by constructor|done].
    destruct ap, bp; simpl; intros H; try done; [|apply lt_release].
    apply lt_pre. by apply idents_lt_spec.
  - inversion 1; subst; rewrite ?N.compare_refl; try done;
      try (by rewrite (proj2 (N.compare_lt_iff _ _)) by done).
    simpl. by apply idents_lt_spec.
Qed.

(** ** The key forgets the build metadata, and nothing else *)

Definition without_build (m : semver_match) : semver_match :=
  {| sv_major := sv_major m; sv_minor := sv_minor m; sv_patch := sv_patch m;
     sv_pre := sv_pre m; sv_build := None |}.

Lemma int_from_shift acc s :
  int_from acc s = (acc * 10 ^ N.of_nat (String.length s) + int_from 0 s)%N.
Proof.
  revert acc. induction s as [|a s IH]; intros acc; simpl; [lia|].
  rewrite IH, (IH (0 * 10 + digit_value a)%N), Nat2N.inj_succ, N.pow_succ_r'. lia.
Qed.

Definition all_digits (s : string) : Prop := all_chars is_ascii_digit s = true.

Lemma digit_value_lt a : is_ascii_digit a = true -> (digit_value a < 10)%N.
Proof.
  unfold is_ascii_digit, range, chr_in, digit_value. intros H. py_inv.
  apply N.leb_le in H, H0. simpl in *. lia.
Qed.

Lemma digit_value_inj a b :
  is_ascii_digit a = true -> is_ascii_digit b = true -> digit_value a = digit_value b -> a = b.
Proof.
  unfold is_ascii_digit, range, chr_in, digit_value. intros Ha Hb H. py_inv.
  repeat match goal with H : (_ <=? _)%N = true |- _ => apply N.leb_le in H end. simpl in *.
  rewrite <- (ascii_N_embedding a), <- (ascii_N_embedding b). f_equal. lia.
Qed.

Lemma int_from_lt s : all_digits s -> (int_from 0 s < 10 ^ N.of_nat (String.length s))%N.
Proof.
  unfold all_digits. induction s as [|a s IH]; simpl; intros H; [lia|]. py_inv.
  rewrite int_from_shift, Nat2N.inj_succ, N.pow_succ_r'.
  assert (Ha := digit_value_lt a ltac:(done)). specialize (IH ltac:(done)).
  set (p := (10 ^ N.of_nat (String.length s))%N) in *. nia.
Qed.

Lemma int_from_inj s t :
  all_digits s -> all_digits t -> String.length s = String.length t ->
  int_from 0 s = int_from 0 t -> s = t.
Proof.
  revert t. unfold all_digits. induction s as [|a s IH]; intros [|b t]; simpl; try done.
  intros Hs Ht Hl H. py_inv. injection Hl as Hl.
  rewrite (int_from_shift _ s), (int_from_shift _ t), <- Hl in H.
  assert (Hs' := int_from_lt s ltac:(done)). assert (Ht' := int_from_lt t ltac:(done)).
  rewrite <- Hl in Ht'. set (p := (10 ^ N.of_nat (String.length s))%N) in *.
  assert (digit_value a = digit_value b) by nia.
  f_equal; [by apply digit_value_inj | apply IH; try done; nia].
Qed.

(** A numeral without a leading zero. *)
Definition numeral (s : string) : Prop := matches NUMERIC_RE (chars s).

Lemma numeral_cases s :
  numeral s -> s = "0" \/ exists a r, s = String a r /\ range "1" "9" a = true /\ all_digits r.
Proof.
  unfold numeral, NUMERIC_RE. rewrite matches_alt.
  intros [H|H]; [left; by apply matches_lit_str|right].
  apply matches_seq in H as (l1 & l2 & Hs & (a & -> & Ha)%matches_cls & Hl%matches_star_cls).
  destruct s as [|b r]; [done|]. injection Hs as -> <-. exists a, r.
  split; [done|]. split; [done|]. by apply all_chars_Forall.
Qed.

Lemma numeral_digits s : numeral s -> all_digits s.
Proof.
  intros [->|(a & r & -> & Ha & Hr)]%numeral_cases; [done|].
  unfold all_digits in *. simpl. rewrite Hr, andb_true_r.
  revert Ha. unfold is_ascii_digit, range, chr_in. simpl.
  rewrite !andb_true_iff, !N.leb_le. lia.
Qed.

Lemma numeral_lower a r :
  range "1" "9" a = true -> all_digits r ->
  (10 ^ N.of_nat (String.length r) <= py_int (String a r))%N.
Proof.
  intros Ha Hr. unfold py_int. simpl. rewrite int_from_shift.
  revert Ha. unfold range, chr_in, digit_value. simpl. rewrite andb_true_iff, !N.leb_le. intros [].
  set (p := (10 ^ N.of_nat (String.length r))%N). nia.
Qed.

Lemma numeral_inj s t : numeral s -> numeral t -> py_int s = py_int t -> s = t.
Proof.
  intros Hs Ht H. assert (Hds := numeral_digits s Hs). assert (Hdt := numeral_digits t Ht).
  apply int_from_inj; try done.
  apply numeral_cases in Hs, Ht.
  destruct Hs as [->|(a & r & -> & Ha & Hr)], Ht as [->|(b & q & -> & Hb & Hq)]; [done|..].
  - assert (H1 := numeral_lower b q Hb Hq). rewrite <- H in H1.
    change (py_int "0") with 0%N in H1. assert (10 ^ N.of_nat (String.length q) <> 0)%N by (apply N.pow_nonzero; lia). lia.
  - assert (H1 := numeral_lower a r Ha Hr). rewrite H in H1.
    change (py_int "0") with 0%N in H1. assert (10 ^ N.of_nat (String.length r) <> 0)%N by (apply N.pow_nonzero; lia). lia.
  - assert (H1 := numeral_lower a r Ha Hr). assert (H2 := numeral_lower b q Hb Hq).
    assert (H3 := int_from_lt _ Hds). assert (H4 := int_from_lt _ Hdt).
    unfold py_int in *. rewrite H in H1. rewrite <- H in H2. simpl String.length in *.
    assert (Hm := N.pow_lt_mono_r_iff 10). f_equal.
    assert (N.of_nat (String.length r) < N.of_nat (S (String.length q)))%N by (apply Hm; lia).
    assert (N.of_nat (String.length q) < N.of_nat (S (String.length r)))%N by (apply Hm; lia).
    lia.
Qed.

Lemma alpha_dash_not_digit c : is_alpha_dash c = true -> is_digit c = false.
Proof. destruct c as [[] [] [] [] [] [] [] []]; done. Qed.

Lemma digit_ascii s : all_chars is_ascii_digit s = true -> all_chars is_digit s = true.
Proof.
  rewrite !all_chars_Forall. intros H. eapply Forall_impl; [exact H|].
  intros c Hc. unfold is_digit. by rewrite Hc.
Qed.

Definition pre_ident (s : string) : Prop := matches PRE_IDENT_RE (chars s).

Lemma pre_ident_digits s : pre_ident s -> isdigit s = true -> numeral s.
Proof.
  unfold pre_ident, PRE_IDENT_RE. rewrite matches_alt. intros [H|H] Hd; [done|].
  re_inv. unfold isdigit in Hd. py_inv.
  rewrite all_chars_Forall, !chars_app, !Forall_app in *.
  match goal with H : matches (Cls is_alpha_dash) _ |- _ =>
    apply matches_cls in H as (c & Hc & Ha) end.
  rewrite Hc in *. destruct_and!.
  match goal with H : Forall _ [c] |- _ => apply Forall_inv in H end.
  apply alpha_dash_not_digit in Ha. congruence.
Qed.

Lemma ident_key_of_inj p q :
  pre_ident p -> pre_ident q -> ident_key_of p = ident_key_of q -> p = q.
Proof.
  unfold ident_key_of. intros Hp Hq.
  destruct (isdigit p) eqn:Dp, (isdigit q) eqn:Dq; intros [= H]; [|done].
  apply numeral_inj; [by apply pre_ident_digits..|done].
Qed.

Lemma pre_idents s : fullmatch PRERELEASE_RE s = true <-> Forall pre_ident (split_on "." s).
Proof. rewrite fullmatch_spec. unfold PRERELEASE_RE. by rewrite sep_by_split. Qed.

Lemma ident_keys_inj l m :
  Forall pre_ident l -> Forall pre_ident m -> map ident_key_of l = map ident_key_of m -> l = m.
Proof.
  intros Hl. revert m. induction Hl as [|p l Hp Hl IH]; intros [|q m] Hm; simpl; try done.
  apply Forall_cons in Hm as [Hq Hm]. intros [= Hpq Hlm].
  f_equal; [by apply ident_key_of_inj | by apply IH].
Qed.

Lemma split_on_inj c s t : split_on c s = split_on c t -> s = t.
Proof. intros H. by rewrite <- (join_split c s), H, join_split. Qed.

Lemma semver_key_text m :
  semver_match_ok m ->
  semver_key (semver_text m) =
  Ok (py_int (sv_major m), (py_int (sv_minor m), (py_int (sv_patch m),
      option_map (fun pre => map ident_key_of (split_on "." pre)) (sv_pre m)))).
Proof. intros Hm. unfold semver_key. by rewrite semver_groups_text. Qed.

(** ** Properties *)

(** A string is accepted by [SEMVER_RE] exactly when it has groups, the
    groups are the texts between the separators, each is a numeral without a
    leading zero (or a dotted list of identifiers), and printing them gives
    the string back: parsing and printing a version are inverse. *)
Theorem semver_groups_roundtrip s :
  fullmatch SEMVER_RE s = true <->
  exists m, semver_groups s = Some m /\ s = semver_text m /\ semver_match_ok m /\
    forall m', semver_match_ok m' -> s = semver_text m' -> m' = m.
Proof.
  rewrite semver_re_iff. split.
  - intros (m & -> & Hm). exists m. rewrite semver_groups_text by done.
    split_and!; try done. intros m' Hm' Ht.
    assert (H := semver_groups_text m' Hm'). rewrite <- Ht, semver_groups_text in H by done.
    congruence.
  - intros (m & _ & Ht & Hm & _). eauto.
Qed.

(** Two versions have the same sort key exactly when they differ at most in
    their build metadata: distinct cores or prereleases never collide. *)
Lemma semver_key_injective m m' :
  semver_match_ok m -> semver_match_ok m' ->
  semver_key (semver_text m) = semver_key (semver_text m') <->
  without_build m = without_build m'.
Proof.
  intros Hm Hm'. rewrite !semver_key_text by done.
  destruct Hm as [Ha Hb Hc Hp _], Hm' as [Ha' Hb' Hc' Hp' _].
  destruct m as [a b c p q], m' as [a' b' c' p' q']; unfold without_build; simpl in *.
  apply fullmatch_spec in Ha, Hb, Hc, Ha', Hb', Hc'. split.
  - intros [= H1 H2 H3 H4]. f_equal; try by apply numeral_inj.
    destruct p as [p|], p' as [p'|]; try done. injection H4 as H4. f_equal.
    apply pre_idents in Hp, Hp'. by eapply split_on_inj, ident_keys_inj.
  - intros [= -> -> -> ->]. done.
Qed.

Lemma semver_key_injective_witness :
  semver_match_ok {| sv_major := "1"; sv_minor := "2"; sv_patch := "0";
                     sv_pre := Some "rc.1"; sv_build := Some "a" |} /\
  semver_key "1.2.0-rc.1+a" = semver_key "1.2.0-rc.1+b.2".
Proof.
  split; [by split|].
  apply (semver_key_injective
    {| sv_major := "1"; sv_minor := "2"; sv_patch := "0"; sv_pre := Some "rc.1"; sv_build := Some "a" |}
    {| sv_major := "1"; sv_minor := "2"; sv_patch := "0"; sv_pre := Some "rc.1"; sv_build := Some "b.2" |});
    [by split | by split | reflexivity].
Defined.

(** *** Precedence of version texts, by section 11 of the specification *)

(** The number a text of digits writes. *)
Fixpoint decimal (s : string) : N :=
  match s with "" => 0%N | String a s => (digit_value a * 10 ^ N.of_nat (String.length s) + decimal s)%N end.

(** 11.4.1 to 11.4.3: identifiers of digits numerically, the others in ASCII
    order, and those of digits first. *)
Definition identifier_precedes (p q : string) : Prop :=
  all_digits p /\ all_digits q /\ (decimal p < decimal q)%N \/
  ~ all_digits p /\ ~ all_digits q /\ str_compare p q = Lt \/
  all_digits p /\ ~ all_digits q.

(** 11.4: the first difference decides, then (11.4.4) the number of fields. *)
Inductive identifiers_precede : list string -> list string -> Prop :=
| fewer_fields q l : identifiers_precede [] (q :: l)
| first_difference p q l m : identifier_precedes p q -> identifiers_precede (p :: l) (q :: m)
| same_field p l m : identifiers_precede l m -> identifiers_precede (p :: l) (p :: m).

(** 11.3: a prerelease precedes its release. *)
Definition prerelease_precedes (p q : option string) : Prop :=
  match p, q with
  | Some p, Some q => identifiers_precede (split_on "." p) (split_on "." q)
  | Some _, None => True
  | None, _ => False
  end.

(** 11.2: major, minor and patch numerically; 10: the build metadata does not count. *)
Definition match_precedes (m n : semver_match) : Prop :=
  (decimal (sv_major m) < decimal (sv_major n))%N \/
  sv_major m = sv_major n /\
  ((decimal (sv_minor m) < decimal (sv_minor n))%N \/
   sv_minor m = sv_minor n /\
   ((decimal (sv_patch m) < decimal (sv_patch n))%N \/
    sv_patch m = sv_patch n /\ prerelease_precedes (sv_pre m) (sv_pre n))).

Definition precedes (a b : string) : Prop :=
  exists m n, a = semver_text m /\ b = semver_text n /\ semver_match_ok m /\ semver_match_ok n /\ match_precedes m n.

Definition equal_but_build (a b : string) : Prop :=
  exists m n, a = semver_text m /\ b = semver_text n /\ semver_match_ok m /\ semver_match_ok n /\ without_build m = without_build n.

Lemma decimal_int s : py_int s = decimal s.
Proof.
  unfold py_int. induction s as [|a s IH]; [done|]. cbn [int_from decimal]. rewrite int_from_shift, IH. lia.
Qed.

Lemma isdigit_pre_ident p : pre_ident p -> isdigit p = true <-> all_digits p.
Proof.
  intros Hp. split; [intros H; by apply numeral_digits, pre_ident_digits|]. intros H. unfold isdigit.
  rewrite (digit_ascii p H), andb_true_r. destruct p as [|a p]; [|done]. exfalso.
  unfold pre_ident, PRE_IDENT_RE in Hp. by apply re_match_spec in Hp.
Qed.

Lemma ident_precedes_iff p q :
  pre_ident p -> pre_ident q -> ident_lt (ident_key_of p) (ident_key_of q) <-> identifier_precedes p q.
Proof.
  intros Hp Hq. apply isdigit_pre_ident in Hp, Hq. unfold ident_key_of, identifier_precedes. rewrite <- Hp, <- Hq, <- !decimal_int.
  destruct (isdigit p), (isdigit q); (split; [inversion 1; subst; auto 6|]); intros [(? & ? & ?)|[(? & ? & ?)|(? & ?)]];
    try done; by constructor.
Qed.

Lemma idents_precede_iff l m :
  Forall pre_ident l -> Forall pre_ident m -> idents_lt (map ident_key_of l) (map ident_key_of m) <-> identifiers_precede l m.
Proof.
  intros Hl. revert m. induction Hl as [|p l Hp Hl IH]; intros [|q m] Hm; simpl.
  - split; inversion 1.
  - split; constructor.
  - split; inversion 1.
  - apply Forall_cons in Hm as [Hq Hm]. split.
    + inversion 1 as [|? ? ? ? Hlt|? ? ? Hlt]; subst; [by apply first_difference, ident_precedes_iff|].
      rewrite (ident_key_of_inj p q) by done. by apply same_field, IH.
    + inversion 1 as [|? ? ? ? Hlt|? ? ? Hlt]; subst; [by apply lt_here, ident_precedes_iff | by apply lt_there, IH].
Qed.

(** The order of the keys is the precedence of the texts. *)
Lemma keys_precede m n ka kb :
  semver_match_ok m -> semver_match_ok n -> semver_key (semver_text m) = Ok ka -> semver_key (semver_text n) = Ok kb ->
  semver_lt ka kb <-> match_precedes m n.
Proof.
  intros Hm Hn. rewrite !semver_key_text by done. intros [= <-] [= <-]. rewrite <- key_compare_semver.
  destruct Hm as [Ha Hb Hc Hp _], Hn as [Ha' Hb' Hc' Hp' _]. apply fullmatch_spec in Ha, Hb, Hc, Ha', Hb', Hc'.
  unfold match_precedes, key_compare, pair_compare. cbn [fst snd]. rewrite <- !decimal_int.
  assert (Hinj := fun s t Hs Ht => conj (numeral_inj s t Hs Ht) (fun E : s = t => f_equal py_int E)).
  rewrite <- (Hinj _ _ Ha Ha' : _ <-> _), <- (Hinj _ _ Hb Hb' : _ <-> _), <- (Hinj _ _ Hc Hc' : _ <-> _).
  destruct (N.compare_spec (py_int (sv_major m)) (py_int (sv_major n))) as [E1|?|?]; [|split; [by left | done]|split; [done | lia]].
  destruct (N.compare_spec (py_int (sv_minor m)) (py_int (sv_minor n))) as [E2|?|?]; [|split; [by auto | done]|split; [done | lia]].
  destruct (N.compare_spec (py_int (sv_patch m)) (py_int (sv_patch n))) as [E3|?|?]; [|split; [by auto 6 | done]|split; [done | lia]].
  transitivity (prerelease_precedes (sv_pre m) (sv_pre n)); [|split; [auto 8 | lia || (intros [?|[_ [?|[_ [?|[_ ?]]]]]]; [lia..|done])]].
  destruct (sv_pre m) as [p|], (sv_pre n) as [q|]; cbn; try by split. rewrite idents_lt_spec. apply pre_idents in Hp, Hp'.
  by apply idents_precede_iff.
Qed.

Lemma precedes_text m n :
  semver_match_ok m -> semver_match_ok n -> match_precedes m n <-> precedes (semver_text m) (semver_text n).
Proof.
  intros Hm Hn. split; [intros H; by exists m, n|]. intros (m' & n' & Em & En & Hm' & Hn' & H).
  apply (f_equal semver_groups) in Em, En. rewrite !semver_groups_text in Em, En by done. congruence.
Qed.

Lemma equal_but_build_text m n :
  semver_match_ok m -> semver_match_ok n ->
  semver_key (semver_text m) = semver_key (semver_text n) <-> equal_but_build (semver_text m) (semver_text n).
Proof.
  intros Hm Hn. rewrite semver_key_injective by done. split; [intros H; by exists m, n|]. intros (m' & n' & Em & En & Hm' & Hn' & H).
  apply (f_equal semver_groups) in Em, En. rewrite !semver_groups_text in Em, En by done. congruence.
Qed.

(** C33. Sorting versions by [semver_key] is sorting by precedence.  The key is
    defined exactly on the texts of the grammar, and on others the code raises its
    validation error; Python's comparison of two keys never raises, and it is the
    precedence of section 11 of the specification on the two texts: numeric on
    major, minor and patch, a prerelease before its release, identifiers of digits
    numerically and before the others, which compare in ASCII order, fewer fields
    first; and equal exactly when the texts differ at most in build metadata. *)
Theorem semver_key_precedence a b :
  (fullmatch SEMVER_RE a = false -> semver_key a = invalid ("invalid SemVer: " +:+ a)) /\
  (fullmatch SEMVER_RE a = true -> fullmatch SEMVER_RE b = true ->
   exists ka kb, semver_key a = Ok ka /\ semver_key b = Ok kb /\
     py_compare (key_tuple ka) (key_tuple kb) = Some (key_compare ka kb) /\
     (key_compare ka kb = Lt <-> precedes a b) /\
     (key_compare ka kb = Gt <-> precedes b a) /\
     (key_compare ka kb = Eq <-> equal_but_build a b)).
Proof.
  split.
  - intros H. unfold semver_key, semver_groups. by rewrite H.
  - intros Ha Hb. assert (Hka := semver_key_Ok a). assert (Hkb := semver_key_Ok b). rewrite Ha in Hka. rewrite Hb in Hkb.
    apply is_ok_iff in Hka as [ka Hka], Hkb as [kb Hkb]. exists ka, kb. split; [done|]. split; [done|]. split; [apply key_compare_python|].
    apply semver_re_iff in Ha as (m & -> & Hm), Hb as (n & -> & Hn). split; [|split].
    + rewrite key_compare_semver, (keys_precede m n) by done. by apply precedes_text.
    + rewrite (cmp_opp (cmp:=key_compare) kb ka). rewrite <- (precedes_text n m), <- (keys_precede n m) by done.
      rewrite <- key_compare_semver. by destruct (key_compare kb ka).
    + rewrite cmp_eq. rewrite <- equal_but_build_text by done. split; congruence.
Qed.

Lemma semver_key_precedence_witness :
  (exists ka kb, semver_key "1.2.0-rc.9+linux" = Ok ka /\ semver_key "1.2.0-rc.10" = Ok kb /\ key_compare ka kb = Lt) /\
  precedes "1.2.0-rc.9+linux" "1.2.0-rc.10".
Proof.
  destruct (semver_key_precedence "1.2.0-rc.9+linux" "1.2.0-rc.10") as [_ H].
  destruct (H ltac:(vm_compute; reflexivity) ltac:(vm_compute; reflexivity)) as (ka & kb & Ha & Hb & _ & [Hlt _] & _).
  assert (Hc : key_compare ka kb = Lt).
  { vm_compute in Ha, Hb. injection Ha as <-. injection Hb as <-. vm_compute. reflexivity. }
  split; [by exists ka, kb | by apply Hlt].
Defined.

