(* ===== verification/Json.v ===== *)
(** * JSON documents: [json.loads], [==] on decoded values, [canonical_json]

    Decoded JSON values with Python's equality ([True == 1], objects compared
    as dictionaries), the parser of the standard library with the
    duplicate-key hook of [decode_json], and the canonical rendering of
    [canonical_json] (sorted keys, two-space indentation, final newline).
    Numbers are integers: a literal with a fraction or an exponent, and an
    escape beyond U+00FF, are outside the model ([json_loads] rejects them). *)

From S2P Require Import Prelude PyText SemVer.

Open Scope string_scope.
Open Scope list_scope.

#[local] Set Warnings "-register-all".

Inductive json :=
| JNull
| JBool (b : bool)
| JInt (z : Z)
| JStr (s : string)
| JArr (l : list json)
| JObj (l : list (string * json)).

Abbreviation members := (list (string * json)).

Fixpoint jget (k : string) (l : members) : option json :=
  match l with
  | [] => None
  | (k', v) :: l => if String.eqb k' k then Some v else jget k l
  end.

Definition jkeys (l : members) : list string := map fst l.

(** ** Equality: [a == b] *)

Definition bool_int (b : bool) : Z := if b then 1%Z else 0%Z.

Fixpoint py_eq (a b : json) {struct a} : bool :=
  match a, b with
  | JNull, JNull => true
  | JBool x, JBool y => Bool.eqb x y
  | JBool x, JInt y => Z.eqb (bool_int x) y
  | JInt x, JBool y => Z.eqb x (bool_int y)
  | JInt x, JInt y => Z.eqb x y
  | JStr x, JStr y => String.eqb x y
  | JArr l, JArr m =>
      (fix go (l m : list json) : bool :=
         match l, m with
         | [], [] => true
         | x :: l, y :: m => py_eq x y && go l m
         | _, _ => false
         end) l m
  | JObj l, JObj m =>
      Nat.eqb (length l) (length m) &&
      (fix go (l : members) : bool :=
         match l with
         | [] => true
         | (k, v) :: l =>
             match jget k m with Some w => py_eq v w | None => false end && go l
         end) l
  | _, _ => false
  end.

(** [bool(value)] *)
Definition truthy (v : json) : bool :=
  match v with
  | JNull => false
  | JBool b => b
  | JInt z => negb (Z.eqb z 0)
  | JStr s => nonempty s
  | JArr l => negb (Nat.eqb (length l) 0)
  | JObj l => negb (Nat.eqb (length l) 0)
  end.

(** *** Access to a decoded value of unknown shape *)

(** [value["key"]] *)
Definition item (key : string) (value : json) : res exn json :=
  match value with JObj l => of_option (KeyError key) (jget key l) | _ => Err TypeError end.

(** [value.get("key", absent)] *)
Definition get_attr (absent : json) (key : string) (value : json) : res exn json :=
  match value with JObj l => Ok (default absent (jget key l)) | _ => Err NoAttribute end.

(** [for x in value] *)
Definition iterate (value : json) : res exn (list json) :=
  match value with
  | JArr l => Ok l
  | JObj l => Ok (map JStr (jkeys l))
  | JStr s => Ok (map (fun c => JStr (String c "")) (chars s))
  | _ => Err TypeError
  end.

(** ** [json.loads] *)

Definition is_json_ws (c : ascii) : bool :=
  chr_is 32 c || chr_is 9 c || chr_is 10 c || chr_is 13 c.

Definition skip_ws : string -> string := lstrip_by is_json_ws.

Definition hex_value (c : ascii) : option N :=
  if range "0" "9" c then Some (N_of_ascii c - 48)%N
  else if range "a" "f" c then Some (N_of_ascii c - 87)%N
  else if range "A" "F" c then Some (N_of_ascii c - 55)%N
  else None.

(** The text of a string literal after its opening quote. *)
Fixpoint parse_string (s : string) : option (string * string) :=
  match s with
  | "" => None
  | String c s =>
      if chr_is 34 c then Some ("", s)
      else if chr_is 92 c then
        match s with
        | String e s' =>
            let plain (r : ascii) :=
              match parse_string s' with Some (t, u) => Some (String r t, u) | None => None end in
            if chr_is 34 e || chr_is 92 e || chr_is 47 e then plain e
            else if Ascii.eqb e "b" then plain "008"%char
            else if Ascii.eqb e "f" then plain "012"%char
            else if Ascii.eqb e "n" then plain "010"%char
            else if Ascii.eqb e "r" then plain "013"%char
            else if Ascii.eqb e "t" then plain "009"%char
            else if Ascii.eqb e "u" then
              match s' with
              | String h1 (String h2 (String h3 (String h4 s''))) =>
                  match hex_value h1, hex_value h2, hex_value h3, hex_value h4 with
                  | Some 0%N, Some 0%N, Some x, Some y =>
                      match parse_string s'' with
                      | Some (t, u) => Some (String (ascii_of_N (16 * x + y)) t, u)
                      | None => None
                      end
                  | _, _, _, _ => None
                  end
              | _ => None
              end
            else None
        | "" => None
        end
      else if N.ltb (N_of_ascii c) 32 then None
      else match parse_string s with Some (t, u) => Some (String c t, u) | None => None end
  end.

Fixpoint take_digits (s : string) : string * string :=
  match s with
  | "" => ("", "")
  | String c s' =>
      if is_ascii_digit c then let '(d, r) := take_digits s' in (String c d, r) else ("", s)
  end.

(** The value of the digits, unless a fraction or an exponent follows. *)
Definition int_literal (neg : bool) (ds rest : string) : option (Z * string) :=
  if negb (nonempty ds) then None
  else match rest with
       | String c _ => if mem_char c ".eE" then None
                       else Some ((if neg then - Z.of_N (py_int ds) else Z.of_N (py_int ds))%Z, rest)
       | "" => Some ((if neg then - Z.of_N (py_int ds) else Z.of_N (py_int ds))%Z, rest)
       end.

(** The digits of an integer: a leading zero stands alone. *)
Definition int_digits (s : string) : string * string :=
  match s with String "0" r => ("0", r) | _ => take_digits s end.

(** An integer literal; a fraction or exponent part is not represented. *)
Definition parse_int (s : string) : option (Z * string) :=
  let '(neg, body) := match s with String "-" s' => (true, s') | _ => (false, s) end in
  let '(ds, rest) := int_digits body in
  int_literal neg ds rest.

(** The text after an expected character. *)
Definition drop_char (c : ascii) (s : string) : option string :=
  match s with
  | String a s => if Ascii.eqb a c then Some s else None
  | "" => None
  end.

(** [fuel] bounds the nesting of calls; the length of the text is enough. *)
Fixpoint parse_value (fuel : nat) (s : string) : option (json * string) :=
  match fuel with
  | O => None
  | S fuel =>
      match drop_char "034" s with
      | Some s => match parse_string s with
                  | Some (t, r) => Some (JStr t, r)
                  | None => None
                  end
      | None =>
      match drop_char "{" s with
      | Some s =>
          match drop_char "}" (skip_ws s) with
          | Some r => Some (JObj [], r)
          | None => match parse_members fuel (skip_ws s) with
                    | Some (l, r) => Some (JObj l, r)
                    | None => None
                    end
          end
      | None =>
      match drop_char "[" s with
      | Some s =>
          match drop_char "]" (skip_ws s) with
          | Some r => Some (JArr [], r)
          | None => match parse_elements fuel (skip_ws s) with
                    | Some (l, r) => Some (JArr l, r)
                    | None => None
                    end
          end
      | None =>
          if startswith "null" s then Some (JNull, removeprefix "null" s)
          else if startswith "true" s then Some (JBool true, removeprefix "true" s)
          else if startswith "false" s then Some (JBool false, removeprefix "false" s)
          else match parse_int s with
               | Some (z, r) => Some (JInt z, r)
               | None => None
               end
      end end end
  end
with parse_members (fuel : nat) (s : string) : option (members * string) :=
  match fuel with
  | O => None
  | S fuel =>
      match drop_char "034" s with
      | Some s =>
          match parse_string s with
          | Some (k, r) =>
              match drop_char ":" (skip_ws r) with
              | Some r =>
                  match parse_value fuel (skip_ws r) with
                  | Some (v, r) =>
                      match drop_char "}" (skip_ws r) with
                      | Some r => Some ([(k, v)], r)
                      | None =>
                          match drop_char "," (skip_ws r) with
                          | Some r =>
                              match parse_members fuel (skip_ws r) with
                              | Some (l, r) => Some ((k, v) :: l, r)
                              | None => None
                              end
                          | None => None
                          end
                      end
                  | None => None
                  end
              | None => None
              end
          | None => None
          end
      | None => None
      end
  end
with parse_elements (fuel : nat) (s : string) : option (list json * string) :=
  match fuel with
  | O => None
  | S fuel =>
      match parse_value fuel s with
      | Some (v, r) =>
          match drop_char "]" (skip_ws r) with
          | Some r => Some ([v], r)
          | None =>
              match drop_char "," (skip_ws r) with
              | Some r =>
                  match parse_elements fuel (skip_ws r) with
                  | Some (l, r) => Some (v :: l, r)
                  | None => None
                  end
              | None => None
              end
          end
      | None => None
      end
  end.

Definition json_loads (s : string) : option json :=
  match parse_value (2 + String.length s) (skip_ws s) with
  | Some (v, r) => if nonempty (skip_ws r) then None else Some v
  | None => None
  end.

(** [d[k] = v] *)
Fixpoint set_member (k : string) (v : json) (l : members) : members :=
  match l with
  | [] => [(k, v)]
  | (k', w) :: l => if String.eqb k' k then (k, v) :: l else (k', w) :: set_member k v l
  end.

(** [json_loads] keeps every member, as the hook below sees them; without a hook
    an object is the dictionary of its members, where the last value of a name
    stands. *)
Fixpoint to_dict (j : json) : json :=
  match j with
  | JArr l => JArr ((fix go (l : list json) := match l with [] => [] | x :: l => to_dict x :: go l end) l)
  | JObj l =>
      JObj ((fix go (d l : members) : members :=
               match l with [] => d | (k, v) :: l => go (set_member k (to_dict v) d) l end) [] l)
  | j => j
  end.

(** [json.loads(text)] without a hook. *)
Definition loads (text : string) : option json := option_map to_dict (json_loads text).

(** ** The duplicate-key hook and [decode_json] *)

Fixpoint duplicate_key (seen : list string) (l : members) : option string :=
  match l with
  | [] => None
  | (k, _) :: l => if bool_decide (k ∈ seen) then Some k else duplicate_key (k :: seen) l
  end.

(** The hook runs on every object, inner objects first. *)
Fixpoint object_hook (j : json) : res exn unit :=
  match j with
  | JArr l => (fix go (l : list json) : res exn unit :=
                 match l with [] => Ok tt | x :: l => object_hook x ;? go l end) l
  | JObj l =>
      (fix go (m : members) : res exn unit :=
         match m with [] => Ok tt | (_, v) :: m => object_hook v ;? go m end) l ;?
      match duplicate_key [] l with
      | Some k => invalid ("duplicate JSON key " +:+ k)
      | None => Ok tt
      end
  | _ => Ok tt
  end.

(** The error text of the wrapped exception is not represented. *)
Definition decode_json (text origin : string) : res exn members :=
  match json_loads text with
  | None => invalid (origin +:+ ": invalid JSON")
  | Some value =>
      match object_hook value with
      | Err _ => invalid (origin +:+ ": invalid JSON")
      | Ok _ =>
          match value with
          | JObj l => Ok l
          | _ => invalid (origin +:+ ": root must be a JSON object")
          end
      end
  end.

(** ** [canonical_json] *)

Definition hex_digit (n : N) : ascii := ascii_of_N (if N.ltb n 10 then 48 + n else 87 + n).

Definition escape_char (c : ascii) : string :=
  if chr_is 34 c then String "\" (String "034" "")
  else if chr_is 92 c then "\\"
  else if chr_is 10 c then "\n"
  else if chr_is 13 c then "\r"
  else if chr_is 9 c then "\t"
  else if chr_is 12 c then "\f"
  else if chr_is 8 c then "\b"
  else if N.ltb (N_of_ascii c) 32 then
    "\u00" +:+ String (hex_digit (N_of_ascii c / 16)) (String (hex_digit (N_of_ascii c mod 16)) "")
  else String c "".

Fixpoint escape (s : string) : string :=
  match s with "" => "" | String c s => escape_char c +:+ escape s end.

Definition quote (s : string) : string := String "034" (escape s) +:+ String "034" "".

Fixpoint digits_of (fuel : nat) (n : N) (acc : string) : string :=
  match fuel with
  | O => acc
  | S fuel =>
      let acc := String (ascii_of_N (48 + n mod 10)) acc in
      if N.eqb (n / 10) 0 then acc else digits_of fuel (n / 10) acc
  end.

Definition render_N (n : N) : string := digits_of (S (N.to_nat (N.log2 n))) n "".

Definition render_int (z : Z) : string :=
  match z with
  | Z0 => "0"
  | Zpos p => render_N (Npos p)
  | Zneg p => "-" +:+ render_N (Npos p)
  end.

Definition newline : string := String "010" "".

Fixpoint spaces (n : nat) : string :=
  match n with O => "" | S n => String " " (spaces n) end.

Definition by_name {A} : string * A -> string * A -> bool := fun x y => str_le (fst x) (fst y).

(** [json.dumps(value, ensure_ascii=False, indent=2, sort_keys=True)] at a depth. *)
Fixpoint render (depth : nat) (j : json) {struct j} : string :=
  let pad := newline +:+ spaces (2 * S depth) in
  match j with
  | JNull => "null"
  | JBool true => "true"
  | JBool false => "false"
  | JInt z => render_int z
  | JStr s => quote s
  | JArr [] => "[]"
  | JArr l =>
      "[" +:+ pad +:+
      join_on ("," +:+ pad)
        ((fix go (l : list json) : list string :=
            match l with [] => [] | x :: l => render (S depth) x :: go l end) l)
      +:+ newline +:+ spaces (2 * depth) +:+ "]"
  | JObj [] => "{}"
  | JObj l =>
      "{" +:+ pad +:+
      join_on ("," +:+ pad)
        (map (fun kv => quote (fst kv) +:+ ": " +:+ snd kv)
           (sort_by by_name
              ((fix go (l : members) : list (string * string) :=
                  match l with [] => [] | (k, v) :: l => (k, render (S depth) v) :: go l end) l)))
      +:+ newline +:+ spaces (2 * depth) +:+ "}"
  end.

Definition canonical_json (value : json) : string := render 0 value +:+ newline.

Example canonical_json_example :
  json_loads (canonical_json (JObj [("b", JArr [JInt (-12); JNull]); ("a", JStr "x/y")]))
  = Some (JObj [("a", JStr "x/y"); ("b", JArr [JInt (-12); JNull])]).
Proof. vm_compute. reflexivity. Qed.

Example decode_json_duplicate :
  decode_json (canonical_json (JObj [("a", JInt 1); ("a", JInt 2)])) "f"
  = invalid "f: invalid JSON".
Proof. vm_compute. reflexivity. Qed.

Lemma py_eq_str s v : py_eq (JStr s) v = true -> v = JStr s.
Proof. destruct v; try done. simpl. by intros ->%String.eqb_eq. Qed.

Lemma py_eq_str_r v s : py_eq v (JStr s) = true <-> v = JStr s.
Proof. destruct v; try done. simpl. rewrite String.eqb_eq. split; [by intros -> | by intros [= ->]]. Qed.
