(* ===== verification/JsonText.v ===== *)
(** * Theory of the JSON text: scripts/registry.py, [decode_json] and [canonical_json]

    The parser's recursion is bounded by the text, so its fuel never decides
    the result, and reading a canonical rendering back gives the value with
    its object members in name order. *)

From S2P Require Import Prelude PyText SemVer Json.

Open Scope string_scope.
Open Scope list_scope.

(** ** Lengths *)

Lemma skip_ws_length s : (String.length (skip_ws s) <= String.length s)%nat.
Proof.
  unfold skip_ws. induction s as [|c s IH]; simpl; [lia|]. destruct (is_json_ws c); simpl; lia.
Qed.

Lemma drop_char_length c s r : drop_char c s = Some r -> String.length s = S (String.length r).
Proof. destruct s as [|a s]; simpl; [done|]. destruct (Ascii.eqb a c); [|done]. by intros [= ->]. Qed.

(** The rest of a literal is shorter: the closing quote was read. *)
Lemma parse_string_length s t r : parse_string s = Some (t, r) -> (String.length r < String.length s)%nat.
Proof.
  enough (H : forall n s t r, (String.length s <= n)%nat -> parse_string s = Some (t, r) ->
    (String.length r < String.length s)%nat) by by eapply H.
  clear. induction n as [|n IH]; intros s t r Hle H.
  - destruct s; [done | simpl in Hle; lia].
  - assert (Hnext : forall s' f, (String.length s' < String.length s)%nat ->
        match parse_string s' with Some (t, u) => Some (String f t, u) | None => None end = Some (t, r) ->
        (String.length r < String.length s)%nat).
    { intros s' f Hs'. destruct (parse_string s') as [[t' u]|] eqn:Hp; [|done]. intros [= _ <-].
      apply IH in Hp; lia. }
    destruct s as [|c s]; [done|]. cbn [String.length] in Hle, Hnext |- *. revert H. cbn [parse_string].
    destruct (chr_is 34 c); [intros [= _ <-]; lia|].
    destruct (chr_is 92 c).
    + destruct s as [|e s']; [done|]. cbn [String.length] in Hle, Hnext.
      repeat match goal with |- (if ?b then _ else _) = _ -> _ => destruct b; [try (apply Hnext; lia)|] end; [|done].
      destruct s' as [|h1 [|h2 [|h3 [|h4 s'']]]]; try done. cbn [String.length] in Hle, Hnext.
      destruct (hex_value h1) as [[|]|]; try done. destruct (hex_value h2) as [[|]|]; try done.
      destruct (hex_value h3) as [x|]; try done. destruct (hex_value h4) as [y|]; try done. apply Hnext. lia.
    + destruct (N.ltb _ _); [done|]. apply Hnext. lia.
Qed.

Lemma take_digits_length s d r : take_digits s = (d, r) -> String.length s = (String.length d + String.length r)%nat.
Proof.
  revert d r. induction s as [|c s IH]; simpl; intros d r; [by intros [= <- <-]|].
  destruct (is_ascii_digit c); [|by intros [= <- <-]]. destruct (take_digits s) as [d' r'] eqn:H.
  intros [= <- <-]. simpl. by rewrite (IH d' r' eq_refl).
Qed.

Lemma parse_int_length s z r : parse_int s = Some (z, r) -> (String.length r < String.length s)%nat.
Proof.
  unfold parse_int. set (nb := match s with String "-" s' => (true, s') | _ => (false, s) end).
  assert (Hb : (String.length (snd nb) <= String.length s)%nat).
  { unfold nb. destruct s as [|[[] [] [] [] [] [] [] []] s]; simpl; lia. }
  destruct nb as [neg body]. simpl in Hb.
  assert (Hd : String.length body = (String.length (fst (int_digits body)) + String.length (snd (int_digits body)))%nat).
  { assert (Ht : String.length body = (String.length (fst (take_digits body)) + String.length (snd (take_digits body)))%nat).
    { destruct (take_digits body) as [d r'] eqn:H. by apply take_digits_length. }
    unfold int_digits. destruct body as [|[[] [] [] [] [] [] [] []] body]; try exact Ht. done. }
  destruct (int_digits body) as [ds rest]. simpl in Hd. unfold int_literal. destruct ds as [|a ds]; [done|].
  cbn [nonempty negb]. simpl in Hd. destruct rest as [|c rest]; [intros [= _ <-]; simpl; lia|].
  destruct (mem_char c ".eE"); [done|]. intros [= _ <-]. lia.
Qed.

Lemma substring_all s m : (String.length s <= m)%nat -> String.substring 0 m s = s.
Proof.
  revert m. induction s as [|c s IH]; intros m Hm; [by destruct m|]. destruct m; simpl in *; [lia|]. rewrite IH; [done | lia].
Qed.

Lemma removeprefix_app p s : startswith p s = true -> s = p +:+ removeprefix p s.
Proof.
  unfold startswith, removeprefix. intros H. rewrite H. revert s H. induction p as [|a p IH]; intros s H.
  - simpl. by rewrite substring_all.
  - destruct s as [|b s]; [done|]. simpl in H. destruct (ascii_dec a b) as [->|]; [|done].
    change (String b s = String b (p +:+ String.substring (String.length p) (S (String.length s)) s)).
    f_equal. rewrite (IH s H) at 1. f_equal. clear. revert p.
    enough (Hm : forall n m m', (String.length s <= n + m)%nat -> (String.length s <= n + m')%nat ->
      String.substring n m s = String.substring n m' s) by (intros p; apply Hm; lia).
    induction s as [|c s IH]; intros n m m' H1 H2; [by destruct n, m, m'|]. destruct n; simpl in *.
    + destruct m as [|m], m' as [|m']; simpl in *; try lia. f_equal. apply IH; lia.
    + apply IH; lia.
Qed.

Lemma removeprefix_length p s :
  startswith p s = true -> String.length s = (String.length p + String.length (removeprefix p s))%nat.
Proof.
  intros H. rewrite (removeprefix_app p s H) at 1. clear. induction p as [|a p IH]; [done|].
  change (S (String.length (p +:+ removeprefix (String a p) s)) = S (String.length p + String.length (removeprefix (String a p) s))).
  f_equal. generalize (removeprefix (String a p) s). clear. induction p as [|b p IH]; intros t; [done|].
  change (S (String.length (p +:+ t)) = S (String.length p + String.length t)). by rewrite IH.
Qed.

(** ** The fuel is enough *)

(** A parser that consumed [n] characters needs fuel [n]. *)
Definition enough {A} (p : nat -> string -> option (A * string)) (fuel : nat) : Prop :=
  forall s v r, p fuel s = Some (v, r) ->
    (String.length r < String.length s)%nat /\
    forall g, (String.length s <= g + String.length r)%nat -> p g s = Some (v, r).

Lemma parse_enough fuel : enough parse_value fuel /\ enough parse_members fuel /\ enough parse_elements fuel.
Proof.
  induction fuel as [|fuel (IHv & IHm & IHe)]; [done|]. split_and!; intros s v r.
  - cbn [parse_value].
    destruct (drop_char "034" s) as [s1|] eqn:H1.
    { destruct (parse_string s1) as [[t u]|] eqn:Hp; [|done]. intros [= <- <-].
      assert (Hl := drop_char_length _ _ _ H1). assert (Hl' := parse_string_length _ _ _ Hp). split; [lia|].
      intros [|g] Hg; [lia|]. cbn [parse_value]. by rewrite H1, Hp. }
    destruct (drop_char "{" s) as [s1|] eqn:H2.
    { assert (Hl := drop_char_length _ _ _ H2). assert (Hw := skip_ws_length s1).
      destruct (drop_char "}" (skip_ws s1)) as [u|] eqn:H3.
      - intros [= <- <-]. assert (Hl' := drop_char_length _ _ _ H3). split; [lia|].
        intros [|g] Hg; [lia|]. cbn [parse_value]. by rewrite H1, H2, H3.
      - destruct (parse_members fuel (skip_ws s1)) as [[l u]|] eqn:Hm; [|done]. intros [= <- <-].
        apply IHm in Hm as [Hlt Hm]. split; [lia|]. intros [|g] Hg; [lia|]. cbn [parse_value].
        rewrite H1, H2, H3, Hm by lia. done. }
    destruct (drop_char "[" s) as [s1|] eqn:H3.
    { assert (Hl := drop_char_length _ _ _ H3). assert (Hw := skip_ws_length s1).
      destruct (drop_char "]" (skip_ws s1)) as [u|] eqn:H4.
      - intros [= <- <-]. assert (Hl' := drop_char_length _ _ _ H4). split; [lia|].
        intros [|g] Hg; [lia|]. cbn [parse_value]. by rewrite H1, H2, H3, H4.
      - destruct (parse_elements fuel (skip_ws s1)) as [[l u]|] eqn:Hm; [|done]. intros [= <- <-].
        apply IHe in Hm as [Hlt Hm]. split; [lia|]. intros [|g] Hg; [lia|]. cbn [parse_value].
        rewrite H1, H2, H3, H4, Hm by lia. done. }
    destruct (startswith "null" s) eqn:H4; [|destruct (startswith "true" s) eqn:H5; [|destruct (startswith "false" s) eqn:H6;
      [|destruct (parse_int s) as [[z u]|] eqn:H7; [|done]]]]; intros [= <- <-];
      [apply removeprefix_length in H4 as Hl | apply removeprefix_length in H5 as Hl | apply removeprefix_length in H6 as Hl
      | apply parse_int_length in H7 as Hl]; simpl in Hl; (split; [lia|]); intros [|g] Hgg; try lia; cbn [parse_value];
      rewrite H1, H2, H3, ?H4, ?H5, ?H6, ?H7; done.
  - cbn [parse_members]. destruct (drop_char "034" s) as [s1|] eqn:H1; [|done].
    destruct (parse_string s1) as [[k u]|] eqn:H2; [|done]. destruct (drop_char ":" (skip_ws u)) as [s2|] eqn:H3; [|done].
    assert (Hl1 := drop_char_length _ _ _ H1). assert (Hl2 := parse_string_length _ _ _ H2).
    assert (Hl3 := drop_char_length _ _ _ H3). assert (Hw1 := skip_ws_length u). assert (Hw2 := skip_ws_length s2).
    destruct (parse_value fuel (skip_ws s2)) as [[x u2]|] eqn:H4; [|done]. apply IHv in H4 as [Hl4 H4].
    assert (Hw3 := skip_ws_length u2). destruct (drop_char "}" (skip_ws u2)) as [s3|] eqn:H5.
    + intros [= <- <-]. assert (Hl5 := drop_char_length _ _ _ H5). split; [lia|].
      intros [|g] Hg; [lia|]. cbn [parse_members]. rewrite H1, H2, H3, H4 by lia. by rewrite H5.
    + destruct (drop_char "," (skip_ws u2)) as [s3|] eqn:H6; [|done]. assert (Hl6 := drop_char_length _ _ _ H6).
      assert (Hw4 := skip_ws_length s3).
      destruct (parse_members fuel (skip_ws s3)) as [[l u3]|] eqn:H7; [|done]. intros [= <- <-].
      apply IHm in H7 as [Hl7 H7]. split; [lia|]. intros [|g] Hg; [lia|]. cbn [parse_members].
      rewrite H1, H2, H3, H4 by lia. rewrite H5, H6, H7 by lia. done.
  - cbn [parse_elements]. destruct (parse_value fuel s) as [[x u]|] eqn:H1; [|done]. apply IHv in H1 as [Hl1 H1].
    assert (Hw1 := skip_ws_length u). destruct (drop_char "]" (skip_ws u)) as [s3|] eqn:H5.
    + intros [= <- <-]. assert (Hl5 := drop_char_length _ _ _ H5). split; [lia|].
      intros [|g] Hg; [lia|]. cbn [parse_elements]. rewrite H1 by lia. by rewrite H5.
    + destruct (drop_char "," (skip_ws u)) as [s3|] eqn:H6; [|done]. assert (Hl6 := drop_char_length _ _ _ H6).
      assert (Hw4 := skip_ws_length s3).
      destruct (parse_elements fuel (skip_ws s3)) as [[l u3]|] eqn:H7; [|done]. intros [= <- <-].
      apply IHe in H7 as [Hl7 H7]. split; [lia|]. intros [|g] Hg; [lia|]. cbn [parse_elements].
      rewrite H1 by lia. rewrite H5, H6, H7 by lia. done.
Qed.

(** ** Rendering *)

(** The value with the members of its objects in name order. *)
Fixpoint sort_keys (j : json) : json :=
  match j with
  | JArr l => JArr ((fix go (l : list json) := match l with [] => [] | x :: l => sort_keys x :: go l end) l)
  | JObj l =>
      JObj (sort_by by_name
        ((fix go (l : members) : members := match l with [] => [] | (k, v) :: l => (k, sort_keys v) :: go l end) l))
  | j => j
  end.

Lemma json_rect' (P : json -> Prop) :
  P JNull -> (forall b, P (JBool b)) -> (forall z, P (JInt z)) -> (forall s, P (JStr s)) ->
  (forall l, Forall P l -> P (JArr l)) -> (forall l, Forall (fun kv => P (snd kv)) l -> P (JObj l)) -> forall j, P j.
Proof.
  intros H1 H2 H3 H4 H5 H6. fix IH 1. intros [|b|z|s|l|l];
    [exact H1 | apply H2 | apply H3 | apply H4 | |].
  - apply H5. induction l as [|x l IHl]; [constructor|]. constructor; [apply IH | exact IHl].
  - apply H6. induction l as [|[k v] l IHl]; [constructor|]. constructor; [apply IH | exact IHl].
Qed.

Lemma sort_keys_arr l : sort_keys (JArr l) = JArr (map sort_keys l).
Proof. reflexivity. Qed.

Definition on_value {A B} (f : A -> B) (kv : string * A) : string * B := (fst kv, f (snd kv)).

Lemma on_value_pair {A B} (f : A -> B) k x : on_value f (k, x) = (k, f x).
Proof. done. Qed.

Lemma sort_keys_obj l : sort_keys (JObj l) = JObj (sort_by by_name (map (on_value sort_keys) l)).
Proof. simpl. do 2 f_equal. induction l as [|[k v] l IH]; [done|]. simpl. by rewrite IH. Qed.

Definition pad (depth : nat) : string := newline +:+ spaces (2 * depth).

Definition separator (depth : nat) : string := "," +:+ pad (S depth).

Lemma render_arr depth x l :
  render depth (JArr (x :: l)) =
  "[" +:+ pad (S depth) +:+ join_on (separator depth) (map (render (S depth)) (x :: l)) +:+ pad depth +:+ "]".
Proof.
  unfold separator, pad. cbn [render].
  match goal with |- context [join_on _ (_ :: ?g l)] => replace (g l) with (map (render (S depth)) l) end; [done|].
  induction l as [|y l IH]; [done|]. simpl. by rewrite <- IH.
Qed.

Definition render_member (depth : nat) (kv : string * string) : string := quote (fst kv) +:+ ": " +:+ snd kv.

Lemma render_obj depth x l :
  render depth (JObj (x :: l)) =
  "{" +:+ pad (S depth) +:+
    join_on (separator depth)
      (map (render_member depth) (sort_by by_name (map (on_value (render (S depth))) (x :: l)))) +:+ pad depth +:+ "}".
Proof.
  destruct x as [k v]. unfold separator, pad, render_member. cbn [render].
  match goal with |- context [sort_by by_name (_ :: ?g l)] => assert (H : g l = map (on_value (render (S depth))) l) end.
  { induction l as [|[k' v'] l IH]; [done|]. simpl. by rewrite <- IH. }
  rewrite H. reflexivity.
Qed.

(** Sorting by name commutes with a change of the values. *)
Lemma sort_by_on_value {A B} (f : A -> B) l :
  sort_by by_name (map (on_value f) l) = map (on_value f) (sort_by by_name l).
Proof.
  induction l as [|x l IH]; [done|]. simpl. rewrite IH. generalize (sort_by by_name l). clear.
  induction l as [|y l IH]; [done|]. simpl. unfold by_name at 1 3. simpl.
  destruct (str_le (fst x) (fst y)); [done|]. simpl. by rewrite IH.
Qed.

(** *** Reading a rendering back *)

Lemma sapp_assoc (a b c : string) : (a +:+ b) +:+ c = a +:+ (b +:+ c).
Proof. induction a as [|x a IH]; [done|]. change (String x ((a +:+ b) +:+ c) = String x (a +:+ (b +:+ c))). by rewrite IH. Qed.

Lemma sapp_nil_r (a : string) : a +:+ "" = a.
Proof. induction a as [|x a IH]; [done|]. change (String x (a +:+ "") = String x a). by rewrite IH. Qed.

Lemma parse_escape_char c s :
  parse_string (escape_char c +:+ s) =
  match parse_string s with Some (t, u) => Some (String c t, u) | None => None end.
Proof. destruct c as [[] [] [] [] [] [] [] []]; reflexivity. Qed.

Lemma parse_quoted t r : parse_string (escape t +:+ String "034" r) = Some (t, r).
Proof.
  induction t as [|c t IH]; [done|]. cbn [escape]. rewrite sapp_assoc, parse_escape_char, IH. done.
Qed.

(** Decimal digits. *)
Lemma digits_of_spec fuel n acc :
  (n < 2 ^ N.of_nat fuel)%N -> (0 < fuel)%nat ->
  exists ds, digits_of fuel n acc = ds +:+ acc /\ all_digits ds /\ int_from 0 ds = n /\ ds <> "" /\
    (n <> 0%N -> forall r, ds <> String "0" r).
Proof.
  revert n acc. induction fuel as [|fuel IH]; intros n acc Hn Hf; [lia|]. cbn [digits_of].
  set (d := ascii_of_N (48 + n mod 10)).
  assert (Hm : (n mod 10 < 10)%N) by (apply N.mod_lt; done).
  assert (Hd : N_of_ascii d = (48 + n mod 10)%N) by (unfold d; apply N_ascii_embedding; lia).
  assert (Hdig : is_ascii_digit d = true).
  { unfold is_ascii_digit, range, chr_in. rewrite Hd. change (N_of_ascii "0") with 48%N. change (N_of_ascii "9") with 57%N.
    apply andb_true_iff. split; apply N.leb_le; [apply N.le_add_r|]. generalize dependent (n mod 10)%N. clear. lia. }
  assert (Hdm := N.div_mod n 10 ltac:(done)).
  destruct (N.eqb_spec (n / 10) 0) as [Hz|Hz].
  - exists (String d ""). split; [done|]. unfold all_digits. simpl. rewrite Hdig. split_and!; try done.
    + unfold digit_value. rewrite Hd, N.mul_0_l, N.add_0_l, (N.add_comm 48), N.add_sub. rewrite Hdm at 2. by rewrite Hz.
    + intros Hnz r [= Hd0 _]. rewrite Hd0 in Hd. simpl in Hd. lia.
  - assert (Hlt : (n / 10 < 2 ^ N.of_nat fuel)%N).
    { rewrite Nat2N.inj_succ, N.pow_succ_r' in Hn. apply N.Div0.div_lt_upper_bound. lia. }
    assert (Hf' : (0 < fuel)%nat) by (destruct fuel; [simpl in Hlt; lia | lia]).
    destruct (IH (n / 10)%N (String d acc) Hlt Hf') as (ds & -> & Hall & Hv & Hne & Hlead).
    exists (ds +:+ String d ""). rewrite sapp_assoc. split; [done|]. split_and!.
    + unfold all_digits in *. revert Hall Hdig. clear. intros H Hd. induction ds as [|c ds IH].
      * simpl. by rewrite Hd.
      * change ((is_ascii_digit c && all_chars is_ascii_digit (ds +:+ String d ""))%bool = true).
        simpl in H. apply andb_true_iff in H as [-> H]. by apply IH.
    + assert (Happ : forall a, int_from a (ds +:+ String d "") = (int_from a ds * 10 + digit_value d)%N).
      { clear. induction ds as [|c ds IH]; intros a; [done|]. apply (IH (a * 10 + digit_value c)%N). }
      rewrite Happ, Hv. unfold digit_value. rewrite Hd, (N.add_comm 48), N.add_sub, N.mul_comm. by symmetry.
    + by destruct ds.
    + intros _ r Hr. destruct ds as [|c ds]; [done|]. injection Hr as -> _. by apply (Hlead Hz ds).
Qed.

Lemma render_N_spec n :
  exists ds, render_N n = ds /\ all_digits ds /\ int_from 0 ds = n /\ ds <> "" /\ (n <> 0%N -> forall r, ds <> String "0" r).
Proof.
  destruct (digits_of_spec (S (N.to_nat (N.log2 n))) n "") as (ds & H & Hr); [|lia|].
  - rewrite Nat2N.inj_succ, N2Nat.id. destruct (N.eq_dec n 0%N) as [->|Hn]; [done|].
    apply N.log2_spec. lia.
  - exists ds. split; [|exact Hr]. unfold render_N. by rewrite H, sapp_nil_r.
Qed.

(** What follows a value in a rendering. *)
Definition after_value (r : string) : Prop :=
  match r with "" => True | String c _ => c = ","%char \/ c = "010"%char end.

Lemma take_digits_app ds r : all_digits ds -> after_value r -> take_digits (ds +:+ r) = (ds, r).
Proof.
  intros Hds Hr. induction ds as [|c ds IH].
  - destruct r as [|c r]; [done|]. by destruct Hr as [-> | ->].
  - unfold all_digits in *. simpl in Hds. apply andb_true_iff in Hds as [Hc Hds].
    change (take_digits (String c (ds +:+ r)) = (String c ds, r)). simpl. rewrite Hc, IH; done.
Qed.

Lemma int_digits_app ds r :
  all_digits ds -> after_value r -> (forall t, ds <> String "0" t) -> int_digits (ds +:+ r) = (ds, r).
Proof.
  intros Hds Hr Hz. rewrite <- (take_digits_app ds r Hds Hr). destruct ds as [|c ds].
  - destruct r as [|c r]; [done|]. by destruct Hr as [-> | ->].
  - change (int_digits (String c (ds +:+ r)) = take_digits (String c (ds +:+ r))). specialize (Hz ds).
    destruct c as [[] [] [] [] [] [] [] []]; try reflexivity. by destruct Hz.
Qed.

Lemma int_literal_app neg ds r :
  ds <> "" -> after_value r ->
  int_literal neg ds r = Some ((if neg then - Z.of_N (py_int ds) else Z.of_N (py_int ds))%Z, r).
Proof.
  intros Hne Hr. unfold int_literal. destruct ds as [|c ds]; [done|]. cbn [nonempty negb].
  destruct r as [|x r]; [done|]. by destruct Hr as [-> | ->].
Qed.

Lemma parse_rendered_int z r : after_value r -> parse_int (render_int z +:+ r) = Some (z, r).
Proof.
  intros Hr. destruct z as [|p|p].
  - change (int_literal false "0" r = Some (0%Z, r)). by rewrite int_literal_app.
  - destruct (render_N_spec (N.pos p)) as (ds & Hd & Hall & Hv & Hne & Hz). unfold render_int. rewrite Hd.
    specialize (Hz ltac:(done)). unfold parse_int.
    replace (match ds +:+ r with String "-" s' => (true, s') | _ => (false, ds +:+ r) end) with (false, ds +:+ r).
    + rewrite int_digits_app, int_literal_app by done. unfold py_int. by rewrite Hv.
    + destruct ds as [|c ds]; [done|]. unfold all_digits in Hall. simpl in Hall. apply andb_true_iff in Hall as [Hc _].
      change (String c ds +:+ r) with (String c (ds +:+ r)). generalize (ds +:+ r).
      destruct c as [[] [] [] [] [] [] [] []]; try discriminate Hc; reflexivity.
  - destruct (render_N_spec (N.pos p)) as (ds & Hd & Hall & Hv & Hne & Hz). unfold render_int. rewrite Hd.
    specialize (Hz ltac:(done)).
    change (("-" +:+ ds) +:+ r) with (String "-" (ds +:+ r)). unfold parse_int.
    rewrite int_digits_app, int_literal_app by done. unfold py_int. by rewrite Hv.
Qed.

Lemma skip_ws_id s : match s with "" => True | String c _ => is_json_ws c = false end -> skip_ws s = s.
Proof. destruct s as [|c s]; [done|]. unfold skip_ws. simpl. by intros ->. Qed.

Lemma skip_ws_spaces n s : skip_ws (spaces n +:+ s) = skip_ws s.
Proof. induction n as [|n IH]; [done|]. exact IH. Qed.

Lemma skip_ws_pad d s : skip_ws (pad d +:+ s) = skip_ws s.
Proof. exact (skip_ws_spaces (2 * d) s). Qed.

Lemma skip_ws_quote t s : skip_ws (quote t +:+ s) = quote t +:+ s.
Proof. reflexivity. Qed.

Lemma value_fuel s v r g :
  (exists f, parse_value f s = Some (v, r)) -> (String.length s <= g)%nat -> parse_value g s = Some (v, r).
Proof. intros [f Hf] Hg. apply (proj1 (parse_enough f)) in Hf as [_ Hf]. apply Hf. lia. Qed.

Lemma members_fuel s v r g :
  (exists f, parse_members f s = Some (v, r)) -> (String.length s <= g)%nat -> parse_members g s = Some (v, r).
Proof. intros [f Hf] Hg. apply (proj1 (proj2 (parse_enough f))) in Hf as [_ Hf]. apply Hf. lia. Qed.

Lemma elements_fuel s v r g :
  (exists f, parse_elements f s = Some (v, r)) -> (String.length s <= g)%nat -> parse_elements g s = Some (v, r).
Proof. intros [f Hf] Hg. apply (proj2 (proj2 (parse_enough f))) in Hf as [_ Hf]. apply Hf. lia. Qed.

Lemma startswith_app p r : startswith p (p +:+ r) = true.
Proof.
  unfold startswith. induction p as [|c p IH]; [by destruct r|].
  change ((if ascii_dec c c then String.prefix p (p +:+ r) else false) = true). by destruct (ascii_dec c c).
Qed.

Lemma removeprefix_drop p r : removeprefix p (p +:+ r) = r.
Proof.
  assert (H := removeprefix_app p _ (startswith_app p r)). revert H. generalize (removeprefix p (p +:+ r)). clear. intros t.
  induction p as [|c p IH]; [intros H; exact (eq_sym H)|]. intros H. apply IH.
  change (String c (p +:+ r) = String c (p +:+ t)) in H. by injection H.
Qed.

(** A character a value starts with. *)
Definition opens_value (c : ascii) : bool :=
  negb (is_json_ws c) && negb (Ascii.eqb c "]") && negb (Ascii.eqb c "}").

(** A digit or a minus sign. *)
Definition opens_int (c : ascii) : bool := is_ascii_digit c || Ascii.eqb c "-".

Lemma render_int_head z : exists c s, render_int z = String c s /\ opens_int c = true.
Proof.
  destruct z as [|p|p]; [by do 2 eexists| |by do 2 eexists].
  destruct (render_N_spec (N.pos p)) as (ds & Hd & Hall & _ & Hne & _). unfold render_int. rewrite Hd.
  destruct ds as [|c ds]; [done|]. exists c, ds. split; [done|]. unfold all_digits in Hall. simpl in Hall.
  apply andb_true_iff in Hall as [Hc _]. unfold opens_int. by rewrite Hc.
Qed.

Lemma render_head depth j : exists c s, render depth j = String c s /\ opens_value c = true.
Proof.
  destruct j as [|[]|z|t|[|x l]|[|x l]]; try (by do 2 eexists).
  destruct (render_int_head z) as (c & s & H & Hc). exists c, s. split; [exact H|].
  destruct c as [[] [] [] [] [] [] [] []]; try discriminate Hc; reflexivity.
Qed.

Lemma skip_ws_render depth j r : skip_ws (render depth j +:+ r) = render depth j +:+ r.
Proof.
  destruct (render_head depth j) as (c & s & -> & Hc). apply skip_ws_id. unfold opens_value in Hc.
  apply andb_true_iff in Hc as [Hc _]. apply andb_true_iff in Hc as [Hc _]. by apply negb_true_iff in Hc.
Qed.

Lemma no_bracket depth j r c :
  c = "]"%char \/ c = "}"%char -> drop_char c (render depth j +:+ r) = None.
Proof.
  destruct (render_head depth j) as (a & s & -> & Ha). unfold opens_value in Ha.
  apply andb_true_iff in Ha as [Ha H2]. apply andb_true_iff in Ha as [_ H1]. apply negb_true_iff in H1, H2.
  intros [-> | ->]; simpl; by rewrite ?H1, ?H2.
Qed.

Definition reads (j : json) : Prop :=
  forall depth r, after_value r -> exists fuel, parse_value fuel (render depth j +:+ r) = Some (sort_keys j, r).

Lemma after_pad d r : after_value (pad d +:+ r).
Proof. by right. Qed.

Lemma after_separator d r : after_value (separator d +:+ r).
Proof. by left. Qed.

Lemma drop_pad c d r : is_json_ws c = false -> drop_char c (skip_ws (pad d +:+ String c r)) = Some r.
Proof. intros Hc. rewrite skip_ws_pad, skip_ws_id by done. simpl. by rewrite Ascii.eqb_refl. Qed.

Lemma skip_separator d s : skip_ws (separator d +:+ s) = String "," (pad (S d) +:+ s).
Proof. reflexivity. Qed.

Lemma join_cons c (x y : string) l : join_on c (x :: y :: l) = x +:+ c +:+ join_on c (y :: l).
Proof. reflexivity. Qed.

Lemma join_head c x l : exists t, join_on c (x :: l) = x +:+ t.
Proof. destruct l as [|y l]; [exists ""; by rewrite sapp_nil_r | by eexists]. Qed.

Lemma skip_ws_elements depth sep x l r :
  skip_ws (join_on sep (map (render depth) (x :: l)) +:+ r) = join_on sep (map (render depth) (x :: l)) +:+ r.
Proof.
  destruct (join_head sep (render depth x) (map (render depth) l)) as [t Ht]. cbn [map]. rewrite Ht, sapp_assoc.
  apply skip_ws_render.
Qed.

Lemma read_elements depth l r :
  l <> [] -> Forall reads l ->
  exists fuel, parse_elements fuel
    (join_on (separator depth) (map (render (S depth)) l) +:+ pad depth +:+ String "]" r) = Some (map sort_keys l, r).
Proof.
  intros Hne Hl. induction Hl as [|x l Hx Hl IH]; [done|]. destruct l as [|y l].
  - cbn [map join_on]. set (s := _ +:+ _). exists (S (String.length s)). cbn [parse_elements].
    rewrite (value_fuel s (sort_keys x) (pad depth +:+ String "]" r)); [|apply Hx, after_pad | lia].
    by rewrite drop_pad.
  - destruct IH as [f Hf]; [done|].
    change (map (render (S depth)) (x :: y :: l)) with (render (S depth) x :: render (S depth) y :: map (render (S depth)) l).
    rewrite join_cons, !sapp_assoc. change (render (S depth) y :: map (render (S depth)) l) with (map (render (S depth)) (y :: l)).
    set (tail := join_on _ _ +:+ _) in *. set (s := render (S depth) x +:+ _).
    exists (S (String.length s + String.length tail)). cbn [parse_elements].
    rewrite (value_fuel s (sort_keys x) (separator depth +:+ tail)); [|apply Hx, after_separator | lia].
    rewrite skip_separator. cbn [drop_char]. change (Ascii.eqb "," "]") with false. change (Ascii.eqb "," ",") with true.
    cbv iota. rewrite skip_ws_pad. rewrite (skip_ws_elements (S depth) _ y l _ : skip_ws tail = tail).
    by rewrite (elements_fuel tail (map sort_keys (y :: l)) r); [|by exists f | lia].
Qed.

(** A member is its quoted name, a colon and its value. *)
Lemma render_member_eq depth k v t : render_member depth (k, v) +:+ t = String "034" (escape k +:+ String "034" (": " +:+ (v +:+ t))).
Proof.
  unfold render_member, quote. cbn [fst snd].
  change (((String "034" (escape k) +:+ String "034" "") +:+ ": " +:+ v) +:+ t)
    with (String "034" (((escape k +:+ String "034" "") +:+ ": " +:+ v) +:+ t)).
  by rewrite !sapp_assoc.
Qed.

Abbreviation rendered depth l := (map (render_member depth) (map (on_value (render (S depth))) l)).

Lemma read_members depth (l : members) r :
  l <> [] -> Forall (fun kv => reads (snd kv)) l ->
  exists fuel, parse_members fuel (join_on (separator depth) (rendered depth l) +:+ pad depth +:+ String "}" r)
    = Some (map (on_value sort_keys) l, r).
Proof.
  intros Hne Hl. induction Hl as [|[k x] l Hx Hl IH]; [done|]. simpl in Hx. destruct l as [|[k' y] l].
  - cbn [map join_on]. rewrite !on_value_pair, render_member_eq. set (s := render (S depth) x +:+ _).
    exists (S (String.length s)). cbn [parse_members drop_char]. rewrite Ascii.eqb_refl, parse_quoted.
    change (skip_ws (": " +:+ s)) with (String ":" (String " " s)). cbn [drop_char]. rewrite Ascii.eqb_refl.
    change (skip_ws (String " " s)) with (skip_ws s). rewrite (skip_ws_render (S depth) x _ : skip_ws s = s).
    rewrite (value_fuel s (sort_keys x) (pad depth +:+ String "}" r)); [|apply Hx, after_pad | lia].
    by rewrite drop_pad.
  - destruct IH as [f Hf]; [done|]. cbn [map] in Hf |- *. rewrite !on_value_pair in *.
    rewrite join_cons, !sapp_assoc, render_member_eq. set (tail := join_on _ _ +:+ _) in *.
    set (s := render (S depth) x +:+ _).
    exists (S (String.length s + String.length tail)). cbn [parse_members drop_char]. rewrite Ascii.eqb_refl, parse_quoted.
    change (skip_ws (": " +:+ s)) with (String ":" (String " " s)). cbn [drop_char]. rewrite Ascii.eqb_refl.
    change (skip_ws (String " " s)) with (skip_ws s). rewrite (skip_ws_render (S depth) x _ : skip_ws s = s).
    rewrite (value_fuel s (sort_keys x) (separator depth +:+ tail)); [|apply Hx, after_separator | lia].
    rewrite skip_separator. cbn [drop_char]. change (Ascii.eqb "," "}") with false. change (Ascii.eqb "," ",") with true.
    cbv iota. rewrite skip_ws_pad.
    assert (Hs : skip_ws tail = tail).
    { unfold tail. destruct (join_head (separator depth) (render_member depth (k', render (S depth) y))
        (rendered depth l)) as [t Ht]. rewrite Ht, sapp_assoc, render_member_eq. done. }
    rewrite Hs, (members_fuel tail _ r _ (ex_intro _ f Hf)) by lia. done.
Qed.

Lemma parse_value_int fuel c s :
  opens_int c = true -> parse_value (S fuel) (String c s) = match parse_int (String c s) with
    | Some (z, r) => Some (JInt z, r) | None => None end.
Proof. destruct c as [[] [] [] [] [] [] [] []]; intros H; try discriminate H; reflexivity. Qed.

Lemma render_reads j : reads j.
Proof.
  induction j as [|b|z|t|l Hl|l Hl] using json_rect'; intros depth r Hr.
  - exists 1%nat. cbn [parse_value render]. rewrite startswith_app, removeprefix_drop. done.
  - exists 1%nat. cbn [parse_value render]. destruct b; rewrite startswith_app, removeprefix_drop; done.
  - exists 1%nat. destruct (render_int_head z) as (c & s & H & Hc). assert (Hp := parse_rendered_int z r Hr).
    cbn [render sort_keys]. rewrite H in *. change (String c s +:+ r) with (String c (s +:+ r)) in *.
    by rewrite parse_value_int, Hp.
  - exists 1%nat. cbn [render sort_keys]. unfold quote.
    change ((String "034" (escape t) +:+ String "034" "") +:+ r) with (String "034" ((escape t +:+ String "034" "") +:+ r)).
    rewrite sapp_assoc. cbn [parse_value drop_char]. rewrite Ascii.eqb_refl.
    change (String "034" "" +:+ r) with (String "034" r). by rewrite parse_quoted.
  - destruct l as [|x l]; [by exists 1%nat|]. rewrite render_arr, sort_keys_arr, !sapp_assoc.
    destruct (read_elements depth (x :: l) r) as [f Hf]; [done | done |].
    set (s := join_on _ _ +:+ _) in *. change ("]" +:+ r) with (String "]" r) in *.
    exists (S (String.length s)). cbn [parse_value]. change (drop_char "034" ("[" +:+ pad (S depth) +:+ s)) with (@None string).
    change (drop_char "{" ("[" +:+ pad (S depth) +:+ s)) with (@None string).
    change (drop_char "[" ("[" +:+ pad (S depth) +:+ s)) with (Some (pad (S depth) +:+ s)). cbv iota.
    rewrite skip_ws_pad, (skip_ws_elements (S depth) _ x l _ : skip_ws s = s).
    assert (drop_char "]" s = None) as ->.
    { unfold s. destruct (join_head (separator depth) (render (S depth) x) (map (render (S depth)) l)) as [t Ht].
      cbn [map]. rewrite Ht, sapp_assoc. apply no_bracket. by left. }
    by rewrite (elements_fuel s _ r _ (ex_intro _ f Hf)) by lia.
  - destruct l as [|x l]; [by exists 1%nat|]. rewrite render_obj, sort_keys_obj, !sort_by_on_value, !sapp_assoc.
    assert (Hperm := sort_by_perm by_name (x :: l)).
    assert (Hs : sort_by by_name (x :: l) <> []).
    { intros H. rewrite H in Hperm. by apply Permutation_nil_cons in Hperm. }
    assert (Hs' : Forall (fun kv => reads (snd kv)) (sort_by by_name (x :: l))) by by rewrite Hperm.
    destruct (sort_by by_name (x :: l)) as [|[k y] m] eqn:Hm; [done|].
    destruct (read_members depth ((k, y) :: m) r) as [f Hf]; [done | done |].
    set (s := join_on _ _ +:+ _) in *. change ("}" +:+ r) with (String "}" r) in *.
    exists (S (String.length s)). cbn [parse_value]. change (drop_char "034" ("{" +:+ pad (S depth) +:+ s)) with (@None string).
    change (drop_char "{" ("{" +:+ pad (S depth) +:+ s)) with (Some (pad (S depth) +:+ s)). cbv iota.
    assert (Hq : exists t, s = String "034" t).
    { unfold s. cbn [map]. rewrite on_value_pair.
      destruct (join_head (separator depth) (render_member depth (k, render (S depth) y)) (rendered depth m)) as [t Ht].
      rewrite Ht, sapp_assoc, render_member_eq. by eexists. }
    destruct Hq as [t Hq]. rewrite skip_ws_pad.
    assert (Hw : skip_ws s = s) by by rewrite Hq. assert (Hd : drop_char "}" s = None) by by rewrite Hq.
    rewrite Hw, Hd. by rewrite (members_fuel s _ r _ (ex_intro _ f Hf)) by lia.
Qed.

Lemma canonical_loads v : json_loads (canonical_json v) = Some (sort_keys v).
Proof.
  unfold json_loads, canonical_json. rewrite skip_ws_render.
  rewrite (value_fuel _ (sort_keys v) newline); [done | apply render_reads; by right | lia].
Qed.

#[export] Instance by_name_preorder {A} : TotalPreorder (@by_name A).
Proof. apply (total_preorder_on str_le fst), le_of_preorder, _. Qed.

Lemma render_sort_keys j depth : render depth (sort_keys j) = render depth j.
Proof.
  revert depth. induction j as [|b|z|t|l Hl|l Hl] using json_rect'; intros depth; try done.
  - rewrite sort_keys_arr. destruct l as [|x l]; [done|]. rewrite render_arr. cbn [map]. rewrite render_arr.
    assert (Hm : map (render (S depth)) (sort_keys x :: map sort_keys l) = map (render (S depth)) (x :: l)); [|by rewrite Hm].
    change (sort_keys x :: map sort_keys l) with (map sort_keys (x :: l)). rewrite map_map. apply map_ext_in. intros y Hy. rewrite Forall_forall in Hl. apply Hl. by apply list_elem_of_In.
  - rewrite sort_keys_obj. destruct l as [|x l]; [done|]. rewrite (render_obj depth x l).
    set (m := x :: l) in *. destruct (sort_by by_name (map (on_value sort_keys) m)) as [|y r] eqn:Hs.
    { assert (Hp := sort_by_perm by_name (map (on_value sort_keys) m)). rewrite Hs in Hp.
      by apply Permutation_nil in Hp. }
    assert (Hm : sort_by by_name (map (on_value (render (S depth))) (y :: r))
               = sort_by by_name (map (on_value (render (S depth))) m)); [|by rewrite render_obj, Hm].
    rewrite <- Hs, <- sort_by_on_value, sort_by_idemp, map_map by apply _. f_equal.
    apply map_ext_in. intros [k w] Hin. rewrite !on_value_pair. f_equal. rewrite Forall_forall in Hl.
    apply (Hl (k, w)). by apply list_elem_of_In.
Qed.

Lemma canonical_sort_keys v : canonical_json (sort_keys v) = canonical_json v.
Proof. unfold canonical_json. by rewrite render_sort_keys. Qed.

(** *** Members by name *)

Lemma jget_elem k (l : members) v : NoDup (jkeys l) -> (jget k l = Some v <-> (k, v) ∈ l).
Proof.
  unfold jkeys. induction l as [|[k' w] l IH]; intros Hnd.
  - split; [done | intros H; by apply not_elem_of_nil in H].
  - apply NoDup_cons in Hnd as [Hni Hnd]. cbn [jget]. rewrite elem_of_cons. destruct (String.eqb_spec k' k) as [->|Hne].
    + split; [intros [= ->]; by left|]. intros [[= ->]|Hin]; [done|]. destruct Hni. by apply (list_elem_of_fmap_2 fst _ (k, v)).
    + rewrite IH by done. split; [by right|]. intros [[= <- _]|]; [by destruct Hne | done].
Qed.

Lemma jget_sort_keys k (l m : members) :
  NoDup (jkeys l) -> sort_keys (JObj l) = JObj m -> jget k m = option_map sort_keys (jget k l).
Proof.
  intros Hnd. rewrite sort_keys_obj. intros [= <-].
  assert (Hm : NoDup (jkeys (sort_by by_name (map (on_value sort_keys) l)))).
  { unfold jkeys. rewrite sort_by_perm, map_map. exact Hnd. }
  apply option_eq. intros v. rewrite jget_elem by done. rewrite sort_by_elem, list_elem_of_fmap.
  destruct (jget k l) as [w|] eqn:Hw; simpl.
  - apply jget_elem in Hw; [|done]. split.
    + intros ([k' w'] & [= -> ->] & Hin). apply jget_elem in Hin; [|done]. apply jget_elem in Hw; [|done]. congruence.
    + intros [= <-]. by exists (k, w).
  - split; [|done]. intros ([k' w'] & [= -> ->] & Hin). apply jget_elem in Hin; [|done]. simpl in *. congruence.
Qed.

(** *** Duplicate names *)

Lemma duplicate_key_spec seen (l : members) :
  duplicate_key seen l = None <-> NoDup (map fst l) /\ (forall k, k ∈ map fst l -> k ∉ seen).
Proof.
  revert seen. induction l as [|[k v] l IH]; intros seen.
  - split; [|done]. intros _. split; [constructor|]. intros k Hk. by apply not_elem_of_nil in Hk.
  - cbn [duplicate_key map fst]. case_bool_decide as Hk.
    + split; [done|]. intros [_ H]. destruct (H k); [by constructor | done].
    + rewrite IH, NoDup_cons. split.
      * intros [Hnd Hs]. split_and!; [|done|].
        -- intros Hin. destruct (Hs k Hin). by constructor.
        -- intros k' [-> | Hin]%elem_of_cons; [done|]. intros Hse. destruct (Hs k' Hin). by constructor.
      * intros [[Hni Hnd] Hs]. split; [done|]. intros k' Hin [-> | Hse]%elem_of_cons; [done|].
        destruct (Hs k'); [by constructor | done].
Qed.

Lemma hook_arr l : object_hook (JArr l) = Ok tt <-> Forall (fun j => object_hook j = Ok tt) l.
Proof.
  cbn [object_hook]. induction l as [|x l IH]; [split; [by constructor | done]|]. rewrite Forall_cons, <- IH, res_bind_Ok.
  split; [intros ([] & H1 & H2); done | intros [H1 H2]; by exists tt].
Qed.

Lemma hook_obj l :
  object_hook (JObj l) = Ok tt <-> Forall (fun kv => object_hook (snd kv) = Ok tt) l /\ NoDup (map fst l).
Proof.
  cbn [object_hook]. rewrite res_bind_Ok.
  assert (Hd : (match duplicate_key [] l with Some k => invalid ("duplicate JSON key " +:+ k) | None => Ok tt end = Ok tt)
    <-> NoDup (map fst l)).
  { assert (H := duplicate_key_spec [] l). destruct (duplicate_key [] l) as [k|].
    - split; [done|]. intros Hnd. destruct H as [_ H]. discriminate H. split; [done|]. intros ? _. apply not_elem_of_nil.
    - split; [|done]. intros _. by apply H. }
  assert (Hl : (fix go (m : members) : res exn unit := match m with [] => Ok tt | (_, v) :: m => object_hook v ;? go m end) l = Ok tt
    <-> Forall (fun kv => object_hook (snd kv) = Ok tt) l).
  { clear Hd. induction l as [|[k v] l IH]; [split; [by constructor | done]|]. rewrite Forall_cons, <- IH, res_bind_Ok.
    split; [intros ([] & H1 & H2); done | intros [H1 H2]; by exists tt]. }
  rewrite <- Hl. split; [intros ([] & H1 & H2) | intros [H1 H2]; exists tt]; by rewrite <- Hd in *.
Qed.

Lemma hook_sort_keys j : object_hook j = Ok tt -> object_hook (sort_keys j) = Ok tt.
Proof.
  induction j as [|b|z|t|l Hl|l Hl] using json_rect'; try done.
  - rewrite sort_keys_arr, !hook_arr, Forall_fmap, !Forall_forall. rewrite Forall_forall in Hl. intros H x Hx. simpl. auto.
  - rewrite sort_keys_obj, !hook_obj, sort_by_perm. intros [H Hnd]. split.
    + rewrite Forall_fmap, Forall_forall in *. intros x Hx. simpl. auto.
    + rewrite map_map. exact Hnd.
Qed.

(** *** Equal dictionaries *)

Lemma decode_json_Ok text origin l :
  decode_json text origin = Ok l -> json_loads text = Some (JObj l) /\ object_hook (JObj l) = Ok tt /\ NoDup (jkeys l).
Proof.
  unfold decode_json. destruct (json_loads text) as [v|]; [|done]. destruct (object_hook v) as [[]|] eqn:Hh; [|done].
  destruct v; try done. intros [= ->]. split_and!; try done. by apply hook_obj in Hh as [_ Hh].
Qed.


Lemma py_eq_arr l m : py_eq (JArr l) (JArr m) = true <-> Forall2 (fun x y => py_eq x y = true) l m.
Proof.
  cbn [py_eq]. revert m. induction l as [|x l IH]; intros [|y m]; split; try done; try (by intros H; inversion H).
  - intros [H1 H2]%andb_true_iff. constructor; [done|]. by apply IH.
  - intros [H1 H2]%Forall2_cons. apply andb_true_iff. split; [done|]. by apply IH.
Qed.

Lemma py_eq_obj l m :
  py_eq (JObj l) (JObj m) = true <->
  length l = length m /\ Forall (fun kv => exists w, jget (fst kv) m = Some w /\ py_eq (snd kv) w = true) l.
Proof.
  cbn [py_eq]. rewrite andb_true_iff, Nat.eqb_eq. apply and_iff_compat_l.
  induction l as [|[k v] l IH]; [done|]. rewrite Forall_cons, andb_true_iff, IH. cbn [fst snd]. apply and_iff_compat_r.
  destruct (jget k m) as [w|]; split; try done; [by intros H; exists w | by intros (? & [= <-] & ?) | by intros (? & ? & _)].
Qed.

(** Dictionaries that compare equal have the same names with equal values. *)
Lemma py_eq_jget l m k :
  NoDup (jkeys l) -> NoDup (jkeys m) -> py_eq (JObj l) (JObj m) = true ->
  match jget k l, jget k m with
  | Some v, Some w => py_eq v w = true
  | None, None => True
  | _, _ => False
  end.
Proof.
  intros Hl Hm [Hlen H]%py_eq_obj. rewrite Forall_forall in H. destruct (jget k l) as [v|] eqn:Hv.
  - apply jget_elem in Hv; [|done]. destruct (H _ Hv) as (w & Hw & He). cbn [fst] in Hw. by rewrite Hw.
  - destruct (jget k m) as [w|] eqn:Hw; [|done]. assert (Hsub : jkeys l ⊆+ jkeys m).
    { apply NoDup_submseteq; [done|]. intros k' ([k0 v] & -> & Hin)%list_elem_of_fmap. destruct (H _ Hin) as (w' & Hw' & _).
      apply jget_elem in Hw'; [|done]. by apply (list_elem_of_fmap_2 fst _ (k0, w')). }
    apply submseteq_length_Permutation in Hsub; [|unfold jkeys; rewrite !length_map; lia].
    apply jget_elem in Hw; [|done]. assert (Hk : k ∈ jkeys l) by (rewrite Hsub; by apply (list_elem_of_fmap_2 fst _ (k, w))).
    apply list_elem_of_fmap in Hk as ([k0 v] & -> & Hin). apply jget_elem in Hin; [|done]. simpl in *. congruence.
Qed.

Lemma py_eq_sort_keys j : object_hook j = Ok tt -> py_eq j (sort_keys j) = true /\ py_eq (sort_keys j) j = true.
Proof.
  induction j as [|b|z|t|l Hl|l Hl] using json_rect'; try (by split).
  - intros _. by destruct b.
  - intros _. by split; apply Z.eqb_eq.
  - intros _. by split; apply String.eqb_eq.
  - rewrite sort_keys_arr, hook_arr, !py_eq_arr. intros H. split; induction Hl as [|x l Hx _ IH]; try (by constructor);
      apply Forall_cons in H as [H1 H2]; destruct (Hx H1); constructor; auto.
  - rewrite hook_obj. intros [H Hnd]. rewrite Forall_forall in H, Hl. rewrite sort_keys_obj, !py_eq_obj.
    assert (Hj : forall k, jget k (sort_by by_name (map (on_value sort_keys) l)) = option_map sort_keys (jget k l)).
    { intros k. apply jget_sort_keys; [done|]. apply sort_keys_obj. }
    assert (Hlen : length (sort_by by_name (map (on_value sort_keys) l)) = length l) by by rewrite sort_by_perm, length_map.
    rewrite Hlen, !Forall_forall. split_and!; try done.
    + intros [k v] Hin. exists (sort_keys v). rewrite Hj. assert (Hg := Hin). apply jget_elem in Hg; [|done]. cbn [fst snd].
      rewrite Hg. split; [done|]. by apply (Hl _ Hin), (H _ Hin).
    + intros kv. rewrite sort_by_elem. intros ([k v] & -> & Hin)%list_elem_of_fmap. exists v. cbn [on_value fst snd].
      split; [by apply jget_elem|]. by apply (Hl _ Hin), (H _ Hin).
Qed.

(** *** Suffixes *)

Lemma endswith_iff p s : endswith p s = true <-> exists a, s = a +:+ p.
Proof.
  induction s as [|c s IH]; cbn [endswith].
  - rewrite orb_false_r, String.eqb_eq. split; [intros ->; by exists ""|]. intros ([|] & H); [by symmetry | done].
  - rewrite orb_true_iff, String.eqb_eq, IH. split.
    + intros [->|(a & ->)]; [by exists "" | by exists (String c a)].
    + intros ([|c' a] & H); [by left|]. right. injection H as _ ->. by exists a.
Qed.

Lemma substring_app a b : String.substring 0 (String.length a) (a +:+ b) = a.
Proof. induction a as [|c a IH]; [by destruct b|]. change (String c (String.substring 0 (String.length a) (a +:+ b)) = String c a). by rewrite IH. Qed.

(** *** Dictionaries *)

Lemma to_dict_arr l : to_dict (JArr l) = JArr (map to_dict l).
Proof. reflexivity. Qed.

Definition assign (d : members) (kv : string * json) : members := set_member (fst kv) (to_dict (snd kv)) d.

Lemma to_dict_obj l : to_dict (JObj l) = JObj (foldl assign [] l).
Proof. cbn [to_dict]. f_equal. generalize (@nil (string * json)). induction l as [|[k v] l IH]; intros d; [done|]. apply IH. Qed.

Lemma jkeys_set_member k v l : jkeys (set_member k v l) = if bool_decide (k ∈ jkeys l) then jkeys l else jkeys l ++ [k].
Proof.
  induction l as [|[k' w] l IH]; [done|]. cbn [set_member]. destruct (String.eqb_spec k' k) as [->|Hne]; cbn [jkeys map fst].
  - rewrite bool_decide_true by constructor. done.
  - change (map fst ?x) with (jkeys x). rewrite IH. assert (Hk : k ∈ k' :: jkeys l <-> k ∈ jkeys l).
    { rewrite elem_of_cons. split; [by intros [->|] | by right]. }
    do 2 case_bool_decide; tauto || done.
Qed.

Lemma set_member_fresh k v l : k ∉ jkeys l -> set_member k v l = l ++ [(k, v)].
Proof.
  induction l as [|[k' w] l IH]; [done|]. cbn [jkeys map fst set_member]. intros [Hne Hni]%not_elem_of_cons.
  destruct (String.eqb_spec k' k) as [->|_]; [done|]. simpl. by rewrite IH.
Qed.

Lemma jget_set_member k k' v l : jget k' (set_member k v l) = if String.eqb k k' then Some v else jget k' l.
Proof.
  induction l as [|[k0 w] l IH]; cbn [set_member jget]; [done|].
  destruct (String.eqb_spec k0 k) as [->|Hne]; cbn [jget]; [by destruct (String.eqb k k')|]. rewrite IH.
  destruct (String.eqb_spec k k') as [->|]; [by destruct (String.eqb_spec k0 k')|done].
Qed.

Lemma set_member_Forall (P : json -> Prop) k v l :
  P v -> Forall (fun kv => P (snd kv)) l -> Forall (fun kv => P (snd kv)) (set_member k v l).
Proof.
  intros Hv. induction 1 as [|[k' w] l Hw Hl IH]; cbn [set_member]; [by repeat constructor|].
  destruct (String.eqb k' k); by constructor.
Qed.

Lemma set_member_NoDup k v l : NoDup (jkeys l) -> NoDup (jkeys (set_member k v l)).
Proof.
  intros Hl. rewrite jkeys_set_member. case_bool_decide as Hk; [done|]. apply NoDup_app. split; [done|]. split.
  - intros x Hx ->%list_elem_of_singleton. done.
  - apply NoDup_singleton.
Qed.

Lemma set_member_hook k v l :
  object_hook v = Ok tt -> object_hook (JObj l) = Ok tt -> object_hook (JObj (set_member k v l)) = Ok tt.
Proof.
  rewrite !hook_obj. intros Hv [Hl Hnd]. split; [by apply (set_member_Forall (fun v => object_hook v = Ok tt)) | by apply set_member_NoDup].
Qed.

(** What [json.loads] returns has no duplicate names, and is the parsed value
    when that has none. *)
Lemma to_dict_hook j : object_hook (to_dict j) = Ok tt.
Proof.
  induction j as [|b|z|t|l Hl|l Hl] using json_rect'; try done.
  - rewrite to_dict_arr, hook_arr, Forall_fmap. exact Hl.
  - rewrite to_dict_obj. assert (Hd : object_hook (JObj []) = Ok tt) by done. revert Hd. generalize (@nil (string * json)).
    induction Hl as [|[k v] l Hv _ IH]; intros d Hd; [done|]. apply IH. by apply set_member_hook.
Qed.

Lemma to_dict_id j : object_hook j = Ok tt -> to_dict j = j.
Proof.
  induction j as [|b|z|t|l Hl|l Hl] using json_rect'; try done.
  - rewrite to_dict_arr, hook_arr. intros H. f_equal. induction Hl as [|x l Hx _ IH]; [done|]. apply Forall_cons in H as [H1 H2].
    simpl. f_equal; auto.
  - rewrite to_dict_obj, hook_obj. intros [H Hnd]. f_equal.
    assert (Hg : forall d, NoDup (jkeys (d ++ l)) -> foldl assign d l = d ++ l); [|by apply (Hg [])].
    clear Hnd. induction Hl as [|[k v] l Hv _ IH]; intros d Hnd; [by rewrite app_nil_r|]. apply Forall_cons in H as [H1 H2].
    simpl in *. rewrite IH; [|done|]; unfold assign; simpl; rewrite Hv by done; rewrite set_member_fresh.
    + by rewrite <- app_assoc.
    + unfold jkeys in *. rewrite map_app in Hnd. apply NoDup_app in Hnd as (_ & Hni & _). intros Hk. apply (Hni k Hk). by left.
    + by rewrite <- app_assoc.
    + unfold jkeys in *. rewrite map_app in Hnd. apply NoDup_app in Hnd as (_ & Hni & _). intros Hk. apply (Hni k Hk). by left.
Qed.

Lemma loads_hook text v : json_loads text = Some v -> object_hook v = Ok tt -> loads text = Some v.
Proof. unfold loads. intros -> H. simpl. by rewrite to_dict_id. Qed.

Lemma canonical_loads_dict v : object_hook v = Ok tt -> loads (canonical_json v) = Some (sort_keys v).
Proof. intros H. apply loads_hook; [apply canonical_loads | by apply hook_sort_keys]. Qed.

Lemma loads_no_duplicates text v : loads text = Some v -> object_hook v = Ok tt.
Proof. unfold loads. destruct (json_loads text); [|done]. intros [= <-]. apply to_dict_hook. Qed.

(** ** Properties *)

(** The parser terminates with its answer: its recursion is at most as deep
    as the text is long, so no bound above the length changes whether a text
    is accepted or which value it denotes. *)
Theorem json_loads_terminates text fuel :
  (String.length text <= fuel)%nat ->
  json_loads text =
    match parse_value fuel (skip_ws text) with
    | Some (v, r) => if nonempty (skip_ws r) then None else Some v
    | None => None
    end.
Proof.
  intros Hf. unfold json_loads. assert (Hw := skip_ws_length text).
  destruct (parse_value (2 + String.length text) (skip_ws text)) as [[v r]|] eqn:H1.
  - by rewrite (value_fuel (skip_ws text) v r fuel (ex_intro _ _ H1)) by lia.
  - destruct (parse_value fuel (skip_ws text)) as [[v r]|] eqn:H2; [|done].
    rewrite (value_fuel (skip_ws text) v r (2 + String.length text) (ex_intro _ _ H2)) in H1 by lia. done.
Qed.

Lemma json_loads_terminates_witness :
  json_loads "[1, {}]" = match parse_value 7 (skip_ws "[1, {}]") with
    | Some (v, r) => if nonempty (skip_ws r) then None else Some v | None => None end /\
  json_loads "[1, {}]" = Some (JArr [JInt 1; JObj []]).
Proof. split; [apply (json_loads_terminates "[1, {}]" 7); simpl; lia | vm_compute; reflexivity]. Defined.

(** C40. Round trip: reading a canonical text gives the value it was written
    from, with the members of every object in name order; the reader that
    refuses duplicate names accepts the text of every object without them; and
    two values with the same canonical text differ only in the order of object
    members. *)
Theorem canonical_json_round_trip v :
  json_loads (canonical_json v) = Some (sort_keys v) /\
  (forall l origin, v = JObj l -> object_hook v = Ok tt ->
     exists m, sort_keys v = JObj m /\ decode_json (canonical_json v) origin = Ok m) /\
  (forall w, canonical_json v = canonical_json w -> sort_keys v = sort_keys w).
Proof.
  split_and!.
  - apply canonical_loads.
  - intros l origin -> Hh. rewrite sort_keys_obj. eexists. split; [done|]. unfold decode_json.
    rewrite canonical_loads, (hook_sort_keys _ Hh), sort_keys_obj. done.
  - intros w Hw. assert (H1 := canonical_loads v). rewrite Hw, canonical_loads in H1. by injection H1 as ->.
Qed.

Lemma canonical_json_round_trip_witness :
  (exists m, sort_keys (JObj [("b", JInt 1); ("a", JNull)]) = JObj m /\
     decode_json (canonical_json (JObj [("b", JInt 1); ("a", JNull)])) "f" = Ok m) /\
  sort_keys (JObj [("b", JInt 1); ("a", JNull)]) = sort_keys (JObj [("a", JNull); ("b", JInt 1)]).
Proof.
  destruct (canonical_json_round_trip (JObj [("b", JInt 1); ("a", JNull)])) as (_ & H1 & H2). split.
  - eapply H1; reflexivity.
  - apply H2. vm_compute. reflexivity.
Defined.
