(* ===== verification/Base64.v ===== *)
(** * Base64 and URL encoding of the standard library

    [base64.urlsafe_b64encode], [base64.urlsafe_b64decode] (which skips
    characters outside the alphabet and stops at the padding),
    [urllib.parse.urlencode], and the compact [json.dumps] whose output is
    ASCII: what auth/oauth.py and auth/oauth_api.py use of them.  Bytes are
    characters; a sextet is a character whose two upper bits are clear. *)

From S2P Require Import Prelude PyText SemVer Json JsonText.

Open Scope string_scope.
Open Scope list_scope.

(** ** Base64 *)

Definition zero : ascii := "000"%char.

(** The four sextets of three bytes. *)
Definition sextet1 (a : ascii) : ascii :=
  let '(Ascii _ _ a2 a3 a4 a5 a6 a7) := a in Ascii a2 a3 a4 a5 a6 a7 false false.
Definition sextet2 (a b : ascii) : ascii :=
  let '(Ascii a0 a1 _ _ _ _ _ _) := a in let '(Ascii _ _ _ _ b4 b5 b6 b7) := b in
  Ascii b4 b5 b6 b7 a0 a1 false false.
Definition sextet3 (b c : ascii) : ascii :=
  let '(Ascii b0 b1 b2 b3 _ _ _ _) := b in let '(Ascii _ _ _ _ _ _ c6 c7) := c in
  Ascii c6 c7 b0 b1 b2 b3 false false.
Definition sextet4 (c : ascii) : ascii :=
  let '(Ascii c0 c1 c2 c3 c4 c5 _ _) := c in Ascii c0 c1 c2 c3 c4 c5 false false.

(** The alphabet, with [-] and [_] for the last two. *)
Definition b64_char (x : ascii) : ascii :=
  let n := N_of_ascii x in
  if N.ltb n 26 then ascii_of_N (65 + n)
  else if N.ltb n 52 then ascii_of_N (71 + n)
  else if N.ltb n 62 then ascii_of_N (n - 4)
  else if N.eqb n 62 then "-"%char else "_"%char.

Fixpoint urlsafe_b64encode (s : string) : string :=
  match s with
  | "" => ""
  | String a "" => String (b64_char (sextet1 a)) (String (b64_char (sextet2 a zero)) "==")
  | String a (String b "") =>
      String (b64_char (sextet1 a)) (String (b64_char (sextet2 a b)) (String (b64_char (sextet3 b zero)) "="))
  | String a (String b (String c s)) =>
      String (b64_char (sextet1 a)) (String (b64_char (sextet2 a b))
        (String (b64_char (sextet3 b c)) (String (b64_char (sextet4 c)) (urlsafe_b64encode s))))
  end.

(** The sextet of a character, after [-] and [_] were translated. *)
Definition b64_value (c : ascii) : option ascii :=
  let n := N_of_ascii c in
  if range "A" "Z" c then Some (ascii_of_N (n - 65))
  else if range "a" "z" c then Some (ascii_of_N (n - 71))
  else if is_ascii_digit c then Some (ascii_of_N (n + 4))
  else if Ascii.eqb c "-" || Ascii.eqb c "+" then Some (ascii_of_N 62)
  else if Ascii.eqb c "_" || Ascii.eqb c "/" then Some (ascii_of_N 63)
  else None.

Definition byte1 (p x : ascii) : ascii :=
  let '(Ascii p0 p1 p2 p3 p4 p5 _ _) := p in let '(Ascii _ _ _ _ x4 x5 _ _) := x in
  Ascii x4 x5 p0 p1 p2 p3 p4 p5.
Definition byte2 (p x : ascii) : ascii :=
  let '(Ascii p0 p1 p2 p3 _ _ _ _) := p in let '(Ascii _ _ x2 x3 x4 x5 _ _) := x in
  Ascii x2 x3 x4 x5 p0 p1 p2 p3.
Definition byte3 (p x : ascii) : ascii :=
  let '(Ascii p0 p1 _ _ _ _ _ _) := p in let '(Ascii x0 x1 x2 x3 x4 x5 _ _) := x in
  Ascii x0 x1 x2 x3 x4 x5 p0 p1.

(** The sextet read last, at its place in the group of four. *)
Inductive quad := Zero | One (p : ascii) | Two (p : ascii) | Three (p : ascii).

Definition consed (c : ascii) (s : option string) : option string :=
  match s with Some s => Some (String c s) | None => None end.

(** [binascii.a2b_base64], not strict; [None] is [binascii.Error]. *)
Fixpoint a2b (q : quad) (pads : nat) (s : string) : option string :=
  match s with
  | "" => match q with Zero => Some "" | _ => None end
  | String c s =>
      if Ascii.eqb c "=" then
        match q with
        | Two _ => if Nat.leb 4 (2 + S pads) then Some "" else a2b q (S pads) s
        | Three _ => Some ""
        | _ => a2b q pads s
        end
      else
        match b64_value c with
        | None => a2b q pads s
        | Some x =>
            match q with
            | Zero => a2b (One x) 0 s
            | One p => consed (byte1 p x) (a2b (Two x) 0 s)
            | Two p => consed (byte2 p x) (a2b (Three x) 0 s)
            | Three p => consed (byte3 p x) (a2b Zero 0 s)
            end
        end
  end.

(** [None] also for a text that is not ASCII. *)
Definition urlsafe_b64decode (s : string) : option string :=
  if all_chars (fun c => N.ltb (N_of_ascii c) 128) s then a2b Zero 0 s else None.

(** [base64.b64decode]: [-] and [_] are outside the alphabet and skipped. *)
Definition b64decode (s : string) : option string :=
  if all_chars (fun c => N.ltb (N_of_ascii c) 128) s
  then a2b Zero 0 (string_filter (fun c => negb (mem_char c "-_")) s) else None.

(** ["=" * (-n % 4)] *)
Definition b64_padding (n : nat) : string :=
  match Nat.modulo n 4 with O => "" | 1%nat => "===" | 2%nat => "==" | _ => "=" end.

(** ** [urlencode] *)

Definition percent (n : N) : string :=
  let hex (n : N) := ascii_of_N (if N.ltb n 10 then 48 + n else 55 + n) in
  String "%" (String (hex (n / 16)%N) (String (hex (n mod 16)%N) "")).

Definition unreserved (c : ascii) : bool := is_ascii_alpha c || is_ascii_digit c || mem_char c "_.-~".

(** [quote_plus], on the UTF-8 bytes of a character. *)
Definition quote_char (c : ascii) : string :=
  let n := N_of_ascii c in
  if unreserved c then String c ""
  else if Ascii.eqb c " " then "+"
  else if N.ltb n 128 then percent n
  else percent (192 + n / 64) +:+ percent (128 + n mod 64).

Fixpoint quote_plus (s : string) : string :=
  match s with "" => "" | String c s => quote_char c +:+ quote_plus s end.

Definition urlencode (query : list (string * string)) : string :=
  join_on "&" (map (fun kv => quote_plus (fst kv) +:+ "=" +:+ quote_plus (snd kv)) query).

(** ** [json.dumps(value, separators=(",", ":"), sort_keys=True)] *)

Definition escape_ascii_char (c : ascii) : string :=
  if N.ltb (N_of_ascii c) 127 then escape_char c
  else "\u00" +:+ String (hex_digit (N_of_ascii c / 16)) (String (hex_digit (N_of_ascii c mod 16)) "").

Fixpoint escape_ascii (s : string) : string :=
  match s with "" => "" | String c s => escape_ascii_char c +:+ escape_ascii s end.

Definition quote_ascii (s : string) : string := String "034" (escape_ascii s) +:+ String "034" "".

Fixpoint compact (j : json) : string :=
  match j with
  | JNull => "null"
  | JBool true => "true"
  | JBool false => "false"
  | JInt z => render_int z
  | JStr s => quote_ascii s
  | JArr l =>
      "[" +:+ join_on ","
        ((fix go (l : list json) : list string := match l with [] => [] | x :: l => compact x :: go l end) l) +:+ "]"
  | JObj l =>
      "{" +:+ join_on ","
        (map (fun kv => quote_ascii (fst kv) +:+ ":" +:+ snd kv)
           (sort_by by_name
              ((fix go (l : members) : list (string * string) :=
                  match l with [] => [] | (k, v) :: l => (k, compact v) :: go l end) l))) +:+ "}"
  end.

(** ** Facts *)

(** Induction by groups of three. *)
Lemma groups_ind (P : string -> Prop) :
  P "" -> (forall a, P (String a "")) -> (forall a b, P (String a (String b ""))) ->
  (forall a b c s, P s -> P (String a (String b (String c s)))) -> forall s, P s.
Proof.
  intros H0 H1 H2 H3. fix IH 1. intros [|a [|b [|c s]]]; [exact H0 | apply H1 | apply H2 | apply H3, IH].
Qed.

Lemma b64_value_char x0 x1 x2 x3 x4 x5 :
  b64_value (b64_char (Ascii x0 x1 x2 x3 x4 x5 false false)) = Some (Ascii x0 x1 x2 x3 x4 x5 false false) /\
  Ascii.eqb (b64_char (Ascii x0 x1 x2 x3 x4 x5 false false)) "=" = false /\
  N.ltb (N_of_ascii (b64_char (Ascii x0 x1 x2 x3 x4 x5 false false))) 128 = true /\
  Ascii.eqb (b64_char (Ascii x0 x1 x2 x3 x4 x5 false false)) "." = false.
Proof. destruct x0, x1, x2, x3, x4, x5; vm_compute; done. Qed.

(** A character the encoder writes. *)
Definition b64_ok (c : ascii) : Prop :=
  Ascii.eqb c "=" = false /\ N.ltb (N_of_ascii c) 128 = true /\ Ascii.eqb c "." = false.

Lemma b64_char_ok x : (exists x0 x1 x2 x3 x4 x5, x = Ascii x0 x1 x2 x3 x4 x5 false false) -> b64_ok (b64_char x).
Proof. intros (x0 & x1 & x2 & x3 & x4 & x5 & ->). apply b64_value_char. Qed.

(** The encoding without its padding, and the padding. *)
Lemma b64_shape s :
  exists body, urlsafe_b64encode s = body +:+ b64_padding (String.length body) /\
    Forall b64_ok (chars body) /\ a2b Zero 0 (body +:+ b64_padding (String.length body)) = Some s.
Proof.
  induction s as [|a|a b|a b c s (body & H & Hok & Hd)] using groups_ind.
  - exists "". split; [done|]. by split.
  - destruct a as [a0 a1 a2 a3 a4 a5 a6 a7].
    exists (String (b64_char (sextet1 (Ascii a0 a1 a2 a3 a4 a5 a6 a7))) (String (b64_char (sextet2 (Ascii a0 a1 a2 a3 a4 a5 a6 a7) zero)) "")).
    split; [done|]. split; [repeat constructor; apply b64_char_ok; by do 6 eexists|].
    cbn [sextet1 sextet2 zero String.length b64_padding Nat.modulo Nat.divmod fst snd Nat.sub]. rewrite !sapp_cons, sapp_nil. cbn [a2b].
    destruct (b64_value_char a2 a3 a4 a5 a6 a7) as (-> & -> & _). cbn [a2b].
    destruct (b64_value_char false false false false a0 a1) as (-> & -> & _). reflexivity.
  - destruct a as [a0 a1 a2 a3 a4 a5 a6 a7], b as [b0 b1 b2 b3 b4 b5 b6 b7].
    eexists (String (b64_char (sextet1 _)) (String (b64_char (sextet2 _ _)) (String (b64_char (sextet3 _ zero)) ""))).
    split; [reflexivity|]. split; [repeat constructor; apply b64_char_ok; by do 6 eexists|].
    cbn [sextet1 sextet2 sextet3 zero String.length b64_padding Nat.modulo Nat.divmod fst snd Nat.sub].
    rewrite !sapp_cons, sapp_nil. cbn [a2b].
    destruct (b64_value_char a2 a3 a4 a5 a6 a7) as (-> & -> & _). cbn [a2b].
    destruct (b64_value_char b4 b5 b6 b7 a0 a1) as (-> & -> & _). cbn [a2b].
    destruct (b64_value_char false false b0 b1 b2 b3) as (-> & -> & _). reflexivity.
  - destruct a as [a0 a1 a2 a3 a4 a5 a6 a7], b as [b0 b1 b2 b3 b4 b5 b6 b7], c as [c0 c1 c2 c3 c4 c5 c6 c7].
    set (w := String (b64_char (Ascii a2 a3 a4 a5 a6 a7 false false)) (String (b64_char (Ascii b4 b5 b6 b7 a0 a1 false false))
      (String (b64_char (Ascii c6 c7 b0 b1 b2 b3 false false)) (String (b64_char (Ascii c0 c1 c2 c3 c4 c5 false false)) body)))).
    assert (Hp : b64_padding (String.length w) = b64_padding (String.length body)).
    { unfold b64_padding, w. cbn [String.length].
      replace (S (S (S (S (String.length body))))) with (String.length body + 1 * 4)%nat by lia. by rewrite Nat.Div0.mod_add. }
    exists w. rewrite Hp. split; [cbn [urlsafe_b64encode]; by rewrite H|].
    split; [repeat (constructor; [apply b64_char_ok; by do 6 eexists|]); exact Hok|].
    change (w +:+ b64_padding (String.length body)) with
      (String (b64_char (Ascii a2 a3 a4 a5 a6 a7 false false)) (String (b64_char (Ascii b4 b5 b6 b7 a0 a1 false false))
      (String (b64_char (Ascii c6 c7 b0 b1 b2 b3 false false)) (String (b64_char (Ascii c0 c1 c2 c3 c4 c5 false false))
        (body +:+ b64_padding (String.length body)))))).
    cbn [a2b]. destruct (b64_value_char a2 a3 a4 a5 a6 a7) as (-> & -> & _).
    destruct (b64_value_char b4 b5 b6 b7 a0 a1) as (-> & -> & _).
    destruct (b64_value_char c6 c7 b0 b1 b2 b3) as (-> & -> & _).
    destruct (b64_value_char c0 c1 c2 c3 c4 c5) as (-> & -> & _). by rewrite Hd.
Qed.

Lemma rstrip_none p s : Forall (fun c => p c = false) (chars s) -> rstrip_by p s = s.
Proof.
  induction s as [|c s IH]; [done|]. intros H. inversion H as [|?? Hc Hs]; subst. cbn [rstrip_by]. rewrite (IH Hs).
  destruct s; [by rewrite Hc | done].
Qed.

Lemma rstrip_app p s t :
  Forall (fun c => p c = false) (chars s) -> Forall (fun c => p c = true) (chars t) -> rstrip_by p (s +:+ t) = s.
Proof.
  intros Hs Ht. induction s as [|c s IH].
  - rewrite sapp_nil. induction t as [|a t IHt]; [done|]. inversion Ht as [|?? Ha Ht']; subst.
    cbn [rstrip_by]. by rewrite (IHt Ht'), Ha.
  - inversion Hs as [|?? Hc Hs']; subst. rewrite sapp_cons. cbn [rstrip_by]. rewrite (IH Hs'). by destruct s; rewrite ?Hc.
Qed.

(** What the URL-safe encoding loses without its padding is put back. *)
Lemma b64_unpadded s :
  let body := rstrip_char "=" (urlsafe_b64encode s) in
  Forall b64_ok (chars body) /\ urlsafe_b64decode (body +:+ b64_padding (String.length body)) = Some s.
Proof.
  destruct (b64_shape s) as (body & H & Hok & Hd). cbv zeta.
  assert (Hr : rstrip_char "=" (urlsafe_b64encode s) = body).
  { rewrite H. unfold rstrip_char. apply rstrip_app.
    - eapply Forall_impl; [exact Hok|]. intros c (Hc & _). cbv beta. by rewrite Ascii.eqb_sym.
    - unfold b64_padding. destruct (Nat.modulo _ _) as [|[|[|n]]]; repeat constructor. }
  rewrite Hr. split; [done|]. unfold urlsafe_b64decode. rewrite Hd.
  assert (Ha : all_chars (fun c => N.ltb (N_of_ascii c) 128) (body +:+ b64_padding (String.length body)) = true); [|by rewrite Ha].
  apply all_chars_Forall. rewrite chars_app. apply Forall_app. split.
  - eapply Forall_impl; [exact Hok|]. by intros c (_ & Hc & _).
  - unfold b64_padding. destruct (Nat.modulo _ _) as [|[|[|n]]]; repeat constructor.
Qed.

Lemma parse_escape_ascii_char c s :
  parse_string (escape_ascii_char c +:+ s) =
  match parse_string s with Some (t, u) => Some (String c t, u) | None => None end.
Proof. destruct c as [[] [] [] [] [] [] [] []]; reflexivity. Qed.

Lemma parse_quoted_ascii t r : parse_string (escape_ascii t +:+ String "034" r) = Some (t, r).
Proof.
  induction t as [|c t IH]; [done|]. cbn [escape_ascii]. rewrite sapp_assoc, parse_escape_ascii_char, IH. done.
Qed.

Lemma quote_ascii_app t r : quote_ascii t +:+ r = String "034" (escape_ascii t +:+ String "034" r).
Proof. unfold quote_ascii. by rewrite sapp_assoc, sapp_cons. Qed.

(** The compact text is ASCII. *)
Definition ascii_only (s : string) : Prop := all_chars (fun c => N.ltb (N_of_ascii c) 128) s = true.

Lemma ascii_only_app s t : ascii_only s -> ascii_only t -> ascii_only (s +:+ t).
Proof. unfold ascii_only. rewrite !all_chars_Forall, chars_app. intros. by apply Forall_app. Qed.

Lemma escape_ascii_only s : ascii_only (escape_ascii s).
Proof.
  induction s as [|c s IH]; [done|]. cbn [escape_ascii]. apply ascii_only_app; [|done].
  destruct c as [[] [] [] [] [] [] [] []]; reflexivity.
Qed.

Lemma quote_ascii_only s : ascii_only (quote_ascii s).
Proof. unfold quote_ascii. apply ascii_only_app; [|done]. exact (escape_ascii_only s). Qed.

Lemma render_int_ascii z : ascii_only (render_int z).
Proof.
  assert (H : forall n, ascii_only (render_N n)).
  { intros n. destruct (render_N_spec n) as (ds & -> & Hall & _). unfold all_digits, ascii_only in *.
    rewrite all_chars_Forall in *. eapply Forall_impl; [exact Hall|]. intros c. cbv beta.
    destruct c as [[] [] [] [] [] [] [] []]; done. }
  destruct z; [done | apply H|]. unfold render_int. apply ascii_only_app; [done | apply H].
Qed.
