(* ===== verification/Url.v ===== *)
(** * URLs: [urlsplit] and [unquote] of urllib.parse

    The parts of a URL the repository reads ([scheme], [hostname], [port],
    [username], [password], [path], [query], [fragment]) with the [ValueError]s
    the standard library raises: unbalanced or malformed brackets from
    [urlsplit], a port that is no number up to 65535 from [port].  [unquote]
    keeps a percent-encoded byte above 127 as the character with that code
    instead of decoding UTF-8; no caller distinguishes two such characters. *)

From S2P Require Import Prelude PyText SemVer Json.

Open Scope string_scope.
Open Scope list_scope.

Record split_result := {
  scheme : string; netloc : string; path : string; query : string; fragment : string
}.

(** ** Bracketed hosts: [ipaddress.IPv6Address] *)

Definition ipv4_octet_ok (s : string) : bool :=
  nonempty s && all_chars is_ascii_digit s && Nat.leb (String.length s) 3
  && negb (startswith "0" s && Nat.ltb 1 (String.length s)) && N.leb (py_int s) 255.

Definition ipv4_ok (s : string) : bool :=
  let parts := split_on "." s in
  Nat.eqb (length parts) 4 && forallb ipv4_octet_ok parts.

Definition hextet_ok (s : string) : bool :=
  all_chars (fun c => is_hex c || range "A" "F" c) s && Nat.leb (String.length s) 4.

(** [parts[i]] is empty for these inner indices. *)
Definition inner_gaps (parts : list string) : list nat :=
  List.filter (fun i => negb (nonempty (nth i parts ""))) (List.seq 1 (length parts - 2)).

Definition ipv6_parts_ok (parts : list string) : bool :=
  let n := length parts in
  let first := nth 0 parts "" in
  let last := nth (n - 1) parts "" in
  Nat.leb n 9 &&
  match inner_gaps parts with
  | [] => Nat.eqb n 8 && nonempty first && nonempty last && forallb hextet_ok parts
  | [i] =>
      let hi := if nonempty first then i else i - 1 in
      let lo := if nonempty last then n - i - 1 else n - i - 2 in
      (nonempty first || Nat.eqb hi 0) && (nonempty last || Nat.eqb lo 0)
      && Nat.ltb (hi + lo) 8
      && forallb hextet_ok (firstn hi parts) && forallb hextet_ok (skipn (n - lo) parts)
  | _ => false
  end.

Definition ipv6_ok (s : string) : bool :=
  let '(addr, percent, scope) := partition_on "%" s in
  let parts := split_on ":" addr in
  negb (mem_char "/" s)
  && (negb percent || (nonempty scope && negb (mem_char "%" scope)))
  && Nat.leb 3 (length parts)
  && (let last := List.last parts "" in
      if mem_char "." last
      then ipv4_ok last && ipv6_parts_ok (removelast parts ++ ["0"; "0"])
      else ipv6_parts_ok parts).

Definition IPVFUTURE_RE : re :=
  Seq (lit "v") (Seq (plus (Cls (fun c => is_hex c || range "A" "F" c)))
    (Seq (lit ".") (plus (Cls (fun c => negb (chr_is 10 c)))))).

Definition bracketed_host_ok (host : string) : bool :=
  if startswith "v" host then fullmatch IPVFUTURE_RE host else ipv6_ok host.

(** ** [urlsplit] *)

Definition is_c0_or_space (c : ascii) : bool := N.leb (N_of_ascii c) 32.
Definition is_unsafe_url_byte (c : ascii) : bool := chr_is 9 c || chr_is 10 c || chr_is 13 c.
Definition is_scheme_char (c : ascii) : bool :=
  is_ascii_alpha c || is_ascii_digit c || mem_char c "+-.".

Definition split_scheme (url : string) : string * string :=
  let '(front, colon, rest) := partition_on ":" url in
  if colon && match front with "" => false | String c _ => is_ascii_alpha c end
     && all_chars is_scheme_char front
  then (lower front, rest) else ("", url).

(** [url[2:delim], url[delim:]] for the first of [/?#]. *)
Fixpoint split_netloc (s : string) : string * string :=
  match s with
  | "" => ("", "")
  | String c s' =>
      if mem_char c "/?#" then ("", s)
      else let '(x, y) := split_netloc s' in (String c x, y)
  end.

Definition netloc_ok (netloc : string) : bool :=
  let opens := mem_char "[" netloc in
  let closes := mem_char "]" netloc in
  if opens && closes then
    let hostport := snd (rpartition_on "@" netloc) in
    let '(before, open, bracketed) := partition_on "[" hostport in
    if open then
      let '(host, _, port) := partition_on "]" bracketed in
      negb (nonempty before) && (negb (nonempty port) || startswith ":" port)
      && bracketed_host_ok host
    else bracketed_host_ok (fst (fst (partition_on ":" hostport)))
  else negb opens && negb closes.

Definition urlsplit (url : string) : res exn split_result :=
  let url := string_filter (fun c => negb (is_unsafe_url_byte c)) (lstrip_by is_c0_or_space url) in
  let '(scheme, url) := split_scheme url in
  let '(netloc, url) :=
    match url with
    | String "/" (String "/" rest) => split_netloc rest
    | _ => ("", url)
    end in
  raise_if (negb (netloc_ok netloc)) (ValueError "Invalid IPv6 URL") ;?
  let '(url, _, fragment) := partition_on "#" url in
  let '(path, _, query) := partition_on "?" url in
  Ok {| scheme := scheme; netloc := netloc; path := path; query := query; fragment := fragment |}.

(** ** Attributes of the result *)

Definition hostinfo (r : split_result) : string * option string :=
  let info := snd (rpartition_on "@" (netloc r)) in
  let '(_, open, bracketed) := partition_on "[" info in
  let '(host, port) :=
    if open then
      let '(host, _, rest) := partition_on "]" bracketed in
      (host, snd (partition_on ":" rest))
    else
      let '(host, _, port) := partition_on ":" info in (host, port) in
  (host, if nonempty port then Some port else None).

Definition hostname (r : split_result) : option string :=
  let host := fst (hostinfo r) in
  if nonempty host then
    let '(name, percent, zone) := partition_on "%" host in
    Some (lower name +:+ (if percent then "%" else "") +:+ zone)
  else None.

Definition port (r : split_result) : res exn (option N) :=
  match snd (hostinfo r) with
  | None => Ok None
  | Some p =>
      if isdigit p && all_chars is_ascii_digit p then
        if N.leb (py_int p) 65535 then Ok (Some (py_int p))
        else Err (ValueError "Port out of range 0-65535")
      else Err (ValueError "Port could not be cast to integer value")
  end.

Definition username (r : split_result) : option string :=
  let '(info, at_sign, _) := rpartition_on "@" (netloc r) in
  if at_sign then Some (fst (fst (partition_on ":" info))) else None.

Definition password (r : split_result) : option string :=
  let '(info, at_sign, _) := rpartition_on "@" (netloc r) in
  let '(_, colon, pass) := partition_on ":" info in
  if at_sign && colon then Some pass else None.

(** ** [unquote] *)

Fixpoint unquote (s : string) : string :=
  match s with
  | String c s1 =>
      match s1 with
      | String h1 (String h2 s3) =>
          match chr_is 37 c, hex_value h1, hex_value h2 with
          | true, Some x, Some y => String (ascii_of_N (16 * x + y)) (unquote s3)
          | _, _, _ => String c (unquote s1)
          end
      | _ => String c (unquote s1)
      end
  | "" => ""
  end.

Example urlsplit_example :
  urlsplit "HTTPS://u:p@Example.ORG:443/a%20b?q#f" =
  Ok {| scheme := "https"; netloc := "u:p@Example.ORG:443"; path := "/a%20b";
        query := "q"; fragment := "f" |}.
Proof. vm_compute. reflexivity. Qed.

Example bracketed_examples :
  map bracketed_host_ok ["::1"; "2001:db8::7"; "::ffff:1.2.3.4"; "1::2::3"; "v1.x"; "1.2.3.4"; "1:2:3:4:5:6:7:8"; "::"]
  = [true; true; true; false; true; false; true; true].
Proof. vm_compute. reflexivity. Qed.

(** ** A URL without special characters *)

Definition plain_char (c : ascii) : bool := is_ident_char c || mem_char c "/._~+".

Lemma string_filter_all p s : all_chars p s = true -> string_filter p s = s.
Proof.
  induction s as [|a s IH]; simpl; [done|]. intros H. py_inv. rewrite H. by rewrite IH.
Qed.

Lemma all_chars_impl (p q : ascii -> bool) s :
  (forall c, p c = true -> q c = true) -> all_chars p s = true -> all_chars q s = true.
Proof.
  intros Hpq. induction s as [|a s IH]; simpl; [done|]. intros H. py_inv.
  rewrite (Hpq a) by done. by apply IH.
Qed.

Lemma all_chars_app p s t : all_chars p (s +:+ t) = all_chars p s && all_chars p t.
Proof.
  induction s as [|a s IH]; [done|].
  change (p a && all_chars p (s +:+ t) = p a && all_chars p s && all_chars p t).
  by rewrite IH, andb_assoc.
Qed.

(** Decides a property of the 256 characters. *)
Lemma by_chars (p : ascii -> bool) :
  forallb (fun n => p (ascii_of_nat n)) (List.seq 0 256) = true -> forall c, p c = true.
Proof.
  intros H c. rewrite forallb_forall in H. rewrite <- (ascii_nat_embedding c).
  apply H, in_seq. split; [lia|]. simpl. apply (nat_ascii_bounded c).
Qed.

Lemma plain_free c s :
  plain_char c = false -> all_chars plain_char s = true -> free_of c s.
Proof.
  intros Hc Hs. apply all_chars_Forall in Hs. eapply Forall_impl; [exact Hs|].
  intros a Ha ->. simpl in *. congruence.
Qed.

Lemma unquote_plain s : all_chars plain_char s = true -> unquote s = s.
Proof.
  assert (Hp : forall c, plain_char c = true -> chr_is 37 c = false).
  { intros c Hc. apply negb_true_iff.
    assert (H := by_chars (fun c => implb (plain_char c) (negb (chr_is 37 c))) eq_refl c).
    simpl in H. rewrite Hc in H. exact H. }
  induction s as [|a s IH]; [done|]. intros H. apply andb_true_iff in H as [Ha Hs].
  specialize (IH Hs). simpl. rewrite (Hp a Ha).
  destruct s as [|h1 [|h2 s]]; by rewrite IH.
Qed.
