(* ===== verification/Validate.v ===== *)
(** * Registry v1 validation: the checks of scripts/registry.py on decoded JSON

    One definition per validator, in the code's order and with the code's
    messages, on dynamically typed JSON: a missing key is a [KeyError], an
    operation on a value of the wrong type a [TypeError].  The JSON Schema
    validator (jsonschema, with the schema files) is the parameter
    [schema_valid]; the text of its error and of the [repr] of an unsupported
    schema version is not represented. *)

From S2P Require Import Prelude PyText SemVer Json Url.

Open Scope string_scope.
Open Scope list_scope.

Definition CANONICAL_REGISTRY_HOST : string := "packages.stadtplaner.oklabflensburg.de".
Definition CHANNELS : list string := ["stable"; "beta"; "nightly"].
Definition CLASSIFICATIONS : list string := ["first-party"; "reviewed-community"].
Definition RELEASE_KEYS : list string :=
  ["version"; "channel"; "artifact"; "bundle_format_version"; "source_commit"; "source_tag"; "requires"].
Definition MODULE_KEYS : list string :=
  ["schema_version"; "id"; "name"; "description"; "publisher"; "classification";
   "source_repository"; "license"; "homepage"; "documentation_url"; "versions"].

Definition dquote (s : string) : string := String "034" s +:+ String "034" "".

(** ** Field access *)

(** [value[key]] on a dictionary. *)
Definition getitem (key : string) (value : members) : res exn json :=
  of_option (KeyError key) (jget key value).

(** [value in (...)] for a tuple of strings. *)
Definition in_strings (value : json) (l : list string) : bool :=
  existsb (fun s => py_eq value (JStr s)) l.

Definition mem (s : string) (l : list string) : bool := bool_decide (s ∈ l).

Definition _exact_keys (value : members) (allowed required : list string) (origin : string)
    : res exn unit :=
  let unknown := sort_by str_le (List.filter (fun k => negb (mem k allowed)) (jkeys value)) in
  let missing := sort_by str_le (List.filter (fun k => negb (mem k (jkeys value))) required) in
  raise_if (negb (bool_decide (unknown = [])))
    (RegistryValidationError (origin +:+ ": unknown fields: " +:+ join_on ", " unknown)) ;?
  raise_if (negb (bool_decide (missing = [])))
    (RegistryValidationError (origin +:+ ": missing fields: " +:+ join_on ", " missing)).

(** ** Scalars *)

Definition _schema_version (value : json) (origin : string) : res exn unit :=
  raise_if (negb (py_eq value (JInt 1)) || match value with JBool _ => true | _ => false end)
    (RegistryValidationError (origin +:+ ": unsupported schema_version")).

Definition _canonical_id (value : json) (origin : string) : res exn string :=
  match value with
  | JStr s =>
      if Nat.ltb 63 (String.length s) || negb (fullmatch MODULE_ID_RE s)
      then invalid (origin +:+ ": must be a lowercase kebab-case module ID") else Ok s
  | _ => invalid (origin +:+ ": must be a lowercase kebab-case module ID")
  end.

Definition validate_module_id := _canonical_id.

Definition _semver (value : json) (origin : string) : res exn string :=
  match value with
  | JStr s => if fullmatch SEMVER_RE s then Ok s
              else invalid (origin +:+ ": must be a complete SemVer version")
  | _ => invalid (origin +:+ ": must be a complete SemVer version")
  end.

Definition validate_semver := _semver.

Definition trimmed_nonempty (s : string) : bool := nonempty s && String.eqb s (strip s).

Definition _nonempty_string (value : json) (origin : string) (maximum : nat) : res exn unit :=
  let bad := invalid (origin +:+ ": must be a non-empty trimmed string") in
  match value with
  | JStr s => if trimmed_nonempty s && Nat.leb (String.length s) maximum then Ok tt else bad
  | _ => bad
  end.

Definition _optional_string (value : members) (key origin : string) (maximum : nat) : res exn unit :=
  match jget key value with
  | Some v => _nonempty_string v (origin +:+ "." +:+ key) maximum
  | None => Ok tt
  end.

(** *** Version ranges *)

(** What [(.+)$] captures of the text after the operator: [.] is no newline and
    [$] also matches before a final one. *)
Definition dot_plus (s : string) : option string :=
  let body := if endswith newline s then String.substring 0 (String.length s - 1) s else s in
  if nonempty body && all_chars (fun c => negb (chr_is 10 c)) body then Some body else None.

(** [re.match(r"^(>=|<=|==|!=|>|<)(.+)$", clause)]: the operators in order, the
    next one tried when the rest does not match. *)
Fixpoint range_operand (ops : list string) (clause : string) : option string :=
  match ops with
  | [] => None
  | op :: ops =>
      if startswith op clause then
        match dot_plus (removeprefix op clause) with
        | Some v => Some v
        | None => range_operand ops clause
        end
      else range_operand ops clause
  end.

Definition RANGE_OPS : list string := [">="; "<="; "=="; "!="; ">"; "<"].

Definition range_clause (origin clause : string) : res exn unit :=
  match range_operand RANGE_OPS clause with
  | None => invalid (origin +:+ ": each clause requires an explicit operator")
  | Some v => _semver (JStr v) origin ;? Ok tt
  end.

Definition _version_range (value : json) (origin : string) : res exn unit :=
  match value with
  | JStr s =>
      if trimmed_nonempty s then each (range_clause origin) (split_on "," s)
      else invalid (origin +:+ ": must be a canonical SemVer range")
  | _ => invalid (origin +:+ ": must be a canonical SemVer range")
  end.

(** ** URLs *)

(** The port is invalid when it is no number, out of range, or not 443. *)
Definition invalid_port (r : split_result) : bool :=
  match port r with
  | Ok None => false
  | Ok (Some p) => negb (N.eqb p 443)
  | Err _ => true
  end.

Definition _https_url (value : json) (origin : string) : res exn split_result :=
  match value with
  | JStr s =>
      if nonempty s then
        let? parsed := urlsplit s in
        raise_if
          (negb (String.eqb (scheme parsed) "https")
           || match hostname parsed with None => true | Some h => negb (nonempty h) end
           || bool_decide (is_Some (username parsed)) || bool_decide (is_Some (password parsed))
           || invalid_port parsed || nonempty (query parsed) || nonempty (fragment parsed)
           || mem_char "\" s
           || any_char (fun c => is_space c || N.ltb (N_of_ascii c) 32) s)
          (RegistryValidationError
             (origin +:+ ": must be HTTPS without credentials, query parameters, or fragments")) ;?
        Ok parsed
      else invalid (origin +:+ ": must be a non-empty HTTPS URL")
  | _ => invalid (origin +:+ ": must be a non-empty HTTPS URL")
  end.

Definition _optional_https_url (value : members) (key origin : string) : res exn unit :=
  match jget key value with
  | Some v => _https_url v (origin +:+ "." +:+ key) ;? Ok tt
  | None => Ok tt
  end.

Definition segment : re := plus (Cls (fun c => negb (Ascii.eqb c "/"))).

(** [/([^/]+)/[^/]+/releases/download/([^/]+)/[^/]+\.ocp] *)
Definition GITHUB_RELEASE_RE : re :=
  Seq (lit "/") (Seq segment (Seq (lit "/") (Seq segment (Seq (lit "/releases/download/")
    (Seq segment (Seq (lit "/") (Seq segment (lit ".ocp")))))))).

(** Its second group, the release tag. *)
Definition github_tag (path : string) : option string :=
  if fullmatch GITHUB_RELEASE_RE path then
    match split_on "/" path with
    | [_; _; _; _; _; tag; _] => Some tag
    | _ => None
    end
  else None.

Definition canonical_path (module_id version : string) : string :=
  "/modules/" +:+ module_id +:+ "/" +:+ version +:+ "/" +:+ module_id +:+ "-" +:+ version +:+ ".ocp".

Definition validate_artifact_url (url : json) (classification module_id version origin : string)
    : res exn split_result :=
  let? parsed := _https_url url origin in
  let path := unquote (path parsed) in
  let host := hostname parsed in
  raise_if (negb (endswith ".ocp" path))
    (RegistryValidationError (origin +:+ ": artifact path must end in .ocp")) ;?
  let hosted := bool_decide (host = Some CANONICAL_REGISTRY_HOST)
                && String.eqb path (canonical_path module_id version) in
  let github_match := github_tag path in
  let github_release := bool_decide (host = Some "github.com")
                        && bool_decide (is_Some github_match) in
  raise_if (match github_match with
            | Some tag => negb (mem tag [version; "v" +:+ version])
            | None => false
            end)
    (RegistryValidationError (origin +:+ ": GitHub release tag must bind the exact module version")) ;?
  raise_if (negb hosted && negb github_release)
    (RegistryValidationError
       (origin +:+ ": stable hosting policy permits the registry module path or GitHub Releases")) ;?
  raise_if (String.eqb classification "first-party" && github_release
            && negb (startswith "/oklabflensburg/" path))
    (RegistryValidationError
       (origin +:+ ": first-party GitHub artifacts must be under oklabflensburg")) ;?
  Ok parsed.

(** ** Releases *)

Definition _validate_publisher (value : json) (origin : string) : res exn unit :=
  match value with
  | JObj value =>
      _exact_keys value ["id"; "name"] ["id"; "name"] origin ;?
      let? id := getitem "id" value in
      _canonical_id id (origin +:+ ".id") ;?
      let? name := getitem "name" value in
      _nonempty_string name (origin +:+ ".name") 120
  | _ => invalid (origin +:+ ": must be an object")
  end.

Definition _validate_requires (value : json) (origin module_id : string) : res exn unit :=
  match value with
  | JObj value =>
      _exact_keys value ["host"; "sdk"; "modules"] ["host"; "sdk"; "modules"] origin ;?
      let? host := getitem "host" value in
      _version_range host (origin +:+ ".host") ;?
      let? sdk := getitem "sdk" value in
      _version_range sdk (origin +:+ ".sdk") ;?
      let? modules := getitem "modules" value in
      match modules with
      | JObj modules =>
          each (fun kv =>
            _canonical_id (JStr (fst kv)) (origin +:+ ".modules key") ;?
            raise_if (String.eqb (fst kv) module_id)
              (RegistryValidationError (origin +:+ ".modules: a module cannot depend on itself")) ;?
            _version_range (snd kv) (origin +:+ ".modules." +:+ fst kv)) modules
      | _ => invalid (origin +:+ ".modules: must be an object")
      end
  | _ => invalid (origin +:+ ": must be an object")
  end.

Definition _validate_artifact (value : json) (origin classification module_id version : string)
    : res exn unit :=
  match value with
  | JObj artifact =>
      _exact_keys artifact ["url"; "sha256"] ["url"; "sha256"] (origin +:+ ".artifact") ;?
      let? url := getitem "url" artifact in
      validate_artifact_url url classification module_id version (origin +:+ ".artifact.url") ;?
      let? sha256 := getitem "sha256" artifact in
      match sha256 with
      | JStr s => raise_if (negb (fullmatch SHA256_RE s))
                    (RegistryValidationError (origin +:+ ".artifact.sha256: must be 64 lowercase hex chars"))
      | _ => invalid (origin +:+ ".artifact.sha256: must be 64 lowercase hex chars")
      end
  | _ => invalid (origin +:+ ".artifact: must be an object")
  end.

(** [SEMVER_RE.fullmatch(version).group(4) is not None] *)
Definition has_prerelease (version : string) : bool :=
  match semver_groups version with
  | Some m => bool_decide (is_Some (sv_pre m))
  | None => false
  end.

Definition _validate_release (value : json) (origin module_id classification : string) : res exn unit :=
  match value with
  | JObj value =>
      _exact_keys value RELEASE_KEYS (List.filter (fun k => negb (String.eqb k "source_tag")) RELEASE_KEYS)
        origin ;?
      let? version := getitem "version" value in
      let? version := _semver version (origin +:+ ".version") in
      let? channel := getitem "channel" value in
      raise_if (negb (in_strings channel CHANNELS))
        (RegistryValidationError (origin +:+ ".channel: must be one of " +:+ join_on ", " CHANNELS)) ;?
      raise_if (py_eq channel (JStr "stable") && has_prerelease version)
        (RegistryValidationError (origin +:+ ": stable releases cannot use prerelease versions")) ;?
      let? artifact := getitem "artifact" value in
      _validate_artifact artifact origin classification module_id version ;?
      let? format := getitem "bundle_format_version" value in
      raise_if (negb (py_eq format (JInt 1)))
        (RegistryValidationError (origin +:+ ".bundle_format_version: only version 1 is supported")) ;?
      let? commit := getitem "source_commit" value in
      raise_if (match commit with JStr s => negb (fullmatch COMMIT_RE s) | _ => true end)
        (RegistryValidationError (origin +:+ ".source_commit: must be 40 or 64 lowercase hex chars")) ;?
      _optional_string value "source_tag" origin 255 ;?
      let? requires := getitem "requires" value in
      _validate_requires requires (origin +:+ ".requires") module_id
  | _ => invalid (origin +:+ ": must be an object")
  end.

(** The loop over [enumerate(versions)] with the set of versions seen. *)
Fixpoint validate_versions (module_id classification origin : string)
    (position : N) (seen : list string) (versions : list json) : res exn unit :=
  match versions with
  | [] => Ok tt
  | release :: versions =>
      let release_origin := origin +:+ ".versions[" +:+ render_N position +:+ "]" in
      _validate_release release release_origin module_id classification ;?
      match release with
      | JObj r =>
          let? version := getitem "version" r in
          match version with
          | JStr v =>
              raise_if (mem v seen)
                (RegistryValidationError
                   (release_origin +:+ ": duplicate version " +:+ dquote v)) ;?
              validate_versions module_id classification origin (position + 1) (v :: seen) versions
          | _ => Err TypeError
          end
      | _ => Err TypeError
      end
  end.

(** ** Modules *)

Section ModuleValidation.
Context (schema_valid : string -> json -> bool).

Definition _validate_json_schema (value : json) (schema_path origin : string) : res exn unit :=
  raise_if (negb (schema_valid schema_path value))
    (RegistryValidationError (origin +:+ ": JSON Schema validation failed")).

Definition MODULE_REQUIRED : list string :=
  ["schema_version"; "id"; "name"; "publisher"; "classification"; "source_repository"; "license"; "versions"].

Definition validate_source_repository (value : json) (classification : json) (origin : string)
    : res exn unit :=
  let? source := _https_url value (origin +:+ ".source_repository") in
  raise_if (py_eq classification (JStr "first-party")
            && negb (bool_decide (hostname source = Some "github.com")
                     && startswith "/oklabflensburg/" (unquote (path source))))
    (RegistryValidationError
       (origin +:+ ".source_repository: first-party source must be in github.com/oklabflensburg")).

Definition json_text (j : json) : string := match j with JStr s => s | _ => "" end.

Definition validate_module (module : members) (origin : string) (expected_id : option string)
    : res exn unit :=
  _exact_keys module MODULE_KEYS MODULE_REQUIRED origin ;?
  let? version := getitem "schema_version" module in
  _schema_version version origin ;?
  let? id := getitem "id" module in
  let? module_id := _canonical_id id (origin +:+ ".id") in
  raise_if (match expected_id with Some e => negb (String.eqb e module_id) | None => false end)
    (RegistryValidationError
       (origin +:+ ": file name must be " +:+ dquote (module_id +:+ ".json") +:+ ", not "
        +:+ dquote (default "" expected_id +:+ ".json"))) ;?
  let? name := getitem "name" module in
  _nonempty_string name (origin +:+ ".name") 120 ;?
  _optional_string module "description" origin 1000 ;?
  _optional_https_url module "homepage" origin ;?
  _optional_https_url module "documentation_url" origin ;?
  let? publisher := getitem "publisher" module in
  _validate_publisher publisher (origin +:+ ".publisher") ;?
  let? classification := getitem "classification" module in
  raise_if (negb (in_strings classification CLASSIFICATIONS))
    (RegistryValidationError
       (origin +:+ ".classification: must be one of " +:+ join_on ", " CLASSIFICATIONS)) ;?
  let? source := getitem "source_repository" module in
  validate_source_repository source classification origin ;?
  let? license := getitem "license" module in
  _nonempty_string license (origin +:+ ".license") 255 ;?
  let? versions := getitem "versions" module in
  match versions with
  | JArr ((_ :: _) as versions) =>
      validate_versions module_id (json_text classification) origin 0 [] versions ;?
      _validate_json_schema (JObj module) "module-v1.schema.json" origin
  | _ => invalid (origin +:+ ".versions: must be a non-empty array")
  end.

End ModuleValidation.

(** ** What the validators establish *)

Definition canonical_id (s : string) : Prop :=
  (String.length s <= 63)%nat /\ fullmatch MODULE_ID_RE s = true.

Lemma getitem_Ok k l v : getitem k l = Ok v <-> jget k l = Some v.
Proof. apply of_option_Ok. Qed.

Lemma _canonical_id_Ok v o s : _canonical_id v o = Ok s <-> v = JStr s /\ canonical_id s.
Proof.
  unfold canonical_id. destruct v as [| | |t| |]; simpl; try (split; [done | by intros []]).
  destruct (Nat.ltb_spec 63 (String.length t)), (fullmatch MODULE_ID_RE t) eqn:Ht; simpl;
    (split; [try done; intros [= <-]; split_and!; (done || lia)
            | intros ([= ->] & ? & ?); first [done | lia | congruence]]).
Qed.

Lemma _semver_Ok v o s : _semver v o = Ok s <-> v = JStr s /\ fullmatch SEMVER_RE s = true.
Proof.
  destruct v as [| | |t| |]; simpl; try (split; [done | by intros []]).
  destruct (fullmatch SEMVER_RE t) eqn:Ht.
  - split; [by intros [= <-] | by intros [[= ->] _]].
  - split; [done | intros [[= ->] ?]; congruence].
Qed.

Definition text_ok (maximum : nat) (s : string) : Prop :=
  s <> "" /\ strip s = s /\ (String.length s <= maximum)%nat.

Lemma _nonempty_string_Ok v o n :
  _nonempty_string v o n = Ok tt <-> exists s, v = JStr s /\ text_ok n s.
Proof.
  unfold text_ok, _nonempty_string, trimmed_nonempty.
  destruct v as [| | |s| |]; try (split; [done | by intros (? & ? & _)]). split.
  - destruct (nonempty s && String.eqb s (strip s) && Nat.leb (String.length s) n) eqn:H; [|done].
    intros _. py_inv. exists s. split; [done|]. split; [by destruct s|].
    split; [symmetry; by apply String.eqb_eq | by apply Nat.leb_le].
  - intros (s' & [= <-] & Hs & Ht & Hn). rewrite Ht, String.eqb_refl.
    apply Nat.leb_le in Hn. rewrite Hn. by destruct s.
Qed.

Lemma _optional_string_Ok l k o n :
  _optional_string l k o n = Ok tt <->
  jget k l = None \/ exists s, jget k l = Some (JStr s) /\ text_ok n s.
Proof.
  unfold _optional_string. destruct (jget k l) as [v|]; [|by split; [left|]].
  rewrite _nonempty_string_Ok. split.
  - intros (s & -> & ?). right. eauto.
  - intros [?|(s & [= ->] & ?)]; [done | eauto].
Qed.

(** A URL without credentials, query or fragment, on the default port. *)
Record https_ok (p : split_result) : Prop := {
  https_scheme : scheme p = "https";
  https_host : exists h, hostname p = Some h /\ h <> "";
  https_user : username p = None;
  https_password : password p = None;
  https_port : port p = Ok None \/ port p = Ok (Some 443%N);
  https_query : query p = "";
  https_fragment : fragment p = ""
}.

Lemma not_nonempty s : nonempty s = false -> s = "".
Proof. by destruct s. Qed.

Lemma invalid_port_false p :
  invalid_port p = false -> port p = Ok None \/ port p = Ok (Some 443%N).
Proof.
  unfold invalid_port. destruct (port p) as [[n|]|]; try done; [|by left].
  intros H. py_inv. apply N.eqb_eq in H. subst. by right.
Qed.

Lemma _https_url_Ok v o p :
  _https_url v o = Ok p -> exists s, v = JStr s /\ s <> "" /\ urlsplit s = Ok p /\ https_ok p.
Proof.
  destruct v as [| | |s| |]; simpl; try done. destruct (nonempty s) eqn:Hs; [|done].
  intros H. py_inv. exists s. split; [done|]. split; [by destruct s|].
  match goal with H : Ok _ = Ok p |- _ => injection H as -> | _ => idtac end.
  split; [done|]. split.
  - by apply String.eqb_eq.
  - destruct (hostname p) as [h|]; [|done]. exists h. split; [done|].
    py_inv. by destruct h.
  - destruct (username p); [|done]. exfalso. eauto.
  - destruct (password p); [|done]. exfalso. eauto.
  - by apply invalid_port_false.
  - by apply not_nonempty.
  - by apply not_nonempty.
Qed.

Lemma _optional_https_url_Ok l k o :
  _optional_https_url l k o = Ok tt ->
  jget k l = None \/ exists s p, jget k l = Some (JStr s) /\ urlsplit s = Ok p /\ https_ok p.
Proof.
  unfold _optional_https_url. destruct (jget k l) as [v|]; [|by left].
  intros H. py_inv. apply _https_url_Ok in H as (s & -> & _ & ? & ?). right. eauto.
Qed.

(** Each comma-separated clause is an operator and a version. *)
Definition range_ok (s : string) : Prop :=
  Forall (fun clause => exists v, range_operand RANGE_OPS clause = Some v
                                  /\ fullmatch SEMVER_RE v = true) (split_on "," s).

Lemma _version_range_Ok v o :
  _version_range v o = Ok tt -> exists s, v = JStr s /\ s <> "" /\ strip s = s /\ range_ok s.
Proof.
  destruct v as [| | |s| |]; simpl; try done.
  destruct (trimmed_nonempty s) eqn:Hs; [|done]. intros H. unfold trimmed_nonempty in Hs. py_inv.
  exists s. split; [done|]. split; [by destruct s|]. split; [symmetry; by apply String.eqb_eq|].
  apply each_Ok in H. eapply Forall_impl; [exact H|]. intros c Hc. unfold range_clause in Hc.
  destruct (range_operand RANGE_OPS c) as [w|]; [|done]. py_inv.
  match goal with H : _semver _ _ = Ok _ |- _ => apply _semver_Ok in H as [[= <-] ?] end. eauto.
Qed.

(** *** The artifact URL policy *)

Inductive artifact_host (cls module_id version : string) (p : split_result) : Prop :=
| on_registry :
    hostname p = Some CANONICAL_REGISTRY_HOST ->
    unquote (path p) = canonical_path module_id version ->
    artifact_host cls module_id version p
| on_github owner repo tag file :
    hostname p = Some "github.com" ->
    unquote (path p) = "/" +:+ owner +:+ "/" +:+ repo +:+ "/releases/download/" +:+ tag +:+ "/" +:+ file ->
    tag = version \/ tag = "v" +:+ version ->
    (cls = "first-party" -> owner = "oklabflensburg") ->
    artifact_host cls module_id version p.

Definition artifact_policy (cls module_id version u : string) : Prop :=
  exists p, urlsplit u = Ok p /\ https_ok p /\ endswith ".ocp" (unquote (path p)) = true
            /\ artifact_host cls module_id version p.

Lemma matches_segment l : matches segment l <-> l <> [] /\ Forall (fun c => c <> "/"%char) l.
Proof.
  unfold segment. rewrite matches_plus_cls. split; intros [Hne Hl]; (split; [done|]);
    eapply Forall_impl; try exact Hl; intros c; simpl; rewrite negb_true_iff, Ascii.eqb_neq; done.
Qed.

Lemma segment_free s : matches segment (chars s) -> free_of "/" s.
Proof. apply match_free. reflexivity. Qed.

Lemma github_split o r t f :
  free_of "/" o -> free_of "/" r -> free_of "/" t -> free_of "/" f ->
  split_on "/" ("/" +:+ o +:+ "/" +:+ r +:+ "/releases/download/" +:+ t +:+ "/" +:+ f +:+ ".ocp")
  = [""; o; r; "releases"; "download"; t; f +:+ ".ocp"].
Proof.
  intros Ho Hr Ht Hf.
  change (split_on "/" ("" +:+ String "/" (o +:+ String "/" (r +:+ String "/" ("releases" +:+
    String "/" ("download" +:+ String "/" (t +:+ String "/" (f +:+ ".ocp")))))))
    = [""; o; r; "releases"; "download"; t; f +:+ ".ocp"]).
  rewrite !split_on_app, split_on_free; try done; try by repeat constructor.
  apply free_of_app. split; [done | by repeat constructor].
Qed.

Lemma github_tag_Some path tag :
  github_tag path = Some tag ->
  exists owner repo file,
    path = "/" +:+ owner +:+ "/" +:+ repo +:+ "/releases/download/" +:+ tag +:+ "/" +:+ file
    /\ free_of "/" owner.
Proof.
  unfold github_tag. destruct (fullmatch GITHUB_RELEASE_RE path) eqn:H; [|done].
  apply fullmatch_spec in H. unfold GITHUB_RELEASE_RE in H.
  repeat match goal with
  | H : matches segment (chars _) |- _ => apply segment_free in H
  | H : matches (Seq _ _) (chars _) |- _ => apply matches_seq_str in H as (? & ? & -> & ? & ?)
  | H : matches (lit _) (chars _) |- _ => apply matches_lit_str in H as ->
  end.
  rewrite github_split by done. intros [= <-]. eauto 10.
Qed.

(** A path under a directory whose first segment is free of slashes. *)
Lemma prefix_app p s : String.prefix p s = true -> exists t, s = p +:+ t.
Proof.
  revert s. induction p as [|a p IH]; intros s H; [by exists s|].
  destruct s as [|b s]; simpl in H; [done|]. destruct (ascii_dec a b) as [->|]; [|done].
  apply IH in H as [t ->]. by exists t.
Qed.

Lemma first_segment (d o r t : string) :
  free_of "/" d -> free_of "/" o -> d +:+ "/" +:+ t = o +:+ "/" +:+ r -> o = d.
Proof.
  intros Hd Ho H.
  assert (Hs : split_on "/" (d +:+ "/" +:+ t) = split_on "/" (o +:+ "/" +:+ r)) by by rewrite H.
  rewrite !split_on_sep in Hs by done. congruence.
Qed.

Lemma mem_true s l : mem s l = true <-> s ∈ l.
Proof. apply bool_decide_eq_true. Qed.

Lemma validate_artifact_url_Ok v cls module_id version o p :
  validate_artifact_url v cls module_id version o = Ok p ->
  exists u, v = JStr u /\ artifact_policy cls module_id version u.
Proof.
  unfold validate_artifact_url. intros H. py_inv.
  match goal with H : _https_url _ _ = Ok _ |- _ => apply _https_url_Ok in H as (u & -> & _ & Hu & Hok) end.
  exists u. split; [done|]. exists p. split; [done|]. split; [done|]. split; [done|].
  destruct (bool_decide (hostname p = Some CANONICAL_REGISTRY_HOST)
            && String.eqb (unquote (path p)) (canonical_path module_id version)) eqn:Hosted.
  - py_inv. apply on_registry; [done | by apply String.eqb_eq].
  - simpl in *. py_inv.
    match goal with H : is_Some _ |- _ => destruct H as [tag Htag] end.
    rewrite Htag in *. py_inv.
    apply github_tag_Some in Htag as (owner & repo & file & Hpath & Ho).
    match goal with H : mem tag _ = true |- _ => apply mem_true in H; rename H into Htag end.
    apply (on_github _ _ _ _ owner repo tag file); try done.
    + repeat (apply elem_of_cons in Htag as [Htag|Htag]; [auto|]). by apply elem_of_nil in Htag.
    + intros ->. destruct (startswith "/oklabflensburg/" (unquote (path p))) eqn:Hs.
      * apply prefix_app in Hs as [t Ht]. rewrite Hpath in Ht.
        assert (Ht' : owner +:+ "/" +:+ repo +:+ "/releases/download/" +:+ tag +:+ "/" +:+ file
                      = "oklabflensburg" +:+ "/" +:+ t) by by injection Ht.
        symmetry in Ht'. apply first_segment in Ht'; [done | by repeat constructor | done].
      * exfalso.
        match goal with H : (_ && _ && true) = false |- _ => idtac | _ => idtac end.
        rewrite String.eqb_refl in *. simpl in *. case_bool_decide; naive_solver.
Qed.

(** *** The registry's own URL *)

Definition canonical_url (module_id version : string) : string :=
  "https://" +:+ CANONICAL_REGISTRY_HOST +:+ canonical_path module_id version.

(** Every class of the expression lies in [p]. *)
Fixpoint within (p : ascii -> bool) (r : re) : bool :=
  match r with
  | Void | Eps => true
  | Cls q => forallb (fun n => implb (q (ascii_of_nat n)) (p (ascii_of_nat n))) (List.seq 0 256)
  | Seq a b | Alt a b => within p a && within p b
  | Star a => within p a
  end.

Lemma matches_within p r l : within p r = true -> matches r l -> Forall (fun c => p c = true) l.
Proof.
  intros Hr H.
  induction H as [|q c Hq|a b l m _ IHa _ IHb|a b l _ IH|a b l _ IH|a|a l m _ IHl _ IHm];
    cbn [within] in Hr; py_inv; try (apply Forall_app; split); try constructor; auto.
  assert (Hi := by_chars (fun c => implb (q c) (p c)) Hr c). simpl in Hi. by rewrite Hq in Hi.
Qed.

Lemma fullmatch_within p r s : within p r = true -> fullmatch r s = true -> all_chars p s = true.
Proof. intros Hr Hs. apply fullmatch_spec in Hs. apply all_chars_Forall. by eapply matches_within. Qed.

Lemma string_filter_app p s t : string_filter p (s +:+ t) = string_filter p s +:+ string_filter p t.
Proof.
  induction s as [|a s IH]; [done|]. change (String a s +:+ t) with (String a (s +:+ t)).
  simpl. rewrite IH. by destruct (p a).
Qed.

Lemma split_netloc_app h c t :
  all_chars (fun c => negb (mem_char c "/?#")) h = true -> mem_char c "/?#" = true ->
  split_netloc (h +:+ String c t) = (h, String c t).
Proof.
  intros Hh Hc. induction h as [|a h IH].
  - change ("" +:+ String c t) with (String c t). cbn [split_netloc]. by rewrite Hc.
  - cbn [all_chars] in Hh. py_inv. change (String a h +:+ String c t) with (String a (h +:+ String c t)).
    cbn [split_netloc]. match goal with H : mem_char a _ = false |- _ => rewrite H end.
    by rewrite IH.
Qed.

Definition safe_filter : string -> string := string_filter (fun c => negb (is_unsafe_url_byte c)).

Lemma urlsplit_on_registry t u hf f p hq q :
  partition_on "#" (String "/" (safe_filter t)) = (u, hf, f) ->
  partition_on "?" u = (p, hq, q) ->
  urlsplit ("https://" +:+ CANONICAL_REGISTRY_HOST +:+ String "/" t)
  = Ok {| scheme := "https"; netloc := CANONICAL_REGISTRY_HOST; path := p; query := q; fragment := f |}.
Proof.
  intros Hu Hp.
  assert (Hf : safe_filter
      (lstrip_by is_c0_or_space ("https://" +:+ CANONICAL_REGISTRY_HOST +:+ String "/" t))
    = "https" +:+ String ":" ("//" +:+ CANONICAL_REGISTRY_HOST +:+ String "/" (safe_filter t))).
  { change (lstrip_by is_c0_or_space ("https://" +:+ CANONICAL_REGISTRY_HOST +:+ String "/" t))
      with ("https://" +:+ CANONICAL_REGISTRY_HOST +:+ "/" +:+ t).
    unfold safe_filter. by rewrite !string_filter_app. }
  assert (Hs : forall x, split_scheme ("https" +:+ String ":" x) = ("https", x)).
  { intros x. unfold split_scheme. rewrite partition_on_app by by repeat constructor. reflexivity. }
  unfold urlsplit. fold safe_filter. rewrite Hf, Hs.
  change ("//" +:+ CANONICAL_REGISTRY_HOST +:+ String "/" (safe_filter t))
    with (String "/" (String "/" (CANONICAL_REGISTRY_HOST +:+ String "/" (safe_filter t)))).
  cbv beta iota. rewrite split_netloc_app by reflexivity.
  replace (netloc_ok CANONICAL_REGISTRY_HOST) with true by reflexivity.
  cbn [negb raise_if res_bind]. by rewrite Hu, Hp.
Qed.

Lemma canonical_url_split module_id version :
  canonical_url module_id version =
  "https://" +:+ CANONICAL_REGISTRY_HOST +:+ String "/" ("modules/" +:+ module_id +:+ "/" +:+ version
     +:+ "/" +:+ module_id +:+ "-" +:+ version +:+ ".ocp").
Proof. reflexivity. Qed.

(** Whatever the identifier and the version, the host is the registry's. *)
Lemma canonical_url_host module_id version :
  exists p, urlsplit (canonical_url module_id version) = Ok p
            /\ hostname p = Some CANONICAL_REGISTRY_HOST.
Proof.
  rewrite canonical_url_split. set (t := "modules/" +:+ _).
  destruct (partition_on "#" (String "/" (safe_filter t))) as [[u hf] f] eqn:Hu.
  destruct (partition_on "?" u) as [[p hq] q] eqn:Hp.
  rewrite (urlsplit_on_registry _ _ _ _ _ _ _ Hu Hp). eexists. split; reflexivity.
Qed.

Lemma id_plain s : fullmatch MODULE_ID_RE s = true -> all_chars plain_char s = true.
Proof. by apply fullmatch_within; vm_compute. Qed.

Lemma semver_plain s : fullmatch SEMVER_RE s = true -> all_chars plain_char s = true.
Proof. by apply fullmatch_within; vm_compute. Qed.

Lemma canonical_path_plain module_id version :
  fullmatch MODULE_ID_RE module_id = true -> fullmatch SEMVER_RE version = true ->
  all_chars plain_char (canonical_path module_id version) = true.
Proof.
  intros Hi%id_plain Hv%semver_plain. unfold canonical_path.
  rewrite !all_chars_app, Hi, Hv. reflexivity.
Qed.

Lemma plain_not_unsafe c : plain_char c = true -> negb (is_unsafe_url_byte c) = true.
Proof.
  intros Hc. assert (H := by_chars (fun c => implb (plain_char c) (negb (is_unsafe_url_byte c))) eq_refl c).
  simpl in H. by rewrite Hc in H.
Qed.

Lemma canonical_url_parts module_id version :
  fullmatch MODULE_ID_RE module_id = true -> fullmatch SEMVER_RE version = true ->
  urlsplit (canonical_url module_id version)
  = Ok {| scheme := "https"; netloc := CANONICAL_REGISTRY_HOST;
          path := canonical_path module_id version; query := ""; fragment := "" |}.
Proof.
  intros Hi Hv. assert (Hp := canonical_path_plain _ _ Hi Hv). rewrite canonical_url_split.
  change (canonical_path module_id version) with
    (String "/" ("modules/" +:+ module_id +:+ "/" +:+ version
       +:+ "/" +:+ module_id +:+ "-" +:+ version +:+ ".ocp")) in *.
  set (t := "modules/" +:+ _) in *.
  assert (Ht : safe_filter t = t).
  { apply string_filter_all. apply andb_true_iff in Hp as [_ Hp].
    eapply all_chars_impl; [|exact Hp]. apply plain_not_unsafe. }
  apply (urlsplit_on_registry t (String "/" t) false "" (String "/" t) false "").
  - rewrite Ht. by apply partition_on_free, plain_free.
  - by apply partition_on_free, plain_free.
Qed.

Lemma github_tag_segments path : length (split_on "/" path) <> 7 -> github_tag path = None.
Proof.
  intros H. unfold github_tag. destruct (fullmatch GITHUB_RELEASE_RE path); [|done].
  destruct (split_on "/" path) as [|? [|? [|? [|? [|? [|? [|? [|? ?]]]]]]]]; try done.
Qed.

Lemma canonical_path_segments module_id version :
  fullmatch MODULE_ID_RE module_id = true -> fullmatch SEMVER_RE version = true ->
  split_on "/" (canonical_path module_id version)
  = [""; "modules"; module_id; version; module_id +:+ "-" +:+ version +:+ ".ocp"].
Proof.
  intros Hi Hv.
  assert (Hi' : free_of "/" module_id).
  { apply fullmatch_spec in Hi. by apply (match_free _ MODULE_ID_RE). }
  assert (Hv' : free_of "/" version).
  { apply fullmatch_spec in Hv. by apply (match_free _ SEMVER_RE). }
  change (canonical_path module_id version) with ("" +:+ String "/" ("modules" +:+ String "/"
    (module_id +:+ String "/" (version +:+ String "/" (module_id +:+ "-" +:+ version +:+ ".ocp"))))).
  rewrite !split_on_app, split_on_free; try done; try by repeat constructor.
  apply free_of_app. split; [done|]. apply free_of_app. split; [by repeat constructor|].
  apply free_of_app. split; [done | by repeat constructor].
Qed.

Lemma endswith_app s t : endswith t (s +:+ t) = true.
Proof.
  induction s as [|a s IH].
  - change ("" +:+ t) with t. destruct t; simpl; [done|]. by rewrite Ascii.eqb_refl, String.eqb_refl.
  - change (String a s +:+ t) with (String a (s +:+ t)). cbn [endswith]. rewrite IH. apply orb_true_r.
Qed.

Lemma append_assoc (a b c : string) : (a +:+ b) +:+ c = a +:+ b +:+ c.
Proof. induction a as [|x a IH]; [done|]. change (String x ((a +:+ b) +:+ c) = String x (a +:+ b +:+ c)). by rewrite IH. Qed.

Lemma _https_url_intro s o p :
  s <> "" -> urlsplit s = Ok p -> https_ok p -> mem_char "\" s = false ->
  any_char (fun c => is_space c || N.ltb (N_of_ascii c) 32) s = false ->
  _https_url (JStr s) o = Ok p.
Proof.
  intros Hs Hp [Hsch (h & Hh & Hne) Hu Hw Hport Hq Hf] Hb Hc. unfold _https_url.
  replace (nonempty s) with true by by destruct s.
  rewrite Hp. cbn [res_bind]. rewrite Hsch, Hh, Hu, Hw, Hq, Hf, Hb, Hc.
  replace (invalid_port p) with false by (unfold invalid_port; by destruct Hport as [-> | ->]).
  by destruct h.
Qed.

Lemma _https_url_iff v o p :
  _https_url v o = Ok p <->
  exists s, v = JStr s /\ s <> "" /\ urlsplit s = Ok p /\ https_ok p /\
    mem_char "\" s = false /\ any_char (fun c => is_space c || N.ltb (N_of_ascii c) 32) s = false.
Proof.
  split; [|intros (s & -> & ? & ? & ? & ? & ?); by apply _https_url_intro].
  intros H. assert (H' := H). apply _https_url_Ok in H' as (s & -> & Hs & Hu & Hok). exists s. split; [done|]. split; [done|].
  split; [done|]. split; [done|]. unfold _https_url in H. destruct (nonempty s); [|done]. rewrite Hu in H. cbn [res_bind] in H.
  apply res_bind_Ok in H as ([] & H%raise_if_Ok & _). apply orb_false_iff in H as [H Hc]. by apply orb_false_iff in H as [_ Hb].
Qed.

Lemma canonical_url_chars module_id version :
  fullmatch MODULE_ID_RE module_id = true -> fullmatch SEMVER_RE version = true ->
  all_chars (fun c => plain_char c || Ascii.eqb c ":") (canonical_url module_id version) = true.
Proof.
  intros Hi Hv. unfold canonical_url. rewrite !all_chars_app.
  rewrite (all_chars_impl plain_char _ (canonical_path module_id version)); [done| |].
  - by intros c ->.
  - by apply canonical_path_plain.
Qed.

Lemma url_chars_plain s :
  all_chars (fun c => plain_char c || Ascii.eqb c ":") s = true ->
  mem_char "\" s = false /\ any_char (fun c => is_space c || N.ltb (N_of_ascii c) 32) s = false.
Proof.
  intros H. split.
  - induction s as [|a s IH]; [done|]. cbn [all_chars mem_char] in *. py_inv.
    rewrite IH by done. destruct (Ascii.eqb_spec a "\"); [by subst | done].
  - unfold any_char. apply negb_false_iff. revert H. apply all_chars_impl. intros c Hc.
    assert (Hi := by_chars (fun c => implb (plain_char c || Ascii.eqb c ":")
        (negb (is_space c || N.ltb (N_of_ascii c) 32))) eq_refl c). cbv beta in Hi.
    by rewrite Hc in Hi.
Qed.

(** The URL the hub assigns to a release is accepted for that release, whatever
    its classification. *)
Lemma canonical_url_valid cls module_id version o :
  fullmatch MODULE_ID_RE module_id = true -> fullmatch SEMVER_RE version = true ->
  is_ok (validate_artifact_url (JStr (canonical_url module_id version)) cls module_id version o) = true.
Proof.
  intros Hi Hv. assert (Hp := canonical_path_plain _ _ Hi Hv).
  assert (Hu := canonical_url_parts _ _ Hi Hv).
  destruct (url_chars_plain _ (canonical_url_chars _ _ Hi Hv)) as [Hb Hc].
  unfold validate_artifact_url. rewrite (_https_url_intro (canonical_url module_id version) o _ ltac:(done) Hu); try done.
  - cbn [res_bind path]. rewrite unquote_plain by done.
    assert (He : endswith ".ocp" (canonical_path module_id version) = true).
    { unfold canonical_path. rewrite <- !append_assoc. apply endswith_app. }
    rewrite He, github_tag_segments by by rewrite canonical_path_segments.
    rewrite String.eqb_refl. simpl. by rewrite andb_false_r.
  - split; try reflexivity; [by exists CANONICAL_REGISTRY_HOST | by left].
Qed.

(** ** Properties *)

(** A non-empty path segment. *)
Definition path_segment (s : string) : Prop := s <> "" /\ free_of "/" s.

Lemma segment_iff s : matches segment (chars s) <-> path_segment s.
Proof. rewrite matches_segment. unfold path_segment, free_of. destruct s as [|c s]; split; intros [Hs Hf]; by split. Qed.

(** The paths of GitHub release assets: owner, repository, tag and file. *)
Definition release_asset (path owner tag : string) : Prop :=
  exists repo file, path_segment owner /\ path_segment repo /\ path_segment tag /\ path_segment file /\
    path = "/" +:+ owner +:+ "/" +:+ repo +:+ "/releases/download/" +:+ tag +:+ "/" +:+ file +:+ ".ocp".

Lemma github_tag_iff path tag : github_tag path = Some tag <-> exists owner, release_asset path owner tag.
Proof.
  unfold github_tag, release_asset. split.
  - destruct (fullmatch GITHUB_RELEASE_RE path) eqn:H; [|done]. apply fullmatch_spec in H. unfold GITHUB_RELEASE_RE in H.
    repeat match goal with
    | H : matches segment (chars _) |- _ => apply segment_iff in H
    | H : matches (Seq _ _) (chars _) |- _ => apply matches_seq_str in H as (? & ? & -> & ? & ?)
    | H : matches (lit _) (chars _) |- _ => apply matches_lit_str in H as ->
    end.
    rewrite github_split by match goal with H : path_segment ?x |- free_of _ ?x => apply H end. intros [= <-]. eauto 10.
  - intros (owner & repo & file & Ho & Hr & Ht & Hf & ->). rewrite github_split by match goal with H : path_segment ?x |- free_of _ ?x => apply H end.
    replace (fullmatch _ _) with true; [done|]. symmetry. apply fullmatch_spec. unfold GITHUB_RELEASE_RE.
    repeat (apply matches_seq_intro; [first [by apply matches_lit_str | by apply segment_iff]|]). by apply matches_lit_str.
Qed.

Lemma release_asset_owner path owner tag :
  release_asset path owner tag -> startswith "/oklabflensburg/" path = true <-> owner = "oklabflensburg".
Proof.
  intros (repo & file & [_ Ho] & _ & _ & _ & ->). split.
  - intros [t Ht]%prefix_app.
    assert (Ht' : owner +:+ "/" +:+ repo +:+ "/releases/download/" +:+ tag +:+ "/" +:+ file +:+ ".ocp" = "oklabflensburg" +:+ "/" +:+ t)
      by by injection Ht.
    symmetry in Ht'. apply first_segment in Ht'; [done | by repeat constructor | done].
  - intros ->. vm_compute. by destruct repo.
Qed.

Lemma release_asset_ocp path owner tag : release_asset path owner tag -> endswith ".ocp" path = true.
Proof. intros (repo & file & _ & _ & _ & _ & ->). rewrite <- !append_assoc. apply endswith_app. Qed.

Lemma release_asset_canonical module_id version owner tag :
  fullmatch MODULE_ID_RE module_id = true -> fullmatch SEMVER_RE version = true ->
  ~ release_asset (canonical_path module_id version) owner tag.
Proof.
  intros Hi Hv H. assert (Ht : github_tag (canonical_path module_id version) = Some tag) by (apply github_tag_iff; by exists owner).
  rewrite github_tag_segments in Ht; [done|]. by rewrite canonical_path_segments.
Qed.

(** The four conditions on the host and the decoded path. *)
Lemma artifact_checks cls module_id version host path :
  fullmatch MODULE_ID_RE module_id = true -> fullmatch SEMVER_RE version = true ->
  let hosted := bool_decide (host = Some CANONICAL_REGISTRY_HOST) && String.eqb path (canonical_path module_id version) in
  let github_release := bool_decide (host = Some "github.com") && bool_decide (is_Some (github_tag path)) in
  (negb (endswith ".ocp" path) = false /\
   match github_tag path with Some tag => negb (mem tag [version; "v" +:+ version]) | None => false end = false /\
   negb hosted && negb github_release = false /\
   String.eqb cls "first-party" && github_release && negb (startswith "/oklabflensburg/" path) = false) <->
  (host = Some CANONICAL_REGISTRY_HOST /\ path = canonical_path module_id version \/
   exists owner tag, host = Some "github.com" /\ release_asset path owner tag /\
     (tag = version \/ tag = "v" +:+ version) /\ (cls = "first-party" -> owner = "oklabflensburg")).
Proof.
  intros Hi Hv hosted github_release. subst hosted github_release. split.
  - intros (_ & Htag & Hhost & Hparty). destruct (bool_decide (host = Some CANONICAL_REGISTRY_HOST) && _) eqn:Hh.
    { apply andb_true_iff in Hh as [Hh Hp%String.eqb_eq]. apply bool_decide_eq_true in Hh. by left. }
    right. apply andb_false_iff in Hhost as [|Hg]; [done|]. apply negb_false_iff in Hg. rewrite Hg, andb_true_r in Hparty.
    apply andb_true_iff in Hg as [Hg Ht]. apply bool_decide_eq_true in Hg, Ht. destruct Ht as [tag Ht]. rewrite Ht in Htag.
    apply github_tag_iff in Ht as [owner Ha]. exists owner, tag. split; [done|]. split; [done|]. split.
    + apply negb_false_iff, mem_true in Htag. repeat (apply elem_of_cons in Htag as [Htag|Htag]; [auto|]). by apply elem_of_nil in Htag.
    + intros ->. apply (release_asset_owner _ _ _ Ha). by apply andb_false_iff in Hparty as [|Hs%negb_false_iff].
  - intros [[-> ->]|(owner & tag & -> & Ha & Htag & Hparty)].
    + rewrite github_tag_segments by by rewrite canonical_path_segments. rewrite bool_decide_true, String.eqb_refl by done.
      rewrite (bool_decide_false (is_Some None)), andb_false_r by by intros []. rewrite andb_false_r.
      unfold canonical_path at 1. rewrite <- !append_assoc, endswith_app. done.
    + rewrite (release_asset_ocp _ _ _ Ha). assert (Ht : github_tag path = Some tag) by (apply github_tag_iff; by exists owner).
      rewrite Ht. rewrite !(bool_decide_true _ eq_refl), (bool_decide_true (is_Some (Some tag))) by by eexists. rewrite andb_false_r.
      split; [done|]. split; [apply negb_false_iff, mem_true; destruct Htag as [-> | ->]; set_solver|]. split; [done|].
      destruct (String.eqb_spec cls "first-party") as [Hc|]; [|done]. cbn [andb]. apply negb_false_iff, (release_asset_owner _ _ _ Ha). by apply Hparty.
Qed.

(** C24. The artifact URL policy, exactly.  For a module and version of the
    registry's grammars, [validate_artifact_url] accepts a value and returns its
    parts exactly when it is a non-empty text that splits as an HTTPS URL with a
    host, without credentials, query and fragment, with no port or 443, without a
    backslash, white space or control character, and its path, once
    percent-decoded, is either the registry's own path for this module and version
    on the registry's host, or on github.com the path of a [.ocp] asset of a
    release whose tag is the version, with or without [v], of a repository that
    oklabflensburg owns where the module is first-party. *)
Theorem validate_artifact_url_policy v cls module_id version origin p :
  fullmatch MODULE_ID_RE module_id = true -> fullmatch SEMVER_RE version = true ->
  validate_artifact_url v cls module_id version origin = Ok p <->
  exists u, v = JStr u /\ u <> "" /\ urlsplit u = Ok p /\ https_ok p /\
    mem_char "\" u = false /\ any_char (fun c => is_space c || N.ltb (N_of_ascii c) 32) u = false /\
    (hostname p = Some CANONICAL_REGISTRY_HOST /\ unquote (path p) = canonical_path module_id version \/
     exists owner tag, hostname p = Some "github.com" /\ release_asset (unquote (path p)) owner tag /\
       (tag = version \/ tag = "v" +:+ version) /\ (cls = "first-party" -> owner = "oklabflensburg")).
Proof.
  intros Hi Hv. assert (Hchecks := fun q => artifact_checks cls module_id version (hostname q) (unquote (path q)) Hi Hv).
  unfold validate_artifact_url. rewrite res_bind_Ok. split.
  - intros (q & Hq & H). rewrite !seq_Ok, !raise_if_Ok in H. destruct H as (H1 & H2 & H3 & H4 & [= <-]).
    apply _https_url_iff in Hq as (u & -> & Hu & Hs & Hok & Hb & Hc). exists u. split_and!; try done. by apply Hchecks.
  - intros (u & -> & Hu & Hs & Hok & Hb & Hc & H). exists p. split; [by apply _https_url_intro|].
    apply Hchecks in H as (H1 & H2 & H3 & H4). by rewrite !seq_Ok, !raise_if_Ok.
Qed.

(** A percent-encoded path and the default port are accepted as well. *)
Lemma validate_artifact_url_policy_witness :
  (exists p, validate_artifact_url (JStr "https://github.com:443/oklabflensburg/hello/releases/download/v1.0.0/hell%6F.ocp")
      "first-party" "hello" "1.0.0" "url" = Ok p) /\
  (forall p, validate_artifact_url (JStr "https://github.com/other/hello/releases/download/v1.0.0/hello.ocp")
      "first-party" "hello" "1.0.0" "url" <> Ok p).
Proof.
  split.
  - eexists. apply (validate_artifact_url_policy _ "first-party" "hello" "1.0.0" "url"); [vm_compute; reflexivity | vm_compute; reflexivity|].
    eexists. split; [reflexivity|]. split; [done|]. split; [vm_compute; reflexivity|]. split.
    { split; try reflexivity; [by exists "github.com" | by right]. }
    split; [vm_compute; reflexivity|]. split; [vm_compute; reflexivity|]. right. exists "oklabflensburg", "v1.0.0".
    split; [vm_compute; reflexivity|]. split; [|split; [by right | done]]. exists "hello", "hello". unfold path_segment, free_of.
    split_and!; try done; try by repeat constructor. 
  - intros p H. apply (validate_artifact_url_policy _ "first-party" "hello" "1.0.0" "url") in H;
      [|vm_compute; reflexivity|vm_compute; reflexivity]. destruct H as (u & [= <-] & _ & Hs & _ & _ & _ & H).
    vm_compute in Hs. injection Hs as <-. destruct H as [[H _]|(owner & tag & _ & Ha & _ & Ho)]; [discriminate H|].
    specialize (Ho eq_refl). apply (release_asset_owner _ _ _ Ha) in Ho. discriminate Ho.
Defined.

(** The canonical URL of a version is accepted as its artifact URL under
    either classification. *)
Theorem canonical_url_accepted cls module_id version origin :
  canonical_id module_id -> fullmatch SEMVER_RE version = true ->
  exists p, validate_artifact_url (JStr (canonical_url module_id version)) cls module_id version origin = Ok p
            /\ hostname p = Some CANONICAL_REGISTRY_HOST
            /\ unquote (path p) = canonical_path module_id version.
Proof.
  intros [_ Hi] Hv. assert (H := canonical_url_valid cls _ _ origin Hi Hv).
  apply is_ok_iff in H as [p Hp]. exists p. split; [done|].
  unfold validate_artifact_url in Hp. py_inv.
  match goal with H : _https_url _ _ = Ok _ |- _ => apply _https_url_Ok in H as (u & [= <-] & _ & Hu & _) end.
  rewrite canonical_url_parts in Hu by done. injection Hu as <-. split; [reflexivity|].
  by apply unquote_plain, canonical_path_plain.
Qed.

Lemma canonical_url_accepted_witness :
  exists p, validate_artifact_url (JStr (canonical_url "hello" "1.0.0+b.1")) "reviewed-community" "hello"
              "1.0.0+b.1" "url" = Ok p /\ hostname p = Some CANONICAL_REGISTRY_HOST
            /\ unquote (path p) = canonical_path "hello" "1.0.0+b.1".
Proof.
  apply (canonical_url_accepted "reviewed-community" "hello" "1.0.0+b.1" "url").
  - split; [simpl; lia | vm_compute; reflexivity].
  - vm_compute. reflexivity.
Defined.
