(* ===== verification/Registry.v ===== *)
(** * The registry: validated modules and the operations of scripts/registry.py

    The typed data a validated module decodes to, and the operations on lists
    of validated modules: [load_registry], [build_index], [canonical_module],
    [validate_immutability] with the mirror promotion it allows.  A registry
    root is the text of its envelope and the named texts of its [modules]
    directory; a git reference is what the git commands print. *)

From S2P Require Import Prelude PyText SemVer Json Url Validate.

Open Scope string_scope.
Open Scope list_scope.

(** ** Data *)

Record artifact := { url : string; sha256 : string }.

Record requirements := { req_host : string; req_sdk : string; req_modules : gmap string string }.

Record release := {
  version : string;
  channel : string;
  rel_artifact : artifact;
  bundle_format_version : Z;
  source_commit : string;
  source_tag : option string;
  requires : requirements
}.

Record publisher := { pub_id : string; pub_name : string }.

Record module := {
  id : string;
  name : string;
  description : option string;
  mod_publisher : publisher;
  classification : string;
  source_repository : string;
  license : string;
  homepage : option string;
  documentation_url : option string;
  versions : list release
}.

#[export] Instance artifact_eq_dec : EqDecision artifact.
Proof. solve_decision. Defined.
#[export] Instance requirements_eq_dec : EqDecision requirements.
Proof. solve_decision. Defined.
#[export] Instance release_eq_dec : EqDecision release.
Proof. solve_decision. Defined.
#[export] Instance publisher_eq_dec : EqDecision publisher.
Proof. solve_decision. Defined.

(** ** Decoding *)

Definition get_str (k : string) (l : members) : option string :=
  match jget k l with Some (JStr s) => Some s | _ => None end.

Definition get_obj (k : string) (l : members) : option members :=
  match jget k l with Some (JObj m) => Some m | _ => None end.

(** The integer a number or a boolean compares equal to. *)
Definition get_int (k : string) (l : members) : option Z :=
  match jget k l with
  | Some (JInt z) => Some z
  | Some (JBool b) => Some (bool_int b)
  | _ => None
  end.

Definition get_opt (k : string) (l : members) : option (option string) :=
  match jget k l with
  | None => Some None
  | Some (JStr s) => Some (Some s)
  | _ => None
  end.

Definition artifact_of_json (l : members) : option artifact :=
  u ← get_str "url" l; s ← get_str "sha256" l; Some {| url := u; sha256 := s |}.

Definition constraint_of_json (kv : string * json) : option (string * string) :=
  match snd kv with JStr s => Some (fst kv, s) | _ => None end.

Definition requirements_of_json (l : members) : option requirements :=
  h ← get_str "host" l; s ← get_str "sdk" l; m ← get_obj "modules" l;
  ms ← mapM constraint_of_json m;
  Some {| req_host := h; req_sdk := s; req_modules := list_to_map ms |}.

Definition release_of_json (j : json) : option release :=
  match j with
  | JObj l =>
      v ← get_str "version" l; c ← get_str "channel" l;
      aj ← get_obj "artifact" l; a ← artifact_of_json aj;
      b ← get_int "bundle_format_version" l; sc ← get_str "source_commit" l;
      st ← get_opt "source_tag" l;
      rj ← get_obj "requires" l; r ← requirements_of_json rj;
      Some {| version := v; channel := c; rel_artifact := a; bundle_format_version := b;
              source_commit := sc; source_tag := st; requires := r |}
  | _ => None
  end.

Definition publisher_of_json (l : members) : option publisher :=
  i ← get_str "id" l; n ← get_str "name" l; Some {| pub_id := i; pub_name := n |}.

Definition module_of_json (l : members) : option module :=
  i ← get_str "id" l; n ← get_str "name" l; d ← get_opt "description" l;
  pj ← get_obj "publisher" l; p ← publisher_of_json pj;
  c ← get_str "classification" l; s ← get_str "source_repository" l;
  li ← get_str "license" l; h ← get_opt "homepage" l; du ← get_opt "documentation_url" l;
  match jget "versions" l with
  | Some (JArr vs) =>
      rs ← mapM release_of_json vs;
      Some {| id := i; name := n; description := d; mod_publisher := p; classification := c;
              source_repository := s; license := li; homepage := h; documentation_url := du;
              versions := rs |}
  | _ => None
  end.

(** ** Loading *)

(** [Path(name).stem] for a file name that ends in [.json]. *)
Definition stem (file : string) : string :=
  if String.eqb file ".json" then file
  else String.substring 0 (String.length file - 5) file.

Section Load.
Context (schema_valid : string -> json -> bool).

(** The loop over the files, with the identifiers seen. *)
Fixpoint load_modules (dir : string) (seen : list string) (files : list (string * string))
    : res exn (list members) :=
  match files with
  | [] => Ok []
  | (file, text) :: files =>
      let path := dir +:+ file in
      let? module := decode_json text path in
      validate_module schema_valid module path None ;?
      let? module_id := getitem "id" module in
      let module_id := json_text module_id in
      raise_if (mem module_id seen)
        (RegistryValidationError (path +:+ ": duplicate module ID " +:+ dquote module_id)) ;?
      raise_if (negb (String.eqb (stem file) module_id))
        (RegistryValidationError
           (path +:+ ": file name must be " +:+ dquote (module_id +:+ ".json") +:+ ", not "
            +:+ dquote file)) ;?
      let? rest := load_modules dir (module_id :: seen) files in
      Ok (module :: rest)
  end.

Definition json_id (m : members) : string := json_text (default JNull (jget "id" m)).

Definition by_file (x y : string * string) : bool := str_le (fst x) (fst y).

(** [envelope] is the text of registry.json when it is a file; [files] are the
    files of the modules directory that end in [.json], with their texts. *)
Definition load_registry (root : string) (envelope : option string)
    (files : list (string * string)) : res exn (list members) :=
  let envelope_path := root +:+ "/registry.json" in
  let? text := of_option
      (RegistryValidationError ("missing registry source envelope: " +:+ envelope_path)) envelope in
  let? envelope := decode_json text envelope_path in
  _exact_keys envelope ["schema_version"] ["schema_version"] envelope_path ;?
  let? version := getitem "schema_version" envelope in
  _schema_version version envelope_path ;?
  let? modules := load_modules (root +:+ "/modules/") [] (sort_by by_file files) in
  Ok (sort_by (fun x y => str_le (json_id x) (json_id y)) modules).

(** *** The baseline of a git reference *)

(** The text after the last slash. *)
Definition path_name (path : string) : string := snd (rpartition_on "/" path).

Definition git_show (show : string -> option string) (reference path : string) : res exn string :=
  of_option (RegistryValidationError
    ("cannot read immutable baseline " +:+ reference +:+ ":" +:+ path)) (show path).

(** [exists] is the success of [git cat-file -e], [show] the output of [git
    show] and [listing] the lines of [git ls-tree]. *)
Definition load_registry_from_git (reference : string) (exists_ : bool)
    (show : string -> option string) (listing : option (list string)) : res exn (list members) :=
  if negb exists_ then Ok []
  else
    let envelope_path := reference +:+ ":registry/registry.json" in
    let? text := git_show show reference "registry/registry.json" in
    let? envelope := decode_json text envelope_path in
    _schema_version (default JNull (jget "schema_version" envelope)) envelope_path ;?
    let? listing := of_option
        (RegistryValidationError ("cannot list immutable baseline " +:+ reference)) listing in
    traverse (fun path =>
      let? text := git_show show reference path in
      let? module := decode_json text (reference +:+ ":" +:+ path) in
      validate_module schema_valid module (reference +:+ ":" +:+ path)
        (Some (stem (path_name path))) ;?
      Ok module)
      (sort_by str_le (List.filter (endswith ".json") listing)).

End Load.

(** ** Encoding *)

Definition opt_member (k : string) (v : option string) : members :=
  match v with Some s => [(k, JStr s)] | None => [] end.

Definition artifact_json (a : artifact) : json :=
  JObj [("url", JStr (url a)); ("sha256", JStr (sha256 a))].

Definition requirements_json (r : requirements) : json :=
  JObj [("host", JStr (req_host r)); ("sdk", JStr (req_sdk r));
        ("modules", JObj (map (fun kv => (fst kv, JStr (snd kv))) (map_to_list (req_modules r))))].

Definition release_json (r : release) : json :=
  JObj ([("version", JStr (version r)); ("channel", JStr (channel r));
         ("artifact", artifact_json (rel_artifact r));
         ("bundle_format_version", JInt (bundle_format_version r));
         ("source_commit", JStr (source_commit r))]
        ++ opt_member "source_tag" (source_tag r) ++ [("requires", requirements_json (requires r))]).

Definition publisher_json (p : publisher) : json :=
  JObj [("id", JStr (pub_id p)); ("name", JStr (pub_name p))].

Definition module_json (m : module) : members :=
  [("schema_version", JInt 1); ("id", JStr (id m)); ("name", JStr (name m))]
  ++ opt_member "description" (description m)
  ++ [("publisher", publisher_json (mod_publisher m)); ("classification", JStr (classification m));
      ("source_repository", JStr (source_repository m)); ("license", JStr (license m))]
  ++ opt_member "homepage" (homepage m) ++ opt_member "documentation_url" (documentation_url m)
  ++ [("versions", JArr (map release_json (versions m)))].

(** ** The index *)

Record index_channel := { ch_version : string; ch_sha256 : string }.

Record index_entry := {
  entry_id : string; entry_name : string; entry_publisher : publisher;
  entry_classification : string;
  entry_channels : list (string * index_channel);
  entry_metadata : string
}.

Definition by_id (x y : module) : bool := str_le (id x) (id y).

(** A release with its sort key. *)
Definition keyed (r : release) : res exn (version_key * release) :=
  let? k := semver_key (version r) in Ok (k, r).

Definition by_key {A} (x y : version_key * A) : bool := key_le (fst x) (fst y).

(** The entry of one channel: [max] of its releases, no entry when there is none. *)
Definition channel_entry (m : module) (ch : string) : res exn (list (string * index_channel)) :=
  let releases := List.filter (fun r => String.eqb (channel r) ch) (versions m) in
  let? releases := traverse keyed releases in
  Ok match max_by by_key releases with
     | Some (_, current) =>
         [(ch, {| ch_version := version current; ch_sha256 := sha256 (rel_artifact current) |})]
     | None => []
     end.

Definition module_entry (m : module) : res exn index_entry :=
  let? channels := traverse (channel_entry m) CHANNELS in
  Ok {| entry_id := id m; entry_name := name m; entry_publisher := mod_publisher m;
        entry_classification := classification m; entry_channels := List.concat channels;
        entry_metadata := "/modules/" +:+ id m +:+ ".json" |}.

Definition index_channel_json (c : string * index_channel) : string * json :=
  (fst c, JObj [("version", JStr (ch_version (snd c))); ("sha256", JStr (ch_sha256 (snd c)))]).

Definition index_entry_json (e : index_entry) : json :=
  JObj [("id", JStr (entry_id e)); ("name", JStr (entry_name e));
        ("publisher", publisher_json (entry_publisher e));
        ("classification", JStr (entry_classification e));
        ("channels", JObj (map index_channel_json (entry_channels e)));
        ("metadata", JStr (entry_metadata e))].

Definition index_json (entries : list index_entry) : json :=
  JObj [("schema_version", JInt 1); ("modules", JArr (map index_entry_json entries))].

Definition build_index (schema_valid : string -> json -> bool) (modules : list module)
    : res exn (list index_entry) :=
  let? entries := traverse module_entry (sort_by by_id modules) in
  _validate_json_schema schema_valid (index_json entries) "registry-v1.schema.json" "index" ;?
  Ok entries.

(** ** The canonical form of a module *)

Definition with_versions (m : module) (vs : list release) : module :=
  {| id := id m; name := name m; description := description m; mod_publisher := mod_publisher m;
     classification := classification m; source_repository := source_repository m;
     license := license m; homepage := homepage m; documentation_url := documentation_url m;
     versions := vs |}.

Definition canonical_module (m : module) : res exn module :=
  let? rs := traverse keyed (versions m) in
  Ok (with_versions m (map snd (sort_by by_key rs))).

(** ** Immutability of what is published *)

(** [{key(x): x for x in l}.get(k)]: the last element with the key. *)
Definition dict_get {A} (key : A -> string) (k : string) (l : list A) : option A :=
  find_key key k (reverse l).

Definition with_url (r : release) (u : string) : release :=
  {| version := version r; channel := channel r;
     rel_artifact := {| url := u; sha256 := sha256 (rel_artifact r) |};
     bundle_format_version := bundle_format_version r; source_commit := source_commit r;
     source_tag := source_tag r; requires := requires r |}.

Definition _is_mirror_promotion (module_id : string) (proposed published : release) : res exn bool :=
  let? published_url := urlsplit (url (rel_artifact published)) in
  let expected_mirror := canonical_url module_id (version published) in
  if negb (bool_decide (hostname published_url = Some "github.com"))
     || negb (String.eqb (url (rel_artifact proposed)) expected_mirror)
  then Ok false
  else Ok (bool_decide (with_url proposed (url (rel_artifact published)) = published)).

(** The protected fields with the messages of their templates. *)
Definition PROTECTED_MODULE_FIELDS : list ((module -> string) * (string -> string -> string -> string)) :=
  [(classification, fun i e p =>
      i +:+ ": classification cannot change after publication (" +:+ e +:+ " -> " +:+ p +:+ ")");
   (source_repository, fun i e p =>
      i +:+ ": published source_repository is immutable; existing " +:+ dquote e +:+ ", proposed " +:+ dquote p);
   (license, fun i e p =>
      i +:+ ": published license is immutable in registry schema v1; existing " +:+ dquote e
      +:+ ", proposed " +:+ dquote p)].

Definition _validate_module_provenance_immutability (current published : module) : res exn unit :=
  let module_id := id published in
  let published_publisher_id := pub_id (mod_publisher published) in
  let proposed_publisher_id := pub_id (mod_publisher current) in
  raise_if (negb (String.eqb proposed_publisher_id published_publisher_id))
    (RegistryValidationError
       (module_id +:+ ": published publisher.id is immutable; existing "
        +:+ dquote published_publisher_id +:+ ", proposed " +:+ dquote proposed_publisher_id)) ;?
  each (fun fe =>
    let existing := fst fe published in
    let proposed := fst fe current in
    raise_if (negb (String.eqb proposed existing))
      (RegistryValidationError (snd fe module_id existing proposed)))
    PROTECTED_MODULE_FIELDS.

Definition check_release (module_id : string) (current : module) (base : release) : res exn unit :=
  match dict_get version (version base) (versions current) with
  | None => invalid (module_id +:+ "@" +:+ version base +:+ ": published release cannot be removed")
  | Some proposed =>
      if bool_decide (proposed = base) then Ok tt
      else
        let? mirror := _is_mirror_promotion module_id proposed base in
        raise_if (negb mirror)
          (RegistryValidationError
             (module_id +:+ "@" +:+ version base
              +:+ ": published release metadata is immutable; publish a new version"))
  end.

Definition validate_immutability (current_modules base_modules : list module) : res exn unit :=
  each (fun base =>
    match dict_get id (id base) current_modules with
    | None => invalid (id base +:+ ": published module metadata cannot be removed")
    | Some current =>
        _validate_module_provenance_immutability current base ;?
        each (check_release (id base) current) (versions base)
    end) base_modules.

(** ** Well-formed modules *)

Record release_ok (module_id cls : string) (r : release) : Prop := {
  ok_version : fullmatch SEMVER_RE (version r) = true;
  ok_channel : channel r ∈ CHANNELS;
  ok_stable : channel r = "stable" -> has_prerelease (version r) = false;
  ok_url : artifact_policy cls module_id (version r) (url (rel_artifact r));
  ok_sha256 : fullmatch SHA256_RE (sha256 (rel_artifact r)) = true;
  ok_format : bundle_format_version r = 1%Z;
  ok_commit : fullmatch COMMIT_RE (source_commit r) = true;
  ok_tag : forall t, source_tag r = Some t -> text_ok 255 t;
  ok_host : range_ok (req_host (requires r));
  ok_sdk : range_ok (req_sdk (requires r));
  ok_modules : forall d c, req_modules (requires r) !! d = Some c ->
                 canonical_id d /\ d <> module_id /\ range_ok c
}.

Record module_ok (m : module) : Prop := {
  ok_id : canonical_id (id m);
  ok_name : text_ok 120 (name m);
  ok_publisher : canonical_id (pub_id (mod_publisher m));
  ok_class : classification m ∈ CLASSIFICATIONS;
  ok_source : exists p, urlsplit (source_repository m) = Ok p /\ https_ok p /\
      (classification m = "first-party" ->
       hostname p = Some "github.com" /\ startswith "/oklabflensburg/" (unquote (path p)) = true);
  ok_license : text_ok 255 (license m);
  ok_some : versions m <> [];
  ok_distinct : NoDup (map version (versions m));
  ok_releases : Forall (release_ok (id m) (classification m)) (versions m)
}.

(** *** Decoding succeeds on what the validators accept *)

Lemma in_strings_Ok v l : in_strings v l = true -> exists s, v = JStr s /\ s ∈ l.
Proof.
  unfold in_strings. intros H. apply existsb_exists in H as (s & Hin & Hs).
  destruct v; simpl in Hs; try done. apply String.eqb_eq in Hs as ->.
  exists s. by rewrite list_elem_of_In.
Qed.

Lemma get_str_Ok k l s : get_str k l = Some s <-> jget k l = Some (JStr s).
Proof. unfold get_str. destruct (jget k l) as [[]|]; split; try done; intros [= ->]; done. Qed.

Lemma get_opt_Ok l k o n :
  _optional_string l k o n = Ok tt ->
  exists v, get_opt k l = Some v /\ forall t, v = Some t -> text_ok n t.
Proof.
  rewrite _optional_string_Ok. unfold get_opt. intros [->|(s & -> & Hs)].
  - by exists None.
  - exists (Some s). split; [done|]. by intros t [= <-].
Qed.

Lemma get_opt_url_Ok l k o : _optional_https_url l k o = Ok tt -> exists v, get_opt k l = Some v.
Proof.
  intros H. apply _optional_https_url_Ok in H. unfold get_opt.
  destruct H as [->|(s & p & -> & _)]; eauto.
Qed.

(** A [mapM] over elements that each decode to something with a property. *)
Lemma mapM_decode {A B} (f : A -> option B) (P : B -> Prop) l :
  Forall (fun x => exists y, f x = Some y /\ P y) l -> exists ys, mapM f l = Some ys /\ Forall P ys.
Proof.
  induction 1 as [|x l (y & Hy & HP) _ (ys & Hys & HPs)].
  - by exists [].
  - exists (y :: ys). simpl. rewrite Hy, Hys. by split; [|constructor].
Qed.

Lemma requirements_decode v o module_id :
  _validate_requires v o module_id = Ok tt ->
  exists l r, v = JObj l /\ requirements_of_json l = Some r /\
    range_ok (req_host r) /\ range_ok (req_sdk r) /\
    forall d c, req_modules r !! d = Some c -> canonical_id d /\ d <> module_id /\ range_ok c.
Proof.
  destruct v as [| | | | |l]; try done. unfold _validate_requires. intros H. py_inv.
  repeat match goal with
  | H : getitem _ _ = Ok _ |- _ => apply getitem_Ok in H
  | H : _version_range _ _ = Ok _ |- _ => apply _version_range_Ok in H as (? & -> & _ & _ & ?)
  end.
  match goal with H : context [match ?x with JObj _ => _ | _ => _ end] |- _ => destruct x as [| | | | |m]; try done end.
  match goal with H : each _ m = Ok tt |- _ => apply each_Ok in H; rename H into Hm end.
  assert (Hd : exists ms, mapM constraint_of_json m = Some ms /\
    Forall (fun dc => canonical_id (fst dc) /\ fst dc <> module_id /\ range_ok (snd dc)) ms).
  { apply mapM_decode. eapply Forall_impl; [exact Hm|]. intros [d c] Hc. py_inv. cbn [fst snd] in *.
    match goal with H : _version_range _ _ = Ok _ |- _ => apply _version_range_Ok in H as (s & -> & _ & _ & ?) end.
    exists (d, s). split; [done|]. split_and!; simpl; try done.
    - match goal with H : _canonical_id (JStr d) _ = Ok _ |- _ => by apply _canonical_id_Ok in H as [[= <-] ?] end.
    - intros ->. by rewrite String.eqb_refl in *. }
  destruct Hd as (ms & Hms & Hok). eexists l, _. split; [done|]. split.
  { unfold requirements_of_json, get_str, get_obj.
    repeat match goal with H : jget _ _ = Some _ |- _ => rewrite H; clear H end. simpl. by rewrite Hms. }
  simpl. split_and!; try done. intros d c Hc. apply elem_of_list_to_map_2 in Hc.
  rewrite Forall_forall in Hok. exact (Hok _ Hc).
Qed.

Lemma artifact_decode v o cls module_id version :
  _validate_artifact v o cls module_id version = Ok tt ->
  exists l a, v = JObj l /\ artifact_of_json l = Some a /\
    artifact_policy cls module_id version (url a) /\ fullmatch SHA256_RE (sha256 a) = true.
Proof.
  destruct v as [| | | | |l]; try done. unfold _validate_artifact. intros H. py_inv.
  repeat match goal with
  | H : getitem _ _ = Ok _ |- _ => apply getitem_Ok in H
  | H : validate_artifact_url _ _ _ _ _ = Ok _ |- _ =>
      apply validate_artifact_url_Ok in H as (u & -> & ?)
  end.
  match goal with H : context [match ?x with JStr _ => _ | _ => _ end] |- _ =>
    destruct x as [| | |s| |]; try done end.
  py_inv. eexists l, _. split; [done|]. split.
  { unfold artifact_of_json, get_str.
    repeat match goal with H : jget _ _ = Some _ |- _ => rewrite H; clear H end. reflexivity. }
  done.
Qed.

Lemma get_int_one k l j : jget k l = Some j -> py_eq j (JInt 1) = true -> get_int k l = Some 1%Z.
Proof.
  unfold get_int. intros -> H. destruct j as [|b|z| | |]; simpl in H; try done.
  - by destruct b.
  - apply Z.eqb_eq in H. by subst.
Qed.

Lemma release_decode v o module_id cls :
  _validate_release v o module_id cls = Ok tt ->
  exists l r, v = JObj l /\ release_of_json v = Some r /\ jget "version" l = Some (JStr (version r)) /\
    release_ok module_id cls r.
Proof.
  destruct v as [| | | | |l]; try done. unfold _validate_release. intros H. py_inv.
  repeat match goal with
  | H : getitem _ _ = Ok _ |- _ => apply getitem_Ok in H
  | H : _semver _ _ = Ok _ |- _ => apply _semver_Ok in H as [-> ?]
  | H : in_strings _ _ = true |- _ => apply in_strings_Ok in H as (ch & -> & ?)
  | H : _validate_artifact _ _ _ _ _ = Ok _ |- _ =>
      apply artifact_decode in H as (al & a & -> & Ha & ? & ?)
  | H : _validate_requires _ _ _ = Ok _ |- _ =>
      apply requirements_decode in H as (rl & r & -> & Hr & ? & ? & ?)
  | H : _optional_string _ _ _ _ = Ok _ |- _ => apply get_opt_Ok in H as (tag & Htag & ?)
  | Hj : jget _ _ = Some ?j, H : py_eq ?j (JInt 1) = true |- _ =>
      apply (get_int_one _ _ _ Hj) in H
  | H : context [match ?x with JStr _ => _ | _ => _ end] |- _ =>
      destruct x as [| | |commit| |]; try done
  end.
  py_inv. eexists l, _. split; [done|]. split.
  { unfold release_of_json, get_str, get_obj.
    repeat match goal with
    | H : jget _ _ = Some _ |- _ => rewrite H; clear H
    | H : _ = Some _ |- _ => rewrite H; clear H
    end. simpl.
    repeat match goal with H : _ = Some _ |- _ => rewrite H; clear H; simpl end. reflexivity. }
  split; [done|]. split; simpl; try done.
  intros ->. simpl in *. done.
Qed.

Lemma versions_decode module_id cls o pos seen vs :
  validate_versions module_id cls o pos seen vs = Ok tt ->
  exists rs, mapM release_of_json vs = Some rs /\ Forall (release_ok module_id cls) rs /\
    length rs = length vs /\
    NoDup (map version rs) /\ Forall (fun r => version r ∉ seen) rs.
Proof.
  revert pos seen. induction vs as [|v vs IH]; intros pos seen; cbn [validate_versions].
  - intros _. exists []. split_and!; constructor.
  - intros H. py_inv.
    match goal with H : _validate_release _ _ _ _ = Ok _ |- _ =>
      apply release_decode in H as (l & r & -> & Hr & Hv & Hok) end.
    py_inv. match goal with H : getitem _ _ = Ok _ |- _ => apply getitem_Ok in H; rewrite Hv in H;
      injection H as <- end. py_inv.
    match goal with H : validate_versions _ _ _ _ _ _ = Ok _ |- _ =>
      apply IH in H as (rs & Hrs & Hoks & Hlen & Hnd & Hseen) end.
    exists (r :: rs).
    split_and!; [apply mapM_Some; constructor; [done | by apply mapM_Some] | by constructor | by simpl; rewrite Hlen | |].
    + simpl. constructor; [|done]. intros Hin. apply list_elem_of_fmap in Hin as (r' & Heq & Hin).
      rewrite Forall_forall in Hseen. apply Hseen in Hin. apply Hin. rewrite <- Heq. constructor.
    + constructor; [|eapply Forall_impl; [exact Hseen|]; intros x Hx Hin; apply Hx; by constructor].
      match goal with H : mem _ seen = false |- _ => by apply bool_decide_eq_false_1 in H end.
Qed.

Section ModuleDecode.
Context (schema_valid : string -> json -> bool).

Lemma publisher_decode v o :
  _validate_publisher v o = Ok tt ->
  exists l p, v = JObj l /\ publisher_of_json l = Some p /\ canonical_id (pub_id p).
Proof.
  destruct v as [| | | | |l]; try done. unfold _validate_publisher. intros H. py_inv.
  repeat match goal with
  | H : getitem _ _ = Ok _ |- _ => apply getitem_Ok in H
  | H : _canonical_id _ _ = Ok _ |- _ => apply _canonical_id_Ok in H as [-> ?]
  | H : _nonempty_string _ _ _ = Ok _ |- _ => apply _nonempty_string_Ok in H as (n & -> & ?)
  end.
  eexists l, _. split; [done|]. split.
  { unfold publisher_of_json, get_str.
    repeat match goal with H : jget _ _ = Some _ |- _ => rewrite H; clear H end. reflexivity. }
  done.
Qed.

Lemma source_repository_decode v cls o :
  validate_source_repository v (JStr cls) o = Ok tt ->
  exists s, v = JStr s /\ exists p, urlsplit s = Ok p /\ https_ok p /\
    (cls = "first-party" ->
     hostname p = Some "github.com" /\ startswith "/oklabflensburg/" (unquote (path p)) = true).
Proof.
  unfold validate_source_repository. intros H. py_inv.
  match goal with H : _https_url _ _ = Ok ?p |- _ =>
    apply _https_url_Ok in H as (s & -> & _ & ? & ?) end.
  exists s. split; [done|]. eexists. split; [done|]. split; [done|]. intros ->.
  simpl in *. py_inv. done.
Qed.

Lemma module_decode l o expected :
  validate_module schema_valid l o expected = Ok tt ->
  exists m, module_of_json l = Some m /\ module_ok m /\
    (forall e, expected = Some e -> e = id m) /\ jget "id" l = Some (JStr (id m)).
Proof.
  unfold validate_module. intros H. py_inv.
  repeat match goal with
  | H : getitem _ _ = Ok _ |- _ => apply getitem_Ok in H
  | H : _canonical_id _ _ = Ok _ |- _ => apply _canonical_id_Ok in H as [-> ?]
  | H : in_strings _ _ = true |- _ => apply in_strings_Ok in H as (cls & -> & ?)
  | H : _validate_publisher _ _ = Ok _ |- _ => apply publisher_decode in H as (pl & p & -> & ? & ?)
  | H : _nonempty_string _ _ _ = Ok _ |- _ => apply _nonempty_string_Ok in H as (? & -> & ?)
  | H : _optional_string _ _ _ _ = Ok _ |- _ => apply get_opt_Ok in H as (? & ? & _)
  | H : _optional_https_url _ _ _ = Ok _ |- _ => apply get_opt_url_Ok in H as (? & ?)
  | H : validate_source_repository _ _ _ = Ok _ |- _ =>
      apply source_repository_decode in H as (? & -> & ?)
  | H : context [match ?x with JArr _ => _ | _ => _ end] |- _ =>
      destruct x as [| | | |[|v vs]|]; try done
  end.
  py_inv. match goal with H : validate_versions _ _ _ _ _ _ = Ok _ |- _ =>
    apply versions_decode in H as (rs & Hrs & ? & Hlen & ? & _) end.
  eexists. split_and!.
  { unfold module_of_json, get_str, get_obj.
    repeat match goal with
    | H : jget _ _ = Some _ |- _ => rewrite H; clear H
    | H : publisher_of_json _ = Some _ |- _ => rewrite H; clear H
    | H : get_opt _ _ = Some _ |- _ => rewrite H; clear H
    end. cbn [mbind option_bind].
    repeat match goal with
    | H : get_opt _ _ = Some _ |- _ => rewrite H; clear H; cbn [mbind option_bind]
    | H : publisher_of_json _ = Some _ |- _ => rewrite H; clear H; cbn [mbind option_bind]
    end. rewrite Hrs. reflexivity. }
  - split; simpl; try done. by destruct rs.
  - intros e ->. simpl. py_inv. by apply String.eqb_eq.
  - done.
Qed.

End ModuleDecode.

(** ** Loading *)

Lemma load_modules_Ok schema_valid dir seen files ms :
  load_modules schema_valid dir seen files = Ok ms ->
  Forall2 (fun file l => exists m, module_of_json l = Some m /\ module_ok m /\
             json_id l = id m /\ stem (fst file) = id m) files ms
  /\ NoDup (map json_id ms) /\ Forall (fun l => json_id l ∉ seen) ms.
Proof.
  revert seen ms. induction files as [|[file text] files IH]; intros seen ms; cbn [load_modules].
  - intros [= <-]. split_and!; constructor.
  - intros H. py_inv.
    match goal with H : validate_module _ _ _ _ = Ok _ |- _ =>
      apply module_decode in H as (m & Hm & Hok & _ & Hid) end.
    match goal with H : getitem _ _ = Ok _ |- _ => apply getitem_Ok in H; rewrite Hid in H;
      injection H as <- end.
    match goal with H : load_modules _ _ _ _ = Ok _ |- _ => apply IH in H as (Hall & Hnd & Hseen) end.
    cbn [json_text] in *.
    match type of Hid with jget _ ?l = _ => assert (Hj : json_id l = id m) by (unfold json_id; by rewrite Hid) end.
    split_and!.
    + constructor; [|done]. exists m. split_and!; try done. by apply String.eqb_eq.
    + simpl. rewrite Hj. constructor; [|done]. intros Hin.
      apply list_elem_of_fmap in Hin as (l' & Heq & Hin). rewrite Forall_forall in Hseen.
      apply Hseen in Hin. apply Hin. rewrite <- Heq. constructor.
    + constructor.
      * rewrite Hj. match goal with H : mem _ seen = false |- _ => by apply bool_decide_eq_false_1 in H end.
      * eapply Forall_impl; [exact Hseen|]. intros l Hl Hin. apply Hl. by constructor.
Qed.

(** ** Immutability *)

(** What an accepted change may do to a published release: nothing, or move its
    GitHub URL to the registry's own. *)
Definition frozen (module_id : string) (proposed published : release) : Prop :=
  proposed = published \/
  (exists p, urlsplit (url (rel_artifact published)) = Ok p /\ hostname p = Some "github.com") /\
  proposed = with_url published (canonical_url module_id (version published)).

Record same_provenance (current published : module) : Prop := {
  same_id : id current = id published;
  same_publisher : pub_id (mod_publisher current) = pub_id (mod_publisher published);
  same_classification : classification current = classification published;
  same_source : source_repository current = source_repository published;
  same_license : license current = license published
}.

Definition preserves (current base : list module) : Prop :=
  forall b, b ∈ base -> exists c, c ∈ current /\ same_provenance c b /\
    forall r, r ∈ versions b -> exists r', r' ∈ versions c /\ frozen (id b) r' r.

Lemma dict_get_Some {A} (key : A -> string) k l x : dict_get key k l = Some x -> x ∈ l /\ key x = k.
Proof. intros H. apply find_key_Some in H as [Hin Hk]. by rewrite elem_of_reverse in Hin. Qed.

Lemma dict_get_None {A} (key : A -> string) k l : dict_get key k l = None <-> k ∉ map key l.
Proof.
  unfold dict_get. rewrite find_key_None, !list_elem_of_fmap. setoid_rewrite elem_of_reverse. done.
Qed.

Lemma dict_get_NoDup {A} (key : A -> string) l x :
  NoDup (map key l) -> x ∈ l -> dict_get key (key x) l = Some x.
Proof.
  intros Hnd Hin. apply find_key_NoDup; [|by apply elem_of_reverse|done].
  change (NoDup (key <$> reverse l)). rewrite fmap_reverse. by rewrite reverse_Permutation.
Qed.

Lemma canonical_url_not_github module_id v p :
  urlsplit (canonical_url module_id v) = Ok p -> hostname p <> Some "github.com".
Proof.
  destruct (canonical_url_host module_id v) as (p' & -> & Hp). intros [= <-]. by rewrite Hp.
Qed.

Lemma with_url_swap proposed published :
  with_url proposed (url (rel_artifact published)) = published <->
  proposed = with_url published (url (rel_artifact proposed)).
Proof.
  destruct proposed as [v c [u s] b sc st rq], published as [v' c' [u' s'] b' sc' st' rq'].
  unfold with_url; simpl. split; intros [= ]; subst; done.
Qed.

Lemma _is_mirror_promotion_true module_id proposed published :
  _is_mirror_promotion module_id proposed published = Ok true <->
  (exists p, urlsplit (url (rel_artifact published)) = Ok p /\ hostname p = Some "github.com") /\
  proposed = with_url published (canonical_url module_id (version published)).
Proof.
  unfold _is_mirror_promotion. destruct (urlsplit _) as [p|] eqn:Hp; cbn [res_bind].
  2: { split; [done | by intros [(? & ? & _) _]]. }
  case_bool_decide as Hh; cbn [negb orb].
  - destruct (String.eqb_spec (url (rel_artifact proposed)) (canonical_url module_id (version published)))
      as [Hu|Hu]; cbn [negb].
    + split.
      * intros [= H]. py_inv. apply with_url_swap in H. rewrite Hu in H. eauto.
      * intros [_ H]. f_equal. apply bool_decide_eq_true_2, with_url_swap. by rewrite Hu.
    + split; [done|]. intros [_ ->]. by destruct Hu.
  - split; [done|]. intros [(p' & [= <-] & ?) _]. done.
Qed.

Lemma frozen_version module_id r' r : frozen module_id r' r -> version r' = version r.
Proof. by intros [-> | [_ ->]]. Qed.

Lemma frozen_trans module_id a b c : frozen module_id a b -> frozen module_id b c -> frozen module_id a c.
Proof.
  intros [->|[(p & Hp & Hh) Hab]] Hbc; [done|].
  destruct Hbc as [->|[_ ->]]; [right; eauto|].
  exfalso. cbn [url rel_artifact with_url] in Hp. by apply canonical_url_not_github in Hp.
Qed.

Lemma check_release_Ok module_id current base :
  check_release module_id current base = Ok tt ->
  exists r', r' ∈ versions current /\ frozen module_id r' base.
Proof.
  unfold check_release. destruct (dict_get _ _ _) as [r|] eqn:Hr; [|done].
  apply dict_get_Some in Hr as [Hin _]. intros H. exists r. split; [done|].
  case_bool_decide; [by left|]. py_inv. subst.
  match goal with H : _is_mirror_promotion _ _ _ = Ok true |- _ =>
    apply _is_mirror_promotion_true in H end. by right.
Qed.

Lemma check_release_intro module_id current base r' :
  NoDup (map version (versions current)) -> r' ∈ versions current -> frozen module_id r' base ->
  check_release module_id current base = Ok tt.
Proof.
  intros Hnd Hin Hf. unfold check_release.
  rewrite <- (frozen_version _ _ _ Hf), dict_get_NoDup by done.
  case_bool_decide; [done|]. destruct Hf as [|Hf]; [done|].
  apply _is_mirror_promotion_true in Hf. by rewrite Hf.
Qed.

Lemma provenance_Ok current published :
  id current = id published ->
  _validate_module_provenance_immutability current published = Ok tt <-> same_provenance current published.
Proof.
  intros Hid. unfold _validate_module_provenance_immutability. simpl. split.
  - intros H. py_inv. repeat match goal with H : String.eqb _ _ = true |- _ => apply String.eqb_eq in H end.
    by split.
  - intros [_ -> -> -> ->]. by rewrite !String.eqb_refl.
Qed.

Lemma validate_immutability_sound current base :
  validate_immutability current base = Ok tt -> preserves current base.
Proof.
  unfold validate_immutability. rewrite each_Ok, Forall_forall. intros H b Hb.
  specialize (H b Hb). cbv beta in H.
  destruct (dict_get id (id b) current) as [c|] eqn:Hc; [|done].
  apply dict_get_Some in Hc as [Hin Hid]. py_inv. exists c. split; [done|].
  split; [by apply provenance_Ok|].
  match goal with H : each _ _ = Ok tt |- _ => rewrite each_Ok, Forall_forall in H; rename H into Hr end.
  intros r Hrin. apply check_release_Ok. by apply Hr.
Qed.

Lemma preserves_trans a b c : preserves a b -> preserves b c -> preserves a c.
Proof.
  intros Hab Hbc m Hm. destruct (Hbc m Hm) as (m1 & Hm1 & [Hi Hp Hc Hs Hl] & Hr1).
  destruct (Hab m1 Hm1) as (m2 & Hm2 & [Hi' Hp' Hc' Hs' Hl'] & Hr2).
  exists m2. split; [done|]. split; [split; congruence|]. intros r Hr.
  destruct (Hr1 r Hr) as (r1 & Hin1 & Hf1). destruct (Hr2 r1 Hin1) as (r2 & Hin2 & Hf2).
  exists r2. split; [done|]. rewrite Hi in Hf2. by eapply frozen_trans.
Qed.

#[export] Instance preserves_preorder : PreOrder preserves.
Proof.
  split.
  - intros a m Hm. exists m. split; [done|]. split; [by split|]. intros r Hr. exists r. by split; [|left].
  - intros a b c. apply preserves_trans.
Qed.

(** ** The canonical form and the index *)

Lemma keyed_Ok r kr :
  keyed r = Ok kr <-> exists k, semver_key (version r) = Ok k /\ kr = (k, r).
Proof.
  unfold keyed. destruct (semver_key (version r)) as [k|]; simpl.
  - split; [intros [= <-]; eauto | by intros (? & [= <-] & ->)].
  - split; [done | by intros (? & ? & _)].
Qed.

Lemma traverse_keyed rs krs :
  traverse keyed rs = Ok krs ->
  map snd krs = rs /\ Forall (fun kr => semver_key (version (snd kr)) = Ok (fst kr)) krs.
Proof.
  rewrite traverse_Ok. induction 1 as [|r kr rs krs Hr _ [IH IH']]; [by split; constructor|].
  apply keyed_Ok in Hr as (k & Hk & ->). simpl. split; [by rewrite IH | by constructor].
Qed.

Lemma semver_key_total v : fullmatch SEMVER_RE v = true -> exists k, semver_key v = Ok k.
Proof.
  intros (m & -> & Hm)%semver_re_iff. rewrite semver_key_text by done. eauto.
Qed.

Lemma traverse_keyed_total rs :
  Forall (fun r => fullmatch SEMVER_RE (version r) = true) rs -> exists krs, traverse keyed rs = Ok krs.
Proof.
  induction 1 as [|r rs Hr _ (krs & IH)]; [by exists []|].
  destruct (semver_key_total _ Hr) as [k Hk]. exists ((k, r) :: krs).
  simpl. unfold keyed at 1. by rewrite Hk, IH.
Qed.

Lemma module_semver m : module_ok m -> Forall (fun r => fullmatch SEMVER_RE (version r) = true) (versions m).
Proof. intros H. eapply Forall_impl; [exact (ok_releases _ H)|]. by intros r []. Qed.

(** Releases by increasing precedence. *)
Definition version_le (r s : release) : Prop :=
  exists k l, semver_key (version r) = Ok k /\ semver_key (version s) = Ok l /\ key_le k l = true.

Lemma sorted_versions krs :
  sorted_by by_key krs ->
  Forall (fun kr : version_key * release => semver_key (version (snd kr)) = Ok (fst kr)) krs ->
  StronglySorted version_le (map snd krs).
Proof.
  induction 1 as [|kr krs _ IH Hle]; intros Hk; [constructor|].
  apply Forall_cons in Hk as [Hkr Hk]. simpl. constructor; [by apply IH|].
  rewrite Forall_fmap.
  rewrite Forall_forall in *. intros x Hx. exists (fst kr), (fst x).
  split_and!; [done | by apply Hk | by apply Hle].
Qed.

Lemma canonical_module_Ok m c :
  canonical_module m = Ok c ->
  exists vs, c = with_versions m vs /\ Permutation vs (versions m) /\ StronglySorted version_le vs.
Proof.
  unfold canonical_module. intros H. py_inv.
  match goal with H : traverse keyed _ = Ok ?k |- _ => apply traverse_keyed in H as [Hs Hk]; rename k into krs end.
  eexists. split; [done|]. split.
  - rewrite <- Hs. change (snd <$> sort_by by_key krs ≡ₚ snd <$> krs). by rewrite sort_by_perm.
  - apply sorted_versions; [apply sort_by_sorted, _|]. by rewrite sort_by_perm.
Qed.

(** The entry a channel gets: its release of greatest precedence. *)
Definition current_release (m : module) (ch : string) (c : index_channel) : Prop :=
  exists r, r ∈ versions m /\ channel r = ch /\
    c = {| ch_version := version r; ch_sha256 := sha256 (rel_artifact r) |} /\
    forall r', r' ∈ versions m -> channel r' = ch -> version_le r' r.

Lemma elem_of_channel r m ch :
  r ∈ List.filter (fun r => String.eqb (channel r) ch) (versions m) <-> r ∈ versions m /\ channel r = ch.
Proof. by rewrite !list_elem_of_In, filter_In, String.eqb_eq. Qed.

Lemma channel_entry_Ok m ch l :
  channel_entry m ch = Ok l ->
  (l = [] /\ forall r, r ∈ versions m -> channel r <> ch) \/
  exists c, l = [(ch, c)] /\ current_release m ch c.
Proof.
  unfold channel_entry. intros H. py_inv.
  match goal with H : traverse keyed _ = Ok ?k |- _ => apply traverse_keyed in H as [Hs Hk]; rename k into krs end.
  rewrite Forall_forall in Hk.
  assert (Hin : forall r, r ∈ versions m -> channel r = ch -> exists k, (k, r) ∈ krs).
  { intros r Hr Hc. assert (Hf : r ∈ map snd krs) by by rewrite Hs; apply elem_of_channel.
    apply list_elem_of_fmap in Hf as ([k r'] & -> & ?). by exists k. }
  destruct (max_by by_key krs) as [[k r]|] eqn:Hm.
  - right. apply max_by_spec in Hm as [Hkr Hmax]; [|apply _].
    eexists. split; [done|]. exists r.
    assert (Hr : r ∈ map snd krs) by (apply list_elem_of_fmap; by exists (k, r)).
    rewrite Hs in Hr. apply elem_of_channel in Hr as [? ?]. split_and!; try done.
    intros r' Hr' Hc'. destruct (Hin r' Hr' Hc') as [k' Hk'].
    exists k', k. split_and!; [by apply (Hk (k', r')) | by apply (Hk (k, r)) | by apply (Hmax (k', r'))].
  - left. split; [done|]. intros r Hr Hc. destruct (Hin r Hr Hc) as [k Hk'].
    apply max_by_None in Hm as ->. by apply elem_of_nil in Hk'.
Qed.

Record entry_of (m : module) (e : index_entry) : Prop := {
  of_id : entry_id e = id m;
  of_name : entry_name e = name m;
  of_publisher : entry_publisher e = mod_publisher m;
  of_classification : entry_classification e = classification m;
  of_metadata : entry_metadata e = "/modules/" +:+ id m +:+ ".json";
  of_channels : forall ch c, (ch, c) ∈ entry_channels e -> ch ∈ CHANNELS /\ current_release m ch c;
  of_complete : forall r, r ∈ versions m -> channel r ∈ CHANNELS ->
                  exists c, (channel r, c) ∈ entry_channels e
}.

Lemma module_entry_Ok m e : module_entry m = Ok e -> entry_of m e.
Proof.
  unfold module_entry. intros H. py_inv.
  match goal with H : traverse _ _ = Ok ?l |- _ => apply traverse_Ok in H; rename l into ls, H into Hls end.
  split; try done; simpl.
  - intros ch c Hin. rewrite list_elem_of_In in Hin.
    apply in_concat in Hin as (l & Hl & Hc). rewrite <- list_elem_of_In in Hl. rewrite <- list_elem_of_In in Hc.
    destruct (Forall2_in_r _ _ _ _ Hls Hl) as (ch' & Hch & He).
    apply channel_entry_Ok in He as [[-> _]|(c' & -> & Hr)]; [by apply elem_of_nil in Hc|].
    apply list_elem_of_singleton in Hc. injection Hc as -> ->. done.
  - intros r Hr Hch. destruct (Forall2_in_l _ _ _ _ Hls Hch) as (l & Hl & He).
    apply channel_entry_Ok in He as [[_ Hno]|(c & -> & _)]; [by destruct (Hno r)|].
    exists c. rewrite list_elem_of_In. apply in_concat. exists [(channel r, c)].
    split; [by rewrite <- list_elem_of_In | by left].
Qed.

Lemma traverse_keyed_perm rs rs' krs :
  Permutation rs rs' -> traverse keyed rs = Ok krs ->
  exists krs', traverse keyed rs' = Ok krs' /\ Permutation krs krs'.
Proof.
  intros Hp. revert krs. induction Hp as [|r rs rs' _ IH|r s rs|rs rs' rs'' _ IH1 _ IH2]; intros krs H.
  - exists krs. split; [done|]. simpl in H. by injection H as <-.
  - simpl in H. py_inv. match goal with H : traverse _ _ = Ok _ |- _ => apply IH in H as (k & Hk & ?) end.
    eexists. simpl. rewrite H, Hk. split; [done | by constructor].
  - simpl in H. py_inv. simpl.
    repeat match goal with H : _ = Ok _ |- _ => rewrite H; clear H; cbn [res_bind] end.
    eexists. split; [done | constructor].
  - apply IH1 in H as (k & Hk & Hp1). apply IH2 in Hk as (k' & Hk' & Hp2).
    exists k'. split; [done | by etransitivity].
Qed.

Lemma canonical_module_perm m vs c :
  Permutation (versions m) vs ->
  (forall r s, r ∈ versions m -> s ∈ versions m -> semver_key (version r) = semver_key (version s) -> r = s) ->
  canonical_module m = Ok c -> canonical_module (with_versions m vs) = Ok c.
Proof.
  unfold canonical_module. intros Hp Hinj H. py_inv.
  match goal with H : traverse keyed _ = Ok ?k |- _ => rename k into krs, H into Hk end.
  destruct (traverse_keyed_perm _ _ _ Hp Hk) as (krs' & Hk' & Hp').
  cbn [versions with_versions]. rewrite Hk'. cbn [res_bind]. do 3 f_equal.
  apply (sorted_unique by_key).
  - intros [k r] [l s] Hx Hy Hkl Hlk. rewrite sort_by_elem, <- Hp' in Hx. rewrite sort_by_elem, <- Hp' in Hy.
    apply traverse_keyed in Hk as [Hs Hk]. rewrite Forall_forall in Hk.
    assert (k = l) as -> by by apply (le_of_antisym key_compare).
    assert (r = s) as ->; [|done]. apply Hinj.
    + rewrite <- Hs. apply list_elem_of_fmap. by exists (l, r).
    + rewrite <- Hs. apply list_elem_of_fmap. by exists (l, s).
    + assert (H1 := Hk _ Hx). assert (H2 := Hk _ Hy). cbn [fst snd] in *. congruence.
  - apply sort_by_sorted, _.
  - apply sort_by_sorted, _.
  - by rewrite !sort_by_perm.
Qed.

Lemma canonical_module_idemp m c : canonical_module m = Ok c -> canonical_module c = Ok c.
Proof.
  unfold canonical_module. intros H. py_inv.
  match goal with H : traverse keyed _ = Ok ?k |- _ => apply traverse_keyed in H as [Hs Hk]; rename k into krs end.
  cbn [versions with_versions].
  assert (Ht : forall krs, Forall (fun kr : version_key * release => semver_key (version (snd kr)) = Ok (fst kr)) krs ->
    traverse keyed (map snd krs) = Ok krs).
  { clear. induction 1 as [|[k r] krs Hk _ IH]; [done|]. cbn [map traverse snd fst] in *.
    unfold keyed at 1. rewrite Hk. cbn [res_bind]. by rewrite IH. }
  rewrite Ht by by rewrite sort_by_perm. cbn [res_bind]. rewrite sort_by_idemp by apply _. done.
Qed.

Lemma by_id_preorder : TotalPreorder by_id.
Proof. unfold by_id. apply (total_preorder_on str_le id), le_of_preorder, _. Qed.

#[export] Existing Instance by_id_preorder.

(** ** An example registry *)

Definition zeros (n : nat) : string := String.string_of_list_ascii (repeat "0"%char n).

Definition example_release (v ch u : string) : release :=
  {| version := v; channel := ch; rel_artifact := {| url := u; sha256 := zeros 64 |};
     bundle_format_version := 1; source_commit := zeros 40; source_tag := None;
     requires := {| req_host := ">=1.0.0"; req_sdk := ">=1.0.0,<2.0.0"; req_modules := {["core" := ">=0.1.0"]} |} |}.

Definition github_url (v : string) : string :=
  "https://github.com/oklabflensburg/hello/releases/download/v" +:+ v +:+ "/hello.ocp".

Definition example_module (vs : list release) : module :=
  {| id := "hello"; name := "Hello"; description := None;
     mod_publisher := {| pub_id := "oklab"; pub_name := "OK Lab" |};
     classification := "first-party";
     source_repository := "https://github.com/oklabflensburg/hello"; license := "MIT";
     homepage := None; documentation_url := None; versions := vs |}.

Definition example_old : module :=
  example_module [example_release "1.0.0" "stable" (github_url "1.0.0");
                  example_release "1.1.0-rc.1" "beta" (github_url "1.1.0-rc.1")].

Definition example_new : module :=
  example_module [example_release "1.1.0" "stable" (github_url "1.1.0");
                  example_release "1.0.0" "stable" (canonical_url "hello" "1.0.0");
                  example_release "1.1.0-rc.1" "beta" (github_url "1.1.0-rc.1")].

Definition any_schema (schema_path : string) (value : json) : bool := true.

(** ** Properties *)

(** C36. Soundness of validation: a document [validate_module] accepts decodes
    to a module in which the identifier, the publisher, the license and the
    classification are well formed, the versions are distinct complete semantic
    versions, no stable release is a prerelease, every artifact URL satisfies
    the hosting policy, and no module requires itself. *)
Theorem validate_module_sound schema_valid l origin expected_id :
  validate_module schema_valid l origin expected_id = Ok tt ->
  exists m, module_of_json l = Some m /\ module_ok m /\ forall e, expected_id = Some e -> e = id m.
Proof. intros (m & ? & ? & ? & _)%module_decode. eauto. Qed.

Lemma validate_module_sound_witness :
  exists m, module_of_json (module_json example_new) = Some m /\ module_ok m /\
    forall e, Some "hello" = Some e -> e = id m.
Proof.
  apply (validate_module_sound any_schema (module_json example_new) "hello.json" (Some "hello")).
  vm_compute. reflexivity.
Defined.

(** Loading a registry gives modules that all satisfy the module invariant,
    with distinct identifiers in increasing order, each from the file named
    after it. *)
Theorem load_registry_sound schema_valid root envelope files ms :
  load_registry schema_valid root envelope files = Ok ms ->
  Forall (fun l => exists m file, module_of_json l = Some m /\ module_ok m /\ json_id l = id m /\
                     file ∈ files /\ stem (fst file) = id m) ms
  /\ NoDup (map json_id ms) /\ StronglySorted (fun x y => str_le (json_id x) (json_id y) = true) ms
  /\ length ms = length files.
Proof.
  unfold load_registry. intros H. py_inv.
  match goal with H : load_modules _ _ _ _ = Ok ?l |- _ =>
    apply load_modules_Ok in H as (Hall & Hnd & _); rename l into loaded end.
  split_and!.
  - apply Forall_forall. intros l Hl. rewrite sort_by_elem in Hl.
    destruct (Forall2_in_r _ _ _ _ Hall Hl) as (file & Hf & m & ? & ? & ? & ?).
    rewrite sort_by_elem in Hf. by exists m, file.
  - change (NoDup (json_id <$> sort_by (fun x y => str_le (json_id x) (json_id y)) loaded)).
    by rewrite sort_by_perm.
  - apply (sort_by_sorted (fun x y => str_le (json_id x) (json_id y))).
  - apply Forall2_length in Hall. rewrite sort_by_perm in Hall. by rewrite sort_by_perm.
Qed.

Lemma load_registry_sound_witness :
  exists ms, load_registry any_schema "r" (Some (canonical_json (JObj [("schema_version", JInt 1)])))
      [("hello.json", canonical_json (JObj (module_json example_old)))] = Ok ms /\
    NoDup (map json_id ms).
Proof.
  eexists. split; [vm_compute; reflexivity|].
  eapply (load_registry_sound any_schema "r" (Some (canonical_json (JObj [("schema_version", JInt 1)])))
      [("hello.json", canonical_json (JObj (module_json example_old)))]).
  vm_compute. reflexivity.
Defined.

(** C1. On modules with distinct identifiers and distinct versions,
    [validate_immutability] accepts exactly the changes that keep every
    published module with its publisher, classification, source repository and
    license, and every published release unchanged up to the move of a GitHub
    URL to the canonical URL of the same version. *)
Theorem validate_immutability_exact current base :
  NoDup (map id current) -> Forall (fun m => NoDup (map version (versions m))) current ->
  validate_immutability current base = Ok tt <-> preserves current base.
Proof.
  intros Hids Hvs. split; [apply validate_immutability_sound|].
  intros H. unfold validate_immutability. apply each_Ok, Forall_forall. intros b Hb.
  destruct (H b Hb) as (c & Hc & Hp & Hr).
  rewrite <- (same_id _ _ Hp), dict_get_NoDup by done.
  rewrite (proj2 (provenance_Ok c b (same_id _ _ Hp)) Hp). cbn [res_bind].
  apply each_Ok, Forall_forall. intros r Hrin. destruct (Hr r Hrin) as (r' & Hr' & Hf).
  eapply check_release_intro; [|done|].
  - rewrite Forall_forall in Hvs. by apply Hvs.
  - by rewrite (same_id _ _ Hp).
Qed.

Lemma validate_immutability_exact_witness : preserves [example_new] [example_old].
Proof.
  apply (validate_immutability_exact [example_new] [example_old]).
  - apply NoDup_singleton.
  - apply Forall_singleton, (bool_decide_unpack _). vm_compute. exact I.
  - vm_compute. reflexivity.
Defined.

(** One merged change of the registry. *)
Definition published_step (before after : list module) : Prop :=
  validate_immutability after before = Ok tt.

(** C35. Over any history of accepted changes, a published release stays
    available with its digest, source commit, source tag and requirements, its
    URL being the published one or the canonical one of its version; its module
    keeps publisher, classification, source and license. *)
Theorem published_history before after b r :
  rtc published_step before after -> b ∈ before -> r ∈ versions b ->
  exists c r', c ∈ after /\ same_provenance c b /\ r' ∈ versions c /\
    version r' = version r /\ channel r' = channel r /\
    sha256 (rel_artifact r') = sha256 (rel_artifact r) /\
    source_commit r' = source_commit r /\ source_tag r' = source_tag r /\ requires r' = requires r /\
    (url (rel_artifact r') = url (rel_artifact r) \/
     url (rel_artifact r') = canonical_url (id b) (version r)).
Proof.
  intros Hh Hb Hr.
  assert (Hp : preserves after before).
  { clear Hb Hr. induction Hh as [|x y z Hstep _ IH]; [reflexivity|].
    apply validate_immutability_sound in Hstep. by transitivity y. }
  destruct (Hp b Hb) as (c & Hc & Hprov & Hrel). destruct (Hrel r Hr) as (r' & Hr' & Hf).
  exists c, r'. destruct Hf as [->|[_ ->]]; split_and!; auto.
Qed.

Lemma published_history_witness :
  exists c r', c ∈ [example_new] /\ same_provenance c example_old /\ r' ∈ versions c /\
    version r' = "1.0.0" /\ url (rel_artifact r') = canonical_url "hello" "1.0.0".
Proof.
  destruct (published_history [example_old] [example_new] example_old
    (example_release "1.0.0" "stable" (github_url "1.0.0")))
    as (c & r' & Hc & Hp & Hr & Hv & _ & _ & _ & _ & _ & Hu).
  - apply rtc_once. vm_compute. reflexivity.
  - by apply list_elem_of_singleton.
  - constructor.
  - apply list_elem_of_singleton in Hc as ->.
    exists example_new, (example_release "1.0.0" "stable" (canonical_url "hello" "1.0.0")).
    split_and!; [by apply list_elem_of_singleton | done | by right; left | done | done].
Defined.

(** The canonical form of a module is a permutation of its releases by
    increasing precedence, is its own canonical form, and does not depend on the
    order in which the source lists the releases when no two of them differ
    only in build metadata. *)
Theorem canonical_module_normal m vs c :
  canonical_module m = Ok c ->
  canonical_module c = Ok c /\
  (exists ws, c = with_versions m ws /\ Permutation ws (versions m) /\ StronglySorted version_le ws) /\
  (Permutation (versions m) vs ->
   (forall r s, r ∈ versions m -> s ∈ versions m ->
      semver_key (version r) = semver_key (version s) -> r = s) ->
   canonical_module (with_versions m vs) = Ok c).
Proof.
  intros H. split; [by eapply canonical_module_idemp|]. split; [by apply canonical_module_Ok|].
  intros Hp Hinj. by apply canonical_module_perm.
Qed.

Lemma canonical_module_normal_witness :
  exists c, canonical_module example_new = Ok c /\ canonical_module c = Ok c /\
    map version (versions c) = ["1.0.0"; "1.1.0-rc.1"; "1.1.0"].
Proof.
  eexists. split; [vm_compute; reflexivity|]. split; [|vm_compute; reflexivity].
  eapply (canonical_module_normal example_new []). vm_compute. reflexivity.
Defined.

(** C30. The index lists every module once, by increasing identifier, and for
    each channel the release of greatest precedence with its digest: a channel
    has an entry exactly when the module has a release in it. *)
Theorem build_index_current schema_valid modules entries :
  build_index schema_valid modules = Ok entries ->
  map entry_id entries = map id (sort_by by_id modules) /\
  Forall2 entry_of (sort_by by_id modules) entries /\
  schema_valid "registry-v1.schema.json" (index_json entries) = true.
Proof.
  unfold build_index. intros H. py_inv.
  match goal with H : traverse _ _ = Ok _ |- _ => apply traverse_Ok in H; rename H into Ht end.
  assert (Hall : Forall2 entry_of (sort_by by_id modules) entries).
  { eapply Forall2_impl; [exact Ht|]. apply module_entry_Ok. }
  split_and!; [|done|].
  - clear -Hall. induction Hall as [|m e ms es He _ IH]; [done|]. simpl. by rewrite IH, (of_id _ _ He).
  - match goal with H : _validate_json_schema _ _ _ _ = Ok _ |- _ =>
      unfold _validate_json_schema in H; apply raise_if_Ok, negb_false_iff in H; exact H end.
Qed.

Lemma build_index_current_witness :
  exists e, build_index any_schema [example_new] = Ok [e] /\ entry_of example_new e /\
    entry_channels e = [("stable", {| ch_version := "1.1.0"; ch_sha256 := zeros 64 |});
                        ("beta", {| ch_version := "1.1.0-rc.1"; ch_sha256 := zeros 64 |})].
Proof.
  eexists. split; [vm_compute; reflexivity|]. split; [|vm_compute; reflexivity].
  assert (H := build_index_current any_schema [example_new] _ eq_refl).
  destruct H as (_ & H & _). by inversion H.
Defined.
