(* ===== verification/Catalogue.v ===== *)
(** * The file-based catalogue: web/backend/app/repository.py and main.py

    A snapshot of the validated registry and its read-only projections: filters,
    search ranks, the four sort orders, pages, versions and publishers, and the
    endpoints over them.  The contracts of models.py are records; the
    normalisation of pydantic's [HttpUrl] is left out.  [packaging]'s
    [Version(v) in SpecifierSet(s)] is a parameter that is [None] when one of the
    two is invalid. *)

From S2P Require Import Prelude PyText SemVer Json Url Validate Registry.

Open Scope string_scope.
Open Scope list_scope.

(** ** models.py *)

(** [PackageRelease], [Publisher] and [Compatibility] are [release],
    [publisher] and [requirements]. *)
Record PackageSummary := {
  ps_id : string; ps_name : string; ps_description : option string; ps_publisher : publisher;
  ps_classification : string; latest_version : string; latest_channel : string;
  compatibility : requirements; channels : list string
}.

Record PackageDetail := {
  pd_summary : PackageSummary; pd_source_repository : string; pd_license : string;
  pd_homepage : option string; pd_documentation_url : option string; pd_versions : list release
}.

(** [PackagePage]; [SearchResult] adds the query. *)
Record PackagePage := { items : list PackageSummary; total : nat; limit : nat; offset : nat }.

Record PublisherSummary := {
  pu_id : string; pu_name : string; classifications : list string; package_count : nat; release_count : nat
}.

Record PublisherDetail := { pu_summary : PublisherSummary; packages_ : list PackageSummary }.

(** ** repository.py *)

Record PackageQuery := {
  q : string; q_publisher : option string; q_classification : option string; q_channel : option string;
  host : option string; sdk : option string; sort : string
}.

(** The truth value of an optional text. *)
Definition given (o : option string) : option string :=
  match o with Some "" => None | o => o end.

(** [sorted({...})] *)
Definition sorted_set (l : list string) : list string := sort_by str_le (remove_dups l).

(** The snapshot of a repository; a module that loads is typed. *)
Definition RegistryRepository (schema_valid : string -> json -> bool) (root : string) (envelope : option string)
    (files : list (string * string)) : res exn (list module) :=
  let? values := load_registry schema_valid root envelope files in
  of_option TypeError (mapM module_of_json values).

Section Catalogue.
Context (in_specifier : string -> string -> option bool).

(** [sorted(..., key=semver_key, reverse=True)] *)
Definition by_key_desc {A} (x y : version_key * A) : bool := by_key y x.

Definition _sorted_releases (m : module) : res exn (list release) :=
  let? keys := traverse keyed (versions m) in
  Ok (map snd (sort_by by_key_desc keys)).

Definition _latest_release (m : module) : res exn release :=
  let? rs := _sorted_releases m in of_option IndexError (head rs).

Definition _summary (m : module) : res exn PackageSummary :=
  let? latest := _latest_release m in
  Ok {| ps_id := id m; ps_name := name m; ps_description := description m; ps_publisher := mod_publisher m;
        ps_classification := classification m; latest_version := version latest;
        latest_channel := channel latest; compatibility := requires latest;
        channels := sorted_set (map channel (versions m)) |}.

Definition _detail (m : module) : res exn PackageDetail :=
  let? summary := _summary m in
  let? rs := _sorted_releases m in
  Ok {| pd_summary := summary; pd_source_repository := source_repository m; pd_license := license m;
        pd_homepage := homepage m; pd_documentation_url := documentation_url m; pd_versions := rs |}.

Definition _compatible (requirement : string) (requested : option string) : bool :=
  match requested with None => true | Some v => default false (in_specifier requirement v) end.

Definition _matches_filters (m : module) (query : PackageQuery) : bool :=
  match given (q_publisher query) with
  | Some p => String.eqb (pub_id (mod_publisher m)) p
  | None => true
  end
  && match given (q_classification query) with Some c => String.eqb (classification m) c | None => true end
  && match given (q_channel query) with
     | Some c => existsb (fun r => String.eqb (channel r) c) (versions m)
     | None => true
     end
  && existsb (fun r => _compatible (req_host (requires r)) (host query) && _compatible (req_sdk (requires r)) (sdk query))
       (versions m).

(** The bucket and the identifier; [None] when the module is not found. *)
Definition _search_rank (m : module) (raw_query : string) : option (nat * string) :=
  let query := casefold (strip raw_query) in
  if negb (nonempty query) then Some (0%nat, id m)
  else
    let module_id := casefold (id m) in
    let name := casefold (name m) in
    let bucket :=
      if String.eqb query module_id then Some 0%nat
      else if String.eqb query name then Some 1%nat
      else if startswith query module_id then Some 2%nat
      else if startswith query name then Some 3%nat
      else if substring_in query module_id || substring_in query name then Some 4%nat
      else if substring_in query (casefold (default "" (description m))) then Some 5%nat
      else if substring_in query (casefold (pub_id (mod_publisher m)))
              || substring_in query (casefold (pub_name (mod_publisher m))) then Some 6%nat
      else if existsb (fun value => substring_in query (casefold value))
                (classification m :: map channel (versions m) ++ map version (versions m)) then Some 7%nat
      else None in
    option_map (fun b => (b, module_id)) bucket.

(** The modules that pass the filters and are found, with their ranks. *)
Definition ranked (modules : list module) (query : PackageQuery) : list ((nat * string) * module) :=
  omap (fun m => if _matches_filters m query then option_map (fun rank => (rank, m)) (_search_rank m (q query)) else None)
    modules.

(** The sort keys. *)
Definition by_name (x y : (nat * string) * module) : bool :=
  le_of (pair_compare str_compare str_compare) (casefold (name (snd x)), id (snd x)) (casefold (name (snd y)), id (snd y)).

Definition by_ranked_id (x y : (nat * string) * module) : bool := str_le (id (snd x)) (id (snd y)).

Definition rank_compare : (nat * string) * string -> (nat * string) * string -> comparison :=
  pair_compare (pair_compare Nat.compare str_compare) str_compare.

Definition by_relevance (x y : (nat * string) * module) : bool :=
  le_of rank_compare (fst x, id (snd x)) (fst y, id (snd y)).

(** With the key of the latest release. *)
Definition latest_keyed (x : (nat * string) * module) : res exn (version_key * ((nat * string) * module)) :=
  let? latest := _latest_release (snd x) in
  let? k := semver_key (version latest) in Ok (k, x).

Definition sort_ranked (order : string) (l : list ((nat * string) * module)) : res exn (list ((nat * string) * module)) :=
  if String.eqb order "name" then Ok (sort_by by_name l)
  else if String.eqb order "id" then Ok (sort_by by_ranked_id l)
  else if String.eqb order "version" then
    let? keys := traverse latest_keyed l in Ok (map snd (sort_by by_key_desc keys))
  else Ok (sort_by by_relevance l).

Definition list_packages (modules : list module) (query : PackageQuery) : res exn (list PackageSummary) :=
  let? sorted := sort_ranked (sort query) (ranked modules query) in
  traverse (fun x => _summary (snd x)) sorted.

(** [self._by_id.get(module_id)] *)
Definition by_identifier (modules : list module) (module_id : string) : option module := dict_get id module_id modules.

(** The option says whether the package exists. *)
Definition package (modules : list module) (module_id : string) : option (res exn PackageDetail) :=
  option_map _detail (by_identifier modules module_id).

Definition versions_of (modules : list module) (module_id : string) : option (res exn (list release)) :=
  option_map _sorted_releases (by_identifier modules module_id).

Definition version_of (modules : list module) (module_id v : string) : option release :=
  m ← by_identifier modules module_id; List.find (fun r => String.eqb (version r) v) (versions m).

(** [modules] is not empty. *)
Definition _publisher_summary (p : publisher) (modules : list module) : PublisherSummary :=
  {| pu_id := pub_id p; pu_name := pub_name p;
     classifications := sorted_set (map classification modules); package_count := length modules;
     release_count := sum_list (map (fun m => length (versions m)) modules) |}.

(** The group of a publisher, in the order of the modules. *)
Definition published_by (modules : list module) (publisher_id : string) : list module :=
  List.filter (fun m => String.eqb (pub_id (mod_publisher m)) publisher_id) modules.

(** [sorted(grouped)] *)
Definition publisher_ids (modules : list module) : list string :=
  sorted_set (map (fun m => pub_id (mod_publisher m)) modules).

Definition publishers (modules : list module) : list PublisherSummary :=
  omap (fun key => match published_by modules key with
                   | [] => None
                   | (m :: _) as group => Some (_publisher_summary (mod_publisher m) group)
                   end) (publisher_ids modules).

Definition publisher_of (modules : list module) (publisher_id : string) : option (res exn PublisherDetail) :=
  match published_by modules publisher_id with
  | [] => None
  | (m :: _) as group =>
      Some (let? summaries := traverse _summary group in
            Ok {| pu_summary := _publisher_summary (mod_publisher m) group; packages_ := summaries |})
  end.

(** ** main.py *)

Inductive http_exn := NotFound (detail : string) | Raised (e : exn).

(** [items[offset : offset + limit], len(items)] *)
Definition page {A} (l : list A) (limit offset : nat) : list A * nat := (take limit (drop offset l), length l).

Definition raised {A} (r : res exn A) : res http_exn A := match r with Ok a => Ok a | Err e => Err (Raised e) end.

Definition found {A} (detail : string) (o : option (res exn A)) : res http_exn A :=
  match o with Some r => raised r | None => Err (NotFound detail) end.

Definition packages (modules : list module) (query : PackageQuery) (limit offset : nat) : res http_exn PackagePage :=
  let? matches := raised (list_packages modules query) in
  let '(items, total) := page matches limit offset in
  Ok {| items := items; total := total; limit := limit; offset := offset |}.

(** [PackageQuery(q=q)] *)
Definition query_of (text : string) : PackageQuery :=
  {| q := text; q_publisher := None; q_classification := None; q_channel := None; host := None; sdk := None;
     sort := "relevance" |}.

Definition search (modules : list module) (text : string) (limit offset : nat) : res http_exn PackagePage :=
  packages modules (query_of text) limit offset.

Definition package_endpoint (modules : list module) (module_id : string) : res http_exn PackageDetail :=
  found "Package not found" (package modules module_id).

Definition versions_endpoint (modules : list module) (module_id : string) : res http_exn (list release) :=
  found "Package not found" (versions_of modules module_id).

Definition version_endpoint (modules : list module) (module_id v : string) : res http_exn release :=
  package_endpoint modules module_id ;?
  of_option (NotFound "Version not found") (version_of modules module_id v).

Definition publisher_endpoint (modules : list module) (publisher_id : string) : res http_exn PublisherDetail :=
  found "Publisher not found" (publisher_of modules publisher_id).

Definition health (modules : list module) : nat := length modules.

End Catalogue.

(** ** Order and totality *)

#[export] Instance by_key_desc_preorder {A} : TotalPreorder (@by_key_desc A).
Proof. unfold by_key_desc. apply total_preorder_flip. unfold by_key. apply (total_preorder_on key_le fst), _. Qed.

Lemma sorted_releases_Ok m :
  module_ok m -> exists rs, _sorted_releases m = Ok rs /\ Permutation rs (versions m) /\
    StronglySorted (fun r s => version_le s r) rs.
Proof.
  intros Hm. destruct (traverse_keyed_total _ (module_semver _ Hm)) as [krs Hk].
  unfold _sorted_releases. rewrite Hk. simpl. eexists. split; [done|].
  apply traverse_keyed in Hk as [Hs Hk]. split.
  - rewrite <- Hs. change (snd <$> sort_by by_key_desc krs ≡ₚ snd <$> krs). by rewrite sort_by_perm.
  - apply (strongly_sorted_map (fun x y => by_key_desc x y = true)); [|apply sort_by_sorted, _].
    intros x y Hx Hy Hle. rewrite sort_by_elem in Hx, Hy. rewrite Forall_forall in Hk.
    exists (fst y), (fst x). split_and!; [by apply Hk | by apply Hk | done].
Qed.

Lemma latest_release_Ok m :
  module_ok m -> exists r, _latest_release m = Ok r /\ r ∈ versions m /\ forall r', r' ∈ versions m -> version_le r' r.
Proof.
  intros Hm. destruct (sorted_releases_Ok m Hm) as (rs & Hrs & Hp & Hs). unfold _latest_release. rewrite Hrs. simpl.
  destruct rs as [|r rs]; [by apply Permutation_nil in Hp; destruct (ok_some _ Hm)|]. exists r. split; [done|].
  assert (Hr : r ∈ versions m) by (rewrite <- Hp; by constructor). split; [done|].
  intros r' Hr'. rewrite <- Hp in Hr'. inversion Hs as [|? ? _ Hall]; subst.
  apply elem_of_cons in Hr' as [->|Hr']; [|rewrite Forall_forall in Hall; by apply Hall].
  apply (module_semver m) in Hm. rewrite Forall_forall in Hm. destruct (semver_key_total _ (Hm _ Hr)) as [k Hk].
  exists k, k. split_and!; try done. apply le_refl', _.
Qed.

Lemma summary_Ok m :
  module_ok m -> exists s, _summary m = Ok s /\ ps_id s = id m /\
    exists r, r ∈ versions m /\ version r = latest_version s /\ channel r = latest_channel s /\
      forall r', r' ∈ versions m -> version_le r' r.
Proof.
  intros Hm. destruct (latest_release_Ok m Hm) as (r & Hr & Hin & Hmax). unfold _summary. rewrite Hr.
  eexists. split; [reflexivity|]. split; [done|]. by exists r.
Qed.

Section Listing.
Context (in_specifier : string -> string -> option bool).
Abbreviation ranked := (ranked in_specifier).
Abbreviation packages := (packages in_specifier).

(** What the sort parameter asks for. *)
Definition listed_before (order : string) (x y : (nat * string) * module) : Prop :=
  if String.eqb order "name" then by_name x y = true
  else if String.eqb order "id" then by_ranked_id x y = true
  else if String.eqb order "version" then
    exists r s, _latest_release (snd x) = Ok r /\ _latest_release (snd y) = Ok s /\ version_le s r
  else by_relevance x y = true.

Lemma latest_keyed_Ok x : module_ok (snd x) ->
  exists k r, latest_keyed x = Ok (k, x) /\ _latest_release (snd x) = Ok r /\ semver_key (version r) = Ok k.
Proof.
  intros Hm. destruct (latest_release_Ok _ Hm) as (r & Hr & Hin & _). apply module_semver in Hm.
  rewrite Forall_forall in Hm. destruct (semver_key_total _ (Hm _ Hin)) as [k Hk]. exists k, r.
  unfold latest_keyed. by rewrite Hr, <- Hk; simpl; rewrite Hk.
Qed.

Lemma sort_ranked_Ok order l :
  Forall (fun x => module_ok (snd x)) l ->
  exists l', sort_ranked order l = Ok l' /\ Permutation l' l /\ StronglySorted (listed_before order) l'.
Proof.
  intros Hl. unfold sort_ranked, listed_before. destruct (String.eqb order "name").
  { eexists. split; [done|]. split; [apply sort_by_perm|]. apply sort_by_sorted.
    apply (total_preorder_on (le_of (pair_compare str_compare str_compare)) (fun x => (casefold (name (snd x)), id (snd x)))), _. }
  destruct (String.eqb order "id").
  { eexists. split; [done|]. split; [apply sort_by_perm|]. apply sort_by_sorted.
    apply (total_preorder_on (le_of str_compare) (fun x => id (snd x))), _. }
  destruct (String.eqb order "version").
  - destruct (traverse_total latest_keyed l) as [ks Hks].
    { eapply Forall_impl; [exact Hl|]. intros x (k & r & H & _)%latest_keyed_Ok. by exists (k, x). }
    rewrite Hks. simpl. apply traverse_Ok in Hks.
    assert (Hsnd : map snd ks = l /\ Forall (fun kx => exists r, _latest_release (snd (snd kx)) = Ok r /\ semver_key (version r) = Ok (fst kx)) ks).
    { clear order. induction Hks as [|x kx l ks Hx _ IH]; [by split; constructor|]. apply Forall_cons in Hl as [Hm Hl].
      destruct (latest_keyed_Ok x Hm) as (k & r & H & Hr & Hk). rewrite H in Hx. injection Hx as <-.
      destruct (IH Hl) as [IHs IHf]. split; [simpl; by rewrite IHs|]. constructor; [by exists r | done]. }
    destruct Hsnd as [Hsnd Hf]. eexists. split; [done|]. split.
    + rewrite <- Hsnd. change (snd <$> sort_by by_key_desc ks ≡ₚ snd <$> ks). by rewrite sort_by_perm.
    + apply (strongly_sorted_map (fun x y => by_key_desc x y = true)); [|apply sort_by_sorted, _].
      intros x y Hx Hy Hle. rewrite sort_by_elem in Hx, Hy. rewrite Forall_forall in Hf.
      destruct (Hf x Hx) as (r & Hr & Hkr), (Hf y Hy) as (s & Hs & Hks'). exists r, s. split_and!; try done.
      exists (fst y), (fst x). by split_and!.
  - eexists. split; [done|]. split; [apply sort_by_perm|]. apply sort_by_sorted.
    apply (total_preorder_on (le_of rank_compare) (fun x => (fst x, id (snd x)))), _.
Qed.

Lemma ranked_module x modules query : x ∈ ranked modules query -> snd x ∈ modules.
Proof.
  unfold Catalogue.ranked. intros (m & Hm & H)%list_elem_of_omap. destruct (_matches_filters _ _ _); [|done].
  destruct (_search_rank m (q query)); [|done]. by injection H as <-.
Qed.

(** The modules a query finds, in the order it asks for. *)
Lemma list_packages_Ok modules query :
  Forall module_ok modules ->
  exists found summaries, list_packages in_specifier modules query = Ok summaries /\
    Permutation found (ranked modules query) /\ StronglySorted (listed_before (sort query)) found /\
    Forall2 (fun x s => _summary (snd x) = Ok s) found summaries.
Proof.
  intros Hm. assert (Hr : Forall (fun x => module_ok (snd x)) (ranked modules query)).
  { apply Forall_forall. intros x Hx%ranked_module. rewrite Forall_forall in Hm. by apply Hm. }
  destruct (sort_ranked_Ok (sort query) _ Hr) as (found & Hs & Hp & Hord).
  destruct (traverse_total (fun x => _summary (snd x)) found) as [summaries Hsum].
  { rewrite <- Hp in Hr. eapply Forall_impl; [exact Hr|]. intros x (s & Hs' & _)%summary_Ok. by exists s. }
  exists found, summaries. unfold list_packages. rewrite Hs. simpl. split_and!; try done. by apply traverse_Ok.
Qed.

(** Consecutive pages are the list. *)
Lemma pages_cover {A} (l : list A) limit n :
  length l <= n * limit -> concat (map (fun k => fst (page l limit (k * limit))) (List.seq 0 n)) = l.
Proof.
  unfold page. simpl. revert l. induction n as [|n IH]; intros l Hl; simpl in *.
  - destruct l; simpl in *; [done | lia].
  - rewrite drop_0. transitivity (take limit l ++ drop limit l); [|apply take_drop]. f_equal.
    transitivity (concat (map (fun k => take limit (drop (k * limit) (drop limit l))) (List.seq 0 n))).
    + rewrite <- List.seq_shift, map_map. f_equal. apply map_ext. intros k. by rewrite drop_drop.
    + apply IH. rewrite length_drop. lia.
Qed.

End Listing.

(** *** The snapshot *)

Lemma repository_Ok schema_valid root envelope files modules :
  RegistryRepository schema_valid root envelope files = Ok modules ->
  Forall module_ok modules /\ NoDup (map id modules).
Proof.
  unfold RegistryRepository, load_registry. intros H. py_inv.
  match goal with H : load_modules _ _ _ _ = Ok ?l |- _ =>
    apply load_modules_Ok in H as (Hall & Hnd & _); rename l into loaded end.
  match goal with H : mapM _ _ = Some _ |- _ => apply mapM_Some in H; rename H into Hm end.
  set (values := sort_by _ loaded) in *.
  assert (Hok : Forall (fun l => exists m, module_of_json l = Some m /\ module_ok m /\ json_id l = id m) values).
  { apply Forall_forall. intros l Hl. unfold values in Hl. rewrite sort_by_elem in Hl.
    destruct (Forall2_in_r _ _ _ _ Hall Hl) as (file & _ & m & ? & ? & ? & _). by exists m. }
  assert (Hids : map id modules = map json_id values).
  { clear -Hm Hok. induction Hm as [|l m values modules Hl _ IH]; [done|]. apply Forall_cons in Hok as [(m' & Hl' & _ & Hi) Hok].
    simpl. rewrite Hl in Hl'. injection Hl' as <-. by rewrite Hi, IH. }
  split.
  - apply Forall_forall. intros m Hin. destruct (Forall2_in_r _ _ _ _ Hm Hin) as (l & Hl & Hlm).
    rewrite Forall_forall in Hok. destruct (Hok l Hl) as (m' & Hlm' & ? & _). congruence.
  - rewrite Hids. unfold values.
    change (NoDup (json_id <$> sort_by (fun x y => str_le (json_id x) (json_id y)) loaded)). by rewrite sort_by_perm.
Qed.

(** *** Groups *)

Lemma sorted_set_elem x l : x ∈ sorted_set l <-> x ∈ l.
Proof. unfold sorted_set. by rewrite sort_by_elem, elem_of_remove_dups. Qed.

Lemma sorted_set_NoDup l : NoDup (sorted_set l).
Proof. unfold sorted_set. rewrite sort_by_perm. apply NoDup_remove_dups. Qed.

(** Summing over the groups of distinct keys sums over the list. *)
Lemma sum_groups {A} (key : A -> string) (weight : A -> nat) ids l :
  NoDup ids -> (forall x, x ∈ l -> key x ∈ ids) ->
  sum_list (map (fun k => sum_list (map weight (List.filter (fun x => String.eqb (key x) k) l))) ids)
  = sum_list (map weight l).
Proof.
  intros Hnd. induction l as [|x l IH]; intros Hin; simpl.
  - clear. induction ids; simpl; lia.
  - rewrite <- IH by (intros y Hy; apply Hin; by constructor).
    assert (Hx : key x ∈ ids) by (apply Hin; by constructor). clear IH Hin.
    induction Hnd as [|k ids Hk Hnd IH]; [by apply elem_of_nil in Hx|]. simpl.
    destruct (String.eqb_spec (key x) k) as [<-|Hne]; simpl.
    + assert (Hrest : forall w, map (fun k => sum_list (map weight (if String.eqb (key x) k then x :: w k else w k))) ids
                       = map (fun k => sum_list (map weight (w k))) ids).
      { intros w. apply map_ext_in. intros k Hk'. rewrite <- list_elem_of_In in Hk'.
        destruct (String.eqb_spec (key x) k) as [<-|]; done. }
      rewrite (Hrest (fun k => List.filter (fun x => String.eqb (key x) k) l)). lia.
    + apply elem_of_cons in Hx as [Hx|Hx]; [by destruct Hne|]. specialize (IH Hx). lia.
Qed.

(** ** Properties *)

(** The listing of the catalogue never raises. It finds exactly the modules
    that pass the filters and the search, in the order the query asks for (rank
    and identifier, name, identifier, or descending precedence of the latest
    release), each with its release of greatest precedence; an endpoint returns
    the requested window and the full count, and consecutive windows are the
    listing. *)
Theorem catalogue_listing schema_valid root envelope files modules in_specifier query :
  RegistryRepository schema_valid root envelope files = Ok modules ->
  exists found summaries,
    list_packages in_specifier modules query = Ok summaries /\
    Permutation found (ranked in_specifier modules query) /\ StronglySorted (listed_before (sort query)) found /\
    Forall2 (fun x s => ps_id s = id (snd x) /\ exists r, r ∈ versions (snd x) /\ version r = latest_version s /\
       forall r', r' ∈ versions (snd x) -> version_le r' r) found summaries /\
    (forall limit offset, packages in_specifier modules query limit offset
       = Ok {| items := take limit (drop offset summaries); total := length (ranked in_specifier modules query);
               limit := limit; offset := offset |}) /\
    forall limit n, length summaries <= n * limit ->
      concat (map (fun k => fst (page summaries limit (k * limit))) (List.seq 0 n)) = summaries.
Proof.
  intros [Hm _]%repository_Ok. destruct (list_packages_Ok in_specifier modules query Hm) as (found & summaries & Hl & Hp & Hs & Hf).
  exists found, summaries. split_and!; try done.
  - assert (Hok : Forall (fun x => module_ok (snd x)) found).
    { rewrite Hp. apply Forall_forall. intros x Hx%ranked_module. rewrite Forall_forall in Hm. by apply Hm. }
    clear -Hf Hok. induction Hf as [|x s found summaries Hx _ IH]; [constructor|]. apply Forall_cons in Hok as [Hmx Hok].
    constructor; [|by apply IH]. destruct (summary_Ok _ Hmx) as (s' & Hs' & Hi & r & Hr & Hv & _ & Hmax).
    rewrite Hx in Hs'. injection Hs' as <-. split; [done|]. by exists r.
  - intros lim off. unfold packages. rewrite Hl. simpl. do 2 f_equal.
    by rewrite <- (Forall2_length _ _ _ Hf), Hp.
  - intros lim n. apply pages_cover.
Qed.

(** The publishers partition the catalogue: each publisher of a module is
    listed once, in order, and the package and release counts add up to those of
    the whole registry. *)
Theorem publishers_partition modules :
  map pu_id (publishers modules) = publisher_ids modules /\ NoDup (map pu_id (publishers modules)) /\
  StronglySorted (fun x y => str_le x y = true) (map pu_id (publishers modules)) /\
  (forall p, p ∈ map pu_id (publishers modules) <-> exists m, m ∈ modules /\ pub_id (mod_publisher m) = p) /\
  sum_list (map package_count (publishers modules)) = length modules /\
  sum_list (map release_count (publishers modules)) = sum_list (map (fun m => length (versions m)) modules).
Proof.
  set (ids := publisher_ids modules).
  assert (Hin : forall k, k ∈ ids <-> exists m, m ∈ modules /\ pub_id (mod_publisher m) = k).
  { intros k. unfold ids, publisher_ids. rewrite sorted_set_elem. rewrite list_elem_of_fmap.
    split; [intros (m & -> & ?) | intros (m & ? & <-)]; by exists m. }
  assert (Hall : forall l, (forall k, k ∈ l -> k ∈ ids) ->
     let ps := omap (fun key => match published_by modules key with
                   | [] => None
                   | (m :: _) as group => Some (_publisher_summary (mod_publisher m) group)
                   end) l in
     map pu_id ps = l /\
     map package_count ps = map (fun k => sum_list (map (fun _ => 1) (published_by modules k))) l /\
     map release_count ps = map (fun k => sum_list (map (fun m => length (versions m)) (published_by modules k))) l).
  { induction l as [|k l IH]; intros Hl; [done|]. cbv zeta. csimpl.
    destruct (published_by modules k) as [|m group] eqn:Hg.
    - exfalso. destruct (proj1 (Hin k)) as (m & Hm & Hk); [apply Hl; by constructor|].
      assert (Hmg : In m (published_by modules k)).
      { apply filter_In. split; [by apply list_elem_of_In|]. by apply String.eqb_eq. }
      rewrite Hg in Hmg. destruct Hmg.
    - destruct IH as (H1 & H2 & H3); [intros k' Hk'; apply Hl; by constructor|]. csimpl. rewrite H1, H2, H3. split_and!.
      + f_equal. assert (Hmg : In m (published_by modules k)) by (rewrite Hg; by left).
        apply filter_In in Hmg as [_ Hmg]. by apply String.eqb_eq.
      + f_equal. f_equal. clear. induction group; simpl; lia.
      + done. }
  destruct (Hall ids) as (H1 & H2 & H3); [done|]. unfold publishers. fold ids.
  split_and!.
  - exact H1.
  - rewrite H1. apply sorted_set_NoDup.
  - rewrite H1. apply (sort_by_sorted str_le).
  - intros p. rewrite H1. apply Hin.
  - rewrite H2. unfold published_by. rewrite (sum_groups (fun m => pub_id (mod_publisher m))); [|apply sorted_set_NoDup|].
    + clear. induction modules; simpl; lia.
    + intros m Hm. apply Hin. by exists m.
  - rewrite H3. unfold published_by. rewrite (sum_groups (fun m => pub_id (mod_publisher m))); [done|apply sorted_set_NoDup|].
    intros m Hm. apply Hin. by exists m.
Qed.

(** Nothing is compatible but what is not asked for. *)
Definition no_specifier (requirement v : string) : option bool := None.

Lemma catalogue_listing_witness :
  exists modules found summaries,
    RegistryRepository any_schema "r" (Some (canonical_json (JObj [("schema_version", JInt 1)])))
      [("hello.json", canonical_json (JObj (module_json example_new)))] = Ok modules /\
    list_packages no_specifier modules (query_of "hel") = Ok summaries /\ map latest_version summaries = ["1.1.0"] /\
    Permutation found (ranked no_specifier modules (query_of "hel")).
Proof.
  eexists. assert (H : RegistryRepository any_schema "r" (Some (canonical_json (JObj [("schema_version", JInt 1)])))
      [("hello.json", canonical_json (JObj (module_json example_new)))] = Ok [example_new]) by (vm_compute; reflexivity).
  destruct (catalogue_listing any_schema "r" (Some (canonical_json (JObj [("schema_version", JInt 1)])))
      [("hello.json", canonical_json (JObj (module_json example_new)))] [example_new] no_specifier (query_of "hel") H)
    as (found & summaries & Hl & Hp & _).
  exists found, summaries. split; [exact H|]. split; [exact Hl|]. split; [|exact Hp].
  vm_compute in Hl. injection Hl as <-. reflexivity.
Defined.
