(* ===== verification/ArtifactStore.v ===== *)
(** * The artifact store of scripts/artifact_store.py

    A POSIX file system as a table of inodes, the system calls the store makes
    on directory descriptors (an inode number), and every method of
    [FilesystemArtifactStore].  Each system call first lets the environment act:
    [env] is what other processes do to the file system before the call, and
    whether the call fails with an [OSError].  The bytes of the private staging
    file are there from its creation on, as its random name is known to nobody
    else; creating it, writing it, setting its mode and reading it back may each
    fail.  The hash is a parameter; a symbolic link is represented by the path it
    resolves to; [fsync] has no effect that the model can see. *)

From S2P Require Import Prelude PyText SemVer Json Url Validate.

Open Scope string_scope.
Open Scope list_scope.

(** ** Paths *)

Record path_ := { is_absolute : bool; parts : list string }.

Definition path_name (p : list string) : string := List.last p "".
Definition path_parent (p : list string) : list string := removelast p.

(** [str(path)] *)
Definition path_str (p : path_) : string :=
  (if is_absolute p then "/" else "") +:+ join_on "/" (parts p).

(** ** The file system *)

Record dir_meta := { st_dev : N; st_uid : N; st_mode : N }.

Inductive node :=
| Dir (meta : dir_meta) (entries : gmap string N)
| File (content : string) (mode : N)
| Link (target : list string).

Abbreviation inodes := (gmap N node).

Record sys := { files : inodes; tick : nat }.

Inductive os_exn :=
| FileNotFoundError | FileExistsError | OSError
| InvalidArtifact (msg : string)
| ArtifactConflict (msg : string)
| ArtifactNotFound (msg : string)
| ArtifactStoreError (msg : string).

(** The built-in errors are subclasses of [OSError]. *)
Definition is_oserror (e : os_exn) : bool :=
  match e with FileNotFoundError | FileExistsError | OSError => true | _ => false end.

(** *** Effects: the file system survives an exception *)

Definition M (A : Type) : Type := sys -> res os_exn A * sys.

Definition ret {A} (a : A) : M A := fun s => (Ok a, s).
Definition raise {A} (e : os_exn) : M A := fun s => (Err e, s).
Definition bind {A B} (m : M A) (k : A -> M B) : M B := fun s =>
  match m s with (Ok a, s) => k a s | (Err e, s) => (Err e, s) end.

(** [try: m except ...: h] for a handler that returns [None] to let pass. *)
Definition catch {A} (m : M A) (h : os_exn -> option (M A)) : M A := fun s =>
  match m s with
  | (Ok a, s) => (Ok a, s)
  | (Err e, s) => match h e with Some k => k s | None => (Err e, s) end
  end.

(** [try: m finally: f] *)
Definition finally {A} (m : M A) (f : M unit) : M A := fun s =>
  let '(r, s) := m s in
  match f s with (Ok _, s) => (r, s) | (Err e, s) => (Err e, s) end.

Notation "'do' x '<-' m ';' k" := (bind m (fun x => k))
  (at level 10, x pattern, m at level 100, k at level 200) : py_scope.
Notation "m '>>' k" := (bind m (fun _ => k))
  (at level 100, k at level 200, right associativity) : py_scope.

Definition when (c : bool) (m : M unit) : M unit := if c then m else ret tt.

(** [except OSError: raise e] *)
Definition on_oserror {A} (e : os_exn) (x : os_exn) : option (M A) :=
  if is_oserror x then Some (raise e) else None.

Section Store.
Context (sha256 : string -> string) (euid : N) (env : nat -> inodes -> inodes * bool).

(** *** System calls *)

(** The moment before a system call. *)
Definition syscall : M unit := fun s =>
  let '(fs, failed) := env (tick s) (files s) in
  ((if failed then Err OSError else Ok tt), {| files := fs; tick := S (tick s) |}).

Definition get_node (i : N) : M node := fun s =>
  match files s !! i with Some n => (Ok n, s) | None => (Err OSError, s) end.

Definition set_files (f : inodes -> inodes) : M unit := fun s =>
  (Ok tt, {| files := f (files s); tick := tick s |}).

Definition entries_of (n : node) : gmap string N :=
  match n with Dir _ es => es | _ => ∅ end.

(** The inode a name has in a directory. *)
Definition entry (fs : inodes) (d : N) (name : string) : option N :=
  match fs !! d with Some (Dir _ es) => es !! name | _ => None end.

Definition lookupat (d : N) (name : string) : M N :=
  do n <- get_node d;
  match n with
  | Dir _ es => match es !! name with Some i => ret i | None => raise FileNotFoundError end
  | _ => raise OSError
  end.

(** A new directory entry for a new inode; the name must be free. *)
Definition createat (d : N) (name : string) (n : N -> node) : M N := fun s =>
  match files s !! d with
  | Some (Dir meta es) =>
      match es !! name with
      | Some _ => (Err FileExistsError, s)
      | None =>
          let i := fresh (dom (files s)) in
          (Ok i, {| files := <[i := n (st_dev meta)]> (<[d := Dir meta (<[name := i]> es)]> (files s));
                    tick := tick s |})
      end
  | _ => (Err OSError, s)
  end.

Definition mkdirat (mode : N) (d : N) (name : string) : M unit :=
  syscall >>
  createat d name (fun dev => Dir {| st_dev := dev; st_uid := euid; st_mode := mode |} ∅) >> ret tt.

(** [os.open(..., O_DIRECTORY | O_NOFOLLOW)] *)
Definition opendirat (d : N) (name : string) : M N :=
  syscall >>
  do i <- lookupat d name;
  do n <- get_node i;
  match n with Dir _ _ => ret i | _ => raise OSError end.

Definition fstat (d : N) : M dir_meta :=
  syscall >>
  do n <- get_node d;
  match n with Dir meta _ => ret meta | _ => raise OSError end.

Definition fchmod (i : N) (mode : N) : M unit :=
  syscall >> set_files (alter (fun n =>
    match n with
    | Dir m es => Dir {| st_dev := st_dev m; st_uid := st_uid m; st_mode := mode |} es
    | File c _ => File c mode
    | Link t => Link t
    end) i).

Definition fsync : M unit := syscall.

(** [os.link(..., follow_symlinks=False)] *)
Definition linkat (src_dir : N) (src : string) (dst_dir : N) (dst : string) : M unit :=
  syscall >>
  do i <- lookupat src_dir src;
  fun s =>
    match files s !! dst_dir with
    | Some (Dir meta es) =>
        match es !! dst with
        | Some _ => (Err FileExistsError, s)
        | None => (Ok tt, {| files := <[dst_dir := Dir meta (<[dst := i]> es)]> (files s); tick := tick s |})
        end
    | _ => (Err OSError, s)
    end.

Definition unlinkat (d : N) (name : string) : M unit :=
  syscall >>
  (lookupat d name >> set_files (alter (fun n =>
     match n with Dir m es => Dir m (delete name es) | n => n end) d)).

(** ** Helpers of the module *)

Definition FILE_MODE : N := 420.      (* 0o644 *)
Definition DIRECTORY_MODE : N := 493. (* 0o755 *)
Definition STAGING_MODE : N := 448.   (* 0o700 *)
Definition STAGED_MODE : N := 384.    (* 0o600 *)

Record StoredArtifact := {
  sa_module_id : string; sa_version : string; digest_algorithm : string; digest : string;
  byte_size : nat; storage_locator : string; public_url_ : string
}.

Inductive status_ := STATUS_PUBLISHED | STATUS_ALREADY_PRESENT.

Record Publication := { pub_artifact : StoredArtifact; pub_status : status_ }.

Definition canonical_artifact_relative_path (module_id version : string) : res exn (list string) :=
  let? module_id := validate_module_id (JStr module_id) "module ID" in
  let? version := validate_semver (JStr version) "version" in
  Ok ["modules"; module_id; version; module_id +:+ "-" +:+ version +:+ ".ocp"].

Definition canonical_public_artifact_url (module_id version : string) : res exn string :=
  let? key := canonical_artifact_relative_path module_id version in
  Ok ("https://" +:+ CANONICAL_REGISTRY_HOST +:+ "/" +:+ join_on "/" key).

Definition _identity (module_id version : string) (digest : option string) : M (list string) :=
  match canonical_artifact_relative_path module_id version with
  | Err _ => raise (InvalidArtifact "Invalid module ID or SemVer")
  | Ok relative =>
      match digest with
      | Some d => if fullmatch SHA256_RE d then ret relative
                  else raise (InvalidArtifact "Expected SHA-256 must be 64 lowercase hex characters")
      | None => ret relative
      end
  end.

(** [cwd] is the working directory that [absolute()] prepends. *)
Definition _safe_absolute (cwd : list string) (p : path_) : res os_exn (list string) :=
  if mem ".." (parts p) || mem_char "000" (path_str p) || mem_char "\" (path_str p)
  then Err (InvalidArtifact "Path contains forbidden components")
  else Ok (if is_absolute p then parts p else cwd ++ parts p).

Definition of_res {A} (r : res os_exn A) : M A := match r with Ok a => ret a | Err e => raise e end.

(** The descent of [_directory] from an open directory. *)
Fixpoint walk (create : bool) (mode : N) (d : N) (path : list string) : M N :=
  match path with
  | [] => ret d
  | component :: path =>
      do created <-
        (if create
         then catch (mkdirat mode d component >> ret true)
                (fun e => match e with FileExistsError => Some (ret false) | _ => None end)
         else ret false);
      do child <- catch (opendirat d component)
        (fun e => match e with
                  | FileNotFoundError => None
                  | _ => on_oserror
                           (InvalidArtifact "Directory path must not contain symlinks or non-directories") e
                  end);
      when created (fchmod child mode >> fsync >> fsync) >>
      walk create mode child path
  end.

(** Inode 0 is [/]. *)
Definition _directory (path : list string) (create : bool) (mode : N) : M N :=
  syscall >> walk create mode 0 path.

(** The inode of the open file. *)
Definition _regular_file (parent : N) (name : string) : M N :=
  do i <- catch (syscall >> do i <- lookupat parent name;
                 do n <- get_node i;
                 match n with Link _ => raise OSError | _ => ret i end)
    (fun e => match e with
              | FileNotFoundError => None
              | _ => on_oserror (InvalidArtifact "File must be readable and must not be a symlink") e
              end);
  do n <- get_node i;
  match n with
  | File _ _ => ret i
  | _ => raise (InvalidArtifact "Artifact must be a regular file")
  end.

Definition read_file (i : N) : M string :=
  syscall >>
  do n <- get_node i;
  match n with File c _ => ret c | _ => raise OSError end.

Definition _digest (i : N) : M (string * nat) :=
  do c <- read_file i; ret (sha256 c, String.length c).

(** ** The store *)

Context (root : list string).

(** The constructor: the root the store is given, or the refusal. *)
Definition init (cwd : list string) (p : path_) : res os_exn (list string) :=
  if negb (is_absolute p) || bool_decide (parts p = [])
  then Err (InvalidArtifact "Artifact root must be an explicit absolute directory")
  else
    let? root := _safe_absolute cwd p in
    if mem "releases" root || mem "current" root
    then Err (InvalidArtifact "Artifact root must be outside application releases/current")
    else Ok root.

Definition lift {A} (r : res exn A) : M A :=
  match r with Ok a => ret a | Err _ => raise (InvalidArtifact "Invalid module ID or SemVer") end.

Definition public_url (module_id version : string) : M string :=
  _identity module_id version None >> lift (canonical_public_artifact_url module_id version).

Definition _metadata (module_id version digest : string) (size : nat) : M StoredArtifact :=
  do relative <- _identity module_id version None;
  do url <- public_url module_id version;
  ret {| sa_module_id := module_id; sa_version := version; digest_algorithm := "sha256";
         digest := digest; byte_size := size; storage_locator := join_on "/" relative;
         public_url_ := url |}.

Definition _verify_at (parent : N) (module_id version expected_sha256 : string) : M StoredArtifact :=
  do relative <- _identity module_id version (Some expected_sha256);
  do i <- _regular_file parent (path_name relative);
  do (actual, size) <- _digest i;
  if negb (String.eqb actual expected_sha256)
  then raise (ArtifactConflict "Existing artifact SHA-256 mismatch; refusing overwrite")
  else _metadata module_id version actual size.

Definition exists_ (module_id version : string) : M bool :=
  do relative <- _identity module_id version None;
  catch
    (do parent <- _directory (root ++ path_parent relative) false DIRECTORY_MODE;
     _regular_file parent (path_name relative) >> ret true)
    (fun e => match e with
              | FileNotFoundError => Some (ret false)
              | _ => on_oserror (ArtifactStoreError "Unable to inspect artifact storage") e
              end).

Definition verify (module_id version expected_sha256 : string) : M StoredArtifact :=
  do relative <- _identity module_id version (Some expected_sha256);
  catch
    (do parent <- _directory (root ++ path_parent relative) false DIRECTORY_MODE;
     _verify_at parent module_id version expected_sha256)
    (fun e => match e with
              | FileNotFoundError => Some (raise (ArtifactNotFound "Artifact is not stored"))
              | _ => on_oserror (ArtifactStoreError "Unable to verify stored artifact") e
              end).

Definition _staging : M N :=
  do staging <- _directory (root ++ [".staging"]) true STAGING_MODE;
  do metadata <- fstat staging;
  if negb (N.eqb (st_uid metadata) euid) || negb (N.eqb (st_mode metadata) STAGING_MODE)
  then raise (InvalidArtifact "Staging must be private to the trusted publisher (0700)")
  else ret staging.

Definition _check_parent (relative : list string) (parent : N) : M unit :=
  do current <- _directory (root ++ path_parent relative) false DIRECTORY_MODE;
  do lstat <- fstat parent;
  do rstat <- fstat current;
  if negb (N.eqb (st_dev lstat) (st_dev rstat) && N.eqb parent current)
  then raise (InvalidArtifact "Artifact directory changed during publication")
  else
    syscall >> fun s =>
      match entry (files s) parent (path_name relative) with
      | Some i =>
          match files s !! i with
          | Some (Link target) =>
              if bool_decide (firstn (length root) target = root) then (Ok tt, s)
              else (Err (InvalidArtifact "Artifact target escapes the configured root"), s)
          | _ => (Ok tt, s)
          end
      | None => (Ok tt, s)
      end.

(** The copy into the staging file may fail.  The bytes are in the file from its
    creation on: nobody else knows its random name while they arrive. *)
Definition write_staged : M unit := syscall.

(** [uuid] is the random name of the staging file. *)
Definition _publish_verified (uuid module_id version : string) (relative : list string) (source : N)
    (expected : string) : M Publication :=
  do parent <- _directory (root ++ path_parent relative) true DIRECTORY_MODE;
  do present <- catch (do a <- _verify_at parent module_id version expected; ret (Some a))
    (fun e => match e with FileNotFoundError => Some (ret None) | _ => None end);
  match present with
  | Some artifact =>
      _regular_file parent (path_name relative) >> fsync >> fsync >>
      ret {| pub_artifact := artifact; pub_status := STATUS_ALREADY_PRESENT |}
  | None =>
      do staging <- _staging;
      do parent_meta <- fstat parent;
      do staging_meta <- fstat staging;
      if negb (N.eqb (st_dev parent_meta) (st_dev staging_meta))
      then raise (ArtifactStoreError "Staging and final path must share a filesystem")
      else
        let temporary := uuid +:+ ".partial" in
        do content <- read_file source;
        syscall >>
        do output <- createat staging temporary (fun _ => File content STAGED_MODE);
        finally
          (write_staged >> fchmod output FILE_MODE >> fsync >>
           do (copied, _) <- _digest output;
           (if negb (String.eqb copied expected)
            then raise (InvalidArtifact "Copied artifact SHA-256 mismatch")
            else
              _check_parent relative parent >>
              do status <- catch (linkat staging temporary parent (path_name relative) >> ret STATUS_PUBLISHED)
                (fun e => match e with FileExistsError => Some (ret STATUS_ALREADY_PRESENT) | _ => None end);
              do artifact <- _verify_at parent module_id version expected;
              fsync >>
              ret {| pub_artifact := artifact; pub_status := status |}))
          (unlinkat staging temporary >> fsync)
  end.

Definition publish (cwd : list string) (uuid module_id version : string) (source : path_)
    (expected_sha256 : string) : M Publication :=
  do relative <- _identity module_id version (Some expected_sha256);
  do source <- of_res (_safe_absolute cwd source);
  catch
    (do source_parent <- _directory (path_parent source) false DIRECTORY_MODE;
     do stream <- _regular_file source_parent (path_name source);
     do (actual, _) <- _digest stream;
     if negb (String.eqb actual expected_sha256)
     then raise (InvalidArtifact "Source SHA-256 does not match expected digest")
     else _publish_verified uuid module_id version relative stream expected_sha256)
    (fun e => match e with
              | FileNotFoundError => Some (raise (InvalidArtifact "Source or storage directory is missing"))
              | _ => on_oserror (ArtifactStoreError "Artifact storage operation failed; verify before retry") e
              end).

(** The result tells the mode. *)
Definition health (uuid : string) (publisher : bool) : M bool :=
  catch
    (do r <- _directory root false DIRECTORY_MODE;
     syscall >>
     when publisher
       (do staging <- _staging;
        do lstat <- fstat r;
        do rstat <- fstat staging;
        if negb (N.eqb (st_dev lstat) (st_dev rstat))
        then raise (ArtifactStoreError "Staging must share the root filesystem")
        else
          let name := uuid +:+ ".health" in
          syscall >> createat staging name (fun _ => File "" 384) >>
          finally fsync (unlinkat staging name >> fsync)) >>
     ret publisher)
    (on_oserror (ArtifactStoreError "Artifact storage health check failed")).

End Store.

(** ** What every participant preserves *)

(** The random names of staging and probe files. *)
Definition private (name : string) : bool :=
  match split_on "." name with
  | [_; ext] => mem ext ["partial"; "health"]
  | _ => false
  end.

Definition node_keeps (n n' : node) : Prop :=
  match n, n' with
  | Dir _ es, Dir _ es' =>
      forall name i, private name = false -> es !! name = Some i -> es' !! name = Some i
  | File c _, File c' _ => c' = c
  | Link t, Link t' => t' = t
  | _, _ => False
  end.

(** Files keep their bytes and directories their public entries. *)
Definition keeps (f f' : inodes) : Prop :=
  forall i n, f !! i = Some n -> exists n', f' !! i = Some n' /\ node_keeps n n'.

Lemma node_keeps_refl n : node_keeps n n.
Proof. destruct n; simpl; auto. Qed.

#[export] Instance keeps_preorder : PreOrder keeps.
Proof.
  split.
  - intros f i n Hn. exists n. split; [done | apply node_keeps_refl].
  - intros f g h Hfg Hgh i n Hn. destruct (Hfg i n Hn) as (n1 & Hn1 & H1).
    destruct (Hgh i n1 Hn1) as (n2 & Hn2 & H2). exists n2. split; [done|].
    destruct n, n1, n2; simpl in *; try done; [|congruence..].
    intros name j Hp Hj. by apply H2, H1.
Qed.

Lemma keeps_insert f d n n' :
  f !! d = Some n -> node_keeps n n' -> keeps f (<[d := n']> f).
Proof.
  intros Hd Hn i m Hm. destruct (decide (i = d)) as [->|Hi].
  - exists n'. rewrite lookup_insert_eq. split; [done|]. by rewrite Hd in Hm; injection Hm as <-.
  - exists m. rewrite lookup_insert_ne by done. split; [done | apply node_keeps_refl].
Qed.

Lemma keeps_fresh f i n : f !! i = None -> keeps f (<[i := n]> f).
Proof.
  intros Hi j m Hm. exists m. rewrite lookup_insert_ne by congruence.
  split; [done | apply node_keeps_refl].
Qed.

Lemma keeps_alter g f d : (forall n, node_keeps n (g n)) -> keeps f (alter g d f).
Proof.
  intros Hg i n Hn. destruct (decide (i = d)) as [->|Hi].
  - exists (g n). rewrite lookup_alter_eq, Hn. done.
  - exists n. rewrite lookup_alter_ne by done. split; [done | apply node_keeps_refl].
Qed.

Lemma entry_keeps f f' d name i :
  keeps f f' -> private name = false -> entry f d name = Some i -> entry f' d name = Some i.
Proof.
  unfold entry. intros Hk Hp H. destruct (f !! d) as [[m es| |]|] eqn:Hd; try done.
  destruct (Hk _ _ Hd) as (n' & Hn' & Hkn). rewrite Hn'. destruct n'; try done. by apply Hkn.
Qed.

(** *** Computations that preserve *)

Definition steady {A} (m : M A) : Prop := forall s, keeps (files s) (files (snd (m s))).

Create HintDb steady.

Lemma steady_ret {A} (a : A) : steady (ret a).
Proof. by intros s. Qed.

Lemma steady_raise {A} e : steady (@raise A e).
Proof. by intros s. Qed.

Lemma steady_bind {A B} (m : M A) (k : A -> M B) :
  steady m -> (forall a, steady (k a)) -> steady (bind m k).
Proof.
  intros Hm Hk s. unfold bind. specialize (Hm s). destruct (m s) as [[a|e] s'] eqn:Hs; [|done].
  simpl in *. etransitivity; [exact Hm | apply Hk].
Qed.

Lemma steady_catch {A} (m : M A) h :
  steady m -> (forall e k, h e = Some k -> steady k) -> steady (catch m h).
Proof.
  intros Hm Hh s. unfold catch. specialize (Hm s). destruct (m s) as [[a|e] s'] eqn:Hs; [done|].
  destruct (h e) as [k|] eqn:He; [|done]. simpl in *.
  etransitivity; [exact Hm | by apply (Hh e)].
Qed.

Lemma steady_finally {A} (m : M A) f : steady m -> steady f -> steady (finally m f).
Proof.
  intros Hm Hf s. unfold finally. specialize (Hm s). destruct (m s) as [r s'] eqn:Hs.
  specialize (Hf s'). destruct (f s') as [[u|e] s''] eqn:Hs'; simpl in *; by etransitivity.
Qed.

Lemma steady_read {A} (g : sys -> res os_exn A) : steady (fun s => (g s, s)).
Proof. by intros s. Qed.

Lemma steady_get_node i : steady (get_node i).
Proof. intros s. unfold get_node. by destruct (files s !! i). Qed.

Lemma steady_set_files f : (forall x, keeps x (f x)) -> steady (set_files f).
Proof. intros Hf s. apply Hf. Qed.

Lemma steady_if {A} (c : bool) (m k : M A) : steady m -> steady k -> steady (if c then m else k).
Proof. by destruct c. Qed.

#[export] Hint Resolve steady_ret steady_raise steady_bind steady_catch steady_finally
  steady_get_node steady_if : steady.

Lemma steady_on_oserror {A} e x k : @on_oserror A e x = Some k -> steady k.
Proof. unfold on_oserror. destruct (is_oserror x); [|done]. intros [= <-]. apply steady_raise. Qed.

(** One case of a match, one bind, one handler at a time. *)
Ltac steady :=
  repeat match goal with
  | |- forall _, _ => intros ?
  | H : on_oserror _ _ = Some _ |- _ => apply steady_on_oserror in H
  | H : Some _ = Some _ |- _ => injection H as <-
  | H : None = Some _ |- _ => discriminate H
  | H : match ?e with _ => _ end = Some _ |- _ => destruct e
  | |- steady (bind _ _) => apply steady_bind
  | |- steady (catch _ _) => apply steady_catch
  | |- steady (finally _ _) => apply steady_finally
  | |- steady (if _ then _ else _) => apply steady_if
  | |- steady (match ?x with _ => _ end) => destruct x
  | |- steady (let '_ := ?x in _) => destruct x
  | |- steady _ => solve [eauto 3 with steady]
  end.

Lemma steady_createat d name n : steady (createat d name n).
Proof.
  intros s. unfold createat. destruct (files s !! d) as [[m es| |]|] eqn:Hd; try done.
  destruct (es !! name) eqn:Hn; [done|]. simpl.
  etransitivity; [apply (keeps_insert _ d _ (Dir m (<[name:=fresh (dom (files s))]> es)) Hd)|].
  - intros name' i _ Hi. rewrite lookup_insert_ne; [done|]. congruence.
  - apply keeps_fresh. rewrite lookup_insert_ne.
    + apply not_elem_of_dom, is_fresh.
    + intros ->. apply (is_fresh (dom (files s))). apply elem_of_dom. by rewrite Hd.
Qed.

Lemma steady_lookupat d name : steady (lookupat d name).
Proof. unfold lookupat. steady. Qed.

#[export] Hint Resolve steady_createat steady_lookupat : steady.

Section Rely.
Context (sha256 : string -> string) (euid : N) (env : nat -> inodes -> inodes * bool).

(** Other processes only add: the publishers are this program. *)
Hypothesis env_keeps : forall n f, keeps f (fst (env n f)).

Abbreviation syscall := (syscall env).
Abbreviation _directory := (_directory euid env).
Abbreviation _regular_file := (_regular_file env).
Abbreviation _verify_at := (_verify_at sha256 env).

Lemma steady_syscall : steady syscall.
Proof.
  intros s. unfold ArtifactStore.syscall. specialize (env_keeps (tick s) (files s)).
  by destruct (env (tick s) (files s)).
Qed.

#[local] Hint Resolve steady_syscall : steady.

Lemma steady_mkdirat mode d name : steady (mkdirat euid env mode d name).
Proof. unfold mkdirat. steady. Qed.

Lemma steady_opendirat d name : steady (opendirat env d name).
Proof. unfold opendirat. steady. Qed.

Lemma steady_fstat d : steady (fstat env d).
Proof. unfold fstat. steady. Qed.

Lemma steady_fchmod i mode : steady (fchmod env i mode).
Proof.
  unfold fchmod. steady. apply steady_set_files. intros f. apply keeps_alter. intros []; simpl; auto.
Qed.

Lemma steady_linkat sd src dd dst : steady (linkat env sd src dd dst).
Proof.
  unfold linkat. steady. intros s.
  destruct (files s !! dd) as [[m es| |]|] eqn:Hd; try done.
  destruct (es !! dst) eqn:Hn; [done|]. apply (keeps_insert _ dd _ _ Hd).
  intros name i _ Hi. rewrite lookup_insert_ne; [done|]. congruence.
Qed.

Lemma steady_unlinkat d name : private name = true -> steady (unlinkat env d name).
Proof.
  intros Hp. unfold unlinkat. steady. apply steady_set_files. intros f. apply keeps_alter.
  intros [m es| |]; simpl; auto. intros name' i Hn Hi. rewrite lookup_delete_ne; [done|]. congruence.
Qed.

#[local] Hint Resolve steady_mkdirat steady_opendirat steady_fstat steady_fchmod steady_linkat
  steady_unlinkat : steady.

Lemma steady_when c m : steady m -> steady (when c m).
Proof. unfold when. steady. Qed.

Lemma steady_walk create mode d path : steady (walk euid env create mode d path).
Proof.
  revert d. induction path as [|c path IH]; intros d; cbn [walk]; unfold fsync; steady; try apply IH.
  apply steady_when. steady.
Qed.

Lemma steady_directory path create mode : steady (_directory path create mode).
Proof. unfold ArtifactStore._directory. steady. apply steady_walk. Qed.

Lemma steady_regular_file parent name : steady (_regular_file parent name).
Proof. unfold ArtifactStore._regular_file. steady. Qed.

Lemma steady_read_file i : steady (read_file env i).
Proof. unfold read_file. steady. Qed.

#[local] Hint Resolve steady_when steady_directory steady_regular_file steady_read_file : steady.

Lemma steady_identity module_id version digest : steady (_identity module_id version digest).
Proof. unfold _identity. steady. Qed.

Lemma steady_lift {A} (r : res exn A) : steady (lift r).
Proof. unfold lift. steady. Qed.

Lemma steady_of_res {A} (r : res os_exn A) : steady (of_res r).
Proof. unfold of_res. steady. Qed.

#[local] Hint Resolve steady_identity steady_lift steady_of_res : steady.

Lemma steady_metadata module_id version d n : steady (_metadata module_id version d n).
Proof. unfold _metadata, public_url. steady. Qed.

#[local] Hint Resolve steady_metadata : steady.

Lemma steady_verify_at parent module_id version expected : steady (_verify_at parent module_id version expected).
Proof. unfold ArtifactStore._verify_at, _digest. steady. Qed.

#[local] Hint Resolve steady_verify_at : steady.

Lemma steady_staging root : steady (_staging euid env root).
Proof. unfold _staging. steady. Qed.

Lemma steady_check_parent root relative parent : steady (_check_parent euid env root relative parent).
Proof.
  unfold _check_parent. steady. intros s.
  destruct (entry _ _ _) as [i|]; [|done]. destruct (files s !! i) as [[| |t]|]; try done.
  by case_bool_decide.
Qed.

#[local] Hint Resolve steady_staging steady_check_parent : steady.

Lemma steady_publish root cwd uuid module_id version source expected :
  private (uuid +:+ ".partial") = true ->
  steady (publish sha256 euid env root cwd uuid module_id version source expected).
Proof.
  intros Hp. unfold publish, _publish_verified, _digest, write_staged, fsync. steady.
Qed.

Lemma steady_verify root module_id version expected :
  steady (verify sha256 euid env root module_id version expected).
Proof. unfold verify. steady. Qed.

Lemma steady_exists root module_id version : steady (exists_ euid env root module_id version).
Proof. unfold exists_. steady. Qed.

Lemma public_url_state module_id version s r s' : public_url module_id version s = (r, s') -> s' = s.
Proof.
  unfold public_url, bind, _identity, lift. destruct (canonical_artifact_relative_path _ _); [|by intros [= _ <-]].
  simpl. by destruct (canonical_public_artifact_url _ _); intros [= _ <-].
Qed.

Lemma public_url_says module_id version s u s' :
  public_url module_id version s = (Ok u, s') -> canonical_public_artifact_url module_id version = Ok u.
Proof.
  unfold public_url, bind, _identity, lift. destruct (canonical_artifact_relative_path _ _); [|done].
  simpl. by destruct (canonical_public_artifact_url _ _); [intros [= -> _]|].
Qed.

(** *** The path a descriptor was opened by *)

Definition is_dir (f : inodes) (i : N) : Prop := exists m es, f !! i = Some (Dir m es).

(** [resolves f d path e]: from directory [d], [path] leads to directory [e]
    without crossing a link. *)
Inductive resolves (f : inodes) : N -> list string -> N -> Prop :=
| resolves_nil d : resolves f d [] d
| resolves_cons d c i path e :
    entry f d c = Some i -> is_dir f i -> resolves f i path e -> resolves f d (c :: path) e.

Definition public (path : list string) : Prop := Forall (fun c => private c = false) path.

Lemma is_dir_keeps f f' i : keeps f f' -> is_dir f i -> is_dir f' i.
Proof.
  intros Hk (m & es & Hi). destruct (Hk _ _ Hi) as ([m' es'| |] & Hn & Hkn); try done. by exists m', es'.
Qed.

Lemma resolves_keeps f f' d path e :
  keeps f f' -> public path -> resolves f d path e -> resolves f' d path e.
Proof.
  intros Hk Hp H. induction H as [|d c i path e Hc Hi _ IH]; [constructor|].
  apply Forall_cons in Hp as [Hpc Hp]. econstructor; [by eapply entry_keeps | by eapply is_dir_keeps | by apply IH].
Qed.

Lemma resolves_functional f d path e e' : resolves f d path e -> resolves f d path e' -> e = e'.
Proof.
  intros H. revert e'. induction H as [|d c i path e Hc _ _ IH]; intros e' H'; inversion H'; subst; [done|].
  apply IH. congruence.
Qed.


(** ** What is stored *)

(** The bytes of the file at a relative path below the root. *)
Definition stored (f : inodes) (root relative : list string) (content : string) : Prop :=
  exists d i mode, resolves f 0 (root ++ path_parent relative) d /\
    entry f d (path_name relative) = Some i /\ f !! i = Some (File content mode).

Lemma stored_keeps f f' root relative c :
  keeps f f' -> public (root ++ path_parent relative) -> private (path_name relative) = false ->
  stored f root relative c -> stored f' root relative c.
Proof.
  intros Hk Hp Hn (d & i & mode & Hd & He & Hi).
  destruct (Hk _ _ Hi) as ([|c' m'|] & Hi' & Hc); try done. simpl in Hc. subst c'.
  exists d, i, m'. split; [by eapply resolves_keeps|]. split; [by eapply entry_keeps | done].
Qed.

Lemma stored_functional f root relative c c' :
  stored f root relative c -> stored f root relative c' -> c = c'.
Proof.
  intros (d & i & m & Hd & He & Hi) (d' & i' & m' & Hd' & He' & Hi').
  assert (d = d') as <- by by eapply resolves_functional. congruence.
Qed.

(** *** Names chosen by the program are public, its random ones private *)

Lemma semver_split version :
  fullmatch SEMVER_RE version = true -> exists a b c l, split_on "." version = a :: b :: c :: l.
Proof.
  intros (m & -> & [Ha Hb _ _ _])%semver_re_iff. unfold semver_text.
  apply fullmatch_spec in Ha, Hb.
  rewrite !split_on_sep by by apply (match_free _ NUMERIC_RE).
  match goal with |- context [split_on "." ?t] => destruct (split_on "." t) as [|c l] eqn:Ht end.
  - by apply split_on_not_nil in Ht.
  - by exists (sv_major m), (sv_minor m), c, l.
Qed.

Lemma three_parts_public s a b c l : split_on "." s = a :: b :: c :: l -> private s = false.
Proof. unfold private. by intros ->. Qed.

Lemma free_public s : free_of "." s -> private s = false.
Proof. unfold private. intros H. by rewrite split_on_free. Qed.

Lemma private_name uuid ext :
  free_of "." uuid -> ext = "partial" \/ ext = "health" -> private (uuid +:+ "." +:+ ext) = true.
Proof.
  intros Hu He. unfold private. rewrite split_on_sep by done. by destruct He as [-> | ->].
Qed.

Lemma id_free s : canonical_id s -> free_of "." s.
Proof. intros [_ H%fullmatch_spec]. by apply (match_free _ MODULE_ID_RE). Qed.

Lemma file_name_public module_id version :
  canonical_id module_id -> fullmatch SEMVER_RE version = true ->
  private (module_id +:+ "-" +:+ version +:+ ".ocp") = false.
Proof.
  intros Hi%id_free (m & -> & [Ha Hb _ _ _])%semver_re_iff. apply fullmatch_spec in Ha, Hb.
  unfold semver_text. set (rest := sv_patch m +:+ _).
  assert (Hn : module_id +:+ "-" +:+ (sv_major m +:+ "." +:+ sv_minor m +:+ "." +:+ rest) +:+ ".ocp"
    = (module_id +:+ "-" +:+ sv_major m) +:+ "." +:+ sv_minor m +:+ "." +:+ (rest +:+ ".ocp"))
    by by rewrite !append_assoc.
  rewrite Hn.
  assert (Hf : free_of "." (module_id +:+ "-" +:+ sv_major m)).
  { rewrite !free_of_app. split_and!; [done | by repeat constructor | by apply (match_free _ NUMERIC_RE)]. }
  assert (Hs := split_on_sep "." _ (sv_minor m +:+ "." +:+ (rest +:+ ".ocp")) Hf).
  rewrite (split_on_sep "." (sv_minor m)) in Hs by by apply (match_free _ NUMERIC_RE).
  destruct (split_on "." (rest +:+ ".ocp")) as [|c l] eqn:Hr; [by apply split_on_not_nil in Hr|].
  by eapply three_parts_public.
Qed.

Record relative_of (module_id version : string) (relative : list string) : Prop := {
  rel_id : canonical_id module_id;
  rel_version : fullmatch SEMVER_RE version = true;
  rel_parts : relative = ["modules"; module_id; version; module_id +:+ "-" +:+ version +:+ ".ocp"]
}.

Lemma relative_path_Ok module_id version relative :
  canonical_artifact_relative_path module_id version = Ok relative <-> relative_of module_id version relative.
Proof.
  unfold canonical_artifact_relative_path, validate_module_id, validate_semver. split.
  - intros H. py_inv.
    repeat match goal with
    | H : _canonical_id _ _ = Ok _ |- _ => apply _canonical_id_Ok in H as [[= <-] ?]
    | H : _semver _ _ = Ok _ |- _ => apply _semver_Ok in H as [[= <-] ?]
    end. by split.
  - intros [Hi Hv ->].
    rewrite (proj2 (_canonical_id_Ok _ _ _) (conj eq_refl Hi)). cbn [res_bind].
    by rewrite (proj2 (_semver_Ok _ _ _) (conj eq_refl Hv)).
Qed.

Lemma relative_unique module_id version r r' :
  relative_of module_id version r -> relative_of module_id version r' -> r = r'.
Proof. by intros [_ _ ->] [_ _ ->]. Qed.

Lemma relative_public module_id version relative root :
  relative_of module_id version relative -> public root ->
  public (root ++ path_parent relative) /\ private (path_name relative) = false.
Proof.
  intros [Hi Hv ->] Hr. split; [|by apply file_name_public].
  apply Forall_app. split; [done|]. repeat constructor.
  - by apply free_public, id_free.
  - destruct (semver_split _ Hv) as (a & b & c & l & Hs). by eapply three_parts_public.
Qed.

(** ** Successful runs *)

Lemma fs_bind_Ok {A B} (m : M A) (k : A -> M B) s b s' :
  bind m k s = (Ok b, s') <-> exists a s1, m s = (Ok a, s1) /\ k a s1 = (Ok b, s').
Proof.
  unfold bind. destruct (m s) as [[a|e] s1]; split.
  - eauto.
  - by intros (? & ? & [= <- <-] & ?).
  - done.
  - by intros (? & ? & ? & _).
Qed.

Lemma catch_Ok {A} (m : M A) h s a s' :
  catch m h s = (Ok a, s') ->
  m s = (Ok a, s') \/ exists e s1 k, m s = (Err e, s1) /\ h e = Some k /\ k s1 = (Ok a, s').
Proof.
  unfold catch. destruct (m s) as [[x|e] s1]; [by left|].
  destruct (h e) as [k|] eqn:He; [|done]. intros Hk. right. by exists e, s1, k.
Qed.

(** A handler that always raises. *)
Lemma catch_raise_Ok {A} (m : M A) h s a s' :
  (forall e k, h e = Some k -> exists e', k = raise e') ->
  catch m h s = (Ok a, s') -> m s = (Ok a, s').
Proof.
  intros Hh [H|(e & s1 & k & _ & Hk & H)]%catch_Ok; [done|].
  by destruct (Hh e k Hk) as [e' ->].
Qed.

Lemma on_oserror_raises {A} e x (k : M A) : on_oserror e x = Some k -> exists e', k = raise e'.
Proof. unfold on_oserror. destruct (is_oserror x); [|done]. intros [= <-]. eauto. Qed.

Lemma finally_Ok {A} (m : M A) f s a s' :
  finally m f s = (Ok a, s') -> exists s1 u, m s = (Ok a, s1) /\ f s1 = (Ok u, s').
Proof.
  unfold finally. destruct (m s) as [r s1]. destruct (f s1) as [[u|e] s2] eqn:Hf; [|done].
  intros [= -> ->]. eauto.
Qed.

Lemma steady_eq {A} (m : M A) s r s' : steady m -> m s = (r, s') -> keeps (files s) (files s').
Proof. intros Hm H. specialize (Hm s). by rewrite H in Hm. Qed.

Lemma lookupat_Ok d name s i s' :
  lookupat d name s = (Ok i, s') -> s' = s /\ entry (files s) d name = Some i.
Proof.
  unfold lookupat, get_node, bind, entry. destruct (files s !! d) as [[m es| |]|]; try done.
  destruct (es !! name); [|done]. by intros [= <- <-].
Qed.

Lemma get_node_Ok i s n s' : get_node i s = (Ok n, s') -> s' = s /\ files s !! i = Some n.
Proof. unfold get_node. destruct (files s !! i); [|done]. by intros [= <- <-]. Qed.

Lemma identity_Ok module_id version digest s relative s' :
  _identity module_id version digest s = (Ok relative, s') ->
  s' = s /\ relative_of module_id version relative.
Proof.
  unfold _identity. destruct (canonical_artifact_relative_path _ _) as [r|] eqn:Hr; [|done].
  apply relative_path_Ok in Hr. destruct digest as [d|].
  - destruct (fullmatch SHA256_RE d); [|done]. by intros [= <- <-].
  - by intros [= <- <-].
Qed.

Ltac m_inv :=
  repeat match goal with
  | H : bind _ _ _ = (Ok _, _) |- _ => apply fs_bind_Ok in H as (? & ? & ? & ?); cbv beta in *
  | H : ret _ _ = (Ok _, _) |- _ => unfold ret in H; injection H as H; try subst
  | H : raise _ _ = (Ok _, _) |- _ => discriminate H
  | H : lookupat _ _ _ = (Ok _, _) |- _ => apply lookupat_Ok in H as [-> ?]
  | H : get_node _ _ = (Ok _, _) |- _ => apply get_node_Ok in H as [-> ?]
  | H : _identity _ _ _ _ = (Ok _, _) |- _ => apply identity_Ok in H as [-> ?]
  | H : finally _ _ _ = (Ok _, _) |- _ => apply finally_Ok in H as (? & ? & ? & ?)
  end.

Lemma opendirat_Ok d c s i s' :
  opendirat env d c s = (Ok i, s') -> entry (files s') d c = Some i /\ is_dir (files s') i.
Proof.
  unfold opendirat. intros H. m_inv.
  match goal with H : context [match ?n with Dir _ _ => _ | _ => _ end] |- _ => destruct n; m_inv end.
  split; [done|]. by eexists _, _.
Qed.

Lemma walk_Ok create mode d path s e s' :
  public path -> walk euid env create mode d path s = (Ok e, s') -> resolves (files s') d path e.
Proof.
  revert d s. induction path as [|c path IH]; intros d s Hp H; cbn [walk] in H; m_inv; [constructor|].
  apply Forall_cons in Hp as [Hc Hp].
  match goal with H : catch (opendirat _ _ _) _ _ = (Ok ?i, ?s1) |- _ =>
    apply catch_raise_Ok in H; [apply opendirat_Ok in H as [He Hi]
      | intros [] k Hk; try done; by eapply on_oserror_raises] end.
  match goal with H : when _ _ _ = (Ok _, ?s2), Hw : walk _ _ _ _ _ _ ?s2 = (Ok _, s') |- _ =>
    apply steady_eq in H; [|apply steady_when; unfold fsync; steady];
    assert (Hk := steady_eq _ _ _ _ (steady_walk _ _ _ _) Hw); apply IH in Hw; [|done];
    assert (Hk' := transitivity H Hk) end.
  econstructor; [by eapply entry_keeps | by eapply is_dir_keeps | done].
Qed.

Lemma directory_Ok path create mode s e s' :
  public path -> _directory path create mode s = (Ok e, s') -> resolves (files s') 0 path e.
Proof. intros Hp H. unfold ArtifactStore._directory in H. m_inv. by eapply walk_Ok. Qed.

Lemma regular_file_Ok parent name s i s' :
  _regular_file parent name s = (Ok i, s') -> entry (files s') parent name = Some i.
Proof.
  unfold ArtifactStore._regular_file. intros H. m_inv.
  match goal with H : catch _ _ _ = (Ok _, _) |- _ =>
    apply catch_raise_Ok in H; [|intros [] k Hk; try done; by eapply on_oserror_raises] end.
  m_inv. repeat match goal with H : context [match ?n with Dir _ _ => _ | _ => _ end] |- _ => destruct n; m_inv end;
  done.
Qed.

Lemma metadata_Ok module_id version d n s a s' :
  _metadata module_id version d n s = (Ok a, s') ->
  s' = s /\ sa_module_id a = module_id /\ sa_version a = version /\ digest a = d /\ byte_size a = n /\
  exists relative, relative_of module_id version relative /\ storage_locator a = join_on "/" relative /\
    public_url_ a = "https://" +:+ CANONICAL_REGISTRY_HOST +:+ "/" +:+ join_on "/" relative.
Proof.
  unfold _metadata, public_url. intros H. m_inv. simpl.
  match goal with H : lift _ _ = _ |- _ => unfold lift, canonical_public_artifact_url in H end.
  match goal with H : relative_of _ _ ?r |- _ => assert (Hr := proj2 (relative_path_Ok _ _ _) H) end.
  rewrite Hr in *. cbn [res_bind] in *. m_inv. split_and!; try done. eexists. split_and!; try done.
  f_equal. by eapply relative_unique.
Qed.

Lemma verify_at_Ok parent module_id version expected s a s' relative :
  relative_of module_id version relative ->
  _verify_at parent module_id version expected s = (Ok a, s') ->
  digest a = expected /\ storage_locator a = join_on "/" relative /\
  exists i c mode, entry (files s') parent (path_name relative) = Some i /\
    files s' !! i = Some (File c mode) /\ sha256 c = expected /\ byte_size a = String.length c.
Proof.
  intros Hrel. unfold ArtifactStore._verify_at, _digest. intros H. m_inv.
  match goal with H : relative_of _ _ ?r |- _ => assert (r = relative) as -> by by eapply relative_unique end.
  match goal with H : _regular_file _ _ _ = (Ok ?i, ?s1) |- _ =>
    apply regular_file_Ok in H; rename i into file; rename H into He end.
  match goal with H : read_file _ _ _ = _ |- _ =>
    assert (Hk := steady_eq _ _ _ _ (steady_read_file _) H); unfold read_file in H; m_inv end.
  match goal with H : context [match ?n with Dir _ _ => _ | _ => _ end] |- _ => destruct n; m_inv; try done end.
  cbn beta iota in *.
  match goal with H : (if ?b then _ else _) _ = (Ok a, s') |- _ => destruct b eqn:Hb; m_inv end.
  apply negb_false_iff, String.eqb_eq in Hb.
  match goal with H : _metadata _ _ _ _ _ = _ |- _ =>
    apply metadata_Ok in H as (-> & _ & _ & Hd & Hn & r & Hr & Hl & _) end.
  assert (r = relative) as -> by by eapply relative_unique.
  split; [congruence|]. split; [done|]. eexists _, _, _. split_and!; try done.
  eapply entry_keeps; [exact Hk| |exact He]. by destruct (relative_public _ _ _ [] Hrel (Forall_nil_2 _)).
Qed.

(** *** Publication and verification *)

Abbreviation verify := (verify sha256 euid env).
Abbreviation publish := (publish sha256 euid env).

Lemma present_stored root relative module_id version parent s1 s2 s3 a expected :
  relative_of module_id version relative -> public root ->
  resolves (files s1) 0 (root ++ path_parent relative) parent -> keeps (files s1) (files s2) ->
  _verify_at parent module_id version expected s2 = (Ok a, s3) ->
  digest a = expected /\ storage_locator a = join_on "/" relative /\
  exists c, stored (files s3) root relative c /\ sha256 c = expected.
Proof.
  intros Hrel Hroot Hres Hk Hv. destruct (relative_public _ _ _ root Hrel Hroot) as [Hp Hn].
  assert (Hk' := steady_eq _ _ _ _ (steady_verify_at _ _ _ _) Hv).
  eapply verify_at_Ok in Hv as (Hd & Hl & i & c & mode & He & Hi & Hc & _); [|done].
  split; [done|]. split; [done|]. exists c. split; [|done]. exists parent, i, mode.
  split_and!; [|done|done]. eapply resolves_keeps; [|done|exact Hres]. by etransitivity.
Qed.

Lemma verify_stored root module_id version expected s a s' :
  public root -> verify root module_id version expected s = (Ok a, s') ->
  digest a = expected /\ exists relative c, relative_of module_id version relative /\
    storage_locator a = join_on "/" relative /\ stored (files s') root relative c /\ sha256 c = expected.
Proof.
  unfold ArtifactStore.verify. intros Hroot H. m_inv.
  match goal with H : relative_of _ _ _ |- _ => rename H into Hrel end.
  match goal with H : catch _ _ _ = (Ok _, _) |- _ =>
    apply catch_raise_Ok in H; [|intros [] k Hk; try (by eapply on_oserror_raises); injection Hk as <-; eauto] end.
  m_inv. destruct (relative_public _ _ _ root Hrel Hroot) as [Hp Hn].
  match goal with H : _directory _ _ _ _ = _ |- _ => apply directory_Ok in H; [rename H into Hres|done] end.
  match goal with H : _verify_at _ _ _ _ _ = _ |- _ =>
    destruct (present_stored _ _ _ _ _ _ _ _ _ _ Hrel Hroot Hres (reflexivity _) H) as (? & ? & c & ? & ?) end.
  split; [done|]. by eexists _, c.
Qed.

Lemma verify_at_url parent module_id version expected s a s' :
  _verify_at parent module_id version expected s = (Ok a, s') ->
  canonical_public_artifact_url module_id version = Ok (public_url_ a).
Proof.
  unfold ArtifactStore._verify_at, _digest. intros H. m_inv. cbn beta iota in *.
  match goal with H : (if ?b then _ else _) _ = _ |- _ => destruct b; m_inv end.
  match goal with H : _metadata _ _ _ _ _ = _ |- _ =>
    apply metadata_Ok in H as (_ & _ & _ & _ & _ & r & Hr & _ & ->) end.
  apply relative_path_Ok in Hr. unfold canonical_public_artifact_url. by rewrite Hr.
Qed.

Lemma verify_url module_id version root expected s a s' :
  verify root module_id version expected s = (Ok a, s') ->
  canonical_public_artifact_url module_id version = Ok (public_url_ a).
Proof.
  unfold ArtifactStore.verify. intros H. m_inv.
  match goal with H : catch _ _ _ = (Ok _, _) |- _ =>
    apply catch_raise_Ok in H; [|intros [] k Hk; try (by eapply on_oserror_raises); injection Hk as <-; eauto] end.
  m_inv. by eapply verify_at_url.
Qed.

Ltac keeps_chain :=
  repeat match goal with H : _ = (Ok _, _) |- _ =>
    apply steady_eq in H; [|unfold _digest, write_staged, fsync; steady] end;
  repeat first [eassumption | reflexivity | etransitivity; [eassumption|]].

Lemma publish_verified_stored root uuid module_id version relative source expected s p s' :
  public root -> free_of "." uuid -> relative_of module_id version relative ->
  _publish_verified sha256 euid env root uuid module_id version relative source expected s = (Ok p, s') ->
  digest (pub_artifact p) = expected /\ storage_locator (pub_artifact p) = join_on "/" relative /\
  exists c, stored (files s') root relative c /\ sha256 c = expected.
Proof.
  intros Hroot Huuid Hrel. unfold _publish_verified. intros H. m_inv.
  destruct (relative_public _ _ _ root Hrel Hroot) as [Hp Hn].
  match goal with H : _directory _ _ _ _ = (Ok ?d, _) |- _ =>
    apply directory_Ok in H; [|done]; rename d into parent, H into Hres end.
  assert (Hpriv : private (uuid +:+ ".partial") = true) by (apply (private_name uuid "partial"); auto).
  match goal with H : catch _ _ _ = (Ok ?o, ?s2) |- _ => rename H into Hcatch; destruct o as [artifact|] end.
  - apply catch_Ok in Hcatch as [Hcatch|([] & s1 & k & _ & [= <-] & Hk)]; [|by m_inv].
    m_inv. match goal with H : _verify_at _ _ _ _ _ = _ |- _ =>
      destruct (present_stored _ _ _ _ _ _ _ _ _ _ Hrel Hroot Hres (reflexivity _) H) as (? & ? & c & Hst & ?) end.
    split; [done|]. split; [done|]. exists c. split; [|done].
    eapply stored_keeps; [|done|done|exact Hst]. keeps_chain.
  - apply steady_eq in Hcatch; [|steady]. m_inv.
    repeat match goal with
    | H : (if ?b then _ else _) _ = (Ok _, _) |- _ => destruct b eqn:?; [by m_inv|]; m_inv
    | H : (let '(_, _) := ?x in _) _ = (Ok _, _) |- _ => destruct x; m_inv
    end.
    match goal with H : _verify_at _ _ _ _ ?s2 = _, Hr : resolves (files ?s1) _ _ _ |- _ =>
      assert (Hk : keeps (files s1) (files s2)) by (clear H; keeps_chain);
      destruct (present_stored _ _ _ _ _ _ _ _ _ _ Hrel Hroot Hres Hk H) as (? & ? & c & Hst & ?);
      clear H end.
    split; [done|]. split; [done|]. exists c. split; [|done].
    eapply stored_keeps; [|done|done|exact Hst]. keeps_chain.
Qed.

Lemma publish_stored root cwd uuid module_id version source expected s p s' :
  public root -> free_of "." uuid ->
  publish root cwd uuid module_id version source expected s = (Ok p, s') ->
  digest (pub_artifact p) = expected /\ exists relative c, relative_of module_id version relative /\
    storage_locator (pub_artifact p) = join_on "/" relative /\ stored (files s') root relative c /\
    sha256 c = expected.
Proof.
  unfold ArtifactStore.publish. intros Hroot Huuid H. m_inv.
  match goal with H : relative_of _ _ _ |- _ => rename H into Hrel end.
  match goal with H : catch _ _ _ = (Ok _, _) |- _ =>
    apply catch_raise_Ok in H; [|intros [] k Hk; try (by eapply on_oserror_raises); injection Hk as <-; eauto] end.
  m_inv.
  repeat match goal with H : match ?x with _ => _ end _ = (Ok _, _) |- _ => destruct x; m_inv; try done end.
  match goal with H : _publish_verified _ _ _ _ _ _ _ _ _ _ _ = _ |- _ =>
    apply publish_verified_stored in H as (? & ? & c & ? & ?); [|done|done|done] end.
  split; [done|]. by eexists _, c.
Qed.

(** ** Properties *)

(** C2. Append-only: when the other processes of the host only add to the
    store, [publish] only adds too, whether it succeeds, finds the artifact
    already there or fails at any system call: every file keeps its bytes and
    every directory keeps its entries, private staging names apart. *)
Theorem publish_append_only root cwd uuid module_id version source expected s r s' relative' c :
  free_of "." uuid -> public root -> publish root cwd uuid module_id version source expected s = (r, s') ->
  (exists i v, relative_of i v relative') -> stored (files s) root relative' c ->
  keeps (files s) (files s') /\ stored (files s') root relative' c.
Proof.
  intros Hu Hroot H (i & v & Hrel) Hst.
  assert (Hk : keeps (files s) (files s')).
  { eapply steady_eq; [|exact H]. apply steady_publish. apply (private_name uuid "partial"); auto. }
  split; [done|]. destruct (relative_public _ _ _ root Hrel Hroot). by eapply stored_keeps.
Qed.

(** A successful publication means that the file at the canonical path of
    the module and version has the expected digest when the call returns,
    whichever publisher linked it; the returned metadata names that path and
    that digest. *)
Theorem publish_success root cwd uuid module_id version source expected s p s' :
  public root -> free_of "." uuid ->
  publish root cwd uuid module_id version source expected s = (Ok p, s') ->
  digest (pub_artifact p) = expected /\ exists relative c, relative_of module_id version relative /\
    storage_locator (pub_artifact p) = join_on "/" relative /\ stored (files s') root relative c /\
    sha256 c = expected.
Proof. apply publish_stored. Qed.

(** No overwrite: once bytes are stored for a version, publishing or
    verifying that version with another digest never succeeds, in any later
    state that the participants can reach. *)
Theorem stored_conflict root cwd uuid module_id version source expected s r s' relative c :
  public root -> free_of "." uuid -> relative_of module_id version relative ->
  stored (files s) root relative c -> sha256 c <> expected ->
  (publish root cwd uuid module_id version source expected s = (r, s') -> is_ok r = false) /\
  (forall r', verify root module_id version expected s = (r', s') -> is_ok r' = false).
Proof.
  intros Hroot Hu Hrel Hst Hne. destruct (relative_public _ _ _ root Hrel Hroot) as [Hp Hn]. split.
  - intros H. destruct r as [p|]; [|done]. exfalso.
    assert (Hk := steady_eq _ _ _ _ (steady_publish _ _ _ _ _ _ _ (private_name uuid "partial" Hu (or_introl eq_refl))) H).
    apply publish_stored in H as (_ & rel' & c' & Hrel' & _ & Hst' & Hc'); [|done|done].
    rewrite (relative_unique _ _ _ _ Hrel' Hrel) in Hst'. apply Hne. rewrite <- Hc'. f_equal.
    eapply stored_functional; [|exact Hst']. by eapply stored_keeps.
  - intros [p|] H; [|done]. exfalso.
    assert (Hk := steady_eq _ _ _ _ (steady_verify _ _ _ _) H).
    apply verify_stored in H as (_ & rel' & c' & Hrel' & _ & Hst' & Hc'); [|done].
    rewrite (relative_unique _ _ _ _ Hrel' Hrel) in Hst'. apply Hne. rewrite <- Hc'. f_equal.
    eapply stored_functional; [|exact Hst']. by eapply stored_keeps.
Qed.

End Rely.

(** The registry's URL of a version determines the module and the version. *)
Lemma canonical_url_inj i v i' v' :
  canonical_id i -> canonical_id i' -> fullmatch SEMVER_RE v = true -> fullmatch SEMVER_RE v' = true ->
  canonical_url i v = canonical_url i' v' -> i = i' /\ v = v'.
Proof.
  intros [_ Hi] [_ Hi'] Hv Hv' H.
  assert (Hp := canonical_url_parts i v Hi Hv). rewrite H, canonical_url_parts in Hp by done.
  apply (f_equal (fun r => match r with Ok p => path p | Err _ => "" end)) in Hp. cbn [path] in Hp.
  assert (Hs := canonical_path_segments i v Hi Hv).
  rewrite <- Hp, canonical_path_segments in Hs by done. by injection Hs as -> -> _.
Qed.

Lemma public_url_Ok i v u : canonical_public_artifact_url i v = Ok u <->
  canonical_id i /\ fullmatch SEMVER_RE v = true /\ u = canonical_url i v.
Proof.
  unfold canonical_public_artifact_url. rewrite res_bind_Ok. setoid_rewrite relative_path_Ok. split.
  - intros (r & [Hi Hv ->] & [= <-]). split_and!; done.
  - intros (Hi & Hv & ->). eexists. split; [by split|]. done.
Qed.

Lemma public_url_inj i v i' v' u :
  canonical_public_artifact_url i v = Ok u -> canonical_public_artifact_url i' v' = Ok u -> i = i' /\ v = v'.
Proof. rewrite !public_url_Ok. intros (? & ? & ->) (? & ? & ?). by apply canonical_url_inj. Qed.

(** The URL under which the store serves an artifact exists exactly for
    canonical identifiers and versions, is the canonical URL the registry's
    policy accepts for them, and belongs to no other module or version. *)
Theorem public_url_canonical i v u :
  canonical_public_artifact_url i v = Ok u <->
  canonical_id i /\ fullmatch SEMVER_RE v = true /\ u = canonical_url i v /\
  forall i' v', canonical_public_artifact_url i' v' = Ok u -> i' = i /\ v' = v.
Proof.
  rewrite public_url_Ok. split; [|tauto]. intros (Hi & Hv & Hu). split_and!; try done.
  intros i' v' (Hi' & Hv' & Hu')%public_url_Ok. subst u.
  by apply canonical_url_inj in Hu' as [-> ->].
Qed.

(** ** An example store *)

Definition hex64 (c : ascii) : string := String.string_of_list_ascii (repeat c 64).

(** A digest of the first character. *)
Definition example_sha256 (s : string) : string :=
  match s with String "A" _ => hex64 "a" | _ => hex64 "0" end.

Definition quiet (n : nat) (f : inodes) : inodes * bool := (f, false).

Definition example_dir (es : list (string * N)) : node :=
  Dir {| st_dev := 7; st_uid := 1000; st_mode := 493 |} (list_to_map es).

Definition example_sys : sys :=
  {| files := list_to_map [(0%N, example_dir [("srv", 1%N); ("in", 2%N)]); (1%N, example_dir []);
                           (2%N, example_dir [("a.ocp", 3%N)]); (3%N, File "Abc" 420)];
     tick := 0 |}.

Definition example_source : path_ := {| is_absolute := true; parts := ["in"; "a.ocp"] |}.

Definition example_publish :=
  publish example_sha256 1000 quiet ["srv"] [] "0f" "hello" "1.0.0" example_source (hex64 "a").

Lemma example_public : public ["srv"].
Proof. by repeat constructor. Qed.

Lemma example_uuid : free_of "." "0f".
Proof. by repeat constructor. Qed.

Lemma quiet_keeps n f : keeps f (fst (quiet n f)).
Proof. reflexivity. Qed.

Lemma publish_success_witness :
  exists p s', example_publish example_sys = (Ok p, s') /\ pub_status p = STATUS_PUBLISHED /\
    exists relative c, stored (files s') ["srv"] relative c /\ example_sha256 c = hex64 "a".
Proof.
  eexists _, _. split; [vm_compute; reflexivity|]. split; [reflexivity|].
  edestruct (publish_success example_sha256 1000 quiet quiet_keeps ["srv"] [] "0f" "hello" "1.0.0" example_source (hex64 "a")
    example_sys) as (_ & rel & c & _ & _ & Hs & Hc); [exact example_public | exact example_uuid | vm_compute; reflexivity |].
  exists rel, c. exact (conj Hs Hc).
Defined.

(** The state after the first publication. *)
Definition example_after : sys := snd (example_publish example_sys).

Definition example_relative : list string := ["modules"; "hello"; "1.0.0"; "hello-1.0.0.ocp"].

Lemma example_relative_of : relative_of "hello" "1.0.0" example_relative.
Proof. split; [split; [simpl; lia|] | |]; vm_compute; reflexivity. Qed.

Lemma example_stored : stored (files example_after) ["srv"] example_relative "Abc".
Proof.
  eexists _, _, _. split_and!.
  - repeat (eapply resolves_cons; [vm_compute; reflexivity | eexists _, _; vm_compute; reflexivity |]).
    apply resolves_nil.
  - vm_compute. reflexivity.
  - vm_compute. reflexivity.
Qed.

Lemma publish_append_only_witness :
  let '(r, s') := publish example_sha256 1000 quiet ["srv"] [] "0e" "hello" "1.1.0" example_source
                    (hex64 "a") example_after in
  keeps (files example_after) (files s') /\ stored (files s') ["srv"] example_relative "Abc".
Proof.
  destruct (publish _ _ _ _ _ _ _ _ _ _ _) as [r s'] eqn:H.
  apply (publish_append_only example_sha256 1000 quiet quiet_keeps ["srv"] [] "0e" "hello" "1.1.0"
    example_source (hex64 "a") example_after r).
  - by repeat constructor.
  - exact example_public.
  - exact H.
  - exists "hello", "1.0.0". exact example_relative_of.
  - exact example_stored.
Defined.

Lemma stored_conflict_witness :
  is_ok (fst (verify example_sha256 1000 quiet ["srv"] "hello" "1.0.0" (hex64 "0") example_after)) = false /\
  fst (verify example_sha256 1000 quiet ["srv"] "hello" "1.0.0" (hex64 "0") example_after)
  = Err (ArtifactConflict "Existing artifact SHA-256 mismatch; refusing overwrite").
Proof.
  split; [|vm_compute; reflexivity].
  destruct (verify _ _ _ _ _ _ _ _) as [r s'] eqn:H.
  eapply (stored_conflict example_sha256 1000 quiet quiet_keeps ["srv"] [] "0f" "hello" "1.0.0"
    example_source (hex64 "0") example_after (Err OSError)).
  - exact example_public.
  - exact example_uuid.
  - exact example_relative_of.
  - exact example_stored.
  - done.
  - exact H.
Defined.
