(* ===== verification/AuthDb.v ===== *)
(** * The auth database: tables, transactions, requests

    The rows of web/backend/app/auth/models (the columns the services read or
    write), the session of a request as a state monad over the committed and
    the working database, HTTP errors, and the environment of a request: one
    reading of the clock (in microseconds), the values the random generators
    return, the outcome of concurrent uniqueness conflicts, cookies and
    headers.  An identifier is the text of its UUID.  The libraries the code
    calls (PyJWT, pwdlib, Fernet, pyotp, webauthn, SHA-256 and HMAC) are the
    fields of [libs].  The human-readable messages of errors, the metadata of
    audit rows, log lines and the columns that SQLAlchemy itself fills at an
    update ([onupdate]) are not represented. *)

From S2P Require Import Prelude PyText SemVer Json.

Open Scope string_scope.
Open Scope list_scope.
Open Scope Z_scope.

(** ** Rows *)

Inductive AccountDeactivationReason := SELF_DEACTIVATED | ADMIN_DEACTIVATED.

(** Columns no service branches on. *)
Record profile := {
  first_name : string; last_name : string; display_name : option string; avatar_url : option string;
  roles : list string
}.

(** [User] *)
Record user := {
  user_id : string; email : string; password_hash : option string; profile_of : profile;
  is_active : bool; deactivated_at : option Z;
  deactivation_reason : option AccountDeactivationReason; is_verified : bool;
  email_pending : bool; is_superuser : bool; user_updated_at : Z; last_login_at : option Z
}.

(** [UserSession] *)
Record user_session := {
  s_id : string; s_user_id : string; s_token_hash : string; jti : string; family_id : string;
  s_expires_at : Z; s_last_used_at : option Z; revoked_at : option Z; rotated_at : option Z;
  replaced_by_jti : option string; revocation_reason : option string;
  s_ip_address : option string; s_user_agent : option string
}.

(** [EmailVerificationToken] *)
Record verification_token := {
  v_id : string; v_user_id : string; v_token_hash : string; v_expires_at : Z;
  v_used_at : option Z
}.

(** [PasswordResetToken] *)
Record reset_token := {
  r_id : string; r_user_id : string; r_token_hash : string; r_expires_at : Z;
  r_used_at : option Z; r_invalidated_at : option Z; r_requested_ip : option string
}.

(** [UserOAuthAccount] *)
Record oauth_account := {
  o_id : string; o_user_id : string; provider : string; provider_subject : string;
  provider_email : option string; provider_username : option string;
  provider_avatar_url : option string; provider_profile_url : option string; o_updated_at : Z;
  o_last_login_at : option Z
}.

(** [UserMfaMethod] *)
Record mfa_method := {
  m_id : string; m_user_id : string; m_type : string; secret_encrypted : string;
  is_enabled : bool; verified_at : option Z; setup_expires_at : option Z;
  m_last_used_at : option Z; last_used_counter : option Z
}.

(** [UserMfaRecoveryCode] *)
Record recovery_code := {
  rc_id : string; rc_user_id : string; code_hash : string; rc_used_at : option Z
}.

(** [AuthMfaChallenge] *)
Record mfa_challenge := {
  c_id : string; c_user_id : string; c_token_hash : string; c_purpose : string;
  primary_method : string; redirect_path : option string; c_expires_at : Z;
  c_used_at : option Z; c_invalidated_at : option Z; c_attempt_count : Z;
  c_ip_address : option string; c_user_agent : option string
}.

(** [UserWebAuthnCredential] *)
Record webauthn_credential := {
  w_id : string; w_user_id : string; credential_id : string; public_key : string;
  sign_count : Z; w_name : string; aaguid : option string; transports : option (list json);
  device_type : option string; backed_up : option bool; w_created_at : Z;
  w_last_used_at : option Z
}.

(** [WebAuthnChallenge] *)
Record webauthn_challenge := {
  wc_id : string; wc_user_id : option string; mfa_challenge_id : option string;
  wc_token_hash : string; challenge : string; wc_purpose : string; wc_expires_at : Z;
  wc_used_at : option Z; wc_invalidated_at : option Z; wc_attempt_count : Z;
  wc_ip_address : option string; wc_user_agent : option string
}.

(** [AuthAuditLog] *)
Record audit_log := {
  actor_user_id : option string; target_user_id : option string; action : string;
  resource_id : option string
}.

(** The tables of the auth schema. *)
Record db := {
  users : list user; user_sessions : list user_session;
  verification_tokens : list verification_token; reset_tokens : list reset_token;
  oauth_accounts : list oauth_account; mfa_methods : list mfa_method;
  recovery_codes : list recovery_code; mfa_challenges : list mfa_challenge;
  webauthn_credentials : list webauthn_credential;
  webauthn_challenges : list webauthn_challenge; audit_logs : list audit_log
}.

Definition on_users (f : list user -> list user) (d : db) : db :=
  {|
    users := f (users d); user_sessions := user_sessions d;
    verification_tokens := verification_tokens d; reset_tokens := reset_tokens d;
    oauth_accounts := oauth_accounts d; mfa_methods := mfa_methods d;
    recovery_codes := recovery_codes d; mfa_challenges := mfa_challenges d;
    webauthn_credentials := webauthn_credentials d;
    webauthn_challenges := webauthn_challenges d; audit_logs := audit_logs d
  |}.

Definition on_user_sessions (f : list user_session -> list user_session) (d : db) : db :=
  {|
    users := users d; user_sessions := f (user_sessions d);
    verification_tokens := verification_tokens d; reset_tokens := reset_tokens d;
    oauth_accounts := oauth_accounts d; mfa_methods := mfa_methods d;
    recovery_codes := recovery_codes d; mfa_challenges := mfa_challenges d;
    webauthn_credentials := webauthn_credentials d;
    webauthn_challenges := webauthn_challenges d; audit_logs := audit_logs d
  |}.

Definition on_verification_tokens (f : list verification_token -> list verification_token) (d : db) : db :=
  {|
    users := users d; user_sessions := user_sessions d;
    verification_tokens := f (verification_tokens d); reset_tokens := reset_tokens d;
    oauth_accounts := oauth_accounts d; mfa_methods := mfa_methods d;
    recovery_codes := recovery_codes d; mfa_challenges := mfa_challenges d;
    webauthn_credentials := webauthn_credentials d;
    webauthn_challenges := webauthn_challenges d; audit_logs := audit_logs d
  |}.

Definition on_reset_tokens (f : list reset_token -> list reset_token) (d : db) : db :=
  {|
    users := users d; user_sessions := user_sessions d;
    verification_tokens := verification_tokens d; reset_tokens := f (reset_tokens d);
    oauth_accounts := oauth_accounts d; mfa_methods := mfa_methods d;
    recovery_codes := recovery_codes d; mfa_challenges := mfa_challenges d;
    webauthn_credentials := webauthn_credentials d;
    webauthn_challenges := webauthn_challenges d; audit_logs := audit_logs d
  |}.

Definition on_oauth_accounts (f : list oauth_account -> list oauth_account) (d : db) : db :=
  {|
    users := users d; user_sessions := user_sessions d;
    verification_tokens := verification_tokens d; reset_tokens := reset_tokens d;
    oauth_accounts := f (oauth_accounts d); mfa_methods := mfa_methods d;
    recovery_codes := recovery_codes d; mfa_challenges := mfa_challenges d;
    webauthn_credentials := webauthn_credentials d;
    webauthn_challenges := webauthn_challenges d; audit_logs := audit_logs d
  |}.

Definition on_mfa_methods (f : list mfa_method -> list mfa_method) (d : db) : db :=
  {|
    users := users d; user_sessions := user_sessions d;
    verification_tokens := verification_tokens d; reset_tokens := reset_tokens d;
    oauth_accounts := oauth_accounts d; mfa_methods := f (mfa_methods d);
    recovery_codes := recovery_codes d; mfa_challenges := mfa_challenges d;
    webauthn_credentials := webauthn_credentials d;
    webauthn_challenges := webauthn_challenges d; audit_logs := audit_logs d
  |}.

Definition on_recovery_codes (f : list recovery_code -> list recovery_code) (d : db) : db :=
  {|
    users := users d; user_sessions := user_sessions d;
    verification_tokens := verification_tokens d; reset_tokens := reset_tokens d;
    oauth_accounts := oauth_accounts d; mfa_methods := mfa_methods d;
    recovery_codes := f (recovery_codes d); mfa_challenges := mfa_challenges d;
    webauthn_credentials := webauthn_credentials d;
    webauthn_challenges := webauthn_challenges d; audit_logs := audit_logs d
  |}.

Definition on_mfa_challenges (f : list mfa_challenge -> list mfa_challenge) (d : db) : db :=
  {|
    users := users d; user_sessions := user_sessions d;
    verification_tokens := verification_tokens d; reset_tokens := reset_tokens d;
    oauth_accounts := oauth_accounts d; mfa_methods := mfa_methods d;
    recovery_codes := recovery_codes d; mfa_challenges := f (mfa_challenges d);
    webauthn_credentials := webauthn_credentials d;
    webauthn_challenges := webauthn_challenges d; audit_logs := audit_logs d
  |}.

Definition on_webauthn_credentials (f : list webauthn_credential -> list webauthn_credential) (d : db) : db :=
  {|
    users := users d; user_sessions := user_sessions d;
    verification_tokens := verification_tokens d; reset_tokens := reset_tokens d;
    oauth_accounts := oauth_accounts d; mfa_methods := mfa_methods d;
    recovery_codes := recovery_codes d; mfa_challenges := mfa_challenges d;
    webauthn_credentials := f (webauthn_credentials d);
    webauthn_challenges := webauthn_challenges d; audit_logs := audit_logs d
  |}.

Definition on_webauthn_challenges (f : list webauthn_challenge -> list webauthn_challenge) (d : db) : db :=
  {|
    users := users d; user_sessions := user_sessions d;
    verification_tokens := verification_tokens d; reset_tokens := reset_tokens d;
    oauth_accounts := oauth_accounts d; mfa_methods := mfa_methods d;
    recovery_codes := recovery_codes d; mfa_challenges := mfa_challenges d;
    webauthn_credentials := webauthn_credentials d;
    webauthn_challenges := f (webauthn_challenges d); audit_logs := audit_logs d
  |}.

Definition on_audit_logs (f : list audit_log -> list audit_log) (d : db) : db :=
  {|
    users := users d; user_sessions := user_sessions d;
    verification_tokens := verification_tokens d; reset_tokens := reset_tokens d;
    oauth_accounts := oauth_accounts d; mfa_methods := mfa_methods d;
    recovery_codes := recovery_codes d; mfa_challenges := mfa_challenges d;
    webauthn_credentials := webauthn_credentials d;
    webauthn_challenges := webauthn_challenges d; audit_logs := f (audit_logs d)
  |}.

Definition empty_db : db :=
  {| users := []; user_sessions := []; verification_tokens := []; reset_tokens := [];
     oauth_accounts := []; mfa_methods := []; recovery_codes := []; mfa_challenges := [];
     webauthn_credentials := []; webauthn_challenges := []; audit_logs := [] |}.

(** ** Assignments to attributes *)

Definition set_email (v : string) (x : user) : user :=
  {|
    user_id := user_id x; email := v; password_hash := password_hash x;
    profile_of := profile_of x; is_active := is_active x; deactivated_at := deactivated_at x;
    deactivation_reason := deactivation_reason x; is_verified := is_verified x;
    email_pending := email_pending x; is_superuser := is_superuser x;
    user_updated_at := user_updated_at x; last_login_at := last_login_at x
  |}.

Definition set_password_hash (v : option string) (x : user) : user :=
  {|
    user_id := user_id x; email := email x; password_hash := v; profile_of := profile_of x;
    is_active := is_active x; deactivated_at := deactivated_at x;
    deactivation_reason := deactivation_reason x; is_verified := is_verified x;
    email_pending := email_pending x; is_superuser := is_superuser x;
    user_updated_at := user_updated_at x; last_login_at := last_login_at x
  |}.

Definition set_is_active (v : bool) (x : user) : user :=
  {|
    user_id := user_id x; email := email x; password_hash := password_hash x;
    profile_of := profile_of x; is_active := v; deactivated_at := deactivated_at x;
    deactivation_reason := deactivation_reason x; is_verified := is_verified x;
    email_pending := email_pending x; is_superuser := is_superuser x;
    user_updated_at := user_updated_at x; last_login_at := last_login_at x
  |}.

Definition set_deactivated_at (v : option Z) (x : user) : user :=
  {|
    user_id := user_id x; email := email x; password_hash := password_hash x;
    profile_of := profile_of x; is_active := is_active x; deactivated_at := v;
    deactivation_reason := deactivation_reason x; is_verified := is_verified x;
    email_pending := email_pending x; is_superuser := is_superuser x;
    user_updated_at := user_updated_at x; last_login_at := last_login_at x
  |}.

Definition set_deactivation_reason (v : option AccountDeactivationReason) (x : user) : user :=
  {|
    user_id := user_id x; email := email x; password_hash := password_hash x;
    profile_of := profile_of x; is_active := is_active x; deactivated_at := deactivated_at x;
    deactivation_reason := v; is_verified := is_verified x; email_pending := email_pending x;
    is_superuser := is_superuser x; user_updated_at := user_updated_at x;
    last_login_at := last_login_at x
  |}.

Definition set_is_verified (v : bool) (x : user) : user :=
  {|
    user_id := user_id x; email := email x; password_hash := password_hash x;
    profile_of := profile_of x; is_active := is_active x; deactivated_at := deactivated_at x;
    deactivation_reason := deactivation_reason x; is_verified := v;
    email_pending := email_pending x; is_superuser := is_superuser x;
    user_updated_at := user_updated_at x; last_login_at := last_login_at x
  |}.

Definition set_email_pending (v : bool) (x : user) : user :=
  {|
    user_id := user_id x; email := email x; password_hash := password_hash x;
    profile_of := profile_of x; is_active := is_active x; deactivated_at := deactivated_at x;
    deactivation_reason := deactivation_reason x; is_verified := is_verified x;
    email_pending := v; is_superuser := is_superuser x; user_updated_at := user_updated_at x;
    last_login_at := last_login_at x
  |}.

Definition set_user_updated_at (v : Z) (x : user) : user :=
  {|
    user_id := user_id x; email := email x; password_hash := password_hash x;
    profile_of := profile_of x; is_active := is_active x; deactivated_at := deactivated_at x;
    deactivation_reason := deactivation_reason x; is_verified := is_verified x;
    email_pending := email_pending x; is_superuser := is_superuser x; user_updated_at := v;
    last_login_at := last_login_at x
  |}.

Definition set_last_login_at (v : option Z) (x : user) : user :=
  {|
    user_id := user_id x; email := email x; password_hash := password_hash x;
    profile_of := profile_of x; is_active := is_active x; deactivated_at := deactivated_at x;
    deactivation_reason := deactivation_reason x; is_verified := is_verified x;
    email_pending := email_pending x; is_superuser := is_superuser x;
    user_updated_at := user_updated_at x; last_login_at := v
  |}.

Definition set_s_last_used_at (v : option Z) (x : user_session) : user_session :=
  {|
    s_id := s_id x; s_user_id := s_user_id x; s_token_hash := s_token_hash x; jti := jti x;
    family_id := family_id x; s_expires_at := s_expires_at x; s_last_used_at := v;
    revoked_at := revoked_at x; rotated_at := rotated_at x;
    replaced_by_jti := replaced_by_jti x; revocation_reason := revocation_reason x;
    s_ip_address := s_ip_address x; s_user_agent := s_user_agent x
  |}.

Definition set_revoked_at (v : option Z) (x : user_session) : user_session :=
  {|
    s_id := s_id x; s_user_id := s_user_id x; s_token_hash := s_token_hash x; jti := jti x;
    family_id := family_id x; s_expires_at := s_expires_at x;
    s_last_used_at := s_last_used_at x; revoked_at := v; rotated_at := rotated_at x;
    replaced_by_jti := replaced_by_jti x; revocation_reason := revocation_reason x;
    s_ip_address := s_ip_address x; s_user_agent := s_user_agent x
  |}.

Definition set_rotated_at (v : option Z) (x : user_session) : user_session :=
  {|
    s_id := s_id x; s_user_id := s_user_id x; s_token_hash := s_token_hash x; jti := jti x;
    family_id := family_id x; s_expires_at := s_expires_at x;
    s_last_used_at := s_last_used_at x; revoked_at := revoked_at x; rotated_at := v;
    replaced_by_jti := replaced_by_jti x; revocation_reason := revocation_reason x;
    s_ip_address := s_ip_address x; s_user_agent := s_user_agent x
  |}.

Definition set_replaced_by_jti (v : option string) (x : user_session) : user_session :=
  {|
    s_id := s_id x; s_user_id := s_user_id x; s_token_hash := s_token_hash x; jti := jti x;
    family_id := family_id x; s_expires_at := s_expires_at x;
    s_last_used_at := s_last_used_at x; revoked_at := revoked_at x; rotated_at := rotated_at x;
    replaced_by_jti := v; revocation_reason := revocation_reason x;
    s_ip_address := s_ip_address x; s_user_agent := s_user_agent x
  |}.

Definition set_revocation_reason (v : option string) (x : user_session) : user_session :=
  {|
    s_id := s_id x; s_user_id := s_user_id x; s_token_hash := s_token_hash x; jti := jti x;
    family_id := family_id x; s_expires_at := s_expires_at x;
    s_last_used_at := s_last_used_at x; revoked_at := revoked_at x; rotated_at := rotated_at x;
    replaced_by_jti := replaced_by_jti x; revocation_reason := v;
    s_ip_address := s_ip_address x; s_user_agent := s_user_agent x
  |}.

Definition set_v_used_at (v : option Z) (x : verification_token) : verification_token :=
  {|
    v_id := v_id x; v_user_id := v_user_id x; v_token_hash := v_token_hash x;
    v_expires_at := v_expires_at x; v_used_at := v
  |}.

Definition set_r_used_at (v : option Z) (x : reset_token) : reset_token :=
  {|
    r_id := r_id x; r_user_id := r_user_id x; r_token_hash := r_token_hash x;
    r_expires_at := r_expires_at x; r_used_at := v; r_invalidated_at := r_invalidated_at x;
    r_requested_ip := r_requested_ip x
  |}.

Definition set_r_invalidated_at (v : option Z) (x : reset_token) : reset_token :=
  {|
    r_id := r_id x; r_user_id := r_user_id x; r_token_hash := r_token_hash x;
    r_expires_at := r_expires_at x; r_used_at := r_used_at x; r_invalidated_at := v;
    r_requested_ip := r_requested_ip x
  |}.

Definition set_provider_email (v : option string) (x : oauth_account) : oauth_account :=
  {|
    o_id := o_id x; o_user_id := o_user_id x; provider := provider x;
    provider_subject := provider_subject x; provider_email := v;
    provider_username := provider_username x; provider_avatar_url := provider_avatar_url x;
    provider_profile_url := provider_profile_url x; o_updated_at := o_updated_at x;
    o_last_login_at := o_last_login_at x
  |}.

Definition set_provider_username (v : option string) (x : oauth_account) : oauth_account :=
  {|
    o_id := o_id x; o_user_id := o_user_id x; provider := provider x;
    provider_subject := provider_subject x; provider_email := provider_email x;
    provider_username := v; provider_avatar_url := provider_avatar_url x;
    provider_profile_url := provider_profile_url x; o_updated_at := o_updated_at x;
    o_last_login_at := o_last_login_at x
  |}.

Definition set_provider_avatar_url (v : option string) (x : oauth_account) : oauth_account :=
  {|
    o_id := o_id x; o_user_id := o_user_id x; provider := provider x;
    provider_subject := provider_subject x; provider_email := provider_email x;
    provider_username := provider_username x; provider_avatar_url := v;
    provider_profile_url := provider_profile_url x; o_updated_at := o_updated_at x;
    o_last_login_at := o_last_login_at x
  |}.

Definition set_provider_profile_url (v : option string) (x : oauth_account) : oauth_account :=
  {|
    o_id := o_id x; o_user_id := o_user_id x; provider := provider x;
    provider_subject := provider_subject x; provider_email := provider_email x;
    provider_username := provider_username x; provider_avatar_url := provider_avatar_url x;
    provider_profile_url := v; o_updated_at := o_updated_at x;
    o_last_login_at := o_last_login_at x
  |}.

Definition set_o_updated_at (v : Z) (x : oauth_account) : oauth_account :=
  {|
    o_id := o_id x; o_user_id := o_user_id x; provider := provider x;
    provider_subject := provider_subject x; provider_email := provider_email x;
    provider_username := provider_username x; provider_avatar_url := provider_avatar_url x;
    provider_profile_url := provider_profile_url x; o_updated_at := v;
    o_last_login_at := o_last_login_at x
  |}.

Definition set_o_last_login_at (v : option Z) (x : oauth_account) : oauth_account :=
  {|
    o_id := o_id x; o_user_id := o_user_id x; provider := provider x;
    provider_subject := provider_subject x; provider_email := provider_email x;
    provider_username := provider_username x; provider_avatar_url := provider_avatar_url x;
    provider_profile_url := provider_profile_url x; o_updated_at := o_updated_at x;
    o_last_login_at := v
  |}.

Definition set_secret_encrypted (v : string) (x : mfa_method) : mfa_method :=
  {|
    m_id := m_id x; m_user_id := m_user_id x; m_type := m_type x; secret_encrypted := v;
    is_enabled := is_enabled x; verified_at := verified_at x;
    setup_expires_at := setup_expires_at x; m_last_used_at := m_last_used_at x;
    last_used_counter := last_used_counter x
  |}.

Definition set_is_enabled (v : bool) (x : mfa_method) : mfa_method :=
  {|
    m_id := m_id x; m_user_id := m_user_id x; m_type := m_type x;
    secret_encrypted := secret_encrypted x; is_enabled := v; verified_at := verified_at x;
    setup_expires_at := setup_expires_at x; m_last_used_at := m_last_used_at x;
    last_used_counter := last_used_counter x
  |}.

Definition set_verified_at (v : option Z) (x : mfa_method) : mfa_method :=
  {|
    m_id := m_id x; m_user_id := m_user_id x; m_type := m_type x;
    secret_encrypted := secret_encrypted x; is_enabled := is_enabled x; verified_at := v;
    setup_expires_at := setup_expires_at x; m_last_used_at := m_last_used_at x;
    last_used_counter := last_used_counter x
  |}.

Definition set_setup_expires_at (v : option Z) (x : mfa_method) : mfa_method :=
  {|
    m_id := m_id x; m_user_id := m_user_id x; m_type := m_type x;
    secret_encrypted := secret_encrypted x; is_enabled := is_enabled x;
    verified_at := verified_at x; setup_expires_at := v; m_last_used_at := m_last_used_at x;
    last_used_counter := last_used_counter x
  |}.

Definition set_m_last_used_at (v : option Z) (x : mfa_method) : mfa_method :=
  {|
    m_id := m_id x; m_user_id := m_user_id x; m_type := m_type x;
    secret_encrypted := secret_encrypted x; is_enabled := is_enabled x;
    verified_at := verified_at x; setup_expires_at := setup_expires_at x; m_last_used_at := v;
    last_used_counter := last_used_counter x
  |}.

Definition set_last_used_counter (v : option Z) (x : mfa_method) : mfa_method :=
  {|
    m_id := m_id x; m_user_id := m_user_id x; m_type := m_type x;
    secret_encrypted := secret_encrypted x; is_enabled := is_enabled x;
    verified_at := verified_at x; setup_expires_at := setup_expires_at x;
    m_last_used_at := m_last_used_at x; last_used_counter := v
  |}.

Definition set_rc_used_at (v : option Z) (x : recovery_code) : recovery_code :=
  {|
    rc_id := rc_id x; rc_user_id := rc_user_id x; code_hash := code_hash x; rc_used_at := v
  |}.

Definition set_c_used_at (v : option Z) (x : mfa_challenge) : mfa_challenge :=
  {|
    c_id := c_id x; c_user_id := c_user_id x; c_token_hash := c_token_hash x;
    c_purpose := c_purpose x; primary_method := primary_method x;
    redirect_path := redirect_path x; c_expires_at := c_expires_at x; c_used_at := v;
    c_invalidated_at := c_invalidated_at x; c_attempt_count := c_attempt_count x;
    c_ip_address := c_ip_address x; c_user_agent := c_user_agent x
  |}.

Definition set_c_invalidated_at (v : option Z) (x : mfa_challenge) : mfa_challenge :=
  {|
    c_id := c_id x; c_user_id := c_user_id x; c_token_hash := c_token_hash x;
    c_purpose := c_purpose x; primary_method := primary_method x;
    redirect_path := redirect_path x; c_expires_at := c_expires_at x; c_used_at := c_used_at x;
    c_invalidated_at := v; c_attempt_count := c_attempt_count x;
    c_ip_address := c_ip_address x; c_user_agent := c_user_agent x
  |}.

Definition set_c_attempt_count (v : Z) (x : mfa_challenge) : mfa_challenge :=
  {|
    c_id := c_id x; c_user_id := c_user_id x; c_token_hash := c_token_hash x;
    c_purpose := c_purpose x; primary_method := primary_method x;
    redirect_path := redirect_path x; c_expires_at := c_expires_at x; c_used_at := c_used_at x;
    c_invalidated_at := c_invalidated_at x; c_attempt_count := v;
    c_ip_address := c_ip_address x; c_user_agent := c_user_agent x
  |}.

Definition set_sign_count (v : Z) (x : webauthn_credential) : webauthn_credential :=
  {|
    w_id := w_id x; w_user_id := w_user_id x; credential_id := credential_id x;
    public_key := public_key x; sign_count := v; w_name := w_name x; aaguid := aaguid x;
    transports := transports x; device_type := device_type x; backed_up := backed_up x;
    w_created_at := w_created_at x; w_last_used_at := w_last_used_at x
  |}.

Definition set_w_name (v : string) (x : webauthn_credential) : webauthn_credential :=
  {|
    w_id := w_id x; w_user_id := w_user_id x; credential_id := credential_id x;
    public_key := public_key x; sign_count := sign_count x; w_name := v; aaguid := aaguid x;
    transports := transports x; device_type := device_type x; backed_up := backed_up x;
    w_created_at := w_created_at x; w_last_used_at := w_last_used_at x
  |}.

Definition set_device_type (v : option string) (x : webauthn_credential) : webauthn_credential :=
  {|
    w_id := w_id x; w_user_id := w_user_id x; credential_id := credential_id x;
    public_key := public_key x; sign_count := sign_count x; w_name := w_name x;
    aaguid := aaguid x; transports := transports x; device_type := v; backed_up := backed_up x;
    w_created_at := w_created_at x; w_last_used_at := w_last_used_at x
  |}.

Definition set_backed_up (v : option bool) (x : webauthn_credential) : webauthn_credential :=
  {|
    w_id := w_id x; w_user_id := w_user_id x; credential_id := credential_id x;
    public_key := public_key x; sign_count := sign_count x; w_name := w_name x;
    aaguid := aaguid x; transports := transports x; device_type := device_type x;
    backed_up := v; w_created_at := w_created_at x; w_last_used_at := w_last_used_at x
  |}.

Definition set_w_last_used_at (v : option Z) (x : webauthn_credential) : webauthn_credential :=
  {|
    w_id := w_id x; w_user_id := w_user_id x; credential_id := credential_id x;
    public_key := public_key x; sign_count := sign_count x; w_name := w_name x;
    aaguid := aaguid x; transports := transports x; device_type := device_type x;
    backed_up := backed_up x; w_created_at := w_created_at x; w_last_used_at := v
  |}.

Definition set_wc_used_at (v : option Z) (x : webauthn_challenge) : webauthn_challenge :=
  {|
    wc_id := wc_id x; wc_user_id := wc_user_id x; mfa_challenge_id := mfa_challenge_id x;
    wc_token_hash := wc_token_hash x; challenge := challenge x; wc_purpose := wc_purpose x;
    wc_expires_at := wc_expires_at x; wc_used_at := v;
    wc_invalidated_at := wc_invalidated_at x; wc_attempt_count := wc_attempt_count x;
    wc_ip_address := wc_ip_address x; wc_user_agent := wc_user_agent x
  |}.

Definition set_wc_invalidated_at (v : option Z) (x : webauthn_challenge) : webauthn_challenge :=
  {|
    wc_id := wc_id x; wc_user_id := wc_user_id x; mfa_challenge_id := mfa_challenge_id x;
    wc_token_hash := wc_token_hash x; challenge := challenge x; wc_purpose := wc_purpose x;
    wc_expires_at := wc_expires_at x; wc_used_at := wc_used_at x; wc_invalidated_at := v;
    wc_attempt_count := wc_attempt_count x; wc_ip_address := wc_ip_address x;
    wc_user_agent := wc_user_agent x
  |}.

Definition set_wc_attempt_count (v : Z) (x : webauthn_challenge) : webauthn_challenge :=
  {|
    wc_id := wc_id x; wc_user_id := wc_user_id x; mfa_challenge_id := mfa_challenge_id x;
    wc_token_hash := wc_token_hash x; challenge := challenge x; wc_purpose := wc_purpose x;
    wc_expires_at := wc_expires_at x; wc_used_at := wc_used_at x;
    wc_invalidated_at := wc_invalidated_at x; wc_attempt_count := v;
    wc_ip_address := wc_ip_address x; wc_user_agent := wc_user_agent x
  |}.

Definition set_actor_user_id (v : option string) (x : audit_log) : audit_log :=
  {|
    actor_user_id := v; target_user_id := target_user_id x; action := action x;
    resource_id := resource_id x
  |}.

Definition set_target_user_id (v : option string) (x : audit_log) : audit_log :=
  {|
    actor_user_id := actor_user_id x; target_user_id := v; action := action x;
    resource_id := resource_id x
  |}.

(** ** SQL statements *)

(** [scalar(select(...).where(p))] *)
Definition first {A} (p : A -> bool) (l : list A) : option A := List.find p l.

(** [update(...).where(p).values(f)] *)
Definition update_where {A} (p : A -> bool) (f : A -> A) (l : list A) : list A :=
  map (fun x => if p x then f x else x) l.

(** [delete(...).where(p)] *)
Definition delete_where {A} (p : A -> bool) (l : list A) : list A :=
  List.filter (fun x => negb (p x)) l.

Definition insert {A} (x : A) (l : list A) : list A := l ++ [x].

(** [column == value] and [column.is_(None)] *)
Definition eqs (a b : string) : bool := String.eqb a b.
Definition none {A} (o : option A) : bool := match o with None => true | Some _ => false end.
Definition some {A} (o : option A) : bool := negb (none o).

Definition nodup {A} `{EqDecision A} (l : list A) : bool := bool_decide (NoDup l).

(** The primary keys of the models. *)
Definition keys_ok (d : db) : bool :=
  nodup (map user_id (users d))
  && nodup (map s_id (user_sessions d))
  && nodup (map v_id (verification_tokens d))
  && nodup (map r_id (reset_tokens d))
  && nodup (map o_id (oauth_accounts d))
  && nodup (map m_id (mfa_methods d))
  && nodup (map rc_id (recovery_codes d))
  && nodup (map c_id (mfa_challenges d))
  && nodup (map w_id (webauthn_credentials d))
  && nodup (map wc_id (webauthn_challenges d)).

(** The primary keys, unique constraints and unique indexes of the models. *)
Definition constraints_ok (d : db) : bool :=
  keys_ok d
  && nodup (map (fun u => lower (email u)) (users d))
  && nodup (map jti (user_sessions d))
  && nodup (map (fun o => (o_user_id o, provider o)) (oauth_accounts d))
  && nodup (map (fun o => (provider o, provider_subject o)) (oauth_accounts d))
  && nodup (map m_user_id (List.filter (fun m => eqs (m_type m) "totp") (mfa_methods d)))
  && nodup (map code_hash (recovery_codes d))
  && nodup (map c_token_hash (mfa_challenges d))
  && nodup (map credential_id (webauthn_credentials d))
  && nodup (map wc_token_hash (webauthn_challenges d)).

#[global] Arguments keys_ok _ : simpl never.
#[global] Arguments constraints_ok _ : simpl never.

(** ** Settings and libraries *)

Record settings := {
  access_token_expire_minutes : Z; refresh_token_expire_days : Z;
  refresh_token_reuse_grace_seconds : Z; email_verification_expire_hours : Z;
  password_reset_expire_minutes : Z; account_deletion_recent_auth_seconds : Z;
  mfa_challenge_expire_seconds : Z; mfa_max_attempts : Z; mfa_totp_valid_window : Z;
  mfa_recovery_code_count : nat; mfa_setup_expire_seconds : Z; mfa_recovery_pepper : string;
  mfa_encryption_key : option string; reauth_max_age_seconds : Z;
  webauthn_challenge_expire_seconds : Z; webauthn_rp_id : string; webauthn_origin : string;
  jwt_secret_key : string; jwt_algorithm : string; jwt_issuer : string; jwt_audience : string;
  auth_access_cookie_name : string; auth_refresh_cookie_name : string; auth_csrf_cookie_name : string;
  cors_origin_list : list string; app_base_url : string; refresh_require_origin : bool;
  production : bool; auth_cookie_path : string
}.

(** The claims of a token; [auth_time] and [amr] when they have the right type. *)
Record claims := {
  sub : string; token_type : string; iat : Z; exp : Z; claim_jti : string; iss : string; aud : string;
  claim_email : option string; role : option string; auth_time : option Z; amr : option (list string)
}.

Inductive jwt_error := ExpiredSignatureError | PyJWTError.

(** What [verify_authentication_response] returns, or [verify_registration_response]. *)
Record webauthn_verification := {
  ver_credential_id : string; ver_public_key : string; ver_sign_count : Z; ver_aaguid : option string;
  ver_device_type : string; ver_backed_up : bool
}.

(** The arguments of [webauthn_register] are credential, expected_challenge,
    expected_rp_id, expected_origin and require_user_verification; those of
    [webauthn_authenticate] are credential, expected_challenge, expected_rp_id,
    expected_origin, credential_public_key, credential_current_sign_count and
    require_user_verification.  [None] is a [WebAuthnException].  A credential is
    the JSON object the browser sent. *)
Record libs := {
  sha256_hex : string -> string;
  hmac_sha256_hex : string -> string -> string;
  jwt_encode : claims -> string -> string -> string;
  jwt_decode : Z -> string -> string -> string -> string -> string -> res jwt_error claims;
  pw_hash : string -> string;
  pw_verify : string -> string -> bool;
  fernet_encrypt : string -> string -> option string;
  fernet_decrypt : string -> string -> option string;
  totp_at : string -> Z -> string;
  base64url_to_bytes : string -> option string;
  uuid_bytes : string -> string;
  webauthn_register : members -> string -> string -> string -> bool -> option webauthn_verification;
  webauthn_authenticate : members -> string -> string -> string -> string -> Z -> bool -> option webauthn_verification;
  authenticator_transport : string -> bool
}.

(** ** Requests *)

Record env := {
  now : Z;
  supply : nat -> string;
  conflict : nat -> bool;
  client_host : option string;
  header : string -> option string;
  cookie : string -> option string;
  request_method : string
}.

Definition second : Z := 1000000.
Definition minute : Z := 60 * second.
Definition hour : Z := 60 * minute.
Definition day : Z := 24 * hour.

(** [int(t.timestamp())] *)
Definition timestamp (t : Z) : Z := t / second.

Inductive http_exn :=
| HTTPException (status : Z) (code : string)
| IntegrityError
| InternalError (what : string).

(** A cookie of the response. *)
Record cookie_out := {
  co_name : string; co_value : string; co_httponly : bool; co_path : string; co_max_age : Z
}.

(** Messages sent: the kind, the receiver and the token in the link. *)
Record mail := { mail_kind : string; mail_to : string; mail_token : option string }.

Record world := {
  committed : db; working : db; draws : nat; commits : nat; mails : list mail;
  set_cookies : list cookie_out
}.

Definition W (A : Type) : Type := world -> res http_exn A * world.

Definition ret {A} (a : A) : W A := fun w => (Ok a, w).
Definition raise {A} (e : http_exn) : W A := fun w => (Err e, w).
Definition bind {A B} (m : W A) (k : A -> W B) : W B := fun w =>
  match m w with (Ok a, w) => k a w | (Err e, w) => (Err e, w) end.

Notation "'do' x '<-' m ';' k" := (bind m (fun x => k))
  (at level 10, x pattern, m at level 100, k at level 200) : py_scope.
Notation "m '>>' k" := (bind m (fun _ => k))
  (at level 100, k at level 200, right associativity) : py_scope.

Definition catch {A} (m : W A) (h : http_exn -> option (W A)) : W A := fun w =>
  match m w with
  | (Ok a, w) => (Ok a, w)
  | (Err e, w) => match h e with Some k => k w | None => (Err e, w) end
  end.

Definition when (c : bool) (m : W unit) : W unit := if c then m else ret tt.

Definition auth_error (code : string) (status : Z) : http_exn := HTTPException status code.

Definition with_working (d : db) (w : world) : world :=
  {| committed := committed w; working := d; draws := draws w; commits := commits w;
     mails := mails w; set_cookies := set_cookies w |}.

Definition query {A} (f : db -> A) : W A := fun w => (Ok (f (working w)), w).
Definition execute (f : db -> db) : W unit := fun w => (Ok tt, with_working (f (working w)) w).

Definition send (m : mail) : W unit := fun w =>
  (Ok tt, {| committed := committed w; working := working w; draws := draws w; commits := commits w;
             mails := mails w ++ [m]; set_cookies := set_cookies w |}).

Definition set_cookie (c : cookie_out) : W unit := fun w =>
  (Ok tt, {| committed := committed w; working := working w; draws := draws w; commits := commits w;
             mails := mails w; set_cookies := set_cookies w ++ [c] |}).

Definition rollback : W unit := fun w => (Ok tt, with_working (committed w) w).

Section Request.
Context (e : env).

(** The next value of [uuid4] or of [secrets]. *)
Definition draw : W string := fun w =>
  (Ok (supply e (draws w)),
   {| committed := committed w; working := working w; draws := S (draws w); commits := commits w;
      mails := mails w; set_cookies := set_cookies w |}).

(** A commit fails when a constraint is violated, by this transaction or
    together with a concurrent one. *)
Definition commit : W unit := fun w =>
  let bad := conflict e (commits w) || negb (constraints_ok (working w)) in
  ((if bad then Err IntegrityError else Ok tt),
   {| committed := if bad then committed w else working w; working := working w; draws := draws w;
      commits := S (commits w); mails := mails w; set_cookies := set_cookies w |}).

(** The request's session is closed at its end: what was not committed is lost. *)
Definition run {A} (m : W A) (w : world) : res http_exn A * world :=
  let '(r, w) := m (with_working (committed w) w) in (r, with_working (committed w) w).

End Request.

(** ** Reasoning about requests *)

Lemma bind_Ok {A B} (m : W A) (k : A -> W B) w b w' :
  bind m k w = (Ok b, w') <-> exists a w1, m w = (Ok a, w1) /\ k a w1 = (Ok b, w').
Proof.
  unfold bind. destruct (m w) as [[a|x] w1]; split.
  - eauto.
  - by intros (? & ? & [= <- <-] & ?).
  - done.
  - by intros (? & ? & ? & _).
Qed.

Definition after (P : db -> db -> Prop) {A} (r : res http_exn A * world) : Prop :=
  P (committed (snd r)) (working (snd r)).

Lemma raise_after_commit {A} e x w a w' : (commit e >> @raise A x) w <> (Ok a, w').
Proof. unfold bind, commit, raise. by destruct (conflict e (commits w) || _). Qed.

Lemma catch_return {A} (m : W A) h w a w' : m w = (Ok a, w') -> catch m h w = (Ok a, w').
Proof. unfold catch. by intros ->. Qed.

(** [always P m]: if [P] holds of the committed and working databases before,
    it holds after, whatever the outcome. *)
Definition always (P : db -> db -> Prop) {A} (m : W A) : Prop :=
  forall w, P (committed w) (working w) -> after P (m w).

Create HintDb always.

Section Always.
Context (P : db -> db -> Prop).

Lemma always_ret {A} (a : A) : always P (ret a).
Proof. by intros w. Qed.

Lemma always_raise {A} x : always P (@raise A x).
Proof. by intros w. Qed.

Lemma always_bind {A B} (m : W A) (k : A -> W B) :
  always P m -> (forall a, always P (k a)) -> always P (bind m k).
Proof.
  intros Hm Hk w Hw. specialize (Hm w Hw). unfold bind, after in *.
  destruct (m w) as [[a|x] w']; [by apply Hk | done].
Qed.

Lemma always_catch {A} (m : W A) h :
  always P m -> (forall x k, h x = Some k -> always P k) -> always P (catch m h).
Proof.
  intros Hm Hh w Hw. specialize (Hm w Hw). unfold catch, after in *.
  destruct (m w) as [[a|x] w']; [done|]. destruct (h x) as [k|] eqn:Hx; [by apply (Hh x) | done].
Qed.

(** A computation that never returns cuts the rest off. *)
Lemma after_never {A B} (m : W A) (k : A -> W B) w :
  (forall a w', m w <> (Ok a, w')) -> after P (m w) -> after P (bind m k w).
Proof.
  intros Hn Hm. unfold bind. destruct (m w) as [[a|x] w'] eqn:H; [by destruct (Hn a w')|].
  exact Hm.
Qed.

Lemma always_query {A} (f : db -> A) : always P (query f).
Proof. by intros w. Qed.

Lemma always_send m : always P (send m).
Proof. by intros w. Qed.

Lemma always_set_cookie c : always P (set_cookie c).
Proof. by intros w. Qed.

Lemma always_draw e : always P (draw e).
Proof. by intros w. Qed.

Lemma always_when c m : always P m -> always P (when c m).
Proof. destruct c; [done | intros _; apply always_ret]. Qed.

End Always.

#[export] Hint Resolve always_ret always_raise always_query always_send always_set_cookie always_draw
  always_when : always.

(** One connective of a service at a time. *)
Ltac always :=
  repeat match goal with
  | |- forall _, _ => intros ?
  | H : Some _ = Some _ |- _ => injection H as <-
  | H : None = Some _ |- _ => discriminate H
  | H : match ?x with _ => _ end = Some _ |- _ => destruct x
  | |- always _ (bind _ _) => apply always_bind
  | |- always _ (catch _ _) => apply always_catch
  | |- always _ (when _ _) => apply always_when
  | |- always _ (if ?c then _ else _) => destruct c eqn:?
  | |- always _ (match ?x with _ => _ end) => destruct x eqn:?
  | |- always _ _ => solve [eauto 3 with always]
  end.

Ltac w_inv :=
  repeat match goal with
  | H : bind _ _ _ = (Ok _, _) |- _ => apply bind_Ok in H as (? & ? & ? & ?); cbv beta in *
  | H : ret _ _ = (_, _) |- _ => unfold ret in H; injection H as H; try subst
  | H : raise _ _ = (Ok _, _) |- _ => discriminate H
  | H : query _ _ = (_, _) |- _ => unfold query in H; injection H as H; try subst
  | H : execute _ _ = (_, _) |- _ => unfold execute in H; injection H as H; try subst
  | H : send _ _ = (_, _) |- _ => unfold send in H; injection H as H; try subst
  | H : set_cookie _ _ = (_, _) |- _ => unfold set_cookie in H; injection H as H; try subst
  | H : draw _ _ = (_, _) |- _ => unfold draw in H; injection H as H; try subst
  end.

Lemma commit_Ok e w u w' :
  commit e w = (Ok u, w') -> committed w' = working w /\ working w' = working w /\ constraints_ok (working w) = true.
Proof.
  unfold commit. destruct (conflict e (commits w)); [done|].
  destruct (constraints_ok (working w)); [|done]. by intros [= _ <-].
Qed.

(** *** Invariants of the database *)

(** The invariant holds of what is committed and of what the request sees. *)
Definition both (I : db -> Prop) (c w : db) : Prop := I c /\ I w.

Lemma always_commit I e : always (both I) (commit e).
Proof.
  intros w [Hc Hw]. unfold commit, after, both. cbn [snd committed working].
  by destruct (conflict e (commits w) || _).
Qed.

Lemma always_rollback I : always (both I) rollback.
Proof. intros w [Hc Hw]. by split. Qed.

Lemma always_execute I f : (forall d, I d -> I (f d)) -> always (both I) (execute f).
Proof. intros Hf w [Hc Hw]. split; [done | by apply Hf]. Qed.

#[export] Hint Resolve always_commit always_rollback : always.

(** A request as a whole keeps what each of its statements keeps. *)
Lemma run_both I {A} (m : W A) w : always (both I) m -> I (committed w) -> I (committed (snd (run m w))).
Proof.
  intros Hm Hw. unfold run. specialize (Hm (with_working (committed w) w) (conj Hw Hw)).
  destruct (m (with_working (committed w) w)) as [r w'] eqn:H. apply Hm.
Qed.

Lemma first_Some {A} (p : A -> bool) l x : first p l = Some x -> x ∈ l /\ p x = true.
Proof. intros H. apply List.find_some in H as [Hin Hp]. by rewrite list_elem_of_In. Qed.

Lemma elem_of_update_where {A} (p : A -> bool) f l y :
  y ∈ update_where p f l <-> exists x, x ∈ l /\ y = if p x then f x else x.
Proof.
  unfold update_where. rewrite list_elem_of_fmap.
  split; intros (x & Hx & Hy); by exists x.
Qed.

(** An update relates each row to the row it was. *)
Lemma Forall2_update_where {A} (R : A -> A -> Prop) (p : A -> bool) f l :
  (forall x, x ∈ l -> R x (if p x then f x else x)) -> Forall2 R l (update_where p f l).
Proof.
  unfold update_where. induction l as [|x l IH]; intros HR; [constructor|].
  simpl. constructor; [apply HR; constructor|]. apply IH. intros y Hy. apply HR. by constructor.
Qed.

(** The rows selected after an update that deselects the rows it changes. *)
Lemma filter_update_where {A} (p q : A -> bool) f l :
  (forall x, p x = true -> q (f x) = false) ->
  List.filter q (update_where p f l) = List.filter (fun x => q x && negb (p x)) l.
Proof.
  intros Hf. induction l as [|x l IH]; simpl; [done|]. destruct (p x) eqn:Hp; simpl.
  - rewrite (Hf x Hp), andb_false_r. exact IH.
  - rewrite andb_true_r. destruct (q x); by rewrite IH.
Qed.

Lemma filter_app {A} (p : A -> bool) l k : List.filter p (l ++ k) = List.filter p l ++ List.filter p k.
Proof. apply List.filter_app. Qed.

(** Selecting fewer rows keeps keys distinct. *)
Lemma NoDup_filter_weaken {A B} (key : A -> B) (p q : A -> bool) l :
  (forall x, q x = true -> p x = true) ->
  NoDup (map key (List.filter p l)) -> NoDup (map key (List.filter q l)).
Proof.
  intros Hpq. induction l as [|x l IH]; simpl; [done|]. intros H.
  assert (Hin : forall k, k ∈ map key (List.filter q l) -> k ∈ map key (List.filter p l)).
  { intros k (y & -> & Hy)%list_elem_of_fmap. apply list_elem_of_fmap. exists y. split; [done|].
    rewrite list_elem_of_In in *. apply filter_In in Hy as [? ?]. apply filter_In. auto. }
  destruct (q x) eqn:Hq.
  - rewrite (Hpq x Hq) in H. simpl in *. inversion H; subst. constructor; [|by apply IH].
    intros Hx. by apply Hin in Hx.
  - apply IH. destruct (p x); [|done]. by inversion H.
Qed.

Lemma NoDup_map_snoc {A B} (key : A -> B) l x :
  NoDup (map key l) -> key x ∉ map key l -> NoDup (map key (l ++ [x])).
Proof.
  intros Hl Hx. rewrite map_app. simpl. apply NoDup_app. split_and!; [done| |apply NoDup_singleton].
  intros k Hk ->%list_elem_of_singleton. done.
Qed.

Lemma first_update_where {A} (p q : A -> bool) f l :
  (forall x, q (if p x then f x else x) = q x) ->
  first q (update_where p f l) = option_map (fun x => if p x then f x else x) (first q l).
Proof.
  intros Hf. unfold first. induction l as [|x l IH]; simpl; [done|]. rewrite Hf.
  destruct (q x); [done | exact IH].
Qed.

Lemma first_app {A} (p : A -> bool) l k :
  first p (l ++ k) = match first p l with Some x => Some x | None => first p k end.
Proof. unfold first. induction l as [|x l IH]; simpl; [done|]. by destruct (p x). Qed.

Lemma some_first {A} (p : A -> bool) l : some (first p l) = true <-> exists x, x ∈ l /\ p x = true.
Proof.
  split.
  - destruct (first p l) as [x|] eqn:H; [|done]. intros _. apply first_Some in H. by exists x.
  - intros (x & Hx & Hp). destruct (first p l) eqn:H; [done|]. rewrite list_elem_of_In in Hx.
    apply List.find_none with (x := x) in H; [|done]. congruence.
Qed.

Lemma elem_of_delete_where {A} (p : A -> bool) l x : x ∈ delete_where p l <-> x ∈ l /\ p x = false.
Proof. unfold delete_where. by rewrite !list_elem_of_In, filter_In, negb_true_iff. Qed.

(** The row just inserted is the one an update of its fresh key reaches. *)
Lemma update_where_insert {A} (key : A -> string) (f : A -> A) l x :
  ~ In (key x) (map key l) ->
  update_where (fun y => eqs (key y) (key x)) f (insert x l) = insert (f x) l.
Proof.
  unfold update_where, insert. rewrite map_app. simpl. unfold eqs. rewrite String.eqb_refl. intros Hx. f_equal.
  induction l as [|y l IH]; [done|]. simpl in *.
  destruct (String.eqb_spec (key y) (key x)) as [He|_]; [destruct Hx; by left|].
  f_equal. apply IH. intros Hin. apply Hx. by right.
Qed.

Lemma first_insert {A} (key : A -> string) l x :
  ~ In (key x) (map key l) -> first (fun y => eqs (key y) (key x)) (insert x l) = Some x.
Proof.
  unfold first, insert, eqs. induction l as [|y l IH]; simpl; intros Hx; [by rewrite String.eqb_refl|].
  destruct (String.eqb_spec (key y) (key x)) as [He|_]; [destruct Hx; by left|].
  apply IH. intros Hin. apply Hx. by right.
Qed.

(** A key column without duplicates, after an insertion. *)
Lemma nodup_insert {A} (key : A -> string) l x : NoDup (map key (insert x l)) -> ~ In (key x) (map key l).
Proof.
  unfold insert. rewrite map_app. simpl. intros H Hin. apply NoDup_app in H as (_ & H & _).
  rewrite <- list_elem_of_In in Hin. apply (H _ Hin). by constructor.
Qed.

Lemma constraints_users d : constraints_ok d = true -> NoDup (map user_id (users d)).
Proof. unfold constraints_ok, keys_ok, nodup. intros H. repeat (apply andb_true_iff in H as [H _]). by apply bool_decide_eq_true_1 in H. Qed.

Lemma constraints_oauth d :
  constraints_ok d = true ->
  NoDup (map o_id (oauth_accounts d)) /\ NoDup (map (fun o => (o_user_id o, provider o)) (oauth_accounts d)) /\
  NoDup (map (fun o => (provider o, provider_subject o)) (oauth_accounts d)).
Proof.
  unfold constraints_ok, keys_ok, nodup. intros H. repeat (apply andb_true_iff in H as [H ?]).
  split_and!; by eapply bool_decide_eq_true_1.
Qed.
