(* ===== verification/AuthService.v ===== *)
(** * Accounts, sessions and tokens: auth/services/auth_service.py

    Every function of the service, with the token helpers of auth/jwt.py,
    auth/tokens.py and auth/passwords.py.  A user object is the row with its
    identifier: assignments to its attributes are updates of that row. *)

From S2P Require Import Prelude PyText AuthDb.

Open Scope string_scope.
Open Scope list_scope.
Open Scope Z_scope.

Section Service.
Context (st : settings) (L : libs) (e : env).

(** ** Tokens and passwords *)

Definition generate_token : W string := draw e.
Definition hash_token (token : string) : string := sha256_hex L token.

(** [validate_password_policy]: the password is accepted. *)
Definition password_policy_ok (password : string) : bool := Nat.leb 12 (String.length password).

(** [None] is the [ValueError] of the policy. *)
Definition hash_password (password : string) : option string :=
  if password_policy_ok password then Some (pw_hash L password) else None.

Definition verify_password (password hashed : string) : bool := pw_verify L password hashed.

Definition access_type : string := "access".
Definition refresh_type : string := "refresh".

(** The token and its identifier; [extra] overrides no registered claim. *)
Definition create_jwt (subject type : string) (expires_delta : Z) (email role : option string)
    (auth_time : option Z) (amr : option (list string)) : W (string * string) :=
  do jti <- draw e;
  let payload :=
    {| sub := subject; token_type := type; iat := timestamp (now e);
       exp := timestamp (now e + expires_delta); claim_jti := jti; iss := jwt_issuer st;
       aud := jwt_audience st; claim_email := email; role := role; auth_time := auth_time; amr := amr |} in
  ret (jwt_encode L payload (jwt_secret_key st) (jwt_algorithm st), jti).

Definition decode_jwt (token expected_type : string) : res jwt_error claims :=
  match jwt_decode L (now e) (jwt_secret_key st) (jwt_algorithm st) (jwt_issuer st) (jwt_audience st) token with
  | Err x => Err x
  | Ok payload => if eqs (token_type payload) expected_type then Ok payload else Err PyJWTError
  end.

(** ** Users *)

Definition get_user_by_email (mail : string) : W (option user) :=
  query (fun d => first (fun u => eqs (lower (email u)) (lower mail)) (users d)).

Definition get_user_by_id (id : string) : W (option user) :=
  query (fun d => first (fun u => eqs (user_id u) id) (users d)).

Definition update_user (id : string) (f : user -> user) : W unit :=
  execute (on_users (update_where (fun u => eqs (user_id u) id) f)).

(** [session.refresh(user)] *)
Definition refresh_user (id : string) : W user :=
  do u <- get_user_by_id id;
  match u with Some u => ret u | None => raise (InternalError "InvalidRequestError") end.

Definition add_audit (actor target : option string) (action : string) (resource : option string) : W unit :=
  execute (on_audit_logs (insert
    {| actor_user_id := actor; target_user_id := target; action := action; resource_id := resource |})).

Definition inactive_account_error (u : user) : http_exn :=
  match deactivation_reason u with
  | Some SELF_DEACTIVATED => auth_error "ACCOUNT_SELF_DEACTIVATED" 403
  | _ => auth_error "ACCOUNT_DISABLED" 403
  end.

Definition ensure_user_can_authenticate (u : user) (audit_interactive_attempt : bool) : W unit :=
  if is_active u then ret tt
  else
    when audit_interactive_attempt
      (add_audit (Some (user_id u)) (Some (user_id u)) "LOGIN_BLOCKED" (Some (user_id u)) >> commit e) >>
    raise (inactive_account_error u).

Definition send_verification_email (u : user) (token : string) : W unit :=
  send {| mail_kind := "verify_email"; mail_to := email u; mail_token := Some token |}.
Definition send_password_reset_email (u : user) (token : string) : W unit :=
  send {| mail_kind := "password_reset"; mail_to := email u; mail_token := Some token |}.
Definition send_password_changed_email (u : user) : W unit :=
  send {| mail_kind := "password_changed"; mail_to := email u; mail_token := None |}.

Definition create_verification_token (u : user) : W string :=
  do token <- generate_token;
  do id <- draw e;
  execute (on_verification_tokens (insert
    {| v_id := id; v_user_id := user_id u; v_token_hash := hash_token token;
       v_expires_at := now e + email_verification_expire_hours st * hour; v_used_at := None |})) >>
  commit e >>
  ret token.

(** On an [IntegrityError]: rollback and the given error. *)
Definition on_conflict {A} (x : http_exn) (y : http_exn) : option (W A) :=
  match y with IntegrityError => Some (rollback >> raise x) | _ => None end.

Definition new_user (id mail : string) (password_hash : option string) (p : profile)
    (verified pending : bool) : user :=
  {| user_id := id; email := mail; password_hash := password_hash; profile_of := p; is_active := true;
     deactivated_at := None; deactivation_reason := None; is_verified := verified;
     email_pending := pending; is_superuser := false; user_updated_at := now e; last_login_at := None |}.

Definition signup (mail password first_name last_name : string) : W user :=
  do existing <- get_user_by_email mail;
  if some existing then raise (auth_error "EMAIL_ALREADY_REGISTERED" 409)
  else match hash_password password with
  | None => raise (auth_error "INVALID_PASSWORD" 422)
  | Some hash =>
      do id <- draw e;
      let u := new_user id mail (Some hash)
        {| first_name := first_name; last_name := last_name; display_name := None;
           avatar_url := None; roles := [] |} false false in
      execute (on_users (insert u)) >>
      catch (commit e) (on_conflict (auth_error "EMAIL_ALREADY_REGISTERED" 409)) >>
      do u <- refresh_user id;
      do token <- create_verification_token u;
      send_verification_email u token >>
      ret u
  end.

Definition complete_oauth_email (u : user) (mail : string) : W unit :=
  if negb (email_pending u) then raise (auth_error "OAUTH_EMAIL_ALREADY_SET" 409)
  else
    let normalized := lower (strip mail) in
    do existing <- get_user_by_email normalized;
    if some existing then raise (auth_error "EMAIL_ALREADY_REGISTERED" 409)
    else
      update_user (user_id u)
        (fun u => set_email normalized (set_is_verified false (set_email_pending false u))) >>
      commit e >>
      let u := set_email normalized (set_is_verified false (set_email_pending false u)) in
      do token <- create_verification_token u;
      send_verification_email u token.

Definition authenticate (mail password : string) : W user :=
  do u <- get_user_by_email mail;
  match u with
  | Some u =>
      match password_hash u with
      | Some hash =>
          if nonempty hash && verify_password password hash then
            ensure_user_can_authenticate u true >>
            update_user (user_id u) (set_last_login_at (Some (now e))) >>
            commit e >>
            refresh_user (user_id u)
          else raise (auth_error "INVALID_CREDENTIALS" 401)
      | None => raise (auth_error "INVALID_CREDENTIALS" 401)
      end
  | None => raise (auth_error "INVALID_CREDENTIALS" 401)
  end.

(** ** Sessions *)

(** The claim is left out when it is 0 or there is no method. *)
Definition truthy_time (t : option Z) : option Z :=
  match t with Some 0 => None | t => t end.
Definition truthy_list (l : option (list string)) : option (list string) :=
  match l with Some [] => None | l => l end.

Definition create_session_record (u : user) (family_id : string) (authenticated_at : option Z)
    (amr : option (list string)) : W (string * string * user_session) :=
  let t := truthy_time authenticated_at in
  let a := truthy_list amr in
  do (access_token, _) <- create_jwt (user_id u) access_type (access_token_expire_minutes st * minute)
    (Some (email u)) (Some (if is_superuser u then "superuser" else "user")) t a;
  do (refresh_token, refresh_jti) <- create_jwt (user_id u) refresh_type
    (refresh_token_expire_days st * day) None None t a;
  do id <- draw e;
  ret (access_token, refresh_token,
       {| s_id := id; s_user_id := user_id u; s_token_hash := hash_token refresh_token;
          jti := refresh_jti; family_id := family_id;
          s_expires_at := now e + refresh_token_expire_days st * day;
          s_last_used_at := None; revoked_at := None; rotated_at := None; replaced_by_jti := None;
          revocation_reason := None; s_ip_address := client_host e; s_user_agent := header e "user-agent" |}).

Definition set_auth_cookies (access_token refresh_token csrf_token : string) : W unit :=
  set_cookie {| co_name := auth_access_cookie_name st; co_value := access_token; co_httponly := true;
                co_path := auth_cookie_path st; co_max_age := access_token_expire_minutes st * 60 |} >>
  set_cookie {| co_name := auth_refresh_cookie_name st; co_value := refresh_token; co_httponly := true;
                co_path := "/"; co_max_age := refresh_token_expire_days st * 86400 |} >>
  set_cookie {| co_name := auth_csrf_cookie_name st; co_value := csrf_token; co_httponly := false;
                co_path := auth_cookie_path st; co_max_age := refresh_token_expire_days st * 86400 |}.

Definition delete_cookie (name path : string) : W unit :=
  set_cookie {| co_name := name; co_value := ""; co_httponly := false; co_path := path; co_max_age := 0 |}.

Definition clear_auth_cookies : W unit :=
  delete_cookie (auth_access_cookie_name st) (auth_cookie_path st) >>
  delete_cookie (auth_refresh_cookie_name st) "/" >>
  delete_cookie (auth_csrf_cookie_name st) (auth_cookie_path st).

Definition create_csrf_token : W string := draw e.

Definition issue_session (u : user) (amr : option (list string)) : W string :=
  do family <- draw e;
  do (access_token, refresh_token, record) <-
    create_session_record u family (Some (timestamp (now e))) amr;
  execute (on_user_sessions (insert record)) >>
  commit e >>
  do csrf_token <- create_csrf_token;
  set_auth_cookies access_token refresh_token csrf_token >>
  ret csrf_token.

Definition live (s : user_session) : bool := none (revoked_at s).

Definition revoke_row (reason : string) (s : user_session) : user_session :=
  set_revoked_at (Some (now e)) (set_revocation_reason (Some reason) s).

Definition revoke_token_family (family reason : string) : W unit :=
  execute (on_user_sessions
    (update_where (fun s => eqs (family_id s) family && live s) (revoke_row reason))).

Definition revoke_all_sessions (uid : string) (commit_ : bool) (reason : string) : W unit :=
  execute (on_user_sessions
    (update_where (fun s => eqs (s_user_id s) uid && live s) (revoke_row reason))) >>
  when commit_ (commit e).

(** The attributes a rotation assigns to the presented session. *)
Definition rotate_row (next_jti : string) (s : user_session) : user_session :=
  set_revoked_at (Some (now e)) (set_rotated_at (Some (now e)) (set_s_last_used_at (Some (now e))
    (set_replaced_by_jti (Some next_jti) (set_revocation_reason (Some "rotated") s)))).

Definition invalid_refresh : http_exn := auth_error "REFRESH_TOKEN_INVALID" 401.

(** The session a refresh token names: its row, when the token is valid. *)
Definition refresh_record (refresh_token : string) : W (claims * user_session) :=
  match decode_jwt refresh_token refresh_type with
  | Err ExpiredSignatureError => raise (auth_error "REFRESH_TOKEN_EXPIRED" 401)
  | Err PyJWTError => raise invalid_refresh
  | Ok payload =>
      if negb (nonempty (sub payload)) || negb (nonempty (claim_jti payload)) then raise invalid_refresh
      else
        do record <- query (fun d => first (fun s => eqs (jti s) (claim_jti payload)) (user_sessions d));
        match record with
        | Some s =>
            if negb (eqs (s_token_hash s) (hash_token refresh_token))
               || negb (eqs (s_user_id s) (sub payload))
            then raise invalid_refresh else ret (payload, s)
        | None => raise invalid_refresh
        end
  end.

(** The last part of [refresh_session]: the user is checked, the session replaced. *)
Definition rotate_session (payload : claims) (record : user_session) : W (user * string) :=
  do u <- get_user_by_id (s_user_id record);
  match u with
  | None =>
      revoke_token_family (family_id record) "user_inactive" >>
      commit e >>
      raise (auth_error "USER_INACTIVE" 401)
  | Some u =>
      catch (ensure_user_can_authenticate u false)
        (fun x => match x with
                  | HTTPException _ _ =>
                      Some (revoke_token_family (family_id record) "user_inactive" >>
                            commit e >> raise x)
                  | _ => None
                  end) >>
      do (access_token, next_refresh_token, next_record) <-
        create_session_record u (family_id record) (auth_time payload) (amr payload);
      execute (on_user_sessions
        (update_where (fun s => eqs (s_id s) (s_id record)) (rotate_row (jti next_record)))) >>
      execute (on_user_sessions (insert next_record)) >>
      commit e >>
      do csrf_token <- create_csrf_token;
      set_auth_cookies access_token next_refresh_token csrf_token >>
      ret (u, csrf_token)
  end.

Definition refresh_session (refresh_token : string) : W (user * string) :=
  do (payload, record) <- refresh_record refresh_token;
  match rotated_at record with
  | Some rotated =>
      if now e - rotated <=? refresh_token_reuse_grace_seconds st * second
      then raise (auth_error "REFRESH_ALREADY_ROTATED" 409)
      else
        revoke_token_family (family_id record) "refresh_token_reuse" >>
        add_audit None (Some (s_user_id record)) "REFRESH_TOKEN_REUSE_DETECTED" None >>
        commit e >>
        raise (auth_error "REFRESH_TOKEN_REUSE_DETECTED" 401)
  | None =>
      if negb (live record) then raise (auth_error "SESSION_REVOKED" 401)
      else if s_expires_at record <=? now e then
        execute (on_user_sessions (update_where (fun s => eqs (s_id s) (s_id record)) (revoke_row "expired"))) >>
        commit e >>
        raise (auth_error "REFRESH_TOKEN_EXPIRED" 401)
      else rotate_session payload record
  end.

Definition revoke_current_session (refresh_token : option string) : W unit :=
  match refresh_token with
  | None | Some "" => ret tt
  | Some token =>
      match decode_jwt token refresh_type with
      | Err _ => ret tt
      | Ok payload =>
          do record <- query (fun d => first (fun s => eqs (jti s) (claim_jti payload)) (user_sessions d));
          match record with
          | Some s => revoke_token_family (family_id s) "logout" >> commit e
          | None => ret tt
          end
      end
  end.

(** ** Email verification *)

Inductive verification_status := verified | already_verified.

Record VerificationResult := {
  vr_status : verification_status; changed_user_state : bool; vr_user_id : string
}.

Definition verify_email (token : string) : W VerificationResult :=
  do record <- query (fun d => first (fun v => eqs (v_token_hash v) (hash_token token)) (verification_tokens d));
  match record with
  | None => raise (auth_error "VERIFICATION_TOKEN_INVALID" 400)
  | Some v =>
      do u <- get_user_by_id (v_user_id v);
      match u with
      | None => raise (auth_error "VERIFICATION_TOKEN_INVALID" 400)
      | Some u =>
          if is_verified u then
            commit e >>
            ret {| vr_status := already_verified; changed_user_state := false; vr_user_id := user_id u |}
          else if some (v_used_at v) then raise (auth_error "VERIFICATION_STATE_INVALID" 409)
          else if v_expires_at v <=? now e then raise (auth_error "VERIFICATION_TOKEN_EXPIRED" 400)
          else
            update_user (user_id u) (set_is_verified true) >>
            execute (on_verification_tokens
              (update_where (fun x => eqs (v_id x) (v_id v)) (set_v_used_at (Some (now e))))) >>
            commit e >>
            ret {| vr_status := verified; changed_user_state := true; vr_user_id := user_id u |}
      end
  end.

Definition resend_verification (uid : string) : W bool :=
  do locked <- get_user_by_id uid;
  match locked with
  | None => raise (auth_error "AUTH_REQUIRED" 401)
  | Some u =>
      if is_verified u then commit e >> ret false
      else if email_pending u then raise (auth_error "OAUTH_EMAIL_REQUIRED" 409)
      else
        do token <- create_verification_token u;
        send_verification_email u token >>
        ret true
  end.

(** ** Passwords *)

Definition open_reset (uid : string) (r : reset_token) : bool :=
  eqs (r_user_id r) uid && none (r_used_at r) && none (r_invalidated_at r).

Definition forgot_password (mail : string) : W unit :=
  do u <- get_user_by_email mail;
  match u with
  | Some u =>
      if negb (is_active u) then ret tt
      else
        do u <- get_user_by_id (user_id u);
        match u with
        | Some u =>
            if negb (is_active u) then ret tt
            else
              execute (on_reset_tokens
                (update_where (open_reset (user_id u)) (set_r_invalidated_at (Some (now e))))) >>
              do token <- generate_token;
              do id <- draw e;
              execute (on_reset_tokens (insert
                {| r_id := id; r_user_id := user_id u; r_token_hash := hash_token token;
                   r_expires_at := now e + password_reset_expire_minutes st * minute;
                   r_used_at := None; r_invalidated_at := None; r_requested_ip := client_host e |})) >>
              commit e >>
              send_password_reset_email u token
        | None => ret tt
        end
  | None => ret tt
  end.

Definition set_password (hash : string) (u : user) : user :=
  set_password_hash (Some hash) (set_user_updated_at (now e) u).

Definition reset_password (token password : string) : W user :=
  if negb (password_policy_ok password) then raise (auth_error "INVALID_PASSWORD" 422)
  else
    do record <- query (fun d => first (fun r => eqs (r_token_hash r) (hash_token token)) (reset_tokens d));
    match record with
    | None => raise (auth_error "INVALID_RESET_TOKEN" 400)
    | Some r =>
        if some (r_used_at r) || some (r_invalidated_at r) then raise (auth_error "INVALID_RESET_TOKEN" 400)
        else if r_expires_at r <=? now e then raise (auth_error "RESET_TOKEN_EXPIRED" 400)
        else
          do u <- get_user_by_id (r_user_id r);
          match u with
          | None => raise (auth_error "INVALID_RESET_TOKEN" 400)
          | Some u =>
              update_user (user_id u) (set_password (pw_hash L password)) >>
              execute (on_reset_tokens
                (update_where (fun x => eqs (r_id x) (r_id r)) (set_r_used_at (Some (now e))))) >>
              execute (on_reset_tokens
                (update_where (fun x => open_reset (user_id u) x && negb (eqs (r_id x) (r_id r)))
                              (set_r_invalidated_at (Some (now e))))) >>
              revoke_all_sessions (user_id u) false "password_reset" >>
              commit e >>
              let u := set_password (pw_hash L password) u in
              send_password_changed_email u >>
              ret u
          end
    end.

Definition change_password (u : user) (current_password new_password : string) : W unit :=
  match password_hash u with
  | Some hash =>
      if nonempty hash && verify_password current_password hash then
        match hash_password new_password with
        | None => raise (InternalError "ValueError")
        | Some hash =>
            update_user (user_id u) (set_password hash) >>
            revoke_all_sessions (user_id u) false "password_changed" >>
            commit e >>
            send_password_changed_email u
        end
      else raise (auth_error "INVALID_CREDENTIALS" 401)
  | None => raise (auth_error "INVALID_CREDENTIALS" 401)
  end.

End Service.

(** ** Invariants of the session and reset tables *)

(** At most one live session per family. *)
Definition single_live (d : db) : Prop :=
  NoDup (map family_id (List.filter live (user_sessions d))).

(** At most one reset token per user can still be redeemed. *)
Definition single_reset (d : db) : Prop :=
  NoDup (map r_user_id (List.filter (fun r => none (r_used_at r) && none (r_invalidated_at r)) (reset_tokens d))).

Definition sessions_inv (d : db) : Prop := single_live d /\ single_reset d.

Abbreviation keeps_inv := (always (both sessions_inv)).

(** Updates of the other tables. *)
Lemma inv_execute_other f :
  (forall d, user_sessions (f d) = user_sessions d /\ reset_tokens (f d) = reset_tokens d) ->
  keeps_inv (execute f).
Proof.
  intros Hf. apply always_execute. intros d [Hs Hr]. unfold sessions_inv, single_live, single_reset in *.
  destruct (Hf d) as [-> ->]. done.
Qed.

Lemma inv_on_users f : keeps_inv (execute (on_users f)).
Proof. by apply inv_execute_other. Qed.
Lemma inv_on_verification f : keeps_inv (execute (on_verification_tokens f)).
Proof. by apply inv_execute_other. Qed.
Lemma inv_on_audit f : keeps_inv (execute (on_audit_logs f)).
Proof. by apply inv_execute_other. Qed.

(** Revoking rows: fewer are live. *)
Lemma live_revoked p f l :
  (forall x, revoked_at (f x) <> None) -> (forall x, family_id (f x) = family_id x) ->
  List.filter live (update_where p f l) = List.filter (fun x => live x && negb (p x)) l.
Proof.
  intros Hr _. apply filter_update_where. intros x _. unfold live. by destruct (revoked_at (f x)) eqn:H; [|destruct (Hr x)].
Qed.

Lemma inv_revoke p f :
  (forall x, revoked_at (f x) <> None) -> (forall x, family_id (f x) = family_id x) ->
  keeps_inv (execute (on_user_sessions (update_where p f))).
Proof.
  intros Hr Hf. apply always_execute. intros d [Hs Hrt]. split; [|done].
  unfold single_live. simpl. rewrite live_revoked by done.
  eapply NoDup_filter_weaken; [|exact Hs]. intros x H. by apply andb_true_iff in H as [? _].
Qed.

Definition reset_open (r : reset_token) : bool := none (r_used_at r) && none (r_invalidated_at r).

(** Closing reset tokens: fewer are open. *)
Lemma inv_close_resets p f :
  (forall x, reset_open (f x) = false) -> keeps_inv (execute (on_reset_tokens (update_where p f))).
Proof.
  intros Hf. apply always_execute. intros d [Hs Hr]. split; [done|].
  unfold single_reset. simpl. rewrite filter_update_where by (intros x _; apply Hf).
  eapply NoDup_filter_weaken; [|exact Hr]. intros x H. by apply andb_true_iff in H as [? _].
Qed.

#[export] Hint Resolve inv_on_users inv_on_verification inv_on_audit : always.

Section Invariants.
Context (st : settings) (L : libs) (e : env).

Lemma inv_revoke_family family reason : keeps_inv (revoke_token_family e family reason).
Proof. by apply inv_revoke. Qed.

Lemma inv_revoke_all uid c reason : keeps_inv (revoke_all_sessions e uid c reason).
Proof. unfold revoke_all_sessions. always. by apply inv_revoke. Qed.

Lemma inv_update_user id f : keeps_inv (update_user id f).
Proof. apply inv_on_users. Qed.

Lemma inv_add_audit a t c r : keeps_inv (add_audit a t c r).
Proof. apply inv_on_audit. Qed.

Lemma inv_get_email m : keeps_inv (get_user_by_email m).
Proof. apply always_query. Qed.

Lemma inv_get_id i : keeps_inv (get_user_by_id i).
Proof. apply always_query. Qed.

#[local] Hint Resolve inv_revoke_family inv_revoke_all inv_update_user inv_add_audit inv_get_email
  inv_get_id : always.

Lemma inv_refresh_user i : keeps_inv (refresh_user i).
Proof. unfold refresh_user. always. Qed.

Lemma inv_ensure u b : keeps_inv (ensure_user_can_authenticate e u b).
Proof. unfold ensure_user_can_authenticate. always. Qed.

Lemma inv_verification_token u : keeps_inv (create_verification_token st L e u).
Proof. unfold create_verification_token, generate_token. always. Qed.

Lemma inv_send_verification u t : keeps_inv (send_verification_email u t).
Proof. apply always_send. Qed.

Lemma inv_send_changed u : keeps_inv (send_password_changed_email u).
Proof. apply always_send. Qed.

Lemma inv_create_jwt s t d em r a am : keeps_inv (create_jwt st L e s t d em r a am).
Proof. unfold create_jwt. always. Qed.

#[local] Hint Resolve inv_refresh_user inv_ensure inv_verification_token inv_send_verification
  inv_send_changed inv_create_jwt : always.

Lemma inv_session_record u f a am : keeps_inv (create_session_record st L e u f a am).
Proof. unfold create_session_record. always. Qed.

Lemma inv_cookies a r c : keeps_inv (set_auth_cookies st a r c).
Proof. unfold set_auth_cookies. always. Qed.

Lemma inv_refresh_record t : keeps_inv (refresh_record st L e t).
Proof. unfold refresh_record. always. Qed.

#[local] Hint Resolve inv_session_record inv_cookies inv_refresh_record : always.

Lemma inv_signup m p f l : keeps_inv (signup st L e m p f l).
Proof. unfold signup, on_conflict. always. Qed.

Lemma inv_complete_oauth_email u m : keeps_inv (complete_oauth_email st L e u m).
Proof. unfold complete_oauth_email. always. Qed.

Lemma inv_authenticate m p : keeps_inv (authenticate L e m p).
Proof. unfold authenticate. always. Qed.

Lemma inv_logout t : keeps_inv (revoke_current_session st L e t).
Proof. unfold revoke_current_session. always. Qed.

Lemma inv_verify_email t : keeps_inv (verify_email L e t).
Proof. unfold verify_email. always. Qed.

Lemma inv_resend u : keeps_inv (resend_verification st L e u).
Proof. unfold resend_verification. always. Qed.

Lemma inv_reset_password t p : keeps_inv (reset_password L e t p).
Proof.
  unfold reset_password. always; apply inv_close_resets; intros x; unfold reset_open; simpl;
    by rewrite ?andb_false_r.
Qed.

Lemma inv_change_password u c n : keeps_inv (change_password L e u c n).
Proof. unfold change_password. always. Qed.

End Invariants.

(** ** Rotation *)

Section Rotation.
Context (st : settings) (L : libs) (e : env).

(** The goal is what a service preserves. *)
Ltac by_always Hw :=
  match goal with |- after _ (?m ?w) =>
    let Ha := fresh in assert (Ha : keeps_inv m); [|exact (Ha w Hw)] end.
(** A new session record, live and of the given family; the databases stay. *)
Lemma session_record_spec u f t a w :
  exists access refresh record w',
    create_session_record st L e u f t a w = (Ok (access, refresh, record), w') /\
    committed w' = committed w /\ working w' = working w /\
    family_id record = f /\ revoked_at record = None /\ rotated_at record = None /\
    s_user_id record = user_id u /\ s_token_hash record = hash_token L refresh /\
    s_expires_at record = now e + refresh_token_expire_days st * day.
Proof. do 4 eexists. split; [reflexivity|]. split_and!; reflexivity. Qed.

Lemma refresh_record_reads t w : snd (refresh_record st L e t w) = w.
Proof.
  unfold refresh_record. destruct (decode_jwt st L e t refresh_type) as [p|[]]; try done.
  destruct (_ || _); [done|]. cbn. destruct (first _ _) as [s|]; [|done]. by destruct (_ || _).
Qed.

(** The session a valid refresh token names. *)
Definition names_session (token : string) (d : db) (payload : claims) (s : user_session) : Prop :=
  decode_jwt st L e token refresh_type = Ok payload /\
  first (fun x => eqs (jti x) (claim_jti payload)) (user_sessions d) = Some s /\
  s_token_hash s = hash_token L token /\ s_user_id s = sub payload.

Lemma refresh_record_Ok t w payload s w' :
  refresh_record st L e t w = (Ok (payload, s), w') -> w' = w /\ names_session t (working w) payload s.
Proof.
  intros H. assert (Hw := refresh_record_reads t w). rewrite H in Hw. split; [exact Hw|].
  unfold refresh_record, names_session in *. destruct (decode_jwt st L e t refresh_type) as [p|[]] eqn:Hd; try done.
  destruct (negb _ || _); [done|]. cbn in H. destruct (first _ _) as [x|] eqn:Hf; [|done].
  destruct (negb (eqs _ _) || _) eqn:Hb; [done|]. injection H as <- <- _.
  apply orb_false_iff in Hb as [H1 H2]. apply negb_false_iff, String.eqb_eq in H1, H2. done.
Qed.

Lemma names_session_In t d payload s : names_session t d payload s -> s ∈ user_sessions d.
Proof. intros (_ & H & _). by apply first_Some in H as [? _]. Qed.

(** The session table after the rotation of [s] into [next]. *)
Definition rotated_sessions (s next : user_session) (l : list user_session) : list user_session :=
  insert next (update_where (fun x => eqs (s_id x) (s_id s)) (rotate_row e (jti next)) l).

Lemma rotation_inv d s next :
  sessions_inv d -> s ∈ user_sessions d -> live s = true ->
  family_id next = family_id s -> revoked_at next = None ->
  sessions_inv (on_user_sessions (insert next)
    (on_user_sessions (update_where (fun x => eqs (s_id x) (s_id s)) (rotate_row e (jti next))) d)).
Proof.
  intros [Hs Hr] Hin Hlive Hfam Hnew. split; [|exact Hr]. unfold single_live in *. simpl.
  unfold insert. rewrite filter_app. simpl. replace (live next) with true by (unfold live; by rewrite Hnew).
  rewrite live_revoked by done.
  apply NoDup_map_snoc.
  - eapply NoDup_filter_weaken; [|exact Hs]. intros x H. by apply andb_true_iff in H as [? _].
  - rewrite Hfam. intros (x & Hx & Hxin)%list_elem_of_fmap. rewrite list_elem_of_In in Hxin.
    apply filter_In in Hxin as [Hxin Hp]. apply andb_true_iff in Hp as [Hxl Hxid].
    apply negb_true_iff, String.eqb_neq in Hxid. apply Hxid. f_equal.
    (* two live sessions of one family are the same row *)
    rewrite <- list_elem_of_In in Hxin.
    eapply (NoDup_map_inj family_id (List.filter live (user_sessions d))); try done.
    + rewrite list_elem_of_In in *. by apply filter_In.
    + rewrite list_elem_of_In in *. by apply filter_In.
Qed.

Lemma refresh_user_Ok id w u w' :
  refresh_user id w = (Ok u, w') -> w' = w /\ first (fun u => eqs (user_id u) id) (users (working w)) = Some u.
Proof.
  unfold refresh_user. intros H. apply bind_Ok in H as (o & w1 & Hq & H).
  unfold get_user_by_id, query in Hq. injection Hq as <- <-.
  destruct (first _ _) as [v|]; [|done]. unfold ret in H. by injection H as -> ->.
Qed.

Lemma ensure_active u b w : is_active u = true -> ensure_user_can_authenticate e u b w = (Ok tt, w).
Proof. unfold ensure_user_can_authenticate. by intros ->. Qed.

Lemma rotate_inv payload s w :
  both sessions_inv (committed w) (working w) -> s ∈ user_sessions (working w) -> live s = true ->
  after (both sessions_inv) (rotate_session st L e payload s w).
Proof.
  intros Hw Hin Hlive. unfold rotate_session, get_user_by_id. unfold bind at 1. unfold query at 1.
  destruct (first _ (users (working w))) as [u|] eqn:Hu.
  2: { by_always Hw; always; apply inv_revoke_family. }
  destruct (is_active u) eqn:Ha.
  2: { (* the user is inactive: the family is revoked *)
    apply after_never.
    - intros a w'. unfold catch, ensure_user_can_authenticate. rewrite Ha. unfold bind at 1, when, ret, raise at 1, inactive_account_error.
      destruct (deactivation_reason u) as [[]|]; apply raise_after_commit.
    - by_always Hw. always; first [apply inv_ensure | apply inv_revoke_family]. }
  unfold bind at 1. rewrite (catch_return _ _ _ _ _ (ensure_active u false w Ha)).
  destruct (session_record_spec u (family_id s) (auth_time payload) (amr payload) w)
    as (access & rt & next & w' & Hrec & Hc & Hwk & Hfam & Hrev & _).
  unfold bind at 1. rewrite Hrec.
  assert (Hinv : both sessions_inv (committed w') (working (with_working
    (on_user_sessions (insert next) (on_user_sessions
      (update_where (fun x => eqs (s_id x) (s_id s)) (rotate_row e (jti next))) (working w'))) w'))).
  { rewrite Hc, Hwk. split; [exact (proj1 Hw)|]. apply rotation_inv; try done. exact (proj2 Hw). }
  unfold bind at 1, execute at 1. unfold bind at 1, execute at 1.
  by_always Hinv.
  unfold create_csrf_token. always. apply inv_cookies.
Qed.

Lemma inv_refresh t : keeps_inv (refresh_session st L e t).
Proof.
  intros w Hw. unfold refresh_session. unfold bind at 1.
  destruct (refresh_record st L e t w) as [[[payload s]|x] w1] eqn:Hrec.
  2: { assert (Hp := refresh_record_reads t w). rewrite Hrec in Hp. simpl in *. by subst. }
  apply refresh_record_Ok in Hrec as [-> Hn]. assert (Hin := names_session_In _ _ _ _ Hn).
  destruct (rotated_at s) as [r|] eqn:Hrot.
  { by_always Hw; always; apply inv_revoke_family. }
  destruct (live s) eqn:Hlive; cbn [negb]; [|by_always Hw; always].
  destruct (s_expires_at s <=? now e) eqn:Hexp; [|by apply rotate_inv].
  by_always Hw; always. by apply inv_revoke.
Qed.

(** A fresh family. *)
Definition fresh_families (w : world) : Prop :=
  forall n, (draws w <= n)%nat -> supply e n ∉ map family_id (user_sessions (working w)).

Lemma issue_inv u a w :
  both sessions_inv (committed w) (working w) -> fresh_families w ->
  after (both sessions_inv) (issue_session st L e u a w).
Proof.
  intros Hw Hfresh. unfold issue_session. unfold bind at 1. unfold draw at 1.
  set (w1 := {| committed := _ |}).
  destruct (session_record_spec u (supply e (draws w)) (Some (timestamp (now e))) a w1)
    as (access & rt & next & w' & Hrec & Hc & Hwk & Hfam & Hrev & _).
  unfold bind at 1. rewrite Hrec. unfold bind at 1, execute at 1.
  assert (Hinv : both sessions_inv (committed w') (working (with_working
    (on_user_sessions (insert next) (working w')) w'))).
  { rewrite Hc, Hwk. split; [exact (proj1 Hw)|]. destruct Hw as [_ [Hs Hr]]. split; [|exact Hr].
    unfold single_live in *. simpl. unfold insert. rewrite filter_app. simpl.
    replace (live next) with true by (unfold live; by rewrite Hrev).
    apply NoDup_map_snoc; [done|]. rewrite Hfam. intros Hin. apply (Hfresh (draws w)); [lia|].
    apply list_elem_of_fmap in Hin as (x & -> & Hx). apply list_elem_of_fmap. exists x. split; [done|].
    rewrite list_elem_of_In in *. by apply filter_In in Hx as [? _]. }
  by_always Hinv.
  unfold create_csrf_token. always. apply inv_cookies.
Qed.

Lemma inv_forgot m : keeps_inv (forgot_password st L e m).
Proof.
  intros w Hw. unfold forgot_password, get_user_by_email, get_user_by_id. unfold bind at 1, query at 1.
  destruct (first _ _) as [u|]; [|done]. destruct (is_active u); [|done]. cbn [negb].
  unfold bind at 1, query at 1. destruct (first _ _) as [u'|]; [|done]. destruct (is_active u'); [|done].
  cbn [negb]. unfold bind at 1, execute at 1. unfold bind at 1, generate_token, draw at 1.
  unfold bind at 1, draw at 1. unfold bind at 1, execute at 1.
  match goal with |- after _ (?m ?w1) =>
    assert (Hinv : both sessions_inv (committed w1) (working w1)) end.
  { split; [exact (proj1 Hw)|]. destruct Hw as [_ [Hs Hr]]. split; [exact Hs|].
    unfold single_reset in *. simpl. unfold insert. rewrite filter_app. simpl.
    rewrite filter_update_where by (intros x _; unfold open_reset; simpl; by rewrite ?andb_false_r).
    apply NoDup_map_snoc.
    - eapply NoDup_filter_weaken; [|exact Hr]. intros x H. by apply andb_true_iff in H as [? _].
    - intros (x & Hx & Hin)%list_elem_of_fmap. rewrite list_elem_of_In in Hin.
      apply filter_In in Hin as [_ Hp]. apply andb_true_iff in Hp as [H1 H2].
      apply negb_true_iff in H2. unfold open_reset, eqs in H2. apply andb_true_iff in H1 as [H1 H1'].
      simpl in Hx. rewrite Hx, String.eqb_refl, H1, H1' in H2. done. }
  by_always Hinv.
  unfold send_password_reset_email. always.
Qed.

End Rotation.

(** ** The service as a transition system *)

Inductive request :=
| Signup (mail password first_name last_name : string)
| CompleteEmail (uid mail : string)
| Authenticate (mail password : string)
| IssueSession (uid : string) (methods : option (list string))
| Refresh (token : string)
| Logout (token : option string)
| LogoutAll (uid reason : string)
| VerifyEmail (token : string)
| ResendVerification (uid : string)
| ForgotPassword (mail : string)
| ResetPassword (token password : string)
| ChangePassword (uid current_password new_password : string).

Section Serve.
Context (st : settings) (L : libs) (e : env).

(** The user object a request depends on. *)
Definition with_user (uid : string) (k : user -> W unit) : W unit :=
  do u <- get_user_by_id uid;
  match u with Some u => k u | None => raise (auth_error "AUTH_REQUIRED" 401) end.

Definition serve (r : request) : W unit :=
  match r with
  | Signup m p f l => signup st L e m p f l >> ret tt
  | CompleteEmail u m => with_user u (fun u => complete_oauth_email st L e u m)
  | Authenticate m p => authenticate L e m p >> ret tt
  | IssueSession u a => with_user u (fun u => issue_session st L e u a >> ret tt)
  | Refresh t => refresh_session st L e t >> ret tt
  | Logout t => revoke_current_session st L e t
  | LogoutAll u r => revoke_all_sessions e u true r
  | VerifyEmail t => verify_email L e t >> ret tt
  | ResendVerification u => resend_verification st L e u >> ret tt
  | ForgotPassword m => forgot_password st L e m
  | ResetPassword t p => reset_password L e t p >> ret tt
  | ChangePassword u c n => with_user u (fun u => change_password L e u c n)
  end.

End Serve.

(** Databases that requests produce from the empty one, each request with its
    own clock, random values, conflicts and headers. *)
Inductive reachable (st : settings) (L : libs) : db -> Prop :=
| reach_empty : reachable st L empty_db
| reach_step e r w x w' :
    reachable st L (committed w) -> fresh_families e (with_working (committed w) w) ->
    run (serve st L e r) w = (x, w') -> reachable st L (committed w').

Lemma serve_inv st L e r w :
  sessions_inv (committed w) -> fresh_families e (with_working (committed w) w) ->
  sessions_inv (committed (snd (run (serve st L e r) w))).
Proof.
  intros Hw Hf.
  assert (Hu : forall uid k, (forall u, keeps_inv (k u)) -> keeps_inv (with_user uid k)).
  { intros uid k Hk. unfold with_user, get_user_by_id. always. }
  assert (Hr : forall A (m : W A), keeps_inv m -> keeps_inv (m >> ret tt)).
  { intros A m Hm. apply always_bind; [done | intros; apply always_ret]. }
  destruct r.
  - apply run_both; [|done]. apply Hr, inv_signup.
  - apply run_both; [|done]. apply Hu. intros u. apply inv_complete_oauth_email.
  - apply run_both; [|done]. apply Hr, inv_authenticate.
  - unfold run. cbn [serve]. unfold with_user, get_user_by_id, bind at 1, query.
    destruct (first _ _) as [u|]; [|done].
    assert (Hi := issue_inv st L e u methods (with_working (committed w) w) (conj Hw Hw) Hf).
    unfold bind. destruct (issue_session _ _ _ _ _ _) as [[a|x] w']; exact (proj1 Hi).
  - apply run_both; [|done]. apply Hr, inv_refresh.
  - apply run_both; [|done]. apply inv_logout.
  - apply run_both; [|done]. apply inv_revoke_all.
  - apply run_both; [|done]. apply Hr, inv_verify_email.
  - apply run_both; [|done]. apply Hr, inv_resend.
  - apply run_both; [|done]. apply inv_forgot.
  - apply run_both; [|done]. apply Hr, inv_reset_password.
  - apply run_both; [|done]. apply Hu. intros u. apply inv_change_password.
Qed.

(** *** Closed forms *)

Lemma rotate_row_not_live e j s : live (rotate_row e j s) = false.
Proof. reflexivity. Qed.

Section Rotated.
Context (st : settings) (L : libs) (e : env).

Lemma rotate_success payload s w u csrf w' :
  rotate_session st L e payload s w = (Ok (u, csrf), w') ->
  first (fun u => eqs (user_id u) (s_user_id s)) (users (working w)) = Some u /\ is_active u = true /\
  exists next, family_id next = family_id s /\ revoked_at next = None /\ rotated_at next = None /\
    s_user_id next = user_id u /\
    committed w' = on_user_sessions (rotated_sessions e s next) (working w) /\
    constraints_ok (committed w') = true.
Proof.
  unfold rotate_session, get_user_by_id. intros H. apply bind_Ok in H as (ou & w1 & Hq & H).
  unfold query in Hq. injection Hq as <- <-.
  destruct (first _ _) as [u0|] eqn:Hu.
  2: { exfalso. unfold bind at 1, revoke_token_family, execute at 1 in H. by apply raise_after_commit in H. }
  destruct (is_active u0) eqn:Ha.
  2: { exfalso. apply bind_Ok in H as (x & w2 & Hc & _). revert Hc.
       unfold catch, ensure_user_can_authenticate. rewrite Ha. unfold bind at 1, when, ret, raise at 1, inactive_account_error.
       destruct (deactivation_reason u0) as [[]|]; intros Hc; by apply raise_after_commit in Hc. }
  apply bind_Ok in H as (x & w2 & Hc & H).
  rewrite (catch_return _ _ _ _ _ (ensure_active e u0 false w Ha)) in Hc. injection Hc as <- <-.
  destruct (session_record_spec st L e u0 (family_id s) (auth_time payload) (amr payload) w)
    as (access & rt & next & w3 & Hrec & Hcm & Hwk & Hfam & Hrev & Hrot & Huid & _).
  apply bind_Ok in H as (p & w4 & Hp & H). rewrite Hrec in Hp. injection Hp as <- <-.
  apply bind_Ok in H as (? & w5 & H1 & H). unfold execute in H1. injection H1 as _ <-.
  apply bind_Ok in H as (? & w6 & H1 & H). unfold execute in H1. injection H1 as _ <-.
  apply bind_Ok in H as (? & w7 & H1 & H). apply commit_Ok in H1 as (Hc7 & _ & Hok).
  unfold create_csrf_token, set_auth_cookies in H. w_inv. split; [done|]. split; [done|].
  exists next. rewrite <- Hwk. split_and!; try done. simpl in *. by rewrite Hc7.
Qed.

Lemma refresh_Ok t w u csrf w' :
  refresh_session st L e t w = (Ok (u, csrf), w') ->
  exists payload s, names_session st L e t (working w) payload s /\
    rotated_at s = None /\ live s = true /\ now e < s_expires_at s /\
    rotate_session st L e payload s w = (Ok (u, csrf), w').
Proof.
  unfold refresh_session. intros H. apply bind_Ok in H as ([payload s] & w1 & Hr & H).
  apply refresh_record_Ok in Hr as [-> Hn]. exists payload, s. split; [done|].
  destruct (rotated_at s) as [r|].
  { exfalso. destruct (_ <=? _); [done|]. unfold bind at 1, revoke_token_family, execute at 1 in H.
    unfold bind at 1, add_audit, execute at 1 in H. by apply raise_after_commit in H. }
  split; [done|]. destruct (live s); [|done]. split; [done|]. cbn [negb] in H.
  destruct (Z.leb_spec (s_expires_at s) (now e)) as [Hx|Hx]; [|done].
  exfalso. unfold bind at 1, execute at 1 in H. by apply raise_after_commit in H.
Qed.

End Rotated.

(** ** Example environment *)

Definition example_settings : settings :=
  {| access_token_expire_minutes := 15; refresh_token_expire_days := 30;
     refresh_token_reuse_grace_seconds := 5; email_verification_expire_hours := 24;
     password_reset_expire_minutes := 60; account_deletion_recent_auth_seconds := 600;
     mfa_challenge_expire_seconds := 300; mfa_max_attempts := 5; mfa_totp_valid_window := 1;
     mfa_recovery_code_count := 2; mfa_setup_expire_seconds := 600; mfa_recovery_pepper := "pepper";
     mfa_encryption_key := Some "key"; reauth_max_age_seconds := 600;
     webauthn_challenge_expire_seconds := 300; webauthn_rp_id := "localhost";
     webauthn_origin := "http://localhost:3000"; jwt_secret_key := "secret"; jwt_algorithm := "HS256";
     jwt_issuer := "iss"; jwt_audience := "aud"; auth_access_cookie_name := "at";
     auth_refresh_cookie_name := "rt"; auth_csrf_cookie_name := "ct"; cors_origin_list := [];
     app_base_url := "http://localhost:3000"; refresh_require_origin := false; production := false;
     auth_cookie_path := "/" |}.

(** A token spells its type, subject and identifier. *)
Definition example_encode (c : claims) (key algorithm : string) : string :=
  token_type c +:+ "|" +:+ sub c +:+ "|" +:+ claim_jti c.

Definition example_decode (now : Z) (key algorithm issuer audience token : string) : res jwt_error claims :=
  match split_on "|" token with
  | [t; s; j] => Ok {| sub := s; token_type := t; iat := 0; exp := 0; claim_jti := j; iss := issuer;
                       aud := audience; claim_email := None; role := None; auth_time := None; amr := None |}
  | _ => Err PyJWTError
  end.

Definition example_libs : libs :=
  {| sha256_hex := fun s => "#" +:+ s; hmac_sha256_hex := fun k s => k +:+ "#" +:+ s;
     jwt_encode := example_encode; jwt_decode := example_decode;
     pw_hash := fun s => "$" +:+ s; pw_verify := fun p h => String.eqb h ("$" +:+ p);
     fernet_encrypt := fun _ s => Some s; fernet_decrypt := fun _ s => Some s;
     totp_at := fun _ t => if t =? 30 then "000030" else if t =? 60 then "000060" else "999999";
     base64url_to_bytes := fun s => Some s; uuid_bytes := fun s => s;
     webauthn_register := fun _ _ _ _ _ => None; webauthn_authenticate := fun _ _ _ _ _ _ _ => None;
     authenticator_transport := fun s => existsb (String.eqb s) ["internal"; "usb"] |}.

(** The [n]-th random value of the [k]-th request. *)
Definition example_supply (k : ascii) (n : nat) : string :=
  String k (String.string_of_list_ascii (repeat "."%char n)).

Definition example_env (t : Z) (k : ascii) : env :=
  {| now := t * second; supply := example_supply k; conflict := fun _ => false;
     client_host := None; header := fun _ => None; cookie := fun _ => None; request_method := "POST" |}.

Definition world_of (d : db) : world :=
  {| committed := d; working := d; draws := 0; commits := 0; mails := []; set_cookies := [] |}.

Definition example_serve (t : Z) (k : ascii) (r : request) (d : db) : db :=
  committed (snd (run (serve example_settings example_libs (example_env t k) r) (world_of d))).

(** A user signs up and logs in. *)
Definition example_d1 : db :=
  example_serve 1 "a" (Signup "x@example.org" "correct horse" "X" "Y") empty_db.
Definition example_d2 : db := example_serve 2 "b" (IssueSession "a" None) example_d1.
Definition example_token : string := "refresh|a|b..".
Definition example_d3 : db := example_serve 3 "c" (Refresh example_token) example_d2.

Lemma example_fresh t k d :
  forallb (fun s => negb (startswith (String k "") (family_id s))) (user_sessions d) = true ->
  fresh_families (example_env t k) (with_working (committed (world_of d)) (world_of d)).
Proof.
  intros H n _ Hin. apply list_elem_of_fmap in Hin as (s & Hs & Hin). rewrite forallb_forall in H.
  rewrite list_elem_of_In in Hin. apply H in Hin. rewrite <- Hs in Hin.
  unfold startswith in Hin. cbn in Hin. destruct (ascii_dec k k); [|congruence].
  by destruct (String.string_of_list_ascii (repeat "."%char n)).
Qed.

Lemma example_step t k r d :
  reachable example_settings example_libs d ->
  forallb (fun s => negb (startswith (String k "") (family_id s))) (user_sessions d) = true ->
  reachable example_settings example_libs (example_serve t k r d).
Proof.
  intros Hd Hf. unfold example_serve.
  destruct (run (serve example_settings example_libs (example_env t k) r) (world_of d)) as [x w'] eqn:H.
  eapply (reach_step _ _ (example_env t k) r (world_of d)); [done | by apply example_fresh | exact H].
Qed.

Lemma example_reachable : reachable example_settings example_libs example_d3.
Proof. do 3 (apply example_step; [|vm_compute; reflexivity]). apply reach_empty. Qed.

(** ** Properties *)

(** C34. In every database that the account and session requests produce from
    the empty one, a token family has at most one live session and a user at
    most one redeemable password-reset token. *)
Theorem sessions_invariant st L d : reachable st L d -> single_live d /\ single_reset d.
Proof.
  induction 1 as [|e r w x w' _ IH Hf Hrun].
  - split; apply NoDup_nil_2.
  - assert (H := serve_inv st L e r w IH Hf). rewrite Hrun in H. exact H.
Qed.

Lemma sessions_invariant_witness :
  single_live example_d3 /\ single_reset example_d3 /\ length (user_sessions example_d3) = 2%nat.
Proof.
  destruct (sessions_invariant example_settings example_libs example_d3 example_reachable) as [H1 H2].
  split; [exact H1|]. split; [exact H2 | vm_compute; reflexivity].
Defined.

(** C25. Refresh-token rotation: a successful refresh was made with the token of a
    live, unexpired, never rotated session of an active user; it replaces that
    session by a new live one of the same user and family, in one committed
    change that touches no other table, and the new session is the only live
    one of its family. *)
Theorem refresh_rotates st L e t w u csrf w' :
  sessions_inv (working w) ->
  refresh_session st L e t w = (Ok (u, csrf), w') ->
  exists payload s next, names_session st L e t (working w) payload s /\
    rotated_at s = None /\ live s = true /\ now e < s_expires_at s /\
    is_active u = true /\ user_id u = s_user_id s /\
    family_id next = family_id s /\ s_user_id next = s_user_id s /\ live next = true /\
    committed w' = on_user_sessions (rotated_sessions e s next) (working w) /\
    forall x, x ∈ user_sessions (committed w') -> live x = true -> family_id x = family_id s -> x = next.
Proof.
  intros Hinv H. apply refresh_Ok in H as (payload & s & Hn & Hrot & Hlive & Hexp & H).
  assert (Hin := names_session_In _ _ _ _ _ _ _ Hn).
  apply rotate_success in H as (Hu & Ha & next & Hfam & Hrev & _ & Huid & Hc & _).
  assert (Hnl : live next = true) by (unfold live; by rewrite Hrev).
  apply first_Some in Hu as [_ Hu]. apply String.eqb_eq in Hu.
  exists payload, s, next. split_and!; try done; [congruence|].
  assert (Hi := rotation_inv e (working w) s next Hinv Hin Hlive Hfam Hrev). destruct Hi as [Hi _].
  rewrite Hc. intros x Hx Hxl Hxf.
  assert (Hm : forall y, y ∈ rotated_sessions e s next (user_sessions (working w)) -> live y = true ->
    y ∈ List.filter live (rotated_sessions e s next (user_sessions (working w)))).
  { intros y Hy Hyl. rewrite list_elem_of_In in *. by apply filter_In. }
  eapply (NoDup_map_inj family_id _ _ _ Hi); [by apply Hm | apply Hm; [|done] | congruence].
  unfold rotated_sessions, insert. apply elem_of_app. right. by apply list_elem_of_singleton.
Qed.

Lemma refresh_rotates_witness :
  exists u csrf w', refresh_session example_settings example_libs (example_env 3 "c") example_token
                      (world_of example_d2) = (Ok (u, csrf), w') /\
    exists next, live next = true /\ family_id next = "b" /\
      forall x, x ∈ user_sessions (committed w') -> live x = true -> family_id x = "b" -> x = next.
Proof.
  eexists _, _, _. split; [vm_compute; reflexivity|].
  edestruct (refresh_rotates example_settings example_libs (example_env 3 "c") example_token (world_of example_d2))
    as (p & s & next & Hn & _ & _ & _ & _ & _ & Hf & _ & Hl & _ & Hu);
    [|vm_compute; reflexivity|].
  - assert (H := serve_inv example_settings example_libs (example_env 2 "b") (IssueSession "a" None) (world_of example_d1)).
    apply H; [|apply example_fresh; vm_compute; reflexivity].
    apply (serve_inv example_settings example_libs (example_env 1 "a") (Signup "x@example.org" "correct horse" "X" "Y") (world_of empty_db));
      [split; apply NoDup_nil_2 | apply example_fresh; vm_compute; reflexivity].
  - assert (Hfam : family_id s = "b").
    { destruct Hn as (Hd & Hfirst & _). vm_compute in Hd. injection Hd as <-. vm_compute in Hfirst.
      injection Hfirst as <-. reflexivity. }
    exists next. rewrite Hfam in *. split; [exact Hl|]. split; [exact Hf | exact Hu].
Defined.

(** Reuse detection: presenting the token of a session that was rotated
    longer ago than the grace period never succeeds, and unless the commit
    fails it revokes every session of the family. *)
Theorem refresh_reuse_revokes st L e t w payload s r w' rotated :
  names_session st L e t (working w) payload s -> rotated_at s = Some rotated ->
  refresh_token_reuse_grace_seconds st * second < now e - rotated ->
  sub payload <> "" -> claim_jti payload <> "" ->
  refresh_session st L e t w = (r, w') ->
  r = Err IntegrityError \/
  r = Err (HTTPException 401 "REFRESH_TOKEN_REUSE_DETECTED") /\
  forall x, x ∈ user_sessions (committed w') -> family_id x = family_id s -> live x = false.
Proof.
  intros (Hd & Hf & Hh & Hu) Hrot Hgrace Hsub Hjti H. unfold refresh_session in H. unfold bind at 1 in H.
  assert (Hrec : refresh_record st L e t w = (Ok (payload, s), w)).
  { unfold refresh_record. rewrite Hd.
    replace (negb (nonempty (sub payload)) || negb (nonempty (claim_jti payload))) with false
      by (destruct (sub payload), (claim_jti payload); done).
    unfold bind at 1, query. rewrite Hf, Hh, Hu. unfold eqs. by rewrite !String.eqb_refl. }
  rewrite Hrec, Hrot in H. destruct (Z.leb_spec (now e - rotated) (refresh_token_reuse_grace_seconds st * second));
    [lia|].
  unfold bind at 1, revoke_token_family, execute at 1 in H. unfold bind at 1, add_audit, execute at 1 in H.
  unfold bind, raise in H. destruct (commit e _) as [[[]|x] w1] eqn:Hc.
  - right. injection H as <- <-. split; [done|]. apply commit_Ok in Hc as (-> & _ & _). simpl.
    intros x Hx Hfam. apply elem_of_update_where in Hx as (y & _ & ->).
    destruct (eqs (family_id y) (family_id s) && live y) eqn:Hp; [done|].
    unfold eqs in Hp. rewrite Hfam, String.eqb_refl in Hp. exact Hp.
  - left. injection H as <- <-. unfold commit in Hc. destruct (conflict e _ || _); inversion Hc; by subst.
Qed.

Lemma refresh_reuse_revokes_witness :
  forallb (fun s => negb (live s)) (user_sessions (example_serve 60 "d" (Refresh example_token) example_d3)) = true /\
  exists r w', refresh_session example_settings example_libs (example_env 60 "d") example_token (world_of example_d3)
               = (r, w') /\ (r = Err IntegrityError \/ r = Err (HTTPException 401 "REFRESH_TOKEN_REUSE_DETECTED") /\
    forall x, x ∈ user_sessions (committed w') -> family_id x = "b" -> live x = false).
Proof.
  split; [vm_compute; reflexivity|].
  eexists _, _. split; [vm_compute; reflexivity|].
  eapply (refresh_reuse_revokes example_settings example_libs (example_env 60 "d") example_token (world_of example_d3)
    _ {| s_id := "b..."; s_user_id := "a"; s_token_hash := "#refresh|a|b.."; jti := "b.."; family_id := "b";
         s_expires_at := 2592002000000; s_last_used_at := Some 3000000; revoked_at := Some 3000000;
         rotated_at := Some 3000000; replaced_by_jti := Some "c."; revocation_reason := Some "rotated";
         s_ip_address := None; s_user_agent := None |}).
  - split; [vm_compute; reflexivity|]. split_and!; vm_compute; reflexivity.
  - reflexivity.
  - vm_compute. reflexivity.
  - done.
  - done.
  - vm_compute. reflexivity.
Defined.

(** PyJWT reads the same claims from a token whenever it accepts it. *)
Definition jwt_stable (L : libs) : Prop :=
  forall t t' k a i u token p p',
    jwt_decode L t k a i u token = Ok p -> jwt_decode L t' k a i u token = Ok p' -> p = p'.

Lemma decode_jwt_stable st L e e' t ty p p' :
  jwt_stable L -> decode_jwt st L e t ty = Ok p -> decode_jwt st L e' t ty = Ok p' -> p = p'.
Proof.
  intros Hs. unfold decode_jwt.
  destruct (jwt_decode L (now e) _ _ _ _ t) as [q|] eqn:H1; [|done].
  destruct (jwt_decode L (now e') _ _ _ _ t) as [q'|] eqn:H2; [|done].
  assert (q = q') as <- by (eapply Hs; eassumption).
  destruct (eqs _ _); [|done]. congruence.
Qed.

(** A refresh token is good for one rotation: once it has been exchanged, no
    later request that finds the session table as that exchange left it can
    exchange it again, at whatever time. *)
Theorem refresh_single_use st L e t w r w' :
  jwt_stable L -> refresh_session st L e t w = (Ok r, w') ->
  forall e' w2, user_sessions (working w2) = user_sessions (committed w') ->
    is_ok (fst (refresh_session st L e' t w2)) = false.
Proof.
  intros Hstable H e' w2 Hw2. destruct r as [u csrf].
  apply refresh_Ok in H as (payload & s & (Hd & Hf & _) & Hrot & Hlive & _ & H).
  apply rotate_success in H as (_ & _ & next & _ & _ & _ & _ & Hc & _).
  destruct (refresh_session st L e' t w2) as [[[u2 c2]|x] w3] eqn:H2; [|done]. exfalso.
  apply refresh_Ok in H2 as (payload2 & s2 & (Hd2 & Hf2 & _) & Hrot2 & _).
  assert (payload = payload2) as <- by (eapply decode_jwt_stable; eassumption).
  rewrite Hw2, Hc in Hf2. simpl in Hf2. unfold rotated_sessions, insert in Hf2.
  rewrite first_app, first_update_where in Hf2 by (intros x; by destruct (eqs (s_id x) (s_id s))).
  rewrite Hf in Hf2. simpl in Hf2. unfold eqs in Hf2. rewrite String.eqb_refl in Hf2.
  injection Hf2 as <-. done.
Qed.

Lemma example_jwt_stable : jwt_stable example_libs.
Proof.
  intros t t' k a i u token p p'. simpl. unfold example_decode.
  destruct (split_on "|" token) as [|? [|? [|? [|? ?]]]]; try done. congruence.
Qed.

Lemma refresh_single_use_witness :
  is_ok (fst (refresh_session example_settings example_libs (example_env 3 "c") example_token (world_of example_d2))) = true /\
  is_ok (fst (refresh_session example_settings example_libs (example_env 4 "e") example_token (world_of example_d3))) = false.
Proof.
  split; [vm_compute; reflexivity|].
  destruct (refresh_session example_settings example_libs (example_env 3 "c") example_token (world_of example_d2))
    as [[r|x] w'] eqn:H; [|vm_compute in H; discriminate H].
  apply (refresh_single_use _ _ _ _ _ _ _ example_jwt_stable H).
  vm_compute in H. injection H as _ <-. vm_compute. reflexivity.
Defined.

(** The database after the reset of the password of [u] with the token [r]. *)
Definition after_reset (L : libs) (e : env) (p : string) (u : user) (r : reset_token) (d : db) : db :=
  on_user_sessions (update_where (fun s => eqs (s_user_id s) (user_id u) && live s) (revoke_row e "password_reset"))
  (on_reset_tokens (update_where (fun x => open_reset (user_id u) x && negb (eqs (r_id x) (r_id r)))
                                 (set_r_invalidated_at (Some (now e))))
  (on_reset_tokens (update_where (fun x => eqs (r_id x) (r_id r)) (set_r_used_at (Some (now e))))
  (on_users (update_where (fun x => eqs (user_id x) (user_id u)) (set_password e (pw_hash L p))) d))).

Lemma reset_password_Ok L e t p w u w' :
  reset_password L e t p w = (Ok u, w') ->
  exists r u0, (12 <= String.length p)%nat /\
    first (fun r => eqs (r_token_hash r) (hash_token L t)) (reset_tokens (working w)) = Some r /\
    r_used_at r = None /\ r_invalidated_at r = None /\ now e < r_expires_at r /\
    first (fun u => eqs (user_id u) (r_user_id r)) (users (working w)) = Some u0 /\
    u = set_password e (pw_hash L p) u0 /\
    committed w' = after_reset L e p u0 r (working w).
Proof.
  unfold reset_password, password_policy_ok. destruct (Nat.leb_spec 12 (String.length p)) as [Hp|]; [|done].
  cbn [negb]. intros H. apply bind_Ok in H as (o & w1 & Hq & H). unfold query in Hq. injection Hq as <- <-.
  destruct (first _ (reset_tokens _)) as [r|] eqn:Hr; [|done].
  destruct (r_used_at r) eqn:Hus; [done|]. destruct (r_invalidated_at r) eqn:Hiv; [done|]. cbn in H.
  destruct (Z.leb_spec (r_expires_at r) (now e)); [done|].
  unfold get_user_by_id in H. apply bind_Ok in H as (o & w1 & Hq & H). unfold query in Hq. injection Hq as <- <-.
  destruct (first _ (users _)) as [u0|] eqn:Hu; [|done].
  unfold revoke_all_sessions, when in H.
  apply bind_Ok in H as (? & w2 & H2 & H). unfold update_user, execute in H2. injection H2 as _ <-.
  apply bind_Ok in H as (? & w3 & H3 & H). unfold execute in H3. injection H3 as _ <-.
  apply bind_Ok in H as (? & w4 & H4 & H). unfold execute in H4. injection H4 as _ <-.
  apply bind_Ok in H as (? & w5 & H5 & H). apply bind_Ok in H5 as (? & w6 & H6 & H5).
  unfold execute in H6. injection H6 as _ <-. unfold ret in H5. injection H5 as _ <-.
  apply bind_Ok in H as (? & w7 & H7 & H). apply commit_Ok in H7 as (Hc & _ & _).
  unfold send_password_changed_email in H. w_inv. exists r, u0. split_and!; done.
Qed.

(** A successful password reset was made with an open, unexpired token of an
    existing user.  It sets that user's password hash, revokes all of the
    user's sessions and closes all of the user's reset tokens in one commit,
    and the token never works again on that token table. *)
Theorem reset_password_effect L e t p w u w' :
  reset_password L e t p w = (Ok u, w') ->
  (12 <= String.length p)%nat /\ password_hash u = Some (pw_hash L p) /\
  (forall x, x ∈ users (committed w') -> user_id x = user_id u -> password_hash x = Some (pw_hash L p)) /\
  (forall x, x ∈ users (committed w') -> user_id x <> user_id u -> x ∈ users (working w)) /\
  (forall s, s ∈ user_sessions (committed w') -> s_user_id s = user_id u -> live s = false) /\
  (forall r, r ∈ reset_tokens (committed w') -> open_reset (user_id u) r = false) /\
  (forall e' p' w2, reset_tokens (working w2) = reset_tokens (committed w') ->
     is_ok (fst (reset_password L e' t p' w2)) = false).
Proof.
  intros (r & u0 & Hp & Hr & Hus & Hiv & _ & Hu & -> & Hc)%reset_password_Ok.
  split_and!; try done; rewrite ?Hc.
  - intros x Hx Hid. apply elem_of_update_where in Hx as (y & _ & ->).
    destruct (eqs (user_id y) (user_id u0)) eqn:Hy; [done|].
    apply String.eqb_neq in Hy. by destruct Hy.
  - intros x Hx Hid. apply elem_of_update_where in Hx as (y & Hy & ->).
    destruct (eqs (user_id y) (user_id u0)) eqn:He; [|done].
    apply String.eqb_eq in He. by destruct Hid.
  - intros s Hs Hid. apply elem_of_update_where in Hs as (y & _ & ->).
    destruct (eqs (s_user_id y) (user_id u0) && live y) eqn:Hy; [done|].
    simpl in Hid. unfold eqs in Hy. by rewrite Hid, String.eqb_refl in Hy.
  - intros x Hx. apply elem_of_update_where in Hx as (y & Hy & ->).
    apply elem_of_update_where in Hy as (z & _ & ->).
    destruct (eqs (r_id z) (r_id r)) eqn:Hz; simpl.
    + rewrite Hz, andb_false_r. unfold open_reset. simpl. by rewrite andb_false_r.
    + rewrite Hz, andb_true_r. destruct (open_reset (user_id u0) z) eqn:Ho; [|exact Ho].
      unfold open_reset. simpl. by rewrite andb_false_r.
  - intros e' p' w2 Hw2. destruct (reset_password L e' t p' w2) as [[u2|x] w3] eqn:H2; [|done]. exfalso.
    apply reset_password_Ok in H2 as (r2 & u2' & _ & Hr2 & Hus2 & _).
    rewrite Hw2 in Hr2. simpl in Hr2.
    rewrite !first_update_where in Hr2 by (intros x; by repeat case_match).
    rewrite Hr in Hr2. simpl in Hr2. unfold eqs in Hr2. rewrite String.eqb_refl in Hr2. simpl in Hr2.
    rewrite String.eqb_refl, andb_false_r in Hr2. injection Hr2 as <-. done.
Qed.

Definition example_d4 : db := example_serve 5 "f" (ForgotPassword "X@example.org") example_d3.

Lemma reset_password_effect_witness :
  exists u w', reset_password example_libs (example_env 6 "g") "f" "another long password" (world_of example_d4) = (Ok u, w') /\
    password_hash u = Some "$another long password" /\
    (forall s, s ∈ user_sessions (committed w') -> s_user_id s = user_id u -> live s = false).
Proof.
  eexists _, _. split; [vm_compute; reflexivity|].
  edestruct (reset_password_effect example_libs (example_env 6 "g") "f" "another long password" (world_of example_d4))
    as (_ & H1 & _ & _ & H2 & _); [vm_compute; reflexivity|].
  split; [exact H1 | exact H2].
Defined.
