(* ===== verification/Mfa.v ===== *)
(** * Second factors: auth/services/mfa_service.py

    Login challenges, TOTP methods and recovery codes, with the encryption
    helpers of auth/encryption.py.  [totp_at secret t] is pyotp's code for the
    time [t]; comparing it with a code that has a non-ASCII digit is the
    [TypeError] of [hmac.compare_digest].  A recovery code draws its twelve
    characters at once; the provisioning URI is left out. *)

From S2P Require Import Prelude PyText AuthDb AuthService.

Open Scope string_scope.
Open Scope list_scope.
Open Scope Z_scope.

Section MfaService.
Context (st : settings) (L : libs) (e : env).

(** ** Encryption *)

(** [None] is [MfaEncryptionError]. *)
Definition encrypt_mfa_secret (secret : string) : option string :=
  match mfa_encryption_key st with
  | Some key => if nonempty key then fernet_encrypt L key secret else None
  | None => None
  end.

Definition decrypt_mfa_secret (ciphertext : string) : option string :=
  match mfa_encryption_key st with
  | Some key => if nonempty key then fernet_decrypt L key ciphertext else None
  | None => None
  end.

Definition configuration_error : http_exn := auth_error "MFA_SECRET_CONFIGURATION_ERROR" 503.

Definition or_raise {A} (x : http_exn) (o : option A) : W A :=
  match o with Some a => ret a | None => raise x end.

Definition _secret_encrypt (secret : string) : W string :=
  or_raise configuration_error (encrypt_mfa_secret secret).
Definition _secret_decrypt (ciphertext : string) : W string :=
  or_raise configuration_error (decrypt_mfa_secret ciphertext).

(** ** Recovery codes *)

Definition normalize_recovery_code (code : string) : string := string_filter is_alnum (upper code).

Definition recovery_code_hash (code : string) : string :=
  hmac_sha256_hex L (mfa_recovery_pepper st) (normalize_recovery_code code).

Definition format_code (raw : string) : string :=
  String.substring 0 4 raw +:+ "-" +:+ String.substring 4 4 raw +:+ "-"
  +:+ String.substring 8 (String.length raw - 8) raw.

Fixpoint draw_codes (n : nat) : W (list string) :=
  match n with
  | O => ret []
  | S n => do raw <- draw e; do codes <- draw_codes n; ret (format_code raw :: codes)
  end.

Definition generate_recovery_codes : W (list string) := draw_codes (mfa_recovery_code_count st).

(** ** Methods *)

Definition enabled_totp (uid : string) (m : mfa_method) : bool :=
  eqs (m_user_id m) uid && eqs (m_type m) "totp" && is_enabled m.

Definition unused_code (uid : string) (c : recovery_code) : bool :=
  eqs (rc_user_id c) uid && none (rc_used_at c).

Definition enabled_method (uid : string) : W (option mfa_method) :=
  query (fun d => first (enabled_totp uid) (mfa_methods d)).

Definition methods_of (uid : string) (d : db) : list string :=
  (if some (first (fun c => eqs (w_user_id c) uid) (webauthn_credentials d)) then ["passkey"] else [])
  ++ (if some (first (enabled_totp uid) (mfa_methods d))
      then "totp" :: (if some (first (unused_code uid) (recovery_codes d)) then ["recovery_code"] else [])
      else []).

Definition available_mfa_methods (uid : string) : W (list string) := query (methods_of uid).

(** [None] is the [ValueError]. *)
Definition preferred_mfa_method (methods : list string) : option string :=
  first (fun m => existsb (eqs m) methods) ["passkey"; "totp"; "recovery_code"].

(** ** Challenges *)

Record ChallengeDetails := { methods : list string; preferred_method : string; expires_in : Z }.

Definition by_token (token : string) (c : mfa_challenge) : bool := eqs (c_token_hash c) (hash_token L token).

Definition login_challenge_details (token : string) : W ChallengeDetails :=
  do challenge <- query (fun d => first (by_token token) (mfa_challenges d));
  match challenge with
  | Some c =>
      if some (c_used_at c) || some (c_invalidated_at c) || (c_expires_at c <=? now e)
      then raise (auth_error "MFA_CHALLENGE_EXPIRED" 400)
      else
        do u <- get_user_by_id (c_user_id c);
        do methods <- available_mfa_methods (c_user_id c);
        match u with
        | Some u =>
            if negb (is_active u) || bool_decide (methods = [])
            then raise (auth_error "MFA_CHALLENGE_INVALID" 400)
            else
              do preferred <- or_raise (InternalError "ValueError") (preferred_mfa_method methods);
              ret {| methods := methods; preferred_method := preferred;
                     expires_in := Z.max 1 ((c_expires_at c - now e) / second) |}
        | None => raise (auth_error "MFA_CHALLENGE_INVALID" 400)
        end
  | None => raise (auth_error "MFA_CHALLENGE_EXPIRED" 400)
  end.

Definition open_login (uid : string) (c : mfa_challenge) : bool :=
  eqs (c_user_id c) uid && eqs (c_purpose c) "login" && none (c_used_at c) && none (c_invalidated_at c).

(** The token and the seconds it lives. *)
Definition create_login_challenge (u : user) (primary_method : string) (redirect_path : option string)
    : W (string * Z) :=
  do token <- draw e;
  execute (on_mfa_challenges
    (update_where (open_login (user_id u)) (set_c_invalidated_at (Some (now e))))) >>
  do id <- draw e;
  execute (on_mfa_challenges (insert
    {| c_id := id; c_user_id := user_id u; c_token_hash := hash_token L token; c_purpose := "login";
       primary_method := primary_method; redirect_path := redirect_path;
       c_expires_at := now e + mfa_challenge_expire_seconds st * second; c_used_at := None;
       c_invalidated_at := None; c_attempt_count := 0; c_ip_address := client_host e;
       c_user_agent := header e "user-agent" |})) >>
  commit e >>
  ret (token, mfa_challenge_expire_seconds st).

Definition _audit (uid action : string) : W unit := add_audit (Some uid) (Some uid) action (Some uid).

(** ** Factors *)

Definition is_ascii (c : ascii) : bool := N.ltb (N_of_ascii c) 128.

(** [range(-w, w + 1)] *)
Definition offsets : list Z :=
  map (fun i => Z.of_nat i - mfa_totp_valid_window st)
    (List.seq 0 (Z.to_nat (2 * mfa_totp_valid_window st + 1))).

Definition counter_matches (secret code : string) (counter : Z) : bool :=
  eqs (totp_at L secret (counter * 30)) code.

(** The first counter of the window whose code is the given one. *)
Definition _matching_counter (secret code : string) : W (option Z) :=
  if negb (Nat.eqb (String.length code) 6) || negb (isdigit code) then ret None
  else
    let current := timestamp (now e) / 30 in
    if bool_decide (offsets <> []) && negb (all_chars is_ascii code) then raise (InternalError "TypeError")
    else ret (first (counter_matches secret code) (map (Z.add current) offsets)).

Definition update_method (m : mfa_method) (f : mfa_method -> mfa_method) : W unit :=
  execute (on_mfa_methods (update_where (fun x => eqs (m_id x) (m_id m)) f)).

Definition fresh_counter (m : mfa_method) (counter : Z) : bool :=
  match last_used_counter m with Some last => last <? counter | None => true end.

(** The factor that was used, [None] when it is not accepted. *)
Definition _consume_factor (m : mfa_method) (code recovery_code : option string) : W (option string) :=
  match code with
  | Some (String _ _ as code) =>
      do secret <- _secret_decrypt (secret_encrypted m);
      do counter <- _matching_counter secret (strip code);
      match counter with
      | Some counter =>
          if fresh_counter m counter then
            update_method m (fun x => set_last_used_counter (Some counter) (set_m_last_used_at (Some (now e)) x)) >>
            ret (Some "totp")
          else ret None
      | None => ret None
      end
  | _ =>
      match recovery_code with
      | Some code =>
          do record <- query (fun d => first (fun c => unused_code (m_user_id m) c
                                && eqs (code_hash c) (recovery_code_hash code)) (recovery_codes d));
          match record with
          | Some c =>
              execute (on_recovery_codes
                (update_where (fun x => eqs (rc_id x) (rc_id c)) (set_rc_used_at (Some (now e))))) >>
              update_method m (set_m_last_used_at (Some (now e))) >>
              ret (Some "recovery")
          | None => ret None
          end
      | None => raise (InternalError "AssertionError")
      end
  end.

(** ** The second step of a login *)

Definition update_challenge (c : mfa_challenge) (f : mfa_challenge -> mfa_challenge) : W unit :=
  execute (on_mfa_challenges (update_where (fun x => eqs (c_id x) (c_id c)) f)).

(** Invalidate the challenge, commit, refuse. *)
Definition close_challenge {A} (c : mfa_challenge) (code : string) (status : Z) : W A :=
  update_challenge c (set_c_invalidated_at (Some (now e))) >>
  commit e >>
  raise (auth_error code status).

Definition given (o : option string) : bool :=
  match o with Some s => nonempty s | None => false end.

(** The branch for a factor that was not accepted. *)
Definition failed_attempt {A} (c : mfa_challenge) (u : user) (recovery_code : option string) : W A :=
  let count := c_attempt_count c + 1 in
  let blocked := mfa_max_attempts st <=? count in
  update_challenge c (fun x =>
    let x := set_c_attempt_count count x in
    if blocked then set_c_invalidated_at (Some (now e)) x else x) >>
  _audit (user_id u) (if blocked then "MFA_CHALLENGE_BLOCKED" else "MFA_LOGIN_FAILED") >>
  commit e >>
  if blocked then raise (auth_error "MFA_TOO_MANY_ATTEMPTS" 429)
  else raise (auth_error (if given recovery_code then "MFA_RECOVERY_CODE_INVALID" else "MFA_CODE_INVALID") 401).

(** The user, the factor used and the primary method. *)
Definition verify_login_challenge (token : string) (code recovery_code : option string)
    : W (user * string * string) :=
  do challenge <- query (fun d => first (by_token token) (mfa_challenges d));
  match challenge with
  | None => raise (auth_error "MFA_CHALLENGE_INVALID" 400)
  | Some c =>
      if some (c_used_at c) then raise (auth_error "MFA_CHALLENGE_USED" 409)
      else if some (c_invalidated_at c) then raise (auth_error "MFA_CHALLENGE_INVALID" 400)
      else if c_expires_at c <=? now e then close_challenge c "MFA_CHALLENGE_EXPIRED" 400
      else if mfa_max_attempts st <=? c_attempt_count c then close_challenge c "MFA_TOO_MANY_ATTEMPTS" 429
      else
        do method <- enabled_method (c_user_id c);
        do u <- get_user_by_id (c_user_id c);
        match method, u with
        | Some m, Some u =>
            if negb (is_active u) then close_challenge c "MFA_CHALLENGE_INVALID" 400
            else
              do used <- _consume_factor m code recovery_code;
              match used with
              | Some used =>
                  update_challenge c (set_c_used_at (Some (now e))) >>
                  update_user (user_id u) (set_last_login_at (Some (now e))) >>
                  _audit (user_id u) (if eqs used "recovery" then "MFA_RECOVERY_CODE_USED" else "MFA_LOGIN_SUCCESS") >>
                  commit e >>
                  do u <- refresh_user (user_id u);
                  ret (u, used, primary_method c)
              | None => failed_attempt c u recovery_code
              end
        | _, _ => close_challenge c "MFA_CHALLENGE_INVALID" 400
        end
  end.

(** ** Setup *)

Definition totp_of (uid : string) (m : mfa_method) : bool := eqs (m_user_id m) uid && eqs (m_type m) "totp".

Definition start_totp_setup (u : user) : W string :=
  do enabled <- enabled_method (user_id u);
  if some enabled then raise (auth_error "MFA_ALREADY_ENABLED" 409)
  else
    do secret <- draw e;
    do method <- query (fun d => first (totp_of (user_id u)) (mfa_methods d));
    do ciphertext <- _secret_encrypt secret;
    let expires := Some (now e + mfa_setup_expire_seconds st * second) in
    match method with
    | Some m =>
        update_method m (fun x =>
          set_secret_encrypted ciphertext (set_setup_expires_at expires (set_last_used_counter None x)))
    | None =>
        do id <- draw e;
        execute (on_mfa_methods (insert
          {| m_id := id; m_user_id := user_id u; m_type := "totp"; secret_encrypted := ciphertext;
             is_enabled := false; verified_at := None; setup_expires_at := expires;
             m_last_used_at := None; last_used_counter := None |}))
    end >>
    _audit (user_id u) "MFA_SETUP_STARTED" >>
    commit e >>
    ret secret.

Fixpoint insert_codes (uid : string) (codes : list string) : W unit :=
  match codes with
  | [] => ret tt
  | code :: codes =>
      do id <- draw e;
      execute (on_recovery_codes (insert
        {| rc_id := id; rc_user_id := uid; code_hash := recovery_code_hash code; rc_used_at := None |})) >>
      insert_codes uid codes
  end.

Definition _replace_recovery_codes (uid : string) : W (list string) :=
  do codes <- generate_recovery_codes;
  execute (on_recovery_codes (delete_where (fun c => eqs (rc_user_id c) uid))) >>
  insert_codes uid codes >>
  ret codes.

(** The attributes a confirmation assigns. *)
Definition confirm_row (counter : Z) (m : mfa_method) : mfa_method :=
  set_is_enabled true (set_verified_at (Some (now e)) (set_setup_expires_at None
    (set_last_used_counter (Some counter) (set_m_last_used_at (Some (now e)) m)))).

Definition setup_expired (m : mfa_method) : bool :=
  is_enabled m || match setup_expires_at m with Some t => t <=? now e | None => true end.

Definition confirm_totp_setup (u : user) (code : string) : W (list string) :=
  do method <- query (fun d => first (totp_of (user_id u)) (mfa_methods d));
  match method with
  | Some m =>
      if setup_expired m then raise (auth_error "MFA_SETUP_EXPIRED" 400)
      else
        do secret <- _secret_decrypt (secret_encrypted m);
        do counter <- _matching_counter secret code;
        match counter with
        | None => raise (auth_error "MFA_CODE_INVALID" 401)
        | Some counter =>
            update_method m (confirm_row counter) >>
            do codes <- _replace_recovery_codes (user_id u);
            _audit (user_id u) "MFA_ENABLED" >>
            commit e >>
            ret codes
        end
  | None => raise (auth_error "MFA_SETUP_EXPIRED" 400)
  end.

Record SecurityStatus := {
  mfa_enabled : bool; mfa_method_name : option string; enabled_at : option Z; last_used : option Z;
  recovery_codes_remaining : nat
}.

Definition security_status (uid : string) : W SecurityStatus :=
  do method <- enabled_method uid;
  match method with
  | None => ret {| mfa_enabled := false; mfa_method_name := None; enabled_at := None; last_used := None;
                   recovery_codes_remaining := 0 |}
  | Some m =>
      do remaining <- query (fun d => length (List.filter (unused_code uid) (recovery_codes d)));
      ret {| mfa_enabled := true; mfa_method_name := Some "totp"; enabled_at := verified_at m;
             last_used := m_last_used_at m; recovery_codes_remaining := remaining |}
  end.

(** ** Other sessions *)

(** The family of the refresh token in the request, if it is the user's. *)
Definition current_family (uid : string) : W (option string) :=
  match cookie e (auth_refresh_cookie_name st) with
  | None | Some "" => ret None
  | Some token =>
      match decode_jwt st L e token refresh_type with
      | Err _ => ret None
      | Ok payload =>
          do record <- query (fun d => first (fun s => eqs (jti s) (claim_jti payload)) (user_sessions d));
          ret match record with
              | Some s => if eqs (s_user_id s) uid then Some (family_id s) else None
              | None => None
              end
      end
  end.

Definition revoke_other_sessions (uid reason : string) : W unit :=
  do family <- current_family uid;
  execute (on_user_sessions (update_where
    (fun s => eqs (s_user_id s) uid && live s
              && match family with Some f => negb (eqs (family_id s) f) | None => true end)
    (revoke_row e reason))) >>
  commit e.

(** ** Sensitive actions *)

Definition password_accepted (u : user) (current_password : option string) : bool :=
  match password_hash u with
  | Some hash =>
      if nonempty hash then
        match current_password with
        | Some p => nonempty p && verify_password L p hash
        | None => false
        end
      else true
  | None => true
  end.

Definition verify_sensitive_action (u : user) (current_password code recovery_code : option string)
    : W mfa_method :=
  do method <- enabled_method (user_id u);
  match method with
  | None => raise (auth_error "MFA_NOT_ENABLED" 409)
  | Some m =>
      if negb (password_accepted u current_password) then raise (auth_error "INVALID_CREDENTIALS" 401)
      else
        do used <- _consume_factor m code recovery_code;
        match used with
        | Some _ => ret m
        | None => raise (auth_error "MFA_CODE_INVALID" 401)
        end
  end.

Definition regenerate_recovery_codes (u : user) (current_password code recovery_code : option string)
    : W (list string) :=
  verify_sensitive_action u current_password code recovery_code >>
  do codes <- _replace_recovery_codes (user_id u);
  _audit (user_id u) "MFA_RECOVERY_CODES_REGENERATED" >>
  commit e >>
  ret codes.

Definition disable_mfa (u : user) (current_password code recovery_code : option string) : W unit :=
  verify_sensitive_action u current_password code recovery_code >>
  execute (on_recovery_codes (delete_where (fun c => eqs (rc_user_id c) (user_id u)))) >>
  execute (on_mfa_methods (delete_where (fun m => eqs (m_user_id m) (user_id u)))) >>
  execute (on_mfa_challenges (update_where
    (fun c => eqs (c_user_id c) (user_id u) && none (c_used_at c)) (set_c_invalidated_at (Some (now e))))) >>
  execute (on_user_sessions (update_where
    (fun s => eqs (s_user_id s) (user_id u) && live s) (revoke_row e "mfa_disabled"))) >>
  _audit (user_id u) "MFA_DISABLED" >>
  commit e.

End MfaService.

(** ** What a factor proves *)

Section MfaFacts.
Context (st : settings) (L : libs) (e : env).

(** The counter is that of the current time, up to the window. *)
Definition in_window (counter : Z) : Prop :=
  Z.abs (counter - timestamp (now e) / 30) <= mfa_totp_valid_window st.

Lemma elem_of_offsets o : 0 <= mfa_totp_valid_window st -> o ∈ offsets st -> Z.abs o <= mfa_totp_valid_window st.
Proof.
  intros Hw. unfold offsets. rewrite list_elem_of_fmap. intros (i & -> & Hi).
  rewrite list_elem_of_In, in_seq in Hi. lia.
Qed.

Lemma matching_counter_Ok secret code w counter w' :
  0 <= mfa_totp_valid_window st ->
  _matching_counter st L e secret code w = (Ok (Some counter), w') ->
  w' = w /\ in_window counter /\ totp_at L secret (counter * 30) = code.
Proof.
  intros Hw. unfold _matching_counter. destruct (_ || _); [by intros [=]|].
  destruct (_ && _); [done|]. intros [= H <-]. split; [done|].
  apply first_Some in H as [Hin Hm]. apply String.eqb_eq in Hm. split; [|done].
  apply list_elem_of_fmap in Hin as (o & -> & Ho). apply elem_of_offsets in Ho; [|done].
  unfold in_window. lia.
Qed.

(** An accepted factor: a code of a new counter, or an unused recovery code. *)
Inductive accepted (m : mfa_method) (code recovery_code : option string) (d d' : db) : string -> Prop :=
| by_totp k secret counter :
    code = Some k -> decrypt_mfa_secret st L (secret_encrypted m) = Some secret ->
    totp_at L secret (counter * 30) = strip k -> in_window counter -> fresh_counter m counter = true ->
    d' = on_mfa_methods (update_where (fun x => eqs (m_id x) (m_id m)) (fun x =>
           set_last_used_counter (Some counter) (set_m_last_used_at (Some (now e)) x))) d ->
    accepted m code recovery_code d d' "totp"
| by_recovery k c :
    recovery_code = Some k ->
    first (fun c => unused_code (m_user_id m) c && eqs (code_hash c) (recovery_code_hash st L k)) (recovery_codes d) = Some c ->
    d' = on_mfa_methods (update_where (fun x => eqs (m_id x) (m_id m)) (set_m_last_used_at (Some (now e))))
           (on_recovery_codes (update_where (fun x => eqs (rc_id x) (rc_id c)) (set_rc_used_at (Some (now e)))) d) ->
    accepted m code recovery_code d d' "recovery".

Lemma consume_Ok m code recovery_code w used w' :
  0 <= mfa_totp_valid_window st ->
  _consume_factor st L e m code recovery_code w = (Ok (Some used), w') ->
  committed w' = committed w /\ accepted m code recovery_code (working w) (working w') used.
Proof.
  intros Hwin. unfold _consume_factor.
  assert (Hrec : (match recovery_code with
      | Some code =>
          do record <- query (fun d => first (fun c => unused_code (m_user_id m) c
                                && eqs (code_hash c) (recovery_code_hash st L code)) (recovery_codes d));
          match record with
          | Some c =>
              execute (on_recovery_codes
                (update_where (fun x => eqs (rc_id x) (rc_id c)) (set_rc_used_at (Some (now e))))) >>
              update_method m (set_m_last_used_at (Some (now e))) >>
              ret (Some "recovery")
          | None => ret None
          end
      | None => raise (InternalError "AssertionError")
      end) w = (Ok (Some used), w') ->
      committed w' = committed w /\ accepted m code recovery_code (working w) (working w') used).
  { destruct recovery_code as [k|]; [|done]. unfold bind at 1, query.
    destruct (first _ _) as [c|] eqn:Hc; [|done]. intros [= <- <-]. split; [done|].
    by eapply by_recovery. }
  destruct code as [[|a k]|]; try exact Hrec. clear Hrec. intros H.
  apply bind_Ok in H as (secret & w1 & Hs & H). unfold _secret_decrypt, or_raise in Hs.
  destruct (decrypt_mfa_secret st L (secret_encrypted m)) as [s|] eqn:Hd; [|done]. injection Hs as <- <-.
  apply bind_Ok in H as ([counter|] & w1 & Hm & H); [|done].
  apply matching_counter_Ok in Hm as (-> & Hin & Hcode); [|done].
  destruct (fresh_counter m counter) eqn:Hf; [|done]. injection H as <- <-.
  split; [done|]. by eapply by_totp.
Qed.

Lemma accepted_other m code recovery_code d d' used :
  accepted m code recovery_code d d' used ->
  mfa_challenges d' = mfa_challenges d /\ users d' = users d /\ user_sessions d' = user_sessions d.
Proof. by intros [? ? ? _ _ _ _ _ ->|? ? _ _ ->]. Qed.

Lemma close_never {A} c code status w (a : A) w' : close_challenge e c code status w <> (Ok a, w').
Proof. unfold close_challenge, update_challenge, bind at 1, execute at 1. apply raise_after_commit. Qed.

Lemma failed_never {A} c u rc w (a : A) w' : failed_attempt st e c u rc w <> (Ok a, w').
Proof.
  unfold failed_attempt, update_challenge, _audit, add_audit.
  unfold bind at 1, execute at 1. unfold bind at 1, execute at 1.
  destruct (mfa_max_attempts st <=? c_attempt_count c + 1); apply raise_after_commit.
Qed.

(** A challenge that can still be answered. *)
Record answerable (c : mfa_challenge) : Prop := {
  ans_unused : c_used_at c = None;
  ans_valid : c_invalidated_at c = None;
  ans_time : now e < c_expires_at c;
  ans_attempts : c_attempt_count c < mfa_max_attempts st
}.

Lemma verify_login_Ok token code recovery_code w u used primary w' :
  0 <= mfa_totp_valid_window st ->
  verify_login_challenge st L e token code recovery_code w = (Ok (u, used, primary), w') ->
  exists c m u0 d1, first (by_token L token) (mfa_challenges (working w)) = Some c /\ answerable c /\
    primary = primary_method c /\
    first (enabled_totp (c_user_id c)) (mfa_methods (working w)) = Some m /\
    first (fun u => eqs (user_id u) (c_user_id c)) (users (working w)) = Some u0 /\ is_active u0 = true /\
    accepted m code recovery_code (working w) d1 used /\
    mfa_challenges (committed w') = update_where (fun x => eqs (c_id x) (c_id c)) (set_c_used_at (Some (now e)))
      (mfa_challenges (working w)) /\
    mfa_methods (committed w') = mfa_methods d1 /\ recovery_codes (committed w') = recovery_codes d1 /\
    user_sessions (committed w') = user_sessions (working w) /\ constraints_ok (committed w') = true /\
    user_id u = c_user_id c.
Proof.
  intros Hwin. unfold verify_login_challenge. intros H.
  apply bind_Ok in H as (o & w1 & Hq & H). unfold query in Hq. injection Hq as <- <-.
  destruct (first (by_token L token) _) as [c|] eqn:Hc; [|done].
  destruct (c_used_at c) eqn:Hus; [done|]. destruct (c_invalidated_at c) eqn:Hiv; [done|]. cbn [some none negb] in H.
  destruct (Z.leb_spec (c_expires_at c) (now e)); [by apply close_never in H|].
  destruct (Z.leb_spec (mfa_max_attempts st) (c_attempt_count c)); [by apply close_never in H|].
  apply bind_Ok in H as (om & w1 & Hq & H). unfold enabled_method, query in Hq. injection Hq as <- <-.
  apply bind_Ok in H as (ou & w1 & Hq & H). unfold get_user_by_id, query in Hq. injection Hq as <- <-.
  destruct (first (enabled_totp _) _) as [m|] eqn:Hm; [|by apply close_never in H].
  destruct (first _ (users _)) as [u0|] eqn:Hu; [|by apply close_never in H].
  destruct (is_active u0) eqn:Ha; cbn [negb] in H; [|by apply close_never in H].
  apply bind_Ok in H as (ous & w1 & Hcf & H). destruct ous as [us|]; [|by apply failed_never in H].
  apply consume_Ok in Hcf as [Hcm Hacc]; [|done].
  destruct (accepted_other _ _ _ _ _ _ Hacc) as (Hch & Hus' & Hse).
  apply bind_Ok in H as (? & w2 & H2 & H). unfold update_challenge, execute in H2. injection H2 as _ <-.
  apply bind_Ok in H as (? & w3 & H3 & H). unfold update_user, execute in H3. injection H3 as _ <-.
  apply bind_Ok in H as (? & w4 & H4 & H). unfold _audit, add_audit, execute in H4. injection H4 as _ <-.
  apply bind_Ok in H as (? & w5 & H5 & H). apply commit_Ok in H5 as (Hc5 & _ & Hok).
  apply bind_Ok in H as (u' & w6 & H6 & H). unfold ret in H. injection H as <- <- <- <-.
  apply refresh_user_Ok in H6 as [-> Hu6]. apply first_Some in Hu6 as [_ Hu6]. apply String.eqb_eq in Hu6.
  assert (user_id u0 = c_user_id c) by (apply first_Some in Hu as [_ Hu]; by apply String.eqb_eq in Hu).
  exists c, m, u0, (working w1). rewrite Hc5. simpl. rewrite Hch, Hse. split_and!; try done. congruence.
Qed.

End MfaFacts.

(** ** Bounded attempts *)

Section Attempts.
Context (st : settings) (L : libs) (e : env).
Hypothesis max_positive : 1 <= mfa_max_attempts st.

Definition closed (c : mfa_challenge) : bool := some (c_used_at c) || some (c_invalidated_at c).

(** A challenge counts at most the configured failures, and is closed at the
    last one. *)
Definition attempts_ok (c : mfa_challenge) : Prop :=
  0 <= c_attempt_count c <= mfa_max_attempts st /\
  (c_attempt_count c = mfa_max_attempts st -> closed c = true).

Definition attempts_inv (d : db) : Prop := Forall attempts_ok (mfa_challenges d).

Abbreviation keeps_attempts := (always (both attempts_inv)).

Lemma attempts_other f : (forall d, mfa_challenges (f d) = mfa_challenges d) -> keeps_attempts (execute f).
Proof. intros Hf. apply always_execute. intros d Hd. unfold attempts_inv. by rewrite Hf. Qed.

Lemma attempts_update p f :
  (forall c, attempts_ok c -> attempts_ok (f c)) ->
  keeps_attempts (execute (on_mfa_challenges (update_where p f))).
Proof.
  intros Hf. apply always_execute. intros d Hd. unfold attempts_inv in *. simpl.
  rewrite Forall_forall in *. intros c Hc. apply elem_of_update_where in Hc as (x & Hx & ->).
  destruct (p x); [by apply Hf, Hd | by apply Hd].
Qed.

Lemma attempts_ok_used c t : attempts_ok c -> attempts_ok (set_c_used_at (Some t) c).
Proof. intros [H _]. split; [exact H | done]. Qed.

Lemma attempts_ok_invalidated c t : attempts_ok c -> attempts_ok (set_c_invalidated_at (Some t) c).
Proof. intros [H _]. split; [exact H|]. intros _. unfold closed. simpl. by rewrite orb_true_r. Qed.

#[local] Hint Resolve attempts_ok_used attempts_ok_invalidated : always.

Lemma attempts_methods f : keeps_attempts (execute (on_mfa_methods f)).
Proof. by apply attempts_other. Qed.
Lemma attempts_codes f : keeps_attempts (execute (on_recovery_codes f)).
Proof. by apply attempts_other. Qed.
Lemma attempts_audit f : keeps_attempts (execute (on_audit_logs f)).
Proof. by apply attempts_other. Qed.
Lemma attempts_users f : keeps_attempts (execute (on_users f)).
Proof. by apply attempts_other. Qed.
Lemma attempts_sessions f : keeps_attempts (execute (on_user_sessions f)).
Proof. by apply attempts_other. Qed.

#[local] Hint Resolve attempts_methods attempts_codes attempts_audit attempts_users attempts_sessions
  attempts_update : always.

Lemma attempts_or_raise {A} x (o : option A) : keeps_attempts (or_raise x o).
Proof. unfold or_raise. always. Qed.

#[local] Hint Resolve attempts_or_raise : always.

Lemma attempts_consume m c r : keeps_attempts (_consume_factor st L e m c r).
Proof.
  unfold _consume_factor, _secret_decrypt, _matching_counter, update_method. always.
Qed.

Lemma attempts_close {A} c code status : keeps_attempts (@close_challenge e A c code status).
Proof. unfold close_challenge, update_challenge. always. Qed.

Lemma attempts_get_id i : keeps_attempts (get_user_by_id i).
Proof. apply always_query. Qed.

#[local] Hint Resolve attempts_consume attempts_close attempts_get_id : always.

Lemma attempts_failed {A} c u rc :
  0 <= c_attempt_count c < mfa_max_attempts st -> keeps_attempts (@failed_attempt st e A c u rc).
Proof.
  intros Hc. unfold failed_attempt, update_challenge, _audit, add_audit.
  apply always_bind.
  - apply attempts_update. intros x [H1 H2]. split.
    + destruct (mfa_max_attempts st <=? c_attempt_count c + 1); simpl; lia.
    + destruct (Z.leb_spec (mfa_max_attempts st) (c_attempt_count c + 1)); simpl.
      * intros _. unfold closed. simpl. by rewrite orb_true_r.
      * lia.
  - always.
Qed.

(** The goal is what a service preserves. *)
Ltac by_attempts Hw :=
  match goal with |- after _ (?m ?w) =>
    let Ha := fresh in assert (Ha : keeps_attempts m); [|exact (Ha w Hw)] end.

Lemma attempts_verify t c r : keeps_attempts (verify_login_challenge st L e t c r).
Proof.
  intros w Hw. unfold verify_login_challenge, bind at 1, query at 1.
  destruct (first (by_token L t) _) as [ch|] eqn:Hc; [|exact Hw].
  apply first_Some in Hc as [Hin _].
  assert (Hok : attempts_ok ch) by (destruct Hw as [_ Hw]; unfold attempts_inv in Hw; rewrite Forall_forall in Hw; by apply Hw).
  destruct Hok as [Hr _].
  destruct (some (c_used_at ch)); [exact Hw|]. destruct (some (c_invalidated_at ch)); [exact Hw|].
  destruct (c_expires_at ch <=? now e); [by apply attempts_close|].
  destruct (Z.leb_spec (mfa_max_attempts st) (c_attempt_count ch)); [by apply attempts_close|].
  by_attempts Hw. unfold enabled_method, update_challenge, update_user, refresh_user, _audit, add_audit. always.
  apply attempts_failed. lia.
Qed.

Lemma attempts_create u p r : keeps_attempts (create_login_challenge st L e u p r).
Proof.
  unfold create_login_challenge. always. apply always_execute. intros d Hd. unfold attempts_inv in *. simpl.
  apply Forall_app. split; [done|]. apply Forall_singleton. split; simpl; lia.
Qed.

Lemma attempts_draw_codes n : keeps_attempts (draw_codes e n).
Proof. induction n; cbn [draw_codes]; always. Qed.

Lemma attempts_insert_codes uid l : keeps_attempts (insert_codes st L e uid l).
Proof. induction l; cbn [insert_codes]; always. Qed.

#[local] Hint Resolve attempts_draw_codes attempts_insert_codes : always.

Lemma attempts_replace uid : keeps_attempts (_replace_recovery_codes st L e uid).
Proof. unfold _replace_recovery_codes, generate_recovery_codes. always. Qed.

Lemma attempts_sensitive u p c r : keeps_attempts (verify_sensitive_action st L e u p c r).
Proof. unfold verify_sensitive_action, enabled_method. always. Qed.

#[local] Hint Resolve attempts_replace attempts_sensitive : always.

Inductive mfa_request :=
| Challenge (uid primary : string) (redirect : option string)
| VerifyLogin (token : string) (code recovery_code : option string)
| StartSetup (uid : string)
| ConfirmSetup (uid code : string)
| RevokeOthers (uid reason : string)
| Regenerate (uid : string) (password code recovery_code : option string)
| Disable (uid : string) (password code recovery_code : option string).

Definition mfa_serve (r : mfa_request) : W unit :=
  match r with
  | Challenge u p r => with_user u (fun u => create_login_challenge st L e u p r >> ret tt)
  | VerifyLogin t c r => verify_login_challenge st L e t c r >> ret tt
  | StartSetup u => with_user u (fun u => start_totp_setup st L e u >> ret tt)
  | ConfirmSetup u c => with_user u (fun u => confirm_totp_setup st L e u c >> ret tt)
  | RevokeOthers u r => revoke_other_sessions st L e u r
  | Regenerate u p c r => with_user u (fun u => regenerate_recovery_codes st L e u p c r >> ret tt)
  | Disable u p c r => with_user u (fun u => disable_mfa st L e u p c r)
  end.

Lemma attempts_serve r : keeps_attempts (mfa_serve r).
Proof.
  assert (Hu : forall uid k, (forall u, keeps_attempts (k u)) -> keeps_attempts (with_user uid k)).
  { intros uid k Hk. unfold with_user, get_user_by_id. always. }
  destruct r; cbn [mfa_serve]; try (apply Hu; intros u).
  - apply always_bind; [apply attempts_create | intros; apply always_ret].
  - apply always_bind; [apply attempts_verify | intros; apply always_ret].
  - unfold start_totp_setup, enabled_method, _secret_encrypt, update_method, _audit, add_audit. always.
  - unfold confirm_totp_setup, _secret_decrypt, _matching_counter, update_method, _audit, add_audit. always.
  - unfold revoke_other_sessions, current_family. always.
  - unfold regenerate_recovery_codes, _audit, add_audit. always.
  - unfold disable_mfa, _audit, add_audit. always.
Qed.

End Attempts.

(** ** An example *)

Definition example_method : mfa_method :=
  {| m_id := "m"; m_user_id := "a"; m_type := "totp"; secret_encrypted := "s"; is_enabled := true;
     verified_at := Some 0; setup_expires_at := None; m_last_used_at := None; last_used_counter := Some 0 |}.

Definition example_code : recovery_code :=
  {| rc_id := "k"; rc_user_id := "a"; code_hash := "pepper#AAAABBBBCCCC"; rc_used_at := None |}.

(** The signed-up user with a method, a recovery code and an open challenge. *)
Definition example_mfa : db :=
  on_mfa_challenges (insert
    {| c_id := "c"; c_user_id := "a"; c_token_hash := "#tok"; c_purpose := "login";
       primary_method := "password"; redirect_path := None; c_expires_at := 300 * second; c_used_at := None;
       c_invalidated_at := None; c_attempt_count := 4; c_ip_address := None; c_user_agent := None |})
    (on_recovery_codes (insert example_code) (on_mfa_methods (insert example_method) example_d2)).

Definition example_login (code recovery_code : option string) :=
  verify_login_challenge example_settings example_libs (example_env 31 "z") "tok" code recovery_code
    (world_of example_mfa).

(** ** Properties *)

(** A login challenge is single-use: it succeeds only while it is unused, not
    invalidated, unexpired and below the attempt limit, for an active user with
    an enabled method and an accepted factor; success marks it used, and no
    later request on that challenge table succeeds with the same token. *)
Theorem mfa_challenge_single_use st L e token code recovery_code w u used primary w' :
  0 <= mfa_totp_valid_window st ->
  verify_login_challenge st L e token code recovery_code w = (Ok (u, used, primary), w') ->
  (exists c m u0 d1, first (by_token L token) (mfa_challenges (working w)) = Some c /\ answerable st e c /\
     first (enabled_totp (c_user_id c)) (mfa_methods (working w)) = Some m /\
     first (fun u => eqs (user_id u) (c_user_id c)) (users (working w)) = Some u0 /\ is_active u0 = true /\
     accepted st L e m code recovery_code (working w) d1 used) /\
  (forall e' code' recovery_code' w2, mfa_challenges (working w2) = mfa_challenges (committed w') ->
     is_ok (fst (verify_login_challenge st L e' token code' recovery_code' w2)) = false).
Proof.
  intros Hwin H. apply verify_login_Ok in H as (c & m & u0 & d1 & Hc & Ha & _ & Hm & Hu & Hact & Hacc & Hch & _); [|done].
  split; [by exists c, m, u0, d1|]. intros e' code' rc' w2 Hw2.
  destruct (verify_login_challenge st L e' token code' rc' w2) as [[[[u2 us2] p2]|x] w3] eqn:H2; [|done]. exfalso.
  apply verify_login_Ok in H2 as (c2 & m2 & u2' & d2 & Hc2 & [Hun _ _ _] & _); [|done].
  rewrite Hw2, Hch, first_update_where, Hc in Hc2 by (intros x; by destruct (eqs (c_id x) (c_id c))).
  simpl in Hc2. unfold eqs in Hc2. rewrite String.eqb_refl in Hc2. injection Hc2 as <-. done.
Qed.

Lemma mfa_challenge_single_use_witness :
  exists u w', example_login (Some "000030") None = (Ok (u, "totp", "password"), w') /\
    is_ok (fst (verify_login_challenge example_settings example_libs (example_env 61 "y") "tok" (Some "000060") None
                  (world_of (committed w')))) = false.
Proof.
  eexists _, _. split; [vm_compute; reflexivity|].
  eapply (mfa_challenge_single_use example_settings example_libs (example_env 31 "z") "tok" (Some "000030") None
    (world_of example_mfa)); [vm_compute; discriminate | vm_compute; reflexivity | reflexivity].
Defined.

(** C26. TOTP codes cannot be replayed: a login that used a code matched a counter
    within the window of the current time that is strictly greater than the
    method's last used counter, and stores that counter as the last used one. *)
Theorem totp_counter_increases st L e token code recovery_code w u primary w' :
  0 <= mfa_totp_valid_window st ->
  verify_login_challenge st L e token code recovery_code w = (Ok (u, "totp", primary), w') ->
  exists m k secret counter, m ∈ mfa_methods (working w) /\ code = Some k /\
    decrypt_mfa_secret st L (secret_encrypted m) = Some secret /\
    totp_at L secret (counter * 30) = strip k /\ in_window st e counter /\
    (forall last, last_used_counter m = Some last -> last < counter) /\
    forall x, x ∈ mfa_methods (committed w') -> m_id x = m_id m -> last_used_counter x = Some counter.
Proof.
  intros Hwin H. apply verify_login_Ok in H as (c & m & u0 & d1 & _ & _ & _ & Hm & _ & _ & Hacc & _ & Hms & _); [|done].
  apply first_Some in Hm as [Hin _]. inversion Hacc as [k secret counter Hk Hd Ht Hw Hf Hd1|]; subst.
  exists m, k, secret, counter. split_and!; try done.
  - intros last Hl. unfold fresh_counter in Hf. rewrite Hl in Hf. by apply Z.ltb_lt.
  - rewrite Hms. intros x Hx Hid. apply elem_of_update_where in Hx as (y & _ & ->).
    destruct (eqs (m_id y) (m_id m)) eqn:He; [done|]. apply String.eqb_neq in He. by destruct He.
Qed.

Lemma totp_counter_increases_witness :
  exists u w', example_login (Some "000030") None = (Ok (u, "totp", "password"), w') /\
    exists m counter, last_used_counter m = Some 0 /\ 0 < counter /\
      forall x, x ∈ mfa_methods (committed w') -> m_id x = m_id m -> last_used_counter x = Some counter.
Proof.
  eexists _, _. split; [vm_compute; reflexivity|].
  edestruct (totp_counter_increases example_settings example_libs (example_env 31 "z") "tok" (Some "000030") None
    (world_of example_mfa)) as (m & k & secret & counter & Hm & _ & _ & _ & _ & Hl & Hx);
    [vm_compute; discriminate | vm_compute; reflexivity |].
  apply list_elem_of_singleton in Hm as ->. exists example_method, counter.
  split; [reflexivity|]. split; [by apply Hl | exact Hx].
Defined.

(** A recovery code is good for one login: after a login with it, the code is
    not accepted again for any method of the user while the recovery-code table
    stays as that login left it. *)
Theorem recovery_code_single_use st L e token code k w u primary w' :
  0 <= mfa_totp_valid_window st ->
  verify_login_challenge st L e token code (Some k) w = (Ok (u, "recovery", primary), w') ->
  exists m, m ∈ mfa_methods (working w) /\
  forall e' m' w2 r w3, m_user_id m' = m_user_id m ->
    recovery_codes (working w2) = recovery_codes (committed w') ->
    _consume_factor st L e' m' None (Some k) w2 = (r, w3) -> r = Ok None.
Proof.
  intros Hwin H.
  apply verify_login_Ok in H as (c & m & u0 & d1 & _ & _ & _ & Hm & _ & _ & Hacc & _ & _ & Hrc & _ & Hok & _); [|done].
  apply first_Some in Hm as [Hin _]. exists m. split; [exact Hin|].
  intros e' m' w2 r w3 Hid Hw2. inversion Hacc as [|k' rc Hk Hf Hd1]; subst. injection Hk as <-.
  assert (Hnd : NoDup (map code_hash (recovery_codes (committed w')))).
  { unfold constraints_ok, nodup in Hok. repeat (apply andb_true_iff in Hok as [Hok ?]). by py_inv. }
  simpl in Hrc. unfold _consume_factor, bind at 1, query. rewrite Hid, Hw2.
  destruct (first _ (recovery_codes (committed w'))) as [c2|] eqn:Hc2; [|by intros [= <-]]. exfalso.
  apply first_Some in Hc2 as [Hin2 Hp2]. apply andb_true_iff in Hp2 as [Hun2 Hh2].
  apply first_Some in Hf as [Hin1 Hp1]. apply andb_true_iff in Hp1 as [_ Hh1].
  apply String.eqb_eq in Hh1, Hh2.
  assert (Hu : set_rc_used_at (Some (now e)) rc ∈ recovery_codes (committed w')).
  { rewrite Hrc. apply elem_of_update_where. exists rc. split; [done|]. unfold eqs. by rewrite String.eqb_refl. }
  assert (c2 = set_rc_used_at (Some (now e)) rc) as ->.
  { eapply (NoDup_map_inj code_hash); try done. by rewrite Hh2, <- Hh1. }
  unfold unused_code in Hun2. simpl in Hun2. by rewrite andb_false_r in Hun2.
Qed.

Lemma recovery_code_single_use_witness :
  exists u w', example_login None (Some "aaaa-bbbb-cccc") = (Ok (u, "recovery", "password"), w') /\
    fst (_consume_factor example_settings example_libs (example_env 61 "y") example_method None (Some "aaaa-bbbb-cccc")
           (world_of (committed w'))) = Ok None.
Proof.
  eexists _, _. split; [vm_compute; reflexivity|].
  edestruct (recovery_code_single_use example_settings example_libs (example_env 31 "z") "tok" None "aaaa-bbbb-cccc"
    (world_of example_mfa)) as (m & Hm & H); [vm_compute; discriminate | vm_compute; reflexivity |].
  apply list_elem_of_singleton in Hm as ->.
  eapply (H (example_env 61 "y") example_method); [reflexivity | | apply surjective_pairing].
  vm_compute. reflexivity.
Defined.

(** Attempt bound: every operation on second factors keeps the failures
    counted by a challenge within the configured maximum, with the challenge
    closed once the maximum is reached, so a challenge token allows at most
    that many wrong codes. *)
Theorem attempts_bounded st L e r w :
  1 <= mfa_max_attempts st -> attempts_inv st (committed w) ->
  attempts_inv st (committed (snd (run (mfa_serve st L e r) w))).
Proof. intros Hm Hw. by apply run_both; [apply attempts_serve|]. Qed.

Lemma attempts_bounded_witness :
  attempts_inv example_settings (committed (snd (run (mfa_serve example_settings example_libs (example_env 31 "z")
    (VerifyLogin "tok" (Some "123456") None)) (world_of example_mfa)))) /\
  map c_attempt_count (mfa_challenges (committed (snd (run (mfa_serve example_settings example_libs (example_env 31 "z")
    (VerifyLogin "tok" (Some "123456") None)) (world_of example_mfa))))) = [5].
Proof.
  split; [|vm_compute; reflexivity].
  apply (attempts_bounded example_settings example_libs (example_env 31 "z") (VerifyLogin "tok" (Some "123456") None)
    (world_of example_mfa)); [vm_compute; discriminate|].
  apply Forall_singleton. split; [split; vm_compute; discriminate | discriminate].
Defined.

(** Disabling MFA required the current password (when there is one) and an
    accepted factor; afterwards the user has no method and no recovery code,
    every open challenge is invalidated and every session revoked. *)
Theorem disable_mfa_effect st L e u password code recovery_code w w' :
  0 <= mfa_totp_valid_window st ->
  disable_mfa st L e u password code recovery_code w = (Ok tt, w') ->
  password_accepted L u password = true /\
  (exists m d1 used, first (enabled_totp (user_id u)) (mfa_methods (working w)) = Some m /\
     accepted st L e m code recovery_code (working w) d1 used) /\
  (forall m, m ∈ mfa_methods (committed w') -> m_user_id m <> user_id u) /\
  (forall c, c ∈ recovery_codes (committed w') -> rc_user_id c <> user_id u) /\
  (forall c, c ∈ mfa_challenges (committed w') -> c_user_id c = user_id u -> closed c = true) /\
  (forall s, s ∈ user_sessions (committed w') -> s_user_id s = user_id u -> live s = false).
Proof.
  intros Hwin. unfold disable_mfa. intros H. apply bind_Ok in H as (m & w1 & Hs & H).
  unfold verify_sensitive_action in Hs. apply bind_Ok in Hs as (om & w0 & Hq & Hs).
  unfold enabled_method, query in Hq. injection Hq as <- <-.
  destruct (first (enabled_totp _) _) as [m0|] eqn:Hm; [|done].
  destruct (password_accepted L u password) eqn:Hp; [|done]. cbn [negb] in Hs.
  apply bind_Ok in Hs as ([used|] & w2 & Hc & Hs); [|done]. unfold ret in Hs. injection Hs as <- <-.
  apply consume_Ok in Hc as [_ Hacc]; [|done].
  apply bind_Ok in H as (? & w3 & H3 & H). unfold execute in H3. injection H3 as _ <-.
  apply bind_Ok in H as (? & w4 & H4 & H). unfold execute in H4. injection H4 as _ <-.
  apply bind_Ok in H as (? & w5 & H5 & H). unfold execute in H5. injection H5 as _ <-.
  apply bind_Ok in H as (? & w6 & H6 & H). unfold execute in H6. injection H6 as _ <-.
  apply bind_Ok in H as (? & w7 & H7 & H). unfold _audit, add_audit, execute in H7. injection H7 as _ <-.
  apply commit_Ok in H as (-> & _ & _). simpl. split_and!; try done.
  - by exists m0, (working w2), used.
  - intros m' Hx. rewrite list_elem_of_In in Hx. apply filter_In in Hx as [_ Hx].
    by apply negb_true_iff, String.eqb_neq in Hx.
  - intros m' Hx. rewrite list_elem_of_In in Hx. apply filter_In in Hx as [_ Hx].
    by apply negb_true_iff, String.eqb_neq in Hx.
  - intros y0 Hx Hid. apply elem_of_update_where in Hx as (y & _ & ->). unfold closed.
    destruct (eqs (c_user_id y) (user_id u) && none (c_used_at y)) eqn:Hy; simpl in *.
    + by rewrite orb_true_r.
    + unfold eqs in Hy. rewrite Hid, String.eqb_refl in Hy. unfold some. simpl in Hy. by rewrite Hy.
  - intros y0 Hx Hid. apply elem_of_update_where in Hx as (y & _ & ->).
    destruct (eqs (s_user_id y) (user_id u) && live y) eqn:Hy; [done|].
    simpl in Hid. unfold eqs in Hy. by rewrite Hid, String.eqb_refl in Hy.
Qed.

Definition example_user : user :=
  default (new_user (example_env 0 "q") "" "" None
    {| first_name := ""; last_name := ""; display_name := None; avatar_url := None; roles := [] |} false false)
    (List.head (users example_mfa)).

Lemma disable_mfa_effect_witness :
  exists w', disable_mfa example_settings example_libs (example_env 31 "z") example_user (Some "correct horse")
               (Some "000030") None (world_of example_mfa) = (Ok tt, w') /\
    (forall s, s ∈ user_sessions (committed w') -> s_user_id s = "a" -> live s = false).
Proof.
  eexists. split; [vm_compute; reflexivity|].
  eapply (disable_mfa_effect example_settings example_libs (example_env 31 "z") example_user (Some "correct horse")
    (Some "000030") None (world_of example_mfa)); [vm_compute; discriminate | vm_compute; reflexivity].
Defined.
