(* ===== verification/Passkey.v ===== *)
(** * Passkeys: auth/services/passkey_service.py

    Registration and authentication ceremonies, passwordless login,
    reauthentication, the second step of a login, and the management of
    credentials.  A credential payload is the JSON object the browser sent; the
    ceremony options are the arguments handed to the WebAuthn library, whose
    rendering of them is left out. *)

From S2P Require Import Prelude PyText SemVer Json AuthDb AuthService Mfa.

Open Scope string_scope.
Open Scope list_scope.
Open Scope Z_scope.

Record descriptor := { descriptor_id : string; descriptor_transports : option (list json) }.

(** What the options generators are called with. *)
Record options := {
  rp_id : string; options_user : option (string * string * string); options_challenge : string;
  options_credentials : list descriptor
}.

Record CeremonyOptions := { token : string; ceremony_options : options }.

Definition passkey_register : string := "passkey_register".
Definition passkey_authenticate : string := "passkey_authenticate".
Definition passkey_step_up : string := "passkey_step_up".

Section PasskeyService.
Context (st : settings) (L : libs) (e : env).

Definition _audit (uid : option string) (action : string) : W unit := add_audit uid uid action uid.

(** [_request_metadata] *)
Definition _request_metadata : option string * option string := (client_host e, header e "user-agent").

(** ** Ceremonies *)

Definition _create_ceremony (purpose challenge : string) (uid mfa_challenge_id : option string) : W string :=
  do token <- generate_token e;
  do id <- draw e;
  let (ip, agent) := _request_metadata in
  execute (on_webauthn_challenges (insert
    {| wc_id := id; wc_user_id := uid; mfa_challenge_id := mfa_challenge_id;
       wc_token_hash := hash_token L token; challenge := challenge; wc_purpose := purpose;
       wc_expires_at := now e + webauthn_challenge_expire_seconds st * second; wc_used_at := None;
       wc_invalidated_at := None; wc_attempt_count := 0; wc_ip_address := ip; wc_user_agent := agent |})) >>
  ret token.

Definition ceremony_of (token : string) (c : webauthn_challenge) : bool :=
  eqs (wc_token_hash c) (hash_token L token).

Definition update_ceremony (c : webauthn_challenge) (f : webauthn_challenge -> webauthn_challenge) : W unit :=
  execute (on_webauthn_challenges (update_where (fun x => eqs (wc_id x) (wc_id c)) f)).

Definition _locked_ceremony (token purpose : string) : W webauthn_challenge :=
  do ceremony <- query (fun d => first (ceremony_of token) (webauthn_challenges d));
  match ceremony with
  | Some c =>
      if negb (eqs (wc_purpose c) purpose) || some (wc_invalidated_at c)
      then raise (auth_error "PASSKEY_CHALLENGE_INVALID" 400)
      else if some (wc_used_at c) then raise (auth_error "PASSKEY_CHALLENGE_INVALID" 409)
      else if wc_expires_at c <=? now e then
        update_ceremony c (set_wc_invalidated_at (Some (now e))) >>
        commit e >>
        raise (auth_error "PASSKEY_CHALLENGE_EXPIRED" 400)
      else ret c
  | None => raise (auth_error "PASSKEY_CHALLENGE_INVALID" 400)
  end.

(** [ceremony.attempt_count += 1], the audit row, commit, refuse. *)
Definition failed_ceremony {A} (c : webauthn_challenge) (uid : option string) (action code : string)
    (status : Z) : W A :=
  update_ceremony c (set_wc_attempt_count (wc_attempt_count c + 1)) >>
  _audit uid action >>
  commit e >>
  raise (auth_error code status).

(** ** Credentials *)

Definition known_transport (v : json) : bool :=
  match v with JStr s => authenticator_transport L s | _ => false end.

Definition _descriptor (c : webauthn_credential) : descriptor :=
  {| descriptor_id := credential_id c;
     descriptor_transports :=
       match transports c with
       | Some (_ :: _ as l) => Some (List.filter known_transport l)
       | _ => None
       end |}.

Definition verification_failed : http_exn := auth_error "PASSKEY_VERIFICATION_FAILED" 401.

(** [payload.get("rawId") or payload.get("id")] *)
Definition encoded_id (payload : members) : option json :=
  match jget "rawId" payload with
  | Some v => if truthy v then Some v else jget "id" payload
  | None => jget "id" payload
  end.

Definition _credential_id (payload : members) : W string :=
  match encoded_id payload with
  | Some (JStr encoded) => or_raise verification_failed (base64url_to_bytes L encoded)
  | _ => raise verification_failed
  end.

(** [payload.get("response", {})], of which [get] is called. *)
Definition response_of (payload : members) : W members :=
  match jget "response" payload with
  | None => ret []
  | Some (JObj r) => ret r
  | Some _ => raise (InternalError "AttributeError")
  end.

Definition owned_by (uid : string) (c : webauthn_credential) : bool := eqs (w_user_id c) uid.

Definition has_passkeys (uid : string) : W bool :=
  query (fun d => some (first (owned_by uid) (webauthn_credentials d))).

(** [display_name or " ".join(...) or email] *)
Definition user_display_name (u : user) : string :=
  let p := profile_of u in
  let names := List.filter nonempty [first_name p; last_name p] in
  match display_name p with
  | Some (String _ _ as s) => s
  | _ => if nonempty (String.concat " " names) then String.concat " " names else email u
  end.

Definition registration_options (u : user) : W CeremonyOptions :=
  do credentials <- query (fun d => List.filter (owned_by (user_id u)) (webauthn_credentials d));
  do challenge <- draw e;
  let options :=
    {| rp_id := webauthn_rp_id st;
       options_user := Some (uuid_bytes L (user_id u), email u, user_display_name u);
       options_challenge := challenge; options_credentials := map _descriptor credentials |} in
  do token <- _create_ceremony passkey_register challenge (Some (user_id u)) None;
  _audit (Some (user_id u)) "PASSKEY_REGISTRATION_STARTED" >>
  commit e >>
  ret {| token := token; ceremony_options := options |}.

Definition already_registered : http_exn := auth_error "PASSKEY_ALREADY_REGISTERED" 409.

(** [(name or f"Passkey {count + 1}").strip()] *)
Definition passkey_name (name : option string) (count : nat) : string :=
  strip (match name with
         | Some (String _ _ as s) => s
         | _ => "Passkey " +:+ render_N (N.of_nat count + 1)
         end).

Definition refresh_credential (id : string) : W webauthn_credential :=
  do c <- query (fun d => first (fun c => eqs (w_id c) id) (webauthn_credentials d));
  or_raise (InternalError "InvalidRequestError") c.

(** The row of a verified registration. *)
Definition new_credential (id uid : string) (v : webauthn_verification) (name : option string) (count : nat)
    (transports : option json) : webauthn_credential :=
  {| w_id := id; w_user_id := uid; credential_id := ver_credential_id v; public_key := ver_public_key v;
     sign_count := ver_sign_count v; w_name := passkey_name name count;
     aaguid := match ver_aaguid v with Some (String _ _ as s) => Some s | _ => None end;
     transports := match transports with Some (JArr l) => Some l | _ => None end;
     device_type := Some (ver_device_type v); backed_up := Some (ver_backed_up v); w_created_at := now e;
     w_last_used_at := None |}.

Definition verify_registration (u : user) (ceremony_token : string) (payload : members) (name : option string)
    : W webauthn_credential :=
  do ceremony <- _locked_ceremony ceremony_token passkey_register;
  if negb (bool_decide (wc_user_id ceremony = Some (user_id u)))
  then raise (auth_error "PASSKEY_CHALLENGE_INVALID" 400)
  else
    match webauthn_register L payload (challenge ceremony) (webauthn_rp_id st) (webauthn_origin st) true with
    | None =>
        failed_ceremony ceremony (Some (user_id u)) "PASSKEY_REGISTRATION_FAILED" "PASSKEY_VERIFICATION_FAILED" 400
    | Some v =>
        do known <- query (fun d => first (fun c => eqs (credential_id c) (ver_credential_id v))
                                      (webauthn_credentials d));
        if some known then
          failed_ceremony ceremony (Some (user_id u)) "PASSKEY_REGISTRATION_FAILED" "PASSKEY_ALREADY_REGISTERED" 409
        else
          do count <- query (fun d => length (List.filter (owned_by (user_id u)) (webauthn_credentials d)));
          do response <- response_of payload;
          do id <- draw e;
          let record := new_credential id (user_id u) v name count (jget "transports" response) in
          update_ceremony ceremony (set_wc_used_at (Some (now e))) >>
          execute (on_webauthn_credentials (insert record)) >>
          _audit (Some (user_id u)) "PASSKEY_REGISTERED" >>
          catch (commit e) (fun x =>
            match x with
            | IntegrityError =>
                Some (rollback >>
                      _audit (Some (user_id u)) "PASSKEY_REGISTRATION_FAILED" >>
                      commit e >>
                      raise already_registered)
            | _ => None
            end) >>
          refresh_credential id
    end.

(** ** Authentication *)

Definition authentication_options (uid : option string) (purpose : string) (mfa_challenge_id : option string)
    : W CeremonyOptions :=
  do credentials <- query (fun d => match uid with
                                    | Some uid => List.filter (owned_by uid) (webauthn_credentials d)
                                    | None => []
                                    end);
  if some uid && bool_decide (credentials = []) then raise (auth_error "PASSKEY_NOT_FOUND" 404)
  else
    do challenge <- draw e;
    let options :=
      {| rp_id := webauthn_rp_id st; options_user := None; options_challenge := challenge;
         options_credentials := map _descriptor credentials |} in
    do token <- _create_ceremony purpose challenge uid mfa_challenge_id;
    commit e >>
    ret {| token := token; ceremony_options := options |}.

(** The user handle, when the payload has one, is the user's. *)
Definition check_user_handle (u : user) (payload : members) : W unit :=
  do response <- response_of payload;
  match jget "userHandle" response with
  | Some v =>
      if truthy v then
        match v with
        | JStr s => if bool_decide (base64url_to_bytes L s = Some (uuid_bytes L (user_id u))) then ret tt
                    else raise verification_failed
        | _ => raise verification_failed
        end
      else ret tt
  | None => ret tt
  end.

Definition update_credential (c : webauthn_credential) (f : webauthn_credential -> webauthn_credential) : W unit :=
  execute (on_webauthn_credentials (update_where (fun x => eqs (w_id x) (w_id c)) f)).

(** A counter that did not grow. *)
Definition regression (c : webauthn_credential) (v : webauthn_verification) : bool :=
  (0 <? sign_count c) && (ver_sign_count v <=? sign_count c).

(** The attributes a successful authentication assigns. *)
Definition used_credential (c : webauthn_credential) (v : webauthn_verification) (x : webauthn_credential)
    : webauthn_credential :=
  set_device_type (Some (ver_device_type v)) (set_backed_up (Some (ver_backed_up v))
    (set_w_last_used_at (Some (now e))
      (if regression c v then x else set_sign_count (ver_sign_count v) x))).

Definition failure_action (c : webauthn_challenge) : string :=
  if eqs (wc_purpose c) passkey_step_up then "PASSKEY_MFA_FAILED" else "PASSKEY_LOGIN_FAILED".

(** [record.user_id != expected_user_id] *)
Definition other_owner (expected : option string) (c : webauthn_credential) : bool :=
  match expected with Some uid => negb (eqs (w_user_id c) uid) | None => false end.

Definition _verify_authentication (ceremony : webauthn_challenge) (payload : members)
    (expected_user_id : option string) : W (user * webauthn_credential) :=
  do id <- _credential_id payload;
  do record <- query (fun d => first (fun c => eqs (credential_id c) id) (webauthn_credentials d));
  match record with
  | None =>
      failed_ceremony ceremony (wc_user_id ceremony) (failure_action ceremony) "PASSKEY_VERIFICATION_FAILED" 401
  | Some record =>
      if other_owner expected_user_id record then
        failed_ceremony ceremony (wc_user_id ceremony) (failure_action ceremony) "PASSKEY_VERIFICATION_FAILED" 401
      else
        do u <- get_user_by_id (w_user_id record);
        match u with
        | None => raise verification_failed
        | Some u =>
            if negb (is_active u) then raise (inactive_account_error u)
            else
              check_user_handle u payload >>
              match webauthn_authenticate L payload (challenge ceremony) (webauthn_rp_id st)
                      (webauthn_origin st) (public_key record) 0 true with
              | None =>
                  failed_ceremony ceremony (Some (user_id u)) (failure_action ceremony)
                    "PASSKEY_VERIFICATION_FAILED" 401
              | Some v =>
                  when (regression record v) (_audit (Some (user_id u)) "PASSKEY_COUNTER_REGRESSION") >>
                  update_credential record (used_credential record v) >>
                  update_ceremony ceremony (set_wc_used_at (Some (now e))) >>
                  update_user (user_id u) (set_last_login_at (Some (now e))) >>
                  ret (u, record)
              end
        end
  end.

Definition verify_passwordless_login (ceremony_token : string) (payload : members) : W user :=
  do ceremony <- _locked_ceremony ceremony_token passkey_authenticate;
  do (u, _record) <- _verify_authentication ceremony payload None;
  _audit (Some (user_id u)) "PASSKEY_LOGIN_SUCCESS" >>
  commit e >>
  refresh_user (user_id u).

Definition verify_reauthentication (uid ceremony_token : string) (payload : members) : W user :=
  do ceremony <- _locked_ceremony ceremony_token passkey_step_up;
  if negb (bool_decide (wc_user_id ceremony = Some uid)) || some (mfa_challenge_id ceremony)
  then raise (auth_error "PASSKEY_CHALLENGE_INVALID" 400)
  else
    do (u, _record) <- _verify_authentication ceremony payload (Some uid);
    _audit (Some (user_id u)) "PASSKEY_MFA_SUCCESS" >>
    commit e >>
    refresh_user (user_id u).

(** The login challenge a token names, while it is open. *)
Definition open_challenge (challenge_token : string) : W mfa_challenge :=
  do challenge <- query (fun d => first (by_token L challenge_token) (mfa_challenges d));
  match challenge with
  | Some c =>
      if some (c_used_at c) || some (c_invalidated_at c) || (c_expires_at c <=? now e)
      then raise (auth_error "MFA_CHALLENGE_INVALID" 400)
      else ret c
  | None => raise (auth_error "MFA_CHALLENGE_INVALID" 400)
  end.

Definition mfa_options (challenge_token : string) : W CeremonyOptions :=
  do c <- open_challenge challenge_token;
  authentication_options (Some (c_user_id c)) passkey_step_up (Some (c_id c)).

Definition verify_mfa (challenge_token ceremony_token : string) (payload : members) : W (user * string) :=
  do c <- open_challenge challenge_token;
  do ceremony <- _locked_ceremony ceremony_token passkey_step_up;
  if negb (bool_decide (mfa_challenge_id ceremony = Some (c_id c)))
     || negb (bool_decide (wc_user_id ceremony = Some (c_user_id c)))
  then raise (auth_error "PASSKEY_CHALLENGE_INVALID" 400)
  else
    do (u, _record) <- _verify_authentication ceremony payload (Some (c_user_id c));
    update_challenge c (set_c_used_at (Some (now e))) >>
    _audit (Some (user_id u)) "PASSKEY_MFA_SUCCESS" >>
    commit e >>
    do u <- refresh_user (user_id u);
    ret (u, primary_method c).

(** ** Management *)

Definition by_created (x y : webauthn_credential) : bool := w_created_at x <=? w_created_at y.

Definition list_passkeys (uid : string) : W (list webauthn_credential) :=
  query (fun d => sort_by by_created (List.filter (owned_by uid) (webauthn_credentials d))).

Definition own_credential (uid id : string) (c : webauthn_credential) : bool :=
  eqs (w_id c) id && eqs (w_user_id c) uid.

Definition rename_passkey (uid id name : string) : W webauthn_credential :=
  do record <- query (fun d => first (own_credential uid id) (webauthn_credentials d));
  match record with
  | None => raise (auth_error "PASSKEY_NOT_FOUND" 404)
  | Some record =>
      update_credential record (set_w_name name) >>
      _audit (Some uid) "PASSKEY_RENAMED" >>
      commit e >>
      refresh_credential (w_id record)
  end.

(** Another passkey of the same user. *)
Definition other_passkey (uid id : string) (c : webauthn_credential) : bool :=
  eqs (w_user_id c) uid && negb (eqs (w_id c) id).

(** The other ways the account can still be reached. *)
Definition other_method (u : user) (id : string) (d : db) : bool :=
  given (password_hash u)
  || some (first (other_passkey (user_id u) id) (webauthn_credentials d))
  || some (first (fun m => eqs (m_user_id m) (user_id u) && is_enabled m) (mfa_methods d))
  || some (first (fun o => eqs (o_user_id o) (user_id u)) (oauth_accounts d))
  || some (first (unused_code (user_id u)) (recovery_codes d)).

Definition remove_passkey (u : user) (id : string) : W bool :=
  do record <- query (fun d => first (own_credential (user_id u) id) (webauthn_credentials d));
  match record with
  | None => raise (auth_error "PASSKEY_NOT_FOUND" 404)
  | Some record =>
      do allowed <- query (other_method u (w_id record));
      do remaining <- query (fun d => some (first (other_passkey (user_id u) (w_id record))
                                        (webauthn_credentials d)));
      if negb allowed then raise (auth_error "PASSKEY_LAST_METHOD" 409)
      else
        execute (on_webauthn_credentials (delete_where (fun c => eqs (w_id c) (w_id record)))) >>
        _audit (Some (user_id u)) "PASSKEY_REMOVED" >>
        commit e >>
        ret remaining
  end.

End PasskeyService.

(** ** What a ceremony proves *)

(** An open ceremony of a purpose. *)
Record usable (e : env) (c : webauthn_challenge) (purpose : string) : Prop := {
  use_purpose : wc_purpose c = purpose;
  use_unused : wc_used_at c = None;
  use_valid : wc_invalidated_at c = None;
  use_time : now e < wc_expires_at c
}.

(** The authenticator signed the ceremony's challenge with the key of a stored
    credential, named by the payload and owned by an active user. *)
Record authenticated (st : settings) (L : libs) (d : db) (c : webauthn_challenge) (payload : members)
    (u : user) (r : webauthn_credential) : Prop := {
  auth_stored : r ∈ webauthn_credentials d;
  auth_named : exists s, encoded_id payload = Some (JStr s) /\ base64url_to_bytes L s = Some (credential_id r);
  auth_user : u ∈ users d;
  auth_owner : user_id u = w_user_id r;
  auth_active : is_active u = true;
  auth_signed : is_Some (webauthn_authenticate L payload (challenge c) (webauthn_rp_id st)
                           (webauthn_origin st) (public_key r) 0 true)
}.

Section PasskeyFacts.
Context (st : settings) (L : libs) (e : env).

Lemma locked_Ok token purpose w c w' :
  _locked_ceremony L e token purpose w = (Ok c, w') ->
  w' = w /\ first (ceremony_of L token) (webauthn_challenges (working w)) = Some c /\ usable e c purpose.
Proof.
  unfold _locked_ceremony, bind at 1, query. destruct (first _ _) as [c0|] eqn:Hc; [|done].
  destruct (eqs (wc_purpose c0) purpose) eqn:Hp; [|done]. destruct (wc_invalidated_at c0) eqn:Hi; [done|].
  cbn [negb orb some none]. destruct (wc_used_at c0) eqn:Hu; [done|]. cbn [some none negb].
  destruct (Z.leb_spec (wc_expires_at c0) (now e)).
  - unfold update_ceremony, bind at 1, execute at 1. intros H0. by apply raise_after_commit in H0.
  - intros [= <- <-]. apply String.eqb_eq in Hp. done.
Qed.

(** A ceremony that was used is refused, for every purpose. *)
Lemma locked_used token purpose w c :
  first (ceremony_of L token) (webauthn_challenges (working w)) = Some c -> wc_used_at c <> None ->
  is_ok (fst (_locked_ceremony L e token purpose w)) = false.
Proof.
  intros Hc Hu. destruct (_locked_ceremony L e token purpose w) as [[c'|x] w'] eqn:H; [|done].
  apply locked_Ok in H as (_ & Hc' & [_ Hn _ _]). congruence.
Qed.

Lemma failed_ceremony_never {A} c uid action code status w (a : A) w' :
  failed_ceremony e c uid action code status w <> (Ok a, w').
Proof.
  unfold failed_ceremony, update_ceremony, _audit, add_audit. unfold bind at 1, execute at 1.
  unfold bind at 1, execute at 1. apply raise_after_commit.
Qed.

Lemma credential_id_Ok payload w id w' :
  _credential_id L payload w = (Ok id, w') ->
  w' = w /\ exists s, encoded_id payload = Some (JStr s) /\ base64url_to_bytes L s = Some id.
Proof.
  unfold _credential_id, or_raise. destruct (encoded_id payload) as [[]|]; try done.
  destruct (base64url_to_bytes L s) eqn:Hs; [|done]. intros [= <- <-]. eauto.
Qed.

Lemma user_handle_reads u payload w x w' : check_user_handle L u payload w = (Ok x, w') -> w' = w.
Proof.
  unfold check_user_handle, response_of. intros H. apply bind_Ok in H as (r & w1 & Hr & H).
  assert (w1 = w) as ->.
  { by destruct (jget "response" payload) as [[]|]; try done; injection Hr as _ <-. }
  destruct (jget "userHandle" r) as [v|]; [|by injection H as _ <-].
  destruct (truthy v); [|by injection H as _ <-]. destruct v; try done. case_bool_decide; [|done].
  by injection H as _ <-.
Qed.

Lemma verify_authentication_Ok c payload expected w u r w' :
  _verify_authentication st L e c payload expected w = (Ok (u, r), w') ->
  committed w' = committed w /\ authenticated st L (working w) c payload u r /\
  (forall uid, expected = Some uid -> w_user_id r = uid) /\
  webauthn_challenges (working w') =
    update_where (fun x => eqs (wc_id x) (wc_id c)) (set_wc_used_at (Some (now e))) (webauthn_challenges (working w)) /\
  mfa_challenges (working w') = mfa_challenges (working w) /\
  exists v, webauthn_authenticate L payload (challenge c) (webauthn_rp_id st) (webauthn_origin st) (public_key r) 0 true = Some v /\
    webauthn_credentials (working w') =
      update_where (fun x => eqs (w_id x) (w_id r)) (used_credential e r v) (webauthn_credentials (working w)).
Proof.
  unfold _verify_authentication. intros H. apply bind_Ok in H as (id & w1 & Hid & H).
  apply credential_id_Ok in Hid as (-> & Hid). unfold bind at 1, query in H.
  destruct (first _ (webauthn_credentials _)) as [r0|] eqn:Hr; [|by apply failed_ceremony_never in H].
  apply first_Some in Hr as [Hin Hcid]. apply String.eqb_eq in Hcid. rewrite <- Hcid in Hid.
  destruct (other_owner expected r0) eqn:Ho; [by apply failed_ceremony_never in H|].
  unfold bind at 1, get_user_by_id, query in H. destruct (first _ (users _)) as [u0|] eqn:Hu; [|done].
  apply first_Some in Hu as [Huin Hu]. apply String.eqb_eq in Hu.
  destruct (is_active u0) eqn:Ha; cbn [negb] in H; [|by unfold inactive_account_error in H; destruct (deactivation_reason u0) as [[]|]].
  apply bind_Ok in H as (? & w1 & Hh & H). apply user_handle_reads in Hh as ->.
  destruct (webauthn_authenticate _ _ _ _ _ _ _ _) as [v|] eqn:Hv; [|by apply failed_ceremony_never in H].
  assert (Hres : u = u0 /\ r = r0 /\ committed w' = committed w /\
    webauthn_challenges (working w') =
      update_where (fun x => eqs (wc_id x) (wc_id c)) (set_wc_used_at (Some (now e))) (webauthn_challenges (working w)) /\
    mfa_challenges (working w') = mfa_challenges (working w) /\
    webauthn_credentials (working w') =
      update_where (fun x => eqs (w_id x) (w_id r)) (used_credential e r v) (webauthn_credentials (working w))).
  { by destruct (regression r0 v); cbv in H; injection H as <- <- <-. }
  clear H. destruct Hres as (-> & -> & ? & ? & ? & ?). split_and!; try done.
  - intros uid Hexp. rewrite Hexp in Ho. simpl in Ho. apply negb_false_iff in Ho. apply String.eqb_eq in Ho. exact Ho.
  - by exists v.
Qed.

Lemma passwordless_Ok token payload w u w' :
  verify_passwordless_login st L e token payload w = (Ok u, w') ->
  exists c u0 r, first (ceremony_of L token) (webauthn_challenges (working w)) = Some c /\
    usable e c passkey_authenticate /\ authenticated st L (working w) c payload u0 r /\ user_id u = w_user_id r /\
    webauthn_challenges (committed w') =
      update_where (fun x => eqs (wc_id x) (wc_id c)) (set_wc_used_at (Some (now e))) (webauthn_challenges (working w)).
Proof.
  unfold verify_passwordless_login. intros H. apply bind_Ok in H as (c & w1 & Hc & H).
  apply locked_Ok in Hc as (-> & Hc & Huse). apply bind_Ok in H as ([u0 r] & w1 & Hv & H).
  apply verify_authentication_Ok in Hv as (_ & Hauth & _ & Hch & _).
  apply bind_Ok in H as (? & w2 & H2 & H). unfold _audit, add_audit, execute in H2. injection H2 as _ <-.
  apply bind_Ok in H as (? & w3 & H3 & H). apply commit_Ok in H3 as (Hc3 & _ & _).
  apply refresh_user_Ok in H as [-> Hu]. apply first_Some in Hu as [_ Hu]. apply String.eqb_eq in Hu.
  exists c, u0, r. rewrite Hc3. split_and!; try done. rewrite Hu. apply Hauth.
Qed.

Lemma reauthentication_Ok uid token payload w u w' :
  verify_reauthentication st L e uid token payload w = (Ok u, w') ->
  exists c u0 r, first (ceremony_of L token) (webauthn_challenges (working w)) = Some c /\
    usable e c passkey_step_up /\ wc_user_id c = Some uid /\ mfa_challenge_id c = None /\
    authenticated st L (working w) c payload u0 r /\ w_user_id r = uid /\ user_id u = uid.
Proof.
  unfold verify_reauthentication. intros H. apply bind_Ok in H as (c & w1 & Hc & H).
  apply locked_Ok in Hc as (-> & Hc & Huse). case_bool_decide as Hw; [|done].
  destruct (mfa_challenge_id c) eqn:Hm; [done|]. cbn [negb orb some none] in H.
  apply bind_Ok in H as ([u0 r] & w1 & Hv & H).
  apply verify_authentication_Ok in Hv as (_ & Hauth & Hown & _).
  apply bind_Ok in H as (? & w2 & H2 & H). unfold _audit, add_audit, execute in H2. injection H2 as _ <-.
  apply bind_Ok in H as (? & w3 & H3 & H). apply commit_Ok in H3 as (Hc3 & _ & _).
  apply refresh_user_Ok in H as [-> Hu]. apply first_Some in Hu as [_ Hu]. apply String.eqb_eq in Hu.
  exists c, u0, r. specialize (Hown uid eq_refl). split_and!; try done. rewrite Hu, <- Hown. apply Hauth.
Qed.

Lemma passkey_mfa_Ok challenge_token ceremony_token payload w u primary w' :
  verify_mfa st L e challenge_token ceremony_token payload w = (Ok (u, primary), w') ->
  exists ch c u0 r,
    first (by_token L challenge_token) (mfa_challenges (working w)) = Some ch /\
    c_used_at ch = None /\ c_invalidated_at ch = None /\ now e < c_expires_at ch /\
    primary = primary_method ch /\
    first (ceremony_of L ceremony_token) (webauthn_challenges (working w)) = Some c /\
    usable e c passkey_step_up /\ mfa_challenge_id c = Some (c_id ch) /\ wc_user_id c = Some (c_user_id ch) /\
    authenticated st L (working w) c payload u0 r /\ w_user_id r = c_user_id ch /\ user_id u = c_user_id ch /\
    (forall x, x ∈ mfa_challenges (committed w') -> c_id x = c_id ch -> c_used_at x = Some (now e)) /\
    (forall x, x ∈ webauthn_challenges (committed w') -> wc_id x = wc_id c -> wc_used_at x = Some (now e)).
Proof.
  unfold verify_mfa. intros H. apply bind_Ok in H as (ch & w1 & Hch & H).
  unfold open_challenge, bind at 1, query in Hch. destruct (first (by_token _ _) _) as [ch0|] eqn:Hf; [|done].
  destruct (c_used_at ch0) eqn:Hus; [done|]. destruct (c_invalidated_at ch0) eqn:Hin; [done|].
  cbn [some none negb orb] in Hch. destruct (Z.leb_spec (c_expires_at ch0) (now e)) as [|Hx]; [done|].
  injection Hch as <- <-. apply bind_Ok in H as (c & w1 & Hc & H). apply locked_Ok in Hc as (-> & Hc & Huse).
  case_bool_decide as Hm; [|done]. case_bool_decide as Hu; [|done]. cbn [negb orb] in H.
  apply bind_Ok in H as ([u0 r] & w1 & Hv & H).
  apply verify_authentication_Ok in Hv as (_ & Hauth & Hown & Hwc & Hmc & _).
  apply bind_Ok in H as (? & w2 & H2 & H). unfold update_challenge, execute in H2. injection H2 as _ <-.
  apply bind_Ok in H as (? & w3 & H3 & H). unfold _audit, add_audit, execute in H3. injection H3 as _ <-.
  apply bind_Ok in H as (? & w4 & H4 & H). apply commit_Ok in H4 as (Hc4 & _ & _).
  apply bind_Ok in H as (u' & w5 & H5 & H). apply refresh_user_Ok in H5 as [-> Hu5].
  injection H as <- <- <-. apply first_Some in Hu5 as [_ Hu5]. apply String.eqb_eq in Hu5.
  assert (Hr : w_user_id r = c_user_id ch0) by by apply Hown.
  exists ch0, c, u0, r. rewrite Hc4. simpl. rewrite Hmc, Hwc. split_and!; try done.
  - rewrite Hu5, <- Hr. apply Hauth.
  - intros y Hy Hid. apply elem_of_update_where in Hy as (y0 & _ & ->).
    destruct (eqs (c_id y0) (c_id ch0)) eqn:He; [done|]. apply String.eqb_neq in He. by destruct He.
  - intros y Hy Hid. apply elem_of_update_where in Hy as (y0 & _ & ->).
    destruct (eqs (wc_id y0) (wc_id c)) eqn:He; [done|]. apply String.eqb_neq in He. by destruct He.
Qed.

End PasskeyFacts.

(** ** An example *)

Definition with_webauthn (reg : members -> string -> string -> string -> bool -> option webauthn_verification)
    (auth : members -> string -> string -> string -> string -> Z -> bool -> option webauthn_verification) (L : libs) : libs :=
  {| sha256_hex := sha256_hex L; hmac_sha256_hex := hmac_sha256_hex L; jwt_encode := jwt_encode L;
     jwt_decode := jwt_decode L; pw_hash := pw_hash L; pw_verify := pw_verify L;
     fernet_encrypt := fernet_encrypt L; fernet_decrypt := fernet_decrypt L; totp_at := totp_at L;
     base64url_to_bytes := base64url_to_bytes L; uuid_bytes := uuid_bytes L; webauthn_register := reg;
     webauthn_authenticate := auth; authenticator_transport := authenticator_transport L |}.

(** An authenticator with key [pk:id] verifies its user, and signs with the
    counter 7 by repeating the challenge. *)
Definition example_webauthn (id challenge : string) (payload : members) : option webauthn_verification :=
  match jget "signed" payload with
  | Some (JStr s) =>
      if eqs s challenge
      then Some {| ver_credential_id := id; ver_public_key := "pk:" +:+ id; ver_sign_count := 7;
                   ver_aaguid := None; ver_device_type := "single_device"; ver_backed_up := false |}
      else None
  | _ => None
  end.

Definition example_passkey_libs : libs :=
  with_webauthn (fun payload c _ _ _ => example_webauthn "new" c payload)
    (fun payload c _ _ _ n _ => if n <? 7 then example_webauthn "cred" c payload else None) example_libs.

Definition example_credential : webauthn_credential :=
  {| w_id := "w"; w_user_id := "a"; credential_id := "cred"; public_key := "pk:cred"; sign_count := 3;
     w_name := "Key"; aaguid := None; transports := None; device_type := None; backed_up := None;
     w_created_at := 0; w_last_used_at := None |}.

Definition example_ceremony (purpose : string) (uid mfa : option string) : webauthn_challenge :=
  {| wc_id := "wc"; wc_user_id := uid; mfa_challenge_id := mfa; wc_token_hash := "#ct"; challenge := "xyz";
     wc_purpose := purpose; wc_expires_at := 300 * second; wc_used_at := None; wc_invalidated_at := None;
     wc_attempt_count := 0; wc_ip_address := None; wc_user_agent := None |}.

(** The example user with a passkey, an open login challenge and a ceremony. *)
Definition example_passkeys (purpose : string) (uid mfa : option string) : db :=
  on_webauthn_challenges (insert (example_ceremony purpose uid mfa))
    (on_webauthn_credentials (insert example_credential) example_mfa).

Definition example_payload : members :=
  [("rawId", JStr "cred"); ("signed", JStr "xyz"); ("response", JObj [("userHandle", JStr "a")])].

(** ** Properties *)

(** C27. Passwordless login: it succeeds only for an open ceremony created for
    that purpose whose challenge was signed by a stored credential of an active
    user, and returns the owner of that credential; the ceremony is used up, so
    no later request on that table gets past it, for any purpose. *)
Theorem passkey_login_sound st L e token payload w u w' :
  verify_passwordless_login st L e token payload w = (Ok u, w') ->
  (exists c u0 r, first (ceremony_of L token) (webauthn_challenges (working w)) = Some c /\
     usable e c passkey_authenticate /\ authenticated st L (working w) c payload u0 r /\
     user_id u = w_user_id r) /\
  (forall e' purpose w2, webauthn_challenges (working w2) = webauthn_challenges (committed w') ->
     is_ok (fst (_locked_ceremony L e' token purpose w2)) = false).
Proof.
  intros H. apply passwordless_Ok in H as (c & u0 & r & Hc & Huse & Hauth & Hu & Hch). split; [by exists c, u0, r|].
  intros e' purpose w2 Hw2. eapply locked_used.
  - rewrite Hw2, Hch, first_update_where, Hc by (intros x1; by destruct (eqs (wc_id x1) (wc_id c))).
    simpl. unfold eqs. by rewrite String.eqb_refl.
  - done.
Qed.

Lemma passkey_login_sound_witness :
  exists u w', verify_passwordless_login example_settings example_passkey_libs (example_env 31 "z") "ct" example_payload
      (world_of (example_passkeys passkey_authenticate None None)) = (Ok u, w') /\ user_id u = "a" /\
    is_ok (fst (_locked_ceremony example_passkey_libs (example_env 32 "y") "ct" passkey_authenticate
                  (world_of (committed w')))) = false.
Proof.
  eexists _, _. split; [vm_compute; reflexivity|]. split; [reflexivity|].
  eapply (passkey_login_sound example_settings example_passkey_libs (example_env 31 "z") "ct" example_payload
    (world_of (example_passkeys passkey_authenticate None None))); [vm_compute; reflexivity | reflexivity].
Defined.

(** A passkey as second factor: success needs an open login challenge and an
    open step-up ceremony created for exactly that challenge and its user,
    signed by a passkey of that user; both are marked used in the committed
    database. *)
Theorem passkey_mfa_bound st L e challenge_token ceremony_token payload w u primary w' :
  verify_mfa st L e challenge_token ceremony_token payload w = (Ok (u, primary), w') ->
  exists ch c u0 r,
    first (by_token L challenge_token) (mfa_challenges (working w)) = Some ch /\
    c_used_at ch = None /\ c_invalidated_at ch = None /\ now e < c_expires_at ch /\
    primary = primary_method ch /\
    first (ceremony_of L ceremony_token) (webauthn_challenges (working w)) = Some c /\
    usable e c passkey_step_up /\ mfa_challenge_id c = Some (c_id ch) /\ wc_user_id c = Some (c_user_id ch) /\
    authenticated st L (working w) c payload u0 r /\ w_user_id r = c_user_id ch /\ user_id u = c_user_id ch /\
    (forall x, x ∈ mfa_challenges (committed w') -> c_id x = c_id ch -> c_used_at x = Some (now e)) /\
    (forall x, x ∈ webauthn_challenges (committed w') -> wc_id x = wc_id c -> wc_used_at x = Some (now e)).
Proof. apply passkey_mfa_Ok. Qed.

Lemma passkey_mfa_bound_witness :
  exists u w', verify_mfa example_settings example_passkey_libs (example_env 31 "z") "tok" "ct" example_payload
      (world_of (example_passkeys passkey_step_up (Some "a") (Some "c"))) = (Ok (u, "password"), w') /\
    exists c, usable (example_env 31 "z") c passkey_step_up /\ mfa_challenge_id c = Some "c".
Proof.
  eexists _, _. split; [vm_compute; reflexivity|].
  edestruct (passkey_mfa_bound example_settings example_passkey_libs (example_env 31 "z") "tok" "ct" example_payload
    (world_of (example_passkeys passkey_step_up (Some "a") (Some "c"))))
    as (ch & c & _ & _ & Hch & _ & _ & _ & _ & _ & Hu & Hm & _); [vm_compute; reflexivity|].
  exists c. split; [exact Hu|]. vm_compute in Hch. injection Hch as <-. exact Hm.
Defined.

(** Signature counters never decrease: an authentication keeps every stored
    credential with its owner and key, and the counter it leaves is the
    authenticator's, or the stored one when the authenticator's did not grow,
    which is written to the audit log. *)
Theorem passkey_counter_monotone st L e c payload expected w u r w' :
  (forall p ch rp o k n uv v, webauthn_authenticate L p ch rp o k n uv = Some v -> 0 <= ver_sign_count v) ->
  NoDup (map w_id (webauthn_credentials (working w))) ->
  _verify_authentication st L e c payload expected w = (Ok (u, r), w') ->
  Forall2 (fun old new => w_id new = w_id old /\ w_user_id new = w_user_id old /\
      credential_id new = credential_id old /\ public_key new = public_key old /\
      sign_count old <= sign_count new)
    (webauthn_credentials (working w)) (webauthn_credentials (working w')).
Proof.
  intros Hlib Hnd H. apply verify_authentication_Ok in H as (_ & Hauth & _ & _ & _ & v & Hv & ->).
  apply Hlib in Hv. apply Forall2_update_where. intros x Hx.
  destruct (eqs (w_id x) (w_id r)) eqn:He; [|by split_and!; try done; lia].
  apply String.eqb_eq in He. assert (x = r) as ->.
  { eapply (NoDup_map_inj w_id); try done. apply Hauth. }
  unfold used_credential, regression.
  destruct (Z.ltb_spec 0 (sign_count r)), (Z.leb_spec (ver_sign_count v) (sign_count r)); simpl; split_and!; try done; lia.
Qed.

Lemma passkey_counter_monotone_witness :
  exists u r w', _verify_authentication example_settings example_passkey_libs (example_env 31 "z")
      (example_ceremony passkey_step_up (Some "a") None) example_payload (Some "a")
      (world_of (example_passkeys passkey_step_up (Some "a") None)) = (Ok (u, r), w') /\
    map sign_count (webauthn_credentials (working w')) = [7] /\
    Forall2 (fun old new => w_id new = w_id old /\ w_user_id new = w_user_id old /\
        credential_id new = credential_id old /\ public_key new = public_key old /\ sign_count old <= sign_count new)
      [example_credential] (webauthn_credentials (working w')).
Proof.
  eexists _, _, _. split; [vm_compute; reflexivity|]. split; [reflexivity|].
  eapply (passkey_counter_monotone example_settings example_passkey_libs (example_env 31 "z")
    (example_ceremony passkey_step_up (Some "a") None) example_payload (Some "a")
    (world_of (example_passkeys passkey_step_up (Some "a") None))); [| |vm_compute; reflexivity].
  - intros p ch rp o k n uv v. simpl. unfold example_webauthn. destruct (n <? 7); [|done].
    destruct (jget "signed" p) as [[]|]; try done. destruct (eqs _ _); [|done]. by intros [= <-].
  - apply NoDup_singleton.
Defined.

(** Registration: a stored passkey was verified against an open registration
    ceremony of the same user; its credential identifier was not registered to
    anybody before; nothing else in the credential table changes and the
    ceremony is used up. *)
Theorem passkey_registration_effect st L e u token payload name w r w' :
  verify_registration st L e u token payload name w = (Ok r, w') ->
  exists c v id count transports,
    first (ceremony_of L token) (webauthn_challenges (working w)) = Some c /\ usable e c passkey_register /\
    wc_user_id c = Some (user_id u) /\
    webauthn_register L payload (challenge c) (webauthn_rp_id st) (webauthn_origin st) true = Some v /\
    ~ In (ver_credential_id v) (map credential_id (webauthn_credentials (working w))) /\
    webauthn_credentials (committed w') =
      insert (new_credential e id (user_id u) v name count transports) (webauthn_credentials (working w)) /\
    (forall x, x ∈ webauthn_challenges (committed w') -> wc_id x = wc_id c -> wc_used_at x = Some (now e)).
Proof.
  unfold verify_registration. intros H. apply bind_Ok in H as (c & w1 & Hc & H).
  apply locked_Ok in Hc as (-> & Hc & Huse). case_bool_decide as Hu; [|done]. cbn [negb] in H.
  destruct (webauthn_register _ _ _ _ _ _) as [v|] eqn:Hv; [|by apply failed_ceremony_never in H].
  unfold bind at 1, query in H. destruct (first _ (webauthn_credentials _)) eqn:Hk; [by apply failed_ceremony_never in H|].
  cbn [some none negb] in H. unfold bind at 1 in H. apply bind_Ok in H as (resp & w1 & Hr & H).
  assert (w1 = w) as -> by (unfold response_of in Hr; destruct (jget "response" payload) as [[]|]; try done; by injection Hr as _ <-).
  apply bind_Ok in H as (id & w1 & Hd & H). unfold draw in Hd. injection Hd as <- <-.
  apply bind_Ok in H as (? & w2 & H2 & H). unfold update_ceremony, execute in H2. injection H2 as _ <-.
  apply bind_Ok in H as (? & w3 & H3 & H). unfold execute in H3. injection H3 as _ <-.
  apply bind_Ok in H as (? & w4 & H4 & H). unfold _audit, add_audit, execute in H4. injection H4 as _ <-.
  apply bind_Ok in H as (? & w5 & H5 & H). unfold catch in H5.
  destruct (commit e _) as [[[]|x5] w6] eqn:H6.
  2: { destruct x5; try done. exfalso. unfold bind at 1, rollback in H5. unfold bind at 1, _audit, add_audit, execute in H5.
       by apply raise_after_commit in H5. }
  injection H5 as _ <-. apply commit_Ok in H6 as (Hc6 & _ & _).
  unfold refresh_credential, bind, query, or_raise in H. destruct (first _ (webauthn_credentials _)) in H; [|done].
  injection H as _ <-. do 5 eexists. split_and!; try done.
  - intros Hin. apply in_map_iff in Hin as (y0 & Hx & Hin).
    apply List.find_none with (x := y0) in Hk; [|done]. apply String.eqb_neq in Hk. done.
  - rewrite Hc6. reflexivity.
  - rewrite Hc6. simpl. intros y Hy Hid. apply elem_of_update_where in Hy as (y0 & _ & ->).
    destruct (eqs (wc_id y0) (wc_id c)) eqn:He; [done|]. apply String.eqb_neq in He. by destruct He.
Qed.

Lemma passkey_registration_effect_witness :
  exists r w', verify_registration example_settings example_passkey_libs (example_env 31 "z") example_user "ct"
      example_payload (Some " Laptop ") (world_of (example_passkeys passkey_register (Some "a") None)) = (Ok r, w') /\
    w_name r = "Laptop" /\
    forall x, x ∈ webauthn_challenges (committed w') -> wc_id x = "wc" -> wc_used_at x = Some (31 * second).
Proof.
  eexists _, _. split; [vm_compute; reflexivity|]. split; [reflexivity|].
  edestruct (passkey_registration_effect example_settings example_passkey_libs (example_env 31 "z") example_user "ct"
      example_payload (Some " Laptop ") (world_of (example_passkeys passkey_register (Some "a") None)))
    as (c & v & id & count & tr & Hc & _ & _ & _ & _ & _ & Hx); [vm_compute; reflexivity|].
  vm_compute in Hc. injection Hc as <-. exact Hx.
Defined.

(** Removing a passkey never takes the last method: it removes exactly the
    credential named, and afterwards the account still has a password, another
    passkey, an enabled second factor, a linked account or an unused recovery
    code; the result tells whether a passkey is left. *)
Theorem remove_passkey_keeps_method e u id w b w' :
  remove_passkey e u id w = (Ok b, w') ->
  webauthn_credentials (committed w') = delete_where (fun c => eqs (w_id c) id) (webauthn_credentials (working w)) /\
  (given (password_hash u) = true \/
   (exists c, c ∈ webauthn_credentials (committed w') /\ w_user_id c = user_id u) \/
   (exists m, m ∈ mfa_methods (committed w') /\ m_user_id m = user_id u /\ is_enabled m = true) \/
   (exists o, o ∈ oauth_accounts (committed w') /\ o_user_id o = user_id u) \/
   (exists c, c ∈ recovery_codes (committed w') /\ unused_code (user_id u) c = true)) /\
  (b = true <-> exists c, c ∈ webauthn_credentials (committed w') /\ w_user_id c = user_id u).
Proof.
  unfold remove_passkey. intros H. unfold bind at 1, query in H.
  destruct (first (own_credential _ _) _) as [r|] eqn:Hr; [|done].
  apply first_Some in Hr as [_ Hr]. apply andb_true_iff in Hr as [Hid _]. apply String.eqb_eq in Hid. rewrite Hid in H.
  unfold bind at 1 in H. unfold bind at 1 in H.
  destruct (other_method u id (working w)) eqn:Ho; [|done]. cbn [negb] in H.
  apply bind_Ok in H as (? & w2 & H2 & H). unfold execute in H2. injection H2 as _ <-.
  apply bind_Ok in H as (? & w3 & H3 & H). unfold _audit, add_audit, execute in H3. injection H3 as _ <-.
  apply bind_Ok in H as (? & w4 & H4 & H). apply commit_Ok in H4 as (Hc4 & _ & _).
  injection H as <- <-. rewrite Hc4. simpl. split; [done|].
  assert (Hpk : some (first (other_passkey (user_id u) id) (webauthn_credentials (working w))) = true <->
    exists c, c ∈ delete_where (fun c => eqs (w_id c) id) (webauthn_credentials (working w)) /\ w_user_id c = user_id u).
  { rewrite some_first. split; intros (c & Hc & Hp).
    - apply andb_true_iff in Hp as [Hp Hn]. apply String.eqb_eq in Hp. exists c. split; [|done].
      apply elem_of_delete_where. split; [done|]. by apply negb_true_iff.
    - apply elem_of_delete_where in Hc as [Hc Hn]. exists c. split; [done|]. unfold other_passkey.
      rewrite Hn, Hp. unfold eqs. by rewrite String.eqb_refl. }
  split; [|done]. unfold other_method in Ho. rewrite !orb_true_iff, Hpk, !some_first in Ho.
  destruct Ho as [[[[Ho|Ho]|(m & Hm & Hp)]|(o & Hm & Hp)]|Ho]; [by left | by right; left | | | by do 4 right].
  - right; right; left. exists m. apply andb_true_iff in Hp as [Hp ?]. apply String.eqb_eq in Hp. done.
  - right; right; right; left. exists o. apply String.eqb_eq in Hp. done.
Qed.

Lemma remove_passkey_keeps_method_witness :
  exists w', remove_passkey (example_env 31 "z") example_user "w"
      (world_of (example_passkeys passkey_register (Some "a") None)) = (Ok false, w') /\
    webauthn_credentials (committed w') = [].
Proof.
  eexists. split; [vm_compute; reflexivity|].
  edestruct (remove_passkey_keeps_method (example_env 31 "z") example_user "w"
      (world_of (example_passkeys passkey_register (Some "a") None))) as [H _]; [vm_compute; reflexivity|].
  exact H.
Defined.
