(* ===== verification/OAuth.v ===== *)
(** * External accounts: auth/services/oauth_account_service.py

    Login with an identity a provider vouches for, linking and unlinking, and
    the redirect-path filter of auth/oauth.py.  The identity is the validated
    [OAuthIdentity]; the flow that obtains it is in [OAuthFlow].  The database a request reads before a conflict may be
    older than the committed one: the branch of the [IntegrityError] reads the
    latter. *)

From S2P Require Import Prelude PyText SemVer Json AuthDb AuthService Mfa.

Open Scope string_scope.
Open Scope list_scope.
Open Scope Z_scope.

Definition normalize_provider (provider : string) : string := lower (strip provider).

(** [OAuthIdentity] *)
Record OAuthIdentity := {
  i_provider : string; subject : string; i_email : option string; email_verified : bool;
  username : option string; i_display_name : option string; i_avatar_url : option string;
  profile_url : option string
}.

(** ** [safe_redirect_path] *)

Definition backslash : ascii := ascii_of_N 92.
Definition control (c : ascii) : bool := N.ltb (N_of_ascii c) 32.

Definition safe_redirect_path (path : option string) : string :=
  match path with
  | None | Some "" => "/"
  | Some path =>
      let candidate := strip path in
      if negb (startswith "/" candidate) || startswith "//" candidate || mem_char backslash candidate
         || existsb control (chars candidate)
      then "/" else candidate
  end.

Section OAuthService.
Context (L : libs) (e : env).

Definition of_subject (provider_name provider_id : string) (a : oauth_account) : bool :=
  eqs (provider a) (normalize_provider provider_name) && eqs (provider_subject a) provider_id.

Definition get_by_provider_subject (provider_name provider_id : string) : W (option oauth_account) :=
  query (fun d => first (of_subject provider_name provider_id) (oauth_accounts d)).

Definition by_provider (x y : oauth_account) : bool := String.leb (provider x) (provider y).

Definition get_for_user (uid : string) : W (list oauth_account) :=
  query (fun d => sort_by by_provider (List.filter (fun a => eqs (o_user_id a) uid) (oauth_accounts d))).

Definition of_user_provider (uid provider_name : string) (a : oauth_account) : bool :=
  eqs (o_user_id a) uid && eqs (provider a) (normalize_provider provider_name).

Definition get_for_user_provider (uid provider_name : string) : W (option oauth_account) :=
  query (fun d => first (of_user_provider uid provider_name) (oauth_accounts d)).

(** [str(identity.email) if identity.email else None] *)
Definition identity_email (i : OAuthIdentity) : option string :=
  match i_email i with Some (String _ _ as s) => Some s | _ => None end.

(** The row, before it is added. *)
Definition create_oauth_account (id uid : string) (i : OAuthIdentity) : oauth_account :=
  {| o_id := id; o_user_id := uid; provider := normalize_provider (i_provider i);
     provider_subject := subject i; provider_email := identity_email i; provider_username := username i;
     provider_avatar_url := i_avatar_url i; provider_profile_url := profile_url i; o_updated_at := now e;
     o_last_login_at := Some (now e) |}.

(** The attributes [update_oauth_account] and [touch_last_login] assign. *)
Definition update_oauth_account (i : OAuthIdentity) (a : oauth_account) : oauth_account :=
  set_provider_email (identity_email i) (set_provider_username (username i)
    (set_provider_avatar_url (i_avatar_url i) (set_provider_profile_url (profile_url i)
      (set_o_updated_at (now e) a)))).

Definition touch_last_login (a : oauth_account) : oauth_account :=
  set_o_last_login_at (Some (now e)) (set_o_updated_at (now e) a).

(** [verify_matching_provider_email] applies. *)
Definition matching_email (u : user) (i : OAuthIdentity) : bool :=
  match identity_email i with
  | Some mail => email_verified i && String.eqb (casefold (strip (email u))) (casefold (strip mail))
  | None => false
  end.

Definition verify_matching_provider_email (u : user) (i : OAuthIdentity) : W unit :=
  when (matching_email u i) (update_user (user_id u) (set_is_verified true)).

Definition update_account (a : oauth_account) (f : oauth_account -> oauth_account) : W unit :=
  execute (on_oauth_accounts (update_where (fun x => eqs (o_id x) (o_id a)) f)).

(** A login through a linked account, up to the commit. *)
Definition login_linked (a : oauth_account) (u : user) (i : OAuthIdentity) : W unit :=
  ensure_user_can_authenticate e u true >>
  update_account a (update_oauth_account i) >>
  verify_matching_provider_email u i >>
  update_account a touch_last_login >>
  update_user (user_id u) (set_last_login_at (Some (now e))).

Definition login_failed : http_exn := auth_error "OAUTH_LOGIN_FAILED" 409.

(** [or], of optional texts. *)
Definition or_text (a : option string) (b : string) : string :=
  match a with Some (String _ _ as s) => s | _ => b end.

Definition placeholder_email (provider subject : string) : string :=
  provider +:+ "-" +:+ String.substring 0 32 (sha256_hex L (provider +:+ ":" +:+ subject))
  +:+ "@pending.packages.stadtplaner.oklabflensburg.de".

(** The user a first login creates. *)
Definition oauth_user (id : string) (i : OAuthIdentity) : user :=
  let known := some (identity_email i) in
  new_user e id
    (match identity_email i with
     | Some mail => mail
     | None => placeholder_email (normalize_provider (i_provider i)) (subject i)
     end)
    None
    {| first_name := ""; last_name := "";
       display_name := Some (or_text (i_display_name i) (or_text (username i) "")); avatar_url := None;
       roles := [] |}
    (known && email_verified i) (negb known).

(** [session.flush()] *)
Definition flush : W unit :=
  do ok <- query constraints_ok;
  if ok then ret tt else raise IntegrityError.

(** The [try] of a first login: the account of the user just added. *)
Definition store_account (id : string) (i : OAuthIdentity) : W user :=
  flush >>
  do account_id <- draw e;
  execute (on_oauth_accounts (insert (create_oauth_account account_id id i))) >>
  update_user id (set_last_login_at (Some (now e))) >>
  add_audit (Some id) (Some id) "OAUTH_LOGIN_SUCCESS" (Some id) >>
  commit e >>
  refresh_user id.

(** After a conflict: somebody else stored the identity. *)
Definition login_after_conflict (i : OAuthIdentity) : W user :=
  rollback >>
  do existing <- get_by_provider_subject (normalize_provider (i_provider i)) (subject i);
  match existing with
  | Some a =>
      do linked_user <- get_user_by_id (o_user_id a);
      match linked_user with
      | Some u => login_linked a u i >> commit e >> refresh_user (user_id u)
      | None => raise login_failed
      end
  | None => raise login_failed
  end.

Definition authenticate_oauth_identity (i : OAuthIdentity) : W user :=
  let provider := normalize_provider (i_provider i) in
  do account <- get_by_provider_subject provider (subject i);
  match account with
  | Some a =>
      do u <- get_user_by_id (o_user_id a);
      match u with
      | None => raise (auth_error "ACCOUNT_DISABLED" 403)
      | Some u =>
          login_linked a u i >>
          add_audit (Some (user_id u)) (Some (user_id u)) "OAUTH_LOGIN_SUCCESS" (Some (user_id u)) >>
          commit e >>
          refresh_user (user_id u)
      end
  | None =>
      do existing_user <- match identity_email i with
                          | Some mail => get_user_by_email mail
                          | None => ret None
                          end;
      if some existing_user then raise (auth_error "OAUTH_EMAIL_CONFLICT" 409)
      else
        do id <- draw e;
        execute (on_users (insert (oauth_user id i))) >>
        catch (store_account id i) (fun x => match x with IntegrityError => Some (login_after_conflict i) | _ => None end)
  end.

Definition already_linked : http_exn := auth_error "OAUTH_ACCOUNT_ALREADY_LINKED" 409.

(** The identity belongs to another user, or the user already has an account of
    this provider. *)
Definition link_conflict (u : user) (existing_identity existing_provider : option oauth_account) : bool :=
  match existing_identity with
  | Some a => negb (eqs (o_user_id a) (user_id u))
  | None => false
  end
  || match existing_provider, existing_identity with
     | Some p, Some a => negb (eqs (o_id p) (o_id a))
     | Some _, None => true
     | None, _ => false
     end.

Definition link_oauth_account (u : user) (i : OAuthIdentity) : W oauth_account :=
  let provider := normalize_provider (i_provider i) in
  do existing_identity <- get_by_provider_subject provider (subject i);
  do existing_provider <- get_for_user_provider (user_id u) provider;
  if link_conflict u existing_identity existing_provider then raise already_linked
  else
    do id <- match existing_identity with
             | Some a =>
                 update_account a (fun x => touch_last_login (update_oauth_account i x)) >> ret (o_id a)
             | None =>
                 do id <- draw e;
                 execute (on_oauth_accounts (insert
                   (touch_last_login (update_oauth_account i (create_oauth_account id (user_id u) i))))) >>
                 ret id
             end;
    verify_matching_provider_email u i >>
    update_user (user_id u) (set_last_login_at (Some (now e))) >>
    add_audit (Some (user_id u)) (Some (user_id u)) "OAUTH_ACCOUNT_LINKED" (Some (user_id u)) >>
    catch (commit e) (on_conflict already_linked) >>
    do account <- query (fun d => first (fun a => eqs (o_id a) id) (oauth_accounts d));
    or_raise (InternalError "InvalidRequestError") account.

Definition other_provider (uid provider_name : string) (a : oauth_account) : bool :=
  eqs (o_user_id a) uid && negb (eqs (provider a) provider_name).

Definition unlink_oauth_account (u : user) (provider_name : string) : W unit :=
  let normalized := normalize_provider provider_name in
  do account <- get_for_user_provider (user_id u) normalized;
  match account with
  | None => raise (auth_error "OAUTH_ACCOUNT_NOT_LINKED" 404)
  | Some a =>
      do other_count <- query (fun d => length (List.filter (other_provider (user_id u) normalized) (oauth_accounts d)));
      if negb (given (password_hash u)) && Nat.eqb other_count 0 then raise (auth_error "LAST_AUTH_METHOD" 409)
      else
        execute (on_oauth_accounts (delete_where (fun x => eqs (o_id x) (o_id a)))) >>
        add_audit (Some (user_id u)) (Some (user_id u)) "OAUTH_ACCOUNT_UNLINKED" (Some (user_id u)) >>
        commit e
  end.

End OAuthService.

(** ** Normalised provider names *)

Lemma rstrip_map p f s :
  (forall c, p (f c) = p c) -> rstrip_by p (string_map f s) = string_map f (rstrip_by p s).
Proof.
  intros Hf. induction s as [|a s IH]; [done|]. cbn [string_map rstrip_by]. rewrite IH, Hf.
  destruct (rstrip_by p s) as [|b t]; cbn [string_map]; [by destruct (p a) | done].
Qed.

Lemma lstrip_map p f s :
  (forall c, p (f c) = p c) -> lstrip_by p (string_map f s) = string_map f (lstrip_by p s).
Proof.
  intros Hf. induction s as [|a s IH]; [done|]. cbn [string_map lstrip_by]. rewrite Hf. by destruct (p a).
Qed.

Lemma rstrip_idem p s : rstrip_by p (rstrip_by p s) = rstrip_by p s.
Proof.
  induction s as [|a s IH]; [done|]. cbn [rstrip_by].
  destruct (rstrip_by p s) as [|b t] eqn:Hs; [destruct (p a) eqn:Ha; cbn [rstrip_by]; by rewrite ?Ha|].
  cbn [rstrip_by] in *. by rewrite IH.
Qed.

Lemma lstrip_idem p s : lstrip_by p (lstrip_by p s) = lstrip_by p s.
Proof.
  induction s as [|a s IH]; [done|]. cbn [lstrip_by]. destruct (p a) eqn:Ha; [exact IH|].
  cbn [lstrip_by]. by rewrite Ha.
Qed.

Lemma rstrip_lstrip p s : rstrip_by p s = s -> rstrip_by p (lstrip_by p s) = lstrip_by p s.
Proof.
  induction s as [|a s IH]; [done|]. intros H. cbn [lstrip_by]. destruct (p a) eqn:Ha; [|exact H].
  apply IH. cbn [rstrip_by] in H. destruct (rstrip_by p s) as [|b t]; [by rewrite Ha in H|].
  by injection H.
Qed.

Lemma strip_idem s : strip (strip s) = strip s.
Proof. unfold strip. rewrite rstrip_lstrip by apply rstrip_idem. apply lstrip_idem. Qed.

Lemma lower_space c : is_space (lower_char c) = is_space c.
Proof. destruct c as [[] [] [] [] [] [] [] []]; reflexivity. Qed.

Lemma lower_idem s : lower (lower s) = lower s.
Proof.
  unfold lower. induction s as [|c s IH]; [done|]. cbn [string_map]. rewrite IH. f_equal.
  destruct c as [[] [] [] [] [] [] [] []]; reflexivity.
Qed.

Lemma normalize_idem p : normalize_provider (normalize_provider p) = normalize_provider p.
Proof.
  unfold normalize_provider. rewrite <- (lower_idem (strip p)) at 2. f_equal.
  unfold strip at 1. unfold lower. rewrite rstrip_map, lstrip_map by apply lower_space.
  f_equal. apply strip_idem.
Qed.

(** ** Facts *)

(** The columns that say whose account it is. *)
Record same_identity (a b : oauth_account) : Prop := {
  same_id : o_id b = o_id a;
  same_user : o_user_id b = o_user_id a;
  same_provider : provider b = provider a;
  same_subject : provider_subject b = provider_subject a
}.

#[export] Instance same_identity_trans : Transitive same_identity.
Proof. intros a b c [] []. split; congruence. Qed.

Section OAuthFacts.
Context (L : libs) (e : env).

Lemma ensure_Ok u b w x w' : ensure_user_can_authenticate e u b w = (Ok x, w') -> is_active u = true /\ w' = w.
Proof.
  unfold ensure_user_can_authenticate. destruct (is_active u); [by intros [= _ <-]|].
  unfold inactive_account_error. intros H. exfalso. apply bind_Ok in H as (? & w1 & _ & H).
  by destruct (deactivation_reason u) as [[]|].
Qed.

Lemma update_identity p f l :
  (forall a, same_identity a (f a)) -> Forall2 same_identity l (update_where p f l).
Proof. intros Hf. apply Forall2_update_where. intros x _. by destruct (p x). Qed.

Lemma login_linked_Ok a u i w x w' :
  login_linked e a u i w = (Ok x, w') ->
  is_active u = true /\ committed w' = committed w /\
  Forall2 same_identity (oauth_accounts (working w)) (oauth_accounts (working w')).
Proof.
  unfold login_linked. intros H. apply bind_Ok in H as (? & w1 & H1 & H). apply ensure_Ok in H1 as [Ha ->].
  apply bind_Ok in H as (? & w2 & H2 & H). unfold update_account, execute in H2. injection H2 as _ <-.
  apply bind_Ok in H as (? & w3 & H3 & H).
  assert (committed w3 = committed w /\ oauth_accounts (working w3) =
    update_where (fun x => eqs (o_id x) (o_id a)) (update_oauth_account e i) (oauth_accounts (working w))) as [Hc3 Hw3].
  { revert H3. unfold verify_matching_provider_email, when, update_user, execute, ret.
    by destruct (matching_email u i); intros [= _ <-]. }
  apply bind_Ok in H as (? & w4 & H4 & H). unfold update_account, execute in H4. injection H4 as _ <-.
  unfold update_user, execute in H. injection H as _ <-. simpl. rewrite Hc3, Hw3. split_and!; try done.
  transitivity (update_where (fun x => eqs (o_id x) (o_id a)) (update_oauth_account e i) (oauth_accounts (working w)));
    by apply update_identity.
Qed.

Lemma of_subject_Some p s l a :
  first (of_subject p s) l = Some a -> a ∈ l /\ provider a = normalize_provider p /\ provider_subject a = s.
Proof.
  intros H. apply first_Some in H as [Hin H]. apply andb_true_iff in H as [H1 H2].
  apply String.eqb_eq in H1, H2. done.
Qed.

(** An identity is already linked to the user, in the given table. *)
Definition linked_to (i : OAuthIdentity) (u : user) (l : list oauth_account) : Prop :=
  exists a, a ∈ l /\ provider a = normalize_provider (i_provider i) /\
    provider_subject a = subject i /\ o_user_id a = user_id u.

Lemma first_user_id id l (u : user) : first (fun u => eqs (user_id u) id) l = Some u -> user_id u = id.
Proof. intros H. apply first_Some in H as [_ H]. by apply String.eqb_eq in H. Qed.

Lemma after_conflict_Ok i w u w' :
  login_after_conflict e i w = (Ok u, w') ->
  linked_to i u (oauth_accounts (committed w)) /\
  Forall2 same_identity (oauth_accounts (committed w)) (oauth_accounts (committed w')).
Proof.
  unfold login_after_conflict. intros H. unfold bind at 1, rollback in H. unfold bind at 1, get_by_provider_subject, query in H.
  destruct (first _ (oauth_accounts _)) as [a|] eqn:Ha; [|done]. apply of_subject_Some in Ha as (Ha & Hp & Hs).
  unfold bind at 1, get_user_by_id, query in H. destruct (first _ (users _)) as [u0|] eqn:Hu; [|done].
  apply first_user_id in Hu. apply bind_Ok in H as (? & w1 & H1 & H). apply login_linked_Ok in H1 as (_ & _ & Hf).
  apply bind_Ok in H as (? & w2 & H2 & H). apply commit_Ok in H2 as (Hc2 & _ & _).
  apply refresh_user_Ok in H as [-> Hu']. apply first_user_id in Hu'. rewrite Hc2. split; [|exact Hf].
  exists a. rewrite normalize_idem in Hp. split_and!; try done. congruence.
Qed.

Lemma store_account_conflict id i w w' :
  store_account e id i w = (Err IntegrityError, w') -> committed w' = committed w.
Proof.
  unfold store_account, flush, update_user, add_audit. unfold bind at 1 2, query.
  destruct (constraints_ok (working w)); [|by intros [= <-]]. unfold ret at 1, bind, draw, execute. cbn.
  unfold commit. cbn. destruct (conflict e _ || _); [by intros [= <-]|].
  unfold refresh_user, bind, get_user_by_id, query, first. by destruct (List.find _ _).
Qed.

Lemma store_account_Ok (x : user) i w u w' before :
  users (working w) = insert x before -> store_account e (user_id x) i w = (Ok u, w') ->
  ~ In (user_id x) (map user_id before) /\ u = set_last_login_at (Some (now e)) x /\
  users (committed w') = insert u before /\
  exists id, oauth_accounts (committed w') = insert (create_oauth_account e id (user_id x) i) (oauth_accounts (working w)).
Proof.
  intros Hb. unfold store_account. intros H. apply bind_Ok in H as (? & w1 & H1 & H).
  assert (w1 = w /\ constraints_ok (working w) = true) as [-> Hok].
  { revert H1. unfold flush, bind, query. destruct (constraints_ok _); [by intros [= _ <-] | done]. }
  apply constraints_users in Hok. rewrite Hb in Hok. apply nodup_insert in Hok.
  apply bind_Ok in H as (id & w1 & H2 & H). unfold draw in H2. injection H2 as <- <-.
  apply bind_Ok in H as (? & w2 & H2 & H). unfold execute in H2. injection H2 as _ <-.
  apply bind_Ok in H as (? & w3 & H3 & H). unfold update_user, execute in H3. injection H3 as _ <-.
  apply bind_Ok in H as (? & w4 & H4 & H). unfold add_audit, execute in H4. injection H4 as _ <-.
  apply bind_Ok in H as (? & w5 & H5 & H). apply commit_Ok in H5 as (Hc5 & Hw5 & _).
  apply refresh_user_Ok in H as [-> Hu]. rewrite Hw5 in Hu. rewrite Hc5. simpl in *. rewrite Hb in *.
  rewrite update_where_insert in * by done.
  change (user_id x) with (user_id (set_last_login_at (Some (now e)) x)) in Hu at 1.
  rewrite first_insert in Hu by done. injection Hu as <-. split_and!; try done. by eexists.
Qed.

End OAuthFacts.

(** ** Properties *)

(** C28. A login with an external identity never takes over an account: the user
    it returns either owned this identity already, or was created by this
    login, under an identifier no user had, when nobody owned the identity and
    nobody used the e-mail address; every other linked account keeps its owner. *)
Theorem oauth_login_no_takeover L e i w u w' :
  authenticate_oauth_identity L e i w = (Ok u, w') ->
  (linked_to i u (oauth_accounts (working w)) /\
   Forall2 same_identity (oauth_accounts (working w)) (oauth_accounts (committed w'))) \/
  (linked_to i u (oauth_accounts (committed w)) /\
   Forall2 same_identity (oauth_accounts (committed w)) (oauth_accounts (committed w'))) \/
  (~ In (user_id u) (map user_id (users (working w))) /\
   (forall mail x, identity_email i = Some mail -> x ∈ users (working w) -> lower (email x) <> lower mail) /\
   password_hash u = None /\
   exists id, oauth_accounts (committed w') = insert (create_oauth_account e id (user_id u) i) (oauth_accounts (working w)) /\
     users (committed w') = insert u (users (working w))).
Proof.
  unfold authenticate_oauth_identity. intros H. unfold bind at 1, get_by_provider_subject, query in H.
  destruct (first _ (oauth_accounts _)) as [a|] eqn:Ha.
  { left. apply of_subject_Some in Ha as (Ha & Hp & Hs). rewrite normalize_idem in Hp.
    unfold bind at 1, get_user_by_id, query in H. destruct (first _ (users _)) as [u0|] eqn:Hu; [|done].
    apply first_user_id in Hu. apply bind_Ok in H as (? & w1 & H1 & H). apply login_linked_Ok in H1 as (_ & _ & Hf).
    apply bind_Ok in H as (? & w2 & H2 & H). unfold add_audit, execute in H2. injection H2 as _ <-.
    apply bind_Ok in H as (? & w3 & H3 & H). apply commit_Ok in H3 as (Hc3 & _ & _).
    apply refresh_user_Ok in H as [-> Hu']. apply first_user_id in Hu'. rewrite Hc3. split; [|exact Hf].
    exists a. split_and!; try done. congruence. }
  right. apply bind_Ok in H as (eu & w0 & He & H).
  assert (w0 = w /\ (forall mail x, identity_email i = Some mail -> x ∈ users (working w) -> some eu = false ->
            lower (email x) <> lower mail)) as [-> Hmail].
  { destruct (identity_email i) as [mail|]; [|by injection He as _ <-].
    unfold get_user_by_email, query in He. injection He as <- <-. split; [done|].
    intros mail' x [= ->] Hx Hn Hl. destruct (first _ _) eqn:Hf in Hn; [done|].
    rewrite list_elem_of_In in Hx. apply List.find_none with (x := x) in Hf; [|done].
    unfold eqs in Hf. rewrite Hl, String.eqb_refl in Hf. done. }
  destruct (some eu) eqn:Heu; [done|].
  apply bind_Ok in H as (id & w1 & H1 & H). unfold draw in H1. injection H1 as <- <-.
  apply bind_Ok in H as (? & w2 & H2 & H). unfold execute in H2. injection H2 as _ <-.
  unfold catch in H. destruct (store_account _ _ _ _) as [[u1|x1] w3] eqn:H3.
  - right. injection H as <- <-. eapply (store_account_Ok e (oauth_user L e _ i)) in H3 as (Hf & -> & Hus & Hacc); [|reflexivity].
    split; [exact Hf|]. split; [intros mail y Hi Hy; exact (Hmail mail y Hi Hy eq_refl)|]. split; [done|]. destruct Hacc as [aid Hacc]. by exists aid.
  - left. destruct x1; try done. apply store_account_conflict in H3. apply after_conflict_Ok in H. by rewrite H3 in H.
Qed.

Definition example_identity : OAuthIdentity :=
  {| i_provider := "github"; subject := "42"; i_email := Some "o@example.org"; email_verified := true;
     username := Some "octo"; i_display_name := None; i_avatar_url := None; profile_url := None |}.

Lemma oauth_login_no_takeover_witness :
  exists u w', authenticate_oauth_identity example_libs (example_env 40 "o") example_identity (world_of example_d2)
      = (Ok u, w') /\ user_id u = "o" /\
    ~ (exists x, x ∈ users example_d2 /\ user_id x = "o") /\
    (linked_to example_identity u (oauth_accounts example_d2) \/ ~ In (user_id u) (map user_id (users example_d2))).
Proof.
  eexists _, _. split; [vm_compute; reflexivity|]. split; [reflexivity|]. split.
  { intros (x & Hx & Hi). rewrite list_elem_of_In in Hx. vm_compute in Hx. destruct Hx as [<-|[]]. discriminate. }
  edestruct (oauth_login_no_takeover example_libs (example_env 40 "o") example_identity (world_of example_d2))
    as [[H _]|[[H _]|[H _]]]; [vm_compute; reflexivity | by left | by left | by right].
Defined.

(** Linking: on success the identity belongs to the user, who has exactly one
    account of the provider, and no account changed its owner; nobody else's
    identity can be taken. *)
Theorem link_oauth_owner e u i w a w' :
  link_oauth_account e u i w = (Ok a, w') ->
  o_user_id a = user_id u /\ provider a = normalize_provider (i_provider i) /\ provider_subject a = subject i /\
  a ∈ oauth_accounts (committed w') /\
  (forall b, b ∈ oauth_accounts (committed w') -> provider b = provider a ->
     (provider_subject b = subject i \/ o_user_id b = user_id u) -> b = a).
Proof.
  unfold link_oauth_account. intros H. unfold bind at 1, get_by_provider_subject, query in H.
  unfold bind at 1, get_for_user_provider, query in H.
  destruct (link_conflict u _ _) eqn:Hl; [done|]. apply orb_false_iff in Hl as [Hown _].
  apply bind_Ok in H as (id & w1 & H1 & H).
  assert (Hrow : exists b, b ∈ oauth_accounts (working w1) /\ o_id b = id /\ o_user_id b = user_id u /\
    provider b = normalize_provider (i_provider i) /\ provider_subject b = subject i).
  { destruct (first _ (oauth_accounts (working w))) as [a0|] eqn:Ha in H1, Hown.
    - apply of_subject_Some in Ha as (Ha & Hp & Hs). rewrite normalize_idem in Hp.
      unfold update_account, bind, execute, ret in H1. injection H1 as <- <-.
      exists (touch_last_login e (update_oauth_account e i a0)). split_and!; try done; [|].
      + apply elem_of_update_where. exists a0. split; [done|]. unfold eqs. by rewrite String.eqb_refl.
      + by apply negb_false_iff, String.eqb_eq in Hown.
    - unfold bind, draw, execute, ret in H1. injection H1 as <- <-. eexists. split; [apply elem_of_app; right; by constructor|].
      by split_and!. }
  destruct Hrow as (b & Hb & Hid & Hu & Hp & Hs).
  apply bind_Ok in H as (? & w2 & H2 & H).
  assert (oauth_accounts (working w2) = oauth_accounts (working w1)) as Hw2.
  { revert H2. unfold verify_matching_provider_email, when, update_user, execute, ret.
    by destruct (matching_email u i); intros [= _ <-]. }
  apply bind_Ok in H as (? & w3 & H3 & H). unfold update_user, execute in H3. injection H3 as _ <-.
  apply bind_Ok in H as (? & w4 & H4 & H). unfold add_audit, execute in H4. injection H4 as _ <-.
  apply bind_Ok in H as (? & w5 & H5 & H). unfold catch in H5. destruct (commit e _) as [[[]|x5] w6] eqn:H6.
  2: { by destruct x5. }
  injection H5 as _ <-. apply commit_Ok in H6 as (Hc6 & Hw6 & Hok).
  apply constraints_oauth in Hok as (Hk1 & Hk2 & Hk3). simpl in *. rewrite Hw2 in *.
  unfold bind, query, or_raise in H. rewrite Hw6 in H. destruct (first _ (oauth_accounts _)) as [a'|] eqn:Ha in H; [|done].
  injection H as <- <-. simpl in Ha. rewrite Hw2 in Ha. apply first_Some in Ha as [Ha Hid']. apply String.eqb_eq in Hid'.
  assert (a' = b) as -> by (eapply (NoDup_map_inj o_id); try done; congruence).
  rewrite Hc6. simpl. rewrite Hw2. split_and!; try done. intros b' Hb' Hp' [Hs'|Hu'].
  - eapply (NoDup_map_inj (fun o => (provider o, provider_subject o))); try done. simpl. congruence.
  - eapply (NoDup_map_inj (fun o => (o_user_id o, provider o))); try done. simpl. congruence.
Qed.

Lemma link_oauth_owner_witness :
  exists a w', link_oauth_account (example_env 40 "o") example_user example_identity (world_of example_d2) = (Ok a, w') /\
    a ∈ oauth_accounts (committed w') /\
    forall b, b ∈ oauth_accounts (committed w') -> provider b = "github" -> o_user_id b = "a" -> b = a.
Proof.
  eexists _, _. split; [vm_compute; reflexivity|].
  edestruct (link_oauth_owner (example_env 40 "o") example_user example_identity (world_of example_d2))
    as (_ & _ & _ & Ha & Hb); [vm_compute; reflexivity|].
  split; [exact Ha|]. intros b H1 H2 H3. apply Hb; [exact H1 | exact H2 | by right].
Defined.

(** Unlinking never takes the last method: it removes exactly one account, of
    the provider named, and afterwards the user has a password or an account of
    another provider. *)
Theorem unlink_keeps_method e u name w x w' :
  unlink_oauth_account e u name w = (Ok x, w') ->
  exists a, a ∈ oauth_accounts (working w) /\ o_user_id a = user_id u /\ provider a = normalize_provider name /\
    oauth_accounts (committed w') = delete_where (fun b => eqs (o_id b) (o_id a)) (oauth_accounts (working w)) /\
    (given (password_hash u) = true \/
     (NoDup (map o_id (oauth_accounts (working w))) ->
      exists b, b ∈ oauth_accounts (committed w') /\ o_user_id b = user_id u /\ provider b <> normalize_provider name)).
Proof.
  unfold unlink_oauth_account. intros H. unfold bind at 1, get_for_user_provider, query in H.
  destruct (first _ _) as [a|] eqn:Ha; [|done]. apply first_Some in Ha as [Ha Hp].
  apply andb_true_iff in Hp as [Hu Hp]. apply String.eqb_eq in Hu, Hp. rewrite normalize_idem in Hp.
  unfold bind at 1 in H. destruct (negb _ && _) eqn:Hc; [done|].
  apply bind_Ok in H as (? & w1 & H1 & H). unfold execute in H1. injection H1 as _ <-.
  apply bind_Ok in H as (? & w2 & H2 & H). unfold add_audit, execute in H2. injection H2 as _ <-.
  apply commit_Ok in H as (Hc' & _ & _). exists a. rewrite Hc'. simpl. split_and!; try done.
  destruct (given (password_hash u)); [by left|]. right. intros Hnd. simpl in Hc.
  destruct (List.filter _ _) as [|b l] eqn:Hf in Hc; [done|].
  assert (Hb : In b (List.filter (other_provider (user_id u) (normalize_provider name)) (oauth_accounts (working w))))
    by (rewrite Hf; by left).
  apply filter_In in Hb as [Hb Hp2]. apply andb_true_iff in Hp2 as [Hu2 Hp2].
  apply String.eqb_eq in Hu2. apply negb_true_iff, String.eqb_neq in Hp2. rewrite <- list_elem_of_In in Hb.
  exists b. split_and!; try done. apply elem_of_delete_where. split; [done|]. apply String.eqb_neq. intros He.
  assert (b = a) as -> by by eapply (NoDup_map_inj o_id). done.
Qed.

(** The example user, without a password, with two linked accounts. *)
Definition example_linked : db :=
  on_oauth_accounts (insert (create_oauth_account (example_env 40 "o") "o1" "a" example_identity))
    (on_oauth_accounts (insert (set_provider_email None
      {| o_id := "o2"; o_user_id := "a"; provider := "google"; provider_subject := "7"; provider_email := None;
         provider_username := None; provider_avatar_url := None; provider_profile_url := None; o_updated_at := 0;
         o_last_login_at := None |})) example_d2).

Lemma unlink_keeps_method_witness :
  exists w', unlink_oauth_account (example_env 41 "o") (set_password_hash None example_user) " GitHub " (world_of example_linked)
      = (Ok tt, w') /\ map provider (oauth_accounts (committed w')) = ["google"] /\
    exists b, b ∈ oauth_accounts (committed w') /\ o_user_id b = "a" /\ provider b <> "github".
Proof.
  eexists. split; [vm_compute; reflexivity|]. split; [reflexivity|].
  edestruct (unlink_keeps_method (example_env 41 "o") (set_password_hash None example_user) " GitHub "
    (world_of example_linked)) as (a & _ & _ & _ & _ & [H|H]); [vm_compute; reflexivity | discriminate H |].
  apply H. apply (bool_decide_unpack (NoDup (map o_id (oauth_accounts example_linked)))). by vm_compute.
Defined.

Definition local_path (p : string) : Prop :=
  startswith "/" p = true /\ startswith "//" p = false /\ mem_char backslash p = false /\
  existsb control (chars p) = false.

(** The redirect path is local: it starts with one slash, is not
    protocol-relative and has no backslash or control character, so that no
    input makes the application redirect to another host; a path that is
    already of this form is kept. *)
Theorem safe_redirect_local path :
  local_path (safe_redirect_path path) /\
  (forall p, path = Some p -> local_path p -> strip p = p -> safe_redirect_path path = p).
Proof.
  split.
  - destruct path as [[|c s]|]; [by vm_compute | | by vm_compute]. unfold safe_redirect_path.
    generalize (strip (String c s)). intros t.
    destruct (_ || _) eqn:Hc; [by vm_compute|]. unfold local_path.
    apply orb_false_iff in Hc as [Hc H4]. apply orb_false_iff in Hc as [Hc H3]. apply orb_false_iff in Hc as [H1 H2].
    apply negb_false_iff in H1. done.
  - intros p -> (H1 & H2 & H3 & H4) Hs. destruct p as [|c s]; [done|]. unfold safe_redirect_path.
    rewrite Hs, H1, H2, H3, H4. done.
Qed.
