(* ===== verification/Account.v ===== *)
(** * Closing an account: auth/services/account_service.py

    Self-service deactivation and deletion, with the protection of the last
    active superuser.  Deleting the user row deletes, by the foreign keys of the
    models (ON DELETE CASCADE), the rows of every table that refers to it. *)

From S2P Require Import Prelude PyText SemVer Json AuthDb AuthService Mfa OAuth.

Open Scope string_scope.
Open Scope list_scope.
Open Scope Z_scope.

Section AccountService.
Context (L : libs) (e : env).

Definition account_error (code : string) (status : Z) : http_exn := HTTPException status code.

Definition active_superuser (u : user) : bool := is_superuser u && is_active u.

Definition _lock_user_and_protect_last_superuser (uid : string) : W user :=
  do u <- get_user_by_id uid;
  match u with
  | None => raise (account_error "AUTH_REQUIRED" 401)
  | Some u =>
      if is_superuser u then
        do active_ids <- query (fun d => List.filter active_superuser (users d));
        if Nat.leb (length active_ids) 1 then raise (account_error "LAST_SUPERUSER_REQUIRED" 409)
        else ret u
      else ret u
  end.

(** The attributes a deactivation assigns. *)
Definition deactivated (u : user) : user :=
  set_is_active false (set_deactivated_at (Some (now e)) (set_deactivation_reason (Some SELF_DEACTIVATED) u)).

Definition deactivate_own_account (uid : string) : W unit :=
  do u <- _lock_user_and_protect_last_superuser uid;
  if negb (is_active u) then ret tt
  else
    update_user (user_id u) deactivated >>
    execute (on_user_sessions (update_where (fun s => eqs (s_user_id s) (user_id u) && live s)
                                 (revoke_row e "account_deactivated"))) >>
    add_audit (Some (user_id u)) (Some (user_id u)) "ACCOUNT_DEACTIVATED" (Some (user_id u)) >>
    commit e.

(** ["löschen"], as code points *)
Definition LOESCHEN : string := String "l" (String (ascii_of_N 246) "schen").

Definition is_user (uid : string) (o : option string) : bool :=
  match o with Some v => eqs v uid | None => false end.

(** [session.delete(user)]: the row and what refers to it. *)
Definition delete_user (uid : string) (d : db) : db :=
  let challenges := map c_id (List.filter (fun c => eqs (c_user_id c) uid) (mfa_challenges d)) in
  let of_challenge c := match mfa_challenge_id c with Some i => existsb (eqs i) challenges | None => false end in
  on_users (delete_where (fun u => eqs (user_id u) uid))
    (on_user_sessions (delete_where (fun s => eqs (s_user_id s) uid))
    (on_verification_tokens (delete_where (fun v => eqs (v_user_id v) uid))
    (on_reset_tokens (delete_where (fun r => eqs (r_user_id r) uid))
    (on_oauth_accounts (delete_where (fun o => eqs (o_user_id o) uid))
    (on_mfa_methods (delete_where (fun m => eqs (m_user_id m) uid))
    (on_recovery_codes (delete_where (fun c => eqs (rc_user_id c) uid))
    (on_mfa_challenges (delete_where (fun c => eqs (c_user_id c) uid))
    (on_webauthn_credentials (delete_where (fun c => eqs (w_user_id c) uid))
    (on_webauthn_challenges (delete_where (fun c => is_user uid (wc_user_id c) || of_challenge c)) d))))))))).

(** The statements before the user row goes. *)
Definition detach_user (uid : string) : W unit :=
  execute (on_audit_logs (update_where (fun a => is_user uid (actor_user_id a)) (set_actor_user_id None))) >>
  execute (on_audit_logs (update_where (fun a => is_user uid (target_user_id a)) (set_target_user_id None))) >>
  execute (on_oauth_accounts (delete_where (fun o => eqs (o_user_id o) uid))) >>
  execute (on_user_sessions (delete_where (fun s => eqs (s_user_id s) uid))) >>
  execute (on_reset_tokens (delete_where (fun r => eqs (r_user_id r) uid))) >>
  execute (on_verification_tokens (delete_where (fun v => eqs (v_user_id v) uid))).

(** The password, or a recent login when there is none. *)
Definition reauthenticated (u : user) (current_password : option string) (authenticated_at : option Z)
    (recent_auth_seconds : Z) : res http_exn unit :=
  match password_hash u with
  | Some (String _ _ as hash) =>
      match current_password with
      | Some (String _ _ as p) => raise_if (negb (verify_password L p hash)) (account_error "INVALID_CURRENT_PASSWORD" 403)
      | _ => Err (account_error "INVALID_CURRENT_PASSWORD" 403)
      end
  | _ =>
      match authenticated_at with
      | Some t => raise_if (recent_auth_seconds * second <? now e - t) (account_error "RECENT_AUTH_REQUIRED" 403)
      | None => Err (account_error "RECENT_AUTH_REQUIRED" 403)
      end
  end.

(** The avatar to remove from storage. *)
Definition delete_own_account (uid confirmation_text : string) (current_password : option string)
    (authenticated_at : option Z) (recent_auth_seconds : Z) : W (option string) :=
  if negb (String.eqb (casefold (strip confirmation_text)) (casefold LOESCHEN))
  then raise (account_error "INVALID_DELETE_CONFIRMATION" 422)
  else
    do u <- _lock_user_and_protect_last_superuser uid;
    match reauthenticated u current_password authenticated_at recent_auth_seconds with
    | Err x => raise x
    | Ok _ =>
        detach_user (user_id u) >>
        add_audit None None "ACCOUNT_DELETED" (Some (user_id u)) >>
        execute (delete_user (user_id u)) >>
        commit e >>
        ret (avatar_url (profile_of u))
    end.

End AccountService.

(** ** Facts *)

Section AccountFacts.
Context (L : libs) (e : env).

Lemma lock_Ok uid w u w' :
  _lock_user_and_protect_last_superuser uid w = (Ok u, w') ->
  w' = w /\ u ∈ users (working w) /\ user_id u = uid /\
  (is_superuser u = true -> (1 < length (List.filter active_superuser (users (working w))))%nat).
Proof.
  unfold _lock_user_and_protect_last_superuser, bind at 1, get_user_by_id, query.
  destruct (first _ _) as [u0|] eqn:Hu; [|done]. apply first_Some in Hu as [Hin Hid]. apply String.eqb_eq in Hid.
  destruct (is_superuser u0) eqn:Hs; [|intros [= <- <-]; split_and!; [done..|congruence]]. unfold bind, query.
  destruct (Nat.leb_spec (length (List.filter active_superuser (users (working w)))) 1); [done|].
  intros [= <- <-]. by split_and!.
Qed.

(** Another active superuser than [uid]. *)
Lemma other_superuser uid l :
  NoDup (map user_id l) -> (1 < length (List.filter active_superuser l))%nat ->
  exists u, u ∈ l /\ active_superuser u = true /\ user_id u <> uid.
Proof.
  intros Hnd Hl. destruct (List.filter active_superuser l) as [|x [|y k]] eqn:Hf; simpl in Hl; [lia | lia |].
  assert (Hx : In x (List.filter active_superuser l)) by (rewrite Hf; by left).
  assert (Hy : In y (List.filter active_superuser l)) by (rewrite Hf; right; by left).
  assert (Hxy : user_id x <> user_id y).
  { assert (H : NoDup (map user_id (List.filter active_superuser l))).
    { by apply NoDup_map_filter. }
    rewrite Hf in H. simpl in H. inversion H as [|?? Hni _]; subst. intros He. apply Hni. rewrite He. by constructor. }
  apply filter_In in Hx as [Hx Hxa], Hy as [Hy Hya]. rewrite <- list_elem_of_In in Hx, Hy.
  destruct (String.eqb_spec (user_id x) uid) as [He|He]; [|by exists x].
  exists y. split_and!; try done. congruence.
Qed.

(** The protection leaves an active superuser besides the user. *)
Lemma superuser_elsewhere uid w u w' :
  NoDup (map user_id (users (working w))) -> (exists x, x ∈ users (working w) /\ active_superuser x = true) ->
  _lock_user_and_protect_last_superuser uid w = (Ok u, w') ->
  exists x, x ∈ users (working w) /\ active_superuser x = true /\ user_id x <> user_id u.
Proof.
  intros Hnd (x & Hx & Ha) H. apply lock_Ok in H as (-> & Hu & <- & Hs).
  destruct (is_superuser u) eqn:Hsu; [apply other_superuser; auto|].
  exists x. split_and!; try done. intros Hid. assert (x = u) as -> by by eapply (NoDup_map_inj user_id).
  unfold active_superuser in Ha. by rewrite Hsu in Ha.
Qed.

Definition has_superuser (d : db) : Prop := exists x, x ∈ users d /\ active_superuser x = true.

Lemma lock_reads uid w : snd (_lock_user_and_protect_last_superuser uid w) = w.
Proof.
  unfold _lock_user_and_protect_last_superuser, bind, get_user_by_id, query.
  destruct (first _ _) as [u0|]; [|done]. destruct (is_superuser u0); [|done]. by destruct (Nat.leb _ _).
Qed.

Lemma lock_bind {A} uid (k : user -> W A) w r w' :
  (do u <- _lock_user_and_protect_last_superuser uid; k u) w = (r, w') ->
  w' = w \/ exists u, _lock_user_and_protect_last_superuser uid w = (Ok u, w) /\ k u w = (r, w').
Proof.
  unfold bind at 1. assert (H := lock_reads uid w).
  destruct (_lock_user_and_protect_last_superuser uid w) as [[u|x] w1]; simpl in H; subst w1.
  - intros H. right. by exists u.
  - intros [= _ <-]. by left.
Qed.

Lemma commit_either w r w' :
  commit e w = (r, w') -> committed w' = committed w \/ committed w' = working w.
Proof.
  unfold commit. destruct (conflict e (commits w) || negb (constraints_ok (working w)));
    intros [= _ <-]; [by left | by right].
Qed.

Lemma deactivate_committed uid w r w' :
  deactivate_own_account e uid w = (r, w') ->
  committed w' = committed w \/
  exists u, _lock_user_and_protect_last_superuser uid w = (Ok u, w) /\
    users (committed w') = update_where (fun x => eqs (user_id x) (user_id u)) (deactivated e) (users (working w)).
Proof.
  unfold deactivate_own_account. intros H. apply lock_bind in H as [->|(u & Hl & H)]; [by left|].
  destruct (is_active u); [|left; by injection H as _ <-].
  unfold update_user, add_audit in H. unfold bind, execute in H. cbn [negb] in H.
  apply commit_either in H as [H|H]; [by left|]. right. exists u. by rewrite H.
Qed.

Lemma delete_committed uid text password at_ recent w r w' :
  delete_own_account L e uid text password at_ recent w = (r, w') ->
  committed w' = committed w \/
  exists u d, _lock_user_and_protect_last_superuser uid w = (Ok u, w) /\
    users d = users (working w) /\ committed w' = delete_user (user_id u) d.
Proof.
  unfold delete_own_account. intros H. destruct (negb _) in H; [left; by injection H as _ <-|].
  apply lock_bind in H as [->|(u & Hl & H)]; [by left|].
  destruct (reauthenticated _ _ _ _ _ _) as [[]|x] in H; [|left; by injection H as _ <-].
  unfold detach_user, add_audit in H. unfold bind, execute in H.
  destruct (commit e _) as [[]] eqn:Hc in H; injection H as _ <-;
    apply commit_either in Hc as [Hc|Hc]; [by left| |by left|]; right; exists u; eexists; (split; [done|]);
    (split; [|rewrite Hc; reflexivity]); reflexivity.
Qed.

End AccountFacts.

Inductive account_request :=
| Deactivate (uid : string)
| Delete (uid text : string) (password : option string) (authenticated_at : option Z) (recent : Z).

Definition account_serve (L : libs) (e : env) (r : account_request) : W unit :=
  match r with
  | Deactivate uid => deactivate_own_account e uid
  | Delete uid text p t recent => delete_own_account L e uid text p t recent >> ret tt
  end.

(** ** Properties *)

(** C29. There is always an active superuser: neither deactivating nor deleting an
    account, whatever the request holds, takes the last one away. *)
Theorem last_superuser_kept L e r w :
  constraints_ok (committed w) = true -> has_superuser (committed w) ->
  has_superuser (committed (snd (run (account_serve L e r) w))).
Proof.
  intros Hok Hs. apply constraints_users in Hok.
  unfold run. destruct (account_serve L e r _) as [x w'] eqn:H. cbn [snd committed with_working].
  destruct r as [uid|uid text p t recent]; cbn [account_serve] in H.
  - apply deactivate_committed in H as [->|(u & Hl & Hu)]; [done|].
    apply superuser_elsewhere in Hl as (y & Hy & Ha & Hid); [|done|done].
    exists y. split; [|done]. rewrite Hu. apply elem_of_update_where. exists y. split; [done|].
    unfold eqs. destruct (String.eqb_spec (user_id y) (user_id u)); [done|reflexivity].
  - unfold bind in H. destruct (delete_own_account _ _ _ _ _ _ _ _) as [r1 w1] eqn:H1.
    assert (w' = w1) as -> by (destruct r1; by injection H as _ <-).
    apply delete_committed in H1 as [->|(u & d & Hl & Hd & Hu)]; [done|].
    apply superuser_elsewhere in Hl as (y & Hy & Ha & Hid); [|done|done].
    exists y. split; [|done]. rewrite Hu. simpl. rewrite Hd. apply elem_of_delete_where. split; [done|].
    by apply String.eqb_neq.
Qed.


Definition example_admin (id : string) : user :=
  let u := example_user in
  {| user_id := id; email := id; password_hash := Some "$pw"; profile_of := profile_of u; is_active := true;
     deactivated_at := None; deactivation_reason := None; is_verified := true; email_pending := false;
     is_superuser := true; user_updated_at := 0; last_login_at := None |}.

Definition example_admins : db := on_users (fun l => example_admin "r" :: l) example_mfa.

Lemma last_superuser_kept_witness :
  fst (run (account_serve example_libs (example_env 41 "o") (Deactivate "r")) (world_of example_admins))
    = Err (account_error "LAST_SUPERUSER_REQUIRED" 409) /\
  has_superuser (committed (snd (run (account_serve example_libs (example_env 41 "o") (Deactivate "r"))
                                     (world_of example_admins)))).
Proof.
  split; [vm_compute; reflexivity|].
  apply (last_superuser_kept example_libs (example_env 41 "o") (Deactivate "r") (world_of example_admins));
    [vm_compute; reflexivity|].
  exists (example_admin "r"). split; [constructor | reflexivity].
Defined.

(** No row of any table refers to the user. *)
Record erased (uid : string) (d : db) : Prop := {
  er_users : Forall (fun u => user_id u <> uid) (users d);
  er_sessions : Forall (fun s => s_user_id s <> uid) (user_sessions d);
  er_verification : Forall (fun v => v_user_id v <> uid) (verification_tokens d);
  er_reset : Forall (fun r => r_user_id r <> uid) (reset_tokens d);
  er_oauth : Forall (fun o => o_user_id o <> uid) (oauth_accounts d);
  er_methods : Forall (fun m => m_user_id m <> uid) (mfa_methods d);
  er_codes : Forall (fun c => rc_user_id c <> uid) (recovery_codes d);
  er_challenges : Forall (fun c => c_user_id c <> uid) (mfa_challenges d);
  er_credentials : Forall (fun c => w_user_id c <> uid) (webauthn_credentials d);
  er_ceremonies : Forall (fun c => wc_user_id c <> Some uid) (webauthn_challenges d);
  er_audit : Forall (fun a => actor_user_id a <> Some uid /\ target_user_id a <> Some uid) (audit_logs d)
}.

Lemma Forall_delete {A} (p : A -> bool) (P : A -> Prop) l :
  (forall x, p x = false -> P x) -> Forall P (delete_where p l).
Proof. intros HP. apply Forall_forall. intros x Hx. apply elem_of_delete_where in Hx as [_ Hx]. by apply HP. Qed.

Lemma eqs_false a b : eqs a b = false -> a <> b.
Proof. apply String.eqb_neq. Qed.

Lemma delete_user_erased uid d :
  Forall (fun a => actor_user_id a <> Some uid /\ target_user_id a <> Some uid) (audit_logs d) ->
  erased uid (delete_user uid d).
Proof.
  intros Ha. split; try exact Ha; apply Forall_delete; intros x Hx; try by apply eqs_false.
  apply orb_false_iff in Hx as [Hx _]. intros He. rewrite He in Hx. simpl in Hx. by apply eqs_false in Hx.
Qed.

Lemma detached_audit uid l :
  Forall (fun a => actor_user_id a <> Some uid /\ target_user_id a <> Some uid)
    (update_where (fun a => is_user uid (target_user_id a)) (set_target_user_id None)
      (update_where (fun a => is_user uid (actor_user_id a)) (set_actor_user_id None) l)).
Proof.
  assert (Hu : forall o, is_user uid o = false -> o <> Some uid).
  { intros o Ho ->. simpl in Ho. unfold eqs in Ho. by rewrite String.eqb_refl in Ho. }
  apply Forall_forall. intros a Ha. apply elem_of_update_where in Ha as (b & Hb & ->).
  apply elem_of_update_where in Hb as (c & _ & ->).
  destruct (is_user uid (actor_user_id c)) eqn:Hc; cbn [set_actor_user_id target_user_id];
    destruct (is_user uid (target_user_id c)) eqn:Ht; split; try done; try (by apply Hu); simpl; by apply Hu.
Qed.

(** Deleting an account: it needs the confirmation word and the password (or
    a recent login when there is none), and afterwards no row of any table
    refers to the user, the audit log included, while the users, sessions and
    linked accounts of everybody else are kept. *)
Theorem delete_own_account_erases L e uid text password authenticated_at recent w avatar w' :
  delete_own_account L e uid text password authenticated_at recent w = (Ok avatar, w') ->
  casefold (strip text) = casefold LOESCHEN /\
  (exists u, u ∈ users (working w) /\ user_id u = uid /\ reauthenticated L e u password authenticated_at recent = Ok tt) /\
  erased uid (committed w') /\
  users (committed w') = delete_where (fun u => eqs (user_id u) uid) (users (working w)) /\
  (forall s, s ∈ user_sessions (working w) -> s_user_id s <> uid -> s ∈ user_sessions (committed w')) /\
  (forall o, o ∈ oauth_accounts (working w) -> o_user_id o <> uid -> o ∈ oauth_accounts (committed w')).
Proof.
  unfold delete_own_account. intros H. destruct (negb _) eqn:Ht in H; [done|].
  apply negb_false_iff, String.eqb_eq in Ht. apply bind_Ok in H as (u & w1 & Hl & H).
  apply lock_Ok in Hl as (-> & Hu & Hid & _). destruct (reauthenticated _ _ _ _ _ _) as [[]|x] eqn:Hr in H; [|done].
  subst uid. unfold detach_user, add_audit in H. apply bind_Ok in H as (? & w1 & H1 & H).
  unfold bind, execute in H1. injection H1 as _ <-.
  apply bind_Ok in H as (? & w2 & H2 & H). unfold execute in H2. injection H2 as _ <-.
  apply bind_Ok in H as (? & w3 & H3 & H). unfold execute in H3. injection H3 as _ <-.
  apply bind_Ok in H as (? & w4 & H4 & H). apply commit_Ok in H4 as (Hc & _ & _). injection H as _ <-.
  split; [done|]. split; [by exists u|]. rewrite Hc. split; [|split_and!].
  - apply delete_user_erased. apply Forall_app. split; [apply detached_audit | by apply Forall_singleton].
  - reflexivity.
  - intros s Hs Hn. simpl. repeat (apply elem_of_delete_where; split; [|by apply String.eqb_neq]). done.
  - intros s Hs Hn. simpl. repeat (apply elem_of_delete_where; split; [|by apply String.eqb_neq]). done.
Qed.

Lemma delete_own_account_erases_witness :
  exists avatar w', delete_own_account example_libs (example_env 41 "o") "a" (" L" +:+ String (ascii_of_N 214) "SCHEN ")
      (Some "correct horse") None 600 (world_of example_admins) = (Ok avatar, w') /\
    erased "a" (committed w') /\ map user_id (users (committed w')) = ["r"].
Proof.
  eexists _, _. split; [vm_compute; reflexivity|].
  edestruct (delete_own_account_erases example_libs (example_env 41 "o") "a" (" L" +:+ String (ascii_of_N 214) "SCHEN ")
      (Some "correct horse") None 600 (world_of example_admins)) as (_ & _ & H & _); [vm_compute; reflexivity|].
  split; [exact H | reflexivity].
Defined.
