(* ===== verification/Guards.v ===== *)
(** * Request guards: auth/csrf.py, auth/dependencies.py, auth/recent_auth.py

    What a protected endpoint checks before its service runs: the access token
    of the cookie, the state of the account, the CSRF token, the age of the
    login, and the origin of a refresh. *)

From S2P Require Import Prelude PyText SemVer Json Url AuthDb AuthService Mfa.

Open Scope string_scope.
Open Scope list_scope.
Open Scope Z_scope.

Section Guards.
Context (st : settings) (L : libs) (e : env).

(** ** CSRF *)

Definition UNSAFE_METHODS : list string := ["POST"; "PUT"; "PATCH"; "DELETE"].

Definition csrf_failed : http_exn := HTTPException 403 "CSRF_FAILED".

(** [secrets.compare_digest] of two texts *)
Definition compare_digest (a b : string) : W bool :=
  if all_chars is_ascii a && all_chars is_ascii b then ret (String.eqb a b)
  else raise (InternalError "TypeError").

Definition validate_csrf : W unit :=
  if negb (existsb (String.eqb (upper (request_method e))) UNSAFE_METHODS) then ret tt
  else
    match cookie e (auth_csrf_cookie_name st), header e "x-csrf-token" with
    | Some (String _ _ as cookie_token), Some (String _ _ as header_token) =>
        do same <- compare_digest cookie_token header_token;
        if same then ret tt else raise csrf_failed
    | _, _ => raise csrf_failed
    end.

Definition rstrip_slash : string -> string := rstrip_char "/".

Definition allowed_origins : list string :=
  map rstrip_slash (cors_origin_list st) ++ [rstrip_slash (app_base_url st)].

(** The origin, or that of the referer. *)
Definition refresh_candidate : res http_exn string :=
  let candidate := match header e "origin" with Some o => rstrip_slash o | None => "" end in
  if nonempty candidate then Ok candidate
  else
    match header e "referer" with
    | Some (String _ _ as referer) =>
        match urlsplit referer with
        | Ok parsed => Ok (rstrip_slash (scheme parsed +:+ "://" +:+ netloc parsed))
        | Err _ => Err (InternalError "ValueError")
        end
    | _ => Ok ""
    end.

Definition validate_refresh_origin : res http_exn unit :=
  let? candidate := refresh_candidate in
  if negb (nonempty candidate) && negb (refresh_require_origin st) && negb (production st) then Ok tt
  else raise_if (negb (existsb (String.eqb candidate) allowed_origins)) csrf_failed.

(** ** The current user *)

Definition auth_exception (code : string) : http_exn := HTTPException 401 code.

Definition get_optional_user : W (option user) :=
  match cookie e (auth_access_cookie_name st) with
  | Some (String _ _ as token) =>
      match decode_jwt st L e token access_type with
      | Err _ => ret None
      | Ok payload =>
          do u <- get_user_by_id (sub payload);
          match u with
          | Some u => if is_active u then ret (Some u) else ret None
          | None => ret None
          end
      end
  | _ => ret None
  end.

Definition get_current_user : W user :=
  match cookie e (auth_access_cookie_name st) with
  | Some (String _ _ as token) =>
      match decode_jwt st L e token access_type with
      | Err ExpiredSignatureError => raise (auth_exception "ACCESS_TOKEN_EXPIRED")
      | Err PyJWTError => raise (auth_exception "ACCESS_TOKEN_INVALID")
      | Ok payload =>
          do u <- get_user_by_id (sub payload);
          match u with
          | None => raise (auth_exception "AUTH_REQUIRED")
          | Some u => if is_active u then ret u else raise (inactive_account_error u)
          end
      end
  | _ => raise (auth_exception "AUTH_REQUIRED")
  end.

Definition get_current_active_user : W user :=
  do u <- get_current_user;
  if is_active u then ret u else raise (HTTPException 403 "ACCOUNT_INACTIVE").

Definition get_csrf_protected_active_user : W user :=
  do u <- get_current_active_user;
  validate_csrf >>
  ret u.

Definition get_verified_user : W user :=
  do u <- get_current_active_user;
  validate_csrf >>
  if is_verified u then ret u else raise (HTTPException 403 "EMAIL_NOT_VERIFIED").

(** ** Recent login *)

Definition reauth_required : http_exn := auth_error "MFA_REAUTH_REQUIRED" 401.

Definition require_recent_auth : res http_exn unit :=
  let token := match cookie e (auth_access_cookie_name st) with Some t => t | None => "" end in
  match decode_jwt st L e token access_type with
  | Err _ => Err reauth_required
  | Ok payload =>
      match auth_time payload with
      | Some t => raise_if (reauth_max_age_seconds st <? timestamp (now e) - t) reauth_required
      | None => Err reauth_required
      end
  end.

(** ** Facts *)

(** The request carries a valid access token of the user. *)
Definition token_of (u : user) (payload : claims) : Prop :=
  exists t, cookie e (auth_access_cookie_name st) = Some t /\ decode_jwt st L e t access_type = Ok payload /\
    token_type payload = access_type /\ sub payload = user_id u.

(** The CSRF cookie and header agree. *)
Definition csrf_ok : Prop :=
  exists t, t <> "" /\ cookie e (auth_csrf_cookie_name st) = Some t /\ header e "x-csrf-token" = Some t.

Lemma validate_csrf_Ok w x w' :
  validate_csrf w = (Ok x, w') -> w' = w /\ (In (upper (request_method e)) UNSAFE_METHODS -> csrf_ok).
Proof.
  unfold validate_csrf. destruct (existsb _ _) eqn:Hm; cbn [negb].
  - destruct (cookie e _) as [[|a s]|] eqn:Hc; try done.
    destruct (header e _) as [[|b t]|] eqn:Hh; try done. assert (Hn : String a s <> "") by done.
    revert Hc Hh Hn. generalize (String a s), (String b t). intros x1 x2 Hc Hh Hn H.
    apply bind_Ok in H as (same & w1 & H1 & H).
    unfold compare_digest in H1. destruct (_ && _) in H1; [|done]. injection H1 as <- <-.
    destruct (String.eqb_spec x1 x2) as [He|]; [|done]. injection H as _ <-.
    split; [done|]. intros _. exists x1. rewrite Hc, Hh. split_and!; try done. by rewrite He.
  - intros [= _ <-]. split; [done|]. intros Hin. exfalso.
    assert (existsb (String.eqb (upper (request_method e))) UNSAFE_METHODS = true); [|congruence].
    apply existsb_exists. eexists. split; [exact Hin|]. apply String.eqb_refl.
Qed.

Lemma current_user_Ok w u w' :
  get_current_user w = (Ok u, w') ->
  w' = w /\ is_active u = true /\ u ∈ users (working w) /\ exists payload, token_of u payload.
Proof.
  unfold get_current_user. destruct (cookie e _) as [[|a s]|] eqn:Hc; try done.
  destruct (decode_jwt _ _ _ _ _) as [p|[]] eqn:Hd; try done. unfold bind, get_user_by_id, query.
  destruct (first _ _) as [u0|] eqn:Hu; [|done]. destruct (is_active u0) eqn:Ha; [|by unfold inactive_account_error; destruct (deactivation_reason u0) as [[]|]].
  intros [= <- <-]. apply first_Some in Hu as [Hin Hid]. apply String.eqb_eq in Hid.
  split_and!; try done. exists p, (String a s). split_and!; try done.
  unfold decode_jwt in Hd. destruct (jwt_decode _ _ _ _ _ _ _) as [p'|]; [|done].
  destruct (eqs (token_type p') access_type) eqn:Ht; [|done]. injection Hd as ->. by apply String.eqb_eq in Ht.
Qed.

End Guards.

(** ** Properties *)

(** A protected endpoint runs only for its user: it got the user of a valid,
    unexpired access token, whose account is active and whose e-mail address is
    verified, and for a request that changes state the CSRF header repeats the
    CSRF cookie. *)
Theorem verified_user_guard st L e w u w' :
  get_verified_user st L e w = (Ok u, w') ->
  w' = w /\ u ∈ users (working w) /\ is_active u = true /\ is_verified u = true /\
  (exists payload, token_of st L e u payload) /\
  (In (upper (request_method e)) UNSAFE_METHODS -> csrf_ok st e).
Proof.
  unfold get_verified_user, get_current_active_user. intros H. apply bind_Ok in H as (u1 & w1 & H1 & H).
  apply bind_Ok in H1 as (u2 & w2 & H2 & H1). apply current_user_Ok in H2 as (-> & Ha & Hin & Ht).
  rewrite Ha in H1. injection H1 as <- <-. apply bind_Ok in H as (? & w3 & H3 & H).
  apply validate_csrf_Ok in H3 as [-> Hc]. destruct (is_verified u2) eqn:Hv; [|done].
  injection H as <- <-. by split_and!.
Qed.

(** The session of the example, with its cookies. *)
Definition example_request : env :=
  {| now := 4 * second; supply := example_supply "q"; conflict := fun _ => false; client_host := None;
     header := fun n => if String.eqb n "x-csrf-token" then Some "csrf" else None;
     cookie := fun n => if String.eqb n "at" then Some "access|a|b" else if String.eqb n "ct" then Some "csrf" else None;
     request_method := "post" |}.

Definition example_verified : db := on_users (map (set_is_verified true)) example_d2.

Lemma verified_user_guard_witness :
  exists u w', get_verified_user example_settings example_libs example_request (world_of example_verified) = (Ok u, w') /\
    csrf_ok example_settings example_request.
Proof.
  eexists _, _. split; [vm_compute; reflexivity|].
  edestruct (verified_user_guard example_settings example_libs example_request (world_of example_verified))
    as (_ & _ & _ & _ & _ & H); [vm_compute; reflexivity|]. apply H. left. reflexivity.
Defined.

(** The origin of a refresh: a request that names an origin (or a referer) is
    accepted only when it is one of the configured ones, and one that names
    none only outside production and when no origin is required. *)
Theorem refresh_origin_allowed st e :
  validate_refresh_origin st e = Ok tt ->
  exists candidate, refresh_candidate e = Ok candidate /\
    (In candidate (allowed_origins st) \/
     (candidate = "" /\ production st = false /\ refresh_require_origin st = false)).
Proof.
  unfold validate_refresh_origin. intros H. apply res_bind_Ok in H as (c & Hc & H). exists c. split; [done|].
  destruct (_ && _) eqn:Hd.
  - right. apply andb_true_iff in Hd as [Hd H3]. apply andb_true_iff in Hd as [H1 H2].
    apply negb_true_iff in H1, H2, H3. by destruct c.
  - left. apply raise_if_Ok in H. apply negb_false_iff, existsb_exists in H as (o & Ho & He).
    apply String.eqb_eq in He. by subst.
Qed.

Lemma refresh_origin_allowed_witness :
  validate_refresh_origin example_settings
    {| now := 0; supply := example_supply "q"; conflict := fun _ => false; client_host := None;
       header := fun n => if String.eqb n "referer" then Some "http://localhost:3000/account" else None;
       cookie := fun _ => None; request_method := "POST" |} = Ok tt /\
  exists c, (In c (allowed_origins example_settings) \/ c = "") /\ c = "http://localhost:3000".
Proof.
  split; [vm_compute; reflexivity|].
  edestruct (refresh_origin_allowed example_settings
    {| now := 0; supply := example_supply "q"; conflict := fun _ => false; client_host := None;
       header := fun n => if String.eqb n "referer" then Some "http://localhost:3000/account" else None;
       cookie := fun _ => None; request_method := "POST" |}) as (c & Hc & H); [vm_compute; reflexivity|].
  exists c. split; [destruct H as [H|[H _]]; [by left | by right]|]. vm_compute in Hc. by injection Hc as <-.
Defined.

(** Step-up: a sensitive action that asks for a recent login goes ahead only
    with a valid access token whose login is at most the configured number of
    seconds old. *)
Theorem recent_auth_required st L e :
  require_recent_auth st L e = Ok tt <->
  exists payload t, decode_jwt st L e (match cookie e (auth_access_cookie_name st) with Some t => t | None => "" end)
      access_type = Ok payload /\ auth_time payload = Some t /\
    timestamp (now e) - t <= reauth_max_age_seconds st.
Proof.
  unfold require_recent_auth. destruct (decode_jwt _ _ _ _ _) as [p|x].
  - destruct (auth_time p) as [t|] eqn:Ht; [|split; [done | by intros (? & ? & [= <-] & ? & _); congruence]].
    rewrite raise_if_Ok, Z.ltb_ge. split.
    + intros H. by exists p, t.
    + intros (? & ? & [= <-] & Ht' & H). congruence.
  - split; [done | by intros (? & ? & ? & _)].
Qed.
