(* ===== verification/OAuthFlow.v ===== *)
(** * The OAuth flow: auth/oauth.py

    The signed cookie that carries the state of a flow, the URLs of the
    providers, and the identity read from what they answer.  HTTP with the
    providers is the record [provider_http]; [None] there is any exception of
    the client.  A cookie whose signed payload is not ASCII is outside the
    model (none is ever signed). *)

From S2P Require Import Prelude PyText SemVer Json JsonText Base64 AuthDb AuthService Mfa OAuth Passkey Guards.

Open Scope string_scope.
Open Scope list_scope.
Open Scope Z_scope.

(** The settings only this module reads. *)
Record oauth_settings := {
  oauth_state_secret : string; api_base_url : string; oauth_redirect_base_url : option string;
  github_client_id : option string; github_client_secret : option string;
  google_client_id : option string; google_client_secret : option string
}.

(** [Settings.configured_oauth_providers] *)
Definition configured_oauth_providers (os : oauth_settings) : list string :=
  (if given (github_client_id os) && given (github_client_secret os) then ["github"] else [])
  ++ (if given (google_client_id os) && given (google_client_secret os) then ["google"] else []).

Record OAuthFlowState := {
  flow_state : string; flow_mode : string; flow_redirect_path : string; flow_user_id : option string
}.

(** What the providers answer. *)
Record provider_http := {
  fetch_token : string -> string -> option members;
  fetch_profile : string -> json -> option members;
  fetch_emails : json -> option json
}.

Section Flow.
Context (os : oauth_settings) (st : settings) (L : libs) (e : env).

Definition provider_is_configured (provider : string) : bool :=
  existsb (String.eqb (normalize_provider provider)) (configured_oauth_providers os).

Definition create_oauth_state : W string := generate_token e.

(** ** The flow cookie *)

Definition sign (encoded : string) : string := hmac_sha256_hex L (oauth_state_secret os) encoded.

Definition flow_payload (flow : OAuthFlowState) : json :=
  JObj [("state", JStr (flow_state flow)); ("mode", JStr (flow_mode flow));
        ("redirect_path", JStr (safe_redirect_path (Some (flow_redirect_path flow))));
        ("user_id", match flow_user_id flow with Some uid => JStr uid | None => JNull end);
        ("issued_at", JInt (timestamp (now e)))].

Definition encode_oauth_flow (flow : OAuthFlowState) : string :=
  let encoded := rstrip_char "=" (urlsafe_b64encode (compact (flow_payload flow))) in
  encoded +:+ "." +:+ sign encoded.

(** [isinstance(value, int)]: a Boolean is an integer. *)
Definition as_int (v : option json) : option Z :=
  match v with Some (JInt z) => Some z | Some (JBool b) => Some (bool_int b) | _ => None end.

(** The checks on the fields of the payload. *)
Definition flow_of (payload : members) : option OAuthFlowState :=
  match as_int (jget "issued_at" payload) with
  | None => None
  | Some issued_at =>
      let age := now e - issued_at * second in
      if negb ((0 <=? age) && (age <=? 600 * second)) then None
      else
        match jget "state" payload, jget "mode" payload, jget "redirect_path" payload with
        | Some (JStr state), Some (JStr mode), Some (JStr redirect_path) =>
            if negb (existsb (eqs mode) ["login"; "link"]) then None
            else
              match jget "user_id" payload with
              | None | Some JNull =>
                  if eqs mode "link" then None
                  else Some {| flow_state := state; flow_mode := mode;
                               flow_redirect_path := safe_redirect_path (Some redirect_path); flow_user_id := None |}
              | Some (JStr uid) =>
                  if eqs mode "link" && negb (nonempty uid) then None
                  else Some {| flow_state := state; flow_mode := mode;
                               flow_redirect_path := safe_redirect_path (Some redirect_path);
                               flow_user_id := Some uid |}
              | Some _ => None
              end
        | _, _, _ => None
        end
  end.

(** [ValueError], [TypeError] and [JSONDecodeError] give [None]; a payload that
    is not an object has no [get]. *)
Definition decode_oauth_flow (value : option string) : res http_exn (option OAuthFlowState) :=
  match value with
  | None | Some "" => Ok None
  | Some value =>
      let '(encoded, dot, signature) := rpartition_on "." value in
      if negb dot then Ok None
      else if negb (all_chars is_ascii signature) || negb (eqs signature (sign encoded)) then Ok None
      else
        match urlsafe_b64decode (encoded +:+ b64_padding (String.length encoded)) with
        | None => Ok None
        | Some text =>
            if negb (all_chars is_ascii text) then Ok None
            else
              match loads text with
              | None => Ok None
              | Some (JObj payload) => Ok (flow_of payload)
              | Some _ => Err (InternalError "AttributeError")
              end
        end
  end.

Definition oauth_cookie_name (provider : string) : string := "ocp_hub_oauth_state_" +:+ normalize_provider provider.

(** ** The providers *)

Definition rstrip_url : string -> string := rstrip_char "/".

Definition oauth_redirect_uri (provider : string) : string :=
  let base := match oauth_redirect_base_url os with Some (String _ _ as b) => b | _ => api_base_url os end in
  rstrip_url base +:+ "/api/v1/auth/oauth/" +:+ normalize_provider provider +:+ "/callback".

Definition provider_disabled : http_exn := HTTPException 404 "OAUTH_PROVIDER_DISABLED".

(** [str(None)] in a query is ["None"]. *)
Definition shown (o : option string) : string := default "None" o.

Definition authorization_url (provider state : string) : W string :=
  let provider := normalize_provider provider in
  let redirect_uri := oauth_redirect_uri provider in
  if eqs provider "github" then
    ret ("https://github.com/login/oauth/authorize?" +:+
         urlencode [("client_id", shown (github_client_id os)); ("redirect_uri", redirect_uri);
                    ("scope", "read:user user:email"); ("state", state)])
  else if eqs provider "google" then
    do nonce <- draw e;
    ret ("https://accounts.google.com/o/oauth2/v2/auth?" +:+
         urlencode [("client_id", shown (google_client_id os)); ("redirect_uri", redirect_uri);
                    ("response_type", "code"); ("scope", "openid email profile"); ("state", state); ("nonce", nonce)])
  else raise provider_disabled.

(** ** Identities *)

Section Identities.
Context (email_str : string -> option string).

(** [str(value)]; that of a container is not represented. *)
Definition py_str (v : json) : option string :=
  match v with
  | JStr s => Some s
  | JInt z => Some (render_int z)
  | JNull => Some "None"
  | JBool b => Some (if b then "True" else "False")
  | _ => None
  end.

(** A field [str | None] with a maximal length. *)
Definition text_field (bound : option nat) (v : option json) : option (option string) :=
  match v with
  | None | Some JNull => Some None
  | Some (JStr s) =>
      match bound with
      | Some n => if Nat.leb (String.length s) n then Some (Some s) else None
      | None => Some (Some s)
      end
  | Some _ => None
  end.

Definition email_field (v : option json) : option (option string) :=
  match v with
  | None | Some JNull => Some None
  | Some (JStr s) => match email_str s with Some s => Some (Some s) | None => None end
  | Some _ => None
  end.

(** [OAuthIdentity(...)], validated. *)
Definition identity (provider subject : string) (email : option json) (verified : bool)
    (username display_name avatar_url : option json) : option OAuthIdentity :=
  if Nat.leb 1 (String.length subject) && Nat.leb (String.length subject) 255 then
    match email_field email, text_field (Some 255%nat) username, text_field (Some 180%nat) display_name,
          text_field None avatar_url with
    | Some email, Some username, Some display_name, Some avatar_url =>
        Some {| i_provider := provider; subject := subject; i_email := email; email_verified := verified;
                username := username; i_display_name := display_name; i_avatar_url := avatar_url;
                profile_url := None |}
    | _, _, _, _ => None
    end
  else None.

Definition is_truthy (v : option json) : bool := match v with Some v => truthy v | None => false end.

(** The e-mail address of the first primary, verified entry; [None] when an
    entry is not an object. *)
Fixpoint verified_email (emails : list json) : option (option json) :=
  match emails with
  | [] => Some None
  | JObj item :: emails =>
      if is_truthy (jget "primary" item) && is_truthy (jget "verified" item) then Some (jget "email" item)
      else verified_email emails
  | _ :: _ => None
  end.

(** [profile.get("name") or profile.get("login")] *)
Definition get_or (first second : string) (profile : members) : option json :=
  if is_truthy (jget first profile) then jget first profile else jget second profile.

(** The items of the answer; an empty object or text has none. *)
Definition items (emails : json) : option (list json) :=
  match emails with
  | JArr l => Some l
  | JObj [] | JStr "" => Some []
  | _ => None
  end.

Definition github_identity (profile : members) (emails : json) : option OAuthIdentity :=
  match items emails with
  | Some emails =>
      match verified_email emails, jget "id" profile with
      | Some email, Some id =>
          match py_str id with
          | Some id => identity "github" id email (is_truthy email) (jget "login" profile)
                         (get_or "name" "login" profile) (jget "avatar_url" profile)
          | None => None
          end
      | _, _ => None
      end
  | None => None
  end.

Definition google_identity (profile : members) : option OAuthIdentity :=
  match jget "sub" profile with
  | Some sub =>
      match py_str sub with
      | Some sub =>
          let verified := is_truthy (jget "email_verified" profile) in
          identity "google" sub (if verified then jget "email" profile else None) verified (jget "email" profile)
            (jget "name" profile) (jget "picture" profile)
      | None => None
      end
  | None => None
  end.

(** [exchange_oauth_code]; the callback treats every exception alike. *)
Definition exchange_oauth_code (http : provider_http) (provider code : string) : option OAuthIdentity :=
  let provider := normalize_provider provider in
  if negb (eqs provider "github" || eqs provider "google") then None
  else
    match fetch_token http provider code with
    | None => None
    | Some token =>
        match jget "access_token" token with
        | Some access_token =>
            if negb (truthy access_token) then None
            else
              match fetch_profile http provider access_token with
              | None => None
              | Some profile =>
                  if eqs provider "github" then
                    match fetch_emails http access_token with
                    | Some emails => github_identity profile emails
                    | None => None
                    end
                  else google_identity profile
              end
        | None => None
        end
    end.

End Identities.
End Flow.

(** ** Facts *)

(** A compact value: what the parser reads back, whatever follows. *)
Definition compact_reads (text : string) (v : json) : Prop :=
  forall fuel r, after_value r -> skip_ws (text +:+ r) = text +:+ r /\ parse_value (S fuel) (text +:+ r) = Some (v, r).

Lemma compact_text t fuel r : parse_value (S fuel) (quote_ascii t +:+ r) = Some (JStr t, r).
Proof. rewrite quote_ascii_app. cbn [parse_value drop_char]. by rewrite Ascii.eqb_refl, parse_quoted_ascii. Qed.

Lemma compact_reads_text t : compact_reads (quote_ascii t) (JStr t).
Proof. intros fuel r _. split; [by rewrite quote_ascii_app | apply compact_text]. Qed.

Lemma compact_reads_int z : compact_reads (render_int z) (JInt z).
Proof.
  intros fuel r Hr. split; [exact (skip_ws_render 0 (JInt z) r)|].
  destruct (render_int_head z) as (c & s & H & Hc). assert (Hp := parse_rendered_int z r Hr).
  rewrite H in *. rewrite sapp_cons in *. by rewrite parse_value_int, Hp.
Qed.

(** A member that is not the last one. *)
Lemma compact_member fuel k text v r :
  compact_reads text v ->
  parse_members (S (S fuel)) (quote_ascii k +:+ String ":" (text +:+ String "," (String "034" r))) =
  match parse_members (S fuel) (String "034" r) with Some (l, u) => Some ((k, v) :: l, u) | None => None end.
Proof.
  intros Hv. destruct (Hv fuel (String "," (String "034" r))) as [Hw Hp]; [by left|].
  rewrite quote_ascii_app. remember (S fuel) as f eqn:Hf. cbn [parse_members drop_char].
  rewrite Ascii.eqb_refl, parse_quoted_ascii. change (skip_ws (String ":" ?x)) with (String ":" x).
  cbn [drop_char]. rewrite Ascii.eqb_refl, Hw, Hp.
  change (skip_ws (String "," (String "034" r))) with (String "," (String "034" r)). cbn [drop_char].
  change (Ascii.eqb "," "}") with false. change (Ascii.eqb "," ",") with true. cbv iota.
  change (skip_ws (String "034" r)) with (String "034" r). done.
Qed.

Lemma ascii_only_cons c s : N.ltb (N_of_ascii c) 128 = true -> ascii_only s -> ascii_only (String c s).
Proof. unfold ascii_only. cbn [all_chars]. by intros -> ->. Qed.

Section FlowFacts.
Context (os : oauth_settings) (L : libs).

Lemma sorted_payload {A} (a b c d f : A) :
  sort_by by_name [("state", a); ("mode", b); ("redirect_path", c); ("user_id", d); ("issued_at", f)] =
  [("issued_at", f); ("mode", b); ("redirect_path", c); ("state", a); ("user_id", d)].
Proof. reflexivity. Qed.

Definition user_json (flow : OAuthFlowState) : json :=
  match flow_user_id flow with Some uid => JStr uid | None => JNull end.

Lemma compact_flow e flow :
  compact (flow_payload e flow) =
  "{" +:+ quote_ascii "issued_at" +:+ String ":" (render_int (timestamp (now e)) +:+ String "," (
    quote_ascii "mode" +:+ String ":" (quote_ascii (flow_mode flow) +:+ String "," (
    quote_ascii "redirect_path" +:+ String ":" (quote_ascii (safe_redirect_path (Some (flow_redirect_path flow))) +:+ String "," (
    quote_ascii "state" +:+ String ":" (quote_ascii (flow_state flow) +:+ String "," (
    quote_ascii "user_id" +:+ String ":" (compact (user_json flow) +:+ "}"))))))))).
Proof.
  unfold flow_payload. fold (user_json flow). set (p := safe_redirect_path _). cbn [compact].
  set (n := render_int _). rewrite sorted_payload. cbn [map fst snd].
  rewrite !join_cons. cbn [join_on]. rewrite !sapp_assoc. reflexivity.
Qed.

(** The payload read back. *)
Lemma payload_text e flow :
  json_loads (compact (flow_payload e flow)) =
  Some (JObj [("issued_at", JInt (timestamp (now e))); ("mode", JStr (flow_mode flow));
              ("redirect_path", JStr (safe_redirect_path (Some (flow_redirect_path flow))));
              ("state", JStr (flow_state flow)); ("user_id", user_json flow)]).
Proof.
  rewrite compact_flow. set (p := safe_redirect_path _). unfold json_loads. rewrite sapp_nil_r || idtac.
  match goal with |- context [parse_value _ (skip_ws ("{" +:+ ?t))] => set (text := t) end.
  change (skip_ws ("{" +:+ text)) with ("{" +:+ text).
  rewrite (value_fuel ("{" +:+ text) (JObj [("issued_at", JInt (timestamp (now e))); ("mode", JStr (flow_mode flow));
    ("redirect_path", JStr p); ("state", JStr (flow_state flow)); ("user_id", user_json flow)]) ""); [done| |lia].
  exists 7%nat. cbn [parse_value]. change (drop_char "034" ("{" +:+ text)) with (@None string).
  change (drop_char "{" ("{" +:+ text)) with (Some text). cbv iota.
  assert (Hq : forall k x, skip_ws (quote_ascii k +:+ x) = quote_ascii k +:+ x) by (intros; by rewrite quote_ascii_app).
  assert (Hd : forall k x, drop_char "}" (quote_ascii k +:+ x) = None) by (intros; by rewrite quote_ascii_app).
  unfold text. rewrite Hq, Hd. rewrite !(quote_ascii_app "mode"), !(quote_ascii_app "redirect_path"),
    !(quote_ascii_app "state"), !(quote_ascii_app "user_id").
  rewrite (compact_member 4 "issued_at" _ (JInt (timestamp (now e)))) by apply compact_reads_int.
  rewrite <- (quote_ascii_app "mode"), (compact_member 3 "mode" _ (JStr (flow_mode flow))) by apply compact_reads_text.
  rewrite <- (quote_ascii_app "redirect_path"), (compact_member 2 "redirect_path" _ (JStr p)) by apply compact_reads_text.
  rewrite <- (quote_ascii_app "state"), (compact_member 1 "state" _ (JStr (flow_state flow))) by apply compact_reads_text.
  cbn [parse_members drop_char]. rewrite Ascii.eqb_refl, parse_quoted_ascii.
  change (skip_ws (String ":" ?x)) with (String ":" x). cbn [drop_char]. rewrite Ascii.eqb_refl.
  assert (Hu : skip_ws (compact (user_json flow) +:+ "}") = compact (user_json flow) +:+ "}" /\
    parse_value 1 (compact (user_json flow) +:+ "}") = Some (user_json flow, "}")).
  { unfold user_json. destruct (flow_user_id flow) as [uid|]; [|done]. cbn [compact]. split; [apply Hq | apply compact_text]. }
  destruct Hu as [-> ->]. done.
Qed.

Lemma payload_loads e flow :
  loads (compact (flow_payload e flow)) =
  Some (JObj [("issued_at", JInt (timestamp (now e))); ("mode", JStr (flow_mode flow));
              ("redirect_path", JStr (safe_redirect_path (Some (flow_redirect_path flow))));
              ("state", JStr (flow_state flow)); ("user_id", user_json flow)]).
Proof. apply loads_hook; [apply payload_text|]. unfold user_json. by destruct (flow_user_id flow). Qed.

Lemma compact_flow_ascii e flow : ascii_only (compact (flow_payload e flow)).
Proof.
  rewrite compact_flow. assert (Hu : ascii_only (compact (user_json flow))).
  { unfold user_json. destruct (flow_user_id flow); [apply quote_ascii_only | done]. }
  repeat match goal with
  | |- ascii_only (quote_ascii _) => apply quote_ascii_only
  | |- ascii_only (render_int _) => apply render_int_ascii
  | |- ascii_only (compact _) => exact Hu
  | |- ascii_only (String _ "") => reflexivity
  | |- ascii_only (_ +:+ _) => apply ascii_only_app
  | |- ascii_only (String _ _) => apply ascii_only_cons; [reflexivity|]
  end.
Qed.

(** *** The round trip *)

(** A hexadecimal digest: ASCII, without a dot. *)
Definition plain_digest (s : string) : Prop := all_chars is_ascii s = true /\ free_of "." s.

(** A flow the endpoints start. *)
Definition well_formed (flow : OAuthFlowState) : Prop :=
  match flow_user_id flow with
  | Some uid => flow_mode flow = "login" \/ (flow_mode flow = "link" /\ uid <> "")
  | None => flow_mode flow = "login"
  end.

Lemma flow_of_payload e e' flow :
  well_formed flow -> 0 <= now e' - timestamp (now e) * second <= 600 * second ->
  flow_of e' [("issued_at", JInt (timestamp (now e))); ("mode", JStr (flow_mode flow));
    ("redirect_path", JStr (safe_redirect_path (Some (flow_redirect_path flow))));
    ("state", JStr (flow_state flow)); ("user_id", user_json flow)] =
  Some {| flow_state := flow_state flow; flow_mode := flow_mode flow;
          flow_redirect_path := safe_redirect_path (Some (safe_redirect_path (Some (flow_redirect_path flow))));
          flow_user_id := flow_user_id flow |}.
Proof.
  intros Hw [H0 H1]. unfold flow_of. cbn [jget String.eqb Ascii.eqb Bool.eqb as_int].
  apply Z.leb_le in H0, H1. rewrite H0, H1. cbn [andb negb].
  unfold well_formed, user_json in *. destruct (flow_user_id flow) as [uid|].
  - destruct Hw as [-> | [-> Hu]]; [done|]. by destruct uid.
  - by rewrite Hw.
Qed.

End FlowFacts.

Lemma safe_redirect_idem p : safe_redirect_path (Some (safe_redirect_path p)) = safe_redirect_path p.
Proof.
  destruct p as [[|c s]|]; [done| |done]. unfold safe_redirect_path at 2 3.
  destruct (_ || _) eqn:H; [done|]. unfold safe_redirect_path. rewrite strip_idem, H.
  by destruct (strip (String c s)).
Qed.

(** What a cookie the decoder accepts proves: the part before the last dot is
    signed with the secret of this server, and is the text of an object, not
    older than ten minutes, whose members are the fields of the flow. *)
Record accepted_flow (os : oauth_settings) (L : libs) (e : env) (value : string) (flow : OAuthFlowState) : Prop := {
  acf_payload : exists encoded text payload issued_at redirect_path,
    value = encoded +:+ "." +:+ sign os L encoded /\
    urlsafe_b64decode (encoded +:+ b64_padding (String.length encoded)) = Some text /\
    loads text = Some (JObj payload) /\
    jget "state" payload = Some (JStr (flow_state flow)) /\
    jget "mode" payload = Some (JStr (flow_mode flow)) /\
    jget "redirect_path" payload = Some (JStr redirect_path) /\
    flow_redirect_path flow = safe_redirect_path (Some redirect_path) /\
    match flow_user_id flow with
    | Some uid => jget "user_id" payload = Some (JStr uid)
    | None => jget "user_id" payload = None \/ jget "user_id" payload = Some JNull
    end /\
    as_int (jget "issued_at" payload) = Some issued_at /\ 0 <= now e - issued_at * second <= 600 * second;
  acf_mode : flow_mode flow = "login" \/ flow_mode flow = "link";
  acf_user : flow_mode flow = "link" -> exists uid, flow_user_id flow = Some uid /\ uid <> ""
}.

Lemma rpartition_sep c s x y : rpartition_on c s = (x, true, y) -> s = x +:+ String c y.
Proof.
  revert x y. induction s as [|a s IH]; intros x y; [done|]. cbn [rpartition_on].
  destruct (rpartition_on c s) as [[x' f] y'] eqn:Hr. destruct f.
  - intros [= <- <-]. rewrite (IH x' y' eq_refl) at 1. done.
  - destruct (Ascii.eqb_spec a c) as [->|]; [|done]. by intros [= <- <-].
Qed.

Lemma flow_of_Some e payload flow :
  flow_of e payload = Some flow ->
  (flow_mode flow = "login" \/ flow_mode flow = "link") /\
  (flow_mode flow = "link" -> exists uid, flow_user_id flow = Some uid /\ uid <> "") /\
  exists issued_at redirect_path,
    jget "state" payload = Some (JStr (flow_state flow)) /\
    jget "mode" payload = Some (JStr (flow_mode flow)) /\
    jget "redirect_path" payload = Some (JStr redirect_path) /\
    flow_redirect_path flow = safe_redirect_path (Some redirect_path) /\
    match flow_user_id flow with
    | Some uid => jget "user_id" payload = Some (JStr uid)
    | None => jget "user_id" payload = None \/ jget "user_id" payload = Some JNull
    end /\
    as_int (jget "issued_at" payload) = Some issued_at /\ 0 <= now e - issued_at * second <= 600 * second.
Proof.
  unfold flow_of. destruct (as_int _) as [t|] eqn:Hi; [|done].
  destruct (Z.leb_spec 0 (now e - t * second)); [|done]. destruct (Z.leb_spec (now e - t * second) (600 * second)); [|done].
  cbn [andb negb]. destruct (jget "state" payload) as [[| | |sv| |]|]; try done.
  destruct (jget "mode" payload) as [[| | |mv| |]|]; try done.
  destruct (jget "redirect_path" payload) as [[| | |pv| |]|]; try done.
  destruct (existsb _ _) eqn:Hm; [|done]. cbn [negb]. apply existsb_exists in Hm as (m & Hm & He).
  apply String.eqb_eq in He. subst m.
  assert (Hmode : mv = "login" \/ mv = "link") by (destruct Hm as [<-|[<-|[]]]; auto).
  destruct (jget "user_id" payload) as [[| | |uid| |]|]; try done; destruct Hmode as [-> | ->]; cbn [eqs String.eqb Ascii.eqb Bool.eqb andb];
    try done;
    try (intros [= <-]; split_and!; [by left | done | exists t, pv; split_and!; try done; by (left + right)]).
  destruct uid as [|c u]; [done|]. intros [= <-]. split_and!; [by right | intros _; by exists (String c u) | exists t, pv].
  cbn. by split_and!.
Qed.

Lemma decode_flow_Some os L e value flow :
  decode_oauth_flow os L e (Some value) = Ok (Some flow) -> accepted_flow os L e value flow.
Proof.
  unfold decode_oauth_flow. destruct value as [|c v]; [done|]. set (value := String c v).
  destruct (rpartition_on "." value) as [[encoded dot] signature] eqn:Hr. destruct dot; [|done]. cbn [negb].
  destruct (all_chars is_ascii signature); [|done]. cbn [negb orb].
  destruct (eqs signature (sign os L encoded)) eqn:Hs; [|done]. cbn [negb]. apply String.eqb_eq in Hs.
  destruct (urlsafe_b64decode _) as [text|] eqn:Ht; [|done]. destruct (all_chars is_ascii text); [|done]. cbn [negb].
  destruct (loads text) as [[]|] eqn:Hl; try done. intros [= H]. apply flow_of_Some in H as (H1 & H2 & t & p & H3).
  split; try done. exists encoded, text, l, t, p. split; [by rewrite (rpartition_sep _ _ _ _ Hr), Hs|]. by split; [|split].
Qed.

(** ** Properties *)

(** Round trip of the flow cookie: what [encode_oauth_flow] signed is read
    back by [decode_oauth_flow] for ten minutes, with the same state, mode and
    user and a redirect path that is local; the JSON, Base64 and padding of the
    cookie lose nothing. *)
Theorem oauth_flow_round_trip os L e e' flow :
  (forall text, plain_digest (hmac_sha256_hex L (oauth_state_secret os) text)) ->
  well_formed flow -> 0 <= now e' - timestamp (now e) * second <= 600 * second ->
  decode_oauth_flow os L e' (Some (encode_oauth_flow os L e flow)) =
  Ok (Some {| flow_state := flow_state flow; flow_mode := flow_mode flow;
              flow_redirect_path := safe_redirect_path (Some (flow_redirect_path flow));
              flow_user_id := flow_user_id flow |}).
Proof.
  intros Hdig Hw Ht. unfold encode_oauth_flow. set (text := compact (flow_payload e flow)).
  destruct (b64_unpadded text) as [_ Hd]. set (encoded := rstrip_char "=" (urlsafe_b64encode text)) in *. cbv zeta in Hd.
  destruct (Hdig encoded) as [Ha Hf]. unfold decode_oauth_flow.
  assert (Hr := rpartition_app "." encoded (sign os L encoded) Hf).
  change ("." +:+ sign os L encoded) with (String "." (sign os L encoded)).
  destruct (encoded +:+ String "." (sign os L encoded)) as [|c v] eqn:Hv; [by destruct encoded|].
  rewrite Hr. unfold sign at 1. rewrite Ha. unfold eqs. rewrite String.eqb_refl. cbn [negb orb]. rewrite Hd.
  assert (Hasc : all_chars is_ascii text = true) by exact (compact_flow_ascii e flow). rewrite Hasc. cbn [negb].
  unfold text. rewrite payload_loads, (flow_of_payload e e' flow Hw Ht), safe_redirect_idem. done.
Qed.

Definition example_oauth : oauth_settings :=
  {| oauth_state_secret := "state secret"; api_base_url := "http://localhost:8000"; oauth_redirect_base_url := None;
     github_client_id := Some "id"; github_client_secret := Some "secret"; google_client_id := None;
     google_client_secret := None |}.

(** A digest that is the number of characters. *)
Definition example_flow_libs : libs :=
  {| sha256_hex := sha256_hex example_libs;
     hmac_sha256_hex := fun k s => render_N (N.of_nat (String.length k + String.length s));
     jwt_encode := jwt_encode example_libs; jwt_decode := jwt_decode example_libs; pw_hash := pw_hash example_libs;
     pw_verify := pw_verify example_libs; fernet_encrypt := fernet_encrypt example_libs;
     fernet_decrypt := fernet_decrypt example_libs; totp_at := totp_at example_libs;
     base64url_to_bytes := base64url_to_bytes example_libs; uuid_bytes := uuid_bytes example_libs;
     webauthn_register := webauthn_register example_libs; webauthn_authenticate := webauthn_authenticate example_libs;
     authenticator_transport := authenticator_transport example_libs |}.

Lemma example_digest text : plain_digest (hmac_sha256_hex example_flow_libs "state secret" text).
Proof.
  cbn [hmac_sha256_hex example_flow_libs]. destruct (render_N_spec (N.of_nat (String.length "state secret" + String.length text)))
    as (ds & -> & Hall & _). unfold all_digits in Hall. rewrite all_chars_Forall in Hall.
  split; [rewrite all_chars_Forall|]; (eapply Forall_impl; [exact Hall|]); intros c Hc;
    destruct c as [[] [] [] [] [] [] [] []]; try discriminate Hc; done.
Qed.

Definition example_flow : OAuthFlowState :=
  {| flow_state := "st"; flow_mode := "link"; flow_redirect_path := "/profil?x=a b"; flow_user_id := Some "a" |}.

Lemma oauth_flow_round_trip_witness :
  decode_oauth_flow example_oauth example_flow_libs (example_env 100 "z")
    (Some (encode_oauth_flow example_oauth example_flow_libs (example_env 40 "y") example_flow)) = Ok (Some example_flow).
Proof.
  apply (oauth_flow_round_trip example_oauth example_flow_libs (example_env 40 "y") (example_env 100 "z") example_flow).
  - apply example_digest.
  - right. by split.
  - vm_compute. split; discriminate.
Defined.
