(* ===== verification/RateLimit.v ===== *)
(** * Rate limits: auth/services/rate_limit.py

    The bounded in-memory windows and the check that uses them or Redis.  Time
    is [time.monotonic()] in microseconds.  Redis is a parameter: what the
    script returned, [None] for any exception of the client.  The address of
    the client ([client_ip], on the standard library's ipaddress) is an
    argument of the key. *)

From S2P Require Import Prelude PyText AuthDb.

Open Scope string_scope.
Open Scope list_scope.
Open Scope Z_scope.

Record _MemoryWindow := { count : Z; expires_at : Z }.

(** An [OrderedDict], the least recently used key first. *)
Abbreviation windows := (list (string * _MemoryWindow)).

Definition window_of (key : string) (m : windows) : option _MemoryWindow :=
  option_map snd (first (fun w => eqs (fst w) key) m).

Definition pop_window (key : string) (m : windows) : windows := delete_where (fun w => eqs (fst w) key) m.

(** The keys that have not expired. *)
Definition live_windows (now : Z) (m : windows) : windows :=
  List.filter (fun w => negb (expires_at (snd w) <=? now)) m.

(** [popitem(last=False)] while there are more than [max_keys] *)
Definition trim (max_keys : nat) (m : windows) : windows := skipn (length m - max_keys) m.

(** The count and the seconds to wait, with the new windows. *)
Definition _check_memory (max_keys : nat) (key : string) (window now : Z) (m : windows) : Z * Z * windows :=
  let m := live_windows now m in
  let current := default {| count := 0; expires_at := now + window * second |} (window_of key m) in
  let current := {| count := count current + 1; expires_at := expires_at current |} in
  let m := trim max_keys (pop_window key m ++ [(key, current)]) in
  (count current, Z.max 1 ((expires_at current - now + 999000) / second), m).

Definition rate_limit_key (L : libs) (client_ip scope : string) (discriminator : option string) : string :=
  let identity := match discriminator with
                  | Some (String _ _ as d) => client_ip +:+ ":" +:+ lower (strip d)
                  | _ => client_ip
                  end in
  scope +:+ ":" +:+ sha256_hex L identity.

Record limiter := {
  auth_rate_limit_attempts : Z; auth_rate_limit_window_seconds : Z; redis_backend : bool;
  rate_limit_fail_closed : bool; limiter_production : bool; rate_limit_memory_max_keys : nat
}.

(** The [Retry-After] header comes with the error. *)
Definition _rate_limit_error (code : string) (retry_after : Z) : http_exn * Z :=
  (HTTPException 429 code, Z.max 1 retry_after).

Section Check.
Context (s : limiter) (redis : string -> Z -> option (Z * Z)).

Definition _check_redis (key : string) (window : Z) : option (Z * Z) :=
  match redis key window with
  | Some (n, ttl) => Some (n, Z.max 1 ttl)
  | None => None
  end.

Definition unavailable : http_exn * Z := (HTTPException 503 "RATE_LIMIT_UNAVAILABLE", 5).

(** What counted the attempt: the result and the windows. *)
Definition counted (key : string) (window now : Z) (m : windows) : res (http_exn * Z) (Z * Z) * windows :=
  let memory := let '(n, retry, m) := _check_memory (rate_limit_memory_max_keys s) key window now m in (Ok (n, retry), m) in
  if redis_backend s then
    match _check_redis key window with
    | Some r => (Ok r, m)
    | None => if rate_limit_fail_closed s || limiter_production s then (Err unavailable, m) else memory
    end
  else memory.

Definition check_rate_limit (key : string) (attempts window_seconds : option Z) (scope : option string)
    (code : string) (now : Z) (m : windows) : res (http_exn * Z) unit * windows :=
  let limit := default (auth_rate_limit_attempts s) attempts in
  let window := default (auth_rate_limit_window_seconds s) window_seconds in
  let scoped_key := match scope with
                    | Some (String _ _ as scope) => scope +:+ ":" +:+ key
                    | _ => key
                    end in
  let '(r, m) := counted scoped_key window now m in
  (let? (n, retry_after) := r in raise_if (limit <? n) (_rate_limit_error code retry_after), m).

End Check.

(** [reset_memory_rate_limits()] *)
Definition reset_memory_rate_limits : windows := [].

(** ** Facts *)

(** The specification: a window per key, counting from its first attempt. *)
Definition hit (window now : Z) (w : option _MemoryWindow) : _MemoryWindow :=
  match w with
  | Some w => if expires_at w <=? now then {| count := 1; expires_at := now + window * second |}
              else {| count := count w + 1; expires_at := expires_at w |}
  | None => {| count := 1; expires_at := now + window * second |}
  end.

Definition keys (m : windows) : list string := map fst m.

Lemma first_filter {A} (p q : A -> bool) l :
  NoDup l -> (forall x y, x ∈ l -> y ∈ l -> p x = true -> p y = true -> x = y) ->
  first p (List.filter q l) = match first p l with Some x => if q x then Some x else None | None => None end.
Proof.
  unfold first. induction l as [|x l IH]; intros Hnd Hu; [done|]. inversion Hnd as [|?? Hni Hnd']; subst.
  assert (IH' := IH Hnd' (fun a b Ha Hb => Hu a b (list_elem_of_further _ _ _ Ha) (list_elem_of_further _ _ _ Hb))).
  simpl. destruct (q x) eqn:Hq; simpl; destruct (p x) eqn:Hp; rewrite ?Hq; try done.
  rewrite IH'. destruct (List.find p l) as [y|] eqn:Hf; [|done].
  apply first_Some in Hf as [Hy Hpy]. exfalso. apply Hni.
  rewrite (Hu x y); [done | constructor | by constructor | done | done].
Qed.

Lemma window_of_live key now m :
  NoDup (keys m) ->
  window_of key (live_windows now m) =
    match window_of key m with Some w => if expires_at w <=? now then None else Some w | None => None end.
Proof.
  intros Hnd. unfold window_of, live_windows. rewrite first_filter.
  - destruct (first _ m) as [[k w]|]; [|done]. simpl. by destruct (expires_at w <=? now).
  - by apply (NoDup_fmap_1 fst).
  - intros x y Hx Hy Hpx Hpy. apply String.eqb_eq in Hpx, Hpy.
    eapply (NoDup_map_inj fst); try done. congruence.
Qed.

Lemma keys_live now m : NoDup (keys m) -> NoDup (keys (live_windows now m)).
Proof. apply NoDup_map_filter. Qed.

Lemma pop_app_keys key w m : NoDup (keys m) -> NoDup (keys (pop_window key m ++ [(key, w)])).
Proof.
  intros Hnd. apply NoDup_map_snoc; [by apply NoDup_map_filter|]. intros Hin.
  apply list_elem_of_fmap in Hin as (x & Hx & Hin). apply elem_of_delete_where in Hin as [_ Hin].
  apply String.eqb_neq in Hin. simpl in Hx. congruence.
Qed.

Lemma trim_length n m : (length (trim n m) <= n)%nat.
Proof. unfold trim. rewrite length_skipn. lia. Qed.

Lemma trim_all n m : (length m <= n)%nat -> trim n m = m.
Proof. intros H. unfold trim. by replace (length m - n)%nat with O by lia. Qed.

Lemma trim_keys n m : NoDup (keys m) -> NoDup (keys (trim n m)).
Proof.
  unfold trim, keys. intros H. rewrite <- (firstn_skipn (length m - n) m), map_app in H.
  by apply NoDup_app in H as (_ & _ & H).
Qed.

(** Without eviction other keys keep their live windows, and the key has the
    window of the specification. *)
Lemma check_memory_spec max_keys key window now m n retry m' :
  NoDup (keys m) -> (length m < max_keys)%nat ->
  _check_memory max_keys key window now m = (n, retry, m') ->
  NoDup (keys m') /\ (length m' <= S (length m))%nat /\
  window_of key m' = Some (hit window now (window_of key m)) /\ n = count (hit window now (window_of key m)) /\
  forall k, k <> key -> window_of k m' =
    match window_of k m with Some w => if expires_at w <=? now then None else Some w | None => None end.
Proof.
  intros Hnd Hlen. unfold _check_memory. set (current := {| count := _; expires_at := _ |}).
  assert (Hl : (length (pop_window key (live_windows now m)) <= length m)%nat).
  { etransitivity; apply List.filter_length_le. }
  rewrite trim_all by (rewrite length_app; simpl; lia). intros [= <- _ <-].
  assert (Hcur : current = hit window now (window_of key m)).
  { unfold current. rewrite window_of_live by done. destruct (window_of key m) as [w|]; [|done]. simpl.
    by destruct (expires_at w <=? now). }
  split_and!.
  - by apply pop_app_keys, keys_live.
  - rewrite length_app. simpl. lia.
  - unfold window_of. rewrite first_app.
    destruct (first _ (pop_window _ _)) as [x|] eqn:Hf.
    + apply first_Some in Hf as [Hx Hk]. apply elem_of_delete_where in Hx as [_ Hx]. congruence.
    + simpl. unfold eqs. rewrite String.eqb_refl. simpl. by rewrite Hcur.
  - by rewrite <- Hcur.
  - intros k Hk. rewrite <- window_of_live by done. unfold window_of. rewrite first_app.
    unfold pop_window, delete_where. rewrite first_filter.
    + assert (Hlast : first (fun w => eqs (fst w) k) [(key, current)] = None).
      { simpl. unfold eqs. destruct (String.eqb_spec key k); [congruence | done]. }
      destruct (first _ (live_windows now m)) as [x|] eqn:Hf; [|by rewrite Hlast].
      apply first_Some in Hf as [_ Hx]. apply String.eqb_eq in Hx.
      unfold eqs at 1. destruct (String.eqb_spec (fst x) key); [congruence | done].
    + apply (NoDup_fmap_1 fst). by apply keys_live.
    + intros x y Hx Hy Hpx Hpy. apply String.eqb_eq in Hpx, Hpy.
      eapply (NoDup_map_inj fst (live_windows now m)); try done; [by apply keys_live | congruence].
Qed.

(** ** Attempts in a row, with the memory backend *)

(** The arguments of one call of [check_rate_limit], and its time. *)
Record attempt := {
  at_key : string; at_attempts : option Z; at_window : option Z; at_scope : option string; at_code : string; at_now : Z
}.

Definition scoped_key (a : attempt) : string :=
  match at_scope a with Some (String _ _ as scope) => scope +:+ ":" +:+ at_key a | _ => at_key a end.

Section Attempts.
Context (s : limiter) (redis : string -> Z -> option (Z * Z)).

Definition limit_of (a : attempt) : Z := default (auth_rate_limit_attempts s) (at_attempts a).
Definition seconds_of (a : attempt) : Z := default (auth_rate_limit_window_seconds s) (at_window a).

Definition try_attempt (a : attempt) (m : windows) : res (http_exn * Z) unit * windows :=
  check_rate_limit s redis (at_key a) (at_attempts a) (at_window a) (at_scope a) (at_code a) (at_now a) m.

(** Each attempt with whether [check_rate_limit] returned, and the windows after them. *)
Fixpoint try_all (l : list attempt) (m : windows) : list (attempt * bool) * windows :=
  match l with
  | [] => ([], m)
  | a :: l => let '(r, m) := try_attempt a m in let '(rs, m) := try_all l m in ((a, is_ok r) :: rs, m)
  end.

(** The attempts of a key, and those let through. *)
Definition attempts_at (key : string) (l : list attempt) : nat := length (List.filter (fun a => eqs (scoped_key a) key) l).
Definition let_through (key : string) (l : list attempt) (m : windows) : nat :=
  length (List.filter (fun r => eqs (scoped_key (fst r)) key && snd r) (fst (try_all l m))).

Context (memory : redis_backend s = false).

Lemma try_attempt_eq a m :
  try_attempt a m =
  let '(n, retry, m') := _check_memory (rate_limit_memory_max_keys s) (scoped_key a) (seconds_of a) (at_now a) m in
  (raise_if (limit_of a <? n) (_rate_limit_error (at_code a) retry), m').
Proof.
  unfold try_attempt, check_rate_limit, counted. rewrite memory. unfold scoped_key, seconds_of, limit_of.
  by destruct (_check_memory _ _ _ _ m) as [[n retry] m'].
Qed.

End Attempts.

(** C31. With the memory backend a key gets exactly its limit inside a window.
    From a state in which a key has used some attempts of a window, whatever
    attempts of other keys come between and as long as no key is evicted,
    [check_rate_limit] lets exactly the next attempts of the key through, up to
    what is left of the limit, and refuses all further ones until the window
    ends. *)
Theorem rate_limit_window s redis key limit l m w :
  redis_backend s = false -> NoDup (keys m) -> (length m + length l <= rate_limit_memory_max_keys s)%nat ->
  window_of key m = Some w ->
  Forall (fun a => at_now a < expires_at w /\ (scoped_key a = key -> limit_of s a = limit)) l ->
  Z.of_nat (let_through s redis key l m) = Z.min (Z.of_nat (attempts_at key l)) (Z.max 0 (limit - count w)).
Proof.
  intros Hb. revert m w. induction l as [|a l IH]; intros m w Hnd Hlen Hw Ht; [unfold let_through, attempts_at; simpl; lia|].
  inversion Ht as [|?? [Hnow Hlim] Ht']; subst. simpl in Hlen. unfold let_through. cbn [try_all]. rewrite try_attempt_eq by done.
  destruct (_check_memory _ _ _ _ m) as [[n retry] m'] eqn:Hc.
  apply check_memory_spec in Hc as (Hnd' & Hlen' & Hkey & Hn & Hother); [|done|lia].
  assert (Hlive : (expires_at w <=? at_now a) = false) by (apply Z.leb_gt; lia).
  specialize (IH m'). unfold let_through in IH. destruct (try_all s redis l m') as [rs m2]. cbn [fst] in *. cbn [List.filter fst snd].
  unfold attempts_at in *. cbn [List.filter]. destruct (eqs (scoped_key a) key) eqn:Hk; [apply String.eqb_eq in Hk | apply String.eqb_neq in Hk].
  - rewrite Hk, Hw in Hn, Hkey. unfold hit in Hn, Hkey. rewrite Hlive in Hn, Hkey. simpl in Hn.
    specialize (IH _ Hnd' ltac:(lia) Hkey Ht'). simpl in IH. rewrite (Hlim Hk).
    destruct (Z.ltb_spec limit n); cbn [raise_if is_ok andb length]; lia.
  - assert (Hw' : window_of key m' = Some w) by (rewrite Hother by done; by rewrite Hw, Hlive).
    specialize (IH w Hnd' ltac:(lia) Hw' Ht'). exact IH.
Qed.

Definition example_limiter : limiter :=
  {| auth_rate_limit_attempts := 8; auth_rate_limit_window_seconds := 300; redis_backend := false;
     rate_limit_fail_closed := false; limiter_production := false; rate_limit_memory_max_keys := 100 |}.

Definition example_attempt (key : string) (now : Z) : attempt :=
  {| at_key := key; at_attempts := None; at_window := None; at_scope := Some "login"; at_code := "RATE_LIMITED"; at_now := now |}.

Definition example_attempts : list attempt :=
  [example_attempt "a" 1; example_attempt "b" 2; example_attempt "a" 3; example_attempt "a" 4; example_attempt "a" 5].

Lemma rate_limit_window_witness :
  map snd (fst (try_all example_limiter (fun _ _ => None) example_attempts [("login:a", {| count := 6; expires_at := 100 |})]))
    = [true; true; true; false; false] /\
  Z.of_nat (let_through example_limiter (fun _ _ => None) "login:a" example_attempts [("login:a", {| count := 6; expires_at := 100 |})]) = 2.
Proof.
  split; [vm_compute; reflexivity|].
  apply (rate_limit_window example_limiter (fun _ _ => None) "login:a" 8 example_attempts
    [("login:a", {| count := 6; expires_at := 100 |})] {| count := 6; expires_at := 100 |}).
  - reflexivity.
  - apply NoDup_singleton.
  - simpl. lia.
  - reflexivity.
  - repeat (constructor; [split; reflexivity|]). constructor.
Defined.

(** The windows stay bounded: after every check there are at most the
    configured number of keys, each once, and the key just counted is among
    them. *)
Theorem rate_limit_memory_bounded max_keys key window now m :
  NoDup (keys m) -> (1 <= max_keys)%nat ->
  let '(n, retry, m') := _check_memory max_keys key window now m in
  (length m' <= max_keys)%nat /\ NoDup (keys m') /\ 1 <= retry /\
  exists w, window_of key m' = Some w /\ count w = n.
Proof.
  intros Hnd Hmax. unfold _check_memory. set (current := {| count := _; expires_at := _ |}).
  assert (Hnd' := pop_app_keys key current _ (keys_live now m Hnd)).
  split_and!; [apply trim_length | by apply trim_keys | lia |].
  exists current. split; [|done]. set (p := pop_window key (live_windows now m)) in *.
  assert (Hin : (key, current) ∈ trim max_keys (p ++ [(key, current)])).
  { unfold trim. rewrite skipn_app. apply elem_of_app. right. rewrite length_app. simpl.
    replace (length p + 1 - max_keys - length p)%nat with O by lia. simpl. by constructor. }
  unfold window_of. destruct (first _ _) as [x|] eqn:Hf.
  - apply first_Some in Hf as [Hx Hk]. apply String.eqb_eq in Hk. simpl. f_equal.
    assert (x = (key, current)) as ->; [|done].
    eapply (NoDup_map_inj fst); [by apply trim_keys | exact Hx | exact Hin | done].
  - rewrite list_elem_of_In in Hin. apply List.find_none with (x := (key, current)) in Hf; [|done].
    simpl in Hf. unfold eqs in Hf. by rewrite String.eqb_refl in Hf.
Qed.

Lemma rate_limit_memory_bounded_witness :
  let m := [("a", {| count := 6; expires_at := 100 |}); ("b", {| count := 1; expires_at := 100 |})] in
  snd (_check_memory 2 "c" 300 50 m) = [("b", {| count := 1; expires_at := 100 |}); ("c", {| count := 1; expires_at := 300000050 |})] /\
  let '(_, _, m') := _check_memory 2 "c" 300 50 m in (length m' <= 2)%nat.
Proof.
  split; [vm_compute; reflexivity|].
  apply (rate_limit_memory_bounded 2 "c" 300 50
    [("a", {| count := 6; expires_at := 100 |}); ("b", {| count := 1; expires_at := 100 |})]).
  - apply (bool_decide_unpack (NoDup ["a"; "b"])). by vm_compute.
  - lia.
Defined.

(** The limiter fails closed: in production, or when configured so, an
    attempt is let through only if Redis counted it within the limit; every
    failure of Redis refuses it with status 503. *)
Theorem rate_limit_fails_closed s redis key attempts window_seconds scope code now m x m' :
  redis_backend s = true -> rate_limit_fail_closed s || limiter_production s = true ->
  check_rate_limit s redis key attempts window_seconds scope code now m = (x, m') ->
  m' = m /\
  match redis (match scope with Some (String _ _ as scope) => scope +:+ ":" +:+ key | _ => key end)
          (default (auth_rate_limit_window_seconds s) window_seconds) with
  | Some (n, ttl) =>
      (x = Ok tt <-> n <= default (auth_rate_limit_attempts s) attempts) /\
      (forall err retry, x = Err (err, retry) -> err = HTTPException 429 code /\ 1 <= retry)
  | None => x = Err unavailable
  end.
Proof.
  intros Hb Hf. unfold check_rate_limit, counted, _check_redis. rewrite Hb, Hf.
  destruct (redis _ _) as [[n ttl]|]; intros [= <- <-]; [|done]. split; [done|]. simpl. split.
  - rewrite raise_if_Ok, Z.ltb_ge. done.
  - intros err retry H. apply raise_if_Err in H as [_ H]. injection H as <- <-. split; [done | lia].
Qed.

Lemma rate_limit_fails_closed_witness :
  let s := {| auth_rate_limit_attempts := 8; auth_rate_limit_window_seconds := 300; redis_backend := true;
              rate_limit_fail_closed := false; limiter_production := true; rate_limit_memory_max_keys := 100 |} in
  check_rate_limit s (fun _ _ => None) "login" None None None "RATE_LIMITED" 0 [] = (Err unavailable, []).
Proof.
  intros s. destruct (check_rate_limit s (fun _ _ => None) "login" None None None "RATE_LIMITED" 0 []) as [x m'] eqn:H.
  destruct (rate_limit_fails_closed s (fun _ _ => None) "login" None None None "RATE_LIMITED" 0 [] x m') as [-> ->];
    [reflexivity | reflexivity | exact H | reflexivity].
Defined.

(** Every window of the key ends by a time. *)
Definition ends_by (key : string) (t : Z) (m : windows) : Prop :=
  Forall (fun w => fst w = key -> expires_at (snd w) <= t) m.

Lemma ends_by_trim key t n m : ends_by key t m -> ends_by key t (trim n m).
Proof. apply Forall_drop. Qed.

Lemma ends_by_filter key t p m : ends_by key t m -> ends_by key t (List.filter p m).
Proof.
  unfold ends_by. rewrite !Forall_forall. intros H x Hx. apply H. rewrite list_elem_of_In in *. by apply filter_In in Hx as [? _].
Qed.

Lemma ends_by_other key t max_keys k window now m :
  k <> key -> ends_by key t m -> ends_by key t (snd (_check_memory max_keys k window now m)).
Proof.
  intros Hk Hm. unfold _check_memory. simpl. apply ends_by_trim, Forall_app. split; [by do 2 apply ends_by_filter|].
  by apply Forall_singleton.
Qed.

Lemma retry_covers now t : t <= now + Z.max 1 ((t - now + 999000) / second) * second + 1000.
Proof.
  assert (Hd := Z.div_mod (t - now + 999000) second ltac:(done)).
  assert (Hm := Z.mod_pos_bound (t - now + 999000) second ltac:(done)). unfold second in *. lia.
Qed.

(** The window just counted ends within the seconds told, up to a millisecond. *)
Lemma ends_by_retry max_keys key window now m n retry m' :
  _check_memory max_keys key window now m = (n, retry, m') -> ends_by key (now + retry * second + 1000) m'.
Proof.
  unfold _check_memory. set (current := {| count := _; expires_at := _ |}). intros [= _ <- <-].
  apply ends_by_trim, Forall_app. split.
  - apply Forall_forall. intros x Hx Hk. apply elem_of_delete_where in Hx as [_ Hx].
    apply String.eqb_neq in Hx. congruence.
  - apply Forall_singleton. intros _. apply retry_covers.
Qed.

Lemma ends_by_fresh max_keys key window t m :
  ends_by key t m -> fst (fst (_check_memory max_keys key window t m)) = 1.
Proof.
  intros H. unfold _check_memory. simpl. replace (window_of key (live_windows t m)) with (@None _MemoryWindow); [done|].
  unfold window_of. destruct (first _ _) as [x|] eqn:Hf; [|done]. exfalso. apply first_Some in Hf as [Hx Hk].
  apply String.eqb_eq in Hk. unfold live_windows in Hx. rewrite list_elem_of_In in Hx. apply filter_In in Hx as [Hx Hl].
  apply negb_true_iff, Z.leb_gt in Hl. unfold ends_by in H. rewrite Forall_forall in H. rewrite <- list_elem_of_In in Hx.
  specialize (H x Hx Hk). lia.
Qed.

(** C39. With the memory backend a refusal is never permanent: where the limit
    allows at least one attempt, whoever waits the seconds of [Retry-After] (and
    a millisecond, which the rounding of the code can cut off) is let through
    again, whatever attempts other keys made meanwhile.  (With Redis the server
    keeps the windows; nothing is claimed of it here.) *)
Theorem rate_limit_recovers s redis a t x retry m m' others :
  redis_backend s = false -> 1 <= limit_of s a ->
  try_attempt s redis a m = (Err (x, retry), m') ->
  Forall (fun o => scoped_key o <> scoped_key a) others -> at_now a + retry * second + 1000 <= t ->
  fst (try_attempt s redis {| at_key := at_key a; at_attempts := at_attempts a; at_window := at_window a;
                              at_scope := at_scope a; at_code := at_code a; at_now := t |}
         (snd (try_all s redis others m'))) = Ok tt.
Proof.
  intros Hb Hl H He Ht. rewrite try_attempt_eq in H by done. rewrite try_attempt_eq by done. cbn [at_now at_code].
  destruct (_check_memory _ (scoped_key a) _ (at_now a) m) as [[n r] m1] eqn:Hc. injection H as Hr <-.
  apply raise_if_Err in Hr as [_ Hr]. injection Hr as _ <-. apply ends_by_retry in Hc.
  assert (Hw : ends_by (scoped_key a) t (snd (try_all s redis others m1))).
  { assert (Hm1 : ends_by (scoped_key a) t m1).
    { unfold ends_by in *. eapply Forall_impl; [exact Hc|]. intros y Hy Hk. specialize (Hy Hk). unfold second in *. lia. }
    clear Hc. revert m1 Hm1. induction He as [|o others Hk He IH]; intros m1 Hm1; [done|].
    cbn [try_all]. rewrite try_attempt_eq by done.
    assert (H := ends_by_other _ t (rate_limit_memory_max_keys s) (scoped_key o) (seconds_of s o) (at_now o) m1 Hk Hm1).
    destruct (_check_memory _ (scoped_key o) _ _ m1) as [[n' r'] m2]. specialize (IH m2 H). by destruct (try_all s redis others m2). }
  change (scoped_key {| at_key := at_key a; at_attempts := at_attempts a; at_window := at_window a;
                        at_scope := at_scope a; at_code := at_code a; at_now := t |}) with (scoped_key a).
  apply (ends_by_fresh (rate_limit_memory_max_keys s) (scoped_key a) (seconds_of s a)) in Hw. unfold seconds_of, limit_of in *. cbn [at_window at_attempts].
  destruct (_check_memory _ (scoped_key a) _ t _) as [[n' r'] m2]. cbn [fst] in *. subst. by rewrite (proj2 (Z.ltb_ge _ _) Hl).
Qed.

Lemma rate_limit_recovers_witness :
  fst (try_attempt example_limiter (fun _ _ => None) (example_attempt "a" (40 * second)) [("login:a", {| count := 8; expires_at := 100 * second |})]) =
    Err (HTTPException 429 "RATE_LIMITED", 60) /\
  fst (try_attempt example_limiter (fun _ _ => None) (example_attempt "a" (100 * second + 1000))
         (snd (try_all example_limiter (fun _ _ => None) [example_attempt "b" (50 * second)]
            [("login:a", {| count := 9; expires_at := 100 * second |})]))) = Ok tt.
Proof.
  split; [vm_compute; reflexivity|].
  apply (rate_limit_recovers example_limiter (fun _ _ => None) (example_attempt "a" (40 * second)) (100 * second + 1000)
    (HTTPException 429 "RATE_LIMITED") 60 [("login:a", {| count := 8; expires_at := 100 * second |})] [("login:a", {| count := 9; expires_at := 100 * second |})]
    [example_attempt "b" (50 * second)]).
  - reflexivity.
  - vm_compute. discriminate.
  - vm_compute. reflexivity.
  - by apply Forall_singleton.
  - vm_compute. discriminate.
Defined.
