(* ===== verification/StoreProtocol.v ===== *)
(** * The store protocol: class ArtifactStore of scripts/artifact_store.py

    The interface through which the promotion service uses an artifact store,
    with the promises it relies on, the file-system store as an instance, and an
    abstract store that every instance refines. *)

From S2P Require Import Prelude PyText SemVer Json Url Validate ArtifactStore.

Open Scope string_scope.
Open Scope list_scope.

Class StoreOps (S : Type) := {
  store_publish : string -> string -> path_ -> string -> S -> res os_exn Publication * S;
  store_verify : string -> string -> string -> S -> res os_exn StoredArtifact * S;
  store_exists : string -> string -> S -> res os_exn bool * S;
  store_public_url : string -> string -> S -> res os_exn string * S
}.

(** [holds s m v dg]: bytes with the digest are stored for the version. *)
Class StoreSpec (S : Type) `{StoreOps S} := {
  holds : S -> string -> string -> string -> Prop;
  publish_keeps : forall s m v src dg r s' m' v' dg',
    store_publish m v src dg s = (r, s') -> holds s m' v' dg' -> holds s' m' v' dg';
  verify_keeps : forall s m v dg r s' m' v' dg',
    store_verify m v dg s = (r, s') -> holds s m' v' dg' -> holds s' m' v' dg';
  verify_holds : forall s m v dg a s', store_verify m v dg s = (Ok a, s') -> digest a = dg /\ holds s' m v dg;
  verify_at_canonical_url : forall s m v dg a s', store_verify m v dg s = (Ok a, s') ->
    canonical_public_artifact_url m v = Ok (public_url_ a);
  exists_keeps : forall s m v r s' m' v' dg',
    store_exists m v s = (r, s') -> holds s m' v' dg' -> holds s' m' v' dg';
  public_url_keeps : forall s m v r s' m' v' dg',
    store_public_url m v s = (r, s') -> holds s m' v' dg' -> holds s' m' v' dg';
  public_url_of_version : forall s m v u s', store_public_url m v s = (Ok u, s') -> canonical_public_artifact_url m v = Ok u;
  publish_holds : forall s m v src dg p s', store_publish m v src dg s = (Ok p, s') -> holds s' m v dg;
  holds_functional : forall s m v dg dg', holds s m v dg -> holds s m v dg' -> dg = dg'
}.

(** *** The file-system store *)

Section FilesystemStore.
Context (sha256 : string -> string) (euid : N) (env : nat -> inodes -> inodes * bool).
Context (root cwd : list string) (uuid : string).

#[export] Instance filesystem_ops : StoreOps sys := {
  store_publish m v src dg := ArtifactStore.publish sha256 euid env root cwd uuid m v src dg;
  store_verify m v dg := ArtifactStore.verify sha256 euid env root m v dg;
  store_exists m v := ArtifactStore.exists_ euid env root m v;
  store_public_url m v := ArtifactStore.public_url m v
}.

(** The bytes of a version, on disk. *)
Definition file_holds (s : sys) (m v dg : string) : Prop :=
  exists relative c, relative_of m v relative /\ stored (files s) root relative c /\ sha256 c = dg.

Hypothesis env_keeps : forall n f, keeps f (fst (env n f)).
Hypothesis root_public : public root.
Hypothesis uuid_free : free_of "." uuid.

Lemma file_holds_keeps s s' m v dg : keeps (files s) (files s') -> file_holds s m v dg -> file_holds s' m v dg.
Proof.
  intros Hk (rel & c & Hrel & Hst & Hc). exists rel, c. split_and!; try done.
  destruct (relative_public _ _ _ root Hrel root_public). by eapply stored_keeps.
Qed.

Definition filesystem_spec : StoreSpec sys.
Proof.
  refine {| holds := file_holds |}.
  - intros s m v src dg r s' m' v' dg' H. apply file_holds_keeps.
    eapply (steady_eq (ArtifactStore.publish sha256 euid env root cwd uuid m v src dg)); [|exact H].
    apply steady_publish; [exact env_keeps|]. apply (private_name uuid "partial"); auto.
  - intros s m v dg r s' m' v' dg' H. apply file_holds_keeps.
    eapply (steady_eq (ArtifactStore.verify sha256 euid env root m v dg)); [|exact H]. by apply steady_verify.
  - intros s m v dg a s' H. eapply verify_stored in H as (Hd & rel & c & Hrel & _ & Hst & Hc); [|done|done].
    split; [done|]. by exists rel, c.
  - intros s m v dg a s' H. exact (verify_url _ _ _ _ _ _ _ _ _ _ H).
  - intros s m v r s' m' v' dg' H. apply file_holds_keeps.
    eapply (steady_eq (ArtifactStore.exists_ euid env root m v)); [|exact H]. by apply steady_exists.
  - intros s m v r s' m' v' dg' H. by rewrite (public_url_state _ _ _ _ _ H).
  - intros s m v u s' H. by apply public_url_says in H.
  - intros s m v src dg p s' H. eapply publish_stored in H as (_ & rel & c & Hrel & _ & Hst & Hc); [|done..].
    by exists rel, c.
  - intros s m v dg dg' (rel & c & Hrel & Hst & <-) (rel' & c' & Hrel' & Hst' & <-). f_equal.
    rewrite (relative_unique _ _ _ _ Hrel' Hrel) in Hst'. by eapply stored_functional.
Defined.

End FilesystemStore.

(** ** The abstract store

    What clients see of a store: the digest acknowledged for each version.  An
    operation is acknowledged only with the digest the version has, and binds
    it; every other outcome is a stuttering step. *)

Inductive store_op :=
| OpPublish (module_id version : string) (source : path_) (digest : string)
| OpVerify (module_id version digest : string).

Definition target (op : store_op) : string * string * string :=
  match op with OpPublish m v _ dg | OpVerify m v dg => (m, v, dg) end.

Abbreviation acknowledged := (gmap (string * string) string).

Inductive spec_step (A : acknowledged) (op : store_op) : bool -> acknowledged -> Prop :=
| spec_ack m v dg :
    target op = (m, v, dg) -> (forall dg', A !! (m, v) = Some dg' -> dg' = dg) ->
    spec_step A op true (<[(m, v) := dg]> A)
| spec_refuse : spec_step A op false A.

(** A run of the specification, with the outcome of each operation. *)
Inductive spec_run : acknowledged -> list store_op -> list bool -> acknowledged -> Prop :=
| spec_nil A : spec_run A [] [] A
| spec_cons A op ok A1 ops oks A2 :
    spec_step A op ok A1 -> spec_run A1 ops oks A2 -> spec_run A (op :: ops) (ok :: oks) A2.

Section Implementation.
Context {S : Type} `{!StoreOps S}.

Definition run_op (op : store_op) (s : S) : bool * S :=
  match op with
  | OpPublish m v src dg => let '(r, s) := store_publish m v src dg s in (is_ok r, s)
  | OpVerify m v dg => let '(r, s) := store_verify m v dg s in (is_ok r, s)
  end.

Fixpoint run_ops (ops : list store_op) (s : S) : list bool * S :=
  match ops with
  | [] => ([], s)
  | op :: ops => let '(ok, s) := run_op op s in let '(oks, s) := run_ops ops s in (ok :: oks, s)
  end.

Context `{!StoreSpec S}.

(** What was acknowledged is there. *)
Definition refines (A : acknowledged) (s : S) : Prop :=
  forall m v dg, A !! (m, v) = Some dg -> holds s m v dg.

Lemma run_op_spec op s ok s' :
  run_op op s = (ok, s') ->
  (forall m v dg, holds s m v dg -> holds s' m v dg) /\
  (ok = true -> let '(m, v, dg) := target op in holds s' m v dg).
Proof.
  destruct op as [m v src dg|m v dg]; simpl.
  - destruct (store_publish m v src dg s) as [r s1] eqn:H. intros [= <- <-]. split.
    + intros m' v' dg'. by eapply publish_keeps.
    + intros Hr. destruct r; [|done]. by eapply publish_holds.
  - destruct (store_verify m v dg s) as [r s1] eqn:H. intros [= <- <-]. split.
    + intros m' v' dg'. by eapply verify_keeps.
    + intros Hr. destruct r; [|done]. by apply verify_holds in H as [_ H].
Qed.

(** Each operation is simulated by one step of the specification. *)
Lemma refines_step A op s ok s' :
  refines A s -> run_op op s = (ok, s') -> exists A', spec_step A op ok A' /\ refines A' s'.
Proof.
  intros HR H. apply run_op_spec in H as [Hk Hok]. destruct ok.
  - specialize (Hok eq_refl). destruct (target op) as [[m v] dg] eqn:Ht. exists (<[(m, v) := dg]> A). split.
    + apply (spec_ack _ _ m v dg); [done|]. intros dg' Hdg'. eapply holds_functional; [|exact Hok]. by apply Hk, HR.
    + intros m' v' dg' [[[= <- <-] <-]|[_ H]]%lookup_insert_Some; [done | by apply Hk, HR].
  - exists A. split; [apply spec_refuse|]. intros m v dg H. by apply Hk, HR.
Qed.

Lemma refines_run ops A s oks s' :
  refines A s -> run_ops ops s = (oks, s') -> exists A', spec_run A ops oks A' /\ refines A' s'.
Proof.
  revert A s oks. induction ops as [|op ops IH]; intros A s oks HR H; simpl in H.
  - injection H as <- <-. exists A. split; [constructor | done].
  - destruct (run_op op s) as [ok s1] eqn:H1. destruct (run_ops ops s1) as [oks1 s2] eqn:H2. injection H as <- <-.
    destruct (refines_step _ _ _ _ _ HR H1) as (A1 & Hs & HR1). destruct (IH _ _ _ HR1 H2) as (A2 & Hs2 & HR2).
    exists A2. split; [by econstructor | done].
Qed.

End Implementation.

Lemma spec_step_ack A op A' m v dg : spec_step A op true A' -> target op = (m, v, dg) -> A' !! (m, v) = Some dg.
Proof.
  intros Hs Ht. remember true as ok eqn:Hok. destruct Hs as [m' v' dg' Ht' _|]; [|done].
  rewrite Ht in Ht'. injection Ht' as -> -> ->. apply lookup_insert_eq.
Qed.

(** The specification never acknowledges two digests for a version. *)
Lemma spec_run_binding A ops oks A' m v dg :
  spec_run A ops oks A' -> A !! (m, v) = Some dg -> A' !! (m, v) = Some dg.
Proof.
  intros H. induction H as [|A op ok A1 ops oks A2 Hs _ IH]; [done|]. intros HA. apply IH.
  destruct Hs as [m' v' dg' _ Hd|]; [|done]. destruct (decide ((m', v') = (m, v))) as [[= -> ->]|Hne].
  - rewrite lookup_insert_eq. by rewrite (Hd _ HA).
  - by rewrite lookup_insert_ne.
Qed.

(** ** Properties *)

(** C37. The file-system store refines the abstract store: any sequence of
    publications and verifications, interleaved with whatever the other
    processes of the host do within the rules of the store, gives outcomes that
    the abstract store allows, and at the end every acknowledged version has
    bytes with the acknowledged digest on disk, the only one it was ever
    acknowledged with. *)
Theorem filesystem_refines_store sha256 euid env root cwd uuid ops (s : sys) oks s' :
  (forall n f, keeps f (fst (env n f))) -> public root -> free_of "." uuid ->
  @run_ops sys (filesystem_ops sha256 euid env root cwd uuid) ops s = (oks, s') ->
  exists A', spec_run ∅ ops oks A' /\
    (forall m v dg, A' !! (m, v) = Some dg -> file_holds sha256 root s' m v dg) /\
    (forall i op m v dg, ops !! i = Some op -> oks !! i = Some true -> target op = (m, v, dg) -> A' !! (m, v) = Some dg).
Proof.
  intros Henv Hroot Huuid H.
  pose (spec := filesystem_spec sha256 euid env root cwd uuid Henv Hroot Huuid).
  destruct (@refines_run sys _ spec ops ∅ s oks s') as (A' & Hrun & HR); [by intros m v dg | exact H |].
  exists A'. split; [exact Hrun|]. split; [exact HR|]. clear - Hrun.
  induction Hrun as [|A op ok A1 ops oks A2 Hs Hrun IH]; intros [|i] op' m v dg Hop Hok Ht; simpl in *; simplify_eq.
  - eapply spec_run_binding; [exact Hrun|]. by eapply spec_step_ack.
  - by eapply IH.
Qed.

Lemma filesystem_refines_store_witness :
  exists s', @run_ops sys (filesystem_ops example_sha256 1000 quiet ["srv"] [] "0f")
      [OpVerify "hello" "1.0.0" (hex64 "a"); OpPublish "hello" "1.0.0" example_source (hex64 "a");
       OpVerify "hello" "1.0.0" (hex64 "0"); OpVerify "hello" "1.0.0" (hex64 "a")] example_sys
    = ([false; true; false; true], s') /\ file_holds example_sha256 ["srv"] s' "hello" "1.0.0" (hex64 "a").
Proof.
  eexists. split; [vm_compute; reflexivity|].
  edestruct (filesystem_refines_store example_sha256 1000 quiet ["srv"] [] "0f"
    [OpVerify "hello" "1.0.0" (hex64 "a"); OpPublish "hello" "1.0.0" example_source (hex64 "a");
     OpVerify "hello" "1.0.0" (hex64 "0"); OpVerify "hello" "1.0.0" (hex64 "a")] example_sys)
    as (A & _ & Hh & Ht); [exact quiet_keeps | exact example_public | exact example_uuid | vm_compute; reflexivity |].
  apply Hh. by apply (Ht 3%nat (OpVerify "hello" "1.0.0" (hex64 "a"))).
Defined.
