(* ===== verification/RegistryDb.v ===== *)
(** * The registry database: db/models.py and db/repository.py

    The rows of the registry schema with its constraints, the guard of the ORM
    session that protects published history, and the repository.  A transaction
    is a computation on the database that either returns or raises; the caller's
    [session.begin()] keeps the new database only when it returns.  Sequences
    number artifacts and build provenance; a timestamp is represented by
    whether it is set. *)

From S2P Require Import Prelude PyText SemVer Json Url Validate Registry.

Open Scope string_scope.
Open Scope list_scope.

(** ** Rows *)

(** [Publisher] is [Registry.publisher]. *)

(** [Module] *)
Record module_row := {
  m_id : string; m_name : string; m_description : option string; m_homepage : option string;
  m_documentation_url : option string; m_publisher_id : string; m_classification : string;
  m_license : string; m_source_repository : string
}.

(** [Artifact] *)
Record artifact_row := {
  a_id : N; digest_algorithm : string; a_digest : string; a_byte_size : option Z;
  a_storage_locator : option string
}.

(** The evidence columns of [BuildProvenance]; the environment is the canonical
    text of its document. *)
Record evidence := {
  ev_source_repository : string; ev_source_tag : option string; ev_source_commit : string;
  builder_version : option string; builder_commit : option string; host_commit : option string;
  reproducible : option bool; host_contract_status : option string; environment_json : option string
}.

(** [BuildProvenance] *)
Record provenance_row := { p_id : N; p_evidence : evidence; p_imported : bool }.

(** [ModuleVersion] *)
Record version_row := {
  v_module_id : string; v_version : string; v_artifact_id : N; artifact_original_url : string;
  historical_order : Z; build_provenance_id : option N; v_bundle_format_version : Z;
  v_source_tag : option string; v_source_commit : string; host_compatibility : string;
  sdk_compatibility : string; historical_publication_channel : string; published : bool
}.

(** [ModuleChannel] *)
Record channel_row := { c_module_id : string; c_channel : string; c_version : string; revision : Z }.

(** [ModuleDependency] *)
Record dependency_row := {
  owner_module_id : string; owner_version : string; dependency_module_id : string; specifier : string
}.

(** The report of a promotion. *)
Record promotion_result := {
  promotion_id : string; pr_module : string; pr_version : string; pr_channel : string;
  previous_channel_target : option string; new_channel_target : string; channel_revision : Z;
  artifact_sha256 : string; artifact_url : string; pr_storage_locator : string; pr_byte_size : Z; status : string
}.

(** [PromotionEvent]; the intent is the canonical text of its document. *)
Record promotion_event := {
  idempotency_key : string; e_module_id : string; e_version : string; e_channel : string;
  candidate_digest_ : string; approval_reference_ : string; approval_identity_ : string;
  previous_channel_version : option string; new_channel_version : string; intent_ : string; result_ : promotion_result
}.

Record registry_db := {
  publishers : list publisher; modules : list module_row; artifacts : list artifact_row;
  provenances : list provenance_row; module_versions : list version_row;
  module_channels : list channel_row; module_dependencies : list dependency_row;
  promotion_events : list promotion_event; artifact_seq : N; provenance_seq : N;
  alembic_version : list string
}.

#[export] Instance index_channel_eq_dec : EqDecision index_channel.
Proof. solve_decision. Defined.
#[export] Instance promotion_result_eq_dec : EqDecision promotion_result.
Proof. solve_decision. Defined.
#[export] Instance promotion_event_eq_dec : EqDecision promotion_event.
Proof. solve_decision. Defined.
#[export] Instance evidence_eq_dec : EqDecision evidence.
Proof. solve_decision. Defined.
#[export] Instance module_row_eq_dec : EqDecision module_row.
Proof. solve_decision. Defined.
#[export] Instance artifact_row_eq_dec : EqDecision artifact_row.
Proof. solve_decision. Defined.
#[export] Instance provenance_row_eq_dec : EqDecision provenance_row.
Proof. solve_decision. Defined.
#[export] Instance version_row_eq_dec : EqDecision version_row.
Proof. solve_decision. Defined.
#[export] Instance channel_row_eq_dec : EqDecision channel_row.
Proof. solve_decision. Defined.
#[export] Instance dependency_row_eq_dec : EqDecision dependency_row.
Proof. solve_decision. Defined.

(** ** Transactions *)

Inductive reg_exn :=
| RegistryConflict (msg : string)
| RegistryInvalid (e : exn)
| V1RepresentabilityError
| ImmutableRecordError
| IntegrityError
| AttributeError.

Definition D (A : Type) : Type := registry_db -> res reg_exn (A * registry_db).

Definition ret {A} (a : A) : D A := fun d => Ok (a, d).
Definition raise {A} (e : reg_exn) : D A := fun _ => Err e.
Definition bind {A B} (m : D A) (k : A -> D B) : D B := fun d =>
  match m d with Ok (a, d) => k a d | Err e => Err e end.

Notation "'do' x '<-' m ';' k" := (bind m (fun x => k))
  (at level 10, x pattern, m at level 100, k at level 200) : py_scope.
Notation "m '>>' k" := (bind m (fun _ => k))
  (at level 100, k at level 200, right associativity) : py_scope.

Definition query {A} (f : registry_db -> A) : D A := fun d => Ok (f d, d).
Definition modify (f : registry_db -> registry_db) : D unit := fun d => Ok (tt, f d).
Definition reject_if (c : bool) (e : reg_exn) : D unit := if c then raise e else ret tt.

(** A call that may raise a registry validation error. *)
Definition lifted {A} (r : res exn A) : res reg_exn A :=
  match r with Ok a => Ok a | Err e => Err (RegistryInvalid e) end.

Definition checked {A} (r : res exn A) : D A :=
  match r with Ok a => ret a | Err e => raise (RegistryInvalid e) end.

Definition first {A} (p : A -> bool) (l : list A) : option A := List.find p l.

(** *** Writing a table *)

Definition put_publishers (l : list publisher) (d : registry_db) : registry_db :=
  {| publishers := l; modules := modules d; artifacts := artifacts d; provenances := provenances d;
     module_versions := module_versions d; module_channels := module_channels d;
     module_dependencies := module_dependencies d; promotion_events := promotion_events d;
     artifact_seq := artifact_seq d; provenance_seq := provenance_seq d; alembic_version := alembic_version d |}.

Definition put_modules (l : list module_row) (d : registry_db) : registry_db :=
  {| publishers := publishers d; modules := l; artifacts := artifacts d; provenances := provenances d;
     module_versions := module_versions d; module_channels := module_channels d;
     module_dependencies := module_dependencies d; promotion_events := promotion_events d;
     artifact_seq := artifact_seq d; provenance_seq := provenance_seq d; alembic_version := alembic_version d |}.

(** With the next value of the sequence. *)
Definition put_artifacts (l : list artifact_row) (seq : N) (d : registry_db) : registry_db :=
  {| publishers := publishers d; modules := modules d; artifacts := l; provenances := provenances d;
     module_versions := module_versions d; module_channels := module_channels d;
     module_dependencies := module_dependencies d; promotion_events := promotion_events d;
     artifact_seq := seq; provenance_seq := provenance_seq d; alembic_version := alembic_version d |}.

Definition put_provenances (l : list provenance_row) (seq : N) (d : registry_db) : registry_db :=
  {| publishers := publishers d; modules := modules d; artifacts := artifacts d; provenances := l;
     module_versions := module_versions d; module_channels := module_channels d;
     module_dependencies := module_dependencies d; promotion_events := promotion_events d;
     artifact_seq := artifact_seq d; provenance_seq := seq; alembic_version := alembic_version d |}.

Definition put_versions (l : list version_row) (d : registry_db) : registry_db :=
  {| publishers := publishers d; modules := modules d; artifacts := artifacts d; provenances := provenances d;
     module_versions := l; module_channels := module_channels d;
     module_dependencies := module_dependencies d; promotion_events := promotion_events d;
     artifact_seq := artifact_seq d; provenance_seq := provenance_seq d; alembic_version := alembic_version d |}.

Definition put_channels (l : list channel_row) (d : registry_db) : registry_db :=
  {| publishers := publishers d; modules := modules d; artifacts := artifacts d; provenances := provenances d;
     module_versions := module_versions d; module_channels := l;
     module_dependencies := module_dependencies d; promotion_events := promotion_events d;
     artifact_seq := artifact_seq d; provenance_seq := provenance_seq d; alembic_version := alembic_version d |}.

Definition put_dependencies (l : list dependency_row) (d : registry_db) : registry_db :=
  {| publishers := publishers d; modules := modules d; artifacts := artifacts d; provenances := provenances d;
     module_versions := module_versions d; module_channels := module_channels d;
     module_dependencies := l; promotion_events := promotion_events d;
     artifact_seq := artifact_seq d; provenance_seq := provenance_seq d; alembic_version := alembic_version d |}.

Definition put_events (l : list promotion_event) (d : registry_db) : registry_db :=
  {| publishers := publishers d; modules := modules d; artifacts := artifacts d; provenances := provenances d;
     module_versions := module_versions d; module_channels := module_channels d;
     module_dependencies := module_dependencies d; promotion_events := l;
     artifact_seq := artifact_seq d; provenance_seq := provenance_seq d; alembic_version := alembic_version d |}.

(** *** Constraints *)

Definition nodup {A} `{EqDecision A} (l : list A) : bool := bool_decide (NoDup l).

(** [btrim(x) <> ''] *)
Definition filled (s : string) : bool := negb (all_chars (Ascii.eqb " ") s).

(** [channel <> 'stable' OR split_part(version, '+', 1) !~ '-'] *)
Definition stable_ok (ch v : string) : bool :=
  negb (String.eqb ch "stable") || negb (mem_char "-" (hd "" (split_on "+" v))).

Definition has_version (d : registry_db) (mid v : string) : bool :=
  existsb (fun r => String.eqb (v_module_id r) mid && String.eqb (v_version r) v) (module_versions d).

Definition has_module (d : registry_db) (mid : string) : bool :=
  existsb (fun m => String.eqb (m_id m) mid) (modules d).

Definition publisher_checks (p : publisher) : bool := filled (pub_id p) && filled (pub_name p).

Definition module_checks (d : registry_db) (m : module_row) : bool :=
  fullmatch MODULE_ID_RE (m_id m) && mem (m_classification m) CLASSIFICATIONS
  && filled (m_source_repository m) && filled (m_name m) && filled (m_license m)
  && existsb (fun p => String.eqb (pub_id p) (m_publisher_id m)) (publishers d).

Definition artifact_checks (a : artifact_row) : bool :=
  String.eqb (digest_algorithm a) "sha256" && fullmatch SHA256_RE (a_digest a)
  && match a_byte_size a with Some n => Z.leb 0 n | None => true end
  && match a_storage_locator a with Some l => filled l | None => true end.

Definition provenance_checks (p : provenance_row) : bool :=
  let e := p_evidence p in
  filled (ev_source_repository e) && fullmatch COMMIT_RE (ev_source_commit e)
  && match host_contract_status e with Some s => mem s ["passed"; "failed"] | None => true end.

Definition version_checks (d : registry_db) (v : version_row) : bool :=
  filled (v_version v) && Z.leb 0 (historical_order v) && Z.eqb (v_bundle_format_version v) 1
  && fullmatch COMMIT_RE (v_source_commit v) && filled (artifact_original_url v)
  && filled (host_compatibility v) && filled (sdk_compatibility v)
  && mem (historical_publication_channel v) CHANNELS
  && stable_ok (historical_publication_channel v) (v_version v)
  && has_module d (v_module_id v) && existsb (fun a => N.eqb (a_id a) (v_artifact_id v)) (artifacts d)
  && match build_provenance_id v with
     | Some i => existsb (fun p => N.eqb (p_id p) i) (provenances d)
     | None => true
     end.

Definition channel_checks (d : registry_db) (c : channel_row) : bool :=
  mem (c_channel c) CHANNELS && Z.leb 1 (revision c) && stable_ok (c_channel c) (c_version c)
  && has_version d (c_module_id c) (c_version c).

Definition dependency_checks (d : registry_db) (x : dependency_row) : bool :=
  filled (specifier x) && negb (String.eqb (owner_module_id x) (dependency_module_id x))
  && has_version d (owner_module_id x) (owner_version x) && has_module d (dependency_module_id x).

Definition event_checks (d : registry_db) (x : promotion_event) : bool :=
  mem (e_channel x) CHANNELS && fullmatch SHA256_RE (candidate_digest_ x)
  && String.eqb (new_channel_version x) (e_version x) && has_version d (e_module_id x) (e_version x).

(** Keys, CHECK constraints and foreign keys. *)
Definition constraints (d : registry_db) : bool :=
  nodup (map pub_id (publishers d)) && nodup (map m_id (modules d)) && nodup (map a_id (artifacts d))
  && nodup (map (fun a => (digest_algorithm a, a_digest a)) (artifacts d)) && nodup (map p_id (provenances d))
  && nodup (map (fun v => (v_module_id v, v_version v)) (module_versions d))
  && nodup (map (fun c => (c_module_id c, c_channel c)) (module_channels d))
  && nodup (map (fun x => (owner_module_id x, owner_version x, dependency_module_id x)) (module_dependencies d))
  && nodup (map idempotency_key (promotion_events d))
  && nodup (map (fun x => (e_module_id x, e_version x)) (promotion_events d))
  && forallb publisher_checks (publishers d) && forallb (module_checks d) (modules d)
  && forallb artifact_checks (artifacts d) && forallb provenance_checks (provenances d)
  && forallb (version_checks d) (module_versions d) && forallb (channel_checks d) (module_channels d)
  && forallb (dependency_checks d) (module_dependencies d) && forallb (event_checks d) (promotion_events d).

Definition flush : D unit := fun d => if constraints d then Ok (tt, d) else Err IntegrityError.

#[global] Arguments constraints _ : simpl never.

(** *** [protect_history]: the guard of the ORM session

    What a session may not do between two flushes, as a relation of the
    databases before and after: delete or change published metadata and
    evidence, delete an artifact, or change the protected columns of an artifact,
    a module or a publisher.  Rows are identified by their keys: a module or
    publisher whose id is gone counts as one whose id was changed (no operation
    of the program deletes either, and the guard is the stronger for it).  The
    time stamps that the server sets, [created_at] among them, are no columns of
    the rows. *)

Definition unchanged {A} `{EqDecision A} (before after : list A) : bool :=
  forallb (fun x => bool_decide (x ∈ after)) before.

Definition artifact_protected (after : list artifact_row) (a : artifact_row) : bool :=
  existsb (fun b => N.eqb (a_id b) (a_id a) && String.eqb (digest_algorithm b) (digest_algorithm a)
                    && String.eqb (a_digest b) (a_digest a)) after.

Definition module_protected (after : list module_row) (m : module_row) : bool :=
  existsb (fun n => String.eqb (m_id n) (m_id m)
     && String.eqb (m_publisher_id n) (m_publisher_id m) && String.eqb (m_classification n) (m_classification m)
     && String.eqb (m_license n) (m_license m)
     && String.eqb (m_source_repository n) (m_source_repository m)) after.

Definition publisher_protected (after : list publisher) (p : publisher) : bool :=
  existsb (fun q => String.eqb (pub_id q) (pub_id p)) after.

Definition protect_history (before after : registry_db) : bool :=
  unchanged (module_versions before) (module_versions after)
  && unchanged (module_dependencies before) (module_dependencies after)
  && unchanged (provenances before) (provenances after)
  && unchanged (promotion_events before) (promotion_events after)
  && forallb (artifact_protected (artifacts after)) (artifacts before)
  && forallb (module_protected (modules after)) (modules before)
  && forallb (publisher_protected (publishers after)) (publishers before).

(** ** [RegistryDatabaseRepository] *)

Section Repository.
Context (schema_valid : string -> json -> bool).

(** Insert or compare, never update: [key] selects the row, [row] is the one to
    insert, [same] compares the columns given.  [on conflict do nothing] finds
    no conflict on the key, as the row is missing. *)
Definition ensure_record {A} (table : string) (get : registry_db -> list A) (key : A -> bool)
    (insert : registry_db -> registry_db) (same : A -> bool) : D A :=
  let conflict := RegistryConflict ("Conflicting " +:+ table +:+ " record") in
  do record <- query (fun d => first key (get d));
  do record <- match record with
               | Some r => ret (Some r)
               | None => modify insert >> flush >> query (fun d => first key (get d))
               end;
  match record with
  | Some r => if same r then ret r else raise conflict
  | None => raise conflict
  end.

Definition ensure_publisher (p : publisher) : D publisher :=
  ensure_record "publishers" publishers (fun x => String.eqb (pub_id x) (pub_id p))
    (fun d => put_publishers (publishers d ++ [p]) d) (fun x => bool_decide (x = p)).

Definition ensure_module (m : module_row) : D module_row :=
  ensure_record "modules" modules (fun x => String.eqb (m_id x) (m_id m))
    (fun d => put_modules (modules d ++ [m]) d) (fun x => bool_decide (x = m)).

Definition is_artifact (digest : string) (a : artifact_row) : bool :=
  String.eqb (digest_algorithm a) "sha256" && String.eqb (a_digest a) digest.

Definition ensure_artifact (digest : string) : D artifact_row :=
  ensure_record "artifacts" artifacts (is_artifact digest)
    (fun d => put_artifacts
       (artifacts d ++ [{| a_id := artifact_seq d; digest_algorithm := "sha256"; a_digest := digest;
                           a_byte_size := None; a_storage_locator := None |}])
       (artifact_seq d + 1) d)
    (is_artifact digest).

Definition ensure_channel (mid ch v : string) : D channel_row :=
  ensure_record "module_channels" module_channels
    (fun c => String.eqb (c_module_id c) mid && String.eqb (c_channel c) ch)
    (fun d => put_channels
       (module_channels d ++ [{| c_module_id := mid; c_channel := ch; c_version := v; revision := 1 |}]) d)
    (fun c => String.eqb (c_version c) v).

Definition get_module (mid : string) : D (option module_row) :=
  query (fun d => first (fun m => String.eqb (m_id m) mid) (modules d)).

Definition publisher_of (d : registry_db) (m : module_row) : option publisher :=
  first (fun p => String.eqb (pub_id p) (m_publisher_id m)) (publishers d).

Definition artifact_of (d : registry_db) (i : N) : option artifact_row :=
  first (fun a => N.eqb (a_id a) i) (artifacts d).

(** With the versions the caller adds. *)
Definition module_structure (m : module_row) (p : publisher) (vs : list release) : module :=
  {| id := m_id m; name := m_name m; description := m_description m; mod_publisher := p;
     classification := m_classification m; source_repository := m_source_repository m;
     license := m_license m; homepage := m_homepage m; documentation_url := m_documentation_url m;
     versions := vs |}.

Definition dependencies_of (d : registry_db) (mid v : string) : list dependency_row :=
  List.filter (fun x => String.eqb (owner_module_id x) mid && String.eqb (owner_version x) v)
    (module_dependencies d).

Definition release_structure (v : version_row) (a : artifact_row) (deps : list dependency_row) : release :=
  {| version := v_version v; channel := historical_publication_channel v;
     rel_artifact := {| url := artifact_original_url v; sha256 := a_digest a |};
     bundle_format_version := v_bundle_format_version v; source_commit := v_source_commit v;
     source_tag := v_source_tag v;
     requires := {| req_host := host_compatibility v; req_sdk := sdk_compatibility v;
                    req_modules := list_to_map (map (fun x => (dependency_module_id x, specifier x)) deps) |} |}.

Definition historical_provenance (m : module_row) (r : release) : evidence :=
  {| ev_source_repository := m_source_repository m; ev_source_tag := source_tag r;
     ev_source_commit := source_commit r; builder_version := None; builder_commit := None;
     host_commit := None; reproducible := None; host_contract_status := None; environment_json := None |}.

Definition is_version (mid v : string) (r : version_row) : bool :=
  String.eqb (v_module_id r) mid && String.eqb (v_version r) v.

(** The comparison with a version that is there. *)
Definition check_published (mid : string) (r : release) (order : option Z) (promoted : bool) (ev : evidence)
    (previous : version_row) : D unit :=
  reject_if (match order with Some o => negb (Z.eqb (historical_order previous) o) | None => false end)
    (RegistryConflict "Historical version order conflict") >>
  do found <- query (fun d => artifact_of d (v_artifact_id previous));
  match found with
  | None => raise AttributeError
  | Some a =>
      do deps <- query (fun d => dependencies_of d (v_module_id previous) (v_version previous));
      reject_if (negb (bool_decide (release_structure previous a deps = r))
                 || negb (Bool.eqb (published previous) promoted))
        (RegistryConflict ("Immutable version conflict: " +:+ mid +:+ "@" +:+ version r)) >>
      do provenance <- query (fun d => match build_provenance_id previous with
                                       | Some i => first (fun p => N.eqb (p_id p) i) (provenances d)
                                       | None => None
                                       end);
      reject_if (match provenance with Some p => negb (bool_decide (p_evidence p = ev)) | None => true end)
        (RegistryConflict ("Historical provenance conflict: " +:+ mid)) >>
      reject_if (negb (String.eqb (digest_algorithm a) "sha256"))
        (RegistryConflict "Artifact digest algorithm conflict")
  end.

(** The orders of the versions of a module. *)
Definition orders (d : registry_db) (mid : string) : list Z :=
  map historical_order (List.filter (fun v => String.eqb (v_module_id v) mid) (module_versions d)).

Definition next_order (d : registry_db) (mid : string) : Z :=
  match max_by Z.leb (orders d mid) with Some m => m + 1 | None => 0 end.

(** Ordered by the target, as [sorted(dependencies.items())]. *)
Definition dependency_rows (mid : string) (r : release) : list dependency_row :=
  map (fun kv => {| owner_module_id := mid; owner_version := version r; dependency_module_id := fst kv;
                    specifier := snd kv |})
    (sort_by (fun x y => str_le (fst x) (fst y)) (map_to_list (req_modules (requires r)))).

Definition new_version (mid : string) (r : release) (order : Z) (artifact_id provenance_id : N) (promoted : bool)
    : version_row :=
  {| v_module_id := mid; v_version := version r; v_artifact_id := artifact_id;
     artifact_original_url := url (rel_artifact r); historical_order := order;
     build_provenance_id := Some provenance_id; v_bundle_format_version := bundle_format_version r;
     v_source_tag := source_tag r; v_source_commit := source_commit r;
     host_compatibility := req_host (requires r); sdk_compatibility := req_sdk (requires r);
     historical_publication_channel := channel r; published := promoted |}.

(** The insertion of a version that is not there. *)
Definition add_version (mid : string) (r : release) (order : option Z) (promoted : bool) (ev : evidence) : D unit :=
  do order <- match order with Some o => ret o | None => query (fun d => next_order d mid) end;
  do missing <- query (fun d => existsb (fun x => negb (has_module d (dependency_module_id x))) (dependency_rows mid r));
  reject_if missing (RegistryConflict "Missing dependency module") >>
  do a <- ensure_artifact (sha256 (rel_artifact r));
  do pid <- query provenance_seq;
  modify (fun d => put_provenances
    (provenances d ++ [{| p_id := pid; p_evidence := ev; p_imported := negb promoted |}]) (pid + 1) d) >>
  flush >>
  modify (fun d => put_versions (module_versions d ++ [new_version mid r order (a_id a) pid promoted]) d) >>
  flush >>
  modify (fun d => put_dependencies (module_dependencies d ++ dependency_rows mid r) d) >>
  flush.

(** [True] only for an insertion. *)
Definition insert_published_version (mid : string) (r : release) (order : option Z) (provenance_values : option evidence)
    : D bool :=
  do found <- get_module mid;
  match found with
  | None => raise (RegistryConflict ("Missing module: " +:+ mid))
  | Some m =>
      do p <- query (fun d => publisher_of d m);
      match p with
      | None => raise AttributeError
      | Some p =>
          checked (validate_module schema_valid (module_json (module_structure m p [r])) "DB version" None) >>
          let promoted := bool_decide (is_Some provenance_values) in
          let ev := default (historical_provenance m r) provenance_values in
          do previous <- query (fun d => first (is_version mid (version r)) (module_versions d));
          match previous with
          | Some previous => check_published mid r order promoted ev previous >> ret false
          | None => add_version mid r order promoted ev >> ret true
          end
      end
  end.

(** ** Projections *)

(** [select(Module, Publisher).join(Publisher)] with a published version, in the
    order of name and identifier. *)
Definition by_name_id (x y : module_row * publisher) : bool :=
  le_of (pair_compare str_compare str_compare) (m_name (fst x), m_id (fst x)) (m_name (fst y), m_id (fst y)).

Definition has_published (d : registry_db) (m : module_row) : bool :=
  existsb (fun v => String.eqb (v_module_id v) (m_id m)) (module_versions d).

Definition module_candidates (module_id : option string) (d : registry_db) : list (module_row * publisher) :=
  sort_by by_name_id
    (omap (fun m => p ← publisher_of d m; Some (m, p))
      (List.filter (fun m => has_published d m
          && match module_id with Some i => String.eqb (m_id m) i | None => true end) (modules d))).

(** The rows of a module in the stored order, joined with their artifacts. *)
Definition by_order (x y : version_row) : bool := Z.leb (historical_order x) (historical_order y).

Definition releases_of (d : registry_db) (mid : string) : list release :=
  omap (fun v => a ← artifact_of d (v_artifact_id v); Some (release_structure v a (dependencies_of d mid (v_version v))))
    (sort_by by_order (List.filter (fun v => String.eqb (v_module_id v) mid) (module_versions d))).

Definition by_row_id (x y : module_row * publisher) : bool := str_le (m_id (fst x)) (m_id (fst y)).

Definition project_v1 (module_id : option string) (d : registry_db) : list module :=
  map (fun mp => module_structure (fst mp) (snd mp) (releases_of d (m_id (fst mp))))
    (sort_by by_row_id (module_candidates module_id d)).

(** The digest of the version a channel names. *)
Definition channel_target (d : registry_db) (c : channel_row) : option index_channel :=
  v ← first (is_version (c_module_id c) (c_version c)) (module_versions d);
  a ← artifact_of d (v_artifact_id v);
  Some {| ch_version := c_version c; ch_sha256 := a_digest a |}.

(** Per module that has a channel, the targets by channel. *)
Abbreviation targets := (gmap string (gmap string index_channel)).

Definition add_target (d : registry_db) (t : targets) (c : channel_row) : targets :=
  match channel_target d c with
  | Some x => <[c_module_id c := <[c_channel c := x]> (default ∅ (t !! c_module_id c))]> t
  | None => t
  end.

Definition channel_targets (module_ids : option (list string)) (d : registry_db) : targets :=
  foldl (add_target d) ∅
    (List.filter (fun c => match module_ids with Some ids => mem (c_module_id c) ids | None => true end)
      (module_channels d)).

Definition counts (d : registry_db) : list (string * nat) :=
  [("publishers", length (publishers d)); ("modules", length (modules d)); ("artifacts", length (artifacts d));
   ("build_provenance", length (provenances d)); ("module_versions", length (module_versions d));
   ("module_dependencies", length (module_dependencies d)); ("module_channels", length (module_channels d))].

Definition schema_revision (d : registry_db) : option string :=
  match alembic_version d with [v] => Some v | _ => None end.

(** [EXPECTED_SCHEMA_REVISION] of api/registry_v2.py *)
Definition EXPECTED_SCHEMA_REVISION : string := "0049_promotions".

(** ** api/registry_compatibility.py *)

Definition index_targets (entries : list index_entry) : targets :=
  list_to_map (reverse (map (fun e => (entry_id e, list_to_map (entry_channels e))) entries)).

Definition validate_v1_representability (ms : list module) (current : targets) : res reg_exn (list index_entry) :=
  lifted (each (fun m => validate_module schema_valid (module_json m) "Registry v1 DB projection" None) ms) ;?
  let? index := lifted (build_index schema_valid ms) in
  raise_if (negb (bool_decide (index_targets index = current))) V1RepresentabilityError ;?
  Ok index.

End Repository.

(** ** Reasoning about transactions *)

Lemma d_bind_Ok {A B} (m : D A) (k : A -> D B) d b d' :
  bind m k d = Ok (b, d') <-> exists a d1, m d = Ok (a, d1) /\ k a d1 = Ok (b, d').
Proof.
  unfold bind. destruct (m d) as [[a d1]|e]; split.
  - eauto.
  - by intros (? & ? & [= <- <-] & ?).
  - done.
  - by intros (? & ? & ? & _).
Qed.

Lemma reject_Ok c e d u d' : reject_if c e d = Ok (u, d') -> c = false /\ d' = d.
Proof. unfold reject_if, raise, ret. destruct c; [done|]. by intros [= _ <-]. Qed.

Lemma checked_Ok {A} (r : res exn A) d a d' : checked r d = Ok (a, d') -> r = Ok a /\ d' = d.
Proof. unfold checked, ret, raise. destruct r; [|done]. by intros [= -> <-]. Qed.

Lemma flush_Ok d u d' : flush d = Ok (u, d') -> d' = d /\ constraints d = true.
Proof. unfold flush. destruct (constraints d); [|done]. by intros [= _ <-]. Qed.

(** The first step of a computation. *)
Lemma query_bind {A B} (f : registry_db -> A) (k : A -> D B) d x : bind (query f) k d = Ok x -> k (f d) d = Ok x.
Proof. done. Qed.
Lemma modify_bind {B} f (k : unit -> D B) d x : bind (modify f) k d = Ok x -> k tt (f d) = Ok x.
Proof. done. Qed.
Lemma reject_bind {B} c e (k : unit -> D B) d x : bind (reject_if c e) k d = Ok x -> c = false /\ k tt d = Ok x.
Proof. by destruct c. Qed.
Lemma flush_bind {B} (k : unit -> D B) d x : bind flush k d = Ok x -> constraints d = true /\ k tt d = Ok x.
Proof. unfold bind, flush. by destruct (constraints d). Qed.
Lemma checked_bind {A B} (r : res exn A) (k : A -> D B) d x :
  bind (checked r) k d = Ok x -> exists a, r = Ok a /\ k a d = Ok x.
Proof. destruct r as [a|]; [|done]. intros H. by exists a. Qed.

(** Takes the first step of the computation of hypothesis [H]. *)
Ltac d_step H :=
  first [ apply query_bind in H | apply modify_bind in H | apply reject_bind in H as [? H]
        | apply flush_bind in H as [? H] ]; cbv beta in H.

Ltac d_inv :=
  repeat match goal with
  | H : bind _ _ _ = Ok (_, _) |- _ => apply d_bind_Ok in H as (? & ? & ? & ?); cbv beta in *
  | H : ret _ _ = Ok (_, _) |- _ => unfold ret in H; injection H as H; try subst
  | H : raise _ _ = Ok _ |- _ => discriminate H
  | H : query _ _ = Ok (_, _) |- _ => unfold query in H; injection H as H; try subst
  | H : modify _ _ = Ok (_, _) |- _ => unfold modify in H; injection H as H; try subst
  | H : reject_if _ _ _ = Ok (_, _) |- _ => apply reject_Ok in H as [? ->]
  | H : checked _ _ = Ok (_, _) |- _ => apply checked_Ok in H as [? ->]
  | H : flush _ = Ok (_, _) |- _ => apply flush_Ok in H as [-> ?]
  end.

(** *** Transactions only add *)

Definition subset {A} (l k : list A) : Prop := forall x, x ∈ l -> x ∈ k.

(** What the repository and the promotion do to the database. *)
Record extends (d d' : registry_db) : Prop := {
  ext_publishers : subset (publishers d) (publishers d');
  ext_modules : subset (modules d) (modules d');
  ext_artifacts : forall a, a ∈ artifacts d -> exists a', a' ∈ artifacts d' /\ a_id a' = a_id a /\
    digest_algorithm a' = digest_algorithm a /\ a_digest a' = a_digest a;
  ext_provenances : subset (provenances d) (provenances d');
  ext_versions : subset (module_versions d) (module_versions d');
  ext_dependencies : subset (module_dependencies d) (module_dependencies d');
  ext_events : subset (promotion_events d) (promotion_events d');
  ext_schema : alembic_version d' = alembic_version d
}.

#[export] Instance extends_preorder : PreOrder extends.
Proof.
  split.
  - intros d. split; try (by intros x); try done. intros a Ha. by exists a.
  - intros d1 d2 d3 [] []. split; try (intros x Hx; auto; fail); [|congruence].
    intros a Ha. destruct (ext_artifacts0 a Ha) as (a' & Ha' & ? & ? & ?).
    destruct (ext_artifacts1 a' Ha') as (a2 & ? & ? & ? & ?). exists a2. split_and!; congruence.
Qed.

Definition growing {A} (m : D A) : Prop := forall d a d', m d = Ok (a, d') -> extends d d'.

Create HintDb growing.

Lemma growing_ret {A} (a : A) : growing (ret a).
Proof. intros d b d' H. by d_inv. Qed.
Lemma growing_raise {A} e : growing (@raise A e).
Proof. done. Qed.
Lemma growing_query {A} (f : registry_db -> A) : growing (query f).
Proof. intros d b d' H. by d_inv. Qed.
Lemma growing_reject c e : growing (reject_if c e).
Proof. intros d b d' H. by apply reject_Ok in H as [_ ->]. Qed.
Lemma growing_checked {A} (r : res exn A) : growing (checked r).
Proof. intros d b d' H. by apply checked_Ok in H as [_ ->]. Qed.
Lemma growing_flush : growing flush.
Proof. intros d b d' H. by apply flush_Ok in H as [-> _]. Qed.
Lemma growing_modify f : (forall d, extends d (f d)) -> growing (modify f).
Proof. intros Hf d b d' H. unfold modify in H. injection H as _ <-. apply Hf. Qed.

Lemma growing_bind {A B} (m : D A) (k : A -> D B) : growing m -> (forall a, growing (k a)) -> growing (bind m k).
Proof.
  intros Hm Hk d b d' H. apply d_bind_Ok in H as (a & d1 & H1 & H2).
  transitivity d1; [by eapply Hm | by eapply Hk].
Qed.

#[export] Hint Resolve growing_ret growing_raise growing_query growing_reject growing_checked growing_flush : growing.

Ltac growing :=
  repeat match goal with
  | |- forall _, _ => intros ?
  | |- growing (bind _ _) => apply growing_bind
  | |- growing (match ?x with _ => _ end) => destruct x
  | |- growing _ => solve [eauto 3 with growing]
  end.

(** Appending to one table. *)
Ltac appending :=
  intros d; split; simpl; try (by intros x); try (intros x Hx; apply elem_of_app; by left); try done;
  try (intros a' Ha; exists a'; split_and!; try done; apply elem_of_app; by left);
  try (intros a' Ha; exists a'; by split_and!).

Lemma extends_publishers p d : extends d (put_publishers (publishers d ++ [p]) d).
Proof. revert d. appending. Qed.
Lemma extends_modules m d : extends d (put_modules (modules d ++ [m]) d).
Proof. revert d. appending. Qed.
Lemma extends_artifacts a n d : extends d (put_artifacts (artifacts d ++ [a]) n d).
Proof. revert d. appending. Qed.
Lemma extends_provenances p n d : extends d (put_provenances (provenances d ++ [p]) n d).
Proof. revert d. appending. Qed.
Lemma extends_versions v d : extends d (put_versions (module_versions d ++ [v]) d).
Proof. revert d. appending. Qed.
Lemma extends_dependencies l d : extends d (put_dependencies (module_dependencies d ++ l) d).
Proof. revert d. appending. Qed.
Lemma extends_events ev d : extends d (put_events (promotion_events d ++ [ev]) d).
Proof. revert d. appending. Qed.
Lemma extends_channels l d : extends d (put_channels l d).
Proof. revert d. appending. Qed.

Section Growth.
Context (schema_valid : string -> json -> bool).

Lemma growing_ensure {A} table (get : registry_db -> list A) key ins same :
  (forall d, extends d (ins d)) -> growing (ensure_record table get key ins same).
Proof.
  intros Hi. unfold ensure_record. growing. by apply growing_modify.
Qed.

Lemma growing_ensure_artifact dg : growing (ensure_artifact dg).
Proof. apply growing_ensure. intros d. apply extends_artifacts. Qed.

#[local] Hint Resolve growing_ensure_artifact : growing.

Lemma growing_check mid r o p ev v : growing (check_published mid r o p ev v).
Proof. unfold check_published. growing. Qed.

Lemma growing_add mid r o p ev : growing (add_version mid r o p ev).
Proof.
  unfold add_version. growing; apply growing_modify; intros d.
  - apply extends_provenances.
  - apply extends_versions.
  - apply extends_dependencies.
Qed.

#[local] Hint Resolve growing_check growing_add : growing.

Lemma growing_insert mid r o ev : growing (insert_published_version schema_valid mid r o ev).
Proof. unfold insert_published_version, get_module. growing. Qed.

End Growth.

#[export] Hint Resolve growing_ensure_artifact growing_check growing_add growing_insert : growing.

Lemma extends_protect d d' :
  extends d d' -> protect_history d d' = true.
Proof.
  intros []. unfold protect_history. rewrite !andb_true_iff.
  assert (Hsub : forall A `{EqDecision A} (l k : list A), subset l k -> unchanged l k = true).
  { intros A ? l k Hlk. apply forallb_forall. intros x Hx. apply bool_decide_eq_true_2, Hlk.
    by rewrite list_elem_of_In. }
  split_and!; try by apply Hsub.
  - apply forallb_forall. intros a Ha. rewrite <- list_elem_of_In in Ha.
    destruct (ext_artifacts0 a Ha) as (a' & Ha' & Hi & Hal & Hdg). apply existsb_exists. exists a'.
    rewrite <- list_elem_of_In. split; [done|]. by rewrite Hi, Hal, Hdg, N.eqb_refl, !String.eqb_refl.
  - apply forallb_forall. intros m Hm. apply existsb_exists. exists m. rewrite <- list_elem_of_In in *.
    split; [by apply ext_modules0|]. by rewrite !String.eqb_refl.
  - apply forallb_forall. intros p Hp. apply existsb_exists. exists p. rewrite <- list_elem_of_In in *.
    split; [by apply ext_publishers0 | by apply String.eqb_refl].
Qed.

(** *** What an insertion leaves *)

Lemma constraints_ids d :
  constraints d = true ->
  NoDup (map m_id (modules d)) /\ NoDup (map a_id (artifacts d)) /\ NoDup (map p_id (provenances d)) /\
  NoDup (map (fun v => (v_module_id v, v_version v)) (module_versions d)).
Proof.
  unfold constraints, nodup. intros H. repeat (apply andb_true_iff in H as [H ?]).
  split_and!; by eapply bool_decide_eq_true_1.
Qed.

Lemma constraints_publishers d : constraints d = true -> NoDup (map pub_id (publishers d)).
Proof.
  unfold constraints, nodup. intros H. repeat (apply andb_true_iff in H as [H ?]). by eapply bool_decide_eq_true_1.
Qed.

Lemma constraints_channels d :
  constraints d = true -> NoDup (map (fun c => (c_module_id c, c_channel c)) (module_channels d)).
Proof.
  unfold constraints, nodup. intros H. repeat (apply andb_true_iff in H as [H ?]). by eapply bool_decide_eq_true_1.
Qed.

Lemma constraints_events d : constraints d = true -> NoDup (map idempotency_key (promotion_events d)).
Proof.
  unfold constraints, nodup. intros H. repeat (apply andb_true_iff in H as [H ?]). by eapply bool_decide_eq_true_1.
Qed.

Lemma first_Some' {A} (p : A -> bool) l x : first p l = Some x -> x ∈ l /\ p x = true.
Proof. intros H. apply List.find_some in H as [Hin Hp]. by rewrite list_elem_of_In. Qed.

Lemma first_app' {A} (p : A -> bool) l k :
  first p (l ++ k) = match first p l with Some x => Some x | None => first p k end.
Proof. unfold first. induction l as [|x l IH]; simpl; [done|]. by destruct (p x). Qed.

(** A selection by a key without duplicates. *)
Lemma first_by_key {A K} (key : A -> K) (p : A -> bool) l x :
  NoDup (map key l) -> x ∈ l -> p x = true -> (forall y, y ∈ l -> p y = true -> key y = key x) ->
  first p l = Some x.
Proof.
  intros Hnd Hx Hp Hk. destruct (first p l) as [y|] eqn:Hf.
  - apply first_Some' in Hf as [Hy Hpy]. f_equal. eapply (NoDup_map_inj key); try done. by apply Hk.
  - rewrite list_elem_of_In in Hx. apply List.find_none with (x := x) in Hf; [congruence | done].
Qed.

Lemma artifact_of_In d a :
  NoDup (map a_id (artifacts d)) -> a ∈ artifacts d -> artifact_of d (a_id a) = Some a.
Proof.
  intros Hnd Ha. apply (first_by_key a_id); try done; [apply N.eqb_refl|].
  intros y _ H. by apply N.eqb_eq in H.
Qed.

(** The version is published with this release and this evidence. *)
Record published_as (d : registry_db) (mid : string) (r : release) (ev : evidence) (promoted : bool)
    (v : version_row) (a : artifact_row) (p : provenance_row) : Prop := {
  pub_version : first (is_version mid (version r)) (module_versions d) = Some v;
  pub_artifact_row : artifact_of d (v_artifact_id v) = Some a;
  pub_sha256 : digest_algorithm a = "sha256";
  pub_release : release_structure v a (dependencies_of d (v_module_id v) (v_version v)) = r;
  pub_promoted : published v = promoted;
  pub_provenance : exists i, build_provenance_id v = Some i /\
                     first (fun p => N.eqb (p_id p) i) (provenances d) = Some p;
  pub_evidence : p_evidence p = ev
}.

Lemma dependency_rows_map mid r :
  list_to_map (map (fun x => (dependency_module_id x, specifier x)) (dependency_rows mid r)) = req_modules (requires r).
Proof.
  unfold dependency_rows. rewrite map_map.
  rewrite (map_ext _ (fun kv : string * string => kv)) by by intros []. rewrite map_id.
  rewrite <- (list_to_map_to_list (req_modules (requires r))) at 2.
  apply list_to_map_proper; [|apply sort_by_perm].
  rewrite sort_by_perm. apply NoDup_fst_map_to_list.
Qed.

Lemma dependency_rows_owner mid r x :
  x ∈ dependency_rows mid r -> owner_module_id x = mid /\ owner_version x = version r.
Proof. unfold dependency_rows. intros H. by apply list_elem_of_fmap in H as (kv & -> & _). Qed.

Lemma dependency_rows_of d mid r :
  dependencies_of d mid (version r) = [] ->
  List.filter (fun x => String.eqb (owner_module_id x) mid && String.eqb (owner_version x) (version r))
    (module_dependencies d ++ dependency_rows mid r) = dependency_rows mid r.
Proof.
  intros H. rewrite List.filter_app. unfold dependencies_of in H. rewrite H. simpl.
  assert (Hall : Forall (fun x => owner_module_id x = mid /\ owner_version x = version r) (dependency_rows mid r))
    by (apply Forall_forall; intros x Hx; by apply dependency_rows_owner).
  induction Hall as [|x l [Hm Hv] _ IH]; [done|]. simpl. by rewrite Hm, Hv, !String.eqb_refl, IH.
Qed.

Lemma ensure_artifact_Ok dg d a d' :
  ensure_artifact dg d = Ok (a, d') ->
  a ∈ artifacts d' /\ digest_algorithm a = "sha256" /\ a_digest a = dg /\
  module_versions d' = module_versions d /\ module_dependencies d' = module_dependencies d /\
  modules d' = modules d /\ publishers d' = publishers d /\ module_channels d' = module_channels d /\
  promotion_events d' = promotion_events d /\ provenances d' = provenances d.
Proof.
  unfold ensure_artifact, ensure_record. intros H. apply d_bind_Ok in H as (o & d1 & H1 & H).
  unfold query in H1. injection H1 as <- <-. apply d_bind_Ok in H as (o2 & d2 & H2 & H).
  assert (Ho : o2 = first (is_artifact dg) (artifacts d2) /\
    (d2 = d \/ d2 = put_artifacts (artifacts d ++ [{| a_id := artifact_seq d; digest_algorithm := "sha256";
        a_digest := dg; a_byte_size := None; a_storage_locator := None |}]) (artifact_seq d + 1) d)).
  { destruct (first (is_artifact dg) (artifacts d)) as [a0|] eqn:Hf.
    - unfold ret in H2. injection H2 as <- <-. split; [done | by left].
    - apply d_bind_Ok in H2 as (? & d3 & H3 & H2). unfold modify in H3. injection H3 as _ <-.
      apply d_bind_Ok in H2 as (? & d4 & H4 & H2). apply flush_Ok in H4 as [-> _].
      unfold query in H2. injection H2 as <- <-. split; [done | by right]. }
  destruct Ho as [-> Hd]. destruct (first (is_artifact dg) (artifacts d2)) as [a0|] eqn:Hf; [|done].
  destruct (is_artifact dg a0) eqn:Ha; [|done]. unfold ret in H. injection H as <- <-.
  apply first_Some' in Hf as [Hin _]. apply andb_true_iff in Ha as [Ha1 Ha2]. apply String.eqb_eq in Ha1, Ha2.
  destruct Hd as [->| ->]; by split_and!.
Qed.

Lemma no_dependencies d mid v :
  constraints d = true -> first (is_version mid v) (module_versions d) = None -> dependencies_of d mid v = [].
Proof.
  intros Hc Hf. unfold constraints in Hc. repeat (apply andb_true_iff in Hc as [Hc ?]).
  match goal with H : forallb (dependency_checks d) _ = true |- _ => rename H into Hdep end.
  unfold dependencies_of. destruct (List.filter _ _) as [|x l] eqn:He; [done|]. exfalso.
  assert (Hx : In x (x :: l)) by by left. rewrite <- He in Hx. apply filter_In in Hx as [Hx Hk].
  rewrite forallb_forall in Hdep. apply Hdep in Hx. unfold dependency_checks in Hx.
  apply andb_true_iff in Hx as [Hx _]. apply andb_true_iff in Hx as [_ Hx].
  apply andb_true_iff in Hk as [Hm Hv]. apply String.eqb_eq in Hm, Hv. rewrite Hm, Hv in Hx.
  apply existsb_exists in Hx as (r & Hr & Hkey).
  apply List.find_none with (x := r) in Hf; [|done]. unfold is_version in Hf. congruence.
Qed.

(** A release that was added reads back as it was given: the round trip through
    the tables. *)
Lemma add_version_Ok mid r order promoted ev d u d' :
  first (is_version mid (version r)) (module_versions d) = None ->
  add_version mid r order promoted ev d = Ok (u, d') ->
  constraints d' = true /\
  exists o aid pid a p, published_as d' mid r ev promoted (new_version mid r o aid pid promoted) a p /\
    a_digest a = sha256 (rel_artifact r) /\
    module_versions d' = module_versions d ++ [new_version mid r o aid pid promoted] /\
    (forall o', order = Some o' -> o = o') /\
    modules d' = modules d /\ publishers d' = publishers d /\ module_channels d' = module_channels d /\
    promotion_events d' = promotion_events d /\
    module_dependencies d' = module_dependencies d ++ dependency_rows mid r.
Proof.
  intros Hnone H. unfold add_version in H. apply d_bind_Ok in H as (o & d0 & H0 & H).
  assert (d0 = d /\ forall o', order = Some o' -> o = o') as [-> Ho].
  { destruct order as [o'|]; [unfold ret in H0; injection H0 as <- <-; split; [done | by intros ? [= <-]]|].
    unfold query in H0. by injection H0 as _ <-. }
  apply d_bind_Ok in H as (? & d0 & H1 & H). unfold query in H1. injection H1 as _ <-.
  apply d_bind_Ok in H as (? & d0 & H1 & H). apply reject_Ok in H1 as [_ ->].
  apply d_bind_Ok in H as (a & d1 & H1 & H).
  apply ensure_artifact_Ok in H1 as (Ha & Halg & Hdg & Hv1 & Hdep1 & Hm1 & Hp1 & Hch1 & Hev1 & _).
  apply d_bind_Ok in H as (pid & d2 & H2 & H). unfold query in H2. injection H2 as <- <-.
  apply d_bind_Ok in H as (? & d2 & H2 & H). unfold modify in H2. injection H2 as _ <-.
  apply d_bind_Ok in H as (? & d3 & H3 & H). apply flush_Ok in H3 as [-> Hc3].
  apply d_bind_Ok in H as (? & d4 & H4 & H). unfold modify in H4. injection H4 as _ <-.
  apply d_bind_Ok in H as (? & d5 & H5 & H). apply flush_Ok in H5 as [-> Hc5].
  apply d_bind_Ok in H as (? & d6 & H6 & H). unfold modify in H6. injection H6 as _ <-.
  apply flush_Ok in H as [-> Hc]. split; [exact Hc|].
  apply no_dependencies with (mid := mid) (v := version r) in Hc3; [|simpl; by rewrite Hv1].
  destruct (constraints_ids _ Hc) as (_ & Hna & Hnp & Hnv). simpl in *.
  do 4 eexists. exists {| p_id := provenance_seq d1; p_evidence := ev; p_imported := negb promoted |}.
  split; [|split_and!; try done; by rewrite ?Hv1, ?Hdep1]. split; simpl; try done.
  - rewrite first_app', Hv1, Hnone. simpl. unfold is_version. simpl. by rewrite !String.eqb_refl.
  - by apply artifact_of_In.
  - unfold release_structure, dependencies_of. simpl.
    assert (Hl := dependency_rows_of d1 mid r). simpl in Hl. rewrite Hl by exact Hc3.
    rewrite dependency_rows_map, Hdg. by destruct r as [? ? [] ? ? ? []].
  - eexists. split; [done|]. apply (first_by_key p_id); try done.
    + apply elem_of_app. right. by constructor.
    + apply N.eqb_refl.
    + simpl. intros y _ Hy. by apply N.eqb_eq in Hy.
Qed.

(** *** Published versions in later states *)

(** No dependency is added to a version that is there. *)
Definition sealed (d d' : registry_db) : Prop :=
  forall v, v ∈ module_versions d ->
    dependencies_of d' (v_module_id v) (v_version v) = dependencies_of d (v_module_id v) (v_version v).

Lemma sealed_refl d d' : module_dependencies d' = module_dependencies d -> sealed d d'.
Proof. intros H v _. unfold dependencies_of. by rewrite H. Qed.

Lemma sealed_trans d1 d2 d3 :
  sealed d1 d2 -> sealed d2 d3 -> extends d1 d2 -> sealed d1 d3.
Proof. intros H12 H23 He v Hv. rewrite H23; [by apply H12 | by apply (ext_versions _ _ He)]. Qed.

Lemma first_None_In {A} (p : A -> bool) l x : first p l = None -> x ∈ l -> p x = false.
Proof. intros Hf Hx. rewrite list_elem_of_In in Hx. by eapply List.find_none in Hf. Qed.

Lemma filter_none {A} (p : A -> bool) l : (forall x, x ∈ l -> p x = false) -> List.filter p l = [].
Proof.
  induction l as [|x l IH]; intros H; [done|]. simpl. rewrite H by by constructor.
  apply IH. intros y Hy. apply H. by constructor.
Qed.

Lemma sealed_append mid r d d' :
  first (is_version mid (version r)) (module_versions d) = None ->
  module_dependencies d' = module_dependencies d ++ dependency_rows mid r -> sealed d d'.
Proof.
  intros Hnone Hdep v Hv. unfold dependencies_of. rewrite Hdep, List.filter_app.
  assert (Hne := first_None_In _ _ _ Hnone Hv). unfold is_version in Hne.
  rewrite (filter_none _ (dependency_rows mid r)); [by rewrite app_nil_r|].
  intros x Hx. apply dependency_rows_owner in Hx as [-> ->].
  rewrite (String.eqb_sym mid), (String.eqb_sym (version r)). by rewrite Hne.
Qed.

Lemma first_keyed {A K} (key : A -> K) (p : A -> bool) l k x :
  NoDup (map key k) -> (forall y, p y = true -> key y = key x) -> subset l k -> first p l = Some x -> first p k = Some x.
Proof.
  intros Hnd Hp Hs Hf. apply first_Some' in Hf as [Hx Hpx]. apply (first_by_key key); auto.
Qed.

Lemma is_version_key mid v x y : is_version mid v x = true -> is_version mid v y = true ->
  (v_module_id x, v_version x) = (v_module_id y, v_version y).
Proof.
  unfold is_version. intros H1 H2. apply andb_true_iff in H1 as [->%String.eqb_eq ->%String.eqb_eq].
  by apply andb_true_iff in H2 as [->%String.eqb_eq ->%String.eqb_eq].
Qed.

Lemma published_as_later d d' mid r ev promoted v a p :
  published_as d mid r ev promoted v a p -> extends d d' -> sealed d d' -> constraints d' = true ->
  exists a', a_digest a' = a_digest a /\ published_as d' mid r ev promoted v a' p.
Proof.
  intros [] He Hs Hc. destruct (constraints_ids _ Hc) as (_ & Hna & Hnp & Hnv).
  destruct pub_provenance0 as (i & Hi & Hp). apply first_Some' in pub_version0 as Hv. destruct Hv as [Hv Hkey].
  apply first_Some' in pub_artifact_row0 as Ha. destruct Ha as [Ha Hid]. apply N.eqb_eq in Hid.
  destruct (ext_artifacts _ _ He a Ha) as (a' & Ha' & Hi' & Hal & Hdg). exists a'. split; [done|]. split.
  - apply (first_by_key (fun v => (v_module_id v, v_version v))); try done; [by apply (ext_versions _ _ He)|].
    intros y _ Hy. by eapply is_version_key.
  - rewrite <- Hid, <- Hi'. by apply artifact_of_In.
  - congruence.
  - rewrite Hs by done. unfold release_structure in *. by rewrite Hdg.
  - done.
  - exists i. split; [done|]. apply first_Some' in Hp as [Hp Hpi]. apply N.eqb_eq in Hpi.
    apply (first_by_key p_id); [done | by apply (ext_provenances _ _ He) | by apply N.eqb_eq |].
    intros y _ Hy. apply N.eqb_eq in Hy. congruence.
  - done.
Qed.

Lemma reject_false e d : reject_if false e d = Ok (tt, d).
Proof. done. Qed.

(** The order the caller asks for. *)
Definition order_is (order : option Z) (o : Z) : Prop := forall o', order = Some o' -> o = o'.

(** The check of a version that is there succeeds exactly for the release, the
    evidence and the order it was published with. *)
Lemma check_published_Ok mid r order promoted ev v d u d' :
  first (is_version mid (version r)) (module_versions d) = Some v ->
  check_published mid r order promoted ev v d = Ok (u, d') <->
  d' = d /\ order_is order (historical_order v) /\ exists a p, published_as d mid r ev promoted v a p.
Proof.
  intros Hv. unfold check_published. split.
  - intros H. apply d_bind_Ok in H as (? & d1 & H1 & H). apply reject_Ok in H1 as [Ho ->].
    apply d_bind_Ok in H as (o & d1 & H1 & H). unfold query in H1. injection H1 as <- <-.
    destruct (artifact_of d (v_artifact_id v)) as [a|] eqn:Ha; [|done].
    apply d_bind_Ok in H as (deps & d1 & H1 & H). unfold query in H1. injection H1 as <- <-.
    apply d_bind_Ok in H as (? & d1 & H1 & H). apply reject_Ok in H1 as [Hr ->].
    apply d_bind_Ok in H as (op & d1 & H1 & H). unfold query in H1. injection H1 as <- <-.
    apply d_bind_Ok in H as (? & d1 & H1 & H). apply reject_Ok in H1 as [Hp ->].
    apply reject_Ok in H as [Hal ->]. split; [done|]. split.
    { intros o' ->. by apply negb_false_iff, Z.eqb_eq in Ho. }
    destruct (build_provenance_id v) as [i|] eqn:Hi; [|done].
    destruct (first _ (provenances d)) as [p|] eqn:Hf; [|done].
    apply orb_false_iff in Hr as [Hr1 Hr2]. apply negb_false_iff in Hr1, Hr2, Hp, Hal.
    apply bool_decide_eq_true_1 in Hr1, Hp. apply eqb_prop in Hr2. apply String.eqb_eq in Hal.
    exists a, p. split; try done. by exists i.
  - intros (-> & Ho & a & p & [? ? Hal ? ? ? ?]).
    assert (Hc : match order with Some o => negb (Z.eqb (historical_order v) o) | None => false end = false).
    { destruct order as [o|]; [|done]. by rewrite (Ho o eq_refl), Z.eqb_refl. }
    unfold bind, query, ret. rewrite Hc, reject_false, pub_artifact_row0, pub_release0.
    rewrite bool_decide_true, pub_promoted0, eqb_reflx by done. destruct pub_provenance0 as (i & Hi & Hf).
    rewrite Hi. cbv beta iota. simpl negb. rewrite reject_false, Hf. rewrite bool_decide_true, Hal by done.
    by destruct u.
Qed.

(** What an insertion leaves. *)
Record inserted (d d' : registry_db) (mid : string) (r : release) (order : option Z) (ev : evidence)
    (promoted : bool) : Prop := {
  ins_new : first (is_version mid (version r)) (module_versions d) = None;
  ins_row : exists o aid pid a p, published_as d' mid r ev promoted (new_version mid r o aid pid promoted) a p /\
    a_digest a = sha256 (rel_artifact r) /\ order_is order o /\
    module_versions d' = module_versions d ++ [new_version mid r o aid pid promoted];
  ins_modules : modules d' = modules d;
  ins_publishers : publishers d' = publishers d;
  ins_channels : module_channels d' = module_channels d;
  ins_events : promotion_events d' = promotion_events d;
  ins_extends : extends d d';
  ins_sealed : sealed d d';
  ins_constraints : constraints d' = true
}.

Lemma add_version_inserted mid r order promoted ev d u d' :
  first (is_version mid (version r)) (module_versions d) = None ->
  add_version mid r order promoted ev d = Ok (u, d') -> inserted d d' mid r order ev promoted.
Proof.
  intros Hnone H. assert (He := growing_add _ _ _ _ _ _ _ _ H).
  destruct (add_version_Ok _ _ _ _ _ _ _ _ Hnone H)
    as (Hc & o & aid & pid & a & p & Hp & Hdg & Hv & Ho & Hm & Hpub & Hch & Hev & Hdep).
  split; try done; [|by eapply sealed_append]. by exists o, aid, pid, a, p.
Qed.

Section Insert.
Context (schema_valid : string -> json -> bool).

(** What [insert_published_version] looks at first: the module and its
    publisher, and the release as a release of the module. *)
Record acceptable (d : registry_db) (mid : string) (r : release) (m : module_row) (p : publisher) : Prop := {
  acc_module : first (fun m => String.eqb (m_id m) mid) (modules d) = Some m;
  acc_publisher : publisher_of d m = Some p;
  acc_valid : is_ok (validate_module schema_valid (module_json (module_structure m p [r])) "DB version" None) = true
}.

Lemma insert_Ok mid r order pv d b d' :
  insert_published_version schema_valid mid r order pv d = Ok (b, d') ->
  exists m p, acceptable d mid r m p /\
  let promoted := bool_decide (is_Some pv) in
  let ev := default (historical_provenance m r) pv in
  (b = true /\ inserted d d' mid r order ev promoted) \/
  (b = false /\ d' = d /\ exists v a pr, order_is order (historical_order v) /\ published_as d mid r ev promoted v a pr).
Proof.
  unfold insert_published_version, get_module. intros H.
  apply d_bind_Ok in H as (om & d1 & H1 & H). unfold query in H1. injection H1 as <- <-.
  destruct (first _ (modules d)) as [m|] eqn:Hm; [|done].
  apply d_bind_Ok in H as (op & d1 & H1 & H). unfold query in H1. injection H1 as <- <-.
  destruct (publisher_of d m) as [p|] eqn:Hp; [|done].
  apply d_bind_Ok in H as (? & d1 & H1 & H). apply checked_Ok in H1 as [Hval ->].
  apply d_bind_Ok in H as (ov & d1 & H1 & H). unfold query in H1. injection H1 as <- <-.
  exists m, p. split; [split; [done | done | by rewrite Hval]|]. cbv zeta.
  destruct (first _ (module_versions d)) as [v|] eqn:Hv;
    apply d_bind_Ok in H as (? & d1 & H1 & H); unfold ret in H; injection H as <- <-.
  - right. apply check_published_Ok in H1 as (-> & Ho & a & pr & Hpub); [|done].
    split; [done|]. split; [done|]. by exists v, a, pr.
  - left. split; [done|]. by eapply add_version_inserted.
Qed.

(** Inserting what is published changes nothing. *)
Lemma insert_again mid r order pv d m p v a pr :
  acceptable d mid r m p -> order_is order (historical_order v) ->
  published_as d mid r (default (historical_provenance m r) pv) (bool_decide (is_Some pv)) v a pr ->
  insert_published_version schema_valid mid r order pv d = Ok (false, d).
Proof.
  intros [Hm Hp Hval] Ho Hpub. unfold insert_published_version, get_module.
  unfold bind at 1, query at 1. rewrite Hm. unfold bind at 1, query at 1. rewrite Hp.
  apply is_ok_iff in Hval as [doc Hval]. rewrite Hval. unfold checked, bind at 1, ret at 1.
  unfold bind at 1, query at 1. rewrite (pub_version _ _ _ _ _ _ _ _ Hpub).
  assert (Hc : check_published mid r order (bool_decide (is_Some pv)) (default (historical_provenance m r) pv) v d = Ok (tt, d)).
  { apply check_published_Ok; [by eapply pub_version|]. split; [done|]. split; [done|]. by exists a, pr. }
  unfold bind. by rewrite Hc.
Qed.

Lemma found_later d d' mid m p :
  extends d d' -> constraints d' = true ->
  first (fun m => String.eqb (m_id m) mid) (modules d) = Some m -> publisher_of d m = Some p ->
  first (fun m => String.eqb (m_id m) mid) (modules d') = Some m /\ publisher_of d' m = Some p.
Proof.
  intros He Hc Hm Hp. split.
  - eapply (first_keyed m_id); [by apply constraints_ids | | by apply (ext_modules _ _ He) | exact Hm].
    intros y Hy. apply first_Some' in Hm as [_ Hm]. apply String.eqb_eq in Hm, Hy. congruence.
  - unfold publisher_of in *. eapply (first_keyed pub_id); [| | by apply (ext_publishers _ _ He) | exact Hp].
    + by apply constraints_publishers.
    + intros y Hy. apply first_Some' in Hp as [_ Hp]. apply String.eqb_eq in Hp, Hy. congruence.
Qed.

Lemma acceptable_later d d' mid r m p :
  acceptable d mid r m p -> extends d d' -> constraints d' = true -> acceptable d' mid r m p.
Proof. intros [Hm Hp Hval] He Hc. destruct (found_later d d' mid m p He Hc Hm Hp). by split. Qed.

End Insert.
