(* ===== verification/RegistryImport.v ===== *)
(** * The shadow import: web/backend/app/registry_import_v1.py

    The validated registry of JSON documents is copied into the registry
    database: publishers, modules, every release with its position, the channels
    of the index; then the database has to project to the same bytes. *)

From S2P Require Import Prelude PyText SemVer Json Url Validate Registry RegistryDb.

Open Scope string_scope.
Open Scope list_scope.

(** [[f(x) for x in l]] in a transaction. *)
Fixpoint for_each {A B} (f : A -> D B) (l : list A) : D (list B) :=
  match l with
  | [] => ret []
  | x :: l => do y <- f x; do ys <- for_each f l; ret (y :: ys)
  end.

Record import_report := {
  inserted_versions : nat; report_counts : list (string * nat); report_channels : gmap string (gmap string index_channel)
}.

Section ShadowImport.
Context (schema_valid : string -> json -> bool).

Definition module_record (m : module) : module_row :=
  {| m_id := id m; m_name := name m; m_description := description m; m_homepage := homepage m;
     m_documentation_url := documentation_url m; m_publisher_id := pub_id (mod_publisher m);
     m_classification := classification m; m_license := license m; m_source_repository := source_repository m |}.

(** The releases with their positions, module by module. *)
Definition positioned (ms : list module) : list (string * Z * release) :=
  concat (map (fun m => imap (fun i r => (id m, Z.of_nat i, r)) (versions m)) ms).

(** The channels of the index: module, channel, version. *)
Definition pointers (index : list index_entry) : list (string * string * string) :=
  concat (map (fun e => map (fun c => (entry_id e, fst c, ch_version (snd c))) (entry_channels e)) index).

(** [canonical_json] of a list of modules. *)
Definition documents (ms : list module) : string := canonical_json (JArr (map (fun m => JObj (module_json m)) ms)).

Definition insert_positioned (x : string * Z * release) : D bool :=
  let '(mid, position, r) := x in insert_published_version schema_valid mid r (Some position) None.

Definition ensure_pointer (x : string * string * string) : D channel_row :=
  let '(mid, ch, v) := x in ensure_channel mid ch v.

Definition import_transaction (modules expected : list module) (index : list index_entry) : D import_report :=
  for_each (fun m => ensure_publisher (mod_publisher m)) modules >>
  for_each (fun m => ensure_module (module_record m)) modules >>
  do inserted <- for_each insert_positioned (positioned expected);
  for_each ensure_pointer (pointers index) >>
  do projection <- query (project_v1 None);
  reject_if (negb (String.eqb (documents projection) (documents expected)))
    (RegistryConflict "DB projection differs from complete Registry v1 source") >>
  do current <- query (channel_targets None);
  reject_if (negb (bool_decide (current = index_targets index)))
    (RegistryConflict "DB channel pointers differ from Registry v1 index") >>
  do numbers <- query counts;
  ret {| inserted_versions := length (List.filter (fun b => b) inserted); report_counts := numbers;
         report_channels := index_targets index |}.

(** The modules a registry loads to are typed ([validate_module_sound]). *)
Definition import_registry (root : string) (envelope : option string) (files : list (string * string))
    : D import_report := fun d =>
  let? values := lifted (load_registry schema_valid root envelope files) in
  let? modules := of_option AttributeError (mapM module_of_json values) in
  let? expected := lifted (traverse canonical_module modules) in
  let? index := lifted (build_index schema_valid modules) in
  import_transaction modules expected index d.

(** ** Steps that settle *)

(** A later state, in which no channel has moved. *)
Record later (d d' : registry_db) : Prop := {
  later_extends : extends d d';
  later_sealed : sealed d d';
  later_channels : subset (module_channels d) (module_channels d');
  later_constraints : constraints d' = true
}.

Lemma later_refl d : constraints d = true -> later d d.
Proof. by split. Qed.

Lemma later_trans d1 d2 d3 : later d1 d2 -> later d2 d3 -> later d1 d3.
Proof.
  intros [] []. split; [by etransitivity | by eapply sealed_trans | | done].
  intros x Hx. auto.
Qed.

(** Once the step has succeeded it does nothing in any later state, with a
    result that satisfies [again]. *)
Definition settles {A} (m : D A) (again : A -> Prop) : Prop :=
  forall d a d', m d = Ok (a, d') -> constraints d = true ->
    later d d' /\ forall d2, later d' d2 -> exists a', m d2 = Ok (a', d2) /\ again a'.

Lemma settles_for_each {A B} (f : A -> D B) again l :
  (forall x, settles (f x) again) -> settles (for_each f l) (Forall again).
Proof.
  intros Hf. induction l as [|x l IH]; intros d a d' H Hc; simpl in H.
  - injection H as <- <-. split; [by apply later_refl|]. intros d2 _. by exists [].
  - apply d_bind_Ok in H as (y & d1 & H1 & H). apply d_bind_Ok in H as (ys & d2 & H2 & H).
    unfold ret in H. injection H as <- <-. destruct (Hf _ _ _ _ H1 Hc) as [Hl1 Hs1].
    destruct (IH _ _ _ H2 (later_constraints _ _ Hl1)) as [Hl2 Hs2].
    split; [by eapply later_trans|]. intros d3 Hl3.
    destruct (Hs1 d3) as (y' & E1 & ?); [by eapply later_trans|]. destruct (Hs2 d3 Hl3) as (ys' & E2 & ?).
    exists (y' :: ys'). split; [|by constructor]. simpl. unfold bind, ret. by rewrite E1, E2.
Qed.

(** [ensure_record] settles when its row stays. *)
Lemma settles_ensure {A K} table (get : registry_db -> list A) (key : A -> bool) (column : A -> K) ins same :
  (forall d d', later d d' -> subset (get d) (get d')) ->
  (forall d, constraints d = true -> NoDup (map column (get d))) ->
  (forall x y, key x = true -> key y = true -> column x = column y) ->
  (forall d, constraints (ins d) = true -> later d (ins d)) ->
  settles (ensure_record table get key ins same) (fun _ => True).
Proof.
  intros Hsub Hnd Hkey Hins d a d' H Hc. unfold ensure_record in H. d_step H.
  apply d_bind_Ok in H as (o2 & d2 & H2 & H).
  assert (later d d2 /\ o2 = first key (get d2)) as [Hl ->].
  { destruct (first key (get d)) as [x|] eqn:Hf.
    - unfold ret in H2. injection H2 as <- <-. split; [by apply later_refl | done].
    - do 2 d_step H2. unfold query in H2. injection H2 as <- <-. split; [by apply Hins | done]. }
  destruct (first key (get d2)) as [x|] eqn:Hf; [|done]. destruct (same x) eqn:Hs; [|done].
  unfold ret in H. injection H as <- <-. split; [done|]. intros d3 Hl3. exists x. split; [|done].
  assert (Hf3 : first key (get d3) = Some x).
  { eapply (first_keyed column); [by apply Hnd, Hl3 | | by apply Hsub | exact Hf].
    intros y Hy. apply first_Some' in Hf as [_ Hx]. by apply Hkey. }
  unfold ensure_record, bind, query, ret. by rewrite Hf3, Hs.
Qed.
Lemma settles_publisher p : settles (ensure_publisher p) (fun _ => True).
Proof.
  unfold ensure_publisher. eapply (settles_ensure _ publishers _ pub_id).
  - intros d d' Hl. apply Hl.
  - intros d Hc. by apply constraints_publishers.
  - intros x y Hx Hy. apply String.eqb_eq in Hx, Hy. congruence.
  - intros d Hc. split; [apply extends_publishers | by apply sealed_refl | by intros x | done].
Qed.

Lemma settles_module m : settles (ensure_module m) (fun _ => True).
Proof.
  unfold ensure_module. eapply (settles_ensure _ modules _ m_id).
  - intros d d' Hl. apply Hl.
  - intros d Hc. by apply constraints_ids.
  - intros x y Hx Hy. apply String.eqb_eq in Hx, Hy. congruence.
  - intros d Hc. split; [apply extends_modules | by apply sealed_refl | by intros x | done].
Qed.

Lemma settles_pointer x : settles (ensure_pointer x) (fun _ => True).
Proof.
  destruct x as [[mid ch] v]. unfold ensure_pointer, ensure_channel.
  eapply (settles_ensure _ module_channels _ (fun c => (c_module_id c, c_channel c))).
  - intros d d' Hl. apply Hl.
  - intros d Hc. by apply constraints_channels.
  - intros x y Hx Hy. apply andb_true_iff in Hx as [Hx1 Hx2], Hy as [Hy1 Hy2].
    apply String.eqb_eq in Hx1, Hx2, Hy1, Hy2. congruence.
  - intros d Hc. split; [apply extends_channels | by apply sealed_refl | | done].
    intros x Hx. simpl. apply elem_of_app. by left.
Qed.

(** An insertion settles: later it finds the version and reports no insertion. *)
Lemma settles_insert x : settles (insert_positioned x) (fun b => b = false).
Proof.
  destruct x as [[mid o] r]. intros d b d' H Hc. apply insert_Ok in H as (m & p & Hacc & H).
  simpl in H.
  assert (Hl : later d d').
  { destruct H as [[_ Hi]|(_ & -> & _)]; [|by apply later_refl].
    split; [apply Hi | apply Hi | | apply Hi]. rewrite (ins_channels _ _ _ _ _ _ _ Hi). by intros y. }
  assert (Hp : exists v a pr, order_is (Some o) (historical_order v) /\
                 published_as d' mid r (historical_provenance m r) false v a pr).
  { destruct H as [[_ Hi]|(_ & -> & v & a & pr & Ho & Hpub)]; [|by exists v, a, pr].
    destruct (ins_row _ _ _ _ _ _ _ Hi) as (o' & aid & pid & a & pr & Hpub & _ & Ho & _).
    eexists _, a, pr. split; [|exact Hpub]. exact Ho. }
  split; [done|]. intros d2 [He Hs _ Hc2]. destruct Hp as (v & a & pr & Ho & Hpub).
  destruct (published_as_later _ _ _ _ _ _ _ _ _ Hpub He Hs Hc2) as (a' & _ & Hpub2). exists false. split; [|done].
  eapply (insert_again schema_valid mid r (Some o) None d2 m p v a' pr); [|exact Ho | exact Hpub2].
  eapply acceptable_later; [exact Hacc | | done]. transitivity d'; [apply Hl | done].
Qed.

(** What the import settles, step by step. *)
Lemma import_Ok modules expected index d rep d' :
  import_transaction modules expected index d = Ok (rep, d') -> constraints d = true ->
  later d d' /\ documents (project_v1 None d') = documents expected /\
  channel_targets None d' = index_targets index /\ report_channels rep = index_targets index /\
  report_counts rep = counts d' /\
  forall d2, later d' d2 ->
    (exists a, for_each (fun m => ensure_publisher (mod_publisher m)) modules d2 = Ok (a, d2)) /\
    (exists a, for_each (fun m => ensure_module (module_record m)) modules d2 = Ok (a, d2)) /\
    (exists a, for_each insert_positioned (positioned expected) d2 = Ok (a, d2) /\ Forall (fun b => b = false) a) /\
    (exists a, for_each ensure_pointer (pointers index) d2 = Ok (a, d2)).
Proof.
  unfold import_transaction. intros H Hc.
  apply d_bind_Ok in H as (x1 & d1 & H1 & H).
  destruct (settles_for_each _ _ _ (fun m => settles_publisher (mod_publisher m)) _ _ _ H1 Hc) as [L1 S1].
  apply d_bind_Ok in H as (x2 & d2 & H2 & H).
  destruct (settles_for_each _ _ _ (fun m => settles_module (module_record m)) _ _ _ H2 (later_constraints _ _ L1)) as [L2 S2].
  apply d_bind_Ok in H as (x3 & d3 & H3 & H).
  destruct (settles_for_each _ _ _ settles_insert _ _ _ H3 (later_constraints _ _ L2)) as [L3 S3].
  apply d_bind_Ok in H as (x4 & d4 & H4 & H).
  destruct (settles_for_each _ _ _ settles_pointer _ _ _ H4 (later_constraints _ _ L3)) as [L4 S4].
  do 4 d_step H. rename H0 into Hdoc. match goal with H : negb (bool_decide _) = false |- _ => rename H into Hch end.
  d_step H. unfold ret in H. injection H as <- <-. apply negb_false_iff in Hdoc, Hch.
  apply String.eqb_eq in Hdoc. apply bool_decide_eq_true_1 in Hch.
  assert (L34 := later_trans _ _ _ L3 L4). assert (L24 := later_trans _ _ _ L2 L34).
  split; [by eapply later_trans|]. split_and!; try done. intros d5 L5. split_and!.
  - destruct (S1 d5) as (a & ? & _); [by eapply later_trans | by exists a].
  - destruct (S2 d5) as (a & ? & _); [by eapply later_trans | by exists a].
  - destruct (S3 d5) as (a & ? & ?); [by eapply later_trans | by exists a].
  - destruct (S4 d5) as (a & ? & _); [done | by exists a].
Qed.

Lemma none_inserted l : Forall (fun b => b = false) l -> List.filter (fun b : bool => b) l = [].
Proof. intros H. apply filter_none. intros x Hx. rewrite Forall_forall in H. by apply H. Qed.

(** *** An import adds no promoted version *)

Definition imports {A} (m : D A) : Prop :=
  forall d a d', m d = Ok (a, d') -> forall v, v ∈ module_versions d' -> published v = true -> v ∈ module_versions d.

Lemma imports_same {A} (m : D A) :
  (forall d a d', m d = Ok (a, d') -> module_versions d' = module_versions d) -> imports m.
Proof. intros H d a d' E v Hv _. by rewrite (H _ _ _ E) in Hv. Qed.

Lemma imports_bind {A B} (m : D A) (k : A -> D B) : imports m -> (forall a, imports (k a)) -> imports (bind m k).
Proof. intros Hm Hk d b d' H v Hv Hp. apply d_bind_Ok in H as (a & d1 & H1 & H2). eapply Hm; [exact H1 | by eapply Hk | done]. Qed.

Lemma imports_ret {A} (a : A) : imports (ret a).
Proof. apply imports_same. intros d b d' H. by d_inv. Qed.

Lemma imports_query {A} (f : registry_db -> A) : imports (query f).
Proof. apply imports_same. intros d b d' H. by d_inv. Qed.

Lemma imports_reject c e : imports (reject_if c e).
Proof. apply imports_same. intros d b d' H. by d_inv. Qed.

Lemma imports_for_each {A B} (f : A -> D B) l : (forall x, imports (f x)) -> imports (for_each f l).
Proof.
  intros Hf. induction l as [|x l IH]; [apply imports_ret|]. simpl.
  apply imports_bind; [done|]. intros y. apply imports_bind; [done|]. intros ys. apply imports_ret.
Qed.

Lemma imports_ensure {A} table (get : registry_db -> list A) key ins same :
  (forall d, module_versions (ins d) = module_versions d) -> imports (ensure_record table get key ins same).
Proof.
  intros Hi. unfold ensure_record. apply imports_bind; [apply imports_query|]. intros o.
  apply imports_bind.
  - destruct o; [apply imports_ret|]. apply imports_bind.
    + apply imports_same. intros d b d' H. by d_inv.
    + intros []. apply imports_bind; [|intros _; apply imports_query]. apply imports_same. intros d b d' H. by d_inv.
  - intros [r|]; [|by intros d a d']. destruct (same r); [apply imports_ret | by intros d a d'].
Qed.

Lemma imports_insert x : imports (insert_positioned x).
Proof.
  destruct x as [[mid o] r]. intros d b d' H v Hv Hp. apply insert_Ok in H as (m & p & _ & [[_ Hi]|(_ & -> & _)]); [|done].
  destruct (ins_row _ _ _ _ _ _ _ Hi) as (o' & aid & pid & a & pr & _ & _ & _ & Hrows). rewrite Hrows in Hv.
  apply elem_of_app in Hv as [Hv|Hv%list_elem_of_singleton]; [done|]. by subst v.
Qed.

Lemma imports_transaction modules expected index : imports (import_transaction modules expected index).
Proof.
  unfold import_transaction.
  apply imports_bind; [apply imports_for_each; intros m; by apply imports_ensure|]. intros _.
  apply imports_bind; [apply imports_for_each; intros m; by apply imports_ensure|]. intros _.
  apply imports_bind; [apply imports_for_each, imports_insert|]. intros inserted.
  apply imports_bind; [apply imports_for_each; intros [[mid ch] v]; by apply imports_ensure|]. intros _.
  do 2 (apply imports_bind; [first [apply imports_query | apply imports_reject]|]; intros ?).
  do 2 (apply imports_bind; [first [apply imports_query | apply imports_reject]|]; intros ?).
  apply imports_bind; [apply imports_query|]. intros ?. apply imports_ret.
Qed.

(** ** Properties *)

(** The import as a transaction on the typed registry. *)
Lemma import_registry_Ok root envelope files d x :
  import_registry root envelope files d = Ok x <->
  exists values modules expected index,
    load_registry schema_valid root envelope files = Ok values /\ mapM module_of_json values = Some modules /\
    traverse canonical_module modules = Ok expected /\ build_index schema_valid modules = Ok index /\
    import_transaction modules expected index d = Ok x.
Proof.
  unfold import_registry, lifted. split.
  - intros H. destruct (load_registry _ _ _ _) as [values|]; [|done]. simpl in H.
    destruct (mapM _ values) as [modules|] eqn:Hm; [|done]. simpl in H.
    destruct (traverse _ _) as [expected|] eqn:He; [|done]. simpl in H.
    destruct (build_index _ _) as [index|] eqn:Hi; [|done]. simpl in H. by exists values, modules, expected, index.
  - intros (values & modules & expected & index & -> & Hm & He & Hi & H). simpl. rewrite Hm. simpl. rewrite He. simpl.
    rewrite Hi. done.
Qed.

(** C4. Parity of the import: when it returns, the database projects to exactly
    the canonical JSON text of the registry it was given and to exactly the
    channels of its index; nothing that was in the database is gone, and no
    version was marked as promoted. *)
Theorem import_parity root envelope files d rep d' :
  constraints d = true -> import_registry root envelope files d = Ok (rep, d') ->
  exists values modules expected index,
    load_registry schema_valid root envelope files = Ok values /\ mapM module_of_json values = Some modules /\
    traverse canonical_module modules = Ok expected /\ build_index schema_valid modules = Ok index /\
    documents (project_v1 None d') = documents expected /\ channel_targets None d' = index_targets index /\
    report_counts rep = counts d' /\ extends d d' /\ constraints d' = true /\
    (forall v, v ∈ module_versions d' -> published v = true -> v ∈ module_versions d).
Proof.
  intros Hc H. apply import_registry_Ok in H as (values & modules & expected & index & Hl & Hm & He & Hi & H).
  exists values, modules, expected, index.
  destruct (import_Ok _ _ _ _ _ _ H Hc) as ([] & Hdoc & Hch & _ & Hcn & _). split_and!; try done.
  by eapply imports_transaction.
Qed.

(** The import is idempotent: run again it succeeds, inserts no version and
    changes nothing, and reports the same counts and channels. *)
Theorem import_again root envelope files d rep d' :
  constraints d = true -> import_registry root envelope files d = Ok (rep, d') ->
  exists rep', import_registry root envelope files d' = Ok (rep', d') /\ inserted_versions rep' = 0%nat /\
    report_counts rep' = report_counts rep /\ report_channels rep' = report_channels rep.
Proof.
  intros Hc H. apply import_registry_Ok in H as (values & modules & expected & index & Hl & Hm & He & Hi & H).
  destruct (import_Ok _ _ _ _ _ _ H Hc) as (Hlater & Hdoc & Hch & Hrep & Hcn & Hagain).
  destruct (Hagain d') as ((x1 & E1) & (x2 & E2) & (x3 & E3 & Hnone) & (x4 & E4)).
  { apply later_refl, Hlater. }
  exists {| inserted_versions := 0; report_counts := counts d'; report_channels := index_targets index |}.
  split; [|by rewrite Hcn, Hrep]. apply import_registry_Ok. exists values, modules, expected, index. split_and!; try done.
  unfold import_transaction. unfold bind at 1. rewrite E1. unfold bind at 1. rewrite E2. unfold bind at 1. rewrite E3.
  unfold bind at 1. rewrite E4. unfold bind, query. rewrite Hdoc, String.eqb_refl, reject_false.
  rewrite bool_decide_true, reject_false by done. unfold ret. by rewrite (none_inserted _ Hnone).
Qed.

End ShadowImport.

(** ** An example *)

Definition empty_db : registry_db :=
  {| publishers := []; modules := []; artifacts := []; provenances := []; module_versions := []; module_channels := [];
     module_dependencies := []; promotion_events := []; artifact_seq := 1; provenance_seq := 1;
     alembic_version := ["0049_promotions"] |}.

Definition example_envelope : option string := Some (canonical_json (JObj [("schema_version", JInt 1)])).
Definition example_core : module :=
  {| id := "core"; name := "Core"; description := None;
     mod_publisher := {| pub_id := "oklab"; pub_name := "OK Lab" |}; classification := "first-party";
     source_repository := "https://github.com/oklabflensburg/core"; license := "MIT"; homepage := None;
     documentation_url := None;
     versions := [{| version := "0.1.0"; channel := "stable";
                     rel_artifact := {| url := canonical_url "core" "0.1.0"; sha256 := zeros 64 |};
                     bundle_format_version := 1; source_commit := zeros 40; source_tag := None;
                     requires := {| req_host := ">=1.0.0"; req_sdk := ">=1.0.0"; req_modules := ∅ |} |}] |}.

Definition example_files : list (string * string) :=
  [("hello.json", canonical_json (JObj (module_json example_old)));
   ("core.json", canonical_json (JObj (module_json example_core)))].

Definition example_import : res reg_exn (import_report * registry_db) :=
  import_registry any_schema "registry" example_envelope example_files empty_db.

(** The database after the import. *)
Definition imported_db : registry_db := match example_import with Ok (_, d) => d | Err _ => empty_db end.

Lemma example_import_Ok :
  exists rep, import_registry any_schema "registry" example_envelope example_files empty_db = Ok (rep, imported_db).
Proof. eexists. vm_compute. reflexivity. Qed.

Lemma import_parity_witness :
  exists expected, documents (project_v1 None imported_db) = documents expected /\ length (module_versions imported_db) = 3%nat.
Proof.
  destruct example_import_Ok as [rep H].
  edestruct (import_parity any_schema "registry" example_envelope example_files empty_db rep imported_db)
    as (_ & _ & expected & _ & _ & _ & _ & _ & Hd & _); [vm_compute; reflexivity | exact H |].
  exists expected. split; [exact Hd | vm_compute; reflexivity].
Defined.

Lemma import_again_witness :
  exists rep', import_registry any_schema "registry" example_envelope example_files imported_db = Ok (rep', imported_db)
    /\ inserted_versions rep' = 0%nat.
Proof.
  destruct example_import_Ok as [rep H].
  edestruct (import_again any_schema "registry" example_envelope example_files empty_db rep imported_db)
    as (rep' & Hr & H0 & _); [vm_compute; reflexivity | exact H |].
  exists rep'. exact (conj Hr H0).
Defined.
