(* ===== verification/RegistryApi.v ===== *)
(** * The read API of the registry database

    The queries of db/repository.py behind the filters, the read service of
    api/registry_queries.py, the v1 boundary of api/registry_compatibility.py
    and api/registry_v1.py, the negotiation of api/representations.py and the
    responses of api/registry_v2.py.  A request reads one snapshot of the
    database.  [packaging]'s specifier test and [float] are parameters. *)

From Stdlib Require Import QArith_base.
From S2P Require Import Prelude PyText SemVer Json Url Validate Registry RegistryDb RegistryImport.

Open Scope string_scope.
Open Scope list_scope.

(** ** SQL [LIKE] with the escape character [!] *)

Fixpoint like (pattern : string) : string -> bool :=
  match pattern with
  | "" => fun s => String.eqb s ""
  | String a pattern =>
      if Ascii.eqb a "%" then
        fix any (s : string) : bool := like pattern s || match s with "" => false | String _ s => any s end
      else if Ascii.eqb a "_" then fun s => match s with "" => false | String _ s => like pattern s end
      else if Ascii.eqb a "!" then
        match pattern with
        | "" => fun _ => false
        | String c pattern => fun s => match s with "" => false | String b s => Ascii.eqb b c && like pattern s end
        end
      else fun s => match s with "" => false | String b s => Ascii.eqb b a && like pattern s end
  end.

(** [ILIKE] *)
Definition ilike (s pattern : string) : bool := like (lower pattern) (lower s).

(** The pattern of a search. *)
Definition search_pattern (q : string) : string :=
  "%" +:+ replace_char "_" "!_" (replace_char "%" "!%" (replace_char "!" "!!" q)) +:+ "%".

(** ** Queries of the repository *)

Definition optional {A} (o : option A) (p : A -> bool) : bool := match o with Some x => p x | None => true end.

(** [module_candidates] with all its filters, in the order of name and id. *)
Definition filtered_candidates (module_id publisher classification q : option string) (d : registry_db)
    : list (module_row * Registry.publisher) :=
  sort_by by_name_id
    (omap (fun m => p ← publisher_of d m;
        if has_published d m && optional module_id (String.eqb (m_id m))
           && optional publisher (String.eqb (m_publisher_id m)) && optional classification (String.eqb (m_classification m))
           && optional q (fun q => ilike (m_id m) (search_pattern q) || ilike (m_name m) (search_pattern q)
                                   || match m_description m with Some t => ilike t (search_pattern q) | None => false end
                                   || ilike (pub_name p) (search_pattern q))
        then Some (m, p) else None)
      (modules d)).

Definition version_summaries (ids : list string) (d : registry_db) : list version_row :=
  List.filter (fun v => mem (v_module_id v) ids) (module_versions d).

Definition provenance_of (d : registry_db) (v : version_row) : option provenance_row :=
  i ← build_provenance_id v; first (fun p => N.eqb (p_id p) i) (provenances d).

(** Joined with the artifact, the repository of the module and the evidence. *)
Definition published_versions (module_id : string) (v : option string) (d : registry_db)
    : list (version_row * artifact_row * string * option evidence) :=
  omap (fun r =>
      a ← artifact_of d (v_artifact_id r);
      m ← first (fun m => String.eqb (m_id m) (v_module_id r)) (modules d);
      Some (r, a, m_source_repository m, option_map p_evidence (provenance_of d r)))
    (List.filter (fun r => String.eqb (v_module_id r) module_id && optional v (String.eqb (v_version r)))
      (module_versions d)).

Definition by_dependency (x y : dependency_row) : bool := str_le (dependency_module_id x) (dependency_module_id y).

Definition version_dependencies (module_id : string) (vs : list string) (d : registry_db) : list dependency_row :=
  sort_by by_dependency
    (List.filter (fun x => String.eqb (owner_module_id x) module_id && mem (owner_version x) vs) (module_dependencies d)).

(** A publisher with the number of its published modules. *)
Definition by_publisher (x y : Registry.publisher * nat) : bool :=
  le_of (pair_compare str_compare str_compare) (pub_name (fst x), pub_id (fst x)) (pub_name (fst y), pub_id (fst y)).

Definition published_publishers (publisher_id : option string) (d : registry_db) : list (Registry.publisher * nat) :=
  sort_by by_publisher
    (List.filter (fun x => negb (Nat.eqb (snd x) 0))
      (map (fun p => (p, length (List.filter (fun m => String.eqb (m_publisher_id m) (pub_id p) && has_published d m)
                                   (modules d))))
        (List.filter (fun p => optional publisher_id (String.eqb (pub_id p))) (publishers d)))).

(** ** models_registry_v2.py *)

Record ModuleSummary := {
  ms_id : string; ms_name : string; ms_description : option string; ms_publisher : Registry.publisher;
  ms_classification : string; ms_license : string; ms_source_repository : string; ms_homepage : option string;
  ms_documentation_url : option string; stable_version : option string;
  ms_channels : gmap string index_channel; version_count : nat
}.

Record PublishedVersion := {
  pv_module_id : string; pv_version : string; pv_historical_publication_channel : string;
  pv_bundle_format_version : Z; pv_artifact_url : string; pv_artifact_sha256 : string;
  pv_byte_size : option Z; pv_storage_locator : option string; pv_repository : string; pv_tag : option string;
  pv_commit : string; pv_host : string; pv_sdk : string; pv_dependencies : gmap string string;
  pv_published : bool; pv_provenance : option evidence
}.

(** [RegistryPage] *)
Record RegistryPage (A : Type) := { items : list A; total : nat; limit : nat; offset : nat }.
Arguments items {A}. Arguments total {A}. Arguments limit {A}. Arguments offset {A}.

Record RegistryPublisherDetail := { rp_publisher : Registry.publisher; module_count : nat; rp_modules : RegistryPage ModuleSummary }.

(** ** registry_queries.py *)

Inductive api_exn :=
| NotFound (detail : string)
| HTTPException (status : Z) (detail : string)
| InvalidSpecifier
| Raised (e : exn)
| Failed (e : reg_exn).

Definition raised {A} (r : res exn A) : res api_exn A := match r with Ok a => Ok a | Err e => Err (Raised e) end.

Definition search_rank (m : module_row) (query : string) : nat :=
  let module_id := lower (m_id m) in
  let name := lower (m_name m) in
  let query := lower query in
  if String.eqb module_id query then 0
  else if String.eqb name query then 1
  else if startswith query module_id || startswith query name then 2
  else if substring_in query module_id || substring_in query name then 3
  else 4.

(** The keyword arguments of [list_modules]. *)
Record module_filter := {
  f_module_id : option string; f_publisher : option string; f_classification : option string;
  f_channel : option string; f_host : option string; f_sdk : option string; f_q : option string
}.

Definition no_filter : module_filter :=
  {| f_module_id := None; f_publisher := None; f_classification := None; f_channel := None; f_host := None;
     f_sdk := None; f_q := None |}.

Definition only_module (module_id : string) : module_filter :=
  {| f_module_id := Some module_id; f_publisher := None; f_classification := None; f_channel := None; f_host := None;
     f_sdk := None; f_q := None |}.

Definition only_publisher (publisher_id : string) : module_filter :=
  {| f_module_id := None; f_publisher := Some publisher_id; f_classification := None; f_channel := None; f_host := None;
     f_sdk := None; f_q := None |}.

Definition searching (q : string) : module_filter :=
  {| f_module_id := None; f_publisher := None; f_classification := None; f_channel := None; f_host := None;
     f_sdk := None; f_q := Some q |}.

Section Service.
(** [v in SpecifierSet(s)]; [None] when the specifier is invalid. *)
Context (in_specifier : string -> string -> option bool).

Definition specifier_allows (specifiers : string) (v : option string) : res api_exn bool :=
  match v with
  | None => Ok true
  | Some v => of_option InvalidSpecifier (in_specifier specifiers v)
  end.

(** The body of the loop over the versions: whether this one makes the module match. *)
Definition row_matches (f : module_filter) (targets : gmap string index_channel) (row : version_row) : res api_exn bool :=
  let wanted := match f_channel f with
                | Some c => match targets !! c with Some t => String.eqb (v_version row) (ch_version t) | None => false end
                | None => true
                end in
  if negb wanted then Ok false
  else
    let? host_ok := specifier_allows (host_compatibility row) (f_host f) in
    if negb host_ok then Ok false
    else specifier_allows (sdk_compatibility row) (f_sdk f).

Fixpoint any_row (f : module_filter) (targets : gmap string index_channel) (rows : list version_row) : res api_exn bool :=
  match rows with
  | [] => Ok false
  | row :: rows => let? ok := row_matches f targets row in if ok then Ok true else any_row f targets rows
  end.

Definition matches (f : module_filter) (targets : gmap string index_channel) (rows : list version_row) : res api_exn bool :=
  if match f_channel f with Some c => negb (bool_decide (is_Some (targets !! c))) | None => false end
  then Ok false
  else any_row f targets rows.

(** [[x for x in l if p(x)]] *)
Fixpoint filter_res {E A} (p : A -> res E bool) (l : list A) : res E (list A) :=
  match l with
  | [] => Ok []
  | x :: l => let? b := p x in let? l := filter_res p l in Ok (if b then x :: l else l)
  end.

Definition by_rank (q : string) (x y : module_row * Registry.publisher) : bool :=
  le_of (pair_compare Nat.compare str_compare) (search_rank (fst x) q, m_id (fst x)) (search_rank (fst y) q, m_id (fst y)).

(** The rows of a module among the summaries. *)
Definition rows_of (mid : string) (rows : list version_row) : list version_row :=
  List.filter (fun v => String.eqb (v_module_id v) mid) rows.

Definition module_summary (targets : gmap string index_channel) (count : nat) (mp : module_row * Registry.publisher) : ModuleSummary :=
  let '(m, p) := mp in
  {| ms_id := m_id m; ms_name := m_name m; ms_description := m_description m; ms_publisher := p;
     ms_classification := m_classification m; ms_license := m_license m; ms_source_repository := m_source_repository m;
     ms_homepage := m_homepage m; ms_documentation_url := m_documentation_url m;
     stable_version := option_map ch_version (targets !! "stable"); ms_channels := targets; version_count := count |}.

Definition list_modules (limit offset : nat) (f : module_filter) (d : registry_db) : res api_exn (RegistryPage ModuleSummary) :=
  let candidates := filtered_candidates (f_module_id f) (f_publisher f) (f_classification f) (f_q f) d in
  let ids := map (fun mp => m_id (fst mp)) candidates in
  let versions := version_summaries ids d in
  let channels := channel_targets (Some ids) d in
  let targets mid := default ∅ (channels !! mid) in
  let? candidates := filter_res (fun mp => matches f (targets (m_id (fst mp))) (rows_of (m_id (fst mp)) versions)) candidates in
  let candidates := match f_q f with Some q => sort_by (by_rank q) candidates | None => candidates end in
  Ok {| items := map (fun mp => module_summary (targets (m_id (fst mp))) (length (rows_of (m_id (fst mp)) versions)) mp)
                     (take limit (drop offset candidates));
        total := length candidates; limit := limit; offset := offset |}.

(** With its [versions_url]. *)
Definition get_module (module_id : string) (d : registry_db) : res api_exn (ModuleSummary * string) :=
  let? page := list_modules 50 0 (only_module module_id) d in
  match items page with
  | m :: _ => Ok (m, "/api/v1/modules/" +:+ module_id +:+ "/versions")
  | [] => Err (NotFound "Module not found")
  end.

Definition get_channels (module_id : string) (d : registry_db) : res api_exn (gmap string index_channel) :=
  let? m := get_module module_id d in Ok (ms_channels (fst m)).

(** A joined row with its sort key. *)
Definition keyed_row {A} (x : version_row * A) : res exn (version_key * (version_row * A)) :=
  let? k := semver_key (v_version (fst x)) in Ok (k, x).

Definition by_string {A} (x y : version_row * A) : bool := str_le (v_version (fst x)) (v_version (fst y)).
Definition by_precedence {A} (x y : version_key * A) : bool := key_le (fst y) (fst x).

(** The two stable sorts. *)
Definition sort_rows {A} (rows : list (version_row * A)) : res exn (list (version_row * A)) :=
  let? keys := traverse keyed_row (sort_by by_string rows) in
  Ok (map snd (sort_by by_precedence keys)).

Definition published_version (module_id : string) (deps : list dependency_row)
    (x : version_row * (artifact_row * string * option evidence)) : PublishedVersion :=
  let '(r, (a, repository, ev)) := x in
  {| pv_module_id := module_id; pv_version := v_version r;
     pv_historical_publication_channel := historical_publication_channel r;
     pv_bundle_format_version := v_bundle_format_version r; pv_artifact_url := artifact_original_url r;
     pv_artifact_sha256 := a_digest a; pv_byte_size := a_byte_size a; pv_storage_locator := a_storage_locator a;
     pv_repository := repository; pv_tag := v_source_tag r; pv_commit := v_source_commit r;
     pv_host := host_compatibility r; pv_sdk := sdk_compatibility r;
     pv_dependencies := foldl (fun m x => if String.eqb (owner_version x) (v_version r)
                                          then <[dependency_module_id x := specifier x]> m else m) ∅ deps;
     pv_published := published r; pv_provenance := ev |}.

Definition _versions (module_id : string) (v : option string) (limit offset : nat) (d : registry_db)
    : res api_exn (RegistryPage PublishedVersion) :=
  match filtered_candidates (Some module_id) None None None d with
  | [] => Err (NotFound "Module not found")
  | _ =>
      let? rows := raised (sort_rows (map (fun '(r, a, s, e) => (r, (a, s, e))) (published_versions module_id v d))) in
      let selected := take limit (drop offset rows) in
      let deps := version_dependencies module_id (map (fun x => v_version (fst x)) selected) d in
      Ok {| items := map (published_version module_id deps) selected; total := length rows; limit := limit; offset := offset |}
  end.

Definition list_versions (module_id : string) (limit offset : nat) (d : registry_db) := _versions module_id None limit offset d.

Definition get_version (module_id v : string) (d : registry_db) : res api_exn PublishedVersion :=
  let? page := _versions module_id (Some v) 1 0 d in
  of_option (NotFound "Version not found") (head (items page)).

Definition list_publishers (limit offset : nat) (d : registry_db) : RegistryPage (Registry.publisher * nat) :=
  let rows := published_publishers None d in
  {| items := take limit (drop offset rows); total := length rows; limit := limit; offset := offset |}.

Definition get_publisher (publisher_id : string) (limit offset : nat) (d : registry_db) : res api_exn RegistryPublisherDetail :=
  match published_publishers (Some publisher_id) d with
  | [] => Err (NotFound "Publisher not found")
  | (p, n) :: _ =>
      let? modules := list_modules limit offset (only_publisher publisher_id) d in
      Ok {| rp_publisher := p; module_count := n; rp_modules := modules |}
  end.

End Service.

(** ** representations.py *)

Definition MEDIA_TYPE : string := "application/vnd.ocp.registry.v2+json".

Section Negotiation.
(** [float(s)]; [None] when it raises, or is not a finite number. *)
Context (parse_float : string -> option Q).

(** The quality of one parameter after another; the last one that starts with [q=] counts. *)
Definition quality_step (quality : Q) (parameter : string) : Q :=
  let parameter := strip parameter in
  if startswith "q=" parameter then default 0%Q (parse_float (String.substring 2 (String.length parameter) parameter))
  else quality.

Definition entry_quality (entry : string) : string * Q :=
  match split_on ";" (lower (strip entry)) with
  | media :: parameters =>
      let quality := foldl quality_step 1%Q parameters in
      (media, if Qle_bool 0 quality && Qle_bool quality 1 then quality else 0%Q)
  | [] => ("", 0%Q)
  end.

Definition qualities (accept : string) : gmap string Q :=
  foldl (fun m entry => let '(media, quality) := entry_quality entry in <[media := quality]> m) ∅ (split_on "," accept).

Definition wants_v2 (accept : option string) : bool :=
  let qs := qualities (default "" accept) in
  let v2 := default 0%Q (qs !! MEDIA_TYPE) in
  negb (Qle_bool v2 0) && Qle_bool (default 0%Q (qs !! "application/json")) v2.

End Negotiation.

(** ** registry_v2.py *)

Record Response := { status_code : Z; body : option string; etag : string; vary : bool; media_type : option string }.

Definition quoted (s : string) : string := String (ascii_of_N 34) (s +:+ String (ascii_of_N 34) "").

Section Http.
Context (hexdigest : string -> string).

Definition metadata (if_none_match : option string) (value : json) (negotiated : bool) : Response :=
  let text := canonical_json value in
  let tag := quoted (hexdigest text) in
  let validators := map (fun v => removeprefix "W/" (strip v)) (split_on "," (default "" if_none_match)) in
  if mem tag validators || mem "*" validators
  then {| status_code := 304; body := None; etag := tag; vary := negotiated; media_type := None |}
  else {| status_code := 200; body := Some text; etag := tag; vary := negotiated;
          media_type := Some (if negotiated then MEDIA_TYPE else "application/json") |}.

End Http.

Definition complete_semver (value : string) : res exn string :=
  match validate_semver (JStr value) "version" with
  | Ok v => Ok v
  | Err (RegistryValidationError _) => Err (ValueError "Must be a complete SemVer version")
  | Err e => Err e
  end.

(** [is_version] is whether [packaging]'s [Version] accepts the text. *)
Definition compatibility_version (is_version : string -> bool) (value : string) : res exn string :=
  complete_semver value ;?
  raise_if (negb (is_version value)) (ValueError "Version cannot be evaluated by the compatibility library") ;?
  Ok value.

Definition ready (d : registry_db) : res api_exn string :=
  match schema_revision d with
  | Some revision =>
      raise_if (negb (String.eqb revision EXPECTED_SCHEMA_REVISION))
        (HTTPException 503 "Registry database schema is not ready") ;?
      Ok revision
  | None => Err (HTTPException 503 "Registry database schema is not ready")
  end.

(** A shared endpoint: [None] hands the request over to the legacy catalogue. *)
Section Shared.
Context (in_specifier : string -> string -> option bool) (parse_float : string -> option Q).

Definition search (accept : option string) (q : string) (limit offset : nat) (d : registry_db)
    : option (res api_exn (RegistryPage ModuleSummary)) :=
  if wants_v2 parse_float accept then
    Some (raise_if (negb (nonempty (strip q))) (HTTPException 422 "Search query must not be blank") ;?
          list_modules in_specifier limit offset (searching q) d)
  else None.

Definition publishers_endpoint (accept : option string) (limit offset : nat) (d : registry_db) :=
  if wants_v2 parse_float accept then Some (list_publishers limit offset d) else None.

Definition publisher_endpoint (accept : option string) (publisher_id : string) (limit offset : nat) (d : registry_db) :=
  if wants_v2 parse_float accept then Some (get_publisher in_specifier publisher_id limit offset d) else None.

(** [GET /api/v1/modules]: the parameters are validated before the service is called. *)
Definition modules_endpoint (is_version : string -> bool) (limit offset : nat) (f : module_filter) (d : registry_db)
    : res api_exn (RegistryPage ModuleSummary) :=
  let invalid v := match v with Some v => negb (is_ok (compatibility_version is_version v)) | None => false end in
  raise_if (Nat.ltb limit 1 || Nat.ltb 100 limit || invalid (f_host f) || invalid (f_sdk f)
            || match f_publisher f with Some p => negb (nonempty p) || Nat.ltb 100 (String.length p) | None => false end
            || match f_channel f with Some c => negb (mem c CHANNELS) | None => false end
            || match f_classification f with Some c => negb (mem c CLASSIFICATIONS) | None => false end)
    (HTTPException 422 "Unprocessable Entity") ;?
  list_modules in_specifier limit offset f d.

Definition version_endpoint (module_id v : string) (d : registry_db) : res api_exn PublishedVersion :=
  raise_if (negb (is_ok (complete_semver v))) (HTTPException 422 "Unprocessable Entity") ;?
  get_version module_id v d.

End Shared.

(** ** The v1 boundary *)

Section V1.
Context (schema_valid : string -> json -> bool).

Definition failed {A} (r : res reg_exn A) : res api_exn A := match r with Ok a => Ok a | Err e => Err (Failed e) end.

(** The channels of the entries are those of the database, which are the same. *)
Definition compatibility_index (d : registry_db) : res api_exn (list index_entry) :=
  failed (validate_v1_representability schema_valid (project_v1 None d) (channel_targets None d)).

Definition compatibility_module (module_id : string) (d : registry_db) : res api_exn module :=
  raised (validate_module_id (JStr module_id) "module ID") ;?
  match project_v1 (Some module_id) d with
  | [] => Err (NotFound "Published module not found")
  | (m :: _) as ms =>
      failed (validate_v1_representability schema_valid ms (channel_targets (Some [module_id]) d)) ;?
      Ok m
  end.

(** The dependency of the endpoints, and the handler of the two errors. *)
Definition compatibility_service {A} (k : registry_db -> res api_exn A) (d : registry_db) : res api_exn A :=
  if bool_decide (schema_revision d = Some EXPECTED_SCHEMA_REVISION)
  then match k d with
       | Err (Failed V1RepresentabilityError) | Err (Failed (RegistryInvalid (RegistryValidationError _)))
       | Err (Raised (RegistryValidationError _)) =>
           Err (HTTPException 503 "Registry v1 compatibility verification failed")
       | r => r
       end
  else Err (HTTPException 503 "Registry database schema is not ready").

Definition v1_index : registry_db -> res api_exn (list index_entry) := compatibility_service compatibility_index.

Definition v1_module (module_id : string) : registry_db -> res api_exn module :=
  compatibility_service (fun d =>
    match validate_module_id (JStr module_id) "module ID" with
    | Err (RegistryValidationError _) => Err (HTTPException 404 "Published module not found")
    | _ => compatibility_module module_id d
    end).

End V1.

(** ** Search patterns *)

Definition wildcard (a : ascii) : bool := mem_char a "!%_".

Lemma wildcard_lower a : wildcard (lower_char a) = wildcard a /\ (wildcard a = true -> lower_char a = a).
Proof. destruct a as [[] [] [] [] [] [] [] []]; vm_compute; by split. Qed.

Definition escaped (q : string) : string := replace_char "_" "!_" (replace_char "%" "!%" (replace_char "!" "!!" q)).

(** Each character of the query becomes itself or an escaped wildcard. *)
Lemma escaped_cons a q : escaped (String a q) = (if wildcard a then String "!" (String a "") else String a "") +:+ escaped q.
Proof.
  assert (Hw : wildcard a = (Ascii.eqb a "!" || (Ascii.eqb a "%" || (Ascii.eqb a "_" || false)))).
  { unfold wildcard. cbn [mem_char]. by rewrite !(Ascii.eqb_sym a). }
  rewrite Hw. unfold escaped. cbn [replace_char].
  destruct (Ascii.eqb_spec a "!") as [->|H1].
  { cbn. rewrite !replace_char_app. reflexivity. }
  cbn [replace_char]. destruct (Ascii.eqb_spec a "%") as [->|H2].
  { cbn. rewrite !replace_char_app. reflexivity. }
  cbn [replace_char]. destruct (Ascii.eqb_spec a "_") as [->|H3]; reflexivity.
Qed.

Lemma lower_app s t : lower (s +:+ t) = lower s +:+ lower t.
Proof. unfold lower. induction s as [|a s IH]; simpl; [done | by rewrite IH]. Qed.

Lemma like_percent s : like "%" s = true.
Proof. induction s as [|a s IH]; [done|]. simpl in *. exact IH. Qed.

(** An escaped query before a pattern matches the query literally. *)
Lemma like_escaped q s : like (lower (escaped q +:+ "%")) s = String.prefix (lower q) s.
Proof.
  revert s. induction q as [|a q IH]; intros s; [by destruct s; try apply (like_percent (String _ _))|].
  rewrite escaped_cons. destruct (wildcard_lower a) as [Hw Hl].
  assert (Hrest : forall b r, (if Ascii.eqb b (lower_char a) then like (lower (escaped q +:+ "%")) r else false)
            = String.prefix (lower (String a q)) (String b r)).
  { intros b r. unfold lower at 2. simpl. destruct (ascii_dec (lower_char a) b) as [->|Hne].
    - rewrite Ascii.eqb_refl. apply IH.
    - rewrite (proj2 (Ascii.eqb_neq _ _)) by congruence. done. }
  destruct (wildcard a) eqn:Ha.
  - specialize (Hl eq_refl). rewrite Hl in Hrest.
    change (like (String "!" (String (lower_char a) (lower (escaped q +:+ "%")))) s = String.prefix (lower (String a q)) s).
    rewrite Hl. simpl. destruct s as [|b r]; [done|]. rewrite <- Hrest. by destruct (Ascii.eqb b a).
  - change (like (String (lower_char a) (lower (escaped q +:+ "%"))) s = String.prefix (lower (String a q)) s).
    assert (Hn : Ascii.eqb (lower_char a) "%" = false /\ Ascii.eqb (lower_char a) "_" = false /\ Ascii.eqb (lower_char a) "!" = false).
    { split_and!; apply Ascii.eqb_neq; intros He; rewrite He in Hw; discriminate Hw. }
    destruct Hn as (H1 & H2 & H3). simpl. rewrite H1, H2, H3. destruct s as [|b r]; [done|]. rewrite <- Hrest.
    by destruct (Ascii.eqb b (lower_char a)).
Qed.

Lemma ilike_search q s : ilike s (search_pattern q) = substring_in (lower q) (lower s).
Proof.
  unfold ilike. change (search_pattern q) with (String "%" (escaped q +:+ "%")).
  change (lower (String "%" (escaped q +:+ "%"))) with (String "%" (lower (escaped q +:+ "%"))).
  generalize (lower s) as t. intros t. simpl. induction t as [|a t IH]; rewrite like_escaped; [done|].
  simpl. by rewrite IH.
Qed.

(** ** Listings *)

Lemma filter_res_Ok {E A} (p : A -> res E bool) l l' :
  filter_res p l = Ok l' -> l' = List.filter (fun x => match p x with Ok b => b | Err _ => false end) l /\
    Forall (fun x => is_ok (p x) = true) l.
Proof.
  revert l'. induction l as [|x l IH]; intros l' H; simpl in H; [injection H as <-; by split|].
  apply res_bind_Ok in H as (b & Hb & H). apply res_bind_Ok in H as (l1 & Hl1 & H). injection H as <-.
  destruct (IH _ Hl1) as [-> Hf]. simpl. rewrite Hb. split; [done|]. constructor; [by rewrite Hb | done].
Qed.

Section Matching.
Context (in_specifier : string -> string -> option bool).

(** One version that satisfies every condition of the filter at once. *)
Definition satisfies (f : module_filter) (targets : gmap string index_channel) (row : version_row) : Prop :=
  (forall c, f_channel f = Some c -> exists t, targets !! c = Some t /\ v_version row = ch_version t) /\
  (forall v, f_host f = Some v -> in_specifier (host_compatibility row) v = Some true) /\
  (forall v, f_sdk f = Some v -> in_specifier (sdk_compatibility row) v = Some true).

Lemma specifier_allows_true s v :
  specifier_allows in_specifier s v = Ok true <-> forall x, v = Some x -> in_specifier s x = Some true.
Proof.
  unfold specifier_allows. destruct v as [v|]; [|by split]. rewrite of_option_Ok. split; [by intros H x [= <-] | auto].
Qed.

Lemma row_matches_true f targets row :
  row_matches in_specifier f targets row = Ok true <-> satisfies f targets row.
Proof.
  unfold row_matches, satisfies.
  assert (Hw : match f_channel f with
               | Some c => match targets !! c with Some t => String.eqb (v_version row) (ch_version t) | None => false end
               | None => true
               end = true <-> forall c, f_channel f = Some c -> exists t, targets !! c = Some t /\ v_version row = ch_version t).
  { destruct (f_channel f) as [c|]; [|by split]. split.
    - intros H c' [= <-]. destruct (targets !! c) as [t|]; [|done]. exists t. split; [done | by apply String.eqb_eq].
    - intros H. destruct (H c eq_refl) as (t & -> & ->). apply String.eqb_refl. }
  rewrite <- Hw, <- !specifier_allows_true. destruct (match f_channel f with Some _ => _ | None => _ end); simpl.
  - destruct (specifier_allows _ (host_compatibility row) _) as [[]|]; simpl; intuition congruence.
  - intuition congruence.
Qed.

Lemma any_row_true f targets rows b :
  any_row in_specifier f targets rows = Ok b -> b = true <-> exists row, row ∈ rows /\ satisfies f targets row.
Proof.
  revert b. induction rows as [|row rows IH]; intros b H; simpl in H.
  - injection H as <-. split; [done|]. intros (row & Hr & _). by apply elem_of_nil in Hr.
  - apply res_bind_Ok in H as ([] & Hr & H).
    + injection H as <-. split; [|done]. intros _. exists row. split; [by constructor|]. by apply row_matches_true.
    + rewrite (IH _ H). split; intros (row' & Hin & Hs); [exists row'; split; [by constructor | done]|].
      apply elem_of_cons in Hin as [->|Hin]; [apply row_matches_true in Hs; congruence | by exists row'].
Qed.

Lemma matches_true f targets rows b :
  matches in_specifier f targets rows = Ok b -> b = true <-> exists row, row ∈ rows /\ satisfies f targets row.
Proof.
  unfold matches. destruct (f_channel f) as [c|] eqn:Hc; [|by apply any_row_true].
  destruct (bool_decide_reflect (is_Some (targets !! c))) as [Hs|Hs]; [by apply any_row_true|].
  intros [= <-]. split; [done|]. intros (row & _ & Hch & _). destruct (Hch c Hc) as (t & Ht & _). destruct Hs. by exists t.
Qed.

End Matching.

(** The current targets of a module. *)
Definition targets_of (d : registry_db) (mid : string) : gmap string index_channel := default ∅ (channel_targets None d !! mid).

Lemma add_target_lookup d t t' c mid : t !! mid = t' !! mid -> add_target d t c !! mid = add_target d t' c !! mid.
Proof.
  intros H. unfold add_target. destruct (channel_target d c); [|done].
  destruct (decide (c_module_id c = mid)) as [<-|Hne]; [by rewrite !lookup_insert_eq, H | by rewrite !lookup_insert_ne].
Qed.

Lemma add_target_other d t c mid : c_module_id c <> mid -> add_target d t c !! mid = t !! mid.
Proof. intros Hne. unfold add_target. destruct (channel_target d c); [|done]. by rewrite lookup_insert_ne. Qed.

Lemma channel_targets_some d ids mid :
  mid ∈ ids -> default ∅ (channel_targets (Some ids) d !! mid) = targets_of d mid.
Proof.
  intros Hin. unfold targets_of, channel_targets. f_equal.
  assert (H : forall l t t', t !! mid = t' !! mid ->
     foldl (add_target d) t (List.filter (fun c => mem (c_module_id c) ids) l) !! mid
     = foldl (add_target d) t' (List.filter (fun _ => true) l) !! mid); [|by apply H].
  induction l as [|c l IH]; intros t t' Ht; [done|]. simpl.
  destruct (mem (c_module_id c) ids) eqn:Hc; simpl; apply IH; [by apply add_target_lookup|].
  rewrite add_target_other; [done|]. intros <-. unfold mem in Hc. by rewrite bool_decide_true in Hc.
Qed.

Lemma strongly_sorted_filter {A} (R : A -> A -> Prop) p l : StronglySorted R l -> StronglySorted R (List.filter p l).
Proof.
  induction 1 as [|x l Hs IH Hx]; simpl; [constructor|]. destruct (p x); [|done]. constructor; [done|].
  rewrite Forall_forall in *. intros y Hy. apply Hx. rewrite list_elem_of_In in *. by apply filter_In in Hy as [].
Qed.

#[export] Instance by_name_id_preorder : TotalPreorder by_name_id.
Proof. apply (total_preorder_on (le_of (pair_compare str_compare str_compare)) (fun x => (m_name (fst x), m_id (fst x)))), _. Qed.

#[export] Instance by_rank_preorder q : TotalPreorder (by_rank q).
Proof. apply (total_preorder_on (le_of (pair_compare Nat.compare str_compare)) (fun x => (search_rank (fst x) q, m_id (fst x)))), _. Qed.

(** ** Versions *)

#[export] Instance by_precedence_preorder {A} : TotalPreorder (@by_precedence A).
Proof. unfold by_precedence. apply (total_preorder_flip (fun x y => key_le (fst x) (fst y))), (total_preorder_on key_le fst), _. Qed.

(** Greater precedence first; the exact text decides between equal precedences. *)
Definition newer {A} (x y : version_row * A) : Prop :=
  exists k l, semver_key (v_version (fst x)) = Ok k /\ semver_key (v_version (fst y)) = Ok l /\
    key_le l k = true /\ (key_le k l = true -> str_le (v_version (fst x)) (v_version (fst y)) = true).

Lemma sort_rows_Ok {A} (rows : list (version_row * A)) :
  Forall (fun x => fullmatch SEMVER_RE (v_version (fst x)) = true) rows ->
  exists l, sort_rows rows = Ok l /\ Permutation l rows /\ StronglySorted newer l.
Proof.
  intros Hf. unfold sort_rows.
  assert (Hs : StronglySorted (fun x y : version_row * A => by_string x y = true) (sort_by by_string rows)).
  { apply sort_by_sorted. apply (total_preorder_on (le_of str_compare) (fun x : version_row * A => v_version (fst x))), _. }
  rewrite <- (sort_by_perm by_string rows) in Hf.
  destruct (traverse_total keyed_row (sort_by by_string rows)) as [ks Hks].
  { eapply Forall_impl; [exact Hf|]. intros x Hx. destruct (semver_key_total _ Hx) as [k Hk]. exists (k, x).
    unfold keyed_row. by rewrite Hk. }
  rewrite Hks. simpl. eexists. split; [done|]. apply traverse_Ok in Hks.
  assert (Hk : map snd ks = sort_by by_string rows /\ Forall (fun kx => semver_key (v_version (fst (snd kx))) = Ok (fst kx)) ks).
  { clear Hf Hs. induction Hks as [|x kx l ks Hx _ [IH1 IH2]]; [by split; constructor|]. unfold keyed_row in Hx.
    apply res_bind_Ok in Hx as (k & Hk & [= <-]). simpl. rewrite IH1. split; [done | by constructor]. }
  destruct Hk as [Hsnd Hk]. split.
  - rewrite <- (sort_by_perm by_string rows), <- Hsnd. change (snd <$> sort_by by_precedence ks ≡ₚ snd <$> ks).
    by rewrite sort_by_perm.
  - assert (Hlex : StronglySorted (fun x y : version_key * (version_row * A) => by_precedence x y = true /\
                     (by_precedence y x = true -> by_string (snd x) (snd y) = true)) (sort_by by_precedence ks)).
    { apply (sort_by_lex by_precedence (fun x y => by_string (snd x) (snd y))).
      rewrite <- Hsnd in Hs. clear -Hs. induction ks as [|x ks IH]; [constructor|]. simpl in Hs. inversion Hs; subst.
      constructor; [by apply IH|]. match goal with H : Forall _ (map snd ks) |- _ => by apply Forall_fmap in H end. }
    assert (Hk' : Forall (fun kx => semver_key (v_version (fst (snd kx))) = Ok (fst kx)) (sort_by by_precedence ks))
      by by rewrite sort_by_perm.
    clear -Hlex Hk'. induction Hlex as [|x l _ IH Hx]; simpl; [constructor|]. apply Forall_cons in Hk' as [Hkx Hkl].
    constructor; [by apply IH|]. apply Forall_fmap, Forall_forall. intros y Hy. rewrite Forall_forall in Hx, Hkl.
    destruct (Hx y Hy) as [H1 H2]. exists (fst x), (fst y). split_and!; auto.
Qed.

(** The dependencies the API shows are those of the stored release. *)
Lemma fold_dependencies (v : string) (l : list dependency_row) (m0 : gmap string string) :
  foldl (fun m x => if String.eqb (owner_version x) v then <[dependency_module_id x := specifier x]> m else m) m0 l
  = foldl (fun m kv => <[fst kv := snd kv]> m) m0
      (map (fun x => (dependency_module_id x, specifier x)) (List.filter (fun x => String.eqb (owner_version x) v) l)).
Proof.
  revert m0. induction l as [|x l IH]; intros m0; [done|]. simpl. destruct (String.eqb (owner_version x) v); simpl; apply IH.
Qed.

Lemma fold_insert (l : list (string * string)) (m0 : gmap string string) :
  NoDup (map fst l) -> (forall k, k ∈ map fst l -> m0 !! k = None) ->
  foldl (fun m kv => <[fst kv := snd kv]> m) m0 l = list_to_map l ∪ m0.
Proof.
  revert m0. induction l as [|[k v] l IH]; intros m0 Hnd Hd; simpl; [by rewrite (left_id_L ∅ (∪))|].
  simpl in Hnd. apply NoDup_cons in Hnd as [Hk Hnd]. rewrite IH; [|done|].
  - rewrite <- insert_union_l. apply map_eq. intros i. destruct (decide (i = k)) as [->|Hne].
    + rewrite lookup_insert_eq, lookup_union, lookup_insert_eq, not_elem_of_list_to_map_1 by done. by destruct (Some v).
    + rewrite lookup_insert_ne, !lookup_union, lookup_insert_ne by done. done.
  - intros k' Hk'. rewrite lookup_insert_ne by (intros <-; done). apply Hd. by constructor.
Qed.

Lemma omap_total {A B} (f : A -> option B) l :
  (forall x, x ∈ l -> exists y, f x = Some y) -> Forall2 (fun x y => f x = Some y) l (omap f l).
Proof.
  induction l as [|x l IH]; intros H; [constructor|]. destruct (H x) as [y Hy]; [by constructor|].
  csimpl. rewrite Hy. constructor; [done|]. apply IH. intros z Hz. apply H. by constructor.
Qed.

Lemma filter_perm {A} (p : A -> bool) l k : Permutation l k -> Permutation (List.filter p l) (List.filter p k).
Proof.
  induction 1 as [|x l k _ IH|x y l|l1 l2 l3 _ IH1 _ IH2]; simpl.
  - done.
  - destruct (p x); [by constructor | done].
  - destruct (p x), (p y); try done. constructor.
  - by etransitivity.
Qed.

Lemma filter_filter {A} (p q : A -> bool) l : List.filter p (List.filter q l) = List.filter (fun x => q x && p x) l.
Proof.
  induction l as [|x l IH]; simpl; [done|]. destruct (q x) eqn:Hq; simpl; [destruct (p x); simpl; by rewrite IH | done].
Qed.

(** The rows that belong to a version have distinct targets. *)
Lemma dependencies_NoDup d mid v :
  constraints d = true -> NoDup (map dependency_module_id (dependencies_of d mid v)).
Proof.
  intros Hc. unfold constraints, nodup in Hc. repeat (apply andb_true_iff in Hc as [Hc ?]).
  match goal with H : bool_decide (NoDup (map _ (module_dependencies d))) = true |- _ =>
    apply bool_decide_eq_true_1 in H; rename H into Hnd end. clear - Hnd.
  unfold dependencies_of. induction (module_dependencies d) as [|x l IH]; simpl in *; [constructor|].
  apply NoDup_cons in Hnd as [Hx Hnd].
  destruct (String.eqb (owner_module_id x) mid && String.eqb (owner_version x) v) eqn:Hk; [|by apply IH].
  simpl. constructor; [|by apply IH]. intros Hin. apply Hx. apply list_elem_of_fmap in Hin as (y & Hy & Hin).
  rewrite list_elem_of_In in Hin. apply filter_In in Hin as [Hin Hky].
  apply andb_true_iff in Hk as [Hk1%String.eqb_eq Hk2%String.eqb_eq].
  apply andb_true_iff in Hky as [Hy1%String.eqb_eq Hy2%String.eqb_eq].
  apply list_elem_of_fmap. exists y. rewrite Hy, Hk1, Hk2, Hy1, Hy2. split; [done|]. by apply list_elem_of_In.
Qed.

Lemma shown_dependencies d mid v vs :
  constraints d = true -> v ∈ vs ->
  foldl (fun m x => if String.eqb (owner_version x) v then <[dependency_module_id x := specifier x]> m else m)
    (∅ : gmap string string) (version_dependencies mid vs d)
  = list_to_map (map (fun x => (dependency_module_id x, specifier x)) (dependencies_of d mid v)).
Proof.
  intros Hc Hv. rewrite fold_dependencies.
  assert (Hp : Permutation (List.filter (fun x => String.eqb (owner_version x) v) (version_dependencies mid vs d))
                           (dependencies_of d mid v)).
  { unfold version_dependencies. rewrite (filter_perm _ _ _ (sort_by_perm by_dependency _)), filter_filter.
    unfold dependencies_of. apply reflexive_eq, filter_ext. intros x.
    destruct (String.eqb_spec (owner_version x) v) as [->|]; [|by rewrite !andb_false_r].
    rewrite !andb_true_r. unfold mem. by rewrite bool_decide_true, andb_true_r. }
  assert (Hnd : NoDup (map fst (map (fun x => (dependency_module_id x, specifier x)) (dependencies_of d mid v)))).
  { rewrite map_map. simpl. by apply dependencies_NoDup. }
  assert (Hp2 : Permutation (map (fun x => (dependency_module_id x, specifier x))
      (List.filter (fun x => String.eqb (owner_version x) v) (version_dependencies mid vs d)))
      (map (fun x => (dependency_module_id x, specifier x)) (dependencies_of d mid v))) by by apply Permutation_map.
  rewrite fold_insert.
  - rewrite (right_id_L ∅ (∪)). apply list_to_map_proper; [|done].
    change (NoDup (map fst (map (fun x => (dependency_module_id x, specifier x))
      (List.filter (fun x => String.eqb (owner_version x) v) (version_dependencies mid vs d))))).
    by rewrite (Permutation_map fst Hp2).
  - by rewrite (Permutation_map fst Hp2).
  - done.
Qed.

(** What the API shows of a version is the release it projects to. *)
Definition shows (d : registry_db) (mid : string) (pv : PublishedVersion) (v : version_row) : Prop :=
  exists a, artifact_of d (v_artifact_id v) = Some a /\
  let r := release_structure v a (dependencies_of d mid (v_version v)) in
  pv_module_id pv = mid /\ pv_version pv = version r /\ pv_artifact_url pv = url (rel_artifact r) /\
  pv_artifact_sha256 pv = sha256 (rel_artifact r) /\ pv_historical_publication_channel pv = channel r /\
  pv_bundle_format_version pv = bundle_format_version r /\ pv_commit pv = source_commit r /\ pv_tag pv = source_tag r /\
  pv_host pv = req_host (requires r) /\ pv_sdk pv = req_sdk (requires r) /\ pv_dependencies pv = req_modules (requires r).

Lemma version_references d v :
  constraints d = true -> v ∈ module_versions d ->
  is_Some (artifact_of d (v_artifact_id v)) /\ is_Some (first (fun m => String.eqb (m_id m) (v_module_id v)) (modules d)).
Proof.
  intros Hc Hv. unfold constraints in Hc. repeat (apply andb_true_iff in Hc as [Hc ?]).
  match goal with H : forallb (version_checks d) _ = true |- _ => rewrite forallb_forall in H; specialize (H v) end.
  match goal with H : In v _ -> _ |- _ => specialize (H (proj1 (list_elem_of_In _ _) Hv)); rename H into Hver end.
  unfold version_checks in Hver. repeat (apply andb_true_iff in Hver as [Hver ?]).
  split.
  - match goal with H : existsb _ (artifacts d) = true |- _ => apply existsb_exists in H as (a & Ha & Hid) end.
    unfold artifact_of, first. destruct (List.find _ (artifacts d)) eqn:Hf; [done|].
    eapply List.find_none in Hf; [|exact Ha]. congruence.
  - match goal with H : has_module d _ = true |- _ => apply existsb_exists in H as (m & Hm & Hid) end.
    unfold first. destruct (List.find _ (modules d)) eqn:Hf; [done|]. eapply List.find_none in Hf; [|exact Hm]. congruence.
Qed.

Lemma Forall2_map {A B C D} (R : C -> D -> Prop) (f : A -> C) (g : B -> D) l k :
  Forall2 (fun x y => R (f x) (g y)) l k -> Forall2 R (map f l) (map g k).
Proof. induction 1; simpl; by constructor. Qed.

Lemma and_iff_under (A B C : Prop) : (A -> B <-> C) -> A /\ B <-> A /\ C.
Proof. tauto. Qed.

Lemma elem_of_window {A} (x : A) n k l : x ∈ take n (drop k l) -> x ∈ l.
Proof. intros (i & Hi & _)%elem_of_take. rewrite lookup_drop in Hi. by eapply list_elem_of_lookup_2. Qed.

(** The joined rows of a module, one for each of its versions. *)
Lemma published_rows d mid :
  constraints d = true ->
  Forall2 (fun v x => exists a s e, x = (v, a, s, e) /\ artifact_of d (v_artifact_id v) = Some a)
    (List.filter (fun v => String.eqb (v_module_id v) mid) (module_versions d)) (published_versions mid None d).
Proof.
  intros Hc. unfold published_versions.
  rewrite (filter_ext (fun r => String.eqb (v_module_id r) mid && optional None (String.eqb (v_version r)))
             (fun v => String.eqb (v_module_id v) mid)) by (intros x; simpl; by rewrite andb_true_r).
  eapply Forall2_impl; [apply omap_total|].
  - intros v Hv. rewrite list_elem_of_In in Hv. apply filter_In in Hv as [Hv _]. rewrite <- list_elem_of_In in Hv.
    destruct (version_references d v Hc Hv) as [[a Ha] [m Hm]]. eexists. simpl. by rewrite Ha; simpl; rewrite Hm.
  - intros v x H. simpl in H. destruct (artifact_of d (v_artifact_id v)) as [a|] eqn:Ha; [|done]. simpl in H.
    destruct (first _ (modules d)) as [m|]; [|done]. simpl in H. injection H as <-. by eexists _, _, _.
Qed.

(** ** Properties *)

(** A search treats the wildcards of SQL literally: the pattern matches a
    column exactly when the query occurs in it, whatever the case. *)
Theorem search_literal q s : ilike s (search_pattern q) = true <-> substring_in (lower q) (lower s) = true.
Proof. by rewrite ilike_search. Qed.

(** The listing of modules: exactly the candidates with one published version
    that is compatible with the host and the SDK and is the current one of the
    channel, all at once; ordered by name and identifier, or by search rank; the
    page is the requested window with the full count. *)
Theorem modules_listing in_specifier limit offset f d page :
  list_modules in_specifier limit offset f d = Ok page ->
  exists found : list (module_row * Registry.publisher),
    (forall m p, (m, p) ∈ found <->
       (m, p) ∈ filtered_candidates (f_module_id f) (f_publisher f) (f_classification f) (f_q f) d /\
       exists row, row ∈ module_versions d /\ v_module_id row = m_id m /\
         satisfies in_specifier f (targets_of d (m_id m)) row) /\
    StronglySorted (fun x y => match f_q f with Some q => by_rank q x y | None => by_name_id x y end = true) found /\
    total page = length found /\
    map ms_id (items page) = map (fun mp => m_id (fst mp)) (take limit (drop offset found)) /\
    Forall (fun s => ms_channels s = targets_of d (ms_id s) /\
                     stable_version s = option_map ch_version (targets_of d (ms_id s) !! "stable") /\
                     version_count s = length (rows_of (ms_id s) (module_versions d))) (items page).
Proof.
  unfold list_modules. set (candidates := filtered_candidates _ _ _ _ d). set (ids := map _ candidates).
  intros H. apply res_bind_Ok in H as (kept & Hk & H). injection H as <-. simpl.
  apply filter_res_Ok in Hk as [-> Hok]. set (kept := List.filter _ candidates).
  assert (Hrows : forall m p, (m, p) ∈ candidates ->
    rows_of (m_id m) (version_summaries ids d) = rows_of (m_id m) (module_versions d) /\
    default ∅ (channel_targets (Some ids) d !! m_id m) = targets_of d (m_id m)).
  { intros m p Hmp. assert (Hid : m_id m ∈ ids) by (apply list_elem_of_fmap; by exists (m, p)).
    split; [|by apply channel_targets_some]. unfold rows_of, version_summaries. rewrite filter_filter. apply filter_ext.
    intros v. destruct (String.eqb_spec (v_module_id v) (m_id m)) as [->|]; [|by rewrite andb_false_r].
    rewrite andb_true_r. unfold mem. by rewrite bool_decide_true. }
  assert (Hkept : forall m p, (m, p) ∈ kept <-> (m, p) ∈ candidates /\ exists row, row ∈ module_versions d /\
            v_module_id row = m_id m /\ satisfies in_specifier f (targets_of d (m_id m)) row).
  { intros m p. unfold kept. rewrite list_elem_of_In, filter_In, <- list_elem_of_In. apply and_iff_under.
    intros Hmp. destruct (Hrows m p Hmp) as [Hr Ht]. simpl. rewrite Hr, Ht.
    rewrite Forall_forall in Hok. specialize (Hok _ Hmp). simpl in Hok. rewrite Hr, Ht in Hok.
    destruct (matches _ f _ _) as [b|] eqn:Hb; [|done]. rewrite (matches_true _ _ _ _ _ Hb).
    unfold rows_of. setoid_rewrite list_elem_of_In. setoid_rewrite filter_In.
    split; intros (row & Hrow); exists row; rewrite String.eqb_eq in *; tauto. }
  exists (match f_q f with Some q => sort_by (by_rank q) kept | None => kept end).
  assert (Hin : forall x, x ∈ match f_q f with Some q => sort_by (by_rank q) kept | None => kept end <-> x ∈ kept).
  { intros x. destruct (f_q f); [apply sort_by_elem | done]. }
  split_and!.
  - intros m p. rewrite Hin. apply Hkept.
  - destruct (f_q f); [apply sort_by_sorted, _|]. apply strongly_sorted_filter. apply sort_by_sorted, _.
  - done.
  - rewrite map_map. apply map_ext. by intros [m p].
  - apply Forall_fmap, Forall_forall. intros [m p] Hmp. simpl.
    assert (Hc : (m, p) ∈ candidates) by (apply (Hkept m p), Hin; by eapply elem_of_window).
    destruct (Hrows m p Hc) as [-> ->]. by split_and!.
Qed.

(** The history of a module: every stored version once, in descending SemVer
    precedence with the exact text deciding ties; each page is the requested
    window with the full count, and shows of each version exactly the release
    that the v1 projection shows. *)
Theorem versions_listing mid d :
  constraints d = true -> filtered_candidates (Some mid) None None None d <> [] ->
  Forall (fun v => fullmatch SEMVER_RE (v_version v) = true) (module_versions d) ->
  exists rows : list (version_row * (artifact_row * string * option evidence)),
    Permutation (map fst rows) (List.filter (fun v => String.eqb (v_module_id v) mid) (module_versions d)) /\
    StronglySorted newer rows /\
    forall limit offset, exists page, list_versions mid limit offset d = Ok page /\ total page = length rows /\
      Forall2 (shows d mid) (items page) (take limit (drop offset (map fst rows))).
Proof.
  intros Hc Hcand Hsem. assert (Hrows := published_rows d mid Hc).
  set (joined := map (fun '(r, a, s, e) => (r, (a, s, e))) (published_versions mid None d)).
  assert (Hj : Forall2 (fun v (x : version_row * (artifact_row * string * option evidence)) =>
                 fst x = v /\ artifact_of d (v_artifact_id v) = Some (fst (fst (snd x))))
                 (List.filter (fun v => String.eqb (v_module_id v) mid) (module_versions d)) joined).
  { clear -Hrows. unfold joined. induction Hrows as [|v x l k (a & s & e & -> & Ha) _ IH]; simpl; by constructor. }
  assert (Hfst : map fst joined = List.filter (fun v => String.eqb (v_module_id v) mid) (module_versions d)).
  { clear -Hj. induction Hj as [|v x l k [<- _] _ IH]; simpl; [done | by rewrite IH]. }
  destruct (sort_rows_Ok joined) as (rows & Hs & Hp & Hord).
  { apply Forall_forall. intros x Hx. rewrite Forall_forall in Hsem. apply Hsem.
    assert (Hin : fst x ∈ map fst joined) by (apply list_elem_of_fmap; by exists x). rewrite Hfst, list_elem_of_In in Hin.
    apply filter_In in Hin as [Hin _]. by apply list_elem_of_In. }
  exists rows. split; [by rewrite <- Hfst; apply Permutation_map|]. split; [exact Hord|].
  intros limit offset. unfold list_versions, _versions. destruct (filtered_candidates _ _ _ _ d) as [|c cs]; [done|].
  fold joined. rewrite Hs. simpl. eexists. split; [reflexivity|]. split; [done|]. simpl.
  change (map fst rows) with (fst <$> rows). rewrite <- fmap_drop, <- fmap_take.
  set (selected := take limit (drop offset rows)). set (deps := version_dependencies _ _ _).
  apply Forall2_map, Forall_Forall2_diag, Forall_forall. intros [v [[a s] e]] Hx.
  assert (Hsel := Hx). unfold selected in Hx. apply elem_of_window in Hx. rewrite Hp in Hx.
  destruct (Forall2_in_r _ _ _ _ Hj Hx) as (v' & Hv' & Hfv & Ha). simpl in Hfv, Ha. subst v'.
  exists a. split; [exact Ha|]. cbv zeta. simpl.
  rewrite list_elem_of_In in Hv'. apply filter_In in Hv' as [_ Hmid]. apply String.eqb_eq in Hmid.
  split_and!; try done. unfold deps. apply shown_dependencies; [done|].
  apply list_elem_of_fmap. by exists (v, (a, s, e)).
Qed.

Lemma rstrip_quote p c s : p c = false -> rstrip_by p (s +:+ String c "") = s +:+ String c "".
Proof.
  intros Hc. induction s as [|a s IH]; [simpl; by rewrite Hc|].
  change (String a s +:+ String c "") with (String a (s +:+ String c "")). simpl. rewrite IH. by destruct s.
Qed.

Lemma quoted_validator h h' :
  free_of "," h -> let validators := map (fun v => removeprefix "W/" (strip v)) (split_on "," (quoted h)) in
  mem (quoted h') validators = bool_decide (h' = h) /\ mem "*" validators = false.
Proof.
  intros Hf. assert (Hfree : free_of "," (quoted h)).
  { unfold free_of, quoted in *. simpl. constructor; [done|]. rewrite chars_app. apply Forall_app. split; [done|].
    by repeat constructor. }
  cbv zeta. rewrite split_on_free by done. simpl map.
  assert (Hs : strip (quoted h) = quoted h).
  { unfold strip, quoted. set (c := ascii_of_N 34).
    change (String c (h +:+ String c "")) with (String c h +:+ String c ""). rewrite rstrip_quote by reflexivity. reflexivity. }
  rewrite Hs. change (removeprefix "W/" (quoted h)) with (quoted h). unfold mem. split.
  - apply bool_decide_ext. rewrite list_elem_of_singleton. split; [|by intros ->].
    unfold quoted. intros [= H]. apply (f_equal String.list_ascii_of_string) in H.
    rewrite !chars_app in H. apply app_inj_2 in H as [H _]; [|done]. by apply chars_inj.
  - apply bool_decide_false. rewrite list_elem_of_singleton. done.
Qed.

(** Conditional requests: a client that sends back the entity tag of a
    response gets 304 while the value is unchanged; a client that gets 304 for a
    tag holds text with the same digest; and a 200 carries the canonical text
    with the tag of that text. *)
Theorem etag_revalidates hexdigest value value' negotiated negotiated' :
  (forall t, free_of "," (hexdigest t)) ->
  let sent v := etag (metadata hexdigest None v negotiated) in
  status_code (metadata hexdigest (Some (sent value)) value negotiated') = 304%Z /\
  (status_code (metadata hexdigest (Some (sent value')) value negotiated') = 304%Z ->
     hexdigest (canonical_json value) = hexdigest (canonical_json value')) /\
  (forall header, status_code (metadata hexdigest header value negotiated) = 200%Z ->
     body (metadata hexdigest header value negotiated) = Some (canonical_json value) /\
     etag (metadata hexdigest header value negotiated) = quoted (hexdigest (canonical_json value))).
Proof.
  intros Hh. cbv beta zeta.
  assert (Hsent : forall v, etag (metadata hexdigest None v negotiated) = quoted (hexdigest (canonical_json v))).
  { intros v. unfold metadata. by destruct (mem _ _ || mem _ _). }
  rewrite !Hsent. unfold metadata. cbv beta zeta. cbn [from_option Datatypes.id].
  split; [|split].
  - destruct (quoted_validator (hexdigest (canonical_json value)) (hexdigest (canonical_json value)) (Hh _)) as [-> ->].
    by rewrite bool_decide_true.
  - destruct (quoted_validator (hexdigest (canonical_json value')) (hexdigest (canonical_json value)) (Hh _)) as [-> ->].
    by destruct (bool_decide_reflect (hexdigest (canonical_json value) = hexdigest (canonical_json value'))).
  - intros header. by destruct (mem _ _ || mem _ _).
Qed.

(** The v1 boundary serves an index only while the channels of the database
    are what an unchanged v1 client would select: every module of the projection
    validates, the index is [build_index] of the projection, and its channels
    are exactly those of the database. *)
Theorem v1_index_faithful schema_valid d index :
  v1_index schema_valid d = Ok index ->
  schema_revision d = Some EXPECTED_SCHEMA_REVISION /\
  Forall (fun m => validate_module schema_valid (module_json m) "Registry v1 DB projection" None = Ok tt) (project_v1 None d) /\
  build_index schema_valid (project_v1 None d) = Ok index /\ index_targets index = channel_targets None d.
Proof.
  unfold v1_index, compatibility_service, compatibility_index, validate_v1_representability, lifted, failed.
  destruct (bool_decide_reflect (schema_revision d = Some EXPECTED_SCHEMA_REVISION)) as [Hs|]; [|done].
  destruct (each _ _) as [[]|e] eqn:He; [|by destruct e]. simpl.
  destruct (build_index _ _) as [ix|e] eqn:Hi; [|by destruct e]. simpl.
  destruct (bool_decide_reflect (index_targets ix = channel_targets None d)) as [Ht|]; [|done].
  simpl. intros [= <-]. apply each_Ok in He. by split_and!.
Qed.

(** ** Examples on the imported registry *)

Definition any_specifier (s v : string) : option bool := Some true.

Lemma modules_listing_witness :
  exists page (found : list (module_row * Registry.publisher)), list_modules any_specifier 50 0 (searching "cor") imported_db = Ok page /\
    map ms_id (items page) = ["core"] /\
    (forall m p, (m, p) ∈ found -> exists row, row ∈ module_versions imported_db /\ v_module_id row = m_id m).
Proof.
  assert (H : exists page, list_modules any_specifier 50 0 (searching "cor") imported_db = Ok page /\
    map ms_id (items page) = ["core"]) by (eexists; split; vm_compute; reflexivity).
  destruct H as (page & H & Hids).
  destruct (modules_listing any_specifier 50 0 (searching "cor") imported_db page H) as (found & Hf & _).
  exists page, found. split; [exact H|]. split; [exact Hids|].
  intros m p Hmp. apply Hf in Hmp as (_ & row & Hr & Hm & _). exists row. exact (conj Hr Hm).
Defined.

Lemma versions_listing_witness :
  exists page (rows : list (version_row * (artifact_row * string * option evidence))), list_versions "hello" 50 0 imported_db = Ok page /\ map pv_version (items page) = ["1.1.0-rc.1"; "1.0.0"] /\
    total page = length rows /\
    Permutation (map fst rows) (List.filter (fun v => String.eqb (v_module_id v) "hello") (module_versions imported_db)).
Proof.
  destruct (versions_listing "hello" imported_db) as (rows & Hp & _ & Hpage).
  - vm_compute. reflexivity.
  - vm_compute. discriminate.
  - apply (forallb_Forall (fun v => fullmatch SEMVER_RE (v_version v))). vm_compute. reflexivity.
  - destruct (Hpage 50 0) as (page & Hl & Ht & _). exists page, rows. split; [exact Hl|].
    split; [|exact (conj Ht Hp)]. assert (H : exists page, list_versions "hello" 50 0 imported_db = Ok page /\
      map pv_version (items page) = ["1.1.0-rc.1"; "1.0.0"]) by (eexists; split; vm_compute; reflexivity).
    destruct H as (page' & Hl' & Hv). rewrite Hl in Hl'. injection Hl' as ->. exact Hv.
Defined.

Lemma etag_revalidates_witness :
  status_code (metadata (fun t => t) (Some (etag (metadata (fun t => "aa") None JNull true))) JNull true) = 200%Z /\
  status_code (metadata (fun t => "aa") (Some (etag (metadata (fun t => "aa") None JNull true))) JNull true) = 304%Z.
Proof.
  split; [vm_compute; reflexivity|].
  apply (etag_revalidates (fun _ => "aa") JNull JNull true true). intros t. by repeat constructor.
Defined.

Lemma v1_index_faithful_witness :
  exists index, v1_index any_schema imported_db = Ok index /\ index_targets index = channel_targets None imported_db.
Proof.
  assert (H : exists index, v1_index any_schema imported_db = Ok index) by (eexists; vm_compute; reflexivity).
  destruct H as [index H]. exists index. split; [exact H|]. exact (proj2 (proj2 (proj2 (v1_index_faithful any_schema imported_db index H)))).
Defined.
