(* ===== verification/Candidate.v ===== *)
(** * Candidates: scripts/registry_candidate.py

    The review metadata a build emits: its validation, the release it stands
    for, its digest and the directory of candidates under review.  The policy
    files of config/ are arguments: the repository of each allowlisted module
    and the members of builder-environment.json. *)

From S2P Require Import Prelude PyText SemVer Json Url Validate Registry ArtifactStore.

Open Scope string_scope.
Open Scope list_scope.

Definition REQUIRED : list string :=
  ["schema_version"; "module_id"; "version"; "classification"; "source_repository"; "source_tag";
   "source_commit"; "builder_version"; "builder_commit"; "bundle_format_version"; "bundle_sha256";
   "artifact_candidate"; "reproducible"; "host_contract"; "planned_channel"; "requires"; "registry_status"].

(** [COMMIT_RE] of ocp_builder.py *)
Definition BUILDER_COMMIT_RE : re := rep 40 (Cls is_hex).

(** [github-actions://run/[0-9]+/[a-z0-9.-]+] *)
Definition ARTIFACT_CANDIDATE_RE : re :=
  Seq (lit "github-actions://run/") (Seq (plus (Cls is_ascii_digit)) (Seq (lit "/")
    (plus (Cls (fun c => range "a" "z" c || is_ascii_digit c || mem_char c ".-"))))).

(** [re.fullmatch(pattern, value)] for any value. *)
Definition fullmatch_value (r : re) (v : json) : res exn bool :=
  match v with JStr s => Ok (fullmatch r s) | _ => Err TypeError end.

(** [value in {...}] for a set of strings: a list or an object is unhashable. *)
Definition in_set (v : json) (l : list string) : res exn bool :=
  match v with JArr _ | JObj _ => Err TypeError | _ => Ok (in_strings v l) end.

(** [str(value)], as far as it can be 40 hexadecimal digits. *)
Definition str_value (v : json) : string :=
  match v with JStr s => s | JInt z => render_int z | _ => "" end.

(** [d.get(key)] *)
Definition get_item (key : string) (d : members) : json := default JNull (jget key d).

Definition refuse (msg : string) (c : bool) : res exn unit := raise_if c (ValueError msg).

(** [value != other] *)
Definition differs (a b : json) : bool := negb (py_eq a b).

(** The set of fields: [set(value) - {"build_environment"} == REQUIRED]. *)
Definition exact_fields (value : members) : bool :=
  let keys := List.filter (fun k => negb (String.eqb k "build_environment")) (jkeys value) in
  forallb (fun k => mem k REQUIRED) keys && forallb (fun k => mem k keys) REQUIRED.

Section Candidate.
(** The allowlist: the source repository of a module; the builder policy. *)
Context (policies : string -> option string) (builder_policy : members).

(** [policies.get(module_id)] *)
Definition policy_of (module_id : json) : res exn (option string) :=
  match module_id with
  | JArr _ | JObj _ => Err TypeError
  | JStr s => Ok (policies s)
  | _ => Ok None
  end.

Definition validate_environment (value : members) (environment : json) : res exn unit :=
  match environment with
  | JObj env =>
      refuse "candidate build environment violates builder policy"
        (existsb (fun kv => differs (get_item (fst kv) env) (snd kv)) builder_policy) ;?
      let? builder_commit := getitem "builder_commit" value in
      refuse "candidate builder commit mismatch" (differs (get_item "builder_commit" env) builder_commit) ;?
      refuse "candidate host commit invalid"
        (negb (fullmatch BUILDER_COMMIT_RE (str_value (default (JStr "") (jget "host_commit" env)))))
  | _ => Err (ValueError "candidate build environment violates builder policy")
  end.

(** [builder_commit != "unknown" and not COMMIT_RE.fullmatch(builder_commit)] *)
Definition bad_builder_commit (v : json) : res exn bool :=
  if py_eq v (JStr "unknown") then Ok false
  else let? ok := fullmatch_value BUILDER_COMMIT_RE v in Ok (negb ok).

Definition validate_candidate (value : json) : res exn members :=
  match value with
  | JObj value =>
      refuse "candidate has unknown or missing fields" (negb (exact_fields value)) ;?
      let field k := getitem k value in
      let? module_id := field "module_id" in
      let? policy := policy_of module_id in
      match policy with
      | None => Err (ValueError "candidate module is not allowlisted")
      | Some source_url =>
          let? source_repository := field "source_repository" in
          refuse "candidate source repository does not match allowlist" (differs source_repository (JStr source_url)) ;?
          let? classification := field "classification" in
          refuse "candidate classification is not first-party" (differs classification (JStr "first-party")) ;?
          let? schema_version := field "schema_version" in
          let? builder_version := field "builder_version" in
          refuse "unsupported candidate or builder version"
            (differs schema_version (JInt 1) || differs builder_version (JInt 1)) ;?
          let? bundle_format_version := field "bundle_format_version" in
          refuse "unsupported bundle format" (differs bundle_format_version (JInt 1)) ;?
          let? version := field "version" in
          let? version_ok := fullmatch_value SEMVER_RE version in
          refuse "invalid candidate version" (negb version_ok) ;?
          let? source_tag := field "source_tag" in
          refuse "candidate tag/version mismatch" (differs source_tag (JStr ("v" +:+ json_text version))) ;?
          let? source_commit := field "source_commit" in
          let? commit_ok := fullmatch_value BUILDER_COMMIT_RE source_commit in
          refuse "invalid source commit" (negb commit_ok) ;?
          let? builder_commit := field "builder_commit" in
          let? builder_bad := bad_builder_commit builder_commit in
          refuse "invalid builder commit" builder_bad ;?
          let? bundle_sha256 := field "bundle_sha256" in
          let? digest_ok := fullmatch_value SHA256_RE bundle_sha256 in
          refuse "invalid bundle digest" (negb digest_ok) ;?
          let? reproducible := field "reproducible" in
          let? host_contract := field "host_contract" in
          refuse "candidate did not pass all gates"
            (match reproducible with JBool true => false | _ => true end || differs host_contract (JStr "passed")) ;?
          let? registry_status := field "registry_status" in
          let? status_ok := in_set registry_status ["new"; "already-registered"] in
          refuse "invalid registry status" (negb status_ok) ;?
          let? planned_channel := field "planned_channel" in
          let? channel_ok := in_set planned_channel ["stable"; "beta"; "nightly"] in
          refuse "invalid planned channel" (negb channel_ok) ;?
          let? requires := field "requires" in
          refuse "candidate requires must be an object" (match requires with JObj _ => false | _ => true end) ;?
          match jget "build_environment" value with
          | Some environment => validate_environment value environment
          | None => Ok tt
          end ;?
          let? artifact_candidate := field "artifact_candidate" in
          let? locator_ok := fullmatch_value ARTIFACT_CANDIDATE_RE artifact_candidate in
          refuse "candidate artifact is not a GitHub Actions run artifact" (negb locator_ok) ;?
          Ok value
      end
  | _ => Err (ValueError "candidate has unknown or missing fields")
  end.

(** [canonical_public_artifact_url(value["module_id"], value["version"])] *)
Definition public_url_value (module_id version : json) : res exn string :=
  let? module_id := validate_module_id module_id "module ID" in
  let? version := validate_semver version "version" in
  canonical_public_artifact_url module_id version.

Definition candidate_release (value : members) : res exn members :=
  let? version := getitem "version" value in
  let? channel := getitem "planned_channel" value in
  let? module_id := getitem "module_id" value in
  let? url := public_url_value module_id version in
  let? digest := getitem "bundle_sha256" value in
  let? format := getitem "bundle_format_version" value in
  let? commit := getitem "source_commit" value in
  let? tag := getitem "source_tag" value in
  let? requires := getitem "requires" value in
  Ok [("version", version); ("channel", channel); ("artifact", JObj [("url", JStr url); ("sha256", digest)]);
      ("bundle_format_version", format); ("source_commit", commit); ("source_tag", tag); ("requires", requires)].

(** The directory of candidates: the text of [module/version/provenance.json]. *)
Abbreviation candidate_files := (gmap (string * string) string).

(** The fields that a second build of a version has to repeat. *)
Definition comparable_fields : list string :=
  List.filter (fun k => negb (mem k ["artifact_candidate"; "builder_commit"])) REQUIRED.

(** The path, and whether it was created; [json.loads] of a file that is no
    JSON object fails. *)
Definition store_candidate (source : string) (root : candidate_files)
    : res exn ((string * string) * bool * candidate_files) :=
  let? value := of_option (ValueError "Expecting value") (loads source) in
  let? value := validate_candidate value in
  let? module_id := getitem "module_id" value in
  let? version := getitem "version" value in
  let destination := (json_text module_id, json_text version) in
  match root !! destination with
  | Some text =>
      let? existing := of_option (ValueError "Expecting value") (loads text) in
      match existing with
      | JObj existing =>
          let? differing := traverse (fun k => let? v := getitem k value in Ok (differs (get_item k existing) v))
                              comparable_fields in
          refuse "candidate version already exists with different provenance" (existsb (fun b => b) differing) ;?
          Ok (destination, false, root)
      | _ => Err TypeError
      end
  | None => Ok (destination, true, <[destination := canonical_json (JObj value)]> root)
  end.

(** ** What validation establishes *)

Record candidate_ok (value : members) (module_id version digest channel : string) : Prop := {
  cand_id : jget "module_id" value = Some (JStr module_id);
  cand_source : exists u, policies module_id = Some u /\ jget "source_repository" value = Some (JStr u);
  cand_version : jget "version" value = Some (JStr version) /\ fullmatch SEMVER_RE version = true;
  cand_tag : jget "source_tag" value = Some (JStr ("v" +:+ version));
  cand_commit : exists c, jget "source_commit" value = Some (JStr c) /\ fullmatch BUILDER_COMMIT_RE c = true;
  cand_digest : jget "bundle_sha256" value = Some (JStr digest) /\ fullmatch SHA256_RE digest = true;
  cand_gates : jget "reproducible" value = Some (JBool true) /\ jget "host_contract" value = Some (JStr "passed");
  cand_channel : jget "planned_channel" value = Some (JStr channel) /\ channel ∈ CHANNELS;
  cand_requires : exists r, jget "requires" value = Some (JObj r)
}.

Lemma refuse_Ok msg c : refuse msg c = Ok tt -> c = false.
Proof. apply raise_if_Ok. Qed.

Lemma fullmatch_value_Ok r v b : fullmatch_value r v = Ok b -> exists s, v = JStr s /\ b = fullmatch r s.
Proof. destruct v; try done. intros [= <-]. by eexists. Qed.

Lemma differs_str v s : differs v (JStr s) = false -> v = JStr s.
Proof. unfold differs. destruct v; simpl; try done. intros H. apply negb_false_iff, String.eqb_eq in H. by subst. Qed.

Lemma policy_of_Some v u : policy_of v = Ok (Some u) -> exists s, v = JStr s /\ policies s = Some u.
Proof. destruct v; try done. intros [= H]. by eexists. Qed.

Lemma in_set_true v l : in_set v l = Ok true -> exists s, v = JStr s /\ s ∈ l.
Proof.
  unfold in_set. intros H. assert (in_strings v l = true) as Hin by (destruct v; congruence).
  by apply in_strings_Ok.
Qed.

End Candidate.

(** ** Properties *)

(** A candidate that validates is what the promotion relies on: it comes from
    the allowlisted repository of its module, carries a complete SemVer version
    with the tag that names it, a full commit and a SHA-256 digest, passed the
    reproducibility and host gates, and plans one of the three channels. *)
Theorem validate_candidate_sound policies builder_policy v value :
  validate_candidate policies builder_policy v = Ok value ->
  v = JObj value /\
  exists module_id version digest channel, candidate_ok policies value module_id version digest channel.
Proof.
  destruct v as [| | | | |l]; try done. unfold validate_candidate. intros H. cbv zeta in H.
  apply res_bind_Ok in H as ([] & _ & H). apply res_bind_Ok in H as (mid & Hmid & H).
  apply res_bind_Ok in H as ([src|] & Hpol & H); [|done]. apply policy_of_Some in Hpol as (module_id & -> & Hpol).
  apply res_bind_Ok in H as (sr & Hsr & H). apply res_bind_Ok in H as ([] & Hr%refuse_Ok%differs_str & H). subst sr.
  do 7 (apply res_bind_Ok in H as (? & _ & H)).
  apply res_bind_Ok in H as (ver & Hver & H). apply res_bind_Ok in H as (vok & Hvok & H).
  apply fullmatch_value_Ok in Hvok as (version & -> & ->). apply res_bind_Ok in H as ([] & Hv%refuse_Ok & H).
  apply res_bind_Ok in H as (tag & Htag & H). apply res_bind_Ok in H as ([] & Ht%refuse_Ok%differs_str & H). subst tag.
  apply res_bind_Ok in H as (cm & Hcm & H). apply res_bind_Ok in H as (cok & Hcok & H).
  apply fullmatch_value_Ok in Hcok as (commit & -> & ->). apply res_bind_Ok in H as ([] & Hc%refuse_Ok & H).
  do 3 (apply res_bind_Ok in H as (? & _ & H)).
  apply res_bind_Ok in H as (dg & Hdg & H). apply res_bind_Ok in H as (dok & Hdok & H).
  apply fullmatch_value_Ok in Hdok as (digest & -> & ->). apply res_bind_Ok in H as ([] & Hd%refuse_Ok & H).
  apply res_bind_Ok in H as (rp & Hrp & H). apply res_bind_Ok in H as (hc & Hhc & H).
  apply res_bind_Ok in H as ([] & Hg%refuse_Ok & H). apply orb_false_iff in Hg as [Hg1 Hg2%differs_str].
  do 3 (apply res_bind_Ok in H as (? & _ & H)).
  apply res_bind_Ok in H as (pc & Hpc & H). apply res_bind_Ok in H as (pok & Hpok & H).
  apply res_bind_Ok in H as ([] & Hp%refuse_Ok & H). apply negb_false_iff in Hp. subst pok.
  apply in_set_true in Hpok as (channel & -> & Hch).
  apply res_bind_Ok in H as (rq & Hrq & H). apply res_bind_Ok in H as ([] & Hq%refuse_Ok & H).
  do 4 (apply res_bind_Ok in H as (? & _ & H)). injection H as <-. split; [done|].
  apply negb_false_iff in Hv, Hc, Hd.
  repeat match goal with H : getitem _ _ = Ok _ |- _ => apply getitem_Ok in H end.
  exists module_id, version, digest, channel. split; try done.
  - by exists src.
  - by exists commit.
  - destruct rp as [|[]| | | |]; try done. by subst hc.
  - destruct rq; try done. by eexists.
Qed.

Definition example_policies (m : string) : option string :=
  if String.eqb m "hello" then Some "https://github.com/oklabflensburg/hello" else None.

Definition example_candidate : members :=
  [("schema_version", JInt 1); ("module_id", JStr "hello"); ("version", JStr "1.0.0");
   ("classification", JStr "first-party"); ("source_repository", JStr "https://github.com/oklabflensburg/hello");
   ("source_tag", JStr "v1.0.0"); ("source_commit", JStr (String.string_of_list_ascii (repeat "b"%char 40)));
   ("builder_version", JInt 1); ("builder_commit", JStr "unknown"); ("bundle_format_version", JInt 1);
   ("bundle_sha256", JStr (hex64 "a")); ("artifact_candidate", JStr "github-actions://run/1/hello.ocp");
   ("reproducible", JBool true); ("host_contract", JStr "passed"); ("planned_channel", JStr "stable");
   ("requires", JObj [("host", JStr ">=1.0.0"); ("sdk", JStr ">=1.0.0"); ("modules", JObj [])]);
   ("registry_status", JStr "new")].

Lemma validate_candidate_sound_witness :
  exists module_id version digest channel, candidate_ok example_policies example_candidate module_id version digest channel.
Proof.
  apply (validate_candidate_sound example_policies [] (JObj example_candidate) example_candidate).
  vm_compute. reflexivity.
Defined.
