(* ===== verification/Promotion.v ===== *)
(** * Promotion: web/backend/app/registry_promotion.py

    A reviewed candidate becomes a published version: durable bytes first, then
    one database transaction.  The store is used through the interface of
    [StoreProtocol].  The source of candidates is the service's argument
    [candidate_source].  The advisory locks make the transactions serial. *)

#[local] Set Warnings "-notation-overridden".

From S2P Require Import Prelude PyText SemVer Json Url Validate Registry ArtifactStore StoreProtocol Candidate RegistryDb.

Open Scope string_scope.
Open Scope list_scope.

(** ** The service *)

Record PromotionIntent := {
  in_module_id : string; in_version : string; approval_pr : Z; candidate_sha256 : string;
  bundle_sha256 : string; in_channel : string; expected_channel_revision : Z; in_idempotency_key : string
}.

Record ReviewedCandidate := {
  canonical : string; rc_candidate_sha256 : string; approval_reference : string;
  approval_identity : string; merge_commit : string
}.

Inductive promotion_exn :=
| Rejected (e : reg_exn)
| SourceError (msg : string)
| StoreError (e : os_exn).

Definition conflict {A} (msg : string) : res promotion_exn A := Err (Rejected (RegistryConflict msg)).

Definition registry_call {A} (r : res exn A) : res promotion_exn A :=
  match r with Ok a => Ok a | Err e => Err (Rejected (RegistryInvalid e)) end.

(** [[A-Za-z0-9][A-Za-z0-9:._-]{0,199}] *)
Definition KEY_RE : re :=
  let alnum c := is_ascii_alpha c || is_ascii_digit c in
  Seq (Cls alnum) (upto 199 (Cls (fun c => alnum c || mem_char c ":._-"))).

Section Promotion.
Context {S : Type} `{!StoreOps S} (hash : string -> string) (schema_valid : string -> json -> bool).
Context (candidate_source : string -> string -> Z -> string -> res promotion_exn ReviewedCandidate).

Definition candidate_digest (value : members) : string := hash (canonical_json (JObj value)).

(** [reviewed.value] *)
Definition candidate_value (r : ReviewedCandidate) : res promotion_exn members :=
  match loads (canonical r) with
  | Some (JObj value) => Ok value
  | _ => Err (SourceError "reviewed candidate is no object")
  end.

(** A text column of the candidate; other values do not fit a text column. *)
Definition text_of (key : string) (value : members) : res promotion_exn string :=
  let? v := registry_call (getitem key value) in
  match v with JStr s => Ok s | _ => Err (Rejected IntegrityError) end.

(** [str(value["builder_version"])] *)
Definition builder_version_text (value : members) : res promotion_exn string :=
  let? v := registry_call (getitem "builder_version" value) in
  match v with
  | JInt z => Ok (render_int z)
  | JBool true => Ok "True"
  | JBool false => Ok "False"
  | JStr s => Ok s
  | _ => Err (Rejected IntegrityError)
  end.

Definition environment_of (value : members) : option json :=
  match jget "build_environment" value with Some JNull | None => None | Some env => Some env end.

(** [environment.get("host_commit") if environment else None] *)
Definition host_commit_of (environment : option json) : option string :=
  match environment with
  | Some (JObj env) => match jget "host_commit" env with Some (JStr s) => Some s | _ => None end
  | _ => None
  end.

(** The provenance a promotion records. *)
Definition promoted_evidence (value : members) : res promotion_exn evidence :=
  let? source_repository := text_of "source_repository" value in
  let? source_tag := text_of "source_tag" value in
  let? source_commit := text_of "source_commit" value in
  let? version := builder_version_text value in
  let? builder_commit := text_of "builder_commit" value in
  let environment := environment_of value in
  Ok {| ev_source_repository := source_repository; ev_source_tag := Some source_tag;
        ev_source_commit := source_commit; builder_version := Some version;
        builder_commit := Some builder_commit; host_commit := host_commit_of environment;
        reproducible := Some true; host_contract_status := Some "passed";
        environment_json := option_map canonical_json environment |}.

(** The document of the intent, bound to its approval and candidate. *)
Definition bound_intent (i : PromotionIntent) (r : ReviewedCandidate) (value : members) : json :=
  JObj [("module_id", JStr (in_module_id i)); ("version", JStr (in_version i)); ("approval_pr", JInt (approval_pr i));
        ("candidate_sha256", JStr (candidate_sha256 i)); ("bundle_sha256", JStr (bundle_sha256 i));
        ("channel", JStr (in_channel i)); ("expected_channel_revision", JInt (expected_channel_revision i));
        ("idempotency_key", JStr (in_idempotency_key i));
        ("approval_reference", JStr (approval_reference r)); ("approval_identity", JStr (approval_identity r));
        ("merge_commit", JStr (merge_commit r)); ("candidate", JObj value)].

(** What the transaction is given. *)
Record binding := {
  b_intent : PromotionIntent; b_reviewed : ReviewedCandidate; b_value : members; b_release : members;
  b_evidence : evidence; b_bound : string
}.

(** The checks before anything is written. *)
Definition bind_intent (i : PromotionIntent) : res promotion_exn binding :=
  if negb (fullmatch KEY_RE (in_idempotency_key i)) || (expected_channel_revision i <? 0)%Z
  then conflict "Invalid promotion key or expected channel revision"
  else
    let? reviewed := candidate_source (in_module_id i) (in_version i) (approval_pr i) (candidate_sha256 i) in
    let? value := candidate_value reviewed in
    let? planned := registry_call (getitem "planned_channel" value) in
    let? digest := registry_call (getitem "bundle_sha256" value) in
    if negb (String.eqb (candidate_digest value) (candidate_sha256 i))
       || differs planned (JStr (in_channel i)) || differs digest (JStr (bundle_sha256 i))
    then conflict "Intent does not match reviewed candidate"
    else
      let? release := registry_call (candidate_release value) in
      let? evidence := promoted_evidence value in
      Ok {| b_intent := i; b_reviewed := reviewed; b_value := value; b_release := release;
            b_evidence := evidence; b_bound := canonical_json (bound_intent i reviewed value) |}.

Definition stored_artifact_ok (b : binding) (a : StoredArtifact) : bool :=
  String.eqb (digest a) (bundle_sha256 (b_intent b))
  && match jget "artifact" (b_release b) with
     | Some (JObj l) => match jget "url" l with Some u => py_eq u (JStr (public_url_ a)) | None => false end
     | _ => false
     end.

(** *** The transaction *)

Definition get_event (key : string) : D (option promotion_event) :=
  query (fun d => first (fun x => String.eqb (idempotency_key x) key) (promotion_events d)).

Definition get_channel (mid ch : string) : D (option channel_row) :=
  query (fun d => first (fun c => String.eqb (c_module_id c) mid && String.eqb (c_channel c) ch) (module_channels d)).

(** The document [{**repo.module_structure(module), "versions": [release]}]. *)
Definition promotion_document (m : module_row) (p : publisher) (release : members) : members :=
  List.filter (fun kv => negb (String.eqb (fst kv) "versions")) (module_json (module_structure m p []))
  ++ [("versions", JArr [JObj release])].

(** Fills unknown storage metadata, never replaces known ones. *)
Definition complete_artifact (stored : artifact_row) (a : StoredArtifact) : D unit :=
  reject_if (match a_byte_size stored with Some n => negb (Z.eqb n (Z.of_nat (byte_size a))) | None => false end
             || match a_storage_locator stored with
                | Some l => negb (String.eqb l (storage_locator a))
                | None => false
                end)
    (RegistryConflict "Existing artifact storage binding conflicts") >>
  modify (fun d => put_artifacts
    (map (fun x => if N.eqb (a_id x) (a_id stored)
                   then {| a_id := a_id x; digest_algorithm := digest_algorithm x; a_digest := a_digest x;
                           a_byte_size := Some (Z.of_nat (byte_size a));
                           a_storage_locator := Some (storage_locator a) |}
                   else x) (artifacts d))
    (artifact_seq d) d).

(** The channel, created or moved with the next revision. *)
Definition move_channel (mid ch v : string) (current : option channel_row) : D unit :=
  modify (fun d => put_channels
    (match current with
     | None => module_channels d ++ [{| c_module_id := mid; c_channel := ch; c_version := v; revision := 1 |}]
     | Some c =>
         map (fun x => if String.eqb (c_module_id x) mid && String.eqb (c_channel x) ch
                       then {| c_module_id := mid; c_channel := ch; c_version := v; revision := revision c + 1 |}
                       else x) (module_channels d)
     end) d).

Definition report (i : PromotionIntent) (a : StoredArtifact) (previous : option string) (revision : Z) : promotion_result :=
  {| promotion_id := in_idempotency_key i; pr_module := in_module_id i; pr_version := in_version i;
     pr_channel := in_channel i; previous_channel_target := previous; new_channel_target := in_version i;
     channel_revision := revision; artifact_sha256 := digest a; artifact_url := public_url_ a;
     pr_storage_locator := storage_locator a; pr_byte_size := Z.of_nat (byte_size a); status := "published" |}.

Definition with_status (r : promotion_result) (s : string) : promotion_result :=
  {| promotion_id := promotion_id r; pr_module := pr_module r; pr_version := pr_version r; pr_channel := pr_channel r;
     previous_channel_target := previous_channel_target r; new_channel_target := new_channel_target r;
     channel_revision := channel_revision r; artifact_sha256 := artifact_sha256 r; artifact_url := artifact_url r;
     pr_storage_locator := pr_storage_locator r; pr_byte_size := pr_byte_size r; status := s |}.

Definition new_event (b : binding) (previous : option string) (result : promotion_result) : promotion_event :=
  let i := b_intent b in
  {| idempotency_key := in_idempotency_key i; e_module_id := in_module_id i; e_version := in_version i;
     e_channel := in_channel i; candidate_digest_ := candidate_sha256 i;
     approval_reference_ := approval_reference (b_reviewed b); approval_identity_ := approval_identity (b_reviewed b);
     previous_channel_version := previous; new_channel_version := in_version i; intent_ := b_bound b;
     result_ := result |}.

(** The first promotion of a version. *)
Definition first_promotion (b : binding) (r : release) (a : StoredArtifact) : D promotion_result :=
  let i := b_intent b in
  let mid := in_module_id i in
  do taken <- query (fun d => existsb (fun x => String.eqb (e_module_id x) mid && String.eqb (e_version x) (in_version i))
                                (promotion_events d));
  reject_if taken (RegistryConflict "Version already belongs to another promotion intent") >>
  do current <- get_channel mid (in_channel i);
  let number := match current with Some c => revision c | None => 0%Z end in
  reject_if (negb (Z.eqb number (expected_channel_revision i)))
    (RegistryConflict "Stale channel revision; fresh approval required") >>
  let previous := option_map c_version current in
  do stored <- ensure_artifact (digest a);
  complete_artifact stored a >>
  do inserted <- insert_published_version schema_valid mid r None (Some (b_evidence b));
  reject_if (negb inserted) (RegistryConflict "Existing version has no matching committed promotion intent") >>
  move_channel mid (in_channel i) (in_version i) current >>
  flush >>
  do ms <- query (project_v1 None);
  do current_targets <- query (channel_targets None);
  (fun d => match validate_v1_representability schema_valid ms current_targets with
            | Ok _ => Ok (tt, d)
            | Err e => Err e
            end) >>
  let result := report i a previous (number + 1) in
  modify (fun d => put_events (promotion_events d ++ [new_event b previous result]) d) >>
  flush >>
  ret result.

Definition promotion_transaction (b : binding) (a : StoredArtifact) : D promotion_result :=
  let i := b_intent b in
  do revision <- query schema_revision;
  reject_if (negb (bool_decide (revision = Some EXPECTED_SCHEMA_REVISION)))
    (RegistryConflict "Registry schema is not ready for promotion") >>
  do found <- get_module (in_module_id i);
  match found with
  | None => raise (RegistryConflict "Candidate does not match registered module identity")
  | Some m =>
      do source <- checked (getitem "source_repository" (b_value b));
      reject_if (differs source (JStr (m_source_repository m)))
        (RegistryConflict "Candidate does not match registered module identity") >>
      do class <- checked (getitem "classification" (b_value b));
      reject_if (differs class (JStr (m_classification m)))
        (RegistryConflict "Candidate classification differs from registered module") >>
      do p <- query (fun d => publisher_of d m);
      match p with
      | None => raise AttributeError
      | Some p =>
          checked (validate_module schema_valid (promotion_document m p (b_release b)) "promotion" None) >>
          match release_of_json (JObj (b_release b)) with
          | None => raise AttributeError
          | Some r =>
              do previous_event <- get_event (in_idempotency_key i);
              match previous_event with
              | Some ev =>
                  reject_if (negb (String.eqb (intent_ ev) (b_bound b)))
                    (RegistryConflict "Idempotency key conflicts with committed intent") >>
                  do inserted <- insert_published_version schema_valid (in_module_id i) r None (Some (b_evidence b));
                  ret (with_status (result_ ev) "already-published")
              | None => first_promotion b r a
              end
          end
      end
  end.

(** What happens before the database is asked: the checks of the intent, and the
    bytes in the store. *)
Definition place (i : PromotionIntent) (source : path_) (s : S) : res promotion_exn (binding * StoredArtifact) * S :=
  match bind_intent i with
  | Err e => (Err e, s)
  | Ok b =>
      match store_publish (in_module_id i) (in_version i) source (bundle_sha256 i) s with
      | (Err e, s) => (Err (StoreError e), s)
      | (Ok _, s) =>
          match store_verify (in_module_id i) (in_version i) (bundle_sha256 i) s with
          | (Err e, s) => (Err (StoreError e), s)
          | (Ok a, s) =>
              if negb (stored_artifact_ok b a) then (conflict "Stored artifact differs from approved binding", s)
              else (Ok (b, a), s)
          end
      end
  end.

(** The store and the database after the call. *)
Definition promote (i : PromotionIntent) (source : path_) (s : S) (d : registry_db)
    : res promotion_exn promotion_result * S * registry_db :=
  match place i source s with
  | (Err e, s) => (Err e, s, d)
  | (Ok (b, a), s) =>
      match promotion_transaction b a d with
      | Ok (result, d') => (Ok result, s, d')
      | Err e => (Err (Rejected e), s, d)
      end
  end.

End Promotion.

(** ** What a promotion does *)

Section Facts.
Context (schema_valid : string -> json -> bool).

Definition number_of (c : option channel_row) : Z := match c with Some c => revision c | None => 0 end.

Definition channel_at (d : registry_db) (mid ch : string) : option channel_row :=
  first (fun c => String.eqb (c_module_id c) mid && String.eqb (c_channel c) ch) (module_channels d).

Lemma extends_complete stored a d u d' :
  complete_artifact stored a d = Ok (u, d') ->
  extends d d' /\ sealed d d' /\ modules d' = modules d /\ module_versions d' = module_versions d /\
  module_channels d' = module_channels d /\ promotion_events d' = promotion_events d.
Proof.
  unfold complete_artifact. intros H. d_step H. unfold modify in H. injection H as _ <-.
  split; [|by split_and!; try apply sealed_refl].
  split; simpl; try (by intros x); try done. intros x Hx. eexists. split; [by apply list_elem_of_fmap; exists x|].
  by destruct (N.eqb (a_id x) (a_id stored)).
Qed.

Lemma channel_at_moved d mid ch v :
  let current := channel_at d mid ch in
  let d' := put_channels
    (match current with
     | None => module_channels d ++ [{| c_module_id := mid; c_channel := ch; c_version := v; revision := 1 |}]
     | Some c =>
         map (fun x => if String.eqb (c_module_id x) mid && String.eqb (c_channel x) ch
                       then {| c_module_id := mid; c_channel := ch; c_version := v; revision := revision c + 1 |}
                       else x) (module_channels d)
     end) d in
  channel_at d' mid ch = Some {| c_module_id := mid; c_channel := ch; c_version := v; revision := number_of current + 1 |} /\
  forall mid' ch', (mid', ch') <> (mid, ch) -> channel_at d' mid' ch' = channel_at d mid' ch'.
Proof.
  cbv zeta. unfold channel_at. destruct (first _ (module_channels d)) as [c|] eqn:Hc; simpl.
  - split.
    + revert Hc. induction (module_channels d) as [|x l IH]; [done|]. simpl.
      destruct (String.eqb (c_module_id x) mid && String.eqb (c_channel x) ch) eqn:Hx; simpl.
      * intros [= ->]. by rewrite !String.eqb_refl.
      * rewrite Hx. exact IH.
    + intros mid' ch' Hne. clear Hc. induction (module_channels d) as [|x l IH]; [done|]. simpl.
      destruct (String.eqb (c_module_id x) mid && String.eqb (c_channel x) ch) eqn:Hx; simpl.
      * apply andb_true_iff in Hx as [->%String.eqb_eq ->%String.eqb_eq].
        destruct (String.eqb_spec mid mid') as [->|]; [|done]. destruct (String.eqb_spec ch ch') as [->|]; done.
      * by rewrite IH.
  - rewrite first_app', Hc. split; simpl.
    + by rewrite !String.eqb_refl.
    + intros mid' ch' Hne. rewrite first_app'.
      assert (Hn : (String.eqb mid mid' && String.eqb ch ch') = false).
      { destruct (String.eqb_spec mid mid') as [->|]; [|done]. by destruct (String.eqb_spec ch ch') as [->|]. }
      unfold first. simpl. rewrite Hn. by destruct (List.find _ _).
Qed.

(** What the first promotion of a version leaves. *)
Record promoted (d d' : registry_db) (b : binding) (r : release) (a : StoredArtifact) (result : promotion_result)
    : Prop := {
  prom_fresh : existsb (fun x => String.eqb (e_module_id x) (in_module_id (b_intent b))
                            && String.eqb (e_version x) (in_version (b_intent b))) (promotion_events d) = false;
  prom_revision : let i := b_intent b in
    number_of (channel_at d (in_module_id i) (in_channel i)) = expected_channel_revision i;
  prom_result : let i := b_intent b in
    result = report i a (option_map c_version (channel_at d (in_module_id i) (in_channel i)))
               (expected_channel_revision i + 1);
  prom_row : exists m p, acceptable schema_valid d' (in_module_id (b_intent b)) r m p;
  prom_published : exists v a' pr,
    published_as d' (in_module_id (b_intent b)) r (b_evidence b) true v a' pr /\ a_digest a' = sha256 (rel_artifact r);
  prom_versions : exists o aid pid,
    module_versions d' = module_versions d ++ [new_version (in_module_id (b_intent b)) r o aid pid true];
  prom_new : first (is_version (in_module_id (b_intent b)) (version r)) (module_versions d) = None;
  prom_channel : let i := b_intent b in
    channel_at d' (in_module_id i) (in_channel i)
    = Some {| c_module_id := in_module_id i; c_channel := in_channel i; c_version := in_version i;
              revision := expected_channel_revision i + 1 |};
  prom_other_channels : forall mid ch, (mid, ch) <> (in_module_id (b_intent b), in_channel (b_intent b)) ->
    channel_at d' mid ch = channel_at d mid ch;
  prom_events : promotion_events d' = promotion_events d
    ++ [new_event b (option_map c_version (channel_at d (in_module_id (b_intent b)) (in_channel (b_intent b)))) result];
  prom_representable : exists index,
    validate_v1_representability schema_valid (project_v1 None d') (channel_targets None d') = Ok index;
  prom_modules : modules d' = modules d;
  prom_extends : extends d d';
  prom_sealed : sealed d d';
  prom_constraints : constraints d' = true
}.

Lemma first_promotion_Ok b r a d result d' :
  first_promotion schema_valid b r a d = Ok (result, d') -> promoted d d' b r a result.
Proof.
  unfold first_promotion. intros H. d_step H. d_step H. rename H0 into Hfresh.
  unfold get_channel in H. d_step H. d_step H. rename H0 into Hrev. apply negb_false_iff, Z.eqb_eq in Hrev.
  fold (channel_at d (in_module_id (b_intent b)) (in_channel (b_intent b))) in H, Hrev.
  fold (number_of (channel_at d (in_module_id (b_intent b)) (in_channel (b_intent b)))) in H, Hrev.
  set (current := channel_at d _ _) in *.
  apply d_bind_Ok in H as (stored & d1 & H1 & H).
  assert (He1 := growing_ensure_artifact _ _ _ _ H1).
  apply ensure_artifact_Ok in H1 as (_ & _ & _ & Hv1 & Hdep1 & Hm1 & _ & Hc1 & Hev1 & _).
  apply d_bind_Ok in H as (? & d2 & H2 & H). apply extends_complete in H2 as (He2 & Hs2 & Hm2 & Hv2 & Hc2 & Hev2).
  apply d_bind_Ok in H as (ins & d3 & H3 & H). d_step H. apply negb_false_iff in H0. subst ins.
  apply insert_Ok in H3 as (m & p & Hacc & [[_ Hins]|[? _]]); [|done]. destruct Hins as [Hnew Hrow Hm3 Hp3 Hc3 Hev3 He3 Hs3 Hcons3].
  unfold move_channel in H. d_step H. d_step H. d_step H. d_step H.
  apply d_bind_Ok in H as (? & d4 & H4 & H).
  destruct (validate_v1_representability _ _ _) as [index|] eqn:Hrep in H4; [|done]. injection H4 as _ <-.
  d_step H. d_step H. unfold ret in H. injection H as <- <-.
  assert (Hch : channel_at d3 = channel_at d) by (unfold channel_at; by rewrite Hc3, Hc2, Hc1).
  match goal with |- promoted _ ?x _ _ _ _ => set (d5 := x) in * end.
  match goal with d5 := put_events _ ?x |- _ => set (d4' := x) in * end.
  assert (He35 : extends d3 d5) by (transitivity d4'; [apply extends_channels | exact (extends_events _ d4')]).
  assert (Hs35 : sealed d3 d5) by by apply sealed_refl.
  assert (He : extends d d5) by (transitivity d1; [done|]; transitivity d2; [done|]; by transitivity d3).
  destruct (channel_at_moved d3 (in_module_id (b_intent b)) (in_channel (b_intent b)) (in_version (b_intent b)))
    as [Hmoved Hother].
  rewrite Hch in Hmoved, Hother. fold current in Hmoved, Hother. fold d4' in Hmoved, Hother.
  assert (Hvers : module_versions d2 = module_versions d) by by rewrite Hv2, Hv1.
  split; cbv zeta; fold current.
  - done.
  - done.
  - by rewrite Hrev.
  - exists m, p. eapply acceptable_later; [|exact He35|done].
    destruct Hacc. split; try done; [by rewrite Hm3|]. unfold publisher_of in *. by rewrite Hp3.
  - destruct Hrow as (o & aid & pid & a' & pr & Hpub & Hdg & _ & _).
    destruct (published_as_later _ _ _ _ _ _ _ _ _ Hpub He35 Hs35) as (a2 & Hdg2 & Hpub2); [done|].
    eexists _, a2, pr. split; [exact Hpub2 | congruence].
  - destruct Hrow as (o & aid & pid & a' & pr & _ & _ & _ & Hv). exists o, aid, pid. by rewrite <- Hvers.
  - by rewrite <- Hvers.
  - change (channel_at d5) with (channel_at d4'). rewrite Hmoved. by rewrite Hrev.
  - intros mid ch Hne. change (channel_at d5) with (channel_at d4'). by apply Hother.
  - simpl. by rewrite Hev3, Hev2, Hev1.
  - by exists index.
  - simpl. by rewrite Hm3, Hm2, Hm1.
  - done.
  - eapply sealed_trans; [|eapply sealed_trans; [exact Hs2| |exact He2]|exact He1]; [by apply sealed_refl|].
    eapply sealed_trans; [exact Hs3 | exact Hs35 | done].
  - done.
Qed.

(** The module the transaction finds and the checks of the candidate against it. *)
Record admissible (d : registry_db) (b : binding) (m : module_row) (p : publisher) : Prop := {
  adm_schema : schema_revision d = Some EXPECTED_SCHEMA_REVISION;
  adm_module : first (fun m => String.eqb (m_id m) (in_module_id (b_intent b))) (modules d) = Some m;
  adm_source : exists v, getitem "source_repository" (b_value b) = Ok v /\ differs v (JStr (m_source_repository m)) = false;
  adm_class : exists v, getitem "classification" (b_value b) = Ok v /\ differs v (JStr (m_classification m)) = false;
  adm_publisher : publisher_of d m = Some p;
  adm_valid : is_ok (validate_module schema_valid (promotion_document m p (b_release b)) "promotion" None) = true
}.

Definition event_of (d : registry_db) (key : string) : option promotion_event :=
  first (fun x => String.eqb (idempotency_key x) key) (promotion_events d).

(** The transaction: a retry of a recorded intent, or a first promotion. *)
Inductive committed (d d' : registry_db) (b : binding) (r : release) (a : StoredArtifact) (result : promotion_result)
    : Prop :=
| committed_first :
    event_of d (in_idempotency_key (b_intent b)) = None ->
    promoted d d' b r a result -> committed d d' b r a result
| committed_again ev m p v a' pr :
    event_of d (in_idempotency_key (b_intent b)) = Some ev ->
    intent_ ev = b_bound b -> result = with_status (result_ ev) "already-published" ->
    d' = d \/ inserted d d' (in_module_id (b_intent b)) r None (b_evidence b) true ->
    acceptable schema_valid d (in_module_id (b_intent b)) r m p ->
    published_as d' (in_module_id (b_intent b)) r (b_evidence b) true v a' pr ->
    committed d d' b r a result.

Lemma transaction_Ok b a d result d' :
  promotion_transaction schema_valid b a d = Ok (result, d') ->
  exists r m p, release_of_json (JObj (b_release b)) = Some r /\ admissible d b m p /\ committed d d' b r a result.
Proof.
  unfold promotion_transaction. intros H. d_step H. d_step H. apply negb_false_iff, bool_decide_eq_true_1 in H0.
  unfold get_module in H. d_step H. destruct (first _ (modules d)) as [m|] eqn:Hm; [|done].
  apply checked_bind in H as (src & Hsrc & H). d_step H. apply checked_bind in H as (cls & Hcls & H). d_step H. d_step H.
  destruct (publisher_of d m) as [p|] eqn:Hp; [|done]. apply checked_bind in H as (doc & Hdoc & H).
  destruct (release_of_json _) as [r|]; [|done]. exists r, m, p. split; [done|].
  split; [split; try done; [by exists src | by exists cls | by rewrite Hdoc]|]. unfold get_event in H. d_step H.
  fold (event_of d (in_idempotency_key (b_intent b))) in H.
  destruct (event_of d _) as [ev|] eqn:Hev.
  - d_step H. apply d_bind_Ok in H as (ins & d1 & Hi & H). unfold ret in H. injection H as <- <-.
    apply negb_false_iff, String.eqb_eq in H3. apply insert_Ok in Hi as (m' & p' & Hacc & Hi). simpl in Hi.
    destruct Hi as [[_ Hi]|(_ & -> & v & a' & pr & _ & Hpub)].
    + destruct (ins_row _ _ _ _ _ _ _ Hi) as (o & aid & pid & a' & pr & Hpub & _).
      eapply committed_again; [exact Hev | done | done | by right | exact Hacc | exact Hpub].
    + eapply committed_again; [exact Hev | done | done | by left | exact Hacc | exact Hpub].
  - apply committed_first; [done|]. by apply first_promotion_Ok.
Qed.

Lemma admissible_later d d' b m p :
  admissible d b m p -> extends d d' -> constraints d' = true -> admissible d' b m p.
Proof.
  intros [Hs Hm Hsrc Hcls Hp Hval] He Hc.
  assert (Hacc : first (fun m => String.eqb (m_id m) (in_module_id (b_intent b))) (modules d') = Some m /\
                 publisher_of d' m = Some p) by by apply (found_later d).
  destruct Hacc. split; try done. unfold schema_revision in *. by rewrite (ext_schema _ _ He).
Qed.

(** A retry of a recorded intent changes nothing. *)
Lemma transaction_again b a d r m p ev v a' pr m' p' :
  admissible d b m p -> release_of_json (JObj (b_release b)) = Some r ->
  event_of d (in_idempotency_key (b_intent b)) = Some ev -> intent_ ev = b_bound b ->
  acceptable schema_valid d (in_module_id (b_intent b)) r m' p' ->
  published_as d (in_module_id (b_intent b)) r (b_evidence b) true v a' pr ->
  promotion_transaction schema_valid b a d = Ok (with_status (result_ ev) "already-published", d).
Proof.
  intros [Hs Hm (src & Hsrc & Hsd) (cls & Hcls & Hcd) Hp Hval] Hr Hev Hint Hacc Hpub.
  apply is_ok_iff in Hval as [doc Hval].
  unfold promotion_transaction, get_module, get_event. unfold bind at 1, query at 1. rewrite Hs, bool_decide_true by done.
  unfold bind at 1. rewrite reject_false. unfold bind at 1, query at 1. rewrite Hm.
  unfold bind at 1. rewrite Hsrc. unfold checked at 1, ret at 1. unfold bind at 1. rewrite Hsd, reject_false.
  unfold bind at 1. rewrite Hcls. unfold checked at 1, ret at 1. unfold bind at 1. rewrite Hcd, reject_false.
  unfold bind at 1, query at 1. rewrite Hp. unfold bind at 1. rewrite Hval. unfold checked at 1, ret at 1. rewrite Hr.
  unfold bind at 1, query at 1. fold (event_of d (in_idempotency_key (b_intent b))). rewrite Hev.
  unfold bind at 1. rewrite Hint, String.eqb_refl. simpl negb. rewrite reject_false.
  unfold bind. erewrite insert_again; [done | exact Hacc | done | exact Hpub].
Qed.

Lemma committed_extends d d' b r a result :
  committed d d' b r a result -> constraints d = true -> extends d d' /\ constraints d' = true /\ sealed d d'.
Proof.
  intros [_ []|ev m p v a' pr _ _ _ [->|[]] _ _] Hc; done.
Qed.

End Facts.

(** ** The whole promotion *)

Section Promote.
Context {S : Type} `{!StoreOps S} (hash : string -> string) (schema_valid : string -> json -> bool).
Context (candidate_source : string -> string -> Z -> string -> res promotion_exn ReviewedCandidate).

Abbreviation bind_intent := (bind_intent hash candidate_source).
Abbreviation promote := (promote hash schema_valid candidate_source).
Abbreviation place := (place hash candidate_source).

Lemma bind_intent_Ok i b :
  bind_intent i = Ok b ->
  b_intent b = i /\ candidate_release (b_value b) = Ok (b_release b) /\
  jget "bundle_sha256" (b_value b) = Some (JStr (bundle_sha256 i)) /\
  candidate_digest hash (b_value b) = candidate_sha256 i.
Proof.
  unfold Promotion.bind_intent. intros H. destruct (negb _ || _); [done|].
  apply res_bind_Ok in H as (reviewed & _ & H). apply res_bind_Ok in H as (value & Hval & H).
  apply res_bind_Ok in H as (planned & _ & H). apply res_bind_Ok in H as (digest & Hdg & H).
  destruct (negb _ || _ || _) eqn:Hm; [done|]. apply orb_false_iff in Hm as [Hm Hm3].
  apply orb_false_iff in Hm as [Hm1 _]. apply differs_str in Hm3. apply negb_false_iff, String.eqb_eq in Hm1.
  apply res_bind_Ok in H as (release & Hrel & H). apply res_bind_Ok in H as (ev & _ & H). injection H as <-. simpl.
  unfold registry_call in Hrel, Hdg.
  destruct (candidate_release value) eqn:Hr in Hrel; [|done]. injection Hrel as ->.
  destruct (getitem _ _) as [dg|] eqn:Hg in Hdg; [|done]. injection Hdg as ->. apply getitem_Ok in Hg.
  split_and!; congruence.
Qed.

(** The release of a candidate, as a typed release. *)
Lemma candidate_release_Ok value rel r :
  candidate_release value = Ok rel -> release_of_json (JObj rel) = Some r ->
  exists m, canonical_public_artifact_url m (version r) = Ok (url (rel_artifact r)) /\
    jget "bundle_sha256" value = Some (JStr (sha256 (rel_artifact r))).
Proof.
  unfold candidate_release, public_url_value. intros H. py_inv.
  repeat match goal with H : getitem _ _ = Ok _ |- _ => apply getitem_Ok in H end.
  repeat match goal with
  | H : validate_module_id _ _ = Ok _ |- _ => apply _canonical_id_Ok in H as [-> ?]
  | H : validate_semver _ _ = Ok _ |- _ => apply _semver_Ok in H as [-> ?]
  end.
  intros Hr. unfold release_of_json in Hr.
  repeat (apply bind_Some in Hr as (? & ? & Hr)). injection Hr as <-. unfold artifact_of_json in *.
  repeat match goal with
  | H : artifact_of_json _ = Some _ |- _ => unfold artifact_of_json in H
  | H : mbind _ _ = Some _ |- _ => apply bind_Some in H as (? & ? & H)
  | H : get_str _ _ = Some _ |- _ => apply get_str_Ok in H; simpl in H
  | H : get_obj "artifact" _ = Some _ |- _ => unfold get_obj in H; simpl in H
  | H : Some _ = Some _ |- _ => injection H as H; try subst
  end. simpl.
  repeat match goal with H : jget _ (_ :: _) = Some (JStr _) |- _ => cbv in H; injection H as H; subst end. eauto.
Qed.

Context `{!StoreSpec S}.

Definition store_keeps (s s' : S) : Prop := forall m v dg, holds s m v dg -> holds s' m v dg.

(** A promotion either raises and leaves the database alone, or commits the
    transaction for an artifact that the store has just verified. *)
Lemma place_cases i source s r s' :
  place i source s = (r, s') ->
  store_keeps s s' /\
  forall b a, r = Ok (b, a) ->
    bind_intent i = Ok b /\ stored_artifact_ok b a = true /\
    holds s' (in_module_id i) (in_version i) (bundle_sha256 i) /\ digest a = bundle_sha256 i /\
    canonical_public_artifact_url (in_module_id i) (in_version i) = Ok (public_url_ a).
Proof.
  unfold Promotion.place. destruct (Promotion.bind_intent _ _ i) as [b|e] eqn:Hb.
  2:{ intros [= <- <-]. split; [by intros ? ? ? | done]. }
  destruct (store_publish _ _ _ _ s) as [[p|e] s1] eqn:Hp.
  2:{ intros [= <- <-]. split; [intros ? ? ?; by eapply publish_keeps | done]. }
  destruct (store_verify _ _ _ s1) as [[a|e] s2] eqn:Hv.
  2:{ intros [= <- <-]. split; [|done]. intros m v dg H. eapply verify_keeps; [exact Hv|]. by eapply publish_keeps. }
  assert (Hk : store_keeps s s2).
  { intros m v dg H. eapply verify_keeps; [exact Hv|]. by eapply publish_keeps. }
  apply verify_at_canonical_url in Hv as Hu. apply verify_holds in Hv as [Hd Hh].
  destruct (negb (stored_artifact_ok b a)) eqn:Hok; intros [= <- <-]; (split; [done|]); [done|].
  apply negb_false_iff in Hok. by intros ? ? [= <- <-].
Qed.

Lemma promote_cases i source s d r s' d' :
  promote i source s d = (r, s', d') ->
  store_keeps s s' /\
  ((d' = d /\ is_ok r = false) \/
   exists b a result, bind_intent i = Ok b /\ r = Ok result /\
     promotion_transaction schema_valid b a d = Ok (result, d') /\ stored_artifact_ok b a = true /\
     holds s' (in_module_id i) (in_version i) (bundle_sha256 i) /\ digest a = bundle_sha256 i /\
     canonical_public_artifact_url (in_module_id i) (in_version i) = Ok (public_url_ a)).
Proof.
  unfold Promotion.promote. destruct (Promotion.place _ _ i source s) as [r1 s1] eqn:Hp.
  apply place_cases in Hp as [Hk Hp]. destruct r1 as [[b a]|e]; [|by intros [= <- <- <-]; split; [|left]].
  destruct (Hp b a eq_refl) as (Hb & Hok & Hh & Hd & Hu).
  destruct (promotion_transaction _ b a d) as [[result d1]|e] eqn:Ht; intros [= <- <- <-]; (split; [done|]).
  - right. by exists b, a, result.
  - by left.
Qed.

(** The release of a bound candidate is that of the intent's version and bytes. *)
Lemma bound_release i b r a :
  bind_intent i = Ok b -> release_of_json (JObj (b_release b)) = Some r -> stored_artifact_ok b a = true ->
  canonical_public_artifact_url (in_module_id i) (in_version i) = Ok (public_url_ a) ->
  version r = in_version i /\ sha256 (rel_artifact r) = bundle_sha256 i /\ url (rel_artifact r) = public_url_ a.
Proof.
  intros Hb Hr Hok Hu. apply bind_intent_Ok in Hb as (Hi & Hrel & Hdg & _).
  destruct (candidate_release_Ok _ _ _ Hrel Hr) as (m & Hm & Hdg').
  unfold stored_artifact_ok in Hok. apply andb_true_iff in Hok as [_ Hok].
  assert (Heq : url (rel_artifact r) = public_url_ a).
  { unfold release_of_json, get_obj in Hr. destruct (jget "artifact" _) as [[| | | | |l]|]; try done.
    repeat (apply bind_Some in Hr as (? & ? & Hr)). injection Hr as <-. simpl.
    repeat match goal with
    | H : artifact_of_json _ = Some _ |- _ => unfold artifact_of_json in H
    | H : mbind _ _ = Some _ |- _ => apply bind_Some in H as (? & ? & H)
    | H : Some _ = Some _ |- _ => injection H as H; try subst
    | H : get_str "url" _ = Some _ |- _ => apply get_str_Ok in H
    end.
    match goal with H : jget "url" _ = Some _ |- _ => rewrite H in Hok end. simpl in Hok. by apply String.eqb_eq in Hok. }
  rewrite <- Heq in Hu. destruct (public_url_inj _ _ _ _ _ Hu Hm) as [_ ->]. split; [done|]. split; [congruence | done].
Qed.

(** *** Promoted versions are backed by the store *)

Definition backed (s : S) (d : registry_db) : Prop :=
  forall v, v ∈ module_versions d -> published v = true ->
    exists a, artifact_of d (v_artifact_id v) = Some a /\ holds s (v_module_id v) (v_version v) (a_digest a).

Lemma backed_keeps s s' d : store_keeps s s' -> backed s d -> backed s' d.
Proof. intros Hk Hb v Hv Hp. destruct (Hb v Hv Hp) as (a & Ha & Hh). exists a. split; [done|]. by apply Hk. Qed.

Lemma backed_grown s d d' mid r o aid pid :
  backed s d -> extends d d' -> constraints d' = true ->
  module_versions d' = module_versions d ++ [new_version mid r o aid pid true] ->
  (exists a, artifact_of d' aid = Some a /\ holds s mid (version r) (a_digest a)) -> backed s d'.
Proof.
  intros Hb He Hc Hv Hnew v Hin Hp. rewrite Hv in Hin. apply elem_of_app in Hin as [Hin|Hin].
  - destruct (Hb v Hin Hp) as (a & Ha & Hh). apply first_Some' in Ha as [Ha Hid]. apply N.eqb_eq in Hid.
    destruct (ext_artifacts _ _ He a Ha) as (a' & Ha' & Hi' & _ & Hdg). exists a'. rewrite Hdg. split; [|done].
    rewrite <- Hid, <- Hi'. apply artifact_of_In; [by apply constraints_ids | done].
  - apply list_elem_of_singleton in Hin. by subst v.
Qed.

Lemma committed_backed s d d' b r a result m v dg :
  committed schema_valid d d' b r a result -> constraints d = true -> backed s d ->
  m = in_module_id (b_intent b) -> v = version r -> dg = sha256 (rel_artifact r) -> holds s m v dg -> backed s d'.
Proof.
  intros Hcom Hc Hb -> -> -> Hh. destruct Hcom as [_ Hp|ev m p v a' pr _ _ _ [->|Hi] _ _]; [| done |].
  - destruct (prom_versions _ _ _ _ _ _ _ Hp) as (o & aid & pid & Hv).
    destruct (prom_published _ _ _ _ _ _ _ Hp) as (v & a' & pr & Hpub & Hdg).
    eapply backed_grown; [done | by eapply prom_extends | by eapply prom_constraints | exact Hv |].
    exists a'. rewrite Hdg. split; [|done].
    assert (v_artifact_id v = aid) as <-; [|by eapply pub_artifact_row].
    assert (Hfirst := pub_version _ _ _ _ _ _ _ _ Hpub). rewrite Hv, first_app' in Hfirst.
    rewrite (prom_new _ _ _ _ _ _ _ Hp) in Hfirst. simpl in Hfirst. unfold is_version in Hfirst. simpl in Hfirst.
    rewrite !String.eqb_refl in Hfirst. simpl in Hfirst. by injection Hfirst as <-.
  - clear v a' pr. destruct (ins_row _ _ _ _ _ _ _ Hi) as (o & aid & pid & a' & pr & Hpub & Hdg & _ & Hv).
    eapply backed_grown; [done | by eapply ins_extends | by eapply ins_constraints | exact Hv |].
    exists a'. rewrite Hdg. split; [by eapply (pub_artifact_row _ _ _ _ _ _ _ _ Hpub) | done].
Qed.

Lemma promote_keeps i source s d r s' d' :
  promote i source s d = (r, s', d') -> constraints d = true ->
  constraints d' = true /\ extends d d' /\ sealed d d' /\ store_keeps s s' /\ (backed s d -> backed s' d').
Proof.
  intros H Hc. apply promote_cases in H as [Hk [[-> _]|(b & a & result & Hb & -> & Ht & Hok & Hh & _ & Hu)]].
  { split_and!; try done. by apply backed_keeps. }
  apply transaction_Ok in Ht as (rel & m & p & Hrel & _ & Hcom).
  destruct (committed_extends _ _ _ _ _ _ _ Hcom Hc) as (He & Hc' & Hs). split_and!; try done.
  intros Hbk. destruct (bound_release _ _ _ _ Hb Hrel Hok Hu) as (Hv & Hd & _).
  apply bind_intent_Ok in Hb as [Hi _].
  eapply (committed_backed _ _ _ _ _ _ _ (in_module_id i) (in_version i) (bundle_sha256 i));
    [exact Hcom | done | by eapply backed_keeps | by rewrite Hi | done | done | done].
Qed.

(** What a successful promotion leaves to find in later states. *)
Record replayable (d : registry_db) (b : binding) (result : promotion_result) : Prop := {
  rep_release : exists r m p ev v a' pr m' p', release_of_json (JObj (b_release b)) = Some r /\ admissible schema_valid d b m p /\
    event_of d (in_idempotency_key (b_intent b)) = Some ev /\ intent_ ev = b_bound b /\
    with_status (result_ ev) "already-published" = with_status result "already-published" /\
    acceptable schema_valid d (in_module_id (b_intent b)) r m' p' /\
    published_as d (in_module_id (b_intent b)) r (b_evidence b) true v a' pr
}.

Lemma committed_replayable d d' b r a result m p :
  release_of_json (JObj (b_release b)) = Some r -> admissible schema_valid d b m p ->
  committed schema_valid d d' b r a result -> constraints d = true -> replayable d' b result.
Proof.
  intros Hr Hadm Hcom Hc. destruct (committed_extends _ _ _ _ _ _ _ Hcom Hc) as (He & Hc' & _).
  assert (Hadm' : admissible schema_valid d' b m p) by by eapply admissible_later.
  split. destruct Hcom as [Hnone Hp|ev m2 p2 v a' pr Hev Hint -> _ Hacc Hpub].
  - destruct (prom_published _ _ _ _ _ _ _ Hp) as (v & a' & pr & Hpub & _).
    destruct (prom_row _ _ _ _ _ _ _ Hp) as (m2 & p2 & Hacc).
    eexists r, m, p, _, v, a', pr, m2, p2. split; [done|]. split; [done|]. split; [|split; [|split; [|by split]]].
    + unfold event_of. rewrite (prom_events _ _ _ _ _ _ _ Hp), first_app'. unfold event_of in Hnone. rewrite Hnone.
      simpl. by rewrite String.eqb_refl.
    + done.
    + done.
  - exists r, m, p, ev, v, a', pr, m2, p2. split; [done|]. split; [done|]. split; [|split; [|split; [|split]]]; try done.
    + eapply (first_keyed idempotency_key); [by apply constraints_events | | apply He | exact Hev].
      intros y Hy. apply first_Some' in Hev as [_ Hk]. apply String.eqb_eq in Hk, Hy. congruence.
    + by eapply acceptable_later.
Qed.

Lemma replayable_later d d' b result :
  replayable d b result -> extends d d' -> sealed d d' -> constraints d' = true -> replayable d' b result.
Proof.
  intros [(r & m & p & ev & v & a & pr & m' & p' & Hr & Hadm & Hev & Hint & Hres & Hacc & Hpub)] He Hs Hc.
  destruct (published_as_later _ _ _ _ _ _ _ _ _ Hpub He Hs Hc) as (a' & _ & Hpub'). split.
  exists r, m, p, ev, v, a', pr, m', p'. split_and!; try done; [by eapply admissible_later | | by eapply acceptable_later].
  eapply (first_keyed idempotency_key); [by apply constraints_events | | apply He | exact Hev].
  intros y Hy. apply first_Some' in Hev as [_ Hk]. apply String.eqb_eq in Hk, Hy. congruence.
Qed.

(** Promotions one after the other, as the row locks make them. *)
Fixpoint promote_all (l : list (PromotionIntent * path_)) (s : S) (d : registry_db) : S * registry_db :=
  match l with
  | [] => (s, d)
  | (i, source) :: l => let '(_, s, d) := promote i source s d in promote_all l s d
  end.

(** The events of a channel. *)
Definition events_on (d : registry_db) (mid ch : string) : nat :=
  length (List.filter (fun e => String.eqb (e_module_id e) mid && String.eqb (e_channel e) ch) (promotion_events d)).

Lemma committed_revision d d' b r a result mid ch :
  committed schema_valid d d' b r a result ->
  (number_of (channel_at d' mid ch) - number_of (channel_at d mid ch) = Z.of_nat (events_on d' mid ch) - Z.of_nat (events_on d mid ch))%Z.
Proof.
  intros [_ Hp|ev m p v a' pr _ _ _ [->|Hi] _ _]; [|lia|].
  - unfold events_on. rewrite (prom_events _ _ _ _ _ _ _ Hp), List.filter_app, length_app. simpl.
    destruct (String.eqb_spec (in_module_id (b_intent b)) mid) as [<-|Hm];
      [destruct (String.eqb_spec (in_channel (b_intent b)) ch) as [<-|Hc]|]; simpl.
    + rewrite (prom_channel _ _ _ _ _ _ _ Hp), (prom_revision _ _ _ _ _ _ _ Hp). simpl. lia.
    + rewrite (prom_other_channels _ _ _ _ _ _ _ Hp) by congruence. lia.
    + rewrite (prom_other_channels _ _ _ _ _ _ _ Hp) by congruence. lia.
  - unfold events_on, channel_at. rewrite (ins_channels _ _ _ _ _ _ _ Hi), (ins_events _ _ _ _ _ _ _ Hi). lia.
Qed.

Lemma promote_revision i source s d r s' d' mid ch :
  promote i source s d = (r, s', d') ->
  (number_of (channel_at d' mid ch) - number_of (channel_at d mid ch) = Z.of_nat (events_on d' mid ch) - Z.of_nat (events_on d mid ch))%Z.
Proof.
  intros H. apply promote_cases in H as [_ [[-> _]|(b & a & result & _ & _ & Ht & _)]]; [lia|].
  apply transaction_Ok in Ht as (rel & m & p & _ & _ & Hcom). by eapply committed_revision.
Qed.

(** What every promotion keeps, whatever fails: the bytes of every version
    that the database marks as promoted are in the store; nothing published
    disappears or changes, so the guard of the ORM session is never needed; the
    constraints hold; and a promotion that raises leaves the database as it was. *)
Theorem promote_invariant i source s d r s' d' :
  constraints d = true -> backed s d -> promote i source s d = (r, s', d') ->
  backed s' d' /\ extends d d' /\ protect_history d d' = true /\ constraints d' = true /\
  store_keeps s s' /\ (is_ok r = false -> d' = d).
Proof.
  intros Hc Hb H. destruct (promote_keeps _ _ _ _ _ _ _ H Hc) as (Hc' & He & _ & Hk & Hbk).
  split_and!; try done; [by apply Hbk | by apply extends_protect |].
  apply promote_cases in H as [_ [[-> _]|(b & a & result & _ & -> & _)]]; done.
Qed.

(** C3. A promotion under a new key that returns has published the intent: the
    version was not there and is now, with the release of the reviewed candidate
    and its evidence; its bytes are in the store; the channel was at the revision
    the approval names and now names the version at the next one; no other
    channel moved; the whole registry is still representable as Registry v1; and
    the event is recorded. *)
Theorem promote_publishes i source s d result s' d' :
  event_of d (in_idempotency_key i) = None -> promote i source s d = (Ok result, s', d') ->
  let mid := in_module_id i in let v := in_version i in
  status result = "published" /\ new_channel_target result = v /\ artifact_sha256 result = bundle_sha256 i /\
  holds s' mid v (bundle_sha256 i) /\
  first (is_version mid v) (module_versions d) = None /\
  (exists b rel row a p, bind_intent i = Ok b /\ release_of_json (JObj (b_release b)) = Some rel /\ version rel = v /\
     published_as d' mid rel (b_evidence b) true row a p /\ a_digest a = bundle_sha256 i) /\
  number_of (channel_at d mid (in_channel i)) = expected_channel_revision i /\
  channel_at d' mid (in_channel i) = Some {| c_module_id := mid; c_channel := in_channel i; c_version := v;
                                             revision := expected_channel_revision i + 1 |} /\
  (forall mid' ch', (mid', ch') <> (mid, in_channel i) -> channel_at d' mid' ch' = channel_at d mid' ch') /\
  (exists index, validate_v1_representability schema_valid (project_v1 None d') (channel_targets None d') = Ok index) /\
  exists e, promotion_events d' = promotion_events d ++ [e] /\ idempotency_key e = in_idempotency_key i /\ result_ e = result.
Proof.
  intros Hnew H. apply promote_cases in H as [_ [[_ H]|(b & a & res & Hb & [= <-] & Ht & Hok & Hh & Hd & Hu)]]; [done|].
  apply transaction_Ok in Ht as (rel & m & p & Hrel & _ & Hcom).
  destruct (bound_release _ _ _ _ Hb Hrel Hok Hu) as (Hv & Hdg & _).
  destruct (bind_intent_Ok _ _ Hb) as [Hi _]. subst i. cbv zeta.
  destruct Hcom as [_ []|ev m2 p2 v a' pr Hev _ _ _ _ _]; [|congruence].
  cbv zeta in *. assert (Hres := prom_result0). rewrite Hres at 1 2 3. split_and!; try done.
  - by rewrite <- Hv.
  - destruct prom_published0 as (row & a' & pr & Hpub & Hdg'). exists b, rel, row, a', pr. split_and!; congruence.
  - by eexists.
Qed.

(** A promotion can be retried at any later time: once it has returned, the
    same intent, against any state of store and database that other promotions
    may have led to, reports the recorded result and changes nothing, unless the
    store fails; in particular it never rewinds a channel. *)
Theorem promote_retry i source s d result s1 d1 source' s2 d2 r s3 d3 :
  constraints d = true -> promote i source s d = (Ok result, s1, d1) ->
  extends d1 d2 -> sealed d1 d2 -> constraints d2 = true -> promote i source' s2 d2 = (r, s3, d3) ->
  d3 = d2 /\ (r = Ok (with_status result "already-published") \/ exists e, r = Err (StoreError e)).
Proof.
  intros Hc H He Hs Hc2 H2. apply promote_cases in H as [_ [[_ H]|(b & a & res & Hb & [= <-] & Ht & Hok & _ & _ & Hu)]]; [done|].
  apply transaction_Ok in Ht as (rel & m & p & Hrel & Hadm & Hcom).
  assert (Hrep := committed_replayable _ _ _ _ _ _ _ _ Hrel Hadm Hcom Hc).
  apply (replayable_later _ d2) in Hrep as [(rel' & m' & p' & ev & v & a' & pr & m2 & p2 & Hrel' & Hadm' & Hev & Hint & Hres & Hacc & Hpub)];
    try done.
  unfold Promotion.promote, Promotion.place in H2. rewrite Hb in H2.
  destruct (store_publish _ _ _ _ s2) as [[pb|e] t1] eqn:Hp; [|cbn in H2; injection H2 as <- <- <-; eauto].
  destruct (store_verify _ _ _ t1) as [[a2|e] t2] eqn:Hv; [|cbn in H2; injection H2 as <- <- <-; eauto].
  assert (Ha2 : stored_artifact_ok b a2 = true).
  { apply verify_at_canonical_url in Hv as Hu2. apply verify_holds in Hv as [Hd2 _]. unfold stored_artifact_ok in *.
    assert (public_url_ a2 = public_url_ a) as -> by congruence.
    apply andb_true_iff in Hok as [_ ->]. destruct (bind_intent_Ok _ _ Hb) as [-> _]. by rewrite Hd2, String.eqb_refl. }
  rewrite Ha2 in H2. simpl in H2.
  rewrite (transaction_again _ b a2 d2 rel' m' p' ev v a' pr m2 p2) in H2 by done.
  injection H2 as <- <- <-. rewrite Hres. auto.
Qed.

(** Optimistic concurrency: along any sequence of promotions, whichever of
    them fail or are retries, the revision of a channel grows by exactly the
    number of promotions recorded for it. *)
Theorem channel_revisions_count l s d s' d' mid ch :
  promote_all l s d = (s', d') ->
  (number_of (channel_at d' mid ch) - number_of (channel_at d mid ch)
   = Z.of_nat (events_on d' mid ch) - Z.of_nat (events_on d mid ch))%Z.
Proof.
  revert s d. induction l as [|[i source] l IH]; intros s d H; simpl in H; [injection H as <- <-; lia|].
  destruct (promote i source s d) as [[r s1] d1] eqn:Hp.
  apply IH in H. apply (promote_revision _ _ _ _ _ _ _ mid ch) in Hp. lia.
Qed.

End Promote.

(** ** An example: the first version of a module, in the file-system store *)

Definition example_hash (s : string) : string := hex64 "c".

Definition example_reviews (m v : string) (pr : Z) (dg : string) : res promotion_exn ReviewedCandidate :=
  if String.eqb m "hello" && String.eqb v "1.0.0" then
    Ok {| canonical := canonical_json (JObj example_candidate); rc_candidate_sha256 := dg;
          approval_reference := "pull/7"; approval_identity := "alice"; merge_commit := "d" |}
  else Err (SourceError "no review").

Definition example_intent : PromotionIntent :=
  {| in_module_id := "hello"; in_version := "1.0.0"; approval_pr := 7; candidate_sha256 := hex64 "c";
     bundle_sha256 := hex64 "a"; in_channel := "stable"; expected_channel_revision := 0;
     in_idempotency_key := "hello-1" |}.

Definition example_db : registry_db :=
  {| publishers := [{| pub_id := "ocp"; pub_name := "OCP" |}];
     modules := [{| m_id := "hello"; m_name := "Hello"; m_description := None; m_homepage := None;
                    m_documentation_url := None; m_publisher_id := "ocp"; m_classification := "first-party";
                    m_license := "MIT"; m_source_repository := "https://github.com/oklabflensburg/hello" |}];
     artifacts := []; provenances := []; module_versions := []; module_channels := []; module_dependencies := [];
     promotion_events := []; artifact_seq := 1; provenance_seq := 1; alembic_version := ["0049_promotions"] |}.

#[local] Instance example_ops : StoreOps sys := filesystem_ops example_sha256 1000 quiet ["srv"] [] "0f".
#[local] Instance example_spec : StoreSpec sys :=
  filesystem_spec example_sha256 1000 quiet ["srv"] [] "0f" quiet_keeps example_public example_uuid.

Definition example_promotion := promote example_hash any_schema example_reviews example_intent example_source example_sys example_db.

Definition example_result : promotion_result := report example_intent
  {| sa_module_id := "hello"; sa_version := "1.0.0"; ArtifactStore.digest_algorithm := "sha256"; digest := hex64 "a";
     byte_size := 3; storage_locator := "modules/hello/1.0.0/hello-1.0.0.ocp";
     public_url_ := canonical_url "hello" "1.0.0" |} None 1.

Definition example_stored_sys : sys := snd (fst example_promotion).
Definition example_promoted_db : registry_db := snd example_promotion.

Lemma example_promotion_Ok : example_promotion = (Ok example_result, example_stored_sys, example_promoted_db).
Proof. vm_compute. reflexivity. Qed.

Lemma example_db_ok : constraints example_db = true.
Proof. vm_compute. reflexivity. Qed.

Lemma promote_invariant_witness :
  backed example_stored_sys example_promoted_db /\ length (module_versions example_promoted_db) = 1%nat.
Proof.
  split; [|vm_compute; reflexivity].
  apply (promote_invariant example_hash any_schema example_reviews example_intent example_source example_sys example_db
           (Ok example_result)).
  - exact example_db_ok.
  - intros v Hv. by apply elem_of_nil in Hv.
  - exact example_promotion_Ok.
Defined.

Lemma promote_publishes_witness :
  holds example_stored_sys "hello" "1.0.0" (hex64 "a") /\
  channel_at example_promoted_db "hello" "stable"
  = Some {| c_module_id := "hello"; c_channel := "stable"; c_version := "1.0.0"; revision := 1 |}.
Proof.
  edestruct (promote_publishes example_hash any_schema example_reviews example_intent example_source example_sys
    example_db example_result) as (_ & _ & _ & Hh & _ & _ & _ & Hc & _); [reflexivity | exact example_promotion_Ok |].
  exact (conj Hh Hc).
Defined.

(** The retry, after the promotion. *)
Definition example_retry :=
  promote example_hash any_schema example_reviews example_intent example_source example_stored_sys example_promoted_db.

Lemma promote_retry_witness :
  exists s3, example_retry = (Ok (with_status example_result "already-published"), s3, example_promoted_db).
Proof.
  destruct example_retry as [[r s3] d3] eqn:H. exists s3.
  edestruct (promote_retry example_hash any_schema example_reviews example_intent example_source example_sys example_db
    example_result example_stored_sys example_promoted_db example_source example_stored_sys example_promoted_db)
    as [-> [->|[e ->]]].
  - exact example_db_ok.
  - exact example_promotion_Ok.
  - reflexivity.
  - by apply sealed_refl.
  - vm_compute. reflexivity.
  - exact H.
  - reflexivity.
  - exfalso. apply (f_equal (fun x => is_ok (fst (fst x)))) in H. vm_compute in H. discriminate H.
Defined.

Lemma channel_revisions_count_witness :
  (number_of (channel_at example_promoted_db "hello" "stable") - number_of (channel_at example_db "hello" "stable"))%Z = 1%Z.
Proof.
  rewrite (channel_revisions_count example_hash any_schema example_reviews [(example_intent, example_source)]
    example_sys example_db example_stored_sys example_promoted_db); vm_compute; reflexivity.
Defined.
