(* ===== verification/Reviewed.v ===== *)
(** * Reviewed candidates: scripts/reviewed_candidate.py

    The adapter between the review on GitHub and the promotion: which candidate
    a merged pull request approves, and which bytes of a build are the approved
    ones.  GitHub is the parameter [api], the answer to each path; what `gh api`
    downloads is the parameter [fetch_archive].  [zipfile] is represented by what
    it reports of an archive.  Bytes are characters; [utf8_decode] says which
    texts are represented.  A login that is no text, and values of other types
    in the text of a locator, are outside the model. *)

#[local] Set Warnings "-notation-overridden".

From S2P Require Import Prelude PyText SemVer Json JsonText Base64 Url Validate Registry ArtifactStore Candidate RegistryDb Promotion.

Open Scope string_scope.
Open Scope list_scope.

Definition REPOSITORY : string := "oklabflensburg/open-city-planner-packages".
Definition MAX_ARCHIVE_BYTES : Z := 268435456.

(** [CandidateApprovalError] is a [ValueError]. *)
Definition CandidateApprovalError (msg : string) : exn := ValueError msg.

Definition provenance_path (module_id version : string) : string :=
  "candidates/" +:+ module_id +:+ "/" +:+ version +:+ "/provenance.json".

(** [re.fullmatch(r"[0-9a-f]{40}", commit or "")] *)
Definition full_commit (commit : json) : res exn bool :=
  if truthy commit then fullmatch_value BUILDER_COMMIT_RE commit else Ok (fullmatch BUILDER_COMMIT_RE "").

Section Source.
Context (sha256_of : string -> string) (policies : string -> option string) (builder_policy : members).

(** The SHA-256 of an encoded text. *)
Definition text_hash (text : string) : string := sha256_of (utf8_encode text).

(** ** [GitHubCandidateSource.load] *)

Section Load.
Context (api : string -> res exn json).

Definition human_merged (pr : json) : res exn bool :=
  let? merged := get_attr JNull "merged" pr in
  if negb (truthy merged) then Ok false
  else
    let? base := item "base" pr in
    let? ref := item "ref" base in
    if differs ref (JStr "main") then Ok false
    else
      let? repo := item "repo" base in
      let? name := item "full_name" repo in
      if differs name (JStr REPOSITORY) then Ok false
      else
        let? merger := get_attr (JObj []) "merged_by" pr in
        let? type := get_attr JNull "type" merger in
        Ok (negb (differs type (JStr "User"))).

(** A file of the pull request. *)
Definition reviews_path (path : string) (f : json) : res exn bool :=
  let? name := item "filename" f in
  if differs name (JStr path) then Ok false
  else let? status := item "status" f in in_set status ["added"; "modified"].

(** The candidate a revision holds. *)
Definition candidate_at (path ref : string) : res exn members :=
  let? content := api ("contents/" +:+ path +:+ "?ref=" +:+ ref) in
  let? encoding := get_attr JNull "encoding" content in
  refuse "Candidate evidence has no file contents" (differs encoding (JStr "base64")) ;?
  let? text := item "content" content in
  match text with
  | JStr text =>
      let? raw := of_option (ValueError "binascii.Error") (b64decode text) in
      let? raw := of_option (ValueError "UnicodeDecodeError") (utf8_decode raw) in
      let? value := decode_json raw "reviewed candidate" in
      validate_candidate policies builder_policy (JObj value)
  | _ => Err TypeError
  end.

Definition load (module_id version : string) (approval_pr : Z) (expected_candidate_sha256 : string)
    : res exn ReviewedCandidate :=
  validate_module_id (JStr module_id) "module ID" ;?
  validate_semver (JStr version) "version" ;?
  refuse "A merged candidate PR is required" (Z.leb approval_pr 0) ;?
  let number := render_int approval_pr in
  let? pr := api ("pulls/" +:+ number) in
  let? merged := human_merged pr in
  refuse "Candidate requires a human-merged PR into Registry main" (negb merged) ;?
  let? head := item "head" pr in
  let? head := item "sha" head in
  let? merge := item "merge_commit_sha" pr in
  let? head_ok := full_commit head in
  refuse "Invalid review commit identity" (negb head_ok) ;?
  let? merge_ok := full_commit merge in
  refuse "Invalid review commit identity" (negb merge_ok) ;?
  let path := provenance_path module_id version in
  let? listing := api ("pulls/" +:+ number +:+ "/files?per_page=100") in
  let? files := iterate listing in
  let? reviewed := exists_ok (reviews_path path) files in
  refuse "Approval PR does not contain this candidate" (negb reviewed) ;?
  let? at_head := candidate_at path (json_text head) in
  let? at_merge := candidate_at path (json_text merge) in
  let? at_main := candidate_at path "main" in
  refuse "Candidate differs from approved digest or current main"
    (existsb (fun v => negb (String.eqb (candidate_digest text_hash v) expected_candidate_sha256)) [at_head; at_merge; at_main]) ;?
  let? its_id := getitem "module_id" at_head in
  let? its_version := getitem "version" at_head in
  refuse "Candidate path/identity mismatch"
    (differs its_id (JStr module_id) || differs its_version (JStr version)) ;?
  let? builder_commit := getitem "builder_commit" at_head in
  let? builder_ok := fullmatch_value BUILDER_COMMIT_RE builder_commit in
  refuse "Promotion requires a known builder commit" (negb builder_ok) ;?
  let? merger := item "merged_by" pr in
  let? login := item "login" merger in
  match login with
  | JStr login =>
      Ok {| canonical := canonical_json (JObj at_head); rc_candidate_sha256 := expected_candidate_sha256;
            approval_reference := "https://github.com/" +:+ REPOSITORY +:+ "/pull/" +:+ number;
            approval_identity := login; merge_commit := json_text merge |}
  | _ => Err TypeError
  end.

End Load.

(** ** [extract_reviewed_archive] *)

(** What [zipfile] tells of a member: name, declared size, external attributes,
    and its bytes unless they are corrupt. *)
Record zip_member := { zm_filename : string; file_size : Z; external_attr : Z; zm_bytes : option string }.

(** The size on disk, and the members unless the file is no ZIP archive. *)
Record archive := { st_size : Z; infolist : option (list zip_member) }.

Inductive review_exn :=
| Review (e : exn)
| Os (e : os_exn)
| BadZipFile
| SubprocessError.

Definition reviewing {A} (r : res exn A) : res review_exn A :=
  match r with Ok a => Ok a | Err e => Err (Review e) end.

Definition reject (msg : string) (c : bool) : res review_exn unit := reviewing (refuse msg c).

(** [bundle.read(name)]: the last member of the name. *)
Definition zip_read (name : string) (entries : list zip_member) : res review_exn string :=
  match List.find (fun m => String.eqb (zm_filename m) name) (rev entries) with
  | Some m => of_option BadZipFile (zm_bytes m)
  | None => Err (Review (KeyError name))
  end.

Definition is_link (m : zip_member) : bool := Z.eqb (Z.land (Z.shiftr (external_attr m) 16) 61440) 40960.

Definition decoded (raw : string) : res review_exn string :=
  of_option (Review (ValueError "UnicodeDecodeError")) (utf8_decode raw).

Definition bundle_filename (value : members) : res exn string :=
  let? module_id := getitem "module_id" value in
  let? version := getitem "version" value in
  Ok (json_text module_id +:+ "-" +:+ json_text version +:+ ".ocp").

Abbreviation folder := (gmap string string).

(** The name of the written file, and the folder with it. *)
Definition extract_reviewed_archive (a : archive) (reviewed : ReviewedCandidate) (destination : folder)
    : res review_exn (string * folder) :=
  let? value := match candidate_value reviewed with Ok v => Ok v | Err _ => Err (Review TypeError) end in
  let? filename := reviewing (bundle_filename value) in
  reject "Candidate archive exceeds limit" (Z.ltb MAX_ARCHIVE_BYTES (st_size a)) ;?
  let? entries := of_option BadZipFile (infolist a) in
  let names := map zm_filename entries in
  let expected := ["provenance.json"; filename; filename +:+ ".sha256"] in
  reject "Unexpected candidate archive contents"
    (negb (Nat.eqb (length entries) 3) || negb (forallb (fun n => mem n expected) names
                                                && forallb (fun n => mem n names) expected)) ;?
  reject "Unsafe candidate archive member"
    (existsb (fun m => Z.ltb MAX_ARCHIVE_BYTES (file_size m) || is_link m) entries) ;?
  let? raw := zip_read "provenance.json" entries in
  let? text := decoded raw in
  let? evidence := reviewing (decode_json text "archive provenance") in
  reject "Archive provenance differs from reviewed candidate"
    (negb (String.eqb (candidate_digest text_hash evidence) (rc_candidate_sha256 reviewed))) ;?
  let? payload := zip_read filename entries in
  let? digest := reviewing (getitem "bundle_sha256" value) in
  reject "Candidate bundle digest mismatch" (negb (py_eq (JStr (sha256_of payload)) digest)) ;?
  let? raw := zip_read (filename +:+ ".sha256") entries in
  let? text := decoded raw in
  reject "Candidate checksum sidecar mismatch"
    (negb (py_eq (JArr (map JStr (split_ws text))) (JArr [digest; JStr filename]))) ;?
  match destination !! filename with
  | Some _ => Err (Os FileExistsError)
  | None => Ok (filename, <[filename := payload]> destination)
  end.

(** ** [download_reviewed_artifact] *)

Section Download.
Context (api : string -> res exn json) (fetch_archive : json -> res review_exn archive).

(** The run that built the candidate. *)
Definition trusted_run (value : members) (run : json) : res exn bool :=
  let? conclusion := item "conclusion" run in
  if differs conclusion (JStr "success") then Ok false
  else
    let? head := item "head_sha" run in
    let? commit := getitem "builder_commit" value in
    if differs head commit then Ok false
    else
      let? repository := item "repository" run in
      let? name := item "full_name" repository in
      if differs name (JStr REPOSITORY) then Ok false
      else
        let? path := item "path" run in
        Ok (negb (differs path (JStr ".github/workflows/ocp-builder.yml"))).

(** The one artifact of the run with the name. *)
Definition named (name : string) (artifacts : list json) : res exn (list json) :=
  let? marked := traverse (fun a => let? n := item "name" a in Ok (negb (differs n (JStr name)), a)) artifacts in
  Ok (map snd (List.filter fst marked)).

Definition larger (value : json) (limit : Z) : res exn bool :=
  match value with
  | JInt z => Ok (Z.ltb limit z)
  | JBool b => Ok (Z.ltb limit (bool_int b))
  | _ => Err TypeError
  end.

(** The artifact, by its number. *)
Definition reviewed_artifact (value : members) : res exn json :=
  let? locator := getitem "artifact_candidate" value in
  match locator with
  | JStr locator_text =>
      let? run_id := of_option IndexError (nth_error (split_on "/" locator_text) 3) in
      let? run := api ("actions/runs/" +:+ run_id) in
      let? trusted := trusted_run value run in
      refuse "Candidate run identity does not match builder evidence" (negb trusted) ;?
      let? module_id := getitem "module_id" value in
      let? version := getitem "version" value in
      refuse "Unexpected candidate artifact locator"
        (negb (String.eqb locator_text ("github-actions://run/" +:+ run_id +:+ "/" +:+ json_text module_id +:+ "-"
                                 +:+ json_text version))) ;?
      let? listing := api ("actions/runs/" +:+ run_id +:+ "/artifacts?per_page=100") in
      let? artifacts := item "artifacts" listing in
      let? artifacts := iterate artifacts in
      let? tag := getitem "source_tag" value in
      let? matches := named (json_text module_id +:+ "-" +:+ json_text tag) artifacts in
      let unavailable := Err (CandidateApprovalError "Reviewed artifact unavailable; no rebuild recovery") in
      match matches with
      | [artifact] =>
          let? expired := item "expired" artifact in
          if truthy expired then unavailable
          else
            let? size := item "size_in_bytes" artifact in
            let? large := larger size MAX_ARCHIVE_BYTES in
            refuse "Artifact identity/size mismatch" large ;?
            let? run := item "workflow_run" artifact in
            let? head := item "head_sha" run in
            let? commit := getitem "builder_commit" value in
            refuse "Artifact identity/size mismatch" (differs head commit) ;?
            item "id" artifact
      | _ => unavailable
      end
  | _ => Err NoAttribute
  end.

(** The destination is a fresh directory. *)
Definition download_reviewed_artifact (reviewed : ReviewedCandidate) : res review_exn (string * folder) :=
  let? value := match candidate_value reviewed with Ok v => Ok v | Err _ => Err (Review TypeError) end in
  let? id := reviewing (reviewed_artifact value) in
  let? a := fetch_archive id in
  extract_reviewed_archive a reviewed ∅.

End Download.

(** ** Facts *)

Lemma candidate_at_Ok api path ref v :
  candidate_at api path ref = Ok v ->
  object_hook (JObj v) = Ok tt /\ exists m ver dg ch, candidate_ok policies v m ver dg ch.
Proof.
  unfold candidate_at. intros H.
  apply res_bind_Ok in H as (content & _ & H). apply res_bind_Ok in H as (enc & _ & H).
  apply res_bind_Ok in H as ([] & _ & H). apply res_bind_Ok in H as (text & _ & H). destruct text; try done.
  apply res_bind_Ok in H as (raw & _ & H). apply res_bind_Ok in H as (raw' & _ & H).
  apply res_bind_Ok in H as (value & Hd & H). apply decode_json_Ok in Hd as (_ & Hh & _).
  apply validate_candidate_sound in H as [[= ->] Hok]. done.
Qed.

(** A reviewed candidate is read back with its digest and its texts. *)
Lemma reviewed_value r (v : members) :
  canonical r = canonical_json (JObj v) -> object_hook (JObj v) = Ok tt ->
  exists w, candidate_value r = Ok w /\ candidate_digest text_hash w = candidate_digest text_hash v /\
    object_hook (JObj w) = Ok tt /\ forall k, jget k w = option_map sort_keys (jget k v).
Proof.
  intros Hr Hh. unfold candidate_value. rewrite Hr, canonical_loads_dict by done. assert (Hw := hook_sort_keys _ Hh).
  destruct (sort_keys (JObj v)) as [| | | | |w] eqn:Hs; try (rewrite sort_keys_obj in Hs; discriminate Hs).
  exists w. split_and!; [done | | exact Hw |].
  - unfold candidate_digest. by rewrite <- Hs, canonical_sort_keys.
  - intros k. apply jget_sort_keys; [|done]. by apply hook_obj in Hh as [_ Hh].
Qed.

(** A pull request a person merged into the main branch of the registry. *)
Definition merged_by_person (pr : json) (login : string) : Prop :=
  exists merged base repo person,
    get_attr JNull "merged" pr = Ok merged /\ truthy merged = true /\
    item "base" pr = Ok base /\ item "ref" base = Ok (JStr "main") /\
    item "repo" base = Ok repo /\ item "full_name" repo = Ok (JStr REPOSITORY) /\
    item "merged_by" pr = Ok person /\ get_attr JNull "type" person = Ok (JStr "User") /\
    item "login" person = Ok (JStr login).

Lemma get_attr_item k v x y absent : get_attr absent k v = Ok x -> item k v = Ok y -> x = y.
Proof. destruct v as [| | | | |l]; try done. simpl. destruct (jget k l); [|done]. by intros [= <-] [= <-]. Qed.

Lemma human_merged_true pr person login :
  human_merged pr = Ok true -> item "merged_by" pr = Ok person -> item "login" person = Ok (JStr login) ->
  merged_by_person pr login.
Proof.
  unfold human_merged. intros H Hp Hl.
  apply res_bind_Ok in H as (merged & Hm & H). destruct (truthy merged) eqn:Ht; [cbn [negb] in H|done].
  apply res_bind_Ok in H as (base & Hb & H). apply res_bind_Ok in H as (ref & Href & H).
  destruct (differs ref _) eqn:Hd; [done|]. apply differs_str in Hd as ->.
  apply res_bind_Ok in H as (repo & Hrp & H). apply res_bind_Ok in H as (name & Hn & H).
  destruct (differs name _) eqn:Hd; [done|]. apply differs_str in Hd as ->.
  apply res_bind_Ok in H as (by_ & Hby & H). assert (by_ = person) as -> by by eapply get_attr_item.
  apply res_bind_Ok in H as (ty & Hty & H). injection H as H. apply negb_true_iff, differs_str in H as ->.
  by exists merged, base, repo, person.
Qed.

(** The evidence behind a reviewed candidate. *)
Record approved (api : string -> res exn json) (module_id version : string) (number : Z) (digest : string)
    (r : ReviewedCandidate) : Prop := {
  ap_request : exists pr, api ("pulls/" +:+ render_int number) = Ok pr /\ merged_by_person pr (approval_identity r);
  ap_file : exists listing files f, api ("pulls/" +:+ render_int number +:+ "/files?per_page=100") = Ok listing /\
    iterate listing = Ok files /\ f ∈ files /\ reviews_path (provenance_path module_id version) f = Ok true;
  ap_revisions : exists head, fullmatch BUILDER_COMMIT_RE head = true /\
    fullmatch BUILDER_COMMIT_RE (merge_commit r) = true /\
    forall ref, ref ∈ [head; merge_commit r; "main"] ->
      exists v, candidate_at api (provenance_path module_id version) ref = Ok v /\ candidate_digest text_hash v = digest;
  ap_value : exists value bundle channel, candidate_value r = Ok value /\ candidate_digest text_hash value = digest /\
    object_hook (JObj value) = Ok tt /\ candidate_ok policies value module_id version bundle channel /\
    exists c, jget "builder_commit" value = Some (JStr c) /\ fullmatch BUILDER_COMMIT_RE c = true;
  ap_digest : rc_candidate_sha256 r = digest
}.

Lemma full_commit_true c : full_commit c = Ok true -> exists s, c = JStr s /\ fullmatch BUILDER_COMMIT_RE s = true.
Proof.
  assert (Hn : fullmatch BUILDER_COMMIT_RE "" = false) by (vm_compute; reflexivity).
  unfold full_commit. rewrite Hn. destruct (truthy c); [|discriminate].
  intros H. apply fullmatch_value_Ok in H as (s & -> & H). by exists s.
Qed.

(** The facts about a candidate only read members that reading back keeps. *)
Lemma candidate_ok_read (v w : members) m ver dg ch :
  (forall k, jget k w = option_map sort_keys (jget k v)) ->
  candidate_ok policies v m ver dg ch -> candidate_ok policies w m ver dg ch.
Proof.
  intros Hw [H1 (u & H2 & H3) [H4 H5] H6 (c & H7 & H8) [H9 H10] [H11 H12] [H13 H14] (q & H15)].
  split; rewrite ?Hw; rewrite ?H1, ?H4, ?H6, ?H9, ?H11, ?H12, ?H13; try done.
  - exists u. by rewrite H3.
  - exists c. by rewrite H7.
  - rewrite H15. cbn [option_map]. rewrite sort_keys_obj. by eexists.
Qed.

Lemma load_approved api module_id version number digest r :
  load api module_id version number digest = Ok r ->
  approved api module_id version number digest r /\ canonical_id module_id /\ fullmatch SEMVER_RE version = true.
Proof.
  unfold load. intros H.
  apply res_bind_Ok in H as (? & Hid & H). apply _canonical_id_Ok in Hid as [[= <-] Hid].
  apply res_bind_Ok in H as (? & Hver & H). apply _semver_Ok in Hver as [[= <-] Hver].
  apply res_bind_Ok in H as ([] & _ & H). apply res_bind_Ok in H as (pr & Hpr & H).
  apply res_bind_Ok in H as (merged & Hm & H). apply res_bind_Ok in H as ([] & Hm2%refuse_Ok & H).
  apply negb_false_iff in Hm2. subst merged.
  apply res_bind_Ok in H as (hd & _ & H). apply res_bind_Ok in H as (head & _ & H).
  apply res_bind_Ok in H as (merge & _ & H). apply res_bind_Ok in H as (hok & Hhead & H).
  apply res_bind_Ok in H as ([] & Hh%refuse_Ok & H). apply negb_false_iff in Hh. subst hok.
  apply full_commit_true in Hhead as (head_commit & -> & Hhead).
  apply res_bind_Ok in H as (mok & Hmerge & H). apply res_bind_Ok in H as ([] & Hh%refuse_Ok & H).
  apply negb_false_iff in Hh. subst mok. apply full_commit_true in Hmerge as (merge_commit & -> & Hmerge).
  apply res_bind_Ok in H as (listing & Hl & H). apply res_bind_Ok in H as (files & Hf & H).
  apply res_bind_Ok in H as (rok & Hrev & H). apply res_bind_Ok in H as ([] & Hr%refuse_Ok & H).
  apply negb_false_iff in Hr. subst rok. apply exists_ok_true in Hrev as (l1 & f & l2 & -> & Hfile & _).
  cbn [json_text] in *. set (path := provenance_path module_id version) in *.
  apply res_bind_Ok in H as (v1 & Hv1 & H). apply res_bind_Ok in H as (v2 & Hv2 & H).
  apply res_bind_Ok in H as (v3 & Hv3 & H). apply res_bind_Ok in H as ([] & Hd%refuse_Ok & H).
  apply existsb_false_Forall in Hd. rewrite !Forall_cons in Hd. destruct Hd as (Hd1 & Hd2 & Hd3 & _).
  apply negb_false_iff, String.eqb_eq in Hd1, Hd2, Hd3.
  apply res_bind_Ok in H as (its_id & Hiid & H). apply res_bind_Ok in H as (its_version & Hiver & H).
  apply res_bind_Ok in H as ([] & Hi%refuse_Ok & H). apply orb_false_iff in Hi as [->%differs_str ->%differs_str].
  apply getitem_Ok in Hiid, Hiver.
  apply res_bind_Ok in H as (bc & Hbc & H). apply res_bind_Ok in H as (bok & Hbok & H).
  apply res_bind_Ok in H as ([] & Hb%refuse_Ok & H). apply negb_false_iff in Hb. subst bok.
  apply fullmatch_value_Ok in Hbok as (commit & -> & Hcommit). apply getitem_Ok in Hbc.
  apply res_bind_Ok in H as (person & Hperson & H). apply res_bind_Ok in H as (login & Hlogin & H).
  destruct login as [| | |login| |]; try done. injection H as <-. split; [|done].
  destruct (candidate_at_Ok _ _ _ _ Hv1) as (Hnd & m & ver & dg & ch & Hok).
  assert (m = module_id) as -> by (destruct Hok; congruence).
  assert (ver = version) as -> by (destruct Hok as [_ _ [? _] _ _ _ _ _ _]; congruence).
  split; cbn [approval_identity Promotion.merge_commit rc_candidate_sha256].
  - exists pr. split; [done|]. by eapply human_merged_true.
  - exists listing, (l1 ++ f :: l2), f. split_and!; try done. apply elem_of_app. right. by left.
  - exists head_commit. split_and!; [done|done|]. intros ref Href. fold path.
    repeat (apply elem_of_cons in Href as [->|Href]; [by eexists|]). by apply not_elem_of_nil in Href.
  - match goal with |- context [candidate_value ?r] =>
      destruct (reviewed_value r v1 eq_refl Hnd) as (w & Hw & Hdw & Hwh & Hget) end. exists w, dg, ch.
    split_and!; [exact Hw | congruence | exact Hwh | by eapply candidate_ok_read |]. exists commit. by rewrite Hget, Hbc.
  - done.
Qed.

(** *** Archives *)

Definition bundle_name (module_id version : string) : string := module_id +:+ "-" +:+ version +:+ ".ocp".

Lemma bundle_filename_ok value m v dg ch :
  candidate_ok policies value m v dg ch -> bundle_filename value = Ok (bundle_name m v).
Proof. intros [Hm _ [Hv _] _ _ _ _ _ _]. unfold bundle_filename, getitem. by rewrite Hm, Hv. Qed.

Lemma last_char s c : List.last (chars (s +:+ String c "")) zero = c.
Proof. rewrite chars_app. apply List.last_last. Qed.

(** The three names are different. *)
Lemma member_names_NoDup (f : string) : NoDup ["provenance.json"; f +:+ ".ocp"; (f +:+ ".ocp") +:+ ".sha256"].
Proof.
  assert (H1 : f +:+ ".ocp" = (f +:+ ".oc") +:+ "p") by (apply chars_inj; by rewrite !chars_app, <- !app_assoc).
  assert (H2 : (f +:+ ".ocp") +:+ ".sha256" = ((f +:+ ".ocp") +:+ ".sha25") +:+ "6") by (apply chars_inj; by rewrite !chars_app, <- !app_assoc).
  assert (H0 : "provenance.json" = "provenance.jso" +:+ "n") by done.
  rewrite !NoDup_cons, !not_elem_of_cons. split_and!; try apply not_elem_of_nil; try constructor.
  - rewrite H0, H1. intros H. apply (f_equal (fun s => List.last (chars s) zero)) in H. by rewrite !last_char in H.
  - rewrite H0, H2. intros H. apply (f_equal (fun s => List.last (chars s) zero)) in H. by rewrite !last_char in H.
  - intros H. apply (f_equal String.length) in H. rewrite <- !length_chars, !chars_app, !length_app in H. simpl in H. lia.
Qed.

Lemma names_permutation (names expected : list string) :
  NoDup expected -> length names = length expected ->
  forallb (fun n => mem n expected) names && forallb (fun n => mem n names) expected = true ->
  Permutation names expected.
Proof.
  intros Hnd Hl [_ H]%andb_true_iff. symmetry. apply NoDup_Permutation_bis; [|lia|].
  - by apply NoDup_ListNoDup.
  - intros x Hx. rewrite forallb_Forall, Forall_forall in H. apply list_elem_of_In, (mem_true x names), H.
    by apply list_elem_of_In.
Qed.

Lemma reviewing_Ok {A} (r : res exn A) a : reviewing r = Ok a -> r = Ok a.
Proof. destruct r; [by intros [= ->] | done]. Qed.

Lemma reject_passed msg c u : reject msg c = Ok u -> c = false.
Proof. unfold reject. destruct u. intros H%reviewing_Ok. by apply refuse_Ok in H. Qed.

(** What an accepted archive is. *)
Record exact_archive (a : archive) (name : string) : Prop := {
  ea_size : (st_size a <= MAX_ARCHIVE_BYTES)%Z;
  ea_members : exists entries, infolist a = Some entries /\
    Permutation (map zm_filename entries) ["provenance.json"; name; name +:+ ".sha256"] /\
    Forall (fun m => (file_size m <= MAX_ARCHIVE_BYTES)%Z /\ is_link m = false) entries
}.

Lemma extract_Ok a r dest name dest' :
  extract_reviewed_archive a r dest = Ok (name, dest') ->
  exists value payload, candidate_value r = Ok value /\ bundle_filename value = Ok name /\
    jget "bundle_sha256" value = Some (JStr (sha256_of payload)) /\
    dest !! name = None /\ dest' = <[name := payload]> dest /\ exact_archive a name.
Proof.
  unfold extract_reviewed_archive. intros H. apply res_bind_Ok in H as (value & Hv & H).
  destruct (candidate_value r) as [v|] eqn:Hval; [|done]. injection Hv as ->.
  apply res_bind_Ok in H as (filename & Hf%reviewing_Ok & H). apply res_bind_Ok in H as (u & Hs & H). apply reject_passed in Hs.
  apply res_bind_Ok in H as (entries & He & H). apply of_option_Ok in He.
  apply res_bind_Ok in H as (? & Hn & H). apply reject_passed, orb_false_iff in Hn as [Hn1 Hn2].
  apply negb_false_iff in Hn1, Hn2. apply Nat.eqb_eq in Hn1.
  apply res_bind_Ok in H as (? & Hb & H). apply reject_passed, existsb_false_Forall in Hb.
  do 4 (apply res_bind_Ok in H as (? & _ & H)).
  apply res_bind_Ok in H as (payload & _ & H). apply res_bind_Ok in H as (dg & Hdg%reviewing_Ok & H). apply getitem_Ok in Hdg.
  apply res_bind_Ok in H as (? & Hd & H). apply reject_passed, negb_false_iff, py_eq_str in Hd. subst dg.
  do 3 (apply res_bind_Ok in H as (? & _ & H)).
  destruct (dest !! filename) as [|] eqn:Hdest; [done|]. injection H as <- <-.
  exists value, payload. split_and!; try done. apply Z.ltb_ge in Hs. split; [done|]. exists entries. split_and!; [done| |].
  - apply names_permutation; [|by rewrite length_map|done]. unfold bundle_filename in Hf.
    apply res_bind_Ok in Hf as (m & _ & Hf). apply res_bind_Ok in Hf as (v & _ & Hf). injection Hf as <-.
    rewrite <- !sapp_assoc. apply member_names_NoDup.
  - eapply Forall_impl; [exact Hb|]. intros m [H1 H2]%orb_false_iff. split; [by apply Z.ltb_ge | done].
Qed.

(** The archive that a build uploads: the canonical candidate, the bundle and
    its digest with its name, as `sha256sum` prints them. *)
Definition sidecar (digest name : string) : string := digest +:+ "  " +:+ name +:+ newline.

Definition packed_member (name bytes : string) : zip_member :=
  {| zm_filename := name; file_size := Z.of_nat (String.length bytes); external_attr := 0; zm_bytes := Some bytes |}.

Definition packed_members (value : members) (name payload : string) : list zip_member :=
  [packed_member "provenance.json" (utf8_encode (canonical_json (JObj value)));
   packed_member name payload; packed_member (name +:+ ".sha256") (sidecar (sha256_of payload) name)].

Definition packed (value : members) (name payload : string) (size : Z) : archive :=
  {| st_size := size; infolist := Some (packed_members value name payload) |}.

Lemma split_sidecar digest name :
  visible_text digest -> visible_text name -> nonempty digest = true -> nonempty name = true ->
  utf8_decode (sidecar digest name) = Some (sidecar digest name) /\
  split_ws (sidecar digest name) = [digest; name].
Proof.
  intros Hd Hn Hdn Hnn. split.
  - apply utf8_decode_ascii. unfold sidecar, newline. rewrite !chars_app, !Forall_app. split_and!.
    + eapply Forall_impl; [exact Hd|]. by intros c [_ Hc]%andb_true_iff.
    + by repeat constructor.
    + eapply Forall_impl; [exact Hn|]. by intros c [_ Hc]%andb_true_iff.
    + by repeat constructor.
  - unfold split_ws, sidecar, newline. rewrite words_from_app, sapp_nil by by apply visible_spaceless.
    change ("  " +:+ name +:+ String "010" "") with (String " " (String " " (name +:+ String "010" ""))).
    cbn [words_from]. change (is_space " ") with true. cbv iota. rewrite Hdn. cbn [nonempty].
    rewrite words_from_app, sapp_nil by by apply visible_spaceless. cbn [words_from].
    change (is_space "010") with true. cbv iota. by rewrite Hnn.
Qed.

Lemma zip_read_unique entries m :
  NoDup (map zm_filename entries) -> m ∈ entries -> zip_read (zm_filename m) entries = of_option BadZipFile (zm_bytes m).
Proof.
  intros Hnd Hm. unfold zip_read. destruct (List.find _ _) as [m'|] eqn:Hf.
  - apply find_some in Hf as [Hin Hn]. rewrite <- in_rev, <- list_elem_of_In in Hin. apply String.eqb_eq in Hn.
    assert (m' = m) as -> by by eapply (NoDup_map_inj zm_filename). done.
  - assert (H := find_none _ _ Hf m). rewrite <- in_rev, <- list_elem_of_In in H. specialize (H Hm). simpl in H.
    by rewrite String.eqb_refl in H.
Qed.

Lemma grammar_plain r s :
  (forall c, visible_ascii c = false -> avoids c r = true) -> fullmatch r s = true -> visible_text s.
Proof. intros Hr Hs. apply fullmatch_spec in Hs. exact (matches_all visible_ascii r _ Hr Hs). Qed.

Lemma identifiers_plain m v dg :
  fullmatch MODULE_ID_RE m = true -> fullmatch SEMVER_RE v = true -> fullmatch SHA256_RE dg = true ->
  visible_text (bundle_name m v) /\ visible_text dg /\ nonempty dg = true.
Proof.
  intros Hm Hv Hd. split_and!.
  - unfold bundle_name, visible_text. rewrite !chars_app, !Forall_app. split_and!.
    + eapply grammar_plain; [|exact Hm]. intros [[] [] [] [] [] [] [] []]; (discriminate || reflexivity).
    + by repeat constructor.
    + eapply grammar_plain; [|exact Hv]. intros [[] [] [] [] [] [] [] []]; (discriminate || reflexivity).
    + by repeat constructor.
  - eapply grammar_plain; [|exact Hd]. intros [[] [] [] [] [] [] [] []]; (discriminate || reflexivity).
  - destruct dg; [|done]. assert (Hn : fullmatch SHA256_RE "" = false) by (vm_compute; reflexivity). congruence.
Qed.

Lemma decode_canonical (value : members) origin :
  object_hook (JObj value) = Ok tt ->
  exists w, decode_json (canonical_json (JObj value)) origin = Ok w /\
    candidate_digest text_hash w = candidate_digest text_hash value.
Proof.
  intros Hh. destruct (sort_keys (JObj value)) as [| | | | |w] eqn:Hs; try (rewrite sort_keys_obj in Hs; discriminate Hs).
  exists w. split.
  - unfold decode_json. by rewrite canonical_loads, (hook_sort_keys _ Hh), Hs.
  - unfold candidate_digest. by rewrite <- Hs, canonical_sort_keys.
Qed.

Lemma extract_packed value m v payload ch r dest size :
  candidate_value r = Ok value -> object_hook (JObj value) = Ok tt ->
  candidate_digest text_hash value = rc_candidate_sha256 r ->
  candidate_ok policies value m v (sha256_of payload) ch -> fullmatch MODULE_ID_RE m = true ->
  let name := bundle_name m v in
  (size <= MAX_ARCHIVE_BYTES)%Z -> Forall (fun e => (file_size e <= MAX_ARCHIVE_BYTES)%Z) (packed_members value name payload) ->
  dest !! name = None ->
  extract_reviewed_archive (packed value name payload size) r dest = Ok (name, <[name := payload]> dest).
Proof.
  intros Hval Hhook Hdg Hok Hid name Hsize Hbound Hdest.
  assert (Hgr := Hok). destruct Hgr as [_ _ [_ Hver] _ _ [Hbundle Hsha] _ _ _].
  destruct (identifiers_plain m v (sha256_of payload) Hid Hver Hsha) as (Hpn & Hpd & Hnd).
  assert (Hnn : nonempty name = true) by (unfold name, bundle_name; by destruct m).
  destruct (split_sidecar _ _ Hpd Hpn Hnd Hnn) as [Hdec Hsplit].
  assert (Hnames : NoDup (map zm_filename (packed_members value name payload))).
  { unfold name, bundle_name. assert (Hb : m +:+ "-" +:+ v +:+ ".ocp" = (m +:+ "-" +:+ v) +:+ ".ocp") by by rewrite !sapp_assoc.
    rewrite Hb. apply member_names_NoDup. }
  unfold extract_reviewed_archive. rewrite Hval. cbn [res_bind]. rewrite (bundle_filename_ok _ _ _ _ _ Hok).
  cbn [reviewing res_bind]. fold name. cbn [packed st_size infolist].
  rewrite (proj2 (Z.ltb_ge _ _) Hsize). cbn [reject refuse raise_if reviewing res_bind of_option].
  assert (Hsame : forallb (fun n => mem n ["provenance.json"; name; name +:+ ".sha256"]) (map zm_filename (packed_members value name payload))
    && forallb (fun n => mem n (map zm_filename (packed_members value name payload))) ["provenance.json"; name; name +:+ ".sha256"] = true).
  { apply andb_true_iff. split; apply forallb_Forall, Forall_forall; intros x Hx; by apply mem_true. }
  assert (Hsafe : existsb (fun e => Z.ltb MAX_ARCHIVE_BYTES (file_size e) || is_link e) (packed_members value name payload) = false).
  { apply existsb_false_Forall, Forall_forall. intros e He. rewrite Forall_forall in Hbound. apply orb_false_iff.
    split; [by apply Z.ltb_ge, Hbound|]. repeat (apply elem_of_cons in He as [->|He]; [done|]). by apply not_elem_of_nil in He. }
  assert (Hread : forall n b, packed_member n b ∈ packed_members value name payload ->
    zip_read n (packed_members value name payload) = Ok b).
  { intros n b. exact (zip_read_unique _ (packed_member n b) Hnames). }
  destruct (decode_canonical value "archive provenance" Hhook) as (w & Hw & Hwd).
  rewrite (Hread _ (utf8_encode (canonical_json (JObj value)))) by by left.
  rewrite (Hread _ payload) by by right; left.
  rewrite (Hread _ (sidecar (sha256_of payload) name)) by by do 2 right; left.
  rewrite Hsame, Hsafe. change (Nat.eqb (length (packed_members value name payload)) 3) with true.
  unfold decoded, reject, refuse, raise_if. cbn [negb orb reviewing res_bind].
  rewrite utf8_round_trip. cbn [of_option res_bind]. rewrite Hw. cbn [reviewing res_bind].
  rewrite Hwd, Hdg, String.eqb_refl. cbn [negb reviewing res_bind].
  unfold getitem. rewrite Hbundle. cbn [of_option reviewing res_bind py_eq]. rewrite String.eqb_refl.
  cbn [negb reviewing res_bind]. fold name in Hdec, Hsplit. rewrite Hdec. cbn [of_option res_bind]. rewrite Hsplit.
  cbn [map py_eq]. rewrite !String.eqb_refl. cbn [andb negb reviewing res_bind]. by rewrite Hdest.
Qed.

(** ** Properties *)

(** C9. The bytes a promotion gets are the approved ones.  For a candidate that
    [load] approved, extraction returns only when the archive has exactly the
    three members of the candidate, none of them too large or a symbolic link,
    and then it wrote one new file, named after module and version, whose
    SHA-256 is the approved one.  Conversely the archive that the build packs
    from the approved candidate and bytes with its digest is accepted. *)
Theorem reviewed_archive_exact api module_id version number digest r :
  load api module_id version number digest = Ok r ->
  exists value bundle, candidate_value r = Ok value /\ candidate_digest text_hash value = digest /\
    jget "bundle_sha256" value = Some (JStr bundle) /\
    let name := bundle_name module_id version in
    (forall a dest name' dest', extract_reviewed_archive a r dest = Ok (name', dest') ->
       exists payload, name' = name /\ sha256_of payload = bundle /\ dest !! name = None /\
         dest' = <[name := payload]> dest /\ exact_archive a name) /\
    (forall payload size dest, sha256_of payload = bundle -> (size <= MAX_ARCHIVE_BYTES)%Z ->
       Forall (fun e => (file_size e <= MAX_ARCHIVE_BYTES)%Z) (packed_members value name payload) -> dest !! name = None ->
       extract_reviewed_archive (packed value name payload size) r dest = Ok (name, <[name := payload]> dest)).
Proof.
  intros H. apply load_approved in H as ([_ _ _ (value & bundle & ch & Hv & Hd & Hh & Hok & _) Hrd] & Hid & _).
  exists value, bundle. assert (Hb : jget "bundle_sha256" value = Some (JStr bundle)) by (destruct Hok; tauto).
  split; [exact Hv|]. split; [exact Hd|]. split; [exact Hb|]. cbv zeta. split.
  - intros a dest name' dest' H. apply extract_Ok in H as (value' & payload & Hv' & Hn & Hp & Hnew & -> & He).
    rewrite Hv in Hv'. injection Hv' as <-. rewrite (bundle_filename_ok _ _ _ _ _ Hok) in Hn. injection Hn as <-.
    exists payload. split_and!; try done. congruence.
  - intros payload size dest <- Hs Hm Hdest. eapply extract_packed; try done; [congruence | apply Hid].
Qed.

End Source.

(** ** Example: the review of one candidate *)

Definition example_commit (c : ascii) : string := String.string_of_list_ascii (repeat c 40).

Definition approved_candidate : members :=
  map (fun kv => if String.eqb (fst kv) "builder_commit" then ("builder_commit", JStr (example_commit "c"))
                 else if String.eqb (fst kv) "artifact_candidate"
                 then ("artifact_candidate", JStr "github-actions://run/1/hello-1.0.0") else kv) example_candidate.

Definition standard_b64 (s : string) : string :=
  string_map (fun c => if Ascii.eqb c "-" then "+"%char else if Ascii.eqb c "_" then "/"%char else c) (urlsafe_b64encode s).

Definition example_pull : json :=
  JObj [("merged", JBool true); ("base", JObj [("ref", JStr "main"); ("repo", JObj [("full_name", JStr REPOSITORY)])]);
        ("merged_by", JObj [("type", JStr "User"); ("login", JStr "alice")]);
        ("head", JObj [("sha", JStr (example_commit "d"))]); ("merge_commit_sha", JStr (example_commit "e"))].

(** GitHub's answers. *)
Definition example_github (path : string) : res exn json :=
  if String.eqb path "pulls/7" then Ok example_pull
  else if String.eqb path "pulls/7/files?per_page=100" then
    Ok (JArr [JObj [("filename", JStr "README.md"); ("status", JStr "modified")];
              JObj [("filename", JStr (provenance_path "hello" "1.0.0")); ("status", JStr "added")]])
  else if startswith ("contents/" +:+ provenance_path "hello" "1.0.0" +:+ "?ref=") path then
    Ok (JObj [("encoding", JStr "base64"); ("content", JStr (standard_b64 (canonical_json (JObj approved_candidate))))])
  else if String.eqb path "actions/runs/1" then
    Ok (JObj [("conclusion", JStr "success"); ("head_sha", JStr (example_commit "c"));
              ("repository", JObj [("full_name", JStr REPOSITORY)]); ("path", JStr ".github/workflows/ocp-builder.yml")])
  else if String.eqb path "actions/runs/1/artifacts?per_page=100" then
    Ok (JObj [("artifacts", JArr [JObj [("name", JStr "hello-v1.0.0"); ("expired", JBool false); ("size_in_bytes", JInt 900);
                                       ("workflow_run", JObj [("head_sha", JStr (example_commit "c"))]); ("id", JInt 5)]])])
  else Err (CandidateApprovalError "GitHub evidence unavailable").

Definition example_load : res exn ReviewedCandidate :=
  load (fun _ => hex64 "a") example_policies [] example_github "hello" "1.0.0" 7 (hex64 "a").

Definition example_fetch (id : json) : res review_exn archive :=
  Ok (packed (fun _ => hex64 "a") approved_candidate "hello-1.0.0.ocp" "ocp" 900).

Lemma reviewed_archive_exact_witness :
  exists r, example_load = Ok r /\ approval_identity r = "alice" /\
    download_reviewed_artifact (fun _ => hex64 "a") example_github example_fetch r
    = Ok ("hello-1.0.0.ocp", <["hello-1.0.0.ocp" := "ocp"]> ∅) /\
    forall a dest name dest', extract_reviewed_archive (fun _ => hex64 "a") a r dest = Ok (name, dest') ->
      name = "hello-1.0.0.ocp" /\ dest !! name = None.
Proof.
  unfold example_load. destruct (load _ _ _ _ _ _ _ _) as [r|] eqn:H; [|vm_compute in H; discriminate H]. exists r.
  edestruct (reviewed_archive_exact (fun _ => hex64 "a") example_policies [] example_github "hello" "1.0.0" 7 (hex64 "a") r H)
    as (value & bundle & _ & _ & _ & Hx & _).
  split; [reflexivity|]. vm_compute in H. injection H as <-. split; [reflexivity|]. split; [vm_compute; reflexivity|].
  intros a dest name dest' He. destruct (Hx _ _ _ _ He) as (payload & -> & _ & Hn & _). split; [reflexivity | exact Hn].
Defined.
