(* ===== verification/RegistryPromote.v ===== *)
(** * The promotion command: web/backend/app/registry_promote.py

    The command an operator runs: the gate in front of production, the choice of
    the database, the download of the approved bytes and the promotion itself,
    composed from [Reviewed], [Promotion] and a store.  GitHub may answer
    differently each time it is asked: [api 0] is what the first look at the
    review sees, [api 1] the download, [api 2] the look of the promotion service.
    [make_url] of SQLAlchemy is a parameter; a database is what its URL leads to.
    [materialize] writes the downloaded bundle into the private temporary
    directory of the host.  The [artifact_root] of a host is the store at the
    path that --artifact-root names, [cwd] the working directory. *)

#[local] Set Warnings "-notation-overridden".

From S2P Require Import Prelude PyText SemVer Json JsonText Base64 Url Validate Registry ArtifactStore StoreProtocol Candidate RegistryDb Promotion Reviewed.

Open Scope string_scope.
Open Scope list_scope.

Record arguments := {
  arg_module : string; arg_version : string; arg_channel : string; arg_approval_pr : Z;
  arg_candidate_sha256 : string; arg_bundle_sha256 : string; arg_expected_channel_revision : Z;
  arg_idempotency_key : string; arg_artifact_root : path_; arg_artifact : option path_; arg_production : bool;
  arg_confirm_production_promotion : bool
}.

(** How the command ends: a usage error, the refusal it prints, an exception it
    does not catch, or the printed result. *)
Inductive ending :=
| UsageError (msg : string)
| Failed
| Crashed
| Printed (result : promotion_result).

(** [ValueError] and its subclasses are caught. *)
Definition caught_exn (e : exn) : bool :=
  match e with RegistryValidationError _ | ValueError _ => true | _ => false end.

Definition caught_promotion (e : promotion_exn) : bool :=
  match e with
  | Rejected (RegistryInvalid e) => caught_exn e
  | Rejected AttributeError => false
  | Rejected _ => true
  | StoreError _ => true
  | SourceError _ => false
  end.

Definition caught_review (e : review_exn) : bool :=
  match e with Review e => caught_exn e | Os _ | BadZipFile | SubprocessError => true end.

Definition ended (caught : bool) : ending := if caught then Failed else Crashed.

Record host (S : Type) := { artifact_root : S; databases : gmap string registry_db }.
Arguments Build_host {S}.
Arguments artifact_root {S}.
Arguments databases {S}.

(** [database_url] of db/config.py *)
Definition database_url (make_url : string -> option (string * option string)) (raw : string) : option string :=
  if negb (nonempty raw) then None
  else
    match make_url raw with
    | Some (drivername, Some (String _ _)) => if String.eqb drivername "postgresql+psycopg" then Some raw else None
    | _ => None
    end.

Section Command.
Context {S : Type} `{!StoreOps S} (sha256_of : string -> string) (schema_valid : string -> json -> bool).
Context (policies : string -> option string) (builder_policy : members).
Context (api : nat -> string -> res exn json) (fetch_archive : json -> res review_exn archive).
Context (environ : string -> option string) (make_url : string -> option (string * option string)).
Context (materialize : string -> string -> S -> path_ * S) (cwd : list string).

(** [GitHubCandidateSource] *)
Definition reviewer (n : nat) (module_id version : string) (pr : Z) (digest : string)
    : res promotion_exn ReviewedCandidate :=
  registry_call (load sha256_of policies builder_policy (api n) module_id version pr digest).

Definition production_open (a : arguments) : bool :=
  arg_confirm_production_promotion a
  && bool_decide (environ "PACKAGES_REGISTRY_WRITER_CUTOVER_ENABLED" = Some "true").

Definition database_variable (a : arguments) : string :=
  if arg_production a then "PACKAGES_REGISTRY_PROMOTION_DATABASE_URL"
  else "PACKAGES_REGISTRY_STAGING_PROMOTION_DATABASE_URL".

Definition intent_of (a : arguments) : PromotionIntent :=
  {| in_module_id := arg_module a; in_version := arg_version a; approval_pr := arg_approval_pr a;
     candidate_sha256 := arg_candidate_sha256 a; bundle_sha256 := arg_bundle_sha256 a;
     in_channel := arg_channel a; expected_channel_revision := arg_expected_channel_revision a;
     in_idempotency_key := arg_idempotency_key a |}.

(** The file the promotion publishes. *)
Definition artifact_source (a : arguments) (s : S) : (path_ + bool) * S :=
  match arg_artifact a with
  | Some path => (inl path, s)
  | None =>
      match reviewer 0 (arg_module a) (arg_version a) (arg_approval_pr a) (arg_candidate_sha256 a) with
      | Err e => (inr (caught_promotion e), s)
      | Ok reviewed =>
          match download_reviewed_artifact sha256_of (api 1) fetch_archive reviewed with
          | Err e => (inr (caught_review e), s)
          | Ok (name, written) =>
              let '(path, s) := materialize name (default "" (written !! name)) s in (inl path, s)
          end
      end
  end.

(** The promotion on the database of the engine, and its database once the
    transaction is committed.  The engine connects when the transaction begins:
    without a database there it fails after the bytes were stored. *)
Definition run_promotion (a : arguments) (source : path_) (s : S) (db : option registry_db)
    : ending * S * option registry_db :=
  match db with
  | Some d =>
      match promote (text_hash sha256_of) schema_valid (reviewer 2) (intent_of a) source s d with
      | (Ok result, s, d) => (Printed result, s, Some d)
      | (Err e, s, _) => (ended (caught_promotion e), s, None)
      end
  | None =>
      match place (text_hash sha256_of) (reviewer 2) (intent_of a) source s with
      | (Err e, s) => (ended (caught_promotion e), s, None)
      | (Ok _, s) => (Failed, s, None)
      end
  end.

Definition main (a : arguments) (h : host S) : ending * host S :=
  if negb (mem (arg_channel a) ["stable"; "beta"; "nightly"]) then (UsageError "invalid choice", h)
  else if arg_production a && negb (production_open a)
  then (UsageError "Production requires explicit confirmation and completed writer-cutover gate", h)
  else if negb (arg_production a) && arg_confirm_production_promotion a
  then (UsageError "Production confirmation is not valid in staging mode", h)
  else
    match environ (database_variable a) with
    | Some (String _ _ as raw) =>
        match database_url make_url raw with
        | None => (Failed, h)
        | Some url =>
            match artifact_source a (artifact_root h) with
            | (inr caught, s) => (ended caught, Build_host s (databases h))
            | (inl source, s) =>
                match ArtifactStore.init cwd (arg_artifact_root a) with
                | Err e => (ended (caught_promotion (StoreError e)), Build_host s (databases h))
                | Ok _ =>
                    let '(o, s, d) := run_promotion a source s (databases h !! url) in
                    (o, Build_host s (match d with Some d => <[url := d]> (databases h) | None => databases h end))
                end
            end
        end
    | _ => (Failed, h)
    end.

(** ** Facts *)

Context `{!StoreSpec S}.
Hypothesis materialize_keeps : forall n b s path s', materialize n b s = (path, s') -> store_keeps s s'.

Lemma database_url_Some raw url : database_url make_url raw = Some url -> url = raw.
Proof.
  unfold database_url. destruct (negb (nonempty raw)); [done|]. destruct (make_url raw) as [[dn [[|ch db]|]]|]; try done.
  destruct (String.eqb dn _); [|done]. by intros [= ->].
Qed.

Lemma artifact_source_keeps a s r s' : artifact_source a s = (r, s') -> store_keeps s s'.
Proof.
  unfold artifact_source. destruct (arg_artifact a); [by intros [= _ <-] ? ? ?|].
  destruct (reviewer _ _ _ _ _); [|by intros [= _ <-] ? ? ?].
  destruct (download_reviewed_artifact _ _ _ _) as [[name w]|]; [|by intros [= _ <-] ? ? ?].
  destruct (materialize _ _ s) as [path s1] eqn:Hm. intros [= _ <-]. by eapply materialize_keeps.
Qed.

Lemma bind_intent_source source i b :
  bind_intent (text_hash sha256_of) source i = Ok b ->
  source (in_module_id i) (in_version i) (approval_pr i) (candidate_sha256 i) = Ok (b_reviewed b) /\
  candidate_value (b_reviewed b) = Ok (b_value b) /\ promoted_evidence (b_value b) = Ok (b_evidence b).
Proof.
  unfold bind_intent. intros H. destruct (negb _ || _); [done|].
  apply res_bind_Ok in H as (reviewed & Hr & H). apply res_bind_Ok in H as (value & Hval & H).
  apply res_bind_Ok in H as (planned & _ & H). apply res_bind_Ok in H as (digest & _ & H).
  destruct (negb _ || _ || _); [done|].
  apply res_bind_Ok in H as (release & _ & H). apply res_bind_Ok in H as (ev & Hev & H). injection H as <-. done.
Qed.

Lemma reviewer_approved n m v pr dg r :
  reviewer n m v pr dg = Ok r -> approved sha256_of policies builder_policy (api n) m v pr dg r.
Proof.
  unfold reviewer, registry_call. destruct (load _ _ _ _ _ _ _ _) eqn:H; [|done]. intros [= ->].
  by apply load_approved in H as [H _].
Qed.

(** What the operator can rely on when the command prints a result. *)
Record published_from_review (a : arguments) (h h' : host S) (url : string) : Prop := {
  pfr_gate : (arg_production a = true -> arg_confirm_production_promotion a = true /\
      environ "PACKAGES_REGISTRY_WRITER_CUTOVER_ENABLED" = Some "true") /\
    (arg_production a = false -> arg_confirm_production_promotion a = false);
  pfr_url : environ (database_variable a) = Some url;
  pfr_databases : forall url', url' <> url -> databases h' !! url' = databases h !! url';
  pfr_release : exists d d' r value rel ev row art p,
    databases h !! url = Some d /\ databases h' !! url = Some d' /\
    approved sha256_of policies builder_policy (api 2) (arg_module a) (arg_version a) (arg_approval_pr a)
      (arg_candidate_sha256 a) r /\
    candidate_value r = Ok value /\ jget "bundle_sha256" value = Some (JStr (arg_bundle_sha256 a)) /\
    promoted_evidence value = Ok ev /\ version rel = arg_version a /\
    published_as d' (arg_module a) rel ev true row art p /\ a_digest art = arg_bundle_sha256 a /\
    extends d d' /\ (event_of d (arg_idempotency_key a) = None ->
      channel_at d' (arg_module a) (arg_channel a)
      = Some {| c_module_id := arg_module a; c_channel := arg_channel a; c_version := arg_version a;
                revision := arg_expected_channel_revision a + 1 |});
  pfr_bytes : holds (artifact_root h') (arg_module a) (arg_version a) (arg_bundle_sha256 a)
}.

Lemma promote_printed a source s d result s' d' :
  constraints d = true ->
  promote (text_hash sha256_of) schema_valid (reviewer 2) (intent_of a) source s d = (Ok result, s', d') ->
  holds s' (arg_module a) (arg_version a) (arg_bundle_sha256 a) /\
  exists r value rel ev row art p,
    approved sha256_of policies builder_policy (api 2) (arg_module a) (arg_version a) (arg_approval_pr a)
      (arg_candidate_sha256 a) r /\
    candidate_value r = Ok value /\ jget "bundle_sha256" value = Some (JStr (arg_bundle_sha256 a)) /\
    promoted_evidence value = Ok ev /\ version rel = arg_version a /\
    published_as d' (arg_module a) rel ev true row art p /\ a_digest art = arg_bundle_sha256 a /\
    extends d d' /\ (event_of d (arg_idempotency_key a) = None ->
      channel_at d' (arg_module a) (arg_channel a)
      = Some {| c_module_id := arg_module a; c_channel := arg_channel a; c_version := arg_version a;
                revision := arg_expected_channel_revision a + 1 |}).
Proof.
  intros Hc H. apply (promote_cases (text_hash sha256_of) schema_valid (reviewer 2)) in H as [_ [[_ H]|(b & art & res & Hb & [= <-] & Ht & Hok & Hh & _ & Hu)]]; [done|].
  split; [exact Hh|]. destruct (bind_intent_source _ _ _ Hb) as (Hs & Hv & Hev). apply reviewer_approved in Hs.
  apply transaction_Ok in Ht as (rel & m & p & Hrel & _ & Hcom).
  destruct (bound_release _ _ _ _ _ _ Hb Hrel Hok Hu) as (Hver & Hdg & _).
  destruct (bind_intent_Ok _ _ _ _ Hb) as (Hi & _ & Hbundle & _).
  assert (He : extends d d') by by eapply committed_extends.
  exists (b_reviewed b), (b_value b), rel, (b_evidence b).
  destruct Hcom as [Hnew []|ev m2 p2 v a' pr Hevent _ _ _ Hacc Hpub].
  - destruct prom_published as (row & a' & pr & Hpub & Hdg'). exists row, a', pr. rewrite Hi in *.
    split_and!; try done. exact (eq_trans Hdg' Hdg).
  - exists v, a', pr. rewrite Hi in *.
    split_and!; try done.
    + refine (eq_trans _ Hdg). by destruct Hpub as [_ _ _ <- _ _ _].
    + intros Hno. assert (Hsome : event_of d (arg_idempotency_key a) = Some ev) by exact Hevent. congruence.
Qed.

(** Without a printed result no database is committed. *)
Lemma run_promotion_cases a source s db o s' db' :
  (forall d, db = Some d -> constraints d = true) ->
  run_promotion a source s db = (o, s', db') ->
  store_keeps s s' /\
  ((db' = None /\ forall result, o <> Printed result) \/
   exists d d' result, db = Some d /\ db' = Some d' /\ o = Printed result /\
     promote (text_hash sha256_of) schema_valid (reviewer 2) (intent_of a) source s d = (Ok result, s', d')).
Proof.
  intros Hc. unfold run_promotion. destruct db as [d|].
  - destruct (promote _ _ _ _ source s d) as [[[result|e] s1] d1] eqn:Hp;
      destruct (promote_keeps _ _ _ _ _ _ _ _ _ _ Hp (Hc _ eq_refl)) as (_ & _ & _ & Hk & _); intros [= <- <- <-];
      (split; [exact Hk|]).
    + right. by exists d, d1, result.
    + left. split; [done|]. destruct (caught_promotion e); discriminate.
  - destruct (place _ _ _ source s) as [[b|e] s1] eqn:Hp; destruct (place_cases _ _ _ _ _ _ _ Hp) as [Hk _]; intros [= <- <- <-];
      (split; [exact Hk|]); left; (split; [done|]); [discriminate|]. destruct (caught_promotion e); discriminate.
Qed.

(** ** Properties *)

(** C8. The command publishes only what a person reviewed.  When it prints a
    result, the gate was open (production needs the confirmation and the cut-over
    switch, staging forbids the confirmation); exactly the database named for the
    mode was written; at that moment the pull request was merged into the main
    branch of the registry by a person and contained the candidate, which was the
    same, by its digest, in the reviewed revision, in the merge and in the current
    main; the module has the release of that candidate with its evidence and the
    approved bundle digest, the bytes are in the store, and unless the promotion
    had been recorded before, the channel moved.  In every other case no database
    changes.  The store never loses anything. *)
Theorem promote_command_reviewed a h o h' :
  (forall url d, databases h !! url = Some d -> constraints d = true) ->
  main a h = (o, h') ->
  store_keeps (artifact_root h) (artifact_root h') /\
  ((databases h' = databases h /\ forall result, o <> Printed result) \/
   exists result url, o = Printed result /\ published_from_review a h h' url).
Proof.
  intros Hc. unfold main. destruct (mem _ _); cbn [negb]; [|intros [= <- <-]; split; [by intros ? ? ?|by left]].
  destruct (arg_production a && negb (production_open a)) eqn:Hprod; [intros [= <- <-]; split; [by intros ? ? ?|by left]|].
  destruct (negb (arg_production a) && arg_confirm_production_promotion a) eqn:Hstage;
    [intros [= <- <-]; split; [by intros ? ? ?|by left]|].
  destruct (environ (database_variable a)) as [[|ch raw']|] eqn:Henv; try (intros [= <- <-]; split; [by intros ? ? ?|by left]).
  set (raw := String ch raw') in *. destruct (database_url make_url raw) as [url|] eqn:Hurl;
    [|intros [= <- <-]; split; [by intros ? ? ?|by left]].
  apply database_url_Some in Hurl as ->.
  destruct (artifact_source a (artifact_root h)) as [[source|caught] s] eqn:Hs; apply artifact_source_keeps in Hs as Hk.
  2: { intros [= <- <-]. split; [exact Hk|]. left. split; [done|]. destruct caught; discriminate. }
  destruct (ArtifactStore.init cwd _) as [root|e]; [|intros [= <- <-]; split; [exact Hk | by left]].
  destruct (run_promotion a source s (databases h !! raw)) as [[o1 s1] d1] eqn:Hp. intros [= <- <-].
  destruct (run_promotion_cases _ _ _ _ _ _ _ (Hc raw) Hp) as [Hk1 Hcases].
  split; [intros m v dg Hh; cbn; by apply Hk1, Hk|].
  destruct Hcases as [[-> Hno]|(d & d' & result & Hd & -> & -> & Hp')]; [by left|].
  right. exists result, raw. split; [done|]. destruct (promote_printed _ _ _ _ _ _ _ (Hc _ _ Hd) Hp') as (Hh & Hpub). split; try done.
  - split.
    + intros Hpr. rewrite Hpr in Hprod. apply negb_false_iff, andb_true_iff in Hprod as [Hcon Hsw].
      by apply bool_decide_eq_true_1 in Hsw.
    + intros Hpr. by rewrite Hpr in Hstage.
  - intros url' Hne. cbn. by rewrite lookup_insert_ne.
  - exists d, d'. cbn. rewrite lookup_insert_eq. destruct Hpub as (r & value & rel & ev & row & art & p & Hpub).
    exists r, value, rel, ev, row, art, p. by split; [|split].
Qed.

End Command.

(** ** Example: a promotion in staging, with the downloaded bytes *)

Definition example_at (artifact_root : path_) : arguments :=
  {| arg_module := "hello"; arg_version := "1.0.0"; arg_channel := "stable"; arg_approval_pr := 7;
     arg_candidate_sha256 := hex64 "a"; arg_bundle_sha256 := hex64 "a"; arg_expected_channel_revision := 0;
     arg_idempotency_key := "hello-1"; arg_artifact_root := artifact_root; arg_artifact := None;
     arg_production := false; arg_confirm_production_promotion := false |}.

Definition example_arguments : arguments := example_at {| is_absolute := true; parts := ["srv"] |}.

Definition example_url : string := "postgresql+psycopg://db/staging".

Definition example_host : host sys := {| artifact_root := example_sys; databases := {[ example_url := example_db ]} |}.

Definition example_promotes (artifact_root : path_) (h : host sys) : ending * host sys :=
  @main sys (filesystem_ops example_sha256 1000 quiet ["srv"] [] "0f") (fun _ => hex64 "a") any_schema example_policies []
    (fun _ => example_github) example_fetch
    (fun name => if String.eqb name "PACKAGES_REGISTRY_STAGING_PROMOTION_DATABASE_URL" then Some example_url else None)
    (fun _ => Some ("postgresql+psycopg", Some "staging")) (fun _ _ s => (example_source, s)) []
    (example_at artifact_root) h.

(** Without a database the bytes are stored and the command fails; a relative root
    is refused before that. *)
Example example_no_database :
  let h := {| artifact_root := example_sys; databases := ∅ |} in
  let '(o, h') := example_promotes {| is_absolute := true; parts := ["srv"] |} h in
  o = Failed /\ (size (files (artifact_root h)) < size (files (artifact_root h')))%nat.
Proof. vm_compute. split; [reflexivity | lia]. Qed.

Example example_relative_root :
  example_promotes {| is_absolute := false; parts := ["srv"] |} example_host = (Failed, example_host).
Proof. vm_compute. reflexivity. Qed.

Definition example_main : ending * host sys :=
  @main sys (filesystem_ops example_sha256 1000 quiet ["srv"] [] "0f") (fun _ => hex64 "a") any_schema example_policies []
    (fun _ => example_github) example_fetch
    (fun name => if String.eqb name "PACKAGES_REGISTRY_STAGING_PROMOTION_DATABASE_URL" then Some example_url else None)
    (fun _ => Some ("postgresql+psycopg", Some "staging")) (fun _ _ s => (example_source, s)) [] example_arguments example_host.

Lemma example_main_eq :
  example_main =
  @main sys (filesystem_ops example_sha256 1000 quiet ["srv"] [] "0f") (fun _ => hex64 "a") any_schema example_policies []
    (fun _ => example_github) example_fetch
    (fun name => if String.eqb name "PACKAGES_REGISTRY_STAGING_PROMOTION_DATABASE_URL" then Some example_url else None)
    (fun _ => Some ("postgresql+psycopg", Some "staging")) (fun _ _ s => (example_source, s)) [] example_arguments example_host.
Proof. reflexivity. Qed.

Lemma example_main_prints : (match fst example_main with Printed result => Some (status result) | _ => None end) = Some "published".
Proof. vm_compute. reflexivity. Qed.

Lemma promote_command_reviewed_witness :
  exists result, fst example_main = Printed result /\ status result = "published" /\
    file_holds example_sha256 ["srv"] (artifact_root (snd example_main)) "hello" "1.0.0" (hex64 "a").
Proof.
  assert (Hp := example_main_prints). destruct example_main as [o h'] eqn:H. cbn [fst snd] in *. rewrite example_main_eq in H.
  destruct (@promote_command_reviewed sys (filesystem_ops example_sha256 1000 quiet ["srv"] [] "0f") (fun _ => hex64 "a")
    any_schema example_policies [] (fun _ => example_github) example_fetch
    (fun name => if String.eqb name "PACKAGES_REGISTRY_STAGING_PROMOTION_DATABASE_URL" then Some example_url else None)
    (fun _ => Some ("postgresql+psycopg", Some "staging")) (fun _ _ s => (example_source, s)) []
    (filesystem_spec example_sha256 1000 quiet ["srv"] [] "0f" quiet_keeps example_public example_uuid))
    with (a := example_arguments) (h := example_host) (o := o) (h' := h') as [_ [[_ Hno]|(result & url & -> & Hpub)]].
  - intros n b s path s' [= _ <-]. by intros ? ? ?.
  - intros url d Hd. unfold example_host in Hd. cbn [databases] in Hd. apply lookup_singleton_Some in Hd as [_ <-].
    exact example_db_ok.
  - exact H.
  - destruct o as [| | |result]; try discriminate Hp. destruct (Hno result eq_refl).
  - exists result. injection Hp as Hp. split; [reflexivity|]. split; [exact Hp|]. exact (pfr_bytes _ _ _ _ _ _ _ _ _ Hpub).
Defined.
