(* ===== verification/Build.v ===== *)
(** * The deployment directory: scripts/build_registry.py, and its check
    against the database: web/backend/app/registry_verify_v1.py

    [build] writes the static registry into a staging directory and swaps it with
    the deployed one; every step that touches the disk can fail.  The model is
    the directory that holds the output: each name is a folder (the texts of its
    files by relative path), a link or a plain file.  A failing write leaves a
    torn file, a failing removal what is left of the folder; a process that is
    killed is one all of whose later steps fail. *)

#[local] Set Warnings "-notation-overridden".

From S2P Require Import Prelude PyText SemVer Json JsonText Validate Registry RegistryDb RegistryImport RegistryApi.

Open Scope string_scope.
Open Scope list_scope.

Abbreviation texts := (gmap string string).

Inductive node := Folder (files : texts) | Link | Plain (content : string).

#[export] Instance node_eq_dec : EqDecision node.
Proof. solve_decision. Defined.

Abbreviation names := (gmap string node).

(** The names in the output's parent, the number of steps taken, and the
    variable [backup] of the function. *)
Record disk := { entries : names; taken : nat; backup : option string }.

Inductive build_exn := Invalid (e : exn) | OSFailure.

Definition B (A : Type) : Type := disk -> res build_exn A * disk.

Definition b_ret {A} (a : A) : B A := fun s => (Ok a, s).
Definition b_bind {A C} (m : B A) (k : A -> B C) : B C := fun s =>
  match m s with (Ok a, s) => k a s | (Err e, s) => (Err e, s) end.

Declare Scope build_scope.
Delimit Scope build_scope with build.
Notation "'run' x '<-' m ';' k" := (b_bind m (fun x => k))
  (at level 10, x pattern, m at level 100, k at level 200) : build_scope.
Notation "m '>>>' k" := (b_bind m (fun _ => k)) (at level 100, k at level 200, right associativity) : build_scope.
#[local] Open Scope build_scope.

Definition pure {A} (r : res exn A) : B A := fun s =>
  (match r with Ok a => Ok a | Err e => Err (Invalid e) end, s).

Definition with_entries (f : names -> names) (s : disk) : disk :=
  {| entries := f (entries s); taken := taken s; backup := backup s |}.

Section Build.
(** Whether a step fails; the name [mkdtemp] chooses; what a failing write or
    removal leaves. *)
Context (fails : nat -> bool) (temporary : string -> names -> string).
Context (torn : nat -> string -> string) (remains : nat -> texts -> texts).

(** One step on the disk: its effect, or what a failure leaves. *)
Definition step (effect : names -> option names) (damage : names -> names) : B unit := fun s =>
  let s' := {| entries := entries s; taken := S (taken s); backup := backup s |} in
  if fails (taken s) then (Err OSFailure, with_entries damage s')
  else match effect (entries s) with
       | Some p => (Ok tt, with_entries (fun _ => p) s')
       | None => (Err OSFailure, s')
       end.

Definition unharmed (p : names) : names := p.

Definition mkdtemp (prefix : string) : B string := fun s =>
  let name := temporary prefix (entries s) in
  (step (fun p => Some (<[name := Folder ∅]> p)) unharmed >>> b_ret name) s.

(** [(folder / path).write_text(text)] *)
Definition put (path text : string) (n : node) : node :=
  match n with Folder fs => Folder (<[path := text]> fs) | n => n end.

Definition write_text (folder path text : string) : B unit := fun s =>
  step (fun p => match p !! folder with Some (Folder _) => Some (alter (put path text) folder p) | _ => None end)
       (alter (put path (torn (taken s) text)) folder) s.

(** [(folder / "modules").mkdir()]; only files are represented inside a folder. *)
Definition mkdir_inside : B unit := step Some unharmed.

Definition rmdir (name : string) : B unit :=
  step (fun p => match p !! name with Some (Folder fs) => if bool_decide (fs = ∅) then Some (delete name p) else None
                                    | _ => None end) unharmed.

(** [os.replace(src, dst)] for directories. *)
Definition replace (src dst : string) : B unit :=
  step (fun p => match p !! src, p !! dst with
                 | Some n, None => Some (<[dst := n]> (delete src p))
                 | _, _ => None
                 end) unharmed.

Definition leave (k : nat) (n : node) : node := match n with Folder fs => Folder (remains k fs) | n => n end.

Definition rmtree (name : string) : B unit := fun s =>
  step (fun p => match p !! name with Some (Folder _) => Some (delete name p) | _ => None end)
       (alter (leave (taken s)) name) s.

Definition path_exists (name : string) : B bool := fun s => (Ok (bool_decide (is_Some (entries s !! name))), s).

Definition get_backup : B (option string) := fun s => (Ok (backup s), s).
Definition set_backup (name : string) : B unit := fun s =>
  (Ok tt, {| entries := entries s; taken := taken s; backup := Some name |}).

Section Registry.
Context (schema_valid : string -> json -> bool) (modules : list module).

Definition module_path (module_id : string) : string := "modules/" +:+ module_id +:+ ".json".

Fixpoint write_modules (staging : string) (ms : list module) : B unit :=
  match ms with
  | [] => b_ret tt
  | m :: ms =>
      run c <- pure (canonical_module m);
      write_text staging (module_path (id m)) (canonical_json (JObj (module_json c))) >>>
      write_modules staging ms
  end.

(** The body of the [try]. *)
Definition replace_output (staging output : string) : B unit :=
  mkdir_inside >>>
  run index <- pure (build_index schema_valid modules);
  write_text staging "index.json" (canonical_json (index_json index)) >>>
  write_modules staging modules >>>
  run there <- path_exists output;
  (if there then
     run name <- mkdtemp ("." +:+ output +:+ ".previous.");
     set_backup name >>> rmdir name >>> replace output name
   else b_ret tt) >>>
  replace staging output >>>
  run previous <- get_backup;
  match previous with
  | Some name => run there <- path_exists name; if there : bool then rmtree name else b_ret tt
  | None => b_ret tt
  end.

(** [except Exception] *)
Definition restore (output : string) : B unit :=
  run previous <- get_backup;
  match previous with
  | Some name =>
      run there <- path_exists output;
      run kept <- path_exists name;
      if negb there && kept : bool then replace name output else b_ret tt
  | None => b_ret tt
  end.

(** [finally] *)
Definition clean (staging : string) : B unit :=
  run there <- path_exists staging; if there : bool then rmtree staging else b_ret tt.

Definition try_replace (staging output : string) : B unit := fun s =>
  match replace_output staging output s with
  | (Ok _, s) => clean staging s
  | (Err e, s) =>
      let '(r, s) := restore output s in
      let raised := match r with Ok _ => e | Err e' => e' end in
      match clean staging s with
      | (Ok _, s) => (Err raised, s)
      | (Err e'', s) => (Err e'', s)
      end
  end.

(** [output.parent.mkdir] and the rest of [build] after its checks. *)
Definition build_modules (output : string) : B unit :=
  mkdir_inside >>>
  run staging <- mkdtemp ("." +:+ output +:+ ".");
  try_replace staging output.

End Registry.

(** The checks on the output: [resolve] is the resolution of links in a path. *)
Section Guarded.
Context (schema_valid : string -> json -> bool) (resolve : list string -> list string).
Context (repository_root registry_root : list string).

Definition is_relative_to (p q : list string) : bool := bool_decide (q `prefix_of` p).

Definition unsafe (output : list string) (is_symlink : bool) : bool :=
  let resolved := resolve output in
  bool_decide (resolved ∈ [resolve []; resolve repository_root; resolve registry_root])
  || is_relative_to (resolve repository_root) resolved || is_relative_to resolved (resolve registry_root)
  || is_symlink.

(** [output] is [parent / name]; the registry is a list of typed modules, which
    is what [load_registry] gives ([validate_module_sound]). *)
Definition build (modules : res exn (list module)) (parent : list string) (name : string) : B unit := fun s =>
  (run modules <- pure modules;
   if unsafe (parent ++ [name]) (bool_decide (entries s !! name = Some Link))
   then pure (invalid "refusing unsafe output directory")
   else build_modules schema_valid modules name) s.

End Guarded.

End Build.

(** ** What is built *)

Fixpoint module_texts (ms : list module) (fs : texts) : res exn texts :=
  match ms with
  | [] => Ok fs
  | m :: ms =>
      let? c := canonical_module m in
      module_texts ms (<[module_path (id m) := canonical_json (JObj (module_json c))]> fs)
  end.

(** The static registry: the index and one file for each module. *)
Definition site (schema_valid : string -> json -> bool) (ms : list module) : res exn texts :=
  let? index := build_index schema_valid ms in
  module_texts ms {[ "index.json" := canonical_json (index_json index) ]}.

(** ** The check against the database: registry_verify_v1.py

    [dist] is the frozen directory; [repository] the snapshot of the database. *)

Record verification := {
  module_byte_parity : nat; published_versions_ : nat; verified_revision : string
}.

Inductive verify_exn := Mismatch (msg : string) | Unrepresentable (e : reg_exn) | Unreadable.

(** [{p.name for p in (dist / "modules").glob("*.json")}] *)
Definition module_files (dist : texts) : list string :=
  List.filter (fun k => startswith "modules/" k && endswith ".json" k && negb (mem_char "/" (removeprefix "modules/" k)))
    (map fst (map_to_list dist)).

Definition frozen_file (dist : texts) (path : string) (document : json) : res verify_exn unit :=
  match dist !! path with
  | Some text => raise_if (negb (String.eqb text (canonical_json document))) (Mismatch ("Byte parity failed: " +:+ path))
  | None => Err Unreadable
  end.

Definition verify (schema_valid : string -> json -> bool) (d : registry_db) (dist : texts) : res verify_exn verification :=
  raise_if (negb (bool_decide (schema_revision d = Some EXPECTED_SCHEMA_REVISION)))
    (Mismatch "Registry database schema is not ready") ;?
  let modules := project_v1 None d in
  match validate_v1_representability schema_valid modules (channel_targets None d) with
  | Err e => Err (Unrepresentable e)
  | Ok index =>
      let expected := map (fun m => module_path (id m)) modules in
      raise_if (negb (forallb (fun k => mem k expected) (module_files dist) && forallb (fun k => mem k (module_files dist)) expected))
        (Mismatch "Module file set differs from DB projection") ;?
      frozen_file dist "index.json" (index_json index) ;?
      each (fun m => frozen_file dist (module_path (id m)) (JObj (module_json m))) modules ;?
      Ok {| module_byte_parity := length modules;
            published_versions_ := list_sum (map (fun m => length (versions m)) modules);
            verified_revision := EXPECTED_SCHEMA_REVISION |}
  end.

(** ** Facts *)

(** From [P] the computation ends in [Q] or raises in [R]. *)
Definition triple {A} (P : disk -> Prop) (m : B A) (Q : A -> disk -> Prop) (R : disk -> Prop) : Prop :=
  forall s r s', P s -> m s = (r, s') -> match r with Ok a => Q a s' | Err _ => R s' end.

Lemma triple_bind {A C} P (m : B A) (k : A -> B C) Q Q' R :
  triple P m Q R -> (forall a, triple (Q a) (k a) Q' R) -> triple P (b_bind m k) Q' R.
Proof.
  intros Hm Hk s r s' HP. unfold b_bind. destruct (m s) as [[a|e] s1] eqn:H1; apply Hm in H1; try done.
  - intros H. by apply Hk in H.
  - by intros [= <- <-].
Qed.

Lemma triple_ret {A} (P : disk -> Prop) (Q : A -> disk -> Prop) R a : (forall s, P s -> Q a s) -> triple P (b_ret a) Q R.
Proof. intros H s r s' HP [= <- <-]. by apply H. Qed.

Lemma triple_pure {A} (P : disk -> Prop) R (x : res exn A) :
  (forall s, P s -> R s) -> triple P (pure x) (fun a s => x = Ok a /\ P s) R.
Proof. intros H s r s' HP [= <- <-]. destruct x; [done | by apply H]. Qed.

Lemma triple_assume {A} (H : Prop) P (m : B A) Q R : (H -> triple P m Q R) -> triple (fun s => H /\ P s) m Q R.
Proof. intros Hm s r s' [HH HP]. by apply Hm. Qed.

Lemma triple_weaken {A} (P P' : disk -> Prop) (m : B A) Q Q' (R R' : disk -> Prop) :
  triple P m Q R -> (forall s, P' s -> P s) -> (forall a s, Q a s -> Q' a s) -> (forall s, R s -> R' s) -> triple P' m Q' R'.
Proof. intros H HP HQ HR s r s' Hs Hm. specialize (H s r s' (HP _ Hs) Hm). destruct r; auto. Qed.

Section Facts.
Context (fails : nat -> bool) (temporary : string -> names -> string).
Context (torn : nat -> string -> string) (remains : nat -> texts -> texts).

Lemma step_cases effect damage s r s' :
  step fails effect damage s = (r, s') ->
  backup s' = backup s /\ taken s' = S (taken s) /\
  ((r = Ok tt /\ effect (entries s) = Some (entries s')) \/
   (exists e, r = Err e /\ ((fails (taken s) = true /\ entries s' = damage (entries s)) \/
                            (effect (entries s) = None /\ entries s' = entries s)))).
Proof.
  unfold step. destruct (fails (taken s)) eqn:Hf.
  - intros [= <- <-]. split; [done|]. split; [done|]. right. eexists. split; [done|]. by left.
  - destruct (effect (entries s)) as [p|] eqn:He; intros [= <- <-]; (split; [done|]; split; [done|]).
    + left. by split.
    + right. eexists. split; [done|]. by right.
Qed.

Lemma triple_step (P : disk -> Prop) (Q : unit -> disk -> Prop) R effect damage :
  (forall s s', P s -> backup s' = backup s -> taken s' = S (taken s) ->
     (effect (entries s) = Some (entries s') -> Q tt s') /\
     (fails (taken s) = true -> entries s' = damage (entries s) -> R s') /\
     (effect (entries s) = None -> entries s' = entries s -> R s')) ->
  triple P (step fails effect damage) Q R.
Proof.
  intros H s r s' HP Hs. apply step_cases in Hs as (Hb & Ht & [[-> He]|(e & -> & [[Hf Hd]|[He Hd]])]);
    destruct (H s s' HP Hb Ht) as (H1 & H2 & H3); auto.
Qed.

Lemma put_staging path x st fs (p : names) :
  alter (put path x) st (<[st := Folder fs]> p) = <[st := Folder (<[path := x]> fs)]> p.
Proof.
  apply map_eq. intros n. destruct (decide (n = st)) as [->|Hn].
  - by rewrite lookup_alter_eq, !lookup_insert_eq.
  - by rewrite lookup_alter_ne, !lookup_insert_ne.
Qed.

Section Replace.
Context (schema_valid : string -> json -> bool) (modules : list module).
Context (p0 : names) (output staging : string).
Hypothesis staging_new : p0 !! staging = None.
Hypothesis staging_output : staging <> output.

(** The staging directory, while it is written. *)
Definition writing (fs : texts) (s : disk) : Prop := entries s = <[staging := Folder fs]> p0 /\ backup s = None.
Definition written (s : disk) : Prop := exists fs, writing fs s.

Lemma triple_write fs path text :
  triple (writing fs) (write_text fails torn staging path text) (fun _ => writing (<[path := text]> fs)) written.
Proof.
  intros s r s' [He Hb]. unfold write_text. intros H. apply step_cases in H as (Hb' & _ & Hs).
  rewrite He, lookup_insert_eq, put_staging in Hs. rewrite <- Hb' in Hb.
  destruct Hs as [[-> [= Hs]]|(e & -> & [[_ Hs]|[Hs _]])]; [by split| |done].
  rewrite put_staging in Hs. eexists. by split.
Qed.

Lemma triple_write_modules ms fs :
  triple (writing fs) (write_modules fails torn staging ms) (fun _ s => exists fs', module_texts ms fs = Ok fs' /\ writing fs' s) written.
Proof.
  revert fs. induction ms as [|m ms IH]; intros fs; simpl.
  - apply triple_ret. intros s Hs. by exists fs.
  - eapply triple_bind; [apply (triple_pure (writing fs)); intros s Hs; by exists fs|]. intros c.
    apply triple_assume. intros Hc. rewrite Hc. cbn [res_bind].
    eapply triple_bind; [apply triple_write|]. intros ?. apply IH.
Qed.

(** *** The swap *)

Hypothesis temporary_new : forall prefix p, p !! temporary prefix p = None.
Hypothesis temporary_prefix : forall prefix p, startswith prefix (temporary prefix p) = true.

Definition others (s : disk) : Prop := forall n, n <> output -> is_Some (p0 !! n) -> entries s !! n = p0 !! n.

(** The three ways a failed replacement leaves the disk: the old output in
    place, the new one in place, or the old one under the name of the backup,
    after a failing step. *)
Definition old_kept (s : disk) : Prop :=
  others s /\ entries s !! output = p0 !! output /\ (backup s = None \/ is_Some (p0 !! output)).

Definition moved_away (s : disk) : Prop :=
  others s /\ entries s !! output = None /\
  exists b n, backup s = Some b /\ p0 !! b = None /\ b <> staging /\ b <> output /\ p0 !! output = Some n /\
    entries s !! b = Some n /\ exists k, (k < taken s)%nat /\ fails k = true.

Definition new_placed (s : disk) : Prop :=
  others s /\ exists fs, site schema_valid modules = Ok fs /\ entries s !! output = Some (Folder fs).

Definition broken (s : disk) : Prop := old_kept s \/ moved_away s \/ new_placed s.

Definition replaced (s : disk) : Prop := exists fs, site schema_valid modules = Ok fs /\ entries s = <[output := Folder fs]> p0.

Lemma staging_others fs n : is_Some (p0 !! n) -> (<[staging := Folder fs]> p0 : names) !! n = p0 !! n.
Proof. intros [x Hx]. rewrite lookup_insert_ne; [done|]. intros ->. congruence. Qed.

Lemma staging_out fs : (<[staging := Folder fs]> p0 : names) !! output = p0 !! output.
Proof. by rewrite lookup_insert_ne. Qed.

Lemma written_broken s : written s -> broken s.
Proof.
  intros (fs & He & Hb). left. split; [|split; [|by left]].
  - intros n _ Hn. rewrite He. by apply staging_others.
  - rewrite He. apply staging_out.
Qed.

(** The directory with the complete staging directory, and the backup name. *)
Definition staged (fs : texts) (bk : option string) (s : disk) : Prop :=
  site schema_valid modules = Ok fs /\ entries s = <[staging := Folder fs]> p0 /\ backup s = bk.

Definition fresh_name (b : string) : Prop := p0 !! b = None /\ b <> staging /\ b <> output.

Definition moved (fs : texts) (b : string) (n : node) (s : disk) : Prop :=
  site schema_valid modules = Ok fs /\ p0 !! output = Some n /\ fresh_name b /\ backup s = Some b /\
  entries s = <[b := n]> (delete output (<[staging := Folder fs]> p0)).

Lemma staged_broken fs bk s : staged fs bk s -> bk = None \/ is_Some (p0 !! output) -> broken s.
Proof.
  intros (_ & He & Hb) Hbk. left. split; [|split; [|by rewrite Hb]].
  - intros n _ Hn. rewrite He. by apply staging_others.
  - rewrite He. apply staging_out.
Qed.

Lemma longer_prefix x : (String.length output < String.length ("." +:+ output +:+ x))%nat.
Proof.
  rewrite !slength_app. simpl. lia.
Qed.

Lemma temporary_output prefix p : (String.length output < String.length prefix)%nat -> temporary prefix p <> output.
Proof.
  intros Hl He. assert (Hp := temporary_prefix prefix p). apply removeprefix_length in Hp. rewrite He in Hp. lia.
Qed.

(** The backup of an existing output. *)
Lemma triple_backup fs n :
  p0 !! output = Some n ->
  triple (staged fs None)
    (run name <- mkdtemp fails temporary ("." +:+ output +:+ ".previous.");
     set_backup name >>> rmdir fails name >>> replace fails output name)
    (fun _ s => exists b, moved fs b n s) broken.
Proof.
  intros Hn. assert (Hn' : is_Some (p0 !! output)) by by exists n.
  apply (triple_bind _ _ _ (fun b s => fresh_name b /\ site schema_valid modules = Ok fs /\ backup s = None /\
    entries s = <[b := Folder ∅]> (<[staging := Folder fs]> p0))).
  { intros s r s' Hs. unfold mkdtemp. set (b := temporary _ _). unfold b_bind, b_ret.
    destruct (step _ _ _ s) as [[u|e] s1] eqn:H1; intros [= <- <-]; apply step_cases in H1 as (Hb & _ & Hc);
      destruct Hs as (Hsite & He & Hbk).
    - destruct Hc as [[_ [= Hc]]|(? & ? & _)]; [|done]. rewrite <- Hc, He, Hb. split_and!; try done.
      assert (Hnew : entries s !! b = None) by apply temporary_new. rewrite He in Hnew.
      assert (b <> staging) by (intros Hbs; rewrite Hbs, lookup_insert_eq in Hnew; done).
      rewrite lookup_insert_ne in Hnew by done. split_and!; [done | done |].
      apply temporary_output, longer_prefix.
    - destruct Hc as [[? _]|(? & _ & [[_ Hc]|[? _]])]; [done| |done]. eapply (staged_broken fs None); [|by left].
      split; [done|]. unfold unharmed in Hc. by rewrite Hc, Hb. }
  intros b. apply triple_assume. intros (Hb1 & Hb2 & Hb3). apply triple_assume. intros Hsite.
  apply (triple_bind _ _ _ (fun _ s => backup s = Some b /\ entries s = <[b := Folder ∅]> (<[staging := Folder fs]> p0))).
  { intros s r s' (Hbk & He) [= <- <-]. done. }
  intros ?. apply (triple_bind _ _ _ (fun _ => staged fs (Some b))).
  - apply triple_step. intros s s' (Hbk & He) Hb _. rewrite He, lookup_insert_eq, bool_decide_true by done.
    rewrite delete_insert_id by by rewrite lookup_insert_ne. split_and!.
    + intros [= Hs]. split_and!; congruence.
    + intros _ Hs. left. split; [|split; [|by right]].
      * intros m Hm Hin. rewrite Hs. unfold unharmed. rewrite lookup_insert_ne; [by apply staging_others|].
        intros ->. destruct Hin; congruence.
      * rewrite Hs. unfold unharmed. rewrite lookup_insert_ne by done. apply staging_out.
    + done.
  - intros ?. apply triple_step. intros s s' Hst Hb _. assert (Hst' := Hst). destruct Hst' as (_ & He & Hbk). rewrite He.
    rewrite staging_out, Hn, lookup_insert_ne, Hb1 by done. split_and!.
    + intros [= Hs]. exists b. split_and!; try done. congruence.
    + intros _ Hs. eapply (staged_broken fs (Some b)); [|by right]. unfold unharmed in Hs. split_and!; congruence.
    + done.
Qed.

(** The new output in place, with what was there before under the backup name. *)
Definition switched (fs : texts) (bk : option (string * node)) (s : disk) : Prop :=
  site schema_valid modules = Ok fs /\ backup s = option_map fst bk /\
  entries s = match bk with
              | Some (b, n) => <[b := n]> (<[output := Folder fs]> p0)
              | None => <[output := Folder fs]> p0
              end /\
  match bk with Some (b, _) => fresh_name b | None => True end.

Lemma switched_placed fs bk s : switched fs bk s -> new_placed s.
Proof.
  intros (Hs & _ & He & Hb). split; [|exists fs; split; [done|]].
  - intros n Hn [x Hx]. rewrite He. destruct bk as [[b y]|].
    + destruct Hb as (Hb & _). rewrite lookup_insert_ne by (intros ->; congruence). by rewrite lookup_insert_ne.
    + by rewrite lookup_insert_ne.
  - rewrite He. destruct bk as [[b y]|].
    + destruct Hb as (_ & _ & Hb). rewrite lookup_insert_ne by done. by rewrite lookup_insert_eq.
    + by rewrite lookup_insert_eq.
Qed.

Lemma triple_switch fs bk :
  match bk with None => p0 !! output = None | Some _ => True end ->
  triple (match bk with None => staged fs None | Some (b, n) => moved fs b n end)
    (replace fails staging output) (fun _ => switched fs bk) broken.
Proof.
  intros Hnone. unfold replace. destruct bk as [[b n]|]; apply triple_step.
  - intros s s' (Hsite & Hn & (Hb1 & Hb2 & Hb3) & Hbk & He) Hb Ht. rewrite He.
    rewrite lookup_insert_ne, lookup_delete_ne, lookup_insert_eq by done.
    rewrite lookup_insert_ne, lookup_delete_eq by done. split_and!.
    + intros [= Hs]. split; [done|]. split; [simpl; congruence|]. split; [|done]. rewrite <- Hs. apply map_eq. intros m.
      destruct (decide (m = b)) as [->|]; [by rewrite lookup_insert_ne, lookup_delete_ne, !lookup_insert_eq by done|].
      destruct (decide (m = output)) as [->|]; [by rewrite lookup_insert_eq, lookup_insert_ne, lookup_insert_eq|].
      rewrite lookup_insert_ne by done. rewrite (lookup_insert_ne _ b), (lookup_insert_ne _ output) by done.
      destruct (decide (m = staging)) as [->|]; [by rewrite lookup_delete_eq|].
      by rewrite lookup_delete_ne, lookup_insert_ne, lookup_delete_ne, lookup_insert_ne by done.
    + intros Hf Hs. right; left. unfold unharmed in Hs. split; [|split].
      * intros m Hm Hin. rewrite Hs. rewrite lookup_insert_ne by (intros ->; destruct Hin; congruence).
        rewrite lookup_delete_ne by done. by apply staging_others.
      * rewrite Hs. by rewrite lookup_insert_ne, lookup_delete_eq.
      * exists b, n. rewrite Hs, lookup_insert_eq. split_and!; try done; [congruence|]. exists (taken s). split; [lia | done].
    + done.
  - intros s s' Hst Hb Ht. assert (Hst' := Hst). destruct Hst' as (Hsite & He & Hbk). rewrite He, lookup_insert_eq, staging_out, Hnone.
    split_and!.
    + intros [= Hs]. split; [done|]. split; [simpl; congruence|]. split; [|done]. rewrite <- Hs. by rewrite delete_insert_id.
    + intros _ Hs. eapply (staged_broken fs None); [|by left]. unfold unharmed in Hs. split_and!; congruence.
    + done.
Qed.

(** The removal of the backup. *)
Lemma triple_forget fs bk :
  triple (switched fs bk)
    (run previous <- get_backup;
     match previous with
     | Some name => run there <- path_exists name; if there : bool then rmtree fails remains name else b_ret tt
     | None => b_ret tt
     end) (fun _ => replaced) broken.
Proof.
  intros s r s' Hsw. assert (Hpl := switched_placed _ _ _ Hsw). destruct Hsw as (Hsite & Hbk & He & Hb).
  unfold b_bind at 1, get_backup. rewrite Hbk. destruct bk as [[b n]|]; cbn [option_map fst] in *.
  - unfold b_bind, path_exists. rewrite He, lookup_insert_eq. rewrite bool_decide_true by by exists n.
    intros H. apply step_cases in H as (_ & _ & H). rewrite He, lookup_insert_eq in H.
    destruct Hb as (Hb1 & Hb2 & Hb3). destruct H as [[-> H]|(e & -> & H)].
    + destruct n; try done. injection H as H. exists fs. split; [done|]. rewrite <- H. apply delete_insert_id.
      by rewrite lookup_insert_ne.
    + right; right. destruct H as [[_ H]|[_ H]].
      * split; [|exists fs; split; [done|]].
        -- intros m Hm Hin. assert (m <> b) by (intros ->; destruct Hin; congruence).
           rewrite H, lookup_alter_ne, lookup_insert_ne, lookup_insert_ne by done. done.
        -- by rewrite H, lookup_alter_ne, lookup_insert_ne, lookup_insert_eq by done.
      * destruct Hpl as [Ho Hp]. split; [|destruct Hp as (fs' & Hf & Hp); exists fs'; split; [done|]].
        -- intros m Hm Hin. rewrite H, <- He. by apply Ho.
        -- by rewrite H, <- He.
  - intros [= <- <-]. by exists fs.
Qed.

Lemma triple_replace_output :
  triple (fun s => entries s = <[staging := Folder ∅]> p0 /\ backup s = None)
    (replace_output fails temporary torn remains schema_valid modules staging output) (fun _ => replaced) broken.
Proof.
  unfold replace_output. apply (triple_bind _ _ _ (fun _ => writing ∅)).
  { apply triple_step. intros s s' [He Hbk] Hb _. split_and!; [| |done].
    - intros [= Hs]. split; congruence.
    - intros _ Hs. apply written_broken. exists ∅. unfold unharmed in Hs. split; congruence. }
  intros ?. eapply triple_bind; [apply (triple_pure (writing ∅)); intros s Hs; apply written_broken; by exists ∅|].
  intros index. apply triple_assume. intros Hi.
  eapply triple_bind; [eapply triple_weaken; [apply triple_write | done | intros ? ? H; exact H | apply written_broken]|].
  intros ?. rewrite insert_empty.
  eapply triple_bind; [eapply triple_weaken; [apply triple_write_modules | done | intros ? ? H; exact H | apply written_broken]|].
  intros ?. cbv beta.
  apply (triple_bind _ _ _ (fun there s => there = bool_decide (is_Some (p0 !! output)) /\ exists fs, staged fs None s)).
  { intros s r s' (fs & Hfs & He & Hbk) [= <- <-]. rewrite He, staging_out. split; [done|]. exists fs. split; [|done].
    unfold site. by rewrite Hi. }
  intros there. apply triple_assume. intros ->.
  apply (triple_bind _ _ _ (fun _ s => exists fs bk, match bk with None => p0 !! output = None | Some _ => True end /\
    (match bk with None => staged fs None | Some (b, n) => moved fs b n end) s)).
  { intros s r s' (fs & Hst). destruct (p0 !! output) as [n|] eqn:Hn.
    - rewrite bool_decide_true by by exists n. intros H. assert (H' := triple_backup fs n Hn s r s' Hst H).
      destruct r; [|done]. destruct H' as [b Hm]. by exists fs, (Some (b, n)).
    - rewrite bool_decide_false by (intros [x Hx]; congruence). intros [= <- <-]. by exists fs, None. }
  intros ?. apply (triple_bind _ _ _ (fun _ s => exists fs bk, switched fs bk s)).
  - intros s r s' (fs & bk & Hnone & Hst) H. assert (H' := triple_switch fs bk Hnone s r s' Hst H). destruct r; [|done].
    by exists fs, bk.
  - intros ? s r s' (fs & bk & Hsw) H. exact (triple_forget fs bk s r s' Hsw H).
Qed.

(** What a failed build leaves under the name of the output. *)
Definition settled (s : disk) : Prop :=
  others s /\
  (entries s !! output = p0 !! output \/
   (exists fs, site schema_valid modules = Ok fs /\ entries s !! output = Some (Folder fs)) \/
   (entries s !! output = None /\
    exists b, p0 !! b = None /\ b <> staging /\ b <> output /\ entries s !! b = p0 !! output /\
      exists i j, (i < j)%nat /\ fails i = true /\ fails j = true)).

Lemma restore_settles s r s' : broken s -> restore fails output s = (r, s') -> settled s'.
Proof.
  intros Hbr. unfold restore, b_bind at 1, get_backup. destruct (backup s) as [name|] eqn:Hbk.
  2: { intros [= _ <-]. destruct Hbr as [(Ho & He & _)|[(_ & _ & b & n & Hb & _)|(Ho & Hfs)]]; [|congruence|].
       - split; [done|]. by left.
       - split; [done|]. right; by left. }
  unfold b_bind at 1, path_exists. unfold b_bind at 1.
  destruct Hbr as [(Ho & He & Hex)|[(Ho & He & b & n & Hb & Hb1 & Hb2 & Hb3 & Hn & Heb & k & Hk & Hf)|(Ho & fs & Hfs & He)]].
  - destruct Hex as [|Hex]; [congruence|]. rewrite He, (bool_decide_true _ Hex). cbn [negb andb]. intros [= _ <-].
    split; [done|]. by left.
  - assert (name = b) as -> by congruence. rewrite He, Heb, (bool_decide_false (is_Some None)) by by intros [? ?].
    rewrite bool_decide_true by by exists n. cbn [negb andb]. intros H. apply step_cases in H as (_ & _ & H).
    rewrite Heb, He in H. destruct H as [[_ [= H]]|(e & _ & [[Hf' H]|[H _]])]; [| |done].
    + split.
      * intros m Hm Hin. rewrite <- H, lookup_insert_ne by done. rewrite lookup_delete_ne by (intros ->; destruct Hin; congruence).
        by apply Ho.
      * left. by rewrite <- H, lookup_insert_eq.
    + unfold unharmed in H. split; [intros m Hm Hin; rewrite H; by apply Ho|]. right; right. rewrite H. split; [done|].
      exists b. split_and!; try done; [congruence|]. by exists k, (taken s).
  - rewrite He, bool_decide_true by by exists (Folder fs). cbn [negb andb]. intros [= _ <-]. split; [done|]. right; left. by exists fs.
Qed.

Lemma clean_settles s r s' : settled s -> clean fails remains staging s = (r, s') -> settled s'.
Proof.
  unfold clean, b_bind at 1, path_exists. case_bool_decide; [|by intros ? [= _ <-]].
  intros [Ho Hs] Hc. apply step_cases in Hc as (_ & _ & Hc).
  assert (Hsame : forall m, m <> staging -> entries s' !! m = entries s !! m).
  { intros m Hm. destruct Hc as [[_ Hc]|(e & _ & [[_ Hc]|[_ ->]])]; [| |done].
    - destruct (entries s !! staging) as [[]|]; try done. injection Hc as <-. by rewrite lookup_delete_ne.
    - by rewrite Hc, lookup_alter_ne. }
  split.
  - intros m Hm Hin. rewrite Hsame; [by apply Ho|]. intros ->. destruct Hin; congruence.
  - rewrite Hsame by done. destruct Hs as [Hs|[Hs|(Hs & b & Hb1 & Hb2 & Hb3 & Hb4 & Hij)]]; [by left | by right; left |].
    right; right. split; [done|]. exists b. by rewrite Hsame.
Qed.

Lemma try_replace_Ok s r s' :
  entries s = <[staging := Folder ∅]> p0 -> backup s = None ->
  try_replace fails temporary torn remains schema_valid modules staging output s = (r, s') ->
  match r with Ok _ => replaced s' | Err _ => settled s' end.
Proof.
  intros He Hbk. unfold try_replace. destruct (replace_output _ _ _ _ _ _ _ _ s) as [r1 s1] eqn:H1.
  apply triple_replace_output in H1; [|by split]. destruct r1 as [u|e].
  - destruct H1 as (fs & Hfs & H1). unfold clean, b_bind, path_exists. rewrite H1, lookup_insert_ne, staging_new by done.
    rewrite bool_decide_false by by intros [? ?]. intros [= <- <-]. by exists fs.
  - destruct (restore _ _ s1) as [r2 s2] eqn:H2. apply restore_settles in H2; [|done].
    destruct (clean _ _ _ s2) as [r3 s3] eqn:H3. apply clean_settles in H3; [|done].
    destruct r3; intros [= <- <-]; done.
Qed.

End Replace.

End Facts.

(** ** Properties *)

Lemma frozen_Ok dist path document u : frozen_file dist path document = Ok u -> dist !! path = Some (canonical_json document).
Proof.
  unfold frozen_file. destruct (dist !! path) as [text|]; [|done]. intros H%raise_if_Ok.
  by apply negb_false_iff, String.eqb_eq in H as ->.
Qed.

Lemma verify_Ok schema_valid d dist v :
  verify schema_valid d dist = Ok v ->
  schema_revision d = Some EXPECTED_SCHEMA_REVISION /\
  (exists index, validate_v1_representability schema_valid (project_v1 None d) (channel_targets None d) = Ok index /\
     dist !! "index.json" = Some (canonical_json (index_json index))) /\
  (forall m, m ∈ project_v1 None d -> dist !! module_path (id m) = Some (canonical_json (JObj (module_json m)))) /\
  (forall k, k ∈ module_files dist <-> k ∈ map (fun m => module_path (id m)) (project_v1 None d)).
Proof.
  unfold verify. intros H. apply res_bind_Ok in H as ([] & Hs%raise_if_Ok & H).
  apply negb_false_iff, bool_decide_eq_true_1 in Hs.
  destruct (validate_v1_representability _ _ _) as [index|] eqn:Hi; [|done].
  apply res_bind_Ok in H as ([] & Hf%raise_if_Ok & H). apply negb_false_iff, andb_true_iff in Hf as [Hf1 Hf2].
  apply res_bind_Ok in H as ([] & Hx%frozen_Ok & H). apply res_bind_Ok in H as ([] & Hm & H).
  apply each_Ok in Hm. rewrite Forall_forall in Hm. split; [done|]. split; [by exists index|]. split.
  - intros m Hin. by apply frozen_Ok with (u := tt), Hm.
  - apply forallb_Forall in Hf1, Hf2. rewrite Forall_forall in Hf1, Hf2. intros k. split; intros Hk.
    + by apply (mem_true k), Hf1.
    + by apply (mem_true k), Hf2.
Qed.

Section Atomic.
Context (fails : nat -> bool) (temporary : string -> names -> string).
Context (torn : nat -> string -> string) (remains : nat -> texts -> texts).
Context (schema_valid : string -> json -> bool) (resolve : list string -> list string).
Context (repository_root registry_root : list string).

(** [mkdtemp] chooses a name that is not in use and begins with the prefix. *)
Hypothesis temporary_new : forall prefix p, p !! temporary prefix p = None.
Hypothesis temporary_prefix : forall prefix p, startswith prefix (temporary prefix p) = true.

(** C10. The deployed directory is replaced as a whole.  Whichever steps fail,
    every other name in the directory keeps what it had, and the output is the
    complete old one or the complete new one; only when two steps fail, the swap
    and the restoring of the backup, is there no output, and then the old one is
    whole under the name of the backup.  A build that returns has put exactly the
    static registry in place and left nothing else behind; an output that is
    unsafe, or a registry that does not load, changes nothing. *)
Theorem build_replaces_whole modules parent output s r s' :
  backup s = None ->
  build fails temporary torn remains schema_valid resolve repository_root registry_root modules parent output s = (r, s') ->
  (forall n, n <> output -> is_Some (entries s !! n) -> entries s' !! n = entries s !! n) /\
  match r with
  | Ok _ => exists ms fs, modules = Ok ms /\ site schema_valid ms = Ok fs /\ entries s' = <[output := Folder fs]> (entries s) /\
              unsafe resolve repository_root registry_root (parent ++ [output]) (bool_decide (entries s !! output = Some Link)) = false
  | Err _ =>
      entries s' !! output = entries s !! output \/
      (exists ms fs, modules = Ok ms /\ site schema_valid ms = Ok fs /\ entries s' !! output = Some (Folder fs)) \/
      (entries s' !! output = None /\ exists b, entries s !! b = None /\ entries s' !! b = entries s !! output /\
         exists i j, (i < j)%nat /\ fails i = true /\ fails j = true)
  end.
Proof.
  intros Hbk. unfold build. unfold b_bind at 1, pure at 1. destruct modules as [ms|e]; [|intros [= <- <-]; auto].
  destruct (unsafe _ _ _ _ _) eqn:Hu; [intros [= <- <-]; auto|]. unfold build_modules, b_bind at 1.
  destruct (mkdir_inside _ s) as [[u|e] s1] eqn:H1; apply step_cases in H1 as (Hb1 & _ & H1);
    assert (He1 : entries s1 = entries s) by (destruct H1 as [[_ [= H1]]|(e' & _ & [[_ H1]|[_ H1]])]; done).
  2: { intros [= <- <-]. rewrite He1. auto. }
  unfold b_bind at 1, mkdtemp. set (staging := temporary ("." +:+ output +:+ ".") (entries s1)). unfold b_bind at 1, b_ret.
  destruct (step _ _ _ s1) as [[v|e] s2] eqn:H2; apply step_cases in H2 as (Hb2 & _ & H2).
  2: { intros [= <- <-]. assert (He2 : entries s2 = entries s).
       { destruct H2 as [[? _]|(e' & _ & [[_ H2]|[? _]])]; [done| |done]. by rewrite <- He1. }
       rewrite He2. auto. }
  destruct H2 as [[_ [= H2]]|(e' & ? & _)]; [|done]. intros H.
  assert (Hnew : entries s !! staging = None) by (unfold staging; rewrite <- He1; apply temporary_new).
  assert (Hne : staging <> output) by (apply (temporary_output temporary output temporary_prefix), longer_prefix).
  rewrite He1 in H2. apply (try_replace_Ok fails temporary torn remains schema_valid ms (entries s) output staging) in H;
    [|done|done|done|done|done|congruence].
  destruct r as [w|e].
  - destruct H as (fs & Hfs & He). split; [intros n Hn _; by rewrite He, lookup_insert_ne|]. by exists ms, fs.
  - destruct H as [Ho Hs]. split; [exact Ho|]. destruct Hs as [Hs|[(fs & Hs)|(Hs & b & Hb & _ & _ & Hb4 & Hij)]]; [by left | |].
    + right; left. by exists ms, fs.
    + right; right. split; [done|]. by exists b.
Qed.

End Atomic.

Lemma project_one d i m : m ∈ project_v1 (Some i) d -> m ∈ project_v1 None d /\ id m = i.
Proof.
  unfold project_v1. rewrite !list_elem_of_fmap. intros ([r p] & -> & Hin). rewrite sort_by_elem in Hin.
  unfold module_candidates in *. rewrite sort_by_elem in Hin. apply list_elem_of_omap in Hin as (r' & Hr & Hp).
  apply list_elem_of_In, filter_In in Hr as [Hr Hf]. apply andb_true_iff in Hf as [Hpub Hid%String.eqb_eq].
  assert (r' = r) as -> by (destruct (publisher_of d r'); [by injection Hp | done]). split; [|done].
  exists (r, p). split; [done|]. rewrite !sort_by_elem. apply list_elem_of_omap. exists r. split; [|done].
  apply list_elem_of_In, filter_In. split; [done|]. by rewrite Hpub.
Qed.

(** *** One published module *)

Lemma targets_one d i : channel_targets (Some [i]) d !! i = channel_targets None d !! i.
Proof.
  unfold channel_targets.
  assert (H : forall l t t', t !! i = t' !! i ->
     foldl (add_target d) t (List.filter (fun c => mem (c_module_id c) [i]) l) !! i
     = foldl (add_target d) t' (List.filter (fun _ => true) l) !! i); [|by apply H].
  induction l as [|c l IH]; intros t t' Ht; [done|]. simpl.
  destruct (mem (c_module_id c) [i]) eqn:Hc; simpl; apply IH; [by apply add_target_lookup|].
  rewrite add_target_other; [done|]. intros <-. unfold mem in Hc. by rewrite bool_decide_true in Hc by (by left).
Qed.

Lemma targets_only d i j : j <> i -> channel_targets (Some [i]) d !! j = None.
Proof.
  intros Hj. unfold channel_targets.
  assert (H : forall l t, t !! j = None -> foldl (add_target d) t (List.filter (fun c => mem (c_module_id c) [i]) l) !! j = None);
    [|by apply H].
  induction l as [|c l IH]; intros t Ht; [done|]. simpl. destruct (mem (c_module_id c) [i]) eqn:Hc; simpl; apply IH; [|done].
  apply mem_true, list_elem_of_singleton in Hc. by rewrite add_target_other by congruence.
Qed.

Lemma targets_singleton d i x : channel_targets None d !! i = Some x -> channel_targets (Some [i]) d = {[i := x]}.
Proof.
  intros H. apply map_eq. intros j. destruct (decide (j = i)) as [->|Hj].
  - by rewrite targets_one, H, lookup_singleton_eq.
  - by rewrite targets_only, lookup_singleton_ne.
Qed.

(** The published modules have the identifiers of their rows, each once. *)
Lemma project_ids d i : map id (project_v1 i d) = map (fun mp => m_id (fst mp)) (sort_by by_row_id (module_candidates i d)).
Proof. unfold project_v1. rewrite map_map. done. Qed.

Lemma candidates_NoDup d i : NoDup (map m_id (modules d)) -> NoDup (map (fun mp => m_id (fst mp)) (module_candidates i d)).
Proof.
  unfold module_candidates. intros H. rewrite sort_by_perm.
  generalize (fun m => has_published d m && match i with Some i => String.eqb (m_id m) i | None => true end). intros p.
  assert (NoDup (map m_id (List.filter p (modules d)))) as Hf by (by apply NoDup_map_filter).
  revert Hf. generalize (List.filter p (modules d)). clear H. induction l as [|m l IH]; [constructor|].
  cbn [map]. rewrite NoDup_cons. intros [Hm Hl]. simpl. destruct (publisher_of d m) as [q|]; cbn; [|by apply IH].
  rewrite NoDup_cons. split; [|by apply IH]. intros Hin. apply Hm.
  apply list_elem_of_fmap in Hin as ([m' q'] & -> & Hin). apply list_elem_of_omap in Hin as (m2 & Hm2 & H2).
  destruct (publisher_of d m2); [|done]. injection H2 as -> ->. by apply list_elem_of_fmap_2.
Qed.

Lemma project_NoDup d i : NoDup (map m_id (modules d)) -> NoDup (map id (project_v1 i d)).
Proof. intros H. rewrite project_ids. rewrite sort_by_perm. by apply candidates_NoDup. Qed.

Lemma service_Ok {A} (k : registry_db -> res api_exn A) d a : compatibility_service k d = Ok a -> k d = Ok a.
Proof.
  unfold compatibility_service. destruct (bool_decide _); [|done]. by destruct (k d) as [?|[?|? ?| |[]|[?|[]| | | |]]].
Qed.

Lemma compatibility_module_Ok schema_valid i d m :
  compatibility_module schema_valid i d = Ok m -> m ∈ project_v1 (Some i) d.
Proof.
  unfold compatibility_module. intros H. apply res_bind_Ok in H as (x & _ & H). clear x.
  destruct (project_v1 (Some i) d) as [|m' ms]; [done|]. apply res_bind_Ok in H as (x & _ & H). injection H as <-. by left.
Qed.

(** Without validators the response carries the canonical text. *)
Lemma plain_body hexdigest value negotiated : body (metadata hexdigest None value negotiated) = Some (canonical_json value).
Proof. reflexivity. Qed.

Section Served.
Context (schema_valid : string -> json -> bool).
(** The schema of the index speaks of each of its modules alone ([items]). *)
Hypothesis schema_items : forall x xs, x ∈ xs ->
  schema_valid "registry-v1.schema.json" (index_json xs) = true -> schema_valid "registry-v1.schema.json" (index_json [x]) = true.

Lemma representable_one ms current index m : NoDup (map id ms) -> m ∈ ms ->
  validate_v1_representability schema_valid ms current = Ok index ->
  validate_module schema_valid (module_json m) "Registry v1 DB projection" None = Ok tt /\
  exists x, x ∈ index /\ entry_id x = id m /\ current !! id m = Some (list_to_map (entry_channels x)) /\
    build_index schema_valid [m] = Ok [x].
Proof.
  unfold validate_v1_representability. intros Hnd Hm H.
  apply res_bind_Ok in H as ([] & Hv & H). apply res_bind_Ok in H as (index' & Hi & H). apply res_bind_Ok in H as ([] & Ht & [= ->]).
  apply raise_if_Ok, negb_false_iff, bool_decide_eq_true_1 in Ht.
  assert (each (fun m => validate_module schema_valid (module_json m) "Registry v1 DB projection" None) ms = Ok tt) as Hv'
    by (by destruct (each _ ms) as [[]|]).
  apply each_Ok in Hv'. rewrite Forall_forall in Hv'. split; [by apply Hv'|].
  assert (build_index schema_valid ms = Ok index) as Hb by (destruct (build_index schema_valid ms); [by injection Hi as -> | done]).
  unfold build_index in Hb. apply res_bind_Ok in Hb as (es & He & Hb). apply res_bind_Ok in Hb as ([] & Hs & [= ->]).
  apply traverse_Ok in He.
  assert (m ∈ sort_by by_id ms) as Hin by by rewrite sort_by_elem.
  destruct (Forall2_in_l _ _ _ _ He Hin) as (x & Hx & Hmx). exists x.
  assert (Hid : forall m x, module_entry m = Ok x -> entry_id x = id m).
  { intros m0 x0. unfold module_entry. intros (c & _ & [= <-])%res_bind_Ok. done. }
  split; [done|]. split; [by apply Hid|].
  assert (map entry_id index = map id (sort_by by_id ms)) as Hids.
  { clear -He Hid. induction He as [|a y l k Ha _ IH]; [done|]. cbn. by rewrite IH, (Hid _ _ Ha). }
  split.
  - rewrite <- Ht. unfold index_targets. apply elem_of_list_to_map.
    + rewrite fmap_reverse, reverse_Permutation. change (fst <$> ?l) with (map fst l). rewrite map_map. change (NoDup (map entry_id index)).
      rewrite Hids. by rewrite sort_by_perm.
    + rewrite elem_of_reverse, <- (Hid _ _ Hmx). apply list_elem_of_fmap. by exists x.
  - unfold build_index. cbn [sort_by insert_by foldr traverse]. 
    change (sort_by by_id [m]) with [m]. cbn [traverse]. rewrite Hmx. cbn [res_bind].
    unfold _validate_json_schema in *. apply raise_if_Ok, negb_false_iff in Hs. by rewrite (schema_items x index).
Qed.
Lemma project_member d m : m ∈ project_v1 None d -> m ∈ project_v1 (Some (id m)) d.
Proof.
  unfold project_v1. rewrite !list_elem_of_fmap. intros ([r p] & -> & Hin). exists (r, p). split; [done|].
  rewrite sort_by_elem in *. unfold module_candidates in *. rewrite sort_by_elem in *.
  apply list_elem_of_omap in Hin as (r' & Hr & Hp). apply list_elem_of_omap. exists r'. split; [|done].
  apply list_elem_of_In, filter_In in Hr as [Hr Hf]. apply list_elem_of_In, filter_In. split; [done|].
  rewrite andb_true_r in Hf. rewrite Hf. cbn [andb fst].
  assert (r' = r) as -> by (destruct (publisher_of d r'); [by injection Hp | done]). apply String.eqb_refl.
Qed.

Lemma project_alone d m : NoDup (map m_id (modules d)) -> m ∈ project_v1 None d -> project_v1 (Some (id m)) d = [m].
Proof.
  intros Hnd Hm. assert (H := project_member d m Hm). assert (Hids := project_NoDup d (Some (id m)) Hnd).
  assert (Hall : forall x, x ∈ project_v1 (Some (id m)) d -> id x = id m) by (intros x Hx; by apply project_one in Hx as [_ ?]).
  destruct (project_v1 (Some (id m)) d) as [|x [|y l]]; [by apply elem_of_nil in H | by apply list_elem_of_singleton in H as -> |].
  exfalso. cbn [map] in Hids. rewrite !NoDup_cons in Hids. destruct Hids as [Hx _]. apply Hx.
  rewrite (Hall x), (Hall y) by (rewrite !elem_of_cons; auto). by left.
Qed.

Lemma module_served d m index :
  constraints d = true -> schema_revision d = Some EXPECTED_SCHEMA_REVISION ->
  validate_v1_representability schema_valid (project_v1 None d) (channel_targets None d) = Ok index ->
  m ∈ project_v1 None d -> v1_module schema_valid (id m) d = Ok m.
Proof.
  intros Hc Hs Hi Hm. apply constraints_ids in Hc as [Hnd _].
  destruct (representable_one _ _ _ _ (project_NoDup d None Hnd) Hm Hi) as (Hv & x & _ & Hx & Ht & Hb).
  unfold v1_module, compatibility_service. rewrite bool_decide_true by done.
  assert (validate_module_id (JStr (id m)) "module ID" = Ok (id m)) as Hid.
  { apply module_decode in Hv as (m' & _ & Hok & _ & Hj). apply _canonical_id_Ok. split; [done|].
    change (jget "id" (module_json m)) with (Some (JStr (id m))) in Hj. injection Hj as ->. by apply ok_id. }
  rewrite Hid. unfold compatibility_module. rewrite Hid. cbn [raised res_bind]. rewrite project_alone by done.
  unfold validate_v1_representability. cbn [each]. rewrite Hv. cbn [res_bind RegistryDb.lifted]. rewrite Hb. cbn [res_bind RegistryDb.lifted].
  rewrite (targets_singleton d (id m) _ Ht). rewrite bool_decide_true; [done|].
  unfold index_targets. cbn. rewrite Hx. done.
Qed.

(** C11. Cut-over parity.  Once the check has accepted the frozen directory
    against a snapshot of the database, a client of the v1 routes over that
    snapshot reads the same bytes as from the directory: the index is served and
    its body is index.json, every published module is served and its body is its
    file, a module route serves nothing else, and the directory has a file for
    exactly the published modules. *)
Theorem verified_site_served hexdigest d dist v :
  constraints d = true -> verify schema_valid d dist = Ok v ->
  (exists index, v1_index schema_valid d = Ok index /\
     body (metadata hexdigest None (index_json index) false) = dist !! "index.json") /\
  (forall m, m ∈ project_v1 None d ->
     v1_module schema_valid (id m) d = Ok m /\
     body (metadata hexdigest None (JObj (module_json m)) false) = dist !! module_path (id m)) /\
  (forall module_id m, v1_module schema_valid module_id d = Ok m -> id m = module_id /\ m ∈ project_v1 None d) /\
  (forall k, k ∈ module_files dist <-> exists m, m ∈ project_v1 None d /\ k = module_path (id m)).
Proof.
  intros Hc H. apply verify_Ok in H as (Hs & (index & Hi & Hx) & Hm & Hf). split_and!.
  - exists index. split.
    + unfold v1_index, compatibility_service, compatibility_index. rewrite bool_decide_true by done. by rewrite Hi.
    + by rewrite plain_body, Hx.
  - intros m Hin. split; [by eapply module_served | by rewrite plain_body, Hm].
  - intros module_id m Hv. apply service_Ok in Hv.
    destruct (validate_module_id _ _) as [?|[]]; try discriminate Hv; by apply compatibility_module_Ok, project_one in Hv as [Hin Hid].
  - intros k. rewrite Hf, list_elem_of_fmap. split; intros (m & H1 & H2); exists m; auto.
Qed.

End Served.

(** ** Example: the swap fails, the old directory comes back *)

Fixpoint longest (l : list (string * node)) : nat :=
  match l with [] => 0 | (k, _) :: l => Nat.max (String.length k) (longest l) end.

Definition example_temporary (prefix : string) (p : names) : string :=
  prefix +:+ String.string_of_list_ascii (repeat "x"%char (S (longest (map_to_list p)))).

Lemma longest_bound l k n : (k, n) ∈ l -> (String.length k <= longest l)%nat.
Proof.
  induction l as [|[k' n'] l IH]; [by intros H%not_elem_of_nil|]. intros [[= <- <-]|H]%elem_of_cons; simpl; [lia|].
  apply IH in H. lia.
Qed.

Lemma example_temporary_new prefix p : p !! example_temporary prefix p = None.
Proof.
  destruct (p !! example_temporary prefix p) as [n|] eqn:H; [|done]. apply elem_of_map_to_list, longest_bound in H.
  unfold example_temporary in H at 1. rewrite <- length_chars, chars_app, length_app, String.list_ascii_of_string_of_list_ascii,
    repeat_length in H. lia.
Qed.

Lemma example_temporary_prefix prefix p : startswith prefix (example_temporary prefix p) = true.
Proof. apply startswith_app. Qed.

Definition example_disk : disk :=
  {| entries := {[ "dist" := Folder {[ "index.json" := "old" ]}; "notes" := Plain "n" ]}; taken := 0; backup := None |}.

(** Step 8 is the move of the staging directory to the output. *)
Definition example_build (fails : nat -> bool) : res build_exn unit * disk :=
  build fails example_temporary (fun _ s => s) (fun _ fs => fs) any_schema (fun p => p) ["srv"; "repo"] ["srv"; "repo"; "registry"]
    (Ok [example_new]) ["srv"; "www"] "dist" example_disk.

Lemma example_build_eq fails : example_build fails =
  build fails example_temporary (fun _ s => s) (fun _ fs => fs) any_schema (fun p => p) ["srv"; "repo"] ["srv"; "repo"; "registry"]
    (Ok [example_new]) ["srv"; "www"] "dist" example_disk.
Proof. reflexivity. Qed.

Lemma build_replaces_whole_witness :
  fst (example_build (fun k => Nat.eqb k 8)) = Err OSFailure /\
  entries (snd (example_build (fun k => Nat.eqb k 8))) !! "dist" = Some (Folder {[ "index.json" := "old" ]}) /\
  is_ok (fst (example_build (fun _ => false))) = true /\
  exists fs, site any_schema [example_new] = Ok fs /\
    entries (snd (example_build (fun _ => false))) = <["dist" := Folder fs]> (entries example_disk).
Proof.
  split; [vm_compute; reflexivity|]. split; [vm_compute; reflexivity|]. split; [vm_compute; reflexivity|].
  destruct (example_build (fun _ => false)) as [r s'] eqn:H.
  assert (Hr : r = Ok tt) by (apply (f_equal fst) in H; cbn [fst] in H; rewrite <- H; vm_compute; reflexivity). subst r.
  rewrite example_build_eq in H.
  apply (build_replaces_whole (fun _ => false) example_temporary (fun _ s => s) (fun _ fs => fs) any_schema (fun p => p)
    ["srv"; "repo"] ["srv"; "repo"; "registry"] example_temporary_new example_temporary_prefix) in H as [_ H]; [|reflexivity].
  destruct H as (ms & fs & [= <-] & Hfs & He & _). exists fs. split; [exact Hfs | exact He].
Defined.

Definition texts_of (r : res exn texts) : texts := match r with Ok fs => fs | Err _ => ∅ end.

(** The directory built from what the example import left in the database. *)
Definition example_dist : texts := texts_of (site any_schema (project_v1 None imported_db)).

Lemma example_verified : is_ok (verify any_schema imported_db example_dist) = true.
Proof. vm_compute. reflexivity. Qed.

Lemma imported_constraints : constraints imported_db = true.
Proof. vm_compute. reflexivity. Qed.

Lemma verified_site_served_witness :
  exists v, verify any_schema imported_db example_dist = Ok v /\
    forall m, m ∈ project_v1 None imported_db ->
      v1_module any_schema (id m) imported_db = Ok m /\
      body (metadata (fun s => s) None (JObj (module_json m)) false) = example_dist !! module_path (id m).
Proof.
  assert (H := example_verified). destruct (verify any_schema imported_db example_dist) as [v|] eqn:Hv; [|discriminate H].
  exists v. split; [reflexivity|].
  exact (proj1 (proj2 (verified_site_served any_schema (fun _ _ _ _ => eq_refl) (fun s => s) imported_db example_dist v imported_constraints Hv))).
Defined.
