(* ===== verification/Releases.v ===== *)
(** * Release artifacts: scripts/verify_artifacts.py

    Which releases a change adds, the download of an artifact, and the check of
    its bytes by the pinned host.  The network is the record [network]: what the
    server answers to each request, what each read of a body gives, what the
    clock shows and which writes fail.  Redirects follow
    urllib.request.HTTPRedirectHandler; the URL it resolves from a [Location]
    header is part of the answer.  The host's command line is a parameter. *)

#[local] Set Warnings "-notation-overridden".

From S2P Require Import Prelude PyText SemVer Json JsonText Url Validate Registry.

Open Scope string_scope.
Open Scope list_scope.

Definition MAX_ARTIFACT_BYTES : Z := 536870912.
Definition MAX_REDIRECTS : Z := 3.
(** Seconds are counted in microseconds. *)
Definition MAX_DOWNLOAD_SECONDS : Z := 600000000.
Definition DEFAULT_TIMEOUT : Z := 30000000.
Definition DOWNLOAD_CHUNK_BYTES : Z := 1048576.
Definition GITHUB_RELEASE_REDIRECT_HOSTS : list string := ["release-assets.githubusercontent.com"].
Definition MODULE_ID_PATTERN : re := MODULE_ID_RE.

(** [Escaped] is an exception that no clause of the code handles, by its class;
    [OutOfPasses] would be a loop that does not end ([download_sound]). *)
Inductive verification_exn :=
| ArtifactVerificationError (msg : string)
| RegistryError (e : exn)
| Escaped (cls : string)
| OutOfPasses.

Record ReleaseCandidate := {
  rc_module_id : string; rc_version : string; rc_channel : string; artifact_url : string;
  expected_sha256 : string; rc_classification : string
}.

Definition identity (c : ReleaseCandidate) : string := rc_module_id c +:+ "@" +:+ rc_version c.

(** ** New releases *)

Definition candidate_of (m : module) (r : release) : ReleaseCandidate :=
  {| rc_module_id := id m; rc_version := version r; rc_channel := channel r; artifact_url := url (rel_artifact r);
     expected_sha256 := sha256 (rel_artifact r); rc_classification := classification m |}.

(** A candidate with its key [(item.module_id, semver_key(item.version))]. *)
Definition keyed_candidate (c : ReleaseCandidate) : res exn ((string * version_key) * ReleaseCandidate) :=
  let? k := semver_key (rc_version c) in Ok ((rc_module_id c, k), c).

Definition candidate_le (x y : (string * version_key) * ReleaseCandidate) : bool :=
  le_of (pair_compare str_compare key_compare) (fst x) (fst y).

Definition sort_candidates (candidates : list ReleaseCandidate) : res exn (list ReleaseCandidate) :=
  let? keys := traverse keyed_candidate candidates in Ok (map snd (sort_by candidate_le keys)).

Definition releases_of_all (modules : list module) : list (module * release) :=
  concat (map (fun m => map (pair m) (versions m)) modules).

Definition key_of (x : module * release) : string * string := (id (fst x), version (snd x)).

Definition find_new_releases (current_modules base_modules : list module) : res exn (list ReleaseCandidate) :=
  let published := map key_of (releases_of_all base_modules) in
  sort_candidates
    (map (fun x => candidate_of (fst x) (snd x))
       (List.filter (fun x => negb (bool_decide (key_of x ∈ published))) (releases_of_all current_modules))).

(** ** The policy of URLs *)

Definition validate_candidate_url (c : ReleaseCandidate) : res exn split_result :=
  validate_artifact_url (JStr (artifact_url c)) (rc_classification c) (rc_module_id c) (rc_version c)
    (identity c +:+ " artifact URL").

Definition is_space_or_control (c : ascii) : bool := is_space c || N.ltb (N_of_ascii c) 32.

(** [urlsplit] is outside the [try]: its [ValueError] is not caught. *)
Definition validate_redirect_target (target_url initial_hostname : string) : res verification_exn unit :=
  match urlsplit target_url with
  | Err _ => Err (Escaped "ValueError")
  | Ok parsed =>
      let invalid_port := match port parsed with
                          | Ok None => false
                          | Ok (Some p) => negb (N.eqb p 443)
                          | Err _ => true
                          end in
      raise_if
        (negb (String.eqb initial_hostname "github.com")
         || negb (String.eqb (scheme parsed) "https")
         || negb (existsb (fun h => bool_decide (hostname parsed = Some h)) GITHUB_RELEASE_REDIRECT_HOSTS)
         || negb (bool_decide (username parsed = None))
         || negb (bool_decide (password parsed = None))
         || invalid_port
         || nonempty (fragment parsed)
         || negb (startswith "/github-production-release-asset/" (path parsed))
         || mem_char "\" target_url
         || any_char is_space_or_control target_url)
        (ArtifactVerificationError "artifact redirect target is not policy-approved")
  end.

(** ** The download *)

(** What fails below the code: [TimeoutError], [URLError] with the class of its
    reason or a time-out, another [OSError], and any other exception. *)
Inductive io_exn :=
| TimedOut
| URLError (reason : option string)
| OSErrorOf (cls : string)
| OtherError (cls : string).

(** The [Location] header of an answer, as urllib resolves it. *)
Inductive location :=
| NoLocation
| OtherScheme
| Unparsable
| Target (url : string).

Inductive answer :=
| Answer (code : Z) (where_to : location) (content_length : option string)
| Fails (e : io_exn).

Inductive read_result :=
| Chunk (bytes : string)
| ReadFails (e : io_exn).

Record network := {
  send : nat -> string -> answer;
  read : nat -> Z -> read_result;
  monotonic : nat -> Z;
  destination_open : option io_exn;
  write : nat -> option io_exn;
  destination_close : option io_exn
}.

(** [int(text)] *)
Definition INT_TEXT : re :=
  Seq (opt (Cls (fun c => Ascii.eqb "+" c || Ascii.eqb "-" c)))
    (Seq (plus digit) (Star (Seq (lit "_") (plus digit)))).

Definition int_text (text : string) : option Z :=
  let text := strip text in
  let digits := string_filter is_ascii_digit text in
  if fullmatch INT_TEXT text && Nat.leb (String.length digits) 4300
  then Some (if startswith "-" text then (- Z.of_N (py_int digits))%Z else Z.of_N (py_int digits))
  else None.

(** The [except] clauses around the request. *)
Definition request_failed (e : io_exn) : verification_exn :=
  match e with
  | TimedOut => ArtifactVerificationError "artifact request timed out"
  | URLError reason =>
      ArtifactVerificationError ("artifact network request failed (" +:+ default "timeout" reason +:+ ")")
  | OSErrorOf cls => ArtifactVerificationError ("artifact download failed (" +:+ cls +:+ ")")
  | OtherError cls => Escaped cls
  end.

Definition http_error (code : Z) : verification_exn :=
  ArtifactVerificationError ("artifact request failed with HTTP " +:+ render_int code).

Definition is_success (code : Z) : bool := Z.leb 200 code && Z.ltb code 300.
Definition is_redirect (code : Z) : bool := existsb (Z.eqb code) [301; 302; 303; 307; 308]%Z.

(** urllib's own bounds: ten targets, each at most four times. *)
Definition repeats (new_url : string) (visited : list string) : bool :=
  Nat.leb 4 (length (List.filter (String.eqb new_url) visited))
  || Nat.leb 10 (length (nodup String.string_dec visited)).

Section Download.
Context (net : network) (redirect_target_validator : string -> string -> res verification_exn unit).

(** [opener.open] with the handler of the code: [remaining] redirects remain.  The
    answer of the last request, and the URLs requested. *)
Fixpoint open_url (initial_hostname : string) (remaining : nat) (visited : list string) (n : nat) (url : string)
    : res verification_exn (option string) * list string :=
  match send net n url with
  | Fails e => (Err (request_failed e), [url])
  | Answer code where_to content_length =>
      if is_success code then (Ok content_length, [url])
      else if is_redirect code then
        match where_to with
        | NoLocation | OtherScheme => (Err (http_error code), [url])
        | Unparsable => (Err (Escaped "ValueError"), [url])
        | Target new_url =>
            match remaining with
            | O => (Err (ArtifactVerificationError "artifact redirect limit exceeded"), [url])
            | S remaining =>
                match redirect_target_validator new_url initial_hostname with
                | Err e => (Err e, [url])
                | Ok _ =>
                    if repeats new_url visited then (Err (http_error code), [url])
                    else
                      let '(r, urls) := open_url initial_hostname remaining (new_url :: visited) (S n) new_url in
                      (r, url :: urls)
                end
            end
        end
      else (Err (http_error code), [url])
  end.

Definition check_length (max_bytes : Z) (content_length : option string) : res verification_exn unit :=
  match content_length with
  | None => Ok tt
  | Some text =>
      match int_text text with
      | None => Err (ArtifactVerificationError "artifact Content-Length is invalid")
      | Some declared_size =>
          raise_if (Z.ltb declared_size 0 || Z.ltb max_bytes declared_size)
            (ArtifactVerificationError "artifact Content-Length exceeds size limit")
      end
  end.

(** The loop: passes taken, bytes so far ([digest] has the bytes that were
    written).  The outcome has what the file holds. *)
Record transfer := { pass_number : nat; downloaded : Z; written : string }.

Definition copy_chunk (deadline max_bytes : Z) (t : transfer) : transfer + (res verification_exn unit * string) :=
  let k := pass_number t in
  let stop r := inr (r, written t) in
  if Z.ltb deadline (monotonic net (S k))
  then stop (Err (ArtifactVerificationError "artifact download exceeded total timeout"))
  else
    match read net k (Z.min DOWNLOAD_CHUNK_BYTES (max_bytes + 1 - downloaded t)) with
    | ReadFails e => stop (Err (request_failed e))
    | Chunk "" => stop (match destination_close net with Some e => Err (request_failed e) | None => Ok tt end)
    | Chunk chunk =>
        let downloaded := (downloaded t + Z.of_nat (String.length chunk))%Z in
        if Z.ltb max_bytes downloaded
        then stop (Err (ArtifactVerificationError "artifact download exceeds size limit"))
        else
          match write net k with
          | Some e => stop (Err (request_failed e))
          | None => inl {| pass_number := S k; downloaded := downloaded; written := written t +:+ chunk |}
          end
    end.

Definition copy_all (deadline max_bytes : Z) : res verification_exn unit * string :=
  match passes (Z.to_pos (max_bytes + 2)) (copy_chunk deadline max_bytes)
          {| pass_number := 0; downloaded := 0; written := "" |} with
  | inr r => r
  | inl t => (Err OutOfPasses, written t)
  end.

End Download.

Section Verification.
Context (sha256_of : string -> string).

(** The digest, the destination (what the file holds, if it is there) and the
    URLs requested. *)
Record download_outcome := {
  result_ : res verification_exn string; file : option string; requested : list string
}.

Definition download_with (initial_url_validator : ReleaseCandidate -> res exn split_result)
    (redirect_target_validator : string -> string -> res verification_exn unit) (net : network)
    (candidate : ReleaseCandidate) (destination : option string)
    (timeout max_bytes max_download_seconds max_redirects : Z) : download_outcome :=
  let stop e urls := {| result_ := Err e; file := destination; requested := urls |} in
  if Z.leb timeout 0 || Z.leb max_download_seconds 0 || Z.leb max_bytes 0 || Z.ltb max_redirects 0
  then stop (ArtifactVerificationError "download limits must be positive") []
  else
    match initial_url_validator candidate with
    | Err e => stop (RegistryError e) []
    | Ok initial =>
        match hostname initial with
        | Some (String _ _ as initial_hostname) =>
            let deadline := (monotonic net 0 + max_download_seconds)%Z in
            let '(response, urls) :=
              open_url net redirect_target_validator initial_hostname (Z.to_nat max_redirects) [] 0
                (artifact_url candidate) in
            match response with
            | Err e => stop e urls
            | Ok content_length =>
                match check_length max_bytes content_length with
                | Err e => stop e urls
                | Ok _ =>
                    match destination, destination_open net with
                    | Some _, _ => stop (request_failed (OSErrorOf "FileExistsError")) urls
                    | None, Some e => stop (request_failed e) urls
                    | None, None =>
                        let '(copied, bytes) := copy_all net deadline max_bytes in
                        {| result_ := match copied with Ok _ => Ok (sha256_of bytes) | Err e => Err e end;
                           file := Some bytes; requested := urls |}
                    end
                end
            end
        | _ => stop (ArtifactVerificationError "artifact URL has no hostname") []
        end
    end.

Definition download_artifact (net : network) (candidate : ReleaseCandidate) (destination : option string)
    (timeout max_bytes : Z) : download_outcome :=
  download_with validate_candidate_url validate_redirect_target net candidate destination timeout max_bytes
    MAX_DOWNLOAD_SECONDS MAX_REDIRECTS.

(** ** The pinned host *)

(** A finished process. *)
Record process := { returncode : Z; stdout : string; stderr : string }.

(** The checkout: the text of .github/ocp-host-verifier.json, [git rev-parse
    HEAD], and the files that are there. *)
Record checkout := {
  config : option string; rev_parse : process; has_python : bool; is_file : string -> bool
}.

(** [d["key"]] and [d.get("key")] after [json.loads], which keeps the last
    member of a repeated key. *)
Definition last_member (key : string) (d : members) : option json := jget key (rev d).

Definition differs_from (v : option json) (s : string) : bool := negb (py_eq (default JNull v) (JStr s)).

Definition is_full_ref (v : option json) : bool :=
  match v with
  | Some (JStr reference) => Nat.eqb (String.length reference) 40 && all_chars is_hex reference
  | _ => false
  end.

(** The text of the exception after the prefix is not represented. *)
Definition load_host_verifier_contract (host : checkout) : res verification_exn members :=
  match config host with
  | None => Err (ArtifactVerificationError "invalid host verifier config")
  | Some text =>
      match json_loads text with
      | None => Err (ArtifactVerificationError "invalid host verifier config")
      | Some (JObj contract) =>
          let required := ["OCP_HOST_VERIFIER_REPOSITORY"; "OCP_HOST_VERIFIER_REF"] in
          raise_if (negb (forallb (fun k => mem k required) (jkeys contract)
                          && forallb (fun k => mem k (jkeys contract)) required))
            (ArtifactVerificationError "host verifier config has unknown or missing fields") ;?
          raise_if (negb (is_full_ref (last_member "OCP_HOST_VERIFIER_REF" contract)))
            (ArtifactVerificationError "host verifier ref must be a full lowercase commit SHA") ;?
          raise_if (differs_from (last_member "OCP_HOST_VERIFIER_REPOSITORY" contract) "oklabflensburg/open-city-planner")
            (ArtifactVerificationError "host verifier repository is not policy-approved") ;?
          Ok contract
      | Some _ => Err (ArtifactVerificationError "host verifier config has unknown or missing fields")
      end
  end.

Definition validate_host_verifier_checkout (host : checkout) : res verification_exn unit :=
  let? contract := load_host_verifier_contract host in
  raise_if (negb (Z.eqb (returncode (rev_parse host)) 0)
            || differs_from (last_member "OCP_HOST_VERIFIER_REF" contract) (strip (stdout (rev_parse host))))
    (ArtifactVerificationError "host verifier checkout does not match the pinned commit") ;?
  raise_if (negb (has_python host))
    (ArtifactVerificationError "pinned host verifier environment is not installed").

Definition host_has_builtin_module (host : checkout) (module_id : string) : bool :=
  fullmatch MODULE_ID_PATTERN module_id
  && is_file host ("backend/app/modules/" +:+ string_map (fun c => if Ascii.eqb c "-" then "_"%char else c) module_id
                   +:+ "/module.py").

(** The host's command on the bytes, with OCP_EXCLUDED_BUILTIN_MODULES: nothing
    when it times out, else the process and whether it remaining a modules.lock. *)
Context (cli : option string -> string -> option (process * bool)).

Definition run_host_verifier (candidate : ReleaseCandidate) (bytes : string) (host : checkout)
    : res verification_exn unit :=
  let failed msg := ArtifactVerificationError (identity candidate +:+ ": " +:+ msg) in
  let excluded := if host_has_builtin_module host (rc_module_id candidate) then Some (rc_module_id candidate) else None in
  match cli excluded bytes with
  | None => Err (failed "host verifier timed out")
  | Some (result, locked) =>
      let detail := strip (stderr result) in
      raise_if (negb (Z.eqb (returncode result) 0))
        (failed ("host verifier failed: " +:+ (if nonempty detail then detail else "no verifier details"))) ;?
      match last (splitlines (stdout result)) with
      | None => Err (failed "host verifier returned invalid JSON")
      | Some line =>
          match json_loads line with
          | None => Err (failed "host verifier returned invalid JSON")
          | Some (JObj verified) =>
              raise_if (differs_from (last_member "module_id" verified) (rc_module_id candidate)
                        || differs_from (last_member "version" verified) (rc_version candidate))
                (failed "registry identity does not match verified bundle identity") ;?
              raise_if locked (ArtifactVerificationError "host verify unexpectedly created modules.lock")
          | Some _ => Err (failed "host verifier JSON must be an object")
          end
      end
  end.

(** ** All new releases *)

(** The network during the download of each candidate. *)
Context (nets : nat -> network).

Definition candidate_lines (candidate : ReleaseCandidate) : list string :=
  ["verifying " +:+ identity candidate; "download ok"; "sha256 ok"; "host verifier ok"].

(** The result for a candidate, and the lines printed. *)
Definition verify_one (n : nat) (candidate : ReleaseCandidate) (host : checkout) (timeout max_bytes : Z)
    : res verification_exn unit * list string :=
  let lines k := firstn k (candidate_lines candidate) in
  let d := download_artifact (nets n) candidate None timeout max_bytes in
  match result_ d with
  | Err e => (Err e, lines 1)
  | Ok actual_sha256 =>
      if negb (String.eqb actual_sha256 (expected_sha256 candidate))
      then (Err (ArtifactVerificationError (identity candidate +:+ ": SHA-256 does not match registry metadata")), lines 2)
      else
        match run_host_verifier candidate (default "" (file d)) host with
        | Err e => (Err e, lines 3)
        | Ok _ => (Ok tt, lines 4)
        end
  end.

Fixpoint verify_each (n : nat) (candidates : list ReleaseCandidate) (host : checkout) (timeout max_bytes : Z)
    : res verification_exn unit * list string :=
  match candidates with
  | [] => (Ok tt, [])
  | candidate :: candidates =>
      match verify_one n candidate host timeout max_bytes with
      | (Err e, lines) => (Err e, lines)
      | (Ok _, lines) =>
          let '(r, more) := verify_each (S n) candidates host timeout max_bytes in (r, lines ++ more)
      end
  end.

Definition verify_release_candidates (candidates : list ReleaseCandidate) (host : checkout) (timeout max_bytes : Z)
    : res verification_exn unit * list string :=
  match candidates with
  | [] => (Ok tt, ["No new release artifacts to verify."])
  | _ =>
      match validate_host_verifier_checkout host with
      | Err e => (Err e, [])
      | Ok _ => verify_each 0 candidates host timeout max_bytes
      end
  end.

(** The command: exit status and output; an exception that is not caught ends
    it with a traceback. *)
Inductive exit := Exit (status : Z) | Traceback.

Definition caught_verification (e : verification_exn) : exit :=
  match e with
  | ArtifactVerificationError _ | RegistryError (RegistryValidationError _) => Exit 1
  | _ => Traceback
  end.

(** [current] and [base] are the registries the two loads give. *)
Definition verify_command (current base : res exn (list module)) (host : option checkout) (here : checkout)
    (timeout : Z) (count_only : bool) : exit * list string :=
  match current, base with
  | Err e, _ | Ok _, Err e => (caught_verification (RegistryError e), [])
  | Ok current, Ok base =>
      match find_new_releases current base with
      | Err e => (caught_verification (RegistryError e), [])
      | Ok candidates =>
          if count_only then (Exit 0, [render_int (Z.of_nat (length candidates))])
          else if negb (Nat.eqb (length candidates) 0) && bool_decide (host = None)
          then (caught_verification (ArtifactVerificationError "--host-verifier-root is required for new releases"), [])
          else
            match verify_release_candidates candidates (default here host) timeout MAX_ARTIFACT_BYTES with
            | (Ok _, lines) => (Exit 0, lines)
            | (Err e, lines) => (caught_verification e, lines)
            end
      end
  end.

(** ** scripts/validate_registry.py *)

(** [base] is the baseline when [--base-ref] is given. *)
Definition validate_command (current : res exn (list module)) (base : option (res exn (list module)))
    : exit * list string :=
  let rejected e := (caught_verification (RegistryError e), []) in
  match current with
  | Err e => rejected e
  | Ok modules =>
      let valid := (Exit 0, ["registry valid: schema v1, " +:+ render_int (Z.of_nat (length modules)) +:+ " module(s)"]) in
      match base with
      | None => valid
      | Some (Err e) => rejected e
      | Some (Ok base_modules) =>
          match validate_immutability modules base_modules with Err e => rejected e | Ok _ => valid end
      end
  end.

End Verification.

(** ** Facts: the policy of redirects *)

Record redirect_policy (u : string) : Prop := {
  rp_plain : any_char is_space_or_control u = false;
  rp_backslash : mem_char "\" u = false;
  rp_parts : exists p, urlsplit u = Ok p /\ scheme p = "https" /\
    hostname p = Some "release-assets.githubusercontent.com" /\ username p = None /\ password p = None /\
    (port p = Ok None \/ port p = Ok (Some 443%N)) /\ fragment p = "" /\
    startswith "/github-production-release-asset/" (path p) = true
}.

Lemma validate_redirect_target_Ok u h a :
  validate_redirect_target u h = Ok a -> h = "github.com" /\ redirect_policy u.
Proof.
  unfold validate_redirect_target. destruct (urlsplit u) as [p|] eqn:Hp; [|done]. intros H%raise_if_Ok.
  repeat match goal with H : _ || _ = false |- _ => apply orb_false_iff in H as [H ?] end.
  repeat match goal with H : negb _ = false |- _ => apply negb_false_iff in H end.
  split; [by apply String.eqb_eq|]. split; [done|done|]. exists p.
  match goal with H : existsb _ _ = true |- _ => simpl in H; rewrite orb_false_r in H; apply bool_decide_eq_true_1 in H end.
  repeat match goal with H : bool_decide _ = true |- _ => apply bool_decide_eq_true_1 in H end.
  split_and!; try done; [by apply String.eqb_eq| |by apply not_nonempty].
  destruct (port p) as [[n|]|]; try done; [|by left]. right.
  match goal with H : negb (N.eqb _ _) = false |- _ => apply negb_false_iff, N.eqb_eq in H; by rewrite H end.
Qed.

Lemma redirect_ends u h : validate_redirect_target u h <> Err OutOfPasses.
Proof. unfold validate_redirect_target. destruct (urlsplit u); [|done]. by intros [_ [=]]%raise_if_Err. Qed.

(** ** Facts: the requests *)

Section Requests.
Context (net : network).

Lemma open_url_requests h remaining : forall visited n u r urls,
  open_url net validate_redirect_target h remaining visited n u = (r, urls) ->
  r <> Err OutOfPasses /\ exists rest, urls = u :: rest /\ (length rest <= remaining)%nat /\
    Forall (fun u' => h = "github.com" /\ redirect_policy u') rest.
Proof.
  induction remaining as [|remaining IH]; intros visited n u r urls; cbn [open_url].
  all: assert (Hstop : forall k, exists rest, [u] = u :: rest /\ (length rest <= k)%nat /\
         Forall (fun u' => h = "github.com" /\ redirect_policy u') rest)
         by (intros k; exists []; split_and!; [done | simpl; lia | done]).
  all: destruct (send net n u) as [code where_to len|e]; [|intros [= <- <-]; split; [by destruct e | apply Hstop]].
  all: destruct (is_success code); [intros [= <- <-]; split; [done | apply Hstop]|].
  all: destruct (is_redirect code); [|intros [= <- <-]; split; [done | apply Hstop]].
  all: destruct where_to as [| | |new_url]; try (intros [= <- <-]; split; [done | apply Hstop]).
  destruct (validate_redirect_target new_url h) as [a|e] eqn:Hv;
    [|intros [= <- <-]; split; [intros [= ->]; by apply redirect_ends in Hv | apply Hstop]].
  destruct (repeats new_url visited); [intros [= <- <-]; split; [done | apply Hstop]|].
  destruct (open_url _ _ _ _ _ _ _) as [r' urls'] eqn:Ho. intros [= -> <-].
  apply IH in Ho as (Hr & rest & -> & Hlen & Hall). split; [done|]. exists (new_url :: rest). split_and!; [done | simpl; lia |].
  constructor; [by eapply validate_redirect_target_Ok | done].
Qed.

(** *** The copy *)

(** The network serves the chunks and then the end, each read in time. *)
Fixpoint served (deadline max_bytes : Z) (k : nat) (got : Z) (chunks : list string) : Prop :=
  (monotonic net (S k) <= deadline)%Z /\
  let asked := Z.min DOWNLOAD_CHUNK_BYTES (max_bytes + 1 - got) in
  match chunks with
  | [] => read net k asked = Chunk "" /\ destination_close net = None
  | c :: chunks =>
      c <> "" /\ read net k asked = Chunk c /\ write net k = None /\
      served deadline max_bytes (S k) (got + Z.of_nat (String.length c)) chunks
  end.

Definition joined (chunks : list string) : string := foldr String.append "" chunks.

Lemma copy_chunk_cases deadline max_bytes t :
  match copy_chunk net deadline max_bytes t with
  | inl t' => exists c, c <> "" /\ (monotonic net (S (pass_number t)) <= deadline)%Z /\
      read net (pass_number t) (Z.min DOWNLOAD_CHUNK_BYTES (max_bytes + 1 - downloaded t)) = Chunk c /\
      write net (pass_number t) = None /\ (downloaded t + Z.of_nat (String.length c) <= max_bytes)%Z /\
      t' = {| pass_number := S (pass_number t); downloaded := downloaded t + Z.of_nat (String.length c);
              written := written t +:+ c |}
  | inr (r, bytes) => bytes = written t /\ r <> Err OutOfPasses /\
      (r = Ok tt -> served deadline max_bytes (pass_number t) (downloaded t) [])
  end.
Proof.
  unfold copy_chunk. destruct (Z.ltb_spec deadline (monotonic net (S (pass_number t)))) as [Ht|Ht]; [naive_solver|].
  destruct (read net _ _) as [[|ch chunk]|e] eqn:Hr.
  - destruct (destination_close net) as [e|] eqn:Hc; [|naive_solver]. split; [done|]. split; [by destruct e|done].
  - destruct (Z.ltb_spec max_bytes (downloaded t + Z.of_nat (String.length (String ch chunk)))) as [Hm|Hm]; [naive_solver|].
    destruct (write net _) as [e|] eqn:Hw; [split; [done|]; split; [by destruct e|done]|].
    exists (String ch chunk). naive_solver.
  - split; [done|]. split; [by destruct e|done].
Qed.

(** The state of the loop: the chunks so far. *)
Definition copying (deadline max_bytes : Z) (t : transfer) : Prop :=
  Z.of_nat (String.length (written t)) = downloaded t /\ (downloaded t <= max_bytes)%Z /\
  exists chunks, written t = joined chunks /\
    forall rest, served deadline max_bytes (pass_number t) (downloaded t) rest ->
                 served deadline max_bytes 0 0 (chunks ++ rest).

Lemma joined_app l m : joined (l ++ m) = joined l +:+ joined m.
Proof. induction l as [|x l IH]; simpl; [done|]. by rewrite IH, sapp_assoc. Qed.

Lemma copying_step deadline max_bytes t :
  copying deadline max_bytes t ->
  match copy_chunk net deadline max_bytes t with
  | inl t' => copying deadline max_bytes t' /\ (downloaded t + 1 <= downloaded t')%Z
  | inr (r, bytes) => r <> Err OutOfPasses /\ (Z.of_nat (String.length bytes) <= max_bytes)%Z /\
      (r = Ok tt -> exists chunks, bytes = joined chunks /\ served deadline max_bytes 0 0 chunks)
  end.
Proof.
  intros (Hlen & Hmax & chunks & Hw & Hs). assert (H := copy_chunk_cases deadline max_bytes t).
  destruct (copy_chunk net deadline max_bytes t) as [t'|[r bytes]].
  - destruct H as (c & Hne & Ht & Hr & Hwr & Hb & ->). split; [|simpl; destruct c; [done|simpl; lia]].
    split; [simpl; rewrite slength_app; lia|]. split; [done|]. exists (chunks ++ [c]). split.
    + simpl. rewrite Hw, joined_app. simpl. by rewrite sapp_nil_r.
    + intros rest Hrest. rewrite <- app_assoc. apply Hs. simpl in *. naive_solver.
  - destruct H as (-> & Hr & Hok). split; [done|]. split; [lia|]. intros Hrok. exists chunks. split; [done|].
    rewrite <- (app_nil_r chunks). by apply Hs, Hok.
Qed.

Lemma copy_all_sound deadline max_bytes r bytes :
  (0 < max_bytes)%Z -> copy_all net deadline max_bytes = (r, bytes) ->
  r <> Err OutOfPasses /\ (Z.of_nat (String.length bytes) <= max_bytes)%Z /\
  (r = Ok tt -> exists chunks, bytes = joined chunks /\ served deadline max_bytes 0 0 chunks).
Proof.
  intros Hm. unfold copy_all. set (t0 := {| pass_number := 0; downloaded := 0; written := "" |}).
  assert (H0 : copying deadline max_bytes t0). { split; [done|]. split; [simpl; lia|]. by exists []. }
  destruct (passes_end (copy_chunk net deadline max_bytes) downloaded (copying deadline max_bytes) max_bytes
    (Z.to_pos (max_bytes + 2)) t0) as [[r' bytes'] Hp].
  - by intros t (_ & ? & _).
  - intros t Ht. apply copying_step in Ht. by destruct (copy_chunk _ _ _ _).
  - done.
  - simpl. rewrite Z2Pos.id; lia.
  - assert (H := passes_inv (copy_chunk net deadline max_bytes) (copying deadline max_bytes)
      (fun rb => fst rb <> Err OutOfPasses /\ (Z.of_nat (String.length (snd rb)) <= max_bytes)%Z /\
        (fst rb = Ok tt -> exists chunks, snd rb = joined chunks /\ served deadline max_bytes 0 0 chunks))).
    rewrite Hp. intros [= <- <-]. specialize (H ltac:(intros t Ht; apply copying_step in Ht;
      destruct (copy_chunk _ _ _ _) as [?|[? ?]]; [by destruct Ht|done]) (Z.to_pos (max_bytes + 2)) t0 H0).
    by rewrite Hp in H.
Qed.

End Requests.

(** ** Facts: the list of new releases *)

Lemma releases_of_all_elem modules x :
  x ∈ releases_of_all modules <-> fst x ∈ modules /\ snd x ∈ versions (fst x).
Proof.
  unfold releases_of_all. destruct x as [m r]. rewrite list_elem_of_In, in_concat. setoid_rewrite in_map_iff.
  rewrite !list_elem_of_In. simpl. split.
  - intros (l & (m' & <- & Hm) & Hr). apply in_map_iff in Hr as (r' & [= -> ->] & Hr). done.
  - intros [Hm Hr]. exists (map (pair m) (versions m)). split; [by exists m|]. by apply in_map.
Qed.

Definition candidate_before (a b : ReleaseCandidate) : Prop :=
  exists j k, semver_key (rc_version a) = Ok j /\ semver_key (rc_version b) = Ok k /\
    le_of (pair_compare str_compare key_compare) (rc_module_id a, j) (rc_module_id b, k) = true.

#[export] Instance candidate_le_preorder : TotalPreorder candidate_le.
Proof. exact (total_preorder_on (le_of (pair_compare str_compare key_compare)) fst _). Qed.

Lemma traverse_keyed_candidate cs keys :
  traverse keyed_candidate cs = Ok keys ->
  map snd keys = cs /\
  Forall (fun kc => exists k, semver_key (rc_version (snd kc)) = Ok k /\ fst kc = (rc_module_id (snd kc), k)) keys.
Proof.
  rewrite traverse_Ok. induction 1 as [|c kc cs keys Hk _ [IH IH']]; [by split; constructor|].
  unfold keyed_candidate in Hk. destruct (semver_key (rc_version c)) as [k|] eqn:Hs; [|done]. injection Hk as <-.
  simpl. split; [by rewrite IH|]. constructor; [|done]. by exists k.
Qed.

Lemma sort_candidates_sorted cs sorted :
  sort_candidates cs = Ok sorted -> Permutation sorted cs /\ StronglySorted candidate_before sorted.
Proof.
  unfold sort_candidates. intros H. apply res_bind_Ok in H as (keys & Hk & [= <-]).
  apply traverse_keyed_candidate in Hk as [Hs Hall]. split.
  - rewrite <- Hs. change (snd <$> sort_by candidate_le keys ≡ₚ snd <$> keys). by rewrite sort_by_perm.
  - apply (strongly_sorted_map (fun x y => candidate_le x y = true)); [|apply sort_by_sorted, _].
    intros x y Hx Hy Hle. rewrite sort_by_elem in Hx, Hy. rewrite Forall_forall in Hall.
    destruct (Hall _ Hx) as (j & Hj & Hfx), (Hall _ Hy) as (k & Hk & Hfy).
    exists j, k. unfold candidate_le in Hle. rewrite Hfx, Hfy in Hle. done.
Qed.

Lemma sort_candidates_Ok cs :
  Forall (fun c => fullmatch SEMVER_RE (rc_version c) = true) cs ->
  exists sorted, sort_candidates cs = Ok sorted /\ Permutation sorted cs /\ StronglySorted candidate_before sorted.
Proof.
  intros Hcs. destruct (traverse_total keyed_candidate cs) as [keys Hk].
  { eapply Forall_impl; [exact Hcs|]. intros c Hc. destruct (semver_key_total _ Hc) as [k Hs].
    exists ((rc_module_id c, k), c). unfold keyed_candidate. by rewrite Hs. }
  exists (map snd (sort_by candidate_le keys)). assert (H : sort_candidates cs = Ok (map snd (sort_by candidate_le keys))).
  { unfold sort_candidates. by rewrite Hk. }
  split; [exact H | by apply sort_candidates_sorted].
Qed.

(** A release of the current registry whose identity the base does not have. *)
Definition new_release (current base : list module) (c : ReleaseCandidate) : Prop :=
  exists m r, m ∈ current /\ r ∈ versions m /\ c = candidate_of m r /\
    forall b rb, b ∈ base -> rb ∈ versions b -> ~ (id b = id m /\ version rb = version r).

Lemma published_or_new current base m r :
  m ∈ current -> r ∈ versions m ->
  (exists b rb, b ∈ base /\ rb ∈ versions b /\ id b = id m /\ version rb = version r) \/
  new_release current base (candidate_of m r).
Proof.
  intros Hm Hr. destruct (decide ((id m, version r) ∈ map key_of (releases_of_all base))) as [Hin|Hni].
  - left. change (map ?f ?l) with (f <$> l) in Hin. apply list_elem_of_fmap in Hin as ([b rb] & [= Hi Hv] & Hb).
    apply releases_of_all_elem in Hb as [Hb Hrb]. by exists b, rb.
  - right. exists m, r. split_and!; try done. intros b rb Hb Hrb [Hi Hv]. apply Hni.
    change (map ?f ?l) with (f <$> l). apply list_elem_of_fmap. exists (b, rb). split; [|by apply releases_of_all_elem].
    unfold key_of. simpl. congruence.
Qed.

Lemma find_new_releases_Ok current base :
  Forall module_ok current ->
  exists cs, find_new_releases current base = Ok cs /\ StronglySorted candidate_before cs /\
    forall c, c ∈ cs <-> new_release current base c.
Proof.
  intros Hok. unfold find_new_releases. set (new := List.filter _ _).
  assert (Hnew : forall x, x ∈ new <-> (fst x ∈ current /\ snd x ∈ versions (fst x)) /\
    forall y, y ∈ releases_of_all base -> key_of y <> key_of x).
  { intros x. unfold new. rewrite list_elem_of_In, filter_In, <- list_elem_of_In, releases_of_all_elem.
    rewrite negb_true_iff, bool_decide_eq_false. apply and_iff_compat_l. change (map key_of ?l) with (key_of <$> l).
    rewrite list_elem_of_fmap. split; [intros H y Hy He; apply H; by exists y | intros H (y & He & Hy); by apply (H y)]. }
  destruct (sort_candidates_Ok (map (fun x => candidate_of (fst x) (snd x)) new)) as (cs & Hs & Hp & Hsort).
  { apply Forall_fmap, Forall_forall. intros x [[Hm Hr] _]%Hnew. simpl.
    rewrite Forall_forall in Hok. destruct (Hok _ Hm) as [_ _ _ _ _ _ _ _ Hrel].
    rewrite Forall_forall in Hrel. by destruct (Hrel _ Hr). }
  exists cs. split; [done|]. split; [done|]. intros c. rewrite Hp.
  change (map ?f new) with (f <$> new). rewrite list_elem_of_fmap. split.
  - intros (x & -> & [[Hm Hr] Hno]%Hnew). exists (fst x), (snd x). split_and!; try done.
    intros b rb Hb Hrb [Hi Hv]. apply (Hno (b, rb)); [by apply releases_of_all_elem|]. unfold key_of. simpl. congruence.
  - intros (m & r & Hm & Hr & -> & Hno). exists (m, r). split; [done|]. apply Hnew. split; [done|].
    intros [b rb] [Hb Hrb]%releases_of_all_elem. unfold key_of. simpl. intros [= Hi Hv]. by eapply (Hno b rb).
Qed.

(** ** Facts: the host *)

Record host_pinned (host : checkout) : Prop := {
  pinned_contract : exists text contract reference, config host = Some text /\
    json_loads text = Some (JObj contract) /\
    last_member "OCP_HOST_VERIFIER_REPOSITORY" contract = Some (JStr "oklabflensburg/open-city-planner") /\
    last_member "OCP_HOST_VERIFIER_REF" contract = Some (JStr reference) /\
    String.length reference = 40%nat /\ all_chars is_hex reference = true /\
    (forall k, k ∈ jkeys contract <-> k = "OCP_HOST_VERIFIER_REPOSITORY" \/ k = "OCP_HOST_VERIFIER_REF") /\
    strip (stdout (rev_parse host)) = reference;
  pinned_head : returncode (rev_parse host) = 0%Z;
  pinned_python : has_python host = true
}.

Lemma differs_from_false v s : differs_from v s = false <-> v = Some (JStr s).
Proof.
  unfold differs_from. rewrite negb_false_iff. split; [|intros ->; simpl; apply String.eqb_refl].
  destruct v as [v|]; simpl; [|done]. by intros ->%py_eq_str_r.
Qed.

Lemma last_member_jget k (l : members) v : last_member k l = Some v -> k ∈ jkeys l.
Proof.
  unfold last_member. intros H. assert (Hk : k ∈ jkeys (rev l)).
  { induction (rev l) as [|[k' w] l' IH]; simpl in *; [done|]. destruct (String.eqb_spec k' k) as [->|Hn]; [by left|].
    right. by apply IH. }
  unfold jkeys in *. by rewrite map_rev, list_elem_of_In, <- in_rev, <- list_elem_of_In in Hk.
Qed.

Lemma host_pinned_iff host : validate_host_verifier_checkout host = Ok tt <-> host_pinned host.
Proof.
  unfold validate_host_verifier_checkout, load_host_verifier_contract. split.
  - intros H. apply res_bind_Ok in H as (contract & Hc & H). destruct (config host) as [text|] eqn:Ht; [|done].
    destruct (json_loads text) as [[| | | | |l]|] eqn:Hj; try done.
    apply res_bind_Ok in Hc as (? & Hk%raise_if_Ok & Hc). apply res_bind_Ok in Hc as (? & Hr%raise_if_Ok & Hc).
    apply res_bind_Ok in Hc as (? & Hrep%raise_if_Ok & [= ->]).
    apply res_bind_Ok in H as (? & Hhead%raise_if_Ok & H%raise_if_Ok).
    apply orb_false_iff in Hhead as [Hz Hh]. apply negb_false_iff in Hz, H, Hr, Hk. apply differs_from_false in Hrep, Hh.
    rewrite Hh in Hr. simpl in Hr. apply andb_true_iff in Hr as [Hlen Hhex]. apply Nat.eqb_eq in Hlen.
    split; [|by apply Z.eqb_eq|done]. exists text, contract, (strip (stdout (rev_parse host))). split_and!; try done.
    apply andb_true_iff in Hk as [Hk1 Hk2]. rewrite forallb_forall in Hk1, Hk2. intros k. rewrite !list_elem_of_In. split.
    + intros Hin. apply Hk1, mem_true in Hin. repeat (apply elem_of_cons in Hin as [->|Hin]; [auto|]). by apply not_elem_of_nil in Hin.
    + intros Hk. apply list_elem_of_In, mem_true, Hk2. simpl. destruct Hk as [->| ->]; auto.
  - intros [(text & contract & reference & -> & -> & Hrep & Href & Hlen & Hhex & Hk & Hs) Hz Hp]. cbn [res_bind].
    assert (Hkeys : forallb (fun k => mem k ["OCP_HOST_VERIFIER_REPOSITORY"; "OCP_HOST_VERIFIER_REF"]) (jkeys contract)
      && forallb (fun k => mem k (jkeys contract)) ["OCP_HOST_VERIFIER_REPOSITORY"; "OCP_HOST_VERIFIER_REF"] = true).
    { apply andb_true_iff. split; apply forallb_forall; intros k Hin; apply mem_true; apply list_elem_of_In in Hin.
      - apply Hk in Hin as [->| ->]; [by left | by right; left].
      - apply Hk. repeat (apply elem_of_cons in Hin as [->|Hin]; [auto|]). by apply not_elem_of_nil in Hin. }
    rewrite Hkeys. cbn [negb raise_if res_bind]. rewrite Href. cbn [is_full_ref]. rewrite Hlen, Hhex. cbn [Nat.eqb andb negb raise_if res_bind].
    rewrite (proj2 (differs_from_false _ _) Hrep). cbn [raise_if res_bind]. rewrite Href, Hz, Hs.
    rewrite (proj2 (differs_from_false (Some (JStr reference)) reference) eq_refl). cbn. by rewrite Hp.
Qed.

Section Gate.
Context (sha256_of : string -> string) (cli : option string -> string -> option (process * bool)) (nets : nat -> network).

(** The host accepted the bytes as this module and version. *)
Definition host_accepts (host : checkout) (c : ReleaseCandidate) (bytes : string) : Prop :=
  exists result line verified,
    cli (if host_has_builtin_module host (rc_module_id c) then Some (rc_module_id c) else None) bytes = Some (result, false) /\
    returncode result = 0%Z /\ last (splitlines (stdout result)) = Some line /\ json_loads line = Some (JObj verified) /\
    last_member "module_id" verified = Some (JStr (rc_module_id c)) /\
    last_member "version" verified = Some (JStr (rc_version c)).

Lemma run_host_verifier_iff c bytes host : run_host_verifier cli c bytes host = Ok tt <-> host_accepts host c bytes.
Proof.
  unfold run_host_verifier, host_accepts. destruct (cli _ bytes) as [[result locked]|];
    [|split; [done | by intros (? & ? & ? & [=] & _)]]. split.
  - intros H. apply res_bind_Ok in H as (? & Hz%raise_if_Ok & H). apply negb_false_iff, Z.eqb_eq in Hz.
    destruct (last (splitlines (stdout result))) as [line|] eqn:Hl; [|done].
    destruct (json_loads line) as [[| | | | |verified]|] eqn:Hj; try done.
    apply res_bind_Ok in H as (? & Hid%raise_if_Ok & H%raise_if_Ok). apply orb_false_iff in Hid as [Hi Hv].
    apply differs_from_false in Hi, Hv. subst locked. by exists result, line, verified.
  - intros (result' & line & verified & [= <- ->] & Hz & Hl & Hj & Hi & Hv). rewrite Hz. cbn [Z.eqb negb raise_if res_bind].
    rewrite Hl, Hj, (proj2 (differs_from_false _ _) Hi), (proj2 (differs_from_false _ _) Hv). done.
Qed.

(** The [n]th download gave the published digest, and the host accepts the bytes. *)
Definition release_checked (host : checkout) (timeout max_bytes : Z) (n : nat) (c : ReleaseCandidate) : Prop :=
  exists bytes, let d := download_artifact sha256_of (nets n) c None timeout max_bytes in
    result_ d = Ok (expected_sha256 c) /\ file d = Some bytes /\ sha256_of bytes = expected_sha256 c /\
    host_accepts host c bytes.

Lemma download_bytes net c destination timeout max_bytes digest :
  result_ (download_artifact sha256_of net c destination timeout max_bytes) = Ok digest ->
  exists bytes, file (download_artifact sha256_of net c destination timeout max_bytes) = Some bytes /\ digest = sha256_of bytes.
Proof.
  unfold download_artifact, download_with. destruct (_ || _ || _ || _); [done|].
  destruct (validate_candidate_url c) as [initial|]; [|done]. destruct (hostname initial) as [[|]|]; try done.
  destruct (open_url _ _ _ _ _ _ _) as [[len|e] urls]; [|done]. destruct (check_length max_bytes len) as [checked|]; [|done].
  destruct destination; [done|]. destruct (destination_open net); [done|].
  destruct (copy_all _ _ _) as [[u|e] bytes]; [|done]. simpl. intros [= <-]. by exists bytes.
Qed.

Lemma verify_one_iff n c host timeout max_bytes :
  fst (verify_one sha256_of cli nets n c host timeout max_bytes) = Ok tt <-> release_checked host timeout max_bytes n c.
Proof.
  unfold verify_one, release_checked. cbv zeta. set (d := download_artifact _ _ _ _ _ _). split.
  - destruct (result_ d) as [digest|] eqn:Hr; [|done]. destruct (String.eqb_spec digest (expected_sha256 c)) as [->|]; [|done].
    cbn [negb]. destruct (run_host_verifier cli c _ host) as [[]|] eqn:Hv; [|done]. intros _.
    destruct (download_bytes _ _ _ _ _ _ Hr) as (bytes & Hf & Hd). fold d in Hf. rewrite Hf in Hv.
    exists bytes. split_and!; try done. by apply run_host_verifier_iff.
  - intros (bytes & -> & Hf & _ & Hv). rewrite String.eqb_refl. cbn [negb]. rewrite Hf. simpl.
    by rewrite (proj2 (run_host_verifier_iff _ _ _) Hv).
Qed.

Lemma verify_each_iff host timeout max_bytes cs : forall n,
  fst (verify_each sha256_of cli nets n cs host timeout max_bytes) = Ok tt <->
  forall i c, cs !! i = Some c -> release_checked host timeout max_bytes (n + i) c.
Proof.
  induction cs as [|c cs IH]; intros n; simpl; [by split|]. specialize (IH (S n)).
  assert (H := verify_one_iff n c host timeout max_bytes).
  destruct (verify_one _ _ _ n c host timeout max_bytes) as [[[]|e] lines]; simpl in *.
  - destruct (verify_each _ _ _ (S n) cs host timeout max_bytes) as [r more]. simpl in *. rewrite IH. split.
    + intros Hr [|i] c' Hc; simpl in Hc; [injection Hc as <-; rewrite Nat.add_0_r; by apply H|].
      rewrite Nat.add_succ_r. by apply Hr.
    + intros Hr i c' Hc. specialize (Hr (S i) c' Hc). by rewrite Nat.add_succ_r in Hr.
  - split; [done|]. intros Hr. specialize (Hr 0%nat c eq_refl). rewrite Nat.add_0_r in Hr. by apply H in Hr.
Qed.

(** The command exits with 0 exactly when there is nothing new, or the host is
    the pinned one and every new release is checked. *)
Lemma release_gate_exact current base host here timeout :
  Forall module_ok current ->
  exists candidates, find_new_releases current base = Ok candidates /\
    (forall c, c ∈ candidates <-> new_release current base c) /\
    (fst (verify_command sha256_of cli nets (Ok current) (Ok base) host here timeout false) = Exit 0 <->
     candidates = [] \/ exists h, host = Some h /\ host_pinned h /\
       forall n c, candidates !! n = Some c -> release_checked h timeout MAX_ARTIFACT_BYTES n c).
Proof.
  intros Hok. destruct (find_new_releases_Ok current base Hok) as (cs & Hcs & _ & Hnew). exists cs.
  split; [done|]. split; [done|]. unfold verify_command. rewrite Hcs.
  assert (Hcaught : forall e, caught_verification e <> Exit 0) by by intros [| [] | |].
  destruct cs as [|c cs]; [split; [by left | done]|]. cbn [length Nat.eqb negb andb].
  destruct host as [h|]; [|split; [done | by intros [|(? & ? & _)]]].
  rewrite bool_decide_eq_false_2 by done. change (default here (Some h)) with h. unfold verify_release_candidates.
  assert (Hp := host_pinned_iff h). assert (He := verify_each_iff h timeout MAX_ARTIFACT_BYTES (c :: cs) 0).
  destruct (validate_host_verifier_checkout h) as [[]|e].
  - destruct (verify_each _ _ _ _ _ _ _ _) as [[[]|e] lines]; simpl in *; split.
    + intros _. right. exists h. split; [done|]. split; [by apply Hp|]. by apply He.
    + done.
    + intros H. by apply Hcaught in H.
    + intros [|(h' & [= <-] & _ & H)]; [done|]. by apply He in H.
  - split; [intros H; by apply Hcaught in H|]. intros [|(h' & [= <-] & H & _)]; [done|]. by apply Hp in H.
Qed.

Lemma validate_command_base current base :
  fst (validate_command (Ok current) (Some (Ok base))) = Exit 0 -> preserves current base.
Proof.
  unfold validate_command. destruct (validate_immutability current base) as [[]|e] eqn:H.
  - intros _. by apply validate_immutability_sound.
  - by destruct e.
Qed.

(** ** Properties *)

(** What may be requested: the URL of the candidate, when it is the one the
    policy allows for this module and version, and from GitHub its asset host. *)
Definition approved_request (c : ReleaseCandidate) (u : string) : Prop :=
  u = artifact_url c /\ artifact_policy (rc_classification c) (rc_module_id c) (rc_version c) u \/
  (exists p, urlsplit (artifact_url c) = Ok p /\ hostname p = Some "github.com") /\ redirect_policy u.

Lemma validate_candidate_url_Ok c p :
  validate_candidate_url c = Ok p ->
  urlsplit (artifact_url c) = Ok p /\ artifact_policy (rc_classification c) (rc_module_id c) (rc_version c) (artifact_url c).
Proof.
  unfold validate_candidate_url. intros H. split; [|by apply validate_artifact_url_Ok in H as (u & [= <-] & H)].
  unfold validate_artifact_url in H. apply res_bind_Ok in H as (p' & Hp & H).
  apply _https_url_Ok in Hp as (u & [= <-] & _ & Hu & _).
  do 4 (apply res_bind_Ok in H as (? & _ & H)). injection H as <-. done.
Qed.

Lemma check_length_ends max_bytes len e : check_length max_bytes len = Err e -> e <> OutOfPasses.
Proof.
  unfold check_length. destruct len as [text|]; [|done]. destruct (int_text text); [|by intros [= <-]].
  by intros [_ <-]%raise_if_Err.
Qed.

(** A download stops before the file, or copies into a new one. *)
Lemma download_cases net c destination timeout max_bytes :
  let d := download_artifact sha256_of net c destination timeout max_bytes in
  Forall (approved_request c) (requested d) /\ (length (requested d) <= 4)%nat /\
  ((file d = destination /\ exists e, result_ d = Err e /\ e <> OutOfPasses) \/
   (destination = None /\ (0 < max_bytes)%Z /\ exists copied bytes,
      copy_all net (monotonic net 0 + MAX_DOWNLOAD_SECONDS) max_bytes = (copied, bytes) /\ file d = Some bytes /\
      result_ d = match copied with Ok _ => Ok (sha256_of bytes) | Err e => Err e end)).
Proof.
  cbv zeta. unfold download_artifact, download_with.
  assert (Hstop : forall e urls, e <> OutOfPasses -> Forall (approved_request c) urls -> (length urls <= 4)%nat ->
    let d := {| result_ := Err e; file := destination; requested := urls |} in
    Forall (approved_request c) (requested d) /\ (length (requested d) <= 4)%nat /\
    ((file d = destination /\ exists e, result_ d = Err e /\ e <> OutOfPasses) \/
     (destination = None /\ (0 < max_bytes)%Z /\ exists copied bytes,
        copy_all net (monotonic net 0 + MAX_DOWNLOAD_SECONDS) max_bytes = (copied, bytes) /\ file d = Some bytes /\
        result_ d = match copied with Ok _ => Ok (sha256_of bytes) | Err e => Err e end))).
  { intros e urls He Hu Hl d. split; [done|]. split; [done|]. left. split; [done|]. by exists e. }
  destruct (Z.leb timeout 0 || _ || Z.leb max_bytes 0 || _) eqn:Hlim; [apply Hstop; [done|done|simpl; lia]|].
  assert (Hm : (0 < max_bytes)%Z) by (apply orb_false_iff in Hlim as [[_ Hlim]%orb_false_iff _]; by apply Z.leb_gt in Hlim).
  destruct (validate_candidate_url c) as [initial|e] eqn:Hv; [|apply Hstop; [done|done|simpl; lia]].
  apply validate_candidate_url_Ok in Hv as [Hsplit Hpol].
  destruct (hostname initial) as [[|ch h]|] eqn:Hh; try (apply Hstop; [done|done|simpl; lia]).
  destruct (open_url _ _ _ _ _ _ _) as [response urls] eqn:Ho.
  apply open_url_requests in Ho as (Hr & rest & -> & Hlen & Hall).
  assert (Happ : Forall (approved_request c) (artifact_url c :: rest)).
  { constructor; [by left|]. eapply Forall_impl; [exact Hall|]. intros u [Hg Hu]. right. split; [|done]. exists initial.
    split; [done|]. by rewrite Hh, Hg. }
  assert (Hfour : (length (artifact_url c :: rest) <= 4)%nat) by (change (Z.to_nat MAX_REDIRECTS) with 3%nat in Hlen; simpl; lia).
  destruct response as [len|e]; [|apply Hstop; congruence || done].
  destruct (check_length max_bytes len) as [u|e] eqn:Hl; [|apply Hstop; by eauto using check_length_ends].
  destruct destination as [old|]; [by apply Hstop|]. destruct (destination_open net) as [e|]; [apply Hstop; by destruct e|].
  destruct (copy_all _ _ _) as [copied bytes] eqn:Hcopy. split; [done|]. split; [done|]. right. split; [done|]. split; [done|].
  by exists copied, bytes.
Qed.

(** C16. A download is bounded and stays within the policy, whatever the network
    does.  The loop ends; at most four URLs are requested, the candidate's own
    (which must satisfy the artifact policy) and targets on GitHub's asset host;
    the file never holds more than [max_bytes] and an existing file is left
    alone; and when a digest is returned, it is that of the bytes in the new
    file, which are all that the network sent up to the end of the body, each
    read begun before the deadline. *)
Theorem download_sound net c destination timeout max_bytes :
  let d := download_artifact sha256_of net c destination timeout max_bytes in
  result_ d <> Err OutOfPasses /\
  Forall (approved_request c) (requested d) /\ (length (requested d) <= 4)%nat /\
  match destination with
  | Some old => file d = Some old /\ is_ok (result_ d) = false
  | None => forall bytes, file d = Some bytes -> (Z.of_nat (String.length bytes) <= max_bytes)%Z
  end /\
  (forall digest, result_ d = Ok digest ->
     exists chunks, file d = Some (joined chunks) /\ digest = sha256_of (joined chunks) /\
       served net (monotonic net 0 + MAX_DOWNLOAD_SECONDS) max_bytes 0 0 chunks).
Proof.
  cbv zeta. destruct (download_cases net c destination timeout max_bytes)
    as (Hreq & Hlen & [(Hf & e & He & Hne)|(-> & Hm & copied & bytes & Hc & Hf & Hr)]).
  - rewrite He, Hf. split; [congruence|]. split; [done|]. split; [done|]. by destruct destination.
  - apply copy_all_sound in Hc as (Hend & Hmax & Hok); [|done]. rewrite Hr, Hf. split; [destruct copied; congruence|].
    split; [done|]. split; [done|]. split; [by intros ? [= <-]|]. intros digest Hd.
    destruct copied as [[]|]; [|done]. injection Hd as <-. destruct (Hok eq_refl) as (chunks & -> & Hs). by exists chunks.
Qed.

(** C14. What the two checks of a change establish together.  When the registry
    validates against the published base and the artifact check exits with 0,
    every published release is still there as it was (up to the move to the
    canonical URL), and every other release was downloaded with the digest the
    registry states and accepted, as this module and version, by the host at the
    pinned commit. *)
Theorem change_checked current base host here timeout :
  NoDup (map id current) -> Forall module_ok current ->
  fst (validate_command (Ok current) (Some (Ok base))) = Exit 0 ->
  fst (verify_command sha256_of cli nets (Ok current) (Ok base) host here timeout false) = Exit 0 ->
  preserves current base /\
  forall m r, m ∈ current -> r ∈ versions m ->
    (exists b rb, b ∈ base /\ rb ∈ versions b /\ same_provenance m b /\ frozen (id b) r rb) \/
    (exists h n, host = Some h /\ host_pinned h /\
       release_checked h timeout MAX_ARTIFACT_BYTES n (candidate_of m r)).
Proof.
  intros Hids Hok Hval Hver. apply validate_command_base in Hval. split; [done|]. intros m r Hm Hr.
  destruct (release_gate_exact current base host here timeout Hok) as (cs & _ & Hnew & Hgate).
  apply Hgate in Hver. clear Hgate.
  destruct (published_or_new current base m r Hm Hr) as [(b & rb & Hb & Hrb & Hi & Hv)|Hc%Hnew].
  - left. destruct (Hval b Hb) as (m' & Hm' & Hsame & Hall). destruct (Hall rb Hrb) as (r' & Hr' & Hf).
    assert (m' = m) as ->.
    { apply (NoDup_map_inj id current); try done. by rewrite (same_id _ _ Hsame). }
    assert (r' = r) as ->.
    { rewrite Forall_forall in Hok. destruct (Hok m Hm) as [_ _ _ _ _ _ _ Hd _].
      apply (NoDup_map_inj version (versions m)); try done. by rewrite (frozen_version _ _ _ Hf). }
    by exists b, rb.
  - right. destruct Hver as [->|(h & Hh & Hp & Hall)]; [by apply not_elem_of_nil in Hc|].
    apply list_elem_of_lookup in Hc as [n Hc]. exists h, n. by split_and!; [..|apply Hall].
Qed.

End Gate.

(** ** Example: one new release, served through a redirect *)

Definition asset_url : string :=
  "https://release-assets.githubusercontent.com/github-production-release-asset/1/hello.ocp".

Definition example_network : network :=
  {| send := fun n _ => if Nat.eqb n 0 then Answer 302 (Target asset_url) None else Answer 200 NoLocation (Some " 1_0 ");
     read := fun k _ => if Nat.ltb k 2 then Chunk "bytes" else Chunk "";
     monotonic := Z.of_nat; destination_open := None; write := fun _ => None; destination_close := None |}.

Definition example_ref : string := zeros 40.

Definition example_checkout : checkout :=
  {| config := Some (canonical_json (JObj [("OCP_HOST_VERIFIER_REPOSITORY", JStr "oklabflensburg/open-city-planner");
                                           ("OCP_HOST_VERIFIER_REF", JStr example_ref)]));
     rev_parse := {| returncode := 0; stdout := example_ref +:+ newline; stderr := "" |};
     has_python := true; is_file := String.eqb "backend/app/modules/hello/module.py" |}.

(** The host excludes its own copy and names the bundle in its last line. *)
Definition example_cli (excluded : option string) (bytes : string) : option (process * bool) :=
  if bool_decide (excluded = Some "hello") && String.eqb bytes "bytesbytes" then
    Some ({| returncode := 0; stderr := "";
             stdout := "checking" +:+ newline +:+ "{" +:+ dquote "module_id" +:+ ": " +:+ dquote "hello" +:+ ", "
                       +:+ dquote "version" +:+ ": " +:+ dquote "1.1.0" +:+ "}" +:+ newline |}, false)
  else None.

Definition example_sha (bytes : string) : string := zeros 64.

Example example_download :
  let d := download_artifact example_sha example_network (candidate_of example_new (example_release "1.1.0" "stable" (github_url "1.1.0")))
             None DEFAULT_TIMEOUT MAX_ARTIFACT_BYTES in
  result_ d = Ok (zeros 64) /\ file d = Some "bytesbytes" /\ requested d = [github_url "1.1.0"; asset_url].
Proof. vm_compute. auto. Qed.

(** A body longer than the limit is cut off before it is written. *)
Example example_too_long :
  let d := download_artifact example_sha example_network (candidate_of example_new (example_release "1.1.0" "stable" (github_url "1.1.0")))
             None DEFAULT_TIMEOUT 7 in
  result_ d = Err (ArtifactVerificationError "artifact Content-Length exceeds size limit") /\ file d = None.
Proof. vm_compute. auto. Qed.

Example example_redirect_elsewhere :
  validate_redirect_target "https://example.org/github-production-release-asset/1" "github.com"
  = Err (ArtifactVerificationError "artifact redirect target is not policy-approved").
Proof. vm_compute. reflexivity. Qed.

(** A malformed redirect target is no policy error: the exception escapes. *)
Lemma malformed_redirect_escapes :
  validate_redirect_target "https://[x/github-production-release-asset/1" "github.com" = Err (Escaped "ValueError").
Proof. vm_compute. reflexivity. Qed.

Lemma download_sound_witness :
  let d := download_artifact example_sha example_network (candidate_of example_new (example_release "1.1.0" "stable" (github_url "1.1.0")))
             None DEFAULT_TIMEOUT MAX_ARTIFACT_BYTES in
  result_ d = Ok (zeros 64) /\ exists chunks, file d = Some (joined chunks).
Proof.
  assert (Hr := proj1 example_download). split; [exact Hr|].
  destruct (download_sound example_sha example_network (candidate_of example_new (example_release "1.1.0" "stable" (github_url "1.1.0")))
    None DEFAULT_TIMEOUT MAX_ARTIFACT_BYTES) as (_ & _ & _ & _ & Hd).
  destruct (Hd _ Hr) as (chunks & Hf & _). exists chunks. exact Hf.
Defined.

Lemma example_new_ok : module_ok example_new.
Proof.
  assert (Hv : validate_module any_schema (module_json example_new) "hello.json" (Some "hello") = Ok tt) by (vm_compute; reflexivity).
  apply module_decode in Hv as (m & Hm & Hok & _).
  assert (Hd : module_of_json (module_json example_new) = Some example_new) by (vm_compute; reflexivity).
  congruence.
Qed.

Lemma example_gate :
  verify_command example_sha example_cli (fun _ => example_network) (Ok [example_new]) (Ok [example_old])
    (Some example_checkout) example_checkout DEFAULT_TIMEOUT false
  = (Exit 0, ["verifying hello@1.1.0"; "download ok"; "sha256 ok"; "host verifier ok"]).
Proof. vm_compute. reflexivity. Qed.

Lemma change_checked_witness :
  preserves [example_new] [example_old] /\
  exists h n, release_checked example_sha example_cli (fun _ => example_network) h DEFAULT_TIMEOUT MAX_ARTIFACT_BYTES n
    (candidate_of example_new (example_release "1.1.0" "stable" (github_url "1.1.0"))).
Proof.
  destruct (change_checked example_sha example_cli (fun _ => example_network) [example_new] [example_old]
    (Some example_checkout) example_checkout DEFAULT_TIMEOUT) as [Hp Hall].
  - apply NoDup_singleton.
  - apply Forall_singleton, example_new_ok.
  - vm_compute. reflexivity.
  - rewrite example_gate. reflexivity.
  - split; [exact Hp|].
    destruct (Hall example_new (example_release "1.1.0" "stable" (github_url "1.1.0"))) as [(b & rb & Hb & Hrb & _ & Hf)|(h & n & _ & _ & Hc)].
    + by left.
    + by left.
    + exfalso. apply frozen_version in Hf. apply list_elem_of_singleton in Hb as ->.
      assert (Hno : "1.1.0" ∉ map version (versions example_old)) by (apply (bool_decide_unpack _); vm_compute; exact I).
      apply Hno. change (map version ?l) with (version <$> l). apply list_elem_of_fmap. exists rb. split; [exact Hf | exact Hrb].
    + exists h, n. exact Hc.
Defined.
