(* ===== verification/Publishing.v ===== *)
(** * Publication of registry releases: scripts/publish_artifacts.py

    Every release of a validated registry is brought into the artifact store:
    from where its URL points to, after the digest and the pinned host agree, or
    not at all when it is there already.  The store is any implementation of
    [StoreOps]; downloads and the host are those of [Releases].  A downloaded
    file is put where the store can read it by the parameter [materialize]; the
    hard link for the host may fail.  The creation of a temporary directory is
    not represented. *)

#[local] Set Warnings "-notation-overridden".

From S2P Require Import Prelude PyText SemVer Json JsonText Url Validate Registry ArtifactStore StoreProtocol Releases.

Open Scope string_scope.
Open Scope list_scope.

(** [ArtifactPublishingError] is [ArtifactStoreError]. *)
Inductive publish_exn :=
| StoreError (e : os_exn)
| Failure (e : verification_exn).

Definition publishing (msg : string) : publish_exn := StoreError (ArtifactStoreError msg).

Record PublishResult := { pr_candidate : ReleaseCandidate; target_path : list string; pr_status : status_ }.

Abbreviation BulkPublishResult := (list PublishResult).

Definition is_published (r : PublishResult) : bool :=
  match pr_status r with STATUS_PUBLISHED => true | STATUS_ALREADY_PRESENT => false end.

Definition published (b : BulkPublishResult) : list PublishResult := List.filter is_published b.
Definition already_present (b : BulkPublishResult) : list PublishResult := List.filter (fun r => negb (is_published r)) b.

(** ** Selection *)

Definition _candidate_from_release (m : module) (r : release) : res exn ReleaseCandidate :=
  let candidate := candidate_of m r in
  validate_candidate_url candidate ;?
  Ok candidate.

Definition select_release (registry : res exn (list module)) (module_id version_ : string)
    : res publish_exn ReleaseCandidate :=
  let registry_error {A} (r : res exn A) : res publish_exn A :=
    match r with Ok a => Ok a | Err e => Err (Failure (RegistryError e)) end in
  let? canonical_id := registry_error (validate_module_id (JStr module_id) "--module") in
  let? canonical_version := registry_error (validate_semver (JStr version_) "--version") in
  let? modules := registry_error registry in
  match List.find (fun m => String.eqb (id m) canonical_id) modules with
  | None => Err (publishing ("module " +:+ dquote canonical_id +:+ " is not published"))
  | Some m =>
      match List.find (fun r => String.eqb (version r) canonical_version) (versions m) with
      | None => Err (publishing ("release " +:+ dquote (canonical_id +:+ "@" +:+ canonical_version) +:+ " is not published"))
      | Some r => registry_error (_candidate_from_release m r)
      end
  end.

Definition select_all_releases (registry : res exn (list module)) : res exn (list ReleaseCandidate) :=
  let? modules := registry in
  let? candidates := traverse (fun x => _candidate_from_release (fst x) (snd x)) (releases_of_all modules) in
  sort_candidates candidates.

(** ** Publication *)

Section Publication.
Context {S : Type} `{!StoreOps S} (sha256_of : string -> string).
Context (cli : option string -> string -> option (process * bool)) (nets : nat -> network) (link_fails : nat -> bool).
Context (root : list string) (materialize : string -> string -> S -> path_ * S).
(** The text of an [OSError]. *)
Context (strerror : os_exn -> string).

Definition _verify_partial_artifact (n : nat) (candidate : ReleaseCandidate) (partial : string) (host : checkout)
    : res publish_exn unit :=
  if link_fails n then Err (StoreError OSError)
  else match run_host_verifier cli candidate partial host with Ok _ => Ok tt | Err e => Err (Failure e) end.

(** The [except] clauses of the intake. *)
Definition intake_failed (e : publish_exn) : publish_exn :=
  match e with
  | Failure (ArtifactVerificationError msg) => publishing msg
  | StoreError e => if is_oserror e then publishing "Artifact intake failed" else StoreError e
  | e => e
  end.

(** The bytes that go into the store. *)
Definition intake (n : nat) (candidate : ReleaseCandidate) (host : option checkout) (timeout max_bytes : Z)
    : res publish_exn string :=
  let d := download_artifact sha256_of (nets n) candidate None timeout max_bytes in
  match result_ d with
  | Err e => Err (Failure e)
  | Ok actual_sha256 =>
      raise_if (negb (String.eqb actual_sha256 (expected_sha256 candidate)))
        (publishing (identity candidate +:+ ": downloaded SHA-256 does not match Registry metadata")) ;?
      let partial := default "" (file d) in
      match host with Some h => _verify_partial_artifact n candidate partial h | None => Ok tt end ;?
      Ok partial
  end.

Definition published_as_target (candidate : ReleaseCandidate) (relative : list string)
    (r : res os_exn Publication * S) : res os_exn PublishResult * S :=
  (match fst r with
   | Ok p => Ok {| pr_candidate := candidate; target_path := root ++ relative; pr_status := pub_status p |}
   | Err e => Err e
   end, snd r).

Definition store_result (r : res os_exn PublishResult * S) : res publish_exn PublishResult * S :=
  (match fst r with Ok p => Ok p | Err e => Err (StoreError e) end, snd r).

(** The [n]th candidate; [host] when [--host-verifier-root] is given. *)
Definition publish_candidate (n : nat) (candidate : ReleaseCandidate) (host : option checkout) (timeout max_bytes : Z)
    (s : S) : res publish_exn PublishResult * S :=
  let m := rc_module_id candidate in
  let v := rc_version candidate in
  match validate_candidate_url candidate with
  | Err e => (Err (Failure (RegistryError e)), s)
  | Ok source =>
      match canonical_artifact_relative_path m v with
      | Err e => (Err (Failure (RegistryError e)), s)
      | Ok relative =>
          match store_verify m v (expected_sha256 candidate) s with
          | (Ok _, s) =>
              let target := {| is_absolute := true; parts := root ++ relative |} in
              store_result (published_as_target candidate relative
                (store_publish m v target (expected_sha256 candidate) s))
          | (Err (ArtifactNotFound _), s) =>
              if bool_decide (hostname source = Some CANONICAL_REGISTRY_HOST)
              then (Err (publishing (identity candidate
                      +:+ ": canonical mirror metadata references a missing local artifact")), s)
              else
                match match host with Some h => validate_host_verifier_checkout h | None => Ok tt end with
                | Err e => (Err (Failure e), s)
                | Ok _ =>
                    match intake n candidate host timeout max_bytes with
                    | Err e => (Err (intake_failed e), s)
                    | Ok bytes =>
                        let name := "." +:+ List.last relative "" +:+ ".download.partial" in
                        let '(partial, s) := materialize name bytes s in
                        let '(r, s) := published_as_target candidate relative
                                         (store_publish m v partial (expected_sha256 candidate) s) in
                        (match r with Ok p => Ok p | Err e => Err (intake_failed (StoreError e)) end, s)
                    end
                end
          | (Err e, s) => (Err (StoreError e), s)
          end
      end
  end.

Definition publish_from_registry (registry : res exn (list module)) (module_id version_ : string)
    (host : option checkout) (timeout : Z) (s : S) : res publish_exn PublishResult * S :=
  match select_release registry module_id version_ with
  | Err e => (Err e, s)
  | Ok candidate => publish_candidate 0 candidate host timeout MAX_ARTIFACT_BYTES s
  end.

(** [str(exc)], for the exceptions the loop catches. *)
Definition caught_text (e : publish_exn) : option string :=
  match e with
  | StoreError (InvalidArtifact msg | ArtifactConflict msg | ArtifactNotFound msg | ArtifactStoreError msg) => Some msg
  | StoreError e => Some (strerror e)
  | Failure (ArtifactVerificationError msg) => Some msg
  | Failure _ => None
  end.

Definition named_failure (candidate : ReleaseCandidate) (e : publish_exn) : publish_exn :=
  match caught_text e with
  | Some text => if startswith (identity candidate +:+ ":") text then e
                 else publishing (identity candidate +:+ ": " +:+ text)
  | None => e
  end.

Fixpoint publish_each (n : nat) (candidates : list ReleaseCandidate) (host : option checkout) (timeout : Z) (s : S)
    : res publish_exn BulkPublishResult * S :=
  match candidates with
  | [] => (Ok [], s)
  | candidate :: candidates =>
      match publish_candidate n candidate host timeout MAX_ARTIFACT_BYTES s with
      | (Err e, s) => (Err (named_failure candidate e), s)
      | (Ok r, s) =>
          let '(rs, s) := publish_each (Datatypes.S n) candidates host timeout s in
          (match rs with Ok rs => Ok (r :: rs) | Err e => Err e end, s)
      end
  end.

Definition publish_all_from_registry (registry : res exn (list module)) (host : option checkout) (timeout : Z) (s : S)
    : res publish_exn BulkPublishResult * S :=
  match select_all_releases registry with
  | Err e => (Err (Failure (RegistryError e)), s)
  | Ok candidates => publish_each 0 candidates host timeout s
  end.

(** ** Verification of the public artifact *)

Definition public_candidate (c : ReleaseCandidate) (public_url : string) : ReleaseCandidate :=
  {| rc_module_id := rc_module_id c; rc_version := rc_version c; rc_channel := rc_channel c; artifact_url := public_url;
     expected_sha256 := expected_sha256 c; rc_classification := rc_classification c |}.

Definition verify_public_release (registry : res exn (list module)) (module_id version_ : string) (timeout max_bytes : Z)
    : res publish_exn string :=
  let? selected := select_release registry module_id version_ in
  match canonical_public_artifact_url module_id version_ with
  | Err e => Err (Failure (RegistryError e))
  | Ok public_url =>
      let c := public_candidate selected public_url in
      match validate_candidate_url c with
      | Err e => Err (Failure (RegistryError e))
      | Ok _ =>
          match result_ (download_artifact sha256_of (nets 0) c None timeout max_bytes) with
          | Err e => Err (Failure e)
          | Ok actual_sha256 =>
              raise_if (negb (String.eqb actual_sha256 (expected_sha256 selected)))
                (publishing (identity selected +:+ ": public SHA-256 does not match Registry metadata")) ;?
              Ok public_url
          end
      end
  end.

(** ** The command *)

(** The mode of the command line: [--all], [--verify-public], or neither. *)
Inductive mode := AllReleases | VerifyPublic | SingleRelease.

Record publish_arguments := {
  pa_mode : mode; pa_module : option string; pa_version : option string; pa_artifact_root : bool; pa_timeout : Z
}.

Inductive publish_ending :=
| UsageError (msg : string)
| Stopped (e : exit)
| BulkPrinted (b : BulkPublishResult)
| PublicVerified (url : string)
| ResultPrinted (r : PublishResult).

Definition publication_failed (e : publish_exn) : publish_ending :=
  Stopped (match e with StoreError _ => Exit 1 | Failure e => caught_verification e end).

Definition publish_command (a : publish_arguments) (registry : res exn (list module)) (host : option checkout) (s : S)
    : publish_ending * S :=
  match pa_mode a, pa_module a, pa_version a, pa_artifact_root a with
  | AllReleases, None, None, true =>
      let '(r, s) := publish_all_from_registry registry host (pa_timeout a) s in
      (match r with Ok b => BulkPrinted b | Err e => publication_failed e end, s)
  | AllReleases, _, _, _ => (UsageError "--all requires --artifact-root and does not accept --module/--version", s)
  | VerifyPublic, Some m, Some v, false =>
      (match verify_public_release registry m v (pa_timeout a) MAX_ARTIFACT_BYTES with
       | Ok url => PublicVerified url
       | Err e => publication_failed e
       end, s)
  | VerifyPublic, _, _, _ => (UsageError "--verify-public requires --module and --version only", s)
  | SingleRelease, Some m, Some v, true =>
      let '(r, s) := publish_from_registry registry m v host (pa_timeout a) s in
      (match r with Ok p => ResultPrinted p | Err e => publication_failed e end, s)
  | SingleRelease, _, _, _ => (UsageError "single publication requires --module, --version, and --artifact-root", s)
  end.

(** ** Facts *)

Lemma select_all_releases_Ok modules candidates :
  select_all_releases (Ok modules) = Ok candidates ->
  StronglySorted candidate_before candidates /\
  Permutation candidates (map (fun x => candidate_of (fst x) (snd x)) (releases_of_all modules)).
Proof.
  unfold select_all_releases. cbn [res_bind]. intros H. apply res_bind_Ok in H as (cs & Hcs & H).
  apply sort_candidates_sorted in H as [Hp Hs]. split; [done|]. rewrite Hp. clear Hp Hs.
  apply traverse_Ok in Hcs. induction Hcs as [|x c l cs Hx _ IH]; [done|]. simpl. rewrite IH.
  unfold _candidate_from_release in Hx. by apply res_bind_Ok in Hx as (? & _ & [= <-]).
Qed.

Context `{!StoreSpec S}.
Hypothesis materialize_keeps : forall n b s path s', materialize n b s = (path, s') ->
  forall m v dg, holds s m v dg -> holds s' m v dg.

Definition keeps_all (s s' : S) : Prop := forall m v dg, holds s m v dg -> holds s' m v dg.

Definition in_store (s : S) (c : ReleaseCandidate) : Prop :=
  holds s (rc_module_id c) (rc_version c) (expected_sha256 c).

(** The bytes came from the URL of the release with its digest, and the host, if
    there is one, is the pinned one and accepted them. *)
Definition admitted (host : option checkout) (timeout : Z) (n : nat) (c : ReleaseCandidate) (bytes : string) : Prop :=
  let d := download_artifact sha256_of (nets n) c None timeout MAX_ARTIFACT_BYTES in
  result_ d = Ok (expected_sha256 c) /\ file d = Some bytes /\ sha256_of bytes = expected_sha256 c /\
  forall h, host = Some h -> host_pinned h /\ host_accepts cli h c bytes.

Lemma intake_Ok n c host timeout bytes :
  match host with Some h => validate_host_verifier_checkout h | None => Ok tt end = Ok tt ->
  intake n c host timeout MAX_ARTIFACT_BYTES = Ok bytes -> admitted host timeout n c bytes.
Proof.
  unfold intake, admitted. intros Hhost H. destruct (result_ _) as [digest|e] eqn:Hr; [|done].
  apply res_bind_Ok in H as (? & Hd%raise_if_Ok & H). apply negb_false_iff, String.eqb_eq in Hd. subst digest.
  destruct (download_bytes _ _ _ _ _ _ _ Hr) as (b & Hf & Hd). rewrite Hf in *. simpl in H.
  apply res_bind_Ok in H as ([] & Hv & [= <-]). split_and!; try done. intros h ->. split; [by apply host_pinned_iff|].
  unfold _verify_partial_artifact in Hv. destruct (link_fails n); [done|].
  destruct (run_host_verifier _ _ _ _) as [[]|] eqn:Hrun; [|done]. by apply run_host_verifier_iff in Hrun.
Qed.

(** One candidate is published: the store verified its bytes under its version
    when its turn came, or it had nothing there, and admitted bytes were put into
    the file that the store then published. *)
Inductive publication (host : option checkout) (timeout : Z) (n : nat) (c : ReleaseCandidate) (s : S) (p : PublishResult) (s' : S) : Prop :=
| found a s1 pub target :
    store_verify (rc_module_id c) (rc_version c) (expected_sha256 c) s = (Ok a, s1) -> in_store s1 c ->
    store_publish (rc_module_id c) (rc_version c) target (expected_sha256 c) s1 = (Ok pub, s') ->
    pr_status p = pub_status pub -> publication host timeout n c s p s'
| taken_in msg source s1 bytes name partial s2 pub :
    store_verify (rc_module_id c) (rc_version c) (expected_sha256 c) s = (Err (ArtifactNotFound msg), s1) ->
    validate_candidate_url c = Ok source -> hostname source <> Some CANONICAL_REGISTRY_HOST ->
    admitted host timeout n c bytes ->
    materialize name bytes s1 = (partial, s2) ->
    store_publish (rc_module_id c) (rc_version c) partial (expected_sha256 c) s2 = (Ok pub, s') ->
    pr_status p = pub_status pub -> publication host timeout n c s p s'.

(** One candidate: the store only grows, and success is a publication. *)
Lemma publish_candidate_sound n c host timeout s r s' :
  publish_candidate n c host timeout MAX_ARTIFACT_BYTES s = (r, s') ->
  keeps_all s s' /\
  forall p, r = Ok p -> pr_candidate p = c /\ in_store s' c /\ publication host timeout n c s p s'.
Proof.
  unfold publish_candidate. assert (Hid : keeps_all s s) by by intros ? ? ?.
  destruct (validate_candidate_url c) as [source|] eqn:Hurl; [|by intros [= <- <-]].
  destruct (canonical_artifact_relative_path _ _) as [rel|]; [|by intros [= <- <-]].
  destruct (store_verify _ _ _ s) as [[a|e] s1] eqn:Hver;
    (assert (Hk1 : keeps_all s s1) by (intros ? ? ?; by eapply verify_keeps)).
  - unfold store_result, published_as_target. destruct (store_publish _ _ _ _ s1) as [[p|e] s2] eqn:Hpub; simpl;
      intros [= <- <-]; (assert (Hk2 : keeps_all s1 s2) by (intros ? ? ?; by eapply publish_keeps));
      (split; [intros ? ? ? Hh; by apply Hk2, Hk1|]); [|done].
    intros p' [= <-]. split; [done|]. split; [by eapply publish_holds|]. assert (Hin := Hver). apply verify_holds in Hin as [_ Hin].
    by eapply found.
  - destruct e; try (intros [= <- <-]; split; [done|discriminate]).
    case_bool_decide as Hhn; [intros [= <- <-]; split; [done|discriminate]|].
    destruct (match host with Some h => _ | None => _ end) as [[]|e] eqn:Hhost; [|intros [= <- <-]; split; [done|discriminate]].
    destruct (intake n c host timeout _) as [bytes|e] eqn:Hin; [|intros [= <- <-]; split; [done|discriminate]].
    destruct (materialize _ bytes s1) as [partial s2] eqn:Hm. unfold published_as_target.
    destruct (store_publish _ _ _ _ s2) as [[p|e] s3] eqn:Hpub; simpl; intros [= <- <-];
      (assert (Hk3 : keeps_all s2 s3) by (intros ? ? ?; by eapply publish_keeps));
      (split; [intros ? ? ? Hh; eapply Hk3, materialize_keeps, Hk1, Hh; exact Hm|]); [|discriminate].
    intros p' [= <-]. split; [done|]. split; [by eapply publish_holds|]. apply (intake_Ok n c host timeout bytes Hhost) in Hin.
    by eapply taken_in.
Qed.

Lemma named_failure_text c e text :
  caught_text (named_failure c e) = Some text -> startswith (identity c +:+ ":") text = true.
Proof.
  unfold named_failure. destruct (caught_text e) as [t|] eqn:Ht; [|congruence].
  destruct (startswith _ t) eqn:Hs; [congruence|]. intros [= <-].
  change (identity c +:+ ": " +:+ t) with (identity c +:+ (":" +:+ (" " +:+ t))). rewrite <- sapp_assoc. apply startswith_app.
Qed.

(** The candidates one after the other, each from the store that the one before
    it left. *)
Inductive publications (host : option checkout) (timeout : Z) : nat -> list ReleaseCandidate -> S -> list PublishResult -> S -> Prop :=
| none_left n s : publications host timeout n [] s [] s
| one_more n c cs s p s1 ps s' :
    pr_candidate p = c -> publication host timeout n c s p s1 -> keeps_all s s1 -> in_store s1 c ->
    publications host timeout (Datatypes.S n) cs s1 ps s' -> publications host timeout n (c :: cs) s (p :: ps) s'.

Lemma publications_stored host timeout n cs s ps s' :
  publications host timeout n cs s ps s' -> keeps_all s s' /\ Forall (in_store s') cs.
Proof.
  induction 1 as [n s|n c cs s p s1 ps s' Hc Hp Hk Hin _ [IHk IHin]]; [split; [by intros ? ? ?|constructor]|].
  split; [intros ? ? ? H; by apply IHk, Hk|]. constructor; [by apply IHk | done].
Qed.

Lemma publish_each_sound host timeout cs : forall n s r s',
  publish_each n cs host timeout s = (r, s') ->
  match r with
  | Ok results => publications host timeout n cs s results s'
  | Err e => exists before c after ps s1, cs = before ++ c :: after /\ publications host timeout n before s ps s1 /\
      keeps_all s1 s' /\ forall text, caught_text e = Some text -> startswith (identity c +:+ ":") text = true
  end.
Proof.
  induction cs as [|c cs IH]; intros n s r s'; simpl.
  - intros [= <- <-]. constructor.
  - destruct (publish_candidate n c host timeout MAX_ARTIFACT_BYTES s) as [[p|e] s1] eqn:Hp;
      apply publish_candidate_sound in Hp as [Hk Hok].
    + destruct (publish_each _ cs host timeout s1) as [rs s2] eqn:Hr. apply IH in Hr. intros [= <- <-].
      destruct (Hok p eq_refl) as (Hc & Hin & Hwhy). destruct rs as [rs|e].
      * by eapply one_more.
      * destruct Hr as (before & c' & after & ps & s3 & -> & Hs & Hk3 & Ht). exists (c :: before), c', after, (p :: ps), s3.
        split; [done|]. split; [by eapply one_more | done].
    + intros [= <- <-]. exists [], c, cs, [], s. split; [done|]. split; [constructor|]. split; [done|]. apply named_failure_text.
Qed.

(** ** Properties *)

(** C15. Publishing all releases.  The store never loses anything.  When the
    command prints its result, it handled exactly the releases of the registry,
    sorted by module and precedence, one after the other, and the store has the
    bytes of each under its version with the digest the registry states.  For
    each the store, when its turn came, verified that digest under its version, or
    it had nothing there, the URL was not the registry's own, the bytes were
    downloaded from the URL of the release, had the stated digest and were accepted
    by the host at the pinned commit, if a host is given, and these bytes were
    published.  When the command stops, this holds of all candidates before the one
    that failed, and a reported error names that candidate. *)
Theorem publish_all_sound modules host timeout s r s' :
  publish_all_from_registry (Ok modules) host timeout s = (r, s') ->
  keeps_all s s' /\
  match select_all_releases (Ok modules) with
  | Err e => r = Err (Failure (RegistryError e)) /\ s' = s
  | Ok candidates =>
      StronglySorted candidate_before candidates /\
      Permutation candidates (map (fun x => candidate_of (fst x) (snd x)) (releases_of_all modules)) /\
      match r with
      | Ok results => publications host timeout 0 candidates s results s' /\ Forall (in_store s') candidates
      | Err e => exists before c after ps s1, candidates = before ++ c :: after /\
          publications host timeout 0 before s ps s1 /\ Forall (in_store s') before /\
          forall text, caught_text e = Some text -> startswith (identity c +:+ ":") text = true
      end
  end.
Proof.
  unfold publish_all_from_registry. destruct (select_all_releases (Ok modules)) as [cs|e] eqn:Hs.
  - intros H. apply publish_each_sound in H. apply select_all_releases_Ok in Hs as [Hsort Hp]. destruct r as [results|e].
    + destruct (publications_stored _ _ _ _ _ _ _ H) as [Hk Hin]. by split_and!.
    + destruct H as (before & c & after & ps & s1 & -> & Hpub & Hk1 & Ht). destruct (publications_stored _ _ _ _ _ _ _ Hpub) as [Hk Hin].
      split; [intros ? ? ? Hh; by apply Hk1, Hk|]. split; [done|]. split; [done|]. exists before, c, after, ps, s1. split_and!; try done.
      eapply Forall_impl; [exact Hin|]. intros x Hx. by apply Hk1.
  - intros [= <- <-]. split; [by intros ? ? ?|done].
Qed.

End Publication.

(** ** Example: a release on GitHub goes into the file-system store *)

Definition mirrored_module : module :=
  example_module [{| version := "1.0.0"; channel := "stable"; rel_artifact := {| url := github_url "1.0.0"; sha256 := hex64 "a" |};
                     bundle_format_version := 1; source_commit := zeros 40; source_tag := None;
                     requires := {| req_host := ">=1.0.0"; req_sdk := ">=1.0.0,<2.0.0"; req_modules := ∅ |} |}].

Definition bulk_publish (s : sys) : res publish_exn BulkPublishResult * sys :=
  @publish_all_from_registry sys (filesystem_ops example_sha256 1000 quiet ["srv"] [] "0f") (fun _ => hex64 "a")
    (fun _ _ => None) (fun _ => example_network) (fun _ => false) ["srv"] (fun _ _ s => (example_source, s))
    (fun _ => "") (Ok [mirrored_module]) None DEFAULT_TIMEOUT s.

Lemma bulk_publish_eq s : bulk_publish s =
  @publish_all_from_registry sys (filesystem_ops example_sha256 1000 quiet ["srv"] [] "0f") (fun _ => hex64 "a")
    (fun _ _ => None) (fun _ => example_network) (fun _ => false) ["srv"] (fun _ _ s => (example_source, s))
    (fun _ => "") (Ok [mirrored_module]) None DEFAULT_TIMEOUT s.
Proof. reflexivity. Qed.

Definition statuses (r : res publish_exn BulkPublishResult) : option (list status_) :=
  match r with Ok b => Some (map pr_status b) | Err _ => None end.

(** The first run publishes, the second finds the bytes in place. *)
Lemma example_bulk :
  statuses (fst (bulk_publish example_sys)) = Some [STATUS_PUBLISHED] /\
  statuses (fst (bulk_publish (snd (bulk_publish example_sys)))) = Some [STATUS_ALREADY_PRESENT].
Proof. vm_compute. auto. Qed.

Lemma mirrored_candidates :
  select_all_releases (Ok [mirrored_module])
  = Ok [candidate_of mirrored_module (List.hd (example_release "" "" "") (versions mirrored_module))].
Proof. vm_compute. reflexivity. Qed.

Lemma publish_all_sound_witness :
  exists results, fst (bulk_publish example_sys) = Ok results /\
    file_holds example_sha256 ["srv"] (snd (bulk_publish example_sys)) "hello" "1.0.0" (hex64 "a").
Proof.
  assert (Hst := proj1 example_bulk). destruct (bulk_publish example_sys) as [r s'] eqn:H. rewrite bulk_publish_eq in H.
  cbn [fst snd] in *. destruct r as [results|e]; [|discriminate Hst]. exists results. split; [reflexivity|].
  destruct (@publish_all_sound sys (filesystem_ops example_sha256 1000 quiet ["srv"] [] "0f") (fun _ => hex64 "a")
    (fun _ _ => None) (fun _ => example_network) (fun _ => false) ["srv"] (fun _ _ s => (example_source, s)) (fun _ => "")
    (filesystem_spec example_sha256 1000 quiet ["srv"] [] "0f" quiet_keeps example_public example_uuid))
    with (modules := [mirrored_module]) (host := @None checkout) (timeout := DEFAULT_TIMEOUT) (s := example_sys)
      (r := @Ok publish_exn _ results) (s' := s') as [_ Hall].
  - intros n b s path s1 [= _ <-] m v dg Hh. exact Hh.
  - exact H.
  - rewrite mirrored_candidates in Hall. destruct Hall as (_ & _ & _ & Hstored). exact (Forall_inv Hstored).
Defined.
