(* ===== verification/LegacyPromotion.v ===== *)
(** * The promotion into the file registry: scripts/promote_candidate.py

    The promotion that was used before the registry database: it appends the
    release of a reviewed candidate to the module's file in the working tree and
    rebuilds the static registry.  The disk is that of [Build]: the entries of
    the repository's root, among them the folders [registry] (its files by
    relative path) and [dist]; steps that write can fail.  git is what it prints;
    the network is that of [Releases].  The temporary directory of the download
    is not represented. *)

#[local] Set Warnings "-notation-overridden".

From S2P Require Import Prelude PyText SemVer Json JsonText Url Validate Registry ArtifactStore Candidate Build Releases.

Open Scope string_scope.
Open Scope list_scope.

(** [CalledProcessError] is that of a failed [git fetch]. *)
Inductive legacy_exn :=
| PromotionBlocked (msg : string)
| Unverified (e : verification_exn)
| Refused (e : exn)
| CalledProcessError
| Unbuilt (e : build_exn).

Definition refused {A} (r : res exn A) : res legacy_exn A :=
  match r with Ok a => Ok a | Err e => Err (Refused e) end.

(** [value["module_id"] == module_id] *)
Definition has_id (module_id : json) (m : members) : Prop := py_eq (get_item "id" m) module_id = true.

#[export] Instance has_id_dec module_id m : Decision (has_id module_id m).
Proof. unfold has_id. apply _. Defined.

(** [next((r for r in versions if r["version"] == version), None)] *)
Fixpoint next_release (version : json) (versions : list json) : res exn (option json) :=
  match versions with
  | [] => Ok None
  | r :: versions =>
      let? v := item "version" r in
      if py_eq v version then Ok (Some r) else next_release version versions
  end.

Section Promote.
Context (sha256_of : string -> string) (schema_valid : string -> json -> bool).
Context (policies : string -> option string) (builder_policy : members).

(** ** [reviewed_candidate] *)

Section Git.
(** Whether [git fetch origin main] succeeds; what [git show origin/main:path]
    prints when it does. *)
Context (fetched : bool) (show : string -> option string).

Definition reviewed_candidate (module_id version : string) : res legacy_exn members :=
  refused (refuse "invalid module/version" (negb (fullmatch MODULE_ID_RE module_id) || negb (fullmatch SEMVER_RE version))) ;?
  raise_if (negb fetched) CalledProcessError ;?
  refused
    (let? text := of_option (ValueError "candidate is missing from reviewed main")
                    (show ("candidates/" +:+ module_id +:+ "/" +:+ version +:+ "/provenance.json")) in
     let? value := of_option (ValueError "Expecting value") (loads text) in
     let? value := validate_candidate policies builder_policy value in
     let? its_id := getitem "module_id" value in
     let? its_version := getitem "version" value in
     refuse "candidate path/identity mismatch" (differs its_id (JStr module_id) || differs its_version (JStr version)) ;?
     Ok value).

End Git.

(** ** The registry on the disk *)

(** The files of [registry/modules] that end in [.json]. *)
Definition registry_files (fs : texts) : list (string * string) :=
  omap (fun k => text ← fs !! k; Some (removeprefix "modules/" k, text)) (module_files fs).

Definition load_disk (p : names) : res exn (list members) :=
  match p !! "registry" with
  | Some (Folder fs) => load_registry schema_valid "registry" (fs !! "registry.json") (registry_files fs)
  | _ => load_registry schema_valid "registry" None []
  end.

(** A loaded document is a typed module ([module_decode]). *)
Definition typed (modules : list members) : res exn (list module) := of_option NoAttribute (mapM module_of_json modules).

(** ** [promote] *)

Section Download.
Context (net : network).

Definition permanent_artifact (value : members) (url : string) : ReleaseCandidate :=
  let text k := json_text (get_item k value) in
  {| rc_module_id := text "module_id"; rc_version := text "version"; rc_channel := text "planned_channel";
     artifact_url := url; expected_sha256 := text "bundle_sha256"; rc_classification := "first-party" |}.

(** The download into the temporary directory, and the comparison. *)
Definition check_artifact (value : members) (url : string) : res legacy_exn unit :=
  match result_ (download_artifact sha256_of net (permanent_artifact value url) None DEFAULT_TIMEOUT MAX_ARTIFACT_BYTES) with
  | Ok digest =>
      let? expected := refused (getitem "bundle_sha256" value) in
      raise_if (differs (JStr digest) expected) (Refused (ValueError "permanent artifact digest mismatch; promotion blocked"))
  | Err (ArtifactVerificationError msg as e) =>
      if substring_in "HTTP 404" msg then Err (PromotionBlocked ("Permanent artifact unavailable: " +:+ url))
      else Err (Unverified e)
  | Err e => Err (Unverified e)
  end.

(** Everything before the first write: the module's identifier and its new
    document, or [None] when the version is there already. *)
Definition prepare (cutover : option string) (candidate : json) (p : names) : res legacy_exn (option (string * members)) :=
  raise_if (bool_decide (cutover = Some "true"))
    (PromotionBlocked "Legacy JSON publication is disabled after DB writer cutover") ;?
  let? value := refused (validate_candidate policies builder_policy candidate) in
  let? module_id := refused (getitem "module_id" value) in
  let? version := refused (getitem "version" value) in
  let? modules := refused (load_disk p) in
  match list_find (has_id module_id) modules with
  | None => Err (Refused (ValueError "candidate has no matching reviewed Registry identity"))
  | Some (i, module) =>
      let? source := refused (getitem "source_repository" module) in
      let? expected := refused (getitem "source_repository" value) in
      refused (refuse "candidate has no matching reviewed Registry identity" (differs source expected)) ;?
      let? release := refused (candidate_release value) in
      let? artifact := refused (getitem "artifact" release) in
      let? url := refused (item "url" artifact) in
      let? versions := refused (getitem "versions" module) in
      let? versions := refused (iterate versions) in
      let? previous := refused (next_release version versions) in
      match previous with
      | Some previous =>
          refused (refuse "existing Registry version conflicts with candidate" (differs previous (JObj release))) ;?
          Ok None
      | None =>
          let module := set_member "versions" (JArr (versions ++ [JObj release])) module in
          refused (validate_module schema_valid module "promotion" None) ;?
          let? updated := refused (typed (<[i := module]> modules)) in
          let? modules := refused (typed modules) in
          refused (validate_immutability updated modules) ;?
          check_artifact value (json_text url) ;?
          Ok (Some (json_text module_id, module))
      end
  end.

End Download.

Section Disk.
Context (fails : nat -> bool) (temporary : string -> names -> string).
Context (torn : nat -> string -> string) (remains : nat -> texts -> texts).
(** The resolution of links, and the path of the repository's root. *)
Context (resolve : list string -> list string) (root : list string).

(** [build(root / "registry", root / "dist")] *)
Definition rebuild : B unit := fun s =>
  build fails temporary torn remains schema_valid resolve root (root ++ ["registry"])
    (let? modules := load_disk (entries s) in typed modules) root "dist" s.

Definition publish_module (module_id : string) (module : members) : B unit :=
  b_bind (write_text fails torn "registry" (module_path module_id) (canonical_json (JObj module))) (fun _ => rebuild).

(** [promote]: whether it changed the registry. *)
Definition promote (net : network) (cutover : option string) (candidate : json) (s : disk) : res legacy_exn bool * disk :=
  match prepare net cutover candidate (entries s) with
  | Err e => (Err e, s)
  | Ok None => (Ok false, s)
  | Ok (Some (module_id, module)) =>
      match publish_module module_id module s with
      | (Ok _, s) => (Ok true, s)
      | (Err e, s) => (Err (Unbuilt e), s)
      end
  end.

(** ** [main] *)

(** [plan.parent.mkdir(parents=True, exist_ok=True)], where a folder has the
    files below it. *)
Definition mkdir_parents (folder : string) : B unit :=
  step fails (fun p => match p !! folder with
                       | None => Some (<[folder := Folder ∅]> p)
                       | Some (Folder _) => Some p
                       | Some _ => None
                       end) unharmed.

Definition plan_text (value : members) (module_id version reason : string) : res exn string :=
  let? digest := getitem "bundle_sha256" value in
  let? channel := getitem "planned_channel" value in
  Ok (canonical_json (JObj
    [("status", JStr "blocked"); ("reason", JStr reason);
     ("candidate", JStr ("candidates/" +:+ module_id +:+ "/" +:+ version +:+ "/provenance.json"));
     ("bundle_sha256", digest); ("planned_channel", channel);
     ("next_step", JStr "Publish approved bytes immutably, then rerun promotion.")])).

Definition write_plan (value : members) (module_id version reason : string) : B unit :=
  b_bind (mkdir_parents "promotion-plans") (fun _ =>
  b_bind (Build.pure (plan_text value module_id version reason)) (fun text =>
  write_text fails torn "promotion-plans" (module_id +:+ "/" +:+ version +:+ ".json") text)).

(** The line that is printed. *)
Definition main (fetched : bool) (show : string -> option string) (net : network) (cutover : option string)
    (module_id version : string) (prepare_blocked : bool) (s : disk) : res legacy_exn string * disk :=
  match reviewed_candidate fetched show module_id version with
  | Err e => (Err e, s)
  | Ok value =>
      match promote net cutover (JObj value) s with
      | (Ok true, s) => (Ok "Registry promotion prepared", s)
      | (Ok false, s) => (Ok "Already promoted; no changes", s)
      | (Err (PromotionBlocked reason as e), s) =>
          if prepare_blocked then
            match write_plan value module_id version reason s with
            | (Ok _, s) => (Ok reason, s)
            | (Err e, s) => (Err (Unbuilt e), s)
            end
          else (Err e, s)
      | (Err e, s) => (Err e, s)
      end
  end.

End Disk.
End Promote.

(** ** Facts *)

(** *** Equal documents decode to the same module *)

(** Two dictionaries of decoded JSON that compare equal. *)
Record same_dict (l m : members) : Prop := {
  dict_eq : py_eq (JObj l) (JObj m) = true;
  dict_l : object_hook (JObj l) = Ok tt;
  dict_m : object_hook (JObj m) = Ok tt
}.

Lemma hook_jget k l v : object_hook (JObj l) = Ok tt -> jget k l = Some v -> object_hook v = Ok tt.
Proof.
  rewrite hook_obj. intros [H Hnd] Hv. apply jget_elem in Hv; [|done]. rewrite Forall_forall in H. by apply (H _ Hv).
Qed.

Lemma same_dict_jget l m k : same_dict l m ->
  match jget k l, jget k m with
  | Some v, Some w => py_eq v w = true /\ object_hook v = Ok tt /\ object_hook w = Ok tt
  | None, None => True
  | _, _ => False
  end.
Proof.
  intros [H Hl Hm]. assert (Hj := proj2 (proj1 (hook_obj l) Hl)). assert (Hj' := proj2 (proj1 (hook_obj m) Hm)).
  assert (Hk := py_eq_jget l m k Hj Hj' H). destruct (jget k l) eqn:H1, (jget k m) eqn:H2; try done.
  split_and!; by eauto using hook_jget.
Qed.

(** Case analysis on a member of two equal dictionaries. *)
Ltac same_member :=
  match goal with S : same_dict ?l ?m |- context [jget ?k ?l] =>
    let K := fresh "Hk" in
    pose proof (same_dict_jget l m k S) as K; destruct (jget k l) as [[| | | | |]|], (jget k m) as [[| | | | |]|];
    try (exfalso; exact K); try destruct K as (K & ? & ?)
  end; try done.

Lemma same_str k l m : same_dict l m -> get_str k l = get_str k m.
Proof. intros Hs. unfold get_str. same_member. by apply String.eqb_eq in Hk as ->. Qed.

Lemma same_opt k l m : same_dict l m -> get_opt k l = get_opt k m.
Proof. intros Hs. unfold get_opt. same_member. by apply String.eqb_eq in Hk as ->. Qed.

Lemma same_int k l m : same_dict l m -> get_int k l = get_int k m.
Proof.
  intros Hs. unfold get_int. same_member.
  - by apply eqb_prop in Hk as ->.
  - by apply Z.eqb_eq in Hk as ->.
  - by apply Z.eqb_eq in Hk as ->.
  - by apply Z.eqb_eq in Hk as ->.
Qed.

Lemma same_obj k l m x : same_dict l m -> get_obj k l = Some x -> exists y, get_obj k m = Some y /\ same_dict x y.
Proof. intros Hs. unfold get_obj. same_member. intros [= <-]. by eexists. Qed.

Lemma same_constraints l m cs :
  same_dict l m -> mapM constraint_of_json l = Some cs ->
  exists cs', mapM constraint_of_json m = Some cs' /\ (list_to_map cs' : gmap string string) = list_to_map cs.
Proof.
  assert (Hc : forall l cs, mapM constraint_of_json l = Some cs <-> Forall2 (fun kv c => exists s, kv = (fst c, JStr s) /\ snd c = s) l cs).
  { clear. intros l cs. rewrite mapM_Some. split; intros H; (eapply Forall2_impl; [exact H|]); intros [k v] [k' s]; unfold constraint_of_json; simpl.
    - destruct v; try done. intros [= <- <-]. by eexists.
    - by intros (s' & [= -> ->] & ->). }
  assert (Hk : forall l cs k, Forall2 (fun kv c => exists s, kv = (fst c, JStr s) /\ snd c = s) l cs ->
    (list_to_map cs : gmap string string) !! k = get_str k l).
  { clear. intros l cs k. induction 1 as [|kv [k' s'] l cs (s & -> & [= ->]) _ IH]; [done|]. unfold get_str in *. cbn [list_to_map foldr jget fst snd].
    destruct (String.eqb_spec k' k) as [->|Hne]; [by rewrite lookup_insert_eq | by rewrite lookup_insert_ne]. }
  intros Hs Hl%Hc. assert (Hm : exists cs', mapM constraint_of_json m = Some cs').
  { apply mapM_is_Some_2, Forall_forall. intros [k w] Hin. assert (Hw := Hin). apply jget_elem in Hw; [|by apply (hook_obj m), Hs].
    assert (Hj := same_dict_jget l m k Hs). rewrite Hw in Hj. destruct (jget k l) as [v|] eqn:Hv; [|done].
    apply jget_elem in Hv; [|by apply (hook_obj l), Hs]. destruct (Forall2_in_l _ _ _ _ Hl Hv) as ([k' s] & _ & s' & [= _ ->] & _).
    destruct Hj as (Hj & _). unfold constraint_of_json. cbn [fst snd]. destruct w; try done. by eexists. }
  destruct Hm as [cs' Hm]. exists cs'. split; [done|]. apply Hc in Hm. apply map_eq. intros k.
  rewrite (Hk _ _ k Hm), (Hk _ _ k Hl). symmetry. by apply same_str.
Qed.

Lemma same_requirements l m x : same_dict l m -> requirements_of_json l = Some x -> requirements_of_json m = Some x.
Proof.
  unfold requirements_of_json. intros Hs H. apply bind_Some in H as (h & Hh & H). apply bind_Some in H as (sdk & Hk & H).
  apply bind_Some in H as (ms & Ho & H). apply bind_Some in H as (cs & Hc & H).
  destruct (same_obj _ _ _ _ Hs Ho) as (y & Hy & Hsy). destruct (same_constraints _ _ _ Hsy Hc) as (cs' & Hc' & He).
  rewrite <- !(same_str _ _ _ Hs), Hh, Hk, Hy. simpl. by rewrite Hc', <- H, <- He.
Qed.

Lemma same_artifact l m : same_dict l m -> artifact_of_json l = artifact_of_json m.
Proof. intros Hs. unfold artifact_of_json. by rewrite !(same_str _ _ _ Hs). Qed.

Lemma same_release j j' r :
  py_eq j j' = true -> object_hook j = Ok tt -> object_hook j' = Ok tt -> release_of_json j = Some r -> release_of_json j' = Some r.
Proof.
  destruct j as [| | | | |l], j' as [| | | | |m]; try done. intros He Hl Hm H. assert (Hs : same_dict l m) by done.
  unfold release_of_json in *. rewrite <- !(same_str _ _ _ Hs), <- !(same_int _ _ _ Hs), <- !(same_opt _ _ _ Hs).
  apply bind_Some in H as (v & -> & H). apply bind_Some in H as (c & -> & H). apply bind_Some in H as (aj & Ha & H).
  destruct (same_obj _ _ _ _ Hs Ha) as (aj' & -> & Hsa). apply bind_Some in H as (a & Ha' & H).
  apply bind_Some in H as (b & -> & H). apply bind_Some in H as (sc & -> & H). apply bind_Some in H as (st & -> & H).
  apply bind_Some in H as (rj & Hr & H). destruct (same_obj _ _ _ _ Hs Hr) as (rj' & -> & Hsr).
  apply bind_Some in H as (rq & Hq & H). simpl. rewrite <- (same_artifact _ _ Hsa), Ha'. simpl.
  by rewrite (same_requirements _ _ _ Hsr Hq).
Qed.

Lemma same_publisher_json l m : same_dict l m -> publisher_of_json l = publisher_of_json m.
Proof. intros Hs. unfold publisher_of_json. by rewrite !(same_str _ _ _ Hs). Qed.

Lemma same_releases vs ws rs :
  Forall2 (fun x y => py_eq x y = true) vs ws -> Forall (fun j => object_hook j = Ok tt) vs ->
  Forall (fun j => object_hook j = Ok tt) ws -> mapM release_of_json vs = Some rs -> mapM release_of_json ws = Some rs.
Proof.
  intros H. revert rs. induction H as [|v w vs ws Hv _ IH]; intros rs H1 H2; [done|].
  apply Forall_cons in H1 as [Hh1 H1]. apply Forall_cons in H2 as [Hh2 H2]. cbn [mapM]. intros H.
  apply bind_Some in H as (r & Hr & H). apply bind_Some in H as (rs' & Hrs & H).
  rewrite (same_release _ _ _ Hv Hh1 Hh2 Hr). simpl. by rewrite (IH _ H1 H2 Hrs).
Qed.

Lemma same_module l m x : same_dict l m -> module_of_json l = Some x -> module_of_json m = Some x.
Proof.
  unfold module_of_json. intros Hs H. rewrite <- !(same_str _ _ _ Hs), <- !(same_opt _ _ _ Hs).
  apply bind_Some in H as (i & -> & H). apply bind_Some in H as (n & -> & H). apply bind_Some in H as (d & -> & H).
  apply bind_Some in H as (pj & Hp & H). destruct (same_obj _ _ _ _ Hs Hp) as (pj' & -> & Hsp). simpl.
  rewrite <- (same_publisher_json _ _ Hsp). apply bind_Some in H as (p & -> & H). apply bind_Some in H as (c & -> & H).
  apply bind_Some in H as (s & -> & H). apply bind_Some in H as (li & -> & H). apply bind_Some in H as (h & -> & H).
  apply bind_Some in H as (du & -> & H). simpl. assert (Hk := same_dict_jget _ _ "versions" Hs).
  destruct (jget "versions" l) as [[| | | |vs|]|]; try done. destruct (jget "versions" m) as [[| | | |ws|]|]; try (exfalso; exact Hk); try (by destruct Hk).
  destruct Hk as (Hk%py_eq_arr & Hv%hook_arr & Hw%hook_arr). apply bind_Some in H as (rs & Hr & H).
  by rewrite (same_releases _ _ _ Hk Hv Hw Hr).
Qed.

(** A document read back from its canonical text. *)
Definition sorted_doc (l : members) : members := sort_by by_name (map (on_value sort_keys) l).

Lemma sorted_same l : object_hook (JObj l) = Ok tt -> same_dict l (sorted_doc l) /\ same_dict (sorted_doc l) l.
Proof.
  intros H. assert (Hs := hook_sort_keys _ H). assert (He := py_eq_sort_keys _ H). rewrite sort_keys_obj in Hs, He.
  by split; split; try apply He.
Qed.

Lemma decode_canonical_doc l origin m : decode_json (canonical_json (JObj l)) origin = Ok m -> m = sorted_doc l.
Proof. intros (H & _)%decode_json_Ok. rewrite canonical_loads, sort_keys_obj in H. by injection H as <-. Qed.

(** *** The files of the registry *)

Definition file_name (f : string) : bool := endswith ".json" f && negb (mem_char "/" f).

Lemma stem_path f i : file_name f = true -> stem f = i -> i <> ".json" -> f = i +:+ ".json".
Proof.
  unfold file_name, stem. intros [(a & ->)%endswith_iff _]%andb_true_iff Hs Hi.
  destruct (String.eqb_spec (a +:+ ".json") ".json") as [He|_]; [by rewrite He in Hs|].
  rewrite slength_app in Hs. change (String.length ".json") with 5%nat in Hs. rewrite Nat.add_sub, substring_app in Hs. by subst.
Qed.

Lemma elem_registry_files fs f t :
  (f, t) ∈ registry_files fs <->
  fs !! ("modules/" +:+ f) = Some t /\ endswith ".json" ("modules/" +:+ f) = true /\ mem_char "/" f = false.
Proof.
  unfold registry_files, module_files. rewrite list_elem_of_omap. split.
  - intros (k & Hk & H). apply list_elem_of_In, filter_In in Hk as [_ Hk]. apply andb_true_iff in Hk as [[Hp He]%andb_true_iff Hm%negb_true_iff].
    apply bind_Some in H as (t' & Ht & [= <- <-]). apply removeprefix_app in Hp. by rewrite <- Hp.
  - intros (Ht & He & Hm). exists ("modules/" +:+ f). rewrite Ht. split; [|simpl; by rewrite (removeprefix_drop "modules/" f)].
    apply list_elem_of_In, filter_In. split.
    + apply list_elem_of_In, (list_elem_of_fmap_2 fst _ ("modules/" +:+ f, t)). by apply elem_of_map_to_list.
    + rewrite (removeprefix_drop "modules/" f), Hm, He, (startswith_app "modules/" f). done.
Qed.

Lemma Forall2_both {A C} (R S : A -> C -> Prop) l k :
  Forall2 R l k -> Forall2 S l k -> Forall2 (fun x y => R x y /\ S x y) l k.
Proof. induction 1; intros Hs; inversion Hs; subst; constructor; auto. Qed.

Section Loading.
Context (schema_valid : string -> json -> bool).

Lemma load_modules_texts dir seen files ms :
  load_modules schema_valid dir seen files = Ok ms ->
  Forall2 (fun file l => exists o, decode_json (snd file) o = Ok l) files ms.
Proof.
  revert seen ms. induction files as [|[f t] files IH]; intros seen ms; cbn [load_modules]; [intros [= <-]; constructor|].
  intros H. apply res_bind_Ok in H as (l & Hl & H). do 4 (apply res_bind_Ok in H as (? & _ & H)).
  apply res_bind_Ok in H as (rest & Hr & [= <-]). constructor; [by eexists | by eapply IH].
Qed.

(** A file of the registry and the document it holds. *)
Definition holds_doc (p : names) (f : string) (l : members) : Prop :=
  exists fs t o, p !! "registry" = Some (Folder fs) /\ (f, t) ∈ registry_files fs /\ decode_json t o = Ok l.

Lemma load_disk_Ok p raw :
  load_disk schema_valid p = Ok raw ->
  (exists fs, p !! "registry" = Some (Folder fs)) /\ NoDup (map json_id raw) /\
  Forall (fun l => exists m f, module_of_json l = Some m /\ module_ok m /\ json_id l = id m /\ stem f = id m /\ holds_doc p f l) raw /\
  (forall fs f t, p !! "registry" = Some (Folder fs) -> (f, t) ∈ registry_files fs ->
     exists l o, decode_json t o = Ok l /\ l ∈ raw).
Proof.
  unfold load_disk. destruct (p !! "registry") as [[fs| |c]|] eqn:Hp; try done. intros H.
  unfold load_registry in H. do 5 (apply res_bind_Ok in H as (? & _ & H)). apply res_bind_Ok in H as (loaded & Hl & [= <-]).
  assert (Ht := load_modules_texts _ _ _ _ Hl). apply load_modules_Ok in Hl as (Hall & Hnd & _).
  split; [by exists fs|]. split; [change (NoDup (json_id <$> sort_by (fun x y => str_le (json_id x) (json_id y)) loaded)); by rewrite sort_by_perm|].
  split.
  - apply Forall_forall. intros l Hin. rewrite sort_by_elem in Hin.
    destruct (Forall2_in_r _ _ _ _ (Forall2_both _ _ _ _ Hall Ht) Hin) as ([f t] & Hf & (m & Hm & Hok & Hid & Hst) & o & Hd).
    exists m, f. split_and!; try done. exists fs, t, o. split_and!; try done. by rewrite sort_by_elem in Hf.
  - intros fs' f t [= <-] Hf. assert (Hf' : (f, t) ∈ sort_by by_file (registry_files fs)) by by rewrite sort_by_elem.
    destruct (Forall2_in_l _ _ _ _ Ht Hf') as (l & Hin & o & Hd). exists l, o. by rewrite sort_by_elem.
Qed.

Lemma holds_doc_loaded p raw f l : load_disk schema_valid p = Ok raw -> holds_doc p f l -> l ∈ raw.
Proof.
  intros (_ & _ & _ & H)%load_disk_Ok (fs & t & o & Hp & Hf & Hd). destruct (H fs f t Hp Hf) as (l' & o' & Hd' & Hin).
  apply decode_json_Ok in Hd as (H1 & _), Hd' as (H2 & _). congruence.
Qed.

Lemma load_disk_typed p raw : load_disk schema_valid p = Ok raw -> exists ms, typed raw = Ok ms.
Proof.
  intros (_ & _ & H & _)%load_disk_Ok. unfold typed. assert (Hm : is_Some (mapM module_of_json raw)).
  { apply mapM_is_Some_2. eapply Forall_impl; [exact H|]. intros l (m & f & Hm & _). by exists m. }
  destruct Hm as [ms ->]. by exists ms.
Qed.

Lemma module_file_name f : endswith ".json" ("modules/" +:+ f) = true -> mem_char "/" f = false -> file_name f = true.
Proof.
  intros (a & Ha)%endswith_iff Hm. unfold file_name. rewrite Hm, andb_true_r. apply endswith_iff.
  apply (f_equal chars) in Ha. rewrite !chars_app in Ha. apply app_eq_inv in Ha as [(k & Hk & Hf)|(k & _ & Hf)].
  - destruct k as [|x k _] using rev_ind; [exists ""; by apply chars_inj|]. exfalso. rewrite app_assoc in Hk.
    change (chars "modules/") with (chars "modules" ++ ["/"%char]) in Hk. apply app_inj_tail in Hk as [_ <-].
    assert (Hin : "/"%char ∈ chars ".json") by (rewrite Hf; set_solver). revert Hin. apply (bool_decide_unpack (~ _)). reflexivity.
  - exists (String.string_of_list_ascii k). apply chars_inj. rewrite chars_app. unfold chars at 2.
    by rewrite String.list_ascii_of_string_of_list_ascii.
Qed.

(** The document of a module is in the file named after it. *)
Lemma holds_doc_path p f l m :
  holds_doc p f l -> stem f = id m -> module_ok m -> f = id m +:+ ".json".
Proof.
  intros (fs & t & o & _ & (_ & He & Hm)%elem_registry_files & _) Hs Hok. apply stem_path; [by apply module_file_name | done |].
  intros Hi. destruct (ok_id _ Hok) as [_ Hc]. rewrite Hi in Hc. vm_compute in Hc. discriminate Hc.
Qed.

Lemma module_path_eq i : module_path i = "modules/" +:+ (i +:+ ".json").
Proof. reflexivity. Qed.

(** What is loaded after the file of one module has been replaced. *)
Lemma load_after_write p p' fs raw raw' module m' :
  load_disk schema_valid p = Ok raw -> p !! "registry" = Some (Folder fs) -> module ∈ raw ->
  p' !! "registry" = Some (Folder (<[module_path (json_id module) := canonical_json (JObj m')]> fs)) ->
  load_disk schema_valid p' = Ok raw' ->
  forall l, l ∈ raw' <-> (l ∈ raw /\ json_id l <> json_id module) \/ l = sorted_doc m'.
Proof.
  intros H Hfs Hin Hfs' H'. assert (Hback := fun f l => holds_doc_loaded p raw f l H). apply load_disk_Ok in H as (_ & _ & Hall & _).
  assert (Hback' := fun f l => holds_doc_loaded p' raw' f l H'). apply load_disk_Ok in H' as (_ & _ & Hall' & Hfiles').
  rewrite Forall_forall in Hall, Hall'. set (path := module_path (json_id module)) in *.
  assert (Hto : forall f l, holds_doc p f l -> "modules/" +:+ f <> path -> l ∈ raw').
  { intros f l (fs0 & t & o & Hp & (Ht & He & Hm)%elem_registry_files & Hd) Hne. apply (Hback' f). rewrite Hfs in Hp. injection Hp as <-.
    eexists _, t, o. split; [exact Hfs'|]. split; [|done]. apply elem_registry_files. by rewrite lookup_insert_ne. }
  assert (Hname : forall l, l ∈ raw -> exists f, holds_doc p f l /\ "modules/" +:+ f = module_path (json_id l)).
  { intros l Hl. destruct (Hall l Hl) as (m & f & _ & Hok & Hid & Hst & Hd). exists f. split; [done|].
    rewrite module_path_eq, Hid. by rewrite (holds_doc_path p f l m). }
  intros l. split.
  - intros Hl. destruct (Hall' l Hl) as (m & f & Hm & Hok & Hid & Hst & Hd). assert (Hf := holds_doc_path _ _ _ _ Hd Hst Hok).
    destruct Hd as (fs0 & t & o & Hp & (Ht & He & Hmem)%elem_registry_files & Hd). rewrite Hfs' in Hp. injection Hp as <-.
    destruct (decide ("modules/" +:+ f = path)) as [Hpath|Hne].
    + rewrite Hpath, lookup_insert_eq in Ht. injection Ht as <-. right. by apply decode_canonical_doc in Hd.
    + left. rewrite lookup_insert_ne in Ht by done. split.
      * apply (Hback f). exists fs, t, o. split_and!; try done. by apply elem_registry_files.
      * intros Heq. apply Hne. rewrite Hf, <- Hid, Heq. done.
  - intros [[Hl Hne]| ->].
    + destruct (Hname l Hl) as (f & Hd & Hf). apply (Hto f); [done|]. rewrite Hf. unfold path, module_path. intros Heq.
      apply Hne. apply (f_equal chars) in Heq. rewrite !chars_app in Heq. by apply (inj (chars "modules/" ++.)), (inj (.++ chars ".json")), chars_inj in Heq.
    + destruct (Hname module Hin) as (f & (fs0 & t & _ & Hp & Hin' & _) & Hf). rewrite Hfs in Hp. injection Hp as <-.
      apply elem_registry_files in Hin' as (_ & He & Hmem). assert (Hnew : (f, canonical_json (JObj m')) ∈ registry_files (<[path := canonical_json (JObj m')]> fs)).
      { apply elem_registry_files. split_and!; try done. rewrite Hf. apply lookup_insert_eq. }
      destruct (Hfiles' _ _ _ Hfs' Hnew) as (l & o' & Hd & Hl). apply decode_canonical_doc in Hd as <-. done.
Qed.

End Loading.

Lemma refused_Ok {A} (r : res exn A) a : refused r = Ok a <-> r = Ok a.
Proof. destruct r; simpl; split; congruence. Qed.

Lemma json_id_str m i : jget "id" m = Some (JStr i) -> json_id m = i.
Proof. unfold json_id. by intros ->. Qed.

Section Prepared.
Context (sha256_of : string -> string) (schema_valid : string -> json -> bool).
Context (policies : string -> option string) (builder_policy : members) (net : network).

(** The release a candidate stands for, and the module of the registry on the
    disk that it is for. *)
Record target (p : names) (value : members) (i v digest : string) (raw : list members) (n : nat) (module rel : members)
    (vs : list json) : Prop := {
  t_valid : validate_candidate policies builder_policy (JObj value) = Ok value;
  t_candidate : exists channel, candidate_ok policies value i v digest channel;
  t_loaded : load_disk schema_valid p = Ok raw;
  t_found : list_find (has_id (JStr i)) raw = Some (n, module);
  t_source : jget "source_repository" module = jget "source_repository" value;
  t_release : candidate_release value = Ok rel;
  t_url : exists digest', jget "artifact" rel = Some (JObj [("url", JStr (canonical_url i v)); ("sha256", digest')]);
  t_versions : jget "versions" module = Some (JArr vs)
}.

Definition with_release (module rel : members) (vs : list json) : members :=
  set_member "versions" (JArr (vs ++ [JObj rel])) module.

Lemma candidate_release_fields value rel i v digest channel :
  candidate_ok policies value i v digest channel -> candidate_release value = Ok rel ->
  exists format commit requires,
    rel = [("version", JStr v); ("channel", JStr channel);
           ("artifact", JObj [("url", JStr (canonical_url i v)); ("sha256", JStr digest)]);
           ("bundle_format_version", format); ("source_commit", commit); ("source_tag", JStr ("v" +:+ v)); ("requires", requires)] /\
    jget "bundle_format_version" value = Some format /\ jget "source_commit" value = Some commit /\ jget "requires" value = Some requires.
Proof.
  intros [Hi _ [Hv _] Ht _ [Hd _] _ [Hc _] _]. unfold candidate_release, public_url_value, getitem. rewrite Hi, Hv, Hc, Hd, Ht. cbn [of_option res_bind].
  intros H. apply res_bind_Ok in H as (u & Hu & H). apply res_bind_Ok in Hu as (i' & Hi' & Hu).
  apply _canonical_id_Ok in Hi' as [[= <-] _]. apply res_bind_Ok in Hu as (v' & Hv' & Hu). apply _semver_Ok in Hv' as [[= <-] _].
  apply public_url_Ok in Hu as (_ & _ & ->). apply res_bind_Ok in H as (f & Hf%of_option_Ok & H).
  apply res_bind_Ok in H as (c & Hc'%of_option_Ok & H). apply res_bind_Ok in H as (rq & Hr%of_option_Ok & [= <-]). by exists f, c, rq.
Qed.

Lemma found_module p raw i n module :
  load_disk schema_valid p = Ok raw -> list_find (has_id (JStr i)) raw = Some (n, module) ->
  raw !! n = Some module /\ jget "id" module = Some (JStr i) /\
  exists m, module_of_json module = Some m /\ module_ok m /\ id m = i /\ object_hook (JObj module) = Ok tt.
Proof.
  intros Hl (Hn & Hid & _)%list_find_Some. split; [done|]. unfold has_id in Hid. apply py_eq_str_r in Hid.
  assert (Hj : jget "id" module = Some (JStr i)).
  { unfold get_item in Hid. by destruct (jget "id" module); [simpl in Hid; subst|]. }
  split; [done|]. apply load_disk_Ok in Hl as (_ & _ & Hall & _). rewrite Forall_forall in Hall.
  destruct (Hall module (list_elem_of_lookup_2 _ _ _ Hn)) as (m & f & Hm & Hok & Hidm & _ & fs & t & o & _ & _ & Hd).
  exists m. split_and!; try done; [by rewrite <- Hidm; apply json_id_str|]. by apply decode_json_Ok in Hd as (_ & Hd & _).
Qed.

Lemma module_versions_arr module m vs : module_of_json module = Some m -> jget "versions" module = Some vs -> exists l, vs = JArr l.
Proof.
  unfold module_of_json. intros H Hv. do 10 (apply bind_Some in H as (? & _ & H)). rewrite Hv in H. destruct vs; try done. by eexists.
Qed.

(** What the checks before the first write establish. *)
Lemma prepare_Ok cutover candidate p o :
  prepare sha256_of schema_valid policies builder_policy net cutover candidate p = Ok o ->
  cutover <> Some "true" /\
  exists value i v digest raw n module rel vs,
    candidate = JObj value /\ target p value i v digest raw n module rel vs /\
    match o with
    | None => exists previous, next_release (JStr v) vs = Ok (Some previous) /\ py_eq previous (JObj rel) = true
    | Some (i', new) =>
        i' = i /\ new = with_release module rel vs /\ next_release (JStr v) vs = Ok None /\
        validate_module schema_valid new "promotion" None = Ok tt /\
        (exists ms ms', typed raw = Ok ms /\ typed (<[n := new]> raw) = Ok ms' /\ validate_immutability ms' ms = Ok tt) /\
        check_artifact sha256_of net value (canonical_url i v) = Ok tt
    end.
Proof.
  unfold prepare. intros H. apply res_bind_Ok in H as ([] & Hc%raise_if_Ok%bool_decide_eq_false_1 & H). split; [done|].
  apply res_bind_Ok in H as (value & Hval%refused_Ok & H). assert (Hvalid := Hval).
  apply validate_candidate_sound in Hval as (-> & i & v & digest & channel & Hcand).
  assert (Hf := Hcand). destruct Hf as [Hi [u [_ Hu]] [Hv _] _ _ _ _ _ _].
  apply res_bind_Ok in H as (jid & Hj%refused_Ok%getitem_Ok & H). rewrite Hi in Hj. injection Hj as <-.
  apply res_bind_Ok in H as (jv & Hj%refused_Ok%getitem_Ok & H). rewrite Hv in Hj. injection Hj as <-.
  apply res_bind_Ok in H as (raw & Hraw%refused_Ok & H). destruct (list_find _ raw) as [[n module]|] eqn:Hfind; [|done].
  apply res_bind_Ok in H as (src & Hs%refused_Ok%getitem_Ok & H). apply res_bind_Ok in H as (src' & Hs'%refused_Ok%getitem_Ok & H).
  apply res_bind_Ok in H as ([] & Hd%refused_Ok%refuse_Ok & H). rewrite Hu in Hs'. injection Hs' as <-. apply differs_str in Hd as ->.
  apply res_bind_Ok in H as (rel & Hrel%refused_Ok & H). destruct (candidate_release_fields _ _ _ _ _ _ Hcand Hrel) as (fm & cm & rq & Hr & _).
  apply res_bind_Ok in H as (art & Ha%refused_Ok%getitem_Ok & H). assert (Ha' := Ha). rewrite Hr in Ha'. cbn in Ha'. injection Ha' as <-.
  apply res_bind_Ok in H as (url & Hurl%refused_Ok & H). cbn in Hurl. injection Hurl as <-.
  apply res_bind_Ok in H as (jvs & Hjvs%refused_Ok%getitem_Ok & H).
  destruct (found_module _ _ _ _ _ Hraw Hfind) as (Hn & Hid & m & Hm & Hok & Him & Hh).
  destruct (module_versions_arr _ _ _ Hm Hjvs) as [vs ->]. cbn [iterate refused res_bind] in H.
  apply res_bind_Ok in H as (previous & Hp%refused_Ok & H). exists value, i, v, digest, raw, n, module, rel, vs. split; [done|]. split.
  { split; try done; [by exists channel | by rewrite Hs, Hu | by exists (JStr digest)]. }
  destruct previous as [previous|].
  - apply res_bind_Ok in H as ([] & Hdif%refused_Ok%refuse_Ok & [= <-]). exists previous. split; [done|].
    unfold differs in Hdif. by apply negb_false_iff in Hdif.
  - apply res_bind_Ok in H as ([] & Hvm%refused_Ok & H). apply res_bind_Ok in H as (ms' & Hms'%refused_Ok & H).
    apply res_bind_Ok in H as (ms & Hms%refused_Ok & H). apply res_bind_Ok in H as ([] & Hvi%refused_Ok & H).
    apply res_bind_Ok in H as ([] & Hca & [= <-]). split_and!; try done. by exists ms, ms'.
Qed.

(** *** The typed module with the new release *)

Lemma get_str_set k k' v l : k <> k' -> get_str k (set_member k' v l) = get_str k l.
Proof. intros H. unfold get_str. rewrite jget_set_member. by destruct (String.eqb_spec k' k). Qed.

Lemma get_opt_set k k' v l : k <> k' -> get_opt k (set_member k' v l) = get_opt k l.
Proof. intros H. unfold get_opt. rewrite jget_set_member. by destruct (String.eqb_spec k' k). Qed.

Lemma get_obj_set k k' v l : k <> k' -> get_obj k (set_member k' v l) = get_obj k l.
Proof. intros H. unfold get_obj. rewrite jget_set_member. by destruct (String.eqb_spec k' k). Qed.

Lemma module_with_release module m rel vs m' :
  module_of_json module = Some m -> jget "versions" module = Some (JArr vs) ->
  module_of_json (with_release module rel vs) = Some m' ->
  exists r, release_of_json (JObj rel) = Some r /\ m' = with_versions m (versions m ++ [r]) /\
    Forall2 (fun j r => release_of_json j = Some r) vs (versions m).
Proof.
  unfold module_of_json, with_release. intros H Hv H'. rewrite !get_str_set, !get_opt_set, get_obj_set, jget_set_member in H' by done.
  change (String.eqb "versions" "versions") with true in H'. cbn iota in H'. rewrite Hv in H.
  apply bind_Some in H as (i & Hi & H). rewrite Hi in H'. apply bind_Some in H as (n & Hn & H). simpl in H'. rewrite Hn in H'.
  apply bind_Some in H as (d & Hd & H). simpl in H'. rewrite Hd in H'. apply bind_Some in H as (pj & Hp & H). simpl in H'. rewrite Hp in H'.
  apply bind_Some in H as (p & Hp' & H). simpl in H'. rewrite Hp' in H'. apply bind_Some in H as (c & Hc & H). simpl in H'. rewrite Hc in H'.
  apply bind_Some in H as (s & Hs & H). simpl in H'. rewrite Hs in H'. apply bind_Some in H as (li & Hli & H). simpl in H'. rewrite Hli in H'.
  apply bind_Some in H as (h & Hh & H). simpl in H'. rewrite Hh in H'. apply bind_Some in H as (du & Hdu & H). simpl in H'. rewrite Hdu in H'.
  simpl in H'. apply bind_Some in H as (rs & Hrs & [= <-]). apply bind_Some in H' as (rs' & Hrs' & [= <-]).
  apply mapM_Some in Hrs, Hrs'. apply Forall2_app_inv_l in Hrs' as (rs1 & rs2 & H1 & H2 & ->).
  apply Forall2_cons_inv_l in H2 as (r & rs3 & Hr & H3 & ->). apply Forall2_nil_inv_l in H3 as ->.
  assert (rs1 = rs) as ->; [|by exists r].
  clear -H1 Hrs. revert rs1 H1. induction Hrs as [|j r vs rs Hj _ IH]; intros rs1 H1; inversion H1; subst; [done|].
  f_equal; [congruence | by apply IH].
Qed.

(** The releases and the source repository of a decoded module. *)
Lemma module_read module m vs :
  module_of_json module = Some m -> jget "versions" module = Some (JArr vs) ->
  Forall2 (fun j r => release_of_json j = Some r) vs (versions m) /\ jget "source_repository" module = Some (JStr (source_repository m)).
Proof.
  unfold module_of_json. intros H Hv. do 6 (apply bind_Some in H as (? & _ & H)). apply bind_Some in H as (src & Hs%get_str_Ok & H).
  do 3 (apply bind_Some in H as (? & _ & H)). rewrite Hv in H. apply bind_Some in H as (rs & Hrs%mapM_Some & [= <-]). done.
Qed.

Lemma release_version j r : release_of_json j = Some r -> item "version" j = Ok (JStr (version r)).
Proof.
  destruct j as [| | | | |l]; try done. unfold release_of_json. intros H. apply bind_Some in H as (v & Hv & H).
  do 8 (apply bind_Some in H as (? & _ & H)). injection H as <-. apply get_str_Ok in Hv. simpl. by rewrite Hv.
Qed.

Lemma next_release_typed v vs rs :
  Forall2 (fun j r => release_of_json j = Some r) vs rs ->
  match next_release (JStr v) vs with
  | Ok None => v ∉ map version rs
  | Ok (Some j) => j ∈ vs /\ exists r, r ∈ rs /\ release_of_json j = Some r /\ version r = v
  | Err _ => False
  end.
Proof.
  induction 1 as [|j r vs rs Hj _ IH]; cbn [next_release map]; [by apply not_elem_of_nil|].
  rewrite (release_version _ _ Hj). cbn [res_bind py_eq]. destruct (String.eqb_spec (version r) v) as [He|Hne].
  - split; [by left|]. exists r. split; [by left | done].
  - destruct (next_release (JStr v) vs) as [[j'|]|]; [| |done].
    + destruct IH as (Hin & r' & Hr' & Hj'). split; [by right|]. exists r'. split; [by right | done].
    + intros [->|Hin]%elem_of_cons; done.
Qed.

(** The release of a candidate, as a typed release. *)
Definition released (i v digest : string) (r : release) : Prop :=
  version r = v /\ sha256 (rel_artifact r) = digest /\ url (rel_artifact r) = canonical_url i v /\ source_tag r = Some ("v" +:+ v).

Lemma released_Ok value i v digest channel rel r :
  candidate_ok policies value i v digest channel -> candidate_release value = Ok rel -> release_of_json (JObj rel) = Some r ->
  released i v digest r /\ Registry.channel r = channel.
Proof.
  intros Hc Hr. destruct (candidate_release_fields _ _ _ _ _ _ Hc Hr) as (f & c & rq & -> & _). unfold release_of_json, released.
  intros H. cbn in H. apply bind_Some in H as (b & _ & H). apply bind_Some in H as (sc & _ & H). apply bind_Some in H as (rj & _ & H).
  apply bind_Some in H as (q & _ & [= <-]). done.
Qed.

Lemma release_hook value i v digest channel rel :
  candidate_ok policies value i v digest channel -> candidate_release value = Ok rel ->
  object_hook (JObj value) = Ok tt -> object_hook (JObj rel) = Ok tt.
Proof.
  intros Hc Hr Hh. destruct (candidate_release_fields _ _ _ _ _ _ Hc Hr) as (f & c & rq & -> & Hf & Hcm & Hrq).
  assert (H1 := hook_jget _ _ _ Hh Hf). assert (H2 := hook_jget _ _ _ Hh Hcm). assert (H3 := hook_jget _ _ _ Hh Hrq).
  apply hook_obj. split; [repeat constructor; done|]. apply (bool_decide_unpack _). vm_compute. exact I.
Qed.

(** The permanent URL served the approved bytes: a download from it made this one
    request, was answered with success, and the body that was read, in time and to
    its end, has the digest. *)
Definition artifact_served (i v digest : string) : Prop :=
  exists c, artifact_url c = canonical_url i v /\
    let d := download_artifact sha256_of net c None DEFAULT_TIMEOUT MAX_ARTIFACT_BYTES in
    result_ d = Ok digest /\ requested d = [canonical_url i v] /\
    (exists code where_to len, send net 0 (canonical_url i v) = Answer code where_to len /\ is_success code = true) /\
    exists chunks, file d = Some (joined chunks) /\ digest = sha256_of (joined chunks) /\
      served net (monotonic net 0 + MAX_DOWNLOAD_SECONDS) MAX_ARTIFACT_BYTES 0 0 chunks.

(** The registry's own host may not redirect. *)
Lemma open_url_direct h remaining visited n u len urls :
  h <> "github.com" -> open_url net validate_redirect_target h remaining visited n u = (Ok len, urls) ->
  urls = [u] /\ exists code where_to, send net n u = Answer code where_to len /\ is_success code = true.
Proof.
  intros Hh Ho. assert (Hr := open_url_requests net h remaining visited n u _ _ Ho). destruct Hr as (_ & rest & -> & _ & Hall).
  assert (rest = []) as -> by (destruct rest as [|x rest]; [done | by apply Forall_cons in Hall as [[? _] _]]). split; [done|].
  destruct remaining as [|remaining]; cbn [open_url] in Ho; destruct (send net n u) as [code where_to l|]; try done;
    destruct (is_success code) eqn:Hs; [injection Ho as ->; by exists code, where_to| |injection Ho as ->; by exists code, where_to|];
    destruct (is_redirect code), where_to as [| | |target]; try done.
  destruct (validate_redirect_target target h) as [x|x] eqn:Hv; [by apply validate_redirect_target_Ok in Hv as [? _] | done].
Qed.

Lemma download_direct c i v digest :
  fullmatch MODULE_ID_RE i = true -> fullmatch SEMVER_RE v = true -> artifact_url c = canonical_url i v ->
  result_ (download_artifact sha256_of net c None DEFAULT_TIMEOUT MAX_ARTIFACT_BYTES) = Ok digest -> artifact_served i v digest.
Proof.
  intros Hi Hv Hu Hr. exists c. split; [done|]. cbv zeta. split; [done|].
  destruct (download_sound sha256_of net c None DEFAULT_TIMEOUT MAX_ARTIFACT_BYTES) as (_ & _ & _ & _ & Hd).
  destruct (Hd _ Hr) as (chunks & Hchunks). cut (requested (download_artifact sha256_of net c None DEFAULT_TIMEOUT MAX_ARTIFACT_BYTES) = [canonical_url i v] /\
    exists code where_to len, send net 0 (canonical_url i v) = Answer code where_to len /\ is_success code = true).
  { intros [H1 H2]. split; [done|]. split; [done|]. by exists chunks. }
  clear Hd Hchunks. revert Hr. unfold download_artifact, download_with. cbv zeta.
  destruct (_ || _); [done|]. destruct (validate_candidate_url c) as [p|] eqn:Hc; [|done].
  apply validate_candidate_url_Ok in Hc as [Hc _]. rewrite Hu in *. rewrite canonical_url_parts in Hc by done. injection Hc as <-.
  change (hostname {| scheme := "https"; netloc := CANONICAL_REGISTRY_HOST; path := canonical_path i v; query := ""; fragment := "" |})
    with (Some CANONICAL_REGISTRY_HOST). unfold CANONICAL_REGISTRY_HOST at 1 2. cbv iota.
  destruct (open_url _ _ _ _ _ _ _) as [[len|e] urls] eqn:Ho; [|done]. apply open_url_direct in Ho as (-> & code & w & Hs & Hok); [|done].
  destruct (check_length _ len); [|done]. destruct (destination_open net); [done|]. destruct (copy_all _ _ _) as [copied bytes].
  intros _. cbn [requested]. split; [done|]. by exists code, w, len.
Qed.

Lemma check_artifact_Ok value i v digest channel :
  candidate_ok policies value i v digest channel -> fullmatch MODULE_ID_RE i = true -> check_artifact sha256_of net value (canonical_url i v) = Ok tt ->
  artifact_served i v digest.
Proof.
  intros Hc Hi. unfold check_artifact.
  destruct (result_ _) as [dg|e] eqn:Hr; [|by destruct e as [msg| | |]; [destruct (substring_in _ msg)|..]].
  unfold getitem. destruct (cand_digest _ _ _ _ _ _ Hc) as [-> _]. cbn [of_option refused res_bind].
  intros H%raise_if_Ok%differs_str. injection H as ->. by apply (download_direct (permanent_artifact value (canonical_url i v))); [done | apply Hc | done |].
Qed.

(** The registry on the disk. *)
Definition registry_of (p : names) (ms : list module) : Prop :=
  exists raw, load_disk schema_valid p = Ok raw /\ typed raw = Ok ms.

Lemma typed_elem raw ms : typed raw = Ok ms -> forall m, m ∈ ms <-> exists l, l ∈ raw /\ module_of_json l = Some m.
Proof.
  unfold typed. intros H%of_option_Ok. apply mapM_Some in H. intros m. split.
  - intros Hm. by destruct (Forall2_in_r _ _ _ _ H Hm) as (l & ? & ?); exists l.
  - intros (l & Hl & Hm). destruct (Forall2_in_l _ _ _ _ H Hl) as (m' & ? & ?). congruence.
Qed.

Lemma loaded_ids p raw ms : load_disk schema_valid p = Ok raw -> typed raw = Ok ms ->
  NoDup (map id ms) /\ forall l m, l ∈ raw -> module_of_json l = Some m -> json_id l = id m.
Proof.
  intros (_ & Hnd & Hall & _)%load_disk_Ok Ht. rewrite Forall_forall in Hall.
  assert (Hid : forall l m, l ∈ raw -> module_of_json l = Some m -> json_id l = id m).
  { intros l m Hl Hm. destruct (Hall l Hl) as (m' & f & Hm' & _ & He & _). congruence. }
  split; [|done]. unfold typed in Ht. apply of_option_Ok, mapM_Some in Ht.
  assert (Heq : map id ms = map json_id raw); [|by rewrite Heq].
  clear Hnd Hall. induction Ht as [|l m raw ms Hm _ IH]; [done|]. simpl. rewrite IH.
  - f_equal. symmetry. apply Hid; [by left | done].
  - intros l' m' Hl'. apply Hid. by right.
Qed.

(** The registry after the file of the module has been rewritten. *)
Lemma registry_after p p' fs value i v digest raw n module rel vs ms :
  target p value i v digest raw n module rel vs -> object_hook (JObj value) = Ok tt -> typed raw = Ok ms ->
  next_release (JStr v) vs = Ok None -> validate_module schema_valid (with_release module rel vs) "promotion" None = Ok tt ->
  p !! "registry" = Some (Folder fs) ->
  p' !! "registry" = Some (Folder (<[module_path i := canonical_json (JObj (with_release module rel vs))]> fs)) ->
  forall raw' ms', load_disk schema_valid p' = Ok raw' -> typed raw' = Ok ms' ->
  exists m r, m ∈ ms /\ id m = i /\ release_of_json (JObj rel) = Some r /\ (v ∉ map version (versions m)) /\
    (forall x, x ∈ ms' <-> (x ∈ ms /\ id x <> i) \/ x = with_versions m (versions m ++ [r])) /\
    module_of_json module = Some m /\ (forall l, l ∈ raw' <-> (l ∈ raw /\ json_id l <> i) \/ l = sorted_doc (with_release module rel vs)) /\
    object_hook (JObj (with_release module rel vs)) = Ok tt.
Proof.
  intros [_ [channel Hc] Hraw Hfind _ Hrel _ Hvs] Hh Hms Hnext Hval Hfs Hfs' raw' ms' Hraw' Hms'.
  destruct (found_module _ _ _ _ _ Hraw Hfind) as (Hn & Hj & m & Hm & Hok & Hi & Hmh).
  apply list_elem_of_lookup_2 in Hn. assert (Hji := json_id_str _ _ Hj).
  destruct (module_decode schema_valid _ _ _ Hval) as (m' & Hm' & _ & _ & _).
  destruct (module_with_release _ _ _ _ _ Hm Hvs Hm') as (r & Hr & -> & Htyped).
  assert (Hnew := next_release_typed v _ _ Htyped). rewrite Hnext in Hnew.
  assert (Hhook : object_hook (JObj (with_release module rel vs)) = Ok tt).
  { apply set_member_hook; [|done]. apply hook_arr, Forall_app. split; [|by apply Forall_singleton; eapply release_hook].
    apply hook_arr. eapply hook_jget; [exact Hmh | exact Hvs]. }
  rewrite <- Hji in Hfs'. assert (Hload := load_after_write schema_valid _ _ _ _ _ _ _ Hraw Hfs Hn Hfs' Hraw'). rewrite Hji in Hload.
  destruct (loaded_ids _ _ _ Hraw Hms) as [_ Hids]. assert (Hms_in := typed_elem _ _ Hms). assert (Hms_in' := typed_elem _ _ Hms').
  exists m, r. split; [apply Hms_in; by exists module|]. split; [done|]. split; [done|]. split; [done|]. split; [|done].
  destruct (sorted_same _ Hhook) as [Hsame _]. assert (Hdoc := same_module _ _ _ Hsame Hm').
  intros x. rewrite Hms_in'. split.
  - intros (l & Hl & Hx). apply Hload in Hl as [[Hl Hne]| ->]; [left | right; congruence].
    split; [apply Hms_in; by exists l|]. by rewrite <- (Hids l x).
  - intros [[Hx Hne]| ->].
    + apply Hms_in in Hx as (l & Hl & Hx). exists l. split; [|done]. apply Hload. left. split; [done|]. by rewrite (Hids l x).
    + exists (sorted_doc (with_release module rel vs)). split; [|done]. apply Hload. by right.
Qed.

End Prepared.

Section Published.
Context (sha256_of : string -> string) (schema_valid : string -> json -> bool).
Context (policies : string -> option string) (builder_policy : members).
Context (fails : nat -> bool) (temporary : string -> names -> string).
Context (torn : nat -> string -> string) (remains : nat -> texts -> texts).
Context (resolve : list string -> list string) (root : list string).

(** [mkdtemp] chooses a name that is not in use and begins with the prefix. *)
Hypothesis temporary_new : forall prefix p, p !! temporary prefix p = None.
Hypothesis temporary_prefix : forall prefix p, startswith prefix (temporary prefix p) = true.

Abbreviation publish_ := (publish_module schema_valid fails temporary torn remains resolve root).
Abbreviation promote_ := (promote sha256_of schema_valid policies builder_policy fails temporary torn remains resolve root).
Abbreviation main_ := (main sha256_of schema_valid policies builder_policy fails temporary torn remains resolve root).
Abbreviation prepare_ := (prepare sha256_of schema_valid policies builder_policy).

(** One file of one folder is written, or torn. *)
Lemma write_text_cases folder path text s r s' :
  write_text fails torn folder path text s = (r, s') ->
  backup s' = backup s /\ (forall n, n <> folder -> entries s' !! n = entries s !! n) /\
  (r = Ok tt -> exists fs, entries s !! folder = Some (Folder fs) /\ entries s' = <[folder := Folder (<[path := text]> fs)]> (entries s)).
Proof.
  unfold write_text. intros H. apply step_cases in H as (Hb & _ & H). split; [done|].
  destruct H as [[-> He]|(e & -> & [[_ He]|[_ He]])].
  - destruct (entries s !! folder) as [[fs| |c]|] eqn:Hf; try done. injection He as He. split.
    + intros n Hn. by rewrite <- He, lookup_alter_ne.
    + intros _. exists fs. split; [done|]. rewrite <- He. apply map_eq. intros n. destruct (decide (n = folder)) as [->|Hn].
      * by rewrite lookup_alter_eq, Hf, lookup_insert_eq.
      * by rewrite lookup_alter_ne, lookup_insert_ne.
  - split; [|done]. intros n Hn. by rewrite He, lookup_alter_ne.
  - split; [|done]. intros n Hn. by rewrite He.
Qed.

Definition rewritten (i : string) (new : members) (fs : texts) (p : names) : names :=
  <["registry" := Folder (<[module_path i := canonical_json (JObj new)]> fs)]> p.

Lemma publish_cases i new s r s' :
  backup s = None -> publish_ i new s = (r, s') ->
  (forall n, n <> "dist" -> n <> "registry" -> is_Some (entries s !! n) -> entries s' !! n = entries s !! n) /\
  (r = Ok tt -> exists fs raw ms built, entries s !! "registry" = Some (Folder fs) /\
     load_disk schema_valid (rewritten i new fs (entries s)) = Ok raw /\ typed raw = Ok ms /\ site schema_valid ms = Ok built /\
     entries s' = <["dist" := Folder built]> (rewritten i new fs (entries s))).
Proof.
  intros Hb. unfold publish_module, b_bind. destruct (write_text _ _ _ _ _ s) as [w s1] eqn:Hw.
  apply write_text_cases in Hw as (Hb1 & Hoth & Hok). destruct w as [[]|e].
  - destruct (Hok eq_refl) as (fs & Hfs & He1). unfold rebuild. intros H.
    apply (build_replaces_whole fails temporary torn remains schema_valid resolve root (root ++ ["registry"]) temporary_new temporary_prefix)
      in H as [Ho H]; [|congruence]. split.
    + intros n Hd Hr Hn. rewrite Ho by (done || by rewrite Hoth). by apply Hoth.
    + intros ->. destruct H as (ms & built & Hms & Hsite & He & _). apply res_bind_Ok in Hms as (raw & Hraw & Hms).
      exists fs, raw, ms, built. split; [done|]. change (entries s1 = rewritten i new fs (entries s)) in He1. by rewrite <- He1.
  - intros [= <- <-]. split; [|done]. intros n _ Hr _. by apply Hoth.
Qed.

Lemma load_disk_same p p' : p' !! "registry" = p !! "registry" -> load_disk schema_valid p' = load_disk schema_valid p.
Proof. unfold load_disk. by intros ->. Qed.

Lemma promote_Ok net cutover candidate s changed s' :
  promote_ net cutover candidate s = (Ok changed, s') ->
  (changed = false /\ s' = s /\ prepare_ net cutover candidate (entries s) = Ok None) \/
  (changed = true /\ exists i new, prepare_ net cutover candidate (entries s) = Ok (Some (i, new)) /\ publish_ i new s = (Ok tt, s')).
Proof.
  unfold promote. destruct (prepare_ _ _ _ _) as [[[i new]|]|e] eqn:Hp; [| |done].
  - destruct (publish_ i new s) as [[[]|e] s1] eqn:Hs; [|done]. intros [= <- <-]. right. split; [done|]. by exists i, new.
  - intros [= <- <-]. by left.
Qed.

(** A module that only gained a release preserves the registry. *)
Lemma append_preserves ms ms' m r i :
  NoDup (map id ms) -> m ∈ ms -> id m = i ->
  (forall x, x ∈ ms' <-> (x ∈ ms /\ id x <> i) \/ x = with_versions m (versions m ++ [r])) -> preserves ms' ms.
Proof.
  intros Hnd Hm Hi H b Hb. destruct (decide (id b = i)) as [He|Hne].
  - assert (b = m) as -> by (apply (NoDup_map_inj id ms); congruence). exists (with_versions m (versions m ++ [r])).
    split; [apply H; by right|]. split; [by split|]. intros r' Hr'. exists r'. split; [apply elem_of_app; by left | by left].
  - exists b. split; [apply H; by left|]. split; [by split|]. intros r' Hr'. exists r'. split; [done | by left].
Qed.


(** The promoted release is found again, in the document read back. *)
Lemma promoted_found value i v digest channel rel module m vs r :
  candidate_ok policies value i v digest channel -> candidate_release value = Ok rel ->
  release_of_json (JObj rel) = Some r -> module_of_json module = Some m -> jget "versions" module = Some (JArr vs) ->
  (v ∉ map version (versions m)) -> object_hook (JObj (with_release module rel vs)) = Ok tt ->
  module_of_json (sorted_doc (with_release module rel vs)) = Some (with_versions m (versions m ++ [r])) ->
  exists ws previous, jget "versions" (sorted_doc (with_release module rel vs)) = Some (JArr ws) /\
    next_release (JStr v) ws = Ok (Some previous) /\ py_eq previous (JObj rel) = true.
Proof.
  intros Hc Hrel Hr Hm Hvs Hv Hh Hm'. set (new := with_release module rel vs) in *.
  assert (Hj := jget_sort_keys "versions" new (sorted_doc new) (proj2 (proj1 (hook_obj _) Hh)) (sort_keys_obj _)).
  unfold new, with_release in Hj. rewrite jget_set_member in Hj. change (String.eqb "versions" "versions") with true in Hj. cbv iota in Hj.
  cbn [option_map] in Hj. fold (with_release module rel vs) new in Hj. rewrite sort_keys_arr, map_app in Hj.
  exists (map sort_keys vs ++ map sort_keys [JObj rel]).
  assert (Ht := proj1 (module_read _ _ _ Hm' Hj)). assert (Hold := proj1 (module_read _ _ _ Hm Hvs)).
  assert (Hn := next_release_typed v _ _ Ht). destruct (released_Ok policies _ _ _ _ _ _ _ Hc Hrel Hr) as [[Hrv _] _].
  destruct (next_release _ _) as [[previous|]|]; [|exfalso; apply Hn; simpl; rewrite map_app, elem_of_app; right; simpl; rewrite Hrv; by left|done].
  exists previous. split; [done|]. split; [done|]. destruct Hn as (Hin & r' & _ & Hr' & Hrv'). apply elem_of_app in Hin as [Hin|Hin].
  - exfalso. apply list_elem_of_fmap in Hin as (j & -> & Hin). destruct (Forall2_in_l _ _ _ _ Hold Hin) as (r0 & Hr0 & Hj0).
    assert (Hjh : object_hook j = Ok tt).
    { assert (Ha := hook_jget "versions" new (JArr (vs ++ [JObj rel])) Hh). rewrite hook_arr, Forall_app, Forall_forall in Ha.
      apply Ha; [|done]. unfold new, with_release. by rewrite jget_set_member. }
    rewrite (same_release _ _ _ (proj1 (py_eq_sort_keys _ Hjh)) Hjh (hook_sort_keys _ Hjh) Hj0) in Hr'. injection Hr' as <-.
    apply Hv. rewrite <- Hrv'. by apply (list_elem_of_fmap_2 version).
  - apply list_elem_of_singleton in Hin as ->. apply py_eq_sort_keys.
    assert (Ha := hook_jget "versions" new (JArr (vs ++ [JObj rel])) Hh). rewrite hook_arr, Forall_app, !Forall_forall in Ha.
    apply Ha; [|by left]. unfold new, with_release. by rewrite jget_set_member.
Qed.

Lemma prepare_again net net' cutover candidate s i new s' :
  object_hook candidate = Ok tt -> backup s = None -> prepare_ net cutover candidate (entries s) = Ok (Some (i, new)) ->
  publish_ i new s = (Ok tt, s') -> prepare_ net' cutover candidate (entries s') = Ok None.
Proof.
  intros Hh Hb Hp Hpub. apply prepare_Ok in Hp as (Hcut & value & i' & v & digest & raw & n & module & rel & vs & -> & Ht & Hp).
  destruct Hp as (-> & -> & Hnext & Hval & _). assert (Ht' := Ht). destruct Ht' as [Hvalid [channel Hc] Hraw Hfind Hsrc Hrel [dg Hurl] Hvs].
  destruct (load_disk_typed _ _ _ Hraw) as [ms Hms]. apply publish_cases in Hpub as [_ Hpub]; [|done].
  destruct (Hpub eq_refl) as (fs & raw' & ms' & built & Hfs & Hraw' & Hms' & _ & He).
  destruct (registry_after _ _ _ _ _ fs _ _ _ _ _ _ _ _ _ _ Ht Hh Hms Hnext Hval Hfs (lookup_insert_eq _ _ _) raw' ms' Hraw' Hms')
    as (m & r & _ & Hi & Hr & Hnew & _ & Hm & Hload & Hhook).
  set (doc := sorted_doc (with_release module rel vs)) in *.
  assert (Hdoc : doc ∈ raw') by (apply Hload; by right). assert (Hd : forall k, jget k doc = option_map sort_keys (jget k (with_release module rel vs))).
  { intros k. apply jget_sort_keys; [by apply hook_obj | apply sort_keys_obj]. }
  destruct (found_module _ _ _ _ _ _ Hraw Hfind) as (_ & Hj & _).
  assert (Hfind' : exists n', list_find (has_id (JStr i')) raw' = Some (n', doc)).
  { assert (Hid : has_id (JStr i') doc).
    { unfold has_id, get_item. rewrite Hd. unfold with_release. rewrite jget_set_member. cbn [String.eqb Ascii.eqb Bool.eqb]. rewrite Hj.
      cbn. apply String.eqb_refl. }
    destruct (list_find_elem_of _ _ _ Hdoc Hid) as [[n' l] Hf]. exists n'. rewrite Hf. assert (Hf' := Hf).
    apply list_find_Some in Hf as (Hl & Hidl & _). destruct (found_module _ _ _ _ _ _ Hraw' Hf') as (_ & Hjl & _).
    apply list_elem_of_lookup_2, Hload in Hl as [[_ Hne]| ->]; [by rewrite (json_id_str _ _ Hjl) in Hne | done]. }
  destruct Hfind' as [n' Hfind']. apply load_disk_Ok in Hraw' as Hall. destruct Hall as (_ & _ & Hall & _).
  rewrite Forall_forall in Hall. destruct (Hall doc Hdoc) as (m' & _ & Hm' & _).
  destruct (module_decode schema_valid _ _ _ Hval) as (m2 & Hm2 & _). destruct (module_with_release _ _ _ _ _ Hm Hvs Hm2) as (r2 & Hr2 & -> & _).
  assert (r2 = r) as -> by congruence. destruct (promoted_found _ _ _ _ _ _ _ _ _ _ Hc Hrel Hr Hm Hvs Hnew Hhook) as (ws & previous & Hws & Hprev & Heq).
  { by apply (same_module (with_release module rel vs)); [apply sorted_same|]. }
  fold doc in Hws. unfold prepare. rewrite bool_decide_false by done. cbn [raise_if res_bind]. rewrite Hvalid. cbn [refused res_bind].
  destruct Hc as [Hci [u [_ Hu]] [Hcv _] _ _ _ _ _ _]. unfold getitem. rewrite Hci, Hcv. cbn [of_option refused res_bind].
  rewrite (load_disk_same (rewritten i' (with_release module rel vs) fs (entries s))) by (by rewrite He, lookup_insert_ne).
  rewrite Hraw'. cbn [refused res_bind]. rewrite Hfind', Hd. unfold with_release at 1. rewrite jget_set_member.
  cbn [String.eqb Ascii.eqb Bool.eqb]. rewrite Hsrc, Hu. cbn [option_map sort_keys of_option refused res_bind]. unfold differs at 1. cbn [py_eq].
  rewrite String.eqb_refl. cbn [negb refuse raise_if refused res_bind]. rewrite Hrel. cbn [refused res_bind]. rewrite Hurl.
  cbn [of_option refused res_bind item jget String.eqb Ascii.eqb Bool.eqb]. rewrite Hws. cbn [of_option refused res_bind iterate].
  rewrite Hprev. cbn [refused res_bind]. unfold differs. by rewrite Heq.
Qed.

(** A promotion that has been made is not made again: whatever the network does,
    it answers that the version is there and changes nothing. *)
Theorem legacy_promotion_again net net' cutover candidate s s' :
  object_hook candidate = Ok tt -> backup s = None -> promote_ net cutover candidate s = (Ok true, s') ->
  promote_ net' cutover candidate s' = (Ok false, s').
Proof.
  intros Hh Hb H. apply promote_Ok in H as [(? & _)|(_ & i & new & Hp & Hpub)]; [done|].
  unfold promote. by rewrite (prepare_again net net' _ _ _ _ _ _ Hh Hb Hp Hpub).
Qed.


Lemma promote_Err net cutover candidate s e s' :
  backup s = None -> promote_ net cutover candidate s = (Err e, s') ->
  (s' = s /\ prepare_ net cutover candidate (entries s) = Err e) \/
  ((exists i new, prepare_ net cutover candidate (entries s) = Ok (Some (i, new))) /\ (exists b, e = Unbuilt b) /\
   forall n, n <> "dist" -> n <> "registry" -> is_Some (entries s !! n) -> entries s' !! n = entries s !! n).
Proof.
  intros Hb. unfold promote. destruct (prepare_ _ _ _ _) as [[[i new]|]|e'] eqn:Hp; [|done|].
  - destruct (publish_ i new s) as [[[]|b] s1] eqn:Hs; [done|]. intros [= <- <-]. right. split; [by exists i, new|].
    split; [by exists b|]. by apply (publish_cases _ _ _ _ _ Hb) in Hs as [Hs _].
  - intros [= <- <-]. by left.
Qed.

Lemma write_plan_cases value module_id version reason s r s' :
  write_plan fails torn value module_id version reason s = (r, s') ->
  (forall n, n <> "promotion-plans" -> entries s' !! n = entries s !! n) /\
  (r = Ok tt -> exists fs text, plan_text value module_id version reason = Ok text /\
     entries s' !! "promotion-plans" = Some (Folder fs) /\ fs !! (module_id +:+ "/" +:+ version +:+ ".json") = Some text).
Proof.
  unfold write_plan, b_bind. destruct (mkdir_parents fails "promotion-plans" s) as [w s1] eqn:Hm.
  assert (H1 : forall n, n <> "promotion-plans" -> entries s1 !! n = entries s !! n).
  { apply step_cases in Hm as (_ & _ & [[_ He]|(e & _ & [[_ He]|[_ He]])]); try by rewrite He.
    destruct (entries s !! "promotion-plans") as [[]|]; try done; injection He as <-; intros n Hn; try done. by rewrite lookup_insert_ne. }
  destruct w as [[]|e]; [|by intros [= <- <-]]. unfold Build.pure. destruct (plan_text _ _ _ _) as [text|e]; [|by intros [= <- <-]].
  intros (_ & Hoth & Hok)%write_text_cases. split; [intros n Hn; by rewrite Hoth, H1|]. intros ->.
  destruct (Hok eq_refl) as (fs & _ & He). eexists _, text. split; [done|]. rewrite He, lookup_insert_eq. split; [done|]. apply lookup_insert_eq.
Qed.

Definition cutover_reason : string := "Legacy JSON publication is disabled after DB writer cutover".

(** The permanent URL of a candidate answered 404. *)
Definition not_served_yet (net : network) (value : members) (reason : string) : Prop :=
  exists url msg, reason = "Permanent artifact unavailable: " +:+ url /\ substring_in "HTTP 404" msg = true /\
    result_ (download_artifact sha256_of net (permanent_artifact value url) None DEFAULT_TIMEOUT MAX_ARTIFACT_BYTES)
    = Err (ArtifactVerificationError msg).

(** Why a promotion is blocked rather than refused. *)
Lemma prepare_blocked_reason net cutover candidate p reason :
  prepare_ net cutover candidate p = Err (PromotionBlocked reason) ->
  cutover = Some "true" /\ reason = cutover_reason \/
  cutover <> Some "true" /\ exists value, validate_candidate policies builder_policy candidate = Ok value /\ not_served_yet net value reason.
Proof.
  assert (Hr : forall A (r : res exn A), refused r = Err (PromotionBlocked reason) -> False) by by intros A [].
  assert (Hb : forall A C (r : res exn A) (k : A -> res legacy_exn C), res_bind (refused r) k = Err (PromotionBlocked reason) ->
    exists a, r = Ok a /\ k a = Err (PromotionBlocked reason)).
  { intros A C [a|e] k H; [by exists a | done]. }
  unfold prepare. case_bool_decide as Hc; [intros [= <-]; by left|]. cbn [raise_if res_bind]. intros H. right. split; [done|].
  apply Hb in H as (value & Hv & H). do 3 (apply Hb in H as (? & _ & H)). destruct (list_find _ _) as [[n module]|]; [|done].
  do 5 (apply Hb in H as (? & _ & H)). apply Hb in H as (url & _ & H). do 2 (apply Hb in H as (? & _ & H)).
  apply Hb in H as ([previous|] & _ & H); [by apply Hb in H as (? & _ & H)|]. do 4 (apply Hb in H as (? & _ & H)).
  exists value. split; [done|]. exists (json_text url). unfold check_artifact in H. destruct (result_ _) as [digest|[msg| | |]]; try done.
  - destruct (getitem "bundle_sha256" value) as [expected|]; [|done]. simpl in H. by destruct (differs _ _).
  - destruct (substring_in "HTTP 404" msg) eqn:Hs; [|done]. injection H as <-. by exists msg.
Qed.

(** The plan of a blocked promotion is written, or a step of writing it fails. *)
Definition plan_written (value : members) (module_id version reason : string) (s : disk) (r : res legacy_exn string) (s' : disk) : Prop :=
  (forall n, n <> "promotion-plans" -> entries s' !! n = entries s !! n) /\
  match r with
  | Ok line => line = reason /\ exists fs text, plan_text value module_id version reason = Ok text /\
      entries s' !! "promotion-plans" = Some (Folder fs) /\ fs !! (module_id +:+ "/" +:+ version +:+ ".json") = Some text
  | Err e => exists b, e = Unbuilt b
  end.


End Published.

(** ** Example: a first promotion, one that is blocked, and a repetition *)

Definition legacy_module : module := example_module [example_release "0.9.0" "stable" (canonical_url "hello" "0.9.0")].

Definition legacy_disk : disk :=
  {| entries := {["registry" := Folder {["registry.json" := canonical_json (JObj [("schema_version", JInt 1)]);
                                         "modules/hello.json" := canonical_json (JObj (module_json legacy_module))]};
                  "dist" := Folder {["index.json" := "old"]}]};
     taken := 0; backup := None |}.

(** The answer to the request, then two chunks. *)
Definition legacy_network (code : Z) : network :=
  {| send := fun _ _ => Answer code NoLocation None;
     read := fun k _ => if Nat.ltb k 2 then Chunk "bytes" else Chunk "";
     monotonic := Z.of_nat; destination_open := None; write := fun _ => None; destination_close := None |}.

Definition legacy_sha (bytes : string) : string := if String.eqb bytes "bytesbytes" then hex64 "a" else hex64 "0".

Definition example_promote (code : Z) (s : disk) : res legacy_exn bool * disk :=
  promote legacy_sha any_schema example_policies [] (fun _ => false) example_temporary (fun _ t => t) (fun _ fs => fs)
    (fun p => p) ["srv"; "repo"] (legacy_network code) None (JObj example_candidate) s.

Lemma example_promote_eq code s : example_promote code s =
  promote legacy_sha any_schema example_policies [] (fun _ => false) example_temporary (fun _ t => t) (fun _ fs => fs)
    (fun p => p) ["srv"; "repo"] (legacy_network code) None (JObj example_candidate) s.
Proof. reflexivity. Qed.

Lemma example_promoted : fst (example_promote 200 legacy_disk) = Ok true.
Proof. vm_compute. reflexivity. Qed.

Lemma example_candidate_hook : object_hook (JObj example_candidate) = Ok tt.
Proof. vm_compute. reflexivity. Qed.


(** Promoting again answers that the version is there. *)
Example example_promoted_again :
  let s := snd (example_promote 200 legacy_disk) in example_promote 500 s = (Ok false, s).
Proof.
  cbv zeta. destruct (example_promote 200 legacy_disk) as [r s'] eqn:H. assert (Hr := example_promoted). rewrite H in Hr. cbn [fst] in Hr. subst r.
  rewrite example_promote_eq in H. rewrite example_promote_eq.
  by apply (legacy_promotion_again legacy_sha any_schema example_policies [] (fun _ => false) example_temporary (fun _ t => t)
    (fun _ fs => fs) (fun p => p) ["srv"; "repo"] example_temporary_new example_temporary_prefix (legacy_network 200)
    (legacy_network 500) None (JObj example_candidate) legacy_disk s' example_candidate_hook eq_refl).
Qed.

(** The permanent URL answers 404, and a plan is asked for. *)
Definition legacy_main (s : disk) : res legacy_exn string * disk :=
  main legacy_sha any_schema example_policies [] (fun _ => false) example_temporary (fun _ t => t) (fun _ fs => fs)
    (fun p => p) ["srv"; "repo"] true (fun _ => Some (canonical_json (JObj example_candidate))) (legacy_network 404) None
    "hello" "1.0.0" true s.

Lemma legacy_main_eq s : legacy_main s =
  main legacy_sha any_schema example_policies [] (fun _ => false) example_temporary (fun _ t => t) (fun _ fs => fs)
    (fun p => p) ["srv"; "repo"] true (fun _ => Some (canonical_json (JObj example_candidate))) (legacy_network 404) None
    "hello" "1.0.0" true s.
Proof. reflexivity. Qed.

Definition blocked_line : string := "Permanent artifact unavailable: " +:+ canonical_url "hello" "1.0.0".

Lemma example_blocked : fst (legacy_main legacy_disk) = Ok blocked_line.
Proof. vm_compute. reflexivity. Qed.

