(* ===== verification/Retention.v ===== *)
(** * Release retention on the host: maintenance_lock.py and prune_releases.py
    of deploy/ansible/roles/packages_registry/files

    The file system is a tree of directories, links and files under absolute
    physical paths, with mount points and times; a link resolves component by
    component, through at most 40 links, as the kernel does.  Other processes act
    before each pass of the deletion loop and between its check and its removal
    ([interfere]); a removal that fails leaves part of its subtree ([kept]).

    The lock is modelled call by call: [exclusive_lock], [run] and [prune_main]
    are programs, trees of system calls with what follows each answer, and the
    kernel keeps the open file descriptions of the lock file, the processes that
    have each open, and the one with the flock.  [step] interleaves the calls of
    any number of processes with ends of processes and with what commands do with
    the descriptions they inherit; a call can fail wherever the code handles it
    ([os.close] alone is taken to succeed). *)

From stdpp Require Import sorting.
From S2P Require Import Prelude PyText SemVer.

Open Scope string_scope.
Open Scope list_scope.

Abbreviation path := (list string).

(** The target of a link is absolute. *)
Inductive entry :=
| Directory (mounted : bool) (mtime_ns : Z)
| Symlink (target : path)
| Regular (text : string).

Abbreviation tree := (gmap path entry).

(** ** Paths: [pathlib.Path] on a tree *)

(** The parent of a path and its last component. *)
Definition parent (p : path) : path := removelast p.
Definition name (p : path) : string := List.last p "".

Definition get (fs : tree) (p : path) : option entry :=
  match p with [] => Some (Directory true 0) | _ => fs !! p end.

(** The walk over the components: [hop] is what a link does. *)
Fixpoint walk (fs : tree) (hop : path -> option path) (here rest : path) : option path :=
  match rest with
  | [] => Some here
  | c :: rest =>
      if String.eqb c ".." then walk fs hop (parent here) rest
      else
        match get fs (here ++ [c]) with
        | None => None
        | Some (Directory _ _) => walk fs hop (here ++ [c]) rest
        | Some (Symlink target) => hop (target ++ rest)
        | Some (Regular _) => match rest with [] => Some (here ++ [c]) | _ => None end
        end
  end.

Fixpoint resolve_links (links : nat) (fs : tree) (p : path) : option path :=
  walk fs (fun target => match links with O => None | S links => resolve_links links fs target end) [] p.

Definition MAXSYMLINKS : nat := 40.

(** [path.resolve(strict=True)]; [None] is an [OSError]. *)
Definition resolve (fs : tree) (p : path) : option path := resolve_links MAXSYMLINKS fs p.

(** [path.lstat()]: the last component is not followed. *)
Definition lstat (fs : tree) (p : path) : option entry :=
  match p with
  | [] => get fs []
  | _ => match resolve fs (parent p) with Some d => get fs (d ++ [name p]) | None => None end
  end.

Definition stat (fs : tree) (p : path) : option entry :=
  match resolve fs p with Some q => get fs q | None => None end.

Definition is_symlink (fs : tree) (p : path) : bool := match lstat fs p with Some (Symlink _) => true | _ => false end.
Definition is_dir (fs : tree) (p : path) : bool := match stat fs p with Some (Directory _ _) => true | _ => false end.
Definition is_file (fs : tree) (p : path) : bool := match stat fs p with Some (Regular _) => true | _ => false end.
(** [os.path.ismount] *)
Definition ismount (fs : tree) (p : path) : bool := match lstat fs p with Some (Directory m _) => m | _ => false end.
Definition st_mtime_ns (fs : tree) (p : path) : option Z := match stat fs p with Some (Directory _ t) => Some t | _ => None end.
Definition read_text (fs : tree) (p : path) : option string := match stat fs p with Some (Regular t) => Some t | _ => None end.

(** [path.iterdir()], in some order. *)
Definition iterdir (fs : tree) (p : path) : list path :=
  List.filter (fun q => bool_decide (q <> [] /\ parent q = p)) (map fst (map_to_list fs)).

(** ** prune_releases.py *)

Inductive maintenance_exn :=
| OSErrorRaised
| ValueErrorRaised (msg : string) (p : path)
| RuntimeErrorRaised (msg : string).

Definition os {A} (o : option A) : res maintenance_exn A := of_option OSErrorRaised o.

Definition SHA : re := rep 40 (Cls is_hex).

Definition release_path (fs : tree) (p root : path) : res maintenance_exn path :=
  let? resolved := os (resolve fs p) in
  raise_if
    (is_symlink fs p || negb (bool_decide (resolved = p)) || negb (bool_decide (parent resolved = root))
     || negb (fullmatch SHA (name p)) || negb (is_dir fs p) || ismount fs p)
    (ValueErrorRaised "Unsafe release path" p) ;?
  Ok resolved.

(** The target of one of the pointers. *)
Definition protected_path (fs : tree) (root : path) (pointer : string) : res maintenance_exn path :=
  let link := parent root ++ [pointer] in
  raise_if (negb (is_symlink fs link)) (ValueErrorRaised "Missing or non-symlink protection pointer" link) ;?
  let? target := os (resolve fs link) in
  release_path fs target root.

Definition protected_paths (fs : tree) (root : path) : res maintenance_exn (gset path) :=
  let? targets := traverse (protected_path fs root) ["current"; "previous"] in
  Ok (list_to_set targets).

(** The checks on one entry of the release root. *)
Definition classify (fs : tree) (root entry : path) : res maintenance_exn unit :=
  release_path fs entry root ;?
  let marker := entry ++ [".release-ready"] in
  raise_if (is_symlink fs marker || negb (is_file fs marker))
    (ValueErrorRaised "Unclassified release without regular ready marker" entry) ;?
  let? text := os (read_text fs marker) in
  raise_if (negb (String.eqb (strip text) (name entry)))
    (ValueErrorRaised "Unclassified release with mismatched ready marker" entry).

(** [(-path.stat().st_mtime_ns, path.name)] *)
Definition sort_key (fs : tree) (p : path) : res maintenance_exn ((Z * string) * path) :=
  let? t := os (st_mtime_ns fs p) in Ok (((- t)%Z, name p), p).

Definition older (x y : (Z * string) * path) : bool := le_of (pair_compare Z.compare str_compare) (fst x) (fst y).

(** [Path]: absolute or relative. *)
Inductive argument := Absolute (p : path) | Relative (p : path).

Definition select_releases (fs : tree) (release_root : argument) (retention : Z) : res maintenance_exn (list path) :=
  match release_root with
  | Relative p => Err (ValueErrorRaised "Unsafe release root or retention" p)
  | Absolute root =>
      let unsafe := ValueErrorRaised "Unsafe release root or retention" root in
      raise_if (negb (String.eqb (name root) "releases") || bool_decide (parent root = [])) unsafe ;?
      let? resolved := os (resolve fs root) in
      raise_if (negb (bool_decide (resolved = root)) || negb (is_dir fs root) || Z.ltb retention 2) unsafe ;?
      let? protected := protected_paths fs root in
      let entries := iterdir fs root in
      each (classify fs root) entries ;?
      let? keys := traverse (sort_key fs) (List.filter (fun p => negb (bool_decide (p ∈ protected))) entries) in
      let releases := map snd (sort_by older keys) in
      Ok (drop (Z.to_nat (Z.max 0 (retention - Z.of_nat (size protected)))) releases)
  end.

(** Below a path. *)
Definition below (p q : path) : bool := bool_decide (p `prefix_of` q).

(** [os.walk] visits every directory below the release; its links are not followed. *)
Definition nested_mount (fs : tree) (p : path) : bool :=
  existsb (fun kv => below p (fst kv) && negb (bool_decide (fst kv = p)) &&
    match snd kv with Directory m _ => m | _ => false end) (map_to_list fs).

Definition remove (fs : tree) (p : path) : tree := filter (fun kv => below p (fst kv) = false) fs.

Definition rmtree_target (fs : tree) (p : path) : option path :=
  match lstat fs p, resolve fs (parent p) with
  | Some (Directory _ _), Some d => Some (d ++ [name p])
  | _, _ => None
  end.

Section Prune.
(** What other processes do: [interfere (2 * n)] before the n-th check,
    [interfere (2 * n + 1)] between it and the removal; whether a removal fails,
    and which entries it leaves. *)
Context (interfere : nat -> tree -> tree) (rm_fails : nat -> bool) (kept : nat -> path -> bool).

(** [shutil.rmtree(path)]: the links of the parent are followed, the last
    component must be a directory. *)
Definition rmtree (n : nat) (p : path) (fs : tree) : res maintenance_exn unit * tree :=
  match rmtree_target fs p with
  | None => (Err OSErrorRaised, fs)
  | Some q =>
      if rm_fails n then (Err OSErrorRaised, filter (fun kv => below q (fst kv) = false \/ kept n (fst kv) = true) fs)
      else (Ok tt, remove fs q)
  end.

(** The loop over the selected releases: the paths deleted, the tree, and each
    removal with the tree in which it was checked. *)
Fixpoint delete_all (root : path) (n : nat) (selected : list path) (fs : tree)
    : res maintenance_exn (list path) * tree * list (tree * path) :=
  match selected with
  | [] => (Ok [], fs, [])
  | p :: selected =>
      let fs := interfere (2 * n) fs in
      match (release_path fs p root ;?
             let? protected := protected_paths fs root in
             raise_if (bool_decide (p ∈ protected)) (ValueErrorRaised "Release became protected" p)) with
      | Err e => (Err e, fs, [])
      | Ok _ =>
          match rmtree n p (interfere (2 * n + 1) fs) with
          | (Err e, fs') => (Err e, fs', [(fs, p)])
          | (Ok _, fs') =>
              let '(r, fs', log) := delete_all root (S n) selected fs' in
              (let? deleted := r in Ok (p :: deleted), fs', (fs, p) :: log)
          end
      end
  end.

Definition root_of (release_root : argument) : path := match release_root with Absolute p | Relative p => p end.

Definition prune (avoids_symlink_attacks : bool) (release_root : argument) (retention : Z) (fs : tree)
    : res maintenance_exn (list path) * tree * list (tree * path) :=
  if negb avoids_symlink_attacks
  then (Err (RuntimeErrorRaised "Safe fd-based recursive removal is required"), fs, [])
  else
    match (let? selected := select_releases fs release_root retention in
           each (fun p => raise_if (nested_mount fs p) (ValueErrorRaised "Mounted directory inside release" p)) selected ;?
           Ok selected) with
    | Err e => (Err e, fs, [])
    | Ok selected => delete_all (root_of release_root) 0 selected fs
    end.

End Prune.

(** ** maintenance_lock.py *)

Abbreviation pid := nat.
(** An open file description. *)
Abbreviation ofd := nat.

(** The kernel's view of the one inode of the lock file: whether it is a regular
    file, the processes that have each open file description of it in their
    tables, the description that has its flock, and the next new one. *)
Record kernel := { regular : bool; holder : option ofd; openers : gmap ofd (gset pid); next_ofd : ofd }.

Definition opens (k : kernel) (o : ofd) : gset pid := default ∅ (openers k !! o).

(** [os.open]: each call makes a description of its own, without the lock. *)
Definition os_open (p : pid) (k : kernel) : ofd * kernel :=
  (next_ofd k, {| regular := regular k; holder := holder k; openers := <[next_ofd k := {[p]}]> (openers k); next_ofd := S (next_ofd k) |}).

Inductive flocked := Granted | WouldBlock | FlockError.

(** [fcntl.flock(fd, LOCK_EX | LOCK_NB)]: granted unless another description has
    the lock; the process that asks does not matter. *)
Definition flock (fd : ofd) (k : kernel) : flocked * kernel :=
  match holder k with
  | Some o => (if Nat.eqb o fd then Granted else WouldBlock, k)
  | None => (Granted, {| regular := regular k; holder := Some fd; openers := openers k; next_ofd := next_ofd k |})
  end.

(** A description that nobody has open any more is gone, and its lock with it. *)
Definition settle (k : kernel) (r : gmap ofd (gset pid)) : kernel :=
  let r := filter (fun kv => snd kv <> ∅) r in
  {| regular := regular k; openers := r; next_ofd := next_ofd k;
     holder := match holder k with Some o => match r !! o with Some _ => Some o | None => None end | None => None end |}.

(** [os.close(fd)] in one process; the end of a process. *)
Definition close (p : pid) (o : ofd) (k : kernel) : kernel := settle k (alter (fun s => s ∖ {[p]}) o (openers k)).
Definition exit_process (p : pid) (k : kernel) : kernel := settle k (fmap (fun s => s ∖ {[p]}) (openers k)).

(** A child that gets a description of its parent: [pass_fds=(fd,)], a fork. *)
Definition inherit (p c : pid) (o : ofd) (k : kernel) : kernel :=
  {| regular := regular k; holder := holder k; next_ofd := next_ofd k;
     openers := alter (fun s => if bool_decide (p ∈ s) then {[c]} ∪ s else s) o (openers k) |}.

Inductive lock_exn :=
| LockBusy
| LockFailed (e : maintenance_exn).

Definition BUSY : Z := 75.

(** What the programs ask of the kernel, with the type of its answer; [None] is
    an [OSError].  [Proc] is the process's own id with the entries of /proc, and
    [Work] acts on the file system. *)
Inductive call : Type -> Type :=
| Open : call (option ofd)
| Fstat (fd : ofd) : call (option bool)
| Flock (fd : ofd) : call flocked
| Close (fd : ofd) : call unit
| Spawn (command : list string) (pass_fd : ofd) : call (option pid)
| Wait (child : pid) : call Z
| Proc : call (N * list (string * option (list string)))
| Work {A} (f : tree -> A * tree) : call A.

(** A program: its calls in order, each with what follows the answer. *)
Inductive prog (A : Type) :=
| Ret (a : A)
| Sys {B} (c : call B) (next : B -> prog A).
Arguments Ret {A} a.
Arguments Sys {A B} c next.

Fixpoint andthen {A B} (m : prog A) (f : A -> prog B) : prog B :=
  match m with Ret a => f a | Sys c next => Sys c (fun b => andthen (next b) f) end.

(** [try: ... finally: os.close(fd)] *)
Definition finally_close {A} (fd : ofd) (m : prog A) : prog A := andthen m (fun r => Sys (Close fd) (fun _ => Ret r)).

(** The context manager around its body. *)
Definition exclusive_lock {A} (body : ofd -> prog (res lock_exn A)) : prog (res lock_exn A) :=
  Sys Open (fun opened =>
    match opened with
    | None => Ret (Err (LockFailed OSErrorRaised))
    | Some fd =>
        finally_close fd
          (Sys (Fstat fd) (fun st =>
             match st with
             | None => Ret (Err (LockFailed OSErrorRaised))
             | Some false => Ret (Err (LockFailed (ValueErrorRaised "Maintenance lock is not a regular file" [])))
             | Some true =>
                 Sys (Flock fd) (fun locked =>
                   match locked with
                   | FlockError => Ret (Err (LockFailed OSErrorRaised))
                   | WouldBlock => Ret (Err LockBusy)
                   | Granted => body fd
                   end)
             end))
    end).

Definition run (command : list string) : prog Z :=
  andthen
    (exclusive_lock (fun fd =>
       Sys (Spawn command fd) (fun child =>
         match child with
         | None => Ret (Err (LockFailed OSErrorRaised))
         | Some c => Sys (Wait c) (fun code => Ret (Ok code))
         end)))
    (fun r => Ret (match r with Ok code => code | Err LockBusy => BUSY | Err (LockFailed _) => 1%Z end)).

(** [Path(arg).name] *)
Definition arg_name (arg : string) : string :=
  List.last (List.filter (fun c => nonempty c && negb (String.eqb c ".")) (split_on "/" arg)) "".

(** The entries of /proc: their names, and the arguments of those that are still
    there. *)
Definition check_legacy_cleanup (own : N) (processes : list (string * option (list string))) : res maintenance_exn unit :=
  each (fun entry =>
    if negb (nonempty (fst entry) && all_chars is_ascii_digit (fst entry)) || N.eqb (py_int (fst entry)) own then Ok tt
    else
      match snd entry with
      | None => Ok tt
      | Some args =>
          raise_if (existsb (fun arg => nonempty arg
                      && existsb (String.eqb (arg_name arg)) ["ocp-packages-prune-releases"; "prune_releases.py"]) args)
            (RuntimeErrorRaised "Cleanup process is still running; retry after it exits")
      end) processes.

Definition failing {A} (r : res maintenance_exn A) : res lock_exn A := match r with Ok a => Ok a | Err e => Err (LockFailed e) end.

(** [main] of prune_releases.py. *)
Definition prune_main (interfere : nat -> tree -> tree) (rm_fails : nat -> bool) (kept : nat -> path -> bool)
    (avoids_symlink_attacks : bool) (release_root : argument) (retention : Z) : prog Z :=
  andthen
    (exclusive_lock (fun _ =>
       Sys Proc (fun proc =>
         match check_legacy_cleanup (fst proc) (snd proc) with
         | Err e => Ret (Err (LockFailed e))
         | Ok _ =>
             Sys (Work (fun fs => fst (prune interfere rm_fails kept avoids_symlink_attacks release_root retention fs)))
               (fun deleted => Ret (failing deleted))
         end)))
    (fun r => Ret (match r with Ok _ => 0%Z | Err LockBusy => 0%Z | Err (LockFailed _) => 1%Z end)).

(** ** Processes *)

Inductive program :=
| Run (command : list string)
| Prune (interfere : nat -> tree -> tree) (rm_fails : nat -> bool) (kept : nat -> path -> bool)
    (avoids_symlink_attacks : bool) (release_root : argument) (retention : Z).

Definition code_of (g : program) : prog Z :=
  match g with
  | Run command => run command
  | Prune interfere rm_fails kept avoids root retention => prune_main interfere rm_fails kept avoids root retention
  end.

Definition busy_code (g : program) : Z := match g with Run _ => BUSY | _ => 0%Z end.

(** The host: the kernel, the file system, and the processes that run one of the
    programs, each with what is left of it.  Any other process (a command that a
    supervisor started, whatever that starts) is known by its open descriptions. *)
Record host := { kern : kernel; fs : tree; procs : gmap pid (program * prog Z) }.

Definition set_kernel (k : kernel) (h : host) : host := {| kern := k; fs := fs h; procs := procs h |}.

(** No process has the id. *)
Definition fresh (h : host) (p : pid) : Prop := procs h !! p = None /\ map_Forall (fun _ s => p ∉ s) (openers (kern h)).

#[export] Instance fresh_dec h p : Decision (fresh h p).
Proof. apply _. Defined.

(** What the kernel may answer: which calls fail, the id of a new process, an
    exit code, the entries of /proc. *)
Record answers := { open_fails : bool; fstat_fails : bool; flock_fails : bool; child : option pid; code : Z;
                    entries : list (string * option (list string)) }.

Definition perform {B} (e : answers) (p : pid) (c : call B) (h : host) : B * host :=
  match c in call B return B * host with
  | Open => if open_fails e then (None, h) else let '(o, k) := os_open p (kern h) in (Some o, set_kernel k h)
  | Fstat _ => (if fstat_fails e then None else Some (regular (kern h)), h)
  | Flock fd => if flock_fails e then (FlockError, h) else let '(r, k) := flock fd (kern h) in (r, set_kernel k h)
  | Close fd => (tt, set_kernel (close p fd (kern h)) h)
  | Spawn _ fd =>
      match child e with
      | Some c => if bool_decide (fresh h c) then (Some c, set_kernel (inherit p c fd (kern h)) h) else (None, h)
      | None => (None, h)
      end
  | Wait _ => (code e, h)
  | Proc => ((N.of_nat p, entries e), h)
  | Work f => let '(a, t) := f (fs h) in (a, {| kern := kern h; fs := t; procs := procs h |})
  end.

(** The next call of a program, by a process; [Wait] returns once the child has no
    description left. *)
Definition answerable {B} (c : call B) (h : host) : bool :=
  match c with Wait c => bool_decide (map_Forall (fun _ s => c ∉ s) (openers (kern h))) | _ => true end.

Definition advance (e : answers) (p : pid) (pr : prog Z) (h : host) : option (prog Z * host) :=
  match pr with
  | Ret _ => None
  | Sys c next => if answerable c h then let '(b, h') := perform e p c h in Some (next b, h') else None
  end.

(** What one process does: start one of the programs, perform its next call, end
    at any point (killed or done); and, for the others, hand a description on to a
    new process, close it, or change the file system. *)
Inductive step (p : pid) (h : host) : host -> Prop :=
| step_start g : fresh h p ->
    step p h {| kern := kern h; fs := fs h; procs := <[p := (g, code_of g)]> (procs h) |}
| step_call e g pr pr' h' : procs h !! p = Some (g, pr) -> advance e p pr h = Some (pr', h') ->
    step p h {| kern := kern h'; fs := fs h'; procs := <[p := (g, pr')]> (procs h) |}
| step_exit : step p h {| kern := exit_process p (kern h); fs := fs h; procs := delete p (procs h) |}
| step_fork c o : procs h !! p = None -> fresh h c -> c <> p -> step p h (set_kernel (inherit p c o (kern h)) h)
| step_close o : procs h !! p = None -> step p h (set_kernel (close p o (kern h)) h)
| step_files t : procs h !! p = None -> step p h {| kern := kern h; fs := t; procs := procs h |}.

(** No process yet. *)
Definition idle (is_regular : bool) (t : tree) : host :=
  {| kern := {| regular := is_regular; holder := None; openers := ∅; next_ofd := 0 |}; fs := t; procs := ∅ |}.

Definition steps : host -> host -> Prop := rtc (fun h h' => exists p, step p h h').

Definition lock_reachable (h : host) : Prop := exists is_regular t, steps (idle is_regular t) h.

(** ** What the lock promises *)

(** A process has the description open that has the lock. *)
Definition holds (h : host) (p : pid) : Prop := exists o, holder (kern h) = Some o /\ p ∈ opens (kern h) o.

(** The next call is in the body: it starts the command, reads /proc or prunes. *)
Definition begins (pr : prog Z) : bool :=
  match pr with Sys (Spawn _ _) _ | Sys Proc _ | Sys (Work _) _ => true | _ => false end.
(** ... or waits for the command. *)
Definition awaits (pr : prog Z) : option pid := match pr with Sys (Wait c) _ => Some c | _ => None end.
Definition within_body (pr : prog Z) : bool := begins pr || bool_decide (awaits pr <> None).

(** The next call is the flock: its description, and what follows each answer. *)
Definition at_flock (pr : prog Z) : option (ofd * (flocked -> prog Z)) :=
  match pr with
  | Sys c next => match c in call B return (B -> prog Z) -> option (ofd * (flocked -> prog Z)) with
                  | Flock fd => fun next => Some (fd, next)
                  | _ => fun _ => None
                  end next
  | Ret _ => None
  end.

(** ** Facts about the kernel *)

Lemma opens_open p k o : opens (snd (os_open p k)) o = if decide (o = next_ofd k) then {[p]} else opens k o.
Proof.
  unfold opens. cbn [os_open snd openers]. destruct (decide (o = next_ofd k)) as [->|Hne];
    [by rewrite lookup_insert_eq | by rewrite lookup_insert_ne].
Qed.

Lemma opens_inherit p c o k o' :
  opens (inherit p c o k) o' = if decide (o' = o /\ p ∈ opens k o) then {[c]} ∪ opens k o else opens k o'.
Proof.
  unfold opens. cbn [inherit openers]. destruct (decide (o' = o)) as [->|Hne].
  - rewrite lookup_alter_eq. destruct (openers k !! o) as [s|] eqn:Hs; simpl.
    + case_bool_decide; [rewrite decide_True by done | rewrite decide_False by (by intros [])]; done.
    + rewrite decide_False; [done|]. intros [_ H]. by apply not_elem_of_empty in H.
  - rewrite lookup_alter_ne by done. rewrite decide_False; [done | by intros []].
Qed.

Lemma opens_settle k r o : opens (settle k r) o = default ∅ (r !! o).
Proof.
  unfold opens, settle. cbn [openers]. destruct (r !! o) as [s|] eqn:Hs.
  - destruct (decide (s = ∅)) as [->|Hne]; simpl.
    + rewrite (proj2 (map_lookup_filter_None _ _ _)); [done|]. right. intros x Hx. simplify_eq. simpl. by intros [].
    + by rewrite (proj2 (map_lookup_filter_Some _ _ _ s)).
  - rewrite (proj2 (map_lookup_filter_None _ _ _)); [done | by left].
Qed.

Lemma holder_settle k r o : holder (settle k r) = Some o <-> holder k = Some o /\ default ∅ (r !! o) <> ∅.
Proof.
  unfold settle. cbn [holder]. destruct (holder k) as [o'|]; [|by split; [|intros []]].
  destruct (filter _ r !! o') as [s|] eqn:Hs.
  - apply map_lookup_filter_Some in Hs as [Hs Hne]. simpl in Hne. split; [intros [= <-]; by rewrite Hs | by intros [? _]].
  - split; [done|]. intros [[= <-] Hne]. apply map_lookup_filter_None in Hs as [Hs|Hs]; [by rewrite Hs in Hne|].
    destruct (r !! o') as [s|] eqn:E; [|done]. by destruct (Hs s eq_refl).
Qed.

Lemma opens_close p o k o' : opens (close p o k) o' = if decide (o' = o) then opens k o ∖ {[p]} else opens k o'.
Proof.
  unfold close. rewrite opens_settle. unfold opens. destruct (decide (o' = o)) as [->|Hne].
  - rewrite lookup_alter_eq. destruct (openers k !! o); simpl; [done | clear; set_solver].
  - by rewrite lookup_alter_ne.
Qed.

Lemma opens_exit p k o : opens (exit_process p k) o = opens k o ∖ {[p]}.
Proof.
  unfold exit_process. rewrite opens_settle. unfold opens. rewrite lookup_fmap.
  destruct (openers k !! o); simpl; [done | clear; set_solver].
Qed.

Lemma holder_close p o k o' : holder (close p o k) = Some o' <-> holder k = Some o' /\ opens (close p o k) o' <> ∅.
Proof. unfold close. by rewrite holder_settle, opens_settle. Qed.

Lemma holder_exit p k o : holder (exit_process p k) = Some o <-> holder k = Some o /\ opens (exit_process p k) o <> ∅.
Proof. unfold exit_process. by rewrite holder_settle, opens_settle. Qed.

Lemma fresh_opens h p o : fresh h p -> p ∉ opens (kern h) o.
Proof.
  intros [_ H]. unfold opens. destruct (openers (kern h) !! o) as [s|] eqn:Hs; simpl; [by apply (H o) | by apply not_elem_of_empty].
Qed.

Lemma answerable_opens c h o : answerable (Wait c) h = true -> c ∉ opens (kern h) o.
Proof.
  intros H%bool_decide_eq_true. unfold opens. destruct (openers (kern h) !! o) as [s|] eqn:Hs; simpl; [by apply (H o) | by apply not_elem_of_empty].
Qed.

(** ** Where a program is *)

(** What follows a command: it is only waited for. *)
Fixpoint settled {A} (m : prog A) : Prop :=
  match m with
  | Ret _ => True
  | Sys c next => match c with Wait _ => True | _ => False end /\ forall b, settled (next b)
  end.

(** The body: it starts at most one command, which gets its description. *)
Fixpoint body_of {A} (fd : ofd) (m : prog A) : Prop :=
  match m with
  | Ret _ => True
  | @Sys _ B c next =>
      match c in call B return (B -> prog A) -> (B -> Prop) -> Prop with
      | Spawn _ fd' => fun next rec => fd' = fd /\ rec None /\
                         forall c, exists after, next (Some c) = Sys (Wait c) after /\ forall b, settled (after b)
      | Proc | Work _ => fun _ rec => forall b, rec b
      | _ => fun _ _ => False
      end next (fun b => body_of fd (next b))
  end.

Definition left_over {A} (fd : ofd) (m : prog (res lock_exn A)) (out : res lock_exn A -> Z) : prog Z :=
  andthen (finally_close fd m) (fun r => Ret (out r)).

(** The description that a process has of the lock, by what is left of its program. *)
Inductive located (k : kernel) (p : pid) (g : program) : prog Z -> option ofd -> Prop :=
| at_start : located k p g (code_of g) None
| at_end code : located k p g (Ret code) None
| at_fstat A fd (next : option bool -> prog (res lock_exn A)) out :
    opens k fd = {[p]} -> holder k <> Some fd ->
    (forall b, (exists e, next b = Ret (Err e)) \/
       exists locked, next b = Sys (Flock fd) locked /\ locked WouldBlock = Ret (Err LockBusy) /\
         (exists e, locked FlockError = Ret (Err e)) /\ body_of fd (locked Granted)) ->
    out (Err LockBusy) = busy_code g -> located k p g (left_over fd (Sys (Fstat fd) next) out) (Some fd)
| at_lock A fd (locked : flocked -> prog (res lock_exn A)) out :
    opens k fd = {[p]} -> holder k <> Some fd ->
    locked WouldBlock = Ret (Err LockBusy) -> (exists e, locked FlockError = Ret (Err e)) -> body_of fd (locked Granted) ->
    out (Err LockBusy) = busy_code g -> located k p g (left_over fd (Sys (Flock fd) locked) out) (Some fd)
| at_refused A fd e (out : res lock_exn A -> Z) :
    opens k fd = {[p]} -> holder k <> Some fd -> located k p g (left_over fd (Ret (Err e)) out) (Some fd)
| at_body A fd (m : prog (res lock_exn A)) out :
    opens k fd = {[p]} -> holder k = Some fd -> body_of fd m -> located k p g (left_over fd m out) (Some fd)
| at_wait A fd (m : prog (res lock_exn A)) out :
    p ∈ opens k fd -> holder k = Some fd -> settled m -> located k p g (left_over fd m out) (Some fd).

Record lock_inv (h : host) : Prop := {
  inv_next : forall o q, q ∈ opens (kern h) o -> (o < next_ofd (kern h))%nat;
  inv_held : forall o, holder (kern h) = Some o -> opens (kern h) o <> ∅;
  inv_proc : forall p g pr, procs h !! p = Some (g, pr) ->
    exists o, located (kern h) p g pr o /\ forall o', p ∈ opens (kern h) o' -> o = Some o';
  inv_one : forall p q o, is_Some (procs h !! p) -> is_Some (procs h !! q) -> p ∈ opens (kern h) o -> q ∈ opens (kern h) o -> p = q;
  inv_other : forall q o, procs h !! q = None -> q ∈ opens (kern h) o -> holder (kern h) = Some o
}.

(** What a step of another process leaves of the descriptions of [p]. *)
Definition frame (p : pid) (k k' : kernel) : Prop := forall o,
  (p ∈ opens k' o -> p ∈ opens k o) /\
  (p ∈ opens k o -> p ∈ opens k' o /\ (opens k o = {[p]} -> opens k' o = {[p]}) /\ (holder k = Some o <-> holder k' = Some o)).

Lemma located_opens k p g pr o : located k p g pr (Some o) -> p ∈ opens k o.
Proof. inversion 1; subst; try done; set_solver. Qed.

Lemma located_frame k k' p g pr o : frame p k k' -> located k p g pr o -> located k' p g pr o.
Proof.
  intros Hf H. assert (Hin := fun o' E => located_opens k p g pr o' (eq_rect _ (located k p g pr) H _ E)).
  destruct H as [|code|A fd next out Ho Hh Hn Hb|A fd next out Ho Hh Hw He Hg Hb|A fd e out Ho Hh|A fd m out Ho Hh Hm|A fd m out Ho Hh Hm];
    [constructor|constructor|..]; destruct (Hf fd) as [_ Hfd]; destruct (Hfd (Hin fd eq_refl)) as (Hp & Hs & Hk).
  - apply at_fstat; auto. by rewrite <- Hk.
  - apply at_lock; auto. by rewrite <- Hk.
  - apply at_refused; auto. by rewrite <- Hk.
  - apply at_body; auto. by rewrite <- Hk.
  - apply at_wait; auto. by rewrite <- Hk.
Qed.

Lemma frame_lose q k k' p :
  q <> p -> (forall o, opens k' o = opens k o \/ opens k' o = opens k o ∖ {[p]}) ->
  (forall o, holder k' = Some o <-> holder k = Some o /\ opens k' o <> ∅) -> frame q k k'.
Proof.
  intros Hne Ho Hh o. rewrite Hh. destruct (Ho o) as [-> | ->].
  - split; [done|]. intros Hq. split; [done|]. split; [done|]. split; [|by intros []]. intros ->. split; [done | set_solver].
  - split; [set_solver|]. intros Hq. split; [set_solver|]. split; [intros ->; set_solver|]. split; [|by intros []]. intros ->. split; [done | set_solver].
Qed.

Lemma frame_inherit q p c o k : q <> p -> q <> c -> frame q k (inherit p c o k).
Proof.
  intros Hp Hc o'. rewrite opens_inherit. cbn [inherit holder]. destruct (decide _) as [[-> Hin]|]; [|done].
  split; [set_solver|]. intros Hq. split; [set_solver|]. split; [|done]. intros He. rewrite He in Hin. set_solver.
Qed.

Lemma lock_inv_change h p x k' t ps :
  ps !! p = x -> (forall q, q <> p -> ps !! q = procs h !! q) -> lock_inv h ->
  (forall o q, q ∈ opens k' o -> (o < next_ofd k')%nat) ->
  (forall o, holder k' = Some o -> opens k' o <> ∅) ->
  (forall q, q <> p -> is_Some (procs h !! q) -> frame q (kern h) k') ->
  (forall g pr, x = Some (g, pr) -> exists o, located k' p g pr o /\ forall o', p ∈ opens k' o' -> o = Some o') ->
  (forall g pr o, x = Some (g, pr) -> p ∈ opens k' o -> is_Some (procs h !! p) /\ p ∈ opens (kern h) o \/ opens k' o = {[p]}) ->
  (forall q o, (q = p /\ x = None \/ q <> p /\ procs h !! q = None) -> q ∈ opens k' o -> holder k' = Some o) ->
  lock_inv {| kern := k'; fs := t; procs := ps |}.
Proof.
  intros Hx Hrest Hi Hnext Hheld Hframe Hloc Hown Hother. split; cbn [kern procs].
  - exact Hnext.
  - exact Hheld.
  - intros q g pr Hq. destruct (decide (q = p)) as [->|Hne].
    + rewrite Hx in Hq. by apply Hloc in Hq.
    + rewrite (Hrest q Hne) in Hq. assert (Hf := Hframe q Hne ltac:(by eexists)).
      destruct (inv_proc _ Hi _ _ _ Hq) as (o & Hl & Ho). exists o. split; [by eapply located_frame|].
      intros o' Ho'. apply Ho. by apply Hf.
  - assert (Hmix : forall q o, q <> p -> is_Some (procs h !! q) -> is_Some x -> p ∈ opens k' o -> q ∈ opens k' o -> q = p).
    { intros q o Hne Hq [[g pr] Hs] Hpo Hqo. assert (Hf := Hframe q Hne Hq). destruct (Hown g pr o Hs Hpo) as [[Hp Hpo']|He].
      - eapply inv_one; [exact Hi | exact Hq | exact Hp | by apply Hf | exact Hpo'].
      - rewrite He in Hqo. by apply elem_of_singleton in Hqo. }
    intros q1 q2 o H1 H2 Ho1 Ho2. destruct (decide (q1 = p)) as [->|Hn1].
    + destruct (decide (q2 = p)) as [->|Hn2]; [done|]. rewrite Hx in H1. rewrite (Hrest q2 Hn2) in H2.
      symmetry. by apply (Hmix q2 o).
    + rewrite (Hrest q1 Hn1) in H1. destruct (decide (q2 = p)) as [->|Hn2].
      * rewrite Hx in H2. by apply (Hmix q1 o).
      * rewrite (Hrest q2 Hn2) in H2.
        eapply inv_one; [exact Hi | exact H1 | exact H2 | by apply (Hframe q1) | by apply (Hframe q2)].
  - intros q o Hq. apply Hother. destruct (decide (q = p)) as [->|Hne];
      [rewrite Hx in Hq; by left | rewrite (Hrest q Hne) in Hq; by right].
Qed.

(** A process that only loses descriptions. *)
Lemma lock_inv_lose h p x k' t ps :
  ps !! p = x -> (forall q, q <> p -> ps !! q = procs h !! q) -> lock_inv h -> (forall o, opens k' o = opens (kern h) o \/ opens k' o = opens (kern h) o ∖ {[p]}) ->
  (forall o, holder k' = Some o <-> holder (kern h) = Some o /\ opens k' o <> ∅) -> next_ofd k' = next_ofd (kern h) ->
  (forall g pr, x = Some (g, pr) -> exists o, located k' p g pr o /\ forall o', p ∈ opens k' o' -> o = Some o') ->
  (is_Some x -> is_Some (procs h !! p) \/ forall o, p ∉ opens k' o) ->
  (x = None -> procs h !! p = None \/ forall o, p ∉ opens k' o) ->
  lock_inv {| kern := k'; fs := t; procs := ps |}.
Proof.
  intros Hps Hrest Hi Ho Hh Hn Hloc Hsome Hnone. assert (Hsub : forall q o, q ∈ opens k' o -> q ∈ opens (kern h) o)
    by (intros q o; destruct (Ho o) as [-> | ->]; set_solver).
  apply (lock_inv_change h p x); [done|done|done|..].
  - intros o q Hq. rewrite Hn. by eapply inv_next, Hsub.
  - intros o Hk. by apply Hh in Hk as [_ Hk].
  - intros q Hne _. by eapply frame_lose.
  - exact Hloc.
  - intros g pr o Hx Hp. left. destruct (Hsome ltac:(by eexists)) as [Hs|Hs]; [split; [done | by apply Hsub] | by destruct (Hs o)].
  - intros q o Hq Hin. apply Hh. split; [|set_solver]. destruct Hq as [[-> Hx]|[Hne Hq]].
    + destruct (Hnone Hx) as [Hp|Hp]; [by eapply inv_other, Hsub | by destruct (Hp o)].
    + by eapply inv_other, Hsub.
Qed.

(** The first call and what follows it. *)
Lemma exclusive_entry k p g fd :
  opens k fd = {[p]} -> holder k <> Some fd ->
  exists next, code_of g = Sys Open next /\ (exists c, next None = Ret c) /\ located k p g (next (Some fd)) (Some fd).
Proof.
  intros Ho Hh. destruct g as [command|interfere rm_fails kept avoids root retention]; cbn [code_of];
    eexists; (split; [reflexivity|]); (split; [by eexists|]).
  - apply (at_fstat k p _ Z fd _ (fun r => match r with Ok code => code | Err LockBusy => BUSY | Err (LockFailed _) => 1%Z end)); [done|done| |done].
    intros [[|]|]; [right | left; by eexists..]. eexists. split; [reflexivity|]. split; [done|]. split; [by eexists|].
    cbn. split; [done|]. split; [done|]. intros c. eexists. by split.
  - apply (at_fstat k p _ (list path) fd _ (fun r => match r with Ok _ => 0%Z | Err LockBusy => 0%Z | Err (LockFailed _) => 1%Z end)); [done|done| |done].
    intros [[|]|]; [right | left; by eexists..]. eexists. split; [reflexivity|]. split; [done|]. split; [by eexists|].
    cbn [body_of]. intros proc. destruct (check_legacy_cleanup (fst proc) (snd proc)); cbn [body_of]; by auto.
Qed.

Lemma inv_located h p g pr fd :
  lock_inv h -> procs h !! p = Some (g, pr) -> located (kern h) p g pr (Some fd) ->
  (forall o, p ∈ opens (kern h) o -> o = fd) /\ p ∈ opens (kern h) fd.
Proof.
  intros Hi Hp Hl. assert (Hin := located_opens _ _ _ _ _ Hl). split; [|done]. intros o Ho.
  destruct (inv_proc _ Hi _ _ _ Hp) as (o' & _ & Hall). assert (E := Hall o Ho). rewrite (Hall fd Hin) in E. by injection E.
Qed.

(** A call that leaves the kernel alone. *)
Lemma inv_stay h p g pr g' pr' fd t :
  lock_inv h -> procs h !! p = Some (g, pr) -> located (kern h) p g pr (Some fd) -> located (kern h) p g' pr' (Some fd) ->
  lock_inv {| kern := kern h; fs := t; procs := <[p := (g', pr')]> (procs h) |}.
Proof.
  intros Hi Hp Hl Hl'. destruct (inv_located _ _ _ _ _ Hi Hp Hl) as [Hone _].
  apply (lock_inv_lose h p (Some (g', pr'))); [apply lookup_insert_eq | intros q0 Hq0; by apply lookup_insert_ne | done |..]; try done.
  - by left.
  - intros o. split; [|by intros []]. intros Hh. split; [done | by apply (inv_held _ Hi)].
  - intros g0 pr0 [= <- <-]. exists (Some fd). split; [done|]. intros o Ho. by rewrite (Hone o Ho).
  - intros _. left. by eexists.
Qed.

(** The description is closed and the program returns. *)
Lemma inv_close h p g pr fd code t :
  lock_inv h -> procs h !! p = Some (g, pr) -> located (kern h) p g pr (Some fd) ->
  lock_inv {| kern := close p fd (kern h); fs := t; procs := <[p := (g, Ret code)]> (procs h) |}.
Proof.
  intros Hi Hp Hl. destruct (inv_located _ _ _ _ _ Hi Hp Hl) as [Hone _].
  apply (lock_inv_lose h p (Some (g, Ret code))); [apply lookup_insert_eq | intros q0 Hq0; by apply lookup_insert_ne | done |..]; try done.
  - intros o. rewrite opens_close. destruct (decide (o = fd)) as [->|]; [by right | by left].
  - intros o. apply holder_close.
  - intros g0 pr0 [= <- <-]. exists None. split; [constructor|]. intros o Ho. exfalso. rewrite opens_close in Ho.
    destruct (decide (o = fd)) as [->|Hne]; [set_solver | by apply Hne, Hone].
  - intros _. left. by eexists.
Qed.

Lemma inv_open h p g next :
  lock_inv h -> procs h !! p = Some (g, Sys Open next) -> (forall o, p ∉ opens (kern h) o) ->
  located (snd (os_open p (kern h))) p g (next (Some (next_ofd (kern h)))) (Some (next_ofd (kern h))) ->
  lock_inv {| kern := snd (os_open p (kern h)); fs := fs h; procs := <[p := (g, next (Some (next_ofd (kern h))))]> (procs h) |}.
Proof.
  intros Hi Hp Hno Hl. assert (Hfresh : opens (kern h) (next_ofd (kern h)) = ∅).
  { apply elem_of_equiv_empty_L. intros q Hq. assert (H := inv_next _ Hi _ _ Hq). lia. }
  apply (lock_inv_change h p (Some (g, next (Some (next_ofd (kern h)))))); [apply lookup_insert_eq | intros q0 Hq0; by apply lookup_insert_ne | done |..].
  - intros o q. rewrite opens_open. cbn [os_open snd next_ofd]. destruct (decide _) as [->|]; [lia|].
    intros Hq. assert (H := inv_next _ Hi _ _ Hq). lia.
  - intros o Ho. rewrite opens_open. destruct (decide _); [set_solver | by apply (inv_held _ Hi)].
  - intros q Hne _ o. rewrite opens_open. destruct (decide _) as [->|]; [|done]. rewrite Hfresh. set_solver.
  - intros g0 pr0 [= <- <-]. eexists. split; [exact Hl|]. intros o. rewrite opens_open.
    destruct (decide _) as [->|]; [done|]. intros Ho. by destruct (Hno o).
  - intros g0 pr0 o _. rewrite opens_open. destruct (decide _) as [->|]; [by right|]. intros Ho. by destruct (Hno o).
  - intros q o [[_ Hx]|[Hne Hq]]; [done|]. rewrite opens_open. destruct (decide _) as [->|]; [set_solver|].
    intros Ho. by eapply inv_other.
Qed.

Lemma inv_flock h p g next fd :
  lock_inv h -> procs h !! p = Some (g, Sys (Flock fd) next) -> opens (kern h) fd = {[p]} -> holder (kern h) = None ->
  (forall o, p ∈ opens (kern h) o -> o = fd) ->
  located (snd (flock fd (kern h))) p g (next Granted) (Some fd) ->
  lock_inv {| kern := snd (flock fd (kern h)); fs := fs h; procs := <[p := (g, next Granted)]> (procs h) |}.
Proof.
  intros Hi Hp Hs Hh Hone Hl. unfold flock in *. rewrite Hh in *. cbn [snd] in *.
  apply (lock_inv_change h p (Some (g, next Granted))); [apply lookup_insert_eq | intros q0 Hq0; by apply lookup_insert_ne | done |..]; cbn [holder next_ofd]; unfold opens; cbn [openers]; fold (opens (kern h)).
  - apply Hi.
  - intros o [= <-]. change (opens (kern h) fd <> ∅). rewrite Hs. set_solver.
  - intros q Hne _ o. change (opens {| regular := _; holder := _; openers := _; next_ofd := _ |} o) with (opens (kern h) o).
    split; [done|]. intros Hq. split; [done|]. split; [done|]. rewrite Hh. split; [done|]. intros [= ->]. rewrite Hs in Hq. set_solver.
  - intros g0 pr0 [= <- <-]. eexists. split; [exact Hl|]. intros o Ho. by rewrite (Hone o Ho).
  - intros g0 pr0 o _ Ho. left. split; [by eexists | done].
  - intros q o [[_ Hx]|[Hne Hq]] Ho; [done|]. assert (H := inv_other _ Hi _ _ Hq Ho). congruence.
Qed.

Lemma inherit_bounds h p c o :
  lock_inv h ->
  (forall o' q, q ∈ opens (inherit p c o (kern h)) o' -> (o' < next_ofd (inherit p c o (kern h)))%nat) /\
  (forall o', holder (inherit p c o (kern h)) = Some o' -> opens (inherit p c o (kern h)) o' <> ∅).
Proof.
  intros Hi. split; intros o'; rewrite opens_inherit; cbn [inherit next_ofd holder]; destruct (decide _) as [[-> Hp]|];
    [intros _ _; by apply (inv_next _ Hi _ _ Hp) | apply Hi | set_solver | apply Hi].
Qed.

(** A description is handed on by an outsider, or with the command. *)
Lemma inv_fork h p c o :
  lock_inv h -> procs h !! p = None -> fresh h c -> lock_inv (set_kernel (inherit p c o (kern h)) h).
Proof.
  intros Hi Hp Hc. assert (H := lock_inv_change h p None (inherit p c o (kern h)) (fs h) (procs h) Hp (fun _ _ => eq_refl) Hi).
  destruct (inherit_bounds h p c o Hi) as [Hn Hh]. apply H; try done.
  - intros q Hne [y Hq]. apply frame_inherit; [done|]. intros ->. destruct Hc as [Hc _]. by rewrite Hc in Hq.
  - intros q o' Hq. rewrite opens_inherit. cbn [inherit holder]. destruct (decide _) as [[-> Hin]|].
    + intros _. by eapply inv_other.
    + intros Ho. eapply inv_other; [exact Hi | | exact Ho]. by destruct Hq as [[-> _]|[_ Hq]].
Qed.

Lemma inv_spawn h p g pr c fd pr' :
  lock_inv h -> procs h !! p = Some (g, pr) -> located (kern h) p g pr (Some fd) -> holder (kern h) = Some fd -> fresh h c ->
  (located (inherit p c fd (kern h)) p g pr' (Some fd)) ->
  lock_inv {| kern := inherit p c fd (kern h); fs := fs h; procs := <[p := (g, pr')]> (procs h) |}.
Proof.
  intros Hi Hp Hl Hh Hc Hl'. destruct (inv_located _ _ _ _ _ Hi Hp Hl) as [Hone Hin].
  assert (Hne : c <> p) by (intros ->; destruct Hc as [Hc _]; by rewrite Hc in Hp).
  destruct (inherit_bounds h p c fd Hi) as [Hnext Hheld]. apply (lock_inv_change h p (Some (g, pr'))); [apply lookup_insert_eq | intros q0 Hq0; by apply lookup_insert_ne | done |..]; try done.
  - intros q Hqp [y Hq]. apply frame_inherit; [done|]. intros ->. destruct Hc as [Hc _]. by rewrite Hc in Hq.
  - intros g0 pr0 [= <- <-]. exists (Some fd). split; [done|]. intros o. rewrite opens_inherit.
    destruct (decide _) as [[-> _]|]; [done|]. intros Ho. by rewrite (Hone o Ho).
  - intros g0 pr0 o _ Ho. left. split; [by eexists|]. rewrite opens_inherit in Ho. by destruct (decide _) as [[-> _]|].
  - intros q o [[_ Hx]|[Hqp Hq]]; [done|]. rewrite opens_inherit. cbn [inherit holder]. destruct (decide _) as [[-> _]|]; [done|].
    intros Ho. by eapply inv_other.
Qed.

Lemma inv_start h p g : lock_inv h -> fresh h p ->
  lock_inv {| kern := kern h; fs := fs h; procs := <[p := (g, code_of g)]> (procs h) |}.
Proof.
  intros Hi Hf. assert (Hno := fun o => fresh_opens h p o Hf). apply (lock_inv_lose h p (Some (g, code_of g))); [apply lookup_insert_eq | intros q0 Hq0; by apply lookup_insert_ne | done |..]; try done.
  - by left.
  - intros o. split; [|by intros []]. intros Hh. split; [done | by apply (inv_held _ Hi)].
  - intros g0 pr0 [= <- <-]. exists None. split; [constructor|]. intros o Ho. by destruct (Hno o).
  - by right.
Qed.

Lemma inv_exit h p t : lock_inv h ->
  lock_inv {| kern := exit_process p (kern h); fs := t; procs := delete p (procs h) |}.
Proof.
  intros Hi. apply (lock_inv_lose h p None); [apply lookup_delete_eq | intros q0 Hq0; by apply lookup_delete_ne | done |..]; try done.
  - intros o. right. apply opens_exit.
  - intros o. apply holder_exit.
  - intros _. right. intros o. rewrite opens_exit. set_solver.
Qed.

Lemma inv_outsider h p o t : lock_inv h -> procs h !! p = None ->
  lock_inv {| kern := close p o (kern h); fs := t; procs := procs h |}.
Proof.
  intros Hi Hp. apply (lock_inv_lose h p None); try done.
  - intros o'. rewrite opens_close. destruct (decide (o' = o)) as [->|]; [by right | by left].
  - intros o'. apply holder_close.
  - by left.
Qed.

Lemma code_of_open g : exists next, code_of g = Sys Open next /\ exists c, next None = Ret c.
Proof. destruct g; eexists; (split; [reflexivity|]); by eexists. Qed.

(** What is left inside the body, after one more call. *)
Lemma inv_body_call {A} e h p g fd (m : prog (res lock_exn A)) out pr' h' :
  lock_inv h -> procs h !! p = Some (g, left_over fd m out) -> opens (kern h) fd = {[p]} -> holder (kern h) = Some fd -> body_of fd m ->
  advance e p (left_over fd m out) h = Some (pr', h') ->
  lock_inv {| kern := kern h'; fs := fs h'; procs := <[p := (g, pr')]> (procs h) |}.
Proof.
  intros Hi Hp Ho Hh Hm Had. assert (Hl : located (kern h) p g (left_over fd m out) (Some fd)) by by apply at_body.
  destruct m as [r|B c next].
  - cbn in Had. injection Had as <- <-. by eapply inv_close.
  - revert next Hp Hm Had Hl. destruct c as [|fd'|fd'|fd'|command fd'|c| |C f]; intros next Hp Hm Had Hl; cbn [body_of] in Hm; try done.
    + destruct Hm as (-> & Hnone & Hsome). cbn in Had. destruct (child e) as [c|].
      * case_bool_decide as Hf; injection Had as <- <-.
        -- destruct (Hsome c) as (after & Hn & Hset). eapply (inv_spawn h p g _ c fd (left_over fd (next (Some c)) out)); [exact Hi | exact Hp | exact Hl | done | done |]. apply (at_wait _ _ _ A fd (next (Some c)) out).
           ++ rewrite opens_inherit. destruct (decide _); [set_solver | rewrite Ho; set_solver].
           ++ done.
           ++ by rewrite Hn.
        -- eapply inv_stay; [done..|]. by apply (at_body _ _ _ A fd (next None) out).
      * injection Had as <- <-. eapply inv_stay; [done..|]. by apply (at_body _ _ _ A fd (next None) out).
    + cbn in Had. injection Had as <- <-. eapply inv_stay; [done..|]. apply (at_body _ _ _ A fd (next _) out); [done..|]. apply Hm.
    + cbn in Had. destruct (f (fs h)) as [a t]. injection Had as <- <-. cbn [kern fs]. eapply inv_stay; [done..|].
      apply (at_body _ _ _ A fd (next _) out); [done..|]. apply Hm.
Qed.

Lemma inv_wait_call {A} e h p g fd (m : prog (res lock_exn A)) out pr' h' :
  lock_inv h -> procs h !! p = Some (g, left_over fd m out) -> p ∈ opens (kern h) fd -> holder (kern h) = Some fd -> settled m ->
  advance e p (left_over fd m out) h = Some (pr', h') ->
  lock_inv {| kern := kern h'; fs := fs h'; procs := <[p := (g, pr')]> (procs h) |}.
Proof.
  intros Hi Hp Ho Hh Hm Had. assert (Hl : located (kern h) p g (left_over fd m out) (Some fd)) by by apply at_wait.
  destruct m as [r|B c next].
  - cbn in Had. injection Had as <- <-. by eapply inv_close.
  - revert next Hp Hm Had Hl. destruct c as [|fd'|fd'|fd'|command fd'|c| |C f]; intros next Hp Hm Had Hl; cbn [settled] in Hm; destruct Hm as [Hc Hm]; try done.
    cbn [left_over finally_close andthen advance] in Had. destruct (answerable (Wait c) h); [|done]. cbn in Had. injection Had as <- <-.
    eapply inv_stay; [done..|]. by apply (at_wait _ _ _ A fd (next _) out).
Qed.

Lemma inv_call e h p g pr pr' h' :
  lock_inv h -> procs h !! p = Some (g, pr) -> advance e p pr h = Some (pr', h') ->
  lock_inv {| kern := kern h'; fs := fs h'; procs := <[p := (g, pr')]> (procs h) |}.
Proof.
  intros Hi Hp Had. destruct (inv_proc _ Hi _ _ _ Hp) as (o & Hl & Hone).
  destruct Hl as [|code|A fd next out Ho Hh Hn Hb|A fd locked out Ho Hh Hw He Hg Hb|A fd e0 out Ho Hh|A fd m out Ho Hh Hm|A fd m out Ho Hh Hm].
  - assert (Hno : forall o, p ∉ opens (kern h) o) by (intros o Ho; by apply Hone in Ho).
    assert (Hopen : opens (snd (os_open p (kern h))) (next_ofd (kern h)) = {[p]}) by (rewrite opens_open; by rewrite decide_True).
    assert (Hheld : holder (snd (os_open p (kern h))) <> Some (next_ofd (kern h))).
    { cbn. intros E. destruct (set_choose_L _ (inv_held _ Hi _ E)) as [q Hq]. assert (H := inv_next _ Hi _ _ Hq). lia. }
    destruct (exclusive_entry _ p g _ Hopen Hheld) as (next & E & [c Hc] & Hl). rewrite E in *.
    cbn [advance answerable perform] in Had. destruct (open_fails e); injection Had as <- <-.
    + rewrite Hc. apply (lock_inv_lose h p (Some (g, Ret c))); [apply lookup_insert_eq | intros q0 Hq0; by apply lookup_insert_ne | done |..]; try done.
      * by left.
      * intros o. split; [|by intros []]. intros H. split; [done | by apply (inv_held _ Hi)].
      * intros g0 pr0 [= <- <-]. exists None. split; [constructor|]. intros o H. by destruct (Hno o).
      * by right.
    + by apply (inv_open h p g next).
  - done.
  - assert (Hl : located (kern h) p g (left_over fd (Sys (Fstat fd) next) out) (Some fd)) by by apply at_fstat.
    cbn in Had. injection Had as <- <-. eapply inv_stay; [done..|]. fold (@finally_close A) . 
    destruct (Hn (if fstat_fails e then None else Some (regular (kern h)))) as [[x Hx]|(locked & Hx & H1 & H2 & H3)]; rewrite Hx.
    + by apply (at_refused _ _ _ A fd x out).
    + by apply (at_lock _ _ _ A fd locked out).
  - assert (Hl : located (kern h) p g (left_over fd (Sys (Flock fd) locked) out) (Some fd)) by by apply at_lock.
    destruct (inv_located _ _ _ _ _ Hi Hp Hl) as [Hall _]. destruct He as [x He].
    cbn [left_over finally_close andthen advance answerable perform] in Had. destruct (flock_fails e); [injection Had as <- <-|].
    + rewrite He. eapply inv_stay; [done..|]. by apply (at_refused _ _ _ A fd x out).
    + destruct (holder (kern h)) as [o|] eqn:Hk.
      * unfold flock in Had. rewrite Hk in Had. destruct (Nat.eqb o fd) eqn:Eo; [apply Nat.eqb_eq in Eo; congruence|]. injection Had as <- <-.
        rewrite Hw. apply (inv_stay h p g _ g _ fd _ Hi Hp Hl). apply (at_refused _ _ _ A fd LockBusy out); [done|]. by rewrite Hk.
      * unfold flock in Had. rewrite Hk in Had. injection Had as <- <-. cbn [kern fs set_kernel].
        assert (H := inv_flock h p g (fun b => left_over fd (locked b) out) fd Hi Hp Ho Hk Hall).
        unfold flock in H. rewrite Hk in H. apply H. by apply (at_body _ _ _ A fd (locked Granted) out).
  - assert (Hl : located (kern h) p g (left_over fd (Ret (Err e0)) out) (Some fd)) by by apply at_refused.
    cbn in Had. injection Had as <- <-. by eapply inv_close.
  - by eapply inv_body_call.
  - by eapply inv_wait_call.
Qed.

Lemma step_inv p h h' : lock_inv h -> step p h h' -> lock_inv h'.
Proof.
  intros Hi [g Hf|e g pr pr' h1 Hp Had| |c o Hp Hf _|o Hp|t Hp].
  - by apply inv_start.
  - by eapply inv_call.
  - by apply inv_exit.
  - by apply inv_fork.
  - by apply inv_outsider.
  - destruct Hi as [H1 H2 H3 H4 H5]. by split.
Qed.

Lemma reachable_inv h : lock_reachable h -> lock_inv h.
Proof.
  intros (is_regular & t & H). revert H. apply (rtc_ind_r lock_inv (idle is_regular t)).
  - assert (Hno : forall o q, q ∉ opens (kern (idle is_regular t)) o).
    { intros o q. unfold opens. cbn. rewrite lookup_empty. apply not_elem_of_empty. }
    split; cbn; try done; intros; by edestruct Hno.
  - intros h1 h2 _ [p Hp] Hi. by eapply step_inv.
Qed.

(** ** Facts about the calls *)

Lemma located_body k p g pr o : located k p g pr o -> within_body pr = true ->
  exists fd, o = Some fd /\ holder k = Some fd /\ p ∈ opens k fd /\ (begins pr = true -> opens k fd = {[p]}).
Proof.
  intros [|code|A fd next out Ho Hh Hn Hb|A fd locked out Ho Hh Hw He Hg Hb|A fd e0 out Ho Hh|A fd m out Ho Hh Hm|A fd m out Ho Hh Hm]; try done.
  - destruct g; done.
  - intros _. exists fd. rewrite Ho. split_and!; try done. set_solver.
  - intros Hb. exists fd. split_and!; try done. intros Hbeg. exfalso. clear Hb. destruct m as [r|B c next]; [done|].
    cbn [settled] in Hm. destruct Hm as [Hc _]. revert next Hbeg. by destruct c.
Qed.

Lemma located_flock k p g pr o fd next : located k p g pr o -> at_flock pr = Some (fd, next) ->
  o = Some fd /\ opens k fd = {[p]} /\ holder k <> Some fd /\ next WouldBlock = Sys (Close fd) (fun _ => Ret (busy_code g)).
Proof.
  intros [|code|A fd' nx out Ho Hh Hn Hb|A fd' locked out Ho Hh Hw He Hg Hb|A fd' e0 out Ho Hh|A fd' m out Ho Hh Hm|A fd' m out Ho Hh Hm]; try done.
  - destruct g; done.
  - cbn. intros [= <- <-]. rewrite Hw. cbn. by rewrite Hb.
  - destruct m as [r|B c nx]; [done|]. cbn [body_of] in Hm. revert nx Hm. destruct c; done.
  - destruct m as [r|B c nx]; [done|]. cbn [settled] in Hm. destruct Hm as [Hc _]. revert nx. by destruct c.
Qed.

Lemma located_ret k p g pr o : located k p g pr o -> forall code, pr = Ret code -> o = None.
Proof.
  intros [|code|A fd next out|A fd locked out|A fd e out|A fd m out|A fd m out]; try done; by destruct m.
Qed.

Lemma holds_opens h q fd : holder (kern h) = Some fd -> holds h q <-> q ∈ opens (kern h) fd.
Proof. intros Hh. split; [intros (o & Ho & Hq); congruence | by exists fd]. Qed.

(** The lock stays with who has its description open, whatever others do. *)
Definition keeps (q : pid) (k k' : kernel) : Prop :=
  forall o, holder k = Some o -> q ∈ opens k o -> holder k' = Some o /\ q ∈ opens k' o.

Lemma keeps_lose q p k k' :
  q <> p -> (forall o, opens k' o = opens k o \/ opens k' o = opens k o ∖ {[p]}) ->
  (forall o, holder k' = Some o <-> holder k = Some o /\ opens k' o <> ∅) -> keeps q k k'.
Proof.
  intros Hne Ho Hh o Hk Hq. destruct (frame_lose q k k' p Hne Ho Hh o) as [_ Hf]. destruct (Hf Hq) as (Hq' & _ & Hiff).
  split; [by apply Hiff | done].
Qed.

Lemma keeps_close q p o k : q <> p -> keeps q k (close p o k).
Proof.
  intros Hne. eapply keeps_lose; [exact Hne | | apply holder_close]. intros o'. rewrite opens_close.
  destruct (decide (o' = o)) as [->|]; [by right | by left].
Qed.

Lemma keeps_inherit q p c o k : keeps q k (inherit p c o k).
Proof.
  intros o' Hk Hq. cbn [inherit holder]. split; [done|]. rewrite opens_inherit. destruct (decide _) as [[-> _]|]; [set_solver | done].
Qed.

Lemma keeps_perform {B} e p (c : call B) h q :
  lock_inv h -> q <> p -> keeps q (kern h) (kern (snd (perform e p c h))).
Proof.
  intros Hi Hne. destruct c as [|fd|fd|fd|command fd|child| |C f]; cbn [perform]; try done.
  - destruct (open_fails e); [done|]. cbn [os_open snd set_kernel kern]. intros o Hk Hq. split; [done|].
    assert (Hlt := inv_next _ Hi _ _ Hq). change (q ∈ opens (snd (os_open p (kern h))) o). rewrite opens_open.
    destruct (decide _) as [->|]; [lia | done].
  - destruct (flock_fails e); [done|]. unfold flock. intros o Hk Hq. by rewrite Hk.
  - by apply keeps_close.
  - destruct (child e) as [c|]; [|done]. case_bool_decide; [apply keeps_inherit | done].
  - by destruct (f (fs h)).
Qed.

Lemma step_holds p h h' q : lock_inv h -> step p h h' -> q <> p -> holds h q -> holds h' q.
Proof.
  intros Hi Hs Hne (o & Hk & Hq). cut (keeps q (kern h) (kern h')); [intros H; exists o; by apply H|].
  destruct Hs as [g Hf|e g pr pr' h1 Hp Had| |c o' Hp Hf _|o' Hp|t Hp]; try done.
  - destruct pr as [r|B c next]; [done|]. cbn [advance] in Had. destruct (answerable c h); [|done].
    assert (H := keeps_perform e p c h q Hi Hne). destruct (perform e p c h) as [b h2]. by injection Had as <- <-.
  - eapply keeps_lose; [exact Hne | | apply holder_exit]. intros o'. right. apply opens_exit.
  - apply keeps_inherit.
  - by apply keeps_close.
Qed.

(** In the body nothing is waited for before the command starts. *)
Lemma body_awaits {A} fd (m : prog (res lock_exn A)) out : body_of fd m -> awaits (left_over fd m out) = None.
Proof. destruct m as [r|B c next]; [done|]. revert next. by destruct c. Qed.

Lemma spawn_holds e p g pr pr' c h h' :
  lock_inv h -> procs h !! p = Some (g, pr) -> begins pr = true -> advance e p pr h = Some (pr', h') -> awaits pr' = Some c ->
  holds h' c.
Proof.
  intros Hi Hp Hb Had Haw. destruct (inv_proc _ Hi _ _ _ Hp) as (o & Hl & _).
  destruct Hl as [|code|A fd next out Ho Hh Hn|A fd locked out Ho Hh|A fd e0 out Ho Hh|A fd m out Ho Hh Hm|A fd m out Ho Hh Hm]; try done.
  - by destruct g.
  - destruct m as [r|B cl next]; [done|].
    revert next Hp Hm Had Hb. destruct cl as [|fd'|fd'|fd'|command fd'|c'| |C f]; intros next Hp Hm Had Hb; cbn [body_of] in Hm; try done.
    + destruct Hm as (-> & Hnone & Hsome). cbn in Had. destruct (child e) as [c'|].
      * case_bool_decide as Hf; injection Had as <- <-.
        -- destruct (Hsome c') as (after & Hn & _). rewrite Hn in Haw. injection Haw as <-. exists fd. split; [done|].
           cbn [set_kernel kern]. rewrite opens_inherit. destruct (decide _) as [_|Hno]; [set_solver|]. destruct Hno. rewrite Ho. split; [done | set_solver].
        -- change (awaits (left_over fd (next None) out) = Some c) in Haw. by rewrite body_awaits in Haw.
      * injection Had as <- <-. change (awaits (left_over fd (next None) out) = Some c) in Haw. by rewrite body_awaits in Haw.
    + cbn in Had. injection Had as <- <-. change (awaits (left_over fd (next (N.of_nat p, entries e)) out) = Some c) in Haw.
      rewrite body_awaits in Haw; [done | apply Hm].
    + cbn in Had. destruct (f (fs h)) as [a t]. injection Had as <- <-. change (awaits (left_over fd (next a) out) = Some c) in Haw.
      rewrite body_awaits in Haw; [done | apply Hm].
  - destruct m as [r|B cl next]; [done|]. cbn [settled] in Hm. destruct Hm as [Hc _]. revert next Hp Had Hb. by destruct cl.
Qed.

(** C20. The lock serialises maintenance.  Take any interleaving of the calls of
    processes that run [run] or the [main] of the pruning, with what commands and
    their children do, and ends of processes at any point.  At most one process is
    in the body of [exclusive_lock]; it has the description open that has the lock,
    and when it starts its command, reads /proc or prunes, no other process has:
    no command of another run, and nothing one left behind.  A command has the
    lock's description from its start, and nothing another process does, the end of
    its supervisor included, takes the lock away.  A process at its [flock] has a
    description of its own, without the lock; it is refused exactly when some
    process has the lock's description open, and then only closes its own and
    returns 75 ([run]) or 0 (the pruning).  What has returned has none open. *)
Theorem lock_exclusive h :
  lock_reachable h ->
  (forall p q g g' pr pr', procs h !! p = Some (g, pr) -> procs h !! q = Some (g', pr') ->
     within_body pr = true -> within_body pr' = true -> p = q) /\
  (forall p g pr, procs h !! p = Some (g, pr) -> within_body pr = true ->
     holds h p /\ (begins pr = true -> forall q, holds h q -> q = p)) /\
  (forall p h' g pr g' pr' c, procs h !! p = Some (g, pr) -> begins pr = true -> step p h h' ->
     procs h' !! p = Some (g', pr') -> awaits pr' = Some c -> holds h' c) /\
  (forall a h' q, step a h h' -> q <> a -> holds h q -> holds h' q) /\
  (forall p g pr fd next, procs h !! p = Some (g, pr) -> at_flock pr = Some (fd, next) ->
     p ∈ opens (kern h) fd /\ ~ holds h p /\
     (fst (flock fd (kern h)) = WouldBlock <-> exists q, holds h q) /\
     (fst (flock fd (kern h)) = Granted <-> forall q, ~ holds h q) /\
     next WouldBlock = Sys (Close fd) (fun _ => Ret (busy_code g))) /\
  (forall p g code o, procs h !! p = Some (g, Ret code) -> p ∉ opens (kern h) o).
Proof.
  intros Hr. assert (Hi := reachable_inv _ Hr). split_and!.
  - intros p q g g' pr pr' Hp Hq Hb Hb'. destruct (inv_proc _ Hi _ _ _ Hp) as (o & Hl & _), (inv_proc _ Hi _ _ _ Hq) as (o' & Hl' & _).
    destruct (located_body _ _ _ _ _ Hl Hb) as (fd & -> & Hh & Hin & _), (located_body _ _ _ _ _ Hl' Hb') as (fd' & -> & Hh' & Hin' & _).
    assert (fd' = fd) as -> by congruence. eapply inv_one; [exact Hi | by eexists | by eexists | exact Hin | exact Hin'].
  - intros p g pr Hp Hb. destruct (inv_proc _ Hi _ _ _ Hp) as (o & Hl & _).
    destruct (located_body _ _ _ _ _ Hl Hb) as (fd & -> & Hh & Hin & Hsole). split; [by exists fd|]. intros Hbeg q Hq.
    apply (holds_opens _ _ _ Hh) in Hq. rewrite (Hsole Hbeg) in Hq. by apply elem_of_singleton in Hq.
  - intros p h' g pr g' pr' c Hp Hb Hs Hp' Haw.
    destruct Hs as [g0 [Hf _]|e g0 pr0 pr1 h1 Hp0 Had| |c0 o' Hn Hf _|o' Hn|t Hn]; try congruence.
    + rewrite Hp in Hp0. injection Hp0 as <- <-. cbn [procs] in Hp'. rewrite lookup_insert_eq in Hp'. injection Hp' as <- <-.
      by eapply (spawn_holds e p g pr pr1 c h h1).
    + cbn [procs] in Hp'. by rewrite lookup_delete_eq in Hp'.
  - intros a h' q Hs Hne. by eapply step_holds.
  - intros p g pr fd next Hp Hf. destruct (inv_proc _ Hi _ _ _ Hp) as (o & Hl & Hone).
    destruct (located_flock _ _ _ _ _ _ _ Hl Hf) as (-> & Hs & Hh & Hbusy). split; [rewrite Hs; set_solver|].
    split; [intros (o & Ho & Hin); apply Hone in Hin; congruence|]. unfold flock. destruct (holder (kern h)) as [o|] eqn:Hk.
    + destruct (set_choose_L _ (inv_held _ Hi _ Hk)) as [q Hq]. assert (Hq' : holds h q) by by exists o.
      destruct (Nat.eqb o fd) eqn:Eo; [apply Nat.eqb_eq in Eo; congruence|]. cbn [fst]. split_and!; try done.
      * split; [by exists q | done].
      * split; [done|]. intros H. by destruct (H q).
    + assert (Hno : forall q, ~ holds h q) by (intros q (o & Ho & _); congruence). cbn [fst]. split_and!; try done.
      split; [done|]. intros [q Hq]. by destruct (Hno q).
  - intros p g code o Hp Hin. destruct (inv_proc _ Hi _ _ _ Hp) as (o' & Hl & Hone). rewrite (Hone o Hin) in Hl.
    by discriminate (located_ret _ _ _ _ _ Hl code eq_refl).
Qed.

(** ** Facts about paths *)

Lemma path_split p : p <> [] -> p = parent p ++ [name p].
Proof. intros H. by apply app_removelast_last. Qed.

Lemma parent_snoc p c : parent (p ++ [c]) = p.
Proof. apply removelast_last. Qed.

Lemma name_snoc p c : name (p ++ [c]) = c.
Proof. apply last_last. Qed.

Lemma get_snoc fs p c : get fs (p ++ [c]) = fs !! (p ++ [c]).
Proof. by destruct p. Qed.

Lemma removelast_prefix (p : path) : parent p `prefix_of` p.
Proof. destruct p as [|c p _] using rev_ind; [done|]. rewrite parent_snoc. by exists [c]. Qed.

(** Every component of the path is a directory. *)
Definition dirs (fs : tree) (p : path) : Prop :=
  forall q c, q ++ [c] `prefix_of` p -> c <> ".." /\ exists m t, fs !! (q ++ [c]) = Some (Directory m t).

(** The path is its own resolution. *)
Definition physical (fs : tree) (p : path) : Prop :=
  dirs fs (parent p) /\ (p = [] \/ name p <> ".." /\ exists e, fs !! p = Some e /\ match e with Symlink _ => False | _ => True end).

Lemma dirs_prefix fs p q : dirs fs p -> q `prefix_of` p -> dirs fs q.
Proof. intros H Hq r c Hr. apply H. by trans q. Qed.

Lemma dirs_snoc fs p c : dirs fs (p ++ [c]) <-> dirs fs p /\ c <> ".." /\ exists m t, fs !! (p ++ [c]) = Some (Directory m t).
Proof.
  split.
  - intros H. split; [eapply dirs_prefix; [exact H | by exists [c]]|]. by apply H.
  - intros [H Hc] q c' [r Hr]. destruct r as [|c'' r _] using rev_ind.
    + rewrite app_nil_r in Hr. by rewrite <- Hr; apply app_inj_tail in Hr as [-> ->].
    + apply H. rewrite !app_assoc in Hr. apply app_inj_tail in Hr as [-> _]. by exists r.
Qed.

Lemma dirs_physical fs p : dirs fs p -> physical fs p.
Proof.
  destruct p as [|c p _] using rev_ind; [intros H; split; [done | by left]|]. intros (H & Hc & m & t & He)%dirs_snoc.
  split; [by rewrite parent_snoc|]. right. rewrite name_snoc. split; [done|]. by exists (Directory m t).
Qed.

Lemma walk_sound fs hop here rest r :
  dirs fs here -> (forall q r, hop q = Some r -> physical fs r) -> walk fs hop here rest = Some r -> physical fs r.
Proof.
  intros Hd Hhop. revert here Hd. induction rest as [|c rest IH]; intros here Hd; cbn [walk]; [intros [= <-]; by apply dirs_physical|].
  destruct (String.eqb_spec c "..") as [_|Hc].
  { apply IH. eapply dirs_prefix; [exact Hd | apply removelast_prefix]. }
  rewrite get_snoc. destruct (fs !! (here ++ [c])) as [[m t|target|text]|] eqn:He; try done.
  - apply IH. apply dirs_snoc. split; [done|]. split; [done|]. by exists m, t.
  - apply Hhop.
  - destruct rest; [|done]. intros [= <-]. split; [by rewrite parent_snoc|]. right. rewrite name_snoc. split; [done|]. by exists (Regular text).
Qed.

Lemma resolve_links_sound links fs p r : resolve_links links fs p = Some r -> physical fs r.
Proof.
  revert p r. induction links as [|links IH]; intros p r H; cbn [resolve_links] in H;
    (eapply walk_sound in H; [exact H | by intros q c Hq%prefix_nil_inv; destruct q |]); [done | exact IH].
Qed.

Lemma walk_physical fs hop here rest : physical fs (here ++ rest) -> walk fs hop here rest = Some (here ++ rest).
Proof.
  revert here. induction rest as [|c rest IH]; intros here [Hd Hp]; cbn [walk]; [by rewrite app_nil_r|].
  assert (Hc : c <> ".." /\ exists e, fs !! (here ++ [c]) = Some e /\
    match e with Symlink _ => False | Regular _ => rest = [] | Directory _ _ => True end).
  { destruct rest as [|c' rest _] using rev_ind.
    - destruct Hp as [Hp|(Hn & e & He & Hs)]; [by destruct here|]. rewrite name_snoc in Hn. split; [done|]. exists e. split; [done|]. by destruct e.
    - rewrite app_comm_cons, app_assoc, parent_snoc in Hd. destruct (Hd here c) as (Hc & m & t & He); [exists rest; by rewrite <- app_assoc|].
      split; [done|]. by exists (Directory m t). }
  destruct Hc as (Hc & e & He & Hk). destruct (String.eqb_spec c "..") as [|_]; [done|]. rewrite get_snoc, He.
  replace (here ++ c :: rest) with ((here ++ [c]) ++ rest) in * by by rewrite <- app_assoc.
  destruct e as [m t|target|text]; [by apply IH | done | subst; by rewrite app_nil_r].
Qed.

Lemma resolve_links_physical links fs p : physical fs p -> resolve_links links fs p = Some p.
Proof. intros H. by destruct links; cbn [resolve_links]; apply (walk_physical fs _ []). Qed.

Lemma resolve_iff fs p : resolve fs p = Some p <-> physical fs p.
Proof. split; [apply resolve_links_sound | apply resolve_links_physical]. Qed.

Lemma lstat_physical fs p : physical fs p -> lstat fs p = get fs p.
Proof.
  intros [Hd _]. unfold lstat. destruct p as [|c p]; [done|].
  rewrite (proj2 (resolve_iff fs _)) by by apply dirs_physical. by rewrite <- path_split.
Qed.

Lemma stat_physical fs p : physical fs p -> stat fs p = get fs p.
Proof. intros H%resolve_iff. unfold stat. by rewrite H. Qed.

Lemma sha_name p : fullmatch SHA (name p) = true -> p <> [] /\ name p <> "..".
Proof. intros H. split; [intros ->|intros Hn; rewrite Hn in H]; vm_compute in H; discriminate H. Qed.

(** A release: a real directory below the root that is named by a commit. *)
Record is_release (fs : tree) (root p : path) : Prop := {
  rel_parent : parent p = root;
  rel_name : fullmatch SHA (name p) = true;
  rel_dirs : dirs fs root;
  rel_entry : exists t, fs !! p = Some (Directory false t)
}.

Lemma release_dirs fs root p : is_release fs root p -> dirs fs p.
Proof.
  intros [Hp Hn Hd [t Ht]]. destruct (sha_name _ Hn) as [Hne Hdot]. rewrite (path_split p Hne) in *. rewrite name_snoc in *.
  rewrite parent_snoc in Hp. subst root. apply dirs_snoc. split; [done|]. split; [done|]. by exists false, t.
Qed.

Lemma release_path_iff fs p root q : release_path fs p root = Ok q <-> q = p /\ is_release fs root p.
Proof.
  unfold release_path. split.
  - intros H. apply res_bind_Ok in H as (r & Hr%of_option_Ok & H). apply res_bind_Ok in H as ([] & Hc%raise_if_Ok & [= <-]).
    repeat apply orb_false_iff in Hc as [Hc ?]. py_inv. subst r. split; [done|]. assert (Hp := proj1 (resolve_iff _ _) Hr).
    destruct (sha_name p) as [Hne _]; [done|]. split; try done.
    + destruct Hp as [Hp _]. by match goal with H : parent p = root |- _ => rewrite H in Hp end.
    + match goal with H : is_dir _ _ = true |- _ => unfold is_dir in H; rewrite stat_physical in H by done end.
      match goal with H : ismount _ _ = false |- _ => unfold ismount in H; rewrite lstat_physical in H by done end.
      destruct p as [|c p]; [done|]. cbn [get] in *. destruct (fs !! (c :: p)) as [[m t| |]|]; try done. subst. by exists t.
  - intros [-> Hrel]. assert (Hd := release_dirs _ _ _ Hrel). destruct Hrel as [Hpar Hn _ [t Ht]]. destruct (sha_name p Hn) as [Hne _].
    assert (Hp := dirs_physical _ _ Hd). rewrite (proj2 (resolve_iff _ _) Hp). cbn [os of_option res_bind].
    unfold is_symlink, is_dir, ismount. rewrite lstat_physical, stat_physical by done. destruct p as [|c p]; [done|]. cbn [get]. rewrite Ht.
    by rewrite !bool_decide_true, Hn by done.
Qed.

(** *** Removal *)

Lemma below_true p q : below p q = true <-> p `prefix_of` q.
Proof. unfold below. by rewrite bool_decide_eq_true. Qed.

Lemma below_false p q : below p q = false <-> ~ p `prefix_of` q.
Proof. unfold below. by rewrite bool_decide_eq_false. Qed.

Lemma remove_other fs p q : below p q = false -> remove fs p !! q = fs !! q.
Proof.
  intros H. unfold remove. destruct (fs !! q) as [e|] eqn:He.
  - by apply map_lookup_filter_Some.
  - apply map_lookup_filter_None. by left.
Qed.

Lemma remove_below fs p q : below p q = true -> remove fs p !! q = None.
Proof. intros H. apply map_lookup_filter_None. right. intros e _. simpl. by rewrite H. Qed.

Lemma siblings_apart root p p' : parent p = root -> parent p' = root -> p <> [] -> p' <> [] -> p <> p' -> below p' p = false.
Proof.
  intros Hp Hp' H1 H2 Hne. apply below_false. intros Hpre. rewrite (path_split p H1), (path_split p' H2), Hp, Hp' in Hpre.
  apply prefix_app_inv, prefix_cons_inv_1 in Hpre. apply Hne. by rewrite (path_split p H1), (path_split p' H2), Hp, Hp', Hpre.
Qed.

Lemma above_apart root p q : parent p = root -> p <> [] -> (length q <= length root)%nat -> below p q = false.
Proof.
  intros Hp Hne Hl. apply below_false. intros Hpre%prefix_length. rewrite (path_split p Hne), Hp, length_app in Hpre. simpl in Hpre. lia.
Qed.

Lemma release_nonempty fs root p : is_release fs root p -> p <> [].
Proof. intros [_ Hn _ _]. by apply sha_name. Qed.

Lemma dirs_remove fs root p : parent p = root -> p <> [] -> dirs fs root -> dirs (remove fs p) root.
Proof.
  intros Hp Hne Hd q c Hq. destruct (Hd q c Hq) as [Hc Ht]. split; [done|]. rewrite remove_other; [done|].
  apply (above_apart root); try done. by apply prefix_length.
Qed.

Lemma release_remove fs root p p' :
  is_release fs root p -> is_release fs root p' -> p <> p' -> is_release (remove fs p') root p.
Proof.
  intros Hrel Hrel' Hne. assert (H1 := release_nonempty _ _ _ Hrel). assert (H2 := release_nonempty _ _ _ Hrel').
  destruct Hrel as [Hp Hn Hd [t Ht]], Hrel' as [Hp' _ _ _]. split; try done; [by apply dirs_remove|]. exists t. rewrite remove_other; [done|].
  by apply (siblings_apart root).
Qed.

(** Both pointers are links directly to releases. *)
Record pointers (fs : tree) (root cur prev : path) : Prop := {
  ptr_root : root <> [];
  ptr_dirs : dirs fs (parent root);
  ptr_current : fs !! (parent root ++ ["current"]) = Some (Symlink cur);
  ptr_previous : fs !! (parent root ++ ["previous"]) = Some (Symlink prev);
  ptr_cur : is_release fs root cur;
  ptr_prev : is_release fs root prev
}.

Lemma walk_link fs hop here d c target :
  dirs fs (here ++ d) -> c <> ".." -> fs !! (here ++ d ++ [c]) = Some (Symlink target) -> walk fs hop here (d ++ [c]) = hop (target ++ []).
Proof.
  revert here. induction d as [|x d IH]; intros here Hd Hc Ht; cbn [walk app].
  - destruct (String.eqb_spec c ".."); [done|]. change ([] ++ [c]) with [c] in Ht. by rewrite get_snoc, Ht.
  - destruct (Hd here x) as (Hx & m & t & He); [exists d; by rewrite <- app_assoc|]. destruct (String.eqb_spec x ".."); [done|].
    rewrite get_snoc, He. apply IH; [by rewrite <- app_assoc | done | by rewrite <- app_assoc].
Qed.

Lemma protected_path_direct fs root ptr t :
  dirs fs (parent root) -> ptr <> ".." -> fs !! (parent root ++ [ptr]) = Some (Symlink t) -> is_release fs root t ->
  protected_path fs root ptr = Ok t.
Proof.
  intros Hd Hp Hl Hrel. unfold protected_path, is_symlink. assert (Hls : lstat fs (parent root ++ [ptr]) = Some (Symlink t)).
  { unfold lstat. rewrite parent_snoc, name_snoc, (proj2 (resolve_iff fs (parent root))), get_snoc by by apply dirs_physical.
    by destruct (parent root). }
  rewrite Hls. cbn [negb raise_if res_bind]. assert (Hr : resolve fs (parent root ++ [ptr]) = Some t).
  { change (walk fs (fun target => resolve_links 39 fs target) [] (parent root ++ [ptr]) = Some t). rewrite (walk_link fs _ [] (parent root) ptr t) by done. rewrite app_nil_r.
    apply resolve_links_physical, dirs_physical. by eapply release_dirs. }
  rewrite Hr. cbn [os of_option res_bind]. by apply release_path_iff.
Qed.

Lemma protected_paths_direct fs root cur prev : pointers fs root cur prev -> protected_paths fs root = Ok {[cur; prev]}.
Proof.
  intros [_ Hd Hc Hp Hrc Hrp]. unfold protected_paths. cbn [traverse]. rewrite !(protected_path_direct fs root _ cur), !(protected_path_direct fs root _ prev) by done.
  cbn [res_bind]. f_equal. cbn [list_to_set foldr]. by rewrite (right_id_L ∅ (∪)).
Qed.

Lemma pointers_remove fs root cur prev p :
  pointers fs root cur prev -> is_release fs root p -> p <> cur -> p <> prev -> pointers (remove fs p) root cur prev.
Proof.
  intros [Hne Hd Hc Hp Hrc Hrp] Hrel H1 H2. assert (Hn := release_nonempty _ _ _ Hrel). assert (Hpar := rel_parent _ _ _ Hrel).
  assert (Hlen : forall x, length (parent root ++ [x]) = length root) by (intros x; rewrite (path_split root Hne) at 2; by rewrite !length_app).
  assert (Hlink : forall x, remove fs p !! (parent root ++ [x]) = fs !! (parent root ++ [x])).
  { intros x. apply remove_other. apply (above_apart root); try done. rewrite Hlen. lia. }
  split; try done.
  - apply (dirs_prefix _ root); [|apply removelast_prefix]. apply dirs_remove; try done. apply (rel_dirs _ _ _ Hrel).
  - by rewrite Hlink.
  - by rewrite Hlink.
  - by apply release_remove.
  - by apply release_remove.
Qed.

Lemma rmtree_release fs root p : is_release fs root p -> rmtree_target fs p = Some p.
Proof.
  intros [Hpar Hname Hdirs [t Ht]]. destruct (sha_name _ Hname) as [Hne _].
  assert (Hres : resolve fs (parent p) = Some (parent p)) by (apply resolve_iff, dirs_physical; by rewrite Hpar).
  unfold rmtree_target, lstat. destruct p as [|c p]; [done|]. rewrite Hres, <- (path_split (c :: p)) by done.
  cbn [get]. by rewrite Ht.
Qed.

Section Quiet.
Context (interfere : nat -> tree -> tree) (rm_fails : nat -> bool) (kept : nat -> path -> bool).

(** Whatever the other processes do, a removal follows a check in which its path
    was a release that no pointer led to. *)
Lemma delete_all_log root n selected fs r fs' log :
  delete_all interfere rm_fails kept root n selected fs = (r, fs', log) ->
  Forall (fun x => is_release (fst x) root (snd x) /\ exists protected, protected_paths (fst x) root = Ok protected /\ snd x ∉ protected) log.
Proof.
  revert n fs r fs' log. induction selected as [|p selected IH]; intros n fs r fs' log; cbn [delete_all]; [intros [= <- <- <-]; constructor|].
  set (fs1 := interfere (2 * n) fs). destruct (release_path fs1 p root) as [q|e] eqn:Hrel; [|intros [= <- <- <-]; constructor]. cbn [res_bind].
  destruct (protected_paths fs1 root) as [protected|e] eqn:Hprot; [|intros [= <- <- <-]; constructor]. cbn [res_bind].
  case_bool_decide as Hin; [intros [= <- <- <-]; constructor|]. cbn [raise_if]. apply release_path_iff in Hrel as [_ Hrel].
  destruct (rmtree _ _ _ _ _) as [[[]|e] fs2].
  - destruct (delete_all _ _ _ _ _ _ fs2) as [[r3 fs3] log3] eqn:H3. intros [= <- <- <-]. constructor; [|by eapply IH].
    split; [done|]. by exists protected.
  - intros [= <- <- <-]. constructor; [|constructor]. split; [done|]. by exists protected.
Qed.

Hypothesis quiet : forall n fs, interfere n fs = fs.

Lemma delete_all_quiet root n selected fs cur prev r fs' log :
  pointers fs root cur prev -> Forall (is_release fs root) selected -> NoDup selected -> cur ∉ selected -> prev ∉ selected ->
  delete_all interfere rm_fails kept root n selected fs = (r, fs', log) ->
  (forall q, (forall p, p ∈ selected -> below p q = false) -> fs' !! q = fs !! q) /\
  ((forall n, rm_fails n = false) -> r = Ok selected) /\
  (forall deleted, r = Ok deleted -> deleted = selected /\ forall p q, p ∈ selected -> below p q = true -> fs' !! q = None).
Proof.
  intros Hptr Hall Hnd Hc Hp. revert n fs r fs' log Hptr Hall. induction selected as [|p selected IH]; intros n fs r fs' log Hptr Hall.
  { intros [= <- <- <-]. split; [done|]. split; [done|]. intros deleted [= <-]. split; [done|]. by intros p q Hin%not_elem_of_nil. }
  apply Forall_cons in Hall as [Hrel Hall]. apply NoDup_cons in Hnd as [Hni Hnd].
  apply not_elem_of_cons in Hc as [Hcp Hc]. apply not_elem_of_cons in Hp as [Hpp Hp].
  cbn [delete_all]. rewrite quiet, (proj2 (release_path_iff fs p root p)) by done. cbn [res_bind].
  rewrite (protected_paths_direct _ _ _ _ Hptr). cbn [res_bind]. rewrite bool_decide_false by (intros [?%elem_of_singleton|?%elem_of_singleton]%elem_of_union; congruence). cbn [raise_if].
  rewrite quiet. unfold rmtree. rewrite (rmtree_release _ _ _ Hrel). destruct (rm_fails n) eqn:Hf.
  - intros [= <- <- <-]. split; [|split; [|done]].
    + intros q Hq. destruct (fs !! q) as [e|] eqn:He.
      * apply map_lookup_filter_Some. split; [done|]. left. apply Hq. by left.
      * apply map_lookup_filter_None. by left.
    + intros H. by rewrite H in Hf.
  - destruct (delete_all _ _ _ root (S n) selected (remove fs p)) as [[r3 fs3] log3] eqn:H3. intros [= <- <- <-].
    apply IH in H3 as (Hout & Hok & Hdone); try done.
    + split; [|split].
      * intros q Hq. rewrite Hout by (intros p' Hp'; apply Hq; by right). apply remove_other, Hq. by left.
      * intros H. by rewrite (Hok H).
      * intros deleted Hd. destruct r3 as [deleted3|]; [|done]. injection Hd as <-. destruct (Hdone _ eq_refl) as [-> Hnone]. split; [done|].
        intros p' q [->|Hin]%elem_of_cons Hb; [|by apply (Hnone p')].
        destruct (decide (Exists (fun p' => below p' q = true) selected)) as [He|He].
        -- apply Exists_exists in He as (p' & Hin & Hb'). by apply (Hnone p').
        -- rewrite Hout; [by apply remove_below|]. intros p' Hin. destruct (below p' q) eqn:Hb'; [|done]. destruct He. apply Exists_exists. by exists p'.
    + apply pointers_remove; try done; congruence.
    + rewrite Forall_forall in *. intros p' Hp'. apply release_remove; [by apply Hall | done|]. intros ->. done.
Qed.

End Quiet.

(** *** What is selected *)

Lemma elem_iterdir fs root p : p ∈ iterdir fs root <-> is_Some (fs !! p) /\ p <> [] /\ parent p = root.
Proof.
  unfold iterdir. rewrite list_elem_of_In, filter_In, <- list_elem_of_In, bool_decide_eq_true. split.
  - intros [Hin H]. apply list_elem_of_fmap in Hin as ([p' e] & -> & Hin). apply elem_of_map_to_list in Hin. split; [by exists e | done].
  - intros [[e He] H]. split; [|done]. apply (list_elem_of_fmap_2 fst _ (p, e)). by apply elem_of_map_to_list.
Qed.

Lemma NoDup_List_filter {A} (f : A -> bool) l : NoDup l -> NoDup (List.filter f l).
Proof.
  induction 1 as [|x l Hx _ IH]; simpl; [constructor|]. destruct (f x); [|done]. constructor; [|done].
  intros Hin. apply Hx. apply list_elem_of_In, filter_In in Hin as [Hin _]. by apply list_elem_of_In.
Qed.

Lemma iterdir_NoDup fs root : NoDup (iterdir fs root).
Proof. apply NoDup_List_filter, NoDup_fst_map_to_list. Qed.

Lemma filter_count {A} `{Countable A} (X : gset A) (l : list A) :
  NoDup l -> (forall x, x ∈ X -> x ∈ l) ->
  (length (List.filter (fun x => negb (bool_decide (x ∈ X))) l) + size X = length l)%nat.
Proof.
  intros Hnd Hsub. assert (Hp : elements X ≡ₚ List.filter (fun x => bool_decide (x ∈ X)) l).
  { apply NoDup_Permutation; [apply NoDup_elements | by apply NoDup_List_filter|]. intros x.
    rewrite elem_of_elements, list_elem_of_In, filter_In, <- list_elem_of_In, bool_decide_eq_true. split; [|by intros [_ Hx]].
    intros Hx. split; [by apply Hsub | done]. }
  change (size X) with (length (elements X)). rewrite Hp. clear. induction l as [|x l IH]; [done|]. simpl. destruct (bool_decide _); simpl; lia.
Qed.

Lemma pair_size (x y : path) : (size ({[x; y]} : gset path) <= 2)%nat.
Proof.
  rewrite size_union_alt, size_singleton. assert (Hs : {[y]} ∖ {[x]} ⊆ ({[y]} : gset path)) by by apply subseteq_difference_l.
  apply subseteq_size in Hs. rewrite size_singleton in Hs. lia.
Qed.

#[export] Instance z_compare_ordered : Ordered Z.compare.
Proof.
  split.
  - intros x y. apply Z.compare_eq_iff.
  - intros x y. apply Z.compare_antisym.
  - intros x y z. rewrite !Z.compare_lt_iff. lia.
Qed.

#[export] Instance older_preorder : TotalPreorder older.
Proof. unfold older. apply (total_preorder_on (le_of (pair_compare Z.compare str_compare)) fst), le_of_preorder. apply _. Qed.

Lemma older_time x y : older x y = true -> (fst (fst x) <= fst (fst y))%Z.
Proof.
  unfold older, le_of, pair_compare. destruct (Z.compare_spec (fst (fst x)) (fst (fst y))); by try lia.
Qed.

(** The entries of a release root that passes the checks. *)
Lemma select_Ok fs root retention selected :
  select_releases fs (Absolute root) retention = Ok selected ->
  root <> [] /\ dirs fs root /\ (2 <= retention)%Z /\ Forall (is_release fs root) (iterdir fs root) /\
  exists protected keys, protected_paths fs root = Ok protected /\
    Forall2 (fun p k => sort_key fs p = Ok k) (List.filter (fun p => negb (bool_decide (p ∈ protected))) (iterdir fs root)) keys /\
    selected = drop (Z.to_nat (Z.max 0 (retention - Z.of_nat (size protected)))) (map snd (sort_by older keys)).
Proof.
  unfold select_releases. intros H. apply res_bind_Ok in H as ([] & Hn%raise_if_Ok & H). apply orb_false_iff in Hn as [Hn%negb_false_iff%String.eqb_eq _].
  apply res_bind_Ok in H as (r & Hr%of_option_Ok & H). apply res_bind_Ok in H as ([] & Hc%raise_if_Ok & H).
  apply orb_false_iff in Hc as [[Heq%negb_false_iff%bool_decide_eq_true_1 Hdir%negb_false_iff]%orb_false_iff Hret%Z.ltb_ge]. subst r.
  assert (Hne : root <> []) by by intros ->. assert (Hphys := proj1 (resolve_iff _ _) Hr).
  assert (Hdirs : dirs fs root).
  { unfold is_dir in Hdir. rewrite stat_physical in Hdir by done.
    rewrite (path_split root Hne) in *. rewrite get_snoc in Hdir. destruct Hphys as [Hd [Hp|(Hp & _)]]; [by destruct (parent root)|].
    rewrite parent_snoc in Hd. rewrite name_snoc in Hp. apply dirs_snoc. split; [done|]. split; [done|].
    destruct (fs !! _) as [[m t| |]|]; try done. by exists m, t. }
  apply res_bind_Ok in H as (protected & Hp & H). apply res_bind_Ok in H as ([] & He & H). apply res_bind_Ok in H as (keys & Hk & [= <-]).
  split; [done|]. split; [done|]. split; [lia|]. split.
  - apply each_Ok in He. eapply Forall_impl; [exact He|]. intros p Hcl. unfold classify in Hcl. by apply res_bind_Ok in Hcl as (q & [_ Hrel]%release_path_iff & _).
  - exists protected, keys. split; [done|]. split; [by apply traverse_Ok | done].
Qed.

Lemma sort_key_Ok fs root p k : is_release fs root p -> sort_key fs p = Ok k ->
  exists t, k = (((- t)%Z, name p), p) /\ fs !! p = Some (Directory false t).
Proof.
  intros Hrel. assert (Hp := dirs_physical _ _ (release_dirs _ _ _ Hrel)). assert (Hne := release_nonempty _ _ _ Hrel). destruct Hrel as [_ _ _ [t Ht]].
  unfold sort_key, st_mtime_ns. rewrite stat_physical by done. destruct p as [|c p]; [done|]. cbn [get]. rewrite Ht. intros [= <-]. by exists t.
Qed.

(** The releases that stay: the number of all, or as many as asked for; and none
    of them is older than one that goes. *)
Lemma select_newest fs root retention selected cur prev :
  select_releases fs (Absolute root) retention = Ok selected -> pointers fs root cur prev ->
  NoDup selected /\ Forall (is_release fs root) selected /\ (cur ∉ selected) /\ (prev ∉ selected) /\
  (Z.of_nat (length (iterdir fs root)) - Z.of_nat (length selected) = Z.min (Z.of_nat (length (iterdir fs root))) retention)%Z /\
  (forall p q t u, p ∈ selected -> q ∈ iterdir fs root -> q ∉ selected -> q <> cur -> q <> prev ->
     fs !! p = Some (Directory false t) -> fs !! q = Some (Directory false u) -> (t <= u)%Z).
Proof.
  intros Hsel Hptr. apply select_Ok in Hsel as (Hne & Hd & Hret & Hall & protected & keys & Hprot & Hkeys & ->).
  rewrite (protected_paths_direct _ _ _ _ Hptr) in Hprot. injection Hprot as <-. set (P := {[cur; prev]} : gset path) in *.
  set (entries := iterdir fs root) in *. set (others := List.filter _ entries) in *. rewrite Forall_forall in Hall.
  assert (Hoth : forall p, p ∈ others <-> p ∈ entries /\ p ∉ P).
  { intros p. unfold others. by rewrite list_elem_of_In, filter_In, <- list_elem_of_In, negb_true_iff, bool_decide_eq_false. }
  assert (Hk : Forall (fun k => exists t, fst (fst k) = (- t)%Z /\ fs !! snd k = Some (Directory false t)) keys).
  { apply Forall_forall. intros k Hin. destruct (Forall2_in_r _ _ _ _ Hkeys Hin) as (p & Hp & Hpk). apply Hoth in Hp as [Hp _].
    destruct (sort_key_Ok _ _ _ _ (Hall p Hp) Hpk) as (t & -> & Ht). by exists t. }
  assert (Hmap : map snd keys = others).
  { clear Hk. assert (Hin : forall p, p ∈ others -> is_release fs root p) by (intros p [Hp _]%Hoth; by apply Hall). clear Hoth.
    induction Hkeys as [|p k l ks Hpk _ IH]; [done|]. simpl. rewrite IH by (intros x Hx; apply Hin; by right).
    destruct (sort_key_Ok _ root _ _ (Hin p ltac:(by left)) Hpk) as (t & -> & _). done. }
  set (sorted := sort_by older keys) in *. assert (Hperm : map snd sorted ≡ₚ others) by (rewrite <- Hmap; apply Permutation_map, sort_by_perm).
  assert (Hndo : NoDup (map snd sorted)) by (rewrite Hperm; apply NoDup_List_filter, iterdir_NoDup).
  set (k := Z.to_nat (Z.max 0 (retention - Z.of_nat (size P)))) in *.
  assert (Hsub : forall p, p ∈ drop k (map snd sorted) -> p ∈ entries /\ p ∉ P).
  { intros p Hp. apply Hoth. rewrite <- Hperm. rewrite <- (take_drop k (map snd sorted)), elem_of_app. by right. }
  split; [|split; [|split; [|split; [|split]]]].
  - rewrite <- (take_drop k) in Hndo. by apply NoDup_app in Hndo as (_ & _ & Hndo).
  - apply Forall_forall. intros p Hp. by apply Hall, Hsub.
  - intros Hp%Hsub. destruct Hp as [_ Hp]. apply Hp. unfold P. clear. set_solver.
  - intros Hp%Hsub. destruct Hp as [_ Hp]. apply Hp. unfold P. clear. set_solver.
  - assert (Hcount := filter_count P entries (iterdir_NoDup _ _)). fold others in Hcount.
    assert (Hin : forall x, x ∈ P -> x ∈ entries).
    { intros x Hx. apply elem_iterdir. assert (Hrel : is_release fs root x).
      { unfold P in Hx. apply elem_of_union in Hx as [->%elem_of_singleton| ->%elem_of_singleton]; apply Hptr. }
      split; [|split; [by eapply release_nonempty | apply Hrel]]. destruct Hrel as [_ _ _ [t ->]]. by eexists. }
    specialize (Hcount Hin). assert (Hsize : (size P <= 2)%nat).
    { apply pair_size. }
    rewrite length_drop, Hperm. unfold k. lia.
  - intros p q t u Hp Hq Hnq Hc Hpr Ht Hu. assert (Hqs : q ∈ take k (map snd sorted)).
    { assert (Hqo : q ∈ map snd sorted).
      { rewrite Hperm. apply Hoth. split; [done|]. unfold P. rewrite elem_of_union, !elem_of_singleton. by intros [?|?]. }
      rewrite <- (take_drop k), elem_of_app in Hqo. by destruct Hqo. }
    assert (Hss := sort_by_sorted older keys). fold sorted in Hss. rewrite <- (take_drop k sorted) in Hss.
    change (map snd sorted) with (snd <$> sorted) in Hqs, Hp. rewrite <- fmap_take in Hqs. rewrite <- fmap_drop in Hp.
    apply list_elem_of_fmap in Hqs as (kq & -> & Hkq). apply list_elem_of_fmap in Hp as (kp & -> & Hkp).
    assert (Hle := StronglySorted_app_1_elem_of _ _ _ _ _ Hss Hkq Hkp). apply older_time in Hle. rewrite Forall_forall in Hk.
    assert (Hkq' : kq ∈ keys) by (apply (sort_by_elem older); fold sorted; rewrite <- (take_drop k sorted), elem_of_app; by left).
    assert (Hkp' : kp ∈ keys) by (apply (sort_by_elem older); fold sorted; rewrite <- (take_drop k sorted), elem_of_app; by right).
    destruct (Hk _ Hkq') as (u' & Hu1 & Hu2), (Hk _ Hkp') as (t' & Ht1 & Ht2). rewrite Hu2 in Hu. rewrite Ht2 in Ht. simplify_eq. lia.
Qed.

Section Pruning.
Context (interfere : nat -> tree -> tree) (rm_fails : nat -> bool) (kept : nat -> path -> bool).

Lemma prune_cases avoids root retention fs r fs' log :
  prune interfere rm_fails kept avoids (Absolute root) retention fs = (r, fs', log) ->
  (is_ok r = false /\ fs' = fs /\ log = [] /\
   (avoids = false \/ forall selected, select_releases fs (Absolute root) retention = Ok selected -> Exists (fun p => nested_mount fs p = true) selected)) \/
  (exists selected, select_releases fs (Absolute root) retention = Ok selected /\
     Forall (fun p => nested_mount fs p = false) selected /\
     delete_all interfere rm_fails kept root 0 selected fs = (r, fs', log)).
Proof.
  unfold prune. destruct avoids; [|intros [= <- <- <-]; left; split_and!; try done; by left]. cbn [negb].
  destruct (select_releases fs (Absolute root) retention) as [selected|e]; [|intros [= <- <- <-]; left; split_and!; try done; by right]. cbn [res_bind].
  destruct (each _ selected) as [[]|e] eqn:He.
  - cbn [res_bind]. intros H. right. exists selected. split; [done|]. split; [|done]. apply each_Ok in He.
    eapply Forall_impl; [exact He|]. intros p Hp%raise_if_Ok. done.
  - intros [= <- <- <-]. left. split; [done|]. split; [done|]. split; [done|]. right. intros selected' [= <-].
    destruct (decide (Exists (fun p => nested_mount fs p = true) selected)) as [|Hno]; [done|]. exfalso.
    assert (Hok : each (fun p => raise_if (nested_mount fs p) (ValueErrorRaised "Mounted directory inside release" p)) selected = Ok tt); [|congruence].
    apply each_Ok, Forall_forall. intros p Hp. destruct (nested_mount fs p) eqn:Hm; [|done]. destruct Hno. apply Exists_exists. by exists p.
Qed.

(** C19. What pruning removes.  Whatever other processes do meanwhile, a
    removal is made only after a check in which its path was a release of this
    root to which neither pointer led.  Undisturbed, with pointers that lead to releases,
    a run either changes nothing or removes exactly the releases that were
    selected, in whole when it returns: the pointers and their releases stay, as
    many releases stay as were asked for (or all, when there are fewer), and none
    that goes is newer than one that stays unprotected; and it does return when
    the selection succeeds, nothing is mounted below and no removal fails. *)
Theorem prune_retains avoids root retention fs r fs' log :
  prune interfere rm_fails kept avoids (Absolute root) retention fs = (r, fs', log) ->
  Forall (fun x => is_release (fst x) root (snd x) /\ exists protected, protected_paths (fst x) root = Ok protected /\ snd x ∉ protected) log /\
  forall cur prev, (forall n t, interfere n t = t) -> pointers fs root cur prev ->
    (is_ok r = false /\ fs' = fs) \/
    exists selected, select_releases fs (Absolute root) retention = Ok selected /\
      (forall q, (forall p, p ∈ selected -> below p q = false) -> fs' !! q = fs !! q) /\
      (cur ∉ selected) /\ (prev ∉ selected) /\ Forall (is_release fs root) selected /\
      (Z.of_nat (length (iterdir fs root)) - Z.of_nat (length selected) = Z.min (Z.of_nat (length (iterdir fs root))) retention)%Z /\
      (forall p q t u, p ∈ selected -> q ∈ iterdir fs root -> q ∉ selected -> q <> cur -> q <> prev ->
         fs !! p = Some (Directory false t) -> fs !! q = Some (Directory false u) -> (t <= u)%Z) /\
      ((forall n, rm_fails n = false) -> r = Ok selected) /\
      (forall deleted, r = Ok deleted -> deleted = selected /\ forall p q, p ∈ selected -> below p q = true -> fs' !! q = None).
Proof.
  intros H. apply prune_cases in H as [(Hr & -> & -> & _)|(selected & Hsel & _ & Hdel)].
  - split; [constructor|]. intros cur prev _ _. by left.
  - split; [by eapply delete_all_log|]. intros cur prev Hquiet Hptr. right. exists selected.
    destruct (select_newest _ _ _ _ _ _ Hsel Hptr) as (Hnd & Hall & Hc & Hp & Hcount & Hnew).
    destruct (delete_all_quiet _ _ _ Hquiet _ _ _ _ _ _ _ _ _ Hptr Hall Hnd Hc Hp Hdel) as (Hout & Hok & Hdone). by split_and!.
Qed.

End Pruning.

(** ** Example: four releases, two of them protected, three to keep *)

Definition example_root : path := ["srv"; "ocp"; "releases"].
Definition sha_of (c : ascii) : string := String.string_of_list_ascii (repeat c 40).
Definition example_release_dir (c : ascii) (t : Z) : list (path * entry) :=
  [(example_root ++ [sha_of c], Directory false t); (example_root ++ [sha_of c; ".release-ready"], Regular (sha_of c))].

Definition example_tree : tree :=
  list_to_map ([(["srv"], Directory false 0); (["srv"; "ocp"], Directory false 0); (example_root, Directory false 0);
                (["srv"; "ocp"; "current"], Symlink (example_root ++ [sha_of "a"]));
                (["srv"; "ocp"; "previous"], Symlink (example_root ++ [sha_of "b"]))]
               ++ example_release_dir "a" 10 ++ example_release_dir "b" 40 ++ example_release_dir "c" 20 ++ example_release_dir "d" 30).

Definition example_prune (retention : Z) : res maintenance_exn (list path) * tree * list (tree * path) :=
  prune (fun _ t => t) (fun _ => false) (fun _ _ => false) true (Absolute example_root) retention example_tree.

Lemma example_prune_eq retention : example_prune retention =
  prune (fun _ t => t) (fun _ => false) (fun _ _ => false) true (Absolute example_root) retention example_tree.
Proof. reflexivity. Qed.

Lemma example_pruned : fst (fst (example_prune 3)) = Ok [example_root ++ [sha_of "c"]].
Proof. vm_compute. reflexivity. Qed.

Example example_nothing_to_prune : fst (fst (example_prune 4)) = Ok [].
Proof. vm_compute. reflexivity. Qed.

Lemma example_dirs : dirs example_tree example_root.
Proof.
  assert (H1 : example_tree !! ["srv"] = Some (Directory false 0)) by (vm_compute; reflexivity).
  assert (H2 : example_tree !! ["srv"; "ocp"] = Some (Directory false 0)) by (vm_compute; reflexivity).
  assert (H3 : example_tree !! example_root = Some (Directory false 0)) by (vm_compute; reflexivity).
  assert (H0 : dirs example_tree []) by by intros q c Hq%prefix_nil_inv; destruct q.
  change example_root with ((([] ++ ["srv"]) ++ ["ocp"]) ++ ["releases"]).
  repeat (apply dirs_snoc; split; [|split; [done | by exists false, 0%Z]]). exact H0.
Qed.

Lemma example_pointers : pointers example_tree example_root (example_root ++ [sha_of "a"]) (example_root ++ [sha_of "b"]).
Proof.
  assert (Hd := example_dirs). split.
  - done.
  - eapply dirs_prefix; [exact Hd | apply removelast_prefix].
  - vm_compute. reflexivity.
  - vm_compute. reflexivity.
  - split; [reflexivity | vm_compute; reflexivity | exact Hd |]. exists 10%Z. vm_compute. reflexivity.
  - split; [reflexivity | vm_compute; reflexivity | exact Hd |]. exists 40%Z. vm_compute. reflexivity.
Qed.

Lemma prune_retains_witness :
  fst (fst (example_prune 3)) = Ok [example_root ++ [sha_of "c"]] /\
  snd (fst (example_prune 3)) !! (example_root ++ [sha_of "d"]) = example_tree !! (example_root ++ [sha_of "d"]) /\
  snd (fst (example_prune 3)) !! (example_root ++ [sha_of "c"; ".release-ready"]) = None.
Proof.
  assert (Hr := example_pruned). split; [exact Hr|]. destruct (example_prune 3) as [[r fs'] log] eqn:H. cbn [fst snd] in *. subst r.
  rewrite example_prune_eq in H. apply (prune_retains (fun _ t => t) (fun _ => false) (fun _ _ => false)) in H as [_ H].
  destruct (H _ _ (fun _ _ => eq_refl) example_pointers) as [[Hf _]|(selected & _ & Hout & _ & _ & _ & _ & _ & _ & Hdone)]; [discriminate Hf|].
  destruct (Hdone _ eq_refl) as [<- Hnone]. split.
  - apply Hout. intros p Hp%list_elem_of_singleton. subst p. vm_compute. reflexivity.
  - apply (Hnone (example_root ++ [sha_of "c"])); [by left | vm_compute; reflexivity].
Defined.

(** ** Example: the command of a supervisor that was killed keeps the lock *)

Inductive action := Starts (p : pid) (g : program) | Calls (e : answers) (p : pid) | Ends (p : pid).

Definition act (a : action) (h : host) : option host :=
  match a with
  | Starts p g => if bool_decide (fresh h p) then Some {| kern := kern h; fs := fs h; procs := <[p := (g, code_of g)]> (procs h) |} else None
  | Calls e p =>
      match procs h !! p with
      | Some (g, pr) =>
          match advance e p pr h with
          | Some (pr', h') => Some {| kern := kern h'; fs := fs h'; procs := <[p := (g, pr')]> (procs h) |}
          | None => None
          end
      | None => None
      end
  | Ends p => Some {| kern := exit_process p (kern h); fs := fs h; procs := delete p (procs h) |}
  end.

Fixpoint acts (l : list action) (h : host) : option host :=
  match l with [] => Some h | a :: l => match act a h with Some h => acts l h | None => None end end.

Lemma act_step a h h' : act a h = Some h' -> exists p, step p h h'.
Proof.
  destruct a as [p g|e p|p]; cbn [act].
  - case_bool_decide; [|done]. intros [= <-]. exists p. by apply step_start.
  - destruct (procs h !! p) as [[g pr]|] eqn:Hp; [|done]. destruct (advance e p pr h) as [[pr' h1]|] eqn:Ha; [|done].
    intros [= <-]. exists p. by eapply step_call.
  - intros [= <-]. exists p. apply step_exit.
Qed.

Lemma acts_steps l h h' : acts l h = Some h' -> steps h h'.
Proof.
  revert h. induction l as [|a l IH]; intros h; cbn [acts]; [intros [= <-]; apply rtc_refl|].
  destruct (act a h) as [h1|] eqn:Ha; [|done]. intros H. eapply rtc_l; [by eapply act_step | by apply IH].
Qed.

Definition example_answers : answers :=
  {| open_fails := false; fstat_fails := false; flock_fails := false; child := Some 2%nat; code := 4%Z; entries := [("17", Some ["bash"])] |}.

(** The supervisor 1 starts the command 2 and is killed; 3 comes up to its flock. *)
Definition example_actions : list action :=
  [Starts 1 (Run ["ansible-playbook"]); Calls example_answers 1; Calls example_answers 1; Calls example_answers 1; Calls example_answers 1;
   Ends 1; Starts 3 (Run ["ansible-playbook"]); Calls example_answers 3; Calls example_answers 3].

Definition example_host (actions : list action) : host := default (idle true ∅) (acts actions (idle true ∅)).

Lemma lock_example_reachable actions : lock_reachable (example_host actions).
Proof.
  exists true, ∅. unfold example_host. destruct (acts actions (idle true ∅)) as [h|] eqn:H; [by eapply acts_steps | apply rtc_refl].
Qed.

(** Left alone, the command runs, and [run] returns its code; a second run then
    works again. *)
Example lock_example_run : procs (example_host [Starts 1 (Run ["ansible-playbook"]); Calls example_answers 1; Calls example_answers 1;
  Calls example_answers 1; Calls example_answers 1; Ends 2; Calls example_answers 1; Calls example_answers 1]) !! 1%nat
  = Some (Run ["ansible-playbook"], Ret 4%Z).
Proof. vm_compute. reflexivity. Qed.

Lemma lock_exclusive_witness :
  fst (flock 1 (kern (example_host example_actions))) = WouldBlock /\
  (exists next, at_flock (default (Ret 0%Z) (snd <$> procs (example_host example_actions) !! 3%nat)) = Some (1%nat, next) /\
     next WouldBlock = Sys (Close 1) (fun _ => Ret BUSY)) /\
  ~ holds (example_host example_actions) 3.
Proof.
  destruct (lock_exclusive (example_host example_actions) (lock_example_reachable _)) as (_ & _ & _ & _ & Hflock & _).
  destruct (procs (example_host example_actions) !! 3%nat) as [[g pr]|] eqn:Hp; [|vm_compute in Hp; discriminate Hp].
  destruct (at_flock pr) as [[fd next]|] eqn:Hf; [|vm_compute in Hp; injection Hp as <- <-; discriminate Hf].
  assert (fd = 1%nat /\ busy_code g = BUSY) as [-> Hg] by (vm_compute in Hp; injection Hp as <- <-; vm_compute in Hf; injection Hf as <- _; by split).
  destruct (Hflock 3%nat g pr 1%nat next Hp Hf) as (_ & Hnot & [_ Hblock] & _ & Hnext). split.
  - apply Hblock. exists 2%nat, 0%nat. split; [vm_compute; reflexivity|]. apply (bool_decide_unpack _). vm_compute. exact I.
  - split; [|exact Hnot]. exists next. split; [exact Hf | by rewrite Hnext, Hg].
Defined.
