(* ===== verification/AuthConfig.v ===== *)
(** * Settings of the authentication service: auth/config.py, auth/db_config.py,
    auth/preflight.py

    [validate_security] runs its checks in the order of the code and raises at
    the first one that fails.  Fernet's check of a key and SQLAlchemy's
    [make_url] are parameters; the database that the preflight looks at is what
    its queries answer.

    [validate_security_exact] says what a production configuration is accepted
    for, [preflight_exact] what exit code 0 of the preflight means: among the
    rest that the role of the authentication service can write no table of the
    registry, whatever schema it is in. *)

From S2P Require Import Prelude PyText SemVer Json JsonText Url.

Open Scope string_scope.
Open Scope list_scope.

Definition DEVELOPMENT_JWT_SECRET : string := "development-only-change-me-32-bytes-minimum".
Definition DEVELOPMENT_OAUTH_STATE_SECRET : string := "development-oauth-state-change-me-32-bytes".
Definition DEVELOPMENT_MFA_RECOVERY_PEPPER : string := "development-recovery-pepper-change-me-32-bytes".
Definition MINIMUM_JWT_SECRET_LENGTH : nat := 32.

(** The settings that the checks read. *)
Record Settings := {
  cors_origins : string; app_environment : string; app_base_url : string; api_base_url : string;
  jwt_secret_key : string; jwt_algorithm : string; jwt_issuer : string;
  oauth_state_secret : string; mfa_recovery_pepper : string;
  refresh_require_origin : bool; auth_cookie_secure : bool; auth_cookie_samesite : string; auth_cookie_path : string;
  email_backend : string; smtp_host : option string; smtp_use_tls : bool;
  github_client_id : option string; github_client_secret : option string;
  google_client_id : option string; google_client_secret : option string;
  oauth_redirect_base_url : option string;
  auth_rate_limit_backend : string; rate_limit_fail_closed : bool; trusted_proxies : string;
  mfa_encryption_key : option string; webauthn_rp_id : string; webauthn_origin : string;
  redis_enabled : bool; auth_database_url : string
}.

(** The bounded fields: [Field(ge=..., le=...)]. *)
Record BoundedSettings := {
  rate_limit_memory_max_keys : Z; mfa_challenge_expire_seconds : Z; mfa_max_attempts : Z; mfa_totp_valid_window : Z;
  mfa_recovery_code_count : Z; mfa_setup_expire_seconds : Z; reauth_max_age_seconds : Z;
  webauthn_challenge_expire_seconds : Z; webauthn_timeout_ms : Z
}.

Definition between (low high value : Z) : bool := Z.leb low value && Z.leb value high.

Definition field_bounds (b : BoundedSettings) : bool :=
  between 100 100000 (rate_limit_memory_max_keys b) && between 60 900 (mfa_challenge_expire_seconds b)
  && between 3 10 (mfa_max_attempts b) && between 0 1 (mfa_totp_valid_window b) && between 8 20 (mfa_recovery_code_count b)
  && between 300 1800 (mfa_setup_expire_seconds b) && between 60 3600 (reauth_max_age_seconds b)
  && between 60 900 (webauthn_challenge_expire_seconds b) && between 15000 300000 (webauthn_timeout_ms b).

(** [bool(value)] of an optional text. *)
Definition given (value : option string) : bool := match value with Some s => nonempty s | None => false end.

Definition cors_origin_list (s : Settings) : list string :=
  map (fun origin => rstrip_char "/" (strip origin)) (List.filter (fun o => nonempty (strip o)) (split_on "," (cors_origins s))).

Definition production (s : Settings) : bool := String.eqb (lower (app_environment s)) "production".

Definition trusted_proxy_list (s : Settings) : list string :=
  map strip (List.filter (fun v => nonempty (strip v)) (split_on "," (trusted_proxies s))).

(** pydantic's [ValidationError], [RuntimeError], and the [ValueError] of
    [urlsplit], which is not caught. *)
Inductive config_exn := ValidationError | RuntimeError (msg : string) | UrlError (e : exn).

Definition split (url : string) : res config_exn split_result :=
  match urlsplit url with Ok p => Ok p | Err e => Err (UrlError e) end.

Definition require (ok : bool) (msg : string) : res config_exn unit := raise_if (negb ok) (RuntimeError msg).

Definition one_of (value : string) (l : list string) : bool := existsb (String.eqb value) l.

(** No origin: the disjunction the code writes for each of the URLs. *)
Definition not_an_origin (p : split_result) : bool :=
  negb (one_of (scheme p) ["http"; "https"]) || negb (given (hostname p)) || given (username p) || given (password p)
  || negb (one_of (path p) [""; "/"]) || nonempty (query p) || nonempty (fragment p).

Definition long_enough (secret : string) : bool := Nat.leb MINIMUM_JWT_SECRET_LENGTH (String.length (strip secret)).

(** The size of a set of three. *)
Definition three_distinct (a b c : string) : bool := negb (String.eqb a b) && negb (String.eqb a c) && negb (String.eqb b c).

Section Security.
(** Whether [Fernet(key)] accepts a key. *)
Context (fernet_key : string -> bool).

Definition check_base_url (s : Settings) (name : string) (value : option string) : res config_exn unit :=
  match value with
  | None => Ok tt
  | Some value =>
      let? parsed := split value in
      require (negb (not_an_origin parsed || (production s && negb (String.eqb (scheme parsed) "https"))))
        (name +:+ " must be an absolute trusted origin")
  end.

Definition both_or_neither (provider : string) (client_id client_secret : option string) : res config_exn unit :=
  require (Bool.eqb (given client_id) (given client_secret)) ("Configure both " +:+ provider +:+ " client fields or neither").

(** [if self.production and bad: raise] *)
Definition in_production (s : Settings) (ok : bool) (msg : string) : res config_exn unit := require (negb (production s) || ok) msg.

Definition check_secrets (s : Settings) : res config_exn unit :=
  in_production s (negb (String.eqb (jwt_secret_key s) DEVELOPMENT_JWT_SECRET) && long_enough (jwt_secret_key s))
    "AUTH_SECRET must be configured with at least 32 characters in production" ;?
  in_production s (String.eqb (jwt_algorithm s) "HS256") "JWT_ALGORITHM must be HS256" ;?
  in_production s (long_enough (oauth_state_secret s) && negb (String.eqb (oauth_state_secret s) DEVELOPMENT_OAUTH_STATE_SECRET))
    "OAUTH_STATE_SECRET must be configured securely in production" ;?
  in_production s (long_enough (mfa_recovery_pepper s) && negb (String.eqb (mfa_recovery_pepper s) DEVELOPMENT_MFA_RECOVERY_PEPPER))
    "MFA_RECOVERY_PEPPER must be configured securely in production" ;?
  in_production s (three_distinct (jwt_secret_key s) (oauth_state_secret s) (mfa_recovery_pepper s))
    "JWT, OAuth state and MFA recovery secrets must be distinct".

(** [.rstrip(".")] *)
Definition without_dot (host : string) : string := rstrip_char "." (lower host).

Definition check_webauthn (s : Settings) : res config_exn unit :=
  in_production s (startswith "https://" (webauthn_origin s)) "WEBAUTHN_ORIGIN must use HTTPS in production" ;?
  require (negb (substring_in "://" (webauthn_rp_id s) || substring_in "/" (webauthn_rp_id s)))
    "WEBAUTHN_RP_ID must be a hostname without scheme or path" ;?
  let? origin := split (webauthn_origin s) in
  require (negb (not_an_origin origin)) "WEBAUTHN_ORIGIN must be an HTTP(S) origin without path" ;?
  let rp_id := without_dot (webauthn_rp_id s) in
  let origin_host := without_dot (default "" (hostname origin)) in
  require (String.eqb origin_host rp_id || endswith ("." +:+ rp_id) origin_host)
    "WEBAUTHN_RP_ID must match the WebAuthn origin hostname".

Definition validate_security (s : Settings) : res config_exn unit :=
  require (one_of (auth_cookie_samesite s) ["lax"; "strict"]) "AUTH_COOKIE_SAMESITE must be lax or strict" ;?
  require (String.eqb (auth_cookie_path s) "/") "AUTH_COOKIE_PATH must be / for SSR" ;?
  require (one_of (email_backend s) ["smtp"; "console"]) "EMAIL_BACKEND must be smtp or console" ;?
  in_production s (String.eqb (email_backend s) "smtp" && given (smtp_host s)) "Production auth requires SMTP delivery" ;?
  in_production s (smtp_use_tls s && given (mfa_encryption_key s)) "Production auth requires SMTP TLS and MFA encryption" ;?
  in_production s (negb (String.eqb (jwt_issuer s) "http://localhost:8000")) "Production auth requires its own JWT_ISSUER" ;?
  check_base_url s "API_BASE_URL" (Some (api_base_url s)) ;?
  check_base_url s "OAUTH_REDIRECT_BASE_URL" (oauth_redirect_base_url s) ;?
  both_or_neither "github" (github_client_id s) (github_client_secret s) ;?
  both_or_neither "google" (google_client_id s) (google_client_secret s) ;?
  check_secrets s ;?
  in_production s (auth_cookie_secure s) "AUTH_COOKIE_SECURE must be true in production" ;?
  in_production s (refresh_require_origin s) "REFRESH_REQUIRE_ORIGIN must be true in production" ;?
  require (one_of (auth_rate_limit_backend s) ["memory"; "redis"]) "AUTH_RATE_LIMIT_BACKEND must be memory or redis" ;?
  in_production s (String.eqb (auth_rate_limit_backend s) "redis") "AUTH_RATE_LIMIT_BACKEND must be redis in production" ;?
  in_production s (redis_enabled s) "REDIS_ENABLED must be true in production" ;?
  in_production s (rate_limit_fail_closed s) "RATE_LIMIT_FAIL_CLOSED must be true in production" ;?
  require (negb (given (mfa_encryption_key s)) || fernet_key (default "" (mfa_encryption_key s))) "MFA_ENCRYPTION_KEY is invalid" ;?
  let? app_origin := split (app_base_url s) in
  require (negb (not_an_origin app_origin)) "APP_BASE_URL must be an absolute HTTP(S) origin without path" ;?
  in_production s (String.eqb (scheme app_origin) "https") "APP_BASE_URL must use HTTPS in production" ;?
  check_webauthn s.

(** [get_settings]: [Settings()] checks the ranges, then come the checks above. *)
Definition get_settings (b : BoundedSettings) (s : Settings) : res config_exn Settings :=
  raise_if (negb (field_bounds b)) ValidationError ;? validate_security s ;? Ok s.

(** ** db_config.py *)

Section Url.
(** The driver and the database of a URL, or [None] when it does not parse. *)
Context (make_url : string -> option (string * option string)).

Definition auth_database_url_ (value environ : option string) : res exn (string * string) :=
  let raw := match value with Some v => Some v | None => environ end in
  match raw with
  | Some (String _ _ as raw) =>
      match make_url raw with
      | None => Err (ValueError "Invalid auth database URL")
      | Some (drivername, database) =>
          raise_if (negb (String.eqb drivername "postgresql+asyncpg") || negb (given database))
            (ValueError "Auth database URL must use postgresql+asyncpg and name a database") ;?
          Ok (drivername, default "" database)
      end
  | _ => Err (ValueError "AUTH_DATABASE_URL is required for auth database operations")
  end.

(** [.set(drivername="postgresql+psycopg")] *)
Definition auth_sync_database_url (value environ : option string) : res exn (string * string) :=
  let? url := auth_database_url_ value environ in Ok ("postgresql+psycopg", snd url).

(** ** preflight.py *)

(** [Base.metadata.tables] of the two databases. *)
Definition auth_tables : list string :=
  ["auth_audit_logs"; "user_mfa_methods"; "user_mfa_recovery_codes"; "auth_mfa_challenges"; "user_webauthn_credentials";
   "webauthn_challenges"; "user_oauth_accounts"; "password_reset_tokens"; "users"; "user_sessions"; "email_verification_tokens"].
Definition registry_tables : list string :=
  ["publishers"; "modules"; "artifacts"; "build_provenance"; "module_versions"; "module_channels"; "module_dependencies"; "promotion_events"].

(** What the database answers: whether it can be reached, the version of its
    schema, the privileges of the role on a name, the ordinary tables of every
    schema with their identifiers, and the privileges on those. *)
Record database_view := {
  reachable : bool; version_num : option string; has_privilege : string -> string -> bool;
  pg_class : list (string * N); has_privilege_oid : N -> string -> bool
}.

Inductive preflight_exn := Configuration | Driver | Preflight (msg : string).

Definition lifted {E A} (r : res E A) : res preflight_exn A := match r with Ok a => Ok a | Err _ => Err Configuration end.

Definition check_database (s : Settings) (environ : option string) (databases : string * string -> database_view) : res preflight_exn unit :=
  let? url := lifted (auth_sync_database_url (Some (auth_database_url s)) environ) in
  let db := databases url in
  raise_if (negb (reachable db)) Driver ;?
  raise_if (negb (bool_decide (version_num db = Some "0063_auth_persistence"))) (Preflight "Auth migration required") ;?
  each (fun table => each (fun privilege =>
      raise_if (negb (has_privilege db table privilege)) (Preflight "Auth database role lacks required table grants"))
    ["SELECT"; "INSERT"; "UPDATE"; "DELETE"]) auth_tables ;?
  each (fun table => each (fun oid => each (fun privilege =>
        raise_if (has_privilege_oid db oid privilege) (Preflight "Auth database role must not write Registry tables"))
      ["INSERT"; "UPDATE"; "DELETE"; "TRUNCATE"; "TRIGGER"])
    (map snd (List.filter (fun row => String.eqb (fst row) table) (pg_class db)))) registry_tables.

(** [ping] says whether Redis answers. *)
Definition check_limiter (s : Settings) (ping : bool) : res preflight_exn unit :=
  raise_if (negb (redis_enabled s)) (Preflight "Security rate limiter missing") ;? raise_if (negb ping) Driver.

(** The exit code and the stage that is printed. *)
Definition preflight (environ : string -> option string) (bounded : BoundedSettings) (settings : Settings) (expected_origin : string)
    (databases : string * string -> database_view) (ping : bool) : Z * string :=
  let configuration :=
    (let? s := lifted (get_settings bounded settings) in
     raise_if (negb (production s) || negb (String.eqb (lower (default "" (environ "AUTH_ENABLED"))) "true"))
       (Preflight "Production activation settings required") ;?
     raise_if (negb (String.eqb (rstrip_char "/" (app_base_url s)) (rstrip_char "/" expected_origin)))
       (Preflight "Auth origin does not match the Package Hub") ;?
     raise_if (negb (String.eqb (rstrip_char "/" (webauthn_origin s)) (rstrip_char "/" expected_origin)))
       (Preflight "WebAuthn origin does not match the Package Hub")) in
  match configuration with
  | Err _ => (1%Z, "configuration")
  | Ok _ =>
      match check_database settings (environ "AUTH_DATABASE_URL") databases with
      | Err _ => (1%Z, "database schema and grants")
      | Ok _ => match check_limiter settings ping with Err _ => (1%Z, "security rate limiter") | Ok _ => (0%Z, "") end
      end
  end.

End Url.
End Security.

(** ** What a passing check says *)

Lemma require_Ok ok msg u : require ok msg = Ok u <-> ok = true.
Proof. unfold require. by rewrite raise_if_Ok, negb_false_iff. Qed.

Lemma in_production_Ok s ok msg u : production s = true -> in_production s ok msg = Ok u <-> ok = true.
Proof. intros H. unfold in_production. by rewrite require_Ok, H. Qed.

Lemma seq_iff {E A} (m : res E unit) (k : res E A) a P Q :
  (m = Ok tt <-> P) -> (k = Ok a <-> Q) -> (m ;? k) = Ok a <-> P /\ Q.
Proof. intros <- <-. apply seq_Ok. Qed.

Lemma split_Ok url p : split url = Ok p <-> urlsplit url = Ok p.
Proof. unfold split. destruct (urlsplit url); [by split; intros [= ->] | done]. Qed.

Lemma lifted_Ok {E A} (r : res E A) a : lifted r = Ok a <-> r = Ok a.
Proof. destruct r; [by split; intros [= ->] | done]. Qed.

(** The scheme, a host, and nothing that an origin does not have. *)
Definition origin (p : split_result) : Prop :=
  (scheme p = "http" \/ scheme p = "https") /\ (exists h, hostname p = Some h /\ h <> "") /\
  given (username p) = false /\ given (password p) = false /\
  (path p = "" \/ path p = "/") /\ query p = "" /\ fragment p = "".

Lemma one_of_two value a b : one_of value [a; b] = true <-> value = a \/ value = b.
Proof. unfold one_of. cbn. rewrite !orb_true_iff, !String.eqb_eq. intuition congruence. Qed.

Lemma given_true o : given o = true <-> exists s, o = Some s /\ s <> "".
Proof. destruct o as [[|c t]|]; cbn; split; try done; [by intros (? & [= <-] & ?) | by eexists | by intros (? & ? & ?)]. Qed.

Lemma nonempty_false s : nonempty s = false <-> s = "".
Proof. by destruct s. Qed.

Lemma origin_spec p : negb (not_an_origin p) = true <-> origin p.
Proof.
  unfold not_an_origin, origin.
  rewrite !negb_orb, !andb_true_iff, !negb_involutive, !one_of_two, given_true, !negb_true_iff, !nonempty_false. tauto.
Qed.

(** An address that is an origin served over TLS. *)
Definition https_origin (url : string) : Prop := exists p, urlsplit url = Ok p /\ origin p /\ scheme p = "https".

(** A secret of its own: long, and not the one of development. *)
Definition own_secret (development secret : string) : Prop :=
  (MINIMUM_JWT_SECRET_LENGTH <= String.length (strip secret))%nat /\ secret <> development.

(** The relying party is the host of the origin or a domain above it. *)
Definition rp_covers (rp_id host : string) : Prop := host = rp_id \/ exists sub, host = sub +:+ "." +:+ rp_id.

Lemma base_url_Ok s name o : production s = true ->
  check_base_url s name o = Ok tt <-> forall url, o = Some url -> https_origin url.
Proof.
  intros Hp. destruct o as [url|]; cbn; [|by split].
  rewrite res_bind_Ok. setoid_rewrite split_Ok. setoid_rewrite require_Ok.
  assert (forall p, negb (not_an_origin p || (production s && negb (String.eqb (scheme p) "https"))) = true <-> origin p /\ scheme p = "https") as E.
  { intros p. by rewrite negb_orb, andb_true_iff, origin_spec, Hp, andb_true_l, negb_involutive, String.eqb_eq. }
  setoid_rewrite E. unfold https_origin. split; [intros H u [= <-]; done | eauto].
Qed.

Lemma three_distinct_spec a b c : three_distinct a b c = true <-> NoDup [a; b; c].
Proof.
  unfold three_distinct. rewrite !andb_true_iff, !negb_true_iff, !String.eqb_neq, !NoDup_cons, !not_elem_of_cons.
  pose proof (@NoDup_nil_2 string) as Hn. pose proof (@not_elem_of_nil string) as He. split; [|tauto].
  intros [[Hab Hac] Hbc]. by repeat split.
Qed.

Lemma own_secret_spec development secret :
  long_enough secret = true /\ negb (String.eqb secret development) = true <-> own_secret development secret.
Proof. unfold own_secret, long_enough. by rewrite Nat.leb_le, negb_true_iff, String.eqb_neq. Qed.

Lemma secrets_Ok s : production s = true ->
  check_secrets s = Ok tt <->
  own_secret DEVELOPMENT_JWT_SECRET (jwt_secret_key s) /\ jwt_algorithm s = "HS256" /\
  own_secret DEVELOPMENT_OAUTH_STATE_SECRET (oauth_state_secret s) /\
  own_secret DEVELOPMENT_MFA_RECOVERY_PEPPER (mfa_recovery_pepper s) /\
  NoDup [jwt_secret_key s; oauth_state_secret s; mfa_recovery_pepper s].
Proof.
  intros Hp. unfold check_secrets. rewrite !seq_Ok, !(in_production_Ok _ _ _ _ Hp), !andb_true_iff.
  rewrite three_distinct_spec, String.eqb_eq, (and_comm (negb _ = true)). by rewrite !own_secret_spec.
Qed.

Lemma webauthn_Ok s : production s = true ->
  check_webauthn s = Ok tt <->
  startswith "https://" (webauthn_origin s) = true /\
  substring_in "://" (webauthn_rp_id s) = false /\ substring_in "/" (webauthn_rp_id s) = false /\
  exists p, urlsplit (webauthn_origin s) = Ok p /\ origin p /\
    rp_covers (without_dot (webauthn_rp_id s)) (without_dot (default "" (hostname p))).
Proof.
  intros Hp. unfold check_webauthn. rewrite !seq_Ok, (in_production_Ok _ _ _ _ Hp), require_Ok, negb_true_iff, orb_false_iff.
  rewrite res_bind_Ok. setoid_rewrite split_Ok. setoid_rewrite seq_Ok. setoid_rewrite require_Ok.
  setoid_rewrite origin_spec. setoid_rewrite orb_true_iff. setoid_rewrite String.eqb_eq. setoid_rewrite endswith_iff.
  unfold rp_covers. split.
  - intros (? & [? ?] & p & ? & ? & Hc). repeat split; try done. exists p. by split_and!.
  - intros (? & ? & ? & p & ? & ? & Hc). repeat split; try done. exists p. by split_and!.
Qed.

Lemma app_origin_Ok s (k : res config_exn unit) : production s = true ->
  (let? app_origin := split (app_base_url s) in
   require (negb (not_an_origin app_origin)) "APP_BASE_URL must be an absolute HTTP(S) origin without path" ;?
   in_production s (String.eqb (scheme app_origin) "https") "APP_BASE_URL must use HTTPS in production" ;? k) = Ok tt <->
  https_origin (app_base_url s) /\ k = Ok tt.
Proof.
  intros Hp. rewrite res_bind_Ok. unfold https_origin. split.
  - intros (p & Hu & Hk). rewrite !seq_Ok, require_Ok, (in_production_Ok _ _ _ _ Hp), origin_spec, String.eqb_eq in Hk.
    rewrite split_Ok in Hu. destruct Hk as (? & ? & ?). by split; [exists p|].
  - intros [(p & Hu & Ho & Hs) ->]. exists p. rewrite split_Ok. split; [done|].
    by rewrite !seq_Ok, require_Ok, (in_production_Ok _ _ _ _ Hp), origin_spec, String.eqb_eq.
Qed.

Lemma encryption_key_Ok (accepts : string -> bool) o :
  given o = true /\ negb (given o) || accepts (default "" o) = true <-> exists key, o = Some key /\ key <> "" /\ accepts key = true.
Proof.
  rewrite given_true. split.
  - intros [(key & -> & Hk) H]. exists key. split_and!; [done | done |]. by destruct key.
  - intros (key & -> & Hk & H). split; [by exists key|]. by rewrite orb_true_iff; right.
Qed.

Lemma for_some {A} (a : A) (P : A -> Prop) : (forall x, Some a = Some x -> P x) <-> P a.
Proof. split; [by auto | by intros ? ? [= <-]]. Qed.

Section Exact.
Context (fernet_key : string -> bool) (make_url : string -> option (string * option string)).

(** In production the settings are accepted exactly when: the cookies go
    to the whole site, to no other site and only over TLS; refreshing checks
    the origin; mail is sent over SMTP with TLS; the codes of second factors
    are encrypted with a key that Fernet accepts; the issuer is the
    deployment's own; the API, the application and the callbacks are https
    origins; each provider has both its fields or neither; the three secrets
    are long, pairwise distinct and not those of development, for HS256; the
    rate limiter is Redis and fails closed; and the relying party of passkeys
    is a host name, that of the https origin or a domain above it. *)
Theorem validate_security_exact s : production s = true ->
  validate_security fernet_key s = Ok tt <->
  (auth_cookie_samesite s = "lax" \/ auth_cookie_samesite s = "strict") /\ auth_cookie_path s = "/" /\
  auth_cookie_secure s = true /\ refresh_require_origin s = true /\
  email_backend s = "smtp" /\ given (smtp_host s) = true /\ smtp_use_tls s = true /\
  (exists key, mfa_encryption_key s = Some key /\ key <> "" /\ fernet_key key = true) /\
  jwt_issuer s <> "http://localhost:8000" /\
  https_origin (api_base_url s) /\ https_origin (app_base_url s) /\
  (forall url, oauth_redirect_base_url s = Some url -> https_origin url) /\
  given (github_client_id s) = given (github_client_secret s) /\
  given (google_client_id s) = given (google_client_secret s) /\
  own_secret DEVELOPMENT_JWT_SECRET (jwt_secret_key s) /\ jwt_algorithm s = "HS256" /\
  own_secret DEVELOPMENT_OAUTH_STATE_SECRET (oauth_state_secret s) /\
  own_secret DEVELOPMENT_MFA_RECOVERY_PEPPER (mfa_recovery_pepper s) /\
  NoDup [jwt_secret_key s; oauth_state_secret s; mfa_recovery_pepper s] /\
  auth_rate_limit_backend s = "redis" /\ redis_enabled s = true /\ rate_limit_fail_closed s = true /\
  startswith "https://" (webauthn_origin s) = true /\
  substring_in "://" (webauthn_rp_id s) = false /\ substring_in "/" (webauthn_rp_id s) = false /\
  exists p, urlsplit (webauthn_origin s) = Ok p /\ origin p /\
    rp_covers (without_dot (webauthn_rp_id s)) (without_dot (default "" (hostname p))).
Proof.
  intros Hp. unfold validate_security, both_or_neither. etransitivity.
  { repeat first
      [ eapply app_origin_Ok; done
      | eapply seq_iff; [first [apply (in_production_Ok _ _ _ _ Hp) | apply require_Ok | by apply base_url_Ok | apply (secrets_Ok _ Hp)]|] ]. }
  rewrite !andb_true_iff, !one_of_two, !eqb_true_iff, negb_true_iff, String.eqb_neq, !String.eqb_eq.
  rewrite (webauthn_Ok _ Hp), for_some, <- (encryption_key_Ok fernet_key). tauto.
Qed.

Lemma database_Ok s environ databases :
  check_database make_url s environ databases = Ok tt <->
  exists url, auth_sync_database_url make_url (Some (auth_database_url s)) environ = Ok url /\
    reachable (databases url) = true /\ version_num (databases url) = Some "0063_auth_persistence" /\
    (forall table privilege, table ∈ auth_tables -> privilege ∈ ["SELECT"; "INSERT"; "UPDATE"; "DELETE"] ->
       has_privilege (databases url) table privilege = true) /\
    (forall table oid privilege, table ∈ registry_tables -> (table, oid) ∈ pg_class (databases url) ->
       privilege ∈ ["INSERT"; "UPDATE"; "DELETE"; "TRUNCATE"; "TRIGGER"] ->
       has_privilege_oid (databases url) oid privilege = false).
Proof.
  unfold check_database. rewrite res_bind_Ok.
  apply exist_proper. intros url. rewrite lifted_Ok, !seq_Ok, !raise_if_Ok, !negb_false_iff, bool_decide_eq_true.
  rewrite !each_Ok, !Forall_forall. setoid_rewrite each_Ok. setoid_rewrite Forall_forall. setoid_rewrite each_Ok. setoid_rewrite Forall_forall.
  setoid_rewrite raise_if_Ok. setoid_rewrite negb_false_iff.
  apply and_iff_compat_l, and_iff_compat_l, and_iff_compat_l. split.
  - intros [H1 H2]. split; [by auto|]. intros table oid privilege Ht Ho. apply (H2 table Ht).
    apply list_elem_of_In, in_map_iff. exists (table, oid). split; [done|]. apply filter_In. split; [by apply list_elem_of_In | apply String.eqb_refl].
  - intros [H1 H2]. split; [by auto|]. intros table Ht oid Ho. apply list_elem_of_In, in_map_iff in Ho as ([t o] & <- & Hf).
    apply filter_In in Hf as [Hf Heq]. apply String.eqb_eq in Heq. cbn in Heq. subst t. apply list_elem_of_In in Hf. intros privilege. by apply (H2 table).
Qed.

(** C22. The preflight ends with exit code 0 exactly when the settings are in
    their ranges, accepted by [validate_security] for production and switched
    on, the application and the passkeys are at the expected origin, Redis
    answers, and the database of the service has the current schema, where its
    role may read and write every table of its own and no table of the registry
    in any schema; every other run ends with exit code 1. *)
Theorem preflight_exact environ b s expected databases ping :
  let result := preflight fernet_key make_url environ b s expected databases ping in
  (fst result = 0%Z \/ fst result = 1%Z) /\
  (fst result = 0%Z <->
   (field_bounds b = true /\ validate_security fernet_key s = Ok tt /\ production s = true /\
    lower (default "" (environ "AUTH_ENABLED")) = "true") /\
   (rstrip_char "/" (app_base_url s) = rstrip_char "/" expected /\
    rstrip_char "/" (webauthn_origin s) = rstrip_char "/" expected) /\
   (exists url, auth_sync_database_url make_url (Some (auth_database_url s)) (environ "AUTH_DATABASE_URL") = Ok url /\
    reachable (databases url) = true /\ version_num (databases url) = Some "0063_auth_persistence" /\
    (forall table privilege, table ∈ auth_tables -> privilege ∈ ["SELECT"; "INSERT"; "UPDATE"; "DELETE"] ->
       has_privilege (databases url) table privilege = true) /\
    (forall table oid privilege, table ∈ registry_tables -> (table, oid) ∈ pg_class (databases url) ->
       privilege ∈ ["INSERT"; "UPDATE"; "DELETE"; "TRUNCATE"; "TRIGGER"] ->
       has_privilege_oid (databases url) oid privilege = false)) /\
   redis_enabled s = true /\ ping = true).
Proof.
  cbv zeta. rewrite <- database_Ok. unfold preflight.
  set (configuration := res_bind _ _).
  assert (configuration = Ok tt <-> (field_bounds b = true /\ validate_security fernet_key s = Ok tt /\ production s = true /\
    lower (default "" (environ "AUTH_ENABLED")) = "true") /\ rstrip_char "/" (app_base_url s) = rstrip_char "/" expected /\
    rstrip_char "/" (webauthn_origin s) = rstrip_char "/" expected) as Hc.
  { unfold configuration, get_settings. rewrite res_bind_Ok. split.
    - intros (s' & Hs & Hk). rewrite lifted_Ok, !seq_Ok, raise_if_Ok, negb_false_iff in Hs. destruct Hs as (? & ? & [= <-]).
      rewrite !seq_Ok, !raise_if_Ok, orb_false_iff, !negb_false_iff, !String.eqb_eq in Hk. tauto.
    - intros [(? & ? & ? & ?) [? ?]]. exists s. rewrite lifted_Ok, !seq_Ok, !raise_if_Ok, orb_false_iff, !negb_false_iff, !String.eqb_eq. tauto. }
  assert (check_limiter s ping = Ok tt <-> redis_enabled s = true /\ ping = true) as Hl.
  { unfold check_limiter. by rewrite seq_Ok, !raise_if_Ok, !negb_false_iff. }
  clearbody configuration. rewrite <- Hl, (and_assoc _ (_ /\ _)), <- Hc. clear Hc Hl. destruct configuration as [[]|]; [|by split; [right | split; [|intros [[=] _]]]].
  destruct (check_database _ _ _ _) as [[]|]; [|by split; [right | split; [|intros (_ & [=] & _)]]].
  destruct (check_limiter s ping) as [[]|]; [|by split; [right | split; [|intros (_ & _ & [=])]]].
  by split; [left|].
Qed.
End Exact.

(** ** Examples *)

(** The defaults of the code, in an environment. *)
Definition defaults (environment : string) : Settings := {|
  cors_origins := "http://localhost:3000,http://localhost:3001"; app_environment := environment;
  app_base_url := "http://localhost:3000"; api_base_url := "http://localhost:8000";
  jwt_secret_key := DEVELOPMENT_JWT_SECRET; jwt_algorithm := "HS256"; jwt_issuer := "http://localhost:8000";
  oauth_state_secret := DEVELOPMENT_OAUTH_STATE_SECRET; mfa_recovery_pepper := DEVELOPMENT_MFA_RECOVERY_PEPPER;
  refresh_require_origin := false; auth_cookie_secure := false; auth_cookie_samesite := "lax"; auth_cookie_path := "/";
  email_backend := "smtp"; smtp_host := None; smtp_use_tls := true;
  github_client_id := None; github_client_secret := None; google_client_id := None; google_client_secret := None;
  oauth_redirect_base_url := None; auth_rate_limit_backend := "memory"; rate_limit_fail_closed := false; trusted_proxies := "";
  mfa_encryption_key := None; webauthn_rp_id := "localhost"; webauthn_origin := "http://localhost:3000";
  redis_enabled := false; auth_database_url := ""
|}.

Definition default_bounds : BoundedSettings := {|
  rate_limit_memory_max_keys := 10000; mfa_challenge_expire_seconds := 300; mfa_max_attempts := 5; mfa_totp_valid_window := 1;
  mfa_recovery_code_count := 10; mfa_setup_expire_seconds := 600; reauth_max_age_seconds := 600;
  webauthn_challenge_expire_seconds := 300; webauthn_timeout_ms := 60000
|}.

(** A deployment's settings, with the origin of its passkeys. *)
Definition deployed (passkeys : string) : Settings := {|
  cors_origins := ""; app_environment := "production"; app_base_url := "https://hub.example"; api_base_url := "https://hub.example/";
  jwt_secret_key := "1111111111111111111111111111111111"; jwt_algorithm := "HS256"; jwt_issuer := "https://hub.example";
  oauth_state_secret := "2222222222222222222222222222222222"; mfa_recovery_pepper := "3333333333333333333333333333333333";
  refresh_require_origin := true; auth_cookie_secure := true; auth_cookie_samesite := "strict"; auth_cookie_path := "/";
  email_backend := "smtp"; smtp_host := Some "mail.example"; smtp_use_tls := true;
  github_client_id := Some "id"; github_client_secret := Some "secret"; google_client_id := None; google_client_secret := None;
  oauth_redirect_base_url := None; auth_rate_limit_backend := "redis"; rate_limit_fail_closed := true; trusted_proxies := "10.0.0.1 , ";
  mfa_encryption_key := Some "key"; webauthn_rp_id := "Hub.example."; webauthn_origin := passkeys;
  redis_enabled := true; auth_database_url := "postgresql+asyncpg://auth@db/hub"
|}.

Definition any_fernet_key (key : string) : bool := nonempty key.
Definition any_url (url : string) : option (string * option string) := Some ("postgresql+asyncpg", Some "hub").

(** A role that owns the tables of the service and reads those of the
    registry, of which a second copy is in another schema. *)
Definition separated (_ : string * string) : database_view := {|
  reachable := true; version_num := Some "0063_auth_persistence";
  has_privilege := fun table _ => one_of table auth_tables;
  pg_class := [("users", 1); ("modules", 2); ("modules", 3)]%N;
  has_privilege_oid := fun oid privilege => N.eqb oid 1 || String.eqb privilege "SELECT"
|}.

(** The same with a grant on the copy. *)
Definition leaking (u : string * string) : database_view := {|
  reachable := true; version_num := version_num (separated u); has_privilege := has_privilege (separated u);
  pg_class := pg_class (separated u);
  has_privilege_oid := fun oid privilege => has_privilege_oid (separated u) oid privilege || (N.eqb oid 3 && String.eqb privilege "TRIGGER")
|}.

Definition production_environ (name : string) : option string := if String.eqb name "AUTH_ENABLED" then Some "True" else None.

Definition ex_preflight := preflight any_fernet_key any_url production_environ default_bounds.

Example development_defaults :
  validate_security any_fernet_key (defaults "development") = Ok tt /\
  validate_security any_fernet_key (defaults "Production") = Err (RuntimeError "Production auth requires SMTP delivery").
Proof. split; vm_compute; reflexivity. Qed.

Example preflight_stages :
  ex_preflight (deployed "https://hub.example") "https://hub.example" separated true = (0%Z, "") /\
  ex_preflight (deployed "https://hub.example") "https://hub.example" leaking true = (1%Z, "database schema and grants") /\
  ex_preflight (deployed "https://hub.example") "https://hub.example" separated false = (1%Z, "security rate limiter") /\
  ex_preflight (deployed "https://sub.hub.example") "https://hub.example" separated true = (1%Z, "configuration").
Proof. repeat split; vm_compute; reflexivity. Qed.

(** A trailing slash in the passkeys' origin passes every check, although
    passkey_service.py compares that text with the origin browsers send, which
    has none. *)
Example trailing_slash_accepted :
  ex_preflight (deployed "https://hub.example/") "https://hub.example" separated true = (0%Z, "").
Proof. vm_compute. reflexivity. Qed.

(** The database URL is read from the environment only when no setting gives it. *)
Example database_urls :
  auth_sync_database_url any_url (Some "postgresql+asyncpg://auth@db/hub") None = Ok ("postgresql+psycopg", "hub") /\
  auth_sync_database_url any_url (Some "") (Some "postgresql+asyncpg://auth@db/hub") =
    Err (ValueError "AUTH_DATABASE_URL is required for auth database operations").
Proof. split; reflexivity. Qed.

Lemma deployed_production : production (deployed "https://hub.example") = true.
Proof. vm_compute. reflexivity. Qed.

Lemma deployed_accepted : validate_security any_fernet_key (deployed "https://hub.example") = Ok tt.
Proof. vm_compute. reflexivity. Qed.

Lemma validate_security_exact_witness :
  NoDup ["1111111111111111111111111111111111"; "2222222222222222222222222222222222"; "3333333333333333333333333333333333"] /\
  https_origin "https://hub.example".
Proof.
  pose proof (proj1 (validate_security_exact any_fernet_key _ deployed_production) deployed_accepted) as H.
  destruct H as (_ & _ & _ & _ & _ & _ & _ & _ & _ & Hapi & Happ & _ & _ & _ & _ & _ & _ & _ & Hd & _). by split.
Defined.
