(* ===== verification/AuthRuntime.v ===== *)
(** * Hand-over of the authentication secrets: filter_plugins/auth_runtime.py
    and build-github-auth-vars.py of the deployment

    [auth_vars_exact] says which variables are forwarded and for which inputs,
    [environment_quote_round_trip] that a quoted value is read back by a reader
    of [EnvironmentFile]s.  Such a reader (systemd's) is a parameter, with what
    its documentation says of double quotes as hypotheses. *)

From S2P Require Import Prelude PyText SemVer Json.

Open Scope string_scope.
Open Scope list_scope.

(** ** auth_runtime.py

    The only exception is [ValueError], an error here is its message. *)

Definition FIELDS : list string :=
  ["database_url"; "secret"; "oauth_state_secret"; "mfa_recovery_pepper"; "mfa_encryption_key"; "redis_url"; "smtp_host";
   "smtp_username"; "smtp_password"; "smtp_from_email"; "github_client_id"; "github_client_secret"; "google_client_id";
   "google_client_secret"].

Definition REQUIRED_FIELDS : list string :=
  ["database_url"; "secret"; "oauth_state_secret"; "mfa_recovery_pepper"; "mfa_encryption_key"; "redis_url"; "smtp_host";
   "smtp_from_email"].

Definition control_char (c : ascii) : bool := N.ltb (N_of_ascii c) 32 || N.eqb (N_of_ascii c) 127.

Definition single_line (value : string) : bool := negb (any_char control_char value).

Definition variable (field : string) : string := "packages_auth_" +:+ field.

(** The body of the loop over the fields. *)
Definition auth_var (variables : string -> option json) (field : string) : res string (string * string) :=
  let name := variable field in
  match default (JStr "") (variables name) with
  | JStr value =>
      raise_if (negb (single_line value)) (name +:+ " must be a single-line string without control characters") ;?
      raise_if (existsb (String.eqb field) REQUIRED_FIELDS && negb (nonempty (strip value)))
        ("Missing required auth value: " +:+ name) ;?
      Ok (name, value)
  | _ => Err (name +:+ " must be a single-line string without control characters")
  end.

(** [result[name]] *)
Definition entry (result : list (string * string)) (name : string) : string :=
  match List.find (fun kv => String.eqb (fst kv) name) result with Some (_, value) => value | None => "" end.

Definition check_provider (result : list (string * string)) (provider : string) : res string unit :=
  let client_id := entry result (variable (provider +:+ "_client_id")) in
  let client_secret := entry result (variable (provider +:+ "_client_secret")) in
  raise_if (negb (Bool.eqb (nonempty client_id) (nonempty client_secret))
            || (nonempty client_id && (negb (nonempty (strip client_id)) || negb (nonempty (strip client_secret)))))
    ("Configure both " +:+ provider +:+ " client fields or neither").

Definition auth_extra_vars (variables : string -> option json) (enabled : bool) : res string (list (string * string)) :=
  if negb enabled then Ok []
  else
    let? result := traverse (auth_var variables) FIELDS in
    each (check_provider result) ["github"; "google"] ;? Ok result.

Definition double_quote : ascii := "034".

Definition environment_quote (value : json) : res string string :=
  match value with
  | JStr value =>
      raise_if (negb (single_line value)) "EnvironmentFile values must be single-line strings" ;?
      Ok (String double_quote (replace_char double_quote (String "\" (String double_quote "")) (replace_char "\" "\\" value) +:+ String double_quote ""))
  | _ => Err "EnvironmentFile values must be single-line strings"
  end.

(** ** build-github-auth-vars.py *)

(** [SystemExit] *)
Inductive exit_exn := SystemExit (msg : string).

(** The object that is written, or the message with which the script stops;
    the file is replaced as a whole, and not at all by a script that stops. *)
Definition build_auth_vars (environ : string -> option string) : res exit_exn members :=
  let flag := lower (strip (default "" (environ "PACKAGES_REGISTRY_AUTH_ENABLED"))) in
  raise_if (negb (existsb (String.eqb flag) [""; "false"; "true"])) (SystemExit "PACKAGES_REGISTRY_AUTH_ENABLED must be true or false") ;?
  let enabled := String.eqb flag "true" in
  let variables name :=
    if enabled then
      match List.find (fun field => String.eqb (variable field) name) FIELDS with
      | Some field => Some (JStr (default "" (environ ("PACKAGES_AUTH_" +:+ upper field))))
      | None => None
      end
    else None in
  match auth_extra_vars variables enabled with
  | Err msg => Err (SystemExit msg)
  | Ok values => Ok (map (fun kv => (fst kv, JStr (snd kv))) values ++ [("packages_registry_auth_enabled", JBool enabled)])
  end.

(** ** What is forwarded *)

Lemma auth_var_Ok variables field kv :
  auth_var variables field = Ok kv <->
  exists value, default (JStr "") (variables (variable field)) = JStr value /\ single_line value = true /\
    (field ∈ REQUIRED_FIELDS -> strip value <> "") /\ kv = (variable field, value).
Proof.
  unfold auth_var. destruct (default _ _) as [| | |value| |] eqn:E; try (split; [done | by intros (? & ? & _)]).
  rewrite !seq_Ok, !raise_if_Ok, negb_false_iff, andb_false_iff, negb_false_iff.
  assert (existsb (String.eqb field) REQUIRED_FIELDS = false \/ nonempty (strip value) = true <-> (field ∈ REQUIRED_FIELDS -> strip value <> "")) as ->.
  { destruct (existsb _ _) eqn:Hx.
    - apply existsb_exists in Hx as (f & Hin & Hf). apply String.eqb_eq in Hf as <-. rewrite <- list_elem_of_In in Hin.
      destruct (strip value); cbn; [split; [by intros [?|?] | by intros H; destruct (H Hin)] | by split; [intros _ _ | right]].
    - split; [|by left]. intros _ Hin. apply list_elem_of_In in Hin. apply not_true_iff_false in Hx. destruct Hx.
      apply existsb_exists. exists field. by rewrite String.eqb_refl. }
  split; [intros (? & ? & [= <-]); by exists value | intros (v & [= <-] & ? & ? & ->)]. done.
Qed.

Lemma variable_inj a b : variable a = variable b -> a = b.
Proof. unfold variable. intros H. by injection H. Qed.

(** The entry of a field in what the loop built. *)
Lemma entry_Forall2 (value : string -> string) fields field : field ∈ fields ->
  entry (map (fun f => (variable f, value f)) fields) (variable field) = value field.
Proof.
  unfold entry. induction fields as [|f l IH]; [by rewrite elem_of_nil|]. cbn [map List.find fst].
  destruct (String.eqb_spec (variable f) (variable field)) as [Hv|Hv]; [by apply variable_inj in Hv as ->|].
  rewrite elem_of_cons. intros [->|Hl]; [done | by apply IH].
Qed.

Lemma providers_in_fields provider : provider ∈ ["github"; "google"] ->
  provider +:+ "_client_id" ∈ FIELDS /\ provider +:+ "_client_secret" ∈ FIELDS.
Proof. rewrite !elem_of_cons, elem_of_nil. intros [->|[->|[]]]; split; by apply (bool_decide_unpack _). Qed.

(** Both without a character, or both with one that is no space. *)
Definition paired (client_id client_secret : string) : Prop :=
  (client_id = "" /\ client_secret = "") \/ (strip client_id <> "" /\ strip client_secret <> "").

Lemma strip_empty value : strip value <> "" -> value <> "".
Proof. by intros H ->. Qed.

Lemma check_provider_Ok (value : string -> string) provider : provider ∈ ["github"; "google"] ->
  check_provider (map (fun f => (variable f, value f)) FIELDS) provider = Ok tt <->
  paired (value (provider +:+ "_client_id")) (value (provider +:+ "_client_secret")).
Proof.
  intros Hp. destruct (providers_in_fields _ Hp) as [Hi Hs]. unfold check_provider, paired.
  rewrite raise_if_Ok, !entry_Forall2 by done.
  generalize (value (provider +:+ "_client_id")) (value (provider +:+ "_client_secret")). intros i t.
  pose proof (strip_empty i) as Ei. pose proof (strip_empty t) as Et.
  destruct i as [|a i], t as [|b t]; cbn [nonempty Bool.eqb negb orb andb];
    try (split; [done | by intros [[? ?]|[? ?]]; [done | (destruct Ei || destruct Et)]]); [by split; [left|]|].
  destruct (strip (String a i)), (strip (String b t)); cbn; split; try done; try (by right); by intros [[? ?]|[? ?]].
Qed.

Lemma traverse_fields (variables : string -> option json) kvs fields :
  traverse (auth_var variables) fields = Ok kvs <->
  exists value, kvs = map (fun f => (variable f, value f)) fields /\
    forall field, field ∈ fields ->
      default (JStr "") (variables (variable field)) = JStr (value field) /\ single_line (value field) = true /\
      (field ∈ REQUIRED_FIELDS -> strip (value field) <> "").
Proof.
  rewrite traverse_Ok. split.
  - intros H. exists (fun f => match default (JStr "") (variables (variable f)) with JStr v => v | _ => "" end).
    induction H as [|f kv fields kvs Hf _ [IH1 IH2]]; [split; [done | by intros f ?%elem_of_nil]|].
    apply auth_var_Ok in Hf as (v & Hv & Hl & Hr & ->). split; [cbn [map]; by rewrite Hv, <- IH1|].
    intros field [->|?]%elem_of_cons; [by rewrite Hv | by apply IH2].
  - intros (value & -> & H). induction fields as [|f fields IH]; [constructor|].
    constructor; [|by apply IH; intros; apply H; right]. apply auth_var_Ok. exists (value f).
    destruct (H f) as (? & ? & ?); [by left | by split_and!].
Qed.

(** When the service is enabled, exactly the fourteen supported variables
    are forwarded, in order, each with the value it was given or an empty one,
    whatever other variables there are; and they are forwarded only when every
    value is a text without control characters, the required ones are not
    blank, and each provider has both of its fields or neither.  A service that
    is not enabled gets nothing. *)
Theorem auth_vars_exact variables enabled result :
  auth_extra_vars variables enabled = Ok result <->
  (enabled = false /\ result = []) \/
  (enabled = true /\ exists value,
    result = map (fun field => (variable field, value field)) FIELDS /\
    (forall field, field ∈ FIELDS ->
       default (JStr "") (variables (variable field)) = JStr (value field) /\ single_line (value field) = true /\
       (field ∈ REQUIRED_FIELDS -> strip (value field) <> "")) /\
    (forall provider, provider ∈ ["github"; "google"] ->
       paired (value (provider +:+ "_client_id")) (value (provider +:+ "_client_secret")))).
Proof.
  destruct enabled; cbn [auth_extra_vars negb]; [|by split; [intros [= <-]; left | intros [[_ ->]|[? _]]]].
  rewrite res_bind_Ok. setoid_rewrite seq_Ok. setoid_rewrite each_Ok. setoid_rewrite Forall_forall. setoid_rewrite traverse_fields. split.
  - intros (r & (value & -> & Hf) & Hp & [= <-]). right. split; [done|]. exists value. split_and!; [done | done |].
    intros provider Hin. apply check_provider_Ok; [done | by apply Hp].
  - intros [[? _]|(_ & value & -> & Hf & Hp)]; [done|]. eexists. split; [by exists value|]. split; [|done].
    intros provider Hin. apply check_provider_Ok; [done | by apply Hp].
Qed.

(** ** Quoted values *)

Lemma quote_body_cons a s :
  replace_char double_quote (String "\" (String double_quote "")) (replace_char "\" "\\" (String a s)) =
  (if Ascii.eqb a "\" || Ascii.eqb a double_quote then String "\" (String a "") else String a "") +:+
  replace_char double_quote (String "\" (String double_quote "")) (replace_char "\" "\\" s).
Proof.
  cbn [replace_char]. destruct (Ascii.eqb_spec a "\") as [->|]; cbn [orb]; [by rewrite replace_char_app|].
  cbn [replace_char]. by destruct (Ascii.eqb_spec a double_quote) as [->|].
Qed.

Section Reader.
(** A reader of the values of [EnvironmentFile]s, and of the rest of a value
    after an opening double quote. *)
Context (read_value read_quoted : string -> option string).
(** Within double quotes a backslash before a double quote or a backslash
    stands for that character, an unescaped double quote ends the value, and
    every other character of a line stands for itself. *)
Hypothesis read_open : forall s, read_value (String double_quote s) = read_quoted s.
Hypothesis read_close : read_quoted (String double_quote "") = Some "".
Hypothesis read_escaped : forall c s, c = "\"%char \/ c = double_quote ->
  read_quoted (String "\" (String c s)) = option_map (String c) (read_quoted s).
Hypothesis read_plain : forall c s, c <> "\"%char -> c <> double_quote -> control_char c = false ->
  read_quoted (String c s) = option_map (String c) (read_quoted s).

(** C23. Every value without control characters has a quoted form, and reading
    that form gives back the value; nothing else is quoted. *)
Theorem environment_quote_round_trip value t :
  environment_quote value = Ok t <->
  exists s, value = JStr s /\ single_line s = true /\ read_value t = Some s /\
    t = String double_quote (replace_char double_quote (String "\" (String double_quote "")) (replace_char "\" "\\" s) +:+ String double_quote "").
Proof.
  unfold environment_quote.
  destruct value as [| | |s| |]; try (split; [done | by intros (? & ? & _)]). rewrite seq_Ok, raise_if_Ok, negb_false_iff. split.
  - intros [Hs [= <-]]. exists s. split_and!; [done | done | | done]. rewrite read_open.
    induction s as [|a s IH]; [exact read_close|]. rewrite quote_body_cons.
    unfold single_line, any_char in Hs. rewrite negb_involutive in Hs. cbn [all_chars] in Hs.
    apply andb_true_iff in Hs as [Ha Hs]. apply negb_true_iff in Ha.
    assert (IH' := IH ltac:(unfold single_line, any_char; by rewrite negb_involutive)).
    revert IH'. generalize (replace_char double_quote (String "\" (String double_quote "")) (replace_char "\" "\\" s)). intros body IH'.
    destruct (Ascii.eqb_spec a "\") as [->|Hb]; [|destruct (Ascii.eqb_spec a double_quote) as [->|Hq]]; cbn [orb]; rewrite ?sapp_cons, ?sapp_nil.
    + rewrite read_escaped by (by left). by rewrite IH'.
    + rewrite read_escaped by (by right). by rewrite IH'.
    + rewrite read_plain by done. by rewrite IH'.
  - by intros (s' & [= <-] & Hs & _ & ->).
Qed.
End Reader.

(** ** Examples *)

(** A reader of this kind. *)
Fixpoint unescape (s : string) : option string :=
  match s with
  | "" => None
  | String c s =>
      if Ascii.eqb c double_quote then match s with "" => Some "" | _ => None end
      else if Ascii.eqb c "\" then
        match s with
        | "" => None
        | String d s =>
            if Ascii.eqb d "\" || Ascii.eqb d double_quote then option_map (String d) (unescape s)
            else option_map (fun t => String "\" (String d t)) (unescape s)
        end
      else option_map (String c) (unescape s)
  end.

Definition unescape_value (s : string) : option string :=
  match s with "" => Some "" | String c s => if Ascii.eqb c double_quote then unescape s else Some (String c s) end.

Definition secret_text : string := "a\" +:+ String double_quote "b $HOME".

Lemma secret_quoted : environment_quote (JStr secret_text) =
  Ok (String double_quote ("a\\\" +:+ String double_quote ("b $HOME" +:+ String double_quote ""))).
Proof. reflexivity. Qed.

Lemma environment_quote_round_trip_witness :
  exists t, environment_quote (JStr secret_text) = Ok t /\ unescape_value t = Some secret_text.
Proof.
  eexists. split; [exact secret_quoted|].
  destruct (proj1 (environment_quote_round_trip unescape_value unescape
    ltac:(reflexivity) ltac:(reflexivity) ltac:(intros c s [->| ->]; reflexivity)
    ltac:(intros c s Hb Hq _; cbn [unescape]; by rewrite (proj2 (Ascii.eqb_neq c double_quote) Hq), (proj2 (Ascii.eqb_neq c "\") Hb))
    (JStr secret_text) _) secret_quoted) as (s & [= <-] & _ & Hr & _). exact Hr.
Defined.

Definition given_environ (name : string) : option string :=
  if String.eqb name "PACKAGES_REGISTRY_AUTH_ENABLED" then Some " True "
  else if String.eqb name "PACKAGES_AUTH_GITHUB_CLIENT_ID" then None
  else if String.eqb name "PACKAGES_AUTH_SMTP_HOST" then Some "mail"
  else if existsb (fun f => String.eqb name ("PACKAGES_AUTH_" +:+ upper f)) REQUIRED_FIELDS then Some "value" else None.

Example built_vars :
  build_auth_vars (fun _ => None) = Ok [("packages_registry_auth_enabled", JBool false)] /\
  option_map (fun l => (length l, jget "packages_auth_smtp_host" l))
    (match build_auth_vars given_environ with Ok l => Some l | Err _ => None end) = Some (15, Some (JStr "mail")) /\
  build_auth_vars (fun name => if String.eqb name "PACKAGES_AUTH_SMTP_HOST" then Some " " else given_environ name) =
    Err (SystemExit "Missing required auth value: packages_auth_smtp_host") /\
  build_auth_vars (fun name => if String.eqb name "PACKAGES_AUTH_GOOGLE_CLIENT_ID" then Some "x" else given_environ name) =
    Err (SystemExit "Configure both google client fields or neither") /\
  build_auth_vars (fun _ => Some "yes") = Err (SystemExit "PACKAGES_REGISTRY_AUTH_ENABLED must be true or false").
Proof. repeat split; vm_compute; reflexivity. Qed.
