(* ===== verification/Builder.v ===== *)
(** * The builder of record: scripts/ocp_builder.py

    How a tag of an allowlisted repository becomes a candidate: the allowlist,
    the checkout, the checks on the source tree, two independent builds that have
    to agree, the pinned host's verification and lifecycle, the comparison with
    what was built or registered before, and the candidate with its files.

    The machine is an interface: [exec] runs a command and may change the
    machine in any way, the other operations read it.  The assembly of the
    frontend package (pnpm, copies of trees, the tar archive) is a parameter, as
    are the parsers of YAML, TOML and ZIP files and packaging's versions. *)

#[local] Set Warnings "-notation-overridden".

From S2P Require Import Prelude PyText SemVer Json JsonText Base64 Url Validate Registry ArtifactStore Candidate RegistryDb Promotion Reviewed Releases.

Open Scope string_scope.
Open Scope list_scope.

Inductive builder_exn :=
| BuilderError (msg : string)
| Verifier (e : verification_exn)
| Raised (e : exn)
| OSFailed.

Record ServiceContract := { service_id : string; service_version : json; contract : string }.

Record ModulePolicy := {
  mp_module_id : string; mp_repository : string; mp_classification : json; mp_publisher : json;
  mp_license : json; services : list ServiceContract
}.

Definition source_url (p : ModulePolicy) : string := "https://github.com/" +:+ mp_repository p.

Record SourceIdentity := {
  si_policy : ModulePolicy; si_tag : string; si_version : string; si_commit : string; epoch : Z
}.

(** ** The allowlist *)

Definition REPOSITORY_RE : re :=
  Seq (lit "oklabflensburg/") (plus (Cls (fun c => range "a" "z" c || is_ascii_digit c || Ascii.eqb c "-"))).
Definition SERVICE_ID_RE : re := plus (Cls (fun c => range "a" "z" c || is_ascii_digit c || mem_char c ".-")).
Definition is_word_char (c : ascii) : bool := is_ascii_alpha c || is_ascii_digit c || Ascii.eqb c "_".
Definition CONTRACT_RE : re :=
  Seq (plus (Cls (fun c => is_word_char c || Ascii.eqb c "."))) (Seq (lit ":") (plus (Cls is_word_char))).

Definition TAG_RE : re :=
  let number := NUMERIC_RE in
  let suffix := sep_by "." (plus (Cls is_ident_char)) in
  Seq (lit "v") (Seq number (Seq (lit ".") (Seq number (Seq (lit ".") (Seq number
    (Seq (opt (Seq (lit "-") suffix)) (opt (Seq (lit "+") suffix)))))))).

Definition building {A} (msg : string) : res builder_exn A := Err (BuilderError msg).
Definition raised {A} (r : res exn A) : res builder_exn A :=
  match r with Ok a => Ok a | Err e => Err (Raised e) end.
Definition demand (msg : string) (c : bool) : res builder_exn unit := raise_if (negb c) (BuilderError msg).

(** [set(d) == {...}] *)
Definition same_keys (d : members) (keys : list string) : bool :=
  forallb (fun k => mem k keys) (jkeys d) && forallb (fun k => mem k (jkeys d)) keys.

(** [isinstance(v, int)], and its value: a boolean is an integer. *)
Definition int_of (v : json) : option Z :=
  match v with JInt z => Some z | JBool b => Some (bool_int b) | _ => None end.

Definition load_service (module_id : string) (service : json) : res builder_exn ServiceContract :=
  let invalid_service := "invalid service contract for " +:+ module_id in
  match service with
  | JObj s =>
      demand invalid_service (same_keys s ["id"; "version"; "contract"]) ;?
      let field k := get_item k s in
      match int_of (field "version") with
      | None => building invalid_service
      | Some version =>
          demand invalid_service (negb (Z.ltb version 1)) ;?
          let? id_ok := raised (fullmatch_value SERVICE_ID_RE (field "id")) in
          demand invalid_service id_ok ;?
          let? contract_ok := raised (fullmatch_value CONTRACT_RE (field "contract")) in
          demand invalid_service contract_ok ;?
          Ok {| service_id := json_text (field "id"); service_version := field "version";
                contract := json_text (field "contract") |}
      end
  | _ => building invalid_service
  end.

Definition load_policy (module_id : string) (item : json) : res builder_exn ModulePolicy :=
  match item with
  | JObj item =>
      demand ("invalid policy for " +:+ module_id)
        (same_keys item ["repository"; "classification"; "publisher"; "license"; "host_contract"]) ;?
      let field k := get_item k item in
      match field "repository" with
      | JStr repository =>
          demand (module_id +:+ ": only first-party repositories are supported")
            (py_eq (field "classification") (JStr "first-party")) ;?
          demand (module_id +:+ ": repository is outside the first-party boundary") (fullmatch REPOSITORY_RE repository) ;?
          match field "host_contract" with
          | JObj c =>
              demand ("invalid host contract for " +:+ module_id) (same_keys c ["services"]) ;?
              let? entries := raised (iterate (get_item "services" c)) in
              let? services := traverse (load_service module_id) entries in
              Ok {| mp_module_id := module_id; mp_repository := repository; mp_classification := field "classification";
                    mp_publisher := field "publisher"; mp_license := field "license"; services := services |}
          | _ => building ("invalid host contract for " +:+ module_id)
          end
      | _ => building (module_id +:+ ": only first-party repositories are supported")
      end
  | _ => building ("invalid policy for " +:+ module_id)
  end.

Abbreviation allowlist := (gmap string ModulePolicy).

(** [config] is what the YAML parser makes of the file, if it can be read. *)
Definition load_policies (config : option json) : res builder_exn (json * allowlist) :=
  match config with
  | None => building "invalid first-party configuration"
  | Some (JObj value) =>
      demand "first-party configuration has unknown or missing fields" (same_keys value ["builder_version"; "modules"]) ;?
      let unsupported := "only ocp-builder version 1 is supported" in
      match get_item "modules" value with
      | JObj entries =>
          demand unsupported (py_eq (get_item "builder_version" value) (JInt 1)) ;?
          let? policies := traverse (fun kv => load_policy (fst kv) (snd kv)) entries in
          Ok (get_item "builder_version" value,
              list_to_map (map (fun p => (mp_module_id p, p)) (rev policies)))
      | _ => building unsupported
      end
  | Some _ => building "first-party configuration has unknown or missing fields"
  end.

(** The repositories that [validate_candidate] allows. *)
Definition allowed_sources (policies : allowlist) (module_id : string) : option string :=
  source_url <$> policies !! module_id.

Definition parse_tag (tag : string) : res builder_exn string :=
  demand "source tag must be an exact v-prefixed SemVer" (fullmatch TAG_RE tag) ;?
  Ok (removeprefix "v" tag).

(** ** The machine *)

Class Machine (W : Type) := {
  exec : list string -> string -> list (string * string) -> W -> process * W;
  read_bytes : string -> W -> option string;
  glob : string -> string -> W -> list string;
  make_dir : bool -> string -> W -> bool * W
}.

Section Machine.
Context {W : Type} `{!Machine W}.

Definition R (A : Type) : Type := W -> res builder_exn A * W.

Definition r_ret {A} (a : A) : R A := fun w => (Ok a, w).
Definition r_bind {A C} (m : R A) (k : A -> R C) : R C := fun w =>
  match m w with (Ok a, w) => k a w | (Err e, w) => (Err e, w) end.
Definition r_lift {A} (r : res builder_exn A) : R A := fun w => (r, w).
Definition r_read {A} (f : W -> A) : R A := fun w => (Ok (f w), w).

Definition check (msg : string) (c : bool) : R unit := r_lift (demand msg c).

Lemma r_bind_Ok {A C} (m : R A) (k : A -> R C) w c w' :
  r_bind m k w = (Ok c, w') -> exists a w1, m w = (Ok a, w1) /\ k a w1 = (Ok c, w').
Proof. unfold r_bind. destruct (m w) as [[a|e] w1]; [|done]. intros H. by exists a, w1. Qed.

Lemma r_lift_Ok {A} (r : res builder_exn A) w a w' : r_lift r w = (Ok a, w') <-> r = Ok a /\ w' = w.
Proof. unfold r_lift. split; [by intros [= -> ->] | by intros [-> ->]]. Qed.

Lemma demand_Ok msg c u : demand msg c = Ok u <-> c = true.
Proof. unfold demand. rewrite raise_if_Ok. by destruct c. Qed.

Lemma check_Ok msg c w u w' : check msg c w = (Ok u, w') -> c = true /\ w' = w.
Proof. unfold check. rewrite r_lift_Ok, demand_Ok. done. Qed.

Lemma r_ret_Ok {A} (a : A) w b w' : r_ret a w = (Ok b, w') -> b = a /\ w' = w.
Proof. by intros [= -> ->]. Qed.

Lemma raised_Ok {A} (r : res exn A) a : raised r = Ok a <-> r = Ok a.
Proof. unfold raised. destruct r; [|done]. split; by intros [= ->]. Qed.

End Machine.

(** One step of a computation that returned. *)
Ltac r_step H :=
  let a := fresh "a" in let w := fresh "w" in let Hs := fresh "Hs" in
  apply r_bind_Ok in H as (a & w & Hs & H);
  lazymatch type of Hs with
  | check _ _ _ = _ => apply check_Ok in Hs as [Hs ->]; clear a
  | r_lift _ _ = _ => apply r_lift_Ok in Hs as [Hs ->]
  | r_ret _ _ = _ => apply r_ret_Ok in Hs as [-> ->]
  | r_read _ _ = _ => injection Hs as <- <-
  | _ => idtac
  end; cbv beta in H.

Declare Scope builder_scope.
Delimit Scope builder_scope with builder.
Notation "'step' x '<-' m ';' k" := (r_bind m (fun x => k))
  (at level 10, x pattern, m at level 100, k at level 200) : builder_scope.
Notation "m '>>>' k" := (r_bind m (fun _ => k)) (at level 100, k at level 200, right associativity) : builder_scope.
#[local] Open Scope builder_scope.

Section Builder.
Context {W : Type} `{!Machine W}.
Context (sha256_of : string -> string) (yaml toml : string -> option json).
Context (unzip : string -> option (list (string * string))).
Context {V : Type} (parse_version : string -> option V) (same_version : V -> V -> bool) (version_le : V -> V -> bool).
Context (in_specifiers : string -> V -> option bool) (canonicalize_name : string -> string).
Context (root host_root : string) (enable_probe services_probe : string).
Context (build_frontend : string -> string -> SourceIdentity -> W -> res builder_exn (option string) * W).

Abbreviation R := (@R W).

Definition path_join (p q : string) : string := p +:+ "/" +:+ q.

Definition run_env (command : list string) (cwd : string) (env : list (string * string)) : R string := fun w =>
  let base := [("TZ", "UTC"); ("LC_ALL", "C.UTF-8"); ("PYTHONHASHSEED", "0")] in
  let '(result, w) := exec command cwd (base ++ env) w in
  if Z.eqb (returncode result) 0 then (Ok (strip (stdout result)), w)
  else
    let detail := if nonempty (strip (stderr result)) then strip (stderr result)
                  else if nonempty (strip (stdout result)) then strip (stdout result) else "no details" in
    (Err (BuilderError ("command failed (" +:+ join_on " " command +:+ "): " +:+ detail)), w).

Definition run (command : list string) (cwd : string) : R string := run_env command cwd [].

(** [path.mkdir(parents=..., exist_ok=exist_ok)] *)
Definition mkdir_ok (exist_ok : bool) (path : string) : R unit := fun w =>
  let '(made, w) := make_dir exist_ok path w in ((if made then Ok tt else Err OSFailed), w).

Definition mkdir : string -> R unit := mkdir_ok false.

(** [path.read_text()] *)
Definition read_text (path : string) : R (option string) := r_read (read_bytes path).

(** ** The source *)

(** [yaml.safe_load] of a file that must be a mapping. *)
Definition _mapping (path name : string) : R members :=
  step text <- read_text path;
  match text with
  | None => r_lift (building ("invalid " +:+ name))
  | Some text =>
      match yaml text with
      | None => r_lift (building ("invalid " +:+ name))
      | Some (JObj value) => r_ret value
      | Some _ => r_lift (building (name +:+ " must contain a mapping"))
      end
  end.

Definition manifest_of (source : string) : R members := _mapping (path_join source "module.yaml") "module.yaml".

(** [str(value)], as far as it can be a version or a package name. *)
Definition py_str (v : json) : string :=
  match v with
  | JStr s => s
  | JInt z => render_int z
  | JBool b => if b then "True" else "False"
  | JNull => "None"
  | JArr _ => "["
  | JObj _ => "{"
  end.

(** [Version(text)] *)
Definition Version (text : string) : res builder_exn V :=
  raised (of_option (ValueError "InvalidVersion") (parse_version text)).

Definition equal_versions (a b : string) : res builder_exn bool :=
  let? a := Version a in let? b := Version b in Ok (same_version a b).

(** [json.loads] of a file. *)
Definition frontend_json (path : string) : R json :=
  step text <- read_text path;
  r_lift (match text with
          | Some text => of_option (BuilderError "invalid frontend metadata") (Json.loads text)
          | None => building "invalid frontend metadata"
          end).

Definition backend_project (text : option string) : res builder_exn json :=
  match text with
  | None => building "invalid backend pyproject.toml"
  | Some text =>
      match toml text with
      | Some (JObj document) => of_option (BuilderError "invalid backend pyproject.toml") (jget "project" document)
      | _ => building "invalid backend pyproject.toml"
      end
  end.

Definition validate_frontend (source : string) (identity : SourceIdentity) (frontend : json) : R unit :=
  step package <- frontend_json (path_join source "frontend/package.json");
  step module <- frontend_json (path_join source "frontend/module.json");
  r_lift
    (let? module_id := raised (get_attr JNull "id" module) in
     let? module_version := raised (get_attr JNull "version" module) in
     demand "frontend module identity does not match module manifest"
       (py_eq module_id (JStr (mp_module_id (si_policy identity))) && String.eqb (py_str module_version) (si_version identity)) ;?
     let? package_name := raised (get_attr JNull "name" package) in
     let? declared := raised (get_attr JNull "package" frontend) in
     demand "frontend package name does not match module manifest" (py_eq package_name declared) ;?
     let? package_version := raised (get_attr JNull "version" package) in
     demand "frontend package version does not match module manifest"
       (String.eqb (py_str package_version) (si_version identity))).

Definition validate_source (source : string) (identity : SourceIdentity) : R unit :=
  step manifest <- manifest_of source;
  check "module.yaml.id does not match requested module"
    (py_eq (get_item "id" manifest) (JStr (mp_module_id (si_policy identity)))) >>>
  check "module.yaml.version does not match source tag"
    (String.eqb (py_str (get_item "version" manifest)) (si_version identity)) >>>
  check "module.yaml must declare a backend" (match get_item "backend" manifest with JObj _ => true | _ => false end) >>>
  step text <- read_text (path_join source "backend/pyproject.toml");
  step backend <- r_lift (backend_project text);
  step project_version <- r_lift (raised (get_attr JNull "version" backend));
  step same <- r_lift (equal_versions (py_str project_version) (si_version identity));
  check "backend project version does not match module manifest" same >>>
  step declared <- r_lift (raised (get_attr JNull "package" (get_item "backend" manifest)));
  step name <- r_lift (raised (get_attr JNull "name" backend));
  check "backend project name does not match module manifest"
    (String.eqb (canonicalize_name (py_str name)) (canonicalize_name (py_str declared))) >>>
  match get_item "frontend" manifest with
  | JNull => r_ret tt
  | frontend => validate_frontend source identity frontend
  end.

Definition prepare_checkout (policy : ModulePolicy) (tag destination : string) : R SourceIdentity :=
  step version <- r_lift (parse_tag tag);
  mkdir destination >>>
  run ["git"; "init"; "--quiet"] destination >>>
  run ["git"; "remote"; "add"; "origin"; source_url policy +:+ ".git"] destination >>>
  run ["git"; "-c"; "protocol.file.allow=never"; "fetch"; "--quiet"; "--depth=1"; "origin"; "refs/tags/" +:+ tag]
    destination >>>
  step commit <- run ["git"; "rev-parse"; "FETCH_HEAD^{commit}"] destination;
  check "source tag did not resolve to a full commit" (fullmatch BUILDER_COMMIT_RE commit) >>>
  run ["git"; "checkout"; "--quiet"; "--detach"; commit] destination >>>
  step actual <- run ["git"; "rev-parse"; "HEAD"] destination;
  check "checkout does not match the commit resolved from the tag" (String.eqb actual commit) >>>
  step epoch_text <- run ["git"; "show"; "-s"; "--format=%ct"; commit] destination;
  step epoch <- r_lift (raised (of_option (ValueError "invalid literal for int()") (int_text epoch_text)));
  let identity := {| si_policy := policy; si_tag := tag; si_version := version; si_commit := commit; epoch := epoch |} in
  validate_source destination identity >>>
  r_ret identity.

(** ** One build *)

(** [line.split(": ", 1)], when the separator is there. *)
Fixpoint split_field (line : string) : option (string * string) :=
  match line with
  | String ":" (String " " rest) => Some ("", rest)
  | String c line => option_map (fun kv => (String c (fst kv), snd kv)) (split_field line)
  | "" => None
  end.

Definition metadata_field (key : string) (metadata : string) : string :=
  let fields := omap split_field (splitlines metadata) in
  match List.find (fun kv => String.eqb (fst kv) key) (rev fields) with Some kv => snd kv | None => "" end.

Definition _wheel_identity (wheel : string) : res builder_exn (string * string) :=
  match unzip wheel with
  | None => Err OSFailed
  | Some entries =>
      match List.filter (fun e => endswith ".dist-info/METADATA" (fst e)) entries with
      | [(_, metadata)] => Ok (metadata_field "Name" metadata, metadata_field "Version" metadata)
      | _ => building "backend wheel must contain exactly one METADATA file"
      end
  end.

Definition read_file (path : string) : R string := fun w =>
  (of_option OSFailed (read_bytes path w), w).

(** [value["key"]], for a value of any type. *)
Definition member (key : string) (value : json) : R json := r_lift (raised (item key value)).

Definition build_backend (source output : string) (identity : SourceIdentity) : R string :=
  let wheel_dir := path_join output "backend" in
  mkdir wheel_dir >>>
  run_env ["uv"; "build"; "--python"; "3.12.14"; "--wheel"; "--clear"; "--out-dir"; wheel_dir]
    (path_join source "backend") [("SOURCE_DATE_EPOCH", render_int (epoch identity))] >>>
  step wheels <- r_read (glob wheel_dir "*.whl");
  match wheels with
  | [wheel] =>
      step manifest <- manifest_of source;
      step bytes <- read_file wheel;
      step identified <- r_lift (_wheel_identity bytes);
      step backend <- member "backend" (JObj manifest);
      step package <- member "package" backend;
      check "built wheel package does not match module manifest"
        (String.eqb (canonicalize_name (fst identified)) (canonicalize_name (py_str package))) >>>
      step same <- r_lift (equal_versions (snd identified) (si_version identity));
      check "built wheel version does not match module manifest" same >>>
      r_ret wheel
  | _ => r_lift (building "backend build must produce exactly one wheel")
  end.

Definition host_backend : string := path_join host_root "backend".
Definition host_python : string := path_join host_root "backend/.venv/bin/python".

Definition assemble_bundle (source output : string) (identity : SourceIdentity) (backend : string)
    (frontend : option string) : R string :=
  let policy := si_policy identity in
  let name := mp_module_id policy in
  step installed <- r_read (fun w => bool_decide (is_Some (read_bytes host_python w)));
  check "pinned host verifier environment is not installed" installed >>>
  let bundle := path_join output (name +:+ "-" +:+ si_version identity +:+ ".ocp") in
  run_env
    ([host_python; "-m"; "app.cli.modules"; "bundle"; "build"; "--manifest"; path_join source "module.yaml";
      "--backend"; backend]
     ++ match frontend with Some f => ["--frontend"; f] | None => [] end
     ++ ["--publisher"; py_str (mp_publisher policy);
         "--source-reference"; "releases/" +:+ name +:+ "/" +:+ si_version identity;
         "--source-repository"; source_url policy; "--source-commit"; si_commit identity; "--source-tag"; si_tag identity;
         "--build-workflow"; "package-hub/ocp-builder-v1"; "--license"; py_str (mp_license policy); "--output"; bundle])
    host_backend [("SOURCE_DATE_EPOCH", render_int (epoch identity))] >>>
  step built <- r_read (fun w => bool_decide (is_Some (read_bytes bundle w)));
  check "host bundler did not produce the requested .ocp" built >>>
  r_ret bundle.

Definition build_once (source output : string) (identity : SourceIdentity) : R string :=
  step backend <- build_backend source output identity;
  step frontend <- build_frontend source output identity;
  assemble_bundle source output identity backend frontend.

(** [sha256(path)] *)
Definition sha256_file (path : string) : R string :=
  step bytes <- read_file path; r_ret (sha256_of bytes).

(** A failing command gives "unknown". *)
Definition builder_commit : R string := fun w =>
  match run ["git"; "rev-parse"; "HEAD"] root w with
  | (Ok value, w) => (Ok (if fullmatch BUILDER_COMMIT_RE value then value else "unknown"), w)
  | (Err (BuilderError _), w) => (Ok "unknown", w)
  | (Err e, w) => (Err e, w)
  end.

(** ** The lifecycle on the host *)

(** [value is False] *)
Definition is_false (v : option json) : bool := match v with Some (JBool false) => true | _ => false end.

(** The last line that is a JSON object. *)
Fixpoint last_object (lines : list string) : res builder_exn members :=
  match lines with
  | [] => building "host lifecycle command returned no JSON object"
  | line :: lines =>
      if startswith "{" line then
        match Json.loads line with
        | None => Err (Raised (ValueError "JSONDecodeError"))
        | Some (JObj value) => Ok value
        | Some _ => last_object lines
        end
      else last_object lines
  end.

Definition _cli_json (state_root : string) (environment : list (string * string)) (arguments : list string) : R members :=
  step output <- run_env ([host_python; "-m"; "app.cli.modules"; "--root"; state_root] ++ arguments) host_backend environment;
  r_lift (last_object (rev (splitlines output))).

Section Dependencies.
(** What [load_registry] gives. *)
Context (registry : res exn (list module)).

Definition compatible (constraint : string) (r : release) : res builder_exn (option (V * release)) :=
  let? v := Version (version r) in
  let? inside := raised (of_option (ValueError "InvalidSpecifier") (in_specifiers constraint v)) in
  Ok (if inside then Some (v, r) else None).

Definition dependency_candidate (modules : list module) (module_id : string) (constraint : json)
    : res builder_exn ReleaseCandidate :=
  match dict_get id module_id modules with
  | None => building ("host-contract dependency " +:+ module_id +:+ " is not registered")
  | Some m =>
      match constraint with
      | JStr constraint =>
          let? found := traverse (compatible constraint) (versions m) in
          match max_by (fun x y => version_le (fst x) (fst y)) (omap (fun o => o) found) with
          | None => building ("no registered " +:+ module_id +:+ " release satisfies " +:+ constraint)
          | Some (_, r) => Ok (candidate_of m r)
          end
      | _ => Err (Raised TypeError)
      end
  end.

Definition _dependency_candidates (manifest : members) : res builder_exn (list ReleaseCandidate) :=
  let? modules := raised registry in
  let? requires := raised (getitem "requires" manifest) in
  let? dependencies := raised (get_attr (JObj []) "modules" requires) in
  match dependencies with
  | JObj l => traverse (fun kv => dependency_candidate modules (fst kv) (snd kv)) l
  | _ => Err (Raised NoAttribute)
  end.

Definition _bundle_has_migrations (bundle : string) : res builder_exn bool :=
  let broken := building "cannot inspect dependency bundle manifest" in
  match unzip bundle with
  | None => broken
  | Some entries =>
      match List.find (fun e => String.eqb (fst e) "module.yaml") (rev entries) with
      | None => broken
      | Some (_, text) =>
          match yaml text with
          | None => broken
          | Some manifest =>
              let? persistence := match manifest with JObj l => Ok (default (JObj []) (jget "persistence" l)) | _ => Ok (JObj []) end in
              let? migrations := raised (get_attr JNull "migrations" persistence) in
              Ok (match migrations with JBool true => true | _ => false end)
          end
      end
  end.

Definition _enable_module (state_root : string) (environment : list (string * string)) (module_id : string)
    (has_migrations : bool) : R unit :=
  if has_migrations then _cli_json state_root environment ["enable"; module_id] >>> r_ret tt
  else run_env [host_python; "-c"; enable_probe; state_root; module_id] host_backend environment >>> r_ret tt.

Definition service_json (s : ServiceContract) : json :=
  JObj [("id", JStr (service_id s)); ("version", service_version s); ("contract", JStr (contract s))].

(** [json.dumps(contracts)] is one argument of the probe. *)
Definition _verify_public_services (environment : list (string * string)) (policy : ModulePolicy)
    (dumps : json -> string) : R unit :=
  match services policy with
  | [] => r_ret tt
  | l => run_env [host_python; "-c"; services_probe; mp_module_id policy; dumps (JArr (map service_json l))]
           host_backend environment >>> r_ret tt
  end.

Context (dumps : json -> string) (nets : nat -> network).

(** The download of a dependency, into the state directory. *)
Definition install_dependency (n : nat) (state_root : string) (environment : list (string * string))
    (dependency : ReleaseCandidate) : R unit :=
  let d := download_artifact sha256_of (nets n) dependency None DEFAULT_TIMEOUT Releases.MAX_ARTIFACT_BYTES in
  let path := path_join state_root (rc_module_id dependency +:+ "-" +:+ rc_version dependency +:+ ".ocp") in
  step actual <- r_lift (match result_ d with Ok a => Ok a | Err e => Err (Verifier e) end);
  check ("host-contract dependency " +:+ identity dependency +:+ " digest mismatch")
    (String.eqb actual (expected_sha256 dependency)) >>>
  _cli_json state_root environment ["verify"; path] >>>
  step installed <- _cli_json state_root environment ["install"; path];
  check "host installed a dependency as enabled" (is_false (jget "enabled" installed)) >>>
  step has_migrations <- r_lift (_bundle_has_migrations (default "" (file d)));
  _enable_module state_root environment (rc_module_id dependency) has_migrations.

Fixpoint install_dependencies (n : nat) (state_root : string) (environment : list (string * string))
    (dependencies : list ReleaseCandidate) : R unit :=
  match dependencies with
  | [] => r_ret tt
  | d :: dependencies =>
      install_dependency n state_root environment d >>>
      install_dependencies (S n) state_root environment dependencies
  end.

(** [name in enabled.get(key, "").split(",")] *)
Definition listed (name key : string) (enabled : members) : res builder_exn bool :=
  match default (JStr "") (jget key enabled) with
  | JStr s => Ok (mem name (split_on "," s))
  | _ => Err (Raised NoAttribute)
  end.

Definition lifecycle_environment (state_root : string) : list (string * string) :=
  [("ENABLED_MODULES", ""); ("OCP_BACKEND_MODULES", ""); ("OCP_ENABLED_INSTALLED_BACKEND_PATHS", "");
   ("OCP_EXCLUDED_BUILTIN_MODULES", ""); ("OCP_FRONTEND_MODULES", ""); ("OCP_INSTALLED_FRONTEND_MODULE_ROOTS", "");
   ("OCP_MODULE_INSTALL_ROOT", state_root)].

(** [item.get("id") == name] for the modules of the inventory. *)
Definition inventory_of (name : string) (inventory : members) : res builder_exn (list json) :=
  let? modules := raised (iterate (default (JArr []) (jget "modules" inventory))) in
  let? marked := raised (traverse (fun m => let? i := get_attr JNull "id" m in Ok (py_eq i (JStr name), m)) modules) in
  Ok (map snd (List.filter fst marked)).

(** [manifest.get("persistence", {}).get("migrations") is True] *)
Definition manifest_migrations (manifest : members) : res builder_exn bool :=
  let? migrations := raised (get_attr JNull "migrations" (default (JObj []) (jget "persistence" manifest))) in
  Ok (match migrations with JBool true => true | _ => false end).

(** [state_root] is the temporary directory. *)
Definition run_host_lifecycle (artifact source : string) (identity : SourceIdentity) (state_root : string) : R unit :=
  let policy := si_policy identity in
  let name := mp_module_id policy in
  let environment := lifecycle_environment state_root in
  let cli := _cli_json state_root environment in
  step manifest <- manifest_of source;
  step dependencies <- r_lift (_dependency_candidates manifest);
  install_dependencies 0 state_root environment dependencies >>>
  step verified <- cli ["verify"; artifact];
  check "host verifier returned the wrong bundle identity"
    (py_eq (get_item "module_id" verified) (JStr name) && py_eq (get_item "version" verified) (JStr (si_version identity))) >>>
  step installed <- cli ["install"; artifact];
  check "host must install a candidate as disabled" (is_false (jget "enabled" installed)) >>>
  step inventory <- cli ["list"; "--format"; "json"];
  step matching <- r_lift (inventory_of name inventory);
  check "disabled candidate is missing from host inventory"
    (match matching with [JObj m] => is_false (jget "enabled" m) | _ => false end) >>>
  step has_migrations <- r_lift (manifest_migrations manifest);
  _enable_module state_root environment name has_migrations >>>
  step enabled <- cli ["env"; "--format"; "json"];
  step on <- r_lift (listed name "ENABLED_MODULES" enabled);
  check "enabled candidate is missing from host discovery environment" on >>>
  step backend_on <- r_lift (if truthy (get_item "backend" manifest) then listed name "OCP_BACKEND_MODULES" enabled else Ok true);
  check "enabled backend is missing from host discovery" backend_on >>>
  step frontend_on <- r_lift (if truthy (get_item "frontend" manifest) then listed name "OCP_FRONTEND_MODULES" enabled else Ok true);
  check "enabled frontend is missing from host discovery" frontend_on >>>
  _verify_public_services (environment ++ map (fun kv => (fst kv, py_str (snd kv))) enabled) policy dumps >>>
  cli ["disable"; name] >>>
  step disabled <- cli ["env"; "--format"; "json"];
  step still_on <- r_lift (listed name "ENABLED_MODULES" disabled);
  check "disabled candidate remains enabled" (negb still_on) >>>
  _enable_module state_root environment name has_migrations.

End Dependencies.

(** ** The candidate *)

(** [d[k] = v]: in place, or at the end. *)
Fixpoint dict_set (k : string) (v : json) (d : members) : members :=
  match d with
  | [] => [(k, v)]
  | (k', w) :: d => if String.eqb k' k then (k', v) :: d else (k', w) :: dict_set k v d
  end.

(** [{**d, **e}] *)
Definition dict_update (d e : members) : members := foldl (fun d kv => dict_set (fst kv) (snd kv) d) d e.

(** [manifest] is the mapping of module.yaml, [builder_commit] the result of that
    call; both come before [requires] is looked up. *)
Definition create_candidate (manifest : members) (identity : SourceIdentity) (digest : string) (builder_version : json)
    (builder_commit run_id planned_channel : string) : res builder_exn members :=
  let policy := si_policy identity in
  let? requires := raised (getitem "requires" manifest) in
  Ok [("schema_version", JInt 1); ("module_id", JStr (mp_module_id policy)); ("version", JStr (si_version identity));
      ("classification", mp_classification policy); ("source_repository", JStr (source_url policy));
      ("source_tag", JStr (si_tag identity)); ("source_commit", JStr (si_commit identity));
      ("builder_version", builder_version); ("builder_commit", JStr builder_commit); ("bundle_format_version", JInt 1);
      ("bundle_sha256", JStr digest);
      ("artifact_candidate", JStr ("github-actions://run/" +:+ run_id +:+ "/" +:+ mp_module_id policy +:+ "-"
                                   +:+ si_version identity));
      ("reproducible", JBool true); ("host_contract", JStr "passed"); ("planned_channel", JStr planned_channel);
      ("requires", requires)].

Definition check_registry_immutability (registry : res exn (list module)) (identity : SourceIdentity) (digest : string)
    : res builder_exn string :=
  let? modules := raised registry in
  match dict_get id (mp_module_id (si_policy identity)) modules with
  | None => building "allowlisted module has no reviewed Registry identity"
  | Some m =>
      match List.find (fun r => String.eqb (version r) (si_version identity)) (versions m) with
      | None => Ok "new"
      | Some r =>
          demand "existing Registry version has different immutable provenance"
            (String.eqb (source_commit r) (si_commit identity) && String.eqb (sha256 (rel_artifact r)) digest) ;?
          Ok "already-registered"
      end
  end.

(** A candidate that exists, here or on the remote. *)
Definition check_record (identity : SourceIdentity) (digest : string) (version_ : json) (record : json)
    : res builder_exn unit :=
  let field k := raised (get_attr JNull k record) in
  let? module_id := field "module_id" in
  let? its_version := field "version" in
  let? repository := field "source_repository" in
  demand "existing candidate has different immutable identity"
    (py_eq module_id (JStr (mp_module_id (si_policy identity))) && py_eq its_version (JStr (si_version identity))
     && py_eq repository (JStr (source_url (si_policy identity)))) ;?
  let? commit := field "source_commit" in
  let? built_by := field "builder_version" in
  let? its_digest := field "bundle_sha256" in
  demand "existing candidate has different immutable provenance/digest"
    (py_eq commit (JStr (si_commit identity)) && py_eq built_by version_ && py_eq its_digest (JStr digest)).

Definition loads (text : string) : res builder_exn json :=
  raised (of_option (ValueError "JSONDecodeError") (Json.loads text)).

(** The record of a remote branch, when it has the file. *)
Definition remote_record (path ref : string) : R (list json) :=
  step remote <- run ["git"; "ls-remote"; "--heads"; "origin"; ref] root;
  match split_ws remote with
  | [] => r_ret []
  | commit :: _ =>
      run ["git"; "fetch"; "--quiet"; "--no-tags"; "origin"; commit] root >>>
      step files <- run ["git"; "ls-tree"; "--name-only"; commit; "--"; path] root;
      if nonempty files then
        step text <- run ["git"; "show"; commit +:+ ":" +:+ path] root;
        step record <- r_lift (loads text);
        r_ret [record]
      else r_ret []
  end.

Definition local_record (path : string) : R (list json) :=
  step text <- read_text (path_join root path);
  match text with
  | None => r_ret []
  | Some text => step record <- r_lift (loads text); r_ret [record]
  end.

Definition candidate_records (identity : SourceIdentity) : R (list json) :=
  let name := mp_module_id (si_policy identity) in
  let path := provenance_path name (si_version identity) in
  step local <- local_record path;
  step main <- remote_record path "refs/heads/main";
  step pending <- remote_record path ("refs/heads/automation/" +:+ name +:+ "-" +:+ si_tag identity);
  r_ret (local ++ main ++ pending).

Definition check_candidate_history (identity : SourceIdentity) (digest : string) (version_ : json) : R unit :=
  step records <- candidate_records identity;
  r_lift (each (check_record identity digest version_) records).

(** ** The environment *)

Section Environment.
(** builder-environment.json, and what the standard library reports. *)
Context (policy : members) (python_version zlib_version system machine runner_image : string).

Definition check_tool (kv : string * json) : res builder_exn unit :=
  let? expected := raised (getitem (fst kv) policy) in
  demand ("builder environment mismatch: " +:+ fst kv +:+ " " +:+ py_str (snd kv) +:+ " != " +:+ py_str expected)
    (py_eq expected (snd kv)).

Definition lockfile (source path : string) : R members :=
  step there <- r_read (fun w => bool_decide (is_Some (read_bytes (path_join source path) w)));
  if there : bool then step digest <- sha256_file (path_join source path); r_ret [(path, JStr digest)] else r_ret [].

(** The tools of the environment and their versions. *)
Definition tool_versions (source : string) : R members :=
  step uv <- run ["uv"; "--version"] root;
  step uv <- r_lift (raised (of_option IndexError (nth_error (split_ws uv) 1)));
  step node <- run ["node"; "--version"] root;
  step host_version <- run [host_python; "-c"; "import platform; print(platform.python_version())"] root;
  step expected <- member "python" (JObj policy);
  check "Host Python does not match builder environment" (py_eq expected (JStr host_version)) >>>
  step frontend <- r_read (fun w => bool_decide (is_Some (read_bytes (path_join source "frontend/package.json") w)));
  step pnpm <- (if frontend : bool
                then step v <- run ["corepack"; "pnpm"; "--version"] (path_join source "frontend"); r_ret [("pnpm", JStr v)]
                else r_ret []);
  let versions := [("python", JStr python_version); ("uv", JStr uv); ("node", JStr (removeprefix "v" node))] ++ pnpm in
  r_lift (each check_tool versions) >>>
  r_ret versions.

Definition collect_environment (source : string) : R members :=
  step versions <- tool_versions source;
  step host_commit <- run ["git"; "rev-parse"; "HEAD"] host_root;
  step built_by <- builder_commit;
  step backend_lock <- lockfile source "backend/uv.lock";
  step frontend_lock <- lockfile source "frontend/pnpm-lock.yaml";
  r_ret (dict_update (dict_update policy versions)
    [("host_commit", JStr host_commit); ("builder_commit", JStr built_by); ("bundle_format_version", JInt 1);
     ("zlib", JStr zlib_version); ("os", JStr system); ("architecture", JStr machine);
     ("runner_image", JStr runner_image); ("lockfiles", JObj (backend_lock ++ frontend_lock))]).

End Environment.

(** ** [orchestrate] *)

(** The directory of the candidate: the bundle, its checksum, the provenance. *)
Record candidate_dir := { bundle_file : string; bundle_content : string; checksum_text : string; provenance : string }.

Section Orchestrate.
Context (config : option json) (policy : members) (python_version zlib_version system machine runner_image : string).
Context (registry : W -> res exn (list module)) (dumps : json -> string) (nets : nat -> network).
(** The pinned checkout, and the host's verification of a file. *)
Context (host : W -> checkout) (cli : W -> option string -> string -> option (process * bool)).
Context (lifecycle_state : string).

Definition verify_host (f : W -> res verification_exn unit) : R unit := fun w =>
  (match f w with Ok _ => Ok tt | Err e => Err (Verifier e) end, w).

Definition same_source_identity (a b : SourceIdentity) : bool :=
  String.eqb (si_tag a) (si_tag b) && String.eqb (si_version a) (si_version b)
  && String.eqb (si_commit a) (si_commit b) && Z.eqb (epoch a) (epoch b).

(** Both builds; the first bundle and its digest. *)
Definition reproduce (output first_source second_source : string) (identity : SourceIdentity) : R (string * string) :=
  step first <- build_once first_source (path_join output "build-a") identity;
  step second <- build_once second_source (path_join output "build-b") identity;
  step first_digest <- sha256_file first;
  step second_digest <- sha256_file second;
  check ("non-reproducible builds: " +:+ first_digest +:+ " != " +:+ second_digest)
    (String.eqb first_digest second_digest) >>>
  r_ret (first, first_digest).

Definition placeholder_release (module_id : string) (identity : SourceIdentity) (digest : string) : ReleaseCandidate :=
  {| rc_module_id := module_id; rc_version := si_version identity; rc_channel := "beta";
     artifact_url := "https://packages.stadtplaner.oklabflensburg.de/placeholder.ocp"; expected_sha256 := digest;
     rc_classification := "first-party" |}.

(** From the allowlist to the two checkouts. *)
Definition resolve_source (policy_of : ModulePolicy) (tag output : string) : R (SourceIdentity * members) :=
  verify_host (fun w => validate_host_verifier_checkout (host w)) >>>
  mkdir_ok true output >>>
  step identity <- prepare_checkout policy_of tag (path_join output "source");
  step environment <- collect_environment policy python_version zlib_version system machine runner_image
                        (path_join output "source");
  step second <- prepare_checkout policy_of tag (path_join output "source-second");
  check "independent source resolutions disagree" (same_source_identity identity second) >>>
  r_ret (identity, environment).

(** The gates on the first bundle, and its bytes. *)
Definition pass_gates (module_id output bundle digest : string) (identity : SourceIdentity) (builder_version : json)
    : R string :=
  check_candidate_history identity digest builder_version >>>
  mkdir (path_join output "candidate") >>>
  step bytes <- read_file bundle;
  verify_host (fun w => run_host_verifier (cli w) (placeholder_release module_id identity digest) bytes (host w)) >>>
  step modules <- r_read registry;
  run_host_lifecycle modules dumps nets (path_join output ("candidate/" +:+ Registry.path_name bundle)) (path_join output "source")
    identity lifecycle_state >>>
  r_ret bytes.

(** [json.dumps] of the candidate on the command line is the result. *)
Definition orchestrate (module_id tag output run_id planned_channel : string) : R (members * candidate_dir) :=
  step loaded <- r_lift (load_policies config);
  let '(builder_version, policies) := loaded in
  step allowed <- r_lift (of_option (BuilderError ("unknown or non-allowlisted module " +:+ dquote module_id))
                            (policies !! module_id));
  step resolved <- resolve_source allowed tag output;
  let '(identity, environment) := resolved in
  step built <- reproduce output (path_join output "source") (path_join output "source-second") identity;
  let '(bundle, digest) := built in
  step bytes <- pass_gates module_id output bundle digest identity builder_version;
  check "planned channel must be stable, beta, or nightly" (mem planned_channel ["stable"; "beta"; "nightly"]) >>>
  step manifest <- manifest_of (path_join output "source");
  step built_by <- builder_commit;
  step candidate <- r_lift (create_candidate manifest identity digest builder_version built_by run_id planned_channel);
  step commit <- member "builder_commit" (JObj environment);
  step modules <- r_read registry;
  step registered <- r_lift (check_registry_immutability modules identity digest);
  let candidate := dict_set "build_environment" (JObj environment)
      (dict_set "registry_status" (JStr registered) (dict_set "builder_commit" commit candidate)) in
  let name := Registry.path_name bundle in
  r_ret (candidate,
         {| bundle_file := name; bundle_content := bytes; checksum_text := digest +:+ "  " +:+ name +:+ newline;
            provenance := canonical_json (JObj candidate) |}).

(** The command: the candidate it prints, the usage error, or a traceback. *)
Inductive builder_ending := CandidatePrinted (candidate : members) | ParserError | UncaughtError.

Definition builder_main (module_id tag output run_id channel_ : string) (w : W) : builder_ending :=
  if negb (mem channel_ ["stable"; "beta"; "nightly"]) then ParserError
  else
    match fst (orchestrate module_id tag output run_id channel_ w) with
    | Ok (candidate, _) => CandidatePrinted candidate
    | Err (BuilderError _ | Raised (RegistryValidationError _ | ValueError _)
           | Verifier (RegistryError (RegistryValidationError _ | ValueError _))) => ParserError
    | Err (Verifier (Escaped cls)) => if String.eqb cls "ValueError" then ParserError else UncaughtError
    | Err _ => UncaughtError
    end.

End Orchestrate.

(** ** Facts: dictionaries *)

Lemma jget_dict_set k k' v d : jget k (dict_set k' v d) = if String.eqb k' k then Some v else jget k d.
Proof.
  induction d as [|[k1 w] d IH]; simpl; [by destruct (String.eqb k' k)|].
  destruct (String.eqb_spec k1 k') as [->|Hn]; simpl; [by destruct (String.eqb k' k)|].
  rewrite IH. destruct (String.eqb_spec k1 k) as [->|]; [|done]. by destruct (String.eqb_spec k' k) as [->|].
Qed.

Lemma jget_None k (d : members) : k ∉ jkeys d -> jget k d = None.
Proof.
  induction d as [|[k' v] d IH]; [done|]. unfold jkeys. simpl. intros Hn. destruct (String.eqb_spec k' k) as [->|Hne].
  - destruct Hn. by left.
  - apply IH. intros Hin. apply Hn. by right.
Qed.

Lemma jget_dict_update k (e : members) : forall d, NoDup (jkeys e) ->
  jget k (dict_update d e) = match jget k e with Some v => Some v | None => jget k d end.
Proof.
  induction e as [|[k' v] e IH]; intros d Hnd; [done|]. apply NoDup_cons in Hnd as [Hni Hnd]. simpl.
  unfold dict_update in *. rewrite IH by done. rewrite jget_dict_set. simpl.
  destruct (String.eqb_spec k' k) as [->|Hne]; [|done]. by rewrite jget_None.
Qed.

Lemma get_item_Some k d v : jget k d = Some v -> get_item k d = v.
Proof. unfold get_item. by intros ->. Qed.

(** ** Facts: the allowlist *)

Lemma load_policy_Ok module_id it p :
  load_policy module_id it = Ok p ->
  mp_module_id p = module_id /\ mp_classification p = JStr "first-party" /\ fullmatch REPOSITORY_RE (mp_repository p) = true.
Proof.
  destruct it as [| | | | |l]; try done. unfold load_policy. intros H.
  apply res_bind_Ok in H as (? & _ & H). destruct (get_item "repository" l) as [| | |repository| |]; try done.
  apply res_bind_Ok in H as (? & Hc%demand_Ok%py_eq_str_r & H). apply res_bind_Ok in H as (? & Hr%demand_Ok & H).
  destruct (get_item "host_contract" l) as [| | | | |c]; try done. apply res_bind_Ok in H as (? & _ & H).
  apply res_bind_Ok in H as (? & _ & H). apply res_bind_Ok in H as (? & _ & [= <-]). done.
Qed.

Lemma load_policies_Ok config_ bv policies module_id p :
  load_policies config_ = Ok (bv, policies) -> policies !! module_id = Some p ->
  py_eq bv (JInt 1) = true /\ mp_module_id p = module_id /\ mp_classification p = JStr "first-party" /\
  fullmatch REPOSITORY_RE (mp_repository p) = true.
Proof.
  destruct config_ as [[| | | | |value]|]; try done. unfold load_policies. intros H.
  apply res_bind_Ok in H as (? & _ & H). destruct (get_item "modules" value) as [| | | | |entries]; try done.
  apply res_bind_Ok in H as (? & Hb%demand_Ok & H). apply res_bind_Ok in H as (ps & Hps & [= <- <-]).
  intros Hp. split; [done|]. apply elem_of_list_to_map_2, list_elem_of_fmap in Hp as (p' & [= -> ->] & Hin).
  rewrite list_elem_of_In, <- in_rev, <- list_elem_of_In in Hin.
  apply traverse_Ok in Hps. apply list_elem_of_lookup in Hin as [i Hi].
  destruct (Forall2_lookup_r _ _ _ _ _ Hps Hi) as ([k it] & _ & Hl). apply load_policy_Ok in Hl. simpl in Hl.
  destruct Hl as (-> & Hc & Hr). done.
Qed.

(** ** Facts: the source *)

Lemma parse_tag_Ok tag v : parse_tag tag = Ok v -> tag = "v" +:+ v.
Proof.
  unfold parse_tag. intros H. apply res_bind_Ok in H as (? & Ht%demand_Ok & [= <-]).
  apply removeprefix_app. apply fullmatch_spec, matches_seq_str in Ht as (s1 & s2 & -> & Hv & _).
  apply matches_lit_str in Hv as ->. apply startswith_app.
Qed.

Lemma prepare_checkout_Ok policy tag destination w i w' :
  prepare_checkout policy tag destination w = (Ok i, w') ->
  si_policy i = policy /\ si_tag i = tag /\ tag = "v" +:+ si_version i /\ fullmatch BUILDER_COMMIT_RE (si_commit i) = true.
Proof.
  unfold prepare_checkout. intros H. r_step H. apply parse_tag_Ok in Hs. do 5 r_step H. do 4 r_step H. do 3 r_step H.
  apply r_ret_Ok in H as [-> _]. simpl. done.
Qed.

(** ** Facts: the environment *)

Lemma builder_commit_Ok w c w' :
  builder_commit w = (Ok c, w') -> c = "unknown" \/ fullmatch BUILDER_COMMIT_RE c = true.
Proof.
  unfold builder_commit. destruct (run _ _ w) as [[v|[]] w1]; try done; intros [= <- <-]; [|by left].
  destruct (fullmatch BUILDER_COMMIT_RE v) eqn:Hv; [by right|by left].
Qed.

Section EnvironmentFacts.
Context (policy : members) (python_version zlib_version system machine runner_image : string).

(** The names the builder adds to the policy. *)
Definition computed_fields : list string :=
  ["host_commit"; "builder_commit"; "bundle_format_version"; "zlib"; "os"; "architecture"; "runner_image"; "lockfiles"].

Hypothesis policy_distinct : NoDup (jkeys policy).
Hypothesis policy_strings : forall k v, jget k policy = Some v -> exists s, v = JStr s.
Hypothesis policy_plain : forall k, k ∈ computed_fields -> k ∉ jkeys policy.

Lemma check_tool_Ok kv : check_tool policy kv = Ok tt -> exists e, jget (fst kv) policy = Some e /\ py_eq e (snd kv) = true.
Proof.
  unfold check_tool. intros H. apply res_bind_Ok in H as (e & He%raised_Ok%getitem_Ok & H%demand_Ok). by exists e.
Qed.

Lemma tool_versions_Ok source w vs w' :
  tool_versions policy python_version source w = (Ok vs, w') ->
  NoDup (jkeys vs) /\ forall k v, jget k vs = Some v -> jget k policy = Some v.
Proof.
  unfold tool_versions. intros H. do 5 r_step H. do 4 r_step H. apply r_ret_Ok in H as [-> _].
  match goal with H : (if _ then _ else _) _ = _ |- _ => rename H into Hpnpm end.
  match goal with H : each _ _ = _ |- _ => rename H into Hall end.
  assert (Hp : exists l, a4 = map (fun s => ("pnpm", JStr s)) l /\ (length l <= 1)%nat).
  { destruct (bool_decide _); [|apply r_ret_Ok in Hpnpm as [-> _]; exists []; simpl; split; [done|lia]].
    r_step Hpnpm. apply r_ret_Ok in Hpnpm as [-> _]. exists [a6]. simpl. split; [done|lia]. }
  destruct Hp as (l & -> & Hl). destruct a5. apply each_Ok in Hall. rewrite Forall_forall in Hall.
  assert (Hnd : NoDup (jkeys ([("python", JStr python_version); ("uv", JStr a0); ("node", JStr (removeprefix "v" a1))]
    ++ map (fun s => ("pnpm", JStr s)) l))).
  { destruct l as [|x [|y l]]; simpl in *; [| |lia]; apply (bool_decide_unpack _); vm_compute; exact I. }
  split; [exact Hnd|]. intros k v Hk. apply jget_elem in Hk; [|exact Hnd]. apply Hall, check_tool_Ok in Hk as Ht.
  destruct Ht as (e & He & Heq). simpl in He, Heq. destruct (policy_strings _ _ He) as (s & ->). apply py_eq_str in Heq.
  by subst v.
Qed.

Lemma collect_environment_Ok source w env w' :
  collect_environment policy python_version zlib_version system machine runner_image source w = (Ok env, w') ->
  (forall k v, jget k policy = Some v -> jget k env = Some v) /\
  exists built_by host_commit w1 w2,
    jget "builder_commit" env = Some (JStr built_by) /\ (built_by = "unknown" \/ fullmatch BUILDER_COMMIT_RE built_by = true) /\
    jget "host_commit" env = Some (JStr host_commit) /\ run ["git"; "rev-parse"; "HEAD"] host_root w1 = (Ok host_commit, w2).
Proof.
  unfold collect_environment. intros H. do 5 r_step H. apply r_ret_Ok in H as [-> _].
  apply tool_versions_Ok in Hs as [Hnd Hvs]. apply builder_commit_Ok in Hs1 as Hb.
  set (extra := [("host_commit", JStr a0); _; _; _; _; _; _; _]).
  assert (Hx : NoDup (jkeys extra)) by (apply (bool_decide_unpack _); vm_compute; exact I). split.
  - intros k v Hk. rewrite jget_dict_update by exact Hx. rewrite jget_None.
    + rewrite jget_dict_update by exact Hnd. destruct (jget k a) as [v'|] eqn:Ha; [|exact Hk].
      apply Hvs in Ha. congruence.
    + intros Hin. apply (policy_plain k); [exact Hin|]. apply jget_elem in Hk; [|exact policy_distinct].
      unfold jkeys. apply list_elem_of_fmap. by exists (k, v).
  - exists a1, a0, w0, w1. rewrite (jget_dict_update "builder_commit"), (jget_dict_update "host_commit") by exact Hx.
    split_and!; [reflexivity | exact Hb | reflexivity | exact Hs0].
Qed.

End EnvironmentFacts.

(** ** Facts: a run that returns a candidate *)

(** The environment of every command. *)
Definition base_environment : list (string * string) := [("TZ", "UTC"); ("LC_ALL", "C.UTF-8"); ("PYTHONHASHSEED", "0")].

(** The commands of [remote_record]. *)
Inductive history_command : list string -> Prop :=
| lists_heads ref : history_command ["git"; "ls-remote"; "--heads"; "origin"; "refs/heads/" +:+ ref]
| fetches_commit commit : fullmatch BUILDER_COMMIT_RE commit = true ->
    history_command ["git"; "fetch"; "--quiet"; "--no-tags"; "origin"; commit]
| lists_path commit path : fullmatch BUILDER_COMMIT_RE commit = true ->
    history_command ["git"; "ls-tree"; "--name-only"; commit; "--"; path]
| shows_file commit path : fullmatch BUILDER_COMMIT_RE commit = true ->
    history_command ["git"; "show"; commit +:+ ":" +:+ path].

Section OrchestrateFacts.
Context (config : option json) (policy : members) (python_version zlib_version system machine runner_image : string).
Context (registry : W -> res exn (list module)) (dumps : json -> string) (nets : nat -> network).
Context (host : W -> checkout) (cli : W -> option string -> string -> option (process * bool)).
Context (lifecycle_state : string).

Hypothesis policy_distinct : NoDup (jkeys policy).
Hypothesis policy_strings : forall k v, jget k policy = Some v -> exists s, v = JStr s.
Hypothesis policy_plain : forall k, k ∈ computed_fields -> k ∉ jkeys policy.
(** SHA-256 prints 64 hexadecimal digits; git names commits with 40. *)
Hypothesis sha256_digits : forall bytes, fullmatch SHA256_RE (sha256_of bytes) = true.
Hypothesis head_full : forall w out w', run ["git"; "rev-parse"; "HEAD"] host_root w = (Ok out, w') ->
  fullmatch BUILDER_COMMIT_RE out = true.
(** [ls-remote] prints an object name before each reference. *)
Hypothesis ls_remote_full : forall ref w out w' commit l,
  run ["git"; "ls-remote"; "--heads"; "origin"; "refs/heads/" +:+ ref] root w = (Ok out, w') -> split_ws out = commit :: l ->
  fullmatch BUILDER_COMMIT_RE commit = true.
(** The commands that look for earlier candidates: [ls-remote], [ls-tree] and [show]
    only print, and [fetch] of a commit writes objects and FETCH_HEAD; none touches a
    bundle.  Neither does making a directory. *)
Hypothesis git_keeps : forall command w p, history_command command -> endswith ".ocp" p = true ->
  read_bytes p (snd (exec command root base_environment w)) = read_bytes p w.
Hypothesis mkdir_keeps : forall exist_ok d w p, endswith ".ocp" p = true ->
  read_bytes p (snd (make_dir exist_ok d w)) = read_bytes p w.

(** The computation leaves the bundles alone. *)
Definition keeping_bundles {A} (m : R A) : Prop :=
  forall w r w' p, m w = (r, w') -> endswith ".ocp" p = true -> read_bytes p w' = read_bytes p w.

Lemma keeping_bundles_bind {A C} (m : R A) (k : A -> R C) :
  keeping_bundles m -> (forall a, keeping_bundles (k a)) -> keeping_bundles (r_bind m k).
Proof.
  intros Hm Hk w r w' p H Hp. unfold r_bind in H. destruct (m w) as [[a|e] w1] eqn:H1.
  - by rewrite (Hk a w1 r w' p H Hp), (Hm w _ w1 p H1 Hp).
  - injection H as <- <-. by apply (Hm w _ w1 p H1).
Qed.

Lemma keeping_pure {A} (f : W -> res builder_exn A) : keeping_bundles (fun w => (f w, w)).
Proof. by intros w r w' p [= <- <-] _. Qed.

Lemma keeping_git command : history_command command -> keeping_bundles (run command root).
Proof.
  intros Hc w r w' p H Hp. unfold run, run_env in H. assert (Hk := git_keeps command w p Hc Hp).
  change ([("TZ", "UTC"); ("LC_ALL", "C.UTF-8"); ("PYTHONHASHSEED", "0")] ++ []) with base_environment in H.
  destruct (exec _ _ _ w) as [pr w1]. simpl in Hk. by destruct (Z.eqb _ 0); injection H as <- <-.
Qed.

Lemma keeping_remote path ref : keeping_bundles (remote_record path ("refs/heads/" +:+ ref)).
Proof.
  intros w r w' p H Hp. unfold remote_record, r_bind at 1 in H.
  destruct (run ["git"; "ls-remote"; "--heads"; "origin"; "refs/heads/" +:+ ref] root w) as [[out|e] w1] eqn:Hls;
    assert (Hk := keeping_git _ (lists_heads ref) _ _ _ p Hls Hp); [|by injection H as <- <-].
  rewrite <- Hk. clear Hk. destruct (split_ws out) as [|c l] eqn:Hw; [by injection H as <- <-|].
  assert (Hc := ls_remote_full _ _ _ _ _ _ Hls Hw). revert w1 r w' p H Hp Hls. 
  assert (Hrest : keeping_bundles (run ["git"; "fetch"; "--quiet"; "--no-tags"; "origin"; c] root >>>
    step files <- run ["git"; "ls-tree"; "--name-only"; c; "--"; path] root;
    if nonempty files then
      step text <- run ["git"; "show"; c +:+ ":" +:+ path] root;
      step record <- r_lift (loads text);
      r_ret [record]
    else r_ret [])).
  { apply keeping_bundles_bind; [by apply keeping_git, fetches_commit|]. intros _.
    apply keeping_bundles_bind; [by apply keeping_git, lists_path|]. intros fs.
    destruct (nonempty fs); [|apply keeping_pure]. apply keeping_bundles_bind; [by apply keeping_git, shows_file|]. intros text.
    apply keeping_bundles_bind; [apply keeping_pure|]. intros x. apply keeping_pure. }
  intros w1 r w' p H Hp _. by apply (Hrest w1 r w' p).
Qed.

Lemma keeping_records i : keeping_bundles (candidate_records i).
Proof.
  apply keeping_bundles_bind.
  { apply keeping_bundles_bind; [apply keeping_pure|]. intros [text|]; [|apply keeping_pure].
    apply keeping_bundles_bind; [apply keeping_pure|]. intros x. apply keeping_pure. }
  intros l. apply keeping_bundles_bind; [apply (keeping_remote _ "main")|]. intros m.
  apply keeping_bundles_bind; [apply (keeping_remote _ ("automation/" +:+ mp_module_id (si_policy i) +:+ "-" +:+ si_tag i))|]. intros q.
  apply keeping_pure.
Qed.

Lemma read_file_Ok path w bytes w' : read_file path w = (Ok bytes, w') -> read_bytes path w = Some bytes /\ w' = w.
Proof. unfold read_file. intros [= H <-]. apply of_option_Ok in H. done. Qed.

Lemma sha256_file_Ok path w d w' :
  sha256_file path w = (Ok d, w') -> w' = w /\ exists bytes, read_bytes path w = Some bytes /\ d = sha256_of bytes.
Proof.
  unfold sha256_file. intros H. r_step H. apply read_file_Ok in Hs as [Hr ->]. apply r_ret_Ok in H as [-> ->].
  split; [done|]. by exists a.
Qed.

Definition bundle_path (output : string) (i : SourceIdentity) : string :=
  path_join (path_join output "build-a") (mp_module_id (si_policy i) +:+ "-" +:+ si_version i +:+ ".ocp").

Lemma build_once_Ok source output i w b w' :
  build_once source output i w = (Ok b, w') -> b = path_join output (mp_module_id (si_policy i) +:+ "-" +:+ si_version i +:+ ".ocp").
Proof.
  unfold build_once. intros H. do 2 r_step H. unfold assemble_bundle in H. do 5 r_step H. by apply r_ret_Ok in H as [-> _].
Qed.

(** Two builds in a row, from [w]: the first from the first checkout, the second from
    the second one; right after them both bundles are read and have the digest. *)
Definition two_builds (output : string) (i : SourceIdentity) (w : W) (bundle digest : string) (w' : W) : Prop :=
  exists second w1 bytes bytes',
    build_once (path_join output "source") (path_join output "build-a") i w = (Ok bundle, w1) /\
    build_once (path_join output "source-second") (path_join output "build-b") i w1 = (Ok second, w') /\
    read_bytes bundle w' = Some bytes /\ sha256_of bytes = digest /\
    read_bytes second w' = Some bytes' /\ sha256_of bytes' = digest.

Lemma reproduce_Ok output i w bundle digest w' :
  reproduce output (path_join output "source") (path_join output "source-second") i w = (Ok (bundle, digest), w') ->
  bundle = bundle_path output i /\ two_builds output i w bundle digest w'.
Proof.
  unfold reproduce. intros H. do 5 r_step H. apply r_ret_Ok in H as [[= <- <-] ->].
  apply String.eqb_eq in Hs3. apply sha256_file_Ok in Hs1 as [-> (bytes & H1 & Hd1)], Hs2 as [-> (bytes' & H2 & Hd2)].
  split; [by apply build_once_Ok in Hs as ->|]. exists a0, w0, bytes, bytes'. split_and!; congruence.
Qed.

(** Two checkouts of the tag from [w], of the same source: the environment is
    collected between them. *)
Definition two_checkouts (p : ModulePolicy) (tag output : string) (w : W) (i : SourceIdentity) (env : members) (w' : W) : Prop :=
  exists w1 w2 w3 second,
    make_dir true output w = (true, w1) /\
    prepare_checkout p tag (path_join output "source") w1 = (Ok i, w2) /\
    collect_environment policy python_version zlib_version system machine runner_image (path_join output "source") w2 = (Ok env, w3) /\
    prepare_checkout p tag (path_join output "source-second") w3 = (Ok second, w') /\
    si_tag second = si_tag i /\ si_version second = si_version i /\ si_commit second = si_commit i /\ epoch second = epoch i.

Lemma pass_gates_Ok module_id output bundle digest i bv w bytes w' :
  endswith ".ocp" bundle = true ->
  pass_gates registry dumps nets host cli lifecycle_state module_id output bundle digest i bv w = (Ok bytes, w') ->
  read_bytes bundle w = Some bytes /\
  exists records w1, candidate_records i w = (Ok records, w1) /\ Forall (fun r => check_record i digest bv r = Ok tt) records.
Proof.
  intros Hb. unfold pass_gates. intros H. r_step H. rename Hs into Hh. r_step H. rename Hs into Hm. r_step H.
  apply read_file_Ok in Hs as [Hr ->]. do 3 r_step H. apply r_ret_Ok in H as [-> _].
  unfold check_candidate_history in Hh. apply r_bind_Ok in Hh as (records & wr & Hrec & Hh).
  apply r_lift_Ok in Hh as [Hall ->]. destruct a.
  split; [|exists records, wr; split; [exact Hrec | by apply each_Ok in Hall]].
  rewrite <- Hr, <- (keeping_records i _ _ _ bundle Hrec Hb).
  unfold mkdir, mkdir_ok in Hm. assert (Hk := mkdir_keeps false (path_join output "candidate") wr bundle Hb).
  destruct (make_dir _ _ wr) as [made w4]. injection Hm as _ <-. done.
Qed.

Lemma resolve_source_Ok p tag output w i env w' :
  resolve_source policy python_version zlib_version system machine runner_image host p tag output w = (Ok (i, env), w') ->
  si_policy i = p /\ si_tag i = tag /\ tag = "v" +:+ si_version i /\ fullmatch BUILDER_COMMIT_RE (si_commit i) = true /\
  (forall k v, jget k policy = Some v -> jget k env = Some v) /\
  (exists built_by, jget "builder_commit" env = Some (JStr built_by) /\
     (built_by = "unknown" \/ fullmatch BUILDER_COMMIT_RE built_by = true)) /\
  (exists host_commit, jget "host_commit" env = Some (JStr host_commit) /\ fullmatch BUILDER_COMMIT_RE host_commit = true) /\
  two_checkouts p tag output w i env w'.
Proof.
  unfold resolve_source. intros H. r_step H. assert (w0 = w) as -> by (unfold verify_host in Hs; injection Hs as _ Hs; by rewrite Hs). clear Hs.
  r_step H. assert (Hmk : make_dir true output w = (true, w0)).
  { unfold mkdir_ok in Hs. destruct (make_dir true output w) as [[] w9]; [by simplify_eq | discriminate Hs]. } clear Hs.
  r_step H. assert (Hfirst := Hs). apply prepare_checkout_Ok in Hs as (Hp & Ht & Hv & Hc).
  apply r_bind_Ok in H as (e & w5 & He & H). r_step H. rename Hs into Hsecond. r_step H. rename Hs into Hsame.
  apply r_ret_Ok in H as [[= <- <-] ->].
  destruct (collect_environment_Ok policy python_version zlib_version system machine runner_image
    policy_distinct policy_strings policy_plain _ _ _ _ He) as (Hpol & built_by & hc & w6 & w7 & Hb & Hb' & Hh & Hhead).
  split_and!; try done; [by exists built_by | exists hc; split; [done | by eapply head_full] |].
  unfold same_source_identity in Hsame. repeat (apply andb_true_iff in Hsame as [Hsame ?]).
  repeat match goal with H : String.eqb _ _ = true |- _ => apply String.eqb_eq in H end.
  match goal with H : Z.eqb _ _ = true |- _ => apply Z.eqb_eq in H end.
  eexists _, _, _, _. split; [exact Hmk|]. split; [exact Hfirst|]. split; [exact He|]. split; [exact Hsecond|]. done.
Qed.

(** The members of a candidate, with what the last step adds. *)
Definition candidate_members (i : SourceIdentity) (digest : string) (bv : json) (built_by : json)
    (run_id planned_channel : string) (requires : json) (status : string) (env : members) : members :=
  let p := si_policy i in
  [("schema_version", JInt 1); ("module_id", JStr (mp_module_id p)); ("version", JStr (si_version i));
   ("classification", mp_classification p); ("source_repository", JStr (source_url p)); ("source_tag", JStr (si_tag i));
   ("source_commit", JStr (si_commit i)); ("builder_version", bv); ("builder_commit", built_by);
   ("bundle_format_version", JInt 1); ("bundle_sha256", JStr digest);
   ("artifact_candidate", JStr ("github-actions://run/" +:+ run_id +:+ "/" +:+ mp_module_id p +:+ "-" +:+ si_version i));
   ("reproducible", JBool true); ("host_contract", JStr "passed"); ("planned_channel", JStr planned_channel);
   ("requires", requires); ("registry_status", JStr status); ("build_environment", JObj env)].

(** What a returning run went through: the identity of the source, its
    environment, and the candidate [c] with its files [f]. *)
Record emitted (w : W) (module_id tag output run_id ch : string) (c : members) (f : candidate_dir)
    (bv : json) (policies : allowlist) (i : SourceIdentity) (env : members) (built_by status : string) (requires : json)
    : Prop := {
  em_policies : load_policies config = Ok (bv, policies);
  em_policy : policies !! module_id = Some (si_policy i);
  em_tag : si_tag i = tag /\ tag = "v" +:+ si_version i;
  em_commit : fullmatch BUILDER_COMMIT_RE (si_commit i) = true;
  em_environment : forall k v, jget k policy = Some v -> jget k env = Some v;
  em_builder : jget "builder_commit" env = Some (JStr built_by) /\
    (built_by = "unknown" \/ fullmatch BUILDER_COMMIT_RE built_by = true);
  em_host : exists host_commit, jget "host_commit" env = Some (JStr host_commit) /\
    fullmatch BUILDER_COMMIT_RE host_commit = true;
  em_members : c = candidate_members i (sha256_of (bundle_content f)) bv (JStr built_by) run_id ch requires status env;
  em_name : bundle_file f = Registry.path_name (bundle_path output i);
  em_checksum : checksum_text f = sha256_of (bundle_content f) +:+ "  " +:+ bundle_file f +:+ newline;
  em_provenance : provenance f = canonical_json (JObj c);
  em_channel : ch ∈ ["stable"; "beta"; "nightly"];
  em_status : status ∈ ["new"; "already-registered"];
  em_registry : exists w1, check_registry_immutability (registry w1) i (sha256_of (bundle_content f)) = Ok status;
  em_run : exists w1 bundle w2 records w3,
    two_checkouts (si_policy i) tag output w i env w1 /\
    two_builds output i w1 bundle (sha256_of (bundle_content f)) w2 /\ read_bytes bundle w2 = Some (bundle_content f) /\
    candidate_records i w2 = (Ok records, w3) /\
    Forall (fun r => check_record i (sha256_of (bundle_content f)) bv r = Ok tt) records
}.

Lemma check_registry_status r i digest status :
  check_registry_immutability r i digest = Ok status -> status ∈ ["new"; "already-registered"].
Proof.
  unfold check_registry_immutability. intros H. apply res_bind_Ok in H as (ms & _ & H).
  destruct (dict_get _ _ _) as [m|]; [|done]. destruct (List.find _ _) as [r'|]; [|injection H as <-; by left].
  apply res_bind_Ok in H as (? & _ & [= <-]). right. by left.
Qed.

Lemma bundle_path_ocp output i : endswith ".ocp" (bundle_path output i) = true.
Proof. unfold bundle_path, path_join. rewrite <- !sapp_assoc. apply endswith_app. Qed.

Lemma orchestrate_Ok module_id tag output run_id ch w c f w' :
  orchestrate config policy python_version zlib_version system machine runner_image registry dumps nets host cli
    lifecycle_state module_id tag output run_id ch w = (Ok (c, f), w') ->
  exists bv policies i env built_by status requires,
    emitted w module_id tag output run_id ch c f bv policies i env built_by status requires.
Proof.
  unfold orchestrate. intros H. r_step H. rename Hs into Hpol. destruct a as [bv policies].
  r_step H. apply of_option_Ok in Hs. rename a into p. rename Hs into Hp.
  apply r_bind_Ok in H as ([i env] & w1 & Hres & H). apply resolve_source_Ok in Hres as
    (Hip & Hit & Htag & Hc & Henv & (built_by & Hb & Hb') & Hhost & Hsources).
  apply r_bind_Ok in H as ([bundle digest] & w4 & Hrep & H). apply reproduce_Ok in Hrep as (-> & Hrep).
  assert (Hbytes : exists bytes, read_bytes (bundle_path output i) w4 = Some bytes /\ digest = sha256_of bytes).
  { destruct Hrep as (? & ? & bytes & ? & _ & _ & Hr & Hd & _). by exists bytes. }
  destruct Hbytes as (bytes & Hr & Hd).
  apply r_bind_Ok in H as (bytes' & w5 & Hgates & H). apply pass_gates_Ok in Hgates as (Hr' & records & w6 & Hrec & Hall);
    [|apply bundle_path_ocp]. assert (bytes' = bytes) as -> by congruence.
  r_step H. rename Hs into Hch. r_step H. rename a into manifest. r_step H. rename a into bc. r_step H. rename Hs1 into Hcreate.
  r_step H. r_step H. r_step H. rename Hs2 into Hreg. apply r_ret_Ok in H as [[= -> ->] ->].
  unfold create_candidate in Hcreate. apply res_bind_Ok in Hcreate as (requires & Hreq & [= <-]).
  unfold member in Hs1. apply r_lift_Ok in Hs1 as [Hbc%raised_Ok ->]. unfold item in Hbc. rewrite Hb in Hbc.
  injection Hbc as <-. exists bv, policies, i, env, built_by, a1, requires. subst p digest.
  split; try done; simpl.
  - by apply bool_decide_eq_true_1 in Hch.
  - by eapply check_registry_status.
  - by eexists.
  - by exists w1, (bundle_path output i), w4, records, w6.
Qed.

(** The characters a locator may have after the number of the run. *)
Definition is_locator_char (c : ascii) : bool := range "a" "z" c || is_ascii_digit c || mem_char c ".-".

Definition locator_text (s : string) : Prop := Forall (fun c => is_locator_char c = true) (chars s).

Lemma locator_matches run_id m v :
  isdigit run_id = true -> all_chars is_ascii_digit run_id = true -> locator_text m -> locator_text v ->
  fullmatch ARTIFACT_CANDIDATE_RE ("github-actions://run/" +:+ run_id +:+ "/" +:+ m +:+ "-" +:+ v) = true.
Proof.
  intros Hn Hr Hm Hv. apply fullmatch_spec. unfold ARTIFACT_CANDIDATE_RE.
  apply matches_seq_intro; [by apply matches_lit|]. apply matches_seq_intro.
  { apply matches_plus_cls. split; [by destruct run_id|]. by apply all_chars_Forall. }
  apply matches_seq_intro; [by apply matches_lit|]. apply matches_plus_cls. split.
  - rewrite chars_app. by destruct (chars m).
  - rewrite !chars_app, !Forall_app. split; [exact Hm|]. split; [by repeat constructor | exact Hv].
Qed.

Lemma environment_valid i digest bv built_by run_id ch requires status env :
  (forall k v, jget k policy = Some v -> jget k env = Some v) ->
  jget "builder_commit" env = Some (JStr built_by) ->
  (exists host_commit, jget "host_commit" env = Some (JStr host_commit) /\ fullmatch BUILDER_COMMIT_RE host_commit = true) ->
  validate_environment policy (candidate_members i digest bv (JStr built_by) run_id ch requires status env) (JObj env) = Ok tt.
Proof.
  intros Hpol Hb (hc & Hh & Hhc). unfold validate_environment.
  assert (Hex : existsb (fun kv => differs (get_item (fst kv) env) (snd kv)) policy = false).
  { apply existsb_false_Forall, Forall_forall. intros [k v] Hin. simpl. apply jget_elem in Hin; [|exact policy_distinct].
    rewrite (get_item_Some _ _ _ (Hpol _ _ Hin)). destruct (policy_strings _ _ Hin) as (s & ->).
    unfold differs. simpl. by rewrite String.eqb_refl. }
  rewrite Hex. cbn [refuse raise_if res_bind].
  change (getitem "builder_commit" (candidate_members i digest bv (JStr built_by) run_id ch requires status env))
    with (@Ok exn json (JStr built_by)). cbn [res_bind].
  rewrite (get_item_Some _ _ _ Hb). unfold differs. simpl. rewrite String.eqb_refl. simpl. rewrite Hh. simpl. by rewrite Hhc.
Qed.

Lemma emitted_valid w module_id tag output run_id ch c f bv policies i env built_by status requires r :
  emitted w module_id tag output run_id ch c f bv policies i env built_by status requires -> requires = JObj r ->
  fullmatch SEMVER_RE (si_version i) = true -> isdigit run_id = true -> all_chars is_ascii_digit run_id = true ->
  locator_text module_id -> locator_text (si_version i) ->
  validate_candidate (allowed_sources policies) policy (JObj c) = Ok c.
Proof.
  intros [] -> Hver Hn Hd Hm Hv. destruct (load_policies_Ok _ _ _ _ _ em_policies0 em_policy0) as (Hbv & Hid & Hcl & _).
  destruct em_tag0 as [Htag ->]. subst module_id. destruct em_builder0 as [Hb Hb'].
  assert (Henv := environment_valid i (sha256_of (bundle_content f)) bv built_by run_id ch (JObj r) status env
    em_environment0 Hb em_host0). rewrite em_members0. unfold validate_candidate.
  set (c0 := candidate_members _ _ _ _ _ _ _ _ _) in *.
  assert (Hf : exact_fields c0 = true) by reflexivity. rewrite Hf. cbn [negb refuse raise_if res_bind].
  change (jget "build_environment" c0) with (Some (JObj env)). cbv iota. rewrite Henv.
  unfold c0, candidate_members. rewrite Hcl.
  cbv [getitem jget of_option String.eqb Ascii.eqb Bool.eqb]. cbn [res_bind policy_of]. unfold allowed_sources.
  rewrite em_policy0. cbn [fmap option_fmap option_map].
  assert (Hsame : forall s, differs (JStr s) (JStr s) = false) by (intros s; unfold differs; simpl; by rewrite String.eqb_refl).
  assert (Hset : forall s l, s ∈ l -> in_set (JStr s) l = Ok true).
  { intros s l Hin. unfold in_set, in_strings. f_equal. apply existsb_exists. exists s.
    split; [by apply list_elem_of_In|]. simpl. apply String.eqb_refl. }
  assert (Hone : differs bv (JInt 1) = false) by (unfold differs; by rewrite Hbv).
  assert (Hbuilder : bad_builder_commit (JStr built_by) = Ok false).
  { unfold bad_builder_commit. simpl. destruct Hb' as [->|Hb']; [done|]. destruct (String.eqb built_by "unknown"); [done|].
    by rewrite Hb'. }
  cbn [fullmatch_value json_text]. rewrite <- Htag, !Hsame, Hone, Hver, em_commit0, Hbuilder, sha256_digits.
  rewrite (Hset _ _ em_status0), (Hset _ _ em_channel0).
  rewrite (locator_matches run_id (mp_module_id (si_policy i)) (si_version i)) by done. reflexivity.
Qed.

Lemma locator_free s : locator_text s -> free_of "/" s.
Proof.
  intros H. eapply Forall_impl; [exact H|]. intros c Hc ->. discriminate Hc.
Qed.

Lemma bundle_file_name output i :
  locator_text (mp_module_id (si_policy i)) -> locator_text (si_version i) ->
  Registry.path_name (bundle_path output i) = bundle_name (mp_module_id (si_policy i)) (si_version i).
Proof.
  intros Hm Hv. unfold Registry.path_name, bundle_path, path_join.
  change ("/" +:+ ?n) with (String "/" n). rewrite rpartition_app; [done|].
  apply locator_free in Hm, Hv. unfold free_of. rewrite !chars_app, !Forall_app.
  split_and!; [exact Hm | by repeat constructor | exact Hv | by repeat constructor].
Qed.

(** ** Properties *)

(** C12. What the builder emits is what validation and review accept.  For a tag
    that is a complete semantic version, identifiers made of the characters of a
    locator and a numeric run, the candidate of a returning run passes
    [validate_candidate] under the same allowlist and environment policy, names
    the module, version, channel and the digest of the bundle beside it; and the
    three files of the run are exactly the archive whose extraction the review
    of this candidate accepts ([Reviewed]). *)
Theorem built_candidate_validates module_id tag output run_id ch w c f w' r :
  orchestrate config policy python_version zlib_version system machine runner_image registry dumps nets host cli
    lifecycle_state module_id tag output run_id ch w = (Ok (c, f), w') ->
  jget "requires" c = Some (JObj r) ->
  let version := removeprefix "v" tag in
  fullmatch SEMVER_RE version = true -> isdigit run_id = true -> all_chars is_ascii_digit run_id = true ->
  locator_text module_id -> locator_text version ->
  exists bv policies, load_policies config = Ok (bv, policies) /\
    validate_candidate (allowed_sources policies) policy (JObj c) = Ok c /\
    candidate_ok (allowed_sources policies) c module_id version (sha256_of (bundle_content f)) ch /\
    packed_members sha256_of c (bundle_name module_id version) (bundle_content f) =
      [packed_member "provenance.json" (utf8_encode (provenance f)); packed_member (bundle_file f) (bundle_content f);
       packed_member (bundle_file f +:+ ".sha256") (checksum_text f)].
Proof.
  intros H Hreq version Hver Hn Hd Hm Hv. apply orchestrate_Ok in H as (bv & policies & i & env & built_by & status & rq & He).
  assert (Hcopy := He). destruct Hcopy. destruct em_tag0 as [Htag Hvv].
  assert (version = si_version i) as Hvi. { unfold version. rewrite Hvv. apply removeprefix_drop. }
  assert (rq = JObj r) as ->. { rewrite em_members0 in Hreq. by injection Hreq. }
  rewrite Hvi in *. destruct (load_policies_Ok _ _ _ _ _ em_policies0 em_policy0) as (_ & Hid & _).
  exists bv, policies. split; [done|]. split; [by eapply emitted_valid|]. split.
  - subst c. split; try done.
    + simpl. by rewrite Hid.
    + exists (source_url (si_policy i)). unfold allowed_sources. by rewrite em_policy0.
    + simpl. by rewrite Htag, Hvv.
    + by exists (si_commit i).
    + by exists r.
  - unfold packed_members. rewrite em_provenance0, em_name0, em_checksum0, em_name0, bundle_file_name by by rewrite ?Hid.
    by rewrite Hid.
Qed.

(** A record of the same version that agrees with the build. *)
Definition record_agrees (i : SourceIdentity) (digest : string) (record : json) : Prop :=
  exists l, record = JObj l /\ jget "module_id" l = Some (JStr (mp_module_id (si_policy i))) /\
    jget "version" l = Some (JStr (si_version i)) /\ jget "source_repository" l = Some (JStr (source_url (si_policy i))) /\
    jget "source_commit" l = Some (JStr (si_commit i)) /\ jget "bundle_sha256" l = Some (JStr digest).

Lemma get_attr_str k (l : members) s x : get_attr JNull k (JObj l) = Ok x -> py_eq x (JStr s) = true -> jget k l = Some (JStr s).
Proof.
  unfold get_attr. intros [= <-] Hx. destruct (jget k l) as [v|]; simpl in Hx; [|done]. apply py_eq_str_r in Hx. by subst v.
Qed.

Lemma check_record_Ok i digest bv record : check_record i digest bv record = Ok tt -> record_agrees i digest record.
Proof.
  unfold check_record. intros H. destruct record as [| | | | |l]; try done.
  repeat match goal with
  | H : res_bind _ _ = Ok _ |- _ => apply res_bind_Ok in H as (? & ? & H); cbv beta in H
  | H : raised _ = Ok _ |- _ => apply raised_Ok in H
  | H : demand _ _ = Ok _ |- _ => apply demand_Ok in H
  | H : _ && _ = true |- _ => apply andb_true_iff in H as [? ?]
  end.
  exists l. split_and!; try done; by eapply get_attr_str.
Qed.

(** C13. A version is built once.  A candidate is emitted only by this run: from the
    machine it began on, the tag of the allowlisted repository was checked out
    twice, into two directories, with the same tag, version, commit and time; a
    bundle was built from each checkout, one right after the other, and then both
    were read and had the same digest, which is that of the emitted bundle.  Every
    candidate of this version that was then found locally, on main or on the branch
    of this tag has the same repository, commit and digest, and so has the release
    of the registry, if the registry has this version. *)
Theorem built_candidate_immutable module_id tag output run_id ch w c f w' :
  orchestrate config policy python_version zlib_version system machine runner_image registry dumps nets host cli
    lifecycle_state module_id tag output run_id ch w = (Ok (c, f), w') ->
  let digest := sha256_of (bundle_content f) in
  exists bv policies i env w1 bundle w2,
    load_policies config = Ok (bv, policies) /\ policies !! module_id = Some (si_policy i) /\
    mp_module_id (si_policy i) = module_id /\ tag = "v" +:+ si_version i /\
    jget "source_commit" c = Some (JStr (si_commit i)) /\ jget "bundle_sha256" c = Some (JStr digest) /\
    two_checkouts (si_policy i) tag output w i env w1 /\
    two_builds output i w1 bundle digest w2 /\ read_bytes bundle w2 = Some (bundle_content f) /\
    (exists records w3, candidate_records i w2 = (Ok records, w3) /\ Forall (record_agrees i digest) records) /\
    (exists w4 modules m, registry w4 = Ok modules /\ dict_get id module_id modules = Some m /\
       forall rel, List.find (fun x => String.eqb (version x) (si_version i)) (versions m) = Some rel ->
         source_commit rel = si_commit i /\ sha256 (rel_artifact rel) = digest).
Proof.
  intros H digest. apply orchestrate_Ok in H as (bv & policies & i & env & built_by & status & rq & []).
  destruct (load_policies_Ok _ _ _ _ _ em_policies0 em_policy0) as (_ & Hid & _).
  destruct em_tag0 as [_ Htag]. destruct em_run0 as (w1 & bundle & w2 & records & w3 & Hsources & Hbuilds & Hread & Hr & Hall).
  exists bv, policies, i, env, w1, bundle, w2. subst c. split_and!; try done.
  - exists records, w3. split; [done|]. eapply Forall_impl; [exact Hall|]. intros record. apply check_record_Ok.
  - destruct em_registry0 as (w4 & Hreg). unfold check_registry_immutability in Hreg.
    apply res_bind_Ok in Hreg as (modules & Hm%raised_Ok & Hreg). rewrite Hid in Hreg.
    destruct (dict_get id module_id modules) as [m|] eqn:Hget; [|done]. exists w4, modules, m. split_and!; try done.
    intros rel Hrel. rewrite Hrel in Hreg. apply res_bind_Ok in Hreg as (? & Hd%demand_Ok & _).
    apply andb_true_iff in Hd as [H1 H2]. by apply String.eqb_eq in H1, H2.
Qed.

End OrchestrateFacts.

End Builder.

(** Tags the builder accepts whose candidates can never validate: the locator
    admits neither upper case nor build metadata, and a numeric identifier with
    a leading zero is no semantic version. *)
Lemma tags_without_candidates :
  parse_tag "v1.0.0-RC.1" = Ok "1.0.0-RC.1" /\
  fullmatch ARTIFACT_CANDIDATE_RE "github-actions://run/1/hello-1.0.0-RC.1" = false /\
  parse_tag "v1.0.0+b1" = Ok "1.0.0+b1" /\
  fullmatch ARTIFACT_CANDIDATE_RE "github-actions://run/1/hello-1.0.0+b1" = false /\
  parse_tag "v1.0.0-01" = Ok "1.0.0-01" /\ fullmatch SEMVER_RE "1.0.0-01" = false.
Proof. vm_compute. auto 10. Qed.

(** ** Example: a run of the builder *)

Definition example_manifest : json :=
  JObj [("id", JStr "hello"); ("version", JStr "1.0.0"); ("backend", JObj [("package", JStr "hello")]);
        ("requires", JObj [("host", JStr ">=1.0.0"); ("sdk", JStr ">=1.0.0"); ("modules", JObj [])])].

Definition answers (text : string) : process := {| returncode := 0; stdout := text; stderr := "" |}.

Definition object_line (l : list (string * string)) : string :=
  "{" +:+ join_on ", " (map (fun kv => dquote (fst kv) +:+ ": " +:+ snd kv) l) +:+ "}".

Definition head_commit : string := zeros 40.

(** The state of this machine: whether the host has the module enabled. *)
Definition example_exec (command : list string) (cwd : string) (env : list (string * string)) (enabled : bool)
    : process * bool :=
  let says text := (answers text, enabled) in
  let ends s := mem s command in
  if ends "rev-parse" then says (head_commit +:+ newline)
  else if ends "--format=%ct" then says "1700000000"
  else if ends "uv" && ends "--version" then says "uv 0.12.5"
  else if ends "node" then says "v22.22.3"
  else if ends "import platform; print(platform.python_version())" then says "3.12.14"
  else if ends "verify" then says (object_line [("module_id", dquote "hello"); ("version", dquote "1.0.0")])
  else if ends "install" then says (object_line [("enabled", "false")])
  else if ends "list" then
    says (object_line [("modules", "[" +:+ object_line [("id", dquote "hello"); ("enabled", "false")] +:+ "]")])
  else if ends "disable" then (answers (object_line []), false)
  else if ends "enable probe" then (answers "", true)
  else if ends "env" then
    let name := dquote (if enabled then "hello" else "") in
    says (object_line [("ENABLED_MODULES", name); ("OCP_BACKEND_MODULES", name)])
  else says "".

Definition example_read (path : string) (enabled : bool) : option string :=
  if endswith "module.yaml" path then Some "manifest"
  else if endswith "pyproject.toml" path then Some "project"
  else if endswith ".whl" path then Some "wheel"
  else if endswith ".ocp" path then Some "ocp"
  else if endswith "bin/python" path then Some ""
  else None.

Definition example_machine : Machine bool :=
  {| exec := example_exec; read_bytes := example_read; glob := fun d _ _ => [path_join d "hello.whl"];
     make_dir := fun _ _ w => (true, w) |}.

Definition example_config : json :=
  JObj [("builder_version", JInt 1);
        ("modules", JObj [("hello", JObj [("repository", JStr "oklabflensburg/hello"); ("classification", JStr "first-party");
            ("publisher", JStr "oklab"); ("license", JStr "MIT"); ("host_contract", JObj [("services", JArr [])])])])].

Definition example_policy : members :=
  [("python", JStr "3.12.14"); ("uv", JStr "0.12.5"); ("node", JStr "22.22.3"); ("pnpm", JStr "11.22.0")].

Definition registered_module : module := example_module [example_release "0.9.0" "beta" (github_url "0.9.0")].

Definition builder_cli (w : bool) (excluded : option string) (bytes : string) : option (process * bool) :=
  Some (answers (object_line [("module_id", dquote "hello"); ("version", dquote "1.0.0")]), false).

Definition builder_run : res builder_exn (members * candidate_dir) * bool :=
  @orchestrate bool example_machine (fun _ => hex64 "a") (fun _ => Some example_manifest)
    (fun _ => Some (JObj [("project", JObj [("name", JStr "hello"); ("version", JStr "1.0.0")])]))
    (fun _ => Some [("hello.dist-info/METADATA", "Name: hello" +:+ newline +:+ "Version: 1.0.0" +:+ newline)])
    string (fun v => Some v) String.eqb (fun _ _ => true) (fun _ _ => Some true) lower
    "/repo" "/host" "enable probe" "services probe" (fun _ _ _ w => (Ok None, w))
    (Some example_config) example_policy "3.12.14" "1.3.1" "Linux" "x86_64" "local" (fun _ => Ok [registered_module])
    canonical_json (fun _ => example_network) (fun _ => example_checkout) builder_cli "/tmp/state"
    "hello" "v1.0.0" "/out" "17" "stable" false.

Lemma builder_run_eq : builder_run =
  @orchestrate bool example_machine (fun _ => hex64 "a") (fun _ => Some example_manifest)
    (fun _ => Some (JObj [("project", JObj [("name", JStr "hello"); ("version", JStr "1.0.0")])]))
    (fun _ => Some [("hello.dist-info/METADATA", "Name: hello" +:+ newline +:+ "Version: 1.0.0" +:+ newline)])
    string (fun v => Some v) String.eqb (fun _ _ => true) (fun _ _ => Some true) lower
    "/repo" "/host" "enable probe" "services probe" (fun _ _ _ w => (Ok None, w))
    (Some example_config) example_policy "3.12.14" "1.3.1" "Linux" "x86_64" "local" (fun _ => Ok [registered_module])
    canonical_json (fun _ => example_network) (fun _ => example_checkout) builder_cli "/tmp/state"
    "hello" "v1.0.0" "/out" "17" "stable" false.
Proof. reflexivity. Qed.

Definition run_summary (r : res builder_exn (members * candidate_dir) * bool) : option (json * json * string * string) :=
  match r with
  | (Ok (c, f), _) => Some (get_item "artifact_candidate" c, get_item "requires" c, bundle_file f, bundle_content f)
  | _ => None
  end.

Lemma example_run : run_summary builder_run =
  Some (JStr "github-actions://run/17/hello-1.0.0", default JNull (jget "requires" (match example_manifest with JObj l => l | _ => [] end)),
        "hello-1.0.0.ocp", "ocp").
Proof. vm_compute. reflexivity. Qed.

Lemma example_policy_distinct : NoDup (jkeys example_policy).
Proof. apply (bool_decide_unpack _). vm_compute. exact I. Qed.

Lemma example_policy_strings k v : jget k example_policy = Some v -> exists s, v = JStr s.
Proof.
  intros H. apply jget_elem in H; [|exact example_policy_distinct].
  repeat (apply elem_of_cons in H as [[= _ ->]|H]; [by eexists|]). by apply not_elem_of_nil in H.
Qed.

Lemma example_policy_plain k : k ∈ computed_fields -> k ∉ jkeys example_policy.
Proof.
  intros H. repeat (apply elem_of_cons in H as [->|H]; [apply (bool_decide_unpack _); vm_compute; exact I|]).
  by apply not_elem_of_nil in H.
Qed.

Lemma example_head w out w' :
  @run bool example_machine ["git"; "rev-parse"; "HEAD"] "/host" w = (Ok out, w') -> fullmatch BUILDER_COMMIT_RE out = true.
Proof. intros H. vm_compute in H. injection H as <- _. vm_compute. reflexivity. Qed.

(** Without candidates on the remote, [ls-remote] prints nothing. *)
Lemma example_ls_remote ref w out w' commit l :
  @run bool example_machine ["git"; "ls-remote"; "--heads"; "origin"; "refs/heads/" +:+ ref] "/repo" w = (Ok out, w') ->
  split_ws out = commit :: l -> fullmatch BUILDER_COMMIT_RE commit = true.
Proof. intros H. vm_compute in H. injection H as <- _. intros H. vm_compute in H. discriminate H. Qed.

Lemma example_fits : fullmatch SEMVER_RE "1.0.0" = true /\ isdigit "17" = true /\ all_chars is_ascii_digit "17" = true.
Proof. vm_compute. auto. Qed.

Lemma example_locators : locator_text "hello" /\ locator_text "1.0.0".
Proof. split; repeat constructor. Qed.

Lemma built_candidate_validates_witness :
  exists c f policies, fst builder_run = Ok (c, f) /\
    validate_candidate (allowed_sources policies) example_policy (JObj c) = Ok c /\ bundle_content f = "ocp".
Proof.
  assert (Hsum := example_run). destruct builder_run as [[[c f]|e] w'] eqn:H; [|discriminate Hsum]. rewrite builder_run_eq in H.
  injection Hsum as _ Hreq _ Hbytes. exists c, f.
  assert (Hr : exists r, jget "requires" c = Some (JObj r)).
  { unfold get_item in Hreq. destruct (jget "requires" c) as [rq|]; [|discriminate Hreq].
    eexists. f_equal. exact Hreq. }
  destruct Hr as [r Hr].
  destruct (@built_candidate_validates bool example_machine (fun _ => hex64 "a") (fun _ => Some example_manifest)
    (fun _ => Some (JObj [("project", JObj [("name", JStr "hello"); ("version", JStr "1.0.0")])]))
    (fun _ => Some [("hello.dist-info/METADATA", "Name: hello" +:+ newline +:+ "Version: 1.0.0" +:+ newline)])
    string (fun v => Some v) String.eqb (fun _ _ => true) (fun _ _ => Some true) lower
    "/repo" "/host" "enable probe" "services probe" (fun _ _ _ w => (Ok None, w))
    (Some example_config) example_policy "3.12.14" "1.3.1" "Linux" "x86_64" "local" (fun _ => Ok [registered_module])
    canonical_json (fun _ => example_network) (fun _ => example_checkout) builder_cli "/tmp/state"
    example_policy_distinct example_policy_strings example_policy_plain
    (fun _ => eq_refl) example_head example_ls_remote (fun _ _ _ _ _ => eq_refl) (fun _ _ _ _ _ => eq_refl)
    "hello" "v1.0.0" "/out" "17" "stable" false c f w' r H Hr) as (bv & policies & _ & Hv & _).
  - exact (proj1 example_fits).
  - exact (proj1 (proj2 example_fits)).
  - exact (proj2 (proj2 example_fits)).
  - exact (proj1 example_locators).
  - exact (proj2 example_locators).
  - exists policies. split; [reflexivity|]. split; [exact Hv | exact Hbytes].
Defined.

Lemma built_candidate_immutable_witness :
  exists c f i, fst builder_run = Ok (c, f) /\ jget "source_commit" c = Some (JStr (si_commit i)) /\
    jget "bundle_sha256" c = Some (JStr (hex64 "a")).
Proof.
  assert (Hsum := example_run). destruct builder_run as [[[c f]|e] w'] eqn:H; [|discriminate Hsum]. rewrite builder_run_eq in H.
  destruct (@built_candidate_immutable bool example_machine (fun _ => hex64 "a") (fun _ => Some example_manifest)
    (fun _ => Some (JObj [("project", JObj [("name", JStr "hello"); ("version", JStr "1.0.0")])]))
    (fun _ => Some [("hello.dist-info/METADATA", "Name: hello" +:+ newline +:+ "Version: 1.0.0" +:+ newline)])
    string (fun v => Some v) String.eqb (fun _ _ => true) (fun _ _ => Some true) lower
    "/repo" "/host" "enable probe" "services probe" (fun _ _ _ w => (Ok None, w))
    (Some example_config) example_policy "3.12.14" "1.3.1" "Linux" "x86_64" "local" (fun _ => Ok [registered_module])
    canonical_json (fun _ => example_network) (fun _ => example_checkout) builder_cli "/tmp/state"
    example_policy_distinct example_policy_strings example_policy_plain example_head
    example_ls_remote (fun _ _ _ _ _ => eq_refl) (fun _ _ _ _ _ => eq_refl)
    "hello" "v1.0.0" "/out" "17" "stable" false c f w' H) as (bv & policies & i & env & w1 & bundle & w2 & _ & _ & _ & _ & Hc & Hd & _).
  exists c, f, i. split; [reflexivity|]. split; [exact Hc | exact Hd].
Defined.
