(* ===== verification/RegistryHistory.v ===== *)
(** * The registry over time: imports and promotions together

    The writers of the registry database are the shadow import
    (registry_import_v1.py) and the promotion service (registry_promotion.py);
    the locks of the transactions make their steps serial.  What holds after any
    number of steps of both. *)

#[local] Set Warnings "-notation-overridden".

From S2P Require Import Prelude PyText SemVer Json Url Validate Registry ArtifactStore StoreProtocol Candidate RegistryDb RegistryImport Promotion.

Open Scope string_scope.
Open Scope list_scope.

Section History.
Context {S : Type} `{!StoreOps S} `{!StoreSpec S} (hash : string -> string) (schema_valid : string -> json -> bool).
Context (candidate_source : string -> string -> Z -> string -> res promotion_exn ReviewedCandidate).

Abbreviation promote := (promote hash schema_valid candidate_source).

(** A promotion, whatever its outcome, or an import that returns; one that
    raises changes nothing. *)
Inductive registry_step : S * registry_db -> S * registry_db -> Prop :=
| step_promote i source s d r s' d' :
    promote i source s d = (r, s', d') -> registry_step (s, d) (s', d')
| step_import root envelope files s d rep d' :
    import_registry schema_valid root envelope files d = Ok (rep, d') -> registry_step (s, d) (s, d').

Lemma backed_later (s : S) d d' :
  backed s d -> extends d d' -> constraints d' = true ->
  (forall v, v ∈ module_versions d' -> published v = true -> v ∈ module_versions d) -> backed s d'.
Proof.
  intros Hb He Hc Hold v Hin Hp. destruct (Hb v (Hold v Hin Hp) Hp) as (a & Ha & Hh).
  apply first_Some' in Ha as [Ha Hid]. apply N.eqb_eq in Hid.
  destruct (ext_artifacts _ _ He a Ha) as (a' & Ha' & Hi' & _ & Hdg). exists a'. rewrite Hdg. split; [|done].
  rewrite <- Hid, <- Hi'. apply artifact_of_In; [by apply constraints_ids | done].
Qed.

(** What every step keeps. *)
Record kept (x y : S * registry_db) : Prop := {
  kept_constraints : constraints (snd y) = true;
  kept_extends : extends (snd x) (snd y);
  kept_sealed : sealed (snd x) (snd y);
  kept_store : store_keeps (fst x) (fst y);
  kept_backed : backed (fst x) (snd x) -> backed (fst y) (snd y)
}.

Lemma step_kept x y : registry_step x y -> constraints (snd x) = true -> kept x y.
Proof.
  intros [i source s d r s' d' H|root envelope files s d rep d' H] Hc.
  - destruct (promote_keeps _ _ _ _ _ _ _ _ _ _ H Hc) as (Hc' & He & Hs & Hk & Hb). by split.
  - apply import_registry_Ok in H as (values & modules & expected & index & _ & _ & _ & _ & H).
    destruct (import_Ok _ _ _ _ _ _ _ H Hc) as ([He Hs _ Hc'] & _). split; simpl; [done | done | done | by intros m v dg |].
    intros Hb. eapply backed_later; [done | done | done |]. by eapply imports_transaction.
Qed.

Lemma history_kept x y : rtc registry_step x y -> constraints (snd x) = true -> kept x y.
Proof.
  induction 1 as [x|x y z Hs _ IH]; intros Hc; [split; [done | done | by apply sealed_refl | by intros m v dg | done]|].
  destruct (step_kept _ _ Hs Hc) as [Hc1 He1 Hs1 Hk1 Hb1]. destruct (IH Hc1) as [Hc2 He2 Hs2 Hk2 Hb2]. split.
  - done.
  - by etransitivity.
  - by eapply sealed_trans.
  - intros m v dg Hh. auto.
  - auto.
Qed.

(** C32. History: after any sequence of imports and promotions, successful or not,
    every version that was published reads back as the same release with the
    same evidence and digest, the bytes of every promoted version are in the
    store, the constraints hold, and the guard of the ORM session would have let
    the whole change pass. *)
Theorem registry_history s d s' d' :
  constraints d = true -> backed s d -> rtc registry_step (s, d) (s', d') ->
  backed s' d' /\ constraints d' = true /\ protect_history d d' = true /\
  forall mid r ev promoted v a p, published_as d mid r ev promoted v a p ->
    exists a', a_digest a' = a_digest a /\ published_as d' mid r ev promoted v a' p.
Proof.
  intros Hc Hb H. apply history_kept in H as [Hc' He Hs Hk Hbk]; [|done]. simpl in *. split_and!.
  - auto.
  - done.
  - by apply extends_protect.
  - intros mid r ev promoted v a p Hp. by eapply published_as_later.
Qed.

End History.

(** ** An example: a promotion after the import *)

Definition next_candidate : members :=
  map (fun kv => if mem (fst kv) ["version"] then (fst kv, JStr "1.1.0")
                 else if mem (fst kv) ["source_tag"] then (fst kv, JStr "v1.1.0") else kv) example_candidate.

Definition next_reviews (m v : string) (pr : Z) (dg : string) : res promotion_exn ReviewedCandidate :=
  Ok {| canonical := canonical_json (JObj next_candidate); rc_candidate_sha256 := dg;
        approval_reference := "pull/8"; approval_identity := "alice"; merge_commit := "e" |}.

Definition next_intent : PromotionIntent :=
  {| in_module_id := "hello"; in_version := "1.1.0"; approval_pr := 8; candidate_sha256 := hex64 "c";
     bundle_sha256 := hex64 "a"; in_channel := "stable"; expected_channel_revision := 1;
     in_idempotency_key := "hello-2" |}.

#[local] Instance next_ops : StoreOps sys := filesystem_ops example_sha256 1000 quiet ["srv"] [] "0f".
#[local] Instance next_spec : StoreSpec sys :=
  filesystem_spec example_sha256 1000 quiet ["srv"] [] "0f" quiet_keeps example_public example_uuid.

Definition next_promotion := promote example_hash any_schema next_reviews next_intent example_source example_sys imported_db.
Definition next_sys : sys := snd (fst next_promotion).
Definition next_db : registry_db := snd next_promotion.

Lemma next_history :
  rtc (registry_step example_hash any_schema next_reviews) (example_sys, empty_db) (next_sys, next_db) /\
  is_ok (fst (fst next_promotion)) = true.
Proof.
  split; [|vm_compute; reflexivity]. destruct example_import_Ok as [rep H].
  eapply rtc_l; [by eapply step_import|]. eapply rtc_once, (step_promote _ _ _ next_intent example_source _ _ (fst (fst next_promotion))).
  unfold next_sys, next_db, next_promotion. by destruct (promote _ _ _ _ _ _ _) as [[r s] d].
Qed.

Lemma registry_history_witness :
  backed next_sys next_db /\ length (module_versions next_db) = 4%nat.
Proof.
  split; [|vm_compute; reflexivity].
  apply (registry_history example_hash any_schema next_reviews example_sys empty_db next_sys next_db).
  - vm_compute. reflexivity.
  - intros v Hv. by apply elem_of_nil in Hv.
  - exact (proj1 next_history).
Defined.
