(* ===== verification/AuthApi.v ===== *)
(** * The authentication endpoints: auth/api.py and schemas/auth.py

    Every route of the router: its dependency on the current user, the
    validation of its body, its guards and rate limits in their order, and the
    services it calls.  A request works on the session of the auth database
    and on the windows of the rate limiter.  [EmailStr] is the validator of a
    third-party package and an argument; the human-readable messages and the
    rendering of responses are left out.  Lengths are those of the texts. *)

From S2P Require Import Prelude PyText SemVer Json AuthDb AuthService Mfa OAuth Passkey Guards RateLimit.

Open Scope string_scope.
Open Scope list_scope.
Open Scope Z_scope.

(** ** Requests *)

(** The settings only the endpoints read. *)
Record api_settings := {
  auth_mfa_cookie_name : string; refresh_rate_limit_attempts : Z; refresh_rate_limit_window_seconds : Z;
  mfa_totp_issuer : string
}.

(** The rate limiter at the time of the request: its settings, what Redis
    answers, the monotonic clock, and the address [client_ip] finds. *)
Record frontend := {
  limiter_settings : limiter; redis_answer : string -> Z -> option (Z * Z); monotonic : Z; client_ip : string
}.

(** An error response: the exception and its [Retry-After] header. *)
Record failure := { refusal : http_exn; retry_after : option Z }.

Record server := { session : world; limits : windows }.

Definition Api (A : Type) : Type := server -> res failure A * server.

Definition api_ret {A} (a : A) : Api A := fun s => (Ok a, s).
Definition api_raise {A} (x : http_exn) : Api A := fun s => (Err {| refusal := x; retry_after := None |}, s).
Definition api_bind {A B} (m : Api A) (k : A -> Api B) : Api B := fun s =>
  match m s with (Ok a, s) => k a s | (Err x, s) => (Err x, s) end.

Notation "'await' x '<-' m ';' k" := (api_bind m (fun x => k))
  (at level 10, x pattern, m at level 100, k at level 200) : py_scope.
Notation "m '>>>' k" := (api_bind m (fun _ => k))
  (at level 100, k at level 200, right associativity) : py_scope.

(** A service, on the request's session. *)
Definition serve {A} (m : W A) : Api A := fun s =>
  let '(r, w) := m (session s) in
  (match r with Ok a => Ok a | Err x => Err {| refusal := x; retry_after := None |} end,
   {| session := w; limits := limits s |}).

Definition guard (r : res http_exn unit) : Api unit :=
  match r with Ok _ => api_ret tt | Err x => api_raise x end.

(** The validated body of the request, or 422. *)
Definition body {A} (payload : option A) : Api A :=
  match payload with Some a => api_ret a | None => api_raise (HTTPException 422 "RequestValidationError") end.

(** ** Bodies *)

Definition length_between (lo hi : nat) (s : string) : bool :=
  Nat.leb lo (String.length s) && Nat.leb (String.length s) hi.

(** An optional field with bounds. *)
Definition optional_between (lo hi : nat) (s : option string) : bool :=
  match s with Some s => length_between lo hi s | None => true end.

Definition normalize_email (email : string) : string := lower (strip email).

Section Bodies.
Context (email_str : string -> option string).

Record SignupRequest := {
  su_email : string; su_password : string; su_first_name : string; su_last_name : string
}.

Definition signup_body (email password first_name last_name : string) : option SignupRequest :=
  match email_str (normalize_email email) with
  | Some email =>
      if length_between 12 256 password && length_between 0 120 first_name && length_between 0 120 last_name
      then Some {| su_email := email; su_password := password; su_first_name := strip first_name;
                   su_last_name := strip last_name |}
      else None
  | None => None
  end.

Record LoginRequest := { li_email : string; li_password : string }.

Definition login_body (email password : string) : option LoginRequest :=
  match email_str (normalize_email email) with
  | Some email => if length_between 0 256 password then Some {| li_email := email; li_password := password |} else None
  | None => None
  end.

Definition forgot_password_body (email : string) : option string := email_str (normalize_email email).

End Bodies.

(** [exactly_one_code] *)
Definition exactly_one (code recovery_code : option string) : bool :=
  negb (Bool.eqb (given code) (given recovery_code)).

Record MfaVerifyRequest := {
  mv_challenge_token : option string; mv_code : option string; mv_recovery_code : option string
}.

Definition mfa_verify_body (r : MfaVerifyRequest) : option MfaVerifyRequest :=
  if optional_between 32 512 (mv_challenge_token r) && optional_between 6 8 (mv_code r)
     && optional_between 12 32 (mv_recovery_code r) && exactly_one (mv_code r) (mv_recovery_code r)
  then Some r else None.

(** [MfaDisableRequest], and [MfaRegenerateRequest] *)
Record MfaDisableRequest := {
  md_current_password : option string; md_code : option string; md_recovery_code : option string
}.

Definition mfa_disable_body (r : MfaDisableRequest) : option MfaDisableRequest :=
  if optional_between 0 256 (md_current_password r) && optional_between 6 8 (md_code r)
     && optional_between 12 32 (md_recovery_code r) && exactly_one (md_code r) (md_recovery_code r)
  then Some r else None.

(** [pattern=r"^\d{6}$"]: [\d] is a decimal digit, which in this character range is an ASCII one. *)
Definition totp_confirm_body (code : string) : option string :=
  if Nat.eqb (String.length code) 6 && all_chars is_ascii_digit code then Some code else None.

(** A passkey name, stripped. *)
Definition passkey_name_body (name : string) : option string :=
  if length_between 1 120 name && nonempty (strip name) then Some (strip name) else None.

Record PasskeyRegistrationVerifyRequest := {
  pr_ceremony_token : string; pr_credential : members; pr_name : option string
}.

Definition passkey_registration_body (r : PasskeyRegistrationVerifyRequest) : option PasskeyRegistrationVerifyRequest :=
  if length_between 32 512 (pr_ceremony_token r) then
    match pr_name r with
    | None => Some r
    | Some name =>
        match passkey_name_body name with
        | Some name => Some {| pr_ceremony_token := pr_ceremony_token r; pr_credential := pr_credential r;
                               pr_name := Some name |}
        | None => None
        end
    end
  else None.

(** [PasskeyAuthenticationVerifyRequest]; [PasskeyMfaVerifyRequest] has a challenge token. *)
Record PasskeyMfaVerifyRequest := {
  pm_challenge_token : option string; pm_ceremony_token : string; pm_credential : members
}.

Definition passkey_mfa_body (r : PasskeyMfaVerifyRequest) : option PasskeyMfaVerifyRequest :=
  if optional_between 32 512 (pm_challenge_token r) && length_between 32 512 (pm_ceremony_token r) then Some r else None.

Definition token_body (token : string) : option string :=
  if Nat.leb 20 (String.length token) then Some token else None.

Record ResetPasswordRequest := { rp_token : string; rp_password : string; rp_password_confirm : string }.

Definition reset_password_body (r : ResetPasswordRequest) : option ResetPasswordRequest :=
  if length_between 20 512 (rp_token r) && length_between 12 256 (rp_password r)
     && length_between 12 256 (rp_password_confirm r) && eqs (rp_password r) (rp_password_confirm r)
  then Some r else None.

Record ChangePasswordRequest := {
  cp_current_password : string; cp_new_password : string; cp_new_password_confirm : string
}.

Definition change_password_body (r : ChangePasswordRequest) : option ChangePasswordRequest :=
  if length_between 0 256 (cp_current_password r) && length_between 12 256 (cp_new_password r)
     && length_between 12 256 (cp_new_password_confirm r) && eqs (cp_new_password r) (cp_new_password_confirm r)
  then Some r else None.

(** ** Responses *)

(** [UserRead], without the columns the model leaves out. *)
Record UserRead := {
  ur_id : string; ur_email : string; ur_profile : profile; ur_is_active : bool; ur_is_verified : bool;
  ur_email_pending : bool; ur_is_superuser : bool; ur_updated_at : Z; ur_last_login_at : option Z
}.

Definition user_read (u : user) : UserRead :=
  {| ur_id := user_id u; ur_email := email u; ur_profile := profile_of u; ur_is_active := is_active u;
     ur_is_verified := is_verified u; ur_email_pending := email_pending u; ur_is_superuser := is_superuser u;
     ur_updated_at := user_updated_at u; ur_last_login_at := last_login_at u |}.

Record AuthResponse := { ar_user : UserRead; ar_csrf_token : string }.

Record MfaChallengeResponse := {
  mc_challenge_token : string; mc_method : string; mc_preferred_method : string; mc_methods : list string;
  mc_expires_in : Z
}.

Inductive LoginResponse := Session (r : AuthResponse) | Challenged (r : MfaChallengeResponse).

(** [VerificationResponse]; [VerificationSent] is the status of a new message. *)
Inductive VerificationResponse := EmailVerified | EmailAlreadyVerified | VerificationEmailSent.

Record WebAuthnOptionsResponse := { wo_ceremony_token : string; wo_options : options }.

Record PasskeyRead := {
  pk_id : string; pk_name : string; pk_created_at : Z; pk_last_used_at : option Z;
  pk_device_type : option string; pk_backed_up : option bool; pk_transports : option (list json)
}.

Definition passkey_read (c : webauthn_credential) : PasskeyRead :=
  {| pk_id := w_id c; pk_name := w_name c; pk_created_at := w_created_at c; pk_last_used_at := w_last_used_at c;
     pk_device_type := device_type c; pk_backed_up := backed_up c; pk_transports := transports c |}.

Record TotpSetupResponse := {
  ts_secret : string; ts_issuer : string; ts_account_name : string; ts_expires_in : Z
}.

(** What [post_refresh] answers: the JSON error keeps the response's cookies. *)
Inductive RefreshResponse := Refreshed (r : AuthResponse) | RefreshFailed (error : http_exn).

(** ** Endpoints *)

Section Endpoints.
Context (st : settings) (ap : api_settings) (L : libs) (e : env) (f : frontend).

Definition check (key : string) (attempts window : option Z) (code : string) : Api unit := fun s =>
  let '(r, m) := check_rate_limit (limiter_settings f) (redis_answer f) key attempts window None code (monotonic f)
                   (limits s) in
  (match r with
   | Ok _ => Ok tt
   | Err (x, retry) => Err {| refusal := x; retry_after := Some retry |}
   end, {| session := session s; limits := m |}).

(** [check_rate_limit(rate_limit_key(request, scope, discriminator), ...)] *)
Definition check_client (scope : string) (discriminator : option string) (attempts window : option Z) : Api unit :=
  check (rate_limit_key L (client_ip f) scope discriminator) attempts window "RATE_LIMITED".

(** [check_rate_limit(f"{scope}:{user.id}", ...)] *)
Definition check_user (scope : string) (u : user) (attempts window : option Z) : Api unit :=
  check (scope +:+ ":" +:+ user_id u) attempts window "RATE_LIMITED".

(** [hash_token(token)[:24]] *)
Definition fingerprint (token : string) : string := String.substring 0 24 (hash_token L token).

Definition current_user : Api user := serve (get_current_active_user st L e).

(** The response of a session just issued. *)
Definition signed_in (u : user) (amr : option (list string)) : Api AuthResponse :=
  await csrf <- serve (issue_session st L e u amr);
  api_ret {| ar_user := user_read u; ar_csrf_token := csrf |}.

Definition send_mfa_security_email (u : user) (event : string) : W unit :=
  send {| mail_kind := "mfa_security:" +:+ event; mail_to := email u; mail_token := None |}.

Definition post_signup (payload : option SignupRequest) : Api AuthResponse :=
  await p <- body payload;
  check_client "signup" None (Some 10) (Some 3600) >>>
  check_client "signup-account" (Some (su_email p)) (Some 3) (Some 3600) >>>
  await u <- serve (signup st L e (su_email p) (su_password p) (su_first_name p) (su_last_name p));
  signed_in u None.

(** [refresh_failure] *)
Definition refresh_failure (error : http_exn) : Api RefreshResponse :=
  serve (clear_auth_cookies st) >>> api_ret (RefreshFailed error).

(** The errors of a refresh that also clear the browser's session. *)
Definition clears_session (x : http_exn) : bool :=
  match x with
  | HTTPException status code =>
      (status =? 401) || eqs code "ACCOUNT_SELF_DEACTIVATED" || eqs code "ACCOUNT_DISABLED"
  | _ => false
  end.

(** [try: ... except HTTPException]: the session keeps what the service did. *)
Definition on_http_error {A} (m : Api A) (h : http_exn -> option (Api A)) : Api A := fun s =>
  match m s with
  | (Ok a, s) => (Ok a, s)
  | (Err x, s) => match h (refusal x) with Some k => k s | None => (Err x, s) end
  end.

Definition post_refresh : Api RefreshResponse :=
  guard (validate_refresh_origin st e) >>>
  match cookie e (auth_refresh_cookie_name st) with
  | None | Some "" => refresh_failure (HTTPException 401 "REFRESH_TOKEN_MISSING")
  | Some refresh_token =>
      check (rate_limit_key L (client_ip f) "refresh" (Some (fingerprint refresh_token)))
        (Some (refresh_rate_limit_attempts ap)) (Some (refresh_rate_limit_window_seconds ap))
        "REFRESH_RATE_LIMITED" >>>
      on_http_error
        (await (u, csrf) <- serve (refresh_session st L e refresh_token);
         api_ret (Refreshed {| ar_user := user_read u; ar_csrf_token := csrf |}))
        (fun x => if clears_session x then Some (refresh_failure x) else None)
  end.

Definition post_logout : Api unit :=
  serve (validate_csrf st e) >>>
  serve (revoke_current_session st L e (cookie e (auth_refresh_cookie_name st))) >>>
  serve (clear_auth_cookies st).

Definition post_logout_all : Api unit :=
  await u <- current_user;
  serve (validate_csrf st e) >>>
  serve (revoke_all_sessions e (user_id u) true "logout_all") >>>
  serve (clear_auth_cookies st).

Definition get_me : Api UserRead :=
  await u <- current_user;
  api_ret (user_read u).

Definition get_auth_session : Api AuthResponse :=
  await u <- current_user;
  await csrf <- match cookie e (auth_csrf_cookie_name st) with
                | None | Some "" =>
                    await csrf <- serve (create_csrf_token e);
                    serve (set_cookie {| co_name := auth_csrf_cookie_name st; co_value := csrf; co_httponly := false;
                                         co_path := auth_cookie_path st;
                                         co_max_age := refresh_token_expire_days st * 86400 |}) >>>
                    api_ret csrf
                | Some csrf => api_ret csrf
                end;
  api_ret {| ar_user := user_read u; ar_csrf_token := csrf |}.

Definition post_verify_email (payload : option string) : Api VerificationResponse :=
  await token <- body payload;
  await result <- serve (verify_email L e token);
  api_ret (match vr_status result with already_verified => EmailAlreadyVerified | verified => EmailVerified end).

Definition post_resend_verification : Api VerificationResponse :=
  await u <- current_user;
  serve (validate_csrf st e) >>>
  check_user "resend-verification" u None None >>>
  await sent <- serve (resend_verification st L e (user_id u));
  api_ret (if sent then VerificationEmailSent else EmailAlreadyVerified).

Definition post_forgot_password (payload : option string) : Api unit :=
  await email <- body payload;
  check_client "forgot-password" (Some email) None None >>>
  serve (forgot_password st L e email).

Definition post_reset_password (payload : option ResetPasswordRequest) : Api unit :=
  await p <- body payload;
  check_client "reset-password" (Some (fingerprint (rp_token p))) None None >>>
  serve (reset_password L e (rp_token p) (rp_password p)) >>>
  api_ret tt.

Definition post_change_password (payload : option ChangePasswordRequest) : Api unit :=
  await u <- current_user;
  await p <- body payload;
  serve (validate_csrf st e) >>>
  serve (change_password L e u (cp_current_password p) (cp_new_password p)) >>>
  serve (clear_auth_cookies st).

(** The token of the body, else of the cookie. *)
Definition mfa_challenge_token (supplied : option string) : Api string :=
  let token := match supplied with Some (String _ _ as t) => Some t | _ => cookie e (auth_mfa_cookie_name ap) end in
  match token with
  | Some (String _ _ as t) => api_ret t
  | _ => api_raise (HTTPException 400 "MFA_CHALLENGE_MISSING")
  end.

Definition clear_mfa_cookie : Api unit := serve (delete_cookie (auth_mfa_cookie_name ap) "/api/v1/auth/mfa").

Definition post_login (payload : option LoginRequest) : Api LoginResponse :=
  await p <- body payload;
  check_client "login" (Some (li_email p)) None None >>>
  await u <- serve (authenticate L e (li_email p) (li_password p));
  await methods <- serve (available_mfa_methods (user_id u));
  if bool_decide (methods = []) then
    await r <- signed_in u (Some ["pwd"]);
    api_ret (Session r)
  else
    await (token, expires_in) <- serve (create_login_challenge st L e u "password" None);
    await preferred <- serve (or_raise (InternalError "ValueError") (preferred_mfa_method methods));
    api_ret (Challenged
      {| mc_challenge_token := token; mc_method := if existsb (eqs "passkey") methods then "passkey" else "totp";
         mc_preferred_method := preferred; mc_methods := methods; mc_expires_in := expires_in |}).

(** *** Passkeys *)

Definition options_response (c : CeremonyOptions) : WebAuthnOptionsResponse :=
  {| wo_ceremony_token := token c; wo_options := ceremony_options c |}.

Definition post_passkey_registration_options : Api WebAuthnOptionsResponse :=
  await u <- current_user;
  serve (validate_csrf st e) >>>
  guard (require_recent_auth st L e) >>>
  check_user "passkey-register-options" u (Some 5) (Some 600) >>>
  await result <- serve (registration_options st L e u);
  api_ret (options_response result).

Definition post_passkey_registration_verify (payload : option PasskeyRegistrationVerifyRequest) : Api PasskeyRead :=
  await u <- current_user;
  await p <- body payload;
  serve (validate_csrf st e) >>>
  guard (require_recent_auth st L e) >>>
  check_user "passkey-register-verify" u (Some 5) (Some 600) >>>
  await record <- serve (verify_registration st L e u (pr_ceremony_token p) (pr_credential p) (pr_name p));
  serve (send_mfa_security_email u "passkey_added") >>>
  api_ret (passkey_read record).

Definition post_passkey_login_options : Api WebAuthnOptionsResponse :=
  check_client "passkey-login-options" None (Some 10) (Some 300) >>>
  await result <- serve (authentication_options st L e None passkey_authenticate None);
  api_ret (options_response result).

Definition post_passkey_login_verify (payload : option PasskeyMfaVerifyRequest) : Api AuthResponse :=
  await p <- body payload;
  check_client "passkey-login-verify" None (Some 8) (Some 300) >>>
  await u <- serve (verify_passwordless_login st L e (pm_ceremony_token p) (pm_credential p));
  signed_in u (Some ["webauthn"]).

Definition post_mfa_passkey_options (payload : option (option string)) : Api WebAuthnOptionsResponse :=
  await supplied <- body payload;
  await challenge_token <- mfa_challenge_token supplied;
  check_client "passkey-mfa-options" (Some (fingerprint challenge_token)) (Some 5) (Some 300) >>>
  await result <- serve (mfa_options st L e challenge_token);
  api_ret (options_response result).

Definition get_mfa_challenge : Api ChallengeDetails :=
  await challenge_token <- mfa_challenge_token None;
  check_client "mfa-challenge" (Some (fingerprint challenge_token)) (Some 10) (Some 300) >>>
  serve (login_challenge_details L e challenge_token).

(** ["oauth" if primary_method.startswith("oauth") else "pwd"] *)
Definition primary_amr (primary_method : string) : string :=
  if startswith "oauth" primary_method then "oauth" else "pwd".

Definition post_mfa_passkey_verify (payload : option PasskeyMfaVerifyRequest) : Api AuthResponse :=
  await p <- body payload;
  await challenge_token <- mfa_challenge_token (pm_challenge_token p);
  check_client "passkey-mfa-verify" (Some (fingerprint challenge_token)) (Some 5) (Some 300) >>>
  await (u, primary_method) <- serve (verify_mfa st L e challenge_token (pm_ceremony_token p) (pm_credential p));
  await r <- signed_in u (Some [primary_amr primary_method; "webauthn"]);
  clear_mfa_cookie >>>
  api_ret r.

Definition post_passkey_reauth_options : Api WebAuthnOptionsResponse :=
  await u <- current_user;
  serve (validate_csrf st e) >>>
  check_user "passkey-reauth-options" u (Some 5) (Some 300) >>>
  await result <- serve (authentication_options st L e (Some (user_id u)) passkey_step_up None);
  api_ret (options_response result).

Definition post_passkey_reauth_verify (payload : option PasskeyMfaVerifyRequest) : Api AuthResponse :=
  await u <- current_user;
  await p <- body payload;
  serve (validate_csrf st e) >>>
  check_user "passkey-reauth-verify" u (Some 5) (Some 300) >>>
  await verified_user <- serve (verify_reauthentication st L e (user_id u) (pm_ceremony_token p) (pm_credential p));
  serve (revoke_current_session st L e (cookie e (auth_refresh_cookie_name st))) >>>
  signed_in verified_user (Some ["webauthn"]).

(** *** Second factors *)

Definition post_mfa_verify (payload : option MfaVerifyRequest) : Api AuthResponse :=
  await p <- body payload;
  await challenge_token <- mfa_challenge_token (mv_challenge_token p);
  check (rate_limit_key L (client_ip f) "mfa-verify" (Some (fingerprint challenge_token)))
    (Some (mfa_max_attempts st)) (Some (mfa_challenge_expire_seconds st)) "MFA_TOO_MANY_ATTEMPTS" >>>
  await (u, factor, primary_method) <-
    serve (verify_login_challenge st L e challenge_token (mv_code p) (mv_recovery_code p));
  await r <- signed_in u (Some [primary_amr primary_method; if eqs factor "totp" then "otp" else "recovery"]);
  serve (when (eqs factor "recovery") (send_mfa_security_email u "recovery_used")) >>>
  clear_mfa_cookie >>>
  api_ret r.

Definition get_mfa_security : Api SecurityStatus :=
  await u <- current_user;
  serve (security_status (user_id u)).

Definition post_totp_setup : Api TotpSetupResponse :=
  await u <- current_user;
  serve (validate_csrf st e) >>>
  guard (require_recent_auth st L e) >>>
  check_user "mfa-setup" u (Some 3) (Some 600) >>>
  await secret <- serve (start_totp_setup st L e u);
  api_ret {| ts_secret := secret; ts_issuer := mfa_totp_issuer ap; ts_account_name := email u;
             ts_expires_in := mfa_setup_expire_seconds st |}.

Definition post_totp_confirm (payload : option string) : Api (list string) :=
  await u <- current_user;
  await code <- body payload;
  serve (validate_csrf st e) >>>
  check_user "mfa-confirm" u (Some 5) (Some 600) >>>
  await codes <- serve (confirm_totp_setup st L e u code);
  serve (revoke_other_sessions st L e (user_id u) "mfa_enabled") >>>
  serve (send_mfa_security_email u "enabled") >>>
  api_ret codes.

Definition post_recovery_codes (payload : option MfaDisableRequest) : Api (list string) :=
  await u <- current_user;
  await p <- body payload;
  serve (validate_csrf st e) >>>
  check_user "mfa-recovery-regenerate" u (Some 3) (Some 600) >>>
  await codes <- serve (regenerate_recovery_codes st L e u (md_current_password p) (md_code p) (md_recovery_code p));
  serve (revoke_other_sessions st L e (user_id u) "mfa_recovery_regenerated") >>>
  serve (send_mfa_security_email u "recovery_regenerated") >>>
  api_ret codes.

Definition delete_totp (payload : option MfaDisableRequest) : Api unit :=
  await u <- current_user;
  await p <- body payload;
  serve (validate_csrf st e) >>>
  check_user "mfa-disable" u (Some 3) (Some 600) >>>
  serve (disable_mfa st L e u (md_current_password p) (md_code p) (md_recovery_code p)) >>>
  serve (clear_auth_cookies st) >>>
  serve (send_mfa_security_email u "disabled").

(** *** The router *)

(** A request, with its body when it is valid. *)
Inductive auth_request :=
| PostSignup (p : option SignupRequest)
| PostRefresh
| PostLogout
| PostLogoutAll
| GetMe
| GetAuthSession
| PostVerifyEmail (p : option string)
| PostResendVerification
| PostForgotPassword (p : option string)
| PostResetPassword (p : option ResetPasswordRequest)
| PostChangePassword (p : option ChangePasswordRequest)
| PostLogin (p : option LoginRequest)
| PostPasskeyRegistrationOptions
| PostPasskeyRegistrationVerify (p : option PasskeyRegistrationVerifyRequest)
| PostPasskeyLoginOptions
| PostPasskeyLoginVerify (p : option PasskeyMfaVerifyRequest)
| PostMfaPasskeyOptions (p : option (option string))
| GetMfaChallenge
| PostMfaPasskeyVerify (p : option PasskeyMfaVerifyRequest)
| PostPasskeyReauthOptions
| PostPasskeyReauthVerify (p : option PasskeyMfaVerifyRequest)
| PostMfaVerify (p : option MfaVerifyRequest)
| GetMfaSecurity
| PostTotpSetup
| PostTotpConfirm (p : option string)
| PostRecoveryCodes (p : option MfaDisableRequest)
| DeleteTotp (p : option MfaDisableRequest).

Definition ignore {A} (m : Api A) : Api unit := m >>> api_ret tt.

Definition auth_router (r : auth_request) : Api unit :=
  match r with
  | PostSignup p => ignore (post_signup p)
  | PostRefresh => ignore post_refresh
  | PostLogout => post_logout
  | PostLogoutAll => post_logout_all
  | GetMe => ignore get_me
  | GetAuthSession => ignore get_auth_session
  | PostVerifyEmail p => ignore (post_verify_email p)
  | PostResendVerification => ignore post_resend_verification
  | PostForgotPassword p => post_forgot_password p
  | PostResetPassword p => post_reset_password p
  | PostChangePassword p => post_change_password p
  | PostLogin p => ignore (post_login p)
  | PostPasskeyRegistrationOptions => ignore post_passkey_registration_options
  | PostPasskeyRegistrationVerify p => ignore (post_passkey_registration_verify p)
  | PostPasskeyLoginOptions => ignore post_passkey_login_options
  | PostPasskeyLoginVerify p => ignore (post_passkey_login_verify p)
  | PostMfaPasskeyOptions p => ignore (post_mfa_passkey_options p)
  | GetMfaChallenge => ignore get_mfa_challenge
  | PostMfaPasskeyVerify p => ignore (post_mfa_passkey_verify p)
  | PostPasskeyReauthOptions => ignore post_passkey_reauth_options
  | PostPasskeyReauthVerify p => ignore (post_passkey_reauth_verify p)
  | PostMfaVerify p => ignore (post_mfa_verify p)
  | GetMfaSecurity => ignore get_mfa_security
  | PostTotpSetup => ignore post_totp_setup
  | PostTotpConfirm p => ignore (post_totp_confirm p)
  | PostRecoveryCodes p => ignore (post_recovery_codes p)
  | DeleteTotp p => delete_totp p
  end.

(** A whole request: a new session and response; what is not committed is
    lost, and an exception drops the cookies. *)
Definition handle (r : auth_request) (s : server) : res failure unit * list cookie_out * server :=
  let w := session s in
  let start := {| committed := committed w; working := committed w; draws := draws w; commits := commits w;
                  mails := mails w; set_cookies := [] |} in
  let '(x, s) := auth_router r {| session := start; limits := limits s |} in
  (x, (match x with Ok _ => set_cookies (session s) | Err _ => [] end),
   {| session := with_working (committed (session s)) (session s); limits := limits s |}).

End Endpoints.

(** ** Sessions come from authentication *)

(** A property of the sessions that revoking keeps. *)
Record revoking (I : db -> Prop) : Prop := {
  revoking_other : forall d d', user_sessions d' = user_sessions d -> I d -> I d';
  revoking_revoke : forall e reason p d, I d -> I (on_user_sessions (update_where p (revoke_row e reason)) d)
}.

Section Revoking.
Context (I : db -> Prop) (HI : revoking I).

Abbreviation keeps := (always (both I)).

Lemma keeps_other f : (forall d, user_sessions (f d) = user_sessions d) -> keeps (execute f).
Proof. intros Hf. apply always_execute. intros d. by apply (revoking_other I HI). Qed.

Lemma keeps_users f : keeps (execute (on_users f)).
Proof. by apply keeps_other. Qed.
Lemma keeps_verifications f : keeps (execute (on_verification_tokens f)).
Proof. by apply keeps_other. Qed.
Lemma keeps_resets f : keeps (execute (on_reset_tokens f)).
Proof. by apply keeps_other. Qed.
Lemma keeps_methods f : keeps (execute (on_mfa_methods f)).
Proof. by apply keeps_other. Qed.
Lemma keeps_codes f : keeps (execute (on_recovery_codes f)).
Proof. by apply keeps_other. Qed.
Lemma keeps_challenges f : keeps (execute (on_mfa_challenges f)).
Proof. by apply keeps_other. Qed.
Lemma keeps_credentials f : keeps (execute (on_webauthn_credentials f)).
Proof. by apply keeps_other. Qed.
Lemma keeps_ceremonies f : keeps (execute (on_webauthn_challenges f)).
Proof. by apply keeps_other. Qed.
Lemma keeps_audit f : keeps (execute (on_audit_logs f)).
Proof. by apply keeps_other. Qed.

Lemma keeps_revoke e reason p : keeps (execute (on_user_sessions (update_where p (revoke_row e reason)))).
Proof. apply always_execute. intros d. apply (revoking_revoke I HI). Qed.

#[local] Hint Resolve keeps_users keeps_verifications keeps_resets keeps_methods keeps_codes keeps_challenges
  keeps_credentials keeps_ceremonies keeps_audit keeps_revoke : always.

Context (st : settings) (L : libs) (e : env).

(** A service whose statements are all of these. *)
Ltac service := always; eauto with always.

Lemma keeps_update_user i f : keeps (update_user i f).
Proof. apply keeps_users. Qed.
Lemma keeps_get_id i : keeps (get_user_by_id i).
Proof. apply always_query. Qed.
Lemma keeps_get_email m : keeps (get_user_by_email m).
Proof. apply always_query. Qed.
Lemma keeps_add_audit a t c r : keeps (add_audit a t c r).
Proof. apply keeps_audit. Qed.
Lemma keeps_enabled_method uid : keeps (enabled_method uid).
Proof. apply always_query. Qed.
Lemma keeps_update_challenge c f : keeps (update_challenge c f).
Proof. apply keeps_challenges. Qed.
Lemma keeps_update_method c f : keeps (update_method c f).
Proof. apply keeps_methods. Qed.
Lemma keeps_update_ceremony c f : keeps (update_ceremony c f).
Proof. apply keeps_ceremonies. Qed.
Lemma keeps_update_credential c f : keeps (update_credential c f).
Proof. apply keeps_credentials. Qed.
Lemma keeps_delete_cookie n p : keeps (delete_cookie n p).
Proof. apply always_set_cookie. Qed.
Lemma keeps_or_raise {A} x (o : option A) : keeps (or_raise x o).
Proof. unfold or_raise. service. Qed.
Lemma keeps_generate_token : keeps (generate_token e).
Proof. apply always_draw. Qed.

#[local] Hint Resolve keeps_update_user keeps_get_id keeps_get_email keeps_add_audit keeps_enabled_method
  keeps_update_challenge keeps_update_method keeps_update_ceremony keeps_update_credential keeps_delete_cookie
  keeps_or_raise keeps_generate_token : always.

Lemma keeps_refresh_user i : keeps (refresh_user i).
Proof. unfold refresh_user. service. Qed.
Lemma keeps_ensure u b : keeps (ensure_user_can_authenticate e u b).
Proof. unfold ensure_user_can_authenticate. service. Qed.
Lemma keeps_verification_token u : keeps (create_verification_token st L e u).
Proof. unfold create_verification_token. service. Qed.
Lemma keeps_revoke_all uid c r : keeps (revoke_all_sessions e uid c r).
Proof. unfold revoke_all_sessions. service. Qed.
Lemma keeps_clear_cookies : keeps (clear_auth_cookies st).
Proof. unfold clear_auth_cookies. service. Qed.
Lemma keeps_consume m c r : keeps (_consume_factor st L e m c r).
Proof. unfold _consume_factor, _secret_decrypt, _matching_counter. service. Qed.
Lemma keeps_draw_codes n : keeps (draw_codes e n).
Proof. induction n; cbn [draw_codes]; service. Qed.
Lemma keeps_insert_codes uid l : keeps (insert_codes st L e uid l).
Proof. induction l; cbn [insert_codes]; service. Qed.
Lemma keeps_create_ceremony p c u m : keeps (_create_ceremony st L e p c u m).
Proof. unfold _create_ceremony, _request_metadata. service. Qed.
Lemma keeps_locked t p : keeps (_locked_ceremony L e t p).
Proof. unfold _locked_ceremony. service. Qed.
Lemma keeps_failed_ceremony {A} c u a k s : keeps (@failed_ceremony e A c u a k s).
Proof. unfold failed_ceremony, Passkey._audit. service. Qed.
Lemma keeps_response_of p : keeps (response_of p).
Proof. unfold response_of. service. Qed.
Lemma keeps_open_challenge t : keeps (open_challenge L e t).
Proof. unfold open_challenge. service. Qed.

#[local] Hint Resolve keeps_refresh_user keeps_ensure keeps_verification_token keeps_revoke_all keeps_clear_cookies
  keeps_consume keeps_draw_codes keeps_insert_codes keeps_create_ceremony keeps_locked keeps_failed_ceremony
  keeps_response_of keeps_open_challenge : always.

Lemma keeps_replace uid : keeps (_replace_recovery_codes st L e uid).
Proof. unfold _replace_recovery_codes, generate_recovery_codes. service. Qed.
Lemma keeps_sensitive u p c r : keeps (verify_sensitive_action st L e u p c r).
Proof. unfold verify_sensitive_action. service. Qed.
Lemma keeps_user_handle u p : keeps (check_user_handle L u p).
Proof. unfold check_user_handle. service. Qed.
Lemma keeps_credential_id p : keeps (_credential_id L p).
Proof. unfold _credential_id. service. Qed.

#[local] Hint Resolve keeps_replace keeps_sensitive keeps_user_handle keeps_credential_id : always.

Lemma keeps_verify_authentication c p x : keeps (_verify_authentication st L e c p x).
Proof. unfold _verify_authentication, Passkey._audit. service. Qed.

#[local] Hint Resolve keeps_verify_authentication : always.

Lemma keeps_signup m p a b : keeps (signup st L e m p a b).
Proof. unfold signup, on_conflict, send_verification_email. service. Qed.
Lemma keeps_authenticate m p : keeps (authenticate L e m p).
Proof. unfold authenticate. service. Qed.
Lemma keeps_logout t : keeps (revoke_current_session st L e t).
Proof. unfold revoke_current_session, revoke_token_family. service. Qed.
Lemma keeps_verify_email t : keeps (verify_email L e t).
Proof. unfold verify_email. service. Qed.
Lemma keeps_resend u : keeps (resend_verification st L e u).
Proof. unfold resend_verification, send_verification_email. service. Qed.
Lemma keeps_forgot m : keeps (forgot_password st L e m).
Proof. unfold forgot_password, send_password_reset_email. service. Qed.
Lemma keeps_reset t p : keeps (reset_password L e t p).
Proof. unfold reset_password, send_password_changed_email. service. Qed.
Lemma keeps_change u c n : keeps (change_password L e u c n).
Proof. unfold change_password, send_password_changed_email. service. Qed.
Lemma keeps_create_challenge u p r : keeps (create_login_challenge st L e u p r).
Proof. unfold create_login_challenge. service. Qed.
Lemma keeps_details t : keeps (login_challenge_details L e t).
Proof. unfold login_challenge_details, available_mfa_methods. service. Qed.
Lemma keeps_verify_login t c r : keeps (verify_login_challenge st L e t c r).
Proof. unfold verify_login_challenge, close_challenge, failed_attempt, Mfa._audit. service. Qed.
Lemma keeps_start_totp u : keeps (start_totp_setup st L e u).
Proof. unfold start_totp_setup, _secret_encrypt, Mfa._audit. service. Qed.
Lemma keeps_confirm_totp u c : keeps (confirm_totp_setup st L e u c).
Proof. unfold confirm_totp_setup, _secret_decrypt, _matching_counter, Mfa._audit. service. Qed.
Lemma keeps_security uid : keeps (security_status uid).
Proof. unfold security_status. service. Qed.
Lemma keeps_revoke_others u r : keeps (revoke_other_sessions st L e u r).
Proof. unfold revoke_other_sessions, current_family. service. Qed.
Lemma keeps_regenerate u p c r : keeps (regenerate_recovery_codes st L e u p c r).
Proof. unfold regenerate_recovery_codes, Mfa._audit. service. Qed.
Lemma keeps_disable u p c r : keeps (disable_mfa st L e u p c r).
Proof. unfold disable_mfa, Mfa._audit. service. Qed.
Lemma keeps_registration_options u : keeps (registration_options st L e u).
Proof. unfold registration_options, Passkey._audit. service. Qed.
Lemma keeps_verify_registration u t p n : keeps (verify_registration st L e u t p n).
Proof. unfold verify_registration, refresh_credential, Passkey._audit. service. Qed.
Lemma keeps_authentication_options u p m : keeps (authentication_options st L e u p m).
Proof. unfold authentication_options. service. Qed.
Lemma keeps_passwordless t p : keeps (verify_passwordless_login st L e t p).
Proof. unfold verify_passwordless_login, Passkey._audit. service. Qed.
Lemma keeps_reauthentication u t p : keeps (verify_reauthentication st L e u t p).
Proof. unfold verify_reauthentication, Passkey._audit. service. Qed.
Lemma keeps_mfa_options t : keeps (mfa_options st L e t).
Proof. unfold mfa_options. apply always_bind; [service|]. intros. apply keeps_authentication_options. Qed.
Lemma keeps_verify_mfa t c p : keeps (verify_mfa st L e t c p).
Proof. unfold verify_mfa, Passkey._audit. service. Qed.
Lemma keeps_csrf : keeps (validate_csrf st e).
Proof. unfold validate_csrf, compare_digest. service. Qed.
Lemma keeps_current_user : keeps (get_current_active_user st L e).
Proof. unfold get_current_active_user, get_current_user. service. Qed.

End Revoking.

(** Rows that come from rows of a table: same session, not revived; or rows of
    an established user. *)
Definition from (l0 : list user_session) (E : string -> Prop) (d : db) : Prop :=
  Forall (fun x => (exists y, y ∈ l0 /\ s_id x = s_id y /\ s_user_id x = s_user_id y /\
                              (live x = true -> live y = true)) \/ E (s_user_id x)) (user_sessions d).

Lemma from_update l0 E d p f :
  (forall x, s_id (f x) = s_id x /\ s_user_id (f x) = s_user_id x /\ live (f x) = false) ->
  from l0 E d -> from l0 E (on_user_sessions (update_where p f) d).
Proof.
  intros Hf Hd. unfold from in *. simpl. rewrite Forall_forall in *. intros x Hx.
  apply elem_of_update_where in Hx as (y & Hy & ->). destruct (p y); [|by apply Hd].
  destruct (Hf y) as (H1 & H2 & H3). rewrite H1, H2, H3. destruct (Hd y Hy) as [(z & ? & ? & ? & _)|]; [left|by right].
  exists z. by split_and!.
Qed.

Lemma from_insert l0 (E : string -> Prop) d x :
  E (s_user_id x) -> from l0 E d -> from l0 E (on_user_sessions (insert x) d).
Proof. intros Hx Hd. unfold from. simpl. apply Forall_app. split; [done|]. apply Forall_singleton. by right. Qed.

Lemma from_revoking l0 E : revoking (from l0 E).
Proof.
  split.
  - intros d d' H. unfold from. by rewrite H.
  - intros e reason p d. by apply from_update.
Qed.

Lemma from_refl E d : from (user_sessions d) E d.
Proof. unfold from. apply Forall_forall. intros x Hx. left. by exists x. Qed.

Section Issue.
Context (st : settings) (L : libs) (e : env) (l0 : list user_session) (E : string -> Prop).

Abbreviation keeps := (always (both (from l0 E))).

(** A session is added for an established user. *)
Lemma keeps_issue u amr : E (user_id u) -> keeps (issue_session st L e u amr).
Proof.
  intros Hu w Hw. unfold issue_session. unfold bind at 1. unfold draw at 1. set (w1 := {| committed := _ |}).
  destruct (session_record_spec st L e u (supply e (draws w)) (Some (timestamp (now e))) amr w1)
    as (access & rt & next & w' & Hrec & Hc & Hwk & _ & _ & _ & Huid & _).
  unfold bind at 1. rewrite Hrec.
  match goal with |- after _ (?m w') => assert (Ha : keeps m) end.
  { unfold create_csrf_token, set_auth_cookies. always. apply always_execute. intros d. apply from_insert. by rewrite Huid. }
  apply Ha. by rewrite Hc, Hwk.
Qed.

(** The presented session may be refreshed. *)
Record refreshable (t : string) (d : db) (payload : claims) (s : user_session) : Prop := {
  ref_named : names_session st L e t d payload s;
  ref_unrotated : rotated_at s = None;
  ref_live : live s = true;
  ref_time : now e < s_expires_at s
}.

Lemma keeps_rotate payload s w :
  both (from l0 E) (committed w) (working w) -> E (s_user_id s) ->
  after (both (from l0 E)) (rotate_session st L e payload s w).
Proof.
  intros Hw Hs. unfold rotate_session, get_user_by_id. unfold bind at 1, query at 1.
  assert (Hrev : forall family reason, keeps (revoke_token_family e family reason)).
  { intros. apply keeps_revoke, from_revoking. }
  destruct (first _ (users (working w))) as [u|] eqn:Hu.
  2: { match goal with |- after _ (?m w) => assert (Ha : keeps m) end; [always; apply Hrev | by apply Ha]. }
  apply first_Some in Hu as [_ Hu]. apply String.eqb_eq in Hu.
  match goal with |- after _ (?m w) => assert (Ha : keeps m) end; [|by apply Ha].
  apply always_bind; [always; first [apply keeps_ensure, from_revoking | apply Hrev]|].
  intros _ w1 Hw1. unfold bind at 1.
  destruct (session_record_spec st L e u (family_id s) (auth_time payload) (amr payload) w1)
    as (access & rt & next & w' & Hrec & Hc & Hwk & _ & _ & _ & Huid & _).
  rewrite Hrec.
  match goal with |- after _ (?m w') => assert (Ha : keeps m) end.
  { unfold create_csrf_token, set_auth_cookies. always; apply always_execute; intros d.
    - by apply from_update.
    - apply from_insert. by rewrite Huid, Hu. }
  apply Ha. by rewrite Hc, Hwk.
Qed.

Lemma keeps_refresh t w :
  both (from l0 E) (committed w) (working w) ->
  (forall payload s, refreshable t (working w) payload s -> E (s_user_id s)) ->
  after (both (from l0 E)) (refresh_session st L e t w).
Proof.
  intros Hw HE. unfold refresh_session. unfold bind at 1.
  destruct (refresh_record st L e t w) as [[[payload s]|x] w1] eqn:Hrec.
  2: { assert (Hp := refresh_record_reads st L e t w). rewrite Hrec in Hp. simpl in *. by subst. }
  apply refresh_record_Ok in Hrec as [-> Hn].
  assert (Hrevoke : forall p r, keeps (execute (on_user_sessions (update_where p (revoke_row e r))))).
  { intros. apply keeps_revoke, from_revoking. }
  destruct (rotated_at s) as [r|] eqn:Hrot.
  { match goal with |- after _ (?m w) => assert (Ha : keeps m) end; [|by apply Ha]. always; try apply Hrevoke.
    apply keeps_add_audit, from_revoking. }
  destruct (live s) eqn:Hlive; cbn [negb]; [|exact Hw].
  destruct (Z.leb_spec (s_expires_at s) (now e)).
  { match goal with |- after _ (?m w) => assert (Ha : keeps m) end; [|by apply Ha]. always; apply Hrevoke. }
  apply keeps_rotate; [done|]. by apply (HE payload).
Qed.

End Issue.

(** *** Requests *)

(** [keeping P m]: whatever the outcome of a request, [P] is kept. *)
Definition kept (P : db -> db -> Prop) {A} (r : res failure A * server) : Prop :=
  P (committed (session (snd r))) (working (session (snd r))).

Definition keeping (P : db -> db -> Prop) {A} (m : Api A) : Prop :=
  forall s, P (committed (session s)) (working (session s)) -> kept P (m s).

Section Keeping.
Context (P : db -> db -> Prop).

Lemma keeping_ret {A} (a : A) : keeping P (api_ret a).
Proof. by intros s. Qed.
Lemma keeping_raise {A} x : keeping P (@api_raise A x).
Proof. by intros s. Qed.
Lemma keeping_guard r : keeping P (guard r).
Proof. by destruct r; intros s. Qed.
Lemma keeping_body {A} (p : option A) : keeping P (body p).
Proof. by destruct p; intros s. Qed.
Lemma keeping_bind {A B} (m : Api A) (k : A -> Api B) :
  keeping P m -> (forall a, keeping P (k a)) -> keeping P (api_bind m k).
Proof.
  intros Hm Hk s Hs. specialize (Hm s Hs). unfold api_bind, kept in *. destruct (m s) as [[a|x] s']; [by apply Hk | done].
Qed.
Lemma keeping_serve {A} (m : W A) : always P m -> keeping P (serve m).
Proof. intros Hm s Hs. specialize (Hm _ Hs). unfold serve, kept, after in *. by destruct (m (session s)) as [r w]. Qed.
Lemma keeping_check f k a w c : keeping P (check f k a w c).
Proof. intros s Hs. unfold check, kept. by destruct (check_rate_limit _ _ _ _ _ _ _ _ _). Qed.
Lemma keeping_http {A} (m : Api A) h :
  keeping P m -> (forall x k, h x = Some k -> keeping P k) -> keeping P (on_http_error m h).
Proof.
  intros Hm Hh s Hs. specialize (Hm s Hs). unfold on_http_error, kept in *. destruct (m s) as [[a|x] s']; [done|].
  destruct (h (refusal x)) eqn:Hx; [by apply (Hh (refusal x)) | done].
Qed.

End Keeping.

(** One step of an endpoint that leaves the session as it is. *)
Definition quiet {A} (m : Api A) : Prop := forall s, session (snd (m s)) = session s.

Lemma quiet_check f k a w c : quiet (check f k a w c).
Proof. intros s. unfold check. by destruct (check_rate_limit _ _ _ _ _ _ _ _ _). Qed.

Lemma quiet_body {A} (p : option A) : quiet (body p).
Proof. by destruct p. Qed.

Lemma quiet_challenge_token ap e t : quiet (mfa_challenge_token ap e t).
Proof. intros s. unfold mfa_challenge_token. by repeat case_match. Qed.

Lemma csrf_reads st e w : snd (validate_csrf st e w) = w.
Proof.
  unfold validate_csrf, compare_digest, bind, ret, raise. destruct (negb _); [done|].
  destruct (cookie e _) as [[|a s]|]; try done. destruct (header e _) as [[|b t]|]; try done.
  destruct (_ && _); [|done]. by destruct (String.eqb _ _).
Qed.

Lemma current_user_reads st L e w : snd (get_current_active_user st L e w) = w.
Proof.
  unfold get_current_active_user, get_current_user, bind, ret, raise, get_user_by_id, query.
  destruct (cookie e _) as [[|a s]|]; try done. destruct (decode_jwt _ _ _ _ _) as [p|[]]; try done.
  destruct (first _ _) as [u|]; [|done]. by destruct (is_active u) eqn:Ha; rewrite ?Ha.
Qed.

Lemma quiet_serve {A} (m : W A) : (forall w, snd (m w) = w) -> quiet (serve m).
Proof. intros Hm s. unfold serve. specialize (Hm (session s)). by destruct (m (session s)). Qed.

Lemma api_bind_keeps P {A B} (m : Api A) (k : A -> Api B) s :
  keeping P m -> P (committed (session s)) (working (session s)) ->
  (forall a s', m s = (Ok a, s') -> P (committed (session s')) (working (session s')) -> kept P (k a s')) ->
  kept P (api_bind m k s).
Proof.
  intros Hm Hs Hk. specialize (Hm s Hs). unfold api_bind, kept in *. destruct (m s) as [[a|x] s'] eqn:H; [|done].
  by apply Hk.
Qed.

Lemma quiet_bind P {A B} (m : Api A) (k : A -> Api B) s :
  quiet m -> P (committed (session s)) (working (session s)) ->
  (forall a s', m s = (Ok a, s') -> session s' = session s -> kept P (k a s')) -> kept P (api_bind m k s).
Proof.
  intros Hq Hs Hk. specialize (Hq s). unfold api_bind, kept in *. destruct (m s) as [[a|x] s'] eqn:H; simpl in Hq.
  - by apply Hk.
  - simpl. by rewrite Hq.
Qed.

Lemma serve_Ok {A} (m : W A) s a s' :
  serve m s = (Ok a, s') -> m (session s) = (Ok a, session s') /\ limits s' = limits s.
Proof.
  unfold serve. destruct (m (session s)) as [[b|x] w]; [|done]. by intros [= <- <-].
Qed.

Lemma commit_cookies e w r w' : commit e w = (r, w') -> set_cookies w' = set_cookies w.
Proof. intros H. apply (f_equal (fun x => set_cookies (snd x))) in H. by simpl in H. Qed.

Lemma authenticate_Ok L e mail password w u w' :
  authenticate L e mail password w = (Ok u, w') ->
  exists u0 hash, u0 ∈ users (working w) /\ lower (email u0) = lower mail /\ password_hash u0 = Some hash /\
    pw_verify L password hash = true /\ is_active u0 = true /\ user_id u = user_id u0 /\
    working w' = on_users (update_where (fun x => eqs (user_id x) (user_id u0)) (set_last_login_at (Some (now e)))) (working w) /\
    committed w' = working w' /\ set_cookies w' = set_cookies w.
Proof.
  unfold authenticate. intros H. unfold bind at 1, get_user_by_email, query in H.
  destruct (first _ _) as [u0|] eqn:Hu; [|done]. apply first_Some in Hu as [Hin Hm]. apply String.eqb_eq in Hm.
  destruct (password_hash u0) as [hash|] eqn:Hh; [|done].
  destruct (nonempty hash && verify_password L password hash) eqn:Hv; [|done]. apply andb_true_iff in Hv as [_ Hv].
  apply bind_Ok in H as (? & w1 & H1 & H). apply ensure_Ok in H1 as [Ha ->].
  apply bind_Ok in H as (? & w2 & H2 & H). unfold update_user, execute in H2. injection H2 as _ <-.
  apply bind_Ok in H as (? & w3 & H3 & H).
  assert (Hk := commit_cookies _ _ _ _ H3). apply commit_Ok in H3 as (Hc & Hw & _). apply refresh_user_Ok in H as [-> Hu].
  apply first_Some in Hu as [_ Hu]. apply String.eqb_eq in Hu.
  exists u0, hash. split_and!; try done. by rewrite Hc, Hw.
Qed.

(** What made a request establish the identity of a user, in the database it
    started from. *)
Section Established.
Context (st : settings) (ap : api_settings) (L : libs) (e : env) (d : db).

(** The challenge token a request presents. *)
Definition presents (supplied : option string) (token : string) : Prop :=
  token <> "" /\ (supplied = Some token \/ cookie e (auth_mfa_cookie_name ap) = Some token).

Inductive established : auth_request -> string -> Prop :=
| by_signup p uid : ~ In uid (map user_id (users d)) -> established (PostSignup (Some p)) uid
| by_refresh t payload s :
    cookie e (auth_refresh_cookie_name st) = Some t -> refreshable st L e t d payload s ->
    established PostRefresh (s_user_id s)
| by_password p u hash :
    u ∈ users d -> lower (email u) = lower (li_email p) -> password_hash u = Some hash ->
    pw_verify L (li_password p) hash = true -> is_active u = true -> methods_of (user_id u) d = [] ->
    established (PostLogin (Some p)) (user_id u)
| by_passkey p c u r :
    first (ceremony_of L (pm_ceremony_token p)) (webauthn_challenges d) = Some c ->
    usable e c passkey_authenticate -> authenticated st L d c (pm_credential p) u r ->
    established (PostPasskeyLoginVerify (Some p)) (w_user_id r)
| by_code p token c m u used d1 :
    presents (mv_challenge_token p) token ->
    first (by_token L token) (mfa_challenges d) = Some c -> answerable st e c ->
    first (enabled_totp (c_user_id c)) (mfa_methods d) = Some m ->
    first (fun u => eqs (user_id u) (c_user_id c)) (users d) = Some u -> is_active u = true ->
    accepted st L e m (mv_code p) (mv_recovery_code p) d d1 used ->
    established (PostMfaVerify (Some p)) (c_user_id c)
| by_second_passkey p token ch c u r :
    presents (pm_challenge_token p) token ->
    first (by_token L token) (mfa_challenges d) = Some ch ->
    c_used_at ch = None -> c_invalidated_at ch = None -> now e < c_expires_at ch ->
    first (ceremony_of L (pm_ceremony_token p)) (webauthn_challenges d) = Some c ->
    usable e c passkey_step_up -> mfa_challenge_id c = Some (c_id ch) ->
    authenticated st L d c (pm_credential p) u r -> w_user_id r = c_user_id ch ->
    established (PostMfaPasskeyVerify (Some p)) (c_user_id ch)
| by_step_up p payload c u u0 r :
    u0 ∈ users d -> token_of st L e u0 payload -> csrf_ok st e \/ ~ In (upper (request_method e)) UNSAFE_METHODS ->
    first (ceremony_of L (pm_ceremony_token p)) (webauthn_challenges d) = Some c ->
    usable e c passkey_step_up -> mfa_challenge_id c = None ->
    authenticated st L d c (pm_credential p) u r -> w_user_id r = user_id u0 ->
    established (PostPasskeyReauthVerify (Some p)) (user_id u0).

End Established.

Lemma challenge_token_Ok ap e supplied s token s' :
  mfa_challenge_token ap e supplied s = (Ok token, s') -> presents ap e supplied token /\ s' = s.
Proof.
  unfold mfa_challenge_token. intros H. split.
  - destruct supplied as [[|a x]|].
    + destruct (cookie e _) as [[|b y]|] eqn:Hc; try done. injection H as <- <-. split; [done|]. by right.
    + injection H as <- <-. split; [done|]. by left.
    + destruct (cookie e _) as [[|b y]|] eqn:Hc; try done. injection H as <- <-. split; [done|]. by right.
  - destruct supplied as [[|a x]|]; [destruct (cookie e _) as [[|b y]|]| |destruct (cookie e _) as [[|b y]|]];
      try done; by injection H as _ <-.
Qed.

(** *** Endpoints that establish nobody *)

Create HintDb sessions.
#[export] Hint Resolve from_revoking keeps_signup keeps_authenticate keeps_logout keeps_revoke_all keeps_verify_email
  keeps_resend keeps_forgot keeps_reset keeps_change keeps_create_challenge keeps_details keeps_verify_login
  keeps_start_totp keeps_confirm_totp keeps_security keeps_revoke_others keeps_regenerate keeps_disable
  keeps_registration_options keeps_verify_registration keeps_authentication_options keeps_passwordless
  keeps_reauthentication keeps_mfa_options keeps_verify_mfa keeps_csrf keeps_current_user keeps_clear_cookies
  keeps_delete_cookie keeps_or_raise : sessions.

#[export] Hint Extern 1 (always _ (available_mfa_methods _)) => apply always_query : sessions.
#[export] Hint Extern 1 (always _ (send_mfa_security_email _ _)) => apply always_send : sessions.
#[export] Hint Extern 1 (always _ (set_cookie _)) => apply always_set_cookie : sessions.
#[export] Hint Extern 1 (always _ (create_csrf_token _)) => apply always_draw : sessions.
#[export] Hint Extern 2 (always _ (when _ _)) => apply always_when : sessions.

Ltac keeping :=
  repeat match goal with
  | |- forall _, _ => intros ?
  | H : Some _ = Some _ |- _ => injection H as <-
  | H : None = Some _ |- _ => discriminate H
  | H : (if ?c then _ else _) = Some _ |- _ => destruct c
  | |- keeping _ (api_bind _ _) => apply keeping_bind
  | |- keeping _ (on_http_error _ _) => apply keeping_http
  | |- keeping _ (api_ret _) => apply keeping_ret
  | |- keeping _ (guard _) => apply keeping_guard
  | |- keeping _ (body _) => apply keeping_body
  | |- keeping _ (check _ _ _ _ _) => apply keeping_check
  | |- keeping _ (serve _) => apply keeping_serve; solve [eauto with sessions]
  | |- keeping _ (if ?c then _ else _) => destruct c
  | |- keeping _ (match ?x with _ => _ end) => destruct x
  end.

Section Router.
Context (st : settings) (ap : api_settings) (L : libs) (e : env) (f : frontend).
Hypothesis window_sane : 0 <= mfa_totp_valid_window st.

Lemma keeping_challenge_token P t : keeping P (mfa_challenge_token ap e t).
Proof. unfold mfa_challenge_token. intros s Hs. unfold kept. by repeat case_match. Qed.

Section Kept.
Context (l0 : list user_session) (E : string -> Prop).

Abbreviation keeps := (keeping (both (from l0 E))).

(** Endpoints that issue no session. *)
Definition issues (r : auth_request) : bool :=
  match r with
  | PostSignup _ | PostRefresh | PostLogin _ | PostPasskeyLoginVerify _ | PostMfaPasskeyVerify _
  | PostPasskeyReauthVerify _ | PostMfaVerify _ => true
  | _ => false
  end.

Lemma keeping_others r : issues r = false -> keeps (auth_router st ap L e f r).
Proof.
  destruct r; try done; intros _; cbn [auth_router]; unfold ignore, post_logout, post_logout_all, get_me, get_auth_session,
    post_verify_email, post_resend_verification, post_forgot_password, post_reset_password, post_change_password,
    post_passkey_registration_options, post_passkey_registration_verify, post_passkey_login_options,
    post_mfa_passkey_options, get_mfa_challenge, post_passkey_reauth_options, get_mfa_security, post_totp_setup,
    post_totp_confirm, post_recovery_codes, delete_totp, current_user, check_client, check_user;
    keeping; apply keeping_challenge_token.
Qed.

Lemma keeping_signed_in u amr : E (user_id u) -> keeps (signed_in st L e u amr).
Proof. intros Hu. unfold signed_in. apply keeping_bind; [by apply keeping_serve, keeps_issue | intros; apply keeping_ret]. Qed.

End Kept.

Lemma signup_Ok mail password a b w u w' :
  signup st L e mail password a b w = (Ok u, w') -> ~ In (user_id u) (map user_id (users (working w))).
Proof.
  unfold signup. intros H. unfold bind at 1, get_user_by_email, query in H. destruct (some _); [done|].
  destruct (hash_password L password) as [hash|]; [|done].
  apply bind_Ok in H as (id & w1 & H1 & H). unfold draw in H1. injection H1 as <- <-.
  apply bind_Ok in H as (? & w2 & H2 & H). unfold execute in H2. injection H2 as _ <-.
  apply bind_Ok in H as (? & w3 & H3 & H). unfold catch in H3. destruct (commit e _) as [[[]|xc] w4] eqn:Hc.
  2: { destruct xc; done. }
  injection H3 as _ <-. apply commit_Ok in Hc as (_ & _ & Hok). apply constraints_users in Hok.
  cbn [working with_working users on_users] in Hok. apply nodup_insert in Hok.
  apply bind_Ok in H as (u1 & w5 & H5 & H). apply refresh_user_Ok in H5 as [_ Hu].
  apply first_Some in Hu as [_ Hu]. apply String.eqb_eq in Hu.
  apply bind_Ok in H as (? & w6 & _ & H). apply bind_Ok in H as (? & w7 & _ & H). injection H as <- <-.
  rewrite Hu. exact Hok.
Qed.

Lemma current_user_serve s u s' :
  current_user st L e s = (Ok u, s') -> s' = s /\ u ∈ users (working (session s)) /\ exists p, token_of st L e u p.
Proof.
  intros H. apply serve_Ok in H as [H Hl]. unfold get_current_active_user in H.
  apply bind_Ok in H as (u0 & w1 & Hu & H). apply current_user_Ok in Hu as (-> & Ha & Hin & Ht).
  rewrite Ha in H. injection H as <- Hw. split; [|done].
  destruct s, s'. simpl in *. by subst.
Qed.

(** *** Endpoints that issue a session *)

Section Issuing.
Context (d : db).

(** What a request keeps when it starts from the database. *)
Definition start (s : server) : Prop := committed (session s) = d /\ working (session s) = d.

Abbreviation kept_for r := (kept (both (from (user_sessions d) (established st ap L e d r)))).

Lemma start_both s E : start s -> both (from (user_sessions d) E) (committed (session s)) (working (session s)).
Proof. intros [-> ->]. split; apply from_refl. Qed.

(** A quiet step of an endpoint. *)
Ltac quietly lemma :=
  match goal with Hs : start ?s |- kept _ (api_bind _ _ ?s) =>
    let x := fresh "a" in let s1 := fresh "s" in let H := fresh "H" in let Hq := fresh "Hq" in
    apply quiet_bind; [apply lemma | by apply start_both |]; intros x s1 H Hq;
    assert (start s1) by (unfold start; rewrite Hq; exact Hs)
  end.

(** A service of an endpoint. *)
Ltac serving :=
  match goal with Hs : start ?s |- kept _ (api_bind _ _ ?s) =>
    let x := fresh "a" in let s1 := fresh "s" in let H := fresh "Hserve" in let Hk := fresh "Hk" in
    apply api_bind_keeps; [apply keeping_serve; eauto with sessions | by apply start_both |];
    intros x s1 H Hk; apply serve_Ok in H as [H _]; destruct Hs as [Hs1 Hs2]; rewrite ?Hs2 in H
  end.

Lemma kept_ignore {A} r (m : Api A) s : kept_for r (m s) -> kept_for r (ignore m s).
Proof. unfold ignore, api_bind, kept. by destruct (m s) as [[a|x] s']. Qed.

Lemma kept_signup p s : start s -> kept_for (PostSignup p) (post_signup st L e f p s).
Proof.
  intros Hs. destruct p as [p|]; [|by apply start_both]. unfold post_signup, check_client.
  quietly (@quiet_body SignupRequest). injection H as <- <-. do 2 quietly quiet_check.
  serving. apply keeping_signed_in; [|done]. apply by_signup. apply signup_Ok in Hserve. by rewrite Hs2 in Hserve.
Qed.

Lemma kept_login p s : start s -> kept_for (PostLogin p) (post_login st L e f p s).
Proof.
  intros Hs. destruct p as [p|]; [|by apply start_both]. unfold post_login, check_client.
  quietly (@quiet_body LoginRequest). injection H as <- <-. quietly quiet_check. serving.
  apply authenticate_Ok in Hserve as (u0 & hash & Hin & Hm & Hh & Hv & Ha & Hid & Hw & _ & _).
  rewrite Hs2 in *.
  apply api_bind_keeps; [apply keeping_serve; eauto with sessions | done |]. intros methods s3 H3 Hk3.
  apply serve_Ok in H3 as [H3 _]. unfold available_mfa_methods, query in H3. injection H3 as <- Hs3.
  case_bool_decide as Hmethods.
  - apply keeping_bind; [|intros; apply keeping_ret|done]. apply keeping_signed_in. rewrite Hid.
    eapply by_password; try done. rewrite Hw, Hid in Hmethods. exact Hmethods.
  - revert Hk3. apply keeping_bind; [apply keeping_serve; eauto with sessions|]. intros [tok exp].
    apply keeping_bind; [apply keeping_serve; eauto with sessions | intros; apply keeping_ret].
Qed.

Lemma kept_passkey p s : start s -> kept_for (PostPasskeyLoginVerify p) (post_passkey_login_verify st L e f p s).
Proof.
  intros Hs. destruct p as [p|]; [|by apply start_both]. unfold post_passkey_login_verify, check_client.
  quietly (@quiet_body PasskeyMfaVerifyRequest). injection H as <- <-. quietly quiet_check. serving.
  apply passwordless_Ok in Hserve as (c & u0 & r & Hc & Hu & Ha & Hid & _). rewrite Hs2 in *.
  apply keeping_signed_in; [|done]. rewrite Hid. by eapply by_passkey.
Qed.

(** After the session is issued nothing else touches the tables. *)
Lemma kept_after_session {A} E u amr (k : AuthResponse -> Api A) s :
  E (user_id u) -> (forall r, keeping (both (from (user_sessions d) E)) (k r)) ->
  both (from (user_sessions d) E) (committed (session s)) (working (session s)) ->
  kept (both (from (user_sessions d) E)) (api_bind (signed_in st L e u amr) k s).
Proof. intros Hu Hk. by apply keeping_bind; [apply keeping_signed_in|]. Qed.

Lemma kept_mfa p s : start s -> kept_for (PostMfaVerify p) (post_mfa_verify st ap L e f p s).
Proof.
  intros Hs. destruct p as [p|]; [|by apply start_both]. unfold post_mfa_verify.
  quietly (@quiet_body MfaVerifyRequest). injection H as <- <-. quietly (quiet_challenge_token ap e).
  apply challenge_token_Ok in H as [Hp _]. quietly quiet_check. serving. destruct a1 as [[u used] primary].
  apply verify_login_Ok in Hserve as (c & m & u0 & d1 & Hc & Ha & _ & Hm & Hu & Hact & Hacc & _ & _ & _ & _ & _ & Hid);
    [|done]. rewrite Hs2 in *.
  apply kept_after_session; [rewrite Hid; by eapply by_code | | done].
  intros r. apply keeping_bind; [apply keeping_serve; eauto with sessions|]. intros _.
  apply keeping_bind; [apply keeping_serve; eauto with sessions | intros; apply keeping_ret].
Qed.

Lemma kept_mfa_passkey p s :
  start s -> kept_for (PostMfaPasskeyVerify p) (post_mfa_passkey_verify st ap L e f p s).
Proof.
  intros Hs. destruct p as [p|]; [|by apply start_both]. unfold post_mfa_passkey_verify, check_client.
  quietly (@quiet_body PasskeyMfaVerifyRequest). injection H as <- <-. quietly (quiet_challenge_token ap e).
  apply challenge_token_Ok in H as [Hp _]. quietly quiet_check. serving. destruct a1 as [u primary].
  apply passkey_mfa_Ok in Hserve as (ch & c & u0 & r & Hch & Hu & Hi & Hx & _ & Hc & Huse & Hm & _ & Ha & Hr & Hid & _).
  rewrite Hs2 in *. apply kept_after_session; [rewrite Hid; by eapply by_second_passkey | | done].
  intros r1. apply keeping_bind; [apply keeping_serve; eauto with sessions | intros; apply keeping_ret].
Qed.

Lemma kept_reauth p s :
  start s -> kept_for (PostPasskeyReauthVerify p) (post_passkey_reauth_verify st L e f p s).
Proof.
  intros Hs. unfold post_passkey_reauth_verify, check_user.
  quietly (quiet_serve (get_current_active_user st L e) (current_user_reads st L e)).
  apply current_user_serve in H as (-> & Hin & payload & Ht). destruct p as [p|]; [|by apply start_both].
  quietly (@quiet_body PasskeyMfaVerifyRequest). injection H as <- <-.
  quietly (quiet_serve (validate_csrf st e) (csrf_reads st e)). apply serve_Ok in H as [H _].
  apply validate_csrf_Ok in H as [_ Hcsrf]. quietly quiet_check. serving.
  apply reauthentication_Ok in Hserve as (c & u0 & r & Hc & Huse & _ & Hm & Ha & Hr & Hid).
  rewrite Hs2 in *. revert Hk. apply keeping_bind; [apply keeping_serve; eauto with sessions|]. intros _.
  apply keeping_signed_in. rewrite Hid. eapply by_step_up; try done; [by destruct Hs as [_ <-]|].
  destruct (existsb (String.eqb (upper (request_method e))) UNSAFE_METHODS) eqn:Hun.
  - left. apply Hcsrf. apply existsb_exists in Hun as (m & Hm' & He). apply String.eqb_eq in He. by rewrite He.
  - right. intros Hin'. assert (Ht' := List.existsb_exists (String.eqb (upper (request_method e))) UNSAFE_METHODS).
    rewrite Hun in Ht'. destruct Ht' as [_ Ht']. discriminate Ht'. eexists. split; [exact Hin' | apply String.eqb_refl].
Qed.

Lemma kept_refresh s : start s -> kept_for PostRefresh (post_refresh st ap L e f s).
Proof.
  intros Hs. unfold post_refresh. apply quiet_bind; [by destruct (validate_refresh_origin st e) | by apply start_both|].
  intros _ s1 _ Hq. assert (Hs1 : start s1) by (unfold start; by rewrite Hq).
  assert (Hfail : forall x, keeping (both (from (user_sessions d) (established st ap L e d PostRefresh))) (refresh_failure st x)).
  { intros x. unfold refresh_failure. apply keeping_bind; [apply keeping_serve; eauto with sessions | intros; apply keeping_ret]. }
  destruct (cookie e (auth_refresh_cookie_name st)) as [[|c t]|] eqn:Hc; try (apply Hfail; by apply start_both).
  quietly quiet_check. clear H a.
  set (E := established st ap L e d PostRefresh).
  assert (Hr : kept (both (from (user_sessions d) E)) (serve (refresh_session st L e (String c t)) s0)).
  { unfold kept, serve. destruct H0 as [H1 H2].
    assert (Ha := keeps_refresh st L e (user_sessions d) E (String c t) (session s0)).
    destruct (refresh_session _ _ _ _ _) as [r w] eqn:Hw. apply Ha.
    - rewrite H1, H2. split; apply from_refl.
    - rewrite H2. intros payload x Hx. by eapply by_refresh. }
  unfold on_http_error, api_bind at 1. unfold kept in *.
  destruct (serve _ s0) as [[[u csrf]|x] s2]; [exact Hr|]. simpl in *.
  destruct (clears_session (refusal x)); [|exact Hr]. by apply Hfail.
Qed.

Lemma kept_router r s : start s -> kept_for r (auth_router st ap L e f r s).
Proof.
  intros Hs. destruct (issues r) eqn:Hi; [|by apply keeping_others, start_both].
  destruct r; try discriminate Hi; cbn [auth_router]; apply kept_ignore.
  - by apply kept_signup.
  - by apply kept_refresh.
  - by apply kept_login.
  - by apply kept_passkey.
  - by apply kept_mfa_passkey.
  - by apply kept_reauth.
  - by apply kept_mfa.
Qed.

End Issuing.

(** *** Refusals by the rate limiter *)

(** An endpoint up to and including its rate limits: a refusal with
    [Retry-After] left the session alone. *)
Definition limited {A} (m : Api A) : Prop :=
  forall s x s', m s = (Err x, s') -> retry_after x <> None -> session s' = session s.

(** Without a rate limit no refusal has the header. *)
Definition unlimited {A} (m : Api A) : Prop :=
  forall s x s', m s = (Err x, s') -> retry_after x = None.

Lemma limited_unlimited {A} (m : Api A) : unlimited m -> limited m.
Proof. intros Hm s x s' H Hx. by apply Hm in H. Qed.

Lemma limited_check k a w c : limited (check f k a w c).
Proof. intros s x s' H _. assert (Hq := quiet_check f k a w c s). by rewrite H in Hq. Qed.

Lemma limited_bind {A B} (m : Api A) (k : A -> Api B) :
  quiet m -> limited m -> (forall a, limited (k a)) -> limited (api_bind m k).
Proof.
  intros Hq Hm Hk s x s' H Hx. unfold api_bind in H. specialize (Hq s).
  destruct (m s) as [[a|x1] s1] eqn:H1; simpl in Hq.
  - by rewrite (Hk a s1 x s' H Hx).
  - injection H as <- <-. done.
Qed.

Lemma unlimited_bind {A B} (m : Api A) (k : A -> Api B) :
  unlimited m -> (forall a, unlimited (k a)) -> unlimited (api_bind m k).
Proof.
  intros Hm Hk s x s' H. unfold api_bind in H. destruct (m s) as [[a|x1] s1] eqn:H1; [by eapply Hk|].
  injection H as <- _. by eapply Hm.
Qed.

Lemma unlimited_serve {A} (m : W A) : unlimited (serve m).
Proof. intros s x s'. unfold serve. destruct (m (session s)) as [[a|y] w]; [done|]. by intros [= <- _]. Qed.
Lemma unlimited_ret {A} (a : A) : unlimited (api_ret a).
Proof. by intros s x s'. Qed.
Lemma unlimited_raise {A} x : unlimited (@api_raise A x).
Proof. intros s y s'. by intros [= <- _]. Qed.
Lemma unlimited_guard r : unlimited (guard r).
Proof. destruct r; [apply unlimited_ret | apply unlimited_raise]. Qed.
Lemma unlimited_body {A} (p : option A) : unlimited (body p).
Proof. destruct p; [apply unlimited_ret | apply unlimited_raise]. Qed.
Lemma unlimited_token t : unlimited (mfa_challenge_token ap e t).
Proof. unfold mfa_challenge_token. intros s x s'. repeat case_match; by intros [= <- _]. Qed.
Lemma quiet_guard r : quiet (guard r).
Proof. by destruct r. Qed.

Lemma unlimited_http {A} (m : Api A) h :
  unlimited m -> (forall x k, h x = Some k -> unlimited k) -> unlimited (on_http_error m h).
Proof.
  intros Hm Hh s x s' H. unfold on_http_error in H. destruct (m s) as [[a|y] s1] eqn:H1; [done|].
  destruct (h (refusal y)) eqn:Hx; [by eapply Hh|]. injection H as <- _. by eapply Hm.
Qed.

Ltac unlimited :=
  repeat match goal with
  | |- forall _, _ => intros ?
  | H : (if ?c then _ else _) = Some _ |- _ => destruct c
  | H : Some _ = Some _ |- _ => injection H as <-
  | |- unlimited (api_bind _ _) => apply unlimited_bind
  | |- unlimited (on_http_error _ _) => apply unlimited_http
  | |- unlimited (serve _) => apply unlimited_serve
  | |- unlimited (api_ret _) => apply unlimited_ret
  | |- unlimited (api_raise _) => apply unlimited_raise
  | |- unlimited (guard _) => apply unlimited_guard
  | |- unlimited (body _) => apply unlimited_body
  | |- unlimited (mfa_challenge_token _ _ _) => apply unlimited_token
  | |- unlimited (if ?c then _ else _) => destruct c
  | |- unlimited (match ?x with _ => _ end) => destruct x
  end; try done.

(** Quiet steps first, then the rest without a limit. *)
Ltac limited :=
  repeat first
  [ apply limited_unlimited; solve [unlimited]
  | apply limited_bind;
      [ solve [apply quiet_check | apply quiet_body | apply quiet_guard | apply quiet_challenge_token
              | apply quiet_serve, csrf_reads | apply quiet_serve, current_user_reads]
      | first [apply limited_check | apply limited_unlimited; solve [unlimited]]
      | intros ? ]
  | match goal with |- limited (match ?x with _ => _ end) => destruct x end ].

Lemma limited_router r : limited (auth_router st ap L e f r).
Proof.
  assert (Hi : forall A (m : Api A), limited m -> limited (ignore m)).
  { intros A m Hm s x s' H Hx. unfold ignore, api_bind in H. destruct (m s) as [[a|y] s1] eqn:H1; [done|].
    injection H as <- <-. by eapply Hm. }
  destruct r; cbn [auth_router]; try apply Hi; unfold post_signup, post_refresh, post_logout, post_logout_all, get_me,
    get_auth_session, post_verify_email, post_resend_verification, post_forgot_password, post_reset_password,
    post_change_password, post_login, post_passkey_registration_options, post_passkey_registration_verify,
    post_passkey_login_options, post_passkey_login_verify, post_mfa_passkey_options, get_mfa_challenge,
    post_mfa_passkey_verify, post_passkey_reauth_options, post_passkey_reauth_verify, post_mfa_verify, get_mfa_security,
    post_totp_setup, post_totp_confirm, post_recovery_codes, delete_totp, current_user, check_client, check_user,
    signed_in, clear_mfa_cookie, refresh_failure; limited.
Qed.

End Router.

Lemma api_bind_Ok {A B} (m : Api A) (k : A -> Api B) s b s' :
  api_bind m k s = (Ok b, s') -> exists a s1, m s = (Ok a, s1) /\ k a s1 = (Ok b, s').
Proof. unfold api_bind. destruct (m s) as [[a|x] s1]; [|done]. eauto. Qed.

Lemma create_challenge_Ok st L e u primary path w token expires w' :
  create_login_challenge st L e u primary path w = (Ok (token, expires), w') ->
  exists c, c ∈ mfa_challenges (committed w') /\ c_user_id c = user_id u /\ c_token_hash c = hash_token L token /\
    c_attempt_count c = 0 /\ c_used_at c = None /\ c_invalidated_at c = None /\
    c_expires_at c = now e + mfa_challenge_expire_seconds st * second /\
    user_sessions (committed w') = user_sessions (working w) /\ set_cookies w' = set_cookies w.
Proof.
  unfold create_login_challenge. intros H.
  apply bind_Ok in H as (t & w1 & H1 & H). unfold draw in H1. injection H1 as <- <-.
  apply bind_Ok in H as (? & w2 & H2 & H). unfold execute in H2. injection H2 as _ <-.
  apply bind_Ok in H as (id & w3 & H3 & H). unfold draw in H3. injection H3 as <- <-.
  apply bind_Ok in H as (? & w4 & H4 & H). unfold execute in H4. injection H4 as _ <-.
  apply bind_Ok in H as (? & w5 & H5 & H). assert (Hk := commit_cookies _ _ _ _ H5).
  apply commit_Ok in H5 as (Hc & _ & _). unfold ret in H. injection H as <- <- <-. rewrite Hc, Hk.
  eexists. split; [apply elem_of_app; right; apply list_elem_of_singleton; reflexivity|]. split_and!; reflexivity.
Qed.

(** What a new session leaves behind. *)
Lemma issue_Ok st L e u amr w csrf w' :
  issue_session st L e u amr w = (Ok csrf, w') ->
  exists s, committed w' = on_user_sessions (insert s) (working w) /\ s_user_id s = user_id u /\ live s = true /\
    s_expires_at s = now e + refresh_token_expire_days st * day /\
    map co_name (set_cookies w') = map co_name (set_cookies w) ++
      [auth_access_cookie_name st; auth_refresh_cookie_name st; auth_csrf_cookie_name st].
Proof.
  unfold issue_session. intros H. apply bind_Ok in H as (family & w1 & Hd & H). unfold draw in Hd. injection Hd as <- <-.
  set (w1 := {| committed := _ |}) in H. apply bind_Ok in H as ([[access rt] record] & w2 & Hr & H).
  destruct (session_record_spec st L e u (supply e (draws w)) (Some (timestamp (now e))) amr w1)
    as (access' & rt' & next & w2' & Hrec & Hc & Hwk & _ & Hrev & _ & Huid & _ & Hexp).
  assert (Hk : set_cookies w2 = set_cookies w).
  { clear H. by apply (f_equal (fun x => set_cookies (snd x))) in Hr. }
  rewrite Hrec in Hr. injection Hr as <- <- <- <-.
  apply bind_Ok in H as (? & w3 & H3 & H). unfold execute in H3. injection H3 as _ <-.
  apply bind_Ok in H as (? & w4 & H4 & H). assert (Hk4 := commit_cookies _ _ _ _ H4).
  apply commit_Ok in H4 as (Hc4 & _ & _). unfold create_csrf_token, set_auth_cookies in H. w_inv.
  exists next. cbn [committed set_cookies with_working working] in *. rewrite Hc4, Hk4, Hwk. unfold live. rewrite Hrev.
  split_and!; try done. rewrite <- !app_assoc, map_app, Hk. reflexivity.
Qed.

(** ** Properties *)

(** C5. No session without authentication: whatever request the router serves,
    every session in the database afterwards is one that was there before, of
    the same user and not revived, or belongs to a user this very request
    established: it signed up, its refresh token names a live, unexpired
    session of the user, it presented the password of an active user who has
    no second factor, an authenticator signed an open ceremony, or an open
    login challenge was answered with an accepted second factor. *)
Theorem session_established st ap L e f r s x cookies s' :
  0 <= mfa_totp_valid_window st ->
  handle st ap L e f r s = (x, cookies, s') ->
  forall y, y ∈ user_sessions (committed (session s')) ->
  (exists y0, y0 ∈ user_sessions (committed (session s)) /\ s_id y = s_id y0 /\ s_user_id y = s_user_id y0 /\
     (live y = true -> live y0 = true)) \/
  established st ap L e (committed (session s)) r (s_user_id y).
Proof.
  intros Hwin. unfold handle. set (s0 := {| session := _; limits := _ |}).
  assert (Hk := kept_router st ap L e f Hwin (committed (session s)) r s0 (conj eq_refl eq_refl)).
  destruct (auth_router st ap L e f r s0) as [x0 s1]. intros [= <- <- <-] y Hy. simpl in Hy.
  destruct Hk as [Hk _]. unfold from in Hk. rewrite Forall_forall in Hk. by apply Hk.
Qed.

(** C38. A request the rate limiter refuses does nothing else: the refusal
    carries [Retry-After], no row of the database changed, no message was sent
    and no cookie is set. *)
Theorem rate_limited_request_inert st ap L e f r s x cookies s' :
  handle st ap L e f r s = (Err x, cookies, s') -> retry_after x <> None ->
  cookies = [] /\ committed (session s') = committed (session s) /\ mails (session s') = mails (session s).
Proof.
  unfold handle. set (s0 := {| session := _; limits := _ |}). intros H Hx.
  destruct (auth_router st ap L e f r s0) as [x0 s1] eqn:Hr. injection H as -> <- <-.
  assert (Hq := limited_router st ap L e f r s0 x s1 Hr Hx). simpl. by rewrite Hq.
Qed.

(** C6. The password alone opens a session only when the user has no second
    factor: a successful login found an active user by e-mail address whose
    password matches; without a second factor it added exactly one live session
    of the user and set the three cookies, and with one it added no session and
    set no cookie but stored a fresh, unused login challenge of the user under
    the hash of the token it answers with. *)
Theorem login_second_factor st L e f p s r s' :
  post_login st L e f (Some p) s = (Ok r, s') ->
  exists u hash, u ∈ users (working (session s)) /\ lower (email u) = lower (li_email p) /\
    password_hash u = Some hash /\ pw_verify L (li_password p) hash = true /\ is_active u = true /\
    match r with
    | Session a =>
        methods_of (user_id u) (working (session s)) = [] /\ ur_id (ar_user a) = user_id u /\
        (exists x, user_sessions (committed (session s')) = insert x (user_sessions (working (session s))) /\
           s_user_id x = user_id u /\ live x = true) /\
        map co_name (set_cookies (session s')) = map co_name (set_cookies (session s)) ++
          [auth_access_cookie_name st; auth_refresh_cookie_name st; auth_csrf_cookie_name st]
    | Challenged c =>
        mc_methods c = methods_of (user_id u) (working (session s)) /\ mc_methods c <> [] /\
        user_sessions (committed (session s')) = user_sessions (working (session s)) /\
        set_cookies (session s') = set_cookies (session s) /\
        exists ch, ch ∈ mfa_challenges (committed (session s')) /\ c_user_id ch = user_id u /\
          c_token_hash ch = hash_token L (mc_challenge_token c) /\ c_attempt_count ch = 0 /\
          c_used_at ch = None /\ c_invalidated_at ch = None /\
          c_expires_at ch = now e + mfa_challenge_expire_seconds st * second
    end.
Proof.
  unfold post_login, check_client. intros H. apply api_bind_Ok in H as (p' & s0 & Hb & H). injection Hb as <- <-.
  apply api_bind_Ok in H as (? & s1 & Hc & H). assert (Hq := quiet_check f (rate_limit_key L (client_ip f) "login" (Some (li_email p))) None None "RATE_LIMITED" s).
  rewrite Hc in Hq. simpl in Hq. clear Hc. apply api_bind_Ok in H as (u1 & s2 & Ha & H). apply serve_Ok in Ha as [Ha _].
  apply authenticate_Ok in Ha as (u & hash & Hin & Hm & Hh & Hv & Hact & Hid & Hw & Hcm & Hck). rewrite Hq in *.
  exists u, hash. split_and!; try done.
  apply api_bind_Ok in H as (ms & s3 & Hms & H). apply serve_Ok in Hms as [Hms _].
  unfold available_mfa_methods, query in Hms. injection Hms as <- Hs3. rewrite Hid in *.
  assert (Hmeth : methods_of (user_id u) (working (session s2)) = methods_of (user_id u) (working (session s))) by by rewrite Hw.
  assert (Hses : user_sessions (working (session s2)) = user_sessions (working (session s))) by by rewrite Hw.
  rewrite Hmeth in H. case_bool_decide as Hmt.
  - apply api_bind_Ok in H as (a & s4 & Hi & H). unfold api_ret in H. injection H as <- <-.
    unfold signed_in in Hi. apply api_bind_Ok in Hi as (csrf & s5 & Hi & H). injection H as <- <-.
    apply serve_Ok in Hi as [Hi _]. rewrite <- Hs3 in Hi. apply issue_Ok in Hi as (xs & Hx & Hxu & Hxl & _ & Hcks).
    rewrite Hx, Hcks. simpl. rewrite Hses, Hck. split_and!; try done. exists xs. split_and!; try done. congruence.
  - apply api_bind_Ok in H as ([token expires] & s4 & Hi & H). apply serve_Ok in Hi as [Hi _]. rewrite <- Hs3 in Hi.
    apply api_bind_Ok in H as (pref & s5 & Hp & H). injection H as <- <-. cbn [mc_methods mc_challenge_token].
    apply serve_Ok in Hp as [Hp _]. unfold or_raise in Hp. destruct (preferred_mfa_method _); [|done].
    injection Hp as _ Hp. rewrite <- Hp. apply create_challenge_Ok in Hi as (ch & Hch & Huc & Ht & Hn & Hu' & Hi' & He' & Hse & Hcke).
    rewrite Hse, Hcke, Hses. split_and!; try done. exists ch. split_and!; try done. congruence.
Qed.

(** *** Examples *)

Definition example_api : api_settings :=
  {| auth_mfa_cookie_name := "mt"; refresh_rate_limit_attempts := 30; refresh_rate_limit_window_seconds := 60;
     mfa_totp_issuer := "hub" |}.

Definition example_limiter : limiter :=
  {| auth_rate_limit_attempts := 8; auth_rate_limit_window_seconds := 300; redis_backend := false;
     rate_limit_fail_closed := false; limiter_production := false; rate_limit_memory_max_keys := 100 |}.

Definition example_frontend : frontend :=
  {| limiter_settings := example_limiter; redis_answer := fun _ _ => None; monotonic := 7 * second;
     client_ip := "203.0.113.5" |}.

Definition example_credentials : option LoginRequest := login_body Some " X@example.org " "correct horse".

Definition example_server (d : db) : server := {| session := world_of d; limits := [] |}.

Definition example_handle (t : Z) (r : auth_request) (s : server) :=
  handle example_settings example_api example_libs (example_env t "h") example_frontend r s.

Lemma session_established_witness :
  exists cookies s', example_handle 31 (PostLogin example_credentials) (example_server example_d1) = (Ok tt, cookies, s') /\
    length cookies = 3%nat /\ length (user_sessions (committed (session s'))) = 1%nat /\
    forall y, y ∈ user_sessions (committed (session s')) ->
      established example_settings example_api example_libs (example_env 31 "h") example_d1 (PostLogin example_credentials)
        (s_user_id y).
Proof.
  eexists _, _. split; [vm_compute; reflexivity|]. split; [reflexivity|]. split; [reflexivity|]. intros y Hy.
  edestruct (session_established example_settings example_api example_libs (example_env 31 "h") example_frontend
    (PostLogin example_credentials) (example_server example_d1)) as [(y0 & Hy0 & _)|H];
    [vm_compute; discriminate | vm_compute; reflexivity | exact Hy | | exact H].
  vm_compute in Hy0. by apply not_elem_of_nil in Hy0.
Defined.

(** The eight attempts of the window are used up. *)
Definition exhausted : server :=
  {| session := world_of example_d1;
     limits := [(rate_limit_key example_libs "203.0.113.5" "login" (Some "x@example.org"),
                 {| count := 8; expires_at := 60 * second |})] |}.

Lemma rate_limited_request_inert_witness :
  exists cookies s', example_handle 31 (PostLogin example_credentials) exhausted =
      (Err {| refusal := HTTPException 429 "RATE_LIMITED"; retry_after := Some 53 |}, cookies, s') /\
    committed (session s') = example_d1.
Proof.
  eexists _, _. split; [vm_compute; reflexivity|].
  eapply (rate_limited_request_inert example_settings example_api example_libs (example_env 31 "h") example_frontend
    (PostLogin example_credentials) exhausted); [vm_compute; reflexivity | discriminate].
Defined.

Lemma login_second_factor_witness :
  exists c s', post_login example_settings example_libs (example_env 31 "h") example_frontend
      (Some {| li_email := "x@example.org"; li_password := "correct horse" |}) (example_server example_mfa)
      = (Ok (Challenged c), s') /\
    mc_preferred_method c = "totp" /\
    user_sessions (committed (session s')) = user_sessions example_mfa.
Proof.
  eassert (H : post_login example_settings example_libs (example_env 31 "h") example_frontend
    (Some {| li_email := "x@example.org"; li_password := "correct horse" |}) (example_server example_mfa)
    = (Ok (Challenged _), _)); [vm_compute; reflexivity|].
  destruct (login_second_factor _ _ _ _ _ _ _ _ H) as (u & hash & _ & _ & _ & _ & _ & _ & _ & Hs & _).
  eexists _, _. split; [exact H|]. split; [reflexivity|]. exact Hs.
Defined.
