(* ===== verification/AccountApi.v ===== *)
(** * Account and external-login endpoints: auth/users_api.py and auth/oauth_api.py

    The routes of a user's own account and those of a login through GitHub or
    Google, over the account, passkey and external-account services.  A
    redirect is its location; the cookies of the redirect response are those
    of the request's world. *)

From S2P Require Import Prelude PyText SemVer Json Base64 AuthDb AuthService Mfa OAuth Passkey Account Guards OAuthFlow RateLimit AuthApi.

Open Scope string_scope.
Open Scope list_scope.
Open Scope Z_scope.

Section UsersApi.
Context (st : settings) (L : libs) (e : env).

Definition set_profile (p : profile) (u : user) : user :=
  {| user_id := user_id u; email := email u; password_hash := password_hash u; profile_of := p;
     is_active := is_active u; deactivated_at := deactivated_at u; deactivation_reason := deactivation_reason u;
     is_verified := is_verified u; email_pending := email_pending u; is_superuser := is_superuser u;
     user_updated_at := user_updated_at u; last_login_at := last_login_at u |}.

(** [UserUpdate]: a field that is not set, null, or a stripped text. *)
Record UserUpdate := {
  uu_first_name : option (option string); uu_last_name : option (option string);
  uu_display_name : option (option string)
}.

Definition update_field (bound : nat) (v : option (option string)) : option (option (option string)) :=
  match v with
  | Some (Some s) => if Nat.leb (String.length s) bound then Some (Some (Some (strip s))) else None
  | v => Some v
  end.

Definition user_update_body (p : UserUpdate) : option UserUpdate :=
  match update_field 120 (uu_first_name p), update_field 120 (uu_last_name p), update_field 180 (uu_display_name p) with
  | Some f, Some l, Some d => Some {| uu_first_name := f; uu_last_name := l; uu_display_name := d |}
  | _, _, _ => None
  end.

(** The assignments; [None] is a null in a column that has none. *)
Definition apply_update (p : UserUpdate) (x : profile) : option profile :=
  let name (v : option (option string)) (old : string) : option string :=
    match v with None => Some old | Some v => v end in
  match name (uu_first_name p) (first_name x), name (uu_last_name p) (last_name x) with
  | Some f, Some l =>
      Some {| first_name := f; last_name := l;
              display_name := match uu_display_name p with None => display_name x | Some d => d end;
              avatar_url := avatar_url x; roles := roles x |}
  | _, _ => None
  end.

Definition patch_user_me (payload : option UserUpdate) : Api UserRead :=
  await u <- current_user st L e;
  await p <- body payload;
  serve (validate_csrf st e) >>>
  match apply_update p (profile_of u) with
  | None => api_raise IntegrityError
  | Some x =>
      serve (update_user (user_id u) (set_profile x)) >>>
      serve (commit e) >>>
      await u <- serve (refresh_user (user_id u));
      api_ret (user_read u)
  end.

(** [UserOAuthAccountRead], without the creation time. *)
Record UserOAuthAccountRead := {
  oa_id : string; oa_provider : string; oa_username : option string; oa_email : option string;
  oa_profile_url : option string; oa_last_login_at : option Z
}.

Definition account_read (a : oauth_account) : UserOAuthAccountRead :=
  {| oa_id := o_id a; oa_provider := provider a; oa_username := provider_username a; oa_email := provider_email a;
     oa_profile_url := provider_profile_url a; oa_last_login_at := o_last_login_at a |}.

Definition get_user_oauth_accounts : Api (list UserOAuthAccountRead) :=
  await u <- current_user st L e;
  await accounts <- serve (get_for_user (user_id u));
  api_ret (map account_read accounts).

Definition delete_user_oauth_account (provider : string) : Api unit :=
  await u <- current_user st L e;
  serve (validate_csrf st e) >>>
  guard (require_recent_auth st L e) >>>
  serve (unlink_oauth_account e u (normalize_provider provider)).

(** The time of the login the access token names, in microseconds. *)
Definition _access_authenticated_at : option Z :=
  match cookie e (auth_access_cookie_name st) with
  | Some (String _ _ as token) =>
      match decode_jwt st L e token access_type with
      | Ok payload => match auth_time payload with Some t => Some (t * second) | None => None end
      | Err _ => None
      end
  | _ => None
  end.

Definition get_user_passkeys : Api (list PasskeyRead) :=
  await u <- current_user st L e;
  await records <- serve (list_passkeys (user_id u));
  api_ret (map passkey_read records).

Definition patch_user_passkey (credential_id : string) (payload : option string) : Api PasskeyRead :=
  await u <- current_user st L e;
  await name <- body payload;
  serve (validate_csrf st e) >>>
  guard (require_recent_auth st L e) >>>
  await record <- serve (rename_passkey e (user_id u) credential_id name);
  api_ret (passkey_read record).

Definition delete_user_passkey (credential_id : string) : Api unit :=
  await u <- current_user st L e;
  serve (validate_csrf st e) >>>
  guard (require_recent_auth st L e) >>>
  await remaining <- serve (remove_passkey e u credential_id);
  serve (send_mfa_security_email u (if remaining then "passkey_removed" else "passkeys_removed")).

Definition post_deactivate_user_me : Api unit :=
  await u <- current_user st L e;
  serve (validate_csrf st e) >>>
  serve (deactivate_own_account e (user_id u)) >>>
  serve (clear_auth_cookies st).

Record AccountDeletionRequest := { ad_confirmation_text : string; ad_current_password : option string }.

Definition account_deletion_body (r : AccountDeletionRequest) : option AccountDeletionRequest :=
  if length_between 1 32 (ad_confirmation_text r) && optional_between 0 256 (ad_current_password r) then Some r else None.

Definition delete_user_me (payload : option AccountDeletionRequest) : Api unit :=
  await u <- current_user st L e;
  await p <- body payload;
  serve (validate_csrf st e) >>>
  serve (delete_own_account L e (user_id u) (ad_confirmation_text p) (ad_current_password p) _access_authenticated_at
           (account_deletion_recent_auth_seconds st)) >>>
  serve (clear_auth_cookies st).

End UsersApi.

(** ** Login through a provider *)

Section OAuthApi.
Context (os : oauth_settings) (st : settings) (ap : api_settings) (L : libs) (e : env) (f : frontend)
  (email_str : string -> option string) (http : provider_http).

Definition app_url : string := rstrip_url (app_base_url st).

(** The location of a [RedirectResponse] with status 302. *)
Definition redirect : Type := string.

Definition get_oauth_providers : list string := configured_oauth_providers os.

Definition post_complete_oauth_email (payload : option string) : Api VerificationResponse :=
  await u <- current_user st L e;
  await mail <- body payload;
  serve (validate_csrf st e) >>>
  serve (complete_oauth_email st L e u mail) >>>
  api_ret VerificationEmailSent.

(** The cookie of a flow just started. *)
Definition set_oauth_cookie (provider : string) (flow : OAuthFlowState) : W unit :=
  set_cookie {| co_name := oauth_cookie_name provider; co_value := encode_oauth_flow os L e flow; co_httponly := true;
                co_path := "/api/v1/auth/oauth"; co_max_age := 600 |}.

Definition clear_oauth_cookie (provider : string) : Api unit :=
  serve (delete_cookie (oauth_cookie_name provider) "/api/v1/auth/oauth").

Definition oauth_login_error_redirect (code : string) : redirect := app_url +:+ "/anmelden?auth_error=" +:+ code.

(** A query member when there is a value. *)
Definition query_member (name : string) (value : option string) : list (string * string) :=
  match value with Some (String _ _ as v) => [(name, v)] | _ => [] end.

Definition oauth_link_result_redirect (provider : string) (success error : option string) : redirect :=
  app_url +:+ "/profil?" +:+
  urlencode (("provider", normalize_provider provider)
             :: query_member "oauth_link" success ++ query_member "oauth_link_error" error).

Definition oauth_flow_error_redirect (mode provider code : string) : Api redirect :=
  clear_oauth_cookie provider >>>
  api_ret (if eqs mode "link" then oauth_link_result_redirect provider None (Some code)
           else oauth_login_error_redirect code).

Definition flow_error_code (mode : string) : string :=
  if eqs mode "link" then "OAUTH_LINK_FAILED" else "OAUTH_LOGIN_FAILED".

Definition oauth_login (provider : string) (redirect_to : option string) : Api redirect :=
  let provider := normalize_provider provider in
  if negb (provider_is_configured os provider) then api_raise provider_disabled
  else
    check f (rate_limit_key L (client_ip f) ("oauth-start:" +:+ provider) None) None None "RATE_LIMITED" >>>
    await state <- serve (create_oauth_state e);
    await location <- serve (authorization_url os e provider state);
    serve (set_oauth_cookie provider
      {| flow_state := state; flow_mode := "login"; flow_redirect_path := safe_redirect_path redirect_to;
         flow_user_id := None |}) >>>
    api_ret location.

Definition oauth_link (provider : string) : Api redirect :=
  await u <- current_user st L e;
  guard (require_recent_auth st L e) >>>
  let provider := normalize_provider provider in
  if negb (provider_is_configured os provider) then api_raise provider_disabled
  else
    await existing <- serve (get_for_user_provider (user_id u) provider);
    if some existing then
      clear_oauth_cookie provider >>>
      api_ret (oauth_link_result_redirect provider (Some "already_connected") None)
    else
      await state <- serve (create_oauth_state e);
      await location <- serve (authorization_url os e provider state);
      serve (set_oauth_cookie provider
        {| flow_state := state; flow_mode := "link"; flow_redirect_path := "/profil";
           flow_user_id := Some (user_id u) |}) >>>
      api_ret location.

(** The code of an [HTTPException]; other exceptions are not handled. *)
Definition error_code (x : http_exn) : option string :=
  match x with HTTPException _ code => Some code | _ => None end.

(** The callback of a flow that links an account. *)
Definition link_callback (provider : string) (flow : OAuthFlowState) (i : OAuthIdentity) : Api redirect :=
  await current <- serve (get_optional_user st L e);
  match current with
  | Some u =>
      if negb (bool_decide (flow_user_id flow = Some (user_id u))) then oauth_flow_error_redirect "link" provider "AUTH_REQUIRED"
      else
        on_http_error
          (serve (link_oauth_account e u i) >>>
           clear_oauth_cookie provider >>>
           api_ret (oauth_link_result_redirect provider (Some "success") None))
          (fun x => match error_code x with
                    | Some code =>
                        Some (clear_oauth_cookie provider >>>
                              api_ret (oauth_link_result_redirect provider None (Some code)))
                    | None => None
                    end)
  | None => oauth_flow_error_redirect "link" provider "AUTH_REQUIRED"
  end.

(** The end of a login: a challenge when the user has a second factor, else a
    session. *)
Definition finish_login (provider : string) (flow : OAuthFlowState) (u : user) : Api redirect :=
  let redirect_path := if email_pending u then "/profil?oauth_onboarding=email"
                       else safe_redirect_path (Some (flow_redirect_path flow)) in
  await methods <- serve (available_mfa_methods (user_id u));
  if bool_decide (methods = []) then
    serve (issue_session st L e u (Some ["oauth"])) >>>
    clear_oauth_cookie provider >>>
    api_ret (app_url +:+ "/auth/callback?" +:+ urlencode [("redirect", redirect_path)])
  else
    await (token, expires_in) <- serve (create_login_challenge st L e u ("oauth:" +:+ provider) (Some redirect_path));
    serve (set_cookie {| co_name := auth_mfa_cookie_name ap; co_value := token; co_httponly := true;
                         co_path := "/api/v1/auth/mfa"; co_max_age := mfa_challenge_expire_seconds st |}) >>>
    clear_oauth_cookie provider >>>
    api_ret (app_url +:+ "/auth/mfa?" +:+ urlencode [("redirect", redirect_path)]).

Definition login_callback (provider : string) (flow : OAuthFlowState) (i : OAuthIdentity) : Api redirect :=
  fun s =>
  match serve (authenticate_oauth_identity L e i) s with
  | (Ok u, s) => finish_login provider flow u s
  | (Err x, s) => match error_code (refusal x) with
                  | Some code => oauth_flow_error_redirect "login" provider code s
                  | None => (Err x, s)
                  end
  end.

Definition oauth_callback (provider state : string) (code error : option string) : Api redirect :=
  let provider := normalize_provider provider in
  if negb (provider_is_configured os provider) then api_raise provider_disabled
  else
    match decode_oauth_flow os L e (cookie e (oauth_cookie_name provider)) with
    | Err x => api_raise x
    | Ok None =>
        clear_oauth_cookie provider >>> api_ret (oauth_login_error_redirect "INVALID_OAUTH_STATE")
    | Ok (Some flow) =>
        await same <- serve (compare_digest (flow_state flow) state);
        if negb same then oauth_flow_error_redirect (flow_mode flow) provider "INVALID_OAUTH_STATE"
        else
          match code with
          | Some (String _ _ as code) =>
              if given error then oauth_flow_error_redirect (flow_mode flow) provider "OAUTH_ACCESS_DENIED"
              else
                match exchange_oauth_code email_str http provider code with
                | None => oauth_flow_error_redirect (flow_mode flow) provider (flow_error_code (flow_mode flow))
                | Some i => if eqs (flow_mode flow) "link" then link_callback provider flow i
                            else login_callback provider flow i
                end
          | _ => oauth_flow_error_redirect (flow_mode flow) provider "OAUTH_ACCESS_DENIED"
          end
    end.

End OAuthApi.

(** ** Facts *)

Section Callback.
Context (os : oauth_settings) (st : settings) (ap : api_settings) (L : libs) (e : env) (f : frontend)
  (email_str : string -> option string) (http : provider_http).

Section Keeps.
Context (I : db -> Prop) (HI : revoking I).

Abbreviation keeps := (always (both I)).

Lemma keeps_accounts g : keeps (execute (on_oauth_accounts g)).
Proof. apply keeps_other; [done|]. done. Qed.

#[local] Hint Resolve keeps_accounts : always.
#[local] Hint Extern 1 (always _ (get_user_by_id _)) => apply always_query : always.
#[local] Hint Extern 1 (always _ (get_user_by_email _)) => apply always_query : always.
#[local] Hint Extern 1 (always _ (get_by_provider_subject _ _)) => apply always_query : always.
#[local] Hint Extern 1 (always _ (get_for_user_provider _ _)) => apply always_query : always.
#[local] Hint Extern 1 (always _ (update_user _ _)) => apply keeps_update_user, HI : always.
#[local] Hint Extern 1 (always _ (execute (on_users _))) => apply keeps_users, HI : always.
#[local] Hint Extern 1 (always _ (add_audit _ _ _ _)) => apply keeps_add_audit, HI : always.
#[local] Hint Extern 1 (always _ (ensure_user_can_authenticate _ _ _)) => apply keeps_ensure, HI : always.
#[local] Hint Extern 1 (always _ (refresh_user _)) => apply keeps_refresh_user : always.

Lemma keeps_login_linked a u i : keeps (login_linked e a u i).
Proof. unfold login_linked, update_account, verify_matching_provider_email. always. Qed.

#[local] Hint Resolve keeps_login_linked : always.

Lemma keeps_authenticate_oauth i : keeps (authenticate_oauth_identity L e i).
Proof. unfold authenticate_oauth_identity, store_account, flush, login_after_conflict. always. Qed.

Lemma keeps_link u i : keeps (link_oauth_account e u i).
Proof. unfold link_oauth_account, update_account, verify_matching_provider_email, on_conflict, or_raise. always. Qed.

Lemma keeping_clear provider : keeping (both I) (clear_oauth_cookie provider).
Proof. apply keeping_serve, keeps_delete_cookie. Qed.

Lemma keeping_error_redirect mode provider code : keeping (both I) (oauth_flow_error_redirect st mode provider code).
Proof. unfold oauth_flow_error_redirect. apply keeping_bind; [apply keeping_clear | intros; apply keeping_ret]. Qed.

End Keeps.

(** Clearing the cookie touches no table. *)
Lemma clear_quiet_db provider s : committed (session (snd (clear_oauth_cookie provider s))) = committed (session s).
Proof. done. Qed.

Lemma error_redirect_db mode provider code s r s' :
  oauth_flow_error_redirect st mode provider code s = (r, s') -> committed (session s') = committed (session s).
Proof. unfold oauth_flow_error_redirect, api_bind, clear_oauth_cookie, serve, delete_cookie, set_cookie. simpl. by intros [= _ <-]. Qed.

Lemma optional_user_Ok w u w' :
  get_optional_user st L e w = (Ok (Some u), w') ->
  w' = w /\ is_active u = true /\ u ∈ users (working w) /\ exists p, token_of st L e u p.
Proof.
  unfold get_optional_user. destruct (cookie e _) as [[|a s]|] eqn:Hc; try done.
  destruct (decode_jwt _ _ _ _ _) as [p|] eqn:Hd; [|done]. unfold bind, get_user_by_id, query.
  destruct (first _ _) as [u0|] eqn:Hu; [|done]. destruct (is_active u0) eqn:Ha; [|done]. intros [= <- <-].
  apply first_Some in Hu as [Hin Hid]. apply String.eqb_eq in Hid. split_and!; try done.
  exists p, (String a s). split_and!; try done. unfold decode_jwt in Hd.
  destruct (jwt_decode _ _ _ _ _ _ _) as [p'|]; [|done]. destruct (eqs (token_type p') access_type) eqn:Ht; [|done].
  injection Hd as ->. by apply String.eqb_eq in Ht.
Qed.

Lemma optional_user_reads w r w' : get_optional_user st L e w = (r, w') -> w' = w.
Proof.
  unfold get_optional_user. destruct (cookie e _) as [[|a s]|]; try by intros [= _ <-].
  destruct (decode_jwt _ _ _ _ _); [|by intros [= _ <-]]. unfold bind, get_user_by_id, query, ret.
  destruct (first _ _) as [u|]; [|by intros [= _ <-]]. destruct (is_active u); by intros [= _ <-].
Qed.

(** The user a provider vouched for, who has no second factor. *)
Definition vouched (i : OAuthIdentity) (w : world) (uid : string) : Prop :=
  exists u w', authenticate_oauth_identity L e i w = (Ok u, w') /\ methods_of (user_id u) (working w') = [] /\
    user_id u = uid.

Lemma login_callback_sessions l0 provider flow i s r s' :
  both (from l0 (vouched i (session s))) (committed (session s)) (working (session s)) ->
  login_callback st ap L e provider flow i s = (r, s') ->
  from l0 (vouched i (session s)) (committed (session s')).
Proof.
  set (E := vouched i (session s)). intros Hs. unfold login_callback.
  assert (Ha := keeping_serve (both (from l0 E)) (authenticate_oauth_identity L e i) (keeps_authenticate_oauth _ (from_revoking _ _) i) s Hs).
  destruct (serve (authenticate_oauth_identity L e i) s) as [[u|x] s1] eqn:H1; unfold kept in Ha; simpl in Ha.
  - apply serve_Ok in H1 as [H1 _]. unfold finish_login. intros Hf.
    assert (Hk : kept (both (from l0 E)) (finish_login st ap L e provider flow u s1)).
    { unfold finish_login. apply api_bind_keeps; [apply keeping_serve, always_query | done |].
      intros methods s2 H2 Hs2. apply serve_Ok in H2 as [H2 _]. unfold available_mfa_methods, query in H2.
      injection H2 as <- H2. case_bool_decide as Hm.
      - revert Hs2. apply keeping_bind.
        + apply keeping_serve, keeps_issue. by exists u, (session s1).
        + intros _. apply keeping_bind; [apply keeping_clear | intros; apply keeping_ret].
      - revert Hs2. apply keeping_bind; [apply keeping_serve; eauto with sessions|]. intros [token expires].
        apply keeping_bind; [apply keeping_serve, always_set_cookie|]. intros _.
        apply keeping_bind; [apply keeping_clear | intros; apply keeping_ret]. }
    unfold finish_login, kept in Hk. rewrite Hf in Hk. apply Hk.
  - destruct (error_code (refusal x)).
    + intros H. assert (Hk := keeping_error_redirect (from l0 E) "login" provider s0 s1 Ha). unfold kept in Hk. rewrite H in Hk. apply Hk.
    + intros [= _ <-]. apply Ha.
Qed.

Lemma link_committed provider u i s r s' :
  on_http_error
    (serve (link_oauth_account e u i) >>> clear_oauth_cookie provider >>>
     api_ret (oauth_link_result_redirect st provider (Some "success") None))
    (fun x => match error_code x with
              | Some code => Some (clear_oauth_cookie provider >>> api_ret (oauth_link_result_redirect st provider None (Some code)))
              | None => None end) s = (r, s') ->
  committed (session s') = committed (snd (link_oauth_account e u i (session s))).
Proof.
  unfold on_http_error, api_bind, serve. destruct (link_oauth_account e u i (session s)) as [[a|x] w]; cbn.
  - by intros [= _ <-].
  - destruct (error_code x); [by intros [= _ <-] | by intros [= _ <-]].
Qed.

Lemma link_callback_sessions l0 provider flow i s r s' :
  both (from l0 (fun _ => False)) (committed (session s)) (working (session s)) ->
  link_callback st L e provider flow i s = (r, s') ->
  from l0 (fun _ => False) (committed (session s')) /\
  (committed (session s') = committed (session s) \/
   exists u p, u ∈ users (working (session s)) /\ is_active u = true /\ token_of st L e u p /\ flow_user_id flow = Some (user_id u) /\
     committed (session s') = committed (snd (link_oauth_account e u i (session s)))).
Proof.
  intros Hs. unfold link_callback, api_bind at 1. intros H.
  destruct (serve (get_optional_user st L e) s) as [[[u|]|x] s1] eqn:H1.
  - apply serve_Ok in H1 as [H1 _]. assert (Hq := optional_user_reads _ _ _ H1).
    apply optional_user_Ok in H1 as (_ & Ha & Hin & p & Ht). case_bool_decide as Hu; cbn [negb] in H.
    + split; [|right; exists u, p; split_and!; try done; rewrite <- Hq; by eapply link_committed].
      assert (Hk : keeping (both (from l0 (fun _ => False))) (on_http_error
          (serve (link_oauth_account e u i) >>> clear_oauth_cookie provider >>>
           api_ret (oauth_link_result_redirect st provider (Some "success") None))
          (fun x => match error_code x with
                    | Some code => Some (clear_oauth_cookie provider >>>
                              api_ret (oauth_link_result_redirect st provider None (Some code)))
                    | None => None end))).
      { apply keeping_http.
        - apply keeping_bind; [apply keeping_serve, keeps_link, from_revoking|]. intros _.
          apply keeping_bind; [apply keeping_clear | intros; apply keeping_ret].
        - intros x k. destruct (error_code x); [|done]. intros [= <-].
          apply keeping_bind; [apply keeping_clear | intros; apply keeping_ret]. }
      specialize (Hk s1). rewrite Hq in Hk. specialize (Hk Hs). unfold kept in Hk. rewrite H in Hk. apply Hk.
    + apply error_redirect_db in H. rewrite H, Hq. split; [apply Hs | by left].
  - apply serve_Ok in H1 as [H1 _]. apply optional_user_reads in H1. apply error_redirect_db in H. rewrite H, H1.
    split; [apply Hs | by left].
  - injection H as _ <-. unfold serve in H1. destruct (get_optional_user st L e (session s)) as [q w] eqn:Hg.
    apply optional_user_reads in Hg. subst w. destruct q; [done|]. injection H1 as _ <-. split; [apply Hs | by left].
Qed.

(** What an accepted callback of the flow of [mode] may have done to the store
    [s]: a link is [link_oauth_account] of the identity for the signed-in user
    that started the flow, and opens no session; a login opens sessions of the user the provider vouched for. *)
Definition callback_effect (flow : OAuthFlowState) (i : OAuthIdentity) (s s' : server) : Prop :=
  let old := user_sessions (committed (session s)) in
  (flow_mode flow = "link" /\ from old (fun _ => False) (committed (session s')) /\
     exists u p, u ∈ users (working (session s)) /\ is_active u = true /\ token_of st L e u p /\
       flow_user_id flow = Some (user_id u) /\
       committed (session s') = committed (snd (link_oauth_account e u i (session s)))) \/
  (flow_mode flow = "login" /\ from old (vouched i (session s)) (committed (session s'))).

(** C7. A provider's callback changes the store only when it carries back the
    state of a flow cookie this server signed for the provider, with the code the
    provider exchanges for an identity, and then only for the right user: a link
    flow acts for the signed-in, active user who started it and opens no session,
    and after a login flow every session was there before or belongs to the user
    the provider vouched for, who then has no second factor.  A forged, replayed
    to another browser, or refused callback leaves the tables alone. *)
Theorem oauth_callback_sound provider state code error s r s' :
  working (session s) = committed (session s) ->
  oauth_callback os st ap L e email_str http provider state code error s = (r, s') ->
  committed (session s') = committed (session s) \/
  exists value flow k i,
    cookie e (oauth_cookie_name (normalize_provider provider)) = Some value /\
    accepted_flow os L e value flow /\ flow_state flow = state /\ given error = false /\
    code = Some k /\ exchange_oauth_code email_str http (normalize_provider provider) k = Some i /\
    callback_effect flow i s s'.
Proof.
  intros Hs. unfold oauth_callback. destruct (provider_is_configured os _); cbn [negb]; [|intros [= _ <-]; by left].
  destruct (decode_oauth_flow _ _ _ _) as [[flow|]|x] eqn:Hd; [| |intros [= _ <-]; by left].
  2: { intros [= _ <-]. by left. }
  unfold api_bind at 1. unfold serve at 1, compare_digest.
  destruct (all_chars is_ascii (flow_state flow) && all_chars is_ascii state); [|intros [= _ <-]; by left].
  unfold ret at 1. destruct (String.eqb_spec (flow_state flow) state) as [Hst|]; cbn [negb];
    [|intros H%error_redirect_db; left; exact H].
  destruct code as [[|a k]|]; [intros H%error_redirect_db; left; exact H| |intros H%error_redirect_db; left; exact H].
  destruct (given error) eqn:He; [intros H%error_redirect_db; left; exact H|].
  destruct (exchange_oauth_code _ _ _ _) as [i|] eqn:Hi; [|intros H%error_redirect_db; left; exact H].
  destruct (cookie e _) as [value|] eqn:Hc; [|done]. apply decode_flow_Some in Hd as Hacc.
  assert (Hb : forall E, both (from (user_sessions (committed (session s))) E) (committed (session s)) (working (session s)))
    by (intros E; rewrite Hs; split; apply from_refl).
  destruct s as [w lim]. cbn [session limits] in *. unfold eqs.
  destruct (String.eqb_spec (flow_mode flow) "link") as [Hm|Hm]; intros H.
  - apply (link_callback_sessions (user_sessions (committed w)) _ _ _ {| session := w; limits := lim |} _ _ (Hb _)) in H as [Hf [H|Hu]]; [by left | right].
    exists value, flow, (String a k), i. split_and!; try done. left. by split_and!.
  - apply (login_callback_sessions (user_sessions (committed w)) _ _ _ {| session := w; limits := lim |} _ _ (Hb _)) in H. right.
    exists value, flow, (String a k), i. split_and!; try done. right. split; [|done].
    by destruct (acf_mode _ _ _ _ _ Hacc).
Qed.

End Callback.

(** *** Example: the example user links a GitHub account *)

Definition example_http : provider_http :=
  {| fetch_token := fun _ code => if eqs code "k" then Some [("access_token", JStr "t")] else None;
     fetch_profile := fun _ _ => Some [("id", JInt 42); ("login", JStr "octo")];
     fetch_emails := fun _ => Some (JArr [JObj [("email", JStr "o@example.org"); ("primary", JBool true);
                                                       ("verified", JBool true)]]) |}.

(** The request carries the signed cookie of [example_flow] and the access
    token of the user [a]. *)
Definition example_callback_env : env :=
  {| now := 100 * second; supply := example_supply "z"; conflict := fun _ => false; client_host := None;
     header := fun _ => None; request_method := "GET";
     cookie := fun n => if eqs n "at" then Some "access|a|j"
                        else if eqs n (oauth_cookie_name "github")
                        then Some (encode_oauth_flow example_oauth example_flow_libs (example_env 40 "y") example_flow)
                        else None |}.

Definition example_callback (code : option string) :=
  oauth_callback example_oauth example_settings example_api example_flow_libs example_callback_env Some example_http
    "GitHub" "st" code None (example_server example_d2).

Lemma oauth_callback_sound_witness :
  exists s', example_callback (Some "k") = (Ok "http://localhost:3000/profil?provider=github&oauth_link=success", s') /\
    map o_user_id (oauth_accounts (committed (session s'))) = ["a"] /\
    exists flow i, flow_state flow = "st" /\ callback_effect example_settings example_flow_libs example_callback_env flow i
      (example_server example_d2) s'.
Proof.
  eexists. split; [vm_compute; reflexivity|]. split; [reflexivity|].
  edestruct (oauth_callback_sound example_oauth example_settings example_api example_flow_libs example_callback_env Some
    example_http "GitHub" "st" (Some "k") None (example_server example_d2)) as [H|(value & flow & k & i & _ & _ & Hst & _ & _ & _ & H)];
    [reflexivity | vm_compute; reflexivity | vm_compute in H; discriminate H |].
  exists flow, i. split; [exact Hst | exact H].
Defined.
