(* ===== verification/Application.v ===== *)
(** * The composed application: web/backend/app/main.py, api/registry_v2.py and
    api/registry_v1.py

    [create_app] reads the three switches; [respond] is what an application does
    with a GET request: the middleware around it, the route, the database
    session of its dependency, the validation of its parameters, the service and
    the exception handlers.  The file catalogue ([Catalogue]) is loaded; the
    registry database is a snapshot, or [None] while it cannot be reached.
    FastAPI's encoder and what the CORS middleware adds to the Vary header are
    parameters.  The routes of the accounts are in [AuthApi] and [AccountApi].

    [json_api_independent] says that the JSON API gives the same answers whether
    or not the database API is enabled and whatever the state of the database. *)

From Stdlib Require Import QArith_base.
From S2P Require Import Prelude PyText SemVer Json Validate Registry Catalogue RegistryDb RegistryImport RegistryApi.

Open Scope string_scope.
Open Scope list_scope.

(** ** Switches *)

Record Application := { v2_enabled : bool; v1_compat_enabled : bool; auth_enabled : bool }.

(** A switch that is not an argument is read from the environment. *)
Definition switch (argument : option bool) (environ : string -> option string) (name : string) : res exn bool :=
  match argument with
  | Some b => Ok b
  | None =>
      let value := lower (default "false" (environ name)) in
      raise_if (negb (mem value ["true"; "false"])) (ValueError (name +:+ " must be true or false")) ;?
      Ok (String.eqb value "true")
  end.

Definition create_app (v2 v1_compat auth : option bool) (environ : string -> option string) : res exn Application :=
  let? v2 := switch v2 environ "PACKAGES_REGISTRY_V2_API_ENABLED" in
  let? v1_compat := switch v1_compat environ "PACKAGES_REGISTRY_V1_DB_COMPAT_ENABLED" in
  let? auth := switch auth environ "AUTH_ENABLED" in
  Ok {| v2_enabled := v2; v1_compat_enabled := v1_compat; auth_enabled := auth |}.

(** [configure_database] is called. *)
Definition database_enabled (a : Application) : bool := v2_enabled a || v1_compat_enabled a.

(** ** Requests *)

(** The paths of the GET routes; path parameters hold no slash. *)
Inductive Route :=
| RHealth | RPackages | RPackage (module_id : string) | RPackageVersions (module_id : string)
| RPackageVersion (module_id v : string) | RSearch | RPublishers | RPublisher (publisher_id : string)
| RModules | RModule (module_id : string) | RModuleVersions (module_id : string)
| RModuleVersion (module_id v : string) | RModuleChannels (module_id : string)
| RReady | RIndex | RModuleFile (module_id : string) | RLiveness | RElsewhere (path : string).

Definition url_path (r : Route) : string :=
  match r with
  | RHealth => "/api/v1/health"
  | RPackages => "/api/v1/packages"
  | RPackage m => "/api/v1/packages/" +:+ m
  | RPackageVersions m => "/api/v1/packages/" +:+ m +:+ "/versions"
  | RPackageVersion m v => "/api/v1/packages/" +:+ m +:+ "/versions/" +:+ v
  | RSearch => "/api/v1/search"
  | RPublishers => "/api/v1/publishers"
  | RPublisher p => "/api/v1/publishers/" +:+ p
  | RModules => "/api/v1/modules"
  | RModule m => "/api/v1/modules/" +:+ m
  | RModuleVersions m => "/api/v1/modules/" +:+ m +:+ "/versions"
  | RModuleVersion m v => "/api/v1/modules/" +:+ m +:+ "/versions/" +:+ v
  | RModuleChannels m => "/api/v1/modules/" +:+ m +:+ "/channels"
  | RReady => "/ready"
  | RIndex => "/index.json"
  | RModuleFile m => "/modules/" +:+ m +:+ ".json"
  | RLiveness => "/health"
  | RElsewhere path => path
  end.

(** An integer parameter as it comes. *)
Inductive param := Absent | Number (z : Z) | Malformed.

Record Request := {
  route : Route; accept : option string; if_none_match : option string;
  p_q : option string; p_publisher : option string; p_classification : option string; p_channel : option string;
  p_host : option string; p_sdk : option string; p_sort : option string; p_limit : param; p_offset : param
}.

(** ** Replies *)

Inductive content :=
| Detail (detail : string)
| Text (body : option string)
| HealthResponse (packages : nat)
| PackagesBody (page : Catalogue.PackagePage)
| SearchResult (page : Catalogue.PackagePage) (query : string)
| PackageBody (p : Catalogue.PackageDetail)
| ReleasesBody (rs : list release)
| ReleaseBody (r : release)
| PublishersBody (ps : list Catalogue.PublisherSummary)
| PublisherBody (p : Catalogue.PublisherDetail)
| Readiness (revision : string)
| Liveness.

Record reply := {
  status : Z; body_of : content; cache_control : option string; vary_header : option string; etag_header : option string;
  content_type : option string
}.

Definition json_reply (status : Z) (c : content) : reply :=
  {| status := status; body_of := c; cache_control := None; vary_header := None; etag_header := None;
     content_type := Some "application/json" |}.

Definition set_vary (v : option string) (r : reply) : reply :=
  {| status := status r; body_of := body_of r; cache_control := cache_control r; vary_header := v;
     etag_header := etag_header r; content_type := content_type r |}.

Definition set_cache_control (v : string) (r : reply) : reply :=
  {| status := status r; body_of := body_of r; cache_control := Some v; vary_header := vary_header r;
     etag_header := etag_header r; content_type := content_type r |}.

(** A response of [metadata]. *)
Definition metadata_reply (m : Response) : reply :=
  {| status := status_code m; body_of := Text (body m); cache_control := Some "no-cache";
     vary_header := if vary m then Some "Accept" else None; etag_header := Some (etag m); content_type := media_type m |}.

(** ** Routes *)

Inductive app_exn :=
| Http (status : Z) (detail : string)
| Missing (detail : string)
| Unavailable
| Projection
| Unhandled.

(** [NotFound] of the queries, the errors of the projection; a [ValueError] that
    is neither has no handler. *)
Definition of_exn (e : exn) : app_exn := match e with RegistryValidationError _ => Projection | _ => Unhandled end.

Definition queried {A} (r : res RegistryApi.api_exn A) : res app_exn A :=
  match r with
  | Ok a => Ok a
  | Err (RegistryApi.NotFound detail) => Err (Missing detail)
  | Err (RegistryApi.HTTPException s detail) => Err (Http s detail)
  | Err RegistryApi.InvalidSpecifier => Err Unhandled
  | Err (RegistryApi.Raised e) => Err (of_exn e)
  | Err (RegistryApi.Failed V1RepresentabilityError) => Err Projection
  | Err (RegistryApi.Failed (RegistryInvalid e)) => Err (of_exn e)
  | Err (RegistryApi.Failed _) => Err Unhandled
  end.

Definition catalogued {A} (r : res Catalogue.http_exn A) : res app_exn A :=
  match r with
  | Ok a => Ok a
  | Err (Catalogue.NotFound detail) => Err (Http 404 detail)
  | Err (Catalogue.Raised e) => Err (of_exn e)
  end.

Definition unprocessable {A} : res app_exn A := Err (Http 422 "Unprocessable Entity").
Definition not_found {A} : res app_exn A := Err (Http 404 "Not Found").

Definition integer (p : param) (default : Z) : option Z :=
  match p with Absent => Some default | Number z => Some z | Malformed => None end.

(** [Limit] with its default, and [Offset]. *)
Definition window (default : Z) (r : Request) : res app_exn (nat * nat) :=
  match integer (p_limit r) default, integer (p_offset r) 0 with
  | Some limit, Some offset =>
      if Z.leb 1 limit && Z.leb limit 100 && Z.leb 0 offset then Ok (Z.to_nat limit, Z.to_nat offset) else unprocessable
  | _, _ => unprocessable
  end.

Definition at_most (n : nat) (o : option string) : bool := match o with Some s => Nat.leb (String.length s) n | None => true end.
Definition among (l : list string) (o : option string) : bool := match o with Some s => mem s l | None => true end.

(** [Query(..., min_length=1, max_length=200)] *)
Definition required_query (r : Request) : res app_exn string :=
  match p_q r with
  | Some q => if nonempty q && Nat.leb (String.length q) 200 then Ok q else unprocessable
  | None => unprocessable
  end.

(** [jsonable_encoder] on the models of the database API. *)
Record encoders := {
  enc_modules : RegistryPage ModuleSummary -> json; enc_module : ModuleSummary * string -> json;
  enc_versions : RegistryPage PublishedVersion -> json; enc_version : PublishedVersion -> json;
  enc_channels : gmap string index_channel -> json; enc_publishers : RegistryPage (Registry.publisher * nat) -> json;
  enc_publisher : RegistryPublisherDetail -> json
}.

Section Serve.
Context (in_specifier : string -> string -> option bool) (is_version : string -> bool) (parse_float : string -> option Q)
  (schema_valid : string -> json -> bool) (hexdigest : string -> string) (enc : encoders)
  (cors : option string -> option string) (catalogue : list module).

Definition wants (r : Request) : bool := RegistryApi.wants_v2 parse_float (accept r).

Definition answer (r : Request) (v : json) (negotiated : bool) : reply := metadata_reply (metadata hexdigest (if_none_match r) v negotiated).

Definition legacy (c : content) : reply := json_reply 200 c.

Definition packages_route (r : Request) : res app_exn reply :=
  let? w := window 24 r in
  if at_most 200 (p_q r) && at_most 100 (p_publisher r) && among ["first-party"; "reviewed-community"] (p_classification r)
     && among ["stable"; "beta"; "nightly"] (p_channel r) && at_most 50 (p_host r) && at_most 50 (p_sdk r)
     && among ["relevance"; "name"; "id"; "version"] (p_sort r)
  then
    let query := {| q := default "" (p_q r); q_publisher := p_publisher r; q_classification := p_classification r;
                    q_channel := p_channel r; host := p_host r; sdk := p_sdk r; sort := default "relevance" (p_sort r) |} in
    let? page := catalogued (Catalogue.packages in_specifier catalogue query (fst w) (snd w)) in
    Ok (legacy (PackagesBody page))
  else unprocessable.

Definition search_body (q : string) (w : nat * nat) : res app_exn reply :=
  let? page := catalogued (Catalogue.search in_specifier catalogue q (fst w) (snd w)) in
  Ok (legacy (SearchResult page q)).

Definition publishers_body : reply := legacy (PublishersBody (Catalogue.publishers catalogue)).

Definition publisher_body (publisher_id : string) : res app_exn reply :=
  let? p := catalogued (Catalogue.publisher_endpoint catalogue publisher_id) in Ok (legacy (PublisherBody p)).

(** The routes of [router] in main.py, the shared ones aside. *)
Definition legacy_route (r : Request) : res app_exn reply :=
  match route r with
  | RHealth => Ok (legacy (HealthResponse (Catalogue.health catalogue)))
  | RPackages => packages_route r
  | RPackage m => let? p := catalogued (Catalogue.package_endpoint catalogue m) in Ok (legacy (PackageBody p))
  | RPackageVersions m => let? rs := catalogued (Catalogue.versions_endpoint catalogue m) in Ok (legacy (ReleasesBody rs))
  | RPackageVersion m v => let? x := catalogued (Catalogue.version_endpoint catalogue m v) in Ok (legacy (ReleaseBody x))
  | _ => not_found
  end.

(** The shared routes of an application without the database API. *)
Definition shared_v1 (r : Request) : res app_exn reply :=
  match route r with
  | RSearch => let? w := window 8 r in let? q := required_query r in search_body q w
  | RPublishers => Ok publishers_body
  | RPublisher p => publisher_body p
  | _ => not_found
  end.

Section Database.
Context (engine : option registry_db).

(** The session of the dependency, before the parameters are validated. *)
Definition db_service : res app_exn registry_db := of_option Unavailable engine.

(** [shared_service] *)
Definition shared_service (r : Request) : res app_exn (option registry_db) :=
  if wants r then let? d := db_service in Ok (Some d) else Ok None.

Definition negotiated_page {A} (r : Request) (encode : A -> json) (o : option (res RegistryApi.api_exn A)) (other : res app_exn reply)
    : res app_exn reply :=
  match o with Some page => let? page := queried page in Ok (answer r (encode page) true) | None => other end.

Definition shared_v2 (r : Request) : res app_exn reply :=
  match route r with
  | RSearch =>
      let? service := shared_service r in
      let? w := window 8 r in
      let? q := required_query r in
      match service with
      | None => search_body q w
      | Some d => negotiated_page r (enc_modules enc) (RegistryApi.search in_specifier parse_float (accept r) q (fst w) (snd w) d) (search_body q w)
      end
  | RPublishers =>
      let? service := shared_service r in
      let? w := window 50 r in
      match service with
      | None => Ok publishers_body
      | Some d => negotiated_page r (enc_publishers enc)
                    (option_map Ok (publishers_endpoint parse_float (accept r) (fst w) (snd w) d)) (Ok publishers_body)
      end
  | RPublisher p =>
      let? service := shared_service r in
      let? w := window 50 r in
      match service with
      | None => publisher_body p
      | Some d => negotiated_page r (enc_publisher enc)
                    (RegistryApi.publisher_endpoint in_specifier parse_float (accept r) p (fst w) (snd w) d) (publisher_body p)
      end
  | _ => not_found
  end.

(** The routes of the database API. *)
Definition modules_route (r : Request) : res app_exn reply :=
  let? d := db_service in
  match route r with
  | RModules =>
      let? w := window 50 r in
      let f := {| f_module_id := None; f_publisher := p_publisher r; f_classification := p_classification r;
                  f_channel := p_channel r; f_host := p_host r; f_sdk := p_sdk r; f_q := None |} in
      let? page := queried (modules_endpoint in_specifier is_version (fst w) (snd w) f d) in
      Ok (answer r (enc_modules enc page) false)
  | RModule m => let? x := queried (get_module in_specifier m d) in Ok (answer r (enc_module enc x) false)
  | RModuleVersions m =>
      let? w := window 50 r in
      let? page := queried (list_versions m (fst w) (snd w) d) in Ok (answer r (enc_versions enc page) false)
  | RModuleVersion m v => let? x := queried (RegistryApi.version_endpoint m v d) in Ok (answer r (enc_version enc x) false)
  | RModuleChannels m => let? x := queried (get_channels in_specifier m d) in Ok (answer r (enc_channels enc x) false)
  | _ => not_found
  end.

(** [configure_compatibility] *)
Definition compatibility_route (r : Request) : res app_exn reply :=
  let? d := db_service in
  match route r with
  | RIndex => let? index := queried (v1_index schema_valid d) in Ok (answer r (index_json index) false)
  | RModuleFile m => let? x := queried (v1_module schema_valid m d) in Ok (answer r (JObj (module_json x)) false)
  | _ => not_found
  end.

Definition dispatch (a : Application) (r : Request) : res app_exn reply :=
  match route r with
  | RHealth | RPackages | RPackage _ | RPackageVersions _ | RPackageVersion _ _ => legacy_route r
  | RSearch | RPublishers | RPublisher _ => if v2_enabled a then shared_v2 r else shared_v1 r
  | RModules | RModule _ | RModuleVersions _ | RModuleVersion _ _ | RModuleChannels _ =>
      if v2_enabled a then modules_route r else not_found
  | RReady =>
      if database_enabled a then
        let? d := db_service in let? revision := queried (ready d) in Ok (legacy (Readiness revision))
      else not_found
  | RIndex | RModuleFile _ => if v1_compat_enabled a then compatibility_route r else not_found
  | RLiveness => Ok (legacy Liveness)
  | RElsewhere _ => not_found
  end.

(** The exception handlers; [None] for an exception without one. *)
Definition handle (a : Application) (e : app_exn) : option reply :=
  match e with
  | Http s detail => Some (json_reply s (Detail detail))
  | Missing detail => if database_enabled a then Some (set_cache_control "no-cache" (json_reply 404 (Detail detail))) else None
  | Unavailable =>
      if database_enabled a then Some (set_cache_control "no-cache" (json_reply 503 (Detail "Registry database unavailable"))) else None
  | Projection =>
      if v1_compat_enabled a
      then Some (set_cache_control "no-cache" (json_reply 503 (Detail "Registry v1 compatibility verification failed"))) else None
  | Unhandled => None
  end.

(** ** Middleware *)

Definition shared_path (path : string) : bool := String.eqb path "/api/v1/search" || startswith "/api/v1/publishers" path.

(** [s.split(", ")], with the text before [s] in the current part. *)
Fixpoint split_list (part s : string) : list string :=
  match s with
  | "" => [part]
  | String a rest =>
      match rest with
      | String b rest' => if Ascii.eqb a "," && Ascii.eqb b " " then part :: split_list "" rest' else split_list (part +:+ String a "") rest
      | "" => split_list (part +:+ String a "") rest
      end
  end.

Definition accept_listed (vary : string) : bool := mem "accept" (split_list "" (lower vary)).

(** [f"{previous}, Accept" if previous else "Accept"] *)
Definition vary_accept (previous : option string) : string :=
  match previous with Some (String _ _ as v) => v +:+ ", Accept" | _ => "Accept" end.

(** [cache_boundary] of registry_v1.py *)
Definition v1_boundary (path : string) (r : reply) : reply :=
  if mem path ["/index.json"; "/ready"] || (startswith "/modules/" path && endswith ".json" path)
  then set_cache_control "no-cache" r else r.

(** [cache_boundary] of registry_v2.py *)
Definition v2_boundary (path : string) (wanted : bool) (r : reply) : reply :=
  let shared := shared_path path in
  let r := if shared && negb (match vary_header r with Some v => accept_listed v | None => false end)
           then set_vary (Some (vary_accept (vary_header r))) r else r in
  if startswith "/api/v1/modules" path || (shared && wanted) || String.eqb path "/ready"
  then set_cache_control "no-cache" r else r.

(** [disabled_representation] *)
Definition disabled_representation (path : string) (wanted : bool) (inner : option reply) : option reply :=
  let shared := shared_path path in
  if shared && wanted then
    Some (set_vary (Some "Accept") (set_cache_control "no-cache"
      (json_reply 406 (Detail "Registry v2 representation is not enabled"))))
  else option_map (fun r => if shared then set_vary (Some (vary_accept (vary_header r))) r else r) inner.

(** The response to a request, or [None] when an exception leaves the
    application and the server answers 500. *)
Definition respond (a : Application) (r : Request) : option reply :=
  let path := url_path (route r) in
  let routed := match dispatch a r with Ok x => Some x | Err e => handle a e end in
  let inner := option_map (fun x => set_vary (cors (vary_header x)) x) routed in
  let inner := if v1_compat_enabled a then option_map (v1_boundary path) inner else inner in
  if v2_enabled a then option_map (v2_boundary path (wants r)) inner
  else disabled_representation path (wants r) inner.

End Database.
End Serve.

(** ** Vary *)

Lemma split_list_accept x part : "accept" ∈ split_list part (x +:+ ", accept").
Proof.
  remember (String.length x) as n eqn:Hn. revert x part Hn. induction (lt_wf n) as [n _ IH]. intros x part Hn.
  destruct x as [|a x].
  { change (split_list part ("" +:+ ", accept")) with [part; "accept"]. rewrite !elem_of_cons. auto. }
  rewrite sapp_cons.
  assert (forall p, "accept" ∈ split_list p (x +:+ ", accept")) as Hx by (intros p; apply (IH (String.length x)); [subst n; cbn; lia | done]).
  destruct x as [|b y].
  { change (split_list part (String a ("" +:+ ", accept"))) with
      (if Ascii.eqb a "," && false then part :: split_list "" " accept" else [part +:+ String a ""; "accept"]).
    rewrite andb_false_r, !elem_of_cons. auto. }
  rewrite sapp_cons in Hx |- *. change (split_list part (String a (String b (y +:+ ", accept")))) with
    (if Ascii.eqb a "," && Ascii.eqb b " " then part :: split_list "" (y +:+ ", accept")
     else split_list (part +:+ String a "") (String b (y +:+ ", accept"))).
  destruct (Ascii.eqb a "," && Ascii.eqb b " "); [|apply Hx]. rewrite elem_of_cons. right.
  apply (IH (String.length y)); [subst n; cbn; lia | done].
Qed.

Lemma vary_accept_listed v : accept_listed (vary_accept v) = true.
Proof.
  unfold accept_listed. apply mem_true. destruct v as [[|a v]|]; cbn [vary_accept]; [by vm_compute; left | | by vm_compute; left].
  rewrite lower_app. apply split_list_accept.
Qed.

(** Every reply on a shared path tells caches that it depends on Accept. *)
Theorem shared_replies_vary in_specifier is_version parse_float schema_valid hexdigest enc cors catalogue engine a r x :
  shared_path (url_path (route r)) = true ->
  respond in_specifier is_version parse_float schema_valid hexdigest enc cors catalogue engine a r = Some x ->
  exists v, vary_header x = Some v /\ accept_listed v = true.
Proof.
  unfold respond. intros Hs H.
  match type of H with (if _ then option_map _ ?m else _) = _ => generalize dependent m end. intros inner H. destruct (v2_enabled a).
  - destruct inner as [y|]; cbn in H; [|done]. injection H as <-. unfold v2_boundary. rewrite Hs. cbn [andb].
    destruct (vary_header y) as [v|] eqn:Hy; [destruct (accept_listed v) eqn:Hv|]; cbn [negb];
      (destruct (_ || _ || _); cbn [set_cache_control set_vary vary_header]; rewrite ?Hy; eexists; (split; [done|]); by rewrite ?vary_accept_listed).
  - unfold disabled_representation in H. rewrite Hs in H. cbn [andb] in H. destruct (wants parse_float r).
    + injection H as <-. by exists "Accept".
    + destruct inner as [y|]; [|done]. injection H as <-. eexists. split; [done | apply vary_accept_listed].
Qed.

(** ** The JSON API *)

(** The routes that need no database. *)
Definition json_route (r : Route) : bool :=
  match r with
  | RHealth | RPackages | RPackage _ | RPackageVersions _ | RPackageVersion _ _ | RSearch | RPublishers | RPublisher _
  | RLiveness => true
  | _ => false
  end.

Definition shared_route (r : Route) : bool := match r with RSearch | RPublishers | RPublisher _ => true | _ => false end.

Definition publishers_route (r : Route) : bool := match r with RPublishers | RPublisher _ => true | _ => false end.

Lemma json_paths r : json_route r = true ->
  startswith "/api/v1/modules" (url_path r) = false /\ String.eqb (url_path r) "/ready" = false /\
  shared_path (url_path r) = shared_route r /\ mem (url_path r) ["/index.json"; "/ready"] = false /\
  startswith "/modules/" (url_path r) = false.
Proof. by destruct r; intros H; try (by inversion H); vm_compute. Qed.

Lemma v1_boundary_json r x : json_route r = true -> v1_boundary (url_path r) x = x.
Proof. intros H. unfold v1_boundary. destruct (json_paths r H) as (_ & _ & _ & -> & ->). done. Qed.

(** An error that every application handles in the same way. *)
Definition plain (e : app_exn) : Prop := match e with Missing _ | Unavailable => False | _ => True end.

(** A result of the file catalogue: no Vary header, no error of the database. *)
Definition catalogue_result (m : res app_exn reply) : Prop :=
  match m with Ok x => vary_header x = None | Err e => plain e end.

Lemma handle_plain v2 v2' v1 auth auth' e : plain e ->
  handle {| v2_enabled := v2; v1_compat_enabled := v1; auth_enabled := auth |} e =
  handle {| v2_enabled := v2'; v1_compat_enabled := v1; auth_enabled := auth' |} e.
Proof. by destruct e. Qed.

Lemma handle_vary a e x : handle a e = Some x -> vary_header x = None.
Proof. destruct e; cbn; intros H; repeat case_match; by simplify_eq. Qed.

Lemma plain_bind {A} (m : res app_exn A) (k : A -> res app_exn reply) :
  (forall e, m = Err e -> plain e) -> (forall x, catalogue_result (k x)) -> catalogue_result (res_bind m k).
Proof. destruct m; cbn; auto. Qed.

Lemma plain_if (b : bool) (m n : res app_exn reply) :
  catalogue_result m -> catalogue_result n -> catalogue_result (if b then m else n).
Proof. by destruct b. Qed.

Lemma catalogued_plain {A} (m : res Catalogue.http_exn A) e : catalogued m = Err e -> plain e.
Proof. destruct m as [|[d|[]]]; cbn; intros [= <-]; done. Qed.

Lemma window_plain n r e : window n r = Err e -> plain e.
Proof. unfold window. intros H. repeat case_match; unfold unprocessable in *; by simplify_eq. Qed.

Lemma required_plain r e : required_query r = Err e -> plain e.
Proof. unfold required_query. intros H. repeat case_match; unfold unprocessable in *; by simplify_eq. Qed.

Create HintDb json_api.
#[export] Hint Resolve catalogued_plain window_plain required_plain : json_api.

Section Independent.
Context (in_specifier : string -> string -> option bool) (is_version : string -> bool) (parse_float : string -> option Q)
  (schema_valid : string -> json -> bool) (hexdigest : string -> string) (enc : encoders)
  (cors : option string -> option string) (catalogue : list module).

Abbreviation legacy_route := (legacy_route in_specifier catalogue).
Abbreviation shared_v1 := (shared_v1 in_specifier catalogue).
Abbreviation dispatch := (dispatch in_specifier is_version parse_float schema_valid hexdigest enc catalogue).
Abbreviation respond := (respond in_specifier is_version parse_float schema_valid hexdigest enc cors catalogue).
Abbreviation wants := (wants parse_float).

Ltac catalogue := repeat first [done | apply plain_bind; [by eauto with json_api | intros ?]].

Lemma search_catalogue q w : catalogue_result (search_body in_specifier catalogue q w).
Proof. unfold search_body. catalogue. Qed.

Lemma publisher_catalogue p : catalogue_result (publisher_body catalogue p).
Proof. unfold publisher_body. catalogue. Qed.

Lemma packages_catalogue r : catalogue_result (packages_route in_specifier catalogue r).
Proof. unfold packages_route. apply plain_bind; [by eauto with json_api|]. intros w. apply plain_if; [cbv zeta; catalogue | done]. Qed.

Lemma legacy_catalogue r : catalogue_result (legacy_route r).
Proof. unfold Application.legacy_route. case_match; try done; first [apply packages_catalogue | catalogue]. Qed.

Lemma shared_catalogue r : catalogue_result (shared_v1 r).
Proof.
  unfold Application.shared_v1. case_match; try done; [|apply publisher_catalogue].
  apply plain_bind; [by eauto with json_api | intros w]. apply plain_bind; [by eauto with json_api | intros q]. apply search_catalogue.
Qed.

(** Without the media type of the database API the shared routes are the same. *)
Lemma shared_v2_v1 engine r : wants r = false -> (publishers_route (route r) = true -> is_ok (window 50 r) = true) ->
  shared_v2 in_specifier parse_float hexdigest enc catalogue engine r = shared_v1 r.
Proof.
  intros Hw Hp. unfold shared_v2, Application.shared_v1, shared_service. rewrite Hw. cbn [res_bind].
  destruct (route r); try done; destruct (window 50 r); try done; by discriminate (Hp eq_refl).
Qed.

Lemma dispatch_json engine engine' v1 auth auth' r :
  json_route (route r) = true -> (shared_route (route r) = true -> wants r = false) ->
  (publishers_route (route r) = true -> is_ok (window 50 r) = true) ->
  dispatch engine {| v2_enabled := true; v1_compat_enabled := v1; auth_enabled := auth |} r =
  dispatch engine' {| v2_enabled := false; v1_compat_enabled := v1; auth_enabled := auth' |} r /\
  catalogue_result (dispatch engine' {| v2_enabled := false; v1_compat_enabled := v1; auth_enabled := auth' |} r).
Proof.
  intros Hj Hw Hp. unfold Application.dispatch. pose proof (shared_v2_v1 engine r) as Hs.
  pose proof (shared_catalogue r) as Hsc. pose proof (legacy_catalogue r) as Hl.
  destruct (route r); try done; cbn [v2_enabled]; (split; [by apply Hs; [apply Hw | apply Hp] | done]).
Qed.

(** What the middleware does to a reply of the catalogue. *)
Lemma boundary_json r w x : json_route r = true -> (shared_route r = true -> w = false) ->
  vary_header x = None \/ vary_header x = Some "Origin" ->
  Some (v2_boundary (url_path r) w x) = disabled_representation (url_path r) w (Some x).
Proof.
  intros Hj Hw Hv. unfold v2_boundary, disabled_representation. destruct (json_paths r Hj) as (-> & -> & -> & _ & _).
  destruct (shared_route r); cbn [andb orb option_map]; [|done]. rewrite (Hw eq_refl). by destruct Hv as [-> | ->].
Qed.

(** The reply to a request that needs the database during an outage. *)
Definition outage (x : reply) : Prop :=
  status x = 503%Z /\ body_of x = Detail "Registry database unavailable" /\ cache_control x = Some "no-cache".

Lemma v1_boundary_outage path x : outage x -> outage (v1_boundary path x).
Proof. unfold v1_boundary. destruct (_ || _); [|done]. by intros (? & ? & _). Qed.

Lemma v2_boundary_outage path w x : outage x -> outage (v2_boundary path w x).
Proof.
  intros Hx. unfold v2_boundary. set (y := if _ && negb _ then _ else _).
  assert (outage y) as Hy by (unfold y; by destruct (_ && negb _)). destruct (_ || _ || _); [|done].
  by destruct Hy as (? & ? & _).
Qed.

Lemma outage_respond (a : Application) path w x : outage x -> (v2_enabled a = false -> shared_path path = false) ->
  exists y, (if v2_enabled a then option_map (v2_boundary path w) (if v1_compat_enabled a then option_map (v1_boundary path) (Some x) else Some x)
             else disabled_representation path w (if v1_compat_enabled a then option_map (v1_boundary path) (Some x) else Some x)) = Some y /\ outage y.
Proof.
  intros Hx Hs.
  assert (exists y, (if v1_compat_enabled a then option_map (v1_boundary path) (Some x) else Some x) = Some y /\ outage y) as (y & -> & Hy).
  { destruct (v1_compat_enabled a); [|by exists x]. eexists. split; [done | by apply v1_boundary_outage]. }
  destruct (v2_enabled a); [eexists; split; [done | by apply v2_boundary_outage]|].
  unfold disabled_representation. rewrite (Hs eq_refl). by exists y.
Qed.

(** The requests that the database answers. *)
Definition database_request (a : Application) (r : Request) : bool :=
  match route r with
  | RModules | RModule _ | RModuleVersions _ | RModuleVersion _ _ | RModuleChannels _ => v2_enabled a
  | RSearch | RPublishers | RPublisher _ => v2_enabled a && wants r
  | RReady => database_enabled a
  | RIndex | RModuleFile _ => v1_compat_enabled a
  | _ => false
  end.

Lemma dispatch_unavailable a r : database_request a r = true -> dispatch None a r = Err Unavailable /\ database_enabled a = true.
Proof.
  unfold database_request, Application.dispatch, database_enabled. intros H.
  destruct (route r) eqn:E; try done; try (by rewrite H, ?orb_true_r);
    try (apply andb_true_iff in H as [H Hw]); rewrite H; try done;
    unfold shared_v2, shared_service; rewrite E, Hw; done.
Qed.

Lemma json_no_database a r d : json_route (route r) = true -> database_request a r = false -> dispatch (Some d) a r = dispatch None a r.
Proof.
  unfold database_request, Application.dispatch. intros Hj Hd.
  destruct (route r) eqn:E; try done; (destruct (v2_enabled a); [|done]); cbn [andb] in Hd;
    unfold shared_v2, shared_service; by rewrite E, Hd.
Qed.

(** C21. Enabling the database API changes nothing for those who do not ask for
    it, and an outage of the database nothing for those who do not need it.  A
    request of the JSON API that does not prefer the media type of the database
    API (and whose window is valid, on the publisher routes, where the database API
    would check it) gets the same reply, headers included, when the CORS layer adds
    nothing, or Origin, to Vary, from the application with the database
    API, in any state of its database, as from the application without it.  An
    application whose database cannot be reached answers the requests that need
    it with 503 and the others as ever. *)
Theorem json_api_independent v1 auth auth' r d engine engine' :
  cors None = None \/ cors None = Some "Origin" ->
  (json_route (route r) = true -> (shared_route (route r) = true -> wants r = false) ->
   (publishers_route (route r) = true -> is_ok (window 50 r) = true) ->
   respond engine {| v2_enabled := true; v1_compat_enabled := v1; auth_enabled := auth |} r =
   respond engine' {| v2_enabled := false; v1_compat_enabled := v1; auth_enabled := auth' |} r) /\
  (forall a,
    (database_request a r = true -> exists x, respond None a r = Some x /\ outage x) /\
    (json_route (route r) = true -> database_request a r = false -> respond None a r = respond (Some d) a r)).
Proof.
  intros Hc. split; [|intros a; split].
  - intros Hj Hw Hp. unfold Application.respond. destruct (dispatch_json engine engine' v1 auth auth' r Hj Hw Hp) as [-> Hr].
    cbn [v1_compat_enabled v2_enabled].
    destruct (dispatch engine' _ r) as [x|e]; [|rewrite (handle_plain true false v1 auth auth') by done; destruct (handle _ e) as [x|] eqn:He].
    + destruct v1; cbn [option_map]; rewrite ?v1_boundary_json by done; apply boundary_json; [done | done | | done | done |]; by rewrite Hr.
    + destruct v1; cbn [option_map]; rewrite ?v1_boundary_json by done; apply boundary_json; [done | done | | done | done |];
        by rewrite (handle_vary _ _ _ He).
    + assert (shared_path (url_path (route r)) && wants r = false) as Hs.
      { destruct (json_paths _ Hj) as (_ & _ & -> & _). destruct (shared_route (route r)); [by rewrite Hw | done]. }
      destruct v1; cbn [option_map]; unfold disabled_representation; by rewrite Hs.
  - intros Hd. unfold Application.respond. destruct (dispatch_unavailable a r Hd) as [-> Ha]. cbn [handle]. rewrite Ha.
    cbn [option_map]. apply outage_respond; [done|]. intros Hv. unfold database_request in Hd.
    destruct (route r); try done; by rewrite Hv in Hd.
  - intros Hj Hd. unfold Application.respond. by rewrite (json_no_database a r d).
Qed.
End Independent.

(** ** Examples *)

Definition example_request (p : Route) (accepted : option string) (limit : param) : Request := {|
  route := p; accept := accepted; if_none_match := None; p_q := Some "core"; p_publisher := None; p_classification := None;
  p_channel := None; p_host := None; p_sdk := None; p_sort := None; p_limit := limit; p_offset := Absent |}.

Definition example_encoders : encoders := {|
  enc_modules := fun p => JInt (Z.of_nat (RegistryApi.total p)); enc_module := fun _ => JNull; enc_versions := fun _ => JNull;
  enc_version := fun _ => JNull; enc_channels := fun _ => JNull; enc_publishers := fun p => JInt (Z.of_nat (RegistryApi.total p));
  enc_publisher := fun _ => JNull |}.

Definition no_float (s : string) : option Q := if String.eqb s "0.5" then Some (1 # 2)%Q else None.

Definition example_respond (engine : option registry_db) (v2 v1_compat : bool) (r : Request) : option reply :=
  respond (fun _ _ => Some true) (fun _ => true) no_float (fun _ _ => true) (fun s => s) example_encoders (fun v => v)
    [example_core] engine {| v2_enabled := v2; v1_compat_enabled := v1_compat; auth_enabled := false |} r.

Example switches :
  create_app None None None (fun _ => None) = Ok {| v2_enabled := false; v1_compat_enabled := false; auth_enabled := false |} /\
  create_app (Some false) None None (fun _ => Some "TRUE") = Ok {| v2_enabled := false; v1_compat_enabled := true; auth_enabled := true |} /\
  create_app None (Some true) (Some true) (fun _ => Some "1") = Err (ValueError "PACKAGES_REGISTRY_V2_API_ENABLED must be true or false").
Proof. repeat split; vm_compute; reflexivity. Qed.

Definition status_and_vary (o : option reply) : option (Z * option string * option string) :=
  option_map (fun x => (status x, vary_header x, cache_control x)) o.

Example representations :
  status_and_vary (example_respond None true false (example_request RSearch None Absent)) = Some (200%Z, Some "Accept", None) /\
  status_and_vary (example_respond None true false (example_request RSearch (Some MEDIA_TYPE) Absent)) = Some (503%Z, Some "Accept", Some "no-cache") /\
  option_map body_of (example_respond (Some imported_db) true false (example_request RSearch (Some MEDIA_TYPE) Absent)) =
    Some (Text (Some (canonical_json (JInt 1)))) /\
  status_and_vary (example_respond (Some imported_db) false true (example_request RSearch (Some (MEDIA_TYPE +:+ ";q=0.5")) Absent)) =
    Some (406%Z, Some "Accept", Some "no-cache") /\
  status_and_vary (example_respond None false true (example_request RReady None Absent)) = Some (503%Z, None, Some "no-cache") /\
  status_and_vary (example_respond None false false (example_request RReady None Absent)) = Some (404%Z, None, None).
Proof. repeat split; vm_compute; reflexivity. Qed.

(** With the database API the legacy list of publishers refuses a window that it
    does not use. *)
Example publishers_window :
  option_map status (example_respond (Some imported_db) false false (example_request RPublishers None (Number 500))) = Some 200%Z /\
  option_map status (example_respond (Some imported_db) true false (example_request RPublishers None (Number 500))) = Some 422%Z.
Proof. split; vm_compute; reflexivity. Qed.

Lemma json_api_independent_witness :
  example_respond None true false (example_request RSearch None Absent) =
    example_respond (Some imported_db) false false (example_request RSearch None Absent) /\
  exists x, example_respond None true false (example_request RModules None Absent) = Some x /\ outage x.
Proof.
  pose proof (json_api_independent (fun _ _ => Some true) (fun _ => true) no_float (fun _ _ => true) (fun s => s) example_encoders
    (fun v => v) [example_core] false false false) as H.
  split.
  - destruct (H (example_request RSearch None Absent) empty_db None (Some imported_db) (or_introl eq_refl)) as [Hsame _].
    apply Hsame; [reflexivity | intros _; vm_compute; reflexivity | discriminate].
  - destruct (H (example_request RModules None Absent) empty_db None None (or_introl eq_refl)) as [_ Hout].
    destruct (Hout {| v2_enabled := true; v1_compat_enabled := false; auth_enabled := false |}) as [Hdown _].
    apply Hdown. reflexivity.
Defined.
