(* ===== verification/ApplicationChanges.v ===== *)
(** * Which pushes deploy the application: scripts/application_changes.py

    git is a parameter: what [git diff --name-only -z] of two commits prints, or
    [None] when it fails. *)

From S2P Require Import Prelude PyText SemVer Validate.

Open Scope string_scope.
Open Scope list_scope.

Definition RUNTIME_PREFIXES : list string := ["web/"; "deploy/"; "scripts/"; "schema/"; "config/"].
Definition RUNTIME_FILES : list string :=
  ["pyproject.toml"; "uv.lock"; ".python-version"; ".node-version"; ".github/workflows/registry.yml"].

Definition application_deploy_required (paths : list string) : bool :=
  existsb (fun path => mem path RUNTIME_FILES || existsb (fun prefix => startswith prefix path) RUNTIME_PREFIXES) paths.

(** [[0-9a-f]{40}] *)
Definition REF_RE : re := rep 40 (Cls is_hex).
Definition NO_COMMIT : string := String.string_of_list_ascii (repeat "0"%char 40).

Inductive changes_exn := InvalidRef | GitFailed | UndecodableOutput.

(** What is printed after [deploy=]. *)
Definition deploy (git_diff : string -> string -> option string) (before after : string) : res changes_exn bool :=
  raise_if (negb (fullmatch REF_RE before && fullmatch REF_RE after)) InvalidRef ;?
  if String.eqb before NO_COMMIT then Ok true
  else
    let? output := of_option GitFailed (git_diff before after) in
    let? text := of_option UndecodableOutput (utf8_decode output) in
    Ok (application_deploy_required (split_on "000" text)).

(** The output of [-z]: every path, and a zero byte after it. *)
Definition terminated (paths : list string) : string := foldr (fun p s => p +:+ String "000" s) "" paths.

Definition runtime_path (path : string) : Prop := path ∈ RUNTIME_FILES \/ exists prefix, prefix ∈ RUNTIME_PREFIXES /\ startswith prefix path = true.

Lemma deploy_required paths : application_deploy_required paths = true <-> exists p, p ∈ paths /\ runtime_path p.
Proof.
  unfold application_deploy_required, runtime_path. rewrite existsb_exists.
  apply exist_proper. intros p. by rewrite orb_true_iff, mem_true, existsb_exists, <- list_elem_of_In; setoid_rewrite <- list_elem_of_In.
Qed.

Lemma split_terminated paths : Forall (free_of "000") paths -> split_on "000" (terminated paths) = paths ++ [""].
Proof.
  induction 1 as [|p paths Hp _ IH]; [done|]. cbn [terminated foldr]. rewrite split_on_app by done.
  cbn [app]. f_equal. exact IH.
Qed.

Lemma not_runtime_empty : ~ runtime_path "".
Proof.
  intros [H|(p & Hp & H)]; [by apply mem_true in H|]. unfold RUNTIME_PREFIXES in Hp.
  rewrite !elem_of_cons, elem_of_nil in Hp. by destruct Hp as [->|[->|[->|[->|[->|[]]]]]].
Qed.

(** Between two commits the application is deployed exactly when a changed path,
    old or new, belongs to what runs; the first push of a branch always deploys. *)
Theorem deploy_exact git_diff before after paths :
  fullmatch REF_RE before = true -> fullmatch REF_RE after = true ->
  git_diff before after = Some (utf8_encode (terminated paths)) -> Forall (free_of "000") paths ->
  exists b, deploy git_diff before after = Ok b /\
    (b = true <-> before = NO_COMMIT \/ exists p, p ∈ paths /\ runtime_path p).
Proof.
  intros Hb Ha Hg Hp. unfold deploy. rewrite Hb, Ha. cbn [andb negb raise_if res_bind].
  destruct (String.eqb_spec before NO_COMMIT) as [->|Hn]; [exists true; split; [done | by split; [left|]]|].
  rewrite Hg. cbn [of_option res_bind]. rewrite utf8_round_trip. cbn [of_option res_bind]. rewrite split_terminated by done.
  eexists. split; [done|]. rewrite deploy_required. split.
  - intros (p & [Hin|Hin]%elem_of_app & Hr); [right; by exists p|]. apply list_elem_of_singleton in Hin as ->. by apply not_runtime_empty in Hr.
  - intros [?|(p & Hin & Hr)]; [done|]. exists p. by rewrite elem_of_app; auto.
Qed.

Definition example_sha : string := String.string_of_list_ascii (repeat "a"%char 40).

Example deploys :
  deploy (fun _ _ => Some (terminated ["docs/a.md"; "registry/modules/core.json"])) example_sha example_sha = Ok false /\
  deploy (fun _ _ => Some (terminated ["docs/a.md"; "web/old.py"])) example_sha example_sha = Ok true /\
  deploy (fun _ _ => None) NO_COMMIT example_sha = Ok true /\
  deploy (fun _ _ => None) "main" example_sha = Err InvalidRef.
Proof. repeat split; vm_compute; reflexivity. Qed.
